(* ===== verification/_CoqProject ===== *)
-Q . S2P
Prelude.v
NetBuf.v
Epoch.v
TdfDiffs.v
Tdf.v
TdfWire.v
TdfEncode.v
TdfDecode.v
TdfRoundtrip.v
TdfParser.v
TdfSpec.v
DataLogger.v
DataLoggerSpec.v
DataLoggerInit.v
FlashMap.v
DataLoggerRam.v
DataLoggerProps.v
TdfLogger.v
TdfLoggerSpec.v
TdfLoggerProps.v
Hamming.v
MathCommon.v
Statistics.v
Filter.v
States.v
Schedule.v
KvStore.v
TaskRunner.v
TaskRunnerSpec.v
TaskRunnerProps.v
CPatch.v
CPatchSpec.v
CPatchProps.v
EPacketSerial.v
EPacketKeys.v
EPacketCrypt.v
EPacketCryptProps.v
EPacketLink.v
AutoIterate.v
AsconWord.v
Ascon.v
AsconSpec.v
AsconRefine.v
AsconArm.v
AsconArmAead.v
AsconArmRefine.v
AsconProps.v
SecureStorage.v
EPacketCore.v
EPacketCoreProps.v
RpcServer.v
RpcServerProps.v
RpcClient.v
RpcClientProps.v
RpcTransfer.v
RpcLogger.v
RpcLoggerProps.v
RpcFileWrite.v
RpcFileWriteProps.v
RpcFileInstall.v
RpcCommands.v
RpcCommandsProps.v
RpcStatesProps.v
