(* ===== verification/Prelude.v ===== *)
(** * Verification of the Infuse-IoT SDK

    The SDK is C firmware for battery powered telemetry devices.  Measurements are packed
    into tagged data (TDF) in memory blocks; full blocks go to a data logger on flash, or
    leave the device as encrypted ePackets.  A task runner starts and stops measurement
    tasks from schedules that are kept in a key-value store, depending on application
    states, time and battery.  Devices are queried and controlled by remote procedure
    calls (RPC), which also move bulk data in packets that are acknowledged.  Firmware is
    updated with binary patches.

    ** How the code is modelled

    A C function is a Rocq function with the same name.  Integers are [Z], and every
    conversion to a fixed width is written out ([u8] to [u64], [s16] to [s64]: [uwrap],
    [swrap]).  Bytes are [Z] in a list; static variables and structs are records passed
    along.  [exec] is the result of code that can go wrong: [Done], [Fault] (an access
    outside an object, an uninitialised value or a failed assertion) or [NoFuel].
    Loops are [for_loop], structural, or carry fuel; a theorem about code with fuel says
    that the code returns, not only what it returns if it does.
    Zephyr and PSA functions are not part of the repository: they are type classes with
    their documented behaviour as laws ([NetBufApi], [BlockBackend], [FlashArea],
    [NvsApi], [PatchApi], [TimeUtil], [PsaKeys], [PsaAead], [UartApi], [Crc32]), with implementations in
    memory on which the witnesses of the theorems are evaluated.

    ** Files

    - [NetBuf]: Zephyr's [net_buf_simple], and its contents as a list.
    - [Epoch]: [include/infuse/time/epoch.h], the time conversions.
    - [TdfDiffs], [Tdf]: [subsys/tdf/diffs.c] and [subsys/tdf/tdf.c].  [TdfWire] is the
      wire format; [TdfEncode] and [TdfDecode] show that the code produces and accepts it;
      [TdfRoundtrip], [TdfParser] and [TdfSpec] put them together: what is logged is what
      is parsed, the parser is safe on any bytes, and the buffer overflows in one case only.
    - [DataLogger]: [subsys/data_logger/data_logger.c]; [FlashMap] is the backend
      [backends/flash_map.c].  [DataLoggerSpec], [DataLoggerInit], [DataLoggerRam] and
      [DataLoggerProps] show that blocks are written, read, erased and found again after a
      reset as an abstract log of blocks, also through the RAM buffer.
    - [TdfLogger], [TdfLoggerSpec], [TdfLoggerProps]: [high_level/tdf_data_logger.c], from
      a logged measurement to blocks on the device, and recovery of a retained buffer.
    - [Hamming], [MathCommon], [Statistics], [Filter]: [lib/math].
    - [States]: [lib/states/application_states.c], refined to a map from states to
      remaining seconds.
    - [Schedule]: [subsys/task_runner/schedule.c], when a schedule starts and ends.
    - [KvStore]: [subsys/fs/kv_store] over NVS, refined to a finite map; reflection of
      checksums, also of the values that a write without data removes unnoticed.
    - [TaskRunner], [TaskRunnerSpec], [TaskRunnerProps]: [subsys/task_runner/runner.c].
      From initialisation on, through iterations, task exits and schedule updates, tasks and
      schedules stay consistent and iterations complete, with the one exception that is a
      theorem of its own; what an iteration does to every schedule; timeouts; reloading.
    - [AutoIterate]: [subsys/task_runner/auto_iterate.c] and the reference instant of
      [lib/time/epoch.c]: states, clock and runner together, with other users of the
      states between the runs of the worker.
    - [CPatch], [CPatchSpec], [CPatchProps]: [subsys/cpatch/patch.c].  The instructions of
      a patch have a meaning and an encoding; the interpreter computes the meaning, ends on
      every input, and only reports success on the announced image.
    - [EPacketKeys]: [subsys/epacket/keys.c] and the key derivation of
      [lib/security/security.c]: the cache returns the key of the request or none.
    - [EPacketCrypt], [EPacketCryptProps]: [epacket_common_crypt.c].  Decryption accepts
      what the key of the frame authenticates and leaves anything else as it was; a packet
      encrypted on one device is recovered on another with the same root key.
    - [EPacketSerial]: [epacket_serial_crypt.c], the frames on a serial line, refined to a
      machine on single bytes.
    - [EPacketLink]: [epacket_serial_async.c], the transmit queue over a UART driver whose
      completions interrupt the sender anywhere between its two accesses to the queue, and
      the link as a whole, from the payload on one device to the payload on the other.
    - [AsconWord], [Ascon]: the reference implementations of the three Ascon ciphers in
      [lib/crypto/ascon]; [AsconArm], [AsconArmAead]: the ARMv7-M ones, their rounds as
      programs of instructions.  [AsconSpec] is the cipher as a function on byte strings;
      [AsconRefine], [AsconArmRefine] and [AsconProps] show that every implementation
      computes it and that decryption accepts what encryption produces.
    - [SecureStorage]: [subsys/fs/secure_storage], refined to a map from identifiers to
      values with flags, across restarts.
    - [EPacketCore], [EPacketCoreProps]: [subsys/epacket/epacket.c] and [handlers.c], from
      the bytes of a packet to its handler, with the forwarding of [forwarding.c] to a
      device that is connected and the reception of [epacket_hci.c] and [epacket_dummy.c]:
      what reaches the RPC server was authenticated, and what a gateway forwards arrives
      once and in order.
    - [RpcServer], [RpcServerProps]: [subsys/rpc/server.c], the generated command runner and
      the commands that move bulk data: every request has one answer, and a transfer in
      order is received completely.
    - [RpcClient], [RpcClientProps]: [subsys/rpc/client.c]: every command has one callback,
      except in two cases that are theorems of their own.
    - [RpcTransfer]: client and server together: an upload completes in every interleaving
      of packets and acknowledgements.
    - [RpcLogger], [RpcLoggerProps]: the commands on the data logger: a remote read sends
      the bytes that were logged.
    - [RpcFileWrite]: the commands that write files, [common_file_actions.c] and
      [subsys/dfu/dfu_helpers.c], over the flash areas and the interpreter of [CPatch],
      for a build with the bootloader and patches, and without a file system.
      [RpcFileWriteProps]: the bootloader is only asked to install what was validated,
      whatever fails; [RpcFileInstall]: an image that arrives in order is installed, and
      what goes wrong on a flash that fails.
    - [RpcCommands], [RpcCommandsProps], [RpcStatesProps]: the commands on the key-value
      store, the states and the clock: what is written from remote is read from remote, and
      checksums and states are reported completely, page by page.

    ** Bounds and fuel

    Loops over arrays run over the array.  The serial parser gets one unit of fuel per
    byte received, the TDF parser loops one more than the bytes of their buffer, the RAM
    buffer flush and the flash reset one per byte left, the binary search of the data
    logger 33 (a 32 bit range is halved each time), the loop over loggers 9 (8 loggers).
    The fuel of the patch interpreter is an argument: [cpatch_terminates] shows that 2^26
    more than the patch area is enough, for operands of 2^32 bytes in chunks of 64.  The
    fuel of [log_locked] is an argument too: the logging theorems provide enough of it,
    and [idx_array_livelock] is the case in which none is.  The block loops of the ciphers
    get their length as fuel and the loop over rounds 12; the receiving loop of the server
    two more than the packets in its queue; the sending loops, those of the logger
    included, one more than the bytes to send, as an argument; the loop over a word of
    states 33.  The loop that erases a slot gets one more than its bytes, the loop that
    receives a file two more than the packets in its queue.  The upload of the client is a
    step relation with a measure, without fuel.  Serial packets are bounded by 2048 bytes,
    so that the 16 bit index of the parser does not wrap.

    ** Not modelled

    Device drivers, Bluetooth, networking, reboot and the validation images: they are
    sequences of calls to hardware and protocol stacks whose behaviour is not in the
    repository.  Floating point code (geodesy, conversions of sensor readings).  Of the
    ePacket core, the processor threads, the thread that connects to a device to forward
    to it and the forwarding filter; of the RPC commands, those that query hardware, radios
    or threads, downloads and copies of files, and of the commands that write files the
    branches for a file system, for Bluetooth controllers and for modems.  The
    Xoodyak code and the accelerator driver in [lib/crypto].  Preemption is modelled where
    an interrupt and a thread share data (the transmit queue of [EPacketLink], the timeouts
    of [RpcClient]); elsewhere operations run under the locks of the source and are single
    steps.  Where the code reads a header of a packet that is too short for it, the bytes
    behind the packet are an argument.

    ** This file

    Machine integers, the [exec] monad and its loops, byte lists, little endian numbers,
    and the tactics and lemmas on them that the other files share. *)

From stdpp Require Import base tactics numbers list.
From Stdlib Require Import ZArith Lia.

Declare Scope infuse_scope.
Delimit Scope infuse_scope with infuse.

Local Open Scope Z_scope.

(** ** Machine integers

    A C integer of width [w] is a [Z]; the conversion to an unsigned or signed
    type of that width is written out wherever the source performs it. *)

Definition uwrap (w z : Z) : Z := z mod 2 ^ w.
Definition swrap (w z : Z) : Z := (z + 2 ^ (w - 1)) mod 2 ^ w - 2 ^ (w - 1).

Abbreviation u8 := (uwrap 8).
Abbreviation u16 := (uwrap 16).
Abbreviation u32 := (uwrap 32).
Abbreviation u64 := (uwrap 64).
Abbreviation s8 := (swrap 8).
Abbreviation s16 := (swrap 16).
Abbreviation s32 := (swrap 32).
Abbreviation s64 := (swrap 64).

Definition in_u (w z : Z) : Prop := 0 <= z < 2 ^ w.
Definition in_s (w z : Z) : Prop := - 2 ^ (w - 1) <= z < 2 ^ (w - 1).

Definition UINT8_MAX : Z := 255.
Definition UINT16_MAX : Z := 65535.
Definition UINT32_MAX : Z := 4294967295.

(** Zephyr's [IN_RANGE] and [MIN] macros. *)
Definition IN_RANGE (v lo hi : Z) : bool := (lo <=? v) && (v <=? hi).

(** Errno values of the C library. *)
Definition ENOENT : Z := 2.
Definition EIO : Z := 5.
Definition EAGAIN : Z := 11.
Definition ENOMEM : Z := 12.
Definition EBUSY : Z := 16.
Definition ENODEV : Z := 19.
Definition EINVAL : Z := 22.
Definition ENOSPC : Z := 28.
Definition ENOSYS : Z := 88.
Definition ENOTCONN : Z := 128.
Definition ENOTSUP : Z := 134.
Definition EALREADY : Z := 120.

(** ** Results

    [Done a] is a normal return.  [Fault] is undefined behaviour or a failed
    assertion of the callee (a buffer operation past the end of its storage).
    [NoFuel] is a loop that did not finish within the fuel given. *)

Inductive exec (A : Type) : Type :=
| Done (a : A)
| Fault
| NoFuel.
Arguments Done {A} a.
Arguments Fault {A}.
Arguments NoFuel {A}.

Definition exec_bind {A B} (m : exec A) (k : A -> exec B) : exec B :=
  match m with
  | Done a => k a
  | Fault => Fault
  | NoFuel => NoFuel
  end.

Notation "'let!' x ':=' e 'in' k" := (exec_bind e (fun x => k))
  (at level 10, x pattern, e at level 200, k at level 200)
  : infuse_scope.

Lemma exec_bind_Done {A B} (m : exec A) (k : A -> exec B) b :
  exec_bind m k = Done b <-> exists a, m = Done a /\ k a = Done b.
Proof.
  split.
  - destruct m; simpl; intros; try discriminate; eauto.
  - intros (a & -> & Hk). exact Hk.
Qed.

(** [for (k = i; k < i + n; k++)] over a state. *)
Fixpoint for_loop {T} (n i : nat) (body : nat -> T -> exec T) (s : T) : exec T :=
  match n with
  | O => Done s
  | S n => exec_bind (body i s) (for_loop n (i + 1) body)
  end.

(** A loop whose body never fails and keeps an invariant, indexed by the iteration. *)
Lemma for_loop_inv {T} (P : nat -> T -> Prop) n i body s :
  P i s ->
  (forall k s, (i <= k < i + n)%nat -> P k s -> exists s', body k s = Done s' /\ P (k + 1)%nat s') ->
  exists s', for_loop n i body s = Done s' /\ P (i + n)%nat s'.
Proof.
  revert i s. induction n as [|n IH]; intros i s Hs Hb.
  { exists s. by rewrite Nat.add_0_r. }
  cbn [for_loop]. destruct (Hb i s ltac:(lia) Hs) as (s1 & -> & H1). cbn [exec_bind].
  destruct (IH (i + 1)%nat s1 H1) as (s2 & -> & H2).
  - intros k s' Hk. apply Hb. lia.
  - exists s2. split; [done|]. by replace (i + S n)%nat with (i + 1 + n)%nat by lia.
Qed.

(** ** Bytes *)

Definition byte_ok (b : Z) : Prop := 0 <= b < 256.
Definition bytes_ok (l : list Z) : Prop := Forall byte_ok l.

(** Length of a list as a [Z], as C sizes are. *)
Definition zlen {A} (l : list A) : Z := Z.of_nat (length l).
(** [zslice l off n]: the [n] elements from offset [off] (fewer past the end). *)
Definition ztake {A} (n : Z) (l : list A) : list A := take (Z.to_nat n) l.
Definition zdrop {A} (n : Z) (l : list A) : list A := drop (Z.to_nat n) l.

(** Little-endian representation of an [n] byte integer. *)
Fixpoint le_put (n : nat) (z : Z) : list Z :=
  match n with
  | O => []
  | S n => z mod 256 :: le_put n (z / 256)
  end.

Fixpoint le_get (l : list Z) : Z :=
  match l with
  | [] => 0
  | b :: l => b + 256 * le_get l
  end.

(** Write [bs] over the elements of [l] from offset [off]. *)
Definition zwrite {A} (off : Z) (bs l : list A) : list A :=
  ztake off l ++ bs ++ zdrop (off + zlen bs) l.

(** ** Tactics *)

(** Splits the first [if]/[match] of a hypothesis or of the goal, keeping the
    equation, and drops the impossible branches. *)
Ltac split_match_in H :=
  match type of H with
  | context [match ?e with _ => _ end] =>
      lazymatch e with
      | context [match _ with _ => _ end] => fail
      | _ => let E := fresh "E" in destruct e eqn:E; try discriminate H
      end
  end.

Ltac split_match :=
  match goal with
  | |- context [match ?e with _ => _ end] =>
      lazymatch e with
      | context [match _ with _ => _ end] => fail
      | _ => let E := fresh "E" in destruct e eqn:E; try discriminate
      end
  end.

(** Inverts [Done]-chains of [exec_bind] in a hypothesis. *)
Ltac inv_exec H :=
  repeat match type of H with
  | exec_bind _ _ = Done _ =>
      let a := fresh "r" in let Ha := fresh "Hr" in
      apply exec_bind_Done in H; destruct H as (a & Ha & H)
  end.

(** Runs the loop of the goal with an invariant; [s'] is the state after it. *)
Tactic Notation "run_loop" constr(P) "as" ident(s') ident(H) :=
  lazymatch goal with
  | |- context [for_loop ?n ?i ?b ?s] => destruct (for_loop_inv P n i b s) as (s' & -> & H)
  end.

(** ** Machine integer lemmas *)

Lemma uwrap_bound w z : 0 <= w -> 0 <= uwrap w z < 2 ^ w.
Proof. intros. apply Z.mod_pos_bound. apply Z.pow_pos_nonneg; lia. Qed.

Lemma uwrap_small w z : 0 <= z < 2 ^ w -> uwrap w z = z.
Proof. apply Z.mod_small. Qed.

Lemma swrap_bound w z : 0 < w -> - 2 ^ (w - 1) <= swrap w z < 2 ^ (w - 1).
Proof.
  intros. unfold swrap.
  pose proof (Z.mod_pos_bound (z + 2 ^ (w - 1)) (2 ^ w) ltac:(apply Z.pow_pos_nonneg; lia)).
  replace (2 ^ w) with (2 * 2 ^ (w - 1)) in * by
    (rewrite <- Z.pow_succ_r by lia; f_equal; lia).
  lia.
Qed.

Lemma swrap_small w z : 0 < w -> in_s w z -> swrap w z = z.
Proof.
  unfold in_s, swrap. intros. rewrite Z.mod_small; [lia|].
  replace (2 ^ w) with (2 * 2 ^ (w - 1)) by
    (rewrite <- Z.pow_succ_r by lia; f_equal; lia).
  lia.
Qed.

Lemma uwrap_add_idemp_l w a b : uwrap w (uwrap w a + b) = uwrap w (a + b).
Proof. apply Zplus_mod_idemp_l. Qed.

Lemma uwrap_add_idemp_r w a b : uwrap w (a + uwrap w b) = uwrap w (a + b).
Proof. apply Zplus_mod_idemp_r. Qed.

(** Converting a signed value back to the unsigned type of its width loses
    nothing. *)
Lemma uwrap_swrap w z : 0 < w -> uwrap w (swrap w z) = uwrap w z.
Proof.
  intros. unfold uwrap, swrap.
  rewrite Zminus_mod_idemp_l. f_equal. lia.
Qed.

Lemma swrap_uwrap w z : 0 < w -> swrap w (uwrap w z) = swrap w z.
Proof.
  intros. unfold uwrap, swrap.
  rewrite Zplus_mod_idemp_l. reflexivity.
Qed.

(** ** Bit fields *)

Lemma testbit_above n b k : 0 <= b < 2 ^ n -> 0 <= n <= k -> Z.testbit b k = false.
Proof.
  intros Hb Hk. destruct (Z.eq_dec b 0) as [->|]; [apply Z.bits_0|].
  apply Z.bits_above_log2; [lia|]. apply Z.log2_lt_pow2; [lia|].
  apply Z.lt_le_trans with (2 ^ n); [lia|]. apply Z.pow_le_mono_r; lia.
Qed.

(** A field of [n] bits below a shifted value is their sum. *)
Lemma lor_shiftl_add a b n :
  0 <= n -> 0 <= b < 2 ^ n -> Z.lor (Z.shiftl a n) b = a * 2 ^ n + b.
Proof.
  intros Hn Hb. pose proof (Z.add_lor_land (Z.shiftl a n) b) as Hs.
  assert (Z.land (Z.shiftl a n) b = 0) as Hl.
  { apply Z.bits_inj'. intros k Hk. rewrite Z.land_spec, Z.bits_0.
    destruct (Z.ltb_spec k n).
    - by rewrite Z.shiftl_spec_low by lia.
    - rewrite (testbit_above n b) by lia. apply andb_false_r. }
  rewrite Z.shiftl_mul_pow2 in * by lia. lia.
Qed.

Lemma land_ones_mod a n : 0 <= n -> Z.land a (2 ^ n - 1) = a mod 2 ^ n.
Proof. intros. rewrite <- Z.land_ones, Z.ones_equiv by lia. f_equal. Qed.

(** ** List lemmas *)

Section lists.
Context {A : Type}.
Implicit Types l k : list A.

Lemma zlen_nonneg l : 0 <= zlen l.
Proof. unfold zlen. lia. Qed.

Lemma zlen_app l k : zlen (l ++ k) = zlen l + zlen k.
Proof. unfold zlen. rewrite length_app. lia. Qed.

Lemma zlen_nil : zlen (@nil A) = 0.
Proof. reflexivity. Qed.

Lemma zlen_cons x l : zlen (x :: l) = 1 + zlen l.
Proof. unfold zlen. simpl. lia. Qed.

Lemma zlen_ztake n l : 0 <= n <= zlen l -> zlen (ztake n l) = n.
Proof. unfold zlen, ztake. rewrite length_take. lia. Qed.

Lemma zlen_zdrop n l : 0 <= n <= zlen l -> zlen (zdrop n l) = zlen l - n.
Proof. unfold zlen, zdrop. rewrite length_drop. lia. Qed.

Lemma ztake_zdrop n l : ztake n l ++ zdrop n l = l.
Proof. apply take_drop. Qed.

Lemma ztake_app n l k : n = zlen l -> ztake n (l ++ k) = l.
Proof. intros ->. unfold ztake, zlen. rewrite Nat2Z.id. apply take_app_length. Qed.

Lemma zdrop_app n l k : n = zlen l -> zdrop n (l ++ k) = k.
Proof. intros ->. unfold zdrop, zlen. rewrite Nat2Z.id. apply drop_app_length. Qed.

Lemma ztake_app_le n l k : n <= zlen l -> ztake n (l ++ k) = ztake n l.
Proof. unfold ztake, zlen. intros. apply take_app_le. lia. Qed.

Lemma ztake_app_ge n l k :
  zlen l <= n -> ztake n (l ++ k) = l ++ ztake (n - zlen l) k.
Proof.
  unfold ztake, zlen. intros. rewrite take_app_ge by lia.
  do 2 f_equal. lia.
Qed.

Lemma zdrop_app_le n l k : n <= zlen l -> zdrop n (l ++ k) = zdrop n l ++ k.
Proof. unfold zdrop, zlen. intros. apply drop_app_le. lia. Qed.

Lemma zdrop_app_ge n l k : zlen l <= n -> zdrop n (l ++ k) = zdrop (n - zlen l) k.
Proof. unfold zdrop, zlen. intros. rewrite drop_app_ge by lia. f_equal. lia. Qed.

Lemma ztake_ge n l : zlen l <= n -> ztake n l = l.
Proof. unfold ztake, zlen. intros. apply take_ge. lia. Qed.

Lemma zdrop_ge n l : zlen l <= n -> zdrop n l = [].
Proof. unfold zdrop, zlen. intros. apply drop_ge. lia. Qed.

Lemma zdrop_zdrop n m l : 0 <= n -> 0 <= m -> zdrop n (zdrop m l) = zdrop (m + n) l.
Proof. unfold zdrop. intros. rewrite drop_drop. f_equal. lia. Qed.

Lemma ztake_ztake n m l : ztake n (ztake m l) = ztake (Z.min n m) l.
Proof. unfold ztake. rewrite take_take. f_equal. lia. Qed.

Lemma ztake_0 n l : n <= 0 -> ztake n l = [].
Proof. intros. unfold ztake. replace (Z.to_nat n) with O by lia. reflexivity. Qed.

Lemma zdrop_0 n l : n <= 0 -> zdrop n l = l.
Proof. intros. unfold zdrop. replace (Z.to_nat n) with O by lia. reflexivity. Qed.

Lemma zdrop_ztake n m l : 0 <= n <= m -> zdrop n (ztake m l) = ztake (m - n) (zdrop n l).
Proof.
  unfold zdrop, ztake. intros. rewrite skipn_firstn_comm. f_equal. lia.
Qed.

Lemma zwrite_at off a bs l :
  off = zlen a -> zwrite off bs (a ++ l) = a ++ bs ++ zdrop (zlen bs) l.
Proof.
  intros ->. unfold zwrite. rewrite ztake_app by reflexivity. do 2 f_equal.
  rewrite zdrop_app_ge by (unfold zlen; lia). f_equal. lia.
Qed.

Lemma zdrop_1_cons x l : zdrop 1 (x :: l) = l.
Proof. reflexivity. Qed.

Lemma zlen_zwrite off bs l :
  0 <= off -> off + zlen bs <= zlen l -> zlen (zwrite off bs l) = zlen l.
Proof.
  intros. pose proof (zlen_nonneg bs). unfold zwrite. rewrite !zlen_app.
  rewrite zlen_ztake, zlen_zdrop by lia. lia.
Qed.
End lists.

(** ** Little-endian lemmas *)

Lemma length_le_put n z : length (le_put n z) = n.
Proof. revert z. induction n; intros; simpl; auto. Qed.

Lemma zlen_le_put n z : zlen (le_put n z) = Z.of_nat n.
Proof. unfold zlen. by rewrite length_le_put. Qed.

Lemma le_put_bytes_ok n z : bytes_ok (le_put n z).
Proof.
  revert z. induction n as [|n IH]; intros z; constructor; [|apply IH].
  apply Z.mod_pos_bound. lia.
Qed.

Lemma le_get_put n z : le_get (le_put n z) = z mod 2 ^ (8 * Z.of_nat n).
Proof.
  revert z. induction n; intros z; cbn [le_put le_get].
  - by rewrite Z.mod_1_r.
  - rewrite IHn.
    replace (2 ^ (8 * Z.of_nat (S n))) with (256 * 2 ^ (8 * Z.of_nat n)).
    + rewrite Z.rem_mul_r; [lia|lia|apply Z.pow_pos_nonneg; lia].
    + change 256 with (2 ^ 8). rewrite <- Z.pow_add_r by lia. f_equal. lia.
Qed.

Lemma le_get_bound l : bytes_ok l -> 0 <= le_get l < 2 ^ (8 * zlen l).
Proof.
  induction 1 as [|b l Hb Hl IH]; [done|].
  cbn [le_get]. rewrite zlen_cons.
  replace (8 * (1 + zlen l)) with (8 + 8 * zlen l) by lia.
  rewrite Z.pow_add_r by (pose proof (zlen_nonneg l); lia).
  change (2 ^ 8) with 256. unfold byte_ok in Hb. nia.
Qed.

Lemma le_put_get l : bytes_ok l -> le_put (length l) (le_get l) = l.
Proof.
  induction 1 as [|b l Hb Hl IH]; [done|].
  cbn [le_get length le_put]. unfold byte_ok in Hb.
  rewrite (Z.mul_comm 256).
  rewrite Z.mod_add, Z.div_add by lia.
  rewrite Z.mod_small, Z.div_small by lia. by rewrite Z.add_0_l, IH.
Qed.

Lemma le_put_mod n z : le_put n (z mod 2 ^ (8 * Z.of_nat n)) = le_put n z.
Proof.
  rewrite <- le_get_put. rewrite <- (length_le_put n z) at 1.
  apply le_put_get, le_put_bytes_ok.
Qed.

Lemma bytes_ok_app l k : bytes_ok (l ++ k) <-> bytes_ok l /\ bytes_ok k.
Proof. apply Forall_app. Qed.

Lemma bytes_ok_ztake n l : bytes_ok l -> bytes_ok (ztake n l).
Proof. apply Forall_take. Qed.

Lemma bytes_ok_zdrop n l : bytes_ok l -> bytes_ok (zdrop n l).
Proof. apply Forall_drop. Qed.

(** ** Hint databases *)

Create HintDb infuse.
Create Rewrite HintDb zlen.
#[export] Hint Resolve zlen_nonneg le_put_bytes_ok bytes_ok_ztake bytes_ok_zdrop : infuse.
#[export] Hint Rewrite @zlen_app @zlen_nil @zlen_cons zlen_le_put : zlen.

(** Computes the length of a list expression and leaves the side conditions to [lia]. *)
Ltac zlen_solve :=
  autorewrite with zlen in *;
  repeat first
    [ rewrite zlen_ztake in * by (autorewrite with zlen in *; lia)
    | rewrite zlen_zdrop in * by (autorewrite with zlen in *; lia) ];
  lia.
