(* ===== verification/NetBuf.v ===== *)
(** * Zephyr's [struct net_buf_simple]

    The SDK builds every packet and log block in a Zephyr [net_buf_simple].
    That code lives in the Zephyr tree, not in this repository, so it enters the
    development as an interface: [NetBufApi] lists the functions the SDK calls,
    [NetBufSpec] their documented behaviour.  The structure itself is public and
    the SDK reads and writes its fields ([len], [size], [data], [__buf]), so it is
    a record.  Everything that uses a buffer is stated for any implementation
    that meets [NetBufSpec]; [zephyr_net_buf] is one, used by the witnesses. *)

From stdpp Require Import base tactics numbers list.
From Stdlib Require Import ZArith Lia.
From S2P Require Import Prelude.

Local Open Scope Z_scope.
Local Open Scope infuse_scope.

Record net_buf_simple := NetBuf {
  nb_mem : list Z;   (* the bytes __buf points to *)
  nb_data : Z;       (* data - __buf *)
  nb_len : Z;
  nb_size : Z;
}.

Definition nb_wf (b : net_buf_simple) : Prop :=
  0 <= nb_data b /\ 0 <= nb_len b /\ nb_data b + nb_len b <= nb_size b /\
  nb_size b <= zlen (nb_mem b).

(** Bytes between [data] and [data + len]. *)
Definition nb_contents (b : net_buf_simple) : list Z :=
  ztake (nb_len b) (zdrop (nb_data b) (nb_mem b)).

(** Free bytes after the contents. *)
Definition nb_room (b : net_buf_simple) : Z := nb_size b - nb_data b - nb_len b.

Definition nb_set_size (b : net_buf_simple) (size : Z) : net_buf_simple :=
  NetBuf (nb_mem b) (nb_data b) (nb_len b) size.

(** Stores and loads through a pointer into the buffer (an offset from [__buf]). *)
Definition nb_store (b : net_buf_simple) (ptr : Z) (bs : list Z) : net_buf_simple :=
  NetBuf (zwrite ptr bs (nb_mem b)) (nb_data b) (nb_len b) (nb_size b).

Definition nb_load (b : net_buf_simple) (ptr n : Z) : list Z :=
  ztake n (zdrop ptr (nb_mem b)).

(** The functions of [zephyr/net_buf.h] the SDK calls.  A returned pointer is an
    offset from [__buf]. *)
Class NetBufApi := {
  net_buf_simple_tailroom : net_buf_simple -> Z;
  net_buf_simple_add : net_buf_simple -> Z -> net_buf_simple * Z;
  net_buf_simple_add_mem : net_buf_simple -> list Z -> net_buf_simple;
  net_buf_simple_push : net_buf_simple -> Z -> net_buf_simple;
  net_buf_simple_pull_mem : net_buf_simple -> Z -> net_buf_simple * Z;
  net_buf_simple_remove_mem : net_buf_simple -> Z -> net_buf_simple * Z;
  net_buf_simple_reset : net_buf_simple -> net_buf_simple;
  net_buf_simple_reserve : net_buf_simple -> Z -> net_buf_simple;
  net_buf_simple_init_with_data : list Z -> Z -> net_buf_simple;
}.

(** Documented behaviour.  Each function asserts that the bytes it consumes are
    there; nothing is promised otherwise. *)
Class NetBufSpec `{NetBufApi} : Prop := {
  tailroom_spec b : nb_wf b -> net_buf_simple_tailroom b = nb_room b;
  add_spec b n : nb_wf b -> 0 <= n <= nb_room b ->
    net_buf_simple_add b n =
      (NetBuf (nb_mem b) (nb_data b) (nb_len b + n) (nb_size b), nb_data b + nb_len b);
  add_mem_spec b bs : nb_wf b -> zlen bs <= nb_room b ->
    net_buf_simple_add_mem b bs =
      NetBuf (zwrite (nb_data b + nb_len b) bs (nb_mem b))
             (nb_data b) (nb_len b + zlen bs) (nb_size b);
  push_spec b n : nb_wf b -> 0 <= n <= nb_data b ->
    net_buf_simple_push b n =
      NetBuf (nb_mem b) (nb_data b - n) (nb_len b + n) (nb_size b);
  pull_mem_spec b n : nb_wf b -> 0 <= n <= nb_len b ->
    net_buf_simple_pull_mem b n =
      (NetBuf (nb_mem b) (nb_data b + n) (nb_len b - n) (nb_size b), nb_data b);
  remove_mem_spec b n : nb_wf b -> 0 <= n <= nb_len b ->
    net_buf_simple_remove_mem b n =
      (NetBuf (nb_mem b) (nb_data b) (nb_len b - n) (nb_size b),
       nb_data b + (nb_len b - n));
  reset_spec b : net_buf_simple_reset b = NetBuf (nb_mem b) 0 0 (nb_size b);
  reserve_spec b n : nb_wf b -> nb_len b = 0 -> 0 <= n <= nb_size b ->
    net_buf_simple_reserve b n = NetBuf (nb_mem b) n 0 (nb_size b);
  init_with_data_spec mem size :
    net_buf_simple_init_with_data mem size = NetBuf mem 0 size size;
}.

(** One implementation, written from the documentation. *)
#[export] Instance zephyr_net_buf : NetBufApi := {|
  net_buf_simple_tailroom b := nb_size b - nb_data b - nb_len b;
  net_buf_simple_add b n :=
    (NetBuf (nb_mem b) (nb_data b) (nb_len b + n) (nb_size b), nb_data b + nb_len b);
  net_buf_simple_add_mem b bs :=
    NetBuf (zwrite (nb_data b + nb_len b) bs (nb_mem b))
           (nb_data b) (nb_len b + zlen bs) (nb_size b);
  net_buf_simple_push b n :=
    NetBuf (nb_mem b) (nb_data b - n) (nb_len b + n) (nb_size b);
  net_buf_simple_pull_mem b n :=
    (NetBuf (nb_mem b) (nb_data b + n) (nb_len b - n) (nb_size b), nb_data b);
  net_buf_simple_remove_mem b n :=
    (NetBuf (nb_mem b) (nb_data b) (nb_len b - n) (nb_size b),
     nb_data b + (nb_len b - n));
  net_buf_simple_reset b := NetBuf (nb_mem b) 0 0 (nb_size b);
  net_buf_simple_reserve b n := NetBuf (nb_mem b) n (nb_len b) (nb_size b);
  net_buf_simple_init_with_data mem size := NetBuf mem 0 size size;
|}.

#[export] Instance zephyr_net_buf_spec : NetBufSpec.
Proof.
  split; intros; try reflexivity.
  simpl. by rewrite H0.
Qed.

(** ** Checked calls

    The assertion of each function is part of the model: violating it is a
    [Fault], since the real code then writes or reads outside the buffer. *)
Section checked.
Context `{NetBufApi}.

Definition nb_add (b : net_buf_simple) (n : Z) : exec (net_buf_simple * Z) :=
  if (0 <=? n) && (n <=? net_buf_simple_tailroom b)
  then Done (net_buf_simple_add b n) else Fault.

Definition nb_add_mem (b : net_buf_simple) (bs : list Z) : exec net_buf_simple :=
  if zlen bs <=? net_buf_simple_tailroom b
  then Done (net_buf_simple_add_mem b bs) else Fault.

Definition nb_add_le (n : nat) (b : net_buf_simple) (v : Z) : exec net_buf_simple :=
  nb_add_mem b (le_put n v).

Definition nb_push (b : net_buf_simple) (n : Z) : exec net_buf_simple :=
  if (0 <=? n) && (n <=? nb_data b) then Done (net_buf_simple_push b n) else Fault.

Definition nb_reserve (b : net_buf_simple) (n : Z) : exec net_buf_simple :=
  if (nb_len b =? 0) && (0 <=? n) && (n <=? nb_size b)
  then Done (net_buf_simple_reserve b n) else Fault.

Definition nb_pull_mem (b : net_buf_simple) (n : Z) : exec (net_buf_simple * Z) :=
  if (0 <=? n) && (n <=? nb_len b) then Done (net_buf_simple_pull_mem b n) else Fault.

Definition nb_pull_le (n : nat) (b : net_buf_simple) : exec (net_buf_simple * Z) :=
  let! (b', ptr) := nb_pull_mem b (Z.of_nat n) in
  Done (b', le_get (nb_load b ptr (Z.of_nat n))).

Definition nb_remove_mem (b : net_buf_simple) (n : Z) : exec (net_buf_simple * Z) :=
  if (0 <=? n) && (n <=? nb_len b) then Done (net_buf_simple_remove_mem b n) else Fault.
End checked.

(** ** Representation

    [nb_repr b pre c post]: the storage is [pre ++ c ++ post] with [c] the
    contents.  The operations are characterised on this view. *)
Definition nb_repr (b : net_buf_simple) (pre c post : list Z) : Prop :=
  nb_mem b = pre ++ c ++ post /\ nb_data b = zlen pre /\ nb_len b = zlen c /\
  zlen pre + zlen c <= nb_size b <= zlen (nb_mem b).

Lemma nb_wf_repr b :
  nb_wf b -> nb_repr b (ztake (nb_data b) (nb_mem b)) (nb_contents b)
               (zdrop (nb_len b) (zdrop (nb_data b) (nb_mem b))).
Proof.
  intros (Hd & Hl & Hs & Hm). unfold nb_repr, nb_contents.
  rewrite !ztake_zdrop. rewrite !zlen_ztake; [done|..];
    rewrite ?zlen_zdrop; lia.
Qed.

Lemma nb_repr_wf b pre c post : nb_repr b pre c post -> nb_wf b.
Proof.
  intros (Hm & Hd & Hl & Hs). unfold nb_wf. rewrite Hd, Hl.
  pose proof (zlen_nonneg pre). pose proof (zlen_nonneg c). lia.
Qed.

Lemma nb_repr_init bytes : nb_repr (NetBuf bytes 0 (zlen bytes) (zlen bytes)) [] bytes [].
Proof.
  unfold nb_repr. cbn [nb_mem nb_data nb_len nb_size app]. rewrite app_nil_r.
  change (zlen (@nil Z)) with 0. repeat split; lia.
Qed.

Lemma nb_repr_contents b pre c post : nb_repr b pre c post -> nb_contents b = c.
Proof.
  intros (Hm & Hd & Hl & Hs). unfold nb_contents. rewrite Hm, Hd, Hl.
  rewrite zdrop_app by done. by rewrite ztake_app.
Qed.

Lemma nb_repr_post b pre c post : nb_repr b pre c post -> nb_room b <= zlen post.
Proof.
  intros (Hm & Hd & Hl & Hs). unfold nb_room. rewrite Hm, !zlen_app in Hs. lia.
Qed.

Lemma zwrite_app (a old bs z : list Z) off :
  off = zlen a -> zlen old = zlen bs ->
  zwrite off bs (a ++ old ++ z) = a ++ bs ++ z.
Proof.
  intros -> Ho. unfold zwrite. rewrite ztake_app by done.
  rewrite (app_assoc a old z), zdrop_app; [done|]. rewrite zlen_app. lia.
Qed.

(** A store inside the contents replaces exactly those bytes. *)
Lemma nb_store_repr b pre c1 old c2 post ptr bs :
  nb_repr b pre (c1 ++ old ++ c2) post -> ptr = zlen pre + zlen c1 ->
  zlen old = zlen bs ->
  nb_repr (nb_store b ptr bs) pre (c1 ++ bs ++ c2) post.
Proof.
  intros (Hm & Hd & Hl & Hs) Hp Ho. unfold nb_repr, nb_store; simpl.
  assert (Hw : zwrite ptr bs (nb_mem b) = pre ++ (c1 ++ bs ++ c2) ++ post).
  { rewrite Hm. rewrite <- !app_assoc, (app_assoc pre c1).
    rewrite (zwrite_app (pre ++ c1) old bs (c2 ++ post)) by (rewrite ?zlen_app; lia).
    by rewrite <- !app_assoc. }
  rewrite Hw. rewrite Hm in Hs. autorewrite with zlen in *.
  repeat split; try done; lia.
Qed.

Lemma nb_store_repr_end b pre c1 old post ptr bs :
  nb_repr b pre (c1 ++ old) post -> ptr = zlen pre + zlen c1 ->
  zlen old = zlen bs -> nb_repr (nb_store b ptr bs) pre (c1 ++ bs) post.
Proof.
  intros Hr Hp Ho. rewrite <- (app_nil_r bs) at 2.
  eapply (nb_store_repr b pre c1 old []); [by rewrite app_nil_r|done..].
Qed.

Section spec.
Context `{NetBufSpec}.

Lemma nb_add_repr b pre c post n :
  nb_repr b pre c post -> 0 <= n <= nb_room b ->
  exists x post' b', post = x ++ post' /\ zlen x = n /\
    nb_add b n = Done (b', zlen pre + zlen c) /\
    nb_repr b' pre (c ++ x) post' /\ nb_size b' = nb_size b.
Proof.
  intros Hr Hn. pose proof (nb_repr_wf _ _ _ _ Hr) as Hwf.
  pose proof (nb_repr_post _ _ _ _ Hr) as Hp.
  unfold nb_add. rewrite tailroom_spec, add_spec by done.
  replace ((0 <=? n) && (n <=? nb_room b)) with true by lia.
  exists (ztake n post), (zdrop n post). eexists.
  split; [by rewrite ztake_zdrop|]. split; [apply zlen_ztake; lia|].
  destruct Hr as (Hm & Hd & Hl & Hs). rewrite Hd, Hl. split; [done|].
  split; [|done]. unfold nb_repr; simpl.
  rewrite Hm, <- (app_assoc c), ztake_zdrop. split; [done|]. split; [done|].
  rewrite zlen_app, zlen_ztake by lia. split; [done|].
  rewrite <- Hm. unfold nb_room in Hn. lia.
Qed.

Lemma nb_add_mem_repr b pre c post bs :
  nb_repr b pre c post -> zlen bs <= nb_room b ->
  exists post' b', nb_add_mem b bs = Done b' /\
    nb_repr b' pre (c ++ bs) post' /\ nb_size b' = nb_size b.
Proof.
  intros Hr Hn. pose proof (nb_repr_wf _ _ _ _ Hr) as Hwf.
  pose proof (nb_repr_post _ _ _ _ Hr) as Hp. pose proof (zlen_nonneg bs).
  unfold nb_add_mem. rewrite tailroom_spec, add_mem_spec by done.
  replace (zlen bs <=? nb_room b) with true by lia.
  exists (zdrop (zlen bs) post). eexists. split; [done|]. split; [|done].
  destruct Hr as (Hm & Hd & Hl & Hs). unfold nb_repr; simpl.
  assert (Hw : zwrite (nb_data b + nb_len b) bs (nb_mem b) =
               pre ++ (c ++ bs) ++ zdrop (zlen bs) post).
  { rewrite Hm, Hd, Hl. rewrite <- (ztake_zdrop (zlen bs) post) at 1.
    rewrite (app_assoc pre c), zwrite_app by (rewrite ?zlen_app, ?zlen_ztake; lia).
    by rewrite <- !app_assoc. }
  rewrite Hw, Hl. unfold nb_room in Hn. rewrite Hm in Hs.
  autorewrite with zlen in *. rewrite zlen_zdrop by lia.
  repeat split; try done; lia.
Qed.

Lemma nb_pull_mem_repr b pre c1 c2 post n :
  nb_repr b pre (c1 ++ c2) post -> n = zlen c1 ->
  exists b', nb_pull_mem b n = Done (b', zlen pre) /\
    nb_repr b' (pre ++ c1) c2 post /\ nb_size b' = nb_size b /\ nb_mem b' = nb_mem b.
Proof.
  intros Hr ->. pose proof (nb_repr_wf _ _ _ _ Hr) as Hwf.
  destruct Hr as (Hm & Hd & Hl & Hs). rewrite zlen_app in *.
  pose proof (zlen_nonneg c1). pose proof (zlen_nonneg c2).
  unfold nb_pull_mem. rewrite pull_mem_spec by (try done; lia).
  replace ((0 <=? zlen c1) && (zlen c1 <=? nb_len b)) with true by lia.
  rewrite Hd, Hl. eexists. split; [done|]. split; [|done].
  unfold nb_repr; simpl. rewrite Hm, <- !app_assoc, !zlen_app.
  rewrite Hm, <- !app_assoc, !zlen_app in Hs. repeat split; try done; lia.
Qed.

Lemma nb_push_repr b pre x c post n :
  nb_repr b (pre ++ x) c post -> n = zlen x ->
  exists b', nb_push b n = Done b' /\ nb_repr b' pre (x ++ c) post /\ nb_size b' = nb_size b.
Proof.
  intros Hr ->. pose proof (nb_repr_wf _ _ _ _ Hr) as Hwf. destruct Hr as (Hm & Hd & Hl & Hs).
  rewrite zlen_app in Hd, Hs. pose proof (zlen_nonneg pre). pose proof (zlen_nonneg x).
  unfold nb_push. rewrite push_spec by (try done; lia).
  replace ((0 <=? zlen x) && (zlen x <=? nb_data b)) with true by lia.
  eexists. split; [done|]. split; [|done]. unfold nb_repr; simpl. rewrite zlen_app.
  split; [by rewrite Hm, <- !app_assoc|]. repeat split; lia.
Qed.

Lemma nb_remove_mem_repr b pre c1 c2 post n :
  nb_repr b pre (c1 ++ c2) post -> n = zlen c2 ->
  exists b', nb_remove_mem b n = Done (b', zlen pre + zlen c1) /\
    nb_repr b' pre c1 (c2 ++ post) /\ nb_size b' = nb_size b /\ nb_mem b' = nb_mem b.
Proof.
  intros Hr ->. pose proof (nb_repr_wf _ _ _ _ Hr) as Hwf. destruct Hr as (Hm & Hd & Hl & Hs).
  rewrite zlen_app in Hl, Hs. pose proof (zlen_nonneg c1). pose proof (zlen_nonneg c2).
  unfold nb_remove_mem. rewrite remove_mem_spec by (try done; lia).
  replace ((0 <=? zlen c2) && (zlen c2 <=? nb_len b)) with true by lia.
  eexists. split; [do 2 f_equal; lia|]. split; [|done]. unfold nb_repr; simpl.
  split; [by rewrite Hm, <- !app_assoc|]. repeat split; try done; lia.
Qed.

Lemma nb_reset_repr b pre c post :
  nb_repr b pre c post -> nb_repr (net_buf_simple_reset b) [] [] (pre ++ c ++ post).
Proof.
  intros (Hm & Hd & Hl & Hs). rewrite reset_spec. unfold nb_repr; simpl.
  pose proof (zlen_nonneg pre). pose proof (zlen_nonneg c). change (zlen []) with 0.
  repeat split; try done; lia.
Qed.

(** Bytes stored at the tail and then claimed. *)
Lemma nb_fill_repr b pre c post out :
  nb_repr b pre c post -> zlen out <= nb_room b ->
  exists b' post', nb_add (nb_store b (nb_data b + nb_len b) out) (zlen out) = Done (b', zlen pre + zlen c) /\
    nb_repr b' pre (c ++ out) post' /\ nb_size b' = nb_size b.
Proof.
  intros Hr Hn. pose proof (nb_repr_wf _ _ _ _ Hr) as Hwf. pose proof (zlen_nonneg out).
  destruct (nb_add_mem_repr b pre c post out Hr Hn) as (post' & b' & Hadd & Hr' & Hsz).
  unfold nb_add_mem in Hadd. rewrite tailroom_spec, add_mem_spec in Hadd by done.
  replace (zlen out <=? nb_room b) with true in Hadd by lia. injection Hadd as Hb'.
  assert (Hwf' : nb_wf (nb_store b (nb_data b + nb_len b) out)).
  { destruct Hr' as (_ & Hd' & Hl' & Hs'). rewrite <- Hb' in Hs'. destruct Hwf as (? & ? & ? & ?).
    unfold nb_wf, nb_store; simpl in *. repeat split; try done. lia. }
  exists b', post'. unfold nb_add. rewrite tailroom_spec by done.
  unfold nb_room in *. cbn [nb_store nb_size nb_data nb_len].
  replace ((0 <=? zlen out) && (zlen out <=? nb_size b - nb_data b - nb_len b)) with true by lia.
  rewrite add_spec by (try done; unfold nb_room; cbn; lia). cbn [nb_store nb_mem nb_size nb_data nb_len].
  rewrite Hb'. destruct Hr as (_ & -> & -> & _). done.
Qed.
End spec.

Lemma nb_load_mid b a x z ptr n :
  nb_mem b = a ++ x ++ z -> ptr = zlen a -> n = zlen x -> nb_load b ptr n = x.
Proof.
  intros Hm -> ->. unfold nb_load. rewrite Hm, zdrop_app by done. by rewrite ztake_app.
Qed.
