(* ===== verification/Epoch.v ===== *)
(** * Epoch time

    The pure conversions of [include/infuse/time/epoch.h].
    An epoch time is a 64 bit count of
    1/65536 second since the GPS epoch. *)

From stdpp Require Import base tactics numbers list.
From Stdlib Require Import ZArith Lia.
From S2P Require Import Prelude.

Local Open Scope Z_scope.

Definition INFUSE_EPOCH_TIME_TICKS_PER_SEC : Z := UINT16_MAX + 1.
Definition INFUSE_EPOCH_TIME_GPS_UNIX_OFFSET_SECONDS_LEAP : Z := 18.
Definition INFUSE_EPOCH_TIME_GPS_UNIX_OFFSET_SECONDS_BASE : Z := 315964800.
Definition SECONDS_PER_WEEK : Z := 7 * (24 * (60 * 60)).

(** enum epoch_time_source *)
Definition TIME_SOURCE_NONE : Z := 0.
Definition TIME_SOURCE_GNSS : Z := 1.
Definition TIME_SOURCE_NTP : Z := 2.
Definition TIME_SOURCE_RPC : Z := 3.
Definition TIME_SOURCE_EPACKET : Z := 4.
Definition TIME_SOURCE_INVALID : Z := 5.
Definition TIME_SOURCE_RECOVERED : Z := 0x80.

Definition epoch_time_source_base (source : Z) : Z :=
  Z.land source (Z.lnot TIME_SOURCE_RECOVERED).

Definition epoch_time_trusted_source (source : Z) (recovered_ok : bool) : bool :=
  let base := epoch_time_source_base source in
  let recovered := negb (Z.land source TIME_SOURCE_RECOVERED =? 0) in
  let base_good := IN_RANGE base (TIME_SOURCE_NONE + 1) (TIME_SOURCE_INVALID - 1) in
  base_good && (negb recovered || recovered_ok).

Definition epoch_time_precise_source (source : Z) : bool :=
  let base := epoch_time_source_base source in
  (base =? TIME_SOURCE_GNSS) || (base =? TIME_SOURCE_NTP).

Definition epoch_time_seconds (epoch_time : Z) : Z := Z.shiftr epoch_time 16.

Definition epoch_time_subseconds (epoch_time : Z) : Z := u16 (Z.land epoch_time 0xFFFF).

Definition epoch_time_from (seconds subseconds : Z) : Z :=
  Z.lor (u64 (Z.shiftl seconds 16)) subseconds.

Definition epoch_time_from_gps (week week_seconds subseconds : Z) : Z :=
  let seconds := u64 (SECONDS_PER_WEEK * week + week_seconds) in
  epoch_time_from seconds subseconds.

(** Computed in 64 bits, returned in 32. *)
Definition unix_time_from_epoch (epoch_time : Z) : Z :=
  u32 (u64 (epoch_time_seconds epoch_time + INFUSE_EPOCH_TIME_GPS_UNIX_OFFSET_SECONDS_BASE
            - INFUSE_EPOCH_TIME_GPS_UNIX_OFFSET_SECONDS_LEAP)).

(** The subtraction and addition are on [uint32_t]. *)
Definition epoch_time_from_unix (unix_time subseconds : Z) : Z :=
  let epoch_seconds := u32 (unix_time - INFUSE_EPOCH_TIME_GPS_UNIX_OFFSET_SECONDS_BASE
                            + INFUSE_EPOCH_TIME_GPS_UNIX_OFFSET_SECONDS_LEAP) in
  epoch_time_from epoch_seconds subseconds.

(** ** Arithmetic reading of the bit operations *)

Lemma epoch_time_seconds_div t : epoch_time_seconds t = t / 65536.
Proof. unfold epoch_time_seconds. by rewrite Z.shiftr_div_pow2. Qed.

Lemma epoch_time_subseconds_mod t : epoch_time_subseconds t = t mod 65536.
Proof.
  unfold epoch_time_subseconds. change 0xFFFF with (Z.ones 16).
  rewrite Z.land_ones by done. unfold uwrap. by rewrite Z.mod_mod.
Qed.

Lemma epoch_time_from_eq s ss :
  0 <= s < 2 ^ 48 -> 0 <= ss < 65536 -> epoch_time_from s ss = s * 65536 + ss.
Proof.
  intros Hs Hss. unfold epoch_time_from.
  rewrite uwrap_small by (rewrite Z.shiftl_mul_pow2 by lia; change (2 ^ 64) with (2 ^ 48 * 2 ^ 16); nia).
  by rewrite lor_shiftl_add by lia.
Qed.

Lemma epoch_time_split t :
  0 <= t < 2 ^ 64 -> epoch_time_from (epoch_time_seconds t) (epoch_time_subseconds t) = t.
Proof.
  intros Ht. rewrite epoch_time_seconds_div, epoch_time_subseconds_mod.
  pose proof (Z.mod_pos_bound t 65536 ltac:(lia)).
  rewrite epoch_time_from_eq.
  - rewrite (Z.div_mod t 65536) at 3 by lia. lia.
  - split; [apply Z.div_pos; lia|]. apply Z.div_lt_upper_bound; [lia|].
    change (65536 * 2 ^ 48) with (2 ^ 64). lia.
  - done.
Qed.
