(* ===== verification/TdfDiffs.v ===== *)
(** * TDF field differences ([subsys/tdf/diffs.c])

    A diff array stores one base sample and then, per field, the signed
    difference to the next sample.  The nine C functions differ only in the field
    width and the difference width, so each is an instance of one of three loops
    over [w] byte fields with [d] byte differences.  Memory is little-endian. *)

From stdpp Require Import base tactics numbers list.
From Stdlib Require Import ZArith Lia.
From S2P Require Import Prelude.

Local Open Scope Z_scope.

(** Bits in [n] bytes. *)
Definition bits (n : nat) : Z := 8 * Z.of_nat n.

Fixpoint diff_check (w d k : nat) (c n : list Z) : bool :=
  match k with
  | O => true
  | S k =>
      let c_val := le_get (take w c) in
      let n_val := le_get (take w n) in
      let diff := swrap (bits d) (n_val - c_val) in
      let res := uwrap (bits w) (c_val + diff) in
      if negb (res =? n_val) then false
      else diff_check w d k (drop w c) (drop w n)
  end.

Fixpoint diff_encode (w d k : nat) (c n : list Z) : list Z :=
  match k with
  | O => []
  | S k =>
      le_put d (le_get (take w n) - le_get (take w c)) ++
      diff_encode w d k (drop w c) (drop w n)
  end.

Fixpoint diff_apply (w d k : nat) (b diffs : list Z) : list Z :=
  match k with
  | O => []
  | S k =>
      le_put w (le_get (take w b) + swrap (bits d) (le_get (take d diffs))) ++
      diff_apply w d k (drop w b) (drop d diffs)
  end.

(** Number of [w] byte fields in a TDF of [tdf_len] bytes. *)
Definition num_fields (tdf_len : Z) (w : nat) : nat := Z.to_nat (tdf_len / Z.of_nat w).

(** [out] keeps the bytes after the last whole field. *)
Definition diff_apply_out (w d : nat) (tdf_len : Z) (b out diffs : list Z) : list Z :=
  let k := num_fields tdf_len w in
  diff_apply w d k b diffs ++ drop (k * w) out.

Definition tdf_diff_check_16_8 (tdf_len : Z) := diff_check 2 1 (num_fields tdf_len 2).
Definition tdf_diff_check_32_8 (tdf_len : Z) := diff_check 4 1 (num_fields tdf_len 4).
Definition tdf_diff_check_32_16 (tdf_len : Z) := diff_check 4 2 (num_fields tdf_len 4).

Definition tdf_diff_encode_16_8 (num_fields : Z) := diff_encode 2 1 (Z.to_nat num_fields).
Definition tdf_diff_encode_32_8 (num_fields : Z) := diff_encode 4 1 (Z.to_nat num_fields).
Definition tdf_diff_encode_32_16 (num_fields : Z) := diff_encode 4 2 (Z.to_nat num_fields).

Definition tdf_diff_apply_16_8 := diff_apply_out 2 1.
Definition tdf_diff_apply_32_8 := diff_apply_out 4 1.
Definition tdf_diff_apply_32_16 := diff_apply_out 4 2.

(** ** What a check decides *)

(** The step from field [c] to field [n], read as a signed [w] byte number. *)
Definition field_step (w : nat) (c n : list Z) (i : nat) : Z :=
  swrap (bits w) (le_get (take w (drop (i * w) n)) - le_get (take w (drop (i * w) c))).

Lemma swrap_congr a w x y :
  0 < w -> x = y + a * 2 ^ w -> swrap w x = swrap w y.
Proof.
  intros Hw ->. unfold swrap. f_equal.
  replace (y + a * 2 ^ w + 2 ^ (w - 1)) with (y + 2 ^ (w - 1) + a * 2 ^ w) by lia.
  apply Z.mod_add. apply Z.pow_nonzero; lia.
Qed.

Lemma swrap_decomp w z : 0 < w -> exists q, z = swrap w z + q * 2 ^ w.
Proof.
  intros Hw. exists ((z + 2 ^ (w - 1)) / 2 ^ w). unfold swrap.
  pose proof (Z.div_mod (z + 2 ^ (w - 1)) (2 ^ w) ltac:(apply Z.pow_nonzero; lia)). lia.
Qed.

Lemma uwrap_eq_iff w x y :
  0 <= w -> 0 <= y < 2 ^ w -> uwrap w x = y <-> exists q, x = y + q * 2 ^ w.
Proof.
  intros Hw Hy. unfold uwrap. split.
  - intros <-. exists (x / 2 ^ w).
    pose proof (Z.div_mod x (2 ^ w) ltac:(apply Z.pow_nonzero; lia)). lia.
  - intros (q & ->). rewrite Z.mod_add by (apply Z.pow_nonzero; lia). by apply Z.mod_small.
Qed.

(** One field: truncating the step to [d] bytes and adding it back reaches the
    next value exactly when the step fits in [d] bytes. *)
Lemma step_fits_iff wb db c n :
  0 < db <= wb -> 0 <= n < 2 ^ wb ->
  uwrap wb (c + swrap db (n - c)) = n <-> in_s db (swrap wb (n - c)).
Proof.
  intros Hd Hn. rewrite uwrap_eq_iff by lia.
  pose proof (swrap_bound db (n - c) ltac:(lia)) as Hb.
  assert (Hp : 2 ^ wb = 2 ^ db * 2 ^ (wb - db)) by (rewrite <- Z.pow_add_r by lia; f_equal; lia).
  assert (Hle : 2 ^ (db - 1) <= 2 ^ (wb - 1)) by (apply Z.pow_le_mono_r; lia).
  split.
  - intros (q & Hq).
    assert (Hs : swrap wb (n - c) = swrap db (n - c)).
    { rewrite (swrap_congr (- q) wb _ (swrap db (n - c))) by lia.
      apply swrap_small; [lia|]. unfold in_s. lia. }
    rewrite Hs. exact Hb.
  - intros Hs. destruct (swrap_decomp wb (n - c) ltac:(lia)) as (q & Hq).
    exists (- q).
    assert (Hsd : swrap db (n - c) = swrap wb (n - c)).
    { rewrite (swrap_congr (q * 2 ^ (wb - db)) db _ (swrap wb (n - c))) by lia.
      apply swrap_small; [lia|done]. }
    lia.
Qed.

Section loops.
Context (w d : nat).

Lemma field_bound n : bytes_ok n -> (w <= length n)%nat ->
  0 <= le_get (take w n) < 2 ^ bits w.
Proof.
  intros Hb Hl. pose proof (le_get_bound (take w n) ltac:(by apply Forall_take)) as Hg.
  unfold zlen in Hg. rewrite length_take_le in Hg by lia. exact Hg.
Qed.

Lemma length_diff_encode k c n : length (diff_encode w d k c n) = (k * d)%nat.
Proof.
  revert c n. induction k as [|k IH]; intros; cbn [diff_encode]; [done|].
  rewrite length_app, length_le_put, IH. lia.
Qed.

Lemma length_diff_apply k b ds : length (diff_apply w d k b ds) = (k * w)%nat.
Proof.
  revert b ds. induction k as [|k IH]; intros; cbn [diff_apply]; [done|].
  rewrite length_app, length_le_put, IH. lia.
Qed.

Lemma diff_encode_bytes_ok k c n : bytes_ok (diff_encode w d k c n).
Proof.
  revert c n. induction k as [|k IH]; intros; cbn [diff_encode]; [constructor|].
  apply bytes_ok_app. split; [apply le_put_bytes_ok|apply IH].
Qed.

Lemma diff_encode_app k1 k2 c n :
  diff_encode w d (k1 + k2) c n =
  diff_encode w d k1 c n ++ diff_encode w d k2 (drop (k1 * w) c) (drop (k1 * w) n).
Proof.
  revert c n. induction k1 as [|k1 IH]; intros c n; cbn [Nat.add diff_encode]; [done|].
  rewrite IH, <- app_assoc, !drop_drop. do 3 f_equal.
Qed.

Lemma take_fields k (l l' : list Z) :
  take (S k * w) l = take (S k * w) l' ->
  take w l = take w l' /\ take (k * w) (drop w l) = take (k * w) (drop w l').
Proof.
  intros Hl. split.
  - apply (f_equal (take w)) in Hl. rewrite !take_take in Hl.
    by replace (w `min` (S k * w))%nat with w in Hl by lia.
  - apply (f_equal (drop w)) in Hl. rewrite !skipn_firstn_comm in Hl.
    by replace (S k * w - w)%nat with (k * w)%nat in Hl by lia.
Qed.

(** The loops read [k * w] bytes of each sample and no more. *)
Lemma diff_encode_take k c n c' n' :
  take (k * w) c = take (k * w) c' -> take (k * w) n = take (k * w) n' ->
  diff_encode w d k c n = diff_encode w d k c' n'.
Proof.
  revert c n c' n'. induction k as [|k IH]; intros c n c' n' Hc Hn; [done|].
  destruct (take_fields k _ _ Hc) as [Hc1 Hc2], (take_fields k _ _ Hn) as [Hn1 Hn2].
  cbn [diff_encode]. rewrite Hc1, Hn1. by rewrite (IH _ _ _ _ Hc2 Hn2).
Qed.

Lemma diff_check_take k c n c' n' :
  take (k * w) c = take (k * w) c' -> take (k * w) n = take (k * w) n' ->
  diff_check w d k c n = diff_check w d k c' n'.
Proof.
  revert c n c' n'. induction k as [|k IH]; intros c n c' n' Hc Hn; [done|].
  destruct (take_fields k _ _ Hc) as [Hc1 Hc2], (take_fields k _ _ Hn) as [Hn1 Hn2].
  cbn [diff_check]. rewrite Hc1, Hn1. by rewrite (IH _ _ _ _ Hc2 Hn2).
Qed.

Context (Hwd : (0 < d <= w)%nat).

Lemma diff_check_iff k c n :
  bytes_ok n -> (k * w <= length n)%nat ->
  diff_check w d k c n = true <->
  forall i, (i < k)%nat -> in_s (bits d) (field_step w c n i).
Proof.
  revert c n. induction k as [|k IH]; intros c n Hb Hl; cbn [diff_check].
  { split; [lia|done]. }
  pose proof (step_fits_iff (bits w) (bits d) (le_get (take w c)) (le_get (take w n))
                ltac:(unfold bits; lia) (field_bound n Hb ltac:(lia))) as Hstep.
  assert (Hdrop : forall (l : list Z) (i : nat), drop (i * w) (drop w l) = drop (S i * w) l)
    by (intros; by rewrite drop_drop).
  destruct (Z.eqb_spec (uwrap (bits w) (le_get (take w c) +
    swrap (bits d) (le_get (take w n) - le_get (take w c)))) (le_get (take w n))) as [He|He]; cbn [negb].
  - rewrite IH by (try (by apply Forall_drop); rewrite length_drop; lia). split.
    + intros Hi [|i] Hlt; [by apply Hstep|].
      specialize (Hi i ltac:(lia)). unfold field_step in *. by rewrite !Hdrop in Hi.
    + intros Hi i Hlt. specialize (Hi (S i) ltac:(lia)).
      unfold field_step in *. by rewrite !Hdrop.
  - split; [done|]. intros Hi. exfalso. apply He, Hstep, (Hi O). lia.
Qed.

(** Applying the differences of a valid step to the first sample gives the
    second. *)
Lemma diff_apply_encode k c n rest :
  bytes_ok n -> (k * w <= length n)%nat -> diff_check w d k c n = true ->
  diff_apply w d k c (diff_encode w d k c n ++ rest) = take (k * w) n.
Proof.
  revert c n. induction k as [|k IH]; intros c n Hb Hl Hc; [done|].
  cbn [diff_check] in Hc. cbn [diff_encode diff_apply].
  destruct (Z.eqb_spec (uwrap (bits w) (le_get (take w c) +
    swrap (bits d) (le_get (take w n) - le_get (take w c)))) (le_get (take w n))) as [He|He];
    cbn [negb] in Hc; [|done].
  rewrite <- app_assoc.
  rewrite take_app_length', drop_app_length' by (by rewrite length_le_put).
  rewrite IH by (try (by apply Forall_drop); try done; rewrite length_drop; lia).
  rewrite le_get_put. fold (bits d).
  change (?x mod 2 ^ bits d) with (uwrap (bits d) x).
  rewrite swrap_uwrap by (unfold bits; lia).
  rewrite <- le_put_mod. fold (bits w).
  change (?x mod 2 ^ bits w) with (uwrap (bits w) x). rewrite He.
  assert (Ht : length (take w n) = w) by (apply length_take_le; lia).
  rewrite <- Ht at 1. rewrite le_put_get by (by apply Forall_take).
  change (S k * w)%nat with (w + k * w)%nat. by rewrite <- take_take_drop.
Qed.
End loops.
