(* ===== verification/Tdf.v ===== *)
(** * Tagged Data Format ([subsys/tdf/tdf.c], [include/infuse/tdf/tdf.h])

    The encoder appends tagged, timestamped samples to a buffer; the parser takes
    them off again.  The model is the [CONFIG_TDF_DIFF=y] build.  A sample pointer
    [data] is the list of bytes it points to; reading past that list is a
    [Fault], as is any buffer call whose assertion fails. *)

From stdpp Require Import base tactics numbers list.
From Stdlib Require Import ZArith Lia.
From S2P Require Import Prelude NetBuf Epoch TdfDiffs.

Local Open Scope Z_scope.
Local Open Scope infuse_scope.

Definition INT24_MAX : Z := 0x7FFFFF.
Definition INT24_MIN : Z := - INT24_MAX - 1.

Definition sizeof_tdf_header : Z := 3.
Definition sizeof_tdf_array_header : Z := 3.
Definition sizeof_tdf_time : Z := 6.

(** enum tdf_data_format *)
Definition TDF_DATA_FORMAT_SINGLE : Z := 0.
Definition TDF_DATA_FORMAT_TIME_ARRAY : Z := 1.
Definition TDF_DATA_FORMAT_IDX_ARRAY : Z := 2.
Definition TDF_DATA_FORMAT_DIFF_ARRAY_16_8 : Z := 3.
Definition TDF_DATA_FORMAT_DIFF_ARRAY_32_8 : Z := 4.
Definition TDF_DATA_FORMAT_DIFF_ARRAY_32_16 : Z := 5.
Definition TDF_DATA_FORMAT_INVALID : Z := 6.
Definition TDF_DATA_FORMAT_DIFF_PRECOMPUTED : Z := 0x80.

(** enum tdf_flags *)
Definition TDF_TIMESTAMP_NONE : Z := 0x0000.
Definition TDF_TIMESTAMP_ABSOLUTE : Z := 0x4000.
Definition TDF_TIMESTAMP_RELATIVE : Z := 0x8000.
Definition TDF_TIMESTAMP_EXTENDED_RELATIVE : Z := 0xC000.
Definition TDF_ARRAY_TIME : Z := 0x1000.
Definition TDF_ARRAY_DIFF : Z := 0x2000.
Definition TDF_ARRAY_IDX : Z := 0x3000.
Definition TDF_TIMESTAMP_MASK : Z := 0xC000.
Definition TDF_ARRAY_MASK : Z := 0x3000.
Definition TDF_ID_MASK : Z := 0x0FFF.

(** enum tdf_diff_type *)
Definition TDF_DIFF_NONE : Z := 0.
Definition TDF_DIFF_16_8 : Z := 1.
Definition TDF_DIFF_32_8 : Z := 2.
Definition TDF_DIFF_32_16 : Z := 3.

Definition TDF_MAXIMUM_DIFFS : Z := 64.
Definition TDF_ARRAY_TIME_PERIOD_SCALED : Z := 0x8000.
Definition TDF_ARRAY_TIME_PERIOD_VAL_MASK : Z := 0x7FFF.
Definition TDF_ARRAY_TIME_SCALE_FACTOR : Z := 8192.
Definition TDF_ARRAY_TIME_PERIOD_MAX : Z :=
  TDF_ARRAY_TIME_PERIOD_VAL_MASK * TDF_ARRAY_TIME_SCALE_FACTOR.

(** struct tdf_buffer_state *)
Record tdf_buffer_state := TdfState {
  ts_time : Z;
  ts_buf : net_buf_simple;
}.

(** struct tdf_parsed.  [p_num] is the union of [tdf_num] and [diff_info.num];
    [p_period] the union of [period] and [base_idx] (little-endian, so the index
    is its low half); [p_data] the bytes [data] points to. *)
Record tdf_parsed := TdfParsed {
  p_time : Z;
  p_id : Z;
  p_len : Z;
  p_type : Z;
  p_num : Z;
  p_period : Z;
  p_data : list Z;
}.

(** Index into the static tables by format; other indices are zero. *)
Definition tdf_diff_divisor (format : Z) : Z :=
  if format =? TDF_DATA_FORMAT_DIFF_ARRAY_16_8 then 2
  else if format =? TDF_DATA_FORMAT_DIFF_ARRAY_32_8 then 4
  else if format =? TDF_DATA_FORMAT_DIFF_ARRAY_32_16 then 4 else 0.

Definition tdf_diff_size (format : Z) : Z :=
  if format =? TDF_DATA_FORMAT_DIFF_ARRAY_16_8 then 1
  else if format =? TDF_DATA_FORMAT_DIFF_ARRAY_32_8 then 1
  else if format =? TDF_DATA_FORMAT_DIFF_ARRAY_32_16 then 2 else 0.

Definition tdf_diff_encoded (format : Z) : Z :=
  if format =? TDF_DATA_FORMAT_DIFF_ARRAY_16_8 then TDF_DIFF_16_8
  else if format =? TDF_DATA_FORMAT_DIFF_ARRAY_32_8 then TDF_DIFF_32_8
  else if format =? TDF_DATA_FORMAT_DIFF_ARRAY_32_16 then TDF_DIFF_32_16 else TDF_DIFF_NONE.

Definition tdf_diff_check_functions (format : Z) : Z -> list Z -> list Z -> bool :=
  if format =? TDF_DATA_FORMAT_DIFF_ARRAY_16_8 then tdf_diff_check_16_8
  else if format =? TDF_DATA_FORMAT_DIFF_ARRAY_32_8 then tdf_diff_check_32_8
  else tdf_diff_check_32_16.

Definition tdf_diff_encode_functions (format : Z) : Z -> list Z -> list Z -> list Z :=
  if format =? TDF_DATA_FORMAT_DIFF_ARRAY_16_8 then tdf_diff_encode_16_8
  else if format =? TDF_DATA_FORMAT_DIFF_ARRAY_32_8 then tdf_diff_encode_32_8
  else tdf_diff_encode_32_16.

Definition tdf_diff_apply_functions (format : Z)
  : Z -> list Z -> list Z -> list Z -> list Z :=
  if format =? TDF_DATA_FORMAT_DIFF_ARRAY_16_8 then tdf_diff_apply_16_8
  else if format =? TDF_DATA_FORMAT_DIFF_ARRAY_32_8 then tdf_diff_apply_32_8
  else tdf_diff_apply_32_16.

Definition format_is_diff (format : Z) : bool :=
  (format =? TDF_DATA_FORMAT_DIFF_ARRAY_16_8) ||
  (format =? TDF_DATA_FORMAT_DIFF_ARRAY_32_8) ||
  (format =? TDF_DATA_FORMAT_DIFF_ARRAY_32_16).

Definition sign_extend_24_bits (x : Z) : Z :=
  let m := Z.shiftl 1 (24 - 1) in
  u32 (Z.lxor x m - m).

(** ** How many leading samples can be diff encoded *)
Section valid_diffs.
Context (check_fn : Z -> list Z -> list Z -> bool) (tdf_len : Z) (data : list Z).

(** The first loop: find two valid diffs in a row.  [fuel] bounds the
    iterations. *)
Fixpoint find_first_valid (fuel : nat) (tdf_num i p0 p1 : Z) : exec (Z * Z * Z) :=
  if i <? tdf_num - 2 then
    match fuel with
    | O => NoFuel
    | S fuel =>
        if check_fn tdf_len (zdrop p0 data) (zdrop p1 data) then
          let p0 := p0 + tdf_len in
          let p1 := p1 + tdf_len in
          if check_fn tdf_len (zdrop p0 data) (zdrop p1 data) then
            Done (i, p0 + tdf_len, p1 + tdf_len)
          else
            find_first_valid fuel tdf_num (i + 1 + 1) (p0 + tdf_len) (p1 + tdf_len)
        else
          find_first_valid fuel tdf_num (i + 1) (p0 + tdf_len) (p1 + tdf_len)
    end
  else Done (i, p0, p1).

(** The second loop: scan until the first invalid diff. *)
Fixpoint scan_valid (fuel : nat) (tdf_num i p0 p1 : Z) : exec Z :=
  if i <? tdf_num - 1 then
    match fuel with
    | O => NoFuel
    | S fuel =>
        if negb (check_fn tdf_len (zdrop p0 data) (zdrop p1 data)) then Done i
        else scan_valid fuel tdf_num (i + 1) (p0 + tdf_len) (p1 + tdf_len)
    end
  else Done i.
End valid_diffs.

Definition tdf_num_valid_diffs (diff_type tdf_len tdf_num : Z) (data : list Z) : exec Z :=
  let check_fn := tdf_diff_check_functions diff_type in
  let fuel := Z.to_nat tdf_num in
  if negb (2 <? tdf_num) then Fault (* __ASSERT_NO_MSG(tdf_num > 2) *)
  else
    let! (i, p0, p1) := find_first_valid check_fn tdf_len data fuel tdf_num 0 0 tdf_len in
    if i =? 0 then
      let tdf_num := Z.min tdf_num TDF_MAXIMUM_DIFFS in
      scan_valid check_fn tdf_len data fuel tdf_num 2 p0 p1
    else if i =? tdf_num - 2 then Done (- (i + 2))
    else Done (- i).

Definition tdf_input_validate (tdf_id tdf_len tdf_num idx_period format min_size max_space : Z) : Z :=
  if (tdf_id =? 0) || (4095 <=? tdf_id) || (tdf_len =? 0) || (tdf_num =? 0) ||
     (TDF_DATA_FORMAT_INVALID <=? format)
  then - EINVAL
  else if negb (format =? TDF_DATA_FORMAT_IDX_ARRAY) && (TDF_ARRAY_TIME_PERIOD_MAX <? idx_period)
  then - EINVAL
  else if max_space <? min_size then - ENOSPC
  else 0.

(** Copy of [n] bytes starting at [off] of the caller's [data]. *)
Definition data_read (data : list Z) (off n : Z) : exec (list Z) :=
  if off + n <=? zlen data then Done (ztake n (zdrop off data)) else Fault.

(** ** The encoder *)
Section tdf_add.
Context `{NetBufApi}.

Definition tdf_add_header (state : tdf_buffer_state)
  (tdf_header tdf_id tdf_len epoch_time timestamp_delta : Z)
  : exec (tdf_buffer_state * Z) :=
  let! (b, header) := nb_add (ts_buf state) sizeof_tdf_header in
  let b := nb_store b header (le_put 2 (Z.lor tdf_header tdf_id)) in
  let b := nb_store b (header + 2) (le_put 1 tdf_len) in
  if tdf_header =? TDF_TIMESTAMP_RELATIVE then
    let! b := nb_add_le 2 b timestamp_delta in
    Done (TdfState epoch_time b, header)
  else if tdf_header =? TDF_TIMESTAMP_EXTENDED_RELATIVE then
    let! b := nb_add_le 3 b timestamp_delta in
    Done (TdfState epoch_time b, header)
  else if tdf_header =? TDF_TIMESTAMP_ABSOLUTE then
    let! (b, t) := nb_add b sizeof_tdf_time in
    let b := nb_store b t (le_put 4 (epoch_time_seconds epoch_time)) in
    let b := nb_store b (t + 4) (le_put 2 (epoch_time_subseconds epoch_time)) in
    Done (TdfState epoch_time b, header)
  else Done (TdfState (ts_time state) b, header).

(** [header->id_flags |= flag] *)
Definition header_or_flag (b : net_buf_simple) (header flag : Z) : net_buf_simple :=
  nb_store b header (le_put 2 (Z.lor (le_get (nb_load b header 2)) flag)).

Definition tdf_add_array_header (state : tdf_buffer_state)
  (header tdf_num idx_period : Z) (is_idx is_diff : bool)
  : exec (tdf_buffer_state * option Z) :=
  if (tdf_num <=? 1) && negb is_idx then Done (state, None)
  else
    let! (b, ptr) := nb_add (ts_buf state) sizeof_tdf_array_header in
    let b :=
      if is_idx then
        let b := header_or_flag b header TDF_ARRAY_IDX in
        nb_store b (ptr + 1) (le_put 2 (u16 idx_period))
      else
        let b :=
          if is_diff then header_or_flag b header TDF_ARRAY_DIFF
          else header_or_flag b header TDF_ARRAY_TIME in
        if TDF_ARRAY_TIME_PERIOD_VAL_MASK <? idx_period then
          nb_store b (ptr + 1)
            (le_put 2 (Z.lor TDF_ARRAY_TIME_PERIOD_SCALED
                         (idx_period / TDF_ARRAY_TIME_SCALE_FACTOR)))
        else nb_store b (ptr + 1) (le_put 2 idx_period) in
    let b := nb_store b ptr (le_put 1 tdf_num) in
    Done (TdfState (ts_time state) b, Some ptr).

(** Which timestamp the TDF gets: (timestamp_delta, timestamp_header, tdf_header). *)
Definition timestamp_select (state_time time : Z) : Z * Z * Z :=
  if negb (time =? 0) then
    if negb (state_time =? 0) then
      let timestamp_delta := s64 (time - state_time) in
      if IN_RANGE timestamp_delta 0 UINT16_MAX then
        (timestamp_delta, 2, TDF_TIMESTAMP_RELATIVE)
      else if IN_RANGE timestamp_delta INT24_MIN INT24_MAX then
        (timestamp_delta, 3, TDF_TIMESTAMP_EXTENDED_RELATIVE)
      else (timestamp_delta, sizeof_tdf_time, TDF_TIMESTAMP_ABSOLUTE)
    else (0, sizeof_tdf_time, TDF_TIMESTAMP_ABSOLUTE)
  else (0, 0, TDF_TIMESTAMP_NONE).

(** Whether the TDFs are logged as a diff array, and how many of them. *)
Definition diff_select (is_diff precomputed : bool) (format tdf_len tdf_num : Z)
  (data : list Z) : exec (bool * Z) :=
  if is_diff && (2 <? tdf_num) then
    if negb precomputed then
      let! diffs := tdf_num_valid_diffs format tdf_len tdf_num data in
      if diffs <? 0 then Done (false, u8 (- diffs))
      else Done (true, u8 (1 + diffs))
    else Done (true, tdf_num)
  else Done (false, tdf_num).

(** Bytes of payload for [tdf_num] TDFs. *)
Definition payload_bytes (is_diff : bool) (tdf_len tdf_num per_tdf_diff_size : Z) : Z :=
  if negb is_diff then u16 (tdf_len * tdf_num)
  else u16 (tdf_len + (tdf_num - 1) * per_tdf_diff_size).

(** How many TDFs fit when the payload space is too small (0: none). *)
Definition can_fit_count (is_diff is_idx : bool)
  (tdf_len tdf_num payload_space per_tdf_diff_size : Z) : Z :=
  let can_fit :=
    if negb is_diff then u8 (payload_space / tdf_len)
    else if tdf_len <=? payload_space then
      u8 (1 + (payload_space - tdf_len) / per_tdf_diff_size)
    else 0 in
  if (can_fit =? 0) && (1 <? tdf_num) && negb is_idx then
    let payload_space := u16 (payload_space + sizeof_tdf_array_header) in
    u8 (payload_space / tdf_len)
  else can_fit.

(** The payload: base and differences, or the samples as they are. *)
Definition tdf_add_payload (state : tdf_buffer_state) (array_header_ptr : option Z)
  (is_diff precomputed : bool) (format tdf_len tdf_num per_tdf_fields per_tdf_diff_size total_data : Z)
  (data : list Z) : exec tdf_buffer_state :=
  if is_diff && (1 <? tdf_num) then
    let total_diff_size := (tdf_num - 1) * per_tdf_diff_size in
    let! b :=
      if precomputed then
        let! bytes := data_read data 0 (tdf_len + total_diff_size) in
        nb_add_mem (ts_buf state) bytes
      else
        let! base := data_read data 0 tdf_len in
        let! b := nb_add_mem (ts_buf state) base in
        let! (b, diff_ptr) := nb_add b total_diff_size in
        let! next := data_read data tdf_len ((tdf_num - 1) * tdf_len) in
        Done (nb_store b diff_ptr
                (tdf_diff_encode_functions format ((tdf_num - 1) * per_tdf_fields) data next)) in
    match array_header_ptr with
    | None => Fault (* __ASSERT_NO_MSG(array_header_ptr != NULL) *)
    | Some ptr =>
        Done (TdfState (ts_time state)
          (nb_store b ptr (le_put 1 (Z.lor (Z.shiftl (tdf_diff_encoded format) 6) (tdf_num - 1)))))
    end
  else
    let! bytes := data_read data 0 total_data in
    let! b := nb_add_mem (ts_buf state) bytes in
    Done (TdfState (ts_time state) b).

(** Fitting and writing, once the timestamp and the encoding are chosen. *)
Definition tdf_add_encoded (state : tdf_buffer_state)
  (tdf_id tdf_len tdf_num time idx_period : Z) (data : list Z) (format : Z)
  (is_idx is_diff diff_precomputed : bool)
  (timestamp_delta timestamp_header tdf_header buffer_remaining : Z)
  : exec (Z * tdf_buffer_state) :=
  let has_array := (1 <? tdf_num) || is_idx in
  let array_header := if has_array then sizeof_tdf_array_header else 0 in
  let is_diff := if has_array then is_diff else false in
  let total_header := sizeof_tdf_header + array_header + timestamp_header in
  if buffer_remaining <=? total_header then Done (- ENOMEM, state)
  else
    let per_tdf_fields := if is_diff then tdf_len / tdf_diff_divisor format else 0 in
    let per_tdf_diff_size :=
      if is_diff then u8 (per_tdf_fields * tdf_diff_size format) else 1 in
    let total_data := payload_bytes is_diff tdf_len tdf_num per_tdf_diff_size in
    let payload_space := u16 (buffer_remaining - total_header) in
    let can_fit :=
      if payload_space <? total_data
      then can_fit_count is_diff is_idx tdf_len tdf_num payload_space per_tdf_diff_size
      else tdf_num in
    if (payload_space <? total_data) && (can_fit =? 0) then Done (- ENOMEM, state)
    else
      let tdf_num := can_fit in
      let total_data :=
        if payload_space <? total_data
        then payload_bytes is_diff tdf_len tdf_num per_tdf_diff_size else total_data in
      if negb (0 <? tdf_num) then Fault (* __ASSERT_NO_MSG(tdf_num > 0) *) else
      let! (state, header) :=
        tdf_add_header state tdf_header tdf_id tdf_len time timestamp_delta in
      let! (state, array_header_ptr) :=
        tdf_add_array_header state header tdf_num idx_period is_idx is_diff in
      let! state :=
        tdf_add_payload state array_header_ptr is_diff diff_precomputed format tdf_len
          tdf_num per_tdf_fields per_tdf_diff_size total_data data in
      Done (tdf_num, state).

Definition tdf_add_core (state : tdf_buffer_state)
  (tdf_id tdf_len tdf_num time idx_period : Z) (data : list Z) (format : Z)
  : exec (Z * tdf_buffer_state) :=
  let buffer_remaining := u16 (net_buf_simple_tailroom (ts_buf state)) in
  let max_space := u16 (nb_size (ts_buf state) - nb_data (ts_buf state)) in
  let min_size :=
    u16 (sizeof_tdf_header + (if negb (time =? 0) then sizeof_tdf_time else 0) + tdf_len) in
  let is_idx := format =? TDF_DATA_FORMAT_IDX_ARRAY in
  let diff_precomputed := negb (Z.land format TDF_DATA_FORMAT_DIFF_PRECOMPUTED =? 0) in
  let format := Z.land format (Z.lnot TDF_DATA_FORMAT_DIFF_PRECOMPUTED) in
  let is_diff := format_is_diff format in
  let rc := tdf_input_validate tdf_id tdf_len tdf_num idx_period format min_size max_space in
  if rc <? 0 then Done (rc, state)
  else
    let '(timestamp_delta, timestamp_header, tdf_header) := timestamp_select (ts_time state) time in
    if is_diff && negb (tdf_len mod tdf_diff_divisor format =? 0) then Done (- EINVAL, state)
    else
      let! (is_diff, tdf_num) :=
        diff_select is_diff diff_precomputed format tdf_len tdf_num data in
      tdf_add_encoded state tdf_id tdf_len tdf_num time idx_period data format is_idx is_diff
        diff_precomputed timestamp_delta timestamp_header tdf_header buffer_remaining.

Definition tdf_add (state : tdf_buffer_state)
  (tdf_id tdf_len tdf_num time period : Z) (data : list Z) : exec (Z * tdf_buffer_state) :=
  let format :=
    if 1 <? tdf_num then TDF_DATA_FORMAT_TIME_ARRAY else TDF_DATA_FORMAT_SINGLE in
  tdf_add_core state tdf_id tdf_len tdf_num time period data format.

Definition tdf_buffer_state_reset (state : tdf_buffer_state) : tdf_buffer_state :=
  TdfState 0 (net_buf_simple_reset (ts_buf state)).
End tdf_add.

(** ** The parser *)

Definition tdf_time_flags_length (time_flags : Z) : Z :=
  if time_flags =? TDF_TIMESTAMP_ABSOLUTE then sizeof_tdf_time
  else if time_flags =? TDF_TIMESTAMP_RELATIVE then 2
  else if time_flags =? TDF_TIMESTAMP_EXTENDED_RELATIVE then 3
  else 0.

Definition p_set_time (p : tdf_parsed) (t : Z) : tdf_parsed :=
  TdfParsed t (p_id p) (p_len p) (p_type p) (p_num p) (p_period p) (p_data p).
Definition p_set_array (p : tdf_parsed) (type num : Z) : tdf_parsed :=
  TdfParsed (p_time p) (p_id p) (p_len p) type num (p_period p) (p_data p).
Definition p_set_period (p : tdf_parsed) (period : Z) : tdf_parsed :=
  TdfParsed (p_time p) (p_id p) (p_len p) (p_type p) (p_num p) period (p_data p).
(** [base_idx] is the low half of the union with [period]. *)
Definition p_set_base_idx (p : tdf_parsed) (idx : Z) : tdf_parsed :=
  p_set_period p (p_period p / 65536 * 65536 + idx).
Definition p_set_data (p : tdf_parsed) (data : list Z) : tdf_parsed :=
  TdfParsed (p_time p) (p_id p) (p_len p) (p_type p) (p_num p) (p_period p) data.

Section tdf_parse.
Context `{NetBufApi}.

Definition tdf_time_flags_consume (state : tdf_buffer_state) (parsed : tdf_parsed)
  (time_flags : Z) : exec (Z * tdf_buffer_state * tdf_parsed) :=
  if time_flags =? TDF_TIMESTAMP_ABSOLUTE then
    let! (b, t) := nb_pull_mem (ts_buf state) sizeof_tdf_time in
    let time := epoch_time_from (le_get (nb_load b t 4)) (le_get (nb_load b (t + 4) 2)) in
    Done (0, TdfState time b, p_set_time parsed time)
  else if time_flags =? TDF_TIMESTAMP_RELATIVE then
    let! (b, time_diff) := nb_pull_le 2 (ts_buf state) in
    if ts_time state =? 0 then Done (- EINVAL, TdfState (ts_time state) b, parsed)
    else
      let time := u64 (ts_time state + time_diff) in
      Done (0, TdfState time b, p_set_time parsed time)
  else if time_flags =? TDF_TIMESTAMP_EXTENDED_RELATIVE then
    let! (b, time_diff) := nb_pull_le 3 (ts_buf state) in
    let time_diff := s32 (sign_extend_24_bits time_diff) in
    if ts_time state =? 0 then Done (- EINVAL, TdfState (ts_time state) b, parsed)
    else
      let time := u64 (ts_time state + time_diff) in
      Done (0, TdfState time b, p_set_time parsed time)
  else Done (0, state, p_set_time parsed 0).

(** The array header: (rc, data_len, parsed).  [num] and [period] are the two
    fields of [struct tdf_array_header]. *)
Definition tdf_array_consume (parsed : tdf_parsed) (array_flags num period size : Z)
  : Z * Z * tdf_parsed :=
  let set_period parsed :=
    if negb (Z.land period TDF_ARRAY_TIME_PERIOD_SCALED =? 0) then
      p_set_period parsed (TDF_ARRAY_TIME_SCALE_FACTOR * Z.land period TDF_ARRAY_TIME_PERIOD_VAL_MASK)
    else p_set_period parsed period in
  if array_flags =? TDF_ARRAY_DIFF then
    let dt := Z.shiftr num 6 in
    let data_type := u8 (TDF_DATA_FORMAT_DIFF_ARRAY_16_8 + dt - 1) in
    let parsed := p_set_array parsed data_type (Z.land num 0x3F) in
    if dt =? TDF_DIFF_NONE then (- EINVAL, 0, parsed)
    else
      let diff_bytes_per_tdf := u8 (size / tdf_diff_divisor data_type * tdf_diff_size data_type) in
      let data_len := u16 (p_len parsed + p_num parsed * diff_bytes_per_tdf) in
      (0, data_len, set_period parsed)
  else if array_flags =? TDF_ARRAY_TIME then
    let parsed := p_set_array parsed TDF_DATA_FORMAT_TIME_ARRAY num in
    (0, u16 (p_len parsed * num), set_period parsed)
  else if array_flags =? TDF_ARRAY_IDX then
    let parsed := p_set_array parsed TDF_DATA_FORMAT_IDX_ARRAY num in
    (0, u16 (p_len parsed * num), p_set_base_idx parsed period)
  else (- EINVAL, 0, parsed).

(** From the array header to the end of the TDF. *)
Definition tdf_parse_payload (state : tdf_buffer_state) (parsed : tdf_parsed)
  (array_flags size : Z) : exec (Z * tdf_buffer_state * tdf_parsed) :=
  let! (rc, data_len, state, parsed) :=
    if negb (array_flags =? 0) then
      if nb_len (ts_buf state) <=? sizeof_tdf_array_header then
        Done (- EINVAL, 0, state, parsed)
      else
        let! (b, t_hdr) := nb_pull_mem (ts_buf state) sizeof_tdf_array_header in
        let num := le_get (nb_load b t_hdr 1) in
        let period := le_get (nb_load b (t_hdr + 1) 2) in
        let '(rc, data_len, parsed) :=
          tdf_array_consume parsed array_flags num period size in
        Done (rc, data_len, TdfState (ts_time state) b, parsed)
    else
      Done (0, p_len parsed, state, p_set_array parsed TDF_DATA_FORMAT_SINGLE (p_num parsed)) in
  if rc <? 0 then Done (rc, state, parsed)
  else if nb_len (ts_buf state) <? data_len then Done (- EINVAL, state, parsed)
  else
    let! (b, ptr) := nb_pull_mem (ts_buf state) data_len in
    Done (0, TdfState (ts_time state) b, p_set_data parsed (nb_load b ptr data_len)).

Definition tdf_parse (state : tdf_buffer_state) (parsed : tdf_parsed)
  : exec (Z * tdf_buffer_state * tdf_parsed) :=
  if nb_len (ts_buf state) <=? sizeof_tdf_header then Done (- ENOMEM, state, parsed)
  else
    let! (b, header) := nb_pull_mem (ts_buf state) sizeof_tdf_header in
    let state := TdfState (ts_time state) b in
    let id_flags := le_get (nb_load b header 2) in
    let size := le_get (nb_load b (header + 2) 1) in
    let time_flags := Z.land id_flags TDF_TIMESTAMP_MASK in
    let array_flags := Z.land id_flags TDF_ARRAY_MASK in
    let parsed := TdfParsed (p_time parsed) (Z.land id_flags TDF_ID_MASK) size
                    (p_type parsed) 1 0 (p_data parsed) in
    if (p_id parsed =? 0) || (p_id parsed =? 4095) then Done (- EINVAL, state, parsed)
    else if nb_len (ts_buf state) <=? tdf_time_flags_length time_flags then
      Done (- EINVAL, state, parsed)
    else
      let! (rc, state, parsed) := tdf_time_flags_consume state parsed time_flags in
      if rc <? 0 then Done (rc, state, parsed)
      else
        tdf_parse_payload state parsed array_flags size.

Definition tdf_parse_start (data : list Z) (size : Z) : tdf_buffer_state :=
  TdfState 0 (net_buf_simple_init_with_data data size).

(** The loop of [tdf_parse_find_in_buf]; [fuel] bounds the TDFs visited. *)
Fixpoint parse_find_loop (fuel : nat) (state : tdf_buffer_state) (tdf_id : Z)
  (parsed : tdf_parsed) : exec (Z * tdf_parsed) :=
  match fuel with
  | O => NoFuel
  | S fuel =>
      let! (rc, state, parsed) := tdf_parse state parsed in
      if rc =? 0 then
        if p_id parsed =? tdf_id then Done (0, parsed)
        else parse_find_loop fuel state tdf_id parsed
      else Done (- ENOMEM, parsed)
  end.

(** Every TDF takes at least three bytes, so [size] iterations are enough. *)
Definition tdf_parse_find_in_buf (data : list Z) (size tdf_id : Z) (parsed : tdf_parsed)
  : exec (Z * tdf_parsed) :=
  parse_find_loop (S (Z.to_nat size)) (tdf_parse_start data size) tdf_id parsed.
End tdf_parse.

(** Applying differences one TDF at a time: [diff_ptr] advances over [diffs]. *)
Fixpoint apply_diffs (apply_fn : Z -> list Z -> list Z -> list Z -> list Z)
  (tdf_len per_tdf_diff_size : Z) (n : nat) (output diffs : list Z) : list Z :=
  match n with
  | O => output
  | S n =>
      apply_diffs apply_fn tdf_len per_tdf_diff_size n
        (apply_fn tdf_len output output diffs) (zdrop per_tdf_diff_size diffs)
  end.

(** [inl rc] on failure, [inr output] with the reconstructed TDF otherwise. *)
Definition tdf_parse_diff_reconstruct (parsed : tdf_parsed) (idx : Z) : Z + list Z :=
  let diff_ptr := zdrop (p_len parsed) (p_data parsed) in
  let format := p_type parsed in
  if negb (format_is_diff format) || (p_num parsed <? idx) then inl (- EINVAL)
  else
    let apply_fn := tdf_diff_apply_functions format in
    let per_tdf_fields := p_len parsed / tdf_diff_divisor format in
    let per_tdf_diff_size := per_tdf_fields * tdf_diff_size format in
    let output := ztake (p_len parsed) (p_data parsed) in
    inr (apply_diffs apply_fn (p_len parsed) per_tdf_diff_size (Z.to_nat idx) output diff_ptr).
