(* ===== verification/TdfWire.v ===== *)
(** * The TDF wire format

    What [Tdf.tdf_add_core] appends to the buffer, as a pure function of the
    decisions it makes: [tdf_wire].  The lemmas here show that each write helper
    of the encoder appends exactly its part of the wire image. *)

From stdpp Require Import base tactics numbers list.
From Stdlib Require Import ZArith Lia.
From S2P Require Import Prelude NetBuf Epoch TdfDiffs Tdf.

Local Open Scope Z_scope.
Local Open Scope infuse_scope.

(** Timestamp bytes for each timestamp flag. *)
Definition ts_bytes (tdf_header time delta : Z) : list Z :=
  if tdf_header =? TDF_TIMESTAMP_RELATIVE then le_put 2 delta
  else if tdf_header =? TDF_TIMESTAMP_EXTENDED_RELATIVE then le_put 3 delta
  else if tdf_header =? TDF_TIMESTAMP_ABSOLUTE then
    le_put 4 (epoch_time_seconds time) ++ le_put 2 (epoch_time_subseconds time)
  else [].

Definition array_flag (is_idx is_diff : bool) : Z :=
  if is_idx then TDF_ARRAY_IDX else if is_diff then TDF_ARRAY_DIFF else TDF_ARRAY_TIME.

Definition period_field (is_idx : bool) (idx_period : Z) : Z :=
  if is_idx then u16 idx_period
  else if TDF_ARRAY_TIME_PERIOD_VAL_MASK <? idx_period then
    Z.lor TDF_ARRAY_TIME_PERIOD_SCALED (idx_period / TDF_ARRAY_TIME_SCALE_FACTOR)
  else idx_period.

Definition num_field (is_diff : bool) (format tdf_num : Z) : Z :=
  if is_diff then Z.lor (Z.shiftl (tdf_diff_encoded format) 6) (tdf_num - 1) else tdf_num.

(** Bytes of one TDF's differences. *)
Definition diff_bytes (format tdf_len : Z) : Z :=
  tdf_len / tdf_diff_divisor format * tdf_diff_size format.

Definition tdf_payload (is_diff precomputed : bool) (format tdf_len tdf_num : Z)
  (data : list Z) : list Z :=
  if is_diff && (1 <? tdf_num) then
    if precomputed then ztake (tdf_len + (tdf_num - 1) * diff_bytes format tdf_len) data
    else
      ztake tdf_len data ++
      tdf_diff_encode_functions format ((tdf_num - 1) * (tdf_len / tdf_diff_divisor format))
        data (ztake ((tdf_num - 1) * tdf_len) (zdrop tdf_len data))
  else ztake (tdf_len * tdf_num) data.

(** [flag] is the array flag, zero for a single TDF. *)
Definition tdf_header_bytes (tdf_header tdf_id tdf_len flag : Z) : list Z :=
  le_put 2 (Z.lor (Z.lor tdf_header tdf_id) flag) ++ le_put 1 tdf_len.

Definition array_bytes (is_idx is_diff : bool) (format tdf_num idx_period : Z) : list Z :=
  le_put 1 (num_field is_diff format tdf_num) ++ le_put 2 (period_field is_idx idx_period).

Definition has_array (is_idx : bool) (tdf_num : Z) : bool := negb ((tdf_num <=? 1) && negb is_idx).

Definition tdf_wire (tdf_header tdf_id tdf_len tdf_num time delta idx_period : Z)
  (is_idx is_diff precomputed : bool) (format : Z) (data : list Z) : list Z :=
  let flag := if has_array is_idx tdf_num then array_flag is_idx is_diff else 0 in
  tdf_header_bytes tdf_header tdf_id tdf_len flag ++
  ts_bytes tdf_header time delta ++
  (if has_array is_idx tdf_num
   then array_bytes is_idx is_diff format tdf_num idx_period else []) ++
  tdf_payload is_diff precomputed format tdf_len tdf_num data.

Lemma zlen_ts_bytes state_time time delta th hdr :
  timestamp_select state_time time = (delta, th, hdr) ->
  zlen (ts_bytes hdr time delta) = th.
Proof.
  unfold timestamp_select. intros Hs.
  repeat split_match_in Hs; injection Hs as <- <- <-; unfold ts_bytes; simpl;
    rewrite ?zlen_app, ?zlen_le_put; done.
Qed.

Lemma zlen_1 (l : list Z) : zlen l = 1 -> exists a, l = [a].
Proof. unfold zlen. intros. destruct l as [|a [|]]; simpl in *; try lia. eauto. Qed.

Lemma zlen_split (l : list Z) a b :
  0 <= a -> 0 <= b -> zlen l = a + b -> exists x y, l = x ++ y /\ zlen x = a /\ zlen y = b.
Proof.
  intros. exists (ztake a l), (zdrop a l). rewrite ztake_zdrop, zlen_ztake, zlen_zdrop by lia.
  repeat split; lia.
Qed.

(** Bytes of a [le_put] with its width as a [Z]. *)
Ltac zlen_lia := autorewrite with zlen; try lia.

(** The three diff formats, each with its field width and difference width. *)
Inductive diff_format : Z -> nat -> nat -> Prop :=
| diff_format_16_8 : diff_format TDF_DATA_FORMAT_DIFF_ARRAY_16_8 2 1
| diff_format_32_8 : diff_format TDF_DATA_FORMAT_DIFF_ARRAY_32_8 4 1
| diff_format_32_16 : diff_format TDF_DATA_FORMAT_DIFF_ARRAY_32_16 4 2.

Lemma format_is_diff_iff f : format_is_diff f = true <-> exists w d, diff_format f w d.
Proof.
  unfold format_is_diff. rewrite !orb_true_iff, !Z.eqb_eq. split.
  - intros [[->| ->]| ->]; eauto using diff_format.
  - intros (w & d & []); auto.
Qed.

Lemma diff_format_tables f w d :
  diff_format f w d ->
  (0 < d <= w)%nat /\ tdf_diff_divisor f = Z.of_nat w /\ tdf_diff_size f = Z.of_nat d /\
  tdf_diff_encoded f + 2 = f /\ 1 <= tdf_diff_encoded f <= 3.
Proof. intros []; repeat split; try reflexivity; try lia; vm_compute; congruence. Qed.

Lemma diff_format_functions f w d :
  diff_format f w d ->
  (forall len, tdf_diff_check_functions f len = diff_check w d (num_fields len w)) /\
  (forall k, tdf_diff_encode_functions f k = diff_encode w d (Z.to_nat k)) /\
  tdf_diff_apply_functions f = diff_apply_out w d.
Proof. intros []; repeat split; intros; reflexivity. Qed.

Lemma diff_bytes_bound f w d len :
  diff_format f w d -> 0 < len <= 255 -> len mod tdf_diff_divisor f = 0 ->
  0 < diff_bytes f len <= len /\
  diff_bytes f len = Z.of_nat (num_fields len w * d) /\
  len = Z.of_nat (num_fields len w * w).
Proof.
  intros Hf Hlen Hmod. destruct (diff_format_tables f w d Hf) as (Hwd & Hdiv & Hsz & _).
  unfold diff_bytes, num_fields. rewrite Hdiv, Hsz in *.
  pose proof (Z.div_mod len (Z.of_nat w) ltac:(lia)) as Hdm. rewrite Hmod in Hdm.
  assert (0 < len / Z.of_nat w) by nia.
  rewrite !Nat2Z.inj_mul, Z2Nat.id by lia. repeat split; nia.
Qed.

Section repr.
Context `{NetBufSpec}.

Lemma room_repr b pre c post : nb_repr b pre c post -> nb_room b = nb_size b - zlen pre - zlen c.
Proof. intros (_ & Hd & Hl & _). unfold nb_room. lia. Qed.

(** [nb_add] of [n] bytes whose storage is then written in two parts. *)
Lemma nb_add_store2 b pre c post n bs1 bs2 :
  nb_repr b pre c post -> n = zlen bs1 + zlen bs2 -> n <= nb_room b ->
  exists post' b' ptr, nb_add b n = Done (b', ptr) /\ ptr = zlen pre + zlen c /\
    nb_repr (nb_store (nb_store b' ptr bs1) (ptr + zlen bs1) bs2) pre (c ++ bs1 ++ bs2) post' /\
    nb_size b' = nb_size b.
Proof.
  intros Hr Hn Hroom. pose proof (zlen_nonneg bs1). pose proof (zlen_nonneg bs2).
  destruct (nb_add_repr b pre c post n Hr ltac:(lia)) as (x & post' & b' & -> & Hx & Ha & Hr' & Hs).
  destruct (zlen_split x (zlen bs1) (zlen bs2)) as (x1 & x2 & -> & Hx1 & Hx2); [lia..|].
  exists post', b', (zlen pre + zlen c). split; [done|]. split; [done|]. split; [|done].
  pose proof (nb_store_repr b' pre c x1 x2 post' (zlen pre + zlen c) bs1 Hr' eq_refl Hx1) as Hr1.
  rewrite (app_assoc c bs1 bs2). rewrite (app_assoc c bs1 x2) in Hr1.
  eapply nb_store_repr_end; [exact Hr1| |done]. rewrite zlen_app. lia.
Qed.

Lemma tdf_add_header_repr st hdr id len time delta pre c post :
  nb_repr (ts_buf st) pre c post ->
  3 + zlen (ts_bytes hdr time delta) <= nb_room (ts_buf st) ->
  exists post' st', tdf_add_header st hdr id len time delta = Done (st', zlen pre + zlen c) /\
    nb_repr (ts_buf st') pre
      (c ++ (le_put 2 (Z.lor hdr id) ++ le_put 1 len) ++ ts_bytes hdr time delta) post' /\
    nb_size (ts_buf st') = nb_size (ts_buf st) /\
    ts_time st' = if (hdr =? TDF_TIMESTAMP_RELATIVE) || (hdr =? TDF_TIMESTAMP_EXTENDED_RELATIVE)
                     || (hdr =? TDF_TIMESTAMP_ABSOLUTE) then time else ts_time st.
Proof.
  intros Hr Hroom. pose proof (zlen_nonneg (ts_bytes hdr time delta)).
  destruct (nb_add_store2 (ts_buf st) pre c post 3 (le_put 2 (Z.lor hdr id)) (le_put 1 len) Hr)
    as (post1 & b1 & ptr & Ha & -> & Hr1 & Hs1); [zlen_lia|lia|].
  unfold tdf_add_header. change sizeof_tdf_header with 3. rewrite Ha. cbn [exec_bind].
  change (zlen (le_put 2 (Z.lor hdr id))) with 2 in Hr1.
  set (b2 := nb_store (nb_store b1 _ _) _ _) in *.
  assert (Hs2 : nb_size b2 = nb_size (ts_buf st)) by exact Hs1.
  assert (Hroom2 : nb_room b2 = nb_room (ts_buf st) - 3).
  { rewrite (room_repr _ _ _ _ Hr1), (room_repr _ _ _ _ Hr), Hs2. zlen_lia. }
  unfold ts_bytes in *.
  destruct (hdr =? TDF_TIMESTAMP_RELATIVE) eqn:E1; cbn [orb].
  { destruct (nb_add_mem_repr b2 _ _ _ (le_put 2 delta) Hr1 ltac:(lia)) as (post2 & b3 & Ha3 & Hr3 & Hs3).
    exists post2, (TdfState time b3). unfold nb_add_le. rewrite Ha3. cbn.
    rewrite <- app_assoc in Hr3. by rewrite Hs3, Hs2. }
  destruct (hdr =? TDF_TIMESTAMP_EXTENDED_RELATIVE) eqn:E2; cbn [orb].
  { destruct (nb_add_mem_repr b2 _ _ _ (le_put 3 delta) Hr1 ltac:(lia)) as (post2 & b3 & Ha3 & Hr3 & Hs3).
    exists post2, (TdfState time b3). unfold nb_add_le. rewrite Ha3. cbn.
    rewrite <- app_assoc in Hr3. by rewrite Hs3, Hs2. }
  destruct (hdr =? TDF_TIMESTAMP_ABSOLUTE) eqn:E3; cbn [orb].
  { destruct (nb_add_store2 b2 pre _ _ 6 (le_put 4 (epoch_time_seconds time))
                (le_put 2 (epoch_time_subseconds time)) Hr1)
      as (post2 & b3 & ptr & Ha3 & Hptr & Hr3 & Hs3); [zlen_lia|rewrite zlen_app, !zlen_le_put in *; lia|].
    change sizeof_tdf_time with 6. rewrite Ha3. cbn [exec_bind].
    eexists post2, _. split; [done|]. cbn [ts_buf ts_time].
    rewrite <- app_assoc in Hr3. split; [exact Hr3|]. by rewrite <- Hs2, <- Hs3. }
  exists post1, (TdfState (ts_time st) b2). rewrite app_nil_r. done.
Qed.

Lemma header_or_flag_repr b pre c fl tail post flag :
  nb_repr b pre (c ++ le_put 2 fl ++ tail) post -> in_u 16 fl ->
  nb_repr (header_or_flag b (zlen pre + zlen c) flag) pre
    (c ++ le_put 2 (Z.lor fl flag) ++ tail) post.
Proof.
  intros Hr Hfl. unfold header_or_flag.
  assert (Hload : nb_load b (zlen pre + zlen c) 2 = le_put 2 fl).
  { apply (nb_load_mid _ (pre ++ c) _ (tail ++ post)); [|zlen_lia..].
    destruct Hr as (Hm & _). rewrite Hm. by rewrite <- !app_assoc. }
  rewrite Hload, le_get_put. change (8 * Z.of_nat 2) with 16.
  rewrite Z.mod_small by exact Hfl.
  eapply nb_store_repr; [exact Hr|done|]. by rewrite !zlen_le_put.
Qed.

Lemma tdf_add_array_header_repr st n period is_idx is_diff pre c fl tail post :
  nb_repr (ts_buf st) pre (c ++ le_put 2 fl ++ tail) post -> in_u 16 fl ->
  has_array is_idx n = true -> 3 <= nb_room (ts_buf st) ->
  exists post' st',
    tdf_add_array_header st (zlen pre + zlen c) n period is_idx is_diff =
      Done (st', Some (zlen pre + zlen c + 2 + zlen tail)) /\
    nb_repr (ts_buf st') pre
      (c ++ le_put 2 (Z.lor fl (array_flag is_idx is_diff)) ++ tail ++
       le_put 1 n ++ le_put 2 (period_field is_idx period)) post' /\
    nb_size (ts_buf st') = nb_size (ts_buf st) /\ ts_time st' = ts_time st.
Proof.
  intros Hr Hfl Harr Hroom.
  destruct (nb_add_repr _ _ _ _ 3 Hr ltac:(lia)) as (x & post' & b1 & -> & Hx & Ha & Hr1 & Hs1).
  destruct (zlen_split x 1 2) as (x1 & x2 & -> & Hx1 & Hx2); [lia..|].
  unfold tdf_add_array_header. unfold has_array in Harr.
  destruct ((n <=? 1) && negb is_idx) eqn:E; [done|]. clear E Harr.
  change sizeof_tdf_array_header with 3. rewrite Ha. cbn [exec_bind].
  assert (Hptr : zlen pre + zlen (c ++ le_put 2 fl ++ tail) = zlen pre + zlen c + 2 + zlen tail)
    by zlen_lia.
  rewrite Hptr. clear Ha.
  (* the flag, then the period, then the count *)
  set (fb := header_or_flag b1 (zlen pre + zlen c) (array_flag is_idx is_diff)).
  set (ptr := zlen pre + zlen c + 2 + zlen tail).
  set (pb := nb_store fb (ptr + 1) (le_put 2 (period_field is_idx period))).
  exists post', (TdfState (ts_time st) (nb_store pb ptr (le_put 1 n))).
  split.
  { f_equal. f_equal. f_equal. unfold pb, fb, period_field, array_flag.
    by destruct is_idx, is_diff, (TDF_ARRAY_TIME_PERIOD_VAL_MASK <? period). }
  split; [|split; [exact Hs1|done]]. cbn [ts_buf].
  assert (Hf : nb_repr fb pre (c ++ le_put 2 (Z.lor fl (array_flag is_idx is_diff)) ++
                               tail ++ x1 ++ x2) post').
  { apply header_or_flag_repr; [|done]. by rewrite <- !app_assoc in Hr1. }
  set (fl' := le_put 2 (Z.lor fl (array_flag is_idx is_diff))) in *.
  assert (Hp : nb_repr pb pre ((c ++ fl' ++ tail) ++ x1 ++ le_put 2 (period_field is_idx period)) post').
  { rewrite (app_assoc _ x1). eapply nb_store_repr_end.
    - by rewrite <- !app_assoc.
    - unfold ptr, fl'. zlen_lia.
    - by rewrite zlen_le_put. }
  replace (c ++ fl' ++ tail ++ le_put 1 n ++ le_put 2 (period_field is_idx period)) with
    ((c ++ fl' ++ tail) ++ le_put 1 n ++ le_put 2 (period_field is_idx period))
    by (by rewrite <- !app_assoc).
  eapply nb_store_repr; [exact Hp| |by rewrite zlen_le_put].
  unfold ptr, fl'. zlen_lia.
Qed.

Lemma data_read_ok data off n :
  off + n <= zlen data -> data_read data off n = Done (ztake n (zdrop off data)).
Proof. intros. unfold data_read. by replace (off + n <=? zlen data) with true by lia. Qed.

(** The bytes of the caller's array that the encoder reads for [tdf_num] TDFs. *)
Definition data_needed (is_diff precomputed : bool) (format tdf_len tdf_num : Z) : Z :=
  if is_diff && precomputed then tdf_len + (tdf_num - 1) * diff_bytes format tdf_len
  else tdf_len * tdf_num.

Lemma tdf_add_payload_plain st aptr is_diff precomp format len n fields pds data pre c post :
  nb_repr (ts_buf st) pre c post -> is_diff && (1 <? n) = false ->
  0 < len -> 0 < n -> len * n <= zlen data -> len * n <= nb_room (ts_buf st) ->
  exists post' st',
    tdf_add_payload st aptr is_diff precomp format len n fields pds (len * n) data = Done st' /\
    nb_repr (ts_buf st') pre (c ++ tdf_payload is_diff precomp format len n data) post' /\
    nb_size (ts_buf st') = nb_size (ts_buf st) /\ ts_time st' = ts_time st.
Proof.
  intros Hr Hd Hlen Hn Hdata Hroom. unfold tdf_add_payload, tdf_payload. rewrite Hd.
  rewrite data_read_ok by lia. cbn [exec_bind]. rewrite zdrop_0 by lia.
  destruct (nb_add_mem_repr _ _ _ _ (ztake (len * n) data) Hr) as (post' & b & Ha & Hr' & Hs).
  { rewrite zlen_ztake; lia. }
  rewrite Ha. eexists post', _. cbn. done.
Qed.

Lemma tdf_add_payload_diff st precomp format w d len n pre c nb rest post data :
  nb_repr (ts_buf st) pre (c ++ nb ++ rest) post -> zlen nb = 1 ->
  diff_format format w d -> 0 < len <= 255 -> len mod tdf_diff_divisor format = 0 -> 1 < n ->
  data_needed true precomp format len n <= zlen data ->
  len + (n - 1) * diff_bytes format len <= nb_room (ts_buf st) ->
  exists post' st',
    tdf_add_payload st (Some (zlen pre + zlen c)) true precomp format len n
      (len / tdf_diff_divisor format) (diff_bytes format len)
      (len + (n - 1) * diff_bytes format len) data = Done st' /\
    nb_repr (ts_buf st') pre
      (c ++ le_put 1 (num_field true format n) ++ rest ++
       tdf_payload true precomp format len n data) post' /\
    nb_size (ts_buf st') = nb_size (ts_buf st) /\ ts_time st' = ts_time st.
Proof.
  intros Hr Hnb Hf Hlen Hmod Hn Hdata Hroom.
  destruct (diff_format_tables _ _ _ Hf) as (Hwd & Hdiv & Hsz & _).
  destruct (diff_format_functions _ _ _ Hf) as (_ & Henc & _).
  destruct (diff_bytes_bound _ _ _ _ Hf Hlen Hmod) as (Hdb & Hdb2 & Hlen2).
  set (db := diff_bytes format len) in *.
  unfold tdf_add_payload, tdf_payload. replace (1 <? n) with true by lia. cbn [andb].
  unfold data_needed in Hdata. cbn [andb] in Hdata. fold db in Hdata.
  destruct precomp; cbn [exec_bind].
  - rewrite data_read_ok by lia. cbn [exec_bind]. rewrite zdrop_0 by lia.
    destruct (nb_add_mem_repr _ _ _ _ (ztake (len + (n - 1) * db) data) Hr)
      as (post' & b & Ha & Hr' & Hs); [rewrite zlen_ztake; lia|].
    rewrite Ha. cbn [exec_bind]. eexists post', _. split; [done|]. cbn [ts_buf ts_time].
    split; [|split; [exact Hs|done]].
    rewrite <- !app_assoc in Hr'.
    eapply nb_store_repr; [exact Hr'|done|by rewrite zlen_le_put].
  - rewrite !data_read_ok by nia. cbn [exec_bind]. rewrite (zdrop_0 0) by lia.
    destruct (nb_add_mem_repr _ _ _ _ (ztake len data) Hr)
      as (post1 & b1 & Ha1 & Hr1 & Hs1); [rewrite zlen_ztake; nia|].
    rewrite Ha1. cbn [exec_bind].
    assert (Hroom1 : nb_room b1 = nb_room (ts_buf st) - len).
    { rewrite (room_repr _ _ _ _ Hr1), (room_repr _ _ _ _ Hr), Hs1.
      autorewrite with zlen. rewrite zlen_ztake by nia. lia. }
    destruct (nb_add_repr _ _ _ _ ((n - 1) * db) Hr1 ltac:(nia))
      as (x & post2 & b2 & -> & Hx & Ha2 & Hr2 & Hs2).
    rewrite Ha2. cbn [exec_bind]. eexists post2, _. split; [done|]. cbn [ts_buf ts_time].
    split; [|split; [cbn; congruence|done]].
    eapply (nb_store_repr _ _ c nb); [|done|by rewrite zlen_le_put].
    rewrite !app_assoc. eapply nb_store_repr_end.
    + rewrite !app_assoc in Hr2. exact Hr2.
    + by rewrite ?app_assoc.
    + rewrite Hx, Henc. unfold zlen. rewrite length_diff_encode.
      rewrite Hdb2, Hdiv. unfold num_fields. nia.
Qed.
End repr.
