(* ===== verification/TdfEncode.v ===== *)
(** * Correctness of the TDF encoder

    [tdf_add_core] either leaves the buffer alone and returns an error, or
    appends the wire image of the first [rc] TDFs.  The one exception is proved
    as well: for two byte TDFs it can write past the end of the buffer. *)

From stdpp Require Import base tactics numbers list.
From Stdlib Require Import ZArith Lia.
From S2P Require Import Prelude NetBuf Epoch TdfDiffs Tdf TdfWire.

Local Open Scope Z_scope.
Local Open Scope infuse_scope.

(** ** Counting valid diffs *)

(** The step from sample [i] to sample [i + 1] can be stored as a diff. *)
Definition step_valid (format tdf_len : Z) (data : list Z) (i : Z) : bool :=
  tdf_diff_check_functions format tdf_len
    (zdrop (i * tdf_len) data) (zdrop ((i + 1) * tdf_len) data).

Section valid_diffs.
Context (format tdf_len : Z) (data : list Z).
Let check := tdf_diff_check_functions format.
Let valid := step_valid format tdf_len data.

Lemma find_first_valid_spec fuel num i :
  0 <= i -> num - 2 - i <= Z.of_nat fuel -> i <= num - 1 ->
  exists i', find_first_valid check tdf_len data fuel num i (i * tdf_len) ((i + 1) * tdf_len)
    = Done (i', if i' <? num - 2 then (i' + 2) * tdf_len else i' * tdf_len,
            if i' <? num - 2 then (i' + 3) * tdf_len else (i' + 1) * tdf_len) /\
    i <= i' <= num - 1 /\
    (i' < num - 2 -> valid i' = true /\ valid (i' + 1) = true).
Proof.
  revert i. induction fuel as [|fuel IH]; intros i Hi Hf Hle; cbn [find_first_valid].
  { replace (i <? num - 2) with false by lia. exists i.
    replace (i <? num - 2) with false by lia. repeat split; try done; lia. }
  destruct (Z.ltb_spec i (num - 2)) as [Hlt|Hge].
  2: { exists i. replace (i <? num - 2) with false by lia. repeat split; try done; lia. }
  unfold check at 1. change (tdf_diff_check_functions format tdf_len
    (zdrop (i * tdf_len) data) (zdrop ((i + 1) * tdf_len) data)) with (valid i).
  replace (i * tdf_len + tdf_len) with ((i + 1) * tdf_len) by lia.
  replace ((i + 1) * tdf_len + tdf_len) with ((i + 1 + 1) * tdf_len) by lia.
  destruct (valid i) eqn:Hv.
  - unfold check at 1. change (tdf_diff_check_functions format tdf_len
      (zdrop ((i + 1) * tdf_len) data) (zdrop ((i + 1 + 1) * tdf_len) data)) with (valid (i + 1)).
    destruct (valid (i + 1)) eqn:Hv1.
    + exists i. replace (i <? num - 2) with true by lia.
      split; [do 2 f_equal; [f_equal; lia|lia]|]. split; [lia|done].
    + replace ((i + 1 + 1) * tdf_len + tdf_len) with ((i + 1 + 1 + 1) * tdf_len) by lia.
      destruct (IH (i + 1 + 1)) as (i' & -> & ? & ?); [lia..|].
      exists i'. split; [done|]. split; [lia|done].
  - destruct (IH (i + 1)) as (i' & -> & ? & ?); [lia..|].
    exists i'. split; [done|]. split; [lia|done].
Qed.

Lemma scan_valid_spec fuel num i :
  num - 1 - i <= Z.of_nat fuel -> i <= num - 1 ->
  exists r, scan_valid check tdf_len data fuel num i (i * tdf_len) ((i + 1) * tdf_len) = Done r /\
    i <= r <= num - 1 /\ (forall j, i <= j < r -> valid j = true) /\
    (r < num - 1 -> valid r = false).
Proof.
  revert i. induction fuel as [|fuel IH]; intros i Hf Hle; cbn [scan_valid].
  { replace (i <? num - 1) with false by lia. exists i. repeat split; try done; lia. }
  destruct (Z.ltb_spec i (num - 1)) as [Hlt|Hge].
  2: { exists i. repeat split; try done; lia. }
  unfold check at 1. change (tdf_diff_check_functions format tdf_len
    (zdrop (i * tdf_len) data) (zdrop ((i + 1) * tdf_len) data)) with (valid i).
  replace (i * tdf_len + tdf_len) with ((i + 1) * tdf_len) by lia.
  replace ((i + 1) * tdf_len + tdf_len) with ((i + 1 + 1) * tdf_len) by lia.
  destruct (valid i) eqn:Hv; cbn [negb].
  - destruct (IH (i + 1)) as (r & -> & ? & Hall & ?); [lia..|].
    exists r. split; [done|]. split; [lia|]. split; [|done].
    intros j Hj. destruct (Z.eq_dec j i) as [->|]; [done|]. apply Hall. lia.
  - exists i. repeat split; try done; lia.
Qed.

(** A positive result counts the valid leading steps (at least two, at most 63,
    and as many as there are); a negative one says how many samples to log
    without diffs. *)
Lemma tdf_num_valid_diffs_spec num :
  2 < num ->
  exists r, tdf_num_valid_diffs format tdf_len num data = Done r /\
    ((2 <= r <= Z.min num 64 - 1 /\ (forall j, 0 <= j < r -> valid j = true) /\
      (r < Z.min num 64 - 1 -> valid r = false)) \/
     (1 <= - r <= num /\ valid 0 && valid 1 = false)).
Proof.
  intros Hnum. unfold tdf_num_valid_diffs. replace (2 <? num) with true by lia. cbn [negb].
  destruct (find_first_valid_spec (Z.to_nat num) num 0) as (i & Hfind & Hi & Hv); [lia..|].
  rewrite Z.mul_0_l, Z.add_0_l, Z.mul_1_l in Hfind. fold check. rewrite Hfind. cbn [exec_bind].
  destruct (Z.eqb_spec i 0) as [->|Hi0].
  - replace (0 <? num - 2) with true by lia. destruct (Hv ltac:(lia)) as [Hv0 Hv1].
    destruct (scan_valid_spec (Z.to_nat num) (Z.min num TDF_MAXIMUM_DIFFS) 2)
      as (r & Hr & Hb & Hall & Hmax); [unfold TDF_MAXIMUM_DIFFS; lia..|].
    change (0 + 2) with 2. change (0 + 3) with (2 + 1). rewrite Hr.
    unfold TDF_MAXIMUM_DIFFS in *. exists r. split; [done|]. left. split; [lia|].
    split; [|done]. intros j Hj.
    destruct (Z.eq_dec j 0) as [->|]; [done|]. destruct (Z.eq_dec j 1) as [->|]; [done|].
    apply Hall. lia.
  - assert (Hne : valid 0 && valid 1 = false).
    { destruct (valid 0 && valid 1) eqn:E; [|done]. exfalso.
      apply andb_true_iff in E as [E0 E1].
      assert (Hs : find_first_valid check tdf_len data (Z.to_nat num) num 0 0 tdf_len =
        Done (0, tdf_len + tdf_len, tdf_len + tdf_len + tdf_len)); [|congruence].
      destruct (Z.to_nat num) as [|f] eqn:Ef; [lia|]. cbn [find_first_valid].
      replace (0 <? num - 2) with true by lia.
      unfold valid, step_valid in E0, E1. fold check in E0, E1.
      rewrite Z.mul_0_l, Z.add_0_l, Z.mul_1_l in E0.
      rewrite Z.mul_1_l, (Z.mul_add_distr_r 1 1), Z.mul_1_l in E1.
      by rewrite E0, Z.add_0_l, E1. }
    destruct (Z.eqb_spec i (num - 2)).
    + exists (- (i + 2)). split; [done|]. right. split; [lia|done].
    + exists (- i). split; [done|]. right. split; [lia|done].
Qed.
End valid_diffs.

(** ** Inputs of the encoder *)

Definition fmt_precomputed (format : Z) : bool :=
  negb (Z.land format TDF_DATA_FORMAT_DIFF_PRECOMPUTED =? 0).
Definition fmt_base (format : Z) : Z :=
  Z.land format (Z.lnot TDF_DATA_FORMAT_DIFF_PRECOMPUTED).

(** The arguments are values of their C types and [data] points to enough bytes. *)
Record tdf_args_ok (tdf_id tdf_len tdf_num time idx_period : Z) (data : list Z) (format : Z)
  : Prop := {
  args_id : in_u 16 tdf_id;
  args_len : in_u 8 tdf_len;
  args_num : in_u 8 tdf_num;
  args_time : in_u 64 time;
  args_period : in_u 32 idx_period;
  args_format : fmt_precomputed format = true -> format_is_diff (fmt_base format) = true;
  args_data :
    data_needed (format_is_diff (fmt_base format) && (2 <? tdf_num)) (fmt_precomputed format)
      (fmt_base format) tdf_len tdf_num <= zlen data;
}.

(** A buffer whose [size] is a [uint16_t]. *)
Definition tdf_state_ok (st : tdf_buffer_state) : Prop :=
  nb_wf (ts_buf st) /\ nb_size (ts_buf st) < 2 ^ 16 /\ in_u 64 (ts_time st).

Lemma fmt_idx_base format :
  (format =? TDF_DATA_FORMAT_IDX_ARRAY) = true -> fmt_base format = TDF_DATA_FORMAT_IDX_ARRAY.
Proof. intros ->%Z.eqb_eq. reflexivity. Qed.

Lemma fmt_not_idx format :
  (fmt_precomputed format = true -> format_is_diff (fmt_base format) = true) ->
  format <> TDF_DATA_FORMAT_IDX_ARRAY -> fmt_base format <> TDF_DATA_FORMAT_IDX_ARRAY.
Proof.
  intros Hp Hne Hb. destruct (fmt_precomputed format) eqn:E.
  - specialize (Hp eq_refl). by rewrite Hb in Hp.
  - apply Hne. rewrite <- Hb. unfold fmt_precomputed, fmt_base in *.
    apply negb_false_iff, Z.eqb_eq in E.
    rewrite <- (Z.lor_ldiff_and format TDF_DATA_FORMAT_DIFF_PRECOMPUTED) at 1.
    by rewrite E, Z.lor_0_r, Z.ldiff_land.
Qed.

(** What [diff_select] decides. *)
Definition diff_choice_ok (precomp : bool) (format tdf_len tdf_num : Z) (data : list Z)
  (is_diff : bool) (n : Z) : Prop :=
  1 <= n <= tdf_num /\
  (is_diff = true ->
     format_is_diff format = true /\ 2 < n /\
     (precomp = false -> n <= 64 /\
        forall j, 0 <= j < n - 1 -> step_valid format tdf_len data j = true)) /\
  (precomp = true -> is_diff = format_is_diff format && (2 <? tdf_num) /\ n = tdf_num).

Lemma diff_select_spec precomp format tdf_len tdf_num data :
  0 < tdf_num < 256 ->
  exists is_diff n,
    diff_select (format_is_diff format) precomp format tdf_len tdf_num data = Done (is_diff, n) /\
    diff_choice_ok precomp format tdf_len tdf_num data is_diff n.
Proof.
  intros Hn. unfold diff_select, diff_choice_ok.
  destruct (format_is_diff format) eqn:Hf; cbn [andb];
    [|by exists false, tdf_num; repeat split; auto; lia].
  destruct (Z.ltb_spec 2 tdf_num) as [H2|H2];
    [|by exists false, tdf_num; repeat split; auto; lia].
  destruct precomp; cbn [negb]; [by exists true, tdf_num; repeat split; auto; lia|].
  destruct (tdf_num_valid_diffs_spec format tdf_len data tdf_num H2)
    as (r & -> & [(Hr & Hv & _)|(Hr & _)]); cbn [exec_bind].
  - replace (r <? 0) with false by lia. rewrite uwrap_small by lia.
    exists true, (1 + r). repeat split; auto; try lia. intros j Hj. apply Hv. lia.
  - replace (r <? 0) with true by lia. rewrite uwrap_small by lia.
    exists false, (- r). repeat split; auto; try lia; done.
Qed.

(** Payload size as a plain number. *)
Definition payload_size (is_diff : bool) (tdf_len n pds : Z) : Z :=
  if is_diff then tdf_len + (n - 1) * pds else tdf_len * n.

Lemma payload_bytes_eq is_diff len n pds :
  0 < len <= 255 -> 0 < n <= 255 -> 0 < pds <= len ->
  payload_bytes is_diff len n pds = payload_size is_diff len n pds.
Proof.
  intros. unfold payload_bytes, payload_size.
  destruct is_diff; cbn [negb]; apply uwrap_small; nia.
Qed.

(** A truncated count either fits behind the full header, or is a single TDF
    that fits once the array header is dropped. *)
Lemma can_fit_count_spec is_diff is_idx len n ps pds :
  0 < len <= 255 -> 0 < n <= 255 -> 0 < pds <= len -> 0 < ps < 2 ^ 16 - 3 ->
  (is_diff = true -> 1 < n) -> (len <> 2 \/ 2 <= ps \/ n = 1 \/ is_idx = true) ->
  ps < payload_size is_diff len n pds ->
  let cf := can_fit_count is_diff is_idx len n ps pds in
  cf <> 0 ->
  1 <= cf <= n /\
  (payload_size is_diff len cf pds <= ps \/
   (cf = 1 /\ 1 < n /\ is_idx = false /\ len <= ps + 3)).
Proof.
  intros Hlen Hn Hpds Hps Hdn H2 Hlt. unfold can_fit_count, payload_size in *.
  change sizeof_tdf_array_header with 3.
  assert (Hreclaim : ps < len -> 1 < n -> is_idx = false ->
    let k := u8 (u16 (ps + 3) / len) in k <> 0 -> k = 1 /\ len <= ps + 3).
  { intros Hl Hn1 Hni. cbv zeta. rewrite (uwrap_small 16) by lia.
    assert (Hq : (ps + 3) / len <= 1).
    { apply Z.lt_succ_r. apply Z.div_lt_upper_bound; [lia|]. destruct H2 as [?|[?|[?|?]]]; [lia..|congruence]. }
    assert (Hp : 0 <= (ps + 3) / len) by (apply Z.div_pos; lia).
    rewrite uwrap_small by lia. intros Hk. split; [lia|].
    assert (Hk1 : 1 <= (ps + 3) / len) by lia.
    pose proof (Z.mul_div_le (ps + 3) len ltac:(lia)). nia. }
  destruct is_diff; cbn [negb].
  - specialize (Hdn eq_refl). destruct (Z.leb_spec len ps) as [Hle|Hgt].
    + assert (Hq : 0 <= (ps - len) / pds < n - 1).
      { split; [apply Z.div_pos; lia|]. apply Z.div_lt_upper_bound; nia. }
      rewrite uwrap_small by lia.
      replace (1 + (ps - len) / pds =? 0) with false by lia. cbn [andb]. intros _.
      split; [lia|]. left. pose proof (Z.mul_div_le (ps - len) pds ltac:(lia)). nia.
    + cbn [andb]. rewrite Z.eqb_refl. cbn [andb]. destruct is_idx; cbn [negb andb].
      { rewrite andb_false_r. done. }
      replace (1 <? n) with true by lia. cbn [andb]. intros Hk.
      destruct (Hreclaim Hgt ltac:(lia) eq_refl Hk) as [-> Hle]. split; [lia|]. right. repeat split; lia.
  - assert (Hq : 0 <= ps / len < n).
    { split; [apply Z.div_pos; lia|]. apply Z.div_lt_upper_bound; nia. }
    rewrite (uwrap_small 8 (ps / len)) by lia.
    destruct (Z.eqb_spec (ps / len) 0) as [Hz|Hz]; cbn [andb].
    + assert (Hgt : ps < len) by (apply Z.div_small_iff in Hz; lia).
      destruct (Z.ltb_spec 1 n) as [Hn1|Hn1]; [|done]. destruct is_idx; cbn [negb andb]; [done|].
      intros Hk. destruct (Hreclaim Hgt ltac:(lia) eq_refl Hk) as [-> Hle]. split; [lia|]. right. repeat split; lia.
    + intros _. split; [lia|]. left. pose proof (Z.mul_div_le ps len ltac:(lia)). nia.
Qed.

(** At least one TDF fits when there is room for its payload. *)
Lemma can_fit_count_pos is_diff is_idx len n ps pds :
  0 < len <= ps -> 0 < n <= 255 -> 0 < pds <= len -> ps < payload_size is_diff len n pds ->
  can_fit_count is_diff is_idx len n ps pds <> 0.
Proof.
  intros Hlen Hn Hpds Hlt. unfold can_fit_count, payload_size in *. destruct is_diff; cbn [negb].
  - replace (len <=? ps) with true by lia.
    assert (Hq : 0 <= (ps - len) / pds < n - 1).
    { split; [apply Z.div_pos; lia|]. apply Z.div_lt_upper_bound; nia. }
    rewrite uwrap_small by lia. replace (1 + (ps - len) / pds =? 0) with false by lia. cbn [andb]. lia.
  - assert (Hq : 1 <= ps / len < n).
    { split; [apply Z.div_le_lower_bound; lia|]. apply Z.div_lt_upper_bound; nia. }
    rewrite (uwrap_small 8 (ps / len)) by lia. replace (ps / len =? 0) with false by lia. cbn [andb]. lia.
Qed.

(** The count chosen by the encoder fits: headers and payload of [cf] TDFs take
    no more than the free space. *)
Lemma fit_ok is_diff is_idx len n pds db room th :
  0 < len <= 255 -> 1 <= n <= 255 -> 0 < pds <= len ->
  (is_diff = true -> 2 < n /\ is_idx = false) -> (pds = if is_diff then db else 1) ->
  0 <= th <= 6 -> room < 2 ^ 16 -> (len <> 2 \/ room <> 7 + th \/ n = 1 \/ is_idx = true) ->
  let total_header := 3 + (if (1 <? n) || is_idx then 3 else 0) + th in
  let ps := room - total_header in
  let fits := ps <? payload_size is_diff len n pds in
  let cf := if fits then can_fit_count is_diff is_idx len n ps pds else n in
  total_header < room -> fits && (cf =? 0) = false ->
  1 <= cf <= n /\
  3 + th + (if has_array is_idx cf then 3 else 0) +
    payload_size (is_diff && (1 <? cf)) len cf db <= room.
Proof.
  intros Hlen Hn Hpds Hd Hdb Hth Hroom H2 total_header ps fits cf Hgt Hz.
  assert (Hcf : 1 <= cf <= n /\
    (payload_size is_diff len cf pds <= ps \/
     (cf = 1 /\ 1 < n /\ is_idx = false /\ len <= ps + 3))).
  { unfold cf. destruct fits eqn:Hf; unfold fits in Hf; [|split; [lia|left; lia]]. cbn [andb] in Hz.
    assert (Hth' : 3 <= total_header <= 12) by (unfold total_header; destruct (_ || _); lia).
    apply can_fit_count_spec; try lia; [intros Hi; destruct (Hd Hi); lia|].
    unfold ps, total_header in *. destruct H2 as [?|[?|[?|?]]]; auto.
    destruct (Z.ltb_spec 1 n); cbn [orb] in *; [|right; right; left; lia].
    destruct is_idx; cbn [orb] in *; [auto|lia]. }
  destruct Hcf as (Hcf & Hfit). split; [done|].
  replace (payload_size (is_diff && (1 <? cf)) len cf db) with (payload_size is_diff len cf pds).
  2: { unfold payload_size. rewrite Hdb. destruct is_diff; [|done]. cbn [andb].
       destruct (Z.ltb_spec 1 cf); [done|]. replace cf with 1 by lia. lia. }
  assert (Harr : has_array is_idx cf = (1 <? cf) || is_idx).
  { unfold has_array. destruct is_idx;
      rewrite ?andb_false_r, ?andb_true_r, ?orb_true_r, ?orb_false_r; cbn; lia. }
  rewrite Harr. destruct Hfit as [Hfit|(-> & Hn1 & -> & Hfit)].
  - unfold ps, total_header in *.
    destruct (Z.ltb_spec 1 cf), (Z.ltb_spec 1 n), is_idx; cbn [orb] in *; lia.
  - change (1 <? 1) with false. unfold ps, total_header in *. replace (1 <? n) with true in * by lia.
    cbn [orb] in *. unfold payload_size. destruct is_diff; lia.
Qed.

(** Fewer TDFs need fewer bytes of [data]. *)
Lemma data_needed_mono precomp fmt len num n cf is_diff avail :
  0 < len <= 255 -> 1 <= cf <= n -> n <= num ->
  (is_diff = true -> format_is_diff fmt = true /\ len mod tdf_diff_divisor fmt = 0) ->
  (precomp = true -> is_diff = format_is_diff fmt && (2 <? num) /\ n = num) ->
  data_needed (format_is_diff fmt && (2 <? num)) precomp fmt len num <= avail ->
  data_needed (is_diff && (1 <? cf)) precomp fmt len cf <= avail /\
  data_needed is_diff precomp fmt len cf <= avail.
Proof.
  intros Hlen Hcf Hn Hd Hp Hav. unfold data_needed in *.
  destruct precomp; rewrite ?andb_false_r, ?andb_true_r in *; [|nia].
  destruct (Hp eq_refl) as [He ->]. rewrite <- He in Hav. clear Hp He.
  destruct is_diff; cbn [andb]; [|nia].
  destruct (Hd eq_refl) as (Hf & Hm). apply format_is_diff_iff in Hf as (w & d & Hf).
  pose proof (diff_bytes_bound _ _ _ _ Hf Hlen Hm) as (Hb & _).
  destruct (Z.ltb_spec 1 cf); nia.
Qed.

(** The one case in which the encoder writes past the buffer: an array of two byte
    TDFs, with one byte left behind the headers.  Reclaiming the array header makes
    two TDFs fit, and two TDFs need the array header again. *)
Definition reclaim_overflow (st : tdf_buffer_state) (tdf_len tdf_num time format : Z) : bool :=
  let '(_, timestamp_header, _) := timestamp_select (ts_time st) time in
  (tdf_len =? 2) && (1 <? tdf_num) && negb (format =? TDF_DATA_FORMAT_IDX_ARRAY) &&
  (nb_room (ts_buf st) =? 7 + timestamp_header).

(** Arguments the encoder accepts. *)
Record tdf_args_valid (tdf_id tdf_len tdf_num idx_period format : Z) : Prop := {
  valid_id : 0 < tdf_id < 4095;
  valid_len : 0 < tdf_len;
  valid_num : 0 < tdf_num;
  valid_format : fmt_base format < TDF_DATA_FORMAT_INVALID;
  valid_period : fmt_base format <> TDF_DATA_FORMAT_IDX_ARRAY -> idx_period <= TDF_ARRAY_TIME_PERIOD_MAX;
  valid_divisor : format_is_diff (fmt_base format) = true ->
    tdf_len mod tdf_diff_divisor (fmt_base format) = 0;
}.

#[export] Instance tdf_args_valid_dec tdf_id tdf_len tdf_num idx_period format :
  Decision (tdf_args_valid tdf_id tdf_len tdf_num idx_period format).
Proof.
  refine (cast_if (decide ((0 < tdf_id < 4095 /\ 0 < tdf_len /\ 0 < tdf_num) /\
    fmt_base format < TDF_DATA_FORMAT_INVALID /\
    (fmt_base format <> TDF_DATA_FORMAT_IDX_ARRAY -> idx_period <= TDF_ARRAY_TIME_PERIOD_MAX) /\
    (format_is_diff (fmt_base format) = true -> tdf_len mod tdf_diff_divisor (fmt_base format) = 0))));
    abstract (first [split; tauto | intros [? ? ? ? ? ?]; tauto]).
Defined.

(** Why the encoder refuses a request. *)
Definition tdf_refused (st : tdf_buffer_state) (tdf_id tdf_len tdf_num idx_period format rc : Z) : Prop :=
  (rc = - EINVAL /\ ~ tdf_args_valid tdf_id tdf_len tdf_num idx_period format) \/
  (rc = - ENOSPC /\ nb_size (ts_buf st) - nb_data (ts_buf st) < 9 + tdf_len) \/
  (rc = - ENOMEM /\ nb_room (ts_buf st) < 12 + tdf_len).

(** The state after [rc] TDFs have been appended. *)
Record tdf_appended (st st' : tdf_buffer_state)
  (tdf_id tdf_len tdf_num time idx_period : Z) (data : list Z) (format rc : Z) (is_diff : bool)
  : Prop := {
  app_id : 0 < tdf_id < 4095;
  app_len : 0 < tdf_len <= 255;
  app_rc : 1 <= rc <= tdf_num;
  app_period : (format =? TDF_DATA_FORMAT_IDX_ARRAY) = false -> idx_period <= TDF_ARRAY_TIME_PERIOD_MAX;
  app_diff : is_diff = true ->
    format_is_diff (fmt_base format) = true /\
    tdf_len mod tdf_diff_divisor (fmt_base format) = 0 /\
    (fmt_precomputed format = false -> rc <= 64 /\
       forall j, 0 <= j < rc - 1 -> step_valid (fmt_base format) tdf_len data j = true);
  app_data : data_needed is_diff (fmt_precomputed format) (fmt_base format) tdf_len rc <= zlen data;
  app_wf : nb_wf (ts_buf st');
  app_size : nb_size (ts_buf st') = nb_size (ts_buf st);
  app_data_ptr : nb_data (ts_buf st') = nb_data (ts_buf st);
  app_time : ts_time st' = if time =? 0 then ts_time st else time;
  app_contents :
    let '(delta, _, hdr) := timestamp_select (ts_time st) time in
    nb_contents (ts_buf st') = nb_contents (ts_buf st) ++
      tdf_wire hdr tdf_id tdf_len rc time delta idx_period
        (format =? TDF_DATA_FORMAT_IDX_ARRAY) is_diff (fmt_precomputed format) (fmt_base format) data;
}.

Lemma timestamp_hdr st_time time delta th hdr :
  timestamp_select st_time time = (delta, th, hdr) ->
  0 <= th <= 6 /\
  (time = 0 /\ hdr = TDF_TIMESTAMP_NONE \/
   time <> 0 /\ (hdr = TDF_TIMESTAMP_RELATIVE \/ hdr = TDF_TIMESTAMP_EXTENDED_RELATIVE \/
                 hdr = TDF_TIMESTAMP_ABSOLUTE)).
Proof.
  unfold timestamp_select, sizeof_tdf_time. intros Hs.
  destruct (Z.eqb_spec time 0) as [->|Ht]; cbn [negb] in Hs.
  - injection Hs as <- <- <-. split; [lia|auto].
  - repeat split_match_in Hs; injection Hs as <- <- <-; split; try lia; auto.
Qed.

Lemma lor_hdr_id hdr id :
  hdr = TDF_TIMESTAMP_NONE \/ hdr = TDF_TIMESTAMP_RELATIVE \/
  hdr = TDF_TIMESTAMP_EXTENDED_RELATIVE \/ hdr = TDF_TIMESTAMP_ABSOLUTE ->
  0 < id < 4095 -> Z.lor hdr id = hdr + id.
Proof.
  intros Hh Hid.
  assert (exists a, hdr = Z.shiftl a 14 /\ hdr = a * 2 ^ 14) as (a & -> & Ha).
  { destruct Hh as [->|[->|[->| ->]]]; [exists 0|exists 2|exists 3|exists 1]; done. }
  rewrite lor_shiftl_add by lia. lia.
Qed.

Section encoder.
Context `{NetBufSpec}.

(** [st'] is [st] with [tail] appended and the time base moved to [time]. *)
Definition tdf_written (st st' : tdf_buffer_state) (time : Z) (tail : list Z) : Prop :=
  nb_wf (ts_buf st') /\ nb_size (ts_buf st') = nb_size (ts_buf st) /\
  nb_data (ts_buf st') = nb_data (ts_buf st) /\
  ts_time st' = (if time =? 0 then ts_time st else time) /\
  nb_contents (ts_buf st') = nb_contents (ts_buf st) ++ tail.

(** What holds once the TDF header is in the buffer: [s1] starts with [pre],
    holds [c] and the header, and [s2] agrees with it on size and time. *)
Lemma tdf_written_intro st s1 s time pre c post0 post tail :
  nb_repr (ts_buf st) pre c post0 -> nb_repr (ts_buf s) pre (c ++ tail) post ->
  nb_size (ts_buf s1) = nb_size (ts_buf st) -> nb_size (ts_buf s) = nb_size (ts_buf s1) ->
  ts_time s1 = (if time =? 0 then ts_time st else time) -> ts_time s = ts_time s1 ->
  tdf_written st s time tail.
Proof.
  intros Hr Hs Hsz1 Hsz Ht1 Ht. split; [eapply nb_repr_wf; eassumption|].
  split; [congruence|].
  split; [destruct Hs as (_ & -> & _), Hr as (_ & -> & _); congruence|].
  split; [congruence|]. rewrite (nb_repr_contents _ _ _ _ Hr).
  eapply nb_repr_contents; eassumption.
Qed.

Lemma lor_hdr_id_u16 st time delta th hdr id :
  timestamp_select st time = (delta, th, hdr) -> 0 < id < 4095 -> in_u 16 (Z.lor hdr id).
Proof.
  intros Hts Hid. destruct (timestamp_hdr _ _ _ _ _ Hts) as (_ & Hhdr).
  rewrite lor_hdr_id by (try done; intuition). unfold in_u.
  destruct Hhdr as [(_ & ->)|(_ & [->|[->| ->]])]; cbv [TDF_TIMESTAMP_NONE TDF_TIMESTAMP_RELATIVE
    TDF_TIMESTAMP_EXTENDED_RELATIVE TDF_TIMESTAMP_ABSOLUTE]; lia.
Qed.

Lemma payload_size_pos is_diff fmt len n :
  0 < len <= 255 -> 0 < n ->
  (is_diff = true -> format_is_diff fmt = true /\ len mod tdf_diff_divisor fmt = 0) ->
  0 < payload_size (is_diff && (1 <? n)) len n (diff_bytes fmt len).
Proof.
  intros Hlen Hn Hd. unfold payload_size. destruct (is_diff && (1 <? n)) eqn:E; [|nia].
  apply andb_true_iff in E as [-> E]. destruct (Hd eq_refl) as (Hf & Hm).
  apply format_is_diff_iff in Hf as (w & d & Hf).
  pose proof (diff_bytes_bound _ _ _ _ Hf Hlen Hm). nia.
Qed.

(** Array header and delta payload behind the TDF header. *)
Lemma tdf_write_diff s1 hdr id len n time delta period data precomp fmt w d pre c post1 :
  nb_repr (ts_buf s1) pre
    (c ++ le_put 2 (Z.lor hdr id) ++ le_put 1 len ++ ts_bytes hdr time delta) post1 ->
  in_u 16 (Z.lor hdr id) -> diff_format fmt w d -> 0 < len <= 255 -> 1 < n <= 255 ->
  len mod tdf_diff_divisor fmt = 0 -> data_needed true precomp fmt len n <= zlen data ->
  3 + (len + (n - 1) * diff_bytes fmt len) <= nb_room (ts_buf s1) ->
  exists s3 post3,
    (let! (s2, ptr) := tdf_add_array_header s1 (zlen pre + zlen c) n period false true in
     tdf_add_payload s2 ptr true precomp fmt len n (len / tdf_diff_divisor fmt)
       (diff_bytes fmt len) (len + (n - 1) * diff_bytes fmt len) data) = Done s3 /\
    nb_repr (ts_buf s3) pre
      (c ++ tdf_wire hdr id len n time delta period false true precomp fmt data) post3 /\
    nb_size (ts_buf s3) = nb_size (ts_buf s1) /\ ts_time s3 = ts_time s1.
Proof.
  intros Hr1 Hflag Hf Hlen Hn Hm Hdata Hroom.
  assert (Harr : has_array false n = true) by (unfold has_array; rewrite andb_true_r; lia).
  pose proof (diff_bytes_bound _ _ _ _ Hf Hlen Hm) as (Hb & _).
  destruct (tdf_add_array_header_repr s1 n period false true pre c (Z.lor hdr id)
              (le_put 1 len ++ ts_bytes hdr time delta) post1 Hr1 Hflag Harr ltac:(nia))
    as (post2 & s2 & Ha2 & Hr2 & Hs2 & Ht2).
  rewrite Ha2. cbn [exec_bind].
  assert (Hroom2 : nb_room (ts_buf s2) = nb_room (ts_buf s1) - 3).
  { rewrite (room_repr _ _ _ _ Hr2), (room_repr _ _ _ _ Hr1), Hs2. zlen_lia. }
  set (hd := le_put 2 (Z.lor (Z.lor hdr id) (array_flag false true)) ++ le_put 1 len ++
             ts_bytes hdr time delta).
  destruct (tdf_add_payload_diff s2 precomp fmt w d len n pre (c ++ hd) (le_put 1 n)
              (le_put 2 (period_field false period)) post2 data)
    as (post3 & s3 & Ha3 & Hr3 & Hs3 & Ht3); try done; try lia.
  { unfold hd. by rewrite <- !app_assoc in *. }
  replace (zlen pre + zlen (c ++ hd)) with
    (zlen pre + zlen c + 2 + zlen (le_put 1 len ++ ts_bytes hdr time delta)) in Ha3
    by (unfold hd; zlen_lia).
  rewrite Ha3. exists s3, post3. split; [done|]. split; [|split; congruence].
  unfold tdf_wire, tdf_header_bytes. rewrite Harr. replace (true && (1 <? n)) with true by lia.
  unfold hd, array_bytes in *. rewrite <- !app_assoc in *. exact Hr3.
Qed.

(** Optional array header and a payload that is not delta encoded. *)
Lemma tdf_write_plain s1 hdr id len n time delta period data precomp fmt is_idx is_diff pre c post1 :
  nb_repr (ts_buf s1) pre
    (c ++ le_put 2 (Z.lor hdr id) ++ le_put 1 len ++ ts_bytes hdr time delta) post1 ->
  in_u 16 (Z.lor hdr id) -> 0 < len -> 0 < n ->
  is_diff && (1 <? n) = false -> (is_diff = true -> is_idx = false) ->
  len * n <= zlen data ->
  (if has_array is_idx n then 3 else 0) + len * n <= nb_room (ts_buf s1) ->
  exists s3 post3,
    (let! (s2, ptr) := tdf_add_array_header s1 (zlen pre + zlen c) n period is_idx is_diff in
     tdf_add_payload s2 ptr is_diff precomp fmt len n
       (if is_diff then len / tdf_diff_divisor fmt else 0)
       (if is_diff then diff_bytes fmt len else 1) (len * n) data) = Done s3 /\
    nb_repr (ts_buf s3) pre
      (c ++ tdf_wire hdr id len n time delta period is_idx is_diff precomp fmt data) post3 /\
    nb_size (ts_buf s3) = nb_size (ts_buf s1) /\ ts_time s3 = ts_time s1.
Proof.
  intros Hr1 Hflag Hlen Hn E Hd Hdata Hroom. unfold tdf_wire, tdf_header_bytes.
  set (tail := le_put 1 len ++ ts_bytes hdr time delta) in *.
  destruct (has_array is_idx n) eqn:Harr.
  - destruct (tdf_add_array_header_repr s1 n period is_idx is_diff pre c (Z.lor hdr id)
                tail post1 Hr1 Hflag Harr ltac:(nia)) as (post2 & s2 & -> & Hr2 & Hs2 & Ht2).
    cbn [exec_bind].
    assert (Hroom2 : nb_room (ts_buf s2) = nb_room (ts_buf s1) - 3).
    { rewrite (room_repr _ _ _ _ Hr2), (room_repr _ _ _ _ Hr1), Hs2. zlen_lia. }
    assert (is_diff = false) as ->.
    { destruct is_diff; [exfalso|done]. rewrite (Hd eq_refl) in Harr. cbn in E.
      unfold has_array in Harr. rewrite andb_true_r in Harr. lia. }
    destruct (tdf_add_payload_plain s2 (Some (zlen pre + zlen c + 2 + zlen tail)) false precomp
                fmt len n 0 1 data _ _ _ Hr2 E) as (post3 & s3 & -> & Hr3 & Hs3 & Ht3); [lia..|].
    exists s3, post3. split; [done|]. split; [|split; congruence].
    unfold array_bytes, num_field. unfold tail in Hr3. rewrite <- !app_assoc in *. exact Hr3.
  - assert (n = 1 /\ is_idx = false) as [-> ->].
    { unfold has_array in Harr. destruct is_idx; cbn in Harr;
        rewrite ?andb_true_r, ?andb_false_r in Harr; cbn in Harr; [done|]. split; [lia|done]. }
    unfold tdf_add_array_header. cbn [exec_bind Z.leb Z.compare Pos.compare Pos.compare_cont negb andb].
    destruct (tdf_add_payload_plain s1 None is_diff precomp fmt len 1
          (if is_diff then len / tdf_diff_divisor fmt else 0)
          (if is_diff then diff_bytes fmt len else 1) data _ _ _ Hr1 E)
      as (post3 & s3 & -> & Hr3 & Hs3 & Ht3); [lia..|].
    exists s3, post3. split; [done|]. split; [|split; congruence].
    rewrite Z.lor_0_r. unfold tail in Hr3. rewrite <- !app_assoc in *. exact Hr3.
Qed.

(** Header, array header and payload written one after the other. *)
Lemma tdf_write_ok st id len n time period data precomp fmt is_idx is_diff delta th hdr :
  nb_wf (ts_buf st) -> timestamp_select (ts_time st) time = (delta, th, hdr) ->
  0 < id < 4095 -> 0 < len <= 255 -> 0 < n <= 255 ->
  (is_diff = true -> format_is_diff fmt = true /\ len mod tdf_diff_divisor fmt = 0 /\
                     is_idx = false) ->
  data_needed (is_diff && (1 <? n)) precomp fmt len n <= zlen data ->
  3 + th + (if has_array is_idx n then 3 else 0) +
    payload_size (is_diff && (1 <? n)) len n (diff_bytes fmt len) <= nb_room (ts_buf st) ->
  exists st',
    (let! (s1, header) := tdf_add_header st hdr id len time delta in
     let! (s2, ptr) := tdf_add_array_header s1 header n period is_idx is_diff in
     tdf_add_payload s2 ptr is_diff precomp fmt len n
       (if is_diff then len / tdf_diff_divisor fmt else 0)
       (if is_diff then diff_bytes fmt len else 1)
       (payload_size is_diff len n (if is_diff then diff_bytes fmt len else 1)) data) = Done st' /\
    tdf_written st st' time
      (tdf_wire hdr id len n time delta period is_idx is_diff precomp fmt data).
Proof.
  intros Hwf Hts Hid Hlen Hn Hd Hdata Hroom.
  pose proof (zlen_ts_bytes _ _ _ _ _ Hts) as Hth.
  pose proof (lor_hdr_id_u16 _ _ _ _ _ id Hts Hid) as Hflag.
  destruct (timestamp_hdr _ _ _ _ _ Hts) as (Hthb & Hhdr).
  assert (Hps : 0 < payload_size (is_diff && (1 <? n)) len n (diff_bytes fmt len)).
  { apply payload_size_pos; [done|lia|]. intros Hx. by destruct (Hd Hx) as (? & ? & _). }
  pose proof (nb_wf_repr _ Hwf) as Hr.
  destruct (tdf_add_header_repr st hdr id len time delta _ _ _ Hr) as
    (post1 & s1 & -> & Hr1 & Hs1 & Ht1).
  { destruct (has_array is_idx n); lia. }
  cbn [exec_bind]. rewrite <- !app_assoc in Hr1.
  assert (Htime : ts_time s1 = if time =? 0 then ts_time st else time).
  { rewrite Ht1. destruct Hhdr as [(-> & ->)|(Hne & Hh)]; [done|].
    replace (time =? 0) with false by lia. by destruct Hh as [->|[->| ->]]. }
  assert (Hroom1 : nb_room (ts_buf s1) = nb_room (ts_buf st) - 3 - th).
  { rewrite (room_repr _ _ _ _ Hr1), (room_repr _ _ _ _ Hr), Hs1. zlen_lia. }
  destruct (is_diff && (1 <? n)) eqn:E.
  - apply andb_true_iff in E as [-> E]. destruct (Hd eq_refl) as (Hf & Hm & ->).
    apply format_is_diff_iff in Hf as (w & d & Hf).
    unfold has_array in Hroom. cbn [negb payload_size] in *. rewrite andb_true_r in Hroom.
    replace (n <=? 1) with false in Hroom by lia. cbn [negb] in Hroom.
    destruct (tdf_write_diff s1 hdr id len n time delta period data precomp fmt w d _ _ post1 Hr1
                Hflag Hf) as (s3 & post3 & Ha3 & Hr3 & Hs3 & Ht3); try done; try lia.
    exists s3. split; [done|]. eapply tdf_written_intro; [exact Hr|exact Hr3|done..].
  - replace (payload_size is_diff len n (if is_diff then diff_bytes fmt len else 1)) with (len * n).
    2: { unfold payload_size. destruct is_diff; [|done]. replace n with 1 by lia. lia. }
    destruct (tdf_write_plain s1 hdr id len n time delta period data precomp fmt is_idx is_diff
                _ _ post1 Hr1 Hflag) as (s3 & post3 & Ha3 & Hr3 & Hs3 & Ht3); try done; try lia.
    { intros Hx. by destruct (Hd Hx) as (_ & _ & ?). }
    { unfold payload_size in Hroom. lia. }
    exists s3. split; [done|]. eapply tdf_written_intro; [exact Hr|exact Hr3|done..].
Qed.

Lemma tdf_input_validate_ok id len num period fmt min_size max_space :
  0 <= id -> 0 <= len <= 255 -> 0 <= num ->
  let rc := tdf_input_validate id len num period fmt min_size max_space in
  (rc = - EINVAL /\ ~ (0 < id < 4095 /\ 0 < len /\ 0 < num /\ fmt < TDF_DATA_FORMAT_INVALID /\
     (fmt <> TDF_DATA_FORMAT_IDX_ARRAY -> period <= TDF_ARRAY_TIME_PERIOD_MAX))) \/
  (rc = - ENOSPC /\ max_space < min_size) \/
  (rc = 0 /\ 0 < id < 4095 /\ 0 < len <= 255 /\ 0 < num /\
   (fmt <> TDF_DATA_FORMAT_IDX_ARRAY -> period <= TDF_ARRAY_TIME_PERIOD_MAX)).
Proof.
  intros Hid Hlen Hnum. unfold tdf_input_validate. cbv zeta.
  destruct (_ || _) eqn:E1; [left; split; [done|]; rewrite !orb_true_iff in E1; lia|].
  destruct (_ && _) eqn:E2; [left; split; [done|]; rewrite andb_true_iff, negb_true_iff in E2; lia|].
  destruct (Z.ltb_spec max_space min_size); [auto|]. right. right.
  rewrite !orb_false_iff in *. rewrite andb_false_iff, negb_false_iff in *.
  repeat split; try lia.
Qed.

Lemma nb_room_bound st : tdf_state_ok st ->
  0 <= nb_room (ts_buf st) < 2 ^ 16 /\ nb_wf (ts_buf st).
Proof. intros ((? & ? & ? & ?) & ? & ?). unfold nb_room, nb_wf. lia. Qed.

(** Fitting and writing, outside the overflow case. *)
Lemma tdf_add_encoded_ok st id len n time period data fmt is_idx is_diff precomp delta th hdr :
  tdf_state_ok st -> timestamp_select (ts_time st) time = (delta, th, hdr) ->
  0 < id < 4095 -> 0 < len <= 255 -> 0 < n <= 255 ->
  (is_diff = true -> format_is_diff fmt = true /\ len mod tdf_diff_divisor fmt = 0 /\
                     is_idx = false /\ 2 < n) ->
  (forall cf, 1 <= cf <= n -> data_needed (is_diff && (1 <? cf)) precomp fmt len cf <= zlen data) ->
  len <> 2 \/ nb_room (ts_buf st) <> 7 + th \/ n = 1 \/ is_idx = true ->
  let r := tdf_add_encoded st id len n time period data fmt is_idx is_diff precomp delta th hdr
             (nb_room (ts_buf st)) in
  (r = Done (- ENOMEM, st) /\ nb_room (ts_buf st) < 6 + th + len) \/
  exists cf st', r = Done (cf, st') /\ 1 <= cf <= n /\
    tdf_written st st' time
      (tdf_wire hdr id len cf time delta period is_idx is_diff precomp fmt data).
Proof.
  intros Hst Hts Hid Hlen Hn Hd Hdata H2. cbv zeta.
  destruct (nb_room_bound st Hst) as [Hroom Hwf].
  destruct (timestamp_hdr _ _ _ _ _ Hts) as (Hth & _).
  unfold tdf_add_encoded. set (arr := (1 <? n) || is_idx).
  replace (if arr then is_diff else false) with is_diff.
  2: { unfold arr. destruct is_diff; [|by destruct (_ || _)]. destruct (Hd eq_refl) as (_ & _ & _ & Hn2).
       by replace (1 <? n) with true by lia. }
  set (total_header := sizeof_tdf_header + (if arr then sizeof_tdf_array_header else 0) + th).
  assert (Hthd : total_header <= 6 + th).
  { unfold total_header, sizeof_tdf_header, sizeof_tdf_array_header. destruct arr; lia. }
  destruct (Z.leb_spec (nb_room (ts_buf st)) total_header) as [Hle|Hgt]; [left; split; [done|lia]|].
  set (pds := if is_diff then u8 _ else 1).
  assert (Hpds : 0 < pds <= len /\ pds = if is_diff then diff_bytes fmt len else 1).
  { unfold pds. destruct is_diff; [|lia]. destruct (Hd eq_refl) as (Hf & Hm & _).
    apply format_is_diff_iff in Hf as (w & d & Hf).
    pose proof (diff_bytes_bound _ _ _ _ Hf Hlen Hm) as (Hb & _).
    unfold diff_bytes in *. rewrite uwrap_small by lia. done. }
  destruct Hpds as (Hpds & Hpds2). clearbody pds.
  rewrite payload_bytes_eq by lia.
  set (ps := u16 _). assert (Hps : ps = nb_room (ts_buf st) - total_header).
  { unfold ps. apply uwrap_small. unfold total_header, sizeof_tdf_header, sizeof_tdf_array_header in *.
    destruct arr; lia. }
  clearbody ps. set (fits := ps <? payload_size is_diff len n pds). set (cf := if fits then _ else n).
  destruct (fits && (cf =? 0)) eqn:Hz.
  { left. split; [done|]. apply andb_true_iff in Hz as [Hz1 Hz2]. unfold cf in Hz2. rewrite Hz1 in Hz2.
    assert (ps < len); [|lia]. destruct (Z.lt_ge_cases ps len) as [|Hge]; [done|]. exfalso.
    apply Z.ltb_lt in Hz1. apply Z.eqb_eq in Hz2.
    by apply (can_fit_count_pos is_diff is_idx len n ps pds); try lia. }
  right. destruct (fit_ok is_diff is_idx len n pds (diff_bytes fmt len) (nb_room (ts_buf st)) th)
    as (Hcf & Hfit); try lia; try done.
  { intros Hi. destruct (Hd Hi) as (_ & _ & ? & ?). done. }
  { fold arr. change (3 + (if arr then 3 else 0) + th) with total_header. by rewrite <- Hps. }
  fold arr in Hcf, Hfit. change (3 + (if arr then 3 else 0) + th) with total_header in Hcf, Hfit.
  rewrite <- Hps in Hcf, Hfit. fold fits cf in Hcf, Hfit.
  replace (negb (0 <? cf)) with false by lia.
  replace (if fits then payload_bytes is_diff len cf pds else payload_size is_diff len n pds)
    with (payload_size is_diff len cf pds)
    by (rewrite payload_bytes_eq by lia; unfold cf; by destruct fits).
  destruct (tdf_write_ok st id len cf time period data precomp fmt is_idx is_diff delta th hdr)
    as (st' & Hw & Hwr); try done; try lia; [|by apply Hdata|].
  { intros Hi. by destruct (Hd Hi) as (? & ? & ? & _). }
  rewrite <- Hpds2 in Hw. inv_exec Hw. destruct r as [s1 h]. inv_exec Hw. destruct r as [s2 ptr].
  rewrite Hr. cbn [exec_bind]. rewrite Hr0. cbn [exec_bind]. rewrite Hw. by exists cf, st'.
Qed.

(** A payload of two TDFs of two bytes does not fit in one byte. *)
Lemma tdf_add_payload_fault st aptr is_diff precomp fmt fields pds data :
  nb_wf (ts_buf st) -> nb_room (ts_buf st) = 1 -> 0 < pds ->
  tdf_add_payload st aptr is_diff precomp fmt 2 2 fields pds
    (payload_size is_diff 2 2 pds) data = Fault.
Proof.
  intros Hwf Hroom Hpds.
  assert (Hread : forall (A : Type) (n : Z) (k : net_buf_simple -> exec A), 2 <= n ->
    exec_bind (data_read data 0 n) (fun bs => exec_bind (nb_add_mem (ts_buf st) bs) k) = Fault).
  { intros A n k Hn. unfold data_read. destruct (Z.leb_spec (0 + n) (zlen data)); [|done].
    cbn [exec_bind]. unfold nb_add_mem. rewrite tailroom_spec by done.
    rewrite zlen_ztake by (rewrite zdrop_0; lia). by replace (n <=? nb_room (ts_buf st)) with false by lia. }
  unfold tdf_add_payload. change (1 <? 2) with true. rewrite andb_true_r.
  destruct is_diff; cbn [payload_size]; [|by apply Hread]. cbn [payload_size].
  destruct precomp.
  - unfold data_read. destruct (Z.leb_spec (0 + (2 + (2 - 1) * pds)) (zlen data)); [|done].
    cbn [exec_bind]. unfold nb_add_mem. rewrite tailroom_spec by done.
    rewrite zlen_ztake by (rewrite zdrop_0; lia).
    by replace (2 + (2 - 1) * pds <=? nb_room (ts_buf st)) with false by lia.
  - rewrite (Hread _ 2) by lia. done.
Qed.

(** The overflow case: the encoder always runs past the end of the buffer. *)
Lemma tdf_add_encoded_overflow st id n time period data fmt is_diff precomp delta th hdr :
  tdf_state_ok st -> timestamp_select (ts_time st) time = (delta, th, hdr) ->
  0 < id < 4095 -> 1 < n <= 255 ->
  (is_diff = true -> format_is_diff fmt = true /\ 2 mod tdf_diff_divisor fmt = 0) ->
  nb_room (ts_buf st) = 7 + th ->
  tdf_add_encoded st id 2 n time period data fmt false is_diff precomp delta th hdr
    (nb_room (ts_buf st)) = Fault.
Proof.
  intros Hst Hts Hid Hn Hd Hroom. destruct (nb_room_bound st Hst) as [_ Hwf].
  destruct (timestamp_hdr _ _ _ _ _ Hts) as (Hth & _).
  pose proof (zlen_ts_bytes _ _ _ _ _ Hts) as Hzl.
  unfold tdf_add_encoded. replace (1 <? n) with true by lia. cbn [orb].
  replace (_ <=? _) with false by (unfold sizeof_tdf_header, sizeof_tdf_array_header; lia).
  set (pds := if is_diff then u8 _ else 1). assert (Hpds : 0 < pds <= 2).
  { unfold pds. destruct is_diff; [|lia]. destruct (Hd eq_refl) as (Hf & Hm).
    apply format_is_diff_iff in Hf as (w & d & Hf).
    pose proof (diff_bytes_bound fmt w d 2 Hf ltac:(lia) Hm) as (Hb & _).
    unfold diff_bytes in *. rewrite uwrap_small by lia. done. }
  clearbody pds. rewrite payload_bytes_eq by lia.
  replace (nb_room (ts_buf st) - _) with 1 by (unfold sizeof_tdf_header, sizeof_tdf_array_header; lia).
  change (u16 1) with 1.
  replace (1 <? payload_size is_diff 2 n pds) with true by (unfold payload_size; destruct is_diff; nia).
  replace (can_fit_count is_diff false 2 n 1 pds) with 2
    by (unfold can_fit_count; replace (1 <? n) with true by lia; by destruct is_diff).
  change (true && (2 =? 0)) with false. change (negb (0 <? 2)) with false. cbv iota.
  rewrite payload_bytes_eq by lia.
  destruct (tdf_add_header_repr st hdr id 2 time delta _ _ _ (nb_wf_repr _ Hwf)) as
    (post1 & s1 & -> & Hr1 & Hs1 & _); [lia|]. cbn [exec_bind]. rewrite <- !app_assoc in Hr1.
  assert (Hroom1 : nb_room (ts_buf s1) = 4).
  { rewrite (room_repr _ _ _ _ Hr1), Hs1. rewrite (room_repr _ _ _ _ (nb_wf_repr _ Hwf)) in Hroom.
    autorewrite with zlen in *. lia. }
  edestruct (tdf_add_array_header_repr s1 2 period false is_diff) as (post2 & s2 & -> & Hr2 & Hs2 & _);
    [exact Hr1|by eapply lor_hdr_id_u16|done|lia|]. cbn [exec_bind].
  rewrite tdf_add_payload_fault; [done|by eapply nb_repr_wf| |lia].
  rewrite (room_repr _ _ _ _ Hr2), Hs2. rewrite (room_repr _ _ _ _ Hr1) in Hroom1.
  autorewrite with zlen in *. lia.
Qed.

(** [tdf_add_core] leaves the buffer alone when it fails, and otherwise appends
    the wire image of the first [rc] TDFs; it faults only in the overflow case. *)
Lemma tdf_add_core_ok st id len num time period data format :
  tdf_state_ok st -> tdf_args_ok id len num time period data format ->
  let r := tdf_add_core st id len num time period data format in
  (r = Fault /\ reclaim_overflow st len num time format = true) \/
  (exists rc, r = Done (rc, st) /\ tdf_refused st id len num period format rc) \/
  (exists rc st' is_diff, r = Done (rc, st') /\
     tdf_appended st st' id len num time period data format rc is_diff).
Proof.
  intros Hst [Hid Hlen Hnum Htime Hper Hfmt Hdata]. cbv zeta.
  destruct (nb_room_bound st Hst) as [Hroom Hwf]. unfold in_u in *.
  unfold tdf_add_core. rewrite tailroom_spec by done. rewrite (uwrap_small 16 (nb_room _)) by lia.
  fold (fmt_precomputed format) (fmt_base format).
  set (fmt := fmt_base format) in *. set (precomp := fmt_precomputed format) in *.
  set (min_size := u16 _). set (max_space := u16 _).
  destruct (tdf_input_validate_ok id len num period fmt min_size max_space
              ltac:(lia) ltac:(lia) ltac:(lia)) as [(-> & Hrc)|[(-> & Hrc)|(-> & Hid' & Hlen' & Hnum' & Hper')]].
  { right. left. exists (- EINVAL). split; [done|]. left. split; [done|]. intros [? ? ? ? ?]. by apply Hrc. }
  { right. left. exists (- ENOSPC). split; [done|]. right. left. split; [done|].
    pose proof Hst as ((? & ? & ? & ?) & ? & _). unfold min_size, max_space in Hrc.
    rewrite (uwrap_small 16 (nb_size _ - _)) in Hrc by lia.
    rewrite uwrap_small in Hrc by (unfold sizeof_tdf_header, sizeof_tdf_time; destruct (negb _); lia).
    unfold sizeof_tdf_header, sizeof_tdf_time in Hrc. destruct (negb _); lia. }
  change (0 <? 0) with false. cbv iota. unfold reclaim_overflow.
  destruct (timestamp_select (ts_time st) time) as [[delta th] hdr] eqn:Hts.
  destruct (timestamp_hdr _ _ _ _ _ Hts) as (Hth & _).
  destruct (format_is_diff fmt && negb (len mod tdf_diff_divisor fmt =? 0)) eqn:Hmod.
  { right. left. exists (- EINVAL). split; [done|]. left. split; [done|]. intros [_ _ _ _ _ Hx].
    apply andb_true_iff in Hmod as [Hf Hm]. specialize (Hx Hf). fold fmt in Hx. lia. }
  destruct (diff_select_spec precomp fmt len num data ltac:(lia)) as (is_diff & n & -> & Hn & Hdiff & Hpre).
  cbn [exec_bind]. set (is_idx := format =? TDF_DATA_FORMAT_IDX_ARRAY) in *.
  assert (Hidx : is_idx = true -> format_is_diff fmt = false).
  { intros Hi%fmt_idx_base. unfold fmt. by rewrite Hi. }
  assert (Hfd : is_diff = true -> format_is_diff fmt = true /\ len mod tdf_diff_divisor fmt = 0 /\
                                   is_idx = false /\ 2 < n).
  { intros ->. destruct (Hdiff eq_refl) as (Hf & ? & _). rewrite Hf in Hmod. cbn in Hmod.
    split; [done|]. split; [lia|]. split; [|done]. destruct is_idx; [|done]. by rewrite Hidx in Hf. }
  assert (Hneed : forall cf, 1 <= cf <= n ->
    data_needed (is_diff && (1 <? cf)) precomp fmt len cf <= zlen data /\
    data_needed is_diff precomp fmt len cf <= zlen data).
  { intros cf Hcf. apply (data_needed_mono precomp fmt len num n cf is_diff (zlen data)); try done; try lia.
    intros Hi. by destruct (Hfd Hi) as (? & ? & _). }
  destruct (decide (len = 2 /\ nb_room (ts_buf st) = 7 + th /\ 1 < n /\ is_idx = false))
    as [(-> & Hr & Hn1 & Hni)|Hno].
  { left. rewrite Hni. rewrite tdf_add_encoded_overflow; try done; try lia.
    { split; [done|]. rewrite Hr. replace (1 <? num) with true by lia. cbn. lia. }
    intros Hi. by destruct (Hfd Hi) as (? & ? & _). }
  destruct (tdf_add_encoded_ok st id len n time period data fmt is_idx is_diff precomp delta th hdr)
    as [(-> & Hnr)|(cf & st' & -> & Hcf & Hwf' & Hsz & Hptr & Ht & Hc)]; try done; try lia.
  { intros cf Hcf. by apply Hneed. }
  { destruct is_idx; auto. lia. }
  { right. left. exists (- ENOMEM). split; [done|]. right. right. split; [done|lia]. }
  right. right. exists cf, st', is_diff. split; [done|].
  split; try done; try lia; [..|by apply Hneed|by rewrite Hts].
  { intros Hni. apply Hper'. intros Hb. apply (fmt_not_idx format); [exact Hfmt|lia|exact Hb]. }
  { intros Hi. destruct (Hfd Hi) as (? & ? & _), (Hdiff Hi) as (_ & _ & Hst'). split; [done|].
    split; [done|]. intros Hp. destruct (Hst' Hp) as (? & Hv). split; [lia|].
    intros j Hj. apply Hv. lia. }
Qed.

(** What the checks in front of the encoder refuse. *)
Lemma tdf_add_core_rejects st id len num time period data format :
  tdf_state_ok st -> tdf_args_ok id len num time period data format ->
  ~ tdf_args_valid id len num period format \/
  nb_size (ts_buf st) - nb_data (ts_buf st) < (if time =? 0 then 3 else 9) + len ->
  exists rc, tdf_add_core st id len num time period data format = Done (rc, st) /\
    (rc = - EINVAL \/ rc = - ENOSPC).
Proof.
  intros Hst [Hid Hlen Hnum Htime Hper Hfmt Hdata] Hbad.
  unfold in_u in *. unfold tdf_add_core. fold (fmt_precomputed format) (fmt_base format).
  set (min_size := u16 _). set (max_space := u16 _).
  assert (Hmin : min_size = (if time =? 0 then 3 else 9) + len).
  { unfold min_size, sizeof_tdf_header, sizeof_tdf_time. destruct (time =? 0); apply uwrap_small; cbn; lia. }
  assert (Hmax : max_space = nb_size (ts_buf st) - nb_data (ts_buf st)).
  { pose proof Hst as ((? & ? & ? & ?) & ? & _). apply uwrap_small. lia. }
  destruct (tdf_input_validate_ok id len num period (fmt_base format) min_size max_space
              ltac:(lia) ltac:(lia) ltac:(lia)) as [(-> & _)|[(-> & _)|(Hz & Hid' & Hlen' & Hnum' & Hper')]].
  { exists (- EINVAL). auto. }
  { exists (- ENOSPC). auto. }
  rewrite Hz. change (0 <? 0) with false. cbv iota.
  destruct (timestamp_select (ts_time st) time) as [[delta th] hdr].
  destruct (format_is_diff (fmt_base format) && negb (len mod tdf_diff_divisor (fmt_base format) =? 0)) eqn:Hmod.
  { exists (- EINVAL). auto. }
  exfalso. unfold tdf_input_validate in Hz. destruct (_ || _) eqn:Ho in Hz; [done|].
  destruct (negb _ && _) in Hz; [done|]. destruct (Z.ltb_spec max_space min_size); [done|].
  destruct Hbad as [Hbad|]; [|lia]. apply Hbad. split; try lia; try done.
  intros Hf. rewrite Hf in Hmod. cbn in Hmod. lia.
Qed.
End encoder.
