(* ===== verification/TdfDecode.v ===== *)
(** * Decoding TDFs

    [tdf_parse] takes the wire image [TdfWire.tdf_wire] apart again: it yields the
    TDF described by [tdf_decoded] and leaves the buffer at the following TDF. *)

From stdpp Require Import base tactics numbers list.
From Stdlib Require Import ZArith Lia.
From S2P Require Import Prelude NetBuf Epoch TdfDiffs Tdf TdfWire TdfEncode.

Local Open Scope Z_scope.
Local Open Scope infuse_scope.

(** ** Header flags *)

Inductive time_flag : Z -> Prop :=
| time_flag_none : time_flag TDF_TIMESTAMP_NONE
| time_flag_relative : time_flag TDF_TIMESTAMP_RELATIVE
| time_flag_extended : time_flag TDF_TIMESTAMP_EXTENDED_RELATIVE
| time_flag_absolute : time_flag TDF_TIMESTAMP_ABSOLUTE.

Inductive array_flags : Z -> Prop :=
| array_flags_none : array_flags 0
| array_flags_time : array_flags TDF_ARRAY_TIME
| array_flags_diff : array_flags TDF_ARRAY_DIFF
| array_flags_idx : array_flags TDF_ARRAY_IDX.

Lemma array_flag_ok is_idx is_diff : array_flags (array_flag is_idx is_diff).
Proof. destruct is_idx, is_diff; constructor. Qed.

Lemma timestamp_select_flag st_time time delta th hdr :
  timestamp_select st_time time = (delta, th, hdr) -> time_flag hdr.
Proof.
  intros Hts. destruct (timestamp_hdr _ _ _ _ _ Hts) as (_ & Hh).
  destruct Hh as [(_ & ->)|(_ & [->|[->| ->]])]; constructor.
Qed.

Lemma land_id_high id m : 0 < id < 4095 -> Z.land 0xFFF m = 0 -> Z.land id m = 0.
Proof.
  intros Hid Hm. replace id with (Z.land id 0xFFF).
  - by rewrite <- Z.land_assoc, Hm, Z.land_0_r.
  - change 0xFFF with (2 ^ 12 - 1). rewrite land_ones_mod by done. apply Z.mod_small. lia.
Qed.

(** The three fields of [id_flags] do not overlap. *)
Lemma id_flags_fields hdr af id :
  time_flag hdr -> array_flags af -> 0 < id < 4095 ->
  let id_flags := Z.lor (Z.lor hdr id) af in
  Z.land id_flags TDF_ID_MASK = id /\
  Z.land id_flags TDF_TIMESTAMP_MASK = hdr /\
  Z.land id_flags TDF_ARRAY_MASK = af /\ in_u 16 id_flags.
Proof.
  intros Hh Ha Hid. cbv zeta.
  assert (Hi : Z.land id TDF_ID_MASK = id).
  { change TDF_ID_MASK with (2 ^ 12 - 1). rewrite land_ones_mod by done. apply Z.mod_small. lia. }
  rewrite !Z.land_lor_distr_l, Hi, !(land_id_high id) by done.
  split; [|split; [|split]].
  - by destruct Hh, Ha; cbn; rewrite Z.lor_0_r.
  - by destruct Hh, Ha.
  - by destruct Hh, Ha.
  - assert (0 <= hdr < 2 ^ 16 /\ 0 <= af < 2 ^ 16) as [H1 H2]
      by (destruct Hh, Ha; vm_compute; intuition congruence).
    unfold in_u. assert (Hlt : forall a b, 0 <= a < 2 ^ 16 -> 0 <= b < 2 ^ 16 -> 0 <= Z.lor a b < 2 ^ 16).
    { intros a b Hx Hy. split; [apply Z.lor_nonneg; lia|].
      rewrite <- (Z.mod_small a (2 ^ 16)), <- (Z.mod_small b (2 ^ 16)) by done.
      rewrite <- !Z.land_ones, <- Z.land_lor_distr_l, Z.land_ones by done.
      by apply Z.mod_pos_bound. }
    apply Hlt; [apply Hlt|]; lia.
Qed.

(** ** Timestamps *)

(** The xor-and-subtract idiom is two's complement sign extension. *)
Lemma sign_extend_24_bits_spec x :
  0 <= x < 2 ^ 24 -> s32 (sign_extend_24_bits x) = swrap 24 x.
Proof.
  intros Hx. unfold sign_extend_24_bits. change (Z.shiftl 1 (24 - 1)) with (2 ^ 23).
  rewrite swrap_uwrap by done.
  assert (Hl : forall y, 0 <= y < 2 ^ 23 -> Z.lxor y (2 ^ 23) = y + 2 ^ 23).
  { intros y Hy. symmetry. apply Z.add_nocarry_lxor. apply Z.bits_inj_0. intros i.
    rewrite Z.land_spec. destruct (Z.eq_dec i 23) as [->|Hi].
    - by rewrite (testbit_above 23) by lia.
    - destruct (Z.ltb_spec i 0); [by rewrite Z.testbit_neg_r by lia|].
      rewrite Z.pow2_bits_eqb by lia. replace (23 =? i) with false by lia. apply andb_false_r. }
  assert (Hs : forall z, - 2 ^ 23 <= z < 2 ^ 23 -> s32 z = z)
    by (intros; apply swrap_small; unfold in_s; lia).
  destruct (Z.ltb_spec x (2 ^ 23)) as [Hlt|Hge].
  - rewrite Hl, Hs by lia. rewrite swrap_small by (unfold in_s; lia). lia.
  - rewrite <- (Z.sub_add (2 ^ 23) x) at 1. rewrite <- Hl by lia.
    rewrite Z.lxor_assoc, Z.lxor_nilpotent, Z.lxor_0_r.
    rewrite Hs by lia. rewrite (swrap_congr 1 24 x (x - 2 ^ 24)) by lia.
    rewrite swrap_small by (unfold in_s; lia). lia.
Qed.

Lemma tdf_time_flags_length_ok hdr time delta th st_time :
  timestamp_select st_time time = (delta, th, hdr) -> tdf_time_flags_length hdr = th.
Proof.
  unfold timestamp_select. intros Hs. by repeat split_match_in Hs; injection Hs as <- <- <-.
Qed.

(** ** Array headers *)

(** A period above 0x7FFF is stored in units of [TDF_ARRAY_TIME_SCALE_FACTOR]. *)
Definition period_decoded (period : Z) : Z :=
  if TDF_ARRAY_TIME_PERIOD_VAL_MASK <? period
  then period / TDF_ARRAY_TIME_SCALE_FACTOR * TDF_ARRAY_TIME_SCALE_FACTOR else period.

Definition wire_type (is_idx is_diff : bool) (format n : Z) : Z :=
  if negb (has_array is_idx n) then TDF_DATA_FORMAT_SINGLE
  else if is_idx then TDF_DATA_FORMAT_IDX_ARRAY
  else if is_diff then format else TDF_DATA_FORMAT_TIME_ARRAY.

Definition wire_num (is_idx is_diff : bool) (n : Z) : Z :=
  if has_array is_idx n && is_diff then n - 1 else n.

Definition wire_period (is_idx : bool) (n period : Z) : Z :=
  if negb (has_array is_idx n) then 0
  else if is_idx then u16 period else period_decoded period.

(** The TDF that [tdf_parse] produces for a wire image. *)
Definition tdf_decoded (tdf_id tdf_len n time period : Z) (is_idx is_diff precomputed : bool)
  (format : Z) (data : list Z) : tdf_parsed :=
  TdfParsed time tdf_id tdf_len (wire_type is_idx is_diff format n)
    (wire_num is_idx is_diff n) (wire_period is_idx n period)
    (tdf_payload is_diff precomputed format tdf_len n data).

(** What the encoder guarantees of the values it writes. *)
Record wire_ok (tdf_len n period : Z) (is_idx is_diff precomputed : bool) (format : Z)
  (data : list Z) : Prop := {
  wire_len : 0 < tdf_len <= 255;
  wire_n : 0 < n <= 255;
  wire_per : 0 <= period;
  wire_per_max : is_idx = false -> period <= TDF_ARRAY_TIME_PERIOD_MAX;
  wire_diff : is_diff = true -> n <= 64 /\ is_idx = false /\
    format_is_diff format = true /\ tdf_len mod tdf_diff_divisor format = 0;
  wire_data : data_needed is_diff precomputed format tdf_len n <= zlen data;
}.

Lemma land_low_high a m n : 0 <= n -> 0 <= a < 2 ^ n -> Z.land (2 ^ n - 1) m = 0 -> Z.land a m = 0.
Proof.
  intros Hn Ha Hm. replace a with (Z.land a (2 ^ n - 1)).
  - by rewrite <- Z.land_assoc, Hm, Z.land_0_r.
  - rewrite land_ones_mod by done. by apply Z.mod_small.
Qed.

Lemma period_field_time period :
  0 <= period <= TDF_ARRAY_TIME_PERIOD_MAX ->
  let f := period_field false period mod 65536 in
  (if negb (Z.land f TDF_ARRAY_TIME_PERIOD_SCALED =? 0)
   then TDF_ARRAY_TIME_SCALE_FACTOR * Z.land f TDF_ARRAY_TIME_PERIOD_VAL_MASK else f) =
  period_decoded period.
Proof.
  intros Hp. cbv zeta. unfold period_field, period_decoded.
  unfold TDF_ARRAY_TIME_PERIOD_MAX, TDF_ARRAY_TIME_PERIOD_SCALED, TDF_ARRAY_TIME_PERIOD_VAL_MASK,
    TDF_ARRAY_TIME_SCALE_FACTOR in *.
  destruct (Z.ltb_spec 0x7FFF period) as [Hgt|Hle].
  - set (q := period / 8192). assert (Hq : 0 <= q < 2 ^ 15).
    { split; [apply Z.div_pos; lia|apply Z.div_lt_upper_bound; lia]. }
    change 0x8000 with (Z.shiftl 1 15). rewrite lor_shiftl_add by lia.
    rewrite Z.mod_small by lia. rewrite <- lor_shiftl_add, !Z.land_lor_distr_l by lia.
    change 0x7FFF with (2 ^ 15 - 1). rewrite (land_ones_mod q), (Z.mod_small q) by lia.
    rewrite (land_low_high q (Z.shiftl 1 15) 15) by done. cbn [Z.shiftl Pos.iter].
    change (Z.land (Z.shiftl 1 15) (2 ^ 15 - 1)) with 0. rewrite Z.lor_0_l.
    change (Z.lor _ 0 =? 0) with false. cbn [negb]. lia.
  - rewrite Z.mod_small by lia. by rewrite (land_low_high period 0x8000 15) by (done || lia).
Qed.

Lemma num_field_diff f w d n :
  diff_format f w d -> 0 < n <= 64 ->
  let num := num_field true f n mod 256 in
  Z.shiftr num 6 = tdf_diff_encoded f /\ Z.land num 0x3F = n - 1.
Proof.
  intros Hf Hn. destruct (diff_format_tables f w d Hf) as (_ & _ & _ & _ & He).
  cbv zeta. unfold num_field. rewrite lor_shiftl_add by lia.
  rewrite Z.mod_small by lia. change 0x3F with (2 ^ 6 - 1).
  rewrite Z.shiftr_div_pow2, land_ones_mod by done.
  split; symmetry; [apply Z.div_unique with (n - 1); lia|apply Z.mod_unique with (tdf_diff_encoded f); lia].
Qed.

Lemma zlen_tdf_payload len n period is_idx is_diff precomp fmt data :
  wire_ok len n period is_idx is_diff precomp fmt data ->
  zlen (tdf_payload is_diff precomp fmt len n data) =
    payload_size (is_diff && (1 <? n)) len n (diff_bytes fmt len) /\
  0 < payload_size (is_diff && (1 <? n)) len n (diff_bytes fmt len) < 65536.
Proof.
  intros [Hlen Hn _ _ Hd Hdata]. unfold tdf_payload, payload_size, data_needed in *.
  destruct (is_diff && (1 <? n)) eqn:E.
  - apply andb_true_iff in E as [-> E]. destruct (Hd eq_refl) as (Hn' & _ & Hf & Hm).
    apply format_is_diff_iff in Hf as (w & d & Hf).
    pose proof (diff_bytes_bound _ _ _ _ Hf Hlen Hm) as (Hb & Hb1 & Hb2).
    destruct (diff_format_functions _ _ _ Hf) as (_ & He & _).
    destruct (diff_format_tables _ _ _ Hf) as (_ & Hdiv & _).
    split; [|nia]. destruct precomp; cbn [andb] in Hdata.
    + rewrite zlen_ztake; nia.
    + rewrite He, zlen_app, zlen_ztake by nia. unfold zlen. rewrite length_diff_encode.
      rewrite Hdiv. unfold num_fields in Hb1. nia.
  - split; [|nia]. rewrite zlen_ztake; [done|].
    destruct is_diff, precomp; cbn [andb] in *; try nia.
    replace n with 1 in * by lia. nia.
Qed.

(** Decide the tests on a known timestamp flag. *)
Ltac time_flag_simpl :=
  cbv [ts_bytes tdf_time_flags_consume TDF_TIMESTAMP_ABSOLUTE TDF_TIMESTAMP_RELATIVE
    TDF_TIMESTAMP_EXTENDED_RELATIVE] in *; cbn [Z.eqb Pos.eqb] in *.

Section decoder.
Context `{NetBufSpec}.

Lemma nb_pull_le_repr k b pre v c2 post :
  nb_repr b pre (le_put k v ++ c2) post ->
  exists b', nb_pull_le k b = Done (b', v mod 2 ^ (8 * Z.of_nat k)) /\
    nb_repr b' (pre ++ le_put k v) c2 post /\ nb_size b' = nb_size b.
Proof.
  intros Hr. destruct (nb_pull_mem_repr b pre (le_put k v) c2 post (Z.of_nat k) Hr)
    as (b' & Ha & Hr' & Hs & Hm); [by rewrite zlen_le_put|].
  exists b'. unfold nb_pull_le. rewrite Ha. cbn [exec_bind]. split; [|done].
  destruct Hr as (Hmem & _).
  rewrite (nb_load_mid b pre (le_put k v) (c2 ++ post)); [by rewrite le_get_put|..].
  - by rewrite Hmem, <- app_assoc.
  - done.
  - by rewrite zlen_le_put.
Qed.

Lemma ts_consume_wire st p time delta th hdr pre rest post :
  timestamp_select (ts_time st) time = (delta, th, hdr) ->
  in_u 64 (ts_time st) -> in_u 48 time ->
  nb_repr (ts_buf st) pre (ts_bytes hdr time delta ++ rest) post ->
  exists b, tdf_time_flags_consume st p hdr =
      Done (0, TdfState (if time =? 0 then ts_time st else time) b, p_set_time p time) /\
    nb_repr b (pre ++ ts_bytes hdr time delta) rest post /\ nb_size b = nb_size (ts_buf st).
Proof.
  intros Hts Hst Ht Hr. unfold in_u in *.
  unfold timestamp_select in Hts. destruct (Z.eqb_spec time 0) as [->|Hne]; cbn [negb] in Hts.
  { injection Hts as <- <- <-. exists (ts_buf st). split; [by destruct st|].
    cbn. by rewrite app_nil_r. }
  assert (Hadd : forall x, x = s64 (time - ts_time st) -> u64 (ts_time st + x) = time).
  { intros x ->. rewrite <- uwrap_add_idemp_r, uwrap_swrap, uwrap_add_idemp_r by done.
    rewrite Zplus_minus. apply uwrap_small. lia. }
  assert (Habs : hdr = TDF_TIMESTAMP_ABSOLUTE -> exists b, tdf_time_flags_consume st p hdr =
      Done (0, TdfState time b, p_set_time p time) /\
    nb_repr b (pre ++ ts_bytes hdr time delta) rest post /\ nb_size b = nb_size (ts_buf st)).
  { intros ->. time_flag_simpl.
    destruct (nb_pull_mem_repr _ _ _ _ _ sizeof_tdf_time Hr) as (b' & Ha & Hr' & Hs & Hm).
    { by rewrite zlen_app, !zlen_le_put. }
    rewrite Ha. cbn [exec_bind].
    destruct Hr as (Hmem & _). rewrite Hmem, <- !app_assoc in Hm.
    rewrite (nb_load_mid b' pre _ _ (zlen pre) 4 Hm) by (rewrite ?zlen_le_put; done).
    rewrite app_assoc in Hm.
    rewrite (nb_load_mid b' _ _ _ (zlen pre + 4) 2 Hm) by (rewrite ?zlen_app, ?zlen_le_put; done).
    rewrite !le_get_put, epoch_time_seconds_div, epoch_time_subseconds_mod.
    change (8 * Z.of_nat 4) with 32. change (2 ^ (8 * Z.of_nat 2)) with 65536.
    rewrite (Z.mod_small (time / 65536)), (Z.mod_mod time 65536) by
      (done || by split; [apply Z.div_pos|apply Z.div_lt_upper_bound]; lia).
    rewrite <- epoch_time_seconds_div, <- epoch_time_subseconds_mod, epoch_time_split by lia.
    by exists b'. }
  destruct (Z.eqb_spec (ts_time st) 0) as [Hz|Hnz]; cbn [negb] in Hts.
  { apply Habs. by injection Hts. }
  destruct (IN_RANGE _ 0 UINT16_MAX) eqn:H16.
  { injection Hts as <- <- <-. time_flag_simpl.
    destruct (nb_pull_le_repr 2 _ _ _ _ _ Hr) as (b' & Ha & Hr' & Hs).
    rewrite Ha. cbn [exec_bind]. replace (ts_time st =? 0) with false by lia.
    unfold IN_RANGE, UINT16_MAX in H16. rewrite Z.mod_small by lia.
    rewrite Hadd by done. by exists b'. }
  destruct (IN_RANGE _ INT24_MIN INT24_MAX) eqn:H24; [|apply Habs; by injection Hts].
  injection Hts as <- <- <-. time_flag_simpl.
  destruct (nb_pull_le_repr 3 _ _ _ _ _ Hr) as (b' & Ha & Hr' & Hs).
  rewrite Ha. cbn [exec_bind]. replace (ts_time st =? 0) with false by lia.
  rewrite sign_extend_24_bits_spec by (by apply Z.mod_pos_bound).
  change (8 * Z.of_nat 3) with 24. change (?a mod 2 ^ 24) with (uwrap 24 a).
  rewrite swrap_uwrap by done. unfold IN_RANGE, INT24_MIN, INT24_MAX in H24.
  rewrite (swrap_small 24) by (unfold in_s; lia). rewrite Hadd by done. by exists b'.
Qed.

Lemma tdf_array_consume_wire p len n period is_idx is_diff precomp fmt data :
  wire_ok len n period is_idx is_diff precomp fmt data -> has_array is_idx n = true ->
  p_len p = len -> p_period p = 0 ->
  tdf_array_consume p (array_flag is_idx is_diff) (num_field is_diff fmt n mod 256)
    (period_field is_idx period mod 65536) len =
  (0, zlen (tdf_payload is_diff precomp fmt len n data),
   p_set_period (p_set_array p (wire_type is_idx is_diff fmt n) (wire_num is_idx is_diff n))
     (wire_period is_idx n period)).
Proof.
  intros Hok Harr Hpl Hpp. destruct (zlen_tdf_payload _ _ _ _ _ _ _ _ Hok) as (-> & Hps).
  destruct Hok as [Hlen Hn Hper Hmax Hd _].
  unfold tdf_array_consume, wire_type, wire_num, wire_period. rewrite Harr. cbn [negb andb].
  destruct is_idx; [|destruct is_diff].
  - cbn [array_flag Z.eqb Pos.eqb TDF_ARRAY_IDX TDF_ARRAY_DIFF TDF_ARRAY_TIME].
    assert (is_diff = false) as -> by (destruct is_diff; [by destruct (Hd eq_refl) as (_ & ? & _)|done]).
    change (array_flag true false =? TDF_ARRAY_DIFF) with false.
    change (array_flag true false =? TDF_ARRAY_TIME) with false.
    change (array_flag true false =? TDF_ARRAY_IDX) with true. cbn [andb] in *.
    unfold num_field, payload_size, p_set_base_idx, period_field in *.
    pose proof (uwrap_bound 16 period ltac:(done)).
    rewrite (Z.mod_small n), (Z.mod_small (u16 period)) by lia. cbn [p_len p_set_array p_period].
    rewrite Hpl, uwrap_small by lia. by rewrite Hpp.
  - destruct (Hd eq_refl) as (Hn64 & _ & Hf & Hm).
    apply format_is_diff_iff in Hf as (w & d & Hf).
    change (array_flag false true =? TDF_ARRAY_DIFF) with true. cbv iota.
    destruct (num_field_diff _ _ _ n Hf ltac:(lia)) as (-> & ->).
    destruct (diff_format_tables _ _ _ Hf) as (_ & _ & _ & He & Hb).
    destruct (diff_bytes_bound _ _ _ _ Hf Hlen Hm) as (Hdb & _).
    replace (TDF_DATA_FORMAT_DIFF_ARRAY_16_8 + tdf_diff_encoded fmt - 1) with fmt
      by (unfold TDF_DATA_FORMAT_DIFF_ARRAY_16_8; lia).
    rewrite (uwrap_small 8 fmt) by lia. unfold TDF_DIFF_NONE.
    replace (tdf_diff_encoded fmt =? 0) with false by lia.
    unfold has_array in Harr. rewrite andb_true_r in Harr.
    replace (true && (1 <? n)) with true in * by lia. cbn [payload_size p_set_array p_len p_num] in *.
    fold (diff_bytes fmt len). rewrite (uwrap_small 8 (diff_bytes fmt len)) by lia.
    rewrite Hpl, uwrap_small by lia. rewrite <- (period_field_time period) by (specialize (Hmax eq_refl); lia).
    cbv zeta. by destruct (negb (Z.land _ TDF_ARRAY_TIME_PERIOD_SCALED =? 0)).
  - change (array_flag false false =? TDF_ARRAY_DIFF) with false.
    change (array_flag false false =? TDF_ARRAY_TIME) with true. cbv iota.
    unfold num_field, payload_size in *. cbn [andb p_set_array p_len] in *.
    rewrite (Z.mod_small n) by lia. rewrite Hpl, uwrap_small by lia.
    rewrite <- (period_field_time period) by (specialize (Hmax eq_refl); lia).
    cbv zeta. by destruct (negb (Z.land _ TDF_ARRAY_TIME_PERIOD_SCALED =? 0)).
Qed.

Lemma nb_len_repr b pre c post : nb_repr b pre c post -> nb_len b = zlen c.
Proof. by intros (_ & _ & ? & _). Qed.

(** The array header and payload of a wire image. *)
Lemma tdf_parse_payload_wire st p len n period is_idx is_diff precomp fmt data pre rest post :
  wire_ok len n period is_idx is_diff precomp fmt data ->
  p_len p = len -> p_period p = 0 -> p_num p = 1 ->
  let arr := if has_array is_idx n then array_bytes is_idx is_diff fmt n period else [] in
  let pay := tdf_payload is_diff precomp fmt len n data in
  nb_repr (ts_buf st) pre (arr ++ pay ++ rest) post ->
  exists b,
    tdf_parse_payload st p (if has_array is_idx n then array_flag is_idx is_diff else 0) len =
      Done (0, TdfState (ts_time st) b,
            TdfParsed (p_time p) (p_id p) len (wire_type is_idx is_diff fmt n)
              (wire_num is_idx is_diff n) (wire_period is_idx n period) pay) /\
    nb_repr b (pre ++ arr ++ pay) rest post /\ nb_size b = nb_size (ts_buf st).
Proof.
  intros Hok Hl Hp Hpn arr pay Hr. unfold tdf_parse_payload.
  destruct (zlen_tdf_payload _ _ _ _ _ _ _ _ Hok) as (Hpl & Hps). fold pay in Hpl.
  pose proof (zlen_nonneg rest).
  assert (Hend : forall b t q, nb_repr b (pre ++ arr) (pay ++ rest) post ->
    exists b', (let! (b', ptr) := nb_pull_mem b (zlen pay) in
                Done (0, TdfState t b', p_set_data q (nb_load b' ptr (zlen pay)))) =
           Done (0, TdfState t b', p_set_data q pay) /\
      nb_repr b' (pre ++ arr ++ pay) rest post /\ nb_size b' = nb_size b /\
      (nb_len b <? zlen pay) = false).
  { intros b t q Hb. pose proof (nb_len_repr _ _ _ _ Hb) as Hlb. rewrite zlen_app in Hlb.
    destruct (nb_pull_mem_repr _ _ _ _ _ _ Hb eq_refl) as (b' & -> & Hr' & Hs & Hm).
    cbn [exec_bind]. destruct Hb as (Hm0 & _). rewrite Hm0, <- (app_assoc pay) in Hm.
    rewrite (nb_load_mid b' _ _ _ _ _ Hm) by done. exists b'.
    rewrite (app_assoc pre). split; [done|]. split; [done|]. split; [done|lia]. }
  destruct (has_array is_idx n) eqn:Harr; subst arr; cbn [negb].
  - replace (array_flag is_idx is_diff =? 0) with false by (by destruct is_idx, is_diff).
    cbn [negb]. pose proof (nb_len_repr _ _ _ _ Hr) as Hlen. unfold array_bytes in *.
    autorewrite with zlen in Hlen. unfold sizeof_tdf_array_header.
    replace (nb_len (ts_buf st) <=? 3) with false by lia.
    destruct (nb_pull_mem_repr _ _ _ _ _ 3 Hr) as (b1 & -> & Hr1 & Hs1 & Hm1); [zlen_lia|].
    cbn [exec_bind]. destruct Hr as (Hm0 & _). rewrite Hm0, <- !app_assoc in Hm1.
    rewrite (nb_load_mid b1 pre _ _ (zlen pre) 1 Hm1) by (rewrite ?zlen_le_put; done).
    rewrite app_assoc in Hm1.
    rewrite (nb_load_mid b1 _ _ _ (zlen pre + 1) 2 Hm1) by (rewrite ?zlen_app, ?zlen_le_put; done).
    rewrite !le_get_put. change (2 ^ (8 * Z.of_nat 2)) with 65536.
    change (2 ^ (8 * Z.of_nat 1)) with 256.
    rewrite (tdf_array_consume_wire p len n period is_idx is_diff precomp fmt data Hok Harr Hl Hp).
    cbn [exec_bind ts_buf ts_time]. change (0 <? 0) with false. cbv iota. fold pay.
    edestruct Hend as (b' & He & Hr' & Hs' & Hlt); [exact Hr1|].
    rewrite Hlt, He. exists b'. rewrite <- Hl, Hs', Hs1. by destruct p.
  - change (0 =? 0) with true. cbn [negb exec_bind app] in *. change (0 <? 0) with false.
    assert (Hpay : zlen pay = len).
    { rewrite Hpl. unfold has_array in Harr. apply negb_false_iff, andb_true_iff in Harr as [Hn _].
      assert (Hn0 := wire_n _ _ _ _ _ _ _ _ Hok). replace n with 1 by lia.
      rewrite andb_false_r. unfold payload_size. lia. }
    cbv iota. rewrite Hl, <- Hpay.
    edestruct Hend as (b' & He & Hr' & Hs' & Hlt); [rewrite app_nil_r; exact Hr|].
    rewrite Hlt, He. exists b'. rewrite Hs', Hpay. split; [|done].
    unfold wire_type, wire_num, wire_period. rewrite Harr. cbn [negb andb].
    unfold has_array in Harr. apply negb_false_iff, andb_true_iff in Harr as [Hn _].
    assert (Hn0 := wire_n _ _ _ _ _ _ _ _ Hok). replace n with 1 by lia.
    subst len. rewrite <- Hp, <- Hpn. by destruct p.
Qed.

(** Parsing a wire image at the head of the buffer. *)
Lemma tdf_parse_wire st p hdr id len n time delta th period is_idx is_diff precomp fmt data
  pre rest post :
  timestamp_select (ts_time st) time = (delta, th, hdr) ->
  in_u 64 (ts_time st) -> in_u 48 time -> 0 < id < 4095 ->
  wire_ok len n period is_idx is_diff precomp fmt data ->
  let w := tdf_wire hdr id len n time delta period is_idx is_diff precomp fmt data in
  nb_repr (ts_buf st) pre (w ++ rest) post ->
  exists b,
    tdf_parse st p = Done (0, TdfState (if time =? 0 then ts_time st else time) b,
      tdf_decoded id len n time period is_idx is_diff precomp fmt data) /\
    nb_repr b (pre ++ w) rest post /\ nb_size b = nb_size (ts_buf st).
Proof.
  intros Hts Hst Ht Hid Hok w Hr.
  pose proof (zlen_ts_bytes _ _ _ _ _ Hts) as Hth.
  pose proof (tdf_time_flags_length_ok _ _ _ _ _ Hts) as Hth'.
  destruct (timestamp_hdr _ _ _ _ _ Hts) as (Hthb & _).
  destruct (zlen_tdf_payload _ _ _ _ _ _ _ _ Hok) as (Hpl & Hps).
  set (pay := tdf_payload is_diff precomp fmt len n data) in *.
  set (af := if has_array is_idx n then array_flag is_idx is_diff else 0).
  assert (Haf : array_flags af) by (unfold af; destruct (has_array is_idx n); [apply array_flag_ok|constructor]).
  destruct (id_flags_fields hdr af id) as (Hfi & Hft & Hfa & Hfu);
    [by eapply timestamp_select_flag|done..|]. cbv zeta in *.
  unfold w, tdf_wire, tdf_header_bytes in Hr. fold af pay in Hr. rewrite <- !app_assoc in Hr.
  set (arr := if has_array is_idx n then array_bytes is_idx is_diff fmt n period else []) in *.
  unfold tdf_parse.
  assert (Hlen1 : nb_len (ts_buf st) = 3 + th + zlen arr + zlen pay + zlen rest).
  { destruct Hr as (_ & _ & -> & _). zlen_lia. }
  pose proof (zlen_nonneg arr). pose proof (zlen_nonneg rest). unfold sizeof_tdf_header.
  replace (nb_len (ts_buf st) <=? 3) with false by lia.
  rewrite (app_assoc (le_put 2 _)) in Hr.
  destruct (nb_pull_mem_repr _ _ _ _ _ 3 Hr) as (b1 & -> & Hr1 & Hs1 & Hm1);
    [zlen_lia|]. cbn [exec_bind].
  destruct Hr as (Hm0 & _). rewrite Hm0, <- !app_assoc in Hm1.
  rewrite (nb_load_mid b1 pre _ _ (zlen pre) 2 Hm1) by (rewrite ?zlen_le_put; done).
  rewrite app_assoc in Hm1.
  rewrite (nb_load_mid b1 _ _ _ (zlen pre + 2) 1 Hm1) by (rewrite ?zlen_app, ?zlen_le_put; done).
  rewrite !le_get_put. change (2 ^ (8 * Z.of_nat 2)) with (2 ^ 16). change (2 ^ (8 * Z.of_nat 1)) with 256.
  assert (Hlen := wire_len _ _ _ _ _ _ _ _ Hok).
  rewrite (Z.mod_small _ _ Hfu), (Z.mod_small len) by lia. rewrite Hfi, Hft, Hfa. cbn [p_id ts_buf].
  replace ((id =? 0) || (id =? 4095)) with false by lia.
  assert (Hlen2 : nb_len b1 = th + zlen arr + zlen pay + zlen rest).
  { destruct Hr1 as (_ & _ & -> & _). zlen_lia. }
  rewrite Hth'. replace (nb_len b1 <=? th) with false by lia.
  destruct (ts_consume_wire (TdfState (ts_time st) b1)
    (TdfParsed (p_time p) id len (p_type p) 1 0 (p_data p)) time delta th hdr _ _ _ Hts Hst Ht Hr1)
    as (b2 & -> & Hr2 & Hs2). cbn [exec_bind ts_time ts_buf]. change (0 <? 0) with false. cbv iota.
  destruct (tdf_parse_payload_wire (TdfState (if time =? 0 then ts_time st else time) b2)
    (TdfParsed time id len (p_type p) 1 0 (p_data p)) len n period is_idx is_diff precomp fmt data
    _ rest post Hok eq_refl eq_refl eq_refl Hr2) as (b3 & He & Hr3 & Hs3).
  exists b3. split; [exact He|]. split; [|cbn [ts_buf] in *; congruence].
  unfold w, tdf_wire, tdf_header_bytes. fold af arr pay. rewrite <- !app_assoc in Hr3. rewrite <- !app_assoc. exact Hr3.
Qed.
End decoder.
