(* ===== verification/TdfRoundtrip.v ===== *)
(** * TDF round trips

    Samples logged with [tdf_add_core] are recovered by [tdf_parse] and, for
    delta arrays, [tdf_parse_diff_reconstruct]: every TDF of a buffer comes back
    in order with its time, identifier and samples. *)

From stdpp Require Import base tactics numbers list.
From Stdlib Require Import ZArith Lia.
From S2P Require Import Prelude NetBuf Epoch TdfDiffs Tdf TdfWire TdfEncode TdfDecode.

Local Open Scope Z_scope.
Local Open Scope infuse_scope.

(** ** Delta reconstruction *)

(** Sample [i] of an array of [tdf_len] byte samples. *)
Definition sample (tdf_len : Z) (data : list Z) (i : Z) : list Z :=
  ztake tdf_len (zdrop (i * tdf_len) data).

Section reconstruct.
Context (fmt : Z) (w d : nat) (len : Z) (data : list Z).
Context (Hf : diff_format fmt w d) (Hlen : 0 < len <= 255).
Context (Hmod : len mod tdf_diff_divisor fmt = 0) (Hb : bytes_ok data).

Let k : nat := num_fields len w.

Lemma len_fields : Z.to_nat len = (k * w)%nat /\ Z.to_nat (diff_bytes fmt len) = (k * d)%nat.
Proof. destruct (diff_bytes_bound _ _ _ _ Hf Hlen Hmod) as (_ & H1 & H2). unfold k. lia. Qed.

Lemma sample_nat (j : nat) : sample len data (Z.of_nat j) = take (k * w) (drop (j * (k * w)) data).
Proof.
  unfold sample, ztake, zdrop. destruct len_fields as [H1 _].
  rewrite Z2Nat.inj_mul, Nat2Z.id by lia. by rewrite H1.
Qed.

(** The differences from sample [j] to sample [m]. *)
Lemma apply_diffs_samples (m i j : nat) rest :
  (S m * (k * w) <= length data)%nat -> (i + j <= m)%nat ->
  (forall t, 0 <= t < Z.of_nat m -> step_valid fmt len data t = true) ->
  apply_diffs (tdf_diff_apply_functions fmt) len (diff_bytes fmt len) i
    (sample len data (Z.of_nat j))
    (diff_encode w d ((m - j) * k) (drop (j * (k * w)) data) (drop (S j * (k * w)) data) ++ rest) =
  sample len data (Z.of_nat (i + j)).
Proof.
  destruct (diff_format_tables _ _ _ Hf) as (Hwd & _).
  destruct (diff_format_functions _ _ _ Hf) as (Hc & _ & Ha). destruct len_fields as [Hk1 Hk2].
  intros Hl Hi Hv. revert j Hi. induction i as [|i IH]; intros j Hi; [done|].
  cbn [apply_diffs]. replace ((m - j) * k)%nat with (k + (m - S j) * k)%nat by nia.
  rewrite diff_encode_app, <- app_assoc, !drop_drop.
  set (cur := drop (j * (k * w)) data). set (nxt := drop (S j * (k * w)) data).
  assert (Hvj : diff_check w d k (take (k * w) cur) nxt = true).
  { specialize (Hv (Z.of_nat j) ltac:(lia)). unfold step_valid in Hv. rewrite Hc in Hv.
    erewrite diff_check_take; [exact Hv|..]; fold k; unfold cur, nxt, zdrop.
    - rewrite take_take. do 2 f_equal; [lia|]. rewrite Z2Nat.inj_mul; lia.
    - do 2 f_equal. rewrite Z2Nat.inj_mul; lia. }
  rewrite (diff_encode_take w d k cur nxt (take (k * w) cur) nxt)
    by (rewrite ?take_take; f_equal; lia).
  assert (Hn : (k * w <= length nxt)%nat) by (unfold nxt; rewrite length_drop; nia).
  assert (Hstep : forall r, tdf_diff_apply_functions fmt len (sample len data (Z.of_nat j))
    (sample len data (Z.of_nat j)) (diff_encode w d k (take (k * w) cur) nxt ++ r) = take (k * w) nxt).
  { intros r. rewrite Ha. unfold diff_apply_out. fold k. rewrite sample_nat. fold cur.
    rewrite diff_apply_encode by (try done; by apply Forall_drop).
    rewrite drop_ge by (rewrite length_take; lia). apply app_nil_r. }
  rewrite Hstep.
  unfold zdrop. rewrite Hk2, drop_app_length' by (by rewrite length_diff_encode).
  unfold nxt. rewrite <- sample_nat.
  replace (j * (k * w) + k * w)%nat with (S j * (k * w))%nat by lia.
  replace (S j * (k * w) + k * w)%nat with (S (S j) * (k * w))%nat by lia.
  rewrite IH by lia. f_equal. lia.
Qed.

(** Sample [i] of a delta encoded TDF is sample [i] of the logged data. *)
Lemma reconstruct_payload n i p :
  1 < n <= 64 -> 0 <= i < n -> len * n <= zlen data ->
  (forall t, 0 <= t < n - 1 -> step_valid fmt len data t = true) ->
  p_len p = len -> p_type p = fmt -> p_num p = n - 1 ->
  p_data p = tdf_payload true false fmt len n data ->
  tdf_parse_diff_reconstruct p i = inr (sample len data i).
Proof.
  intros Hn Hi Hd Hv Hpl Hpt Hpn Hpd. unfold tdf_parse_diff_reconstruct.
  rewrite Hpl, Hpt, Hpn, Hpd. destruct len_fields as [Hk1 Hk2].
  replace (format_is_diff fmt) with true by (symmetry; apply format_is_diff_iff; eauto).
  replace (n - 1 <? i) with false by lia. cbn [negb orb]. f_equal.
  unfold tdf_payload. replace (true && (1 <? n)) with true by lia.
  assert (Hzl : zlen (ztake len data) = len) by (rewrite zlen_ztake; nia).
  rewrite zdrop_app, ztake_app by done.
  destruct (diff_format_functions _ _ _ Hf) as (_ & -> & _).
  destruct (diff_format_tables _ _ _ Hf) as (_ & Hdiv & _). rewrite Hdiv.
  replace (Z.to_nat ((n - 1) * (len / Z.of_nat w))) with (Z.to_nat (n - 1) * k)%nat.
  2: { unfold k, num_fields. rewrite Z2Nat.inj_mul; try lia. apply Z.div_pos; lia. }
  fold (diff_bytes fmt len).
  pose proof (apply_diffs_samples (Z.to_nat (n - 1)) (Z.to_nat i) 0 []) as Happ.
  rewrite app_nil_r, Nat.add_0_r, (Z2Nat.id i) in Happ by lia.
  replace (sample len data (Z.of_nat 0)) with (ztake len data) in Happ by (by unfold sample; rewrite zdrop_0).
  rewrite <- Hdiv. fold (diff_bytes fmt len). rewrite <- Happ; clear Happ.
  - f_equal. rewrite Nat.sub_0_r. apply diff_encode_take; unfold ztake, zdrop; [done|].
    rewrite take_take. cbn [Nat.mul]. rewrite Nat.add_0_r, Hk1. f_equal.
    rewrite Z2Nat.inj_mul, Hk1 by lia. lia.
  - unfold zlen in Hd. nia.
  - lia.
  - intros t Ht. apply Hv. lia.
Qed.
End reconstruct.

(** ** Logging and parsing a sequence of TDFs *)

(** The arguments of one [tdf_add_core] call. *)
Record tdf_req := TdfReq {
  rq_id : Z; rq_len : Z; rq_num : Z; rq_time : Z; rq_period : Z; rq_data : list Z; rq_format : Z;
}.

(** Raw samples, with a time that fits the 32 bit seconds of an absolute timestamp. *)
Definition req_ok (r : tdf_req) : Prop :=
  tdf_args_ok (rq_id r) (rq_len r) (rq_num r) (rq_time r) (rq_period r) (rq_data r) (rq_format r) /\
  in_u 48 (rq_time r) /\ bytes_ok (rq_data r) /\ fmt_precomputed (rq_format r) = false.

Definition tdf_parsed_count (p : tdf_parsed) : Z :=
  if format_is_diff (p_type p) then p_num p + 1 else p_num p.

Definition tdf_parsed_sample (p : tdf_parsed) (i : Z) : Z + list Z :=
  if format_is_diff (p_type p) then tdf_parse_diff_reconstruct p i
  else inr (sample (p_len p) (p_data p) i).

(** [p] holds the first [rc] samples of request [r]. *)
Record tdf_faithful (r : tdf_req) (rc : Z) (p : tdf_parsed) : Prop := {
  faithful_id : p_id p = rq_id r;
  faithful_len : p_len p = rq_len r;
  faithful_time : p_time p = rq_time r;
  faithful_count : tdf_parsed_count p = rc;
  faithful_rc : 1 <= rc <= rq_num r;
  faithful_samples i : 0 <= i < rc -> tdf_parsed_sample p i = inr (sample (rq_len r) (rq_data r) i);
  faithful_period : p_period p =
    wire_period (rq_format r =? TDF_DATA_FORMAT_IDX_ARRAY) rc (rq_period r);
}.

(** A decoded wire image holds the samples it was made from. *)
Lemma decoded_faithful r st st' rc is_diff :
  req_ok r ->
  tdf_appended st st' (rq_id r) (rq_len r) (rq_num r) (rq_time r) (rq_period r) (rq_data r)
    (rq_format r) rc is_diff ->
  let is_idx := rq_format r =? TDF_DATA_FORMAT_IDX_ARRAY in
  let fmt := fmt_base (rq_format r) in
  wire_ok (rq_len r) rc (rq_period r) is_idx is_diff false fmt (rq_data r) /\
  tdf_faithful r rc (tdf_decoded (rq_id r) (rq_len r) rc (rq_time r) (rq_period r) is_idx is_diff
                       false fmt (rq_data r)).
Proof.
  intros (Hargs & Ht & Hb & Hpre) Happ is_idx fmt.
  destruct Hargs as [_ _ Hnum _ Hper _ _], Happ as [Hid Hlen Hrc Hmax Hdiff Hdata _ _ _ _ _].
  rewrite Hpre in *. fold fmt is_idx in Hmax, Hdiff, Hdata. unfold in_u in *.
  assert (Hidx : is_diff = true -> is_idx = false).
  { intros Hd. destruct (Hdiff Hd) as (Hf & _). destruct is_idx eqn:E; [|done].
    unfold fmt in Hf. by rewrite (fmt_idx_base _ E) in Hf. }
  assert (Hok : wire_ok (rq_len r) rc (rq_period r) is_idx is_diff false fmt (rq_data r)).
  { split; try done; try lia. intros Hd. destruct (Hdiff Hd) as (? & ? & Hx).
    destruct (Hx eq_refl) as (? & _). auto. }
  split; [done|]. unfold data_needed in Hdata. rewrite andb_false_r in Hdata.
  destruct (has_array is_idx rc && is_diff) eqn:Hd.
  - apply andb_true_iff in Hd as [Harr ->]. destruct (Hdiff eq_refl) as (Hf & Hm & Hx).
    destruct (Hx eq_refl) as (Hn64 & Hv). specialize (Hidx eq_refl).
    assert (Hn1 : 1 < rc) by (rewrite Hidx in Harr; unfold has_array in Harr; rewrite andb_true_r in Harr; lia).
    apply format_is_diff_iff in Hf as Hf'. destruct Hf' as (w & d & Hf').
    assert (Hty : wire_type is_idx true fmt rc = fmt).
    { unfold wire_type. by rewrite Harr, Hidx. }
    split; try done; unfold tdf_parsed_count, tdf_parsed_sample; cbn [tdf_decoded p_type p_num];
      rewrite ?Hty, ?Hf; unfold wire_num; rewrite ?Harr; cbn [andb]; try lia.
    intros i Hi. eapply (reconstruct_payload fmt w d); try done; try lia.
    by unfold tdf_decoded, wire_num; cbn [p_num]; rewrite Harr.
  - assert (Hpay : tdf_payload is_diff false fmt (rq_len r) rc (rq_data r) =
                   ztake (rq_len r * rc) (rq_data r)).
    { unfold tdf_payload. replace (is_diff && (1 <? rc)) with false; [done|].
      destruct is_diff; [|done]. rewrite (Hidx eq_refl) in Hd. unfold has_array in Hd.
      rewrite !andb_true_r in Hd. cbn [andb]. lia. }
    assert (Hty : format_is_diff (wire_type is_idx is_diff fmt rc) = false).
    { unfold wire_type. destruct (has_array is_idx rc); [|done]. cbn [negb].
      destruct is_idx; [done|]. by destruct is_diff. }
    split; try done; unfold tdf_parsed_count, tdf_parsed_sample;
      cbn [tdf_decoded p_type p_num p_data p_len]; rewrite ?Hty; unfold wire_num; rewrite ?Hd; try done.
    intros i Hi. f_equal. rewrite Hpay. unfold sample. rewrite zdrop_ztake by nia.
    unfold ztake. rewrite take_take. f_equal. nia.
Qed.

Section sequences.
Context `{NetBufSpec}.

(** One [tdf_add_core] call after the other, with the return values. *)
Fixpoint tdf_add_all (st : tdf_buffer_state) (reqs : list tdf_req)
  : exec (list Z * tdf_buffer_state) :=
  match reqs with
  | [] => Done ([], st)
  | r :: reqs =>
      let! (rc, st) := tdf_add_core st (rq_id r) (rq_len r) (rq_num r) (rq_time r) (rq_period r)
                         (rq_data r) (rq_format r) in
      let! (rcs, st) := tdf_add_all st reqs in
      Done (rc :: rcs, st)
  end.

(** [tdf_parse] until it fails, with the final return value. *)
Fixpoint tdf_parse_all (fuel : nat) (st : tdf_buffer_state) (p : tdf_parsed)
  : exec (list tdf_parsed * Z) :=
  match fuel with
  | O => NoFuel
  | S fuel =>
      let! (rc, st, p) := tdf_parse st p in
      if rc =? 0 then
        let! (ps, rc) := tdf_parse_all fuel st p in
        Done (p :: ps, rc)
      else Done ([], rc)
  end.

(** The requests of which something was logged, with how much. *)
Definition logged (reqs : list tdf_req) (rcs : list Z) : list (tdf_req * Z) :=
  filter (fun x => 0 < x.2) (zip reqs rcs).

(** Bytes that are a sequence of wire images, the first relative to time [t]; the
    last index is the time base after them. *)
Inductive wire_seq : Z -> list Z -> list tdf_parsed -> Z -> Prop :=
| wire_seq_nil t : wire_seq t [] [] t
| wire_seq_cons t time delta th hdr id len n period is_idx is_diff fmt data bytes ps t' :
    timestamp_select t time = (delta, th, hdr) -> in_u 64 t -> in_u 48 time -> 0 < id < 4095 ->
    wire_ok len n period is_idx is_diff false fmt data ->
    wire_seq (if time =? 0 then t else time) bytes ps t' ->
    wire_seq t (tdf_wire hdr id len n time delta period is_idx is_diff false fmt data ++ bytes)
      (tdf_decoded id len n time period is_idx is_diff false fmt data :: ps) t'.

(** Parsing stops after the sequence when the bytes behind it are not a TDF. *)
Lemma tdf_parse_all_tail t bytes ps t' b pre tail post p rc :
  wire_seq t bytes ps t' -> nb_repr b pre (bytes ++ tail) post -> rc <> 0 ->
  (forall b pre p, nb_repr b pre tail post -> exists st p', tdf_parse (TdfState t' b) p = Done (rc, st, p')) ->
  tdf_parse_all (S (length ps)) (TdfState t b) p = Done (ps, rc).
Proof.
  intros Hw Hr Hrc Htail. revert b pre p Hr. induction Hw as [t|t time delta th hdr id len n period
    is_idx is_diff fmt data bytes ps t' Hts Ht Htime Hid Hok Hw IH]; intros b pre p Hr.
  - cbn. destruct (Htail b pre p Hr) as (st & p' & ->). cbn [exec_bind].
    by replace (rc =? 0) with false by lia.
  - cbn [length]. change (tdf_parse_all (S (S (length ps))) (TdfState t b) p) with
      (let! (rc, st, p) := tdf_parse (TdfState t b) p in
       if rc =? 0 then let! (ps, rc) := tdf_parse_all (S (length ps)) st p in Done (p :: ps, rc)
       else Done ([], rc)).
    rewrite <- app_assoc in Hr.
    destruct (tdf_parse_wire (TdfState t b) p hdr id len n time delta th period is_idx is_diff
                false fmt data pre (bytes ++ tail) post Hts Ht Htime Hid Hok Hr) as (b' & -> & Hr' & _).
    cbn [exec_bind ts_time]. change (0 =? 0) with true. cbv iota.
    by rewrite (IH Htail _ _ _ Hr').
Qed.

Lemma tdf_parse_all_wire_seq t bytes ps t' b pre post p :
  wire_seq t bytes ps t' -> nb_repr b pre bytes post ->
  tdf_parse_all (S (length ps)) (TdfState t b) p = Done (ps, - ENOMEM).
Proof.
  intros Hw Hr. rewrite <- (app_nil_r bytes) in Hr.
  eapply (tdf_parse_all_tail _ _ _ _ _ _ _ _ _ _ Hw Hr); [done|]. intros b' pre' p' Hr'.
  unfold tdf_parse. cbn [ts_buf]. rewrite (nb_len_repr _ _ _ _ Hr'). by eexists _, _.
Qed.

Lemma tdf_state_ok_appended st st' id len num time period data format rc is_diff :
  tdf_state_ok st -> in_u 48 time ->
  tdf_appended st st' id len num time period data format rc is_diff -> tdf_state_ok st'.
Proof.
  intros (_ & Hs & Ht) Htm [_ _ _ _ _ _ Hwf Hsz _ Htime _]. unfold tdf_state_ok. rewrite Hsz, Htime.
  split; [done|]. split; [done|]. destruct (time =? 0); [done|]. unfold in_u in *. lia.
Qed.

(** Some call of the sequence meets the overflow case in the buffer left by the
    calls in front of it. *)
Inductive overflows : tdf_buffer_state -> list tdf_req -> Prop :=
| overflows_now st r reqs :
    reclaim_overflow st (rq_len r) (rq_num r) (rq_time r) (rq_format r) = true -> overflows st (r :: reqs)
| overflows_later st r reqs rc st' :
    tdf_add_core st (rq_id r) (rq_len r) (rq_num r) (rq_time r) (rq_period r) (rq_data r) (rq_format r)
      = Done (rc, st') ->
    overflows st' reqs -> overflows st (r :: reqs).

(** Without such a call every sequence of calls returns; with one it may run past the
    end of the buffer. *)
Lemma tdf_add_all_total reqs st :
  tdf_state_ok st -> Forall req_ok reqs ->
  (tdf_add_all st reqs = Fault /\ overflows st reqs) \/
  exists rcs st', tdf_add_all st reqs = Done (rcs, st') /\ length rcs = length reqs.
Proof.
  intros Hst Hreqs. revert st Hst. induction Hreqs as [|r reqs Hr Hreqs IH]; intros st Hst.
  { right. by exists [], st. }
  cbn [tdf_add_all]. pose proof Hr as (Hargs & Ht & _ & _).
  assert (Hnext : forall rc st1, tdf_state_ok st1 ->
    tdf_add_core st (rq_id r) (rq_len r) (rq_num r) (rq_time r) (rq_period r) (rq_data r) (rq_format r)
      = Done (rc, st1) ->
    ((let! (rcs, st2) := tdf_add_all st1 reqs in Done (rc :: rcs, st2)) = Fault /\ overflows st (r :: reqs)) \/
    exists rcs st', (let! (rcs, st2) := tdf_add_all st1 reqs in Done (rc :: rcs, st2)) = Done (rcs, st') /\
      length rcs = length (r :: reqs)).
  { intros rc st1 Hst1 Hd. destruct (IH st1 Hst1) as [(-> & Ho)|(rcs & st2 & -> & Hl)]; cbn [exec_bind].
    - left. split; [done|]. by eapply overflows_later.
    - right. exists (rc :: rcs), st2. cbn [length]. by rewrite Hl. }
  destruct (tdf_add_core_ok st (rq_id r) (rq_len r) (rq_num r) (rq_time r) (rq_period r) (rq_data r)
    (rq_format r) Hst Hargs) as [(Hf & Ho)|[(rc & Hd & Hrc)|(rc & st1 & is_diff & Hd & Happ)]].
  { left. rewrite Hf. split; [done|]. by apply overflows_now. }
  - rewrite Hd. cbn [exec_bind]. by apply (Hnext rc st).
  - rewrite Hd. cbn [exec_bind]. apply (Hnext rc st1); [|done].
    by apply (tdf_state_ok_appended _ _ _ _ _ _ _ _ _ _ _ Hst Ht Happ).
Qed.

(** What a sequence of calls leaves in the buffer. *)
Lemma tdf_add_all_wire_seq reqs st rcs st' :
  tdf_state_ok st -> Forall req_ok reqs -> tdf_add_all st reqs = Done (rcs, st') ->
  exists bytes ps, wire_seq (ts_time st) bytes ps (ts_time st') /\ tdf_state_ok st' /\
    nb_contents (ts_buf st') = nb_contents (ts_buf st) ++ bytes /\
    Forall2 (fun x p => tdf_faithful x.1 x.2 p) (logged reqs rcs) ps.
Proof.
  intros Hst Hreqs. revert st rcs Hst. induction Hreqs as [|r reqs Hr Hreqs IH]; intros st rcs Hst Hadd.
  { injection Hadd as <- <-. exists [], []. rewrite app_nil_r.
    split; [constructor|]. split; [done|]. split; [done|constructor]. }
  cbn [tdf_add_all] in Hadd. pose proof Hr as (Hargs & Ht & Hb & Hpre).
  destruct (tdf_add_core_ok st (rq_id r) (rq_len r) (rq_num r) (rq_time r) (rq_period r) (rq_data r)
    (rq_format r) Hst Hargs) as [(Hf & _)|[(rc & Hd & Hrc)|(rc & st1 & is_diff & Hd & Happ)]].
  { by rewrite Hf in Hadd. }
  { rewrite Hd in Hadd. cbn [exec_bind] in Hadd. inv_exec Hadd. destruct r0 as [rcs0 st2].
    injection Hadd as <- <-. destruct (IH _ _ Hst Hr0) as (bytes & ps & Hw & Hst' & Hc & Hfa).
    exists bytes, ps. split; [done|]. split; [done|]. split; [done|].
    unfold logged. cbn [zip zip_with]. rewrite filter_cons_False; [done|].
    unfold tdf_refused, EINVAL, ENOSPC, ENOMEM in Hrc. cbn. lia. }
  rewrite Hd in Hadd. cbn [exec_bind] in Hadd. inv_exec Hadd. destruct r0 as [rcs0 st2].
  injection Hadd as <- <-. destruct (decoded_faithful r st st1 rc is_diff Hr Happ) as (Hok & Hfa).
  destruct (IH _ _ (tdf_state_ok_appended _ _ _ _ _ _ _ _ _ _ _ Hst Ht Happ) Hr0)
    as (bytes & ps & Hw & Hst' & Hc & Hall).
  pose proof (app_contents _ _ _ _ _ _ _ _ _ _ _ Happ) as Hwire.
  destruct (timestamp_select (ts_time st) (rq_time r)) as [[delta th] hdr] eqn:Hts.
  rewrite Hwire, <- app_assoc, Hpre in Hc. eexists _, _. split; [|split; [exact Hst'|split; [exact Hc|]]].
  - eapply wire_seq_cons; [exact Hts|apply Hst|done|apply Happ|exact Hok|].
    by rewrite <- (app_time _ _ _ _ _ _ _ _ _ _ _ Happ).
  - unfold logged. cbn [zip zip_with]. rewrite filter_cons_True by (destruct Hfa; cbn; lia).
    by constructor.
Qed.
End sequences.
