(* ===== verification/TdfSpec.v ===== *)
(** * What the TDF library promises

    The theorems about [subsys/tdf] that its users rely on, each with an instance
    on a concrete buffer. *)

From stdpp Require Import base tactics numbers list.
From Stdlib Require Import ZArith Lia.
From S2P Require Import Prelude NetBuf Epoch TdfDiffs Tdf TdfWire TdfEncode TdfDecode TdfRoundtrip TdfParser.

Local Open Scope Z_scope.
Local Open Scope infuse_scope.

Definition no_tdf : tdf_parsed := TdfParsed 0 0 0 0 0 0 [].

Definition empty_state (size : nat) : tdf_buffer_state :=
  TdfState 0 (NetBuf (replicate size 0) 0 0 (Z.of_nat size)).

(** A hypothesis on concrete integers or bytes. *)
Ltac concrete :=
  repeat first
    [ progress unfold in_u, in_s, bytes_ok, byte_ok, nb_wf
    | split | apply Forall_cons_2 | apply Forall_nil_2 ];
  vm_compute; try congruence; try (intros; discriminate).

(** C1.  A sequence of [tdf_add_core] calls on an empty buffer, with raw samples (not
    already delta encoded) and times below 2^48, returns a code for each call unless
    one of them meets the reclaim overflow of [tdf_add_core] (an array of two byte
    TDFs with one byte left behind the headers), the only case in which it can run
    past the end of the buffer.  When it returns, parsing the bytes back yields, in
    order, one TDF for each request that was logged, with its identifier, length and
    time, every logged sample intact whether or not it was delta encoded, and the
    period rounded as the wire encodes it (none for a single TDF, and scaled periods
    lose their low bits).  The parser then stops at the end of the data. *)
Theorem tdf_roundtrip `{NetBufSpec} st reqs p0 :
  tdf_state_ok st -> ts_time st = 0 -> nb_contents (ts_buf st) = [] -> Forall req_ok reqs ->
  (tdf_add_all st reqs = Fault /\ overflows st reqs) \/
  exists rcs st' ps, tdf_add_all st reqs = Done (rcs, st') /\ length rcs = length reqs /\
    tdf_parse_all (S (length ps))
      (tdf_parse_start (nb_contents (ts_buf st')) (zlen (nb_contents (ts_buf st')))) p0
      = Done (ps, - ENOMEM) /\
    Forall2 (fun x p => tdf_faithful x.1 x.2 p) (logged reqs rcs) ps.
Proof.
  intros Hst Ht Hc Hreqs.
  destruct (tdf_add_all_total reqs st Hst Hreqs) as [?|(rcs & st' & Hadd & Hl)]; [by left|right].
  destruct (tdf_add_all_wire_seq _ _ _ _ Hst Hreqs Hadd) as (bytes & ps & Hw & _ & Hc' & Hall).
  exists rcs, st', ps. split; [done|]. split; [done|]. split; [|done].
  rewrite Hc' in *. rewrite Hc, Ht in *. cbn [app] in *.
  unfold tdf_parse_start. rewrite init_with_data_spec.
  eapply tdf_parse_all_wire_seq with (pre := []) (post := []); [exact Hw|].
  apply nb_repr_init.
Qed.

Definition example_reqs : list tdf_req :=
  [ TdfReq 10 4 1 (5 * 65536) 0 [1; 2; 3; 4] TDF_DATA_FORMAT_SINGLE;
    TdfReq 11 2 4 (5 * 65536 + 7) 100 [0; 1; 5; 1; 3; 1; 9; 1] TDF_DATA_FORMAT_DIFF_ARRAY_16_8 ].

Lemma tdf_roundtrip_witness :
  exists rcs st' ps, tdf_add_all (empty_state 64) example_reqs = Done (rcs, st') /\ rcs = [1; 4] /\
    tdf_parse_all (S (length ps))
      (tdf_parse_start (nb_contents (ts_buf st')) (zlen (nb_contents (ts_buf st')))) no_tdf
      = Done (ps, - ENOMEM) /\
    Forall2 (fun x p => tdf_faithful x.1 x.2 p) (logged example_reqs rcs) ps.
Proof.
  destruct (tdf_roundtrip (empty_state 64) example_reqs no_tdf)
    as [(Hf & _)|(rcs & st' & ps & Hd & _ & Hp & Hall)]; [|reflexivity|reflexivity|..].
  - concrete.
  - repeat constructor; concrete.
  - exfalso. vm_compute in Hf. discriminate.
  - exists rcs, st', ps. split; [exact Hd|]. split; [|by split].
    vm_compute in Hd. injection Hd as <- _. reflexivity.
Defined.

(** C24.  Outside the overflow case, [tdf_add_core] returns.  On an error code the
    buffer is untouched, and the code names the reason: invalid arguments, a buffer
    too small for the TDF even when empty, or too little room left.  Otherwise it
    appends the wire image of the first [rc]
    TDFs, at least one and at most those requested, and records the new base time. *)
Theorem tdf_add_core_correct `{NetBufSpec} st id len num time period data format :
  tdf_state_ok st -> tdf_args_ok id len num time period data format ->
  reclaim_overflow st len num time format = false ->
  exists rc st', tdf_add_core st id len num time period data format = Done (rc, st') /\
    ((st' = st /\ tdf_refused st id len num period format rc) \/
     exists is_diff, tdf_appended st st' id len num time period data format rc is_diff).
Proof.
  intros Hst Hargs Hno.
  destruct (tdf_add_core_ok st id len num time period data format Hst Hargs)
    as [(_ & Hf)|[(rc & Hd & Hrc)|(rc & st' & is_diff & Hd & Happ)]]; [congruence|..]; eauto 10.
Qed.

Lemma tdf_add_core_correct_witness :
  exists rc st', tdf_add_core (empty_state 16) 10 3 4 65536 9 (replicate 12 1) TDF_DATA_FORMAT_TIME_ARRAY
    = Done (rc, st') /\
    ((st' = empty_state 16 /\ tdf_refused (empty_state 16) 10 3 4 9 TDF_DATA_FORMAT_TIME_ARRAY rc) \/
     exists is_diff, tdf_appended (empty_state 16) st' 10 3 4 65536 9 (replicate 12 1)
       TDF_DATA_FORMAT_TIME_ARRAY rc is_diff).
Proof. apply tdf_add_core_correct; [concrete|concrete|vm_compute; reflexivity]. Defined.

(** A valid array of two byte TDFs always overruns the buffer when exactly one
    byte is left behind the headers: the array header is reclaimed for the payload,
    two TDFs then seem to fit, and their array header is written all the same. *)
Theorem tdf_add_core_overflow `{NetBufSpec} st id num time period data format :
  tdf_state_ok st -> tdf_args_ok id 2 num time period data format ->
  reclaim_overflow st 2 num time format = true -> format_is_diff (fmt_base format) = false ->
  tdf_input_validate id 2 num period (fmt_base format)
    (3 + (if time =? 0 then 0 else 6) + 2) (nb_size (ts_buf st) - nb_data (ts_buf st)) = 0 ->
  tdf_add_core st id 2 num time period data format = Fault.
Proof.
  intros Hst Hargs Hov Hnd Hval. destruct (nb_room_bound st Hst) as [Hroom Hwf].
  pose proof Hst as ((? & ? & ? & ?) & Hsz & _).
  unfold tdf_add_core. rewrite tailroom_spec by done.
  fold (fmt_precomputed format) (fmt_base format).
  rewrite (uwrap_small 16 (nb_room _)), (uwrap_small 16 (nb_size _ - _)) by lia.
  replace (u16 (sizeof_tdf_header + _ + 2)) with (3 + (if time =? 0 then 0 else 6) + 2)
    by (destruct (time =? 0); reflexivity).
  rewrite Hval. change (0 <? 0) with false. cbv iota. unfold reclaim_overflow in Hov.
  destruct (timestamp_select (ts_time st) time) as [[delta th] hdr] eqn:Hts.
  apply andb_true_iff in Hov as [Hov Hr]. apply andb_true_iff in Hov as [Hov Hi].
  rewrite Hnd. cbn [andb]. unfold diff_select. cbn [andb exec_bind].
  apply negb_true_iff in Hi. rewrite Hi. destruct Hargs as [Hid _ Hnum _ _ _ _].
  unfold in_u in *. apply tdf_add_encoded_overflow; try done; try lia.
  unfold tdf_input_validate in Hval. destruct (id =? 0) eqn:E1; [done|].
  destruct (4095 <=? id) eqn:E2; [done|]. lia.
Qed.

Lemma tdf_add_core_overflow_witness :
  tdf_add_core (empty_state 7) 10 2 3 0 1 (replicate 6 7) TDF_DATA_FORMAT_TIME_ARRAY = Fault.
Proof. apply tdf_add_core_overflow; [concrete|concrete|vm_compute; reflexivity..]. Defined.

(** C34.  The parser is safe on arbitrary bytes: it returns success, [-EINVAL] or
    [-ENOMEM], never reads outside the data, only ever consumes from the front,
    and an accepted TDF consumes at least its three byte header. *)
Theorem tdf_parse_robust `{NetBufSpec} st p :
  nb_wf (ts_buf st) -> bytes_ok (nb_mem (ts_buf st)) ->
  exists rc st' p', tdf_parse st p = Done (rc, st', p') /\
    (rc = 0 \/ rc = - EINVAL \/ rc = - ENOMEM) /\ pulled (ts_buf st) (ts_buf st') /\
    (rc = 0 -> nb_len (ts_buf st') <= nb_len (ts_buf st) - 3).
Proof. apply tdf_parse_ok. Qed.

Lemma tdf_parse_robust_witness :
  exists rc st' p', tdf_parse (tdf_parse_start [0xFF; 0xFF; 200; 3; 1] 5) no_tdf = Done (rc, st', p') /\
    (rc = 0 \/ rc = - EINVAL \/ rc = - ENOMEM) /\
    pulled (ts_buf (tdf_parse_start [0xFF; 0xFF; 200; 3; 1] 5)) (ts_buf st') /\
    (rc = 0 -> nb_len (ts_buf st') <= nb_len (ts_buf (tdf_parse_start [0xFF; 0xFF; 200; 3; 1] 5)) - 3).
Proof.
  apply (tdf_parse_robust (tdf_parse_start [0xFF; 0xFF; 200; 3; 1] 5) no_tdf); concrete.
Defined.

(** The TDFs in front of the first failure, and what the search makes of them. *)
Lemma parse_find_loop_spec `{NetBufSpec} fuel st id p :
  nb_wf (ts_buf st) -> bytes_ok (nb_mem (ts_buf st)) -> nb_len (ts_buf st) < Z.of_nat fuel ->
  exists ps rc, tdf_parse_all fuel st p = Done (ps, rc) /\
    match list_find (fun q => p_id q = id) ps with
    | Some (_, q) => parse_find_loop fuel st id p = Done (0, q)
    | None => exists q, parse_find_loop fuel st id p = Done (- ENOMEM, q)
    end.
Proof.
  revert st p. induction fuel as [|fuel IH]; intros st p Hwf Hb Hf.
  { destruct Hwf as (_ & ? & _). lia. }
  destruct (tdf_parse_ok st p Hwf Hb) as (rc & st1 & p1 & Hp & _ & (Hwf1 & Hm1 & _) & Hl).
  cbn [tdf_parse_all parse_find_loop]. rewrite Hp. cbn [exec_bind].
  destruct (Z.eqb_spec rc 0) as [Hz|Hz]; [|exists [], rc; split; [done|by exists p1]].
  destruct (IH st1 p1) as (ps & rc' & -> & Hfind); [done|by rewrite Hm1|lia|].
  cbn [exec_bind]. eexists (p1 :: ps), rc'. split; [done|]. cbn [list_find].
  destruct (Z.eqb_spec (p_id p1) id) as [He|He].
  - by rewrite decide_True by done.
  - rewrite decide_False by done. destruct (list_find _ ps) as [[i q]|]; done.
Qed.

(** [tdf_parse_find_in_buf] terminates on arbitrary bytes and returns the first
    parseable TDF with the identifier, or [-ENOMEM] when there is none. *)
Theorem tdf_parse_find_first `{NetBufSpec} bytes id p :
  bytes_ok bytes ->
  exists ps rc, tdf_parse_all (S (length bytes)) (tdf_parse_start bytes (zlen bytes)) p = Done (ps, rc) /\
    match list_find (fun q => p_id q = id) ps with
    | Some (_, q) => tdf_parse_find_in_buf bytes (zlen bytes) id p = Done (0, q)
    | None => exists q, tdf_parse_find_in_buf bytes (zlen bytes) id p = Done (- ENOMEM, q)
    end.
Proof.
  intros Hb. unfold tdf_parse_find_in_buf.
  replace (Z.to_nat (zlen bytes)) with (length bytes) by (unfold zlen; lia).
  apply parse_find_loop_spec; unfold tdf_parse_start; rewrite init_with_data_spec; cbn [ts_buf].
  - eapply nb_repr_wf, nb_repr_init.
  - done.
  - cbn. unfold zlen. lia.
Qed.

Lemma tdf_parse_find_first_witness :
  exists ps rc, tdf_parse_all 11 (tdf_parse_start [10; 0; 2; 1; 1; 11; 0; 2; 5; 5] 10) no_tdf = Done (ps, rc) /\
    match list_find (fun q => p_id q = 11) ps with
    | Some (_, q) => tdf_parse_find_in_buf [10; 0; 2; 1; 1; 11; 0; 2; 5; 5] 10 11 no_tdf = Done (0, q)
    | None => exists q, tdf_parse_find_in_buf [10; 0; 2; 1; 1; 11; 0; 2; 5; 5] 10 11 no_tdf = Done (- ENOMEM, q)
    end.
Proof.
  apply (tdf_parse_find_first [10; 0; 2; 1; 1; 11; 0; 2; 5; 5] 11 no_tdf). concrete.
Defined.
