(* ===== verification/DataLogger.v ===== *)
(** * Data logger core ([subsys/data_logger/data_logger.c])

    Blocks of bytes are appended to a backend.  Persistent backends are a ring of
    physical blocks; each block starts with a header holding the wrap count, from
    which [data_logger_common_init] recovers the write position after a reboot.

    The backend (its API table and the power management of its device) is an
    argument; the C memory behind a [block] pointer is the list of its bytes.
    The build options are the fields of [dl_kconfig]. *)

From stdpp Require Import base tactics numbers list.
From Stdlib Require Import ZArith Lia.
From S2P Require Import Prelude.

Local Open Scope Z_scope.
Local Open Scope infuse_scope.

(** [ROUND_UP] of [zephyr/sys/util.h] *)
Definition ROUND_UP (x align : Z) : Z := (x + (align - 1)) / align * align.

Definition DATA_LOGGER_FLAGS_ERASING : Z := 1.

(** struct data_logger_cb: which of the three functions a subscriber has. *)
Record data_logger_cb := DlCb {
  cb_block_size_update : bool;
  cb_write_success : bool;
  cb_write_failure : bool;
}.

(** A call of a subscriber's function, with the subscriber's position. *)
Inductive dl_event :=
| EvBlockSizeUpdate (cb : nat) (size : Z)
| EvWriteSuccess (cb : nat) (type : Z)
| EvWriteFailure (cb : nat) (type : Z) (mem : list Z) (mem_len reason : Z).

(** struct data_logger_common_data *)
Record dl_data := DlData {
  callbacks : list data_logger_cb;
  bytes_logged : Z;
  logical_blocks : Z;
  physical_blocks : Z;
  boot_block : Z;
  current_block : Z;
  earliest_block : Z;
  erase_size : Z;
  block_size : Z;
  erase_val : Z;
  flags : Z;
  ram_buf_offset : Z;
}.

Definition set_bytes_logged (d : dl_data) (v : Z) : dl_data :=
  DlData (callbacks d) v (logical_blocks d) (physical_blocks d) (boot_block d) (current_block d)
    (earliest_block d) (erase_size d) (block_size d) (erase_val d) (flags d) (ram_buf_offset d).
Definition set_boot_block (d : dl_data) (v : Z) : dl_data :=
  DlData (callbacks d) (bytes_logged d) (logical_blocks d) (physical_blocks d) v (current_block d)
    (earliest_block d) (erase_size d) (block_size d) (erase_val d) (flags d) (ram_buf_offset d).
Definition set_current_block (d : dl_data) (v : Z) : dl_data :=
  DlData (callbacks d) (bytes_logged d) (logical_blocks d) (physical_blocks d) (boot_block d) v
    (earliest_block d) (erase_size d) (block_size d) (erase_val d) (flags d) (ram_buf_offset d).
Definition set_earliest_block (d : dl_data) (v : Z) : dl_data :=
  DlData (callbacks d) (bytes_logged d) (logical_blocks d) (physical_blocks d) (boot_block d)
    (current_block d) v (erase_size d) (block_size d) (erase_val d) (flags d) (ram_buf_offset d).
Definition set_flags (d : dl_data) (v : Z) : dl_data :=
  DlData (callbacks d) (bytes_logged d) (logical_blocks d) (physical_blocks d) (boot_block d)
    (current_block d) (earliest_block d) (erase_size d) (block_size d) (erase_val d) v
    (ram_buf_offset d).
Definition set_block_size (d : dl_data) (v : Z) : dl_data :=
  DlData (callbacks d) (bytes_logged d) (logical_blocks d) (physical_blocks d) (boot_block d)
    (current_block d) (earliest_block d) (erase_size d) v (erase_val d) (flags d)
    (ram_buf_offset d).
Definition set_ram_buf_offset (d : dl_data) (v : Z) : dl_data :=
  DlData (callbacks d) (bytes_logged d) (logical_blocks d) (physical_blocks d) (boot_block d)
    (current_block d) (earliest_block d) (erase_size d) (block_size d) (erase_val d) (flags d) v.
Definition set_callbacks (d : dl_data) (v : list data_logger_cb) : dl_data :=
  DlData v (bytes_logged d) (logical_blocks d) (physical_blocks d) (boot_block d)
    (current_block d) (earliest_block d) (erase_size d) (block_size d) (erase_val d) (flags d)
    (ram_buf_offset d).

(** struct data_logger_common_config; the RAM buffer itself is in the device. *)
Record dl_config := DlConfig {
  ram_buf_data : bool; (* not NULL *)
  ram_buf_len : Z;
  block_write_align : Z;
  requires_full_block_write : bool;
  queued_writes : bool;
}.

(** Build options. *)
Record dl_kconfig := DlKconfig {
  CONFIG_DATA_LOGGER_OFFLOAD_WRITES : bool;
  CONFIG_DATA_LOGGER_RAM_BUFFER : bool;
  CONFIG_DATA_LOGGER_BURST_WRITES : bool;
  CONFIG_DATA_LOGGER_OFFLOAD_MAX_PENDING : Z;
  CONFIG_DATA_LOGGER_OFFLOAD_MAX_BLOCK_SIZE : Z;
}.

(** struct data_logger_api, over the backend's state [B].  Reads return the bytes
    read; [reset] also returns the progress it reported. *)
Record data_logger_api (B : Type) := DlApi {
  api_write : B -> Z -> Z -> list Z -> Z * B;
  api_write_burst : option (B -> Z -> Z -> list Z -> Z * B);
  api_read : option (B -> Z -> Z -> Z -> Z * list Z * B);
  api_erase : B -> Z -> Z -> Z * B;
  api_reset : option (B -> Z -> Z * B * list Z);
  api_search_hint : option (B -> Z * Z * Z);
}.
Arguments DlApi {B}.
Arguments api_write {B}.
Arguments api_write_burst {B}.
Arguments api_read {B}.
Arguments api_erase {B}.
Arguments api_reset {B}.
Arguments api_search_hint {B}.

(** Zephyr device runtime power management of the logger device. *)
Class PmRuntime (B : Type) := {
  pm_device_runtime_get : B -> Z * B;
  pm_device_runtime_put : B -> B;
  pm_device_runtime_put_async : B -> B;
}.

(** A request on the commit queue. *)
Inductive dl_request :=
| ReqWrite (type : Z) (data : list Z)
| ReqFlush.

(** The logger device with its RAM buffer, the calls made to subscribers, and
    the queue of the commit thread (oldest first). *)
Record dl_dev (B : Type) := DlDev {
  dv_data : dl_data;
  dv_backend : B;
  dv_ram : list Z;
  dv_events : list dl_event;
  dv_queue : list dl_request;
}.
Arguments DlDev {B}.
Arguments dv_data {B}.
Arguments dv_backend {B}.
Arguments dv_ram {B}.
Arguments dv_events {B}.
Arguments dv_queue {B}.

(** struct data_logger_state *)
Record data_logger_state := DlState {
  st_bytes_logged : Z; st_logical_blocks : Z; st_physical_blocks : Z; st_boot_block : Z;
  st_current_block : Z; st_earliest_block : Z; st_erase_unit : Z; st_block_size : Z;
  st_block_overhead : Z; st_requires_full_block_write : bool;
}.

(** Indices of the subscribers that have a function. *)
Fixpoint cb_indices (f : data_logger_cb -> bool) (i : nat) (cbs : list data_logger_cb) : list nat :=
  match cbs with
  | [] => []
  | cb :: cbs => (if f cb then [i] else []) ++ cb_indices f (S i) cbs
  end.

Definition is_erased (wrap : Z) : bool := (wrap =? 0x00) || (wrap =? 0xFF).

Section data_logger.
Context {B : Type} `{PmRuntime B}.
Context (kc : dl_kconfig) (cfg : dl_config) (api : data_logger_api B).

Abbreviation dev_t := (dl_dev B).

Definition with_data (dev : dev_t) (d : dl_data) : dev_t :=
  DlDev d (dv_backend dev) (dv_ram dev) (dv_events dev) (dv_queue dev).
Definition with_backend (dev : dev_t) (b : B) : dev_t :=
  DlDev (dv_data dev) b (dv_ram dev) (dv_events dev) (dv_queue dev).
Definition with_ram (dev : dev_t) (ram : list Z) : dev_t :=
  DlDev (dv_data dev) (dv_backend dev) ram (dv_events dev) (dv_queue dev).
Definition with_events (dev : dev_t) (evs : list dl_event) : dev_t :=
  DlDev (dv_data dev) (dv_backend dev) (dv_ram dev) (dv_events dev ++ evs) (dv_queue dev).
Definition with_queue (dev : dev_t) (q : list dl_request) : dev_t :=
  DlDev (dv_data dev) (dv_backend dev) (dv_ram dev) (dv_events dev) q.

Definition IS_PERSISTENT_LOGGER : bool :=
  match api_read api with Some _ => true | None => false end.

Definition data_logger_get_state (dev : dev_t) : data_logger_state :=
  let data := dv_data dev in
  DlState (bytes_logged data) (logical_blocks data) (physical_blocks data) (boot_block data)
    (current_block data) (earliest_block data) (erase_size data) (block_size data)
    (if IS_PERSISTENT_LOGGER then 2 else 0) (requires_full_block_write cfg).

Definition handle_block_write_success (dev : dev_t) (type : Z) : dev_t :=
  with_events dev
    (map (fun i => EvWriteSuccess i type) (cb_indices cb_write_success 0 (callbacks (dv_data dev)))).

Definition handle_block_write_fail (dev : dev_t) (type : Z) (block : list Z)
  (block_len reason : Z) : dev_t :=
  with_events dev
    (map (fun i => EvWriteFailure i type (ztake block_len block) block_len reason)
       (cb_indices cb_write_failure 0 (callbacks (dv_data dev)))).

(** The label [done] of [do_block_write]. *)
Definition block_write_done (dev : dev_t) (type : Z) (block : list Z) (block_len rc : Z)
  : Z * dev_t * list Z :=
  let data := dv_data dev in
  if rc =? 0 then
    let data := set_bytes_logged data (u64 (bytes_logged data + block_len)) in
    let data := set_current_block data (u32 (current_block data + 1)) in
    (rc, handle_block_write_success (with_data dev data) type, block)
  else (rc, handle_block_write_fail dev type block block_len rc, block).

(** Erase the next chunk if the block starts one: [rc] and the device. *)
Definition prepare_block (dev : dev_t) (phy_block erase_blocks : Z) : exec (Z * dev_t) :=
  let data := dv_data dev in
  if physical_blocks data <=? current_block data then
    if erase_blocks =? 0 then Fault (* division by zero *)
    else if current_block data mod erase_blocks =? 0 then
      let dev :=
        with_data dev (set_earliest_block data (u32 (earliest_block data + erase_blocks))) in
      let '(rc, b) := api_erase api (dv_backend dev) phy_block erase_blocks in
      let dev := with_backend dev b in
      if rc <? 0 then
        let data := dv_data dev in
        Done (rc, with_data dev (set_earliest_block data (u32 (earliest_block data - erase_blocks))))
      else Done (rc, dev)
    else Done (0, dev)
  else Done (0, dev).

(** The block header; the block has room for it. *)
Definition write_header (wrap type : Z) (block : list Z) : exec (list Z) :=
  if zlen block <? 2 then Fault else Done (zwrite 0 [u8 wrap; u8 type] block).

(** Returns the caller's block as well, since its header is written in place. *)
Definition do_block_write (dev : dev_t) (type : Z) (block : list Z) (block_len : Z)
  : exec (Z * dev_t * list Z) :=
  let data := dv_data dev in
  if (block_size data =? 0) || (physical_blocks data =? 0) then Fault (* division by zero *)
  else
    let erase_blocks := u16 (erase_size data / block_size data) in
    let phy_block := current_block data mod physical_blocks data in
    let '(rc, b) := pm_device_runtime_get (dv_backend dev) in
    let dev := with_backend dev b in
    if rc <? 0 then Done (block_write_done dev type block block_len rc)
    else
      let! (rc, dev) := prepare_block dev phy_block erase_blocks in
      if rc <? 0 then
        let dev := with_backend dev (pm_device_runtime_put_async (dv_backend dev)) in
        Done (block_write_done dev type block block_len rc)
      else
        let data := dv_data dev in
        let! block :=
          if IS_PERSISTENT_LOGGER
          then write_header (current_block data / physical_blocks data + 1) type block
          else Done block in
        if zlen block <? block_len then Fault (* read past the block *) else
        let '(rc, b) := api_write api (dv_backend dev) phy_block type (ztake block_len block) in
        let dev := with_backend dev (pm_device_runtime_put_async b) in
        Done (block_write_done dev type block block_len rc).

(** ** RAM buffering *)

Definition do_ram_buffer_flush_burst (dev : dev_t) : exec (Z * dev_t) :=
  let data := dv_data dev in
  if block_size data =? 0 then Fault else
  let pending := u32 (ram_buf_offset data / block_size data) in
  let '(rc, b) := pm_device_runtime_get (dv_backend dev) in
  let dev := with_backend dev b in
  if rc <? 0 then Done (rc, with_data dev (set_ram_buf_offset data 0))
  else
    match api_write_burst api with
    | None => Fault
    | Some write_burst =>
        let '(rc, b) := write_burst (dv_backend dev) (current_block data) pending (dv_ram dev) in
        let dev := with_backend dev (pm_device_runtime_put_async b) in
        let data := set_ram_buf_offset data 0 in
        if negb (rc =? - ENOMEM) then
          let data := set_bytes_logged data
            (u64 (bytes_logged data + u32 (pending * block_size data))) in
          Done (rc, with_data dev (set_current_block data (u32 (current_block data + pending))))
        else Done (rc, with_data dev data)
    end.

Definition do_block_write_ram_buffer_burst (dev : dev_t) (type : Z) (block : list Z)
  (block_len : Z) : exec (Z * dev_t * list Z) :=
  let data := dv_data dev in
  if negb IS_PERSISTENT_LOGGER || negb (block_len =? block_size data) then Fault (* assertions *)
  else if (physical_blocks data =? 0) || (block_size data =? 0) then Fault
  else
    let! block := write_header (current_block data / physical_blocks data + 1) type block in
    if zlen (dv_ram dev) <? ram_buf_offset data + block_len then Fault else
    let dev := with_ram dev (zwrite (ram_buf_offset data) (ztake block_len block) (dv_ram dev)) in
    let data := set_ram_buf_offset data (ram_buf_offset data + block_len) in
    let dev := with_data dev data in
    let pending := u32 (ram_buf_offset data / block_size data) in
    if negb (ram_buf_offset data =? ram_buf_len cfg) &&
       negb (u32 (current_block data + pending) =? logical_blocks data)
    then Done (0, dev, block)
    else
      let! (rc, dev) := do_ram_buffer_flush_burst dev in
      Done (rc, dev, block).

(** The loop of [do_ram_buffer_flush_single].  Blocks are written in place in
    the RAM buffer; each iteration advances by at least the 3 byte header. *)
Fixpoint ram_flush_loop (fuel : nat) (dev : dev_t) (offset : Z) : exec dev_t :=
  if offset <? ram_buf_offset (dv_data dev) then
    match fuel with
    | O => NoFuel
    | S fuel =>
        let ram := dv_ram dev in
        let block_type := le_get (ztake 1 (zdrop offset ram)) in
        let block_len := le_get (ztake 2 (zdrop (offset + 1) ram)) in
        let offset := offset + 3 in
        let! (_, dev, block) := do_block_write dev block_type (zdrop offset ram) block_len in
        let dev := with_ram dev (zwrite offset block (dv_ram dev)) in
        ram_flush_loop fuel dev (offset + block_len)
    end
  else Done dev.

Definition do_ram_buffer_flush_single (dev : dev_t) : exec dev_t :=
  let! dev := ram_flush_loop (Z.to_nat (ram_buf_offset (dv_data dev))) dev 0 in
  Done (with_data dev (set_ram_buf_offset (dv_data dev) 0)).

Definition do_block_write_ram_buffer_single (dev : dev_t) (type : Z) (block : list Z)
  (block_len : Z) : exec (Z * dev_t * list Z) :=
  let data := dv_data dev in
  let space := u32 (ram_buf_len cfg - ram_buf_offset data) in
  if 3 + block_len <? space then
    if zlen block <? block_len then Fault else
    let off := ram_buf_offset data in
    let ram := zwrite off (le_put 1 type ++ le_put 2 block_len) (dv_ram dev) in
    let ram := zwrite (off + 3) (ztake block_len block) ram in
    Done (0, with_data (with_ram dev ram) (set_ram_buf_offset data (off + 3 + block_len)), block)
  else if ram_buf_offset data =? 0 then do_block_write dev type block block_len
  else
    let! dev := do_ram_buffer_flush_single dev in
    do_block_write dev type block block_len.

Definition do_block_write_ram_buffer (dev : dev_t) (type : Z) (block : list Z) (block_len : Z)
  : exec (Z * dev_t * list Z) :=
  if CONFIG_DATA_LOGGER_BURST_WRITES kc &&
     match api_write_burst api with Some _ => true | None => false end
  then do_block_write_ram_buffer_burst dev type block block_len
  else do_block_write_ram_buffer_single dev type block block_len.

Definition do_ram_buffer_flush (dev : dev_t) : exec (Z * dev_t) :=
  if ram_buf_offset (dv_data dev) =? 0 then Done (0, dev)
  else if CONFIG_DATA_LOGGER_BURST_WRITES kc &&
          match api_write_burst api with Some _ => true | None => false end
  then do_ram_buffer_flush_burst dev
  else
    let! dev := do_ram_buffer_flush_single dev in
    Done (0, dev).

Definition handle_block_write (dev : dev_t) (type : Z) (block : list Z) (block_len : Z)
  : exec (Z * dev_t * list Z) :=
  let data := dv_data dev in
  let! (block, block_len) :=
    if negb (requires_full_block_write cfg) && (1 <? block_write_align cfg) then
      let unaligned := block_len mod block_write_align cfg in
      if 0 <? unaligned then
        let padding := block_write_align cfg - unaligned in
        if zlen block <? block_len + padding then Fault (* write past the block *) else
        Done (zwrite block_len (replicate (Z.to_nat padding) (erase_val data)) block,
              u16 (block_len + padding))
      else Done (block, block_len)
    else Done (block, block_len) in
  if CONFIG_DATA_LOGGER_RAM_BUFFER kc && negb (ram_buf_len cfg =? 0)
  then do_block_write_ram_buffer dev type block block_len
  else do_block_write dev type block block_len.

(** ** The commit thread *)

(** One iteration of [logger_commit_thread_fn] with a request on the queue.  The
    block is in a pool buffer of [OFFLOAD_MAX_BLOCK_SIZE] bytes. *)
Definition logger_commit_iteration (dev : dev_t) : exec dev_t :=
  match dv_queue dev with
  | [] => Done dev
  | ReqFlush :: q =>
      let! (_, dev) := do_ram_buffer_flush (with_queue dev q) in
      Done dev
  | ReqWrite type data :: q =>
      let spare := CONFIG_DATA_LOGGER_OFFLOAD_MAX_BLOCK_SIZE kc - zlen data in
      let! (_, dev, _) :=
        handle_block_write (with_queue dev q) type
          (data ++ replicate (Z.to_nat spare) 0) (zlen data) in
      Done dev
  end.

(** [net_buf_alloc(&block_queue_pool, K_FOREVER)]: with all buffers in use the
    caller sleeps until the commit thread has freed one. *)
Definition block_queue_alloc (dev : dev_t) : exec dev_t :=
  if CONFIG_DATA_LOGGER_OFFLOAD_MAX_PENDING kc <=? zlen (dv_queue dev)
  then logger_commit_iteration dev else Done dev.

Definition k_fifo_put (dev : dev_t) (req : dl_request) : dev_t :=
  with_queue dev (dv_queue dev ++ [req]).

(** ** Public API *)

Definition data_logger_block_write (dev : dev_t) (type : Z) (block : list Z) (block_len : Z)
  : exec (Z * dev_t * list Z) :=
  let data := dv_data dev in
  if block_size data <? block_len then
    let rc := if block_size data =? 0 then - ENOTCONN else - EINVAL in
    Done (rc, handle_block_write_fail dev type block block_len rc, block)
  else if logical_blocks data <=? current_block data then
    Done (- ENOMEM, handle_block_write_fail dev type block block_len (- ENOMEM), block)
  else if negb (Z.land (flags data) DATA_LOGGER_FLAGS_ERASING =? 0) then Done (0, dev, block)
  else if CONFIG_DATA_LOGGER_OFFLOAD_WRITES kc && negb (queued_writes cfg) then
    let! dev := block_queue_alloc dev in
    if (zlen block <? block_len) || (CONFIG_DATA_LOGGER_OFFLOAD_MAX_BLOCK_SIZE kc <? block_len)
    then Fault
    else Done (0, k_fifo_put dev (ReqWrite type (ztake block_len block)), block)
  else handle_block_write dev type block block_len.

(** The bytes read are returned with the result. *)
Definition data_logger_block_read (dev : dev_t) (block_idx block_offset block_len : Z)
  : exec (Z * list Z * dev_t) :=
  let data := dv_data dev in
  if (block_size data =? 0) || (physical_blocks data =? 0) then Fault (* division by zero *) else
  let extra_blocks_accessed := u32 (Z.quot (block_offset + block_len - 1) (block_size data)) in
  let end_logical := u32 (block_idx + extra_blocks_accessed) in
  let phy_block := block_idx mod physical_blocks data in
  let end_phy := end_logical mod physical_blocks data in
  match api_read api with
  | None => Done (- ENOTSUP, [], dev)
  | Some read =>
      if negb (Z.land (flags data) DATA_LOGGER_FLAGS_ERASING =? 0) then Done (- EBUSY, [], dev)
      else if (block_idx <? earliest_block data) || (current_block data <=? end_logical) ||
              (block_size data <=? block_offset)
      then Done (- ENOENT, [], dev)
      else
        let bytes_to_wrap :=
          u32 ((physical_blocks data - phy_block) * block_size data - block_offset) in
        let second_read := if end_phy <? phy_block then u32 (block_len - bytes_to_wrap) else 0 in
        let block_len :=
          if end_phy <? phy_block then u16 (block_len - second_read) else block_len in
        let '(rc, b) := pm_device_runtime_get (dv_backend dev) in
        let dev := with_backend dev b in
        if rc <? 0 then Done (rc, [], dev)
        else
          let '(rc, mem, b) := read (dv_backend dev) phy_block block_offset block_len in
          let dev := with_backend dev b in
          let '(rc, mem, dev) :=
            if negb (second_read =? 0) && (rc =? 0) then
              let '(rc, mem2, b) := read (dv_backend dev) 0 0 (u16 second_read) in
              (rc, mem ++ mem2, with_backend dev b)
            else (rc, mem, dev) in
          Done (rc, mem, with_backend dev (pm_device_runtime_put_async (dv_backend dev)))
  end.

(** [data_logger_erase] up to and after the backend's [reset] call, during which
    the ERASING flag is visible to other threads. *)
Definition data_logger_erase_begin (dev : dev_t) (erase_all : bool) : dev_t * Z :=
  let data := dv_data dev in
  let block_hint :=
    if erase_all then physical_blocks data else Z.min (current_block data) (physical_blocks data) in
  (with_data dev (set_flags data (Z.lor (flags data) DATA_LOGGER_FLAGS_ERASING)), block_hint).

Definition data_logger_erase_end (dev : dev_t) (rc : Z) : dev_t :=
  let data := dv_data dev in
  let data :=
    if rc =? 0 then set_boot_block (set_earliest_block (set_current_block data 0) 0) 0 else data in
  let dev := with_backend dev (pm_device_runtime_put (dv_backend dev)) in
  with_data dev (set_flags data (Z.land (flags data) (Z.lnot DATA_LOGGER_FLAGS_ERASING))).

(** Returns the progress reports as well. *)
Definition data_logger_erase (dev : dev_t) (erase_all : bool) : Z * dev_t * list Z :=
  match api_reset api with
  | None => (- ENOTSUP, dev, [])
  | Some reset =>
      if negb IS_PERSISTENT_LOGGER then (- ENOTSUP, dev, [])
      else
        let '(rc, b) := pm_device_runtime_get (dv_backend dev) in
        let dev := with_backend dev b in
        if rc <? 0 then (rc, dev, [])
        else
          let '(dev, block_hint) := data_logger_erase_begin dev erase_all in
          let '(rc, b, progress) := reset (dv_backend dev) block_hint in
          (rc, data_logger_erase_end (with_backend dev b) rc, progress)
  end.

Definition data_logger_flush (dev : dev_t) : exec (Z * dev_t) :=
  if negb (CONFIG_DATA_LOGGER_RAM_BUFFER kc) || negb (ram_buf_data cfg) then Done (0, dev)
  else if CONFIG_DATA_LOGGER_OFFLOAD_WRITES kc then
    let! dev := block_queue_alloc dev in
    Done (0, k_fifo_put dev ReqFlush)
  else do_ram_buffer_flush dev.

Definition data_logger_register_cb (dev : dev_t) (cb : data_logger_cb) : dev_t :=
  with_data dev (set_callbacks (dv_data dev) (callbacks (dv_data dev) ++ [cb])).

Definition data_logger_common_block_size_changed (dev : dev_t) (size : Z) : dev_t :=
  let dev := with_data dev (set_block_size (dv_data dev) size) in
  with_events dev
    (map (fun i => EvBlockSizeUpdate i size)
       (cb_indices cb_block_size_update 0 (callbacks (dv_data dev)))).

(** ** Initialisation *)

(** A two byte block header read from the backend: (rc, block_wrap, device). *)
Definition read_wrap (read : B -> Z -> Z -> Z -> Z * list Z * B) (dev : dev_t) (phy_block : Z)
  : Z * Z * dev_t :=
  let '(rc, mem, b) := read (dv_backend dev) phy_block 0 2 in
  (rc, le_get (ztake 1 mem), with_backend dev b).

(** Binary search for the last block with [block_wrap == counter]: (rc, res).
    [fuel] bounds the iterations. *)
Fixpoint wrap_search (fuel : nat) (read : B -> Z -> Z -> Z -> Z * list Z * B) (dev : dev_t)
  (counter low high res : Z) : exec (Z * Z * dev_t) :=
  if low <=? high then
    match fuel with
    | O => NoFuel
    | S fuel =>
        let mid := u32 (low + high) / 2 in
        let '(rc, block_wrap, dev) := read_wrap read dev mid in
        if rc <? 0 then Done (rc, res, dev)
        else if block_wrap =? counter
        then wrap_search fuel read dev counter (u32 (mid + 1)) high mid
        else wrap_search fuel read dev counter low (u32 (mid - 1)) res
    end
  else Done (0, res, dev).

(** The loop [while (max_search--)]. *)
Fixpoint earliest_search (max_search : nat) (read : B -> Z -> Z -> Z -> Z * list Z * B)
  (dev : dev_t) (res : Z) : Z * dev_t :=
  match max_search with
  | O => (- EINVAL, dev)
  | S max_search =>
      let '(rc, block_wrap, dev) := read_wrap read dev res in
      if rc <? 0 then (rc, dev)
      else if negb (block_wrap =? 0x00) && negb (block_wrap =? 0xFF) then (0, dev)
      else
        let data := dv_data dev in
        let dev := with_data dev (set_earliest_block data (u32 (earliest_block data + 1))) in
        let res := u32 (res + 1) in
        if res =? physical_blocks data then (0, dev)
        else earliest_search max_search read dev res
  end.

Definition current_block_search (read : B -> Z -> Z -> Z -> Z * list Z * B) (dev : dev_t)
  (counter : Z) : exec (Z * dev_t) :=
  let data := dv_data dev in
  let '(rc, low, high) :=
    match api_search_hint api with
    | Some search_hint => search_hint (dv_backend dev)
    | None => (- ENOSYS, 0, 0)
    end in
  let low := if rc <? 0 then 0 else low in
  let high := if rc <? 0 then u32 (physical_blocks data - 1) else high in
  let! (rc, res, dev) := wrap_search 33 read dev counter low high low in
  if rc <? 0 then Done (rc, dev)
  else
    let data := set_current_block data (u32 ((counter - 1) * physical_blocks data + res + 1)) in
    if counter =? 1 then Done (0, with_data dev (set_earliest_block data 0))
    else if current_block data <? physical_blocks data then Fault (* assertion *)
    else if (physical_blocks data =? 0) || (block_size data =? 0) then Fault
    else
      let data := set_earliest_block data (current_block data - physical_blocks data) in
      let res := earliest_block data mod physical_blocks data in
      let max_search := u32 (2 * (erase_size data / block_size data)) in
      Done (earliest_search (Z.to_nat max_search) read (with_data dev data) res).

(** The assertions on the configuration, checked by [data_logger_common_init]. *)
Definition burst_config_ok (data : dl_data) : bool :=
  negb (CONFIG_DATA_LOGGER_RAM_BUFFER kc && CONFIG_DATA_LOGGER_BURST_WRITES kc &&
        match api_write_burst api with Some _ => true | None => false end) ||
  (IS_PERSISTENT_LOGGER && requires_full_block_write cfg &&
   (ram_buf_len cfg mod block_size data =? 0) && (logical_blocks data =? physical_blocks data)).

Definition data_logger_common_init (dev : dev_t) : exec (Z * dev_t) :=
  let data := dv_data dev in
  let data := set_callbacks data [] in
  let data := set_bytes_logged data 0 in
  let data := set_boot_block data 0 in
  let data := set_current_block data 0 in
  let data := set_earliest_block data 0 in
  let data := set_flags data 0 in
  let dev := with_data dev data in
  if CONFIG_DATA_LOGGER_OFFLOAD_WRITES kc && negb (queued_writes cfg) &&
     (CONFIG_DATA_LOGGER_OFFLOAD_MAX_BLOCK_SIZE kc <? block_size data)
  then Fault (* assertion *)
  else
    match api_read api with
    | None => Done (0, dev)
    | Some read =>
        let '(rc, first, dev) := read_wrap read dev 0 in
        if rc <? 0 then Done (rc, dev)
        else
          let '(rc, last, dev) := read_wrap read dev (u32 (physical_blocks data - 1)) in
          if rc <? 0 then Done (rc, dev)
          else if block_size data =? 0 then Fault
          else
            let erase_blocks := u16 (erase_size data / block_size data) in
            let! (rc, dev) :=
              if first =? last then
                if is_erased first then Done (0, with_data dev (set_current_block data 0))
                else
                  let data := set_current_block data (u32 (first * physical_blocks data)) in
                  Done (0, with_data dev
                    (set_earliest_block data (u32 (current_block data - physical_blocks data))))
              else if is_erased first then
                let data := set_current_block data (u32 (last * physical_blocks data)) in
                Done (0, with_data dev
                  (set_earliest_block data
                     (u32 (current_block data - physical_blocks data + erase_blocks))))
              else current_block_search read dev first in
            if rc <? 0 then Done (rc, dev)
            else
              let data := dv_data dev in
              let dev := with_data dev (set_boot_block data (current_block data)) in
              if burst_config_ok data then Done (0, dev) else Fault
    end.

(** Test hook. *)
Definition data_logger_set_erase_state (dev : dev_t) (enabled : bool) : dev_t :=
  let data := dv_data dev in
  with_data dev (set_flags data
    (if enabled then Z.lor (flags data) DATA_LOGGER_FLAGS_ERASING
     else Z.land (flags data) (Z.lnot DATA_LOGGER_FLAGS_ERASING))).
End data_logger.
