(* ===== verification/DataLoggerSpec.v ===== *)
(** * What the data logger promises

    [BlockBackend] is the contract a persistent backend gives to the core: blocks
    can be read, erased in ranges, and written once erased.  Against it we prove
    that the core maintains the ring ([dl_inv]), that reads return what was
    logged, and that a reboot recovers the write position. *)

From stdpp Require Import base tactics numbers list.
From Stdlib Require Import ZArith Lia.
From S2P Require Import Prelude DataLogger.

Local Open Scope Z_scope.
Local Open Scope infuse_scope.

(** Geometry of a logger: [P] physical blocks of [BS] bytes, erased [E] at a time
    to [EV], with at most [W] wraps. *)
Record geometry := Geometry { gP : Z; gBS : Z; gE : Z; gEV : Z; gW : Z }.

Record geometry_ok (g : geometry) : Prop := {
  g_P : 0 < gP g;
  g_BS : 2 <= gBS g < 2 ^ 16;
  g_E : 0 < gE g < 2 ^ 16;
  g_EP : (gE g | gP g);
  g_EBS : gE g * gBS g < 2 ^ 32;
  g_EV : gEV g = 0x00 \/ gEV g = 0xFF;
  g_W : 0 < gW g <= 254;
  g_PW : gP g * 255 < 2 ^ 32;
}.

Definition erased_block (g : geometry) : list Z := replicate (Z.to_nat (gBS g)) (gEV g).

(** Blocks [0 .. n-1] of a block function, end to end. *)
Fixpoint image (f : Z -> list Z) (start : Z) (n : nat) : list Z :=
  match n with
  | O => []
  | S n => f start ++ image f (start + 1) n
  end.

Lemma image_app f s a b : image f s (a + b) = image f s a ++ image f (s + Z.of_nat a) b.
Proof.
  revert s. induction a as [|a IH]; intros s; cbn [image Nat.add app].
  - f_equal. lia.
  - rewrite IH, <- app_assoc. do 3 f_equal. lia.
Qed.

Lemma image_ext f h s t n :
  (forall j, 0 <= j < Z.of_nat n -> f (s + j) = h (t + j)) -> image f s n = image h t n.
Proof.
  revert s t. induction n as [|n IH]; intros s t Hf; cbn [image]; [done|]. f_equal.
  - specialize (Hf 0 ltac:(lia)). by rewrite !Z.add_0_r in Hf.
  - apply IH. intros j Hj. rewrite <- !Z.add_assoc, !(Z.add_comm 1). rewrite !Z.add_assoc.
    rewrite <- !Z.add_assoc. apply Hf. lia.
Qed.

Lemma zlen_image f s n k :
  (forall j, 0 <= j < Z.of_nat n -> zlen (f (s + j)) = k) -> zlen (image f s n) = Z.of_nat n * k.
Proof.
  revert s. induction n as [|n IH]; intros s Hf; cbn [image]; [done|].
  rewrite zlen_app, IH.
  - specialize (Hf 0 ltac:(lia)). rewrite Z.add_0_r in Hf. lia.
  - intros j Hj. rewrite <- Z.add_assoc. apply Hf. lia.
Qed.

(** The contract of a persistent backend.  [wf] is its own invariant and [blk] the
    content of a physical block.  A failed write or erase may leave anything in the
    blocks it was asked to change, and nothing else. *)
Class BlockBackend {B : Type} `{PmRuntime B} (api : data_logger_api B) (g : geometry)
  (wf : B -> Prop) (blk : B -> Z -> list Z) : Prop := {
  bb_len b p : wf b -> 0 <= p < gP g -> zlen (blk b p) = gBS g;
  bb_get b : wf b -> let '(rc, b') := pm_device_runtime_get b in
    rc <= 0 /\ wf b' /\ forall p, blk b' p = blk b p;
  bb_put b : wf b -> let b' := pm_device_runtime_put b in wf b' /\ forall p, blk b' p = blk b p;
  bb_put_async b : wf b ->
    let b' := pm_device_runtime_put_async b in wf b' /\ forall p, blk b' p = blk b p;
  bb_read : exists read, api_read api = Some read /\
    forall b p off n, wf b -> 0 <= p -> 0 <= off -> 0 <= n -> p * gBS g + off + n <= gP g * gBS g ->
    let '(rc, mem, b') := read b p off n in
    rc <= 0 /\ wf b' /\ (forall q, blk b' q = blk b q) /\
    (rc = 0 -> mem = ztake n (zdrop (p * gBS g + off) (image (blk b) 0 (Z.to_nat (gP g)))));
  bb_erase b p num : wf b -> 0 <= p -> 0 < num -> p + num <= gP g ->
    let '(rc, b') := api_erase api b p num in
    rc <= 0 /\ wf b' /\ (forall q, ~ (p <= q < p + num) -> blk b' q = blk b q) /\
    (rc = 0 -> forall q, p <= q < p + num -> blk b' q = erased_block g);
  bb_write b p type mem : wf b -> 0 <= p < gP g -> zlen mem <= gBS g -> blk b p = erased_block g ->
    let '(rc, b') := api_write api b p type mem in
    rc <= 0 /\ wf b' /\ (forall q, q <> p -> blk b' q = blk b q) /\
    (rc = 0 -> blk b' p = mem ++ zdrop (zlen mem) (erased_block g));
  bb_reset : exists reset, api_reset api = Some reset /\
    forall b hint, wf b -> 0 <= hint <= gP g ->
    let '(rc, b', _) := reset b hint in
    rc <= 0 /\ wf b' /\
    (rc = 0 -> forall p, 0 <= p < gP g ->
       blk b' p = erased_block g \/ (hint <= p /\ blk b' p = blk b p));
}.

(** ** Arithmetic of the ring *)

(** End of the erased space: the next multiple of the erase unit, once wrapped. *)
Definition frontier (g : geometry) (cur : Z) : Z :=
  Z.max (gP g) ((cur + gE g - 1) / gE g * gE g).

Section ring.
Context (g : geometry) (Hg : geometry_ok g).

Lemma frontier_bounds cur : 0 <= cur ->
  gP g <= frontier g cur /\ cur <= frontier g cur /\
  (gP g < cur -> frontier g cur < cur + gE g).
Proof.
  intros Hc. destruct Hg as [HP _ HE _ _ _ _ _]. unfold frontier.
  pose proof (Z.div_mod (cur + gE g - 1) (gE g) ltac:(lia)).
  pose proof (Z.mod_pos_bound (cur + gE g - 1) (gE g) ltac:(lia)).
  generalize dependent ((cur + gE g - 1) mod gE g). intros r Hd Hr.
  generalize dependent ((cur + gE g - 1) / gE g). intros q Hd. split; [lia|]. split; [lia|]. intros. lia.
Qed.

(** The block about to be written starts a new erase unit exactly when it is at
    the frontier. *)
Lemma frontier_chunk cur : 0 <= cur ->
  (gP g <= cur /\ cur mod gE g = 0) <-> frontier g cur = cur.
Proof.
  intros Hc. destruct Hg as [HP _ HE [k HEP] _ _ _ _]. unfold frontier.
  pose proof (Z.div_mod (cur + gE g - 1) (gE g) ltac:(lia)) as Hdm.
  pose proof (Z.mod_pos_bound (cur + gE g - 1) (gE g) ltac:(lia)) as Hmb.
  set (q := (cur + gE g - 1) / gE g) in *. split.
  - intros [Hge Hm]. apply Z.mod_divide in Hm as [m Hm]; [|lia].
    assert (q = m) by (symmetry; apply Z.div_unique with (gE g - 1); lia). nia.
  - intros Heq. assert (gP g <= cur) by lia. split; [done|].
    apply Z.mod_divide; [lia|]. destruct (Z.max_spec (gP g) (q * gE g)) as [[_ Hx]|[_ Hx]];
      rewrite Hx in Heq; [by exists q|exists k; lia].
Qed.

Lemma frontier_next cur : 0 <= cur ->
  frontier g (cur + 1) =
    if frontier g cur =? cur then frontier g cur + gE g else frontier g cur.
Proof.
  intros Hc. destruct Hg as [HP _ HE [k HEP] _ _ _ _].
  pose proof (frontier_chunk cur Hc) as Hch. pose proof (frontier_bounds cur Hc) as (Hb1 & Hb2 & _).
  unfold frontier in *.
  set (q := (cur + gE g - 1) / gE g) in *. set (q' := (cur + 1 + gE g - 1) / gE g).
  pose proof (Z.div_mod (cur + gE g - 1) (gE g) ltac:(lia)) as H1.
  pose proof (Z.mod_pos_bound (cur + gE g - 1) (gE g) ltac:(lia)) as H2.
  pose proof (Z.div_mod (cur + 1 + gE g - 1) (gE g) ltac:(lia)) as H3.
  pose proof (Z.mod_pos_bound (cur + 1 + gE g - 1) (gE g) ltac:(lia)) as H4.
  fold q in H1. fold q' in H3.
  destruct (Z.eqb_spec (Z.max (gP g) (q * gE g)) cur) as [Heq|Hne].
  - apply Hch in Heq as [Hge Hm]. apply Z.mod_divide in Hm as [m Hm]; [|lia].
    assert (q = m) by (symmetry; apply Z.div_unique with (gE g - 1); lia).
    assert (q' = m + 1) by (symmetry; apply Z.div_unique with 0; lia). nia.
  - assert (Hq : q' = q \/ q' = q + 1) by nia. destruct Hq as [->|Hq]; [done|].
    assert (cur = q * gE g) by nia. assert (q < k) by nia. nia.
Qed.

Lemma mod_window i j : 0 <= i -> 0 <= j -> i mod gP g = j mod gP g -> i - j < gP g -> j - i < gP g -> i = j.
Proof.
  intros Hi Hj Hm H1 H2. destruct Hg as [HP _ _ _ _ _ _ _].
  pose proof (Z.div_mod i (gP g) ltac:(lia)). pose proof (Z.div_mod j (gP g) ltac:(lia)).
  destruct (Z.lt_trichotomy (i / gP g) (j / gP g)) as [?|[?|?]]; nia.
Qed.

(** An erase unit does not run past the last physical block. *)
Lemma chunk_fits cur : 0 <= cur -> cur mod gE g = 0 -> cur mod gP g + gE g <= gP g.
Proof.
  intros Hc Hm. destruct Hg as [HP _ HE [k HEP] _ _ _ _].
  apply Z.mod_divide in Hm as [m Hm]; [|lia].
  pose proof (Z.mod_pos_bound cur (gP g) HP). pose proof (Z.div_mod cur (gP g) ltac:(lia)) as Hd.
  set (q := cur / gP g) in *. assert (cur mod gP g = (m - q * k) * gE g) by nia.
  destruct (Z.lt_trichotomy (m - q * k) (k - 1)) as [?|[?|?]]; nia.
Qed.
End ring.

(** ** The invariant *)
Section core.
Context {B : Type} `{PmRuntime B} (kc : dl_kconfig) (cfg : dl_config) (api : data_logger_api B).
Context (g : geometry) (wf : B -> Prop) (blk : B -> Z -> list Z).

Definition dl_geometry (d : dl_data) : Prop :=
  physical_blocks d = gP g /\ block_size d = gBS g /\ erase_size d = gE g * gBS g /\
  logical_blocks d = gP g * gW g /\ erase_val d = gEV g.

(** Logical block [i] is stored as [e]: its first byte is the wrap count, and
    the rest of the physical block is still erased. *)
Definition entry_at (b : B) (i : Z) (e : list Z) : Prop :=
  2 <= zlen e <= gBS g /\ le_get (ztake 1 e) = i / gP g + 1 /\
  blk b (i mod gP g) = e ++ zdrop (zlen e) (erased_block g).

(** Logged blocks from [lo] on are on the backend. *)
Definition holds (b : B) (log : list (list Z)) (lo : Z) : Prop :=
  forall i e, lo <= i < zlen log -> 0 <= i -> log !! Z.to_nat i = Some e -> entry_at b i e.

Definition clean (b : B) (lo hi : Z) : Prop :=
  forall i, lo <= i < hi -> blk b (i mod gP g) = erased_block g.

(** [log] is everything ever logged, oldest first. *)
Record dl_inv (dev : dl_dev B) (log : list (list Z)) : Prop := {
  inv_geometry : dl_geometry (dv_data dev);
  inv_wf : wf (dv_backend dev);
  inv_current : current_block (dv_data dev) = zlen log;
  inv_capacity : zlen log <= gP g * gW g;
  inv_earliest : earliest_block (dv_data dev) = frontier g (zlen log) - gP g;
  inv_holds : holds (dv_backend dev) log (frontier g (zlen log) - gP g);
  inv_clean : clean (dv_backend dev) (zlen log) (frontier g (zlen log));
}.

Lemma holds_blk b b' log lo : (forall p, blk b' p = blk b p) -> holds b log lo -> holds b' log lo.
Proof. intros Hb Hh i e Hi Hi0 He. unfold entry_at. rewrite Hb. by apply Hh. Qed.

Lemma clean_blk b b' lo hi : (forall p, blk b' p = blk b p) -> clean b lo hi -> clean b' lo hi.
Proof. intros Hb Hc i Hi. rewrite Hb. by apply Hc. Qed.

Lemma holds_weaken b log lo lo' : lo <= lo' -> holds b log lo -> holds b log lo'.
Proof. intros Hl Hh i e Hi. apply Hh. lia. Qed.

(** Everything but the counters, the backend and the notifications is kept. *)
Definition same_device (dev dev' : dl_dev B) : Prop :=
  dv_ram dev' = dv_ram dev /\ dv_queue dev' = dv_queue dev /\
  ram_buf_offset (dv_data dev') = ram_buf_offset (dv_data dev) /\
  flags (dv_data dev') = flags (dv_data dev) /\
  callbacks (dv_data dev') = callbacks (dv_data dev).

(** The device once the next block can be written, or [rc] is an error.  The
    blocks of the erase unit being recycled may be lost either way. *)
Definition prepared (dev : dl_dev B) (log : list (list Z)) (rc : Z) (dev1 : dl_dev B) : Prop :=
  let next := frontier g (zlen log + 1) in
  rc <= 0 /\ same_device dev dev1 /\ dv_events dev1 = dv_events dev /\
  dl_geometry (dv_data dev1) /\ bytes_logged (dv_data dev1) = bytes_logged (dv_data dev) /\
  wf (dv_backend dev1) /\ current_block (dv_data dev1) = zlen log /\
  holds (dv_backend dev1) log (next - gP g) /\
  (rc = 0 -> earliest_block (dv_data dev1) = next - gP g /\
             clean (dv_backend dev1) (zlen log) next) /\
  (rc < 0 -> earliest_block (dv_data dev1) = earliest_block (dv_data dev)).

Context `{!BlockBackend api g wf blk} (Hg : geometry_ok g).

Lemma erase_units : u16 (gE g * gBS g / gBS g) = gE g.
Proof. destruct Hg. rewrite Z.div_mul by lia. apply uwrap_small. lia. Qed.

(** Indices of the retained window fit 32 bits. *)
Lemma window_u32 n : 0 <= n <= gP g * gW g ->
  0 <= frontier g n - gP g /\ frontier g n + gE g < 2 ^ 32 /\ frontier g n - gP g <= n /\ n + 1 < 2 ^ 32 /\
  (0 < n -> frontier g n - gP g < n).
Proof.
  intros Hn. destruct (frontier_bounds g Hg n ltac:(lia)) as (H1 & H2 & H3).
  destruct Hg as [HP _ HE [k HEP] _ _ HW HPW]. assert (0 < k) by nia. assert (gE g <= gP g) by nia.
  assert (Hup : forall m, n <= m * gE g -> (n + gE g - 1) / gE g * gE g <= m * gE g).
  { intros m Hm. assert ((n + gE g - 1) / gE g <= m) by (apply Z.lt_succ_r, Z.div_lt_upper_bound; lia).
    nia. }
  pose proof (Hup (k * gW g) ltac:(nia)) as Hmax.
  assert (frontier g n <= gP g * gW g) by (unfold frontier; nia).
  destruct (Z.le_gt_cases n (gP g)) as [Hle|Hgt]; [|specialize (H3 Hgt); nia].
  assert (frontier g n = gP g) by (unfold frontier; apply Z.max_l; rewrite HEP; apply Hup; lia).
  nia.
Qed.

(** Preparing the next block erases the oldest erase unit when it has to. *)
Lemma prepare_block_ok dev log :
  dl_inv dev log -> zlen log < gP g * gW g ->
  exists rc dev1, prepare_block api dev (zlen log mod gP g) (gE g) = Done (rc, dev1) /\
    prepared dev log rc dev1.
Proof.
  intros [Hgeo Hwf Hcur Hcap Hear Hh Hc] Hlt. unfold prepare_block, prepared.
  set (next := frontier g (zlen log + 1)).
  pose proof (zlen_nonneg log) as Hl0. pose proof (window_u32 (zlen log) ltac:(lia)) as Hw.
  destruct (frontier_bounds g Hg (zlen log) Hl0) as (Hf1 & Hf2 & _).
  pose proof Hgeo as (HgP & HgB & HgE & _). rewrite HgP, Hcur.
  pose proof (frontier_next g Hg (zlen log) Hl0) as Hnext. fold next in Hnext.
  pose proof (frontier_chunk g Hg (zlen log) Hl0) as Hchunk.
  assert (HE := g_E _ Hg). assert (HP := g_P _ Hg). replace (gE g =? 0) with false by lia.
  assert (Hno : frontier g (zlen log) <> zlen log -> prepared dev log 0 dev).
  { intros Hne. replace (frontier g (zlen log) =? zlen log) with false in Hnext by lia.
    unfold prepared. fold next. rewrite Hnext. unfold same_device. auto 20 with lia. }
  destruct (Z.leb_spec (gP g) (zlen log)) as [Hge|Hlt']; [|exists 0, dev; split; [done|apply Hno; lia]].
  destruct (Z.eqb_spec (zlen log mod gE g) 0) as [Hm|Hm];
    [|exists 0, dev; split; [done|]; apply Hno; intros Heq; apply Hm; by apply Hchunk].
  assert (Heq : frontier g (zlen log) = zlen log) by (by apply Hchunk).
  rewrite Heq, Z.eqb_refl in Hnext. cbn [dv_backend with_data].
  pose proof (Z.mod_pos_bound (zlen log) (gP g) HP) as Hmp.
  pose proof (bb_erase (dv_backend dev) (zlen log mod gP g) (gE g) Hwf ltac:(lia) ltac:(lia)
    (chunk_fits g Hg _ Hl0 Hm)) as Her.
  destruct (api_erase api (dv_backend dev) (zlen log mod gP g) (gE g)) as [rc b].
  destruct Her as (Hrc & Hwf' & Hframe & Hok).
  pose proof (chunk_fits g Hg _ Hl0 Hm) as Hcf.
  assert (Hholds : holds b log (next - gP g)).
  { intros i e Hi Hi0 He. destruct (Hh i e ltac:(lia) Hi0 He) as (H1 & H2 & H3).
    split; [done|]. split; [done|]. rewrite Hframe; [done|]. intros Hin.
    pose proof (Z.div_mod i (gP g) ltac:(lia)). pose proof (Z.div_mod (zlen log) (gP g) ltac:(lia)).
    pose proof (Z.mod_pos_bound i (gP g) HP).
    destruct (Z.lt_trichotomy (i / gP g) (zlen log / gP g - 1)) as [?|[?|?]]; nia. }
  destruct (Z.ltb_spec rc 0).
  - exists rc. eexists. split; [done|]. cbn. unfold same_device, dl_geometry in *. cbn.
    rewrite Hear, Heq, (uwrap_small 32 (_ + gE g)), uwrap_small by lia.
    split_and!; try done; try lia.
  - exists rc. eexists. split; [done|]. cbn. unfold same_device, dl_geometry in *. cbn.
    rewrite Hear, Heq, uwrap_small by lia. split_and!; try done; try lia.
    intros _. split; [lia|]. intros i Hi. apply Hok; [lia|]. pose proof (Z.div_mod (zlen log) (gP g) ltac:(lia)).
    assert (i mod gP g = zlen log mod gP g + (i - zlen log)); [|lia].
    symmetry. apply Z.mod_unique with (zlen log / gP g); lia.
Qed.
(** What is stored for the block: the header replaces its first two bytes. *)
Definition stored_block (i type : Z) (block : list Z) (block_len : Z) : list Z :=
  [i / gP g + 1; u8 type] ++ zdrop 2 (ztake block_len block).

Lemma zlen_stored_block i type block block_len :
  2 <= block_len <= zlen block -> zlen (stored_block i type block block_len) = block_len.
Proof.
  intros Hl. unfold stored_block. rewrite zlen_app, zlen_zdrop; rewrite zlen_ztake by lia; [|lia].
  change (zlen [_; _]) with 2. lia.
Qed.

Lemma write_header_ok i type block block_len :
  0 <= i < gP g * 254 -> 2 <= block_len <= zlen block ->
  exists block', write_header (i / gP g + 1) type block = Done block' /\
    zlen block' = zlen block /\ ztake block_len block' = stored_block i type block block_len.
Proof.
  intros Hi Hl. assert (HP := g_P _ Hg). unfold write_header.
  replace (zlen block <? 2) with false by lia. eexists. split; [done|].
  assert (Hw : 0 <= i / gP g < 254)
    by (split; [apply Z.div_pos; lia|apply Z.div_lt_upper_bound; lia]).
  rewrite uwrap_small by lia. unfold zwrite, stored_block. change (zlen [_; _]) with 2. cbn [app].
  unfold zlen, ztake, zdrop in *. rewrite skipn_firstn_comm.
  change (Z.to_nat 0) with 0%nat. rewrite take_0. cbn [app].
  change (Z.to_nat (0 + 2)) with 2%nat. split.
  - cbn [length]. rewrite length_drop. lia.
  - destruct (Z.to_nat block_len) as [|[|n]] eqn:En; [lia..|]. cbn [take].
    do 3 f_equal. lia.
Qed.

(** A failed write keeps the position, and everything outside the recycled unit. *)
Definition dl_kept (dev' : dl_dev B) (log : list (list Z)) : Prop :=
  dl_geometry (dv_data dev') /\ wf (dv_backend dev') /\
  current_block (dv_data dev') = zlen log /\
  holds (dv_backend dev') log (frontier g (zlen log + 1) - gP g).

Lemma entry_written b b' log i e :
  i = zlen log -> (forall q, q <> i mod gP g -> blk b' q = blk b q) ->
  frontier g (i + 1) - gP g <= i ->
  holds b log (frontier g (i + 1) - gP g) -> entry_at b' i e ->
  holds b' (log ++ [e]) (frontier g (i + 1) - gP g).
Proof.
  intros -> Hb Hf Hh He j f Hj Hj0 Hlk. pose proof (zlen_nonneg log).
  rewrite zlen_app in Hj. change (zlen [e]) with 1 in Hj.
  destruct (Z.eq_dec j (zlen log)) as [->|Hne].
  - rewrite lookup_app_r in Hlk by (unfold zlen; lia).
    replace (Z.to_nat (zlen log) - length log)%nat with 0%nat in Hlk by (unfold zlen; lia).
    by injection Hlk as <-.
  - rewrite lookup_app_l in Hlk by (unfold zlen in *; lia).
    destruct (Hh j f ltac:(lia) Hj0 Hlk) as (H1 & H2 & H3). split; [done|]. split; [done|].
    rewrite Hb; [done|]. intros Hm.
    pose proof (frontier_bounds g Hg (zlen log + 1) ltac:(lia)) as (? & ? & ?).
    apply Hne. apply (mod_window g Hg); try done; lia.
Qed.

Lemma do_block_write_ok dev log type block block_len :
  dl_inv dev log -> zlen log < gP g * gW g -> 2 <= block_len <= gBS g -> block_len <= zlen block ->
  exists rc dev' block', do_block_write api dev type block block_len = Done (rc, dev', block') /\
    rc <= 0 /\ zlen block' = zlen block /\ same_device dev dev' /\
    (rc = 0 -> dl_inv dev' (log ++ [stored_block (zlen log) type block block_len]) /\
               ztake block_len block' = stored_block (zlen log) type block block_len) /\
    (rc < 0 -> dl_kept dev' log).
Proof.
  intros Hinv Hcap Hbl Hbk. pose proof Hinv as [Hgeo Hwf Hcur _ Hear Hh Hc].
  pose proof (zlen_nonneg log) as Hl0. assert (HP := g_P _ Hg). assert (HBS := g_BS _ Hg).
  assert (HW := g_W _ Hg). pose proof Hgeo as (HgP & HgB & HgE & _).
  pose proof (window_u32 (zlen log + 1) ltac:(lia)) as Hw1.
  pose proof (window_u32 (zlen log) ltac:(lia)) as Hw0.
  pose proof (frontier_next g Hg (zlen log) Hl0) as Hnext.
  unfold do_block_write. rewrite HgP, HgB, HgE, Hcur, erase_units.
  replace ((gBS g =? 0) || (gP g =? 0)) with false by lia.
  pose proof (bb_get (dv_backend dev) Hwf) as Hget.
  destruct (pm_device_runtime_get (dv_backend dev)) as [rc b0]. destruct Hget as (Hrc & Hwf0 & Hb0).
  assert (Hinv0 : dl_inv (with_backend dev b0) log).
  { split; try done; try lia; cbn; [eapply holds_blk|eapply clean_blk]; eassumption. }
  destruct (Z.ltb_spec rc 0) as [Hneg|Hpos].
  { unfold block_write_done. replace (rc =? 0) with false by lia. eexists _, _, _. split; [done|].
    split_and!; try done; try lia. intros _. unfold dl_kept. cbn. split_and!; try done.
    eapply holds_weaken; [|eapply holds_blk; eassumption]. assert (HE := g_E _ Hg).
    destruct (_ =? _) in Hnext; lia. }
  destruct (prepare_block_ok _ _ Hinv0 Hcap) as (rc1 & dev1 & -> & Hrc1 & Hsame & _ & Hgeo1 & Hbytes &
    Hwf1 & Hcur1 & Hh1 & Hok1 & Herr1). cbn [exec_bind].
  destruct (Z.ltb_spec rc1 0) as [Hneg1|Hpos1].
  { unfold block_write_done. replace (rc1 =? 0) with false by lia. eexists _, _, _. split; [done|].
    pose proof (bb_put_async _ Hwf1) as (Hwf2 & Hb2).
    split_and!; try done; try lia. intros _. unfold dl_kept. cbn. split_and!; try done.
    eapply holds_blk; eassumption. }
  replace rc1 with 0 in * by lia. destruct (Hok1 eq_refl) as (Hear1 & Hcl1).
  rewrite Hcur1. pose proof Hgeo1 as (HgP1 & _). rewrite HgP1.
  destruct (write_header_ok (zlen log) type block block_len) as (block' & -> & Hzl & Hst); [nia|lia|].
  destruct bb_read as (read & Hread & _). unfold IS_PERSISTENT_LOGGER. rewrite Hread. cbn [exec_bind].
  replace (zlen block' <? block_len) with false by lia. rewrite Hst.
  set (e := stored_block (zlen log) type block block_len) in *.
  assert (Hze : zlen e = block_len) by (apply zlen_stored_block; lia).
  assert (Hwrap : le_get (ztake 1 e) = zlen log / gP g + 1) by (unfold e, stored_block, ztake; change (Z.to_nat 1) with 1%nat; cbn [app take le_get]; lia).
  clearbody e.
  pose proof (Z.mod_pos_bound (zlen log) (gP g) HP) as Hmb.
  assert (Hnx : zlen log < frontier g (zlen log + 1)) by (pose proof (frontier_bounds g Hg (zlen log + 1)); lia).
  pose proof (bb_write (dv_backend dev1) (zlen log mod gP g) type e Hwf1 Hmb ltac:(lia)
    (Hcl1 (zlen log) ltac:(lia))) as Hwr.
  destruct (api_write api (dv_backend dev1) (zlen log mod gP g) type e) as [rc2 b2].
  destruct Hwr as (Hrc2 & Hwf2 & Hfr2 & Hok2). pose proof (bb_put_async _ Hwf2) as (Hwf3 & Hb3).
  assert (Hh3 : holds (pm_device_runtime_put_async b2) log (frontier g (zlen log + 1) - gP g)).
  { intros i f Hi Hi0 Hlk. destruct (Hh1 i f Hi Hi0 Hlk) as (H1 & H2 & H3).
    split; [done|]. split; [done|]. rewrite Hb3, Hfr2; [done|]. intros Hm.
    assert (i = zlen log); [|lia]. apply (mod_window g Hg); try done; lia. }
  unfold block_write_done. destruct (Z.eqb_spec rc2 0) as [->|Hne].
  2: { eexists _, _, _. split; [done|]. split_and!; try done; try lia. }
  eexists _, _, _. split; [done|].
  split; [lia|]. split; [done|]. split; [exact Hsame|]. split; [|lia]. intros _. split; [|done].
  assert (Hlen : zlen (log ++ [e]) = zlen log + 1) by (rewrite zlen_app; done).
  split; cbn; rewrite ?Hlen; try done; try lia.
  - rewrite Hcur1. apply uwrap_small. lia.
  - eapply (entry_written (dv_backend dev1)); try done; [|lia|].
    + intros q Hq. rewrite Hb3. by apply Hfr2.
    + split; [lia|]. split; [done|]. by rewrite Hb3, Hok2.
  - intros i Hi. rewrite Hb3, Hfr2; [apply Hcl1; lia|]. intros Hm.
    pose proof (frontier_bounds g Hg (zlen log + 1) ltac:(lia)) as (? & ? & ?).
    assert (i = zlen log); [|lia]. apply (mod_window g Hg); try done; lia.
Qed.
(** ** Reading *)

(** Block [i] of the log as it is stored, padded to the block size. *)
Definition log_block (log : list (list Z)) (i : Z) : list Z :=
  match log !! Z.to_nat i with
  | Some e => e ++ zdrop (zlen e) (erased_block g)
  | None => []
  end.

Lemma inv_log_block dev log i :
  dl_inv dev log -> frontier g (zlen log) - gP g <= i < zlen log ->
  blk (dv_backend dev) (i mod gP g) = log_block log i.
Proof.
  intros [_ _ _ Hcap _ Hh _] Hi. pose proof (zlen_nonneg log).
  pose proof (window_u32 (zlen log) ltac:(lia)). assert (0 <= i < zlen log) by lia.
  unfold log_block. destruct (lookup_lt_is_Some_2 log (Z.to_nat i)) as [e He]; [unfold zlen in *; lia|].
  rewrite He. by apply (Hh i e ltac:(lia) ltac:(lia) He).
Qed.

Lemma zdrop_image b p n off :
  wf b -> 0 <= p -> 0 <= off -> Z.of_nat n = gP g - p ->
  zdrop (p * gBS g + off) (image (blk b) 0 (Z.to_nat (gP g))) = zdrop off (image (blk b) p n).
Proof.
  intros Hwf Hp Hoff Hn. assert (HBS := g_BS _ Hg).
  replace (Z.to_nat (gP g)) with (Z.to_nat p + n)%nat by lia.
  rewrite image_app, Z.add_0_l, Z2Nat.id by lia.
  rewrite <- zdrop_zdrop by nia. f_equal. apply zdrop_app.
  rewrite (zlen_image _ _ _ (gBS g)); [lia|]. intros j Hj. apply bb_len; [done|lia].
Qed.

Lemma inv_backend dev log b :
  dl_inv dev log -> wf b -> (forall p, blk b p = blk (dv_backend dev) p) ->
  dl_inv (with_backend dev b) log.
Proof.
  intros [Hgeo Hwf Hcur Hcap Hear Hh Hc] Hb Hblk.
  split; try done; cbn; [eapply holds_blk|eapply clean_blk]; eassumption.
Qed.

(** Physical reads of a stretch that does not pass the last physical block. *)
Lemma read_stretch read dev log idx off n k :
  (forall b p off n, wf b -> 0 <= p -> 0 <= off -> 0 <= n -> p * gBS g + off + n <= gP g * gBS g ->
    let '(rc, mem, b') := read b p off n in
    rc <= 0 /\ wf b' /\ (forall q, blk b' q = blk b q) /\
    (rc = 0 -> mem = ztake n (zdrop (p * gBS g + off) (image (blk b) 0 (Z.to_nat (gP g)))))) ->
  dl_inv dev log -> frontier g (zlen log) - gP g <= idx -> idx + Z.of_nat k <= zlen log ->
  idx mod gP g + Z.of_nat k <= gP g -> 0 <= off -> 0 <= n -> off + n <= Z.of_nat k * gBS g ->
  let '(rc, mem, b') := read (dv_backend dev) (idx mod gP g) off n in
  rc <= 0 /\ dl_inv (with_backend dev b') log /\
  (rc = 0 -> mem = ztake n (zdrop off (image (log_block log) idx k))).
Proof.
  intros Hread Hinv Hlo Hhi Hk Hoff Hn Hfit. assert (HP := g_P _ Hg). assert (HBS := g_BS _ Hg).
  pose proof (Z.mod_pos_bound idx (gP g) HP) as Hm. pose proof Hinv as [_ Hwf _ Hcap _ _ _].
  pose proof (zlen_nonneg log). pose proof (window_u32 (zlen log) ltac:(lia)).
  specialize (Hread (dv_backend dev) (idx mod gP g) off n Hwf ltac:(lia) Hoff Hn ltac:(nia)).
  destruct (read (dv_backend dev) (idx mod gP g) off n) as [[rc mem] b'].
  destruct Hread as (Hrc & Hwf' & Hb & Hmem). split; [done|]. split; [by apply inv_backend|].
  intros Hz. rewrite (Hmem Hz).
  rewrite (zdrop_image _ _ (k + Z.to_nat (gP g - idx mod gP g - Z.of_nat k))) by (try done; lia).
  rewrite image_app.
  assert (Himg : image (blk (dv_backend dev)) (idx mod gP g) k = image (log_block log) idx k).
  { apply image_ext. intros j Hj. rewrite <- (inv_log_block dev log) by (try done; lia). f_equal.
    apply Z.mod_unique with (idx / gP g); [lia|]. pose proof (Z.div_mod idx (gP g) ltac:(lia)). lia. }
  assert (Hz' : zlen (image (blk (dv_backend dev)) (idx mod gP g) k) = Z.of_nat k * gBS g).
  { apply zlen_image. intros j Hj. apply bb_len; [done|lia]. }
  rewrite zdrop_app_le, ztake_app_le by (rewrite ?zlen_zdrop; lia). by rewrite Himg.
Qed.

(** A read of existing blocks returns the logged bytes, also across the end of
    the physical space. *)
Lemma data_logger_block_read_ok dev log idx off len :
  dl_inv dev log -> Z.land (flags (dv_data dev)) DATA_LOGGER_FLAGS_ERASING = 0 ->
  let extra := Z.quot (off + len - 1) (gBS g) in
  earliest_block (dv_data dev) <= idx -> idx + extra < zlen log ->
  0 <= off < gBS g -> 0 <= len < 2 ^ 16 ->
  exists rc mem dev', data_logger_block_read api dev idx off len = Done (rc, mem, dev') /\
    rc <= 0 /\ dl_inv dev' log /\
    (rc = 0 -> mem = ztake len (zdrop off (image (log_block log) idx (Z.to_nat (extra + 1))))).
Proof.
  intros Hinv Hfl extra Hlo Hhi Hoff Hlen. pose proof Hinv as [Hgeo Hwf Hcur Hcap Hear _ _].
  pose proof Hgeo as (HgP & HgB & _). assert (HP := g_P _ Hg). assert (HBS := g_BS _ Hg).
  pose proof (zlen_nonneg log). pose proof (window_u32 (zlen log) ltac:(lia)) as Hw.
  destruct (frontier_bounds g Hg (zlen log) ltac:(lia)) as (Hfb & _).
  assert (Hx : 0 <= extra /\ extra * gBS g <= Z.max 0 (off + len - 1) < (extra + 1) * gBS g).
  { unfold extra. destruct (Z.le_gt_cases 1 (off + len)) as [Hge|Hlt].
    - rewrite Z.quot_div_nonneg by lia. pose proof (Z.div_mod (off + len - 1) (gBS g) ltac:(lia)).
      pose proof (Z.mod_pos_bound (off + len - 1) (gBS g) ltac:(lia)).
      split; [apply Z.div_pos; lia|]. lia.
    - replace (off + len - 1) with (-1) by lia.
      assert ((-1) ÷ gBS g = 0) as -> by (apply Z.quot_small_iff; lia). lia. }
  assert (Hex : extra < 2 ^ 17) by nia.
  pose proof (Z.mod_pos_bound idx (gP g) HP) as Hm. pose proof (Z.div_mod idx (gP g) ltac:(lia)) as Hdm.
  destruct (frontier_bounds g Hg (zlen log) ltac:(lia)) as (_ & Hfc & _).
  unfold data_logger_block_read. rewrite HgP, HgB, Hcur.
  replace ((gBS g =? 0) || (gP g =? 0)) with false by lia. fold extra.
  rewrite (uwrap_small 32 extra), (uwrap_small 32 (idx + extra)) by lia.
  destruct bb_read as (read & -> & Hrd). rewrite Hfl. change (0 =? 0) with true. cbn [negb].
  replace ((idx <? earliest_block (dv_data dev)) || (zlen log <=? idx + extra) || (gBS g <=? off))
    with false by lia.
  pose proof (bb_get (dv_backend dev) Hwf) as Hget.
  destruct (pm_device_runtime_get (dv_backend dev)) as [rc b0]. destruct Hget as (Hrc & Hwf0 & Hb0).
  pose proof (inv_backend dev log b0 Hinv Hwf0 Hb0) as Hinv0.
  destruct (Z.ltb_spec rc 0) as [Hneg|Hpos].
  { exists rc, [], (with_backend dev b0). split_and!; try done; lia. }
  assert (Hput : forall d, dl_inv d log ->
    dl_inv (with_backend d (pm_device_runtime_put_async (dv_backend d))) log).
  { intros d Hd. pose proof (inv_wf _ _ Hd) as Hwd. destruct (bb_put_async _ Hwd). by apply inv_backend. }
  destruct (Z.lt_ge_cases (idx mod gP g + extra) (gP g)) as [Hnw|Hw'].
  - (* one stretch *)
    replace ((idx + extra) mod gP g) with (idx mod gP g + extra)
      by (apply Z.mod_unique with (idx / gP g); lia).
    replace (idx mod gP g + extra <? idx mod gP g) with false by lia. cbv iota.
    pose proof (read_stretch read (with_backend dev b0) log idx off len (Z.to_nat (extra + 1)) Hrd Hinv0
      ltac:(lia) ltac:(lia) ltac:(lia) ltac:(lia) ltac:(lia) ltac:(lia)) as Hr.
    cbn [dv_backend with_backend] in *.
    destruct (read b0 (idx mod gP g) off len) as [[rc1 mem] b1]. destruct Hr as (Hrc1 & Hinv1 & Hmem).
    change (0 =? 0) with true. cbn [negb andb]. eexists _, _, _. split; [done|].
    split; [done|]. split; [|done]. by apply Hput.
  - (* across the last physical block *)
    replace ((idx + extra) mod gP g) with (idx mod gP g + extra - gP g)
      by (apply Z.mod_unique with (idx / gP g + 1); lia).
    replace (idx mod gP g + extra - gP g <? idx mod gP g) with true by lia. cbv iota.
    set (a := gP g - idx mod gP g) in *. assert (Ha : 0 < a <= extra) by lia.
    assert (Hab : a * gBS g <= off + len - 1) by nia.
    rewrite (uwrap_small 32 (a * gBS g - off)) by nia. set (n1 := a * gBS g - off) in *.
    assert (Hn1 : 0 < n1 < len) by (unfold n1; nia).
    rewrite (uwrap_small 32 (len - n1)) by lia. replace (len - (len - n1)) with n1 by lia.
    rewrite !(uwrap_small 16) by lia.
    pose proof (read_stretch read (with_backend dev b0) log idx off n1 (Z.to_nat a) Hrd Hinv0
      ltac:(lia) ltac:(lia) ltac:(lia) ltac:(lia) ltac:(lia) ltac:(lia)) as Hr.
    cbn [dv_backend with_backend] in *.
    destruct (read b0 (idx mod gP g) off n1) as [[rc1 mem] b1]. destruct Hr as (Hrc1 & Hinv1 & Hmem).
    replace (len - n1 =? 0) with false by lia. cbn [negb andb].
    destruct (Z.eqb_spec rc1 0) as [->|Hne1].
    2: { eexists _, _, _. split; [done|]. split; [done|]. split; [by apply Hput|done]. }
    assert (Hz : (idx + a) mod gP g = 0) by (symmetry; apply Z.mod_unique with (idx / gP g + 1); lia).
    pose proof (read_stretch read (with_backend dev b1) log (idx + a) 0 (len - n1)
      (Z.to_nat (extra + 1 - a)) Hrd Hinv1 ltac:(lia) ltac:(lia) ltac:(lia) ltac:(lia) ltac:(lia)
      ltac:(unfold n1; nia)) as Hr2.
    rewrite Hz in Hr2. cbn [dv_backend with_backend] in *.
    destruct (read b1 0 0 (len - n1)) as [[rc2 mem2] b2]. destruct Hr2 as (Hrc2 & Hinv2 & Hmem2).
    eexists _, _, _. split; [done|]. split; [done|]. split; [by apply Hput|]. intros Hz2.
    rewrite (Hmem eq_refl), (Hmem2 Hz2), (zdrop_0 0) by lia.
    replace (Z.to_nat (extra + 1)) with (Z.to_nat a + Z.to_nat (extra + 1 - a))%nat by lia.
    rewrite image_app, Z2Nat.id by lia.
    assert (Hzl : zlen (image (log_block log) idx (Z.to_nat a)) = a * gBS g).
    { rewrite (zlen_image _ _ _ (gBS g)); [lia|]. intros j Hj.
      rewrite <- (inv_log_block dev log) by (try done; lia).
      apply bb_len; [done|]. by apply Z.mod_pos_bound. }
    rewrite zdrop_app_le by lia. rewrite ztake_ge by (rewrite zlen_zdrop; unfold n1; lia).
    rewrite ztake_app_ge by (rewrite zlen_zdrop; lia). rewrite zlen_zdrop by lia.
    rewrite Hzl. by fold n1.
Qed.

(** ** Erasing *)

(** A store with nothing on it. *)
Lemma dl_inv_empty dev :
  dl_geometry (dv_data dev) -> wf (dv_backend dev) ->
  current_block (dv_data dev) = 0 -> earliest_block (dv_data dev) = 0 ->
  (forall p, 0 <= p < gP g -> blk (dv_backend dev) p = erased_block g) -> dl_inv dev [].
Proof.
  intros Hgeo Hwf Hcur Hear Hb. assert (HP := g_P _ Hg). assert (HE := g_E _ Hg).
  assert (Hf : frontier g (zlen (@nil (list Z))) = gP g).
  { unfold frontier. change (zlen []) with 0. rewrite Z.div_small by lia. lia. }
  assert (HW := g_W _ Hg). split; rewrite ?Hf; try done.
  - change (zlen []) with 0. nia.
  - lia.
  - intros i Hi. change (zlen []) with 0 in Hi. apply Hb. by apply Z.mod_pos_bound.
Qed.

Lemma data_logger_erase_ok dev log erase_all :
  dl_inv dev log -> Z.land (flags (dv_data dev)) DATA_LOGGER_FLAGS_ERASING = 0 ->
  let '(rc, dev', _) := data_logger_erase api dev erase_all in
  rc <= 0 /\ wf (dv_backend dev') /\ dl_geometry (dv_data dev') /\
  Z.land (flags (dv_data dev')) DATA_LOGGER_FLAGS_ERASING = 0 /\
  (rc = 0 -> dl_inv dev' []) /\
  (rc < 0 -> current_block (dv_data dev') = current_block (dv_data dev) /\
             earliest_block (dv_data dev') = earliest_block (dv_data dev)).
Proof.
  intros Hinv Hfl. pose proof Hinv as [Hgeo Hwf Hcur Hcap Hear Hh Hc]. assert (HP := g_P _ Hg).
  pose proof Hgeo as (HgP & _). pose proof (zlen_nonneg log) as Hl0.
  unfold data_logger_erase. destruct bb_reset as (reset & -> & Hreset).
  destruct bb_read as (read & Hread & _). unfold IS_PERSISTENT_LOGGER. rewrite Hread. cbn [negb].
  pose proof (bb_get (dv_backend dev) Hwf) as Hget.
  destruct (pm_device_runtime_get (dv_backend dev)) as [rc b0]. destruct Hget as (Hrc & Hwf0 & Hb0).
  destruct (Z.ltb_spec rc 0) as [Hneg|Hpos]; [cbn; split_and!; try done; lia|].
  unfold data_logger_erase_begin. cbn [dv_backend with_backend with_data dv_data].
  rewrite HgP, Hcur. set (hint := if erase_all then _ else _).
  assert (Hhint : 0 <= hint <= gP g) by (unfold hint; destruct erase_all; lia).
  specialize (Hreset b0 hint Hwf0 Hhint). destruct (reset b0 hint) as [[rc2 b2] prog].
  destruct Hreset as (Hrc2 & Hwf2 & Hok). pose proof (bb_put b2 Hwf2) as (Hwf3 & Hb3).
  unfold data_logger_erase_end. cbn [dv_backend with_backend with_data dv_data].
  assert (Hflag : forall d, Z.land (flags (set_flags d (Z.land (flags d) (Z.lnot DATA_LOGGER_FLAGS_ERASING))))
            DATA_LOGGER_FLAGS_ERASING = 0).
  { intros d. cbn [flags set_flags]. 
    by rewrite <- Z.land_assoc, (Z.land_comm (Z.lnot _)), Z.land_lnot_diag, Z.land_0_r. }
  destruct (Z.eqb_spec rc2 0) as [->|Hne].
  2: { split; [done|]. split; [done|]. split; [done|]. split; [apply Hflag|]. split; [lia|done]. }
  split; [lia|]. split; [done|]. split; [done|]. split; [apply Hflag|]. split; [|lia].
  intros _. apply dl_inv_empty; try done. cbn [dv_backend with_backend with_data]. intros p Hp. rewrite Hb3.
  destruct (Hok eq_refl p Hp) as [->|(Hge & ->)]; [done|]. rewrite Hb0.
  unfold hint in Hge. destruct erase_all; [lia|].
  assert (Hlt : zlen log < gP g) by lia.
  destruct (frontier_bounds g Hg (zlen log) Hl0) as (Hf1 & _).
  specialize (Hc p ltac:(lia)). by rewrite Z.mod_small in Hc by lia.
Qed.

End core.

(** ** Block writes *)

(** Length of a block once padded to the write alignment. *)
Definition padded_len (cfg : dl_config) (len : Z) : Z :=
  if negb (requires_full_block_write cfg) && (1 <? block_write_align cfg) then
    ROUND_UP len (block_write_align cfg) else len.

(** What the block memory holds then. *)
Definition padded_block (cfg : dl_config) (ev : Z) (block : list Z) (len : Z) : list Z :=
  if padded_len cfg len =? len then block
  else zwrite len (replicate (Z.to_nat (padded_len cfg len - len)) ev) block.

Section writes.
Context {B : Type} `{PmRuntime B} (kc : dl_kconfig) (cfg : dl_config) (api : data_logger_api B).

Lemma handle_block_write_padded (dev : dl_dev B) type block len :
  CONFIG_DATA_LOGGER_RAM_BUFFER kc && negb (ram_buf_len cfg =? 0) = false ->
  0 <= len -> padded_len cfg len < 2 ^ 16 -> padded_len cfg len <= zlen block ->
  handle_block_write kc cfg api dev type block len =
  do_block_write api dev type (padded_block cfg (erase_val (dv_data dev)) block len) (padded_len cfg len).
Proof.
  intros Hram Hl Hp Hz. unfold handle_block_write, padded_block. rewrite Hram. unfold padded_len in *.
  destruct (negb _ && (1 <? block_write_align cfg)) eqn:Ha.
  2: { cbn [exec_bind]. by rewrite Z.eqb_refl. }
  apply andb_true_iff in Ha as [_ Ha]. set (a := block_write_align cfg) in *. unfold ROUND_UP in *.
  pose proof (Z.div_mod len a ltac:(lia)) as Hd. pose proof (Z.mod_pos_bound len a ltac:(lia)) as Hm.
  destruct (Z.ltb_spec 0 (len mod a)) as [Hu|Hu].
  - assert (Hr : (len + (a - 1)) / a * a = len + (a - len mod a)).
    { replace ((len + (a - 1)) / a) with (len / a + 1); [lia|].
      apply Z.div_unique with (len mod a - 1); lia. }
    rewrite Hr in *. replace (zlen block <? len + (a - len mod a)) with false by lia.
    cbn [exec_bind]. rewrite uwrap_small by lia. replace (_ =? len) with false by lia.
    do 4 f_equal. lia.
  - assert (Hr : (len + (a - 1)) / a * a = len).
    { replace ((len + (a - 1)) / a) with (len / a); [lia|]. apply Z.div_unique with (a - 1); lia. }
    rewrite Hr. cbn [exec_bind]. by rewrite Z.eqb_refl.
Qed.

Lemma padded_len_le len : len <= padded_len cfg len.
Proof.
  unfold padded_len in *. destruct (negb _ && _) eqn:Ha; [|lia]. apply andb_true_iff in Ha as [_ Ha].
  unfold ROUND_UP. pose proof (Z.div_mod (len + (block_write_align cfg - 1)) (block_write_align cfg) ltac:(lia)).
  pose proof (Z.mod_pos_bound (len + (block_write_align cfg - 1)) (block_write_align cfg) ltac:(lia)). lia.
Qed.

(** A block of whole alignment units has room for the padding. *)
Lemma padded_len_cap len cap :
  (block_write_align cfg | cap) -> len <= cap ->
  padded_len cfg len <= cap /\ (len = cap -> padded_len cfg len = cap).
Proof.
  intros [k Hk] Hl. unfold padded_len. destruct (negb _ && _) eqn:Ha; [|done].
  apply andb_true_iff in Ha as [_ Ha]. unfold ROUND_UP. set (a := block_write_align cfg) in *.
  assert (Hq : (len + (a - 1)) / a <= k) by (apply Z.lt_succ_r, Z.div_lt_upper_bound; nia).
  split; [nia|]. intros ->. rewrite Hk. f_equal. symmetry. apply Z.div_unique with (a - 1); lia.
Qed.

Lemma zlen_padded_block ev block len :
  0 <= len -> padded_len cfg len <= zlen block -> zlen (padded_block cfg ev block len) = zlen block.
Proof.
  intros Hl Hp. unfold padded_block. destruct (Z.eqb_spec (padded_len cfg len) len) as [|Hne]; [done|].
  pose proof (padded_len_le len).
  apply zlen_zwrite; [done|]. unfold zlen at 1. rewrite length_replicate. lia.
Qed.

Context (g : geometry) (wf : B -> Prop) (blk : B -> Z -> list Z).
Context `{!BlockBackend api g wf blk} (Hg : geometry_ok g).

Lemma data_logger_block_write_ok dev log type block len :
  dl_inv g wf blk dev log ->
  CONFIG_DATA_LOGGER_OFFLOAD_WRITES kc && negb (queued_writes cfg) = false ->
  CONFIG_DATA_LOGGER_RAM_BUFFER kc && negb (ram_buf_len cfg =? 0) = false ->
  Z.land (flags (dv_data dev)) DATA_LOGGER_FLAGS_ERASING = 0 ->
  2 <= len <= gBS g -> len <= padded_len cfg len <= gBS g -> padded_len cfg len <= zlen block ->
  exists rc dev' block', data_logger_block_write kc cfg api dev type block len = Done (rc, dev', block') /\
    (rc <= 0 /\ zlen block' = zlen block) /\ same_device dev dev' /\
    (rc = 0 -> dl_inv g wf blk dev'
       (log ++ [stored_block g (zlen log) type (padded_block cfg (gEV g) block len) (padded_len cfg len)])) /\
    (rc <> 0 -> current_block (dv_data dev') = zlen log /\
       holds g blk (dv_backend dev') log (frontier g (zlen log + 1) - gP g)) /\
    (zlen log = gP g * gW g -> rc = - ENOMEM /\ dl_inv g wf blk dev' log).
Proof.
  intros Hinv Hoff Hram Hfl Hlen Hpad Hz. pose proof Hinv as [Hgeo Hwf Hcur Hcap Hear Hh Hc].
  pose proof Hgeo as (HgP & HgB & _ & HgL & HgV). assert (HBS := g_BS _ Hg).
  pose proof (zlen_nonneg log) as Hl0. pose proof (frontier_next g Hg (zlen log) Hl0) as Hnext.
  assert (HE := g_E _ Hg). unfold data_logger_block_write. rewrite HgB, HgL, Hcur, Hfl, Hoff.
  replace (gBS g <? len) with false by lia.
  destruct (Z.leb_spec (gP g * gW g) (zlen log)) as [Hfull|Hroom].
  { eexists _, _, _. split; [done|]. do 3 (split; [done|]). split; [|by split].
    intros _. split; [done|]. eapply holds_weaken; [|exact Hh]. destruct (_ =? _) in Hnext; lia. }
  change (0 =? 0) with true. cbn [negb]. cbv iota.
  rewrite handle_block_write_padded by (try done; lia). rewrite HgV.
  destruct (do_block_write_ok api g wf blk Hg dev log type (padded_block cfg (gEV g) block len)
    (padded_len cfg len)) as (rc & dev' & block' & Hw & Hrc & Hzb & Hsame & Hok & Herr); try done; try lia.
  { rewrite zlen_padded_block; lia. }
  rewrite zlen_padded_block in Hzb by lia.
  exists rc, dev', block'. split; [done|]. split; [done|]. split; [done|].
  split; [intros Hz0; by apply Hok|]. split; [|lia].
  intros Hne. destruct Herr as (_ & _ & ? & ?); [lia|]. done.
Qed.
End writes.
