(* ===== verification/DataLoggerInit.v ===== *)
(** * Recovery of the data logger after a reboot

    [data_logger_common_init] only looks at block headers.  From a store that
    satisfies the invariant it recovers the write position and the oldest block
    exactly: the binary search finds the last block of the current wrap, and the
    scan behind it skips what has been erased. *)

From stdpp Require Import base tactics numbers list.
From Stdlib Require Import ZArith Lia.
From S2P Require Import Prelude DataLogger DataLoggerSpec.

Local Open Scope Z_scope.
Local Open Scope infuse_scope.

Section init.
Context {B : Type} `{PmRuntime B} (kc : dl_kconfig) (cfg : dl_config) (api : data_logger_api B).
Context (g : geometry) (wf : B -> Prop) (blk : B -> Z -> list Z).
Context `{!BlockBackend api g wf blk} (Hg : geometry_ok g).

(** Block headers can be read. *)
Definition headers_readable : Prop :=
  forall read b p, api_read api = Some read -> wf b -> 0 <= p < gP g ->
    fst (fst (read b p 0 2)) = 0.

(** Wrap count in the header of physical block [p]. *)
Definition wrap_at (b : B) (p : Z) : Z := le_get (ztake 1 (blk b p)).

(** A device whose backend may have been replaced by an equivalent one. *)
Definition same_store (dev dev' : dl_dev B) : Prop :=
  exists b', dev' = with_backend dev b' /\ wf b' /\ forall p, blk b' p = blk (dv_backend dev) p.

Lemma same_store_refl dev : wf (dv_backend dev) -> same_store dev dev.
Proof. intros Hwf. exists (dv_backend dev). by destruct dev. Qed.

Lemma same_store_trans d1 d2 d3 : same_store d1 d2 -> same_store d2 d3 -> same_store d1 d3.
Proof.
  intros (b2 & -> & Hwf2 & Hb2) (b3 & -> & Hwf3 & Hb3). exists b3. split; [done|]. split; [done|].
  intros p. rewrite Hb3. apply Hb2.
Qed.

Lemma same_store_wf d1 d2 : same_store d1 d2 -> wf (dv_backend d2).
Proof. by intros (b2 & -> & Hwf2 & _). Qed.

Lemma same_store_wrap d1 d2 p : same_store d1 d2 -> wrap_at (dv_backend d2) p = wrap_at (dv_backend d1) p.
Proof. intros (b2 & -> & _ & Hb2). unfold wrap_at. cbn. by rewrite Hb2. Qed.

Lemma same_store_data d1 d2 : same_store d1 d2 -> dv_data d2 = dv_data d1.
Proof. by intros (b2 & -> & _ & _). Qed.

Lemma read_wrap_ok read dev p :
  api_read api = Some read -> headers_readable -> wf (dv_backend dev) -> 0 <= p < gP g ->
  exists dev', read_wrap read dev p = (0, wrap_at (dv_backend dev) p, dev') /\ same_store dev dev'.
Proof.
  intros Hread Hok Hwf Hp. assert (HBS := g_BS _ Hg). assert (HP := g_P _ Hg).
  pose proof (Hok read _ p Hread Hwf Hp) as Hz.
  destruct bb_read as (read' & Hread' & Hrd). rewrite Hread in Hread'. injection Hread' as <-.
  specialize (Hrd (dv_backend dev) p 0 2 Hwf ltac:(lia) ltac:(lia) ltac:(lia) ltac:(nia)).
  unfold read_wrap. destruct (read (dv_backend dev) p 0 2) as [[rc mem] b']. cbn in Hz. subst rc.
  destruct Hrd as (_ & Hwf' & Hb & Hmem). rewrite (Hmem eq_refl). exists (with_backend dev b').
  split; [|by exists b']. do 2 f_equal. rewrite (zdrop_image api g wf blk Hg (dv_backend dev) p
    (S (Z.to_nat (gP g - p - 1)))) by (try done; lia).
  rewrite zdrop_0 by lia. cbn [image]. unfold wrap_at.
  pose proof (bb_len (dv_backend dev) p Hwf Hp). rewrite ztake_app_le, ztake_ztake by lia. done.
Qed.

(** The binary search returns the last of the leading blocks that match. *)
Lemma wrap_search_ok fuel read dev counter low high res r :
  api_read api = Some read -> headers_readable -> wf (dv_backend dev) ->
  0 < r < gP g ->
  (forall p, 0 <= p < r -> wrap_at (dv_backend dev) p = counter) ->
  (forall p, r <= p < gP g -> wrap_at (dv_backend dev) p <> counter) ->
  0 <= low <= r -> r - 1 <= high < gP g -> (0 < low -> res = low - 1) ->
  high - low + 1 < 2 ^ Z.of_nat fuel ->
  exists dev', wrap_search fuel read dev counter low high res = Done (0, r - 1, dev') /\
    same_store dev dev'.
Proof.
  intros Hread Hok Hwf Hr. assert (HPW := g_PW _ Hg). revert dev low high res Hwf.
  induction fuel as [|fuel IH]; intros dev low high res Hwf Hyes Hno Hlow Hhigh Hres Hf;
    cbn [wrap_search]; destruct (Z.leb_spec low high) as [Hle|Hgt].
  - cbn in Hf. lia.
  - exists dev. split; [|by apply same_store_refl]. do 3 f_equal. lia.
  - rewrite (uwrap_small 32 (low + high)) by lia.
    pose proof (Z.div_mod (low + high) 2 ltac:(lia)) as Hdm.
    pose proof (Z.mod_pos_bound (low + high) 2 ltac:(lia)) as Hmb.
    set (mid := (low + high) / 2) in *.
    rewrite Nat2Z.inj_succ, Z.pow_succ_r in Hf by lia.
    destruct (read_wrap_ok read dev mid Hread Hok Hwf ltac:(lia)) as (dev1 & -> & Hs).
    change (0 <? 0) with false. cbv iota. pose proof (same_store_wf _ _ Hs) as Hwf1.
    assert (Hw : forall p, wrap_at (dv_backend dev1) p = wrap_at (dv_backend dev) p)
      by (intros; by apply same_store_wrap).
    destruct (Z.eqb_spec (wrap_at (dv_backend dev) mid) counter) as [He|Hne].
    + assert (mid < r) by (destruct (Z.lt_ge_cases mid r); [done|exfalso; apply (Hno mid); [lia|done]]).
      rewrite (uwrap_small 32 (mid + 1)) by lia.
      destruct (IH dev1 (mid + 1) high mid Hwf1) as (dev2 & -> & Hs2); try lia;
        try (intros; rewrite Hw; auto). eauto using same_store_trans.
    + assert (r <= mid) by (destruct (Z.lt_ge_cases mid r); [exfalso; apply Hne, Hyes; lia|done]).
      rewrite (uwrap_small 32 (mid - 1)) by lia.
      destruct (IH dev1 low (mid - 1) res Hwf1) as (dev2 & -> & Hs2); try lia;
        try (intros; rewrite Hw; auto). eauto using same_store_trans.
  - exists dev. split; [|by apply same_store_refl]. do 3 f_equal. lia.
Qed.

(** The scan for the oldest block steps over [m] erased blocks. *)
Lemma earliest_search_ok fuel read dev res m :
  api_read api = Some read -> headers_readable -> wf (dv_backend dev) ->
  physical_blocks (dv_data dev) = gP g -> 0 <= res < gP g ->
  0 <= m < Z.of_nat fuel -> res + m <= gP g ->
  0 <= earliest_block (dv_data dev) -> earliest_block (dv_data dev) + m < 2 ^ 32 ->
  (forall p, res <= p < res + m -> is_erased (wrap_at (dv_backend dev) p) = true) ->
  (res + m < gP g -> is_erased (wrap_at (dv_backend dev) (res + m)) = false) ->
  exists dev', earliest_search fuel read dev res = (0, dev') /\
    same_store (with_data dev (set_earliest_block (dv_data dev) (earliest_block (dv_data dev) + m))) dev'.
Proof.
  intros Hread Hok. revert dev res m. induction fuel as [|fuel IH];
    intros dev res m Hwf HgP Hres Hm Hle He0 He Hyes Hno; [lia|]. cbn [earliest_search].
  destruct (read_wrap_ok read dev res Hread Hok Hwf Hres) as (dev1 & -> & Hs).
  change (0 <? 0) with false. cbv iota. pose proof Hs as (b1 & -> & Hwf1 & Hb1).
  assert (HPW := g_PW _ Hg).
  assert (Hneg : negb (wrap_at (dv_backend dev) res =? 0x00) && negb (wrap_at (dv_backend dev) res =? 0xFF)
                 = negb (is_erased (wrap_at (dv_backend dev) res)))
    by (unfold is_erased; by rewrite negb_orb). rewrite Hneg.
  destruct (Z.eq_dec m 0) as [->|Hm0].
  { rewrite Z.add_0_r in *. rewrite Hno by lia. cbn [negb]. eexists. split; [done|].
    exists b1. split; [by destruct dev as [[] ? ? ? ?]|done]. }
  rewrite Hyes by lia. cbn [negb dv_data with_backend]. rewrite HgP.
  rewrite (uwrap_small 32 (res + 1)), (uwrap_small 32 (earliest_block _ + 1)) by lia.
  destruct (Z.eqb_spec (res + 1) (gP g)) as [Hend|Hne].
  { replace m with 1 in * by lia. eexists. split; [done|]. by exists b1. }
  assert (Hw : forall p, wrap_at b1 p = wrap_at (dv_backend dev) p) by (intros; unfold wrap_at; by rewrite Hb1).
  edestruct (IH (with_data (with_backend dev b1) (set_earliest_block (dv_data dev) (earliest_block (dv_data dev) + 1)))
    (res + 1) (m - 1)) as (dev2 & -> & Hs2); try done; try lia; cbn; try lia.
  { intros p Hp. rewrite Hw. apply Hyes. lia. }
  { replace (res + 1 + (m - 1)) with (res + m) by lia. rewrite Hw. done. }
  eexists. split; [done|]. destruct Hs2 as (b2 & -> & Hwf2 & Hb2). exists b2. cbn in *.
  split; [|split; [done|]; intros p; rewrite Hb2; apply Hb1].
  unfold with_backend, with_data, set_earliest_block. cbn. do 2 f_equal. lia.
Qed.

Lemma erased_wrap b p : blk b p = erased_block g -> wrap_at b p = gEV g.
Proof.
  intros Hb. assert (HBS := g_BS _ Hg). unfold wrap_at. rewrite Hb. unfold erased_block, ztake.
  destruct (Z.to_nat (gBS g)) as [|n] eqn:E; [lia|]. change (Z.to_nat 1) with 1%nat.
  change (le_get (take 1 (replicate (S n) (gEV g)))) with (gEV g + 256 * 0). lia.
Qed.

(** Wrap counts on a store that holds [n = k * P + r] blocks: [k + 1] on the
    blocks of the current wrap, then erased ones up to the frontier, then [k]. *)
Lemma store_wraps dev log k r :
  dl_inv g wf blk dev log -> zlen log = k * gP g + r -> 0 <= k -> 0 <= r < gP g ->
  let b := dv_backend dev in
  frontier g (zlen log) <= (k + 1) * gP g /\
  (forall p, 0 <= p < r -> wrap_at b p = k + 1) /\
  (forall p, r <= p < gP g -> k * gP g + p < frontier g (zlen log) -> wrap_at b p = gEV g) /\
  (forall p, r <= p < gP g -> frontier g (zlen log) <= k * gP g + p -> wrap_at b p = k).
Proof.
  intros [_ _ _ Hcap _ Hh Hc] Hn Hk Hr b. assert (HP := g_P _ Hg). assert (HE := g_E _ Hg).
  destruct (frontier_bounds g Hg (zlen log) ltac:(apply zlen_nonneg)) as (Hf1 & Hf2 & _).
  assert (Hfr : frontier g (zlen log) <= (k + 1) * gP g).
  { unfold frontier. destruct (g_EP _ Hg) as [m Hm]. apply Z.max_lub; [nia|].
    assert ((zlen log + gE g - 1) / gE g <= (k + 1) * m); [|nia].
    apply Z.lt_succ_r, Z.div_lt_upper_bound; [lia|]. rewrite Hm in Hn, Hr. lia. }
  assert (Hent : forall i, frontier g (zlen log) - gP g <= i < zlen log -> 0 <= i ->
            wrap_at b (i mod gP g) = i / gP g + 1).
  { intros i Hi Hi0. destruct (lookup_lt_is_Some_2 log (Z.to_nat i)) as [e He];
      [unfold zlen in *; lia|]. destruct (Hh i e Hi Hi0 He) as (Hze & Hw & Hb).
    unfold wrap_at, b. rewrite Hb, ztake_app_le by lia. done. }
  split; [done|]. split; [|split].
  - intros p Hp. specialize (Hent (k * gP g + p) ltac:(nia) ltac:(nia)).
    rewrite Z.add_comm, Z.mod_add, Z.div_add in Hent by lia.
    rewrite Z.mod_small, Z.div_small in Hent by lia. lia.
  - intros p Hp Hlt. apply erased_wrap. specialize (Hc (k * gP g + p) ltac:(lia)).
    rewrite Z.add_comm, Z.mod_add, Z.mod_small in Hc by lia. done.
  - intros p Hp Hge. assert (0 < k) by nia.
    specialize (Hent ((k - 1) * gP g + p) ltac:(nia) ltac:(nia)).
    rewrite Z.add_comm, Z.mod_add, Z.div_add in Hent by lia.
    rewrite Z.mod_small, Z.div_small in Hent by lia. lia.
Qed.

Context (Hhint : api_search_hint api = None) (Hok : headers_readable).

Lemma current_block_search_ok read dev dev0 log k r :
  api_read api = Some read -> dl_inv g wf blk dev0 log -> zlen log = k * gP g + r ->
  0 <= k -> 0 < r < gP g -> dl_geometry g (dv_data dev) -> wf (dv_backend dev) ->
  (forall p, blk (dv_backend dev) p = blk (dv_backend dev0) p) ->
  exists dev', current_block_search api read dev (k + 1) = Done (0, dev') /\
    same_store (with_data dev (set_earliest_block (set_current_block (dv_data dev) (zlen log))
                  (frontier g (zlen log) - gP g))) dev'.
Proof.
  intros Hread Hinv Hn Hk Hr Hgeo Hwf Hblk. pose proof Hgeo as (HgP & HgB & HgE & _).
  assert (HP := g_P _ Hg). assert (HPW := g_PW _ Hg). assert (HBS := g_BS _ Hg).
  assert (HE := g_E _ Hg). assert (HEBS := g_EBS _ Hg). assert (HW := g_W _ Hg). assert (HEV := g_EV _ Hg).
  pose proof (inv_capacity _ _ _ _ _ Hinv) as Hcap.
  destruct (store_wraps dev0 log k r Hinv Hn Hk ltac:(lia)) as (Hfr & Hw1 & Hw2 & Hw3).
  assert (Hwe : forall p, wrap_at (dv_backend dev) p = wrap_at (dv_backend dev0) p)
    by (intros p; unfold wrap_at; by rewrite Hblk).
  assert (Hk254 : k < 254) by nia. destruct (frontier_bounds g Hg (zlen log) ltac:(lia)) as (Hf1 & Hf2 & Hf3).
  unfold current_block_search. rewrite Hhint. change (- ENOSYS <? 0) with true. cbv iota.
  rewrite HgP, (uwrap_small 32 (gP g - 1)) by lia.
  destruct (wrap_search_ok 33 read dev (k + 1) 0 (gP g - 1) 0 r) as (dev1 & -> & Hs); try done; try lia.
  { intros p Hp. rewrite Hwe. apply Hw1. lia. }
  { intros p Hp. rewrite Hwe. destruct (Z.lt_ge_cases (k * gP g + p) (frontier g (zlen log))) as [Hlt|Hge].
    - rewrite (Hw2 p Hp Hlt). lia.
    - rewrite (Hw3 p Hp Hge). lia. }
  cbn [exec_bind]. change (0 <? 0) with false. cbv iota.
  replace ((k + 1 - 1) * gP g + (r - 1) + 1) with (zlen log) by lia. rewrite uwrap_small by nia.
  destruct (Z.eqb_spec (k + 1) 1) as [Hk1|Hk1].
  { assert (k = 0) as -> by lia. eexists. split; [done|].
    replace (frontier g (zlen log) - gP g) with 0 by nia.
    destruct Hs as (b1 & -> & Hwf1 & Hb1). by exists b1. }
  cbn [current_block set_current_block physical_blocks erase_size block_size set_earliest_block earliest_block].
  replace (zlen log <? physical_blocks (dv_data dev)) with false by nia.
  rewrite HgP, HgB, HgE. replace ((gP g =? 0) || (gBS g =? 0)) with false by lia.
  rewrite Z.div_mul by lia. rewrite (uwrap_small 32 (2 * gE g)) by lia.
  replace ((zlen log - gP g) mod gP g) with r
    by (apply Z.mod_unique with (k - 1); lia).
  destruct Hs as (b1 & -> & Hwf1 & Hb1).
  assert (Hwe1 : forall p, wrap_at b1 p = wrap_at (dv_backend dev0) p)
    by (intros p; unfold wrap_at; by rewrite Hb1, Hblk).
  assert (Hgt : gP g < zlen log) by nia. specialize (Hf3 Hgt).
  assert (Hfmax : frontier g (zlen log) < 2 ^ 32) by nia.
  edestruct (earliest_search_ok (Z.to_nat (2 * gE g)) read
    (with_data (with_backend dev b1)
      (set_earliest_block (set_current_block (dv_data dev) (zlen log)) (zlen log - gP g)))
    r (frontier g (zlen log) - zlen log)) as (dev2 & He2 & Hs2); try done; cbn; try lia.
  { intros p Hp. rewrite Hwe1, Hw2 by lia. unfold is_erased. lia. }
  { intros Hlt. rewrite Hwe1, Hw3 by lia. unfold is_erased. lia. }
  eexists. split; [by rewrite <- He2|]. eapply same_store_trans; [|exact Hs2].
  exists b1. cbn. split; [|done]. unfold with_data, with_backend, set_earliest_block. cbn.
  do 2 f_equal. lia.
Qed.

(** After a reboot the counters are those of the log on the store. *)
Lemma data_logger_common_init_ok dev dev0 log :
  dl_inv g wf blk dev0 log -> dv_backend dev = dv_backend dev0 -> dl_geometry g (dv_data dev) ->
  gBS g <= CONFIG_DATA_LOGGER_OFFLOAD_MAX_BLOCK_SIZE kc ->
  burst_config_ok kc cfg api (dv_data dev) = true ->
  exists dev', data_logger_common_init kc cfg api dev = Done (0, dev') /\
    dl_inv g wf blk dev' log /\ boot_block (dv_data dev') = zlen log.
Proof.
  intros Hinv Hb Hgeo Hmax Hburst. pose proof Hgeo as (HgP & HgB & HgE & HgL & HgV).
  assert (HP := g_P _ Hg). assert (HPW := g_PW _ Hg). assert (HBS := g_BS _ Hg). assert (HW := g_W _ Hg).
  assert (HEV := g_EV _ Hg). pose proof Hinv as [_ Hwf0 _ Hcap _ Hh Hc]. pose proof (zlen_nonneg log) as Hl0.
  unfold data_logger_common_init. cbn [block_size set_flags set_earliest_block set_current_block
    set_boot_block set_bytes_logged set_callbacks physical_blocks erase_size].
  rewrite HgB, HgP, HgE. replace (_ <? gBS g) with false by lia. rewrite andb_false_r.
  destruct bb_read as (read & Hread & _). rewrite Hread.
  set (data0 := set_flags _ 0). set (dev1 := with_data dev data0).
  assert (Hwf1 : wf (dv_backend dev1)) by (cbn; by rewrite Hb).
  destruct (read_wrap_ok read dev1 0 Hread Hok Hwf1 ltac:(lia)) as (dev2 & -> & Hs2).
  change (0 <? 0) with false. cbv iota. rewrite (uwrap_small 32 (gP g - 1)) by lia.
  destruct (read_wrap_ok read dev2 (gP g - 1) Hread Hok (same_store_wf _ _ Hs2) ltac:(lia)) as (dev3 & -> & Hs3).
  rewrite (same_store_wrap dev1 dev2) by done.
  pose proof (same_store_trans _ _ _ Hs2 Hs3) as Hs. clear dev2 Hs2 Hs3.
  replace (gBS g =? 0) with false by lia. cbv iota. change (0 <? 0) with false. cbv iota.
  set (k := zlen log / gP g). set (r := zlen log mod gP g).
  assert (Hn : zlen log = k * gP g + r) by (pose proof (Z.div_mod (zlen log) (gP g)); lia).
  assert (Hr : 0 <= r < gP g) by (by apply Z.mod_pos_bound).
  assert (Hk : 0 <= k <= 254) by (split; [by apply Z.div_pos|]; apply Z.lt_succ_r, Z.div_lt_upper_bound; nia).
  clearbody k r. destruct (store_wraps dev0 log k r Hinv Hn ltac:(lia) Hr) as (Hfr & Hw1 & Hw2 & Hw3).
  replace (wrap_at (dv_backend dev1) 0) with (wrap_at (dv_backend dev0) 0) by (cbn; by rewrite Hb).
  replace (wrap_at (dv_backend dev1) (gP g - 1)) with (wrap_at (dv_backend dev0) (gP g - 1)) by (cbn; by rewrite Hb).
  assert (Hfin : forall dev4,
    same_store (with_data dev (set_earliest_block (set_current_block data0 (zlen log))
                  (frontier g (zlen log) - gP g))) dev4 ->
    exists dev', (if 0 <? 0 then Done (0, dev4)
       else let data := dv_data dev4 in
            if burst_config_ok kc cfg api data
            then Done (0, with_data dev4 (set_boot_block data (current_block data))) else Fault)
      = Done (0, dev') /\ dl_inv g wf blk dev' log /\ boot_block (dv_data dev') = zlen log).
  { intros dev4 (b4 & -> & Hwf4 & Hb4). cbn [dv_data with_backend with_data].
    change (0 <? 0) with false. cbv iota zeta.
    replace (burst_config_ok kc cfg api _) with true by (symmetry; exact Hburst). cbv iota.
    eexists. split; [done|]. split; [|done]. split; try done.
    - eapply holds_blk; [|exact Hh]. cbn in *. intros p. by rewrite Hb4, Hb.
    - eapply clean_blk; [|exact Hc]. cbn in *. intros p. by rewrite Hb4, Hb. }
  destruct (frontier_bounds g Hg (zlen log) Hl0) as (Hf1 & Hf2 & _).
  destruct (Z.eq_dec r 0) as [Hr0|Hr0].
  - (* a whole number of wraps *)
    destruct (Z.eq_dec k 0) as [->|Hk0].
    { rewrite !Hw2, Z.eqb_refl by lia.
      replace (is_erased (gEV g)) with true by (unfold is_erased; lia). cbn [exec_bind].
      apply Hfin. destruct Hs as (b3 & -> & Hwf3 & Hb3). exists b3. split; [|done].
      unfold with_data, with_backend, set_earliest_block, set_current_block, data0. cbn.
      do 2 f_equal; lia. }
    assert (Hfe : frontier g (zlen log) = k * gP g).
    { rewrite Hn, Hr0, Z.add_0_r. apply (frontier_chunk g Hg); [nia|]. split; [nia|].
      apply Z.mod_divide; [pose proof (g_E _ Hg); lia|]. apply Z.divide_mul_r, (g_EP _ Hg). }
    rewrite !Hw3, Z.eqb_refl by lia.
    replace (is_erased k) with false by (unfold is_erased; lia). cbn [exec_bind].
    rewrite (uwrap_small 32 (k * gP g)) by nia. cbn [current_block set_current_block].
    rewrite (uwrap_small 32 (k * gP g - gP g)) by nia.
    apply Hfin. destruct Hs as (b3 & -> & Hwf3 & Hb3). exists b3. split; [|done].
    unfold with_data, with_backend, set_earliest_block, set_current_block, data0. cbn.
    do 2 f_equal; lia.
  - (* part of a wrap *)
    assert (Hk1 : k + 1 <= 254) by nia.
    assert (Hl : wrap_at (dv_backend dev0) (gP g - 1) = gEV g \/ wrap_at (dv_backend dev0) (gP g - 1) = k).
    { destruct (Z.lt_ge_cases (k * gP g + (gP g - 1)) (frontier g (zlen log)));
        [left; apply Hw2; lia|right; apply Hw3; lia]. }
    rewrite (Hw1 0) by lia. replace (k + 1 =? _) with false by lia.
    replace (is_erased (k + 1)) with false by (unfold is_erased; lia).
    destruct Hs as (b3 & -> & Hwf3 & Hb3).
    destruct (current_block_search_ok read (with_backend dev1 b3) dev0 log k r) as (dev4 & -> & Hs4);
      try done; try lia.
    { intros p. cbn in *. by rewrite Hb3, Hb. }
    cbn [exec_bind]. apply Hfin. eapply same_store_trans; [|exact Hs4]. by exists b3.
Qed.
End init.
