(* ===== verification/FlashMap.v ===== *)
(** * Flash backend of the data logger ([subsys/data_logger/backends/flash_map.c])

    The Zephyr flash map is a parameter: [FlashArea] are the calls the backend
    makes and [FlashAreaSpec] what they are documented to do.  The backend is
    shown to be a [BlockBackend]. *)

From stdpp Require Import base tactics numbers list.
From Stdlib Require Import ZArith Lia.
From S2P Require Import Prelude DataLogger DataLoggerSpec.

Local Open Scope Z_scope.
Local Open Scope infuse_scope.

Definition DATA_LOGGER_FLASH_MAP_MAX_WRAPS : Z := 254.
Definition KB (n : Z) : Z := n * 1024.

(** struct dl_flash_map_config *)
Record dl_flash_map_config := FlashMapConfig {
  fm_physical_blocks : Z;
  fm_erase_size : Z;
  fm_max_block_size : Z;
  fm_block_addr_shift : Z;
}.

(** Calls on an open flash area with state [F]. *)
Class FlashArea (F : Type) := {
  flash_area_write : F -> Z -> list Z -> Z * F;
  flash_area_read : F -> Z -> Z -> Z * list Z * F;
  flash_area_erase : F -> Z -> Z -> Z * F;
}.

Section flash_map.
Context {F : Type} `{PmRuntime F} `{FlashArea F} (config : dl_flash_map_config).

Definition logger_flash_map_write (area : F) (phy_block data_type : Z) (mem : list Z) : Z * F :=
  let offset := u32 (Z.shiftl phy_block (fm_block_addr_shift config)) in
  flash_area_write area offset mem.

Definition logger_flash_map_read (area : F) (phy_block block_offset mem_len : Z) : Z * list Z * F :=
  let offset := u32 (u32 (Z.shiftl phy_block (fm_block_addr_shift config)) + block_offset) in
  flash_area_read area offset mem_len.

Definition logger_flash_map_erase (area : F) (phy_block num : Z) : Z * F :=
  let offset := u32 (Z.shiftl phy_block (fm_block_addr_shift config)) in
  let len := u32 (Z.shiftl num (fm_block_addr_shift config)) in
  flash_area_erase area offset len.

(** The loop of [logger_flash_map_reset]; collects the progress reports. *)
Fixpoint reset_loop (fuel : nat) (area : F) (chunk_size complete offset remaining : Z)
  (progress : list Z) : exec (Z * F * list Z) :=
  if negb (remaining =? 0) then
    match fuel with
    | O => NoFuel
    | S fuel =>
        let to_erase := Z.min remaining chunk_size in
        let '(rc, area) := flash_area_erase area offset to_erase in
        if rc <? 0 then Done (rc, area, progress)
        else
          let complete := complete + Z.shiftr to_erase (fm_block_addr_shift config) in
          reset_loop fuel area chunk_size complete (offset + to_erase) (remaining - to_erase)
            (progress ++ [complete])
    end
  else Done (0, area, progress).

Definition reset_chunk_size : Z :=
  if fm_erase_size config =? KB 4 then KB 64 else fm_erase_size config.

Definition logger_flash_map_reset (area : F) (block_hint : Z) : exec (Z * F * list Z) :=
  let remaining := u32 (Z.shiftl block_hint (fm_block_addr_shift config)) in
  if fm_erase_size config =? 0 then Fault else
  let remaining := u32 (ROUND_UP remaining (fm_erase_size config)) in
  reset_loop (Z.to_nat remaining) area reset_chunk_size 0 0 remaining [].

(** The API table's [reset]; the loop always ends (see [reset_ok]). *)
Definition flash_map_reset_api (area : F) (block_hint : Z) : Z * F * list Z :=
  match logger_flash_map_reset area block_hint with
  | Done r => r
  | _ => (- EINVAL, area, [])
  end.

Definition data_logger_flash_map_api : data_logger_api F :=
  DlApi logger_flash_map_write None (Some logger_flash_map_read) logger_flash_map_erase
    (Some flash_map_reset_api) None.

(** [flash_map_pm_control]: power of the flash device follows the logger. *)
Inductive pm_device_action := PM_DEVICE_ACTION_SUSPEND | PM_DEVICE_ACTION_RESUME | PM_DEVICE_ACTION_OTHER.

Definition flash_map_pm_control (fa_put fa_get : F -> Z * F) (area : F) (action : pm_device_action)
  : Z * F :=
  match action with
  | PM_DEVICE_ACTION_SUSPEND => fa_put area
  | PM_DEVICE_ACTION_RESUME => fa_get area
  | PM_DEVICE_ACTION_OTHER => (- ENOTSUP, area)
  end.

(** Start-up: [open] is the result of [flash_area_open], [erase_value] that of the
    flash parameters. *)
Definition logger_flash_map_init (kc : dl_kconfig) (cfg : dl_config) (dev : dl_dev F)
  (open_rc erase_value : Z) : exec (Z * dl_dev F) :=
  let data := dv_data dev in
  let data :=
    DlData (callbacks data) (bytes_logged data)
      (u32 (fm_physical_blocks config * DATA_LOGGER_FLASH_MAP_MAX_WRAPS)) (fm_physical_blocks config)
      (boot_block data) (current_block data) (earliest_block data) (fm_erase_size config)
      (fm_max_block_size config) 0xFF (flags data) (ram_buf_offset data) in
  if open_rc =? 0 then
    let data :=
      DlData (callbacks data) (bytes_logged data) (logical_blocks data) (physical_blocks data)
        (boot_block data) (current_block data) (earliest_block data) (erase_size data)
        (block_size data) erase_value (flags data) (ram_buf_offset data) in
    data_logger_common_init kc cfg data_logger_flash_map_api (with_data dev data)
  else Done (- ENODEV, with_data dev data).
End flash_map.

(** Documented behaviour of a flash area of [size] bytes with content [fm]: a failed
    call changes nothing outside the range it was given, and a write puts its bytes
    where the flash was erased. *)
Class FlashAreaSpec (F : Type) `{PmRuntime F} `{FlashArea F} (size erase_value : Z)
  (fwf : F -> Prop) (fm : F -> list Z) : Prop := {
  fa_size f : fwf f -> zlen (fm f) = size;
  fa_get f : fwf f -> let '(rc, f') := pm_device_runtime_get f in rc <= 0 /\ fwf f' /\ fm f' = fm f;
  fa_put f : fwf f -> fwf (pm_device_runtime_put f) /\ fm (pm_device_runtime_put f) = fm f;
  fa_put_async f : fwf f ->
    fwf (pm_device_runtime_put_async f) /\ fm (pm_device_runtime_put_async f) = fm f;
  fa_read f off n : fwf f -> 0 <= off -> 0 <= n -> off + n <= size ->
    let '(rc, mem, f') := flash_area_read f off n in
    rc <= 0 /\ fwf f' /\ fm f' = fm f /\ (rc = 0 -> mem = ztake n (zdrop off (fm f)));
  fa_write f off bs : fwf f -> 0 <= off -> off + zlen bs <= size ->
    let '(rc, f') := flash_area_write f off bs in
    rc <= 0 /\ fwf f' /\ ztake off (fm f') = ztake off (fm f) /\
    zdrop (off + zlen bs) (fm f') = zdrop (off + zlen bs) (fm f) /\
    (rc = 0 -> ztake (zlen bs) (zdrop off (fm f)) = replicate (length bs) erase_value ->
     fm f' = zwrite off bs (fm f));
  fa_erase f off len : fwf f -> 0 <= off -> 0 <= len -> off + len <= size ->
    let '(rc, f') := flash_area_erase f off len in
    rc <= 0 /\ fwf f' /\ ztake off (fm f') = ztake off (fm f) /\
    zdrop (off + len) (fm f') = zdrop (off + len) (fm f) /\
    (rc = 0 -> fm f' = zwrite off (replicate (Z.to_nat len) erase_value) (fm f));
}.

Section backend.
Context {F : Type} `{PmRuntime F} `{FlashArea F} (config : dl_flash_map_config) (g : geometry).
Context (fwf : F -> Prop) (fm : F -> list Z).

(** The device tree: block size a power of two, partition below 4 GiB. *)
Definition flash_map_config_ok : Prop :=
  fm_physical_blocks config = gP g /\ fm_max_block_size config = gBS g /\
  fm_erase_size config = gE g * gBS g /\ 0 <= fm_block_addr_shift config /\
  gBS g = 2 ^ fm_block_addr_shift config /\ gP g * gBS g < 2 ^ 32.

Definition flash_block (f : F) (p : Z) : list Z :=
  if 0 <=? p then ztake (gBS g) (zdrop (p * gBS g) (fm f)) else [].

Context `{!FlashAreaSpec F (gP g * gBS g) (gEV g) fwf fm}.
Context (Hg : geometry_ok g) (Hc : flash_map_config_ok).

Lemma block_offset p : 0 <= p <= gP g ->
  u32 (Z.shiftl p (fm_block_addr_shift config)) = p * gBS g.
Proof.
  intros Hp. destruct Hc as (_ & _ & _ & Hs & Hbs & Hlt). assert (HBS := g_BS _ Hg).
  rewrite Z.shiftl_mul_pow2, <- Hbs by done. apply uwrap_small. nia.
Qed.

(** A block outside a changed range is not changed. *)
Lemma flash_block_frame f f' p off len :
  0 <= off -> 0 <= len -> ztake off (fm f') = ztake off (fm f) ->
  zdrop (off + len) (fm f') = zdrop (off + len) (fm f) ->
  (p + 1) * gBS g <= off \/ off + len <= p * gBS g -> flash_block f' p = flash_block f p.
Proof.
  intros Hoff Hlen Ht Hd Hp. unfold flash_block. destruct (Z.leb_spec 0 p) as [Hp0|Hp0]; [|done].
  assert (HBS := g_BS _ Hg). destruct Hp as [Hp|Hp].
  - assert (Hx : forall l : list Z, ztake (gBS g) (zdrop (p * gBS g) l) =
                      ztake (gBS g) (zdrop (p * gBS g) (ztake off l))).
    { intros l. rewrite zdrop_ztake, ztake_ztake by nia. f_equal. nia. }
    by rewrite Hx, Ht, <- Hx.
  - replace (p * gBS g) with ((off + len) + (p * gBS g - (off + len))) by lia.
    by rewrite <- !(zdrop_zdrop (p * gBS g - (off + len)) (off + len)), Hd by lia.
Qed.

Lemma image_zdrop f (n : nat) s :
  fwf f -> 0 <= s -> s + Z.of_nat n = gP g -> image (flash_block f) s n = zdrop (s * gBS g) (fm f).
Proof.
  intros Hf. pose proof (fa_size f Hf) as Hsz. assert (HBS := g_BS _ Hg).
  revert s. induction n as [|n IH]; intros s Hs Hn; cbn [image].
  - rewrite zdrop_ge; [done|]. nia.
  - rewrite IH by lia. unfold flash_block. replace (0 <=? s) with true by lia.
    replace ((s + 1) * gBS g) with (s * gBS g + gBS g) by lia.
    rewrite <- zdrop_zdrop by nia. apply ztake_zdrop.
Qed.

Lemma zwrite_slice {A} off (bs l : list A) :
  0 <= off -> off + zlen bs <= zlen l ->
  zdrop off (zwrite off bs l) = bs ++ zdrop (off + zlen bs) l.
Proof.
  intros Hoff Hl. pose proof (zlen_nonneg bs). unfold zwrite. apply zdrop_app. rewrite zlen_ztake; lia.
Qed.

(** The reset loop erases [offset .. offset + remaining). *)
Lemma reset_loop_ok fuel f chunk complete off rem prog :
  fwf f -> 0 < chunk -> 0 <= off -> 0 <= rem <= Z.of_nat fuel -> off + rem <= gP g * gBS g ->
  exists rc f' prog', reset_loop config fuel f chunk complete off rem prog = Done (rc, f', prog') /\
    rc <= 0 /\ fwf f' /\ ztake off (fm f') = ztake off (fm f) /\
    zdrop (off + rem) (fm f') = zdrop (off + rem) (fm f) /\
    (rc = 0 -> zdrop off (fm f') = replicate (Z.to_nat rem) (gEV g) ++ zdrop (off + rem) (fm f)).
Proof.
  intros Hf Hch. revert f complete off rem prog Hf.
  induction fuel as [|fuel IH]; intros f complete off rem prog Hf Hoff Hrem Hfit; cbn [reset_loop];
    destruct (Z.eqb_spec rem 0) as [->|Hne]; cbn [negb]; try lia.
  1,2: exists 0, f, prog; rewrite Z.add_0_r; split_and!; try done; lia.
  set (n := Z.min rem chunk).
  pose proof (fa_erase (size := gP g * gBS g) f off n Hf Hoff ltac:(lia) ltac:(lia)) as He.
  pose proof (fa_size f Hf) as Hsz.
  destruct (flash_area_erase f off n) as [rc f1]. destruct He as (Hrc & Hf1 & Ht & Hd & Hm).
  assert (Hd' : zdrop (off + rem) (fm f1) = zdrop (off + rem) (fm f)).
  { replace (off + rem) with (off + n + (rem - n)) by lia.
    by rewrite <- !(zdrop_zdrop (rem - n) (off + n)), Hd by lia. }
  destruct (Z.ltb_spec rc 0) as [Hneg|Hpos]; [by exists rc, f1, prog; split_and!; try done; lia|].
  replace rc with 0 in * by lia.
  destruct (IH f1 (complete + Z.shiftr n (fm_block_addr_shift config)) (off + n) (rem - n)
    (prog ++ [complete + Z.shiftr n (fm_block_addr_shift config)]) Hf1 ltac:(lia) ltac:(lia) ltac:(lia))
    as (rc2 & f2 & prog2 & -> & Hrc2 & Hf2 & Ht2 & Hd2 & Hm2).
  replace (off + n + (rem - n)) with (off + rem) in * by lia.
  exists rc2, f2, prog2. split; [done|]. split; [done|]. split; [done|].
  split; [|split; [congruence|]].
  - rewrite <- Ht. replace off with (Z.min off (off + n)) by lia.
    by rewrite <- !(ztake_ztake off (off + n)), Ht2.
  - intros Hz. rewrite <- Hd', <- (ztake_zdrop n (zdrop off (fm f2))).
    rewrite zdrop_zdrop, (Hm2 Hz) by lia.
    replace (ztake n (zdrop off (fm f2))) with (replicate (Z.to_nat n) (gEV g)).
    + rewrite app_assoc, <- replicate_add. do 2 f_equal. lia.
    + replace (ztake n (zdrop off (fm f2))) with (zdrop off (ztake (off + n) (fm f2)))
        by (rewrite zdrop_ztake by lia; f_equal; lia).
      rewrite Ht2, zdrop_ztake, (Hm eq_refl) by lia.
      assert (Hzr : zlen (replicate (Z.to_nat n) (gEV g)) = n) by (unfold zlen; rewrite length_replicate; lia).
      rewrite zwrite_slice by lia. replace (off + n - off) with n by lia. by rewrite ztake_app.
Qed.

Lemma ROUND_UP_bounds x a m : 0 < a -> 0 <= x <= m * a -> x <= ROUND_UP x a <= m * a.
Proof.
  intros Ha Hx. unfold ROUND_UP. pose proof (Z.div_mod (x + (a - 1)) a ltac:(lia)).
  pose proof (Z.mod_pos_bound (x + (a - 1)) a Ha).
  assert ((x + (a - 1)) / a <= m) by (apply Z.lt_succ_r, Z.div_lt_upper_bound; lia). nia.
Qed.

Lemma logger_flash_map_reset_ok f hint :
  fwf f -> 0 <= hint <= gP g ->
  exists rc f' prog, logger_flash_map_reset config f hint = Done (rc, f', prog) /\
    rc <= 0 /\ fwf f' /\
    (rc = 0 -> forall p, 0 <= p < gP g ->
       flash_block f' p = erased_block g \/ (hint <= p /\ flash_block f' p = flash_block f p)).
Proof.
  intros Hf Hh. pose proof Hc as (_ & _ & Hes & _ & _ & Hlt). assert (HBS := g_BS _ Hg).
  assert (HE := g_E _ Hg). destruct (g_EP _ Hg) as [m Hm]. unfold logger_flash_map_reset.
  rewrite Hes, block_offset by lia. replace (gE g * gBS g =? 0) with false by nia.
  pose proof (ROUND_UP_bounds (hint * gBS g) (gE g * gBS g) m ltac:(nia) ltac:(nia)) as Hru.
  assert (Hrd : exists j, ROUND_UP (hint * gBS g) (gE g * gBS g) = j * gBS g).
  { unfold ROUND_UP. eexists (_ * gE g). rewrite <- Z.mul_assoc. done. }
  destruct Hrd as (j & Hj). rewrite uwrap_small by nia. set (rem := ROUND_UP _ _) in *.
  assert (Hch : 0 < reset_chunk_size config).
  { unfold reset_chunk_size. rewrite Hes. destruct (_ =? _); [done|nia]. }
  destruct (reset_loop_ok (Z.to_nat rem) f (reset_chunk_size config) 0 0 rem [] Hf Hch
    ltac:(lia) ltac:(nia) ltac:(nia)) as (rc & f' & prog & -> & Hrc & Hf' & _ & Hd & Hok).
  exists rc, f', prog. split; [done|]. split; [done|]. split; [done|]. intros Hz p Hp.
  specialize (Hok Hz). rewrite zdrop_0 in Hok by lia. rewrite !Z.add_0_l in *.
  assert (Hzr : zlen (replicate (Z.to_nat rem) (gEV g)) = rem) by (unfold zlen; rewrite length_replicate; nia).
  unfold flash_block, erased_block. replace (0 <=? p) with true by lia.
  destruct (Z.lt_ge_cases p j) as [Hpj|Hpj].
  - left. rewrite Hok, zdrop_app_le, ztake_app_le by (rewrite ?zlen_zdrop; nia).
    unfold zdrop, ztake. rewrite drop_replicate, take_replicate. f_equal. nia.
  - right. split; [nia|]. f_equal. replace (p * gBS g) with (rem + (p * gBS g - rem)) by lia.
    by rewrite <- !(zdrop_zdrop (p * gBS g - rem) rem), Hd by nia.
Qed.

#[global] Instance flash_map_backend :
  BlockBackend (data_logger_flash_map_api config) g fwf flash_block.
Proof.
  assert (HBS := g_BS _ Hg). assert (HP := g_P _ Hg). split.
  - intros f p Hf Hp. pose proof (fa_size f Hf). unfold flash_block.
    replace (0 <=? p) with true by lia. rewrite zlen_ztake; [done|]. rewrite zlen_zdrop; nia.
  - intros f Hf. pose proof (fa_get f Hf) as Hx. destruct (pm_device_runtime_get f) as [rc f'].
    destruct Hx as (? & ? & Hm). split_and!; try done. intros p. unfold flash_block. by rewrite Hm.
  - intros f Hf. destruct (fa_put f Hf) as (? & Hm). split; [done|]. intros p. unfold flash_block. by rewrite Hm.
  - intros f Hf. destruct (fa_put_async f Hf) as (? & Hm). split; [done|].
    intros p. unfold flash_block. by rewrite Hm.
  - eexists. split; [done|]. intros f p off n Hf Hp Hoff Hn Hfit. unfold logger_flash_map_read.
    pose proof Hc as (_ & _ & _ & _ & _ & Hlt).
    assert (p <= gP g) by (apply (Z.mul_le_mono_pos_r _ _ (gBS g)); lia).
    rewrite block_offset by lia. rewrite uwrap_small by nia.
    pose proof (fa_read (size := gP g * gBS g) f (p * gBS g + off) n Hf ltac:(nia) Hn ltac:(lia)) as Hr.
    destruct (flash_area_read f (p * gBS g + off) n) as [[rc mem] f'].
    destruct Hr as (? & ? & Hm & Hmem). split_and!; try done.
    + intros q. unfold flash_block. by rewrite Hm.
    + intros Hz. rewrite (Hmem Hz). rewrite image_zdrop by (try done; lia). by rewrite (zdrop_0 (0 * _)) by lia.
  - intros f p num Hf Hp Hnum Hfit. cbn [api_erase data_logger_flash_map_api]. unfold logger_flash_map_erase.
    rewrite !block_offset by lia.
    pose proof (fa_erase (size := gP g * gBS g) f (p * gBS g) (num * gBS g) Hf ltac:(nia) ltac:(nia) ltac:(nia)) as He.
    destruct (flash_area_erase f (p * gBS g) (num * gBS g)) as [rc f'].
    destruct He as (? & ? & Ht & Hd & Hm). split_and!; try done.
    + intros q Hq. eapply flash_block_frame; [| |exact Ht|exact Hd|]; nia.
    + intros Hz q Hq. unfold flash_block, erased_block. replace (0 <=? q) with true by lia.
      rewrite (Hm Hz). pose proof (fa_size f Hf) as Hsz.
      assert (Hzr : zlen (replicate (Z.to_nat (num * gBS g)) (gEV g)) = num * gBS g)
        by (unfold zlen; rewrite length_replicate; nia).
      replace (q * gBS g) with (p * gBS g + (q - p) * gBS g) by lia.
      rewrite <- (zdrop_zdrop ((q - p) * gBS g) (p * gBS g)), zwrite_slice by nia.
      rewrite zdrop_app_le by nia. rewrite ztake_app_le by (rewrite zlen_zdrop; nia).
      unfold zdrop, ztake. rewrite drop_replicate, take_replicate. f_equal. nia.
  - intros f p type bs Hf Hp Hbs Hb. cbn [api_write data_logger_flash_map_api]. unfold logger_flash_map_write.
    rewrite block_offset by lia. pose proof (zlen_nonneg bs). pose proof (fa_size f Hf) as Hsz.
    pose proof (fa_write (size := gP g * gBS g) f (p * gBS g) bs Hf ltac:(nia) ltac:(nia)) as Hw.
    destruct (flash_area_write f (p * gBS g) bs) as [rc f'].
    destruct Hw as (? & ? & Ht & Hd & Hm). split_and!; try done.
    + intros q Hq. eapply flash_block_frame; [| |exact Ht|exact Hd|]; nia.
    + intros Hz. unfold flash_block, erased_block in *. replace (0 <=? p) with true in * by lia.
      assert (Her : ztake (zlen bs) (zdrop (p * gBS g) (fm f)) = replicate (length bs) (gEV g)).
      { replace (zlen bs) with (Z.min (zlen bs) (gBS g)) by lia. rewrite <- ztake_ztake, Hb.
        unfold ztake. rewrite take_replicate. f_equal. unfold zlen in *. lia. }
      rewrite (Hm Hz Her), zwrite_slice by nia. rewrite ztake_app_ge by lia. f_equal.
      rewrite <- Hb, zdrop_ztake, zdrop_zdrop by nia. done.
  - eexists. split; [done|]. intros f hint Hf Hh. unfold flash_map_reset_api.
    by destruct (logger_flash_map_reset_ok f hint Hf Hh) as (rc & f' & prog & -> & ? & ? & ?).
Qed.
End backend.
