(* ===== verification/DataLoggerRam.v ===== *)
(** * RAM buffering and offloading of block writes

    The RAM buffer and the commit queue only delay block writes: after a flush, or
    once the commit thread has caught up, the backend, the counters and the
    notifications are those of writing each block directly, in order. *)

From stdpp Require Import base tactics numbers list.
From Stdlib Require Import ZArith Lia.
From S2P Require Import Prelude DataLogger.

Local Open Scope Z_scope.
Local Open Scope infuse_scope.

Definition exec_map {A B} (f : A -> B) (m : exec A) : exec B := exec_bind m (fun a => Done (f a)).

(** A block as it is queued: its type and its bytes. *)
Definition ram_entry : Type := Z * list Z.

Definition entry_bytes (e : ram_entry) : list Z :=
  le_put 1 e.1 ++ le_put 2 (zlen e.2) ++ e.2.

(** Contents of the RAM buffer for pending blocks. *)
Definition ram_encode (es : list ram_entry) : list Z := concat (map entry_bytes es).

Definition entry_ok (e : ram_entry) : Prop := in_u 8 e.1 /\ 2 <= zlen e.2 < 2 ^ 16.

Section ram.
Context {B : Type} `{PmRuntime B} (kc : dl_kconfig) (cfg : dl_config) (api : data_logger_api B).

(** The device without its RAM buffer. *)
Definition strip (dev : dl_dev B) : dl_dev B :=
  with_ram (with_data dev (set_ram_buf_offset (dv_data dev) 0)) [].

(** Devices that differ in the RAM buffer only. *)
Definition dev_equiv (d1 d2 : dl_dev B) : Prop := strip d1 = strip d2.

#[export] Instance dev_equiv_equivalence : Equivalence dev_equiv.
Proof. split; unfold dev_equiv; [done|by intros ??|by intros ??? -> ->]. Qed.

(** Writing the blocks one after the other. *)
Fixpoint write_all (dev : dl_dev B) (es : list ram_entry) : exec (dl_dev B) :=
  match es with
  | [] => Done dev
  | (type, data) :: es =>
      let! (_, dev, _) := do_block_write api dev type data (zlen data) in
      write_all dev es
  end.

(** [do_block_write] does not look at the RAM buffer, ... *)
Lemma prepare_block_strip dev p n :
  prepare_block api (strip dev) p n = exec_map (fun r => (r.1, strip r.2)) (prepare_block api dev p n).
Proof.
  unfold prepare_block. cbn. destruct (_ <=? _); [|done]. destruct (_ =? 0); [done|].
  destruct (_ =? 0); [|done]. destruct (api_erase _ _ _ _) as [rc b]. by destruct (rc <? 0).
Qed.

Lemma block_write_done_strip dev type block n rc :
  block_write_done (strip dev) type block n rc =
  let r := block_write_done dev type block n rc in (r.1.1, strip r.1.2, r.2).
Proof. unfold block_write_done. by destruct (rc =? 0). Qed.

Lemma do_block_write_strip dev type block n :
  do_block_write api (strip dev) type block n =
  exec_map (fun r => (r.1.1, strip r.1.2, r.2)) (do_block_write api dev type block n).
Proof.
  unfold do_block_write. cbn [dv_data strip with_ram with_data block_size physical_blocks
    set_ram_buf_offset erase_size current_block dv_backend].
  destruct (_ || _); [done|]. destruct (pm_device_runtime_get _) as [rc b].
  change (with_backend (strip dev) b) with (strip (with_backend dev b)).
  destruct (rc <? 0); [by rewrite block_write_done_strip|]. rewrite prepare_block_strip.
  destruct (prepare_block _ _ _ _) as [[rc1 dev1]| |]; [|done..]. cbn [exec_bind exec_map fst snd].
  destruct (rc1 <? 0).
  { change (with_backend (strip dev1) (pm_device_runtime_put_async (dv_backend (strip dev1)))) with
      (strip (with_backend dev1 (pm_device_runtime_put_async (dv_backend dev1)))).
    by rewrite block_write_done_strip. }
  change (dv_data (strip dev1)) with (set_ram_buf_offset (dv_data dev1) 0).
  cbn [current_block physical_blocks set_ram_buf_offset].
  destruct (if IS_PERSISTENT_LOGGER api then _ else _) as [block1| |]; [|done..]. cbn [exec_bind].
  destruct (_ <? _); [done|]. change (dv_backend (strip dev1)) with (dv_backend dev1).
  destruct (api_write _ _ _ _ _) as [rc2 b2].
  change (with_backend (strip dev1) (pm_device_runtime_put_async b2)) with
    (strip (with_backend dev1 (pm_device_runtime_put_async b2))).
  by rewrite block_write_done_strip.
Qed.

Lemma write_all_strip dev es : write_all (strip dev) es = exec_map strip (write_all dev es).
Proof.
  revert dev. induction es as [|[type data] es IH]; intros dev; [done|]. cbn [write_all].
  rewrite do_block_write_strip.
  destruct (do_block_write _ _ _ _ _) as [[[rc d] b]| |]; [|done..]. cbn. apply IH.
Qed.

Lemma write_all_app dev es1 es2 :
  write_all dev (es1 ++ es2) = let! d := write_all dev es1 in write_all d es2.
Proof.
  revert dev. induction es1 as [|[type data] es1 IH]; intros dev; [done|]. cbn [write_all app].
  destruct (do_block_write _ _ _ _ _) as [[[rc d] b]| |]; [|done..]. cbn. apply IH.
Qed.

(** ... nor at the memory behind the block. *)
Lemma ztake_zlen_app (l k : list Z) : ztake (zlen l) (l ++ k) = ztake (zlen l) l.
Proof. rewrite ztake_app by done. by rewrite ztake_ge. Qed.

Lemma write_header_tail wrap type data tail :
  2 <= zlen data ->
  write_header wrap type (data ++ tail) = exec_map (fun b => b ++ tail) (write_header wrap type data) /\
  exists b, write_header wrap type data = Done b /\ zlen b = zlen data.
Proof.
  intros Hl. pose proof (zlen_nonneg tail). unfold write_header. rewrite zlen_app.
  replace (zlen data + zlen tail <? 2) with false by lia. replace (zlen data <? 2) with false by lia.
  split.
  - cbn. f_equal. unfold zwrite. rewrite !ztake_0 by lia. cbn [app]. do 2 f_equal.
    apply zdrop_app_le. change (zlen [_; _]) with 2. lia.
  - eexists. split; [done|]. unfold zwrite. rewrite ztake_0 by lia. cbn [app].
    change (zlen [_; _]) with 2. change (?a :: ?b :: ?l) with ([a; b] ++ l).
    rewrite zlen_app, zlen_zdrop by lia. change (zlen [_; _]) with 2. lia.
Qed.

Lemma do_block_write_tail dev type data tail :
  2 <= zlen data ->
  do_block_write api dev type (data ++ tail) (zlen data) =
  exec_map (fun r => (r.1, r.2 ++ tail)) (do_block_write api dev type data (zlen data)).
Proof.
  intros Hl. pose proof (zlen_nonneg tail). unfold do_block_write.
  assert (Hdone : forall (d : dl_dev B) b rc, zlen b = zlen data ->
    block_write_done d type (b ++ tail) (zlen data) rc =
    let r := block_write_done d type b (zlen data) rc in (r.1, r.2 ++ tail)).
  { intros d b rc Hb. unfold block_write_done, handle_block_write_fail. rewrite <- Hb, ztake_zlen_app.
    by destruct (rc =? 0). }
  destruct (_ || _); [done|]. destruct (pm_device_runtime_get _) as [rc b].
  destruct (rc <? 0); [by rewrite Hdone|].
  destruct (prepare_block _ _ _ _) as [[rc1 dev1]| |]; [|done..]. cbn [exec_bind exec_map].
  destruct (rc1 <? 0); [by rewrite Hdone|].
  destruct (write_header_tail (current_block (dv_data dev1) / physical_blocks (dv_data dev1) + 1)
    type data tail Hl) as (Hw & b1 & Hb1 & Hz1).
  assert (Hfin : forall b1, zlen b1 = zlen data ->
    (if zlen (b1 ++ tail) <? zlen data then Fault else
       let '(rc2, b2) := api_write api (dv_backend dev1)
         (current_block (dv_data dev) mod physical_blocks (dv_data dev)) type (ztake (zlen data) (b1 ++ tail)) in
       Done (block_write_done (with_backend dev1 (pm_device_runtime_put_async b2)) type (b1 ++ tail)
               (zlen data) rc2)) =
    exec_map (fun r => (r.1, r.2 ++ tail))
      (if zlen b1 <? zlen data then Fault else
       let '(rc2, b2) := api_write api (dv_backend dev1)
         (current_block (dv_data dev) mod physical_blocks (dv_data dev)) type (ztake (zlen data) b1) in
       Done (block_write_done (with_backend dev1 (pm_device_runtime_put_async b2)) type b1 (zlen data) rc2))).
  { intros b2 Hb2. rewrite zlen_app. replace (zlen b2 + zlen tail <? zlen data) with false by lia.
    replace (zlen b2 <? zlen data) with false by lia. rewrite <- Hb2, ztake_zlen_app, Hb2.
    destruct (api_write _ _ _ _ _) as [rc2 b3]. cbn. by rewrite Hdone. }
  destruct (IS_PERSISTENT_LOGGER api); [|by apply Hfin]. rewrite Hw, Hb1. cbn [exec_map exec_bind].
  by apply Hfin.
Qed.

Lemma do_block_write_block dev type data n rc d b :
  do_block_write api dev type data n = Done (rc, d, b) -> 2 <= zlen data -> zlen b = zlen data.
Proof.
  intros Hd Hl. unfold do_block_write in Hd.
  assert (Hdone : forall (d : dl_dev B) b rc r, Done (block_write_done d type b n rc) = Done r -> r.2 = b)
    by (intros d0 b0 rc0 r; unfold block_write_done; destruct (rc0 =? 0); by intros [= <-]).
  assert (Hhead : forall wrap, exists b1, write_header wrap type data = Done b1 /\ zlen b1 = zlen data)
    by (intros wrap; by apply (write_header_tail wrap type data [] Hl)).
  destruct (_ || _) in Hd; [done|]. destruct (pm_device_runtime_get _) as [rc0 b0].
  destruct (rc0 <? 0); [by apply Hdone in Hd; subst|]. inv_exec Hd. destruct r as [rc1 d1].
  destruct (rc1 <? 0); [by apply Hdone in Hd; subst|]. inv_exec Hd.
  destruct (zlen r <? n); [done|]. destruct (api_write _ _ _ _ _) as [rc2 b2].
  apply Hdone in Hd. cbn in Hd. subst r. destruct (IS_PERSISTENT_LOGGER api); [|by injection Hr0 as <-].
  destruct (Hhead (current_block (dv_data d1) / physical_blocks (dv_data d1) + 1)) as (b1 & Hb1 & Hz1).
  rewrite Hb1 in Hr0. by injection Hr0 as <-.
Qed.

(** A block write keeps the RAM buffer, the queue and the subscribers. *)
Definition same_buffers (d1 d2 : dl_dev B) : Prop :=
  dv_ram d2 = dv_ram d1 /\ dv_queue d2 = dv_queue d1 /\
  ram_buf_offset (dv_data d2) = ram_buf_offset (dv_data d1).

Lemma do_block_write_same dev type data n rc d b :
  do_block_write api dev type data n = Done (rc, d, b) -> same_buffers dev d.
Proof.
  assert (Hdone : forall (d0 : dl_dev B) b0 rc0 r, same_buffers dev d0 ->
    Done (block_write_done d0 type b0 n rc0) = Done r -> same_buffers dev r.1.2)
    by (intros d0 b0 rc0 r Hs; unfold block_write_done; destruct (rc0 =? 0); by intros [= <-]).
  intros Hd. unfold do_block_write in Hd.
  destruct (_ || _) in Hd; [done|]. destruct (pm_device_runtime_get _) as [rc0 b0].
  destruct (rc0 <? 0); [by apply Hdone in Hd|]. inv_exec Hd. destruct r as [rc1 d1].
  assert (Hs1 : same_buffers dev d1).
  { clear Hd. unfold prepare_block in Hr. repeat split_match_in Hr; by injection Hr as <- <-. }
  destruct (rc1 <? 0); [by apply Hdone in Hd|]. inv_exec Hd.
  destruct (zlen r <? n); [done|]. destruct (api_write _ _ _ _ _) as [rc2 b2].
  by apply Hdone in Hd.
Qed.

(** Result of a run that should be equivalent to [m], up to the RAM buffer. *)
Definition runs_as (m : exec (dl_dev B)) (r : exec (dl_dev B)) (len : Z) : Prop :=
  match m with
  | Done d => exists d', r = Done d' /\ strip d' = d /\ zlen (dv_ram d') = len
  | Fault => r = Fault
  | NoFuel => True
  end.

Lemma zlen_entry_bytes e : zlen (entry_bytes e) = 3 + zlen e.2.
Proof. unfold entry_bytes. rewrite !zlen_app, !zlen_le_put. lia. Qed.

Lemma ram_flush_loop_ok fuel dev pre es post :
  dv_ram dev = pre ++ ram_encode es ++ post ->
  ram_buf_offset (dv_data dev) = zlen pre + zlen (ram_encode es) ->
  Forall entry_ok es -> (length es <= fuel)%nat ->
  runs_as (write_all (strip dev) es) (ram_flush_loop api fuel dev (zlen pre)) (zlen (dv_ram dev)).
Proof.
  revert dev pre es. induction fuel as [|fuel IH]; intros dev pre es Hram Hoff Hes Hf;
    (destruct es as [|[type data] es];
     [cbn [ram_flush_loop]; change (zlen (ram_encode [])) with 0 in Hoff;
      replace (zlen pre <? ram_buf_offset (dv_data dev)) with false by lia; by exists dev|]);
    [cbn in Hf; lia|].
  apply Forall_cons in Hes as [[Ht Hl] Hes]. cbn [fst snd] in *. unfold in_u in Ht.
  change (ram_encode ((type, data) :: es)) with (entry_bytes (type, data) ++ ram_encode es) in *.
  rewrite zlen_app, zlen_entry_bytes in Hoff. cbn [snd] in Hoff.
  pose proof (zlen_nonneg (ram_encode es)). cbn [ram_flush_loop].
  replace (zlen pre <? ram_buf_offset (dv_data dev)) with true by lia.
  set (tail := ram_encode es ++ post).
  assert (Hram' : dv_ram dev = pre ++ le_put 1 type ++ le_put 2 (zlen data) ++ data ++ tail).
  { rewrite Hram. unfold entry_bytes, tail. by rewrite <- !app_assoc. }
  rewrite Hram'.
  rewrite (zdrop_app (zlen pre)) by done. rewrite (ztake_app 1) by (by rewrite zlen_le_put).
  rewrite (app_assoc pre), (zdrop_app (zlen pre + 1)) by (rewrite zlen_app, zlen_le_put; lia).
  rewrite (ztake_app 2) by (by rewrite zlen_le_put).
  rewrite !le_get_put. change (2 ^ (8 * Z.of_nat 1)) with 256. change (2 ^ (8 * Z.of_nat 2)) with 65536.
  rewrite (Z.mod_small type), (Z.mod_small (zlen data)) by lia.
  rewrite (app_assoc (pre ++ _)), (zdrop_app (zlen pre + 3)) by (rewrite !zlen_app, !zlen_le_put; lia).
  rewrite do_block_write_tail by lia. cbn [write_all]. rewrite do_block_write_strip.
  destruct (do_block_write api dev type data (zlen data)) as [[[rc d] b]| |] eqn:Hw; [|done..].
  cbn [exec_map exec_bind fst snd].
  pose proof (do_block_write_block _ _ _ _ _ _ _ Hw ltac:(lia)) as Hb.
  destruct (do_block_write_same _ _ _ _ _ _ _ Hw) as (Hr1 & _ & Hr3). rewrite Hr1, Hram'.
  set (pre' := (pre ++ le_put 1 type) ++ le_put 2 (zlen data)).
  assert (Hzp : zlen pre' = zlen pre + 3) by (unfold pre'; rewrite !zlen_app, !zlen_le_put; lia).
  replace (pre ++ le_put 1 type ++ le_put 2 (zlen data) ++ data ++ tail) with (pre' ++ data ++ tail)
    by (unfold pre'; by rewrite <- !app_assoc).
  assert (Hzw : zwrite (zlen pre + 3) (b ++ tail) (pre' ++ data ++ tail) = (pre' ++ b) ++ tail).
  { unfold zwrite. rewrite ztake_app by lia. rewrite zdrop_ge; [by rewrite app_nil_r, app_assoc|].
    rewrite !zlen_app. lia. }
  rewrite Hzw. replace (zlen pre + 3 + zlen data) with (zlen (pre' ++ b)) by (rewrite zlen_app; lia).
  specialize (IH (with_ram d ((pre' ++ b) ++ tail)) (pre' ++ b) es).
  replace (zlen (pre' ++ data ++ tail)) with (zlen (dv_ram (with_ram d ((pre' ++ b) ++ tail))))
    by (cbn; rewrite !zlen_app; lia).
  apply IH; [done| |done|cbn in Hf; lia].
  cbn. rewrite Hr3, zlen_app. lia.
Qed.

(** A flush writes the pending blocks and empties the buffer. *)
Lemma do_ram_buffer_flush_single_ok dev es post :
  dv_ram dev = ram_encode es ++ post -> ram_buf_offset (dv_data dev) = zlen (ram_encode es) ->
  Forall entry_ok es ->
  match write_all (strip dev) es with
  | Done d => exists d', do_ram_buffer_flush_single api dev = Done d' /\ strip d' = d /\
      zlen (dv_ram d') = zlen (dv_ram dev) /\ ram_buf_offset (dv_data d') = 0
  | Fault => do_ram_buffer_flush_single api dev = Fault
  | NoFuel => True
  end.
Proof.
  intros Hram Hoff Hes. unfold do_ram_buffer_flush_single.
  assert (Hlen : (length es <= Z.to_nat (zlen (ram_encode es)))%nat).
  { clear. induction es as [|e es IH]; [done|]. change (ram_encode (e :: es)) with (entry_bytes e ++ ram_encode es).
    rewrite zlen_app, zlen_entry_bytes. pose proof (zlen_nonneg e.2). pose proof (zlen_nonneg (ram_encode es)).
    cbn [length]. lia. }
  pose proof (ram_flush_loop_ok (Z.to_nat (zlen (ram_encode es))) dev [] es post Hram Hoff Hes Hlen) as Hrun.
  change (zlen (@nil Z)) with 0 in Hrun. rewrite Hoff. unfold runs_as in Hrun.
  destruct (write_all (strip dev) es) as [d| |]; [|by rewrite Hrun|done].
  destruct Hrun as (d' & -> & Hs & Hz). cbn [exec_bind]. eexists. split; [done|]. split; [exact Hs|]. done.
Qed.

(** Every block goes through the RAM buffer; return values are not looked at. *)
Fixpoint buffer_all (dev : dl_dev B) (es : list ram_entry) : exec (dl_dev B) :=
  match es with
  | [] => Done dev
  | (type, data) :: es =>
      let! (_, dev, _) := do_block_write_ram_buffer_single cfg api dev type data (zlen data) in
      buffer_all dev es
  end.

(** The buffer holds the blocks [es]. *)
Definition ram_pending (dev : dl_dev B) (es : list ram_entry) : Prop :=
  zlen (dv_ram dev) = ram_buf_len cfg /\ ram_buf_len cfg < 2 ^ 32 /\ Forall entry_ok es /\
  ram_buf_offset (dv_data dev) = zlen (ram_encode es) /\ exists post, dv_ram dev = ram_encode es ++ post.

Lemma ram_encode_snoc es e : ram_encode (es ++ [e]) = ram_encode es ++ entry_bytes e.
Proof. unfold ram_encode. rewrite map_app, concat_app. cbn. by rewrite app_nil_r. Qed.

(** A block that fits is only appended to the buffer. *)
Lemma ram_buffer_append dev es type data :
  ram_pending dev es -> entry_ok (type, data) ->
  3 + zlen data < ram_buf_len cfg - ram_buf_offset (dv_data dev) ->
  exists d, do_block_write_ram_buffer_single cfg api dev type data (zlen data) = Done (0, d, data) /\
    strip d = strip dev /\ ram_pending d (es ++ [(type, data)]).
Proof.
  intros (Hz & Hlt & Hes & Hoff & post & Hram) He Hfit. unfold do_block_write_ram_buffer_single.
  pose proof (zlen_nonneg (ram_encode es)). pose proof (zlen_nonneg data).
  rewrite uwrap_small by lia. replace (_ <? ram_buf_len cfg - _) with true by lia.
  replace (zlen data <? zlen data) with false by lia. eexists. split; [done|]. split; [done|].
  rewrite Hram, zlen_app in Hz.
  set (ram := zwrite _ (ztake _ _) _).
  assert (Hr : ram = ram_encode (es ++ [(type, data)]) ++ zdrop (zlen data) (zdrop 3 post)).
  { unfold ram. rewrite Hram, Hoff, zwrite_at by done. rewrite app_assoc, zwrite_at.
    - rewrite ram_encode_snoc, ztake_ge by lia. unfold entry_bytes. cbn [fst snd].
      rewrite zlen_app, !zlen_le_put. by rewrite <- !app_assoc.
    - rewrite !zlen_app, !zlen_le_put. lia. }
  split; [|split; [done|split]].
  - cbn. rewrite Hr, ram_encode_snoc, !zlen_app, zlen_entry_bytes, !zlen_zdrop;
      rewrite ?zlen_zdrop; cbn [snd]; lia.
  - apply Forall_app. by split; [|constructor].
  - cbn. rewrite Hoff, ram_encode_snoc, zlen_app, zlen_entry_bytes. cbn [snd]. split; [lia|]. by eexists; rewrite <- ram_encode_snoc.
Qed.

(** With any number of blocks pending, buffering the rest and flushing is the same
    as writing the pending blocks and then the rest. *)
Lemma buffer_all_ok es dev pending d :
  ram_pending dev pending -> Forall entry_ok es ->
  write_all (strip dev) (pending ++ es) = Done d ->
  exists d1 d2, buffer_all dev es = Done d1 /\ do_ram_buffer_flush_single api d1 = Done d2 /\ strip d2 = d.
Proof.
  intros Hp Hes. revert dev pending Hp. induction Hes as [|[type data] es He Hes IH]; intros dev pending Hp Hw.
  { rewrite app_nil_r in Hw. destruct Hp as (_ & _ & Hpe & Hoff & post & Hram).
    pose proof (do_ram_buffer_flush_single_ok dev pending post Hram Hoff Hpe) as Hfl. rewrite Hw in Hfl.
    destruct Hfl as (d' & Hf & Hs & _). by exists dev, d'. }
  cbn [buffer_all].
  destruct (Z.lt_ge_cases (3 + zlen data) (ram_buf_len cfg - ram_buf_offset (dv_data dev))) as [Hfit|Hno].
  { destruct (ram_buffer_append dev pending type data Hp He Hfit) as (d1 & -> & Hs1 & Hp1). cbn [exec_bind].
    apply (IH d1 (pending ++ [(type, data)])); [done|]. by rewrite Hs1, <- app_assoc. }
  pose proof Hp as (Hz & Hlt & Hpe & Hoff & post & Hram).
  unfold do_block_write_ram_buffer_single. pose proof (zlen_nonneg (ram_encode pending)).
  assert (Hle : zlen (ram_encode pending) <= ram_buf_len cfg)
    by (rewrite <- Hz, Hram, zlen_app; pose proof (zlen_nonneg post); lia).
  rewrite uwrap_small by lia. replace (3 + zlen data <? _) with false by lia.
  rewrite write_all_app in Hw.
  assert (Hflushed : exists d1, (if ram_buf_offset (dv_data dev) =? 0 then Done dev
      else do_ram_buffer_flush_single api dev) = Done d1 /\
    write_all (strip dev) pending = Done (strip d1) /\ zlen (dv_ram d1) = ram_buf_len cfg /\
    ram_buf_offset (dv_data d1) = 0).
  { destruct (Z.eqb_spec (ram_buf_offset (dv_data dev)) 0) as [Hz0|Hz0].
    - assert (pending = []) as ->.
      { destruct pending as [|e ?]; [done|]. rewrite Hoff in Hz0.
        change (ram_encode (e :: ?l)) with (entry_bytes e ++ ram_encode l) in Hz0.
        rewrite zlen_app, zlen_entry_bytes in Hz0. pose proof (zlen_nonneg e.2).
        pose proof (zlen_nonneg (ram_encode pending)). lia. }
      by exists dev.
    - pose proof (do_ram_buffer_flush_single_ok dev pending post Hram Hoff Hpe) as Hfl.
      destruct (write_all (strip dev) pending) as [d1| |]; [|done..].
      destruct Hfl as (d' & -> & <- & Hz' & Ho'). exists d'. rewrite Hz'. done. }
  destruct Hflushed as (d1 & Hd1 & Hwp & Hz1 & Ho1). rewrite Hwp in Hw. cbn [exec_bind] in Hw.
  replace (if ram_buf_offset (dv_data dev) =? 0 then do_block_write api dev type data (zlen data) else
     let! dev0 := do_ram_buffer_flush_single api dev in do_block_write api dev0 type data (zlen data))
    with (do_block_write api d1 type data (zlen data)).
  2: { destruct (_ =? 0) in Hd1 |- *; [by injection Hd1 as <-|by rewrite Hd1]. }
  cbn [write_all] in Hw. rewrite do_block_write_strip in Hw.
  destruct (do_block_write api d1 type data (zlen data)) as [[[rc d2] b]| |] eqn:Hdw; [|done..].
  cbn [exec_map exec_bind fst snd] in *. destruct (do_block_write_same _ _ _ _ _ _ _ Hdw) as (Hr2 & _ & Ho2).
  apply (IH d2 []); [|done]. split; [by rewrite Hr2|]. split; [done|]. split; [constructor|].
  split; [by rewrite Ho2, Ho1|]. by exists (dv_ram d2).
Qed.
End ram.
