(* ===== verification/DataLoggerProps.v ===== *)
(** * Theorems about the data logger

    What the users of [subsys/data_logger] rely on, with instances on a small
    flash device; and the limits of the code. *)

From stdpp Require Import base tactics numbers list.
From Stdlib Require Import ZArith Lia.
From S2P Require Import Prelude DataLogger DataLoggerSpec DataLoggerInit DataLoggerRam FlashMap.

Local Open Scope Z_scope.
Local Open Scope infuse_scope.

(** ** A flash area in memory *)

(** Content of the flash; every call within it succeeds. *)
Record ram_flash := RamFlash { rf_mem : list Z }.

#[export] Instance ram_flash_pm : PmRuntime ram_flash := {|
  pm_device_runtime_get f := (0, f);
  pm_device_runtime_put f := f;
  pm_device_runtime_put_async f := f;
|}.

#[export] Instance ram_flash_area : FlashArea ram_flash := {|
  flash_area_write f off bs :=
    if (0 <=? off) && (off + zlen bs <=? zlen (rf_mem f))
    then (0, RamFlash (zwrite off bs (rf_mem f))) else (- EINVAL, f);
  flash_area_read f off n := (0, ztake n (zdrop off (rf_mem f)), f);
  flash_area_erase f off len :=
    if (0 <=? off) && (off + len <=? zlen (rf_mem f))
    then (0, RamFlash (zwrite off (replicate (Z.to_nat len) 0xFF) (rf_mem f))) else (- EINVAL, f);
|}.

Definition rf_wf (size : Z) (f : ram_flash) : Prop := zlen (rf_mem f) = size.

#[export] Instance ram_flash_spec size : FlashAreaSpec ram_flash size 0xFF (rf_wf size) rf_mem.
Proof.
  assert (Hzw : forall f off bs, rf_wf size f -> 0 <= off -> off + zlen bs <= size ->
    rf_wf size (RamFlash (zwrite off bs (rf_mem f))) /\
    ztake off (zwrite off bs (rf_mem f)) = ztake off (rf_mem f) /\
    zdrop (off + zlen bs) (zwrite off bs (rf_mem f)) = zdrop (off + zlen bs) (rf_mem f)).
  { intros f off bs Hf Ho Hl. unfold rf_wf in *. pose proof (zlen_nonneg bs). split; [|split].
    - cbn. rewrite zlen_zwrite; lia.
    - unfold zwrite. apply ztake_app. rewrite zlen_ztake; lia.
    - unfold zwrite. rewrite app_assoc. apply zdrop_app. rewrite zlen_app, zlen_ztake; lia. }
  split; try done.
  - intros f off bs Hf Ho Hl. cbn. unfold rf_wf in *. rewrite Hf.
    replace ((0 <=? off) && (off + zlen bs <=? size)) with true by lia.
    destruct (Hzw f off bs Hf Ho Hl) as (? & ? & ?). split_and!; try done; lia.
  - intros f off len Hf Ho Hl0 Hl. cbn. unfold rf_wf in *. rewrite Hf.
    replace ((0 <=? off) && (off + len <=? size)) with true by lia.
    assert (Hr : zlen (replicate (Z.to_nat len) 255) = len) by (unfold zlen; rewrite length_replicate; lia).
    destruct (Hzw f off (replicate (Z.to_nat len) 255) Hf Ho ltac:(lia)) as (? & ? & ?).
    rewrite Hr in *. split_and!; try done; lia.
Qed.

Definition small : geometry := Geometry 4 8 2 0xFF 254.

Lemma small_ok : geometry_ok small.
Proof. split; cbn; try lia. by exists 2. Qed.

Definition small_config : dl_flash_map_config := FlashMapConfig 4 16 8 3.

Lemma small_config_ok : flash_map_config_ok small_config small.
Proof. unfold flash_map_config_ok. cbn. lia. Qed.

#[export] Instance small_backend :
  BlockBackend (data_logger_flash_map_api small_config) small (rf_wf 32) (flash_block small rf_mem) :=
  flash_map_backend small_config small (rf_wf 32) rf_mem small_ok small_config_ok.

(** Synchronous build, four byte write alignment. *)
Definition sync_build : dl_kconfig := DlKconfig false false false 0 8.
Definition sync_config : dl_config := DlConfig false 0 4 false false.

Definition small_device (mem : list Z) (cur earliest : Z) : dl_dev ram_flash :=
  DlDev (DlData [] 0 (4 * 254) 4 0 cur earliest 16 8 0xFF 0 0) (RamFlash mem) [] [] [].

Definition small_api := data_logger_flash_map_api (F := ram_flash) small_config.

Lemma small_empty_inv : dl_inv small (rf_wf 32) (flash_block small rf_mem) (small_device (replicate 32 0xFF) 0 0) [].
Proof.
  apply dl_inv_empty; try done.
  - apply small_ok.
  - intros p Hp. cbn in Hp. assert (p = 0 \/ p = 1 \/ p = 2 \/ p = 3) as [->|[->|[->| ->]]] by lia; reflexivity.
Qed.

(** ** Block writes *)

(** C8.  A synchronous [data_logger_block_write] to a persistent logger appends to
    the log.  On success the log grows by exactly the block, with its header and
    alignment padding, and everything within the retained window is still there; a
    failure keeps the write position and all blocks outside the erase unit being
    recycled; a full logger refuses the block and is unchanged. *)
Theorem data_logger_write_correct {B} `{PmRuntime B} kc cfg (api : data_logger_api B) g wf blk
  `{!BlockBackend api g wf blk} dev log type block len :
  geometry_ok g -> dl_inv g wf blk dev log ->
  CONFIG_DATA_LOGGER_OFFLOAD_WRITES kc && negb (queued_writes cfg) = false ->
  CONFIG_DATA_LOGGER_RAM_BUFFER kc && negb (ram_buf_len cfg =? 0) = false ->
  Z.land (flags (dv_data dev)) DATA_LOGGER_FLAGS_ERASING = 0 ->
  2 <= len <= gBS g -> len <= padded_len cfg len <= gBS g -> padded_len cfg len <= zlen block ->
  exists rc dev' block', data_logger_block_write kc cfg api dev type block len = Done (rc, dev', block') /\
    (rc = 0 -> dl_inv g wf blk dev'
       (log ++ [stored_block g (zlen log) type (padded_block cfg (gEV g) block len) (padded_len cfg len)])) /\
    (rc <> 0 -> current_block (dv_data dev') = zlen log /\
       holds g blk (dv_backend dev') log (frontier g (zlen log + 1) - gP g)) /\
    (zlen log = gP g * gW g -> rc = - ENOMEM /\ dl_inv g wf blk dev' log).
Proof.
  intros Hg Hinv Hoff Hram Hfl Hlen Hpad Hz.
  destruct (data_logger_block_write_ok kc cfg api g wf blk Hg dev log type block len)
    as (rc & dev' & block' & Hw & _ & _ & Hrest); try done. by exists rc, dev', block'.
Qed.

Definition example_block : list Z := [0; 0; 7; 7; 7; 0; 0; 0].

Lemma data_logger_write_correct_witness :
  exists rc dev' block',
    data_logger_block_write sync_build sync_config small_api
      (small_device (replicate 32 0xFF) 0 0) 9 example_block 5 = Done (rc, dev', block') /\ rc = 0 /\
    dl_inv small (rf_wf 32) (flash_block small rf_mem) dev'
      [stored_block small 0 9 (padded_block sync_config 0xFF example_block 5) 8].
Proof.
  destruct (data_logger_write_correct sync_build sync_config small_api small (rf_wf 32) (flash_block small rf_mem)
    (small_device (replicate 32 0xFF) 0 0) [] 9 example_block 5) as (rc & dev' & block' & Hw & Hok & _);
    try (vm_compute; intuition congruence); [apply small_ok|apply small_empty_inv|].
  exists rc, dev', block'. split; [exact Hw|].
  assert (Hrc : rc = 0) by (vm_compute in Hw; congruence). split; [exact Hrc|]. exact (Hok Hrc).
Defined.

(** A read of blocks in the retained window returns the bytes that were logged,
    including a read that runs over the end of the physical space, and leaves the
    logger as it was. *)
Theorem data_logger_read_correct {B} `{PmRuntime B} (api : data_logger_api B) g wf blk
  `{!BlockBackend api g wf blk} dev log idx off len :
  geometry_ok g -> dl_inv g wf blk dev log ->
  Z.land (flags (dv_data dev)) DATA_LOGGER_FLAGS_ERASING = 0 ->
  earliest_block (dv_data dev) <= idx -> idx + Z.quot (off + len - 1) (gBS g) < zlen log ->
  0 <= off < gBS g -> 0 <= len < 2 ^ 16 ->
  exists rc mem dev', data_logger_block_read api dev idx off len = Done (rc, mem, dev') /\
    rc <= 0 /\ dl_inv g wf blk dev' log /\
    (rc = 0 -> mem = ztake len (zdrop off
       (image (log_block g log) idx (Z.to_nat (Z.quot (off + len - 1) (gBS g) + 1))))).
Proof. intros Hg. by apply data_logger_block_read_ok. Qed.

(** Six blocks on the small flash: the first erase unit has been recycled. *)
Definition wrapped_log : list (list Z) :=
  [[1; 9; 0; 0]; [1; 9; 1; 1]; [1; 9; 2; 2]; [1; 9; 3; 3]; [2; 9; 4; 4]; [2; 9; 5; 5]].

Definition wrapped_mem : list Z :=
  [2; 9; 4; 4; 255; 255; 255; 255; 2; 9; 5; 5; 255; 255; 255; 255;
   1; 9; 2; 2; 255; 255; 255; 255; 1; 9; 3; 3; 255; 255; 255; 255].

Lemma wrapped_inv :
  dl_inv small (rf_wf 32) (flash_block small rf_mem) (small_device wrapped_mem 6 2) wrapped_log.
Proof.
  split; try done.
  - intros i e Hi Hi0 He. change (zlen wrapped_log) with 6 in Hi.
    change (frontier small 6 - gP small) with 2 in Hi.
    assert (i = 2 \/ i = 3 \/ i = 4 \/ i = 5) as [->|[->|[->| ->]]] by lia;
      injection He as <-; vm_compute; intuition congruence.
  - intros i Hi. change (frontier small (zlen wrapped_log)) with 6 in Hi.
    change (zlen wrapped_log) with 6 in Hi. lia.
Qed.

Lemma data_logger_read_correct_witness :
  exists rc mem dev',
    data_logger_block_read small_api (small_device wrapped_mem 6 2) 3 2 10 = Done (rc, mem, dev') /\
    rc = 0 /\ mem = [3; 3; 255; 255; 255; 255; 2; 9; 4; 4].
Proof.
  destruct (data_logger_read_correct small_api small (rf_wf 32) (flash_block small rf_mem)
    (small_device wrapped_mem 6 2) wrapped_log 3 2 10 small_ok wrapped_inv) as (rc & mem & dev' & Hr & Hrc & _ & Hm);
    try (vm_compute; intuition congruence).
  exists rc, mem, dev'. split; [exact Hr|].
  assert (Hz : rc = 0) by (vm_compute in Hr; congruence). split; [exact Hz|]. rewrite (Hm Hz). reflexivity.
Defined.

(** C2.  After a reboot, [data_logger_common_init] recovers the position from the
    block headers alone: the counters describe exactly the log that is on the
    backend, for an empty, partly written, full or wrapped logger. *)
Theorem data_logger_recovery {B} `{PmRuntime B} kc cfg (api : data_logger_api B) g wf blk
  `{!BlockBackend api g wf blk} dev dev0 log :
  geometry_ok g -> api_search_hint api = None -> headers_readable api g wf ->
  dl_inv g wf blk dev0 log -> dv_backend dev = dv_backend dev0 -> dl_geometry g (dv_data dev) ->
  gBS g <= CONFIG_DATA_LOGGER_OFFLOAD_MAX_BLOCK_SIZE kc ->
  burst_config_ok kc cfg api (dv_data dev) = true ->
  exists dev', data_logger_common_init kc cfg api dev = Done (0, dev') /\
    dl_inv g wf blk dev' log /\ boot_block (dv_data dev') = zlen log.
Proof. intros Hg Hh Hok. by apply data_logger_common_init_ok. Qed.

Lemma data_logger_recovery_witness :
  exists dev', data_logger_common_init sync_build sync_config small_api (small_device wrapped_mem 0 0)
      = Done (0, dev') /\
    dl_inv small (rf_wf 32) (flash_block small rf_mem) dev' wrapped_log /\ boot_block (dv_data dev') = 6.
Proof.
  apply (data_logger_recovery sync_build sync_config small_api small (rf_wf 32) (flash_block small rf_mem)
    (small_device wrapped_mem 0 0) (small_device wrapped_mem 6 2) wrapped_log small_ok eq_refl).
  - intros read b p [= <-] Hwf Hp. reflexivity.
  - exact wrapped_inv.
  - reflexivity.
  - vm_compute; intuition congruence.
  - vm_compute; congruence.
  - reflexivity.
Defined.

(** Erasing the logger leaves an empty log on success, whether all blocks or only
    the used ones are erased; a failed erase keeps the counters; and the ERASING flag
    is clear again in both cases. *)
Theorem data_logger_erase_correct {B} `{PmRuntime B} (api : data_logger_api B) g wf blk
  `{!BlockBackend api g wf blk} dev log erase_all rc dev' progress :
  geometry_ok g -> dl_inv g wf blk dev log ->
  Z.land (flags (dv_data dev)) DATA_LOGGER_FLAGS_ERASING = 0 ->
  data_logger_erase api dev erase_all = (rc, dev', progress) ->
  Z.land (flags (dv_data dev')) DATA_LOGGER_FLAGS_ERASING = 0 /\
  (rc = 0 -> dl_inv g wf blk dev' []) /\
  (rc < 0 -> current_block (dv_data dev') = current_block (dv_data dev) /\
             earliest_block (dv_data dev') = earliest_block (dv_data dev)).
Proof.
  intros Hg Hinv Hfl He. pose proof (data_logger_erase_ok api g wf blk Hg dev log erase_all Hinv Hfl) as Hok.
  rewrite He in Hok. tauto.
Qed.

Lemma data_logger_erase_correct_witness :
  exists dev' progress, data_logger_erase small_api (small_device wrapped_mem 6 2) false = (0, dev', progress) /\
    dl_inv small (rf_wf 32) (flash_block small rf_mem) dev' [].
Proof.
  eexists _, _. split; [vm_compute; reflexivity|].
  eapply (data_logger_erase_correct small_api small (rf_wf 32) (flash_block small rf_mem)
    (small_device wrapped_mem 6 2) wrapped_log false 0);
    [apply small_ok|apply wrapped_inv|reflexivity|vm_compute; reflexivity|reflexivity].
Defined.




(** While the logger is being erased, writes are dropped with return value 0 and
    reads are refused, and neither touches the device. *)
Theorem erasing_excludes_access {B} `{PmRuntime B} kc cfg (api : data_logger_api B) dev erase_all
  dev1 hint type block len idx off n :
  data_logger_erase_begin dev erase_all = (dev1, hint) ->
  0 < block_size (dv_data dev) -> 0 < physical_blocks (dv_data dev) ->
  len <= block_size (dv_data dev) -> current_block (dv_data dev) < logical_blocks (dv_data dev) ->
  IS_PERSISTENT_LOGGER api = true ->
  data_logger_block_write kc cfg api dev1 type block len = Done (0, dev1, block) /\
  data_logger_block_read api dev1 idx off n = Done (- EBUSY, [], dev1).
Proof.
  unfold data_logger_erase_begin. intros [= <- <-] HB HP Hl Hc Hp.
  assert (Hflag : (Z.land (Z.lor (flags (dv_data dev)) DATA_LOGGER_FLAGS_ERASING) DATA_LOGGER_FLAGS_ERASING =? 0)
                  = false).
  { rewrite Z.land_lor_distr_l, Z.land_diag. apply Z.eqb_neq. intros He. by apply Z.lor_eq_0_iff in He as [_ ?]. }
  split.
  - unfold data_logger_block_write. cbn [dv_data with_data block_size logical_blocks current_block flags set_flags].
    rewrite Hflag. replace (block_size (dv_data dev) <? len) with false by lia.
    by replace (logical_blocks (dv_data dev) <=? current_block (dv_data dev)) with false by lia.
  - unfold data_logger_block_read, IS_PERSISTENT_LOGGER in *.
    cbn [dv_data with_data block_size physical_blocks flags set_flags]. rewrite Hflag.
    replace ((_ =? 0) || (_ =? 0)) with false by lia. by destruct (api_read api).
Qed.

Lemma erasing_excludes_access_witness :
  let dev1 := (data_logger_erase_begin (small_device wrapped_mem 6 2) true).1 in
  data_logger_block_write sync_build sync_config small_api dev1 9 example_block 8 = Done (0, dev1, example_block) /\
  data_logger_block_read small_api dev1 3 0 4 = Done (- EBUSY, [], dev1).
Proof.
  eapply (erasing_excludes_access sync_build sync_config small_api (small_device wrapped_mem 6 2) true);
    vm_compute; reflexivity || congruence.
Defined.

(** ** Limits *)

(** The same block written again and again. *)
Fixpoint retry {B} `{PmRuntime B} (api : data_logger_api B) (k : nat) (dev : dl_dev B) (type : Z)
  (block : list Z) (len : Z) : exec (dl_dev B) :=
  match k with
  | O => Done dev
  | S k =>
      let! (_, dev, block) := do_block_write api dev type block len in
      retry api k dev type block len
  end.

(** When the backend erases but cannot write, every attempt to write the first
    block of an erase unit advances [earliest_block] by a whole unit again.  After
    [k] attempts [k] units count as lost although only one was erased and nothing was
    logged. *)
Theorem failed_writes_lose_blocks {B} `{PmRuntime B} (api : data_logger_api B) dev type block len k :
  (forall b, (pm_device_runtime_get b).1 = 0) -> (forall b p n, (api_erase api b p n).1 = 0) ->
  (forall b p t m, (api_write api b p t m).1 < 0) ->
  let data := dv_data dev in
  let erase_blocks := erase_size data / block_size data in
  0 < block_size data -> 0 < physical_blocks data -> 0 < erase_blocks < 2 ^ 16 ->
  physical_blocks data <= current_block data -> current_block data mod erase_blocks = 0 ->
  2 <= len <= zlen block -> in_u 32 (earliest_block data) ->
  exists dev', retry api k dev type block len = Done dev' /\
    current_block (dv_data dev') = current_block data /\
    earliest_block (dv_data dev') = u32 (earliest_block data + Z.of_nat k * erase_blocks).
Proof.
  intros Hget Her Hwr. revert dev block. induction k as [|k IH]; intros dev block data E HB HP HE Hc Hm Hl Hear.
  { exists dev. split; [done|]. split; [done|]. rewrite Z.mul_0_l, Z.add_0_r, uwrap_small by exact Hear. done. }
  cbn [retry]. unfold do_block_write. fold data.
  replace ((block_size data =? 0) || (physical_blocks data =? 0)) with false by lia.
  fold E. rewrite (uwrap_small 16 E) by lia. specialize (Hget (dv_backend dev)) as Hg0.
  destruct (pm_device_runtime_get (dv_backend dev)) as [rc b0]. cbn in Hg0. subst rc.
  change (0 <? 0) with false. cbv iota. unfold prepare_block. cbn [dv_data with_backend]. fold data.
  replace (physical_blocks data <=? current_block data) with true by lia.
  replace (E =? 0) with false by lia. rewrite Hm. change (0 =? 0) with true. cbn [dv_backend with_data with_backend].
  specialize (Her b0 (current_block data mod physical_blocks data) E) as He0.
  destruct (api_erase api b0 _ E) as [rc b1]. cbn in He0. subst rc. change (0 <? 0) with false. cbv iota.
  cbn [exec_bind]. change (0 <? 0) with false. cbv iota. cbn [dv_data with_data with_backend current_block physical_blocks set_earliest_block].
  assert (Hhead : exists block', (if IS_PERSISTENT_LOGGER api
      then write_header (current_block data / physical_blocks data + 1) type block else Done block) = Done block' /\
    zlen block' = zlen block).
  { destruct (IS_PERSISTENT_LOGGER api); [|by exists block].
    by apply (write_header_tail (current_block data / physical_blocks data + 1) type block []); lia. }
  destruct Hhead as (block' & -> & Hz). cbn [exec_bind]. replace (zlen block' <? len) with false by lia.
  cbn [dv_backend with_backend with_data].
  specialize (Hwr b1 (current_block data mod physical_blocks data) type (ztake len block')) as Hw0.
  destruct (api_write api b1 _ type _) as [rc b2]. cbn in Hw0. unfold block_write_done.
  replace (rc =? 0) with false by lia. cbn [exec_bind].
  edestruct IH as (dev' & -> & Hc' & He'); cbn; try done; try lia.
  { by apply uwrap_bound. }
  exists dev'. split; [done|]. split; [done|]. rewrite He'. cbn. fold E.
  rewrite uwrap_add_idemp_l. f_equal. lia.
Qed.

(** A backend whose erases succeed and whose writes fail. *)
Definition broken_api : data_logger_api ram_flash :=
  DlApi (fun f _ _ _ => (- EIO, f)) None (api_read small_api) (fun f _ _ => (0, f)) None None.

Lemma failed_writes_lose_blocks_witness :
  exists dev', retry broken_api 2 (small_device wrapped_mem 6 2) 9 example_block 8 = Done dev' /\
    current_block (dv_data dev') = 6 /\ earliest_block (dv_data dev') = u32 (2 + Z.of_nat 2 * 2).
Proof.
  apply (failed_writes_lose_blocks broken_api (small_device wrapped_mem 6 2) 9 example_block 8 2);
    intros; vm_compute; intuition congruence.
Defined.

(** Blocks through [data_logger_block_write], with the return values. *)
Fixpoint block_writes {B} `{PmRuntime B} kc cfg (api : data_logger_api B) (dev : dl_dev B)
  (blocks : list (list Z)) : exec (list Z * dl_dev B) :=
  match blocks with
  | [] => Done ([], dev)
  | block :: blocks =>
      let! (rc, dev, _) := data_logger_block_write kc cfg api dev 9 block (zlen block) in
      let! (rcs, dev) := block_writes kc cfg api dev blocks in
      Done (rc :: rcs, dev)
  end.

(** The check against [logical_blocks] does not count blocks waiting in the RAM
    buffer: on a logger with room for four blocks, six writes through the buffer all
    return 0, and the flush writes past the logical end. *)
Example ram_buffer_passes_logical_end :
  let kc := DlKconfig false true false 0 8 in
  let cfg := DlConfig true 64 1 false false in
  let dev := DlDev (DlData [] 0 4 4 0 0 0 16 8 0xFF 0 0) (RamFlash (replicate 32 0xFF)) (replicate 64 0) [] [] in
  (let! (rcs, dev) := block_writes kc cfg small_api dev (replicate 6 [0; 0; 1; 1]) in
   let! (rc, dev) := data_logger_flush kc cfg small_api dev in
   Done (rcs, rc, current_block (dv_data dev), logical_blocks (dv_data dev)))
  = Done (replicate 6 0, 0, 6, 4).
Proof. vm_compute. reflexivity. Qed.

(** [data_logger_block_read] adds the blocks a read spans to the block index in 32
    bits.  Reading over the end of block [UINT32_MAX] wraps to block 0, passes the
    range check and returns data although no such block was ever logged. *)
Example block_read_index_overflow :
  exec_map (fun r => (r.1.1, r.1.2, current_block (dv_data r.2)))
    (data_logger_block_read small_api (small_device wrapped_mem 6 2) UINT32_MAX 4 8)
  = Done (0, [255; 255; 255; 255; 2; 9; 4; 4], 6).
Proof. vm_compute. reflexivity. Qed.
