(* ===== verification/TdfLogger.v ===== *)
(** * TDF data logger ([subsys/data_logger/high_level/tdf_data_logger.c])

    TDFs are collected in a block sized buffer that is written to a data logger
    when it is full.  The data logger below is an argument: its block write, state
    and subscription functions, which [Tdf] users instantiate with [DataLogger].

    A [Fault] is a failed assertion or an access outside the buffer; [NoFuel] means
    that the function has not returned within the given number of iterations, or
    waits for ever on the lock. *)

From stdpp Require Import base tactics numbers list.
From Stdlib Require Import ZArith Lia.
From S2P Require Import Prelude NetBuf Epoch Tdf DataLogger.

Local Open Scope Z_scope.
Local Open Scope infuse_scope.

Definition DATA_GUARD_HEAD : Z := 0xb4ef00fc.
Definition DATA_GUARD_TAIL : Z := 0xbf696b59.

(** enum infuse_type *)
Definition INFUSE_TDF : Z := 2.
Definition INFUSE_TDF_REMOTE : Z := 11.

(** struct tdf_logger_config *)
Record tdf_logger_config := TdfLoggerConfig {
  tdf_buffer_max_size : Z;
  block_type : Z;
}.

(** struct tdf_logger_data; [buf_linked] says that the net buffer points to
    [tdf_buffer], whose bytes are [nb_mem] of the buffer. *)
Record tdf_logger_data := TdfLoggerData {
  guard_head : Z;
  guard_tail : Z;
  lock_count : Z;
  tdf_state : tdf_buffer_state;
  remote_id : Z;
  full_block_write : bool;
  block_overhead : Z;
  buf_linked : bool;
}.

Definition set_tdf_state (d : tdf_logger_data) (s : tdf_buffer_state) : tdf_logger_data :=
  TdfLoggerData (guard_head d) (guard_tail d) (lock_count d) s (remote_id d) (full_block_write d)
    (block_overhead d) (buf_linked d).
Definition set_lock_count (d : tdf_logger_data) (n : Z) : tdf_logger_data :=
  TdfLoggerData (guard_head d) (guard_tail d) n (tdf_state d) (remote_id d) (full_block_write d)
    (block_overhead d) (buf_linked d).
Definition set_remote_id (d : tdf_logger_data) (id : Z) : tdf_logger_data :=
  TdfLoggerData (guard_head d) (guard_tail d) (lock_count d) (tdf_state d) id (full_block_write d)
    (block_overhead d) (buf_linked d).
Definition set_buf (d : tdf_logger_data) (b : net_buf_simple) : tdf_logger_data :=
  set_tdf_state d (TdfState (ts_time (tdf_state d)) b).
Definition tl_buf (d : tdf_logger_data) : net_buf_simple := ts_buf (tdf_state d).

(** The data logger underneath. *)
Record tdf_backend (L : Type) := TdfBackend {
  be_block_write : L -> Z -> list Z -> Z -> exec (Z * L * list Z);
  be_get_state : L -> data_logger_state;
  be_register_cb : L -> L;
  be_device_is_ready : L -> bool;
}.
Arguments TdfBackend {L}.
Arguments be_block_write {L}.
Arguments be_get_state {L}.
Arguments be_register_cb {L}.
Arguments be_device_is_ready {L}.

(** A TDF logger device and the data logger it writes to. *)
Record tdf_dev (L : Type) := TdfDev {
  td_data : tdf_logger_data;
  td_logger : L;
}.
Arguments TdfDev {L}.
Arguments td_data {L}.
Arguments td_logger {L}.

(** [__builtin_ffs(mask) - 1] on eight bits. *)
Fixpoint lowest_bit (n : nat) (i mask : Z) : Z :=
  match n with
  | O => i
  | S n => if Z.testbit mask i then i else lowest_bit n (i + 1) mask
  end.

(** [__builtin_popcount] on eight bits. *)
Definition popcount8 (mask : Z) : Z :=
  zlen (filter (fun i => Z.testbit mask i = true) [0; 1; 2; 3; 4; 5; 6; 7]).

(** [logger_mapping] says which of the loggers exist.  The index of the next logger
    and the remaining mask; every iteration clears a bit of the mask. *)
Fixpoint logger_mask_iter_loop (fuel : nat) (logger_mapping : list bool) (mask : Z) : option nat * Z :=
  match fuel with
  | O => (None, mask)
  | S fuel =>
      if negb (mask =? 0) then
        let offset := lowest_bit 8 0 mask in
        if zlen logger_mapping <=? offset then (None, mask)
        else
          let mask := Z.lxor mask (Z.shiftl 1 offset) in
          if nth (Z.to_nat offset) logger_mapping false then (Some (Z.to_nat offset), mask)
          else logger_mask_iter_loop fuel logger_mapping mask
      else (None, mask)
  end.

Definition logger_mask_iter (logger_mapping : list bool) (mask : Z) : option nat * Z :=
  logger_mask_iter_loop 8 logger_mapping mask.

Definition tdf_data_logger_from_mask (logger_mapping : list bool) (logger_mask : Z) : option nat :=
  if negb (popcount8 logger_mask =? 1) then None
  else (logger_mask_iter logger_mapping logger_mask).1.

Section tdf_logger.
Context `{NetBufApi} {L : Type} (be : tdf_backend L).
Context (TDF_REMOTE_SUPPORT : bool) (config : tdf_logger_config).

Abbreviation dev_t := (tdf_dev L).

Definition with_tdata (dev : dev_t) (d : tdf_logger_data) : dev_t := TdfDev d (td_logger dev).

Definition is_remote : bool := TDF_REMOTE_SUPPORT && (block_type config =? INFUSE_TDF_REMOTE).

Definition tdf_data_logger_block_bytes_pending (dev : dev_t) : Z := nb_len (tl_buf (td_data dev)).

Definition tdf_data_logger_block_bytes_remaining (dev : dev_t) : Z :=
  net_buf_simple_tailroom (tl_buf (td_data dev)).

(** [k_sem_take(&data->lock, K_FOREVER)] *)
Definition k_sem_take (dev : dev_t) : exec dev_t :=
  if lock_count (td_data dev) =? 0 then NoFuel
  else Done (with_tdata dev (set_lock_count (td_data dev) (lock_count (td_data dev) - 1))).

(** [k_sem_give]; the limit of the semaphore is one. *)
Definition k_sem_give (dev : dev_t) : dev_t :=
  with_tdata dev (set_lock_count (td_data dev) (Z.min 1 (lock_count (td_data dev) + 1))).

(** Empty the buffer, reserve the overhead and start it with the remote ID. *)
Definition buffer_restart (d : tdf_logger_data) : exec tdf_logger_data :=
  let state := tdf_buffer_state_reset (tdf_state d) in
  let! b := nb_reserve (ts_buf state) (block_overhead d) in
  let! b := if is_remote then nb_add_le 8 b (remote_id d) else Done b in
  Done (set_tdf_state d (TdfState (ts_time state) b)).

Definition flush_internal (dev : dev_t) (locked : bool) : exec (Z * dev_t) :=
  let buf := tl_buf (td_data dev) in
  if nb_len buf =? 0 then Done (0, dev)
  else if is_remote && (nb_len buf =? 8) then
    let! (buf, _) := nb_remove_mem buf 8 in
    let! buf := nb_add_le 8 buf (remote_id (td_data dev)) in
    Done (0, with_tdata dev (set_buf (td_data dev) buf))
  else
    let! dev := if locked then Done dev else k_sem_take dev in
    let data := td_data dev in
    let pending := nb_len buf in
    let! buf := nb_push buf (block_overhead data) in
    let! buf :=
      if full_block_write data then
        let append_len := u16 (nb_size buf - nb_len buf) in
        let! (buf, p) := nb_add buf append_len in
        Done (nb_store buf p (replicate (Z.to_nat append_len) 0xFF))
      else Done buf in
    let! (rc, logger, block) :=
      be_block_write be (td_logger dev) (block_type config) (zdrop (nb_data buf) (nb_mem buf))
        (nb_len buf) in
    let rc := if rc <? 0 then rc else pending in
    let buf := NetBuf (zwrite (nb_data buf) block (nb_mem buf)) (nb_data buf) (nb_len buf) (nb_size buf) in
    let! data := buffer_restart (set_buf data buf) in
    let dev := TdfDev data logger in
    Done (rc, if locked then dev else k_sem_give dev).

Definition tdf_data_logger_flush_dev (dev : dev_t) : exec (Z * dev_t) := flush_internal dev false.

Definition tdf_data_logger_remote_id_set (dev : dev_t) (id : Z) : exec (Z * dev_t) :=
  if negb is_remote then Done (- EINVAL, dev)
  else if remote_id (td_data dev) =? id then Done (0, dev)
  else
    let! dev := k_sem_take dev in
    let dev := with_tdata dev (set_remote_id (td_data dev) id) in
    let! (rc, dev) := flush_internal dev true in
    Done (rc, k_sem_give dev).

(** [fuel] bounds the jumps to [relog]. *)
Fixpoint log_locked (fuel : nat) (dev : dev_t) (tdf_id tdf_len tdf_num format time idx_period : Z)
  (mem : list Z) : exec (Z * dev_t) :=
  match fuel with
  | O => NoFuel
  | S fuel =>
      let! (rc, state) :=
        tdf_add_core (tdf_state (td_data dev)) tdf_id tdf_len tdf_num time idx_period mem format in
      let dev := with_tdata dev (set_tdf_state (td_data dev) state) in
      let auto_flush dev rc :=
        if net_buf_simple_tailroom (tl_buf (td_data dev)) <? 4
        then flush_internal dev true else Done (rc, dev) in
      if rc =? - ENOMEM then
        let! (rc, dev) := flush_internal dev true in
        if rc <? 0 then Done (rc, dev)
        else log_locked fuel dev tdf_id tdf_len tdf_num format time idx_period mem
      else if rc <? 0 then Done (rc, dev)
      else if negb (rc =? tdf_num) then
        let mem := zdrop (u16 tdf_len * rc) mem in
        let is_idx := format =? TDF_DATA_FORMAT_IDX_ARRAY in
        let time := if is_idx then 0 else u64 (time + u32 (idx_period * rc)) in
        let idx_period := if is_idx then u32 (idx_period + rc) else idx_period in
        let tdf_num := u8 (tdf_num - rc) in
        if Z.land format TDF_DATA_FORMAT_DIFF_PRECOMPUTED =? 0
        then log_locked fuel dev tdf_id tdf_len tdf_num format time idx_period mem
        else auto_flush dev rc
      else auto_flush dev rc
  end.

Definition tdf_data_logger_log_core_dev (fuel : nat) (dev : dev_t)
  (tdf_id tdf_len tdf_num format time idx_period : Z) (mem : list Z) : exec (Z * dev_t) :=
  if negb (be_device_is_ready be (td_logger dev)) then Done (- ENODEV, dev)
  else if nb_size (tl_buf (td_data dev)) =? 0 then Done (- ENOTCONN, dev)
  else
    let! dev := k_sem_take dev in
    let! (rc, dev) := log_locked fuel dev tdf_id tdf_len tdf_num format time idx_period mem in
    Done (if rc <? 0 then rc else 0, k_sem_give dev).

(** The re-log loop of [tdf_block_size_update].  The parser's [state] is a view of
    the same memory as the buffer that is written. *)
Fixpoint relog_loop (fuel log_fuel : nat) (dev : dev_t) (time data len size : Z) (tdf : tdf_parsed)
  : exec dev_t :=
  match fuel with
  | O => NoFuel
  | S fuel =>
      let mem := nb_mem (tl_buf (td_data dev)) in
      let! (rc, state, tdf) := tdf_parse (TdfState time (NetBuf mem data len size)) tdf in
      if rc =? 0 then
        let is_diff := format_is_diff (p_type tdf) in
        let num := if is_diff then u8 (1 + p_num tdf) else p_num tdf in
        let data_type :=
          if is_diff then Z.lor (p_type tdf) TDF_DATA_FORMAT_DIFF_PRECOMPUTED else p_type tdf in
        let! (_, dev) :=
          log_locked log_fuel dev (p_id tdf) (p_len tdf) num data_type (p_time tdf) (p_period tdf)
            (p_data tdf) in
        relog_loop fuel log_fuel dev (ts_time state) (nb_data (ts_buf state)) (nb_len (ts_buf state))
          (nb_size (ts_buf state)) tdf
      else Done dev
  end.

Definition tdf_block_size_update (fuel log_fuel : nat) (dev : dev_t) (block_size : Z) : exec dev_t :=
  let limited := Z.min block_size (tdf_buffer_max_size config) in
  let! dev := k_sem_take dev in
  let data := td_data dev in
  let buf := tl_buf data in
  let! dev :=
    if block_size =? 0 then
      Done (with_tdata dev (set_buf data (nb_set_size buf (tdf_buffer_max_size config))))
    else if nb_len buf <=? limited then
      Done (with_tdata dev (set_buf data (nb_set_size buf limited)))
    else
      let! data := buffer_restart (set_buf data (nb_set_size buf limited)) in
      relog_loop fuel log_fuel (with_tdata dev data) 0 (nb_data buf) (nb_len buf)
        (nb_data buf + nb_len buf) (TdfParsed 0 0 0 0 0 0 []) in
  Done (k_sem_give dev).

(** Parse the rest of the buffer: the last TDF and what is left. *)
Fixpoint parse_to_end (fuel : nat) (state : tdf_buffer_state) (parsed last : tdf_parsed)
  : exec (tdf_parsed * tdf_buffer_state) :=
  match fuel with
  | O => NoFuel
  | S fuel =>
      let! (rc, state, parsed) := tdf_parse state parsed in
      if rc =? 0 then parse_to_end fuel state parsed parsed else Done (last, state)
  end.

Definition no_parsed : tdf_parsed := TdfParsed 0 0 0 0 0 0 [].

Definition tdf_data_logger_valid_data_on_buffer (dev : dev_t) (ls : data_logger_state) : exec bool :=
  let data := td_data dev in
  let buf := tl_buf data in
  if negb (guard_head data =? DATA_GUARD_HEAD) || negb (guard_tail data =? DATA_GUARD_TAIL)
  then Done false
  else if tdf_buffer_max_size config <? nb_size buf then Done false
  else if negb (buf_linked data) then Done false
  else if negb (eqb (full_block_write data) (st_requires_full_block_write ls)) then Done false
  else if negb (block_overhead data =? st_block_overhead ls) then Done false
  else if nb_len buf =? 0 then Done false
  else if negb (lock_count data =? 1) then Done false
  else if is_remote && (nb_len buf <=? 8) then Done false
  else if is_remote && negb (le_get (nb_load buf (nb_data buf) 8) =? remote_id data) then Done false
  else
    let offset := if is_remote then 8 else 0 in
    let pending := nb_load buf (nb_data buf + offset) (nb_len buf - offset) in
    let! (last, state) :=
      parse_to_end (S (Z.to_nat (nb_len buf))) (tdf_parse_start pending (nb_len buf - offset))
        no_parsed no_parsed in
    Done ((p_time last =? ts_time (tdf_state data)) && (nb_len (ts_buf state) =? 0)).

(** [device] start: the buffer may hold data from before a reboot. *)
Definition tdf_data_logger_init (dev : dev_t) : exec (Z * dev_t) :=
  let ls := be_get_state be (td_logger dev) in
  let dev := TdfDev (td_data dev) (be_register_cb be (td_logger dev)) in
  let! recovered := tdf_data_logger_valid_data_on_buffer dev ls in
  let data := set_lock_count (td_data dev) 1 in
  if recovered then
    let data :=
      if st_block_size ls =? 0
      then set_buf data (nb_set_size (tl_buf data) (tdf_buffer_max_size config)) else data in
    Done (0, with_tdata dev data)
  else
    let size := if st_block_size ls =? 0 then tdf_buffer_max_size config else st_block_size ls in
    let b := net_buf_simple_init_with_data (nb_mem (tl_buf data)) size in
    let data :=
      TdfLoggerData DATA_GUARD_HEAD DATA_GUARD_TAIL 1 (TdfState (ts_time (tdf_state data)) b)
        (remote_id data) (st_requires_full_block_write ls) (st_block_overhead ls) true in
    let! data := buffer_restart data in
    Done (0, with_tdata dev data).
End tdf_logger.

(** Several loggers at once: [f] runs on every existing logger of the mask, in order. *)
Section masks.
Context {D : Type} (f : D -> exec D).

Fixpoint for_mask_loop (fuel : nat) (devs : list (option D)) (mask : Z) : exec (list (option D)) :=
  match fuel with
  | O => NoFuel
  | S fuel =>
      let '(idx, mask) := logger_mask_iter (map (fun d => match d with Some _ => true | None => false end) devs) mask in
      match idx with
      | None => Done devs
      | Some i =>
          match nth i devs None with
          | None => Fault
          | Some d =>
              let! d := f d in
              for_mask_loop fuel (<[i := Some d]> devs) mask
          end
      end
  end.

(** Eight bits, and the final iteration. *)
Definition for_mask (devs : list (option D)) (mask : Z) : exec (list (option D)) :=
  for_mask_loop 9 devs mask.
End masks.

Definition tdf_data_logger_flush `{NetBufApi} {L} (be : tdf_backend L) remote
  (devs : list (option (tdf_logger_config * tdf_dev L))) (mask : Z) :=
  for_mask (fun '(config, dev) =>
    let! (_, dev) := tdf_data_logger_flush_dev be remote config dev in Done (config, dev)) devs mask.

Definition tdf_data_logger_log_core `{NetBufApi} {L} (be : tdf_backend L) remote (fuel : nat)
  (devs : list (option (tdf_logger_config * tdf_dev L))) (mask tdf_id tdf_len tdf_num format time idx_period : Z)
  (data : list Z) :=
  for_mask (fun '(config, dev) =>
    let! (_, dev) := tdf_data_logger_log_core_dev be remote config fuel dev tdf_id tdf_len tdf_num format
                       time idx_period data in Done (config, dev)) devs mask.
