(* ===== verification/TdfLoggerSpec.v ===== *)
(** * What the TDF data logger promises

    [TdfSink] is the contract of the logger below: a write that does not fail adds
    the block, possibly padded with erase values.  Against it, logging splits a
    request over as many blocks as it needs and loses nothing: the TDFs of the
    blocks written and of the buffer are those of before followed by the request's
    samples. *)

From stdpp Require Import base tactics numbers list.
From Stdlib Require Import ZArith Lia.
From S2P Require Import Prelude NetBuf Epoch TdfDiffs Tdf TdfWire TdfEncode TdfDecode TdfRoundtrip.
From S2P Require Import DataLogger TdfLogger.

Local Open Scope Z_scope.
Local Open Scope infuse_scope.

(** ** Blocks of TDFs *)

Definition block_padding (pad : list Z) : Prop :=
  exists n v, pad = replicate n v /\ (v = 0x00 \/ v = 0xFF).

(** The payload of a block is a sequence of TDFs and padding. *)
Definition block_holds (payload : list Z) (ps : list tdf_parsed) : Prop :=
  exists bytes pad t, payload = bytes ++ pad /\ block_padding pad /\ wire_seq 0 bytes ps t.

Lemma wire_seq_app t bytes ps t1 bytes' ps' t2 :
  wire_seq t bytes ps t1 -> wire_seq t1 bytes' ps' t2 -> wire_seq t (bytes ++ bytes') (ps ++ ps') t2.
Proof.
  induction 1 as [|t time delta th hdr id len n period is_idx is_diff fmt data bytes ps t' Hts Ht Htime
    Hid Hok Hw IH]; intros H2; [done|]. rewrite <- app_assoc. cbn [app].
  eapply wire_seq_cons; try eassumption. by apply IH.
Qed.

Section parsing.
Context `{NetBufSpec}.

(** Padding is not a TDF: its identifier would be zero or 4095. *)
Lemma tdf_parse_padding t b pre pad post p :
  block_padding pad -> nb_repr b pre pad post ->
  let rc := if zlen pad <=? 3 then - ENOMEM else - EINVAL in
  exists st p', tdf_parse (TdfState t b) p = Done (rc, st, p').
Proof.
  intros (n & v & -> & Hv) Hr. cbv zeta. unfold tdf_parse. cbn [ts_buf]. rewrite (nb_len_repr _ _ _ _ Hr).
  change sizeof_tdf_header with 3. destruct (Z.leb_spec (zlen (replicate n v)) 3) as [|Hgt]; [by eexists _, _|].
  assert (Hn : (3 < n)%nat) by (unfold zlen in Hgt; rewrite length_replicate in Hgt; lia).
  replace n with (3 + (n - 3))%nat in Hr by lia. rewrite replicate_add in Hr.
  destruct (nb_pull_mem_repr b pre _ _ post 3 Hr eq_refl) as (b' & -> & Hr' & _). cbn [exec_bind].
  rewrite (nb_load_mid b' pre [v; v] (v :: replicate (n - 3) v ++ post)); try done.
  2: { destruct Hr' as (-> & _). cbn [replicate app]. by rewrite <- !app_assoc. }
  cbn [p_id]. destruct Hv as [-> | ->]; by eexists _, _.
Qed.

(** A block is parsed into the TDFs it holds. *)
Lemma block_holds_parse payload ps p :
  block_holds payload ps ->
  exists rc, tdf_parse_all (S (length ps)) (tdf_parse_start payload (zlen payload)) p = Done (ps, rc) /\
    (rc = - ENOMEM \/ rc = - EINVAL).
Proof.
  intros (bytes & pad & t & -> & Hpad & Hw). unfold tdf_parse_start. rewrite init_with_data_spec.
  eexists. split.
  - eapply (tdf_parse_all_tail 0 bytes ps t _ [] pad []); [done|apply nb_repr_init|..].
    2: { intros b pre q Hr. eapply tdf_parse_padding; eassumption. }
    by destruct (_ <=? 3).
  - destruct (_ <=? 3); auto.
Qed.

(** The time base is the last time of the sequence. *)
Lemma wire_seq_time t bytes ps p t' :
  wire_seq t bytes (ps ++ [p]) t' -> p_time p <> 0 -> t' = p_time p.
Proof.
  remember (ps ++ [p]) as qs eqn:Hqs. intros Hw. revert ps Hqs.
  induction Hw as [t|t time delta th hdr id len n period is_idx is_diff fmt data bytes qs t' Hts Ht Htime
    Hid Hok Hw IH]; intros ps Hqs Hne; [by destruct ps|].
  destruct ps as [|q ps]; injection Hqs as Hp Hqs; [|by apply (IH ps)].
  subst p qs. cbn [tdf_decoded p_time] in *. inversion Hw; subst.
  by replace (time =? 0) with false by lia.
Qed.

Lemma wire_seq_length t bytes ps t' : wire_seq t bytes ps t' -> (length ps <= length bytes)%nat.
Proof.
  induction 1; [done|]. rewrite length_app. unfold tdf_wire, tdf_header_bytes. cbn [le_put app length]. lia.
Qed.

Lemma parse_to_end_wire fuel t bytes ps t' b pre post p p0 :
  wire_seq t bytes ps t' -> nb_repr b pre bytes post -> (length ps < fuel)%nat ->
  exists st, parse_to_end fuel (TdfState t b) p p0 = Done (default p0 (last ps), st) /\
    nb_len (ts_buf st) = 0.
Proof.
  intros Hw. revert fuel b pre p p0. induction Hw as [t|t time delta th hdr id len n period is_idx is_diff
    fmt data bytes ps t' Hts Ht Htime Hid Hok Hw IH]; intros fuel b pre p p0 Hr Hf;
    (destruct fuel as [|fuel]; [cbn in Hf; lia|]); cbn [parse_to_end].
  - unfold tdf_parse. cbn [ts_buf]. rewrite (nb_len_repr _ _ _ _ Hr). cbn.
    eexists. split; [done|]. apply (nb_len_repr _ _ _ _ Hr).
  - destruct (tdf_parse_wire (TdfState t b) p hdr id len n time delta th period is_idx is_diff
                false fmt data pre bytes post Hts Ht Htime Hid Hok Hr) as (b' & -> & Hr' & _).
    cbn [exec_bind ts_time]. change (0 =? 0) with true. cbv iota. cbn [length] in Hf.
    destruct (IH fuel b' _ (tdf_decoded id len n time period is_idx is_diff false fmt data)
      (tdf_decoded id len n time period is_idx is_diff false fmt data) Hr' ltac:(lia)) as (st & -> & Hz).
    exists st. split; [|done]. do 2 f_equal. rewrite last_cons. by destruct (last ps).
Qed.
End parsing.

(** ** Splitting a request *)

(** What is left of a request after [rc] of its samples. *)
Definition req_advance (r : tdf_req) (rc : Z) : tdf_req :=
  let is_idx := rq_format r =? TDF_DATA_FORMAT_IDX_ARRAY in
  TdfReq (rq_id r) (rq_len r) (rq_num r - rc)
    (if is_idx then 0 else rq_time r + rq_period r * rc)
    (if is_idx then rq_period r + rc else rq_period r)
    (zdrop (rq_len r * rc) (rq_data r)) (rq_format r).

(** The times and sample indices of all parts are representable. *)
Definition split_ok (r : tdf_req) : Prop :=
  if rq_format r =? TDF_DATA_FORMAT_IDX_ARRAY then rq_period r + rq_num r < 2 ^ 32
  else rq_period r * rq_num r < 2 ^ 32 /\ rq_time r + rq_period r * rq_num r < 2 ^ 48.

(** A request of a logger user: raw samples with representable times, and not an
    array of the shape that overflows. *)
Definition log_req_ok (r : tdf_req) : Prop :=
  req_ok r /\ split_ok r /\
  (rq_len r = 2 -> rq_num r <= 1 \/ rq_format r = TDF_DATA_FORMAT_IDX_ARRAY).

Definition req_valid (r : tdf_req) : Prop :=
  tdf_args_valid (rq_id r) (rq_len r) (rq_num r) (rq_period r) (rq_format r).

(** An empty buffer of [room] bytes has room for every header and one sample, or
    the size check of the encoder refuses the request.  Between the two the encoder
    reports a full buffer whatever the buffer holds. *)
Definition req_sized (room : Z) (r : tdf_req) : Prop :=
  12 + rq_len r <= room \/ room < (if rq_time r =? 0 then 3 else 9) + rq_len r.

(** The TDFs [ps] are consecutive parts of the request. *)
Inductive split_log : tdf_req -> list tdf_parsed -> Prop :=
| split_last r p : tdf_faithful r (rq_num r) p -> split_log r [p]
| split_more r rc p ps :
    tdf_faithful r rc p -> rc < rq_num r -> split_log (req_advance r rc) ps -> split_log r (p :: ps).

(** All samples, in order. *)
Definition parsed_samples (p : tdf_parsed) : list (Z + list Z) :=
  map (fun i => tdf_parsed_sample p (Z.of_nat i)) (seq 0 (Z.to_nat (tdf_parsed_count p))).

Definition req_samples (r : tdf_req) : list (list Z) :=
  map (fun i => sample (rq_len r) (rq_data r) (Z.of_nat i)) (seq 0 (Z.to_nat (rq_num r))).

Lemma faithful_parsed_samples r rc p :
  tdf_faithful r rc p -> parsed_samples p = map inr (take (Z.to_nat rc) (req_samples r)).
Proof.
  intros [_ _ _ Hc Hrc Hs _]. unfold parsed_samples, req_samples. rewrite Hc, firstn_map, map_map.
  rewrite take_seq, Nat.min_l by lia. apply map_ext_in. intros i Hi. apply in_seq in Hi. apply Hs. lia.
Qed.

Lemma req_advance_samples r rc :
  0 <= rc <= rq_num r -> 0 <= rq_len r -> req_samples (req_advance r rc) = drop (Z.to_nat rc) (req_samples r).
Proof.
  intros Hrc Hl. unfold req_samples. cbn [req_advance rq_len rq_data rq_num].
  rewrite skipn_map, drop_seq.
  replace (Z.to_nat (rq_num r) - Z.to_nat rc)%nat with (Z.to_nat (rq_num r - rc)) by lia.
  replace (seq (0 + Z.to_nat rc) _) with (map (Nat.add (Z.to_nat rc)) (seq 0 (Z.to_nat (rq_num r - rc))))
    by (rewrite (fmap_add_seq (Z.to_nat rc) 0); f_equal; lia).
  rewrite map_map.
  apply map_ext. intros i. unfold sample. rewrite zdrop_zdrop by nia. do 2 f_equal. nia.
Qed.

Lemma split_samples r ps :
  0 <= rq_len r -> split_log r ps -> flat_map parsed_samples ps = map inr (req_samples r).
Proof.
  intros Hl Hs. induction Hs as [r p Hf|r rc p ps Hf Hlt Hs IH]; cbn [flat_map].
  - rewrite app_nil_r, (faithful_parsed_samples _ _ _ Hf), take_ge; [done|].
    unfold req_samples. by rewrite length_map, length_seq.
  - rewrite (faithful_parsed_samples _ _ _ Hf), (IH Hl), <- map_app. f_equal.
    pose proof (faithful_rc _ _ _ Hf). rewrite req_advance_samples by lia. apply take_drop.
Qed.

Lemma req_advance_ok r rc :
  log_req_ok r -> req_valid r -> 1 <= rc < rq_num r ->
  log_req_ok (req_advance r rc) /\ req_valid (req_advance r rc).
Proof.
  intros (([Hid Hlen Hnum Htime Hper Hfmt Hdata] & Ht48 & Hb & Hpre) & Hsp & H2) [? ? ? ? ? ?] Hrc.
  unfold log_req_ok, req_valid, req_ok, split_ok in *. cbn [req_advance rq_id rq_len rq_num rq_time rq_period rq_data rq_format].
  unfold in_u in *. rewrite Hpre in *.
  assert (Hd : rq_len r * rq_num r <= zlen (rq_data r)).
  { unfold data_needed in Hdata. by rewrite andb_false_r in Hdata. }
  assert (0 <= rq_len r * rc <= zlen (rq_data r)) by nia.
  assert (0 <= rq_period r * rc <= rq_period r * rq_num r) by nia.
  split; [split; [split; [|split; [|split]]|split]|]; try done.
  - destruct (_ =? TDF_DATA_FORMAT_IDX_ARRAY); split; try done; unfold in_u; rewrite ?Hpre; try lia;
      unfold data_needed; rewrite andb_false_r, zlen_zdrop by lia; nia.
  - destruct (_ =? TDF_DATA_FORMAT_IDX_ARRAY); lia.
  - by apply bytes_ok_zdrop.
  - destruct (_ =? TDF_DATA_FORMAT_IDX_ARRAY); [lia|]. nia.
  - intros Hl. destruct (H2 Hl); [lia|by right].
  - destruct (rq_format r =? TDF_DATA_FORMAT_IDX_ARRAY) eqn:E; split; try done; try lia.
    intros Hn. by rewrite (fmt_idx_base _ E) in Hn.
Qed.

(** ** The logger below *)

(** [sink l bs]: the payloads [bs] have been written, oldest first.  [overhead] bytes
    of each block belong to the logger, and a block has [cap] bytes. *)
Class TdfSink {L : Type} (be : tdf_backend L) (overhead cap : Z)
  (sink : L -> list (list Z) -> Prop) : Prop := {
  sink_overhead : 0 <= overhead;
  sink_write l bs type mem len :
    sink l bs -> overhead < len <= cap -> cap <= zlen mem ->
    exists rc l' mem', be_block_write be l type mem len = Done (rc, l', mem') /\
      zlen mem' = zlen mem /\
      (0 <= rc -> exists n v, (v = 0x00 \/ v = 0xFF) /\ (len = cap -> n = 0%nat) /\
         sink l' (bs ++ [zdrop overhead (ztake len mem) ++ replicate n v]));
}.

Section logger.
Context `{NetBufSpec} {L : Type} (be : tdf_backend L) (overhead cap : Z).
Context (sink : L -> list (list Z) -> Prop) `{!TdfSink be overhead cap sink}.
Context (remote : bool) (config : tdf_logger_config) (Hremote : is_remote remote config = false).

(** The buffer holds the TDFs [ps]. *)
Record tl_inv (d : tdf_logger_data) (ps : list tdf_parsed) : Prop := {
  tl_overhead : block_overhead d = overhead;
  tl_state : tdf_state_ok (tdf_state d);
  tl_data : nb_data (tl_buf d) = overhead;
  tl_size : nb_size (tl_buf d) = cap;
  tl_wire : wire_seq 0 (nb_contents (tl_buf d)) ps (ts_time (tdf_state d));
}.

Lemma buffer_restart_ok d :
  block_overhead d = overhead -> nb_size (tl_buf d) = cap -> 0 <= overhead <= cap -> cap < 2 ^ 16 ->
  cap <= zlen (nb_mem (tl_buf d)) ->
  exists d', buffer_restart remote config d = Done d' /\ tl_inv d' [] /\ nb_len (tl_buf d') = 0 /\
    full_block_write d' = full_block_write d.
Proof.
  intros Ho Hs Hoc Hcap Hm. unfold buffer_restart, tdf_buffer_state_reset. rewrite reset_spec.
  cbn [ts_buf ts_time]. unfold tl_buf in *. rewrite Hs, Ho. unfold nb_reserve. cbn [nb_len nb_size].
  replace ((0 =? 0) && (0 <=? overhead) && (overhead <=? cap)) with true by lia.
  rewrite reserve_spec by (cbn [nb_mem nb_data nb_len nb_size]; unfold nb_wf; cbn; lia).
  rewrite Hremote. cbn [exec_bind nb_mem nb_size]. eexists. split; [done|]. split; [|done].
  split; cbn; try done.
  - unfold tdf_state_ok, nb_wf, in_u. cbn. lia.
  - unfold nb_contents. cbn. constructor.
Qed.

(** A block holds what the buffer held. *)
Lemma flush_holds d ps mem0 n v :
  tl_inv d ps -> nb_len (tl_buf d) <> 0 -> (v = 0 \/ v = 255) ->
  ztake (overhead + nb_len (tl_buf d)) mem0 =
    ztake (overhead + nb_len (tl_buf d)) (nb_mem (tl_buf d)) ->
  block_holds (zdrop overhead (ztake (overhead + nb_len (tl_buf d)) mem0) ++ replicate n v) ps.
Proof.
  intros [Ho ((Hd & Hl & Hs & Hm) & _) Hdo Hsz Hw] Hne Hv ->. fold (tl_buf d) in *.
  exists (nb_contents (tl_buf d)), (replicate n v), (ts_time (tdf_state d)).
  split; [|split; [by exists n, v|done]]. f_equal. unfold nb_contents.
  rewrite zdrop_ztake by lia. rewrite Hdo. f_equal. lia.
Qed.

Lemma flush_internal_ok dev ps bs :
  tl_inv (td_data dev) ps -> sink (td_logger dev) bs -> nb_len (tl_buf (td_data dev)) <> 0 ->
  exists rc dev', flush_internal be remote config dev true = Done (rc, dev') /\ rc <> 0 /\
    tl_inv (td_data dev') [] /\ nb_len (tl_buf (td_data dev')) = 0 /\
    (0 <= rc -> exists payload, block_holds payload ps /\ sink (td_logger dev') (bs ++ [payload])).
Proof.
  intros Hinv Hsink Hne. pose proof Hinv as [Ho ((Hd & Hl & Hs & Hm) & Hs16 & _) Hdo Hsz Hw].
  fold (tl_buf (td_data dev)) in *. set (d := td_data dev) in *. pose proof sink_overhead as Hov.
  unfold flush_internal. fold d. replace (nb_len (tl_buf d) =? 0) with false by lia.
  rewrite Hremote. cbn [andb exec_bind]. fold d. unfold nb_push. rewrite Ho, Hdo.
  replace ((0 <=? overhead) && (overhead <=? overhead)) with true by lia.
  rewrite push_spec by (unfold nb_wf; lia). rewrite Hdo, Z.sub_diag. cbn [exec_bind].
  set (len := nb_len (tl_buf d)) in *. set (mem := nb_mem (tl_buf d)) in *.
  set (fill := if full_block_write d then _ else _).
  assert (Hfill : exists mem' n, fill = Done (NetBuf mem' 0 (overhead + len + Z.of_nat n) cap) /\
    overhead + len + Z.of_nat n <= cap /\ (n = 0%nat \/ overhead + len + Z.of_nat n = cap) /\
    zlen mem' = zlen mem /\
    mem' = ztake (overhead + len) mem ++ replicate n 0xFF ++ zdrop (overhead + len + Z.of_nat n) mem).
  { unfold fill. rewrite Hsz. destruct (full_block_write d); [|exists mem, 0%nat].
    2: { cbn [replicate app]. rewrite Z.add_0_r, ztake_zdrop, (Z.add_comm len). split_and!; try done; lia. }
    cbn [nb_size nb_len]. rewrite uwrap_small by lia. unfold nb_add.
    rewrite tailroom_spec by (unfold nb_wf; cbn; lia). unfold nb_room. cbn [nb_size nb_len nb_data].
    replace ((0 <=? _) && _) with true by lia. rewrite add_spec by (unfold nb_wf, nb_room; cbn; lia).
    cbn [exec_bind nb_size nb_len nb_data nb_mem nb_store]. unfold nb_store.
    cbn [nb_size nb_len nb_data nb_mem].
    eexists _, (Z.to_nat (cap - (len + overhead))). rewrite Z2Nat.id by lia.
    rewrite !Z.add_0_l. split; [do 2 f_equal; lia|]. split; [lia|]. split; [lia|].
    assert (Hz : zlen (replicate (Z.to_nat (cap - (len + overhead))) 255) = cap - (len + overhead))
      by (unfold zlen; rewrite length_replicate; lia).
    split; [rewrite zlen_zwrite; lia|]. unfold zwrite. rewrite Hz. do 2 f_equal; [lia|]. f_equal. lia. }
  destruct Hfill as (mem' & n & -> & Hn & Hn0 & Hzm & Hmem'). cbn [exec_bind nb_data nb_mem nb_len nb_size].
  rewrite (zdrop_0 0) by lia.
  destruct (sink_write (be := be) (overhead := overhead) (cap := cap) (td_logger dev) bs
    (block_type config) mem' (overhead + len + Z.of_nat n) Hsink ltac:(lia) ltac:(lia)) as (rc & l' & mem2 & -> & Hzm2 & Hok). cbn [exec_bind].
  set (d2 := set_buf d _).
  destruct (buffer_restart_ok d2) as (d3 & -> & Hinv3 & Hlen3 & _); try done; try lia.
  { unfold d2. cbn. rewrite zlen_zwrite; lia. }
  cbn [exec_bind]. eexists _, _. split; [done|]. split; [destruct (Z.ltb_spec rc 0); lia|].
  split; [done|]. split; [done|]. destruct (Z.ltb_spec rc 0) as [|Hrc]; [lia|]. intros _.
  destruct (Hok Hrc) as (m & v & Hv & Hfull & Hsink'). eexists. split; [|exact Hsink'].
  assert (Ht : ztake (overhead + len + Z.of_nat n) mem' = ztake (overhead + len) mem ++ replicate n 255).
  { rewrite Hmem', app_assoc. apply ztake_app. rewrite zlen_app, zlen_ztake by lia.
    unfold zlen. rewrite length_replicate. lia. }
  rewrite Ht, zdrop_app_le by (rewrite zlen_ztake; lia). rewrite <- app_assoc.
  destruct Hn0 as [->|Hfn]; [|rewrite (Hfull Hfn), app_nil_r].
  - by apply (flush_holds d).
  - apply (flush_holds d); auto.
Qed.

(** ** Logging *)

(** One call of the encoder: the buffer is too full, or it gets the first samples. *)
Lemma tl_add d ps r :
  tl_inv d ps -> log_req_ok r -> req_valid r -> 12 + rq_len r <= cap - overhead ->
  let res := tdf_add_core (tdf_state d) (rq_id r) (rq_len r) (rq_num r) (rq_time r) (rq_period r)
               (rq_data r) (rq_format r) in
  (res = Done (- ENOMEM, tdf_state d) /\ nb_len (tl_buf d) <> 0) \/
  exists rc st p, res = Done (rc, st) /\ tdf_faithful r rc p /\
    tl_inv (set_tdf_state d st) (ps ++ [p]) /\ nb_len (ts_buf st) <> 0.
Proof.
  intros [Ho Hst Hdo Hsz Hw] (Hreq & _ & H2) Hval Hcap. cbv zeta. fold (tl_buf d) in *.
  pose proof Hreq as (Hargs & Ht48 & _ & Hpre).
  destruct (tdf_add_core_ok (tdf_state d) (rq_id r) (rq_len r) (rq_num r) (rq_time r) (rq_period r)
    (rq_data r) (rq_format r) Hst Hargs) as [(_ & Hov)|[(rc & -> & Hrc)|(rc & st & is_diff & Hd & Happ)]].
  - unfold reclaim_overflow in Hov. destruct (timestamp_select _ _) as [[? ?] ?].
    destruct (Z.eqb_spec (rq_len r) 2) as [Hl|]; [|done].
    destruct (H2 Hl) as [|Hi]; [lia|]. rewrite Hi, andb_false_r in Hov. done.
  - left. unfold tdf_refused, nb_room in Hrc. fold (tl_buf d) in Hrc. rewrite Hsz, Hdo in Hrc.
    destruct Hrc as [(_ & ?)|[?|(-> & Hr)]]; [done|lia|]. split; [done|lia].
  - right. destruct (decoded_faithful r _ st rc is_diff Hreq Happ) as (Hok & Hfa).
    eexists rc, st, _. split; [exact Hd|]. split; [exact Hfa|].
    pose proof (app_contents _ _ _ _ _ _ _ _ _ _ _ Happ) as Hc.
    destruct (timestamp_select (ts_time (tdf_state d)) (rq_time r)) as [[delta th] hdr] eqn:Hts.
    rewrite Hpre in Hc. split; [split|].
    + done.
    + by apply (tdf_state_ok_appended _ _ _ _ _ _ _ _ _ _ _ Hst Ht48 Happ).
    + unfold tl_buf. cbn [set_tdf_state tdf_state]. rewrite <- Hdo. apply Happ.
    + unfold tl_buf. cbn [set_tdf_state tdf_state]. rewrite <- Hsz. apply Happ.
    + unfold tl_buf. cbn [set_tdf_state tdf_state]. rewrite Hc. eapply wire_seq_app; [exact Hw|].
      rewrite <- (app_nil_r (tdf_wire _ _ _ _ _ _ _ _ _ _ _ _)).
      eapply wire_seq_cons; [exact Hts|apply Hst|done|apply Happ|exact Hok|].
      rewrite (app_time _ _ _ _ _ _ _ _ _ _ _ Happ). constructor.
    + intros Hz. pose proof (app_wf _ _ _ _ _ _ _ _ _ _ _ Happ) as (Ha & _ & Hb & Hc').
      assert (Hnil : nb_contents (ts_buf st) = []) by (unfold nb_contents; rewrite Hz; by apply ztake_0).
      rewrite Hnil in Hc. symmetry in Hc. apply app_eq_nil in Hc as [_ Hc].
      unfold tdf_wire, tdf_header_bytes in Hc. cbn [le_put app] in Hc. done.
Qed.

(** Payloads written since, the TDFs they hold and those left in the buffer are the
    TDFs [ps] from before and [qs]. *)
Definition logged_as (dev' : tdf_dev L) (bs : list (list Z)) (ps qs : list tdf_parsed) : Prop :=
  exists payloads pss ps', sink (td_logger dev') (bs ++ payloads) /\ Forall2 block_holds payloads pss /\
    tl_inv (td_data dev') ps' /\ concat pss ++ ps' = ps ++ qs.

Lemma logged_as_flush dev' bs ps payload qs :
  block_holds payload ps -> logged_as dev' (bs ++ [payload]) [] qs -> logged_as dev' bs ps qs.
Proof.
  intros Hb (pls & pss & ps' & Hs & Hall & Hinv & Heq). exists (payload :: pls), (ps :: pss), ps'.
  rewrite <- app_assoc in Hs. split; [done|]. split; [by constructor|]. split; [done|].
  cbn [concat]. by rewrite <- app_assoc, Heq.
Qed.

Lemma logged_as_more dev' bs ps p qs :
  logged_as dev' bs (ps ++ [p]) qs -> logged_as dev' bs ps (p :: qs).
Proof.
  intros (pls & pss & ps' & Hs & Hall & Hinv & Heq). exists pls, pss, ps'. rewrite <- app_assoc in Heq. done.
Qed.

(** A block that is nearly full after the last sample is written at once. *)
Lemma auto_flush_ok dev ps p bs n :
  tl_inv (td_data dev) (ps ++ [p]) -> sink (td_logger dev) bs -> nb_len (tl_buf (td_data dev)) <> 0 ->
  exists rc dev',
    (if net_buf_simple_tailroom (tl_buf (td_data dev)) <? 4
     then flush_internal be remote config dev true else Done (n, dev)) = Done (rc, dev') /\
    (exists ps', tl_inv (td_data dev') ps') /\ (0 <= rc -> logged_as dev' bs ps [p]).
Proof.
  intros Hinv Hsink Hne.
  assert (Hdone : logged_as dev bs (ps ++ [p]) []).
  { exists [], [], (ps ++ [p]). rewrite !app_nil_r. split_and!; try done. }
  destruct (_ <? 4).
  2: { eexists n, dev. split; [done|]. split; [by eexists|]. intros _. by apply logged_as_more. }
  destruct (flush_internal_ok dev (ps ++ [p]) bs Hinv Hsink Hne) as (rc & dev2 & -> & _ & Hinv2 & _ & Hok).
  exists rc, dev2. split; [done|]. split; [by eexists|]. intros Hge0.
  apply logged_as_more. destruct (Hok Hge0) as (payload & Hb & Hs2). eapply logged_as_flush; [done|].
  exists [], [], []. rewrite app_nil_r. by split_and!.
Qed.

Lemma log_locked_ok fuel dev ps bs r :
  tl_inv (td_data dev) ps -> sink (td_logger dev) bs -> log_req_ok r -> req_valid r ->
  12 + rq_len r <= cap - overhead ->
  2 * rq_num r - (if nb_len (tl_buf (td_data dev)) =? 0 then 1 else 0) <= Z.of_nat fuel ->
  exists rc dev',
    log_locked be remote config fuel dev (rq_id r) (rq_len r) (rq_num r) (rq_format r) (rq_time r)
      (rq_period r) (rq_data r) = Done (rc, dev') /\
    (exists ps', tl_inv (td_data dev') ps') /\
    (0 <= rc -> exists qs, split_log r qs /\ logged_as dev' bs ps qs).
Proof.
  revert dev ps bs r. induction fuel as [|fuel IH]; intros dev ps bs r Hinv Hsink Hr Hval Hcap Hfuel.
  { destruct Hval as [_ _ Hn _ _ _]. destruct (_ =? 0); lia. }
  pose proof Hr as (([_ Hlen Hnum Htime Hper _ _] & Ht48 & _ & Hpre) & Hsp & _).
  pose proof (valid_num _ _ _ _ _ Hval) as Hn.
  unfold in_u in *. cbn [log_locked].
  destruct (tl_add _ _ _ Hinv Hr Hval Hcap) as [(-> & Hne)|(rc & st & p & -> & Hfa & Hinv' & Hne)];
    cbn [exec_bind].
  - change (- ENOMEM =? - ENOMEM) with true. cbv iota.
    set (dev1 := with_tdata dev _).
    assert (Hinv1 : tl_inv (td_data dev1) ps) by (destruct Hinv; by split).
    destruct (flush_internal_ok dev1 ps bs Hinv1 Hsink Hne) as (rc & dev2 & -> & Hrc & Hinv2 & Hl2 & Hok).
    cbn [exec_bind]. destruct (Z.ltb_spec rc 0) as [Hneg|Hpos].
    { eexists rc, dev2. split; [done|]. split; [by eexists|]. lia. }
    destruct (Hok Hpos) as (payload & Hb & Hs2).
    destruct (IH dev2 [] (bs ++ [payload]) r Hinv2 Hs2 Hr Hval Hcap) as (rc3 & dev3 & -> & Hi3 & H3).
    { rewrite Hl2. replace (nb_len _ =? 0) with false in Hfuel by lia. cbn. lia. }
    exists rc3, dev3. split; [done|]. split; [done|]. intros Hge0. destruct (H3 Hge0) as (qs & Hq & Hl).
    exists qs. split; [done|]. by eapply logged_as_flush.
  - pose proof (faithful_rc _ _ _ Hfa) as Hrc.
    replace (rc =? - ENOMEM) with false by (unfold ENOMEM; lia).
    replace (rc <? 0) with false by lia. set (dev1 := with_tdata dev _).
    destruct (Z.eqb_spec rc (rq_num r)) as [->|Hlt]; cbn [negb].
    + destruct (auto_flush_ok dev1 ps p bs (rq_num r) Hinv' Hsink Hne) as (rc & dev2 & Hd & Hi2 & Hok).
      exists rc, dev2. split; [exact Hd|]. split; [done|]. intros Hge0. exists [p].
      split; [by constructor|by apply Hok].
    + unfold fmt_precomputed in Hpre. apply negb_false_iff in Hpre. rewrite Hpre.
      destruct (req_advance_ok r rc Hr Hval ltac:(lia)) as [Hadv Hval'].
      destruct (IH dev1 (ps ++ [p]) bs (req_advance r rc) Hinv' Hsink Hadv Hval' Hcap) as (rc3 & dev3 & Hd & Hi3 & H3).
      { cbn [req_advance rq_num]. replace (nb_len (tl_buf (td_data dev1)) =? 0) with false by (symmetry; by apply Z.eqb_neq).
        destruct (_ =? 0) in Hfuel; lia. }
      cbn [req_advance rq_id rq_len rq_num rq_time rq_period rq_data rq_format] in Hd. unfold split_ok in Hsp.
      assert (rq_period r * rc <= rq_period r * rq_num r) by nia.
      assert (0 <= rq_period r * rc) by nia.
      exists rc3, dev3. split; [rewrite <- Hd; clear Hd IH|split; [done|]].
      * rewrite (uwrap_small 16 (rq_len r)), (uwrap_small 8 (rq_num r - rc)) by lia.
        destruct (rq_format r =? TDF_DATA_FORMAT_IDX_ARRAY).
        -- by rewrite (uwrap_small 32 (rq_period r + rc)) by lia.
        -- by rewrite (uwrap_small 32 (rq_period r * rc)), (uwrap_small 64 (rq_time r + _)) by lia.
      * intros Hge0. destruct (H3 Hge0) as (qs & Hq & Hl). exists (p :: qs).
        split; [eapply split_more; [exact Hfa|lia|exact Hq]|]. by apply logged_as_more.
Qed.

(** A request that is invalid, or too large for an empty buffer, is refused at once. *)
Lemma log_locked_refused fuel dev ps r :
  tl_inv (td_data dev) ps -> req_ok r ->
  ~ req_valid r \/ cap - overhead < (if rq_time r =? 0 then 3 else 9) + rq_len r ->
  exists rc, rc < 0 /\
    log_locked be remote config (S fuel) dev (rq_id r) (rq_len r) (rq_num r) (rq_format r) (rq_time r)
      (rq_period r) (rq_data r) = Done (rc, with_tdata dev (set_tdf_state (td_data dev) (tdf_state (td_data dev)))).
Proof.
  intros [_ Hst Hdo Hsz _] (Hargs & _) Hbad. cbn [log_locked].
  destruct (tdf_add_core_rejects (tdf_state (td_data dev)) (rq_id r) (rq_len r) (rq_num r) (rq_time r)
    (rq_period r) (rq_data r) (rq_format r) Hst Hargs) as (rc & -> & Hrc).
  { fold (tl_buf (td_data dev)). by rewrite Hsz, Hdo. }
  cbn [exec_bind]. exists rc. unfold EINVAL, ENOSPC in Hrc. split; [lia|].
  replace (rc =? - ENOMEM) with false by (unfold ENOMEM; lia). by replace (rc <? 0) with true by lia.
Qed.

(** The lock is held throughout. *)
Lemma flush_internal_lock dev rc dev' :
  flush_internal be remote config dev true = Done (rc, dev') ->
  lock_count (td_data dev') = lock_count (td_data dev).
Proof.
  unfold flush_internal. rewrite Hremote. cbn [andb exec_bind].
  destruct (nb_len _ =? 0); [by intros [= _ <-]|]. intros Hd.
  inv_exec Hd. destruct r1 as [[rc1 l] block]. inv_exec Hd. injection Hd as _ <-.
  unfold buffer_restart in Hr2. rewrite Hremote in Hr2. inv_exec Hr2. by injection Hr2 as <-.
Qed.

Lemma log_locked_lock fuel dev id len num fmt time period mem rc dev' :
  log_locked be remote config fuel dev id len num fmt time period mem = Done (rc, dev') ->
  lock_count (td_data dev') = lock_count (td_data dev).
Proof.
  revert dev num time period mem. induction fuel as [|fuel IH]; intros dev num time period mem; [done|].
  cbn [log_locked]. intros Hd. inv_exec Hd. destruct r as [rc1 st].
  set (dev1 := with_tdata dev _) in Hd. change (lock_count (td_data dev)) with (lock_count (td_data dev1)).
  destruct (rc1 =? - ENOMEM).
  { inv_exec Hd. destruct r as [rc2 dev2]. apply flush_internal_lock in Hr0 as <-.
    destruct (rc2 <? 0); [by injection Hd as _ <-|by apply IH in Hd]. }
  destruct (rc1 <? 0); [by injection Hd as _ <-|].
  assert (Haf : forall rc2, (if net_buf_simple_tailroom (tl_buf (td_data dev1)) <? 4
    then flush_internal be remote config dev1 true else Done (rc2, dev1)) = Done (rc, dev') ->
    lock_count (td_data dev') = lock_count (td_data dev1)).
  { intros rc2. destruct (_ <? 4); [apply flush_internal_lock|by intros [= _ <-]]. }
  destruct (negb _); [|by eapply Haf]. destruct (_ =? 0); [by apply IH in Hd|by eapply Haf].
Qed.

(** Requests one after the other, up to the first error.  Twice the 255 samples of the
    largest request bounds the iterations of one call. *)
Definition log_fuel : nat := 510.

Fixpoint log_all (dev : tdf_dev L) (reqs : list tdf_req) : exec (Z * tdf_dev L) :=
  match reqs with
  | [] => Done (0, dev)
  | r :: reqs =>
      let! (rc, dev) := tdf_data_logger_log_core_dev be remote config log_fuel dev (rq_id r) (rq_len r)
        (rq_num r) (rq_format r) (rq_time r) (rq_period r) (rq_data r) in
      if rc <? 0 then Done (rc, dev) else log_all dev reqs
  end.

Context (Hready : forall l bs, sink l bs -> be_device_is_ready be l = true).

Lemma log_core_dev_ok dev ps bs r :
  tl_inv (td_data dev) ps -> sink (td_logger dev) bs -> lock_count (td_data dev) = 1 -> log_req_ok r ->
  req_sized (cap - overhead) r ->
  exists rc dev',
    tdf_data_logger_log_core_dev be remote config log_fuel dev (rq_id r) (rq_len r) (rq_num r)
      (rq_format r) (rq_time r) (rq_period r) (rq_data r) = Done (rc, dev') /\
    lock_count (td_data dev') = 1 /\ (exists ps', tl_inv (td_data dev') ps') /\
    (0 <= rc -> rc = 0 /\ exists qs, split_log r qs /\ logged_as dev' bs ps qs).
Proof.
  intros Hinv Hsink Hlock Hr Hsized. unfold tdf_data_logger_log_core_dev. rewrite (Hready _ _ Hsink).
  pose proof Hr as (([_ Hlen Hnum _ _ _ _] & _) & _ & _).
  pose proof (sink_overhead (be := be) (overhead := overhead) (cap := cap)) as Hov.
  rewrite (tl_size _ _ Hinv). cbn [negb]. destruct (cap =? 0).
  { eexists _, dev. split; [done|]. split; [done|]. split; [by exists ps|]. unfold ENOTCONN. lia. }
  unfold k_sem_take. rewrite Hlock. cbn [Z.eqb exec_bind]. set (dev1 := with_tdata dev _).
  assert (Hinv1 : tl_inv (td_data dev1) ps) by (destruct Hinv; by split).
  assert (Hlog : exists rc dev2, log_locked be remote config log_fuel dev1 (rq_id r) (rq_len r) (rq_num r)
      (rq_format r) (rq_time r) (rq_period r) (rq_data r) = Done (rc, dev2) /\
    (exists ps', tl_inv (td_data dev2) ps') /\
    (0 <= rc -> exists qs, split_log r qs /\ logged_as dev2 bs ps qs)).
  { destruct (tdf_args_valid_dec (rq_id r) (rq_len r) (rq_num r) (rq_period r) (rq_format r)) as [Hval|Hinval];
      [destruct Hsized as [Hcap|Hsmall]|].
    - apply log_locked_ok; try done. unfold in_u in *. unfold log_fuel. destruct (_ =? 0); lia.
    - destruct (log_locked_refused 509 dev1 ps r Hinv1 (proj1 Hr) (or_intror Hsmall)) as (rc & Hneg & Hd).
      eexists rc, _. split; [exact Hd|]. split; [exists ps; destruct Hinv1; by split|lia].
    - destruct (log_locked_refused 509 dev1 ps r Hinv1 (proj1 Hr) (or_introl Hinval)) as (rc & Hneg & Hd).
      eexists rc, _. split; [exact Hd|]. split; [exists ps; destruct Hinv1; by split|lia]. }
  destruct Hlog as (rc & dev2 & Hd & (ps' & Hi) & Hok).
  rewrite Hd. cbn [exec_bind]. apply log_locked_lock in Hd.
  eexists _, _. split; [done|]. split; [|split].
  - cbn. rewrite Hd. unfold dev1. cbn. lia.
  - exists ps'. destruct Hi. by split.
  - destruct (Z.ltb_spec rc 0) as [|Hge]; [lia|]. intros _. split; [done|].
    destruct (Hok Hge) as (qs & Hq & pls & pss & ps2 & Hs & Hall & Hi2 & Heq).
    exists qs. split; [done|]. exists pls, pss, ps2. split_and!; try done. destruct Hi2. by split.
Qed.

Lemma log_all_ok reqs dev ps bs :
  tl_inv (td_data dev) ps -> sink (td_logger dev) bs -> lock_count (td_data dev) = 1 ->
  Forall (fun r => log_req_ok r /\ req_sized (cap - overhead) r) reqs ->
  exists rc dev', log_all dev reqs = Done (rc, dev') /\ lock_count (td_data dev') = 1 /\ rc <= 0 /\
    (rc = 0 -> exists qss, Forall2 split_log reqs qss /\ logged_as dev' bs ps (concat qss)).
Proof.
  intros Hinv Hsink Hlock Hreqs. revert dev ps bs Hinv Hsink Hlock.
  induction Hreqs as [|r reqs (Hr & Hcap) Hreqs IH]; intros dev ps bs Hinv Hsink Hlock.
  { exists 0, dev. split_and!; try done. intros _. exists []. split; [constructor|].
    exists [], [], ps. cbn [concat]. rewrite !app_nil_r. by split_and!. }
  cbn [log_all].
  destruct (log_core_dev_ok dev ps bs r Hinv Hsink Hlock Hr Hcap) as (rc & dev1 & -> & Hl1 & (ps0 & Hi0) & Hok).
  cbn [exec_bind]. destruct (Z.ltb_spec rc 0) as [Hneg|Hge].
  { exists rc, dev1. split_and!; try done; lia. }
  destruct (Hok Hge) as (-> & qs & Hq & pls & pss & ps1 & Hs & Hall & Hi & Heq).
  destruct (IH dev1 ps1 (bs ++ pls) Hi Hs Hl1) as (rc2 & dev2 & -> & Hl2 & Hrc2 & Hok2).
  exists rc2, dev2. split_and!; try done. intros Hz.
  destruct (Hok2 Hz) as (qss & Hqs & pls2 & pss2 & ps2 & Hs2 & Hall2 & Hi2 & Heq2).
  exists (qs :: qss). split; [by constructor|]. exists (pls ++ pls2), (pss ++ pss2), ps2.
  rewrite <- app_assoc in Hs2. split; [done|]. split; [by apply Forall2_app|]. split; [done|].
  rewrite concat_app, <- app_assoc, Heq2, app_assoc, Heq. cbn [concat]. by rewrite <- app_assoc.
Qed.
End logger.
