(* ===== verification/TdfLoggerProps.v ===== *)
(** * Theorems about the TDF data logger

    Logging through [TdfLogger] onto [DataLogger], read back and parsed; what a reboot
    recovers from the RAM buffer; and the inputs on which the code does not return. *)

From stdpp Require Import base tactics numbers list.
From Stdlib Require Import ZArith Lia.
From S2P Require Import Prelude NetBuf Epoch TdfDiffs Tdf TdfWire TdfEncode TdfDecode TdfRoundtrip.
From S2P Require Import TdfSpec DataLogger DataLoggerSpec DataLoggerInit FlashMap DataLoggerProps TdfLogger TdfLoggerSpec.

Local Open Scope Z_scope.
Local Open Scope infuse_scope.

(** ** The data logger as the logger below *)
Section data_logger_sink.
Context {B : Type} `{PmRuntime B} (kc : dl_kconfig) (cfg : dl_config) (api : data_logger_api B).
Context (g : geometry) (wf : B -> Prop) (blk : B -> Z -> list Z).
Context `{!BlockBackend api g wf blk} (Hg : geometry_ok g).
Context (cb : data_logger_cb).

Definition data_logger_backend : tdf_backend (dl_dev B) :=
  TdfBackend (data_logger_block_write kc cfg api) (data_logger_get_state cfg api)
    (fun dev => data_logger_register_cb dev cb) (fun _ => true).

(** A stored block without its header, up to the end of the block. *)
Definition block_payload (e : list Z) : list Z := zdrop 2 (e ++ zdrop (zlen e) (erased_block g)).

Definition dl_sink (dev : dl_dev B) (bs : list (list Z)) : Prop :=
  exists log, dl_inv g wf blk dev log /\ bs = map block_payload log /\
    Z.land (flags (dv_data dev)) DATA_LOGGER_FLAGS_ERASING = 0.

Lemma block_payload_stored i type mem len :
  2 < len <= gBS g -> padded_len cfg len <= gBS g -> gBS g <= zlen mem ->
  block_payload (stored_block g i type (padded_block cfg (gEV g) mem len) (padded_len cfg len)) =
  zdrop 2 (ztake len mem) ++ replicate (Z.to_nat (gBS g - len)) (gEV g).
Proof.
  intros Hl Hp Hm. pose proof (padded_len_le cfg len) as Hle. unfold block_payload.
  assert (Hzp : zlen (padded_block cfg (gEV g) mem len) = zlen mem) by (apply zlen_padded_block; lia).
  rewrite zlen_stored_block by lia. unfold stored_block. rewrite <- app_assoc, zdrop_app by done.
  assert (Ht : ztake (padded_len cfg len) (padded_block cfg (gEV g) mem len) =
    ztake len mem ++ replicate (Z.to_nat (padded_len cfg len - len)) (gEV g)).
  { unfold padded_block. destruct (Z.eqb_spec (padded_len cfg len) len) as [->|Hne].
    { by rewrite Z.sub_diag, app_nil_r. }
    unfold zwrite. rewrite app_assoc. apply ztake_app. rewrite zlen_app, zlen_ztake by lia.
    unfold zlen. rewrite length_replicate. lia. }
  rewrite Ht, zdrop_app_le by (rewrite zlen_ztake; lia). rewrite <- app_assoc. f_equal.
  unfold erased_block, zdrop. rewrite drop_replicate, <- replicate_add. f_equal. lia.
Qed.

(** Block [i] of the payloads is what [data_logger_block_read] returns. *)
Lemma dl_sink_block dev bs i :
  dl_sink dev bs -> 2 < gBS g -> earliest_block (dv_data dev) <= i < current_block (dv_data dev) ->
  exists rc mem dev', data_logger_block_read api dev i 2 (gBS g - 2) = Done (rc, mem, dev') /\ rc <= 0 /\
    (rc = 0 -> bs !! Z.to_nat i = Some mem).
Proof.
  intros (log & Hinv & -> & Hfl) H2 Hi. pose proof Hinv as [_ Hwf Hcur Hcap Hear _ _].
  assert (HBS := g_BS _ Hg). pose proof (zlen_nonneg log) as Hl0.
  pose proof (window_u32 g Hg (zlen log) ltac:(lia)) as Hwin.
  assert (Hx : Z.quot (2 + (gBS g - 2) - 1) (gBS g) = 0) by (apply Z.quot_small; lia).
  pose proof (data_logger_block_read_ok api g wf blk Hg dev log i 2 (gBS g - 2) Hinv Hfl) as Hrd.
  cbv zeta in Hrd. rewrite Hx in Hrd.
  destruct Hrd as (rc & mem & dev' & Hd & Hrc & _ & Hok); try lia.
  exists rc, mem, dev'. split; [done|]. split; [done|]. intros Hz. rewrite (Hok Hz).
  change (Z.to_nat (0 + 1)) with 1%nat. cbn [image]. rewrite app_nil_r, list_lookup_fmap.
  pose proof (inv_log_block g wf blk Hg dev log i Hinv ltac:(lia)) as Hlb.
  assert (Hzl : zlen (log_block g log i) = gBS g).
  { rewrite <- Hlb. apply bb_len; [done|]. apply Z.mod_pos_bound. apply Hg. }
  unfold log_block in *. destruct (log !! Z.to_nat i) as [e|] eqn:He.
  - cbn [fmap option_fmap option_map]. f_equal. unfold block_payload. symmetry. apply ztake_ge.
    rewrite zlen_zdrop; lia.
  - apply lookup_ge_None in He. unfold zlen in *. lia.
Qed.

Context (Hsync : CONFIG_DATA_LOGGER_OFFLOAD_WRITES kc && negb (queued_writes cfg) = false).
Context (Hram : CONFIG_DATA_LOGGER_RAM_BUFFER kc && negb (ram_buf_len cfg =? 0) = false).
Context (Halign : (block_write_align cfg | gBS g)).

Lemma data_logger_tdf_sink : TdfSink data_logger_backend 2 (gBS g) dl_sink.
Proof.
  split; [lia|]. intros dev bs type mem len (log & Hinv & -> & Hfl) Hlen Hmem.
  destruct (padded_len_cap cfg len (gBS g) Halign ltac:(lia)) as (Hpc & _).
  pose proof (padded_len_le cfg len) as Hle.
  destruct (data_logger_block_write_ok kc cfg api g wf blk Hg dev log type mem len Hinv Hsync Hram Hfl)
    as (rc & dev' & mem' & Hd & (Hrc & Hzm) & Hsame & Hok & _); try lia.
  exists rc, dev', mem'. split; [done|]. split; [done|]. intros Hge.
  exists (Z.to_nat (gBS g - len)), (gEV g). split; [apply Hg|]. split; [lia|].
  eexists. split; [apply Hok; lia|]. split.
  - rewrite map_app. cbn [map]. by rewrite block_payload_stored by lia.
  - destruct Hsame as (_ & _ & _ & -> & _). done.
Qed.
End data_logger_sink.

(** C3.  End to end.  Requests are logged through a TDF logger for a local (not remote)
    source with its lock free, on a persistent data logger that is not being erased,
    writes synchronously and has no RAM buffer of its own, on blocks whose size is a
    multiple of the write alignment.  Covered are raw samples (no precomputed deltas)
    whose times and sample indices, once split, stay within 48 and 32 bits, except
    time or delta arrays of two byte TDFs, which can run [tdf_add_core] past the
    block, and requests that pass its size check on an empty block but leave less than
    12 bytes there for the headers, which [tdf_data_logger_log_core_dev] may retry for
    ever.  Logging then always returns.  It stops at the first error (an invalid or
    oversized request, or a failure of the logger below), or no sample is lost: the
    TDFs in the blocks written since, followed by those still in the RAM buffer, are
    the TDFs from before followed by those of each request, in order, and their
    samples are those that were logged.  Every block that has not since been
    overwritten by wrap around, and that the backend reads back without an error,
    parses to its TDFs. *)
Theorem tdf_logging_end_to_end {B} `{PmRuntime B} `{NetBufSpec} kc cfg (api : data_logger_api B) g wf blk
  `{!BlockBackend api g wf blk} cb remote config dev log ps reqs :
  geometry_ok g -> dl_inv g wf blk (td_logger dev) log ->
  Z.land (flags (dv_data (td_logger dev))) DATA_LOGGER_FLAGS_ERASING = 0 ->
  CONFIG_DATA_LOGGER_OFFLOAD_WRITES kc && negb (queued_writes cfg) = false ->
  CONFIG_DATA_LOGGER_RAM_BUFFER kc && negb (ram_buf_len cfg =? 0) = false ->
  (block_write_align cfg | gBS g) -> is_remote remote config = false ->
  tl_inv 2 (gBS g) (td_data dev) ps -> lock_count (td_data dev) = 1 ->
  Forall (fun r => log_req_ok r /\ req_sized (gBS g - 2) r) reqs -> 2 < gBS g ->
  let be := data_logger_backend kc cfg api cb in
  exists rc dev', log_all be remote config dev reqs = Done (rc, dev') /\ rc <= 0 /\
    (rc = 0 -> exists pss ps' qss, Forall2 split_log reqs qss /\ concat pss ++ ps' = ps ++ concat qss /\
       flat_map parsed_samples (concat qss) = map inr (flat_map req_samples reqs) /\
       current_block (dv_data (td_logger dev')) = zlen log + zlen pss /\
       (exists rc, tdf_parse_all (S (length ps'))
          (tdf_parse_start (nb_contents (tl_buf (td_data dev'))) (nb_len (tl_buf (td_data dev'))))
          no_parsed = Done (ps', rc)) /\
       forall i, zlen log <= i < current_block (dv_data (td_logger dev')) ->
         earliest_block (dv_data (td_logger dev')) <= i ->
         exists rc mem dl, data_logger_block_read api (td_logger dev') i 2 (gBS g - 2) = Done (rc, mem, dl) /\
           (rc = 0 -> exists ps rc, pss !! Z.to_nat (i - zlen log) = Some ps /\
              tdf_parse_all (S (length ps)) (tdf_parse_start mem (zlen mem)) no_parsed = Done (ps, rc))).
Proof.
  intros Hg Hinv Hfl Hsync Hram Halign Hrem Htl Hlock Hreqs H2 be.
  pose proof (data_logger_tdf_sink kc cfg api g wf blk Hg cb Hsync Hram Halign) as Hsink.
  destruct (log_all_ok be 2 (gBS g) (dl_sink g wf blk) remote config Hrem ltac:(done) reqs dev ps
    (map (block_payload g) log)) as (rc & dev' & Hd & _ & Hrc & Hok); try done.
  { by exists log. }
  exists rc, dev'. split; [done|]. split; [done|]. intros Hz.
  destruct (Hok Hz) as (qss & Hq & pls & pss & ps' & Hs & Hall & Hi & Heq).
  pose proof Hs as (log' & Hinv' & Hmap & _).
  assert (Hlen : zlen log' = zlen log + zlen pss).
  { apply Forall2_length in Hall. apply (f_equal length) in Hmap. rewrite length_app, !length_map in Hmap.
    unfold zlen. lia. }
  exists pss, ps', qss. split; [done|]. split; [done|]. split_and!.
  - clear -Hq Hreqs. induction Hq as [|r qs reqs qss Hr Hq IH]; [done|]. inversion Hreqs as [|? ? (Hok & _) Hrs]; subst.
    cbn [concat flat_map]. rewrite flat_map_app, map_app, (IH Hrs), (split_samples r); [done|..|done].
    destruct Hok as (([_ ? _ _ _ _ _] & _) & _). unfold in_u in *. lia.
  - by rewrite (inv_current _ _ _ _ _ Hinv').
  - destruct Hi as [_ (Hwf & _) _ _ Hw]. destruct Hwf as (? & ? & ? & ?).
    fold (tl_buf (td_data dev')) in *.
    destruct (block_holds_parse (nb_contents (tl_buf (td_data dev'))) ps' no_parsed) as (rc2 & Hp & _).
    { exists (nb_contents (tl_buf (td_data dev'))), [], (ts_time (tdf_state (td_data dev'))).
      rewrite app_nil_r. split; [done|]. split; [by exists 0%nat, 0; auto|done]. }
    exists rc2. rewrite <- Hp. do 2 f_equal. unfold nb_contents. rewrite zlen_ztake; [done|].
    rewrite zlen_zdrop; lia.
  - intros i Hi1 Hi2. destruct (dl_sink_block api g wf blk Hg _ _ i Hs H2 ltac:(lia))
      as (rc2 & mem & dl & Hr & _ & Hmem).
    exists rc2, mem, dl. split; [done|]. intros Hz2. specialize (Hmem Hz2).
    rewrite lookup_app_r in Hmem by (rewrite length_map; unfold zlen in *; lia).
    rewrite length_map in Hmem. pose proof (zlen_nonneg log).
    replace (Z.to_nat i - length log)%nat with (Z.to_nat (i - zlen log)) in Hmem by (unfold zlen; lia).
    destruct (Forall2_lookup_l _ _ _ _ _ Hall Hmem) as (ps2 & Hps2 & Hb).
    destruct (block_holds_parse mem ps2 no_parsed Hb) as (rc3 & Hp & _). exists ps2, rc3. done.
Qed.

(** ** A TDF logger on four blocks of 32 bytes *)

Definition medium : geometry := Geometry 4 32 2 0xFF 254.

Lemma medium_ok : geometry_ok medium.
Proof. split; cbn; try lia. by exists 2. Qed.

Definition medium_config : dl_flash_map_config := FlashMapConfig 4 64 32 5.

Lemma medium_config_ok : flash_map_config_ok medium_config medium.
Proof. unfold flash_map_config_ok. cbn. lia. Qed.

#[export] Instance medium_backend :
  BlockBackend (data_logger_flash_map_api medium_config) medium (rf_wf 128) (flash_block medium rf_mem) :=
  flash_map_backend medium_config medium (rf_wf 128) rf_mem medium_ok medium_config_ok.

Definition medium_api := data_logger_flash_map_api (F := ram_flash) medium_config.

Definition medium_logger : dl_dev ram_flash :=
  DlDev (DlData [] 0 (4 * 254) 4 0 0 0 64 32 0xFF 0 0) (RamFlash (replicate 128 0xFF)) [] [] [].

Definition medium_cb : data_logger_cb := DlCb false false false.

(** An initialised logger with an empty buffer. *)
Definition medium_tdf : tdf_dev (dl_dev ram_flash) :=
  TdfDev (TdfLoggerData DATA_GUARD_HEAD DATA_GUARD_TAIL 1
            (TdfState 0 (NetBuf (replicate 32 0) 2 0 32)) 0 false 2 true) medium_logger.

Definition medium_tdf_config : tdf_logger_config := TdfLoggerConfig 32 INFUSE_TDF.

(** Six timed samples and eight delta encoded ones: both are split. *)
Definition split_reqs : list tdf_req :=
  [ TdfReq 10 4 6 (5 * 65536) 100
      [1; 2; 3; 4; 5; 6; 7; 8; 9; 10; 11; 12; 13; 14; 15; 16; 17; 18; 19; 20; 21; 22; 23; 24]
      TDF_DATA_FORMAT_TIME_ARRAY;
    TdfReq 11 4 8 (5 * 65536 + 9) 7
      [0; 1; 0; 2; 5; 1; 5; 2; 3; 1; 3; 2; 9; 1; 9; 2; 0; 1; 0; 2; 5; 1; 5; 2; 3; 1; 3; 2; 9; 1; 9; 2]
      TDF_DATA_FORMAT_DIFF_ARRAY_16_8 ].

Lemma medium_empty_inv : dl_inv medium (rf_wf 128) (flash_block medium rf_mem) medium_logger [].
Proof.
  apply dl_inv_empty; try done.
  - apply medium_ok.
  - intros p Hp. cbn in Hp. assert (p = 0 \/ p = 1 \/ p = 2 \/ p = 3) as [->|[->|[->| ->]]] by lia; reflexivity.
Qed.

Lemma medium_tl_inv : tl_inv 2 32 (td_data medium_tdf) [].
Proof. split; try done. apply wire_seq_nil. Qed.

Lemma split_reqs_ok : Forall (fun r => log_req_ok r /\ req_sized (32 - 2) r) split_reqs.
Proof.
  repeat constructor; try (left; vm_compute; discriminate); concrete.
Qed.

Lemma tdf_logging_end_to_end_witness :
  exists dev', log_all (data_logger_backend sync_build sync_config medium_api medium_cb) false
      medium_tdf_config medium_tdf split_reqs = Done (0, dev') /\
    current_block (dv_data (td_logger dev')) = 3 /\
    exists pss ps' qss, Forall2 split_log split_reqs qss /\ concat pss ++ ps' = concat qss /\
      flat_map parsed_samples (concat qss) = map inr (flat_map req_samples split_reqs).
Proof.
  destruct (tdf_logging_end_to_end sync_build sync_config medium_api medium (rf_wf 128)
    (flash_block medium rf_mem) medium_cb false medium_tdf_config medium_tdf [] [] split_reqs)
    as (rc & dev' & Hd & _ & Hok); try reflexivity.
  - apply medium_ok.
  - apply medium_empty_inv.
  - by exists 8.
  - apply medium_tl_inv.
  - apply split_reqs_ok.
  - assert (Hrc : rc = 0 /\ current_block (dv_data (td_logger dev')) = 3).
    { vm_compute in Hd. injection Hd as <- <-. vm_compute. auto. }
    destruct Hrc as [-> Hcur]. exists dev'. split; [exact Hd|]. split; [exact Hcur|].
    destruct (Hok eq_refl) as (pss & ps' & qss & Hq & Heq & Hfl & _). exists pss, ps', qss. auto.
Defined.

(** ** Reboots *)

(** The RAM buffer of a TDF logger, as left by a reset with the lock free. *)
Definition ram_retained (overhead cap : Z) (config : tdf_logger_config) (d : tdf_logger_data)
  (ls : data_logger_state) (ps : list tdf_parsed) : Prop :=
  tl_inv overhead cap d ps /\ guard_head d = DATA_GUARD_HEAD /\ guard_tail d = DATA_GUARD_TAIL /\
  cap <= tdf_buffer_max_size config /\ buf_linked d = true /\ lock_count d = 1 /\
  full_block_write d = st_requires_full_block_write ls /\ st_block_overhead ls = overhead /\
  0 <= overhead.

Section reboot.
Context `{NetBufSpec} {L : Type} (overhead cap : Z) (config : tdf_logger_config) (remote : bool).
Context (Hremote : is_remote remote config = false).

Lemma retained_nonempty d ls ps p :
  ram_retained overhead cap config d ls (ps ++ [p]) ->
  0 < nb_len (tl_buf d) /\ zlen (nb_contents (tl_buf d)) = nb_len (tl_buf d).
Proof.
  intros ([_ ((? & ? & ? & ?) & _) _ _ Hw] & _). fold (tl_buf d) in *.
  apply wire_seq_length in Hw. rewrite length_app in Hw. cbn [length] in Hw.
  assert (Hz : zlen (nb_contents (tl_buf d)) = nb_len (tl_buf d)).
  { unfold nb_contents. rewrite zlen_ztake; [done|]. rewrite zlen_zdrop; lia. }
  split; [|done]. unfold zlen in Hz. lia.
Qed.

(** The check accepts the buffer when the last TDF carries the time base. *)
Lemma valid_data_on_buffer_ok (dev : tdf_dev L) ls ps p :
  ram_retained overhead cap config (td_data dev) ls (ps ++ [p]) ->
  tdf_data_logger_valid_data_on_buffer remote config dev ls =
  Done (p_time p =? ts_time (tdf_state (td_data dev))).
Proof.
  intros Hret. destruct (retained_nonempty _ _ _ _ Hret) as (Hne & Hzl).
  destruct Hret as ([Ho (Hwf & Hs16 & _) Hdo Hsz Hw] & Hh & Ht & Hcap & Hl & Hlock & Hfull & Hov & Ho0).
  fold (tl_buf (td_data dev)) in *. set (d := td_data dev) in *. set (b := tl_buf d) in *.
  unfold tdf_data_logger_valid_data_on_buffer. fold d b.
  rewrite Hh, Ht, Hsz, Hl, Hlock, Hfull, Ho, Hov, Hremote, !Z.eqb_refl, eqb_reflx. cbn [negb orb andb].
  replace (tdf_buffer_max_size config <? cap) with false by lia.
  replace (nb_len b =? 0) with false by lia. rewrite Z.add_0_r, Z.sub_0_r.
  change (nb_load b (nb_data b) (nb_len b)) with (nb_contents b).
  unfold tdf_parse_start. rewrite init_with_data_spec, <- Hzl.
  destruct (parse_to_end_wire (S (Z.to_nat (zlen (nb_contents b)))) 0 (nb_contents b) (ps ++ [p]) _ _ [] []
    no_parsed no_parsed Hw (nb_repr_init _)) as (st & -> & Hz).
  { apply wire_seq_length in Hw. unfold zlen. lia. }
  cbn [exec_bind]. rewrite Hz, last_snoc. cbn [default from_option id]. by rewrite andb_true_r.
Qed.
End reboot.

(** A four byte TDF at five seconds, and one without a time. *)
Definition timed_wire : list Z := tdf_wire TDF_TIMESTAMP_ABSOLUTE 10 4 1 (5 * 65536) 0 0 false false false 0 [1; 2; 3; 4].
Definition timed_tdf : tdf_parsed := tdf_decoded 10 4 1 (5 * 65536) 0 false false false 0 [1; 2; 3; 4].
Definition untimed_wire : list Z := tdf_wire TDF_TIMESTAMP_NONE 11 2 1 0 0 0 false false false 0 [8; 9].
Definition untimed_tdf : tdf_parsed := tdf_decoded 11 2 1 0 0 false false false 0 [8; 9].

(** The logger of [medium_tdf] after a reset, with these bytes in its buffer. *)
Definition after_reset (bytes : list Z) : tdf_dev (dl_dev ram_flash) :=
  TdfDev (TdfLoggerData DATA_GUARD_HEAD DATA_GUARD_TAIL 1
            (TdfState (5 * 65536) (NetBuf ([0; 0] ++ bytes ++ replicate (30 - length bytes) 0) 2 (zlen bytes) 32))
            0 false 2 true) medium_logger.

Definition medium_be := data_logger_backend (B := ram_flash) sync_build sync_config medium_api medium_cb.

Lemma timed_seq bytes ps t : wire_seq (5 * 65536) bytes ps t -> wire_seq 0 (timed_wire ++ bytes) (timed_tdf :: ps) t.
Proof. apply (wire_seq_cons 0 (5 * 65536) 0 6 TDF_TIMESTAMP_ABSOLUTE); concrete. Qed.

Lemma untimed_seq : wire_seq (5 * 65536) untimed_wire [untimed_tdf] (5 * 65536).
Proof.
  change untimed_wire with (untimed_wire ++ []).
  apply (wire_seq_cons (5 * 65536) 0 0 0 TDF_TIMESTAMP_NONE); try (by concrete). apply wire_seq_nil.
Qed.

Lemma after_reset_retained bytes ps :
  wire_seq 0 bytes ps (5 * 65536) -> (length bytes <= 30)%nat ->
  ram_retained 2 32 medium_tdf_config (td_data (after_reset bytes)) (be_get_state medium_be medium_logger) ps.
Proof.
  intros Hw Hl. unfold ram_retained.
  assert (Hr : nb_repr (tl_buf (td_data (after_reset bytes))) [0; 0] bytes (replicate (30 - length bytes) 0)).
  { unfold nb_repr. cbn. split; [done|]. split; [done|]. split; [done|]. unfold zlen. cbn [length].
    rewrite length_app, length_replicate. lia. }
  split_and!; try done. split; try done.
  - split; [by apply (nb_repr_wf _ _ _ _ Hr)|]. split; [done|]. concrete.
  - by rewrite (nb_repr_contents _ _ _ _ Hr).
Qed.

(** A reboot keeps the TDFs of the RAM buffer: when the retained memory is intact
    and the last TDF was logged with a timestamp, initialisation leaves the buffer as
    it was, with the lock free. *)
Theorem tdf_logger_recovers `{NetBufSpec} {L} (be : tdf_backend L) overhead cap remote config dev ps p :
  is_remote remote config = false ->
  let ls := be_get_state be (td_logger dev) in
  ram_retained overhead cap config (td_data dev) ls (ps ++ [p]) -> st_block_size ls <> 0 -> p_time p <> 0 ->
  exists dev', tdf_data_logger_init be remote config dev = Done (0, dev') /\
    tl_inv overhead cap (td_data dev') (ps ++ [p]) /\ tdf_state (td_data dev') = tdf_state (td_data dev) /\
    lock_count (td_data dev') = 1.
Proof.
  intros Hrem ls Hret Hbs Hp. unfold tdf_data_logger_init. fold ls. set (dev1 := TdfDev (td_data dev) _).
  rewrite (valid_data_on_buffer_ok overhead cap config remote Hrem dev1 ls ps p Hret). cbn [exec_bind].
  pose proof Hret as ([? ? ? ? Hw] & _). pose proof (wire_seq_time _ _ _ _ _ Hw Hp) as Ht.
  unfold dev1. cbn [td_data]. rewrite Ht, Z.eqb_refl. replace (st_block_size ls =? 0) with false by lia.
  eexists. split; [done|]. by split.
Qed.

Lemma tdf_logger_recovers_witness :
  exists dev', tdf_data_logger_init medium_be false medium_tdf_config (after_reset timed_wire) = Done (0, dev') /\
    tl_inv 2 32 (td_data dev') [timed_tdf] /\ tdf_state (td_data dev') = tdf_state (td_data (after_reset timed_wire)) /\
    lock_count (td_data dev') = 1.
Proof.
  apply (tdf_logger_recovers medium_be 2 32 false medium_tdf_config (after_reset timed_wire) [] timed_tdf);
    try reflexivity; try (vm_compute; discriminate).
  apply after_reset_retained; [|vm_compute; lia]. rewrite <- (app_nil_r timed_wire). apply timed_seq, wire_seq_nil.
Defined.

(** When the last TDF of the retained buffer has no timestamp and an earlier one
    does, the same reboot discards the whole buffer. *)
Theorem tdf_logger_drops_untimed `{NetBufSpec} {L} (be : tdf_backend L) overhead cap remote config dev ps p :
  is_remote remote config = false ->
  let ls := be_get_state be (td_logger dev) in
  ram_retained overhead cap config (td_data dev) ls (ps ++ [p]) -> st_block_size ls = cap ->
  p_time p = 0 -> ts_time (tdf_state (td_data dev)) <> 0 ->
  exists dev', tdf_data_logger_init be remote config dev = Done (0, dev') /\
    tl_inv overhead cap (td_data dev') [] /\ nb_len (tl_buf (td_data dev')) = 0.
Proof.
  intros Hrem ls Hret Hbs Hp Hne. unfold tdf_data_logger_init. fold ls. set (dev1 := TdfDev (td_data dev) _).
  rewrite (valid_data_on_buffer_ok overhead cap config remote Hrem dev1 ls ps p Hret). cbn [exec_bind].
  unfold dev1. cbn [td_data]. rewrite Hp. replace (0 =? _) with false by lia.
  pose proof (retained_nonempty _ _ _ _ _ _ _ Hret) as (Hpos & _).
  pose proof Hret as ([? ((? & ? & ? & ?) & ? & ?) ? Hsz ?] & _ & _ & ? & _ & _ & _ & Hov & Ho0).
  fold (tl_buf (td_data dev)) in *. rewrite Hbs, init_with_data_spec.
  replace (if cap =? 0 then _ else cap) with cap by (destruct (Z.eqb_spec cap 0); lia).
  set (d0 := TdfLoggerData _ _ _ _ _ _ _ _).
  destruct (buffer_restart_ok overhead cap remote config Hrem d0) as (d' & -> & Hinv & Hl & _); try done; try lia.
  { unfold d0, tl_buf. cbn [set_lock_count tdf_state ts_buf nb_mem]. fold (tl_buf (td_data dev)). lia. }
  cbn [exec_bind]. by eexists.
Qed.

Lemma tdf_logger_drops_untimed_witness :
  exists dev', tdf_data_logger_init medium_be false medium_tdf_config (after_reset (timed_wire ++ untimed_wire)) =
      Done (0, dev') /\
    tl_inv 2 32 (td_data dev') [] /\ nb_len (tl_buf (td_data dev')) = 0.
Proof.
  apply (tdf_logger_drops_untimed medium_be 2 32 false medium_tdf_config
    (after_reset (timed_wire ++ untimed_wire)) [timed_tdf] untimed_tdf);
    try reflexivity; try (vm_compute; discriminate).
  apply after_reset_retained; [|vm_compute; lia]. apply timed_seq, untimed_seq.
Defined.

(** ** The loop that does not end *)

(** A sample indexed array whose header and first sample need more room than an
    empty block has, but pass the size check of the encoder, is retried for ever: the
    encoder reports a full buffer, flushing the empty buffer succeeds without doing
    anything, and the call is repeated.  No number of iterations is enough, and the
    lock stays taken. *)
Theorem idx_array_livelock `{NetBufSpec} {L} (be : tdf_backend L) overhead cap remote config fuel dev r :
  is_remote remote config = false -> tl_inv overhead cap (td_data dev) [] ->
  nb_len (tl_buf (td_data dev)) = 0 -> ts_time (tdf_state (td_data dev)) = 0 ->
  req_ok r -> tdf_args_valid (rq_id r) (rq_len r) (rq_num r) (rq_period r) (rq_format r) ->
  rq_format r = TDF_DATA_FORMAT_IDX_ARRAY -> rq_time r <> 0 ->
  9 + rq_len r <= cap - overhead < 12 + rq_len r ->
  log_locked be remote config fuel dev (rq_id r) (rq_len r) (rq_num r) (rq_format r) (rq_time r)
    (rq_period r) (rq_data r) = NoFuel.
Proof.
  intros Hrem Hinv Hlen0 Ht0 Hreq Hval Hfmt Htime Hcap. revert dev Hinv Hlen0 Ht0.
  induction fuel as [|fuel IH]; intros dev Hinv Hlen0 Ht0; [done|]. cbn [log_locked].
  pose proof Hinv as [Ho Hst Hdo Hsz Hw]. pose proof Hreq as (Hargs & Ht48 & _ & Hpre).
  destruct (tdf_add_core_ok (tdf_state (td_data dev)) (rq_id r) (rq_len r) (rq_num r) (rq_time r) (rq_period r)
    (rq_data r) (rq_format r) Hst Hargs) as [(_ & Hov)|[(rc & -> & Hrc)|(rc & st & is_diff & Hd & Happ)]].
  - unfold reclaim_overflow in Hov. rewrite Hfmt in Hov. destruct (timestamp_select _ _) as [[? ?] ?]. 
    rewrite Z.eqb_refl in Hov. cbn [negb] in Hov. rewrite andb_false_r in Hov. done.
  - unfold tdf_refused in Hrc. fold (tl_buf (td_data dev)) in *. rewrite Hsz, Hdo in Hrc.
    destruct Hrc as [(_ & ?)|[?|(-> & _)]]; [done|lia|]. cbn [exec_bind].
    change (- ENOMEM =? - ENOMEM) with true. cbv iota. set (dev1 := with_tdata dev _).
    unfold flush_internal. replace (nb_len (tl_buf (td_data dev1)) =? 0) with true by (symmetry; by apply Z.eqb_eq).
    cbn [exec_bind Z.ltb]. change (0 <? 0) with false. cbv iota. apply IH; try done.
  - exfalso. destruct Happ as [_ Hl Hr _ Hdf Hdata Hwf' Hsz' Hdp _ Hc]. unfold tl_buf in *.
    rewrite Hsz in Hsz'. rewrite Hdo in Hdp.
    assert (Hidx : is_diff = false).
    { destruct is_diff; [|done]. destruct (Hdf eq_refl) as (Hf & _). by rewrite Hfmt in Hf. }
    destruct (timestamp_select _ _) as [[delta th] hdr] eqn:Hts. rewrite Hfmt, Hidx in *. rewrite Z.eqb_refl in Hc.
    pose proof (zlen_ts_bytes _ _ _ _ _ Hts) as Hth. rewrite Ht0 in Hts. unfold timestamp_select in Hts.
    replace (rq_time r =? 0) with false in Hts by lia. cbn [negb Z.eqb] in Hts. injection Hts as <- <- <-.
    apply (f_equal zlen) in Hc. rewrite zlen_app in Hc.
    pose proof (zlen_nonneg (nb_contents (ts_buf (tdf_state (td_data dev))))).
    unfold tdf_wire, tdf_header_bytes, array_bytes, tdf_payload in Hc. cbn [andb] in Hc.
    replace (has_array true rc) with true in Hc by (unfold has_array; by rewrite andb_false_r).
    rewrite !zlen_app, !zlen_le_put, Hth in Hc.
    unfold data_needed in Hdata. cbn [andb] in Hdata. rewrite zlen_ztake in Hc by nia.
    destruct Hwf' as (? & ? & ? & ?). unfold nb_contents at 1 in Hc.
    rewrite zlen_ztake in Hc by (rewrite zlen_zdrop; lia). unfold sizeof_tdf_time in *. nia.
Qed.

Definition livelock_req : tdf_req :=
  TdfReq 10 20 1 (5 * 65536) 0 (replicate 20 7) TDF_DATA_FORMAT_IDX_ARRAY.

Lemma idx_array_livelock_witness :
  log_locked medium_be false medium_tdf_config 1000 medium_tdf 10 20 1 TDF_DATA_FORMAT_IDX_ARRAY (5 * 65536) 0
    (replicate 20 7) = NoFuel.
Proof.
  apply (idx_array_livelock medium_be 2 32 false medium_tdf_config 1000 medium_tdf livelock_req);
    try reflexivity; [apply medium_tl_inv|..]; concrete.
Defined.

(** ** Logger masks *)

Section masks.
Context {D : Type} (f : D -> exec D).

(** [f] on every logger of the mask that exists, in the order of the mask's bits. *)
Fixpoint mask_all (i : nat) (devs : list (option D)) (mask : Z) : exec (list (option D)) :=
  match devs with
  | [] => Done []
  | d :: devs =>
      let! d := match d with
                | Some x => if Z.testbit mask (Z.of_nat i) then let! x := f x in Done (Some x) else Done d
                | None => Done d
                end in
      let! devs := mask_all (S i) devs mask in
      Done (d :: devs)
  end.

Lemma mask_all_ext i devs m m' :
  (forall k, (i <= k)%nat -> Z.testbit m (Z.of_nat k) = Z.testbit m' (Z.of_nat k)) ->
  mask_all i devs m = mask_all i devs m'.
Proof.
  revert i. induction devs as [|d devs IH]; intros i Hm; [done|]. cbn [mask_all].
  rewrite (Hm i) by lia. rewrite (IH (S i)); [done|]. intros k Hk. apply Hm. lia.
Qed.

Lemma lowest_bit_first n i j mask :
  i <= j < i + Z.of_nat n -> (forall k, i <= k < j -> Z.testbit mask k = false) ->
  Z.testbit mask j = true -> lowest_bit n i mask = j.
Proof.
  revert i. induction n as [|n IH]; intros i Hj Hlow Hbit; [lia|]. cbn [lowest_bit].
  destruct (Z.eq_dec i j) as [->|Hne]; [by rewrite Hbit|]. rewrite Hlow by lia.
  apply IH; try done; try lia. intros k Hk. apply Hlow. lia.
Qed.

Definition found (lm : list bool) (mask : Z) (i : nat) : Prop :=
  (i < length lm)%nat /\ Z.testbit mask (Z.of_nat i) = true /\ nth i lm false = true.

(** The first existing logger of the mask, and the bits above it. *)
Definition first_of (lm : list bool) (mask : Z) (res : option nat * Z) : Prop :=
  match res with
  | (Some i, m) => found lm mask i /\ (forall k, (k < i)%nat -> ~ found lm mask k) /\
      (forall k, (i < k)%nat -> Z.testbit m (Z.of_nat k) = Z.testbit mask (Z.of_nat k)) /\
      (forall k, (k <= i)%nat -> Z.testbit m (Z.of_nat k) = false) /\ 0 <= m < 256
  | (None, _) => forall k, ~ found lm mask k
  end.

Lemma clear_bit mask j : 0 <= mask < 256 -> Z.testbit mask (Z.of_nat j) = true ->
  let m := Z.lxor mask (Z.shiftl 1 (Z.of_nat j)) in
  0 <= m < 256 /\ Z.testbit m (Z.of_nat j) = false /\
  forall k, k <> j -> Z.testbit m (Z.of_nat k) = Z.testbit mask (Z.of_nat k).
Proof.
  intros Hm Hb. rewrite Z.shiftl_1_l. intros m.
  assert (Hbits : forall k, Z.testbit m (Z.of_nat k) = xorb (Z.testbit mask (Z.of_nat k)) (j =? k)%nat).
  { intros k. unfold m. rewrite Z.lxor_spec, Z.pow2_bits_eqb by lia. f_equal.
    destruct (Nat.eqb_spec j k); lia. }
  assert (Hlt : m <= mask).
  { assert (Hland : Z.land m (2 ^ Z.of_nat j) = 0).
    { apply Z.bits_inj_0. intros k. rewrite Z.land_spec. destruct (Z.lt_ge_cases k 0); [by rewrite Z.testbit_neg_r|].
      rewrite Z.pow2_bits_eqb by lia. destruct (Z.eqb_spec (Z.of_nat j) k) as [<-|]; [|apply andb_false_r].
      by rewrite Hbits, Hb, Nat.eqb_refl. }
    apply Z.add_nocarry_lxor in Hland. unfold m in Hland at 2.
    rewrite Z.lxor_assoc, Z.lxor_nilpotent, Z.lxor_0_r in Hland.
    pose proof (Z.pow_nonneg 2 (Z.of_nat j)). lia. }
  split; [split; [|lia]|split].
  - unfold m. apply Z.lxor_nonneg. split; intros; [apply Z.pow_nonneg; lia|lia].
  - rewrite Hbits, Hb, Nat.eqb_refl. done.
  - intros k Hk. rewrite Hbits. replace (j =? k)%nat with false by (symmetry; by apply Nat.eqb_neq).
    apply xorb_false_r.
Qed.

Lemma logger_mask_iter_first lm mask n j :
  (length lm <= 8)%nat -> 0 <= mask < 256 -> (j <= 8)%nat -> (8 <= n + j)%nat ->
  (forall k, (k < j)%nat -> Z.testbit mask (Z.of_nat k) = false) ->
  first_of lm mask (logger_mask_iter_loop n lm mask).
Proof.
  intros Hlm. remember (8 - j)%nat as m eqn:Hmj. revert mask n j Hmj.
  induction m as [|m IH]; intros mask n j Hmj Hmask Hj Hn Hlow.
  { assert (Hz : mask = 0).
    { apply Z.bits_inj_0. intros k. destruct (Z.lt_ge_cases k 0); [by rewrite Z.testbit_neg_r|].
      destruct (Z.lt_ge_cases k 8); [rewrite <- (Z2Nat.id k) by lia; apply Hlow; lia|].
      apply (testbit_above 8); lia. }
    subst mask. replace (logger_mask_iter_loop n lm 0) with (@None nat, 0) by (by destruct n).
    intros k (_ & Hk & _). by rewrite Z.testbit_0_l in Hk. }
  destruct (Z.testbit mask (Z.of_nat j)) eqn:Hb.
  2: { apply (IH mask n (S j)); try done; try lia. intros k Hk.
       destruct (Nat.eq_dec k j) as [->|]; [done|]. apply Hlow. lia. }
  destruct n as [|n]; [lia|]. cbn [logger_mask_iter_loop].
  assert (Hne : mask <> 0) by (intros ->; by rewrite Z.testbit_0_l in Hb).
  replace (mask =? 0) with false by lia. cbn [negb].
  rewrite (lowest_bit_first 8 0 (Z.of_nat j)) by
    (try done; try lia; intros k Hk; rewrite <- (Z2Nat.id k) by lia; apply Hlow; lia).
  destruct (Z.leb_spec (zlen lm) (Z.of_nat j)) as [Hle|Hgt].
  { intros k (Hk1 & Hk2 & _). rewrite Hlow in Hk2; [done|]. unfold zlen in Hle. lia. }
  destruct (clear_bit mask j Hmask Hb) as (Hm & Hmj0 & Hmk). rewrite Nat2Z.id.
  set (m1 := Z.lxor mask _) in *. clearbody m1. destruct (nth j lm false) eqn:Hex.
  - split; [split; [unfold zlen in Hgt; lia|done]|]. split; [intros k Hk (_ & Hk2 & _); by rewrite Hlow in Hk2|].
    split; [intros k Hk; apply Hmk; lia|]. split; [|done]. intros k Hk.
    destruct (Nat.eq_dec k j) as [->|]; [done|]. rewrite Hmk by done. apply Hlow. lia.
  - assert (Hf : forall k, found lm m1 k <-> found lm mask k).
    { intros k. unfold found. destruct (Nat.eq_dec k j) as [->|Hkj]; [|by rewrite Hmk].
      rewrite Hex. by split; intros (_ & _ & ?). }
    specialize (IH m1 n (S j) ltac:(lia) Hm ltac:(lia) ltac:(lia)).
    assert (Hl1 : forall k, (k < S j)%nat -> Z.testbit m1 (Z.of_nat k) = false).
    { intros k Hk. destruct (Nat.eq_dec k j) as [->|]; [done|]. rewrite Hmk by done. apply Hlow. lia. }
    specialize (IH Hl1). unfold first_of in *. destruct (logger_mask_iter_loop n lm m1) as [[i|] m2].
    + destruct IH as (H1 & H2 & H3 & H4 & H5). rewrite <- Hf. split; [done|].
      split; [intros k Hk; rewrite <- Hf; by apply H2|]. split; [|done]. intros k Hk. rewrite H3 by done.
      apply Hmk. intros ->. destruct H1 as (_ & Hb1 & _). rewrite Hl1 in Hb1 by lia. done.
    + intros k. rewrite <- Hf. apply IH.
Qed.

Definition existing (devs : list (option D)) : list bool :=
  map (fun d => match d with Some _ => true | None => false end) devs.

Lemma nth_existing devs i : nth i (existing devs) false = true <-> exists d, devs !! i = Some (Some d).
Proof.
  revert i. induction devs as [|d devs IH]; intros [|i]; cbn; try apply IH.
  1-2: by split; [done|intros (? & ?)].
  destruct d as [d|]; split; eauto; [done|]. by intros (? & [=]).
Qed.

Lemma for_mask_loop_all fuel devs mask j :
  (length devs <= 8)%nat -> 0 <= mask < 256 -> (j <= length devs)%nat -> (9 <= fuel + j)%nat ->
  (forall k, (k < j)%nat -> ~ found (existing devs) mask k) ->
  for_mask_loop f fuel devs mask = let! r := mask_all j (drop j devs) mask in Done (take j devs ++ r).
Proof.
  remember (length devs - j)%nat as m eqn:Hm. revert fuel devs mask j Hm.
  induction m as [|m IH]; intros fuel devs mask j Hm Hlen Hmask Hj Hfuel Hno.
  - destruct fuel as [|fuel]; [lia|]. cbn [for_mask_loop]. fold (existing devs).
    pose proof (logger_mask_iter_first (existing devs) mask 8 0) as Hit. unfold logger_mask_iter.
    destruct (logger_mask_iter_loop 8 (existing devs) mask) as [[i|] m1].
    + exfalso. destruct Hit as (Hf & _); try lia. { unfold existing. by rewrite length_map. }
      apply (Hno i); [|done]. destruct Hf as (Hi & _). unfold existing in Hi. rewrite length_map in Hi. lia.
    + rewrite drop_ge, take_ge by lia. cbn. by rewrite app_nil_r.
  - destruct (lookup_lt_is_Some_2 devs j) as [d Hd]; [lia|].
    rewrite (drop_S _ _ _ Hd). cbn [mask_all].
    assert (Hskip : ~ found (existing devs) mask j ->
      for_mask_loop f fuel devs mask =
      let! r := mask_all (S j) (drop (S j) devs) mask in Done (take j devs ++ d :: r)).
    { intros Hnf. rewrite (IH fuel devs mask (S j)); try done; try lia.
      - destruct (mask_all (S j) (drop (S j) devs) mask) as [r| |]; [|done..]. cbn [exec_bind].
        by rewrite (take_S_r _ _ _ Hd), <- app_assoc.
      - intros k Hk. destruct (Nat.eq_dec k j) as [->|]; [done|]. apply Hno. lia. }
    destruct d as [d|].
    2: { rewrite Hskip; [by destruct (mask_all _ _ _)|]. intros (_ & _ & He).
         apply nth_existing in He as (? & He). congruence. }
    destruct (Z.testbit mask (Z.of_nat j)) eqn:Hb.
    2: { rewrite Hskip; [by destruct (mask_all _ _ _)|]. intros (_ & Hb' & _). congruence. }
    destruct fuel as [|fuel]; [lia|]. clear Hskip. cbn [for_mask_loop]. fold (existing devs).
    pose proof (logger_mask_iter_first (existing devs) mask 8 0) as Hit. unfold logger_mask_iter.
    specialize (Hit ltac:(unfold existing; by rewrite length_map) Hmask ltac:(lia) ltac:(lia) ltac:(lia)).
    assert (Hfj : found (existing devs) mask j).
    { split; [unfold existing; rewrite length_map; lia|]. split; [done|]. apply nth_existing. by exists d. }
    destruct (logger_mask_iter_loop 8 (existing devs) mask) as [[i|] m1]; [|by apply Hit in Hfj].
    destruct Hit as (Hfi & Hlow & Hhigh & Hclr & Hm1).
    assert (i = j) as ->.
    { destruct (Nat.lt_trichotomy i j) as [Hlt|[?|Hgt]]; [|done|]; [by apply Hno in Hfi|by apply Hlow in Hgt]. }
    rewrite (nth_lookup_Some _ _ _ _ Hd). destruct (f d) as [d'| |]; [|done..]. cbn [exec_bind].
    assert (Hjl : (j < length devs)%nat) by lia.
    rewrite (IH fuel (<[j:=Some d']> devs) m1 (S j)); rewrite ?length_insert; try done; try lia.
    + rewrite drop_insert_lt by lia. rewrite (mask_all_ext (S j) _ m1 mask) by (intros k Hk; apply Hhigh; lia).
      destruct (mask_all (S j) (drop (S j) devs) mask) as [r| |]; [|done..]. cbn [exec_bind].
      rewrite (take_S_r _ _ (Some d')) by (by apply list_lookup_insert_eq). by rewrite take_insert_ge, <- app_assoc by lia.
    + intros k Hk (_ & Hb' & _). rewrite Hclr in Hb'; [done|lia].
Qed.
End masks.

(** Flushing or logging to a mask of loggers acts on each existing logger of the
    mask exactly once, in increasing order of its bit, and on no other; bits without a
    logger are skipped. *)
Theorem for_mask_correct {D} (f : D -> exec D) devs mask :
  (length devs <= 8)%nat -> 0 <= mask < 256 -> for_mask f devs mask = mask_all f 0 devs mask.
Proof.
  intros Hlen Hmask. unfold for_mask. rewrite (for_mask_loop_all f 9 devs mask 0); try done; try lia.
  rewrite drop_0, take_0. by destruct (mask_all f 0 devs mask).
Qed.

Lemma for_mask_correct_witness :
  for_mask (fun x => Done (x + 1)) [Some 5; None; Some 7; Some 9] 7 =
  Done [Some 6; None; Some 8; Some 9].
Proof.
  exact (for_mask_correct (fun x => Done (x + 1)) [Some 5; None; Some 7; Some 9] 7
    ltac:(cbn; lia) ltac:(lia)).
Defined.

(** ** Arrays without a time *)

Definition untimed_req : tdf_req :=
  TdfReq 10 4 8 0 100
    [1; 2; 3; 4; 5; 6; 7; 8; 9; 10; 11; 12; 13; 14; 15; 16; 17; 18; 19; 20; 21; 22; 23; 24; 25; 26; 27; 28; 29; 30; 31; 32]
    TDF_DATA_FORMAT_TIME_ARRAY.

(** An array logged without a time that is split over two blocks continues, in
    the second block, with the period times the samples before it as an absolute
    time. *)
Example untimed_split_gains_time :
  (let! (rc, dev) := log_all medium_be false medium_tdf_config medium_tdf [untimed_req] in
   let! (ps, _) := tdf_parse_all 2 (tdf_parse_start (nb_contents (tl_buf (td_data dev)))
                     (nb_len (tl_buf (td_data dev)))) no_parsed in
   Done (rc, map (fun p => (p_time p, p_num p)) ps)) = Done (0, [(600, 2)]).
Proof. vm_compute. reflexivity. Qed.
