(* ===== verification/Hamming.v ===== *)
(** * Hamming (8,4) code ([lib/math/hamming_8_4.c])

    Every nibble is encoded in a byte; single bit errors of a byte are corrected and
    double bit errors detected. *)

From stdpp Require Import base tactics numbers list.
From Stdlib Require Import ZArith Lia.
From S2P Require Import Prelude.

Local Open Scope Z_scope.
Local Open Scope infuse_scope.

Definition encode_table : list Z :=
  [0x15; 0x02; 0x49; 0x5E; 0x64; 0x73; 0x38; 0x2F;
   0xD0; 0xC7; 0x8C; 0x9B; 0xA1; 0xB6; 0xFD; 0xEA].

(** [(codeword >> i) & 1] *)
Definition code_bit (codeword i : Z) : Z := Z.land (Z.shiftr codeword i) 1.

Definition compute_syndrome (codeword : Z) : Z :=
  let b7 := code_bit codeword 7 in
  let b6 := code_bit codeword 6 in
  let b5 := code_bit codeword 5 in
  let b4 := code_bit codeword 4 in
  let b3 := code_bit codeword 3 in
  let b2 := code_bit codeword 2 in
  let b1 := code_bit codeword 1 in
  let b0 := code_bit codeword 0 in
  let s0 := Z.lxor (Z.lxor (Z.lxor b7 b5) b1) b0 in
  let s1 := Z.lxor (Z.lxor (Z.lxor b7 b3) b2) b1 in
  let s2 := Z.lxor (Z.lxor (Z.lxor b5 b4) b3) b1 in
  let s3 := Z.lxor (Z.lxor (Z.lxor (Z.lxor (Z.lxor (Z.lxor (Z.lxor b7 b6) b5) b4) b3) b2) b1) b0 in
  Z.lor (Z.lor (Z.lor (Z.shiftl s0 3) (Z.shiftl s1 2)) (Z.shiftl s2 1)) s3.

Definition correct_error (data syndrome : Z) : Z :=
  if syndrome =? 0 then Z.lxor data 1
  else if syndrome =? 8 then Z.lxor data 2
  else if syndrome =? 4 then Z.lxor data 4
  else if syndrome =? 2 then Z.lxor data 8
  else data.

Definition extract_data (codeword : Z) : Z :=
  let b7 := code_bit codeword 7 in
  let b5 := code_bit codeword 5 in
  let b3 := code_bit codeword 3 in
  let b1 := code_bit codeword 1 in
  Z.lor (Z.lor (Z.lor (Z.shiftl b7 3) (Z.shiftl b5 2)) (Z.shiftl b3 1)) b1.

(** The data, [error_detected] and [double_error]. *)
Definition decode_codeword (codeword : Z) : Z * bool * bool :=
  let syndrome := compute_syndrome codeword in
  let data := extract_data codeword in
  let error_detected := negb (syndrome =? 0xF) in
  let double_error := error_detected && (Z.land syndrome 1 =? 1) in
  (if error_detected && negb double_error then correct_error data syndrome else data,
   error_detected, double_error).

(** A store to [output[i]]. *)
Definition out_store (output : list Z) (i v : Z) : exec (list Z) :=
  if (0 <=? i) && (i <? zlen output) then Done (zwrite i [v] output) else Fault.

Fixpoint encode_loop (input : list Z) (output_offset : Z) (output : list Z) : exec (Z * list Z) :=
  match input with
  | [] => Done (output_offset, output)
  | b :: input =>
      let! output := out_store output output_offset
                       (nth (Z.to_nat (Z.shiftr (Z.land b 0xF0) 4)) encode_table 0) in
      let! output := out_store output (output_offset + 1)
                       (nth (Z.to_nat (Z.land b 0x0F)) encode_table 0) in
      encode_loop input (output_offset + 2) output
  end.

(** [output] has [output_len] bytes. *)
Definition hamming_8_4_encode (input output : list Z) : exec (Z * list Z) :=
  if zlen output <? 2 * zlen input then Done (- EINVAL, output)
  else encode_loop input 0 output.

(** [input] from byte [i] on; a byte behind its end is not readable. *)
Fixpoint decode_loop (input_len i : Z) (input output : list Z) : exec (Z * list Z) :=
  match input with
  | [] => Done (input_len / 2, output)
  | c :: rest =>
      let '(d, _, double_error) := decode_codeword c in
      let out := u8 (Z.shiftl d 4) in
      if double_error then Done (i, output)
      else
        match rest with
        | [] => Fault
        | c' :: rest =>
            let '(d, _, double_error) := decode_codeword c' in
            let out := Z.lor out d in
            if double_error then Done (i + 1, output)
            else
              let! output := out_store output (i / 2) out in
              decode_loop input_len (i + 2) rest output
        end
  end.

Definition hamming_8_4_decode (input output : list Z) : exec (Z * list Z) :=
  if zlen output * 2 <? zlen input then Done (- EINVAL, output)
  else decode_loop (zlen input) 0 input output.

(** ** Code words *)

(** The two code words of a byte. *)
Definition encode_byte (b : Z) : list Z :=
  [nth (Z.to_nat (Z.shiftr (Z.land b 0xF0) 4)) encode_table 0;
   nth (Z.to_nat (Z.land b 0x0F)) encode_table 0].

(** At most one bit of a code word is flipped; exactly two bits are. *)
Definition one_error (c c' : Z) : Prop := c' = c \/ exists b, 0 <= b < 8 /\ c' = Z.lxor c (2 ^ b).
Definition two_errors (c c' : Z) : Prop :=
  exists a b, 0 <= a < b /\ b < 8 /\ c' = Z.lxor c (Z.lxor (2 ^ a) (2 ^ b)).

Definition bit_numbers : list Z := [0; 1; 2; 3; 4; 5; 6; 7].
Definition nibbles : list Z := [0; 1; 2; 3; 4; 5; 6; 7; 8; 9; 10; 11; 12; 13; 14; 15].

Definition nibble_code (n : Z) : Z := nth (Z.to_nat n) encode_table 0.

(** The check of all code words, evaluated once. *)
Definition single_ok (n : Z) : bool :=
  let good c := let '(d, _, e) := decode_codeword c in (d =? n) && negb e in
  good (nibble_code n) && forallb (fun b => good (Z.lxor (nibble_code n) (2 ^ b))) bit_numbers.

Definition double_ok (n : Z) : bool :=
  forallb (fun a => forallb (fun b => (b <=? a) ||
    (decode_codeword (Z.lxor (nibble_code n) (Z.lxor (2 ^ a) (2 ^ b)))).2) bit_numbers) bit_numbers.

Lemma nibbles_ok : forallb (fun n => single_ok n && double_ok n) nibbles = true.
Proof. vm_compute. reflexivity. Qed.

Lemma nibble_ok n : 0 <= n < 16 -> single_ok n = true /\ double_ok n = true.
Proof.
  intros Hn. pose proof nibbles_ok as Hall. rewrite forallb_forall in Hall.
  apply andb_true_iff, Hall. unfold nibbles. cbn [In]. lia.
Qed.

Lemma bit_number b : 0 <= b < 8 -> In b bit_numbers.
Proof. unfold bit_numbers. cbn [In]. lia. Qed.

Lemma decode_one_error n c :
  0 <= n < 16 -> one_error (nibble_code n) c -> exists e, decode_codeword c = (n, e, false).
Proof.
  intros Hn Hc. destruct (nibble_ok n Hn) as [Hs _]. unfold single_ok in Hs.
  apply andb_true_iff in Hs as [H0 H1]. rewrite forallb_forall in H1.
  assert (Hg : (let '(d, _, e) := decode_codeword c in (d =? n) && negb e) = true).
  { destruct Hc as [->|(b & Hb & ->)]; [done|]. by apply H1, bit_number. }
  destruct (decode_codeword c) as [[d e] de]. apply andb_true_iff in Hg as [Hd He].
  apply Z.eqb_eq in Hd as ->. apply negb_true_iff in He as ->. by eexists.
Qed.

Lemma decode_two_errors n c :
  0 <= n < 16 -> two_errors (nibble_code n) c -> (decode_codeword c).2 = true.
Proof.
  intros Hn (a & b & Hab & Hb & ->). destruct (nibble_ok n Hn) as [_ Hd]. unfold double_ok in Hd.
  rewrite forallb_forall in Hd. specialize (Hd a (bit_number a ltac:(lia))). rewrite forallb_forall in Hd.
  specialize (Hd b (bit_number b ltac:(lia))). apply orb_true_iff in Hd as [Hd|Hd]; [lia|done].
Qed.

(** The nibbles of a byte. *)
Lemma byte_nibbles b :
  0 <= b < 256 ->
  let h := Z.shiftr (Z.land b 0xF0) 4 in let l := Z.land b 0x0F in
  0 <= h < 16 /\ 0 <= l < 16 /\ Z.lor (u8 (Z.shiftl h 4)) l = b.
Proof.
  intros Hb. cbv zeta. change 0x0F with (Z.ones 4). rewrite Z.land_ones by lia.
  assert (Hh : Z.shiftr (Z.land b 0xF0) 4 = b / 16).
  { rewrite Z.shiftr_land. change (Z.shiftr 0xF0 4) with (Z.ones 4). rewrite Z.land_ones, Z.shiftr_div_pow2 by lia.
    apply Z.mod_small. split; [apply Z.div_pos; lia|apply Z.div_lt_upper_bound; lia]. }
  rewrite Hh. change (2 ^ 4) with 16. pose proof (Z.mod_pos_bound b 16 ltac:(lia)).
  pose proof (Z.div_mod b 16 ltac:(lia)). assert (0 <= b / 16 < 16) by lia.
  split; [done|]. split; [done|]. rewrite uwrap_small by (rewrite Z.shiftl_mul_pow2 by lia; lia).
  rewrite lor_shiftl_add by lia. lia.
Qed.

(** ** Whole buffers *)

Lemma out_store_ok output pre old post i v :
  output = pre ++ old :: post -> i = zlen pre -> out_store output i v = Done (pre ++ v :: post).
Proof.
  intros -> ->. unfold out_store. rewrite zlen_app, zlen_cons. pose proof (zlen_nonneg pre).
  pose proof (zlen_nonneg post). replace ((0 <=? _) && _) with true by lia.
  f_equal. apply (zwrite_at _ pre [v] (old :: post)). done.
Qed.

Lemma out_cons (l : list Z) : 0 < zlen l -> exists x l', l = x :: l' /\ zlen l' = zlen l - 1.
Proof. destruct l as [|x l]; [done|]. intros _. exists x, l. rewrite zlen_cons. split; [done|lia]. Qed.

Lemma encode_loop_ok input pre rest :
  2 * zlen input <= zlen rest ->
  encode_loop input (zlen pre) (pre ++ rest) =
  Done (zlen pre + 2 * zlen input, pre ++ flat_map encode_byte input ++ zdrop (2 * zlen input) rest).
Proof.
  revert pre rest. induction input as [|b input IH]; intros pre rest Hl.
  { cbn. by rewrite Z.add_0_r. }
  rewrite zlen_cons in *. pose proof (zlen_nonneg input). cbn [encode_loop flat_map].
  destruct (out_cons rest) as (x & r1 & -> & H1); [lia|]. destruct (out_cons r1) as (y & r2 & -> & H2); [lia|].
  set (c1 := nth _ encode_table 0). set (c2 := nth _ encode_table 0).
  rewrite (out_store_ok _ pre x (y :: r2)) by done. cbn [exec_bind].
  rewrite (out_store_ok _ (pre ++ [c1]) y r2) by (rewrite ?zlen_app; try done; by rewrite <- app_assoc).
  cbn [exec_bind]. replace (zlen pre + 2) with (zlen ((pre ++ [c1]) ++ [c2])) by (rewrite !zlen_app, !zlen_cons, !zlen_nil; lia).
  replace ((pre ++ [c1]) ++ c2 :: r2) with (((pre ++ [c1]) ++ [c2]) ++ r2) by (by rewrite <- app_assoc).
  rewrite IH by (lia). f_equal. f_equal.
  - rewrite !zlen_app, !zlen_cons, !zlen_nil. lia.
  - rewrite <- !app_assoc. unfold encode_byte. fold c1 c2. cbn [app]. do 3 f_equal. f_equal.
    replace (2 * (1 + zlen input)) with (2 + 2 * zlen input) by lia.
    by rewrite <- (zdrop_zdrop (2 * zlen input) 2 (x :: y :: r2)) by lia.
Qed.

(** A stretch of received code words, each with at most one error, yields its bytes. *)
Lemma decode_loop_bytes n i bytes codes rest pre out :
  bytes_ok bytes -> Forall2 one_error (flat_map encode_byte bytes) codes ->
  i = 2 * zlen pre -> zlen bytes <= zlen out ->
  decode_loop n i (codes ++ rest) (pre ++ out) =
  decode_loop n (i + 2 * zlen bytes) rest (pre ++ bytes ++ zdrop (zlen bytes) out).
Proof.
  intros Hb. revert i codes pre out. induction Hb as [|b bytes Hb Hbs IH]; intros i codes pre out Hc Hi Hl.
  { inversion Hc; subst. by rewrite Z.add_0_r. }
  rewrite zlen_cons in *. pose proof (zlen_nonneg bytes). cbn [flat_map encode_byte app] in Hc.
  apply Forall2_cons_inv_l in Hc as (c1 & codes1 & H1 & Hc & ->).
  apply Forall2_cons_inv_l in Hc as (c2 & codes2 & H2 & Hc & ->).
  destruct (byte_nibbles b Hb) as (Hh & Hlo & Hor).
  destruct (decode_one_error _ c1 Hh H1) as (e1 & E1). destruct (decode_one_error _ c2 Hlo H2) as (e2 & E2).
  cbn [app decode_loop]. rewrite E1. cbv iota. rewrite E2. cbv iota. rewrite Hor.
  destruct (out_cons out) as (x & out' & -> & Hx); [lia|].
  rewrite (out_store_ok _ pre x out') by (try done; rewrite Hi, Z.mul_comm, Z.div_mul; lia).
  cbn [exec_bind]. replace (pre ++ b :: out') with ((pre ++ [b]) ++ out') by (by rewrite <- app_assoc).
  rewrite (IH (i + 2) codes2 (pre ++ [b]) out') by (rewrite ?zlen_app, ?zlen_cons, ?zlen_nil in *; try done; lia).
  f_equal; [lia|]. rewrite <- app_assoc. cbn [app]. do 3 f_equal.
  by rewrite <- (zdrop_zdrop (zlen bytes) 1 (x :: out')) by lia.
Qed.

Lemma zlen_codes bytes codes :
  Forall2 one_error (flat_map encode_byte bytes) codes -> zlen codes = 2 * zlen bytes.
Proof.
  intros H. apply Forall2_length in H. unfold zlen. rewrite <- H. clear H.
  induction bytes as [|b bytes IH]; [done|]. cbn [flat_map encode_byte app length]. lia.
Qed.

(** Bytes survive one bit error in each of their code words: encoding returns
    two code words per byte, and decoding any version of them in which every code word
    has at most one flipped bit returns the bytes. *)
Theorem hamming_corrects_single_errors bytes out_enc out_dec :
  bytes_ok bytes -> 2 * zlen bytes <= zlen out_enc -> zlen bytes <= zlen out_dec ->
  exists codes, hamming_8_4_encode bytes out_enc = Done (2 * zlen bytes, codes ++ zdrop (2 * zlen bytes) out_enc) /\
    forall received, Forall2 one_error codes received ->
    hamming_8_4_decode received out_dec = Done (zlen bytes, bytes ++ zdrop (zlen bytes) out_dec).
Proof.
  intros Hb He Hd. exists (flat_map encode_byte bytes). split.
  - unfold hamming_8_4_encode. replace (zlen out_enc <? 2 * zlen bytes) with false by lia.
    apply (encode_loop_ok bytes [] out_enc). done.
  - intros received Hr. pose proof (zlen_codes _ _ Hr) as Hz. unfold hamming_8_4_decode.
    replace (zlen out_dec * 2 <? zlen received) with false by lia. rewrite <- (app_nil_r received) at 2.
    rewrite (decode_loop_bytes _ 0 bytes received [] [] out_dec) by done. cbn [decode_loop app].
    do 2 f_equal. rewrite Hz, Z.mul_comm. by rewrite Z.div_mul.
Qed.

Lemma hamming_corrects_single_errors_witness :
  hamming_8_4_decode [Z.lxor 0x49 8; Z.lxor 0xB6 128] [0; 0] = Done (1, [0x2D; 0]).
Proof.
  destruct (hamming_corrects_single_errors [0x2D] [0; 0; 0] [0; 0]) as (codes & He & Hd);
    [repeat constructor; lia|vm_compute; congruence|vm_compute; congruence|].
  apply Hd. vm_compute in He. injection He as He.
  apply (app_inv_tail [0] [0x49; 0xB6] codes) in He as <-. constructor; [right; exists 3; split; [lia|reflexivity]|].
  constructor; [right; exists 7; split; [lia|reflexivity]|constructor].
Defined.

(** Decoding stops at the first code word with two bit errors and returns its
    index; the bytes before it have been decoded. *)
Theorem hamming_detects_double_errors bytes high received bad after out n m :
  bytes_ok bytes -> 0 <= n < 16 -> 0 <= m < 16 ->
  Forall2 one_error (flat_map encode_byte bytes) received ->
  two_errors (nibble_code n) bad -> one_error (nibble_code m) high ->
  zlen (received ++ high :: bad :: after) <= zlen out * 2 ->
  let decoded := bytes ++ zdrop (zlen bytes) out in
  hamming_8_4_decode (received ++ bad :: after) out = Done (zlen received, decoded) /\
  hamming_8_4_decode (received ++ high :: bad :: after) out = Done (zlen received + 1, decoded).
Proof.
  intros Hb Hn Hm Hr Hbad Hhigh Hlen decoded. pose proof (zlen_codes _ _ Hr) as Hz.
  rewrite zlen_app, !zlen_cons in Hlen. pose proof (zlen_nonneg after). pose proof (zlen_nonneg bytes).
  apply (decode_two_errors n) in Hbad; [|done]. destruct (decode_one_error m high Hm Hhigh) as (e & He).
  split; unfold hamming_8_4_decode; rewrite zlen_app, !zlen_cons.
  - replace (_ <? _) with false by lia. rewrite (decode_loop_bytes _ 0 bytes received _ [] out) by (try done; lia).
    cbn [decode_loop app]. destruct (decode_codeword bad) as [[d e'] de]. cbn in Hbad. subst de.
    do 2 f_equal. lia.
  - replace (_ <? _) with false by lia. rewrite (decode_loop_bytes _ 0 bytes received _ [] out) by (try done; lia).
    cbn [decode_loop app]. rewrite He. cbv iota. destruct (decode_codeword bad) as [[d e'] de]. cbn in Hbad. subst de.
    do 2 f_equal. lia.
Qed.

Lemma hamming_detects_double_errors_witness :
  hamming_8_4_decode [0x49; 0xB6; Z.lxor 0x02 3] [0; 0] = Done (2, [0x2D; 0]).
Proof.
  apply (hamming_detects_double_errors [0x2D] 0x15 [0x49; 0xB6] (Z.lxor 0x02 3) [] [0; 0] 1 0); try lia.
  - repeat constructor; lia.
  - repeat constructor.
  - exists 0, 1. split; [lia|]. split; [lia|reflexivity].
  - by left.
  - vm_compute. congruence.
Defined.

(** An odd number of received code words is not truncated: unless the last one
    has a double error, the byte behind the input is read. *)
Theorem hamming_odd_overread bytes received last m out :
  bytes_ok bytes -> Forall2 one_error (flat_map encode_byte bytes) received ->
  0 <= m < 16 -> one_error (nibble_code m) last -> zlen received + 1 <= zlen out * 2 ->
  hamming_8_4_decode (received ++ [last]) out = Fault.
Proof.
  intros Hb Hr Hm Hl Hlen. pose proof (zlen_codes _ _ Hr) as Hz.
  destruct (decode_one_error m last Hm Hl) as (e & He). unfold hamming_8_4_decode.
  rewrite zlen_app. change (zlen [last]) with 1. replace (_ <? _) with false by lia.
  rewrite (decode_loop_bytes _ 0 bytes received _ [] out) by (try done; lia). cbn [decode_loop app]. by rewrite He.
Qed.

Lemma hamming_odd_overread_witness : hamming_8_4_decode [0x49; 0xB6; 0x02] [0; 0] = Fault.
Proof.
  apply (hamming_odd_overread [0x2D] [0x49; 0xB6] 0x02 1 [0; 0]); try lia.
  - repeat constructor; lia.
  - repeat constructor.
  - by left.
  - vm_compute. congruence.
Defined.
