(* ===== verification/MathCommon.v ===== *)
(** * Integer mathematics ([lib/math/common.c])

    Square roots by the digit method, vector magnitudes and bitmask iteration. *)

From stdpp Require Import base tactics numbers list sorting.
From Stdlib Require Import ZArith Lia.
From S2P Require Import Prelude.

Local Open Scope Z_scope.
Local Open Scope infuse_scope.

(** The loop of the three square roots: [rw] is the width of [root] and [rem], [xw]
    that of [x]. *)
Fixpoint sqrt_loop (n : nat) (rw xw root rem x : Z) : Z :=
  match n with
  | O => root
  | S n =>
      let root := uwrap rw (Z.shiftl root 1) in
      let rem := uwrap rw (Z.lor (Z.shiftl rem 2) (Z.shiftr x (xw - 2))) in
      let x := uwrap xw (Z.shiftl x 2) in
      if root <? rem
      then sqrt_loop n rw xw (uwrap rw (root + 2)) (uwrap rw (rem - Z.lor root 1)) x
      else sqrt_loop n rw xw root rem x
  end.

Definition math_sqrt16 (x : Z) : Z := u8 (Z.shiftr (sqrt_loop 8 16 16 0 0 x) 1).
Definition math_sqrt32 (x : Z) : Z := u16 (Z.shiftr (sqrt_loop 16 32 32 0 0 x) 1).
Definition math_sqrt64 (x : Z) : Z := u32 (Z.shiftr (sqrt_loop 32 32 64 0 0 x) 1).

Definition math_vector_xy_sq_magnitude (x y : Z) : Z :=
  let x2 := u32 (s32 (x * x)) in
  let y2 := u32 (s32 (y * y)) in
  u32 (x2 + y2).

Definition math_vector_xy_magnitude (x y : Z) : Z := math_sqrt32 (math_vector_xy_sq_magnitude x y).

Definition math_vector_xyz_sq_magnitude (x y z : Z) : Z :=
  let x2 := u32 (s32 (x * x)) in
  let y2 := u32 (s32 (y * y)) in
  let z2 := u32 (s32 (z * z)) in
  u32 (u32 (x2 + y2) + z2).

Definition math_vector_xyz_magnitude (x y z : Z) : Z := math_sqrt32 (math_vector_xyz_sq_magnitude x y z).

Definition math_vector_xyz_dot_product (ax ay az bx by_ bz : Z) : Z :=
  let dx := s64 (s32 (ax * bx)) in
  let dy := s64 (s32 (ay * by_)) in
  let dz := s64 (s32 (az * bz)) in
  s64 (s64 (dx + dy) + dz).

(** The value of a signed 32 bit operation; overflow is undefined. *)
Definition int32 (z : Z) : exec Z := if IN_RANGE z (- 2 ^ 31) (2 ^ 31 - 1) then Done z else Fault.

(** Without [CONFIG_ASSERT]; the division truncates. *)
Definition math_2d_linear_interpolate_fast (x0 x1 y0 y1 x : Z) : exec Z :=
  if x1 =? x0 then Done y0
  else
    let! dy := int32 (y1 - y0) in
    let! dx := int32 (x - x0) in
    let! num := int32 (dy * dx) in
    let! den := int32 (x1 - x0) in
    let! q := int32 (Z.quot num den) in
    int32 (y0 + q).

(** [__builtin_popcount] *)
Definition popcount32 (mask : Z) : Z :=
  zlen (filter (fun i => Z.testbit mask i = true) (map Z.of_nat (seq 0 32))).

(** Shifting by 32 or more is undefined. *)
Fixpoint next_bits_loop (fuel : nat) (bitmask idx num_bits out : Z) : exec (Z * Z) :=
  match fuel with
  | O => NoFuel
  | S fuel =>
      if negb (num_bits =? 0) then
        if 32 <=? idx then Fault
        else
          let test := Z.shiftl 1 idx in
          let '(out, num_bits) :=
            if negb (Z.land test bitmask =? 0) then (Z.lor out test, num_bits - 1) else (out, num_bits) in
          next_bits_loop fuel bitmask (u8 ((idx + 1) mod 32)) num_bits out
      else Done (out, idx)
  end.

(** The bits and the next index.  Each bit is visited at most once. *)
Definition math_bitmask_get_next_bits (bitmask start_idx num_bits : Z) : exec (Z * Z) :=
  next_bits_loop 33 bitmask start_idx (u8 (Z.min num_bits (popcount32 bitmask))) 0.

(** ** Square roots *)

Lemma sqrt_next X d :
  0 <= X -> 0 <= d < 4 ->
  let s := Z.sqrt X in let rem := 4 * (X - s * s) + d in
  Z.sqrt (4 * X + d) = if 4 * s <? rem then 2 * s + 1 else 2 * s.
Proof.
  intros HX Hd. cbv zeta. pose proof (Z.sqrt_spec X HX) as Hs. pose proof (Z.sqrt_nonneg X).
  cbv zeta in Hs. set (s := Z.sqrt X) in *. clearbody s. assert (X < s * s + 2 * s + 1) by lia.
  destruct (Z.ltb_spec (4 * s) (4 * (X - s * s) + d)); apply Z.sqrt_unique; lia.
Qed.

Lemma lor_even_1 a : Z.lor (2 * a) 1 = 2 * a + 1.
Proof.
  replace (2 * a) with (Z.shiftl a 1) by (rewrite Z.shiftl_mul_pow2 by lia; lia).
  rewrite lor_shiftl_add by lia. rewrite Z.shiftl_mul_pow2 by lia. lia.
Qed.

Lemma sqrt_loop_ok m rw xw X r :
  3 <= rw -> 2 * Z.of_nat m <= xw -> 0 <= X -> 0 <= r < 4 ^ Z.of_nat m ->
  X * 4 ^ Z.of_nat m + r < 2 ^ (2 * rw - 4) ->
  let s := Z.sqrt X in
  sqrt_loop m rw xw (2 * s) (X - s * s) (r * 2 ^ (xw - 2 * Z.of_nat m)) = 2 * Z.sqrt (X * 4 ^ Z.of_nat m + r).
Proof.
  intros Hrw. revert X r. induction m as [|m IH]; intros X r Hxw HX Hr HV.
  { cbn [sqrt_loop Z.of_nat]. change (4 ^ 0) with 1 in *. do 2 f_equal. lia. }
  cbv zeta. cbn [sqrt_loop].
  replace (Z.of_nat (S m)) with (Z.of_nat m + 1) in * by lia. set (k := Z.of_nat m) in *.
  assert (H4 : 4 ^ (k + 1) = 4 * 4 ^ k) by (rewrite Z.pow_add_r by lia; lia). rewrite H4 in *.
  assert (Hk : 0 < 4 ^ k) by (apply Z.pow_pos_nonneg; lia).
  set (d := r / 4 ^ k). set (r' := r mod 4 ^ k). pose proof (Z.div_mod r (4 ^ k) ltac:(lia)) as Hdm.
  fold d r' in Hdm. pose proof (Z.mod_pos_bound r (4 ^ k) Hk) as Hr'. fold r' in Hr'.
  assert (Hd : 0 <= d < 4) by (split; [apply Z.div_pos; lia|apply Z.div_lt_upper_bound; lia]).
  assert (Hx1 : 4 ^ k * 2 ^ (xw - 2 * (k + 1)) = 2 ^ (xw - 2)).
  { change 4 with (2 ^ 2). rewrite <- Z.pow_mul_r, <- Z.pow_add_r by lia. f_equal. lia. }
  set (q := 2 ^ (xw - 2 * (k + 1))) in *. assert (Hq : 0 < q) by (apply Z.pow_pos_nonneg; lia).
  assert (Hxq : 4 * q = 2 ^ (xw - 2 * k)).
  { unfold q. change 4 with (2 ^ 2). rewrite <- Z.pow_add_r by lia. f_equal. lia. }
  assert (Hxw4 : 2 ^ xw = 4 * 2 ^ (xw - 2)) by (change 4 with (2 ^ 2); rewrite <- Z.pow_add_r by lia; f_equal; lia).
  rewrite Z.shiftr_div_pow2 by lia.
  replace (r * q / 2 ^ (xw - 2)) with d by (apply Z.div_unique with (r' * q); nia).
  replace (uwrap xw (Z.shiftl (r * q) 2)) with (r' * (4 * q)).
  2: { unfold uwrap. rewrite Z.shiftl_mul_pow2 by lia. change (2 ^ 2) with 4. apply Z.mod_unique with d; nia. }
  rewrite Hxq. pose proof (Z.sqrt_spec X HX) as Hs. pose proof (Z.sqrt_nonneg X) as Hs0. cbv zeta in Hs.
  pose proof (sqrt_next X d HX Hd) as Hnext. cbv zeta in Hnext. set (s := Z.sqrt X) in *.
  (* [s] is small enough for the remainder to fit *)
  assert (Hp : 2 ^ (2 * rw - 4) = 4 * (2 ^ (rw - 3) * 2 ^ (rw - 3))).
  { rewrite <- Z.pow_add_r by lia. change 4 with (2 ^ 2) at 2. rewrite <- Z.pow_add_r by lia. f_equal. lia. }
  assert (Hrw8 : 2 ^ rw = 8 * 2 ^ (rw - 3)) by (change 8 with (2 ^ 3); rewrite <- Z.pow_add_r by lia; f_equal; lia).
  assert (Hsb : s < 2 ^ (rw - 3)) by nia.
  assert (Hlor : Z.lor (Z.shiftl (X - s * s) 2) d = 4 * (X - s * s) + d) by (rewrite lor_shiftl_add by lia; lia).
  rewrite Hlor, Z.shiftl_mul_pow2 by lia. change (2 ^ 1) with 2.
  rewrite !(uwrap_small rw) by nia. replace (2 * s * 2) with (2 * (2 * s)) by lia.
  rewrite lor_even_1. replace (4 * s) with (2 * (2 * s)) in Hnext by lia.
  assert (Hval : X * (4 * 4 ^ k) + r = (4 * X + d) * 4 ^ k + r') by nia. rewrite Hval in *.
  destruct (Z.ltb_spec (2 * (2 * s)) (4 * (X - s * s) + d)) as [Hlt|Hge].
  - rewrite !(uwrap_small rw) by nia. rewrite <- (IH (4 * X + d) r') by nia. rewrite Hnext. f_equal; lia.
  - rewrite <- (IH (4 * X + d) r') by nia. rewrite Hnext. f_equal; lia.
Qed.

Lemma sqrt_loop_full m rw xw x :
  3 <= rw -> xw = 2 * Z.of_nat m -> 0 <= x < 2 ^ xw -> x < 2 ^ (2 * rw - 4) ->
  sqrt_loop m rw xw 0 0 x = 2 * Z.sqrt x.
Proof.
  intros Hrw Hxw Hx Hb. pose proof (sqrt_loop_ok m rw xw 0 x Hrw ltac:(lia) ltac:(lia)) as H.
  replace (4 ^ Z.of_nat m) with (2 ^ xw) in H by (rewrite Hxw; change 4 with (2 ^ 2); by rewrite <- Z.pow_mul_r by lia).
  cbv zeta in H. change (Z.sqrt 0) with 0 in H. replace (xw - 2 * Z.of_nat m) with 0 in H by lia.
  rewrite Z.mul_1_r in H. apply H; lia.
Qed.

Lemma half_double w s : 0 <= s < 2 ^ w -> uwrap w (Z.shiftr (2 * s) 1) = s.
Proof. intros Hs. rewrite Z.shiftr_div_pow2, Z.mul_comm by lia. change (2 ^ 1) with 2. rewrite Z.div_mul by lia. by apply uwrap_small. Qed.

Lemma sqrt_lt a w : 0 <= a < 2 ^ (2 * w) -> 0 <= w -> 0 <= Z.sqrt a < 2 ^ w.
Proof.
  intros Ha Hw. split; [apply Z.sqrt_nonneg|]. apply Z.sqrt_lt_square; try lia.
  rewrite <- Z.pow_add_r by lia. replace (w + w) with (2 * w) by lia. lia.
Qed.

Lemma math_sqrt32_ok x : in_u 32 x -> math_sqrt32 x = Z.sqrt x.
Proof.
  unfold in_u, math_sqrt32. intros Hx. rewrite (sqrt_loop_full 16 32 32) by (try lia; cbn; lia).
  apply half_double. by apply (sqrt_lt x 16).
Qed.

(** The integer square roots return the floor of the square root: of every 16 and
    32 bit number, and of every 64 bit number below 2^60. *)
Theorem math_sqrt_correct x :
  (in_u 16 x -> math_sqrt16 x = Z.sqrt x) /\ (in_u 32 x -> math_sqrt32 x = Z.sqrt x) /\
  (0 <= x < 2 ^ 60 -> math_sqrt64 x = Z.sqrt x).
Proof.
  split; [|split; [apply math_sqrt32_ok|]]; unfold in_u, math_sqrt16, math_sqrt64; intros Hx.
  - rewrite (sqrt_loop_full 8 16 16) by (try lia; cbn; lia). apply half_double. by apply (sqrt_lt x 8).
  - rewrite (sqrt_loop_full 32 32 64) by (try lia; cbn; lia). apply half_double. apply (sqrt_lt x 32); lia.
Qed.

Lemma math_sqrt_correct_witness : math_sqrt64 (10 ^ 17) = 316227766.
Proof.
  destruct (math_sqrt_correct (10 ^ 17)) as (_ & _ & H64). rewrite H64; [reflexivity|lia].
Defined.

(** The 64 bit square root keeps its remainder in 32 bits, and is wrong for large
    arguments: the root of 2^62 is zero. *)
Example math_sqrt64_overflow : math_sqrt64 (2 ^ 62) = 0 /\ Z.sqrt (2 ^ 62) = 2 ^ 31.
Proof. vm_compute. done. Qed.

(** ** Vectors *)

Lemma s16_square x : in_s 16 x -> 0 <= x * x <= 2 ^ 30 /\ u32 (s32 (x * x)) = x * x.
Proof.
  unfold in_s. intros Hx. assert (Hs : 0 <= x * x <= 2 ^ 30) by (change (2 ^ (16 - 1)) with 32768 in Hx; nia).
  split; [done|]. rewrite swrap_small by (unfold in_s; lia). apply uwrap_small. lia.
Qed.

(** Magnitudes and dot products of 16 bit vectors do not overflow: they are the
    floor of the root of the sum of squares, and the sum of products. *)
Theorem vector_math_exact ax ay az bx by_ bz :
  in_s 16 ax -> in_s 16 ay -> in_s 16 az -> in_s 16 bx -> in_s 16 by_ -> in_s 16 bz ->
  math_vector_xy_magnitude ax ay = Z.sqrt (ax * ax + ay * ay) /\
  math_vector_xyz_magnitude ax ay az = Z.sqrt (ax * ax + ay * ay + az * az) /\
  math_vector_xyz_dot_product ax ay az bx by_ bz = ax * bx + ay * by_ + az * bz.
Proof.
  intros Hax Hay Haz Hbx Hby Hbz.
  destruct (s16_square ax Hax) as (Hx & Ex), (s16_square ay Hay) as (Hy & Ey), (s16_square az Haz) as (Hz & Ez).
  unfold math_vector_xy_magnitude, math_vector_xyz_magnitude, math_vector_xy_sq_magnitude,
    math_vector_xyz_sq_magnitude, math_vector_xyz_dot_product. rewrite Ex, Ey, Ez.
  rewrite !(uwrap_small 32) by lia. split; [apply math_sqrt32_ok; unfold in_u; lia|].
  split; [apply math_sqrt32_ok; unfold in_u; lia|].
  assert (Hp : forall a b, in_s 16 a -> in_s 16 b -> - 2 ^ 30 <= a * b <= 2 ^ 30).
  { unfold in_s. change (2 ^ (16 - 1)) with 32768. intros; nia. }
  pose proof (Hp _ _ Hax Hbx). pose proof (Hp _ _ Hay Hby). pose proof (Hp _ _ Haz Hbz).
  rewrite !(swrap_small 32) by (unfold in_s; lia). 
  rewrite (swrap_small 64 (ax * bx)), (swrap_small 64 (ay * by_)), (swrap_small 64 (az * bz)) by (unfold in_s; lia).
  rewrite (swrap_small 64 (ax * bx + ay * by_)) by (unfold in_s; lia). apply swrap_small; unfold in_s; lia.
Qed.

Lemma vector_math_exact_witness :
  math_vector_xyz_magnitude (-32768) (-32768) (-32768) = 56755 /\
  math_vector_xyz_dot_product (-32768) (-32768) (-32768) (-32768) (-32768) (-32768) = 3221225472.
Proof.
  destruct (vector_math_exact (-32768) (-32768) (-32768) (-32768) (-32768) (-32768)) as (_ & -> & ->);
    [unfold in_s; lia..|]. split; reflexivity.
Defined.

(** ** Bitmask iteration *)

(** The [m] bit positions from [start + k] on, around the word. *)
Definition ring (start : Z) (k m : nat) : list Z := map (fun i => (start + Z.of_nat i) mod 32) (seq k m).

Definition set_bits (bitmask : Z) (ps : list Z) : list Z := filter (fun p => Z.testbit bitmask p = true) ps.

Definition bits_word (ps : list Z) (out : Z) : Z := fold_left (fun w p => Z.lor w (2 ^ p)) ps out.

Lemma land_bit idx bitmask : 0 <= idx -> negb (Z.land (Z.shiftl 1 idx) bitmask =? 0) = Z.testbit bitmask idx.
Proof.
  intros Hi. rewrite Z.shiftl_1_l, Z.land_comm. destruct (Z.testbit bitmask idx) eqn:E.
  - apply negb_true_iff, Z.eqb_neq. intros H0. apply (f_equal (fun z => Z.testbit z idx)) in H0.
    by rewrite Z.land_spec, E, Z.pow2_bits_true, Z.testbit_0_l in H0.
  - apply negb_false_iff, Z.eqb_eq, Z.bits_inj_0. intros k. rewrite Z.land_spec.
    destruct (Z.eq_dec k idx) as [->|Hne]; [by rewrite E|].
    rewrite Z.pow2_bits_false by lia. apply andb_false_r.
Qed.

Lemma next_bits_loop_ok m fuel bitmask start k n out :
  0 <= start < 32 -> (32 = k + m)%nat -> (m < fuel)%nat -> (n <= length (set_bits bitmask (ring start k m)))%nat ->
  let chosen := take n (set_bits bitmask (ring start k m)) in
  exists next, next_bits_loop fuel bitmask ((start + Z.of_nat k) mod 32) (Z.of_nat n) out =
    Done (bits_word chosen out, next) /\ 0 <= next < 32 /\
    (forall p, last chosen = Some p -> next = (p + 1) mod 32).
Proof.
  intros Hs. revert fuel k n out. induction m as [|m IH]; intros fuel k n out Hk Hf Hn;
    (destruct fuel as [|fuel]; [lia|]); cbv zeta; cbn [next_bits_loop];
    pose proof (Z.mod_pos_bound (start + Z.of_nat k) 32 ltac:(lia)) as Hb.
  { cbn in Hn. assert (n = 0%nat) as -> by lia. by eexists. }
  destruct n as [|n]; [by eexists|]. change (Z.of_nat (S n) =? 0) with false. cbn [negb].
  replace (32 <=? (start + Z.of_nat k) mod 32) with false by lia. rewrite land_bit by lia.
  assert (Hnext : u8 (((start + Z.of_nat k) mod 32 + 1) mod 32) = (start + Z.of_nat (S k)) mod 32).
  { rewrite Zplus_mod_idemp_l. pose proof (Z.mod_pos_bound (start + Z.of_nat k + 1) 32 ltac:(lia)).
    rewrite uwrap_small by lia. f_equal. lia. }
  rewrite Hnext. change (ring start k (S m)) with ((start + Z.of_nat k) mod 32 :: ring start (S k) m) in *.
  unfold set_bits in *. destruct (Z.testbit bitmask ((start + Z.of_nat k) mod 32)) eqn:Eb.
  - rewrite filter_cons_True in * by done. cbn [take length] in *. unfold bits_word. cbn [fold_left].
    rewrite <- Z.shiftl_1_l. replace (Z.of_nat (S n) - 1) with (Z.of_nat n) by lia.
    destruct (IH fuel (S k) n (Z.lor out (Z.shiftl 1 ((start + Z.of_nat k) mod 32)))) as (next & Hd & Hr & Hl); try lia.
    exists next. split; [exact Hd|]. split; [done|]. intros p. rewrite last_cons.
    destruct n as [|n]; [|destruct (last (take (S n) _)) eqn:El; [apply Hl|]].
    + cbn. intros [= <-]. destruct fuel; cbn in Hd; [lia|]. injection Hd as <-.
      rewrite Zplus_mod_idemp_l. f_equal. lia.
    + apply last_None in El. apply (f_equal length) in El. rewrite length_take in El. change (length (@nil Z)) with 0%nat in El. lia.
  - rewrite filter_cons_False in * by (by rewrite Eb). apply IH; lia || done.
Qed.

(** A turn around the word meets every bit once. *)
Lemma ring_set_bits bitmask start :
  0 <= start < 32 -> zlen (set_bits bitmask (ring start 0 32)) = popcount32 bitmask.
Proof.
  intros Hs. unfold popcount32, zlen. f_equal. apply Permutation_length. unfold set_bits.
  apply filter_Permutation. apply Permutation_sym, NoDup_Permutation.
  - apply NoDup_fmap_2; [intros a b; apply Nat2Z.inj|apply NoDup_seq].
  - apply NoDup_fmap_2_strong; [|apply NoDup_seq]. intros a b Ha Hb Hab.
    rewrite elem_of_seq in Ha, Hb. pose proof (Z.div_mod (start + Z.of_nat a) 32 ltac:(lia)).
    pose proof (Z.div_mod (start + Z.of_nat b) 32 ltac:(lia)). lia.
  - intros x. unfold ring. rewrite !list_elem_of_fmap. split; intros (k & -> & Hk); rewrite elem_of_seq in Hk.
    + exists (Z.to_nat ((Z.of_nat k - start) mod 32)).
      pose proof (Z.mod_pos_bound (Z.of_nat k - start) 32 ltac:(lia)). rewrite elem_of_seq. split; [|lia].
      rewrite Z2Nat.id, Zplus_mod_idemp_r by lia. replace (start + (Z.of_nat k - start)) with (Z.of_nat k) by lia.
      symmetry. apply Z.mod_small. lia.
    + pose proof (Z.mod_pos_bound (start + Z.of_nat k) 32 ltac:(lia)).
      exists (Z.to_nat ((start + Z.of_nat k) mod 32)). rewrite elem_of_seq. lia.
Qed.

(** [math_bitmask_get_next_bits] always returns: the result is made of the first
    [num_bits] set bits at or after [start_idx], around the word, or of all set bits
    if there are fewer, and the next index follows the last of them. *)
Theorem next_bits_correct bitmask start num :
  0 <= start < 32 -> 0 <= num < 256 ->
  let chosen := take (Z.to_nat num) (set_bits bitmask (ring start 0 32)) in
  exists next, math_bitmask_get_next_bits bitmask start num = Done (bits_word chosen 0, next) /\
    zlen chosen = Z.min num (popcount32 bitmask) /\ 0 <= next < 32 /\
    (forall p, last chosen = Some p -> next = (p + 1) mod 32).
Proof.
  intros Hs Hn chosen. pose proof (ring_set_bits bitmask start Hs) as Hpop.
  set (bits := set_bits bitmask (ring start 0 32)) in *.
  assert (Hle : (length bits <= 32)%nat).
  { unfold bits, set_bits. etrans; [apply length_filter|]. unfold ring. by rewrite length_map, length_seq. }
  unfold math_bitmask_get_next_bits. rewrite <- Hpop. unfold zlen in *. rewrite uwrap_small by lia.
  set (n := Z.to_nat (Z.min num (Z.of_nat (length bits)))).
  assert (Hch : chosen = take n bits).
  { unfold chosen, n. destruct (Z.le_ge_cases num (Z.of_nat (length bits))).
    - by rewrite Z.min_l by lia.
    - rewrite Z.min_r, Nat2Z.id by lia. by rewrite !take_ge by lia. }
  destruct (next_bits_loop_ok 32 33 bitmask start 0 n 0 Hs ltac:(lia) ltac:(lia)) as (next & Hd & Hr & Hl).
  { fold bits. lia. }
  fold bits in Hd, Hl. rewrite Z.add_0_r, Z.mod_small in Hd by lia. unfold n in Hd at 1. rewrite Z2Nat.id in Hd by lia.
  exists next. rewrite Hch. split; [exact Hd|]. split; [rewrite length_take; lia|]. done.
Qed.

Lemma next_bits_correct_witness :
  exists next, math_bitmask_get_next_bits 0x80000005 2 2 = Done (Z.lor (2 ^ 2) (2 ^ 31), next) /\ next = 0.
Proof.
  destruct (next_bits_correct 0x80000005 2 2) as (next & Hd & _ & _ & Hl); [lia|lia|].
  exists next. split; [exact Hd|]. exact (Hl 31 ltac:(vm_compute; reflexivity)).
Defined.

(** ** Interpolation *)

Lemma int32_ok z : - 2 ^ 31 <= z < 2 ^ 31 -> int32 z = Done z.
Proof. intros Hz. unfold int32, IN_RANGE. replace (_ && _) with true by lia. done. Qed.

Lemma quot_between d n m : 0 < m -> 0 <= n <= m -> Z.min 0 d <= Z.quot (d * n) m <= Z.max 0 d.
Proof.
  intros Hm Hn. destruct (Z.le_gt_cases 0 d) as [Hd|Hd].
  - rewrite Z.quot_div_nonneg by nia. split; [apply Z.div_le_lower_bound; nia|apply Z.div_le_upper_bound; nia].
  - replace (d * n) with (- (- d * n)) by lia. rewrite Z.quot_opp_l, Z.quot_div_nonneg by nia.
    assert (0 <= (- d * n) / m <= - d) by (split; [apply Z.div_pos; nia|apply Z.div_le_upper_bound; nia]). lia.
Qed.

(** Inside the two points, and with differences whose product fits, nothing
    overflows and the result lies between the two values. *)
Lemma interpolate_ok x0 x1 y0 y1 x :
  x0 < x1 -> x0 <= x <= x1 -> x1 - x0 < 2 ^ 31 -> in_s 32 y0 -> in_s 32 y1 ->
  Z.abs (y1 - y0) * (x1 - x0) < 2 ^ 31 ->
  exists y, math_2d_linear_interpolate_fast x0 x1 y0 y1 x = Done y /\
    y = y0 + Z.quot ((y1 - y0) * (x - x0)) (x1 - x0) /\ Z.min y0 y1 <= y <= Z.max y0 y1.
Proof.
  intros Hx Hr Hdx Hy0 Hy1 Hp. unfold in_s in *. change (2 ^ (32 - 1)) with (2 ^ 31) in *.
  pose proof (quot_between (y1 - y0) (x - x0) (x1 - x0) ltac:(lia) ltac:(lia)) as Hq.
  assert (Hd : Z.abs (y1 - y0) <= Z.abs (y1 - y0) * (x1 - x0)) by nia.
  assert (Hn : Z.abs ((y1 - y0) * (x - x0)) <= Z.abs (y1 - y0) * (x1 - x0)) by (rewrite Z.abs_mul; nia).
  unfold math_2d_linear_interpolate_fast. replace (x1 =? x0) with false by lia.
  rewrite (int32_ok (y1 - y0)), (int32_ok (x - x0)) by lia. cbn [exec_bind].
  rewrite int32_ok by lia. cbn [exec_bind]. rewrite (int32_ok (x1 - x0)) by lia. cbn [exec_bind].
  rewrite int32_ok by lia. cbn [exec_bind]. rewrite int32_ok by lia.
  eexists. split; [done|]. split; [done|]. lia.
Qed.
