(* ===== verification/Statistics.v ===== *)
(** * Running statistics ([lib/math/statistics.c], [include/infuse/math/statistics.h])

    Mean and variance of a stream in integers: quotients are kept as approximations
    and remainders as corrections, so that nothing is lost. *)

From stdpp Require Import base tactics numbers list.
From Stdlib Require Import ZArith Lia.
From S2P Require Import Prelude.

Local Open Scope Z_scope.

(** struct statistics_state *)
Record statistics_state := StatsState {
  st_v : Z;
  st_w : Z;
  st_m : Z;
  st_p : Z;
  st_n : Z;
}.

Definition statistics_reset : statistics_state := StatsState 0 0 0 0 0.

Definition statistics_update (state : statistics_state) (x : Z) : statistics_state :=
  let m1 := st_m state in
  let p1 := st_p state in
  let w1 := st_w state in
  let v1 := st_v state in
  let n1 := st_n state in
  let n := u32 (n1 + 1) in
  if n =? 1 then StatsState v1 w1 x p1 n
  else
    let normalised := s64 (x - m1) in
    let p_ := s64 (p1 + normalised) in
    let delta_m := Z.quot p_ n in
    let w_ := s64 (s64 (w1 + s64 (normalised * normalised)) - v1) in
    let w__ := s64 (s64 (w_ - s64 (s64 (2 * delta_m) * p_)) + s64 (s64 (n * delta_m) * delta_m)) in
    let delta_v := Z.quot w__ n1 in
    StatsState (s64 (v1 + delta_v)) (s64 (w__ - s64 (n1 * delta_v))) (s32 (s64 (m1 + delta_m)))
      (s32 (s64 (p_ - s64 (n * delta_m)))) n.

Definition statistics_mean_rough (state : statistics_state) : Z := st_m state.

Definition statistics_variance_rough (state : statistics_state) : Z :=
  if st_n state <? 2 then 0 else u64 (s64 (st_v state + Z.quot (st_w state) (st_n state - 1))).

(** ** Sums *)

Definition zsum (xs : list Z) : Z := fold_right Z.add 0 xs.

(** The sum of squared deviations from [m]. *)
Definition sum_sq (m : Z) (xs : list Z) : Z := zsum (map (fun x => (x - m) * (x - m)) xs).

Lemma zsum_app a b : zsum (a ++ b) = zsum a + zsum b.
Proof. unfold zsum. induction a as [|x a IH]; cbn; [done|]. rewrite IH. lia. Qed.

Lemma sum_sq_app m a b : sum_sq m (a ++ b) = sum_sq m a + sum_sq m b.
Proof. unfold sum_sq. by rewrite map_app, zsum_app. Qed.

(** Moving the reference point. *)
Lemma sum_sq_shift m d xs :
  sum_sq (m + d) xs = sum_sq m xs - 2 * d * (zsum xs - zlen xs * m) + zlen xs * (d * d).
Proof.
  induction xs as [|x xs IH]; [change (zlen (@nil Z)) with 0; unfold sum_sq, zsum; cbn [map fold_right]; lia|]. rewrite !zlen_cons.
  unfold sum_sq, zsum in *. cbn [map fold_right]. rewrite IH. ring.
Qed.

Lemma sum_sq_bound m xs X :
  0 <= X -> - X <= m <= X -> Forall (fun x => - X <= x <= X) xs -> 0 <= sum_sq m xs <= zlen xs * (4 * X * X).
Proof.
  intros HX Hm. induction 1 as [|x xs Hx _ IH]; [change (zlen (@nil Z)) with 0; unfold sum_sq, zsum; cbn [map fold_right]; lia|]. rewrite zlen_cons.
  unfold sum_sq, zsum in *. cbn [map fold_right]. 
  assert (Hd : - (2 * X) <= x - m <= 2 * X) by lia. set (t := x - m) in *. assert (0 <= t * t <= 4 * X * X) by nia. lia.
Qed.

Lemma zsum_bound xs X :
  0 <= X -> Forall (fun x => - X <= x <= X) xs -> - (zlen xs * X) <= zsum xs <= zlen xs * X.
Proof.
  intros HX. induction 1 as [|x xs Hx _ IH]; [change (zlen (@nil Z)) with 0; unfold sum_sq, zsum; cbn [map fold_right]; lia|]. rewrite zlen_cons. unfold zsum in *. cbn [fold_right]. lia.
Qed.

(** ** The invariant *)

(** The state after the samples [xs]: mean and correction, variance and correction. *)
Record stats_inv (s : statistics_state) (xs : list Z) : Prop := {
  stats_count : st_n s = zlen xs;
  stats_mean : zlen xs * st_m s + st_p s = zsum xs;
  stats_mean_rem : 0 < zlen xs -> - zlen xs < st_p s < zlen xs;
  stats_var : (zlen xs - 1) * st_v s + st_w s = sum_sq (st_m s) xs;
  stats_var_rem : (1 < zlen xs -> - (zlen xs - 1) < st_w s < zlen xs - 1) /\
    (zlen xs <= 1 -> st_v s = 0 /\ st_w s = 0);
}.

Lemma abs_mul_le a b A B : Z.abs a <= A -> Z.abs b <= B -> Z.abs (a * b) <= A * B.
Proof. intros Ha Hb. rewrite Z.abs_mul. apply Z.mul_le_mono_nonneg; lia. Qed.

Lemma quot_bound a b : 0 < b -> - b < a - b * Z.quot a b < b /\ Z.abs (b * Z.quot a b) <= Z.abs a /\ Z.abs (Z.quot a b) <= Z.abs a.
Proof.
  intros Hb. pose proof (Z.quot_rem' a b) as Hq. pose proof (Z.rem_bound_abs a b ltac:(lia)) as Hr.
  split; [lia|]. assert (Hs : 0 <= a * Z.rem a b) by (pose proof (Z.rem_sign_mul a b ltac:(lia)); lia).
  assert (Hle : Z.abs (b * Z.quot a b) <= Z.abs a).
  { destruct (Z.lt_trichotomy (Z.rem a b) 0) as [?|[?|?]]; destruct (Z.lt_trichotomy a 0) as [?|[?|?]]; try nia;
      pose proof (Z.quot_pos a b); pose proof (Z.quot_opp_l a b ltac:(lia)); pose proof (Z.quot_pos (- a) b); lia. }
  split; [done|]. nia.
Qed.

(** Samples and counts below 2^28 stay within the machine widths. *)
Lemma statistics_update_exact s x :
  0 < st_n s < 2 ^ 28 -> - 2 ^ 28 <= x <= 2 ^ 28 -> - 2 ^ 28 <= st_m s <= 2 ^ 28 ->
  - 2 ^ 28 <= st_p s <= 2 ^ 28 -> - 2 ^ 28 <= st_w s <= 2 ^ 28 -> - 2 ^ 60 < st_v s < 2 ^ 60 ->
  let n := st_n s + 1 in
  let q := st_p s + (x - st_m s) in
  let d := Z.quot q n in
  let ww := st_w s + (x - st_m s) * (x - st_m s) - st_v s - 2 * d * q + n * d * d in
  let e := Z.quot ww (st_n s) in
  statistics_update s x = StatsState (st_v s + e) (ww - st_n s * e) (st_m s + d) (q - n * d) n.
Proof.
  destruct s as [v w m p N]. cbn [st_v st_w st_m st_p st_n]. intros HN Hx Hm Hp Hw Hv.
  unfold statistics_update. cbn [st_v st_w st_m st_p st_n]. cbv zeta.
  rewrite uwrap_small by lia. replace (N + 1 =? 1) with false by lia.
  remember (x - m) as norm eqn:En. assert (Hnorm : - 2 ^ 29 <= norm <= 2 ^ 29) by lia. clear En Hx.
  rewrite (swrap_small 64 norm) by (unfold in_s; lia).
  remember (p + norm) as q eqn:Eq. assert (Hq : - 2 ^ 30 < q < 2 ^ 30) by lia. clear Eq Hp.
  rewrite (swrap_small 64 q) by (unfold in_s; lia).
  destruct (quot_bound q (N + 1) ltac:(lia)) as (Hd1 & Hd2 & Hd3). remember (Z.quot q (N + 1)) as d eqn:Ed. clear Ed.
  assert (Hn2 : 0 <= norm * norm <= 2 ^ 58).
  { split; [apply Z.square_nonneg|]. pose proof (abs_mul_le norm norm (2 ^ 29) (2 ^ 29)). lia. }
  assert (Hdq : Z.abs (d * q) <= 2 ^ 60) by (apply (abs_mul_le d q (2 ^ 30) (2 ^ 30)); lia).
  assert (Hnd : Z.abs ((N + 1) * d * d) <= 2 ^ 60) by (apply (abs_mul_le ((N + 1) * d) d (2 ^ 30) (2 ^ 30)); lia).
  replace (2 * d * q) with (2 * (d * q)) by lia.
  remember (norm * norm) as n2 eqn:E1. remember (d * q) as dq eqn:E3. remember ((N + 1) * d) as Nd eqn:E4.
  remember (Nd * d) as nd eqn:E2. clear E1 E4.
  rewrite (swrap_small 64 n2), (swrap_small 64 (w + n2)), (swrap_small 64 (w + n2 - v)), (swrap_small 64 (2 * d)),
    (swrap_small 64 Nd) by (unfold in_s; lia).
  replace (2 * d * q) with (2 * dq) by lia. rewrite <- E2. clear E2 E3.
  rewrite (swrap_small 64 (2 * dq)), (swrap_small 64 (w + n2 - v - 2 * dq)), (swrap_small 64 nd) by (unfold in_s; lia).
  remember (w + n2 - v - 2 * dq + nd) as ww eqn:Eww. assert (Hww : - (3 * 2 ^ 61) < ww < 3 * 2 ^ 61) by lia.
  clear Eww. rewrite (swrap_small 64 ww) by (unfold in_s; lia).
  destruct (quot_bound ww N ltac:(lia)) as (He1 & He2 & He3). remember (Z.quot ww N) as e eqn:Ee. clear Ee.
  rewrite (swrap_small 64 (N * e)) by (unfold in_s; lia).
  rewrite (swrap_small 64 (v + e)), (swrap_small 64 (ww - N * e)), (swrap_small 64 (m + d)), (swrap_small 64 (q - Nd))
    by (unfold in_s; lia).
  by rewrite !(swrap_small 32) by (unfold in_s; lia).
Qed.

Lemma statistics_update_inv s xs x :
  stats_inv s xs -> Forall (fun x => - 2 ^ 28 <= x <= 2 ^ 28) (xs ++ [x]) -> zlen xs < 2 ^ 28 ->
  stats_inv (statistics_update s x) (xs ++ [x]).
Proof.
  intros [Hn Hm Hp Hv Hw] Hall Hlen. pose proof (zlen_nonneg xs) as Hl0.
  apply Forall_app in Hall as [Hxs Hx]. apply Forall_inv in Hx.
  assert (Hzl : zlen (xs ++ [x]) = zlen xs + 1) by (by rewrite zlen_app).
  destruct (Z.eq_dec (zlen xs) 0) as [Hz|Hz].
  { assert (xs = []) as -> by (destruct xs; [done|rewrite zlen_cons in *; pose proof (zlen_nonneg xs); lia]).
    unfold statistics_update. rewrite Hn. change (zlen (@nil Z)) with 0 in *. change (zsum []) with 0 in Hm.
    change (u32 (0 + 1) =? 1) with true. cbv iota. destruct Hw as (_ & Hw). destruct (Hw ltac:(lia)) as (-> & ->).
    split; rewrite ?Hzl; cbn [st_n st_m st_p st_v st_w app]; unfold sum_sq, zsum; cbn [map fold_right]; try done; lia. }
  pose proof (zsum_bound xs (2 ^ 28) ltac:(lia) Hxs) as Hsb. specialize (Hp ltac:(lia)).
  assert (Hmb : - 2 ^ 28 <= st_m s <= 2 ^ 28).
  { split; apply Z.lt_succ_r; apply (Z.mul_lt_mono_pos_l (zlen xs)); lia. }
  pose proof (sum_sq_bound (st_m s) xs (2 ^ 28) ltac:(lia) Hmb Hxs) as Hqb.
  assert (Hwb : - 2 ^ 28 <= st_w s <= 2 ^ 28 /\ - 2 ^ 60 < st_v s < 2 ^ 60).
  { destruct (Z.eq_dec (zlen xs) 1) as [HN|HN]; [destruct Hw as (_ & Hw); destruct (Hw ltac:(lia)) as (-> & ->); lia|].
    destruct Hw as (Hw & _). specialize (Hw ltac:(lia)). split; [lia|].
    change (4 * 2 ^ 28 * 2 ^ 28) with (2 ^ 58) in Hqb. split; apply (Z.mul_lt_mono_pos_l (zlen xs - 1)); lia. }
  pose proof (statistics_update_exact s x ltac:(lia) Hx Hmb ltac:(lia) (proj1 Hwb) (proj2 Hwb)) as Hup.
  cbv zeta in Hup. rewrite Hn in Hup. rewrite Hup. clear Hup Hsb Hqb Hmb Hwb Hxs Hx.
  set (N := zlen xs) in *. set (q := st_p s + (x - st_m s)). set (d := Z.quot q (N + 1)).
  destruct (quot_bound q (N + 1) ltac:(lia)) as (Hd1 & _). fold d in Hd1.
  set (ww := st_w s + _ - _ - _ + _). destruct (quot_bound ww N ltac:(lia)) as (He1 & _). set (e := Z.quot ww N) in *.
  split; cbn [st_n st_m st_p st_v st_w]; rewrite ?Hzl, ?zsum_app; fold N.
  - done.
  - change (zsum [x]) with (x + 0). unfold q. lia.
  - lia.
  - rewrite sum_sq_app, sum_sq_shift. fold N. unfold sum_sq at 2. cbn [map zsum fold_right].
    replace (zsum xs - N * st_m s) with (st_p s) by lia. rewrite <- Hv. unfold ww, q. ring.
  - split; lia.
Qed.

Lemma statistics_fold_inv s xs ys :
  stats_inv s xs -> Forall (fun x => - 2 ^ 28 <= x <= 2 ^ 28) (xs ++ ys) -> zlen (xs ++ ys) <= 2 ^ 28 ->
  stats_inv (fold_left statistics_update ys s) (xs ++ ys).
Proof.
  revert s xs. induction ys as [|y ys IH]; intros s xs Hs Hall Hlen; [by rewrite app_nil_r|].
  replace (xs ++ y :: ys) with ((xs ++ [y]) ++ ys) in * by (by rewrite <- app_assoc). cbn [fold_left].
  apply IH; try done. apply statistics_update_inv; [done|by apply Forall_app in Hall as [? _]|].
  rewrite !zlen_app in Hlen. pose proof (zlen_nonneg ys). change (zlen [y]) with 1 in Hlen. lia.
Qed.

(** Running statistics are exact: after any samples below 2^28 in magnitude (and
    at most 2^28 of them), the sum of the samples and the sum of their squared
    deviations from the mean approximation are recovered without loss from the state;
    so the rough mean is within one of the mean, and the rough variance within one of
    the variance about it. *)
Theorem statistics_exact xs :
  Forall (fun x => - 2 ^ 28 <= x <= 2 ^ 28) xs -> zlen xs <= 2 ^ 28 ->
  let s := fold_left statistics_update xs statistics_reset in
  let n := zlen xs in
  st_n s = n /\ n * st_m s + st_p s = zsum xs /\ (n - 1) * st_v s + st_w s = sum_sq (st_m s) xs /\
  (0 < n -> Z.abs (n * statistics_mean_rough s - zsum xs) < n) /\
  (2 <= n -> Z.abs ((n - 1) * statistics_variance_rough s - sum_sq (statistics_mean_rough s) xs) < n - 1).
Proof.
  intros Hall Hlen. cbv zeta.
  assert (H0 : stats_inv statistics_reset []) by (split; try done; split; done).
  destruct (statistics_fold_inv statistics_reset [] xs H0 Hall Hlen) as [Hn Hm Hp Hv Hw]. cbn [app] in *.
  set (s := fold_left statistics_update xs statistics_reset) in *.
  split; [done|]. split; [done|]. split; [done|]. unfold statistics_mean_rough, statistics_variance_rough.
  split; [intros Hpos; specialize (Hp Hpos); lia|]. intros H2. rewrite Hn. replace (zlen xs <? 2) with false by lia.
  destruct (Z.eq_dec (zlen xs) 1); [lia|]. destruct Hw as (Hw & _). specialize (Hw ltac:(lia)).
  assert (Hq : Z.quot (st_w s) (zlen xs - 1) = 0) by (apply Z.quot_small_iff; lia). rewrite Hq, Z.add_0_r.
  specialize (Hp ltac:(lia)). pose proof (zsum_bound xs (2 ^ 28) ltac:(lia) Hall) as Hsb.
  assert (Hmb : - 2 ^ 28 <= st_m s <= 2 ^ 28).
  { split; apply Z.lt_succ_r; apply (Z.mul_lt_mono_pos_l (zlen xs)); lia. }
  pose proof (sum_sq_bound (st_m s) xs (2 ^ 28) ltac:(lia) Hmb Hall) as Hqb.
  assert (Hvb : 0 <= st_v s < 2 ^ 60).
  { change (4 * 2 ^ 28 * 2 ^ 28) with (2 ^ 58) in Hqb.
    split; [apply Z.lt_succ_r|]; apply (Z.mul_lt_mono_pos_l (zlen xs - 1)); lia. }
  rewrite swrap_small, uwrap_small by (unfold in_s; lia). lia.
Qed.

Lemma statistics_exact_witness :
  let s := fold_left statistics_update [10; -3; 7; 4] statistics_reset in
  4 * st_m s + st_p s = 18 /\ 3 * st_v s + st_w s = sum_sq (st_m s) [10; -3; 7; 4].
Proof.
  destruct (statistics_exact [10; -3; 7; 4]) as (_ & Hm & Hv & _); [repeat constructor; lia|vm_compute; congruence|].
  exact (conj Hm Hv).
Defined.
