(* ===== verification/Filter.v ===== *)
(** * Integer IIR filters ([include/infuse/math/filter.h])

    Single pole low pass filters that keep the fraction their output drops. *)

From stdpp Require Import base tactics numbers list.
From Stdlib Require Import ZArith Lia.
From S2P Require Import Prelude.

Local Open Scope Z_scope.
Local Open Scope infuse_scope.

(** struct iir_filter_single_pole_s16 and _s32 *)
Record iir_filter := IirFilter { y_prev : Z; alpha : Z; error : Z }.

(** The assertion is on the argument. *)
Definition iir_filter_single_pole_s16_init (alpha initial : Z) : exec iir_filter :=
  if alpha =? 0 then Fault else Done (IirFilter initial (Z.shiftr alpha 16) 0).

Definition iir_filter_single_pole_s16_step (filter : iir_filter) (x : Z) : Z * iir_filter :=
  let one := Z.shiftl 1 16 in
  let alpha32 := alpha filter in
  let alpha32_inv := u32 (one - alpha32) in
  let y_scaled := s32 (u32 (u32 (u32 (alpha32 * u32 x) + u32 (alpha32_inv * u32 (y_prev filter))) + error filter)) in
  let y := s16 (Z.shiftr y_scaled 16) in
  (y, IirFilter y (alpha filter) (Z.land y_scaled UINT16_MAX)).

Definition iir_filter_single_pole_s32_init (alpha initial : Z) : exec iir_filter :=
  if alpha =? 0 then Fault else Done (IirFilter initial alpha 0).

Definition iir_filter_single_pole_s32_step (filter : iir_filter) (x : Z) : Z * iir_filter :=
  let one := Z.shiftl 1 32 in
  let alpha64 := alpha filter in
  let alpha64_inv := u64 (one - alpha64) in
  let y_scaled := s64 (u64 (u64 (u64 (alpha64 * u64 x) + u64 (alpha64_inv * u64 (y_prev filter))) + error filter)) in
  let y := s32 (Z.shiftr y_scaled 32) in
  (y, IirFilter y (alpha filter) (Z.land y_scaled UINT32_MAX)).

(** ** Exactness *)

(** Fields of [w] bits. *)
Record iir_ok (w : Z) (f : iir_filter) : Prop := {
  iir_y : in_s w (y_prev f);
  iir_alpha : 0 <= alpha f < 2 ^ w;
  iir_error : 0 <= error f < 2 ^ w;
}.

(** The state with its fraction. *)
Definition iir_scaled (w : Z) (f : iir_filter) : Z := 2 ^ w * y_prev f + error f.

(** A step moves the scaled state towards the input, without rounding. *)
Definition iir_exact (w : Z) (f : iir_filter) (x : Z) (res : Z * iir_filter) : Prop :=
  iir_ok w res.2 /\ alpha res.2 = alpha f /\ res.1 = y_prev res.2 /\
  iir_scaled w res.2 = iir_scaled w f + alpha f * (x - y_prev f).

Lemma uwrap_mul_add w a b c : uwrap w (a * uwrap w b + c) = uwrap w (a * b + c).
Proof. unfold uwrap. by rewrite <- Zplus_mod_idemp_l, Zmult_mod_idemp_r, Zplus_mod_idemp_l. Qed.

(** The width generic body of a step. *)
Lemma iir_step_exact w f x :
  0 < w -> iir_ok w f -> in_s w x ->
  let sum := uwrap (2 * w) (uwrap (2 * w) (uwrap (2 * w) (alpha f * uwrap (2 * w) x) +
    uwrap (2 * w) (uwrap (2 * w) (2 ^ w - alpha f) * uwrap (2 * w) (y_prev f))) + error f) in
  let y_scaled := swrap (2 * w) sum in
  let y := swrap w (Z.shiftr y_scaled w) in
  iir_exact w f x (y, IirFilter y (alpha f) (Z.land y_scaled (2 ^ w - 1))).
Proof.
  intros Hw [Hy Ha He] Hx. cbv zeta. unfold in_s in *.
  assert (Hh : 2 ^ w = 2 * 2 ^ (w - 1)) by (change 2 with (2 ^ 1) at 2; rewrite <- Z.pow_add_r by lia; f_equal; lia).
  assert (Hp : 0 < 2 ^ (w - 1)) by (apply Z.pow_pos_nonneg; lia).
  assert (H2w : 2 ^ (2 * w - 1) = 2 ^ w * 2 ^ (w - 1)) by (rewrite <- Z.pow_add_r by lia; f_equal; lia).
  set (h := 2 ^ (w - 1)) in *. set (D := 2 ^ w * y_prev f + error f + alpha f * (x - y_prev f)).
  assert (HD : - (2 ^ w * h) <= D < 2 ^ w * h).
  { replace D with (alpha f * x + (2 ^ w - alpha f) * y_prev f + error f) by (unfold D; ring).
    assert (H1 : forall a z, 0 <= a -> - h <= z < h -> - (a * h) <= a * z <= a * (h - 1)).
    { intros a z Ha' Hz. split; [rewrite <- Z.mul_opp_r|]; apply Z.mul_le_mono_nonneg_l; lia. }
    pose proof (H1 (alpha f) x ltac:(lia) Hx). pose proof (H1 (2 ^ w - alpha f) (y_prev f) ltac:(lia) Hy). lia. }
  set (sum := uwrap (2 * w) (uwrap (2 * w) _ + error f)).
  assert (Hsum : sum = uwrap (2 * w) D).
  { unfold sum, D. set (X := uwrap (2 * w) x). set (Y := uwrap (2 * w) (y_prev f)). set (I := uwrap (2 * w) (2 ^ w - _)).
    rewrite uwrap_add_idemp_l, <- Z.add_assoc, uwrap_add_idemp_l.
    replace (alpha f * X + (uwrap (2 * w) (I * Y) + error f)) with (uwrap (2 * w) (I * Y) + (alpha f * X + error f)) by lia.
    rewrite uwrap_add_idemp_l. unfold Y. rewrite uwrap_mul_add, (Z.mul_comm I). unfold I. rewrite uwrap_mul_add.
    replace (y_prev f * (2 ^ w - alpha f) + (alpha f * X + error f)) with
      (alpha f * X + (y_prev f * (2 ^ w - alpha f) + error f)) by lia.
    unfold X. rewrite uwrap_mul_add. f_equal. ring. }
  rewrite Hsum, swrap_uwrap, (swrap_small (2 * w) D) by (unfold in_s; lia).
  assert (Hland : Z.land D (2 ^ w - 1) = D mod 2 ^ w) by (apply land_ones_mod; lia).
  rewrite Z.shiftr_div_pow2 by lia. pose proof (Z.div_mod D (2 ^ w) ltac:(lia)) as Hdm.
  pose proof (Z.mod_pos_bound D (2 ^ w) ltac:(lia)) as Hm.
  assert (Hq : - h <= D / 2 ^ w < h) by (split; [apply Z.div_le_lower_bound|apply Z.div_lt_upper_bound]; lia).
  rewrite swrap_small by (unfold in_s; lia). rewrite Hland. unfold iir_exact, iir_scaled. cbn [fst snd y_prev alpha error].
  split; [split; unfold in_s; cbn; lia|]. split; [done|]. split; [done|]. unfold D in *. lia.
Qed.

Lemma iir_s16_step_exact f x : iir_ok 16 f -> in_s 16 x -> iir_exact 16 f x (iir_filter_single_pole_s16_step f x).
Proof. intros Hf Hx. apply (iir_step_exact 16 f x); [lia|done..]. Qed.

Lemma iir_s32_step_exact f x : iir_ok 32 f -> in_s 32 x -> iir_exact 32 f x (iir_filter_single_pole_s32_step f x).
Proof. intros Hf Hx. apply (iir_step_exact 32 f x); [lia|done..]. Qed.

(** The filter steps are exact: with the dropped fraction kept in [error], the
    scaled output moves by exactly [alpha * (x - y)], nothing overflows and the fields
    stay in range, for every input. *)
Theorem iir_filter_exact f x :
  (iir_ok 16 f -> in_s 16 x -> iir_exact 16 f x (iir_filter_single_pole_s16_step f x)) /\
  (iir_ok 32 f -> in_s 32 x -> iir_exact 32 f x (iir_filter_single_pole_s32_step f x)).
Proof. split; [apply iir_s16_step_exact|apply iir_s32_step_exact]. Qed.

(** ** Convergence *)

Section converge.
Context (w : Z) (step : iir_filter -> Z -> Z * iir_filter) (Hw : 0 < w).
Context (Hstep : forall f x, iir_ok w f -> in_s w x -> iir_exact w f x (step f x)).

(** The filter after [n] steps of the same input. *)
Fixpoint iir_run (n : nat) (f : iir_filter) (x : Z) : iir_filter :=
  match n with
  | O => f
  | S n => iir_run n (step f x).2 x
  end.

Lemma iir_settled n f x :
  iir_ok w f -> in_s w x -> y_prev f = x -> y_prev (iir_run n f x) = x.
Proof.
  intros Hf Hx. revert f Hf. induction n as [|n IH]; intros f Hf Hy; [done|]. cbn [iir_run].
  destruct (Hstep f x Hf Hx) as (Hok & _ & _ & Hs). apply IH; [done|].
  rewrite Hy, Z.sub_diag, Z.mul_0_r, Z.add_0_r in Hs. unfold iir_scaled in Hs.
  destruct Hok as [_ _ He], Hf as [_ _ He0]. assert (0 < 2 ^ w) by (apply Z.pow_pos_nonneg; lia). nia.
Qed.

(** Distance of the scaled state from the input. *)
Definition iir_distance (f : iir_filter) (x : Z) : Z :=
  Z.max (2 ^ w * x - iir_scaled w f) (iir_scaled w f - (2 ^ w * (x + 1) - 1)).

Lemma iir_converges n f x :
  iir_ok w f -> in_s w x -> 0 < alpha f -> iir_distance f x <= Z.of_nat n ->
  y_prev (iir_run n f x) = x.
Proof.
  intros Hf Hx. revert f Hf. induction n as [|n IH]; intros f Hf Ha Hd.
  - destruct Hf as [_ _ He]. unfold iir_distance, iir_scaled in Hd.
    assert (0 < 2 ^ w) by (apply Z.pow_pos_nonneg; lia). cbn. nia.
  - destruct (Z.eq_dec (y_prev f) x) as [Hy|Hy]; [by apply iir_settled|]. cbn [iir_run].
    destruct (Hstep f x Hf Hx) as (Hok & Hal & _ & Hs). apply IH; [done|lia|].
    unfold iir_distance in *. rewrite Hs. destruct Hf as [_ Ha' He]. unfold iir_scaled in *.
    assert (Hp : 0 < 2 ^ w) by (apply Z.pow_pos_nonneg; lia). set (P := 2 ^ w) in *. set (y := y_prev f) in *.
    destruct (Z.lt_ge_cases y x).
    + assert (1 <= alpha f * (x - y)) by (apply Z.lt_pred_le, Z.mul_pos_pos; lia).
      assert (alpha f * (x - y) <= (P - 1) * (x - y)) by (apply Z.mul_le_mono_nonneg_r; lia). lia.
    + assert (1 <= alpha f * (y - x)) by (apply Z.lt_pred_le, Z.mul_pos_pos; lia).
      assert (alpha f * (y - x) <= (P - 1) * (y - x)) by (apply Z.mul_le_mono_nonneg_r; lia). lia.
Qed.

Lemma iir_stuck n f x : iir_ok w f -> in_s w x -> alpha f = 0 -> y_prev (iir_run n f x) = y_prev f.
Proof.
  intros Hf Hx. revert f Hf. induction n as [|n IH]; intros f Hf H0; [done|]. cbn [iir_run].
  destruct (Hstep f x Hf Hx) as (Hok & Hal & _ & Hs). rewrite IH; [|done|by rewrite Hal].
  rewrite H0, Z.mul_0_l, Z.add_0_r in Hs. unfold iir_scaled in Hs. destruct Hok as [_ _ He], Hf as [_ _ He0].
  assert (0 < 2 ^ w) by (apply Z.pow_pos_nonneg; lia). nia.
Qed.
End converge.

(** A constant input is reached and kept: with a non-zero [alpha], from any state
    the output of both filters is the input after finitely many steps. *)
Theorem iir_filter_converges f x :
  0 < alpha f ->
  (iir_ok 16 f -> in_s 16 x -> exists n, forall m, (n <= m)%nat ->
     y_prev (iir_run iir_filter_single_pole_s16_step m f x) = x) /\
  (iir_ok 32 f -> in_s 32 x -> exists n, forall m, (n <= m)%nat ->
     y_prev (iir_run iir_filter_single_pole_s32_step m f x) = x).
Proof.
  intros Ha. split; intros Hf Hx.
  - exists (Z.to_nat (iir_distance 16 f x)). intros m Hm.
    apply (iir_converges 16 _ ltac:(lia) iir_s16_step_exact); try done; lia.
  - exists (Z.to_nat (iir_distance 32 f x)). intros m Hm.
    apply (iir_converges 32 _ ltac:(lia) iir_s32_step_exact); try done; lia.
Qed.

Lemma iir_filter_converges_witness :
  exists n, forall m, (n <= m)%nat ->
    y_prev (iir_run iir_filter_single_pole_s16_step m (IirFilter (-5) 3000 0) 100) = 100.
Proof.
  destruct (iir_filter_converges (IirFilter (-5) 3000 0) 100 ltac:(reflexivity)) as (H16 & _).
  apply H16; [split; unfold in_s; cbn; lia|unfold in_s; lia].
Defined.

(** The 16 bit filter drops the low half of [alpha] after checking that it is not
    zero: a small [alpha] passes the check and the output never moves. *)
Theorem iir_s16_small_alpha_stuck a initial x n :
  0 < a < 2 ^ 16 -> in_s 16 initial -> in_s 16 x ->
  exists f, iir_filter_single_pole_s16_init a initial = Done f /\
    y_prev (iir_run iir_filter_single_pole_s16_step n f x) = initial.
Proof.
  intros Ha Hi Hx. exists (IirFilter initial (Z.shiftr a 16) 0).
  unfold iir_filter_single_pole_s16_init. replace (a =? 0) with false by lia. split; [done|].
  assert (H0 : Z.shiftr a 16 = 0) by (rewrite Z.shiftr_div_pow2 by lia; apply Z.div_small; lia).
  rewrite H0. apply (iir_stuck 16 _ ltac:(lia) iir_s16_step_exact n (IirFilter initial 0 0) x); [|done|done].
  split; [exact Hi|unfold alpha; lia|unfold error; lia].
Qed.

Lemma iir_s16_small_alpha_stuck_witness :
  exists f, iir_filter_single_pole_s16_init 60000 7 = Done f /\
    y_prev (iir_run iir_filter_single_pole_s16_step 1000 f 100) = 7.
Proof. apply (iir_s16_small_alpha_stuck 60000 7 100 1000); unfold in_s; lia. Defined.
