(* ===== verification/States.v ===== *)
(** * Application states ([lib/states/application_states.c])

    256 state bits, some of which clear themselves after a timeout.  The timeouts live
    in a small table whose used entries are marked in a bitmask.

    [states_abs] is what the module promises: which states are set, and for how long.
    Every operation is proved to implement its abstract counterpart. *)

From stdpp Require Import base tactics numbers list.
From Stdlib Require Import ZArith Lia.
From S2P Require Import Prelude.

Local Open Scope Z_scope.
Local Open Scope infuse_scope.

Definition INFUSE_STATE_REBOOTING : Z := 1.
Definition INFUSE_STATE_APPLICATION_ACTIVE : Z := 2.
Definition INFUSE_STATE_TIME_KNOWN : Z := 3.

(** A call of a registered callback, with the position of the callback. *)
Inductive state_event :=
| EvStateSet (cb : nat) (state : Z) (already : bool) (timeout : Z)
| EvStateCleared (cb : nat) (state : Z).

(** struct infuse_state_cb: its address, and which functions are given. *)
Record infuse_state_cb := StateCb { cb_node : Z; cb_state_set : bool; cb_state_cleared : bool }.

(** [application_states] as the integer with its bits; [timeout_states] as pairs of
    state and timeout. *)
Record app_states := AppStates {
  application_states : Z;
  timeout_states : list (Z * Z);
  timeout_mask : Z;
  cb_list : list infuse_state_cb;
  events : list state_event;
}.

Definition set_bits_of (s : app_states) (b : Z) : app_states :=
  AppStates b (timeout_states s) (timeout_mask s) (cb_list s) (events s).
Definition set_timeouts (s : app_states) (t : list (Z * Z)) (m : Z) : app_states :=
  AppStates (application_states s) t m (cb_list s) (events s).
Definition add_events (s : app_states) (e : list state_event) : app_states :=
  AppStates (application_states s) (timeout_states s) (timeout_mask s) (cb_list s) (events s ++ e).

(** Positions of the callbacks that want an event. *)
Fixpoint cb_positions (p : infuse_state_cb -> bool) (i : nat) (l : list infuse_state_cb) : list nat :=
  match l with
  | [] => []
  | cb :: l => if p cb then i :: cb_positions p (S i) l else cb_positions p (S i) l
  end.

Definition notify_set (s : app_states) (state : Z) (already : bool) (timeout : Z) : app_states :=
  add_events s (map (fun i => EvStateSet i state already timeout) (cb_positions cb_state_set 0 (cb_list s))).
Definition notify_cleared (s : app_states) (state : Z) : app_states :=
  add_events s (map (fun i => EvStateCleared i state) (cb_positions cb_state_cleared 0 (cb_list s))).

Definition infuse_state_register_callback (s : app_states) (cb : infuse_state_cb) : app_states :=
  AppStates (application_states s) (timeout_states s) (timeout_mask s) (cb_list s ++ [cb]) (events s).

(** [sys_slist_find_and_remove]: the first entry with the address. *)
Fixpoint slist_remove (node : Z) (l : list infuse_state_cb) : bool * list infuse_state_cb :=
  match l with
  | [] => (false, [])
  | cb :: l =>
      if cb_node cb =? node then (true, l)
      else let '(found, l) := slist_remove node l in (found, cb :: l)
  end.

Definition infuse_state_unregister_callback (s : app_states) (node : Z) : bool * app_states :=
  let '(found, l) := slist_remove node (cb_list s) in
  (found, AppStates (application_states s) (timeout_states s) (timeout_mask s) l (events s)).

(** [__builtin_ffs(mask) - 1] *)
Fixpoint ffs_from (n : nat) (i mask : Z) : Z :=
  match n with
  | O => i
  | S n => if Z.testbit mask i then i else ffs_from n (i + 1) mask
  end.
Definition first_bit (mask : Z) : Z := ffs_from 32 0 mask.

Definition timeout_entry (s : app_states) (i : Z) : Z * Z := nth (Z.to_nat i) (timeout_states s) (0, 0).

(** The loop clears a bit of [mask] at a time: 32 iterations. *)
Fixpoint find_loop (fuel : nat) (s : app_states) (state mask : Z) : Z :=
  match fuel with
  | O => UINT8_MAX
  | S fuel =>
      if negb (mask =? 0) then
        let first_used := first_bit mask in
        if (timeout_entry s first_used).1 =? state then first_used
        else find_loop fuel s state (Z.lxor mask (Z.shiftl 1 first_used))
      else UINT8_MAX
  end.

Definition find_timeout_state (s : app_states) (state : Z) : Z := find_loop 33 s state (timeout_mask s).

Definition clear_timeout_state (s : app_states) (state : Z) : app_states :=
  let timeout_idx := find_timeout_state s state in
  if timeout_idx =? UINT8_MAX then s
  else set_timeouts s (<[Z.to_nat timeout_idx := (0, 0)]> (timeout_states s))
         (Z.lxor (timeout_mask s) (Z.shiftl 1 timeout_idx)).

Definition infuse_state_set (s : app_states) (state : Z) : bool * app_states :=
  let already_set := Z.testbit (application_states s) state in
  let s := set_bits_of s (Z.setbit (application_states s) state) in
  let s := if already_set then clear_timeout_state s state else s in
  (already_set, notify_set s state already_set 0).

(** [__builtin_popcount] *)
Definition popcount (mask : Z) : Z :=
  zlen (filter (fun i => Z.testbit mask i = true) (map Z.of_nat (seq 0 32))).

Definition infuse_state_set_timeout (s : app_states) (state timeout : Z) : bool * app_states :=
  if timeout =? 0 then (false, s)
  else
    let timeout_idx := find_timeout_state s state in
    if timeout_idx =? UINT8_MAX then
      if popcount (timeout_mask s) =? zlen (timeout_states s) then (false, s)
      else
        let timeout_idx := first_bit (Z.lnot (timeout_mask s)) in
        let already_set := Z.testbit (application_states s) state in
        let s := set_bits_of s (Z.setbit (application_states s) state) in
        let s := set_timeouts s (<[Z.to_nat timeout_idx := (state, timeout)]> (timeout_states s))
                   (Z.lor (timeout_mask s) (Z.shiftl 1 timeout_idx)) in
        (already_set, notify_set s state already_set timeout)
    else
      let s := set_timeouts s (<[Z.to_nat timeout_idx := ((timeout_entry s timeout_idx).1, timeout)]> (timeout_states s))
                 (timeout_mask s) in
      (true, notify_set s state true timeout).

Definition infuse_state_get_timeout (s : app_states) (state : Z) : Z :=
  if Z.testbit (application_states s) state then
    let timeout_idx := find_timeout_state s state in
    if timeout_idx =? UINT8_MAX then 0 else (timeout_entry s timeout_idx).2
  else - EINVAL.

Definition infuse_state_clear (s : app_states) (state : Z) : bool * app_states :=
  let was_set := Z.testbit (application_states s) state in
  let s := set_bits_of s (Z.clearbit (application_states s) state) in
  (was_set, if was_set then notify_cleared (clear_timeout_state s state) state else s).

Definition infuse_state_set_to (s : app_states) (state : Z) (val : bool) : bool * app_states :=
  if val then infuse_state_set s state else infuse_state_clear s state.

Definition infuse_state_get (s : app_states) (state : Z) : bool := Z.testbit (application_states s) state.

Definition infuse_states_snapshot (s : app_states) : Z := application_states s.

Fixpoint tick_loop (fuel : nat) (s : app_states) (snapshot mask : Z) : app_states :=
  match fuel with
  | O => s
  | S fuel =>
      if negb (mask =? 0) then
        let first_used := first_bit mask in
        let '(state, timeout) := timeout_entry s first_used in
        let mask := Z.lxor mask (Z.shiftl 1 first_used) in
        if negb (Z.testbit snapshot state) then tick_loop fuel s snapshot mask
        else
          let timeout := u16 (timeout - 1) in
          if 0 <? timeout then
            tick_loop fuel (set_timeouts s (<[Z.to_nat first_used := (state, timeout)]> (timeout_states s))
                              (timeout_mask s)) snapshot mask
          else
            let s := set_bits_of s (Z.clearbit (application_states s) state) in
            let s := notify_cleared (set_timeouts s (timeout_states s)
                                       (Z.lxor (timeout_mask s) (Z.shiftl 1 first_used))) state in
            tick_loop fuel (set_timeouts s (<[Z.to_nat first_used := (0, timeout)]> (timeout_states s))
                              (timeout_mask s)) snapshot mask
      else s
  end.

Definition infuse_states_tick (s : app_states) (snapshot : Z) : app_states :=
  tick_loop 33 s snapshot (timeout_mask s).

(** ** Bit iteration *)

Lemma lxor_bit m k i : 0 <= k -> 0 <= i ->
  Z.testbit (Z.lxor m (Z.shiftl 1 k)) i = xorb (Z.testbit m i) (k =? i).
Proof. intros Hk Hi. by rewrite Z.lxor_spec, Z.shiftl_1_l, Z.pow2_bits_eqb. Qed.

Lemma ffs_from_spec n i mask :
  (exists j, i <= j < i + Z.of_nat n /\ ffs_from n i mask = j /\ Z.testbit mask j = true /\
     forall k, i <= k < j -> Z.testbit mask k = false) \/
  (forall k, i <= k < i + Z.of_nat n -> Z.testbit mask k = false).
Proof.
  revert i. induction n as [|n IH]; intros i; [right; intros; lia|]. cbn [ffs_from].
  destruct (Z.testbit mask i) eqn:E.
  - left. exists i. split; [lia|]. split; [done|]. split; [done|]. intros; lia.
  - destruct (IH (i + 1)) as [(j & Hj & He & Hb & Hl)|Hn].
    + left. exists j. split; [lia|]. split; [done|]. split; [done|]. intros k Hk.
      destruct (Z.eq_dec k i) as [->|]; [done|]. apply Hl. lia.
    + right. intros k Hk. destruct (Z.eq_dec k i) as [->|]; [done|]. apply Hn. lia.
Qed.

Lemma mask_zero mask : 0 <= mask < 2 ^ 32 -> (forall k, 0 <= k < 32 -> Z.testbit mask k = false) -> mask = 0.
Proof.
  intros Hm Hn. apply Z.bits_inj_0. intros k. destruct (Z.lt_ge_cases k 0); [by rewrite Z.testbit_neg_r|].
  destruct (Z.lt_ge_cases k 32); [by apply Hn|]. apply (testbit_above 32); lia.
Qed.

Lemma mask_bound m n : 0 <= n -> 0 <= m -> (forall j, n <= j -> Z.testbit m j = false) -> 0 <= m < 2 ^ n.
Proof.
  intros Hn Hm Hb. split; [done|]. destruct (Z.eq_dec m 0) as [->|Hne]; [apply Z.pow_pos_nonneg; lia|].
  apply Z.log2_lt_pow2; [lia|]. apply Z.nle_gt. intros Hle.
  pose proof (Z.bit_log2 m ltac:(lia)) as Hlog. by rewrite Hb in Hlog.
Qed.

Lemma lxor_bit_nonneg m k : 0 <= m -> 0 <= k -> 0 <= Z.lxor m (Z.shiftl 1 k).
Proof. intros Hm Hk. rewrite Z.shiftl_1_l. apply Z.lxor_nonneg. split; intros; [apply Z.pow_nonneg; lia|lia]. Qed.

(** The lowest bit of a mask and the mask without it. *)
Lemma first_bit_spec mask :
  0 <= mask < 2 ^ 32 -> mask <> 0 ->
  let z := first_bit mask in let m' := Z.lxor mask (Z.shiftl 1 z) in
  0 <= z < 32 /\ Z.testbit mask z = true /\ 0 <= m' < 2 ^ 32 /\
  (forall i, 0 <= i -> Z.testbit m' i = Z.testbit mask i && negb (i =? z)) /\
  (forall k, 0 <= k < z -> Z.testbit mask k = false).
Proof.
  intros Hm Hz. cbv zeta. unfold first_bit.
  destruct (ffs_from_spec 32 0 mask) as [(j & Hj & -> & Hb & Hlow)|Hn]; [|by apply mask_zero in Hn].
  assert (Hbits : forall i, 0 <= i -> Z.testbit (Z.lxor mask (Z.shiftl 1 j)) i = Z.testbit mask i && negb (i =? j)).
  { intros i Hi. rewrite lxor_bit by lia. rewrite (Z.eqb_sym j). destruct (Z.eqb_spec i j) as [->|].
    - by rewrite Hb. - by rewrite xorb_false_r, andb_true_r. }
  split; [lia|]. split; [done|]. split; [|split; done].
  apply mask_bound; [lia|apply lxor_bit_nonneg; lia|]. intros i Hi. rewrite Hbits by lia.
  by rewrite (testbit_above 32) by lia.
Qed.

(** ** Table entries *)

(** Entry [i] of the timeout table, when it is used. *)
Definition slot (s : app_states) (i : Z) : option (Z * Z) :=
  if Z.testbit (timeout_mask s) i then Some (timeout_entry s i) else None.

(** Every used entry belongs to a different state, which is set, and runs. *)
Record states_inv (s : app_states) : Prop := {
  inv_slots : zlen (timeout_states s) <= 32;
  inv_mask : 0 <= timeout_mask s < 2 ^ zlen (timeout_states s);
  inv_entry i st t : 0 <= i -> slot s i = Some (st, t) ->
    0 <= st < 256 /\ 0 < t < 2 ^ 16 /\ Z.testbit (application_states s) st = true;
  inv_unique i j st t t' : 0 <= i -> 0 <= j -> slot s i = Some (st, t) -> slot s j = Some (st, t') -> i = j;
}.

Lemma inv_mask32 s : states_inv s -> 0 <= timeout_mask s < 2 ^ 32.
Proof.
  intros [Hl Hm _ _]. split; [lia|]. eapply Z.lt_le_trans; [apply Hm|]. apply Z.pow_le_mono_r; lia.
Qed.

Lemma slot_range s i st : states_inv s -> 0 <= i -> slot s i = Some st -> i < zlen (timeout_states s).
Proof.
  intros [_ Hm _ _] Hi Hs. unfold slot in Hs. destruct (Z.testbit _ i) eqn:E; [|done].
  apply Z.nle_gt. intros Hle. pose proof (zlen_nonneg (timeout_states s)).
  by rewrite (testbit_above (zlen (timeout_states s))) in E.
Qed.

Lemma nth_insert (l : list (Z * Z)) i j e :
  0 <= i < zlen l -> 0 <= j ->
  nth (Z.to_nat j) (<[Z.to_nat i := e]> l) (0, 0) = if j =? i then e else nth (Z.to_nat j) l (0, 0).
Proof.
  intros Hi Hj. unfold zlen in Hi. rewrite !nth_lookup. destruct (Z.eqb_spec j i) as [->|Hne].
  - by rewrite list_lookup_insert_eq by lia.
  - by rewrite list_lookup_insert_ne by lia.
Qed.

(** The entry found is the entry of the state. *)
Lemma find_loop_spec fuel s state mask j :
  0 <= mask < 2 ^ 32 -> (33 <= fuel + j)%nat -> (forall k, 0 <= k < Z.of_nat j -> Z.testbit mask k = false) ->
  (exists i, 0 <= i < 32 /\ Z.testbit mask i = true /\ (timeout_entry s i).1 = state /\
     find_loop fuel s state mask = i) \/
  (find_loop fuel s state mask = UINT8_MAX /\
   forall i, 0 <= i -> Z.testbit mask i = true -> (timeout_entry s i).1 <> state).
Proof.
  revert mask j. induction fuel as [|fuel IH]; intros mask j Hm Hf Hlow.
  { assert (mask = 0) as -> by (apply mask_zero; [done|]; intros k Hk; apply Hlow; lia).
    right. split; [done|]. intros i Hi. by rewrite Z.testbit_0_l. }
  cbn [find_loop]. destruct (Z.eqb_spec mask 0) as [->|Hne]; cbn [negb].
  { right. split; [done|]. intros i Hi. by rewrite Z.testbit_0_l. }
  destruct (first_bit_spec mask Hm Hne) as (Hz & Hb & Hm' & Hbits & Hl). set (z := first_bit mask) in *.
  destruct (Z.eqb_spec (timeout_entry s z).1 state) as [He|He]; [left; exists z; split_and!; done || lia|].
  assert (Hjz : Z.of_nat j <= z) by (apply Z.nlt_ge; intros Hlt; rewrite Hlow in Hb; [done|lia]).
  destruct (IH (Z.lxor mask (Z.shiftl 1 z)) (S (Z.to_nat z)) Hm' ltac:(lia)) as [(i & Hi & Hbi & Hei & Hfi)|(Hf' & Hn)].
  - intros k Hk. rewrite Hbits by lia. destruct (Z.eqb_spec k z) as [->|]; [apply andb_false_r|].
    rewrite Hl by lia. done.
  - left. exists i. rewrite Hbits in Hbi by lia. apply andb_true_iff in Hbi as [? _]. split_and!; done || lia.
  - right. split; [done|]. intros i Hi Hbi. destruct (Z.eq_dec i z) as [->|]; [done|].
    apply Hn; [done|]. rewrite Hbits, Hbi by done. by replace (i =? z) with false by lia.
Qed.

Lemma find_timeout_some s i st t :
  states_inv s -> 0 <= i -> slot s i = Some (st, t) -> find_timeout_state s st = i.
Proof.
  intros Hinv Hi Hs. unfold find_timeout_state.
  assert (Hb : Z.testbit (timeout_mask s) i = true /\ timeout_entry s i = (st, t)).
  { unfold slot in Hs. destruct (Z.testbit (timeout_mask s) i); [by injection Hs|done]. }
  destruct (find_loop_spec 33 s st (timeout_mask s) 0 (inv_mask32 s Hinv) ltac:(lia) ltac:(lia))
    as [(j & Hj & Hbj & Hej & ->)|(_ & Hn)].
  - destruct (timeout_entry s j) as [st' t'] eqn:Ej. cbn in Hej. subst st'.
    apply (inv_unique s Hinv j i st t' t); try lia; [|done]. unfold slot. by rewrite Hbj, Ej.
  - exfalso. destruct Hb as (Hb & He). apply (Hn i Hi Hb). by rewrite He.
Qed.

Lemma find_timeout_cases s st :
  states_inv s ->
  (exists i t, 0 <= i < 32 /\ slot s i = Some (st, t) /\ find_timeout_state s st = i) \/
  (find_timeout_state s st = UINT8_MAX /\ forall i t, 0 <= i -> slot s i <> Some (st, t)).
Proof.
  intros Hinv. unfold find_timeout_state.
  destruct (find_loop_spec 33 s st (timeout_mask s) 0 (inv_mask32 s Hinv) ltac:(lia) ltac:(lia))
    as [(j & Hj & Hbj & Hej & ->)|(-> & Hn)].
  - left. destruct (timeout_entry s j) as [st' t'] eqn:Ej. cbn in Hej. subst st'. exists j, t'.
    split; [done|]. split; [|done]. unfold slot. by rewrite Hbj, Ej.
  - right. split; [done|]. intros i t Hi Hs. unfold slot in Hs. destruct (Z.testbit _ i) eqn:Eb; [|done].
    injection Hs as Hs. apply (Hn i Hi Eb). by rewrite Hs.
Qed.

(** ** The abstract state *)

(** [None]: not set; [Some None]: set for good; [Some (Some t)]: set for [t] ticks. *)
Definition states_abs (s : app_states) (state : Z) : option (option Z) :=
  if Z.testbit (application_states s) state then
    Some (let i := find_timeout_state s state in
          if i =? UINT8_MAX then None else Some (timeout_entry s i).2)
  else None.

Lemma abs_slot s i st t : states_inv s -> 0 <= i -> slot s i = Some (st, t) -> states_abs s st = Some (Some t).
Proof.
  intros Hinv Hi Hs. destruct (inv_entry s Hinv i st t Hi Hs) as (_ & _ & Hb). unfold states_abs. rewrite Hb.
  rewrite (find_timeout_some s i st t Hinv Hi Hs). pose proof (slot_range s i _ Hinv Hi Hs).
  pose proof (inv_slots s Hinv). replace (i =? UINT8_MAX) with false by (unfold UINT8_MAX; lia).
  unfold slot in Hs. destruct (Z.testbit (timeout_mask s) i); [|done]. by injection Hs as ->.
Qed.

Lemma abs_no_slot s st :
  states_inv s -> (forall i t, 0 <= i -> slot s i <> Some (st, t)) ->
  states_abs s st = if Z.testbit (application_states s) st then Some None else None.
Proof.
  intros Hinv Hn. unfold states_abs. destruct (find_timeout_cases s st Hinv) as [(i & t & Hi & Hs & _)|(-> & _)].
  - exfalso. apply (Hn i t); [lia|done].
  - done.
Qed.

(** The abstract state is determined by the bits and the used entries. *)
Lemma abs_ext s s' st :
  states_inv s -> states_inv s' ->
  Z.testbit (application_states s') st = Z.testbit (application_states s) st ->
  (forall i t, 0 <= i -> slot s' i = Some (st, t) <-> slot s i = Some (st, t)) ->
  states_abs s' st = states_abs s st.
Proof.
  intros Hinv Hinv' Hb Hs. destruct (find_timeout_cases s st Hinv) as [(i & t & Hi & Hsl & _)|(_ & Hn)].
  - rewrite (abs_slot s i st t), (abs_slot s' i st t); try done; try lia. apply Hs; [lia|done].
  - rewrite (abs_no_slot s), (abs_no_slot s'); [by rewrite Hb|done| |done|done].
    intros i t Hi. rewrite Hs by done. by apply Hn.
Qed.

(** ** Operations on the table *)

Lemma find_loop_ext fuel s s' st mask :
  timeout_states s' = timeout_states s -> find_loop fuel s' st mask = find_loop fuel s st mask.
Proof.
  intros He. revert mask. induction fuel as [|fuel IH]; intros mask; [done|]. cbn [find_loop].
  unfold timeout_entry. rewrite He. destruct (negb _); [|done]. destruct (_ =? st); [done|]. apply IH.
Qed.

Lemma clear_timeout_bits s b st : clear_timeout_state (set_bits_of s b) st = set_bits_of (clear_timeout_state s st) b.
Proof.
  unfold clear_timeout_state, find_timeout_state. rewrite (find_loop_ext 33 s (set_bits_of s b)) by done.
  cbn [set_bits_of timeout_mask]. by destruct (_ =? UINT8_MAX).
Qed.

(** What one changed entry does to the slots. *)
Lemma slot_update s i e m b :
  0 <= i < zlen (timeout_states s) -> 0 <= m < 2 ^ zlen (timeout_states s) ->
  (forall j, 0 <= j -> j <> i -> Z.testbit m j = Z.testbit (timeout_mask s) j) ->
  let s' := set_timeouts (set_bits_of s b) (<[Z.to_nat i := e]> (timeout_states s)) m in
  forall j, 0 <= j -> slot s' j = if j =? i then (if Z.testbit m i then Some e else None) else slot s j.
Proof.
  intros Hi Hm Hb s' j Hj. unfold slot, timeout_entry, s'. cbn [set_timeouts set_bits_of timeout_mask timeout_states].
  rewrite nth_insert by lia. destruct (Z.eqb_spec j i) as [->|Hne]; [done|]. by rewrite Hb.
Qed.

Lemma zlen_insert (l : list (Z * Z)) i e : zlen (<[i := e]> l) = zlen l.
Proof. unfold zlen. by rewrite length_insert. Qed.

(** An entry is replaced, added or removed. *)
Lemma states_inv_update s i e m b :
  states_inv s -> 0 <= i < zlen (timeout_states s) -> 0 <= m < 2 ^ zlen (timeout_states s) ->
  (forall j, 0 <= j -> j <> i -> Z.testbit m j = Z.testbit (timeout_mask s) j) ->
  (forall j st t, 0 <= j -> j <> i -> slot s j = Some (st, t) -> Z.testbit b st = true) ->
  (Z.testbit m i = true -> 0 <= e.1 < 256 /\ 0 < e.2 < 2 ^ 16 /\ Z.testbit b e.1 = true /\
     forall j t, 0 <= j -> j <> i -> slot s j <> Some (e.1, t)) ->
  states_inv (set_timeouts (set_bits_of s b) (<[Z.to_nat i := e]> (timeout_states s)) m).
Proof.
  intros Hinv Hi Hm Hb Hbits He. pose proof (slot_update s i e m b Hi Hm Hb) as Hsl. cbv zeta in Hsl.
  set (s' := set_timeouts _ _ _) in *. destruct Hinv as [Hl _ Hent Huni]. split.
  - unfold s'. cbn [set_timeouts set_bits_of timeout_states]. by rewrite zlen_insert.
  - unfold s'. cbn [set_timeouts set_bits_of timeout_states timeout_mask]. by rewrite zlen_insert.
  - intros j st t Hj Hs. rewrite Hsl in Hs by done. unfold s'. cbn [set_timeouts set_bits_of application_states].
    destruct (Z.eqb_spec j i) as [->|Hne].
    + destruct (Z.testbit m i); [|done]. injection Hs as ->. by destruct (He eq_refl) as (? & ? & ? & _).
    + destruct (Hent j st t Hj Hs) as (? & ? & _). by split_and!; try lia; eapply Hbits.
  - intros j k st t t' Hj Hk Hs Hs'. rewrite Hsl in Hs, Hs' by done.
    destruct (Z.eqb_spec j i) as [->|Hj'], (Z.eqb_spec k i) as [->|Hk']; [done|..|by eapply Huni].
    + destruct (Z.testbit m i); [|done]. injection Hs as ->. destruct (He eq_refl) as (_ & _ & _ & Hn). by apply Hn in Hs'.
    + destruct (Z.testbit m i); [|done]. injection Hs' as ->. destruct (He eq_refl) as (_ & _ & _ & Hn). by apply Hn in Hs.
Qed.

(** Only the bits change. *)
Lemma states_inv_bits s b :
  states_inv s -> (forall i st t, 0 <= i -> slot s i = Some (st, t) -> Z.testbit b st = true) ->
  states_inv (set_bits_of s b).
Proof.
  intros [Hl Hm He Hu] Hb. split; try done. intros i st t Hi Hs. destruct (He i st t Hi Hs) as (? & ? & _).
  split_and!; try lia. by eapply Hb.
Qed.

Lemma states_inv_events s e : states_inv s -> states_inv (add_events s e).
Proof. intros [Hl Hm He Hu]. by split. Qed.

Lemma abs_events s e st : states_inv s -> states_abs (add_events s e) st = states_abs s st.
Proof. intros Hinv. apply abs_ext; try done. by apply states_inv_events. Qed.

Lemma clear_timeout_ok s st :
  states_inv s ->
  let s' := clear_timeout_state s st in
  states_inv s' /\ application_states s' = application_states s /\
  (forall i, 0 <= i -> slot s' i =
     match slot s i with Some (st', t) => if st' =? st then None else Some (st', t) | None => None end).
Proof.
  intros Hinv. cbv zeta. unfold clear_timeout_state.
  destruct (find_timeout_cases s st Hinv) as [(i & t & Hi & Hs & ->)|(-> & Hn)].
  2: { cbn. split; [done|]. split; [done|]. intros i Hi. specialize (Hn i). destruct (slot s i) as [[st' t]|]; [|done].
       destruct (Z.eqb_spec st' st) as [->|]; [|done]. by destruct (Hn t Hi). }
  pose proof (slot_range s i _ Hinv ltac:(lia) Hs) as Hr.
  replace (i =? UINT8_MAX) with false by (unfold UINT8_MAX; lia).
  assert (Hbi : Z.testbit (timeout_mask s) i = true) by (unfold slot in Hs; by destruct (Z.testbit _ i)).
  set (m := Z.lxor (timeout_mask s) (Z.shiftl 1 i)).
  assert (Hmb : forall j, 0 <= j -> Z.testbit m j = Z.testbit (timeout_mask s) j && negb (j =? i)).
  { intros j Hj. unfold m. rewrite lxor_bit, (Z.eqb_sym i) by lia. destruct (Z.eqb_spec j i) as [->|].
    - by rewrite Hbi. - by rewrite xorb_false_r, andb_true_r. }
  pose proof (zlen_nonneg (timeout_states s)) as Hl0.
  assert (Hm : 0 <= m < 2 ^ zlen (timeout_states s)).
  { pose proof (inv_mask s Hinv). apply mask_bound; [lia|apply lxor_bit_nonneg; lia|].
    intros j Hj. rewrite Hmb by lia. by rewrite (testbit_above (zlen (timeout_states s))) by lia. }
  assert (Hother : forall j, 0 <= j -> j <> i -> Z.testbit m j = Z.testbit (timeout_mask s) j).
  { intros j Hj Hne. rewrite Hmb by done. replace (j =? i) with false by lia. apply andb_true_r. }
  assert (Hmi : Z.testbit m i = false) by (rewrite Hmb by lia; rewrite Z.eqb_refl; apply andb_false_r).
  change (set_timeouts s ?l m) with (set_timeouts (set_bits_of s (application_states s)) l m).
  split; [|split; [done|]].
  - apply states_inv_update; try done; try lia; [|by rewrite Hmi].
    intros j st' t' Hj _ Hs'. by apply (inv_entry s Hinv j st' t').
  - intros j Hj. rewrite (slot_update s i (0, 0) m (application_states s)) by (try done; lia). rewrite Hmi.
    destruct (Z.eqb_spec j i) as [->|Hne]; [by rewrite Hs, Z.eqb_refl|].
    destruct (slot s j) as [[st' t']|] eqn:Ej; [|done]. destruct (Z.eqb_spec st' st) as [->|]; [|done].
    exfalso. apply Hne. apply (inv_unique s Hinv j i st t' t); done || lia.
Qed.

(** ** Refinement *)

#[local] Opaque find_timeout_state.

Lemma testbit_setbit a n i : 0 <= n -> 0 <= i -> Z.testbit (Z.setbit a n) i = Z.testbit a i || (i =? n).
Proof. intros Hn Hi. rewrite Z.setbit_eqb by done. by rewrite orb_comm, Z.eqb_sym. Qed.

Lemma testbit_clearbit a n i : 0 <= n -> 0 <= i -> Z.testbit (Z.clearbit a n) i = Z.testbit a i && negb (i =? n).
Proof. intros Hn Hi. rewrite Z.clearbit_eqb. by rewrite (Z.eqb_sym n). Qed.

Lemma slot_bits s b i : slot (set_bits_of s b) i = slot s i.
Proof. done. Qed.

(** A state without an entry, after the entries of [state] are gone and its bit is [v]. *)
Lemma abs_cleared s state (v : bool) b st :
  states_inv s -> 0 <= st -> 0 <= state ->
  (forall i, 0 <= i -> Z.testbit b i = if i =? state then v else Z.testbit (application_states s) i) ->
  let s' := set_bits_of (clear_timeout_state s state) b in
  states_inv s' /\
  states_abs s' st = if st =? state then (if v then Some None else None) else states_abs s st.
Proof.
  intros Hinv Hst Hstate Hb. cbv zeta. destruct (clear_timeout_ok s state Hinv) as (Hinv' & Happ & Hsl).
  set (s1 := clear_timeout_state s state) in *. clearbody s1.
  assert (Hinv2 : states_inv (set_bits_of s1 b)).
  { apply states_inv_bits; [done|]. intros i st' t Hi Hs. rewrite Hsl in Hs by done.
    destruct (slot s i) as [[st2 t2]|] eqn:Ei; [|done]. destruct (Z.eqb_spec st2 state) as [|Hne]; [done|].
    injection Hs as -> ->. destruct (inv_entry s Hinv i st' t Hi Ei) as (? & _ & Hbit).
    rewrite Hb by lia. by replace (st' =? state) with false by lia. }
  split; [done|]. destruct (Z.eqb_spec st state) as [->|Hne].
  - rewrite abs_no_slot; [|done|].
    + cbn [set_bits_of application_states]. by rewrite Hb, Z.eqb_refl by done.
    + intros i t Hi Hs. rewrite slot_bits, Hsl in Hs by done.
      destruct (slot s i) as [[st2 t2]|]; [|done]. destruct (Z.eqb_spec st2 state); [done|]. congruence.
  - apply abs_ext; try done.
    + cbn [set_bits_of application_states]. rewrite Hb by done. by replace (st =? state) with false by lia.
    + intros i t Hi. rewrite slot_bits, Hsl by done.
      destruct (slot s i) as [[st2 t2]|]; [|done]. destruct (Z.eqb_spec st2 state) as [->|]; [|done].
      split; [done|]. congruence.
Qed.

(** No entry: clearing the timeout does nothing. *)
Lemma clear_timeout_none s st :
  states_inv s -> (forall i t, 0 <= i -> slot s i <> Some (st, t)) -> clear_timeout_state s st = s.
Proof.
  intros Hinv Hn. unfold clear_timeout_state. destruct (find_timeout_cases s st Hinv) as [(i & t & Hi & Hs & _)|(-> & _)].
  - exfalso. apply (Hn i t); [lia|done]. - done.
Qed.

Lemma unset_no_slot s st :
  states_inv s -> Z.testbit (application_states s) st = false -> forall i t, 0 <= i -> slot s i <> Some (st, t).
Proof. intros Hinv Hb i t Hi Hs. destruct (inv_entry s Hinv i st t Hi Hs) as (_ & _ & Hx). congruence. Qed.

Definition is_set (o : option (option Z)) : bool := match o with Some _ => true | None => false end.

Lemma abs_is_set s st : is_set (states_abs s st) = Z.testbit (application_states s) st.
Proof. unfold states_abs. by destruct (Z.testbit _ st). Qed.

(** Setting and clearing implement their abstract meaning: [infuse_state_set]
    makes exactly its state set for good, dropping any timeout, [infuse_state_clear]
    makes exactly its state unset, both report the value before, every other state
    keeps its value and its timeout, and the table stays consistent.  The queries
    return the abstract state. *)
Theorem states_set_clear_refine s state st :
  states_inv s -> 0 <= state < 256 -> 0 <= st ->
  (let '(already, s') := infuse_state_set s state in
   states_inv s' /\ already = is_set (states_abs s state) /\
   states_abs s' st = if st =? state then Some None else states_abs s st) /\
  (let '(was_set, s') := infuse_state_clear s state in
   states_inv s' /\ was_set = is_set (states_abs s state) /\
   states_abs s' st = if st =? state then None else states_abs s st) /\
  infuse_state_get s st = is_set (states_abs s st) /\
  infuse_state_get_timeout s st =
    match states_abs s st with None => - EINVAL | Some None => 0 | Some (Some t) => t end.
Proof.
  intros Hinv Hstate Hst. split; [|split; [|split]].
  - unfold infuse_state_set. set (b := Z.setbit (application_states s) state).
    destruct (abs_cleared s state true b st Hinv Hst ltac:(lia)) as (Hi & Ha).
    { intros i Hi. unfold b. rewrite testbit_setbit by lia. destruct (Z.eqb_spec i state) as [->|].
      - apply orb_true_r. - apply orb_false_r. }
    rewrite abs_is_set. destruct (Z.testbit (application_states s) state) eqn:Eb.
    + rewrite clear_timeout_bits. unfold notify_set. split; [by apply states_inv_events|]. split; [done|].
      by rewrite abs_events.
    + rewrite clear_timeout_none in Hi, Ha by (try done; by apply unset_no_slot).
      unfold notify_set. split; [by apply states_inv_events|]. split; [done|]. by rewrite abs_events.
  - unfold infuse_state_clear. set (b := Z.clearbit (application_states s) state).
    destruct (abs_cleared s state false b st Hinv Hst ltac:(lia)) as (Hi & Ha).
    { intros i Hi. unfold b. rewrite testbit_clearbit by lia. destruct (Z.eqb_spec i state) as [->|].
      - apply andb_false_r. - apply andb_true_r. }
    rewrite abs_is_set. destruct (Z.testbit (application_states s) state) eqn:Eb.
    + rewrite clear_timeout_bits. unfold notify_cleared. split; [by apply states_inv_events|]. split; [done|].
      by rewrite abs_events.
    + rewrite clear_timeout_none in Hi, Ha by (try done; by apply unset_no_slot). done.
  - by rewrite abs_is_set.
  - unfold infuse_state_get_timeout, states_abs. destruct (Z.testbit _ st); [|done]. by destruct (_ =? UINT8_MAX).
Qed.

Lemma filter_all {A} (P : A -> Prop) `{!forall x, Decision (P x)} l : Forall P l -> filter P l = l.
Proof. induction 1 as [|x l Hx _ IH]; [done|]. by rewrite filter_cons_True, IH. Qed.

Lemma filter_none {A} (P : A -> Prop) `{!forall x, Decision (P x)} l : Forall (fun x => ~ P x) l -> filter P l = [].
Proof. induction 1 as [|x l Hx _ IH]; [done|]. by rewrite filter_cons_False. Qed.

Lemma popcount_full mask n :
  0 <= n <= 32 -> 0 <= mask < 2 ^ n -> (forall k, 0 <= k < n -> Z.testbit mask k = true) -> popcount mask = n.
Proof.
  intros Hn Hm Hall. unfold popcount. replace 32%nat with (Z.to_nat n + (32 - Z.to_nat n))%nat by lia.
  rewrite seq_app, map_app, filter_app.
  rewrite filter_all, filter_none.
  - rewrite app_nil_r. unfold zlen. rewrite length_map, length_seq. lia.
  - apply Forall_forall. intros x Hx. apply list_elem_of_fmap in Hx as (k & -> & Hk). rewrite elem_of_seq in Hk.
    by rewrite (testbit_above n) by lia.
  - apply Forall_forall. intros x Hx. apply list_elem_of_fmap in Hx as (k & -> & Hk). rewrite elem_of_seq in Hk.
    apply Hall. lia.
Qed.

(** A table that is not full has a free entry, which is the one chosen. *)
Lemma free_entry s :
  states_inv s -> popcount (timeout_mask s) <> zlen (timeout_states s) ->
  let k := first_bit (Z.lnot (timeout_mask s)) in
  0 <= k < zlen (timeout_states s) /\ Z.testbit (timeout_mask s) k = false.
Proof.
  intros [Hl Hm _ _] Hp. cbv zeta. pose proof (zlen_nonneg (timeout_states s)) as Hl0. unfold first_bit.
  assert (Hfull : ~ forall k, 0 <= k < zlen (timeout_states s) -> Z.testbit (timeout_mask s) k = true)
    by (intros Hall; apply Hp; by apply popcount_full; try lia).
  destruct (ffs_from_spec 32 0 (Z.lnot (timeout_mask s))) as [(j & Hj & -> & Hb & Hlow)|Hn].
  - rewrite Z.lnot_spec in Hb by lia. apply negb_true_iff in Hb. split; [|done]. split; [lia|].
    apply Z.nle_gt. intros Hle. apply Hfull. intros k Hk. specialize (Hlow k ltac:(lia)).
    rewrite Z.lnot_spec in Hlow by lia. by apply negb_false_iff in Hlow.
  - exfalso. apply Hfull. intros k Hk. specialize (Hn k ltac:(lia)).
    rewrite Z.lnot_spec in Hn by lia. by apply negb_false_iff in Hn.
Qed.

(** Entry [i] becomes [(state, timeout)], where it was unused or belonged to the state. *)
Lemma states_put s i state timeout m b st :
  states_inv s -> 0 <= i < zlen (timeout_states s) -> 0 <= m < 2 ^ zlen (timeout_states s) ->
  0 <= state < 256 -> 0 < timeout < 2 ^ 16 -> 0 <= st ->
  (forall j, 0 <= j -> Z.testbit m j = Z.testbit (timeout_mask s) j || (j =? i)) ->
  (forall j, 0 <= j -> Z.testbit b j = Z.testbit (application_states s) j || (j =? state)) ->
  (forall j t, 0 <= j -> j <> i -> slot s j <> Some (state, t)) ->
  (forall st' t, slot s i = Some (st', t) -> st' = state) ->
  let s1 := set_timeouts (set_bits_of s b) (<[Z.to_nat i := (state, timeout)]> (timeout_states s)) m in
  states_inv s1 /\ states_abs s1 st = if st =? state then Some (Some timeout) else states_abs s st.
Proof.
  intros Hinv Hi Hm Hstate Ht Hst Hmb Hbb Hn Hown. cbv zeta.
  assert (Hmi : Z.testbit m i = true) by (rewrite Hmb, Z.eqb_refl by lia; apply orb_true_r).
  assert (Hother : forall j, 0 <= j -> j <> i -> Z.testbit m j = Z.testbit (timeout_mask s) j).
  { intros j Hj Hne. rewrite Hmb by done. replace (j =? i) with false by lia. apply orb_false_r. }
  pose proof (slot_update s i (state, timeout) m b Hi Hm Hother) as Hsl. cbv zeta in Hsl. rewrite Hmi in Hsl.
  assert (Hinv1 : states_inv (set_timeouts (set_bits_of s b) (<[Z.to_nat i := (state, timeout)]> (timeout_states s)) m)).
  { apply states_inv_update; try done.
    - intros j st' t' Hj _ Hs'. destruct (inv_entry s Hinv j st' t' Hj Hs') as (? & _ & Hx). by rewrite Hbb, Hx by lia.
    - intros _. cbn [fst snd]. split_and!; try lia; [rewrite Hbb, Z.eqb_refl by lia; apply orb_true_r|].
      intros j t' Hj Hne. by apply Hn. }
  split; [done|]. set (s1 := set_timeouts _ _ _) in *. destruct (Z.eqb_spec st state) as [->|Hne].
  - apply (abs_slot s1 i); [done|lia|]. rewrite Hsl by lia. by rewrite Z.eqb_refl.
  - apply abs_ext; try done.
    + unfold s1. cbn [set_timeouts set_bits_of application_states]. rewrite Hbb by done.
      replace (st =? state) with false by lia. apply orb_false_r.
    + intros j t' Hj. rewrite Hsl by done. destruct (Z.eqb_spec j i) as [->|]; [|done].
      split; [congruence|]. intros Hs. by apply Hown in Hs.
Qed.

Definition has_timeout (o : option (option Z)) : bool := match o with Some (Some _) => true | _ => false end.

Lemma infuse_state_set_timeout_ok s state timeout st :
  states_inv s -> 0 <= state < 256 -> 0 < timeout < 2 ^ 16 -> 0 <= st ->
  let '(already, s') := infuse_state_set_timeout s state timeout in
  if has_timeout (states_abs s state) || negb (popcount (timeout_mask s) =? zlen (timeout_states s)) then
    states_inv s' /\ already = is_set (states_abs s state) /\
    states_abs s' st = if st =? state then Some (Some timeout) else states_abs s st
  else already = false /\ s' = s.
Proof.
  intros Hinv Hstate Ht Hst. unfold infuse_state_set_timeout. replace (timeout =? 0) with false by lia.
  rewrite abs_is_set. destruct (find_timeout_cases s state Hinv) as [(i & t & Hi & Hs & Hf)|(-> & Hn)].
  - rewrite Hf, (abs_slot s i state t Hinv ltac:(lia) Hs). cbn [has_timeout orb].
    replace (i =? UINT8_MAX) with false by (unfold UINT8_MAX; lia). pose proof (slot_range s i _ Hinv ltac:(lia) Hs) as Hr.
    assert (Hbi : Z.testbit (timeout_mask s) i = true /\ (timeout_entry s i).1 = state).
    { unfold slot in Hs. destruct (Z.testbit _ i); [|done]. injection Hs as ->. done. }
    destruct Hbi as (Hbi & ->). destruct (inv_entry s Hinv i state t ltac:(lia) Hs) as (_ & _ & Hbit). rewrite Hbit.
    change (set_timeouts s ?l ?m) with (set_timeouts (set_bits_of s (application_states s)) l m).
    destruct (states_put s i state timeout (timeout_mask s) (application_states s) st Hinv ltac:(lia) (inv_mask s Hinv)
      Hstate Ht Hst) as (Hinv1 & Habs).
    + intros j Hj. destruct (Z.eqb_spec j i) as [->|]; by rewrite ?Hbi, ?orb_true_r, ?orb_false_r.
    + intros j Hj. destruct (Z.eqb_spec j state) as [->|]; by rewrite ?Hbit, ?orb_true_r, ?orb_false_r.
    + intros j t' Hj Hne Hs'. apply Hne. apply (inv_unique s Hinv j i state t' t); done || lia.
    + intros st' t' Hs'. congruence.
    + unfold notify_set. split; [by apply states_inv_events|]. split; [done|]. by rewrite abs_events.
  - change (UINT8_MAX =? UINT8_MAX) with true. cbv iota.
    assert (Hht : has_timeout (states_abs s state) = false).
    { rewrite abs_no_slot by done. by destruct (Z.testbit _ state). }
    rewrite Hht. cbn [orb].
    destruct (Z.eqb_spec (popcount (timeout_mask s)) (zlen (timeout_states s))) as [He|He]; cbn [negb]; [done|].
    destruct (free_entry s Hinv He) as (Hk & Hbk). set (k := first_bit _) in *.
    set (m := Z.lor (timeout_mask s) (Z.shiftl 1 k)).
    assert (Hmb : forall j, 0 <= j -> Z.testbit m j = Z.testbit (timeout_mask s) j || (j =? k)).
    { intros j Hj. unfold m. rewrite Z.lor_spec, Z.shiftl_1_l, Z.pow2_bits_eqb by lia. by rewrite (Z.eqb_sym k). }
    assert (Hm : 0 <= m < 2 ^ zlen (timeout_states s)).
    { pose proof (inv_mask s Hinv). apply mask_bound; [lia|..].
      - unfold m. apply Z.lor_nonneg. rewrite Z.shiftl_1_l. split; [lia|apply Z.pow_nonneg; lia].
      - intros j Hj. rewrite Hmb by lia. rewrite (testbit_above (zlen (timeout_states s))) by lia.
        by replace (j =? k) with false by lia. }
    destruct (states_put s k state timeout m (Z.setbit (application_states s) state) st Hinv Hk Hm Hstate Ht Hst Hmb)
      as (Hinv1 & Habs).
    + intros j Hj. apply testbit_setbit; lia.
    + intros j t' Hj _. by apply Hn.
    + intros st' t' Hs'. unfold slot in Hs'. by rewrite Hbk in Hs'.
    + unfold notify_set. split; [by apply states_inv_events|]. split; [done|]. by rewrite abs_events.
Qed.

(** [infuse_state_set_timeout] sets exactly its state, for exactly the given
    ticks, replacing any earlier timeout of it; it reports whether the state was set.
    Only when the state has no timeout yet and the table is full does it do nothing,
    and then it reports that the state was not set. *)
Theorem states_set_timeout_refine s state timeout st :
  states_inv s -> 0 <= state < 256 -> 0 < timeout < 2 ^ 16 -> 0 <= st ->
  let '(already, s') := infuse_state_set_timeout s state timeout in
  if has_timeout (states_abs s state) || negb (popcount (timeout_mask s) =? zlen (timeout_states s)) then
    states_inv s' /\ already = is_set (states_abs s state) /\
    states_abs s' st = if st =? state then Some (Some timeout) else states_abs s st
  else already = false /\ s' = s.
Proof. apply infuse_state_set_timeout_ok. Qed.

(** ** Ticks *)

(** One tick of a state that was in the snapshot, or was not. *)
Definition tick_abs (seen : bool) (o : option (option Z)) : option (option Z) :=
  match o with
  | Some (Some t) => if seen then (if t =? 1 then None else Some (Some (t - 1))) else Some (Some t)
  | _ => o
  end.

(** Entry [i] runs out: it is freed and its state cleared. *)
Lemma states_expire s i state t b st :
  states_inv s -> 0 <= i -> slot s i = Some (state, t) -> 0 <= st ->
  b = Z.clearbit (application_states s) state ->
  let s1 := set_timeouts (set_bits_of s b) (<[Z.to_nat i := (0, 0)]> (timeout_states s))
              (Z.lxor (timeout_mask s) (Z.shiftl 1 i)) in
  states_inv s1 /\ states_abs s1 st = if st =? state then None else states_abs s st.
Proof.
  intros Hinv Hi Hs Hst ->. cbv zeta. destruct (inv_entry s Hinv i state t Hi Hs) as (Hr & _).
  pose proof (slot_range s i _ Hinv Hi Hs) as Hri. pose proof (inv_slots s Hinv).
  destruct (abs_cleared s state false (Z.clearbit (application_states s) state) st Hinv Hst ltac:(lia)) as (Hinv1 & Habs).
  { intros j Hj. rewrite testbit_clearbit by lia. destruct (Z.eqb_spec j state) as [->|].
    - apply andb_false_r. - apply andb_true_r. }
  unfold clear_timeout_state in Hinv1, Habs. rewrite (find_timeout_some s i state t Hinv Hi Hs) in Hinv1, Habs.
  replace (i =? UINT8_MAX) with false in Hinv1, Habs by (unfold UINT8_MAX; lia). done.
Qed.

(** The rest of the loop, for a state other than the one just handled. *)
Lemma tick_other s s1 z state t m m' st :
  states_inv s -> states_inv s1 -> 0 <= z -> slot s z = Some (state, t) -> st <> state ->
  (forall i, 0 <= i -> i <> z -> slot s1 i = slot s i) -> states_abs s1 st = states_abs s st ->
  (forall i, 0 <= i -> Z.testbit m' i = Z.testbit m i && negb (i =? z)) ->
  forall seen, tick_abs (seen && Z.testbit m' (find_timeout_state s1 st)) (states_abs s1 st) =
    tick_abs (seen && Z.testbit m (find_timeout_state s st)) (states_abs s st).
Proof.
  intros Hinv Hinv1 Hz Hsz Hne Hsl Habs Hm' seen. rewrite Habs.
  destruct (find_timeout_cases s st Hinv) as [(i & u & Hi & Hs & Hf)|(_ & Hn)].
  - assert (Hiz : i <> z) by (intros ->; congruence).
    rewrite Hf, (find_timeout_some s1 i st u Hinv1 ltac:(lia)) by (rewrite Hsl by lia; done).
    rewrite Hm' by lia. replace (i =? z) with false by lia. by rewrite andb_true_r.
  - rewrite abs_no_slot by done. by destruct (Z.testbit (application_states s) st).
Qed.

(** One pass of the loop, over entry [z] of [state]: what [s1] is for a state [st]. *)
Definition tick_pass (seen : bool) (s : app_states) (z state st : Z) (s1 : app_states) : Prop :=
  states_inv s1 /\ (forall i, 0 <= i -> i <> z -> slot s1 i = slot s i) /\
  (st <> state -> states_abs s1 st = states_abs s st) /\
  (st = state -> states_abs s1 st = tick_abs seen (states_abs s st) /\
     forall u, states_abs s1 st = Some (Some u) -> find_timeout_state s1 st = z).

Lemma tick_skip s z state t st :
  states_inv s -> 0 <= z -> slot s z = Some (state, t) -> tick_pass false s z state st s.
Proof.
  intros Hinv Hz Hsz. split; [done|]. split; [done|]. split; [done|]. intros ->.
  rewrite (abs_slot s z state t Hinv Hz Hsz). split; [done|]. intros _ _. by apply (find_timeout_some s z state t).
Qed.

Lemma tick_count s z state t st :
  states_inv s -> 0 <= z -> slot s z = Some (state, t) -> 0 <= st -> 1 < t ->
  tick_pass true s z state st
    (set_timeouts s (<[Z.to_nat z := (state, t - 1)]> (timeout_states s)) (timeout_mask s)).
Proof.
  intros Hinv Hz Hsz Hst Hgt. destruct (inv_entry s Hinv z state t Hz Hsz) as (Hstate & Ht & Hbit).
  pose proof (slot_range s z _ Hinv Hz Hsz) as Hzr.
  assert (Hbz : Z.testbit (timeout_mask s) z = true) by (unfold slot in Hsz; by destruct (Z.testbit (timeout_mask s) z)).
  change (set_timeouts s ?l ?m0) with (set_timeouts (set_bits_of s (application_states s)) l m0).
  destruct (states_put s z state (t - 1) (timeout_mask s) (application_states s) st Hinv ltac:(lia)
    (inv_mask s Hinv) Hstate ltac:(lia) Hst) as (Hinv1 & Habs1).
  - intros i Hi. destruct (Z.eqb_spec i z) as [->|]; by rewrite ?Hbz, ?orb_true_r, ?orb_false_r.
  - intros i Hi. destruct (Z.eqb_spec i state) as [->|]; by rewrite ?Hbit, ?orb_true_r, ?orb_false_r.
  - intros i u Hi Hiz Hs'. apply Hiz. apply (inv_unique s Hinv i z state u t); done || lia.
  - intros st' u Hs'. congruence.
  - set (s1 := set_timeouts _ _ _) in *.
    assert (Hsl : forall i, 0 <= i -> slot s1 i = if i =? z then Some (state, t - 1) else slot s i).
    { intros i Hi. unfold s1. rewrite (slot_update s z) by (try lia; try apply Hinv; by intros). by rewrite Hbz. }
    split; [done|]. split; [|split].
    + intros i Hi Hiz. rewrite Hsl by done. by replace (i =? z) with false by lia.
    + intros Hne'. rewrite Habs1. by replace (st =? state) with false by lia.
    + intros ->. rewrite Habs1, Z.eqb_refl, (abs_slot s z state t Hinv Hz Hsz). cbn [tick_abs].
      replace (t =? 1) with false by lia. split; [done|]. intros _ _.
      apply (find_timeout_some s1 z state (t - 1) Hinv1 Hz). by rewrite Hsl, Z.eqb_refl.
Qed.

Lemma tick_expire s z state st ev :
  states_inv s -> 0 <= z -> slot s z = Some (state, 1) -> 0 <= st ->
  tick_pass true s z state st
    (add_events (set_timeouts (set_bits_of s (Z.clearbit (application_states s) state))
       (<[Z.to_nat z := (0, 0)]> (timeout_states s)) (Z.lxor (timeout_mask s) (Z.shiftl 1 z))) ev).
Proof.
  intros Hinv Hz Hsz Hst. pose proof (slot_range s z _ Hinv Hz Hsz) as Hzr.
  destruct (states_expire s z state 1 _ st Hinv Hz Hsz Hst eq_refl) as (Hinv1 & Habs1).
  set (s1 := set_timeouts _ _ _) in *.
  split; [by apply states_inv_events|]. split; [|split].
  - intros i Hi Hiz. change (slot (add_events s1 ev) i) with (slot s1 i). unfold slot, timeout_entry, s1.
    cbn [set_timeouts set_bits_of timeout_mask timeout_states]. rewrite lxor_bit, nth_insert by lia.
    replace (z =? i) with false by lia. replace (i =? z) with false by lia. by rewrite xorb_false_r.
  - intros Hne'. rewrite abs_events, Habs1 by done. by replace (st =? state) with false by lia.
  - intros ->. rewrite abs_events, Habs1, Z.eqb_refl, (abs_slot s z state 1 Hinv Hz Hsz) by done.
    split; [reflexivity|]. discriminate.
Qed.

Lemma tick_loop_ok fuel s snapshot m j st :
  states_inv s -> 0 <= m < 2 ^ 32 -> (33 <= fuel + j)%nat -> (forall k, 0 <= k < Z.of_nat j -> Z.testbit m k = false) ->
  (forall i, 0 <= i -> Z.testbit m i = true -> Z.testbit (timeout_mask s) i = true) -> 0 <= st ->
  let s' := tick_loop fuel s snapshot m in
  states_inv s' /\
  states_abs s' st = tick_abs (Z.testbit snapshot st && Z.testbit m (find_timeout_state s st)) (states_abs s st).
Proof.
  intros Hinv Hm Hf Hlow Hsub Hst. cbv zeta. revert s m j Hinv Hm Hf Hlow Hsub.
  assert (Hend : forall s b, states_abs s st = tick_abs (b && false) (states_abs s st)).
  { intros s b. rewrite andb_false_r. by destruct (states_abs s st) as [[?|]|]. }
  induction fuel as [|fuel IH]; intros s m j Hinv Hm Hf Hlow Hsub.
  { assert (m = 0) as -> by (apply mask_zero; [done|]; intros k Hk; apply Hlow; lia).
    rewrite Z.testbit_0_l. by split; [|apply Hend]. }
  cbn [tick_loop]. destruct (Z.eqb_spec m 0) as [->|Hne]; cbn [negb].
  { rewrite Z.testbit_0_l. by split; [|apply Hend]. }
  destruct (first_bit_spec m Hm Hne) as (Hz & Hb & Hm' & Hbits & Hl). set (z := first_bit m) in *.
  set (m' := Z.lxor m (Z.shiftl 1 z)) in *.
  assert (Hjz : Z.of_nat j <= z) by (apply Z.nlt_ge; intros Hlt; rewrite Hlow in Hb; [done|lia]).
  assert (Hlow' : forall k, 0 <= k < Z.of_nat (S (Z.to_nat z)) -> Z.testbit m' k = false).
  { intros k Hk. rewrite Hbits by lia. destruct (Z.eqb_spec k z) as [->|]; [apply andb_false_r|]. by rewrite Hl by lia. }
  assert (Hf' : (33 <= fuel + S (Z.to_nat z))%nat) by lia. assert (Hmz : Z.testbit m' z = false) by (apply Hlow'; lia).
  pose proof (Hsub z ltac:(lia) Hb) as Hbz. destruct (timeout_entry s z) as [state t] eqn:Et.
  assert (Hsz : slot s z = Some (state, t)) by (unfold slot; by rewrite Hbz, Et).
  destruct (inv_entry s Hinv z state t ltac:(lia) Hsz) as (Hstate & Ht & _).
  pose proof (find_timeout_some s z state t Hinv ltac:(lia) Hsz) as Hfind.
  assert (Hgo : forall s1, tick_pass (Z.testbit snapshot state) s z state st s1 ->
    let s' := tick_loop fuel s1 snapshot m' in states_inv s' /\
    states_abs s' st = tick_abs (Z.testbit snapshot st && Z.testbit m (find_timeout_state s st)) (states_abs s st)).
  { intros s1 (Hinv1 & Hsl & Hoth & Hown). destruct (IH s1 m' (S (Z.to_nat z)) Hinv1 Hm' Hf' Hlow') as (Hi & Ha).
    - intros i Hi Hbi. rewrite Hbits in Hbi by done. apply andb_true_iff in Hbi as [Hbi Hiz].
      assert (Hs : slot s1 i = slot s i) by (apply Hsl; [done|]; by apply negb_true_iff, Z.eqb_neq in Hiz).
      unfold slot in Hs. rewrite (Hsub i Hi Hbi) in Hs. by destruct (Z.testbit (timeout_mask s1) i).
    - split; [done|]. rewrite Ha. destruct (Z.eq_dec st state) as [->|Hst'].
      + destruct (Hown eq_refl) as (Ho & Hfz). rewrite Hfind, Hb, andb_true_r, <- Ho.
        destruct (states_abs s1 state) as [[u|]|] eqn:Es; [|done..]. rewrite (Hfz u eq_refl), Hmz, andb_false_r. done.
      + by apply (tick_other s s1 z state t); try done; [lia|apply Hoth]. }
  destruct (Z.testbit snapshot state); cbn [negb].
  2: { apply Hgo. apply (tick_skip s z state t); done || lia. }
  rewrite uwrap_small by lia. destruct (Z.ltb_spec 0 (t - 1)) as [Hgt|Hle].
  - apply Hgo. apply tick_count; done || lia.
  - assert (t = 1) as -> by lia. change (1 - 1) with 0.
    set (ev := map (fun i => EvStateCleared i state) (cb_positions cb_state_cleared 0 (cb_list s))).
    apply Hgo. apply (tick_expire s z state st ev); done || lia.
Qed.

Lemma infuse_states_tick_ok s snapshot st :
  states_inv s -> 0 <= st ->
  states_inv (infuse_states_tick s snapshot) /\
  states_abs (infuse_states_tick s snapshot) st = tick_abs (Z.testbit snapshot st) (states_abs s st).
Proof.
  intros Hinv Hst. unfold infuse_states_tick.
  destruct (tick_loop_ok 33 s snapshot (timeout_mask s) 0 st Hinv (inv_mask32 s Hinv) ltac:(lia) ltac:(lia)
    ltac:(by intros) Hst) as (Hi & Ha).
  split; [exact Hi|]. rewrite Ha. destruct (find_timeout_cases s st Hinv) as [(i & t & Hri & Hs & Hf)|(_ & Hn)].
  - assert (Hb : Z.testbit (timeout_mask s) i = true) by (unfold slot in Hs; by destruct (Z.testbit _ i)).
    by rewrite Hf, Hb, andb_true_r.
  - rewrite abs_no_slot by done. by destruct (Z.testbit (application_states s) st).
Qed.

(** A tick takes one from the timeout of every state in the snapshot, clears
    those whose timeout is over, and leaves all other states alone. *)
Theorem states_tick_refine s snapshot st :
  states_inv s -> 0 <= st ->
  states_inv (infuse_states_tick s snapshot) /\
  states_abs (infuse_states_tick s snapshot) st = tick_abs (Z.testbit snapshot st) (states_abs s st).
Proof. intros Hinv Hst. by apply infuse_states_tick_ok. Qed.

Lemma tick_abs_none b : tick_abs b None = None.
Proof. by destruct b. Qed.

Lemma tick_abs_timed t : tick_abs true (Some (Some t)) = if t =? 1 then None else Some (Some (t - 1)).
Proof. done. Qed.

(** What happens to the module: calls for some state, and ticks with some snapshot. *)
Inductive states_op :=
| OpSet (state : Z)
| OpSetTimeout (state timeout : Z)
| OpClear (state : Z)
| OpTick (snapshot : Z).

Definition states_run (s : app_states) (op : states_op) : app_states :=
  match op with
  | OpSet state => (infuse_state_set s state).2
  | OpSetTimeout state timeout => (infuse_state_set_timeout s state timeout).2
  | OpClear state => (infuse_state_clear s state).2
  | OpTick snapshot => infuse_states_tick s snapshot
  end.

(** The calls are not for state [st]. *)
Definition not_for (st : Z) (op : states_op) : Prop :=
  match op with
  | OpSet state | OpClear state => 0 <= state < 256 /\ state <> st
  | OpSetTimeout state timeout => 0 <= state < 256 /\ state <> st /\ 0 <= timeout < 2 ^ 16
  | OpTick _ => True
  end.

(** A tick whose snapshot contains [st]. *)
Definition counts_for (st : Z) (op : states_op) : bool :=
  match op with OpTick snapshot => Z.testbit snapshot st | _ => false end.

Fixpoint ticks_for (st : Z) (ops : list states_op) : Z :=
  match ops with
  | [] => 0
  | op :: ops => (if counts_for st op then 1 else 0) + ticks_for st ops
  end.

Lemma ticks_for_nonneg st ops : 0 <= ticks_for st ops.
Proof. induction ops; cbn; [lia|]. case_match; lia. Qed.

Lemma tick_abs_unseen o : tick_abs false o = o.
Proof. by destruct o as [[]|]. Qed.

Lemma states_run_other s op st :
  states_inv s -> 0 <= st -> not_for st op ->
  states_inv (states_run s op) /\ states_abs (states_run s op) st = tick_abs (counts_for st op) (states_abs s st).
Proof.
  intros Hi Hst Hop. destruct op as [state|state timeout|state|snapshot]; cbn [states_run counts_for not_for] in *.
  - destruct Hop as [Hr Hne]. destruct (states_set_clear_refine s state st Hi Hr Hst) as (Hs & _).
    destruct (infuse_state_set s state) as [already s']. destruct Hs as (Hi' & _ & Ha). cbn [snd].
    rewrite tick_abs_unseen, Ha. by replace (st =? state) with false by lia.
  - destruct Hop as (Hr & Hne & Ht). rewrite tick_abs_unseen. destruct (Z.eq_dec timeout 0) as [Hz|Hnz].
    { subst timeout. by unfold infuse_state_set_timeout. }
    pose proof (infuse_state_set_timeout_ok s state timeout st Hi Hr ltac:(lia) Hst) as Hs.
    destruct (infuse_state_set_timeout s state timeout) as [already s']. cbn [snd].
    destruct (_ || _); [|destruct Hs as [_ Heq]; by rewrite Heq].
    destruct Hs as (Hi' & _ & Ha). rewrite Ha. by replace (st =? state) with false by lia.
  - destruct Hop as [Hr Hne]. destruct (states_set_clear_refine s state st Hi Hr Hst) as (_ & Hs & _).
    destruct (infuse_state_clear s state) as [was s']. destruct Hs as (Hi' & _ & Ha). cbn [snd].
    rewrite tick_abs_unseen, Ha. by replace (st =? state) with false by lia.
  - by apply infuse_states_tick_ok.
Qed.

Lemma states_runs_inv ops s st : states_inv s -> 0 <= st -> Forall (not_for st) ops -> states_inv (fold_left states_run ops s).
Proof.
  intros Hi Hst Hall. revert s Hi. induction Hall as [|op ops Hop _ IH]; intros s Hi; [exact Hi|].
  apply IH. by apply (states_run_other s op st).
Qed.

Lemma states_runs_none ops s st :
  states_inv s -> 0 <= st -> Forall (not_for st) ops -> states_abs s st = None ->
  states_abs (fold_left states_run ops s) st = None.
Proof.
  intros Hi Hst Hall. revert s Hi. induction Hall as [|op ops Hop _ IH]; intros s Hi Ha; [exact Ha|].
  destruct (states_run_other s op st Hi Hst Hop) as (Hi' & Ha'). rewrite Ha, tick_abs_none in Ha'. exact (IH _ Hi' Ha').
Qed.

Lemma states_runs_timed ops s st t :
  states_inv s -> 0 <= st -> Forall (not_for st) ops -> states_abs s st = Some (Some t) -> 0 < t ->
  states_abs (fold_left states_run ops s) st = if ticks_for st ops <? t then Some (Some (t - ticks_for st ops)) else None.
Proof.
  intros Hi Hst Hall. revert s t Hi. induction Hall as [|op ops Hop Hops IH]; intros s t Hi Ha Ht.
  { cbn. rewrite Z.sub_0_r. by replace (0 <? t) with true by lia. }
  cbn [fold_left ticks_for]. pose proof (ticks_for_nonneg st ops).
  destruct (states_run_other s op st Hi Hst Hop) as (Hi' & Ha'). rewrite Ha in Ha'.
  destruct (counts_for st op); [rewrite tick_abs_timed in Ha'|by apply IH].
  destruct (Z.eqb_spec t 1) as [H1|Hne].
  - replace (1 + ticks_for st ops <? t) with false by lia. by apply states_runs_none.
  - rewrite (IH _ (t - 1) Hi' Ha') by lia. replace (1 + ticks_for st ops <? t) with (ticks_for st ops <? t - 1) by lia.
    by replace (t - (1 + ticks_for st ops)) with (t - 1 - ticks_for st ops) by lia.
Qed.

(** An initialised module: [n] timeout entries, nothing set. *)
Definition states_empty (n : nat) : app_states := AppStates 0 (replicate n (0, 0)) 0 [] [].

Lemma states_empty_inv n : (n <= 32)%nat -> states_inv (states_empty n).
Proof.
  intros Hn. assert (Hl : zlen (timeout_states (states_empty n)) = Z.of_nat n) by (unfold zlen; cbn; by rewrite length_replicate).
  assert (Hs : forall i, slot (states_empty n) i = None) by (intros i; unfold slot; cbn; by rewrite Z.testbit_0_l).
  split; [lia|rewrite Hl; cbn; split; [lia|apply Z.pow_pos_nonneg; lia]|..].
  - intros i st t _. by rewrite Hs.
  - intros i j st t t' _ _. by rewrite Hs.
Qed.

(** C38.  A state set with a timeout of [n] is set for exactly [n] ticks whose snapshot
    contains it.  The timeout table has a free entry, or one for this state already.  Then,
    whatever is called for other states and whatever snapshots the ticks are given, the
    state is reported as set, with what is left of its timeout, until the [n]-th tick with
    a snapshot that contains it, and is cleared from then on; ticks with other snapshots do
    not count. *)
Theorem states_timeout_lifetime s state timeout ops :
  states_inv s -> 0 <= state < 256 -> 0 < timeout < 2 ^ 16 ->
  has_timeout (states_abs s state) = true \/ popcount (timeout_mask s) <> zlen (timeout_states s) ->
  Forall (not_for state) ops ->
  let s' := fold_left states_run ops (infuse_state_set_timeout s state timeout).2 in
  infuse_state_get s' state = (ticks_for state ops <? timeout) /\
  infuse_state_get_timeout s' state = if ticks_for state ops <? timeout then timeout - ticks_for state ops else - EINVAL.
Proof.
  intros Hinv Hstate Ht Hroom Hall. cbv zeta.
  pose proof (infuse_state_set_timeout_ok s state timeout state Hinv Hstate Ht ltac:(lia)) as Hset.
  destruct (infuse_state_set_timeout s state timeout) as [already s0]. cbn [snd].
  replace (_ || _) with true in Hset by (destruct Hroom as [-> | Hne]; [done|]; symmetry; apply orb_true_iff; right; lia).
  rewrite Z.eqb_refl in Hset. destruct Hset as (Hi & _ & Ha).
  pose proof (states_runs_timed ops s0 state timeout Hi ltac:(lia) Hall Ha ltac:(lia)) as Hf.
  destruct (states_set_clear_refine (fold_left states_run ops s0) state state) as (_ & _ & Hg & Hgt); [|lia..|].
  - by apply (states_runs_inv _ _ state); [|lia|].
  - rewrite Hg, Hgt, Hf. by destruct (_ <? timeout).
Qed.

(** State 3 set for two ticks in a module with two timeout entries. *)
Definition states_timed : app_states := (infuse_state_set_timeout (states_empty 2) 3 2).2.

Lemma states_timed_inv : states_inv states_timed.
Proof.
  exact (proj1 (infuse_state_set_timeout_ok (states_empty 2) 3 2 3 (states_empty_inv 2 ltac:(lia))
    ltac:(lia) ltac:(lia) ltac:(lia))).
Qed.

Lemma states_set_clear_refine_witness :
  let '(was_set, s') := infuse_state_clear states_timed 3 in
  was_set = true /\ states_abs s' 3 = None.
Proof.
  destruct (states_set_clear_refine states_timed 3 3 states_timed_inv ltac:(lia) ltac:(lia)) as (_ & H & _).
  destruct (infuse_state_clear states_timed 3) as [w s'] eqn:E. destruct H as (_ & Hw & Ha).
  rewrite Hw, Ha. split; vm_compute; reflexivity.
Defined.

Lemma states_set_timeout_refine_witness :
  let '(already, s') := infuse_state_set_timeout states_timed 3 7 in
  already = true /\ states_abs s' 3 = Some (Some 7).
Proof.
  pose proof (states_set_timeout_refine states_timed 3 7 3 states_timed_inv ltac:(lia) ltac:(lia) ltac:(lia)) as H.
  destruct (infuse_state_set_timeout states_timed 3 7) as [a s'].
  replace (has_timeout (states_abs states_timed 3)) with true in H by (vm_compute; reflexivity).
  destruct H as (_ & Ha & Hs). rewrite Ha, Hs. split; vm_compute; reflexivity.
Defined.

Lemma states_tick_refine_witness : states_abs (infuse_states_tick states_timed 8) 3 = Some (Some 1).
Proof.
  destruct (states_tick_refine states_timed 8 3 states_timed_inv ltac:(lia)) as (_ & Ha).
  rewrite Ha. vm_compute. reflexivity.
Defined.

Lemma states_timeout_lifetime_witness :
  let s' := fold_left states_run [OpTick 8; OpSetTimeout 5 1; OpTick 32; OpTick 8] (infuse_state_set_timeout (states_empty 2) 3 3).2 in
  infuse_state_get s' 3 = true /\ infuse_state_get_timeout s' 3 = 1.
Proof.
  exact (states_timeout_lifetime (states_empty 2) 3 3 [OpTick 8; OpSetTimeout 5 1; OpTick 32; OpTick 8]
    (states_empty_inv 2 ltac:(lia)) ltac:(lia) ltac:(lia) ltac:(right; vm_compute; discriminate) ltac:(repeat constructor; done)).
Defined.
