(* ===== verification/Schedule.v ===== *)
(** * Task schedules ([subsys/task_runner/schedule.c])

    When a schedule is valid, when its task should start and when it should
    terminate.  The periodicity parameters are the bytes of the C union, so that a
    field read through another member of the union gives what the code sees.

    [states_eval_correct] relates the state conditions to the expression that
    [TASK_STATES_DEFINE] documents; [schedule_start_correct] shows that a validated
    schedule is evaluated without a division by zero or an overflow, and what a start
    implies. *)

From stdpp Require Import base tactics numbers list.
From Stdlib Require Import ZArith Lia.
From S2P Require Import Prelude MathCommon States.

Local Open Scope Z_scope.
Local Open Scope infuse_scope.

Definition TASK_LOCKED : Z := 0x80.
Definition TASK_VALID_ALWAYS : Z := 1.
Definition TASK_VALID_ACTIVE : Z := 2.
Definition TASK_VALID_INACTIVE : Z := 3.
Definition TASK_VALID_PERMANENTLY_RUNS : Z := 4.
Definition _TASK_VALID_END : Z := 5.
Definition _TASK_VALID_MASK : Z := 0x7F.

Definition TASK_PERIODICITY_FIXED : Z := 1.
Definition TASK_PERIODICITY_LOCKOUT : Z := 2.
Definition TASK_PERIODICITY_AFTER : Z := 3.
Definition TASK_PERIODICITY_LOCKOUT_DYNAMIC_BATTERY : Z := 4.
Definition _TASK_PERIODICITY_END : Z := 5.

Definition TASK_RUNNER_LOCKOUT_IGNORE_FIRST : Z := Z.shiftl 1 31.
Definition TASK_RUNNER_LOCKOUT_VALUE_MASK : Z := u32 (Z.lnot TASK_RUNNER_LOCKOUT_IGNORE_FIRST).
Definition SEC_PER_MIN : Z := 60.

Definition TR_NOT : Z := 0x100.
Definition TR_OR : Z := 0x200.

Record task_schedule_state_conditions := StateConditions {
  metadata : Z;
  cond_states : list Z; (* uint8_t states[4] *)
}.

(** [union periodicity_args]: its six bytes. *)
Definition periodicity_args := list Z.
Definition fixed_period_s (p : periodicity_args) : Z := le_get (ztake 4 p).
Definition lockout_lockout_s (p : periodicity_args) : Z := le_get (ztake 4 p).
Definition after_schedule_idx (p : periodicity_args) : Z := le_get (ztake 1 p).
Definition after_duration_s (p : periodicity_args) : Z := le_get (ztake 2 (zdrop 1 p)).
Definition ldb_lockout_min (p : periodicity_args) : Z := le_get (ztake 2 p).
Definition ldb_lockout_max (p : periodicity_args) : Z := le_get (ztake 2 (zdrop 2 p)).
Definition ldb_battery_min (p : periodicity_args) : Z := le_get (ztake 1 (zdrop 4 p)).
Definition ldb_battery_max (p : periodicity_args) : Z := le_get (ztake 1 (zdrop 5 p)).

Record task_schedule := TaskSchedule {
  sch_task_id : Z;
  validity : Z;
  periodicity_type : Z;
  boot_lockout_minutes : Z;
  timeout_s : Z;
  battery_start_lower : Z;
  battery_start_upper : Z;
  battery_terminate_lower : Z;
  battery_terminate_upper : Z;
  periodicity : periodicity_args;
  states_start_timeout_2x_s : Z;
  states_start : task_schedule_state_conditions;
  states_terminate : task_schedule_state_conditions;
  task_logging : list Z; (* two pairs of loggers and TDF mask *)
  task_args : list Z;
}.

(** The packed struct as bytes, as it is stored and copied. *)
Definition sizeof_task_schedule : Z := 50.

Definition conditions_bytes (c : task_schedule_state_conditions) : list Z := metadata c :: cond_states c.
Definition conditions_of_bytes (l : list Z) : task_schedule_state_conditions :=
  StateConditions (nth 0 l 0) (zdrop 1 l).

Definition task_schedule_bytes (s : task_schedule) : list Z :=
  [sch_task_id s; validity s; periodicity_type s; boot_lockout_minutes s] ++ le_put 4 (timeout_s s) ++
  [battery_start_lower s; battery_start_upper s; battery_terminate_lower s; battery_terminate_upper s] ++
  periodicity s ++ le_put 2 (states_start_timeout_2x_s s) ++
  conditions_bytes (states_start s) ++ conditions_bytes (states_terminate s) ++ task_logging s ++ task_args s.

Definition task_schedule_of_bytes (l : list Z) : task_schedule :=
  let byte i := nth i l 0 in
  TaskSchedule (byte 0%nat) (byte 1%nat) (byte 2%nat) (byte 3%nat) (le_get (ztake 4 (zdrop 4 l)))
    (byte 8%nat) (byte 9%nat) (byte 10%nat) (byte 11%nat) (ztake 6 (zdrop 12 l)) (le_get (ztake 2 (zdrop 18 l)))
    (conditions_of_bytes (ztake 5 (zdrop 20 l))) (conditions_of_bytes (ztake 5 (zdrop 25 l)))
    (ztake 4 (zdrop 30 l)) (ztake 16 (zdrop 34 l)).

(** [linked] is the position of the linked schedule state, [event_cb] whether a
    callback is assigned. *)
Record task_schedule_state := ScheduleState {
  linked : option nat;
  event_cb : bool;
  last_run : Z;
  runtime : Z;
  last_terminate : Z;
  task_idx : Z;
}.

(** ** State conditions *)

Definition _TR_NOT_BIT_COMMON (state idx : Z) : Z :=
  if negb (Z.land state TR_NOT =? 0) then Z.shiftl 1 idx else 0.
Definition _TR_OR_BIT_COMMON (state idx : Z) : Z :=
  if negb (Z.land state TR_OR =? 0) then Z.shiftl 1 idx else 0.

Definition _TR_STATES_DEFINE_ALL (s0 s1 s2 s3 : Z) : task_schedule_state_conditions :=
  StateConditions
    (fold_left Z.lor
      [_TR_NOT_BIT_COMMON s1 1; _TR_NOT_BIT_COMMON s2 2; _TR_NOT_BIT_COMMON s3 3; _TR_OR_BIT_COMMON s0 4;
       _TR_OR_BIT_COMMON s1 5; _TR_OR_BIT_COMMON s2 6; _TR_OR_BIT_COMMON s3 7] (_TR_NOT_BIT_COMMON s0 0))
    [Z.land s0 0xFF; Z.land s1 0xFF; Z.land s2 0xFF; Z.land s3 0xFF].

(** The macro takes one to four arguments. *)
Definition TASK_STATES_DEFINE (args : list Z) : option task_schedule_state_conditions :=
  match args with
  | [s0] => Some (_TR_STATES_DEFINE_ALL s0 0 0 0)
  | [s0; s1] => Some (_TR_STATES_DEFINE_ALL s0 s1 0 0)
  | [s0; s1; s2] => Some (_TR_STATES_DEFINE_ALL s0 s1 s2 0)
  | [s0; s1; s2; s3] => Some (_TR_STATES_DEFINE_ALL s0 s1 s2 s3)
  | _ => None
  end.

(** The loop over the array from index [i] on. *)
Fixpoint states_eval_loop (states : list Z) (i metadata app_states : Z) (result : bool) : bool :=
  match states with
  | [] => result
  | state_idx :: states =>
      if state_idx =? 0 then result
      else
        let state_val := Z.testbit app_states state_idx in
        let state_val := if Z.testbit metadata i then negb state_val else state_val in
        let or_cond := Z.testbit metadata (i + 4) in
        states_eval_loop states (i + 1) metadata app_states
          (if or_cond then result || state_val else result && state_val)
  end.

Definition task_schedule_states_eval (states : task_schedule_state_conditions) (app_states : Z)
  (fallthrough : bool) : bool :=
  if nth 0 (cond_states states) 0 =? 0 then fallthrough
  else states_eval_loop (cond_states states) 0 (metadata states) app_states
         (negb (Z.testbit (metadata states) 4)).

(** ** Validation *)

Definition task_schedule_validate (schedule : task_schedule) : bool :=
  let validity_masked := Z.land (validity schedule) _TASK_VALID_MASK in
  let p := periodicity schedule in
  if validity_masked =? 0 then false
  else if _TASK_VALID_END <=? validity_masked then false
  else if _TASK_PERIODICITY_END <=? periodicity_type schedule then false
  else if (periodicity_type schedule =? TASK_PERIODICITY_FIXED) && (fixed_period_s p =? 0) then false
  else if (periodicity_type schedule =? TASK_PERIODICITY_LOCKOUT) && (lockout_lockout_s p =? 0) then false
  else if (periodicity_type schedule =? TASK_PERIODICITY_LOCKOUT_DYNAMIC_BATTERY) &&
          ((ldb_battery_max p <=? ldb_battery_min p) || (ldb_lockout_min p =? 0) || (ldb_lockout_max p =? 0))
  then false
  else if (100 <? battery_start_lower schedule) || (100 <? battery_start_upper schedule) ||
          (100 <? battery_terminate_lower schedule) || (100 <? battery_terminate_upper schedule) then false
  else if negb (battery_start_lower schedule =? 0) && negb (battery_start_upper schedule =? 0) &&
          (battery_start_upper schedule <=? battery_start_lower schedule) then false
  else if negb (battery_terminate_lower schedule =? 0) && negb (battery_terminate_upper schedule =? 0) &&
          (battery_terminate_upper schedule <=? battery_terminate_lower schedule) then false
  else true.

(** ** Starting and terminating *)

(** The lockout in force at a battery charge, the flag still included. *)
Definition lockout_value (schedule : task_schedule) (battery_soc : Z) : exec Z :=
  let p := periodicity schedule in
  if periodicity_type schedule =? TASK_PERIODICITY_LOCKOUT then Done (lockout_lockout_s p)
  else if battery_soc <=? ldb_battery_min p then Done (ldb_lockout_min p)
  else if ldb_battery_max p <=? battery_soc then Done (ldb_lockout_max p)
  else
    let! v := math_2d_linear_interpolate_fast (ldb_battery_min p) (ldb_battery_max p)
                (ldb_lockout_min p) (ldb_lockout_max p) battery_soc in
    Done (u32 v).

(** [linked_terminate] is [state->linked->last_terminate] when there is a linked
    schedule. *)
Definition periodicity_check (schedule : task_schedule) (state : task_schedule_state)
  (linked_terminate : option Z) (uptime epoch_time battery_soc : Z) : exec bool :=
  let since_last_run := u32 (uptime - last_run state) in
  let p := periodicity schedule in
  if periodicity_type schedule =? TASK_PERIODICITY_FIXED then
    if fixed_period_s p =? 0 then Fault (* division by zero *)
    else Done (epoch_time mod fixed_period_s p =? 0)
  else if (periodicity_type schedule =? TASK_PERIODICITY_LOCKOUT) ||
          (periodicity_type schedule =? TASK_PERIODICITY_LOCKOUT_DYNAMIC_BATTERY) then
    let! lockout_val := lockout_value schedule battery_soc in
    let ignore_first := negb (Z.land lockout_val TASK_RUNNER_LOCKOUT_IGNORE_FIRST =? 0) in
    let lockout_val := Z.land lockout_val TASK_RUNNER_LOCKOUT_VALUE_MASK in
    Done (if ignore_first && (last_run state =? 0) && negb (uptime =? 0) then true
          else lockout_val <=? since_last_run)
  else if periodicity_type schedule =? TASK_PERIODICITY_AFTER then
    Done (match linked_terminate with
          | Some t => negb (t =? 0) && (u32 (t + after_duration_s p) =? uptime)
          | None => false
          end)
  else Done true.

Definition task_schedule_should_start (schedule : task_schedule) (state : task_schedule_state)
  (linked_terminate : option Z) (app_states uptime epoch_time battery_soc : Z) : exec bool :=
  let validity_masked := Z.land (validity schedule) _TASK_VALID_MASK in
  let since_last_run := u32 (uptime - last_run state) in
  let is_active := Z.testbit app_states INFUSE_STATE_APPLICATION_ACTIVE in
  if Z.testbit app_states INFUSE_STATE_REBOOTING then Done false
  else if (validity_masked =? TASK_VALID_ACTIVE) && negb is_active then Done false
  else if (validity_masked =? TASK_VALID_INACTIVE) && is_active then Done false
  else if negb (boot_lockout_minutes schedule =? 0) &&
          (uptime / SEC_PER_MIN <? boot_lockout_minutes schedule) then Done false
  else
    let! periodicity := periodicity_check schedule state linked_terminate uptime epoch_time battery_soc in
    let battery_lower := (battery_start_lower schedule =? 0) || (battery_start_lower schedule <=? battery_soc) in
    let battery_upper := (battery_start_upper schedule =? 0) || (battery_soc <=? battery_start_upper schedule) in
    let states :=
      (negb (states_start_timeout_2x_s schedule =? 0) &&
       (2 * states_start_timeout_2x_s schedule <=? since_last_run)) ||
      task_schedule_states_eval (states_start schedule) app_states true in
    Done (periodicity && battery_lower && battery_upper && states).

Definition task_schedule_should_terminate (schedule : task_schedule) (state : task_schedule_state)
  (app_states battery_soc : Z) : bool :=
  let validity_masked := Z.land (validity schedule) _TASK_VALID_MASK in
  let is_active := Z.testbit app_states INFUSE_STATE_APPLICATION_ACTIVE in
  if Z.testbit app_states INFUSE_STATE_REBOOTING then true
  else if (validity_masked =? TASK_VALID_ACTIVE) && negb is_active then true
  else if (validity_masked =? TASK_VALID_INACTIVE) && is_active then true
  else
    let periodicity := negb (timeout_s schedule =? 0) && (timeout_s schedule <=? runtime state) in
    let battery_lower :=
      negb (battery_terminate_lower schedule =? 0) && (battery_soc <=? battery_terminate_lower schedule) in
    let battery_upper :=
      negb (battery_terminate_upper schedule =? 0) && (battery_terminate_upper schedule <=? battery_soc) in
    let states := task_schedule_states_eval (states_terminate schedule) app_states false in
    periodicity || battery_lower || battery_upper || states.

(** ** The documented expression

    [(((S0 OP S1) OP S2) OP S3)], each state possibly inverted. *)

Definition tr_value (app_states t : Z) : bool := xorb (Z.testbit t 8) (Z.testbit app_states (Z.land t 0xFF)).

Definition tr_op (app_states : Z) (acc : bool) (t : Z) : bool :=
  if Z.testbit t 9 then acc || tr_value app_states t else acc && tr_value app_states t.

Definition tr_expr (app_states t0 : Z) (ts : list Z) : bool :=
  fold_left (tr_op app_states) ts (tr_value app_states t0).

Lemma land_pow2_bit a n : 0 <= n -> negb (Z.land a (2 ^ n) =? 0) = Z.testbit a n.
Proof.
  intros Hn. assert (Hb : Z.testbit (Z.land a (2 ^ n)) n = Z.testbit a n).
  { by rewrite Z.land_spec, Z.pow2_bits_true, andb_true_r. }
  destruct (Z.eqb_spec (Z.land a (2 ^ n)) 0) as [E|E]; cbn [negb].
  - rewrite E, Z.bits_0 in Hb. done.
  - destruct (Z.testbit a n) eqn:Ea; [done|]. exfalso. apply E. apply Z.bits_inj'. intros k Hk.
    rewrite Z.land_spec, Z.bits_0, Z.pow2_bits_eqb by done.
    destruct (Z.eqb_spec n k) as [<-|]; [by rewrite Ea|apply andb_false_r].
Qed.

Lemma tr_not_bit t i : _TR_NOT_BIT_COMMON t i = if Z.testbit t 8 then Z.shiftl 1 i else 0.
Proof. unfold _TR_NOT_BIT_COMMON. change TR_NOT with (2 ^ 8). by rewrite land_pow2_bit. Qed.

Lemma tr_or_bit t i : _TR_OR_BIT_COMMON t i = if Z.testbit t 9 then Z.shiftl 1 i else 0.
Proof. unfold _TR_OR_BIT_COMMON. change TR_OR with (2 ^ 9). by rewrite land_pow2_bit. Qed.

(** The flags of the four states, in their bit positions. *)
Lemma metadata_bits s0 s1 s2 s3 i :
  0 <= i < 8 ->
  Z.testbit (metadata (_TR_STATES_DEFINE_ALL s0 s1 s2 s3)) i =
    nth (Z.to_nat i) [Z.testbit s0 8; Z.testbit s1 8; Z.testbit s2 8; Z.testbit s3 8;
                      Z.testbit s0 9; Z.testbit s1 9; Z.testbit s2 9; Z.testbit s3 9] false.
Proof.
  intros Hi. unfold _TR_STATES_DEFINE_ALL. cbn [metadata fold_left].
  rewrite !tr_not_bit, !tr_or_bit, !Z.lor_spec.
  assert (Hb : forall (b : bool) j, 0 <= j -> Z.testbit (if b then Z.shiftl 1 j else 0) i = b && (i =? j)).
  { intros [] j Hj; [|by rewrite Z.bits_0]. rewrite Z.shiftl_spec by lia.
    destruct (Z.eqb_spec i j) as [->|]; [by rewrite Z.sub_diag|].
    destruct (Z.ltb_spec i j); [by rewrite Z.testbit_neg_r by lia|].
    assert (1 < 2 ^ (i - j)) by (apply Z.pow_gt_1; lia).
    by rewrite Z.testbit_odd, Z.shiftr_div_pow2, Z.div_small by lia. }
  rewrite !Hb by lia.
  assert (i = 0 \/ i = 1 \/ i = 2 \/ i = 3 \/ i = 4 \/ i = 5 \/ i = 6 \/ i = 7) as Hc by lia.
  destruct Hc as [->|[->|[->|[->|[->|[->|[->| ->]]]]]]]; cbn;
    rewrite ?andb_true_r, ?andb_false_r, ?orb_false_r; done.
Qed.

(** The conditions that [TASK_STATES_DEFINE] builds from one to four states
    evaluate to the documented expression, whatever OR flag the first state has;
    without any state the result is the caller's default. *)
Theorem states_eval_correct t0 ts conds app_states fallthrough :
  TASK_STATES_DEFINE (t0 :: ts) = Some conds ->
  Forall (fun t => Z.land t 0xFF <> 0) (t0 :: ts) ->
  task_schedule_states_eval conds app_states fallthrough = tr_expr app_states t0 ts /\
  task_schedule_states_eval (StateConditions 0 [0; 0; 0; 0]) app_states fallthrough = fallthrough.
Proof.
  intros Hd Hnz. split; [|done].
  assert (Hv : forall t, (if Z.testbit t 8 then negb (Z.testbit app_states (Z.land t 255))
    else Z.testbit app_states (Z.land t 255)) = tr_value app_states t).
  { intros t. unfold tr_value. by destruct (Z.testbit t 8), (Z.testbit app_states _). }
  assert (Hz : forall t, Z.land t 255 <> 0 -> (Z.land t 255 =? 0) = false) by (intros; lia).
  unfold task_schedule_states_eval.
  destruct ts as [|t1 [|t2 [|t3 [|]]]]; try discriminate; injection Hd as <-;
    repeat (apply Forall_cons in Hnz as [? Hnz]);
    cbn [_TR_STATES_DEFINE_ALL cond_states nth states_eval_loop];
    rewrite ?Hz by done; change (Z.land 0 255 =? 0) with true; cbv iota;
    rewrite !metadata_bits by lia; 
    cbv [Z.add Pos.add Pos.succ Z.to_nat Pos.to_nat Pos.iter_op Nat.add nth]; rewrite ?Hv; unfold tr_expr; cbn [fold_left]; unfold tr_op;
    by destruct (Z.testbit t0 9), (tr_value app_states t0).
Qed.

(** State 34 not set, or state 12 set. *)
Lemma states_eval_correct_witness :
  exists conds, TASK_STATES_DEFINE [Z.lor TR_NOT 34; Z.lor TR_OR 12] = Some conds /\
    task_schedule_states_eval conds (2 ^ 34) true = false /\
    task_schedule_states_eval conds (2 ^ 34 + 2 ^ 12) true = true.
Proof.
  eexists. split; [reflexivity|].
  destruct (states_eval_correct (Z.lor TR_NOT 34) [Z.lor TR_OR 12] _ (2 ^ 34) true eq_refl
    ltac:(repeat constructor; discriminate)) as (-> & _).
  destruct (states_eval_correct (Z.lor TR_NOT 34) [Z.lor TR_OR 12] _ (2 ^ 34 + 2 ^ 12) true eq_refl
    ltac:(repeat constructor; discriminate)) as (-> & _).
  split; reflexivity.
Defined.

(** ** Validated schedules *)

(** The fields have the widths of the C struct. *)
Record schedule_wf (s : task_schedule) : Prop := {
  wf_periodicity_len : zlen (periodicity s) = 6;
  wf_periodicity : bytes_ok (periodicity s);
  wf_boot : 0 <= boot_lockout_minutes s < 256;
  wf_start_timeout : in_u 16 (states_start_timeout_2x_s s);
  wf_battery : 0 <= battery_start_lower s < 256 /\ 0 <= battery_start_upper s < 256;
}.

Lemma wf_field s off n :
  schedule_wf s -> 0 <= off -> 0 <= n -> off + n <= 6 ->
  0 <= le_get (ztake n (zdrop off (periodicity s))) < 2 ^ (8 * n).
Proof.
  intros Hwf Ho Hn Hle. pose proof (wf_periodicity_len s Hwf).
  replace n with (zlen (ztake n (zdrop off (periodicity s)))) at 3.
  - apply le_get_bound. apply bytes_ok_ztake, bytes_ok_zdrop, Hwf.
  - rewrite zlen_ztake; rewrite ?zlen_zdrop; lia.
Qed.

Lemma wf_field0 s n : schedule_wf s -> 0 <= n <= 6 -> 0 <= le_get (ztake n (periodicity s)) < 2 ^ (8 * n).
Proof. intros Hwf Hn. pose proof (wf_field s 0 n Hwf). rewrite zdrop_0 in *; lia. Qed.

(** The dynamic lockout lies between its two limits. *)
Lemma lockout_value_dynamic s soc :
  schedule_wf s -> ldb_battery_min (periodicity s) < ldb_battery_max (periodicity s) ->
  periodicity_type s = TASK_PERIODICITY_LOCKOUT_DYNAMIC_BATTERY ->
  exists v, lockout_value s soc = Done v /\ 0 <= v < 2 ^ 16 /\
    Z.min (ldb_lockout_min (periodicity s)) (ldb_lockout_max (periodicity s)) <= v.
Proof.
  intros Hwf Hb Ht. unfold lockout_value. rewrite Ht. change (_ =? TASK_PERIODICITY_LOCKOUT) with false. cbv iota.
  pose proof (wf_field0 s 2 Hwf ltac:(lia)) as Hmin. pose proof (wf_field s 2 2 Hwf ltac:(lia) ltac:(lia) ltac:(lia)) as Hmax.
  pose proof (wf_field s 4 1 Hwf ltac:(lia) ltac:(lia) ltac:(lia)) as Hbmin.
  pose proof (wf_field s 5 1 Hwf ltac:(lia) ltac:(lia) ltac:(lia)) as Hbmax.
  fold (ldb_lockout_min (periodicity s)) in Hmin. fold (ldb_lockout_max (periodicity s)) in Hmax.
  fold (ldb_battery_min (periodicity s)) in Hbmin. fold (ldb_battery_max (periodicity s)) in Hbmax.
  set (lmin := ldb_lockout_min _) in *. set (lmax := ldb_lockout_max _) in *.
  destruct (Z.leb_spec soc (ldb_battery_min (periodicity s))); [eexists; split; [done|lia]|].
  destruct (Z.leb_spec (ldb_battery_max (periodicity s)) soc); [eexists; split; [done|lia]|].
  destruct (interpolate_ok (ldb_battery_min (periodicity s)) (ldb_battery_max (periodicity s)) lmin lmax soc)
    as (y & -> & _ & Hy); [lia|lia|lia|unfold in_s; lia|unfold in_s; lia|nia|].
  cbn [exec_bind]. exists (u32 y). rewrite uwrap_small by lia. split; [done|lia].
Qed.

Lemma land_value_mask v : Z.land v TASK_RUNNER_LOCKOUT_VALUE_MASK = v mod 2 ^ 31.
Proof. change TASK_RUNNER_LOCKOUT_VALUE_MASK with (2 ^ 31 - 1). by apply land_ones_mod. Qed.

(** What a passed periodicity check says. *)
Definition periodicity_met (s : task_schedule) (st : task_schedule_state) (linked_terminate : option Z)
  (uptime epoch_time : Z) : Prop :=
  let p := periodicity s in
  let elapsed lockout := last_run st <= uptime -> last_run st + lockout <= uptime in
  (periodicity_type s = TASK_PERIODICITY_FIXED -> epoch_time mod fixed_period_s p = 0) /\
  (periodicity_type s = TASK_PERIODICITY_LOCKOUT ->
     elapsed (lockout_lockout_s p mod 2 ^ 31) \/
     (2 ^ 31 <= lockout_lockout_s p /\ last_run st = 0 /\ uptime <> 0)) /\
  (periodicity_type s = TASK_PERIODICITY_LOCKOUT_DYNAMIC_BATTERY ->
     elapsed (Z.min (ldb_lockout_min p) (ldb_lockout_max p))) /\
  (periodicity_type s = TASK_PERIODICITY_AFTER ->
     exists t, linked_terminate = Some t /\ t <> 0 /\ uptime = u32 (t + after_duration_s p)).

Lemma lockout_check v last_run uptime :
  0 <= v < 2 ^ 32 -> in_u 32 uptime -> in_u 32 last_run ->
  (if negb (Z.land v TASK_RUNNER_LOCKOUT_IGNORE_FIRST =? 0) && (last_run =? 0) && negb (uptime =? 0) then true
   else Z.land v TASK_RUNNER_LOCKOUT_VALUE_MASK <=? u32 (uptime - last_run)) = true ->
  (last_run <= uptime -> last_run + v mod 2 ^ 31 <= uptime) \/ (2 ^ 31 <= v /\ last_run = 0 /\ uptime <> 0).
Proof.
  intros Hv Hu Hl. change TASK_RUNNER_LOCKOUT_IGNORE_FIRST with (2 ^ 31). rewrite land_pow2_bit, land_value_mask by lia.
  destruct (Z.testbit v 31) eqn:Eb; cbn [andb].
  - assert (2 ^ 31 <= v).
    { apply Z.nlt_ge. intros Hlt. rewrite (testbit_above 31) in Eb by lia. done. }
    destruct (Z.eqb_spec last_run 0); cbn [andb]; [|intros Hle; left; intros Hlu; rewrite uwrap_small in Hle; unfold in_u in *; lia].
    destruct (Z.eqb_spec uptime 0); cbn [negb]; [|intros _; right; lia].
    intros Hle. left. intros Hlu. rewrite uwrap_small in Hle; unfold in_u in *; lia.
  - intros Hle. left. intros Hlu. rewrite uwrap_small in Hle; unfold in_u in *; lia.
Qed.

Lemma periodicity_check_ok s st lt uptime epoch soc :
  schedule_wf s -> task_schedule_validate s = true -> in_u 32 uptime -> in_u 32 (last_run st) ->
  exists b, periodicity_check s st lt uptime epoch soc = Done b /\
    (b = true -> periodicity_met s st lt uptime epoch).
Proof.
  intros Hwf Hval Hu Hl. unfold periodicity_check, periodicity_met. cbv zeta.
  unfold task_schedule_validate in Hval. cbv zeta in Hval.
  repeat (let H := fresh "Hg" in match type of Hval with (if ?c then false else _) = true =>
    destruct c eqn:H; [discriminate Hval|] end). clear Hval.
  unfold TASK_PERIODICITY_FIXED, TASK_PERIODICITY_LOCKOUT, TASK_PERIODICITY_AFTER,
    TASK_PERIODICITY_LOCKOUT_DYNAMIC_BATTERY in *.
  destruct (Z.eqb_spec (periodicity_type s) 1) as [E1|N1].
  { replace (fixed_period_s (periodicity s) =? 0) with false by lia.
    eexists. split; [done|]. intros Hb. split_and!; intros; lia. }
  destruct (Z.eqb_spec (periodicity_type s) 2) as [E2|N2]; cbn [orb].
  { unfold lockout_value. rewrite E2. change (2 =? TASK_PERIODICITY_LOCKOUT) with true. cbn [exec_bind].
    eexists. split; [done|]. intros Hb. pose proof (wf_field0 s 4 Hwf ltac:(lia)).
    apply lockout_check in Hb; [|unfold lockout_lockout_s; lia|done|done]. split_and!; intros; try lia. }
  destruct (Z.eqb_spec (periodicity_type s) 4) as [E4|N4].
  { destruct (lockout_value_dynamic s soc Hwf ltac:(lia) E4) as (v & -> & Hv & Hmin). cbn [exec_bind].
    eexists. split; [done|]. intros Hb. apply lockout_check in Hb; [|lia|done|done].
    rewrite Z.mod_small in Hb by lia. split_and!; intros; try lia. }
  destruct (Z.eqb_spec (periodicity_type s) 3) as [E3|N3]; eexists; (split; [done|]); intros Hb;
    split_and!; intros; try lia. destruct lt as [t|]; [|done]. exists t. split; [done|]. lia.
Qed.

(** A validated schedule is always evaluated. *)
Lemma schedule_total s st lt app uptime epoch soc :
  schedule_wf s -> task_schedule_validate s = true -> in_u 32 uptime -> in_u 32 (last_run st) ->
  exists b, task_schedule_should_start s st lt app uptime epoch soc = Done b.
Proof.
  intros Hwf Hval Hu Hl. unfold task_schedule_should_start. cbv zeta.
  destruct (periodicity_check_ok s st lt uptime epoch soc Hwf Hval Hu Hl) as (pb & -> & _).
  repeat match goal with |- context [if ?c then Done false else _] => destruct c; [by eexists|] end. by eexists.
Qed.

(** A schedule that passes [task_schedule_validate] is evaluated without a
    division by zero or an overflow, and its task starts only when the system is not
    rebooting, the application activity fits, the boot lockout is over, the battery
    charge is inside its limits, and the period, the lockout (at least the smaller
    limit when it depends on the battery) or the delay after the linked schedule has
    elapsed. *)
Theorem schedule_start_correct s st lt app uptime epoch soc :
  schedule_wf s -> task_schedule_validate s = true -> in_u 32 uptime -> in_u 32 (last_run st) ->
  exists b, task_schedule_should_start s st lt app uptime epoch soc = Done b /\
    (b = true ->
     Z.testbit app INFUSE_STATE_REBOOTING = false /\
     (Z.land (validity s) _TASK_VALID_MASK = TASK_VALID_ACTIVE ->
        Z.testbit app INFUSE_STATE_APPLICATION_ACTIVE = true) /\
     (Z.land (validity s) _TASK_VALID_MASK = TASK_VALID_INACTIVE ->
        Z.testbit app INFUSE_STATE_APPLICATION_ACTIVE = false) /\
     boot_lockout_minutes s * 60 <= uptime /\
     battery_start_lower s <= Z.max soc 0 /\ (battery_start_upper s <> 0 -> soc <= battery_start_upper s) /\
     periodicity_met s st lt uptime epoch).
Proof.
  intros Hwf Hval Hu Hl. unfold task_schedule_should_start. cbv zeta.
  destruct (Z.testbit app INFUSE_STATE_REBOOTING) eqn:Er; [by exists false|].
  destruct ((_ =? TASK_VALID_ACTIVE) && _) eqn:Ea; [by exists false|].
  destruct ((_ =? TASK_VALID_INACTIVE) && _) eqn:Ei; [by exists false|].
  destruct (negb (boot_lockout_minutes s =? 0) && _) eqn:Eb; [by exists false|].
  destruct (periodicity_check_ok s st lt uptime epoch soc Hwf Hval Hu Hl) as (pb & -> & Hp). cbn [exec_bind].
  eexists. split; [done|]. rewrite !andb_true_iff. intros (((-> & Hlo) & Hup) & _). specialize (Hp eq_refl).
  pose proof (wf_boot s Hwf). pose proof (wf_battery s Hwf).
  apply andb_false_iff in Ea, Ei, Eb. split; [done|].
  split. { intros Hv. destruct Ea as [Ea|Ea]; [lia|]. by apply negb_false_iff in Ea. }
  split. { intros Hv. destruct Ei as [Ei|Ei]; [lia|done]. }
  split. { destruct Eb as [Eb|Eb]; [apply negb_false_iff in Eb; unfold in_u in *; lia|].
           unfold SEC_PER_MIN in Eb. assert (uptime / 60 * 60 <= uptime) by (rewrite Z.mul_comm; apply Z.mul_div_le; lia). lia. }
  split; [lia|]. split; [lia|done].
Qed.

(** Every 100 seconds while the application is active, from 10 % charge on. *)
Definition example_schedule : task_schedule :=
  TaskSchedule 7 TASK_VALID_ACTIVE TASK_PERIODICITY_LOCKOUT 0 30 10 0 5 0 [100; 0; 0; 0; 0; 0] 0
    (StateConditions 0 [0; 0; 0; 0]) (StateConditions 0 [0; 0; 0; 0]) [0; 0; 0; 0] (repeat 0 16).

Lemma example_schedule_wf : schedule_wf example_schedule.
Proof. split; [reflexivity|repeat constructor; unfold byte_ok; lia|cbn; lia|unfold in_u; cbn; lia|cbn; lia]. Qed.

Lemma schedule_start_correct_witness :
  exists b, task_schedule_should_start example_schedule (ScheduleState None false 50 0 0 0) None 4 149 0 80 = Done b /\
    b = false.
Proof.
  destruct (schedule_start_correct example_schedule (ScheduleState None false 50 0 0 0) None 4 149 0 80
    example_schedule_wf eq_refl ltac:(unfold in_u; lia) ltac:(unfold in_u; cbn; lia)) as (b & Hb & Ht).
  exists b. split; [exact Hb|]. destruct b; [|reflexivity]. exfalso.
  destruct (Ht eq_refl) as (_ & _ & _ & _ & _ & _ & _ & Hl & _).
  destruct (Hl eq_refl) as [He|(_ & He & _)]; [|discriminate He]. apply (He ltac:(cbn; lia)). vm_compute. reflexivity.
Defined.

(** ** The stored form *)

(** Array lengths and field widths of the struct. *)
Record schedule_typed (s : task_schedule) : Prop := {
  typed_periodicity : length (periodicity s) = 6%nat;
  typed_start : length (cond_states (states_start s)) = 4%nat;
  typed_terminate : length (cond_states (states_terminate s)) = 4%nat;
  typed_logging : length (task_logging s) = 4%nat;
  typed_args : length (task_args s) = 16%nat;
  typed_timeout : in_u 32 (timeout_s s);
  typed_start_timeout : in_u 16 (states_start_timeout_2x_s s);
}.

Lemma zlen_task_schedule_bytes s : schedule_typed s -> zlen (task_schedule_bytes s) = sizeof_task_schedule.
Proof.
  intros [Hp Hs Ht Hl Ha _ _]. unfold task_schedule_bytes, zlen, conditions_bytes.
  repeat (rewrite length_app || rewrite length_le_put || cbn [length]). rewrite Hp, Hs, Ht, Hl, Ha. done.
Qed.

(** Storing a schedule and loading it again loses nothing. *)
Lemma schedule_of_bytes_bytes s : schedule_typed s -> task_schedule_of_bytes (task_schedule_bytes s) = s.
Proof.
  intros [Hp Hs Ht Hl Ha Hto Hst]. destruct s as [id v pt bl to bsl bsu btl btu p st [m1 c1] [m2 c2] lg ar].
  cbn [periodicity states_start states_terminate cond_states task_logging task_args timeout_s states_start_timeout_2x_s] in *.
  do 6 (destruct p as [|? p]; [done|]). destruct p; [|done]. do 4 (destruct c1 as [|? c1]; [done|]). destruct c1; [|done].
  do 4 (destruct c2 as [|? c2]; [done|]). destruct c2; [|done]. do 4 (destruct lg as [|? lg]; [done|]). destruct lg; [|done].
  do 16 (destruct ar as [|? ar]; [done|]). destruct ar; [|done].
  pose proof (le_get_put 4 to) as E4. pose proof (le_get_put 2 st) as E2.
  rewrite Z.mod_small in E4 by exact Hto. rewrite Z.mod_small in E2 by exact Hst.
  pose proof (length_le_put 4 to) as L4. pose proof (length_le_put 2 st) as L2.
  unfold task_schedule_bytes. cbn [timeout_s states_start_timeout_2x_s]. revert E4 E2 L4 L2.
  generalize (le_put 4 to), (le_put 2 st). intros l4 l2 E4 E2 L4 L2.
  do 4 (destruct l4 as [|? l4]; [done|]). destruct l4; [|done]. do 2 (destruct l2 as [|? l2]; [done|]). destruct l2; [|done].
  rewrite <- E4, <- E2. reflexivity.
Qed.
