(* ===== verification/KvStore.v ===== *)
(** * The key-value store ([subsys/fs/kv_store])

    Enabled keys, reads, writes and deletions over Zephyr's NVS, the notification of
    subscribers, and the reflection CRCs from which the cloud decides whether it has
    to fetch values again.  [kv_store_nvs.c], [kv_store_common.c] and [kv_reflect.c].

    NVS is a class with its documented laws; the CRC function is a parameter.  The
    contents of the store are a finite map; [reflect_inv] is that every reflection CRC
    is the CRC of the value its key has in that map. *)

From stdpp Require Import base tactics numbers list gmap.
From Stdlib Require Import ZArith Lia.
From S2P Require Import Prelude.

Local Open Scope Z_scope.
Local Open Scope infuse_scope.

Definition EPERM : Z := 1.
Definition EACCES : Z := 13.
Definition EDEADLK : Z := 45.

Definition KV_FLAGS_REFLECT : Z := 1.
Definition KV_FLAGS_WRITE_ONLY : Z := 2.
Definition KV_FLAGS_READ_ONLY : Z := 4.

Record key_value_slot_definition := SlotDef { slot_key : Z; slot_range : Z; slot_flags : Z }.

Definition slot_reflect (d : key_value_slot_definition) : bool :=
  negb (Z.land (slot_flags d) KV_FLAGS_REFLECT =? 0).

(** ** The storage underneath

    [nvs_read] returns the length of the value (which may exceed the room given) and
    the bytes copied. *)
Class NvsApi (F : Type) := {
  nvs_read : F -> Z -> Z -> Z * list Z;
  nvs_write : F -> Z -> list Z -> Z * F;
  nvs_delete : F -> Z -> Z * F;
  nvs_clear : F -> Z * F;
  nvs_mount : F -> Z * F;
  flash_page_info : F -> Z;
  partition_erase : F -> F;
}.

(** What the NVS documentation says of them: a write returns the length, or 0 when
    the value is already stored; a write of no data removes the entry; a failed call
    changes nothing. *)
Class NvsSpec (F : Type) `{NvsApi F} := {
  nvs_map : F -> gmap Z (list Z);
  nvs_read_none fs key n : nvs_map fs !! key = None -> nvs_read fs key n = (- ENOENT, []);
  nvs_read_some fs key n v : nvs_map fs !! key = Some v -> nvs_read fs key n = (zlen v, ztake n v);
  nvs_write_spec fs key v rc fs' : v <> [] -> nvs_write fs key v = (rc, fs') ->
    (rc = zlen v /\ nvs_map fs' = <[key := v]> (nvs_map fs)) \/
    (rc = 0 /\ nvs_map fs !! key = Some v /\ nvs_map fs' = nvs_map fs) \/
    (rc < 0 /\ rc <> - ENOENT /\ nvs_map fs' = nvs_map fs);
  nvs_write_empty fs key rc fs' : nvs_write fs key [] = (rc, fs') ->
    (rc = 0 /\ nvs_map fs' = delete key (nvs_map fs)) \/ (rc < 0 /\ rc <> - ENOENT /\ nvs_map fs' = nvs_map fs);
  nvs_delete_spec fs key rc fs' : nvs_delete fs key = (rc, fs') ->
    (rc = 0 /\ nvs_map fs' = delete key (nvs_map fs)) \/ (rc < 0 /\ nvs_map fs' = nvs_map fs);
  nvs_clear_spec fs rc fs' : nvs_clear fs = (rc, fs') ->
    (rc = 0 /\ nvs_map fs' = ∅) \/ (rc < 0 /\ nvs_map fs' = nvs_map fs);
  nvs_mount_spec fs rc fs' : nvs_mount fs = (rc, fs') -> nvs_map fs' = nvs_map fs;
  partition_erase_spec fs : nvs_map (partition_erase fs) = ∅;
}.

(** A call of a subscriber: its position, the key, the data ([None]: NULL) and the length. *)
Inductive kv_event :=
| EvValueChanged (cb : nat) (key : Z) (data : option (list Z)) (data_len : Z).

(** The static state of the two files: [cb_list] holds which subscribers have a
    [value_changed] function. *)
Record kv_state (F : Type) := KvState {
  kv_fs : F;
  kv_cb_list : list bool;
  value_crc_slots : list Z;
  reflect_crc : Z;
  kv_events : list kv_event;
}.
Arguments KvState {F}.
Arguments kv_fs {F}.
Arguments kv_cb_list {F}.
Arguments value_crc_slots {F}.
Arguments reflect_crc {F}.
Arguments kv_events {F}.

Section kv_store.
Context {F : Type} `{NvsApi F}.
Context (crc32_ieee : list Z -> Z) (defs : list key_value_slot_definition).
Implicit Types st : kv_state F.

Definition kv_set_fs st (fs : F) : kv_state F :=
  KvState fs (kv_cb_list st) (value_crc_slots st) (reflect_crc st) (kv_events st).

(** ** Keys *)

(** The flags of an enabled key, and its reflection index ([None]: SIZE_MAX).  [idx]
    counts the reflected keys of the slots passed. *)
Fixpoint key_metadata_loop (l : list key_value_slot_definition) (idx key : Z) : option (Z * option Z) :=
  match l with
  | [] => None
  | d :: l =>
      if IN_RANGE key (slot_key d) (slot_key d + slot_range d - 1) then
        Some (slot_flags d, if slot_reflect d then Some (idx + (key - slot_key d)) else None)
      else key_metadata_loop l (if slot_reflect d then idx + slot_range d else idx) key
  end.

Definition kv_store_key_metadata (key : Z) : option (Z * option Z) := key_metadata_loop defs 0 key.

Definition kv_store_key_enabled (key : Z) : bool :=
  match kv_store_key_metadata key with Some _ => true | None => false end.

Definition kv_store_external_write_only (key : Z) : Z :=
  match kv_store_key_metadata key with
  | None => - EACCES
  | Some (flags, _) => if negb (Z.land flags KV_FLAGS_WRITE_ONLY =? 0) then - EPERM else 0
  end.

Definition kv_store_external_read_only (key : Z) : Z :=
  match kv_store_key_metadata key with
  | None => - EACCES
  | Some (flags, _) => if negb (Z.land flags KV_FLAGS_READ_ONLY =? 0) then - EPERM else 0
  end.

(** ** Reflection *)

(** [sizeof(value_crc_slots)] bytes of the array. *)
Definition crc_slots_bytes (crcs : list Z) : list Z := concat (map (le_put 4) crcs).

(** [KV_REFLECT_NUM]: the keys of the slots with the flag. *)
Definition KV_REFLECT_NUM : Z :=
  fold_right (fun d n => (if slot_reflect d then slot_range d else 0) + n) 0 defs.

(** The keys of one slot from [key] on; [n] of them are left. *)
Fixpoint reflect_slot_loop (n : nat) (fs : F) (key idx : Z) (crcs : list Z) : exec (Z * list Z) :=
  match n with
  | O => Done (idx, crcs)
  | S n =>
      if zlen crcs <=? idx then Fault (* assertion *)
      else
        let '(rc, read_buffer) := nvs_read fs key 256 in
        let crc :=
          if rc =? - ENOENT then 0 else if rc <? 0 then 0 else if 256 <? rc then 0
          else crc32_ieee (ztake rc read_buffer) in
        reflect_slot_loop n fs (u16 (key + 1)) (u16 (idx + 1)) (<[Z.to_nat idx := crc]> crcs)
  end.

Fixpoint reflect_init_loop (l : list key_value_slot_definition) (fs : F) (idx : Z) (crcs : list Z)
  : exec (Z * list Z) :=
  match l with
  | [] => Done (idx, crcs)
  | d :: l =>
      if negb (slot_reflect d) then reflect_init_loop l fs idx crcs
      else
        let! (idx, crcs) := reflect_slot_loop (Z.to_nat (slot_range d)) fs (slot_key d) idx crcs in
        reflect_init_loop l fs idx crcs
  end.

(** Nothing is compiled in without reflected keys. *)
Definition kv_reflect_init st : exec (kv_state F) :=
  if KV_REFLECT_NUM =? 0 then Done st else
  let! (_, crcs) := reflect_init_loop defs (kv_fs st) 0 (value_crc_slots st) in
  Done (KvState (kv_fs st) (kv_cb_list st) crcs (crc32_ieee (crc_slots_bytes crcs)) (kv_events st)).

Definition kv_reflect_key_updated st (reflect_idx : Z) (data : option (list Z)) : exec (kv_state F) :=
  if zlen (value_crc_slots st) <=? reflect_idx then Fault (* assertion *)
  else
    let crc := match data with None => 0 | Some d => crc32_ieee d end in
    let crcs := <[Z.to_nat reflect_idx := crc]> (value_crc_slots st) in
    Done (KvState (kv_fs st) (kv_cb_list st) crcs (crc32_ieee (crc_slots_bytes crcs)) (kv_events st)).

Definition kv_reflect_key_crc st (reflect_idx : Z) : exec Z :=
  if zlen (value_crc_slots st) <=? reflect_idx then Fault
  else Done (nth (Z.to_nat reflect_idx) (value_crc_slots st) 0).

Definition kv_store_reflect_crc st : Z := reflect_crc st.

(** ** The store *)

Definition kv_store_register_callback st (value_changed : bool) : kv_state F :=
  KvState (kv_fs st) (kv_cb_list st ++ [value_changed]) (value_crc_slots st) (reflect_crc st) (kv_events st).

Fixpoint kv_cb_positions (i : nat) (l : list bool) : list nat :=
  match l with
  | [] => []
  | b :: l => if b then i :: kv_cb_positions (S i) l else kv_cb_positions (S i) l
  end.

Definition kv_notify st (key : Z) (data : option (list Z)) (len : Z) : kv_state F :=
  KvState (kv_fs st) (kv_cb_list st) (value_crc_slots st) (reflect_crc st)
    (kv_events st ++ map (fun i => EvValueChanged i key data len) (kv_cb_positions 0 (kv_cb_list st))).

(** Reflection and notification after a change. *)
Definition kv_changed st (reflect_idx : option Z) (key : Z) (data : option (list Z)) (len : Z)
  : exec (kv_state F) :=
  let! st := match reflect_idx with
             | Some idx => kv_reflect_key_updated st idx data
             | None => Done st
             end in
  Done (kv_notify st key data len).

Definition kv_store_key_exists st (key : Z) : bool := 0 <? (nvs_read (kv_fs st) key 0).1.
Definition kv_store_key_data_size st (key : Z) : Z := (nvs_read (kv_fs st) key 0).1.

Definition kv_store_delete st (key : Z) : exec (Z * kv_state F) :=
  match kv_store_key_metadata key with
  | None => Done (- EACCES, st)
  | Some (_, reflect_idx) =>
      if (nvs_read (kv_fs st) key 0).1 =? - ENOENT then Done (- ENOENT, st)
      else
        let '(rc, fs) := nvs_delete (kv_fs st) key in
        let st := kv_set_fs st fs in
        if rc =? 0 then let! st := kv_changed st reflect_idx key None 0 in Done (rc, st)
        else Done (rc, st)
  end.

Definition kv_store_write st (key : Z) (data : list Z) : exec (Z * kv_state F) :=
  match kv_store_key_metadata key with
  | None => Done (- EACCES, st)
  | Some (_, reflect_idx) =>
      let '(rc, fs) := nvs_write (kv_fs st) key data in
      let st := kv_set_fs st fs in
      if 0 <? rc then let! st := kv_changed st reflect_idx key (Some data) rc in Done (rc, st)
      else Done (rc, st)
  end.

Definition kv_store_read st (key max_data_len : Z) : Z * list Z :=
  if negb (kv_store_key_enabled key) then (- EACCES, []) else nvs_read (kv_fs st) key max_data_len.

Definition kv_store_read_fallback st (key max_data_len : Z) (fallback : list Z)
  : exec (Z * list Z * kv_state F) :=
  match kv_store_key_metadata key with
  | None => Done (- EACCES, [], st)
  | Some (_, reflect_idx) =>
      let '(rc, data) := nvs_read (kv_fs st) key max_data_len in
      if rc =? - ENOENT then
        let '(rc, fs) := nvs_write (kv_fs st) key fallback in
        let st := kv_set_fs st fs in
        if rc =? zlen fallback then
          let! st := kv_changed st reflect_idx key (Some fallback) (zlen fallback) in
          let '(rc, data) := nvs_read (kv_fs st) key max_data_len in
          Done (rc, data, st)
        else Done (rc, data, st)
      else Done (rc, data, st)
  end.

Definition kv_store_reset st : exec (Z * kv_state F) :=
  let '(rc, fs) := nvs_clear (kv_fs st) in
  let st := kv_set_fs st fs in
  if rc =? 0 then
    let '(rc, fs) := nvs_mount (kv_fs st) in
    let! st := kv_reflect_init (kv_set_fs st fs) in
    Done (rc, st)
  else Done (rc, st).

Definition kv_store_init st : exec (Z * kv_state F) :=
  let rc := flash_page_info (kv_fs st) in
  if negb (rc =? 0) then Done (rc, st)
  else
    let '(rc, fs) := nvs_mount (kv_fs st) in
    let '(rc, fs) := if rc =? - EDEADLK then nvs_mount (partition_erase fs) else (rc, fs) in
    let st := kv_set_fs st fs in
    if rc =? 0 then let! st := kv_reflect_init st in Done (rc, st) else Done (rc, st).
End kv_store.

(** ** Reflection indices *)

Definition slot_keys (d : key_value_slot_definition) : list Z :=
  map (fun i => slot_key d + Z.of_nat i) (seq 0 (Z.to_nat (slot_range d))).

(** The reflected keys in the order of their CRC slots. *)
Definition reflect_keys (l : list key_value_slot_definition) : list Z :=
  concat (map (fun d => if slot_reflect d then slot_keys d else []) l).

(** Slots do not overlap and their keys are 16 bit. *)
Record slots_ok (l : list key_value_slot_definition) : Prop := {
  slots_disjoint : NoDup (concat (map slot_keys l));
  slots_range : Forall (fun d => 0 <= slot_key d /\ 0 <= slot_range d < 256 /\ slot_key d + slot_range d <= 65536) l;
  slots_num : KV_REFLECT_NUM l < 65536;
}.

Lemma elem_of_slot_keys d key : key ∈ slot_keys d <-> slot_key d <= key < slot_key d + slot_range d.
Proof.
  unfold slot_keys. rewrite list_elem_of_fmap. split.
  - intros (i & -> & Hi). apply elem_of_seq in Hi. lia.
  - intros Hk. exists (Z.to_nat (key - slot_key d)). split; [lia|]. apply elem_of_seq. lia.
Qed.

Lemma length_slot_keys d : length (slot_keys d) = Z.to_nat (slot_range d).
Proof. unfold slot_keys. by rewrite length_map, length_seq. Qed.

Lemma lookup_slot_keys d i :
  (i < Z.to_nat (slot_range d))%nat -> slot_keys d !! i = Some (slot_key d + Z.of_nat i).
Proof. intros Hi. unfold slot_keys. rewrite list_lookup_fmap, lookup_seq_lt by done. done. Qed.

Lemma reflect_num_length l :
  Forall (fun d => 0 <= slot_range d) l -> KV_REFLECT_NUM l = zlen (reflect_keys l).
Proof.
  unfold KV_REFLECT_NUM, reflect_keys. induction 1 as [|d l Hd _ IH]; [done|].
  cbn [fold_right map concat]. rewrite IH, zlen_app. f_equal.
  destruct (slot_reflect d); [|done]. unfold zlen. rewrite length_slot_keys. lia.
Qed.

(** A reflection index is the position of its key. *)
Lemma key_metadata_index l i key flags idx :
  Forall (fun d => 0 <= slot_range d) l ->
  key_metadata_loop l i key = Some (flags, Some idx) ->
  i <= idx /\ reflect_keys l !! Z.to_nat (idx - i) = Some key.
Proof.
  intros Hl. revert i. induction Hl as [|d l Hd _ IH]; intros i; [done|]. cbn [key_metadata_loop].
  unfold reflect_keys. cbn [map concat]. fold (reflect_keys l).
  destruct (IN_RANGE _ _ _) eqn:Er; unfold IN_RANGE in Er.
  - destruct (slot_reflect d); [|done]. intros [= <- <-]. split; [lia|].
    rewrite lookup_app_l by (rewrite length_slot_keys; lia). rewrite lookup_slot_keys by lia. f_equal. lia.
  - intros Hm. destruct (slot_reflect d).
    + destruct (IH _ Hm) as (Hle & Hk). split; [lia|]. rewrite lookup_app_r by (rewrite length_slot_keys; lia).
      rewrite length_slot_keys. rewrite <- Hk. f_equal. lia.
    + by apply IH.
Qed.

Lemma key_metadata_range l i key flags o :
  key_metadata_loop l i key = Some (flags, o) -> key ∈ concat (map slot_keys l).
Proof.
  revert i. induction l as [|d l IH]; intros i; [done|]. cbn [key_metadata_loop map concat].
  rewrite elem_of_app. destruct (IN_RANGE _ _ _) eqn:Er; unfold IN_RANGE in Er; intros Hm.
  - left. apply elem_of_slot_keys. lia.
  - right. by eapply IH.
Qed.

Lemma reflect_keys_subset l key : key ∈ reflect_keys l -> key ∈ concat (map slot_keys l).
Proof.
  unfold reflect_keys. induction l as [|d l IH]; [done|]. cbn [map concat]. rewrite !elem_of_app.
  destruct (slot_reflect d); intros [?|?]; auto. by apply not_elem_of_nil in H.
Qed.

Lemma reflect_keys_NoDup l : NoDup (concat (map slot_keys l)) -> NoDup (reflect_keys l).
Proof.
  unfold reflect_keys. induction l as [|d l IH]; [done|]. cbn [map concat]. rewrite !NoDup_app.
  intros (Hd & Hx & Hl). split; [destruct (slot_reflect d); [done|constructor]|]. split; [|auto].
  intros k Hk Hin. destruct (slot_reflect d); [|by apply not_elem_of_nil in Hk].
  apply (Hx k Hk). by apply reflect_keys_subset.
Qed.

(** An enabled key without an index is not reflected. *)
Lemma key_metadata_unreflected l i key flags :
  NoDup (concat (map slot_keys l)) -> key_metadata_loop l i key = Some (flags, None) -> key ∉ reflect_keys l.
Proof.
  revert i. induction l as [|d l IH]; intros i Hnd; [done|]. cbn [key_metadata_loop].
  cbn [map concat] in Hnd. apply NoDup_app in Hnd as (Hd & Hx & Hl). unfold reflect_keys. cbn [map concat].
  fold (reflect_keys l). rewrite elem_of_app.
  destruct (IN_RANGE _ _ _) eqn:Er; unfold IN_RANGE in Er.
  - destruct (slot_reflect d); [done|]. intros _ [Hk|Hk]; [by apply not_elem_of_nil in Hk|].
    apply (Hx key); [apply elem_of_slot_keys; lia|by apply reflect_keys_subset].
  - intros Hm [Hk|Hk]; [|by eapply IH]. destruct (slot_reflect d); [|by apply not_elem_of_nil in Hk].
    apply elem_of_slot_keys in Hk. lia.
Qed.

(** ** The contents and their reflection *)

Section kv_spec.
Context {F : Type} `{NvsSpec F}.
Context (crc32_ieee : list Z -> Z) (defs : list key_value_slot_definition).
Hypothesis Hdefs : slots_ok defs.
Implicit Types st : kv_state F.

Abbreviation contents st := (nvs_map (kv_fs st)).
Abbreviation read := (kv_store_read defs).
Abbreviation write := (kv_store_write crc32_ieee defs).
Abbreviation remove := (kv_store_delete crc32_ieee defs).
Abbreviation enabled := (kv_store_key_enabled defs).

(** The CRC slot of a value. *)
Definition crc_value (o : option (list Z)) : Z := match o with None => 0 | Some v => crc32_ieee v end.

Definition crc_slots (m : gmap Z (list Z)) : list Z := map (fun key => crc_value (m !! key)) (reflect_keys defs).

Record reflect_inv st : Prop := {
  inv_crc_slots : value_crc_slots st = crc_slots (contents st);
  inv_reflect_crc : KV_REFLECT_NUM defs <> 0 -> reflect_crc st = crc32_ieee (crc_slots_bytes (value_crc_slots st));
}.

(** The slots hold the CRCs of the values in [h]. *)
Record reflects (h : gmap Z (list Z)) st : Prop := {
  rf_crc_slots : value_crc_slots st = crc_slots h;
  rf_reflect_crc : KV_REFLECT_NUM defs <> 0 -> reflect_crc st = crc32_ieee (crc_slots_bytes (value_crc_slots st));
}.

Lemma reflect_inv_reflects st : reflect_inv st <-> reflects (contents st) st.
Proof. split; intros [? ?]; by split. Qed.

Lemma ranges_nonneg : Forall (fun d => 0 <= slot_range d) defs.
Proof. eapply Forall_impl; [apply Hdefs|]. cbv beta. intros d Hd. lia. Qed.

Lemma zlen_crc_slots m : zlen (crc_slots m) = KV_REFLECT_NUM defs.
Proof. rewrite reflect_num_length by apply ranges_nonneg. unfold crc_slots, zlen. by rewrite length_map. Qed.

(** One key changes: its slot is replaced. *)
Lemma crc_slots_update m m' key idx :
  (forall k, k <> key -> m' !! k = m !! k) -> reflect_keys defs !! idx = Some key ->
  crc_slots m' = <[idx := crc_value (m' !! key)]> (crc_slots m).
Proof.
  intros Hm Hidx. unfold crc_slots. apply list_eq. intros i. rewrite list_lookup_fmap.
  destruct (decide (i = idx)) as [->|Hne].
  - rewrite Hidx, list_lookup_insert_eq by (rewrite length_map; by eapply lookup_lt_Some). done.
  - rewrite list_lookup_insert_ne by done. rewrite list_lookup_fmap.
    destruct (reflect_keys defs !! i) as [k|] eqn:Ek; [|done]. cbn. do 2 f_equal. apply Hm. intros ->.
    apply Hne. eapply NoDup_lookup; [apply reflect_keys_NoDup, Hdefs|done|done].
Qed.

Lemma crc_slots_other m m' key :
  (forall k, k <> key -> m' !! k = m !! k) -> key ∉ reflect_keys defs -> crc_slots m' = crc_slots m.
Proof.
  intros Hm Hk. unfold crc_slots. apply map_ext_in. intros k Hin. f_equal. apply Hm. intros ->.
  apply Hk. by apply list_elem_of_In.
Qed.

(** The calls made for one change of [key]. *)
Definition kv_notified st (key : Z) (data : option (list Z)) (len : Z) : list kv_event :=
  kv_events st ++ map (fun i => EvValueChanged i key data len) (kv_cb_positions 0 (kv_cb_list st)).

(** Reflection and notification of a change at [key]. *)
Lemma kv_changed_reflects h h' st key flags idx data len :
  reflects h st -> kv_store_key_metadata defs key = Some (flags, idx) ->
  (forall k, k <> key -> h' !! k = h !! k) -> h' !! key = data ->
  exists st', kv_changed crc32_ieee st idx key data len = Done st' /\
    reflects h' st' /\ kv_fs st' = kv_fs st /\ kv_cb_list st' = kv_cb_list st /\
    kv_events st' = kv_notified st key data len.
Proof.
  intros [Hc Hr] Hm Hoth Hk. unfold kv_changed. destruct idx as [idx|].
  - destruct (key_metadata_index _ _ _ _ _ ranges_nonneg Hm) as (Hi & Hidx). rewrite Z.sub_0_r in Hidx.
    pose proof (lookup_lt_Some _ _ _ Hidx) as Hlt. unfold kv_reflect_key_updated.
    replace (zlen (value_crc_slots st) <=? idx) with false.
    2:{ rewrite Hc, zlen_crc_slots, reflect_num_length by apply ranges_nonneg. unfold zlen. lia. }
    cbn [exec_bind]. eexists. split; [done|]. split; [|done]. split; [|done]. cbn [kv_notify value_crc_slots].
    rewrite Hc, (crc_slots_update _ h' key _ Hoth Hidx), Hk. done.
  - cbn [exec_bind]. eexists. split; [done|]. split; [|done]. split; [|done]. cbn [kv_notify value_crc_slots].
    rewrite Hc. symmetry. apply crc_slots_other with key; [done|]. eapply key_metadata_unreflected; [apply Hdefs|done].
Qed.

Lemma reflects_fs h st fs' : reflects h st -> reflects h (kv_set_fs st fs').
Proof. by intros [Hc Hr]. Qed.

(** After the storage has changed at [key], they restore the invariant. *)
Lemma kv_changed_ok st fs' key flags idx data len :
  reflect_inv st -> kv_store_key_metadata defs key = Some (flags, idx) ->
  (forall k, k <> key -> nvs_map fs' !! k = contents st !! k) -> nvs_map fs' !! key = data ->
  exists st', kv_changed crc32_ieee (kv_set_fs st fs') idx key data len = Done st' /\
    reflect_inv st' /\ kv_fs st' = fs' /\ kv_cb_list st' = kv_cb_list st /\
    kv_events st' = kv_notified st key data len.
Proof.
  intros Hi%reflect_inv_reflects Hm Hoth Hk.
  destruct (kv_changed_reflects (contents st) (nvs_map fs') (kv_set_fs st fs') key flags idx data len) as (st' & ? & Hi' & Hf & ?); try done.
  { by apply reflects_fs. }
  exists st'. split; [done|]. split; [|done]. apply reflect_inv_reflects. by rewrite Hf.
Qed.

Lemma reflect_inv_fs st fs' : reflect_inv st -> nvs_map fs' = contents st -> reflect_inv (kv_set_fs st fs').
Proof. intros [Hc Hr] Hm. split; cbn [kv_set_fs value_crc_slots kv_fs reflect_crc]; [by rewrite Hm|done]. Qed.

Lemma enabled_metadata key : enabled key = match kv_store_key_metadata defs key with Some _ => true | None => false end.
Proof. done. Qed.

Lemma kv_store_write_ok st key data :
  reflect_inv st -> data <> [] ->
  exists rc st', write st key data = Done (rc, st') /\ reflect_inv st' /\ kv_cb_list st' = kv_cb_list st /\
  if enabled key then
    (rc = zlen data /\ contents st' = <[key := data]> (contents st) /\
     kv_events st' = kv_notified st key (Some data) (zlen data)) \/
    (rc = 0 /\ contents st !! key = Some data /\ contents st' = contents st /\ kv_events st' = kv_events st) \/
    (rc < 0 /\ rc <> - ENOENT /\ contents st' = contents st /\ kv_events st' = kv_events st)
  else rc = - EACCES /\ st' = st.
Proof.
  intros Hinv Hd. rewrite enabled_metadata. unfold kv_store_write.
  destruct (kv_store_key_metadata defs key) as [[flags idx]|] eqn:Em; [|by do 2 eexists].
  assert (Hpos : 0 < zlen data) by (destruct data; [done|rewrite zlen_cons; pose proof (zlen_nonneg data); lia]).
  destruct (nvs_write (kv_fs st) key data) as [rc fs] eqn:Ew.
  destruct (nvs_write_spec _ _ _ _ _ Hd Ew) as [(-> & Hm)|[(-> & Hk & Hm)|(Hrc & Hne & Hm)]].
  - replace (0 <? zlen data) with true by lia.
    destruct (kv_changed_ok st fs key flags idx (Some data) (zlen data) Hinv Em) as (st' & -> & Hi & Hf & Hcb & He).
    { intros k Hk. by rewrite Hm, lookup_insert_ne. }
    { by rewrite Hm, lookup_insert_eq. }
    cbn [exec_bind]. do 2 eexists. split; [done|]. split; [done|]. split; [done|]. left. by rewrite Hf.
  - do 2 eexists. split; [done|]. split; [by apply reflect_inv_fs|]. split; [done|]. right. left. done.
  - replace (0 <? rc) with false by lia.
    do 2 eexists. split; [done|]. split; [by apply reflect_inv_fs|]. split; [done|]. right. right. done.
Qed.

Lemma kv_store_delete_ok st key :
  reflect_inv st ->
  exists rc st', remove st key = Done (rc, st') /\ reflect_inv st' /\ kv_cb_list st' = kv_cb_list st /\
  if enabled key then
    (rc = 0 /\ contents st !! key <> None /\ contents st' = delete key (contents st) /\
     kv_events st' = kv_notified st key None 0) \/
    (rc = - ENOENT /\ contents st !! key = None /\ st' = st) \/
    (rc < 0 /\ contents st !! key <> None /\ contents st' = contents st /\ kv_events st' = kv_events st)
  else rc = - EACCES /\ st' = st.
Proof.
  intros Hinv. rewrite enabled_metadata. unfold kv_store_delete.
  destruct (kv_store_key_metadata defs key) as [[flags idx]|] eqn:Em; [|by do 2 eexists].
  destruct (contents st !! key) as [v|] eqn:Ev.
  2:{ rewrite nvs_read_none by done. cbn [fst]. rewrite Z.eqb_refl. do 2 eexists. split; [done|]. split; [done|]. split; [done|].
      right. by left. }
  rewrite (nvs_read_some _ _ _ v) by done. cbn [fst]. pose proof (zlen_nonneg v).
  replace (zlen v =? - ENOENT) with false by (unfold ENOENT; lia).
  destruct (nvs_delete (kv_fs st) key) as [rc fs] eqn:Ed.
  destruct (nvs_delete_spec _ _ _ _ Ed) as [(-> & Hm)|(Hrc & Hm)].
  - destruct (kv_changed_ok st fs key flags idx None 0 Hinv Em) as (st' & -> & Hi & Hf & Hcb & He).
    { intros k Hk. by rewrite Hm, lookup_delete_ne. }
    { by rewrite Hm, lookup_delete_eq. }
    cbn [exec_bind Z.eqb]. do 2 eexists. split; [done|]. split; [done|]. split; [done|]. left. by rewrite Hf.
  - replace (rc =? 0) with false by lia. do 2 eexists. split; [done|]. split; [by apply reflect_inv_fs|]. split; [done|].
    right. right. done.
Qed.

Lemma kv_store_read_ok st key n :
  read st key n =
    if enabled key then match contents st !! key with Some v => (zlen v, ztake n v) | None => (- ENOENT, []) end
    else (- EACCES, []).
Proof.
  unfold kv_store_read. destruct (enabled key); cbn [negb]; [|done].
  destruct (contents st !! key) eqn:E; [by apply nvs_read_some|by apply nvs_read_none].
Qed.

Lemma kv_store_read_fallback_ok st key n fallback :
  reflect_inv st -> fallback <> [] ->
  exists rc data st', kv_store_read_fallback crc32_ieee defs st key n fallback = Done (rc, data, st') /\
    reflect_inv st' /\ kv_cb_list st' = kv_cb_list st /\
  if enabled key then
    match contents st !! key with
    | Some v => rc = zlen v /\ data = ztake n v /\ st' = st
    | None =>
        (rc = zlen fallback /\ data = ztake n fallback /\ contents st' = <[key := fallback]> (contents st) /\
         kv_events st' = kv_notified st key (Some fallback) (zlen fallback)) \/
        (rc < 0 /\ contents st' = contents st /\ kv_events st' = kv_events st)
    end
  else rc = - EACCES /\ st' = st.
Proof.
  intros Hinv Hd. rewrite enabled_metadata. unfold kv_store_read_fallback.
  destruct (kv_store_key_metadata defs key) as [[flags idx]|] eqn:Em; [|by do 3 eexists].
  destruct (contents st !! key) as [v|] eqn:Ev.
  { rewrite (nvs_read_some _ _ _ v) by done. pose proof (zlen_nonneg v).
    replace (zlen v =? - ENOENT) with false by (unfold ENOENT; lia). by do 3 eexists. }
  rewrite nvs_read_none by done. rewrite Z.eqb_refl. destruct (nvs_write (kv_fs st) key fallback) as [rc fs] eqn:Ew.
  assert (Hpos : 0 < zlen fallback).
  { destruct fallback as [|x l]; [done|rewrite zlen_cons; pose proof (zlen_nonneg l); lia]. }
  destruct (nvs_write_spec _ _ _ _ _ Hd Ew) as [(-> & Hm)|[(-> & Hk & Hm)|(Hrc & Hne & Hm)]]; [|congruence|].
  - rewrite Z.eqb_refl.
    destruct (kv_changed_ok st fs key flags idx (Some fallback) (zlen fallback) Hinv Em) as (st' & -> & Hi & Hf & Hcb & He).
    { intros k Hk. by rewrite Hm, lookup_insert_ne. }
    { by rewrite Hm, lookup_insert_eq. }
    cbn [exec_bind]. rewrite (nvs_read_some _ _ _ fallback) by (by rewrite Hf, Hm, lookup_insert_eq).
    do 3 eexists. split; [done|]. split; [done|]. split; [done|]. left. by rewrite Hf.
  - replace (rc =? zlen fallback) with false by lia. do 3 eexists. split; [done|].
    split; [by apply reflect_inv_fs|]. split; [done|]. by right.
Qed.

(** *** Initialisation *)

(** The buffer of [kv_reflect_init] holds 256 bytes; larger values get no CRC. *)
Definition init_crc (o : option (list Z)) : Z :=
  match o with None => 0 | Some v => if 256 <? zlen v then 0 else crc32_ieee v end.

Lemma reflect_slot_loop_ok n fs key idx crcs :
  0 <= idx -> idx + Z.of_nat n <= zlen crcs -> zlen crcs < 65536 ->
  ((n <> 0)%nat -> 0 <= key /\ key + Z.of_nat n <= 65536) ->
  reflect_slot_loop crc32_ieee n fs key idx crcs =
    Done (idx + Z.of_nat n,
          ztake idx crcs ++ map (fun i => init_crc (nvs_map fs !! (key + Z.of_nat i))) (seq 0 n) ++
          zdrop (idx + Z.of_nat n) crcs).
Proof.
  revert key idx crcs. induction n as [|n IH]; intros key idx crcs Hi Hle Hlt Hk.
  { cbn. rewrite Z.add_0_r, ztake_zdrop. done. }
  destruct (Hk ltac:(done)) as (Hk0 & Hkn). cbn [reflect_slot_loop]. replace (zlen crcs <=? idx) with false by lia.
  assert (Hlen : forall x, zlen (<[Z.to_nat idx := x]> crcs) = zlen crcs).
  { intros x. unfold zlen. by rewrite length_insert. }
  assert (Hc : (let '(rc, buf) := nvs_read fs key 256 in
    if rc =? - ENOENT then 0 else if rc <? 0 then 0 else if 256 <? rc then 0 else crc32_ieee (ztake rc buf)) =
    init_crc (nvs_map fs !! key)).
  { destruct (nvs_map fs !! key) as [v|] eqn:Ev.
    - rewrite (nvs_read_some _ _ _ v) by done. pose proof (zlen_nonneg v). cbn [init_crc].
      replace (zlen v =? - ENOENT) with false by (unfold ENOENT; lia). replace (zlen v <? 0) with false by lia.
      destruct (Z.ltb_spec 256 (zlen v)); [done|]. by rewrite ztake_ztake, Z.min_l, ztake_ge by lia.
    - rewrite nvs_read_none by done. by rewrite Z.eqb_refl. }
  destruct (nvs_read fs key 256) as [rc buf]. rewrite Hc. rewrite (uwrap_small 16 (idx + 1)) by lia.
  rewrite IH; [|lia|rewrite Hlen; lia|by rewrite Hlen|].
  2:{ intros Hn. rewrite uwrap_small by lia. lia. }
  f_equal. f_equal; [lia|]. set (x := init_crc (nvs_map fs !! key)).
  assert (Hins : <[Z.to_nat idx := x]> crcs = ztake idx crcs ++ x :: zdrop (idx + 1) crcs).
  { unfold ztake, zdrop. rewrite insert_take_drop by (unfold zlen in *; lia). do 3 f_equal. lia. }
  rewrite Hins. rewrite ztake_app_ge, zdrop_app_ge by (rewrite zlen_ztake; lia). rewrite zlen_ztake by lia.
  replace (idx + 1 - idx) with 1 by lia. replace (idx + 1 + Z.of_nat n - idx) with (1 + Z.of_nat n) by lia.
  change (ztake 1 (x :: zdrop (idx + 1) crcs)) with [x]. rewrite <- app_assoc. f_equal. cbn [seq map app].
  rewrite Z.add_0_r. fold x. f_equal. rewrite <- seq_shift, map_map. f_equal.
  - apply map_ext_in. intros i Hin. apply in_seq in Hin. rewrite uwrap_small by lia. do 2 f_equal. lia.
  - rewrite <- zdrop_zdrop, zdrop_1_cons, zdrop_zdrop by lia. f_equal. lia.
Qed.

Lemma reflect_init_loop_ok l fs idx crcs :
  Forall (fun d => 0 <= slot_key d /\ 0 <= slot_range d < 256 /\ slot_key d + slot_range d <= 65536) l ->
  0 <= idx -> idx + zlen (reflect_keys l) <= zlen crcs -> zlen crcs < 65536 ->
  reflect_init_loop crc32_ieee l fs idx crcs =
    Done (idx + zlen (reflect_keys l),
          ztake idx crcs ++ map (fun key => init_crc (nvs_map fs !! key)) (reflect_keys l) ++
          zdrop (idx + zlen (reflect_keys l)) crcs).
Proof.
  intros Hl. revert idx crcs. induction Hl as [|d l (Hk & Hr & Hkr) _ IH]; intros idx crcs Hi Hle Hlt.
  { cbn. by rewrite Z.add_0_r, ztake_zdrop. }
  cbn [reflect_init_loop]. unfold reflect_keys in *. cbn [map concat] in *. fold (reflect_keys l) in *.
  destruct (slot_reflect d); cbn [negb app] in *; [|by apply IH].
  assert (Hz : zlen (slot_keys d) = slot_range d) by (unfold zlen; rewrite length_slot_keys; lia).
  rewrite zlen_app in *. pose proof (zlen_nonneg (reflect_keys l)).
  rewrite reflect_slot_loop_ok by lia. cbn [exec_bind]. rewrite Z2Nat.id by lia.
  set (mid := map _ (seq 0 _)). assert (Hmid : zlen mid = slot_range d).
  { unfold mid, zlen. rewrite length_map, length_seq. lia. }
  assert (Hm2 : mid = map (fun key => init_crc (nvs_map fs !! key)) (slot_keys d)).
  { unfold mid, slot_keys. by rewrite map_map. }
  assert (Hlen : zlen (ztake idx crcs ++ mid ++ zdrop (idx + slot_range d) crcs) = zlen crcs).
  { rewrite !zlen_app, Hmid, zlen_ztake, zlen_zdrop by lia. lia. }
  rewrite IH; [|lia|rewrite Hlen; lia|rewrite Hlen; lia]. f_equal. f_equal; [lia|].
  rewrite map_app, <- Hm2, <- !app_assoc.
  rewrite ztake_app_ge by (rewrite zlen_ztake; lia). rewrite zlen_ztake by lia.
  rewrite ztake_app by lia. rewrite <- app_assoc. do 3 f_equal.
  rewrite zdrop_app_ge by (rewrite zlen_ztake; lia). rewrite zlen_ztake by lia.
  rewrite zdrop_app_ge by lia. rewrite zdrop_zdrop by lia. f_equal. lia.
Qed.

(** The values that fit the buffer of [kv_reflect_init]. *)
Definition reflectable (m : gmap Z (list Z)) : Prop :=
  forall key v, key ∈ reflect_keys defs -> m !! key = Some v -> zlen v <= 256.

Lemma kv_reflect_init_ok st :
  zlen (value_crc_slots st) = KV_REFLECT_NUM defs ->
  exists st', kv_reflect_init crc32_ieee defs st = Done st' /\ kv_fs st' = kv_fs st /\
    kv_cb_list st' = kv_cb_list st /\ kv_events st' = kv_events st /\
    value_crc_slots st' = map (fun key => init_crc (contents st !! key)) (reflect_keys defs) /\
    (KV_REFLECT_NUM defs <> 0 -> reflect_crc st' = crc32_ieee (crc_slots_bytes (value_crc_slots st'))).
Proof.
  intros Hlen. pose proof (reflect_num_length defs ranges_nonneg) as Hnum. unfold kv_reflect_init.
  destruct (Z.eqb_spec (KV_REFLECT_NUM defs) 0) as [Hz|Hz].
  { exists st. split; [done|]. do 3 (split; [done|]). split; [|done].
    rewrite Hz in *. destruct (value_crc_slots st) as [|x l]; [|rewrite zlen_cons in Hlen; pose proof (zlen_nonneg l); lia].
    destruct (reflect_keys defs) as [|x l]; [done|]. rewrite zlen_cons in Hnum. pose proof (zlen_nonneg l). lia. }
  rewrite reflect_init_loop_ok; [|apply Hdefs|lia|lia|pose proof (slots_num defs Hdefs); lia].
  cbn [exec_bind]. eexists. split; [done|]. cbn. split; [done|]. split; [done|]. split; [done|]. split; [|done].
  rewrite zdrop_ge by lia. by rewrite app_nil_r.
Qed.

Lemma init_crcs_exact m : reflectable m -> map (fun key => init_crc (m !! key)) (reflect_keys defs) = crc_slots m.
Proof.
  intros Hm. unfold crc_slots. apply map_ext_in. intros key Hin. destruct (m !! key) as [v|] eqn:E; [|done].
  cbn. apply list_elem_of_In in Hin. specialize (Hm key v Hin E). by replace (256 <? zlen v) with false by lia.
Qed.

(** After a boot the slots reflect the values of at most 256 bytes. *)
Lemma init_crcs_reflect m :
  map (fun key => init_crc (m !! key)) (reflect_keys defs) = crc_slots (filter (fun kv => zlen kv.2 <= 256) m).
Proof.
  unfold crc_slots. apply map_ext_in. intros key _. rewrite map_lookup_filter. destruct (m !! key) as [v|]; [|done]. cbn.
  destruct (Z.ltb_spec 256 (zlen v)); [by rewrite option_guard_False by lia|by rewrite option_guard_True by lia].
Qed.

Lemma kv_reflect_init_reflects st :
  zlen (value_crc_slots st) = KV_REFLECT_NUM defs ->
  exists st', kv_reflect_init crc32_ieee defs st = Done st' /\ kv_fs st' = kv_fs st /\
    reflects (filter (fun kv => zlen kv.2 <= 256) (contents st)) st'.
Proof.
  intros Hl. destruct (kv_reflect_init_ok st Hl) as (st' & ? & ? & _ & _ & Hc & Hr). exists st'.
  split; [done|]. split; [done|]. split; [by rewrite Hc, init_crcs_reflect|done].
Qed.

Lemma kv_store_init_ok st :
  zlen (value_crc_slots st) = KV_REFLECT_NUM defs ->
  exists rc st', kv_store_init crc32_ieee defs st = Done (rc, st') /\
    (contents st' = contents st \/ contents st' = ∅) /\
    (rc = 0 -> reflectable (contents st') -> reflect_inv st').
Proof.
  intros Hlen. unfold kv_store_init.
  destruct (Z.eqb_spec (flash_page_info (kv_fs st)) 0) as [Hp|Hp]; cbn [negb]; [|do 2 eexists; naive_solver].
  destruct (nvs_mount (kv_fs st)) as [rc1 fs1] eqn:E1. pose proof (nvs_mount_spec _ _ _ E1) as Hm1.
  set (r := if rc1 =? - EDEADLK then _ else _).
  assert (Hr : nvs_map r.2 = contents st \/ nvs_map r.2 = ∅).
  { unfold r. destruct (_ =? _); [|by left; rewrite <- Hm1].
    destruct (nvs_mount (partition_erase fs1)) as [rc2 fs2] eqn:E2. right. cbn.
    by rewrite (nvs_mount_spec _ _ _ E2), partition_erase_spec. }
  destruct r as [rc fs]. cbn [snd] in Hr.
  destruct (Z.eqb_spec rc 0) as [->|Hne]; [|do 2 eexists; split; [done|]; split; [exact Hr|done]].
  destruct (kv_reflect_init_ok (kv_set_fs st fs) Hlen) as (st' & -> & Hf & _ & _ & Hc & Hrc). cbn [exec_bind].
  do 2 eexists. split; [done|]. rewrite Hf. split; [exact Hr|]. intros _ Hok. split; [|done].
  rewrite Hc. cbn [kv_set_fs kv_fs] in *. rewrite Hf. by apply init_crcs_exact.
Qed.

Lemma kv_store_reset_ok st :
  zlen (value_crc_slots st) = KV_REFLECT_NUM defs ->
  exists rc st', kv_store_reset crc32_ieee defs st = Done (rc, st') /\
    (contents st' = ∅ /\ reflect_inv st' \/
     rc < 0 /\ contents st' = contents st /\ (reflect_inv st -> reflect_inv st')).
Proof.
  intros Hlen. unfold kv_store_reset. destruct (nvs_clear (kv_fs st)) as [rc fs] eqn:Ec.
  destruct (nvs_clear_spec _ _ _ Ec) as [(-> & Hm)|(Hrc & Hm)].
  - change (0 =? 0) with true. cbv iota. destruct (nvs_mount (kv_fs (kv_set_fs st fs))) as [rc2 fs2] eqn:E2.
    pose proof (nvs_mount_spec _ _ _ E2) as Hm2. cbn [kv_set_fs kv_fs] in Hm2.
    destruct (kv_reflect_init_ok (kv_set_fs (kv_set_fs st fs) fs2) Hlen) as (st' & -> & Hf & _ & _ & Hc & Hrc).
    cbn [exec_bind]. do 2 eexists. split; [done|]. left. cbn [kv_set_fs kv_fs] in *. rewrite Hf, Hm2, Hm. split; [done|].
    split; [|done]. rewrite Hc, Hf, Hm2, Hm. apply init_crcs_exact. intros k v _. by rewrite lookup_empty.
  - replace (rc =? 0) with false by lia. do 2 eexists. split; [done|]. right. split; [done|]. split; [done|].
    intros Hi. by apply reflect_inv_fs.
Qed.
End kv_spec.

(** ** Sequences of operations *)

Inductive kv_op :=
| KvWrite (key : Z) (data : list Z)
| KvDelete (key : Z)
| KvFallback (key : Z) (fallback : list Z).

Definition kv_op_ok (op : kv_op) : Prop :=
  match op with KvWrite _ d | KvFallback _ d => d <> [] | KvDelete _ => True end.

(** What an operation that returned [rc] does to the contents. *)
Definition kv_abs_step (m : gmap Z (list Z)) (r : kv_op * Z) : gmap Z (list Z) :=
  match r with
  | (KvWrite key data, rc) => if 0 <? rc then <[key := data]> m else if (zlen data =? 0) && (rc =? 0) then delete key m else m
  | (KvDelete key, rc) => if rc =? 0 then delete key m else m
  | (KvFallback key data, rc) => if 0 <? rc then match m !! key with None => <[key := data]> m | Some _ => m end else m
  end.

(** What it does to the contents [m] and to the values [h] whose CRCs are reflected: a write
    of no data removes the value and is not reflected; a fallback of no data is reflected
    and not stored. *)
Definition kv_reflect_step (mh : gmap Z (list Z) * gmap Z (list Z)) (r : kv_op * Z) : gmap Z (list Z) * gmap Z (list Z) :=
  let '(m, h) := mh in
  (kv_abs_step m r,
   match r with
   | (KvWrite key data, rc) => if 0 <? rc then <[key := data]> h else h
   | (KvDelete key, rc) => if rc =? 0 then delete key h else h
   | (KvFallback key data, rc) =>
       match m !! key with None => if (0 <? rc) || (rc =? - ENOENT) then <[key := data]> h else h | Some _ => h end
   end).

Section kv_run.
Context {F : Type} `{NvsApi F} (crc32_ieee : list Z -> Z) (defs : list key_value_slot_definition).

Definition kv_op_run (st : kv_state F) (op : kv_op) : exec (Z * kv_state F) :=
  match op with
  | KvWrite key data => kv_store_write crc32_ieee defs st key data
  | KvDelete key => kv_store_delete crc32_ieee defs st key
  | KvFallback key data =>
      let! (rc, _, st) := kv_store_read_fallback crc32_ieee defs st key (zlen data) data in Done (rc, st)
  end.

Fixpoint kv_run (st : kv_state F) (ops : list kv_op) : exec (list Z * kv_state F) :=
  match ops with
  | [] => Done ([], st)
  | op :: ops =>
      let! (rc, st) := kv_op_run st op in
      let! (rcs, st) := kv_run st ops in
      Done (rc :: rcs, st)
  end.
End kv_run.

Section kv_refine.
Context {F : Type} `{NvsSpec F} (crc32_ieee : list Z -> Z) (defs : list key_value_slot_definition).
Hypothesis Hdefs : slots_ok defs.

Lemma kv_op_run_ok (st : kv_state F) op :
  reflect_inv crc32_ieee defs st -> kv_op_ok op ->
  exists rc st', kv_op_run crc32_ieee defs st op = Done (rc, st') /\ reflect_inv crc32_ieee defs st' /\
    nvs_map (kv_fs st') = kv_abs_step (nvs_map (kv_fs st)) (op, rc).
Proof.
  intros Hinv Hop. destruct op as [key data|key|key data]; cbn [kv_op_run kv_op_ok kv_abs_step] in *.
  - destruct (kv_store_write_ok crc32_ieee defs Hdefs st key data Hinv Hop) as (rc & st' & -> & Hi & _ & Hr).
    exists rc, st'. split; [done|]. split; [done|].
    assert (0 < zlen data) by (destruct data; [done|rewrite zlen_cons; pose proof (zlen_nonneg data); lia]).
    replace (zlen data =? 0) with false by lia. cbn [andb]. destruct (kv_store_key_enabled defs key).
    + destruct Hr as [(-> & Hm & _)|[(-> & _ & Hm & _)|(Hn & _ & Hm & _)]].
      * by replace (0 <? zlen data) with true by lia.
      * done.
      * by replace (0 <? rc) with false by lia.
    + destruct Hr as (-> & ->). done.
  - destruct (kv_store_delete_ok crc32_ieee defs Hdefs st key Hinv) as (rc & st' & -> & Hi & _ & Hr).
    exists rc, st'. split; [done|]. split; [done|]. destruct (kv_store_key_enabled defs key).
    + destruct Hr as [(-> & _ & Hm & _)|[(-> & _ & ->)|(Hn & _ & Hm & _)]]; [done|done|].
      by replace (rc =? 0) with false by lia.
    + destruct Hr as (-> & ->). done.
  - destruct (kv_store_read_fallback_ok crc32_ieee defs Hdefs st key (zlen data) data Hinv Hop)
      as (rc & d & st' & -> & Hi & _ & Hr). cbn [exec_bind]. exists rc, st'. split; [done|]. split; [done|].
    assert (0 < zlen data) by (destruct data; [done|rewrite zlen_cons; pose proof (zlen_nonneg data); lia]).
    destruct (kv_store_key_enabled defs key); [|by destruct Hr as (-> & ->)].
    destruct (nvs_map (kv_fs st) !! key) eqn:Ek.
    + destruct Hr as (-> & _ & ->). by destruct (0 <? _).
    + destruct Hr as [(-> & _ & Hm & _)|(Hn & Hm & _)]; [by replace (0 <? zlen data) with true by lia|].
      by replace (0 <? rc) with false by lia.
Qed.

Lemma kv_run_ok ops (st : kv_state F) :
  reflect_inv crc32_ieee defs st -> Forall kv_op_ok ops ->
  exists rcs st', kv_run crc32_ieee defs st ops = Done (rcs, st') /\ reflect_inv crc32_ieee defs st' /\
    length rcs = length ops /\
    nvs_map (kv_fs st') = fold_left kv_abs_step (zip ops rcs) (nvs_map (kv_fs st)).
Proof.
  intros Hinv Hops. revert st Hinv. induction Hops as [|op ops Hop _ IH]; intros st Hinv; [by exists [], st|].
  cbn [kv_run]. destruct (kv_op_run_ok st op Hinv Hop) as (rc & st1 & -> & Hi1 & Hm1). cbn [exec_bind].
  destruct (IH st1 Hi1) as (rcs & st2 & -> & Hi2 & Hl & Hm2). cbn [exec_bind].
  exists (rc :: rcs), st2. split; [done|]. split; [done|]. split; [cbn; by rewrite Hl|].
  cbn [zip zip_with fold_left]. by rewrite Hm2, Hm1.
Qed.

Lemma kv_write_step st h key data :
  reflects crc32_ieee defs h st ->
  exists rc st', kv_store_write crc32_ieee defs st key data = Done (rc, st') /\
    nvs_map (kv_fs st') = (kv_reflect_step (nvs_map (kv_fs st), h) (KvWrite key data, rc)).1 /\
    reflects crc32_ieee defs (kv_reflect_step (nvs_map (kv_fs st), h) (KvWrite key data, rc)).2 st'.
Proof.
  intros Hh. unfold kv_store_write. cbn [kv_reflect_step kv_abs_step fst snd].
  destruct (kv_store_key_metadata defs key) as [[flags idx]|] eqn:Em.
  2:{ exists (- EACCES), st. split; [done|]. by rewrite andb_false_r. }
  destruct (nvs_write (kv_fs st) key data) as [rc fs] eqn:Ew. destruct (decide (data = [])) as [Hd|Hd].
  - subst data. apply nvs_write_empty in Ew as [(-> & Hm)|(Hn & _ & Hm)].
    + exists 0, (kv_set_fs st fs). split; [done|]. split; [done|by apply reflects_fs].
    + exists rc, (kv_set_fs st fs). replace (0 <? rc) with false by lia. replace (rc =? 0) with false by lia. rewrite andb_false_r.
      split; [done|]. split; [done|by apply reflects_fs].
  - assert (Hpos : 0 < zlen data) by (destruct data; [done|rewrite zlen_cons; pose proof (zlen_nonneg data); lia]).
    replace (zlen data =? 0) with false by lia. cbn [andb].
    apply nvs_write_spec in Ew as [(-> & Hm)|[(-> & _ & Hm)|(Hn & _ & Hm)]]; [| | |done].
    + replace (0 <? zlen data) with true by lia.
      destruct (kv_changed_reflects crc32_ieee defs Hdefs h (<[key := data]> h) (kv_set_fs st fs) key flags idx (Some data) (zlen data))
        as (st' & -> & Hr & Hf & _); [by apply reflects_fs|done|intros; by rewrite lookup_insert_ne|apply lookup_insert_eq|].
      cbn [exec_bind]. exists (zlen data), st'. replace (0 <? zlen data) with true by lia. by rewrite Hf.
    + exists 0, (kv_set_fs st fs). split; [done|]. split; [done|by apply reflects_fs].
    + exists rc, (kv_set_fs st fs). replace (0 <? rc) with false by lia. split; [done|]. split; [done|by apply reflects_fs].
Qed.

Lemma kv_delete_step st h key :
  reflects crc32_ieee defs h st ->
  exists rc st', kv_store_delete crc32_ieee defs st key = Done (rc, st') /\
    nvs_map (kv_fs st') = (kv_reflect_step (nvs_map (kv_fs st), h) (KvDelete key, rc)).1 /\
    reflects crc32_ieee defs (kv_reflect_step (nvs_map (kv_fs st), h) (KvDelete key, rc)).2 st'.
Proof.
  intros Hh. unfold kv_store_delete. cbn [kv_reflect_step kv_abs_step fst snd].
  destruct (kv_store_key_metadata defs key) as [[flags idx]|] eqn:Em; [|by exists (- EACCES), st].
  destruct (_ =? - ENOENT); [by exists (- ENOENT), st|].
  destruct (nvs_delete (kv_fs st) key) as [rc fs] eqn:Ed. apply nvs_delete_spec in Ed as [(-> & Hm)|(Hn & Hm)].
  - destruct (kv_changed_reflects crc32_ieee defs Hdefs h (delete key h) (kv_set_fs st fs) key flags idx None 0)
      as (st' & Hc & Hr & Hf & _); [by apply reflects_fs|done|intros; by rewrite lookup_delete_ne|apply lookup_delete_eq|].
    cbn [Z.eqb]. rewrite Hc. cbn [exec_bind]. exists 0, st'. by rewrite Hf.
  - exists rc, (kv_set_fs st fs). replace (rc =? 0) with false by lia. split; [done|]. split; [done|by apply reflects_fs].
Qed.

Lemma kv_fallback_step st h key data :
  reflects crc32_ieee defs h st ->
  exists rc st', kv_op_run crc32_ieee defs st (KvFallback key data) = Done (rc, st') /\
    nvs_map (kv_fs st') = (kv_reflect_step (nvs_map (kv_fs st), h) (KvFallback key data, rc)).1 /\
    reflects crc32_ieee defs (kv_reflect_step (nvs_map (kv_fs st), h) (KvFallback key data, rc)).2 st'.
Proof.
  intros Hh. cbn [kv_op_run]. unfold kv_store_read_fallback. cbn [kv_reflect_step kv_abs_step fst snd].
  destruct (kv_store_key_metadata defs key) as [[flags idx]|] eqn:Em.
  2:{ exists (- EACCES), st. split; [done|]. split; [done|]. by destruct (nvs_map (kv_fs st) !! key). }
  destruct (nvs_map (kv_fs st) !! key) as [v|] eqn:Ev.
  { rewrite (nvs_read_some _ _ _ v) by done. pose proof (zlen_nonneg v).
    replace (zlen v =? - ENOENT) with false by (unfold ENOENT; lia). cbn [exec_bind]. exists (zlen v), st. by destruct (0 <? _). }
  rewrite nvs_read_none by done. rewrite Z.eqb_refl. destruct (nvs_write (kv_fs st) key data) as [rc fs] eqn:Ew.
  destruct (kv_changed_reflects crc32_ieee defs Hdefs h (<[key := data]> h) (kv_set_fs st fs) key flags idx (Some data) (zlen data))
    as (st' & Hc & Hr & Hf & _); [by apply reflects_fs|done|intros; by rewrite lookup_insert_ne|apply lookup_insert_eq|].
  cbn [kv_set_fs kv_fs] in Hf. destruct (decide (data = [])) as [Hd|Hd].
  - subst data. apply nvs_write_empty in Ew as [(-> & Hm)|(Hn & Hne & Hm)].
    + rewrite Hc. cbn [exec_bind Z.eqb]. change (0 =? zlen (@nil Z)) with true. cbv iota. cbn [exec_bind].
      rewrite Hf, nvs_read_none by (by rewrite Hm, lookup_delete_eq). cbn [exec_bind]. exists (- ENOENT), st'.
      rewrite Hf, Hm. split; [done|]. split; [by apply delete_id|done].
    + change (zlen (@nil Z)) with 0. replace (rc =? 0) with false by lia. cbn [exec_bind]. exists rc, (kv_set_fs st fs).
      replace (0 <? rc) with false by lia. rewrite (proj2 (Z.eqb_neq rc (- ENOENT)) Hne). split; [done|]. split; [done|by apply reflects_fs].
  - assert (Hpos : 0 < zlen data) by (destruct data; [done|rewrite zlen_cons; pose proof (zlen_nonneg data); lia]).
    apply nvs_write_spec in Ew as [(-> & Hm)|[(-> & Hk & Hm)|(Hn & Hne & Hm)]]; [|congruence| |done].
    + rewrite Z.eqb_refl, Hc. cbn [exec_bind]. rewrite Hf, (nvs_read_some _ _ _ data) by (by rewrite Hm, lookup_insert_eq).
      cbn [exec_bind]. exists (zlen data), st'. replace (0 <? zlen data) with true by lia. by rewrite Hf.
    + replace (rc =? zlen data) with false by lia. cbn [exec_bind]. exists rc, (kv_set_fs st fs).
      replace (0 <? rc) with false by lia. rewrite (proj2 (Z.eqb_neq rc (- ENOENT)) Hne). split; [done|]. split; [done|by apply reflects_fs].
Qed.

Lemma kv_run_reflects ops (st : kv_state F) h :
  reflects crc32_ieee defs h st ->
  exists rcs st', kv_run crc32_ieee defs st ops = Done (rcs, st') /\ length rcs = length ops /\
    let '(m', h') := fold_left kv_reflect_step (zip ops rcs) (nvs_map (kv_fs st), h) in
    nvs_map (kv_fs st') = m' /\ reflects crc32_ieee defs h' st'.
Proof.
  revert st h. induction ops as [|op ops IH]; intros st h Hh; [by exists [], st|].
  assert (Hop : exists rc st', kv_op_run crc32_ieee defs st op = Done (rc, st') /\
    nvs_map (kv_fs st') = (kv_reflect_step (nvs_map (kv_fs st), h) (op, rc)).1 /\
    reflects crc32_ieee defs (kv_reflect_step (nvs_map (kv_fs st), h) (op, rc)).2 st').
  { destruct op; [by apply kv_write_step|by apply kv_delete_step|by apply kv_fallback_step]. }
  destruct Hop as (rc & st1 & Hr1 & Hm1 & Hh1). cbn [kv_run]. rewrite Hr1. cbn [exec_bind].
  destruct (IH st1 _ Hh1) as (rcs & st2 & -> & Hl & H2). cbn [exec_bind]. exists (rc :: rcs), st2.
  split; [done|]. split; [cbn; by rewrite Hl|]. cbn [zip zip_with fold_left].
  rewrite (surjective_pairing (kv_reflect_step (nvs_map (kv_fs st), h) (op, rc))), <- Hm1. exact H2.
Qed.

(** C9.  The store is the map its operations build.  After any sequence of writes,
    deletions and reads with a fallback, also of no data, and with failures of the flash:
    nothing has failed an assertion; a read of an enabled key returns the value of the
    last operation on it that succeeded (writing no data removes the value and reports 0),
    and of a disabled key is refused.  The reflection CRCs start as those of some values
    [h] (after a boot, the stored values of at most 256 bytes) and end as those of [h]
    changed by the operations that are reflected, which all are that change a value except
    the write of no data; so, when they start as the CRCs of the stored values and no
    operation has no data, they end as the CRCs of the stored values. *)
Theorem kv_store_refine ops (st : kv_state F) h key n :
  reflects crc32_ieee defs h st ->
  exists rcs st', kv_run crc32_ieee defs st ops = Done (rcs, st') /\ length rcs = length ops /\
    (let '(m', h') := fold_left kv_reflect_step (zip ops rcs) (nvs_map (kv_fs st), h) in
     reflects crc32_ieee defs h' st' /\
     kv_store_read defs st' key n =
       if kv_store_key_enabled defs key then
         match m' !! key with
         | Some v => (zlen v, ztake n v)
         | None => (- ENOENT, [])
         end
       else (- EACCES, [])) /\
    (reflect_inv crc32_ieee defs st -> Forall kv_op_ok ops -> reflect_inv crc32_ieee defs st').
Proof.
  intros Hh. destruct (kv_run_reflects ops st h Hh) as (rcs & st' & Hr & Hl & Hm). exists rcs, st'.
  split; [done|]. split; [done|]. split.
  - destruct (fold_left kv_reflect_step _ _) as [m' h']. destruct Hm as [Hm Hh']. split; [done|]. by rewrite kv_store_read_ok, Hm.
  - intros Hi Hops. destruct (kv_run_ok ops st Hi Hops) as (rcs2 & st2 & Hr2 & Hi2 & _). rewrite Hr in Hr2. by injection Hr2 as _ <-.
Qed.

(** A reboot does not change the reflection CRC: when the storage mounts and no
    reflected value exceeds 256 bytes, [kv_store_init] computes the CRCs that the
    operations before the reboot had maintained, whatever was in the CRC slots. *)
Theorem kv_reflect_survives_reboot (st : kv_state F) crcs crc rc st' :
  reflect_inv crc32_ieee defs st -> KV_REFLECT_NUM defs <> 0 ->
  reflectable defs (nvs_map (kv_fs st)) -> zlen crcs = KV_REFLECT_NUM defs ->
  kv_store_init crc32_ieee defs (KvState (kv_fs st) [] crcs crc []) = Done (rc, st') -> rc = 0 ->
  nvs_map (kv_fs st') = nvs_map (kv_fs st) ->
  kv_store_reflect_crc st' = kv_store_reflect_crc st /\ value_crc_slots st' = value_crc_slots st.
Proof.
  intros [Hc Hr] Hnum Hok Hlen Hi -> Hm.
  destruct (kv_store_init_ok crc32_ieee defs Hdefs (KvState (kv_fs st) [] crcs crc []) Hlen) as (rc & st2 & He & _ & Hinv).
  rewrite Hi in He. injection He as <- <-. destruct (Hinv eq_refl) as [Hc' Hr']; [by rewrite Hm|].
  unfold kv_store_reflect_crc. rewrite Hr, Hr', Hc, Hc', Hm by done. done.
Qed.
End kv_refine.

(** ** A storage in memory *)

#[export] Instance map_nvs : NvsApi (gmap Z (list Z)) := {
  nvs_read fs key n := match fs !! key with Some v => (zlen v, ztake n v) | None => (- ENOENT, []) end;
  nvs_write fs key v :=
    if decide (v = []) then (0, delete key fs)
    else if decide (fs !! key = Some v) then (0, fs) else (zlen v, <[key := v]> fs);
  nvs_delete fs key := (0, delete key fs);
  nvs_clear fs := (0, ∅);
  nvs_mount fs := (0, fs);
  flash_page_info _ := 0;
  partition_erase _ := ∅;
}.

#[export] Program Instance map_nvs_spec : NvsSpec (gmap Z (list Z)) := { nvs_map fs := fs }.
Next Obligation. intros fs key n Hk. cbn. by rewrite Hk. Qed.
Next Obligation. intros fs key n v Hk. cbn. by rewrite Hk. Qed.
Next Obligation.
  intros fs key v rc fs' Hv. cbn. rewrite decide_False by done.
  destruct (decide _) as [Hd|Hd]; intros [= <- <-]; [right; by left|by left].
Qed.
Next Obligation. intros fs key rc fs' [= <- <-]. by left. Qed.
Next Obligation. intros fs key rc fs' [= <- <-]. by left. Qed.
Next Obligation. intros fs rc fs' [= <- <-]. by left. Qed.
Next Obligation. intros fs rc fs' [= <- <-]. done. Qed.
Next Obligation. done. Qed.

(** Two reflected keys and one that is not; a sum as the CRC. *)
Definition example_slots : list key_value_slot_definition := [SlotDef 10 2 1; SlotDef 20 1 0].
Definition example_crc (l : list Z) : Z := fold_right Z.add 1 l.

Lemma example_slots_ok : slots_ok example_slots.
Proof.
  split.
  - apply (bool_decide_unpack _). vm_compute. exact I.
  - repeat constructor; cbn; lia.
  - vm_compute. reflexivity.
Qed.

Definition example_kv : kv_state (gmap Z (list Z)) :=
  KvState ∅ [true] [0; 0] (example_crc (crc_slots_bytes [0; 0])) [].

Lemma example_kv_inv : reflect_inv example_crc example_slots example_kv.
Proof. by split. Qed.

Definition example_ops : list kv_op := [KvWrite 10 [1; 2]; KvWrite 11 [5]; KvDelete 12; KvWrite 30 [7]; KvWrite 11 []].

(** The value of key 11 is removed by a write of no data, and its CRC stays. *)
Lemma kv_store_refine_witness :
  exists rcs st', kv_run example_crc example_slots example_kv example_ops = Done (rcs, st') /\
    rcs = [2; 1; - EACCES; - EACCES; 0] /\ kv_store_read example_slots st' 10 4 = (2, [1; 2]) /\
    kv_store_read example_slots st' 11 4 = (- ENOENT, []) /\ value_crc_slots st' = [example_crc [1; 2]; example_crc [5]].
Proof.
  destruct (kv_store_refine example_crc example_slots example_slots_ok example_ops example_kv ∅ 10 4
    (proj1 (reflect_inv_reflects _ _ _) example_kv_inv)) as (rcs & st' & Hr & _ & Hd & _).
  exists rcs, st'. split; [exact Hr|]. vm_compute in Hr. injection Hr as <- <-. split; [reflexivity|].
  destruct Hd as [Hc Hd]. split; [rewrite Hd; vm_compute; reflexivity|]. split; [vm_compute; reflexivity|].
  rewrite (rf_crc_slots _ _ _ _ Hc). vm_compute. reflexivity.
Defined.

Lemma kv_reflect_survives_reboot_witness :
  exists rc st', kv_store_init example_crc example_slots (KvState (kv_fs example_kv) [] [9; 9] 5 []) = Done (rc, st') /\
    kv_store_reflect_crc st' = kv_store_reflect_crc example_kv.
Proof.
  do 2 eexists. split; [vm_compute; reflexivity|].
  exact (proj1 (kv_reflect_survives_reboot example_crc example_slots example_slots_ok example_kv [9; 9] 5 0 _
    example_kv_inv ltac:(done) ltac:(intros k v _; change ((∅ : gmap Z (list Z)) !! k = Some v -> zlen v <= 256); by rewrite lookup_empty) eq_refl
    ltac:(vm_compute; reflexivity) eq_refl eq_refl)).
Defined.

(** A reflected value of more than 256 bytes breaks that: the CRC maintained by
    [kv_store_write] differs from the one computed at the next boot from the very
    same contents. *)
Example reflect_large_value_diverges :
  exists st st', kv_run example_crc example_slots example_kv [KvWrite 10 (repeat 1 257)] = Done ([257], st) /\
    kv_store_init example_crc example_slots (KvState (kv_fs st) [] [0; 0] 0 []) = Done (0, st') /\
    kv_fs st' = kv_fs st /\ kv_store_reflect_crc st' <> kv_store_reflect_crc st.
Proof.
  do 2 eexists. split; [vm_compute; reflexivity|]. split; [vm_compute; reflexivity|].
  split; [reflexivity|]. vm_compute. discriminate.
Qed.
