(* ===== verification/TaskRunner.v ===== *)
(** * The task runner ([subsys/task_runner/runner.c])

    Tables of schedules and tasks, evaluated once a second: tasks start and are asked
    to terminate as their schedules say, and the schedules are reloaded from the
    key-value store when they change there.

    The executor of a task (a Zephyr thread or work item) is the flag [busy]; it is
    set when the runner starts the task and cleared by the environment when the task
    is over.  Table accesses outside their arrays and creating a thread that still
    runs are [Fault]s. *)

From stdpp Require Import base tactics numbers list gmap.
From Stdlib Require Import ZArith Lia.
From S2P Require Import Prelude MathCommon States Schedule KvStore.

Local Open Scope Z_scope.
Local Open Scope infuse_scope.

Definition KV_KEY_TASK_SCHEDULES_DEFAULT_ID : Z := 1000.
Definition KV_KEY_TASK_SCHEDULES : Z := 1001.

Inductive task_executor := TASK_EXECUTOR_THREAD | TASK_EXECUTOR_WORKQUEUE.

(** struct task_config, with whether the device argument is ready. *)
Record task_config := TaskConfig {
  cfg_task_id : Z;
  exec_type : task_executor;
  arg_is_device : bool;
  device_is_ready : bool;
}.

(** struct task_data, with the state of the termination signal and of the executor. *)
Record task_data := TaskData {
  schedule_idx : Z;
  running : bool;
  skip : bool;
  reschedule_counter : Z;
  signaled : bool;
  busy : bool;
}.

Definition set_running (d : task_data) (b : bool) : task_data :=
  TaskData (schedule_idx d) b (skip d) (reschedule_counter d) (signaled d) (busy d).
Definition set_signaled (d : task_data) (b : bool) : task_data :=
  TaskData (schedule_idx d) (running d) (skip d) (reschedule_counter d) b (busy d).
Definition set_busy (d : task_data) (b : bool) : task_data :=
  TaskData (schedule_idx d) (running d) (skip d) (reschedule_counter d) (signaled d) b.

Definition set_last_terminate (s : task_schedule_state) (t : Z) : task_schedule_state :=
  ScheduleState (linked s) (event_cb s) (last_run s) (runtime s) t (task_idx s).
Definition set_runtime (s : task_schedule_state) (t : Z) : task_schedule_state :=
  ScheduleState (linked s) (event_cb s) (last_run s) t (last_terminate s) (task_idx s).

Inductive task_schedule_event :=
| TASK_SCHEDULE_STARTED
| TASK_SCHEDULE_TERMINATE_REQUEST
| TASK_SCHEDULE_STOPPED.

(** The static state of [runner.c].  [schedule_cb] is the position of the runner's
    callback in the store's list, once registered; [sch_events] the calls of event
    callbacks. *)
Record runner (F : Type) := Runner {
  sch : list task_schedule;
  sch_states : list task_schedule_state;
  sch_num : nat;
  tsk : list task_config;
  tsk_states : list task_data;
  default_sch : list task_schedule;
  flag_trigger_reload : bool;
  flag_terminating : bool;
  flag_reloading : bool;
  schedule_cb : option nat;
  kv : kv_state F;
  sch_events : list (nat * task_schedule_event);
}.
Arguments Runner {F}.
Arguments sch {F}.
Arguments sch_states {F}.
Arguments sch_num {F}.
Arguments tsk {F}.
Arguments tsk_states {F}.
Arguments default_sch {F}.
Arguments flag_trigger_reload {F}.
Arguments flag_terminating {F}.
Arguments flag_reloading {F}.
Arguments schedule_cb {F}.
Arguments kv {F}.
Arguments sch_events {F}.

(** Access to an array element; outside the array it is undefined. *)
Definition array_get {A} (l : list A) (i : nat) : exec A :=
  match l !! i with Some x => Done x | None => Fault end.

Section runner.
Context {F : Type} `{NvsApi F} (crc32_ieee : list Z -> Z) (kv_slots : list key_value_slot_definition).
(** [CONFIG_KV_STORE_KEY_TASK_SCHEDULES_RANGE], [CONFIG_TASK_RUNNER_DEFAULT_SCHEDULES_ID] *)
Context (RANGE : nat) (SCHEDULES_ID : Z).
Implicit Types r : runner F.

Definition set_sch r (l : list task_schedule) : runner F :=
  Runner l (sch_states r) (sch_num r) (tsk r) (tsk_states r) (default_sch r) (flag_trigger_reload r)
    (flag_terminating r) (flag_reloading r) (schedule_cb r) (kv r) (sch_events r).
Definition set_sch_states r (l : list task_schedule_state) : runner F :=
  Runner (sch r) l (sch_num r) (tsk r) (tsk_states r) (default_sch r) (flag_trigger_reload r)
    (flag_terminating r) (flag_reloading r) (schedule_cb r) (kv r) (sch_events r).
Definition set_sch_num r (n : nat) : runner F :=
  Runner (sch r) (sch_states r) n (tsk r) (tsk_states r) (default_sch r) (flag_trigger_reload r)
    (flag_terminating r) (flag_reloading r) (schedule_cb r) (kv r) (sch_events r).
Definition set_tsk_states r (l : list task_data) : runner F :=
  Runner (sch r) (sch_states r) (sch_num r) (tsk r) l (default_sch r) (flag_trigger_reload r)
    (flag_terminating r) (flag_reloading r) (schedule_cb r) (kv r) (sch_events r).
Definition set_runner_flags r (trigger terminating reloading : bool) : runner F :=
  Runner (sch r) (sch_states r) (sch_num r) (tsk r) (tsk_states r) (default_sch r) trigger
    terminating reloading (schedule_cb r) (kv r) (sch_events r).
Definition set_kv r (k : kv_state F) : runner F :=
  Runner (sch r) (sch_states r) (sch_num r) (tsk r) (tsk_states r) (default_sch r) (flag_trigger_reload r)
    (flag_terminating r) (flag_reloading r) (schedule_cb r) k (sch_events r).
Definition set_schedule_cb r (cb : option nat) : runner F :=
  Runner (sch r) (sch_states r) (sch_num r) (tsk r) (tsk_states r) (default_sch r) (flag_trigger_reload r)
    (flag_terminating r) (flag_reloading r) cb (kv r) (sch_events r).

(** [if (state->event_cb) state->event_cb(s, event)] *)
Definition notify_schedule r (state : task_schedule_state) (i : nat) (ev : task_schedule_event) : runner F :=
  Runner (sch r) (sch_states r) (sch_num r) (tsk r) (tsk_states r) (default_sch r) (flag_trigger_reload r)
    (flag_terminating r) (flag_reloading r) (schedule_cb r) (kv r)
    (if event_cb state then sch_events r ++ [(i, ev)] else sch_events r).

(** ** Changes in the key-value store *)

Definition kv_value_changed r (key : Z) : runner F :=
  if (key <? KV_KEY_TASK_SCHEDULES_DEFAULT_ID) || (KV_KEY_TASK_SCHEDULES + Z.of_nat RANGE <=? key) then r
  else if flag_reloading r then r
  else set_runner_flags r true (flag_terminating r) (flag_reloading r).

(** The calls of the runner's callback among those the store made. *)
Definition kv_deliver r (evs : list kv_event) : runner F :=
  fold_left (fun r ev =>
    match ev with
    | EvValueChanged cb key _ _ => if decide (Some cb = schedule_cb r) then kv_value_changed r key else r
    end) evs r.

(** An operation of the store, with its notifications. *)
Definition kv_call r (m : exec (Z * kv_state F)) : exec (Z * runner F) :=
  let! (rc, k) := m in
  Done (rc, kv_deliver (set_kv r k) (drop (length (kv_events (kv r))) (kv_events k))).

(** ** Loading schedules *)

Definition schedules_override r (defaults : list task_schedule) : exec (nat * runner F) :=
  for_loop (length defaults) 0 (fun i '(num_eval, r) =>
    let! d := array_get defaults i in
    if negb (task_schedule_validate d) then Done (num_eval, r)
    else if (RANGE <=? i)%nat then Done (num_eval, r) (* the loop ends: nothing is done for larger [i] *)
    else
      let! (_, r) := kv_call r (kv_store_write crc32_ieee kv_slots (kv r)
                                  (KV_KEY_TASK_SCHEDULES + Z.of_nat i) (task_schedule_bytes d)) in
      Done ((i + 1)%nat, set_sch r (<[i := d]> (sch r)))) (O, r).

Definition schedules_clear r (num_default : nat) : exec (runner F) :=
  for_loop (RANGE - num_default) num_default (fun i r =>
    let! (_, r) := kv_call r (kv_store_delete crc32_ieee kv_slots (kv r) (KV_KEY_TASK_SCHEDULES + Z.of_nat i)) in
    Done r) r.

(** Slot [i] from the store, or zeros. *)
Definition schedule_read_slot r (i num_eval : nat) : nat * runner F :=
  let '(rc, data) := kv_store_read kv_slots (kv r) (KV_KEY_TASK_SCHEDULES + Z.of_nat i) sizeof_task_schedule in
  if rc =? sizeof_task_schedule then ((i + 1)%nat, set_sch r (<[i := task_schedule_of_bytes data]> (sch r)))
  else (num_eval, set_sch r (<[i := task_schedule_of_bytes (repeat 0 50)]> (sch r))).

Definition schedules_read r (defaults : list task_schedule) : exec (nat * runner F) :=
  for_loop RANGE 0 (fun i '(num_eval, r) =>
    match defaults !! i with
    | Some d =>
        if negb (Z.land (validity d) TASK_LOCKED =? 0) then Done ((i + 1)%nat, set_sch r (<[i := d]> (sch r)))
        else Done (schedule_read_slot r i num_eval)
    | None => Done (schedule_read_slot r i num_eval)
    end) (O, r).

(** The number of schedules to evaluate; the schedules go to [sch]. *)
Definition task_runner_schedules_load r (schedules_id : Z) (default_schedules : list task_schedule)
  : exec (nat * runner F) :=
  let expected_default_id := Z.lor (Z.shiftl sizeof_task_schedule 16) schedules_id in
  let r := set_runner_flags r (flag_trigger_reload r) (flag_terminating r) true in
  let '(rc, default_id) := kv_store_read kv_slots (kv r) KV_KEY_TASK_SCHEDULES_DEFAULT_ID 4 in
  let! (num_eval, r) :=
    if negb (rc =? 4) || negb (le_get default_id =? expected_default_id) then
      let! (num_eval, r) := schedules_override r default_schedules in
      let! r := schedules_clear r (length default_schedules) in
      let! (_, r) := kv_call r (kv_store_write crc32_ieee kv_slots (kv r) KV_KEY_TASK_SCHEDULES_DEFAULT_ID
                                  (le_put 4 expected_default_id)) in
      Done (num_eval, r)
    else schedules_read r default_schedules in
  Done (num_eval, set_runner_flags r (flag_trigger_reload r) (flag_terminating r) false).

(** ** Initialisation *)

Definition init_tasks r : exec (runner F) :=
  for_loop (length (tsk r)) 0 (fun i r =>
    let! d := array_get (tsk_states r) i in
    let! c := array_get (tsk r) i in
    let skip := if arg_is_device c && negb (device_is_ready c) then true else skip d in
    let busy := match exec_type c with TASK_EXECUTOR_WORKQUEUE => false | TASK_EXECUTOR_THREAD => busy d end in
    Done (set_tsk_states r (<[i := TaskData UINT8_MAX false skip (reschedule_counter d) (signaled d) busy]>
                              (tsk_states r)))) r.

(** The first task with the ID. *)
Fixpoint find_task (l : list task_config) (j : Z) (task_id : Z) : Z :=
  match l with
  | [] => UINT8_MAX
  | c :: l => if cfg_task_id c =? task_id then j else find_task l (j + 1) task_id
  end.

Definition init_schedule (sched : task_schedule) (tasks : list task_config) (num_schedules : nat)
  (event_cb_reset : bool) (st : task_schedule_state) : task_schedule_state :=
  let cb := if event_cb_reset then false else event_cb st in
  if negb (task_schedule_validate sched) then
    ScheduleState None cb (last_run st) (runtime st) (last_terminate st) UINT8_MAX
  else
    let idx := find_task tasks 0 (sch_task_id sched) in
    if idx =? UINT8_MAX then ScheduleState None cb (last_run st) (runtime st) (last_terminate st) UINT8_MAX
    else
      let link :=
        if periodicity_type sched =? TASK_PERIODICITY_AFTER then
          if Z.of_nat num_schedules <=? after_schedule_idx (periodicity sched) then None
          else Some (Z.to_nat (after_schedule_idx (periodicity sched)))
        else None in
      ScheduleState link cb 0 0 0 idx.

Definition init_schedules r (num_schedules : nat) (event_cb_reset : bool) : exec (runner F) :=
  for_loop (sch_num r) 0 (fun i r =>
    let! st := array_get (sch_states r) i in
    let! s := array_get (sch r) i in
    Done (set_sch_states r (<[i := init_schedule s (tsk r) num_schedules event_cb_reset st]> (sch_states r)))) r.

(** The tables are those of [r]; the runner's own memory starts at zero. *)
Definition task_runner_init r (schedules : list task_schedule) (states : list task_schedule_state)
  (tasks : list task_config) (task_states : list task_data) : exec (runner F) :=
  let r := Runner (sch r) states (sch_num r) tasks task_states schedules (flag_trigger_reload r)
             (flag_terminating r) (flag_reloading r) (schedule_cb r) (kv r) (sch_events r) in
  let! (n, r) := task_runner_schedules_load r SCHEDULES_ID schedules in
  let r := set_sch_num r n in
  let r := match schedule_cb r with
           | Some _ => r
           | None => set_schedule_cb (set_kv r (kv_store_register_callback (kv r) true))
                       (Some (length (kv_cb_list (kv r))))
           end in
  let! r := init_tasks r in
  init_schedules r (length schedules) true.

(** ** Starting and terminating tasks *)

Definition task_start r (i : nat) (uptime : Z) : exec (runner F) :=
  let! state := array_get (sch_states r) i in
  let j := Z.to_nat (task_idx state) in
  let! c := array_get (tsk r) j in
  let! d := array_get (tsk_states r) j in
  match exec_type c, busy d with
  | TASK_EXECUTOR_THREAD, true => Fault (* the thread object is in use *)
  | _, _ =>
      let state := ScheduleState (linked state) (event_cb state) uptime 0 (last_terminate state) (task_idx state) in
      let counter := match exec_type c with
                     | TASK_EXECUTOR_THREAD => reschedule_counter d
                     | TASK_EXECUTOR_WORKQUEUE => 0
                     end in
      let d := TaskData (Z.of_nat i) true (skip d) counter false true in
      let r := set_tsk_states (set_sch_states r (<[i := state]> (sch_states r))) (<[j := d]> (tsk_states r)) in
      Done (notify_schedule r state i TASK_SCHEDULE_STARTED)
  end.

Definition task_terminate r (i : nat) : exec (runner F) :=
  let! state := array_get (sch_states r) i in
  let j := Z.to_nat (task_idx state) in
  let! c := array_get (tsk r) j in
  let! d := array_get (tsk_states r) j in
  let busy := match exec_type c with TASK_EXECUTOR_WORKQUEUE => true | TASK_EXECUTOR_THREAD => busy d end in
  let d := set_busy (set_signaled d true) busy in
  Done (notify_schedule (set_tsk_states r (<[j := d]> (tsk_states r))) state i TASK_SCHEDULE_TERMINATE_REQUEST).

Definition task_has_terminated r (j : nat) : exec (bool * runner F) :=
  let! c := array_get (tsk r) j in
  let! d := array_get (tsk_states r) j in
  if busy d then Done (false, r)
  else
    let! state := array_get (sch_states r) (Z.to_nat (schedule_idx d)) in
    Done (true, notify_schedule r state (Z.to_nat (schedule_idx d)) TASK_SCHEDULE_STOPPED).

(** Called by the task itself. *)
Definition task_workqueue_reschedule (d : task_data) : task_data :=
  TaskData (schedule_idx d) (running d) (skip d) (reschedule_counter d + 1) (signaled d) true.

(** ** Iteration *)

(** Running tasks that have terminated. *)
Definition iterate_terminated r (uptime : Z) : exec (runner F) :=
  for_loop (length (tsk r)) 0 (fun j r =>
    let! d := array_get (tsk_states r) j in
    if running d then
      let! (terminated, r) := task_has_terminated r j in
      if terminated then
        let! d := array_get (tsk_states r) j in
        let! state := array_get (sch_states r) (Z.to_nat (schedule_idx d)) in
        let r := set_sch_states r (<[Z.to_nat (schedule_idx d) := set_last_terminate state uptime]> (sch_states r)) in
        Done (set_tsk_states r (<[j := set_running d false]> (tsk_states r)))
      else Done r
    else Done r) r.

(** Terminate every running schedule. *)
Definition reload_terminate_schedule (i : nat) r : exec (runner F) :=
  let! state := array_get (sch_states r) i in
  let! d := array_get (tsk_states r) (Z.to_nat (task_idx state)) in
  if (Z.of_nat i =? schedule_idx d) && running d then task_terminate r i else Done r.

Definition reload_terminate r : exec (runner F) := for_loop (sch_num r) 0 reload_terminate_schedule r.

Definition iterate_handle_task_reload r : exec (bool * runner F) :=
  let! r :=
    if flag_trigger_reload r then
      let! r := reload_terminate (set_runner_flags r false (flag_terminating r) (flag_reloading r)) in
      Done (set_runner_flags r (flag_trigger_reload r) true (flag_reloading r))
    else Done r in
  if flag_terminating r then
    if existsb running (tsk_states r) then Done (true, r)
    else
      let r := set_runner_flags r (flag_trigger_reload r) false (flag_reloading r) in
      let! (n, r) := task_runner_schedules_load r SCHEDULES_ID (default_sch r) in
      let! r := init_schedules (set_sch_num r n) (length (default_sch r)) false in
      Done (false, r)
  else Done (false, r).

(** [state->linked->last_terminate] *)
Definition linked_terminate r (state : task_schedule_state) : exec (option Z) :=
  match linked state with
  | None => Done None
  | Some k => let! l := array_get (sch_states r) k in Done (Some (last_terminate l))
  end.

(** One schedule of the loop. *)
Definition iterate_schedule (app_states uptime gps_time battery_charge : Z) (i : nat) r : exec (runner F) :=
  let! s := array_get (sch r) i in
  let! state := array_get (sch_states r) i in
  if task_idx state =? UINT8_MAX then Done r
  else
    let! d := array_get (tsk_states r) (Z.to_nat (task_idx state)) in
    if skip d then Done r
    else if running d && negb (schedule_idx d =? Z.of_nat i) then Done r
    else if Z.land (validity s) _TASK_VALID_MASK =? TASK_VALID_PERMANENTLY_RUNS then
      let! r := if negb (running d) then task_start r i uptime else Done r in
      let! state := array_get (sch_states r) i in
      Done (set_sch_states r (<[i := set_runtime state (u32 (runtime state + 1))]> (sch_states r)))
    else if running d then
      let state := set_runtime state (u32 (runtime state + 1)) in
      let r := set_sch_states r (<[i := state]> (sch_states r)) in
      if task_schedule_should_terminate s state app_states battery_charge then task_terminate r i else Done r
    else
      let! lt := linked_terminate r state in
      let! start := task_schedule_should_start s state lt app_states uptime gps_time battery_charge in
      if start then task_start r i uptime else Done r.

Definition task_runner_iterate r (app_states uptime gps_time battery_charge : Z) : exec (runner F) :=
  let! r := iterate_terminated r uptime in
  let! (wait, r) := iterate_handle_task_reload r in
  if wait then Done r
  else for_loop (sch_num r) 0 (iterate_schedule app_states uptime gps_time battery_charge) r.
End runner.
