(* ===== verification/TaskRunnerSpec.v ===== *)
(** * What the task runner promises

    [runner_inv]: every running task was started by exactly the schedule it names,
    that schedule refers to it, and no executor is active unless its task counts as
    running.  The invariant holds after initialisation and is kept by iterations, by
    tasks that end, and by changes in the key-value store, including reloads. *)

From stdpp Require Import base tactics numbers list gmap.
From Stdlib Require Import ZArith Lia.
From S2P Require Import Prelude MathCommon States Schedule KvStore TaskRunner.

Local Open Scope Z_scope.
Local Open Scope infuse_scope.

Lemma array_get_ok {A} (l : list A) i x : l !! i = Some x -> array_get l i = Done x.
Proof. intros Hi. unfold array_get. by rewrite Hi. Qed.

Lemma array_get_lt {A} (l : list A) i : (i < length l)%nat -> exists x, array_get l i = Done x /\ l !! i = Some x.
Proof. intros Hi. destruct (lookup_lt_is_Some_2 l i Hi) as [x Hx]. exists x. by rewrite (array_get_ok l i x). Qed.

(** A loop that cannot run to its end. *)
Lemma for_loop_fault {T} (P : nat -> T -> Prop) n i body (s : T) :
  P i s ->
  (forall k s, (i <= k < i + n)%nat -> P k s -> body k s = Fault \/ exists s', body k s = Done s' /\ P (k + 1)%nat s') ->
  (forall s, ~ P (i + n)%nat s) -> for_loop n i body s = Fault.
Proof.
  revert i s. induction n as [|n IH]; intros i s Hs Hb Hend.
  { destruct (Hend s). by rewrite Nat.add_0_r. }
  cbn [for_loop]. destruct (Hb i s ltac:(lia) Hs) as [->|(s' & -> & Hs')]; [done|]. cbn [exec_bind]. apply IH; [done|..].
  - intros k s0 Hk. apply Hb. lia.
  - intros s0. replace (i + 1 + n)%nat with (i + S n)%nat by lia. apply Hend.
Qed.

(** A running task and the schedule that started it. *)
Definition owned_by (num : nat) (sts : list task_schedule_state) (j : nat) (d : task_data) : Prop :=
  exists st, 0 <= schedule_idx d < Z.of_nat num /\ sts !! Z.to_nat (schedule_idx d) = Some st /\
    task_idx st = Z.of_nat j.

Section invariant.
Context {F : Type} `{NvsSpec F} (crc32_ieee : list Z -> Z) (kv_slots : list key_value_slot_definition).
Context (RANGE : nat) (SCHEDULES_ID : Z).
Hypothesis Hslots : slots_ok kv_slots.
Implicit Types r : runner F.

Abbreviation iterate := (task_runner_iterate crc32_ieee kv_slots RANGE SCHEDULES_ID).
Abbreviation load := (task_runner_schedules_load crc32_ieee kv_slots RANGE).

(** Values in the store are bytes, and its reflection is coherent. *)
Record kv_inv (k : kv_state F) : Prop := {
  kv_inv_reflect : reflect_inv crc32_ieee kv_slots k;
  kv_inv_bytes key v : nvs_map (kv_fs k) !! key = Some v -> bytes_ok v;
}.

(** The fixed sizes, the default schedules and the store. *)
Record runner_base r : Prop := {
  rb_tasks : length (tsk_states r) = length (tsk r);
  rb_tasks_num : (length (tsk r) <= 255)%nat;
  rb_sch : length (sch r) = RANGE;
  rb_sch_wf : Forall schedule_wf (sch r);
  rb_states : length (sch_states r) = RANGE;
  rb_range : (RANGE <= 255)%nat;
  rb_default_num : (length (default_sch r) <= RANGE)%nat;
  rb_default : Forall (fun s => schedule_typed s /\ schedule_wf s /\ bytes_ok (task_schedule_bytes s)) (default_sch r);
  rb_kv : kv_inv (kv r);
  rb_last_run : Forall (fun st => in_u 32 (last_run st)) (sch_states r);
  rb_reloading : flag_reloading r = false;
}.

(** The schedules in use. *)
Record schedules_inv r : Prop := {
  si_num : (sch_num r <= RANGE)%nat;
  si_valid i st s : (i < sch_num r)%nat -> sch_states r !! i = Some st -> sch r !! i = Some s ->
    task_idx st <> UINT8_MAX ->
    0 <= task_idx st < Z.of_nat (length (tsk r)) /\ task_schedule_validate s = true;
  si_linked i st k : (i < sch_num r)%nat -> sch_states r !! i = Some st -> linked st = Some k -> (k < RANGE)%nat;
}.

Record runner_inv r : Prop := {
  ri_base : runner_base r;
  ri_schedules : schedules_inv r;
  ri_running j d : tsk_states r !! j = Some d -> running d = true -> owned_by (sch_num r) (sch_states r) j d;
  ri_busy j d : tsk_states r !! j = Some d -> busy d = true -> running d = true;
}.

(** ** Updates that keep the invariant *)

(** Same tables up to fields that play no role in the invariant. *)
Record same_tables r r' : Prop := {
  st_sch : sch r' = sch r;
  st_num : sch_num r' = sch_num r;
  st_tsk : tsk r' = tsk r;
  st_default : default_sch r' = default_sch r;
  st_kv : kv r' = kv r;
  st_reloading : flag_reloading r' = flag_reloading r;
}.

Lemma runner_inv_same r r' :
  runner_inv r -> same_tables r r' -> sch_states r' = sch_states r -> tsk_states r' = tsk_states r -> runner_inv r'.
Proof.
  intros [Hb Hs Hr Hbu] [E1 E2 E3 E4 E5 E6] Es Et. split.
  - destruct Hb. split; rewrite ?E1, ?E3, ?E4, ?E5, ?E6, ?Es, ?Et; done.
  - destruct Hs. split; rewrite ?E1, ?E2, ?E3, ?Es; done.
  - intros j d. rewrite Et, E2, Es. apply Hr.
  - intros j d. rewrite Et. apply Hbu.
Qed.

(** A schedule state is rewritten; the task it refers to stays. *)
Lemma owned_by_update num sts i st st' j d :
  sts !! i = Some st -> task_idx st' = task_idx st -> owned_by num sts j d -> owned_by num (<[i := st']> sts) j d.
Proof.
  intros Hi Hidx (s & Hr & Hs & Hj). unfold owned_by. destruct (decide (Z.to_nat (schedule_idx d) = i)) as [<-|Hne].
  - exists st'. split; [done|]. rewrite list_lookup_insert_eq by (by eapply lookup_lt_Some). split; [done|]. congruence.
  - exists s. by rewrite list_lookup_insert_ne.
Qed.

Lemma runner_inv_state r i st st' :
  runner_inv r -> sch_states r !! i = Some st -> task_idx st' = task_idx st -> linked st' = linked st ->
  in_u 32 (last_run st') -> runner_inv (set_sch_states r (<[i := st']> (sch_states r))).
Proof.
  intros [Hb Hs Hr Hbu] Hi Hidx Hlnk Hlast. split; cbn [set_sch_states sch_states sch_num tsk_states].
  - destruct Hb. split; cbn; try done; [by rewrite length_insert|by apply Forall_insert].
  - destruct Hs as [Hn Hv Hl]. split; cbn; [done|..].
    + intros k s1 s Hk Hk1. destruct (decide (k = i)) as [->|Hne].
      * rewrite list_lookup_insert_eq in Hk1 by (by eapply lookup_lt_Some). injection Hk1 as <-. rewrite Hidx. by apply Hv.
      * rewrite list_lookup_insert_ne in Hk1 by done. by apply Hv.
    + intros k s1 m Hk Hk1. destruct (decide (k = i)) as [->|Hne].
      * rewrite list_lookup_insert_eq in Hk1 by (by eapply lookup_lt_Some). injection Hk1 as <-. rewrite Hlnk. by apply Hl with i.
      * rewrite list_lookup_insert_ne in Hk1 by done. by apply Hl with k.
  - intros j d Hj Hrun. eapply owned_by_update; [done|done|]. by apply Hr.
  - done.
Qed.

Lemma runner_inv_task r j d :
  runner_inv r -> (running d = true -> owned_by (sch_num r) (sch_states r) j d) -> (busy d = true -> running d = true) ->
  runner_inv (set_tsk_states r (<[j := d]> (tsk_states r))).
Proof.
  intros [Hb Hs Hr Hbu] Hown Hbusy. split; cbn [set_tsk_states sch_states sch_num tsk_states].
  - destruct Hb. split; cbn; try done. by rewrite length_insert.
  - destruct Hs. by split.
  - intros k e Hk. destruct (decide (k = j)) as [->|Hne].
    + destruct (decide (j < length (tsk_states r))%nat).
      * rewrite list_lookup_insert_eq in Hk by done. injection Hk as <-. done.
      * rewrite list_insert_ge in Hk by lia. by apply Hr.
    + rewrite list_lookup_insert_ne in Hk by done. by apply Hr.
  - intros k e Hk. destruct (decide (k = j)) as [->|Hne].
    + destruct (decide (j < length (tsk_states r))%nat).
      * rewrite list_lookup_insert_eq in Hk by done. injection Hk as <-. done.
      * rewrite list_insert_ge in Hk by lia. by apply (Hbu j).
    + rewrite list_lookup_insert_ne in Hk by done. by apply (Hbu k).
Qed.

Lemma runner_inv_notify r st i ev : runner_inv r -> runner_inv (notify_schedule r st i ev).
Proof. intros Hr. by eapply runner_inv_same. Qed.

Lemma runner_inv_flags r a b : runner_inv r -> runner_inv (set_runner_flags r a b (flag_reloading r)).
Proof. intros Hr. by eapply runner_inv_same. Qed.

(** What an iteration leaves alone: the schedules, their tasks, the flags, the store. *)
Record same_run r r' : Prop := {
  sr_tables : same_tables r r';
  sr_trigger : flag_trigger_reload r' = flag_trigger_reload r;
  sr_terminating : flag_terminating r' = flag_terminating r;
  sr_cb : schedule_cb r' = schedule_cb r;
  sr_idx : map task_idx (sch_states r') = map task_idx (sch_states r);
}.

Lemma same_run_refl r : same_run r r.
Proof. by repeat split. Qed.

Lemma same_run_trans r1 r2 r3 : same_run r1 r2 -> same_run r2 r3 -> same_run r1 r3.
Proof.
  intros [[] ? ? ? ?] [[] ? ? ? ?]. repeat split; congruence.
Qed.

Lemma map_idx_insert i st st' sts :
  sts !! i = Some st -> task_idx st' = task_idx st -> map task_idx (<[i := st']> sts) = map task_idx sts.
Proof.
  intros Hi Hidx. change (task_idx <$> <[i := st']> sts = task_idx <$> sts). rewrite list_fmap_insert.
  apply list_insert_id. rewrite list_lookup_fmap, Hi. cbn. by rewrite Hidx.
Qed.

(** ** Starting and terminating *)

Lemma task_start_ok r i st d uptime :
  runner_inv r -> (i < sch_num r)%nat -> sch_states r !! i = Some st ->
  tsk_states r !! Z.to_nat (task_idx st) = Some d -> 0 <= task_idx st -> running d = false -> in_u 32 uptime ->
  exists r' st' d', task_start r i uptime = Done r' /\ runner_inv r' /\ same_run r r' /\
    sch_states r' = <[i := st']> (sch_states r) /\ tsk_states r' = <[Z.to_nat (task_idx st) := d']> (tsk_states r) /\
    st' = ScheduleState (linked st) (event_cb st) uptime 0 (last_terminate st) (task_idx st) /\
    d' = TaskData (Z.of_nat i) true (skip d) (reschedule_counter d') false true.
Proof.
  intros Hr Hi Hst Hd Hidx Hrun Hu. unfold task_start. rewrite (array_get_ok _ _ _ Hst). cbn [exec_bind].
  pose proof (rb_tasks r (ri_base r Hr)) as Hlen. pose proof (lookup_lt_Some _ _ _ Hd) as Hlt.
  destruct (array_get_lt (tsk r) (Z.to_nat (task_idx st)) ltac:(lia)) as (c & -> & Hc). cbn [exec_bind].
  rewrite (array_get_ok _ _ _ Hd). cbn [exec_bind].
  assert (Hnb : busy d = false) by (destruct (busy d) eqn:E; [|done]; rewrite (ri_busy r Hr _ d Hd E) in Hrun; done).
  rewrite Hnb. set (st' := ScheduleState _ _ _ _ _ _). set (d' := TaskData _ _ _ _ _ _).
  exists (notify_schedule (set_tsk_states (set_sch_states r (<[i := st']> (sch_states r)))
    (<[Z.to_nat (task_idx st) := d']> (tsk_states r))) st' i TASK_SCHEDULE_STARTED), st', d'.
  split; [by destruct (exec_type c)|].
  split; [|split; [split; [by split|done|done|done|by eapply map_idx_insert]|done]].
  apply runner_inv_notify.
  change (set_tsk_states ?r0 (<[?j := ?e]> (tsk_states r))) with (set_tsk_states r0 (<[j := e]> (tsk_states r0))).
  apply runner_inv_task; [by eapply runner_inv_state|..|done].
  intros _. exists st'. cbn. split; [lia|]. rewrite Nat2Z.id.
  rewrite list_lookup_insert_eq by (by eapply lookup_lt_Some). split; [done|]. rewrite Z2Nat.id by lia. done.
Qed.

Lemma task_terminate_ok r i st d :
  runner_inv r -> sch_states r !! i = Some st -> tsk_states r !! Z.to_nat (task_idx st) = Some d -> running d = true ->
  exists r' d', task_terminate r i = Done r' /\ runner_inv r' /\ same_run r r' /\ sch_states r' = sch_states r /\
    tsk_states r' = <[Z.to_nat (task_idx st) := d']> (tsk_states r) /\ signaled d' = true /\
    running d' = true /\ schedule_idx d' = schedule_idx d /\ skip d' = skip d /\ (busy d = true -> busy d' = true).
Proof.
  intros Hr Hst Hd Hrun. unfold task_terminate. rewrite (array_get_ok _ _ _ Hst). cbn [exec_bind].
  pose proof (rb_tasks r (ri_base r Hr)) as Hlen. pose proof (lookup_lt_Some _ _ _ Hd) as Hlt.
  destruct (array_get_lt (tsk r) (Z.to_nat (task_idx st)) ltac:(lia)) as (c & -> & Hc). cbn [exec_bind].
  rewrite (array_get_ok _ _ _ Hd). cbn [exec_bind]. set (d' := set_busy _ _).
  do 2 eexists. split; [done|]. split; [|split; [by repeat split|]; repeat (split; [done|]); cbn; by destruct (exec_type c)].
  apply runner_inv_notify, runner_inv_task; [done|..|done].
  intros _. destruct (ri_running r Hr _ d Hd Hrun) as (s & Hs). by exists s.
Qed.

Lemma task_has_terminated_ok r j d :
  runner_inv r -> tsk_states r !! j = Some d -> running d = true ->
  exists r', task_has_terminated r j = Done (negb (busy d), r') /\ runner_inv r' /\ same_run r r' /\
    sch_states r' = sch_states r /\ tsk_states r' = tsk_states r.
Proof.
  intros Hr Hd Hrun. unfold task_has_terminated. pose proof (rb_tasks r (ri_base r Hr)) as Hlen.
  pose proof (lookup_lt_Some _ _ _ Hd) as Hlt.
  destruct (array_get_lt (tsk r) j ltac:(lia)) as (c & -> & Hc). cbn [exec_bind].
  rewrite (array_get_ok _ _ _ Hd). cbn [exec_bind]. destruct (busy d).
  - exists r. split; [done|]. split; [done|]. split; [by repeat split|done].
  - destruct (ri_running r Hr j d Hd Hrun) as (s & _ & Hs & _). rewrite (array_get_ok _ _ _ Hs). cbn [exec_bind].
    eexists. split; [done|]. split; [by apply runner_inv_notify|]. split; [by repeat split|done].
Qed.

(** ** One schedule of the loop *)

Definition permanent (s : task_schedule) : bool :=
  Z.land (validity s) _TASK_VALID_MASK =? TASK_VALID_PERMANENTLY_RUNS.

(** Whether schedule [k] may start its task. *)
Definition schedule_wants app uptime gps soc r (k : nat) : bool :=
  match sch r !! k, sch_states r !! k with
  | Some s, Some st =>
      permanent s ||
      match linked_terminate r st with
      | Done lt => match task_schedule_should_start s st lt app uptime gps soc with Done b => b | _ => false end
      | _ => false
      end
  | _, _ => false
  end.

Definition tick_runtime (st : task_schedule_state) : task_schedule_state := set_runtime st (u32 (runtime st + 1)).

(** Whether the schedule, after one more second, ends its task. *)
Definition schedule_ends app soc (s : task_schedule) (st : task_schedule_state) : bool :=
  negb (permanent s) && task_schedule_should_terminate s (tick_runtime st) app soc.

(** A running task after its schedule is evaluated: asked to end if [b]. *)
Record keeps_running (b : bool) (d d' : task_data) : Prop := {
  kr_running : running d' = true;
  kr_owner : schedule_idx d' = schedule_idx d;
  kr_skip : skip d' = skip d;
  kr_busy : busy d = true -> busy d' = true;
  kr_signal : signaled d' = signaled d || b;
}.

Definition started_state (s : task_schedule) (st : task_schedule_state) (uptime : Z) : task_schedule_state :=
  ScheduleState (linked st) (event_cb st) uptime (if permanent s then 1 else 0) (last_terminate st) (task_idx st).

(** What evaluating schedule [k] does to its state and to its task. *)
Definition schedule_effect app uptime gps soc r (k : nat) (s : task_schedule) (st st' : task_schedule_state)
  (d d' : task_data) : Prop :=
  if skip d || (running d && negb (schedule_idx d =? Z.of_nat k)) then st' = st /\ d' = d
  else if running d then st' = tick_runtime st /\ keeps_running (schedule_ends app soc s st) d d'
  else if schedule_wants app uptime gps soc r k then
    st' = started_state s st uptime /\ exists count, d' = TaskData (Z.of_nat k) true false count false true
  else st' = st /\ d' = d.

Definition schedule_outcome app uptime gps soc r r' (k : nat) : Prop :=
  exists s st, sch r !! k = Some s /\ sch_states r !! k = Some st /\
    if task_idx st =? UINT8_MAX then sch_states r' = sch_states r /\ tsk_states r' = tsk_states r
    else exists d st' d', 0 <= task_idx st /\ tsk_states r !! Z.to_nat (task_idx st) = Some d /\
      sch_states r' = <[k := st']> (sch_states r) /\ tsk_states r' = <[Z.to_nat (task_idx st) := d']> (tsk_states r) /\
      schedule_effect app uptime gps soc r k s st st' d d'.

Lemma linked_terminate_ok r i st :
  runner_inv r -> (i < sch_num r)%nat -> sch_states r !! i = Some st -> exists lt, linked_terminate r st = Done lt.
Proof.
  intros Hr Hi Hst. unfold linked_terminate. destruct (linked st) as [k|] eqn:El; [|by eexists].
  pose proof (si_linked r (ri_schedules r Hr) i st k Hi Hst El). pose proof (rb_states r (ri_base r Hr)).
  destruct (array_get_lt (sch_states r) k ltac:(lia)) as (l & -> & _). by eexists.
Qed.

(** Starting the task of a schedule that wants it. *)
Lemma iterate_schedule_start r k s st d app uptime gps soc :
  runner_inv r -> (k < sch_num r)%nat -> in_u 32 uptime -> sch_states r !! k = Some st -> 0 <= task_idx st ->
  tsk_states r !! Z.to_nat (task_idx st) = Some d -> running d = false -> skip d = false ->
  schedule_wants app uptime gps soc r k = true ->
  exists r' st' d', (let! r1 := task_start r k uptime in
      if permanent s then
        let! state := array_get (sch_states r1) k in
        Done (set_sch_states r1 (<[k := set_runtime state (u32 (runtime state + 1))]> (sch_states r1)))
      else Done r1) = Done r' /\ runner_inv r' /\ same_run r r' /\
    sch_states r' = <[k := st']> (sch_states r) /\ tsk_states r' = <[Z.to_nat (task_idx st) := d']> (tsk_states r) /\
    schedule_effect app uptime gps soc r k s st st' d d'.
Proof.
  intros Hr Hk Hu Hst Hidx Hd Hrun Hskip Hw.
  destruct (task_start_ok r k st d uptime Hr Hk Hst Hd Hidx Hrun Hu) as (r1 & st1 & d1 & -> & Hr1 & Hsr1 & Es1 & Et1 & Hs1 & Hd1).
  cbn [exec_bind]. assert (Hk1 : sch_states r1 !! k = Some st1).
  { rewrite Es1. by rewrite list_lookup_insert_eq by (by eapply lookup_lt_Some). }
  assert (Heff : schedule_effect app uptime gps soc r k s st (started_state s st uptime) d d1).
  { unfold schedule_effect. rewrite Hskip, Hrun, Hw. cbn. split; [done|]. rewrite Hskip in Hd1. by eexists. }
  revert Heff. unfold started_state. destruct (permanent s); intros Heff.
  - rewrite (array_get_ok _ _ _ Hk1). cbn [exec_bind]. set (st2 := set_runtime st1 _).
    exists (set_sch_states r1 (<[k := st2]> (sch_states r1))), st2, d1. split; [done|].
    split. { eapply runner_inv_state; try done. cbn. by rewrite Hs1. }
    split. { eapply same_run_trans; [done|]. split; [by split|done|done|done|]. by eapply map_idx_insert. }
    cbn [set_sch_states sch_states tsk_states]. split; [by rewrite Es1, list_insert_insert_eq|]. split; [done|].
    unfold st2. rewrite Hs1. exact Heff.
  - exists r1, st1, d1. do 5 (split; [done|]). by rewrite Hs1.
Qed.

(** A task that runs from the schedule being evaluated. *)
Lemma iterate_schedule_running r k s st d app uptime gps soc :
  runner_inv r -> (k < sch_num r)%nat -> sch r !! k = Some s -> sch_states r !! k = Some st ->
  0 <= task_idx st -> task_idx st <> UINT8_MAX ->
  tsk_states r !! Z.to_nat (task_idx st) = Some d -> running d = true -> skip d = false -> schedule_idx d = Z.of_nat k ->
  exists r' st' d', iterate_schedule app uptime gps soc k r = Done r' /\ runner_inv r' /\ same_run r r' /\
    sch_states r' = <[k := st']> (sch_states r) /\ tsk_states r' = <[Z.to_nat (task_idx st) := d']> (tsk_states r) /\
    schedule_effect app uptime gps soc r k s st st' d d'.
Proof.
  intros Hr Hk Hs Hst Hidx He Hd Hrun Hskip Hown. unfold iterate_schedule.
  rewrite (array_get_ok _ _ _ Hs), (array_get_ok _ _ _ Hst). cbn [exec_bind]. rewrite (proj2 (Z.eqb_neq _ _) He).
  rewrite (array_get_ok _ _ _ Hd). cbn [exec_bind]. rewrite Hskip, Hrun, Hown, Z.eqb_refl. cbn [negb andb].
  fold (permanent s). set (st' := set_runtime st (u32 (runtime st + 1))).
  pose proof (Forall_lookup_1 _ _ _ _ (rb_last_run r (ri_base r Hr)) Hst) as Hlst.
  assert (Hr1 : runner_inv (set_sch_states r (<[k := st']> (sch_states r)))) by (by eapply runner_inv_state).
  assert (Hsr : same_run r (set_sch_states r (<[k := st']> (sch_states r)))).
  { split; [by split|done|done|done|by eapply map_idx_insert]. }
  assert (Heff : forall b d', schedule_ends app soc s st = b -> keeps_running b d d' ->
    schedule_effect app uptime gps soc r k s st st' d d').
  { intros b d' <- Hkr. unfold schedule_effect. by rewrite Hskip, Hrun, Hown, Z.eqb_refl. }
  assert (Hstay : schedule_ends app soc s st = false ->
    exists r' st'' d', Done (set_sch_states r (<[k := st']> (sch_states r))) = Done r' /\ runner_inv r' /\ same_run r r' /\
    sch_states r' = <[k := st'']> (sch_states r) /\ tsk_states r' = <[Z.to_nat (task_idx st) := d']> (tsk_states r) /\
    schedule_effect app uptime gps soc r k s st st'' d d').
  { intros Hno. do 3 eexists. split; [done|]. split; [done|]. split; [done|]. split; [done|].
    split; [cbn; symmetry; by apply list_insert_id|]. eapply Heff; [done|]. split; try done. by rewrite orb_false_r. }
  unfold schedule_ends in Hstay, Heff. fold st' in Hstay, Heff. change (tick_runtime st) with st' in *.
  destruct (permanent s) eqn:Ep.
  { cbn [exec_bind]. rewrite (array_get_ok _ _ _ Hst). cbn [exec_bind]. by apply Hstay. }
  destruct (task_schedule_should_terminate s st' app soc) eqn:Et; [|by apply Hstay].
  destruct (task_terminate_ok (set_sch_states r (<[k := st']> (sch_states r))) k st' d Hr1) as
    (r' & d' & -> & Hr' & Hsr' & Es & Ets & Hsig & Hrn & Hsi & Hsk & Hbu); [|done|done|].
  { cbn. by rewrite list_lookup_insert_eq by (by eapply lookup_lt_Some). }
  exists r', st', d'. split; [done|]. split; [done|]. split; [by eapply same_run_trans|]. split; [done|]. split; [done|].
  apply (Heff true); [done|]. split; try done. by rewrite Hsig, orb_true_r.
Qed.

Lemma iterate_schedule_ok app uptime gps soc k r :
  runner_inv r -> (k < sch_num r)%nat -> in_u 32 uptime ->
  exists r', iterate_schedule app uptime gps soc k r = Done r' /\ runner_inv r' /\ same_run r r' /\
    schedule_outcome app uptime gps soc r r' k.
Proof.
  intros Hr Hk Hu. destruct (ri_base r Hr) as [Htl _ Hsl Hswf Hstl _ _ _ _ Hlast _].
  pose proof (si_num r (ri_schedules r Hr)) as Hn.
  destruct (array_get_lt (sch r) k ltac:(lia)) as (s & Es & Hs). destruct (array_get_lt (sch_states r) k ltac:(lia)) as (st & Est & Hst).
  destruct (Z.eqb_spec (task_idx st) UINT8_MAX) as [He|He].
  { exists r. unfold iterate_schedule, schedule_outcome. rewrite Es, Est. cbn [exec_bind]. rewrite He, Z.eqb_refl. split; [done|].
    split; [done|]. split; [apply same_run_refl|]. exists s, st. rewrite He. by cbn. }
  destruct (si_valid r (ri_schedules r Hr) k st s Hk Hst Hs He) as (Hidx & Hval).
  destruct (array_get_lt (tsk_states r) (Z.to_nat (task_idx st)) ltac:(lia)) as (d & Ed & Hd).
  assert (Hfin : (exists r' st' d', iterate_schedule app uptime gps soc k r = Done r' /\ runner_inv r' /\ same_run r r' /\
      sch_states r' = <[k := st']> (sch_states r) /\ tsk_states r' = <[Z.to_nat (task_idx st) := d']> (tsk_states r) /\
      schedule_effect app uptime gps soc r k s st st' d d') ->
    exists r', iterate_schedule app uptime gps soc k r = Done r' /\ runner_inv r' /\ same_run r r' /\
      schedule_outcome app uptime gps soc r r' k).
  { intros (r' & st' & d' & ? & ? & ? & ? & ? & ?). exists r'. do 3 (split; [done|]). exists s, st. split; [done|]. split; [done|].
    rewrite (proj2 (Z.eqb_neq _ _) He). exists d, st', d'. repeat (split; [done || lia|]). done. }
  apply Hfin. clear Hfin.
  assert (Hsame : schedule_effect app uptime gps soc r k s st st d d -> exists r' st' d', Done r = Done r' /\ runner_inv r' /\
    same_run r r' /\ sch_states r' = <[k := st']> (sch_states r) /\
    tsk_states r' = <[Z.to_nat (task_idx st) := d']> (tsk_states r) /\ schedule_effect app uptime gps soc r k s st st' d d').
  { intros Hef. exists r, st, d. rewrite !list_insert_id by done. split; [done|]. split; [done|]. split; [apply same_run_refl|]. done. }
  destruct (skip d || (running d && negb (schedule_idx d =? Z.of_nat k))) eqn:Esk.
  { unfold iterate_schedule. rewrite Es, Est. cbn [exec_bind]. rewrite (proj2 (Z.eqb_neq _ _) He), Ed. cbn [exec_bind].
    assert (Hx : schedule_effect app uptime gps soc r k s st st d d) by (unfold schedule_effect; by rewrite Esk).
    destruct (skip d); [by apply Hsame|]. cbn [orb] in Esk. rewrite Esk. by apply Hsame. }
  apply orb_false_iff in Esk as [Hskip Eo]. destruct (running d) eqn:Erun.
  { apply negb_false_iff, Z.eqb_eq in Eo. apply iterate_schedule_running; (done || lia). }
  unfold iterate_schedule. rewrite Es, Est. cbn [exec_bind]. rewrite (proj2 (Z.eqb_neq _ _) He), Ed. cbn [exec_bind].
  rewrite Hskip, Erun. cbn [andb negb]. fold (permanent s).
  pose proof (iterate_schedule_start r k s st d app uptime gps soc Hr Hk Hu Hst ltac:(lia) Hd Erun Hskip) as Hgo.
  destruct (linked_terminate_ok r k st Hr Hk Hst) as (lt & Elt).
  destruct (schedule_total s st lt app uptime gps soc (Forall_lookup_1 _ _ _ _ Hswf Hs) Hval Hu (Forall_lookup_1 _ _ _ _ Hlast Hst)) as (b & Hb).
  assert (Hw : schedule_wants app uptime gps soc r k = permanent s || b) by (unfold schedule_wants; by rewrite Hs, Hst, Elt, Hb).
  rewrite Hw in Hgo. destruct (permanent s); [by apply Hgo|]. cbn [orb] in *. rewrite Elt. cbn [exec_bind]. rewrite Hb. cbn [exec_bind].
  destruct b; [|apply Hsame; unfold schedule_effect; rewrite Hskip, Erun, Hw; by cbn].
  destruct (Hgo eq_refl) as (r' & st' & d' & Hx & Hrest). exists r', st', d'. split; [|done]. rewrite <- Hx. by destruct (task_start r k uptime).
Qed.

(** ** The loop over the schedules *)

Section loop.
Context (app uptime gps soc : Z).

Definition starts_task r (j k : nat) : bool :=
  match sch_states r !! k with
  | Some st => (task_idx st =? Z.of_nat j) && schedule_wants app uptime gps soc r k
  | None => false
  end.

(** The first of the first [n] schedules that starts task [j]. *)
Fixpoint starter r (n j : nat) : option nat :=
  match n with
  | O => None
  | S n => match starter r n j with
           | Some k => Some k
           | None => if starts_task r j n then Some n else None
           end
  end.

Definition ends_task r (k : nat) : bool :=
  match sch r !! k, sch_states r !! k with
  | Some s, Some st => schedule_ends app soc s st
  | _, _ => false
  end.

(** Task [j] after the first [n] schedules. *)
Definition task_after r (n j : nat) (d d' : task_data) : Prop :=
  if skip d then d' = d
  else if running d then
    let k := Z.to_nat (schedule_idx d) in keeps_running ((k <? n)%nat && ends_task r k) d d'
  else match starter r n j with
       | Some k => exists count, d' = TaskData (Z.of_nat k) true false count false true
       | None => d' = d
       end.

(** The state of schedule [k] after it was evaluated. *)
Definition state_after r (k : nat) (s : task_schedule) (st : task_schedule_state) : task_schedule_state :=
  if task_idx st =? UINT8_MAX then st
  else match tsk_states r !! Z.to_nat (task_idx st) with
       | Some d =>
           if skip d then st
           else if running d then if schedule_idx d =? Z.of_nat k then tick_runtime st else st
           else if decide (starter r (S k) (Z.to_nat (task_idx st)) = Some k) then started_state s st uptime else st
       | None => st
       end.

Lemma starter_lt r n j k : starter r n j = Some k -> (k < n)%nat.
Proof.
  induction n as [|n IH]; [done|]. cbn. destruct (starter r n j) as [k'|].
  - intros [= ->]. specialize (IH eq_refl). lia.
  - destruct (starts_task r j n); [|done]. intros [= ->]. lia.
Qed.

Lemma state_after_terminate r k s st : last_terminate (state_after r k s st) = last_terminate st.
Proof. unfold state_after. by repeat case_match. Qed.

(** A schedule of another task has no effect on task [j]. *)
Lemma task_after_frame r i st j d d' :
  runner_inv r -> tsk_states r !! j = Some d -> sch_states r !! i = Some st -> task_idx st <> Z.of_nat j ->
  task_after r i j d d' -> task_after r (i + 1) j d d'.
Proof.
  intros Hr Hj Hst Hne. unfold task_after. destruct (skip d); [done|]. destruct (running d) eqn:Erun.
  - destruct (ri_running r Hr j d Hj Erun) as (st2 & Hrng & Hst2 & Hidx).
    assert (Z.to_nat (schedule_idx d) <> i) by (intros Hx; rewrite Hx in Hst2; congruence).
    by replace (Z.to_nat (schedule_idx d) <? i + 1)%nat with (Z.to_nat (schedule_idx d) <? i)%nat by (apply eq_bool_prop_intro; rewrite !Is_true_true, !Nat.ltb_lt; lia).
  - replace (i + 1)%nat with (S i) by lia. cbn [starter].
    assert (starts_task r j i = false) as ->.
    { unfold starts_task. rewrite Hst. by rewrite (proj2 (Z.eqb_neq _ _) Hne). }
    by destruct (starter r i j).
Qed.

(** The task of the schedule being evaluated. *)
Lemma task_after_step r rc i s st st' j d dc d' :
  runner_inv r -> sch r !! i = Some s -> sch_states r !! i = Some st -> tsk_states r !! j = Some d ->
  task_idx st = Z.of_nat j -> task_idx st <> UINT8_MAX ->
  schedule_wants app uptime gps soc rc i = schedule_wants app uptime gps soc r i ->
  task_after r i j d dc -> schedule_effect app uptime gps soc rc i s st st' dc d' ->
  task_after r (i + 1) j d d' /\ st' = state_after r i s st.
Proof.
  intros Hr Hs Hst Hj Hidx Hne Hw Haft Heff. unfold state_after, task_after in *.
  rewrite (proj2 (Z.eqb_neq _ _) Hne). replace (Z.to_nat (task_idx st)) with j by lia. rewrite Hj.
  unfold schedule_effect in Heff. rewrite Hw in Heff. destruct (skip d) eqn:Esk.
  { subst dc. rewrite Esk in Heff. cbn in Heff. by destruct Heff as [-> ->]. }
  replace (i + 1)%nat with (S i) by lia. destruct (running d) eqn:Erun.
  - destruct (ri_running r Hr j d Hj Erun) as (_ & Hrng & _). destruct Haft as [Krun Kown Kskip Kbusy Ksig].
    rewrite Kskip, Esk, Krun, Kown in Heff. cbn [orb andb] in Heff.
    destruct (Z.eqb_spec (schedule_idx d) (Z.of_nat i)) as [Ho|Ho]; cbn [negb] in Heff.
    + destruct Heff as [-> [Lrun Lown Lskip Lbusy Lsig]]. split; [|done]. rewrite Ho, Nat2Z.id in Ksig |- *.
      rewrite (proj2 (Nat.ltb_ge i i)) in Ksig by lia. rewrite (proj2 (Nat.ltb_lt i (S i))) by lia.
      assert (ends_task r i = schedule_ends app soc s st) as -> by (unfold ends_task; by rewrite Hs, Hst).
      cbn [andb] in *. rewrite orb_false_r in Ksig. split; [done|congruence|congruence|tauto|]. by rewrite Lsig, Ksig.
    + destruct Heff as [-> ->]. split; [|done].
      replace (Z.to_nat (schedule_idx d) <? S i)%nat with (Z.to_nat (schedule_idx d) <? i)%nat by (apply eq_bool_prop_intro; rewrite !Is_true_true, !Nat.ltb_lt; lia).
      done.
  - cbn [starter]. destruct (starter r i j) as [k|] eqn:Ek.
    + pose proof (starter_lt r i j k Ek) as Hk. destruct Haft as [count ->]. cbn in Heff.
      rewrite (proj2 (Z.eqb_neq _ _)) in Heff by lia. cbn in Heff. destruct Heff as [-> ->].
      split; [by exists count|]. rewrite decide_False; [done|]. intros [= ->]. lia.
    + subst dc. rewrite Esk, Erun in Heff. cbn in Heff. unfold starts_task. rewrite Hst, Hidx, Z.eqb_refl. cbn [andb].
      destruct (schedule_wants app uptime gps soc r i).
      * destruct Heff as [-> Hd']. by rewrite decide_True.
      * destruct Heff as [-> ->]. by rewrite decide_False.
Qed.
(** The whole loop, exactly: every task and every schedule state. *)
Definition loop_effect r r' : Prop :=
  (forall k s st, sch r !! k = Some s -> sch_states r !! k = Some st ->
     sch_states r' !! k = Some (if (k <? sch_num r)%nat then state_after r k s st else st)) /\
  (forall j d, tsk_states r !! j = Some d ->
     exists d', tsk_states r' !! j = Some d' /\ task_after r (sch_num r) j d d').

Lemma schedule_wants_same r rc i st :
  sch rc = sch r -> sch_states r !! i = Some st -> sch_states rc !! i = Some st ->
  (forall k st, sch_states r !! k = Some st -> exists st', sch_states rc !! k = Some st' /\
     last_terminate st' = last_terminate st) ->
  length (sch_states rc) = length (sch_states r) ->
  schedule_wants app uptime gps soc rc i = schedule_wants app uptime gps soc r i.
Proof.
  intros Es Hst Hstc Hlt Hlen. unfold schedule_wants. rewrite Es, Hst, Hstc.
  assert (linked_terminate rc st = linked_terminate r st) as ->; [|done].
  unfold linked_terminate. destruct (linked st) as [k|]; [|done].
  destruct (sch_states r !! k) as [l|] eqn:El.
  - destruct (Hlt k l El) as (l' & El' & Heq). by rewrite (array_get_ok _ _ _ El), (array_get_ok _ _ _ El'); cbn; rewrite Heq.
  - unfold array_get. rewrite El. apply lookup_ge_None in El. by rewrite lookup_ge_None_2 by lia.
Qed.

Lemma schedules_loop_ok r :
  runner_inv r -> in_u 32 uptime ->
  exists r', for_loop (sch_num r) 0 (iterate_schedule app uptime gps soc) r = Done r' /\ runner_inv r' /\
    same_run r r' /\ loop_effect r r'.
Proof.
  intros Hr Hu.
  run_loop (fun i rc => runner_inv rc /\ same_run r rc /\
    (forall k s st, sch r !! k = Some s -> sch_states r !! k = Some st ->
      sch_states rc !! k = Some (if (k <? i)%nat then state_after r k s st else st)) /\
    (forall j d, tsk_states r !! j = Some d -> exists d', tsk_states rc !! j = Some d' /\ task_after r i j d d'))
    as r' Hpost.
  - split; [done|]. split; [apply same_run_refl|]. split; [done|]. intros j d Hj. exists d. split; [done|].
    unfold task_after. destruct (skip d); [done|]. destruct (running d) eqn:E; [|done]. by split; try done; rewrite orb_false_r.
  - intros i rc Hi (Hrc & Hsr & Hss & Hts). pose proof (st_num r rc (sr_tables r rc Hsr)) as Hnum.
    pose proof (st_sch r rc (sr_tables r rc Hsr)) as Esch.
    destruct (ri_base r Hr) as [Htl Htn Hsl _ Hstl _ _ _ _ _ _]. pose proof (rb_states rc (ri_base rc Hrc)) as Hstc.
    destruct (iterate_schedule_ok app uptime gps soc i rc Hrc ltac:(lia) Hu) as (r2 & -> & Hr2 & Hsr2 & s & st & Hs & Hst & Hout).
    rewrite Esch in Hs. assert (Hst0 : sch_states r !! i = Some st).
    { destruct (lookup_lt_is_Some_2 (sch_states r) i ltac:(pose proof (lookup_lt_Some _ _ _ Hst); lia)) as [st0 Hst0].
      rewrite (Hss i s st0 Hs Hst0), (proj2 (Nat.ltb_ge i i)) in Hst by lia. congruence. }
    exists r2. split; [done|]. split; [done|]. split; [by eapply same_run_trans|].
    assert (Hmono : forall k, k <> i -> (k <? i + 1)%nat = (k <? i)%nat).
    { intros k Hk. apply eq_bool_prop_intro. rewrite !Is_true_true, !Nat.ltb_lt. lia. }
    assert (Hi1 : (i <? i + 1)%nat = true) by (apply Nat.ltb_lt; lia).
    destruct (Z.eqb_spec (task_idx st) UINT8_MAX) as [He|He].
    + destruct Hout as [Es2 Et2]. rewrite Es2, Et2. split.
      * intros k s1 st1 Hs1 Hst1. destruct (decide (k = i)) as [->|Hne]; [|by rewrite Hmono, (Hss k s1 st1)].
        rewrite Hi1, Hst. unfold state_after. rewrite Hst0 in Hst1. injection Hst1 as <-. by rewrite He.
      * intros j d Hj. destruct (Hts j d Hj) as (d' & Hd' & Haft). exists d'. split; [done|].
        eapply task_after_frame; try done. pose proof (lookup_lt_Some _ _ _ Hj). rewrite He. unfold UINT8_MAX. lia.
    + destruct Hout as (dc & st' & d' & Hidx & Hdc & Es2 & Et2 & Heff). set (j := Z.to_nat (task_idx st)) in *.
      destruct (lookup_lt_is_Some_2 (tsk_states r) j) as [d Hd].
      { pose proof (lookup_lt_Some _ _ _ Hdc). pose proof (rb_tasks rc (ri_base rc Hrc)).
        rewrite (st_tsk r rc (sr_tables r rc Hsr)) in *. lia. }
      destruct (Hts j d Hd) as (dc0 & Hdc0 & Haft). rewrite Hdc in Hdc0. injection Hdc0 as <-.
      destruct (task_after_step r rc i s st st' j d dc d' Hr Hs Hst0 Hd ltac:(lia) He) as [Haft' ->]; [|done|done|].
      { apply schedule_wants_same with st; try done; [|lia]. intros k stk Hk.
        destruct (lookup_lt_is_Some_2 (sch r) k ltac:(pose proof (lookup_lt_Some _ _ _ Hk); lia)) as [sk Hsk].
        rewrite (Hss k sk stk Hsk Hk). eexists. split; [done|]. destruct (k <? i)%nat; [apply state_after_terminate|done]. }
      rewrite Es2, Et2. split.
      * intros k s1 st1 Hs1 Hst1. destruct (decide (k = i)) as [->|Hne].
        { rewrite list_lookup_insert_eq by (by eapply lookup_lt_Some). rewrite Hi1. congruence. }
        by rewrite list_lookup_insert_ne, Hmono, (Hss k s1 st1).
      * intros j1 d1 Hj1. destruct (decide (j1 = j)) as [->|Hne].
        { exists d'. rewrite list_lookup_insert_eq by (by eapply lookup_lt_Some). split; [done|]. congruence. }
        destruct (Hts j1 d1 Hj1) as (d2 & Hd2 & Haft2). exists d2. rewrite list_lookup_insert_ne by done. split; [done|].
        eapply task_after_frame; try done. lia.
  - destruct Hpost as (Hr' & Hsr & Hss & Hts). exists r'. done.
Qed.
End loop.

(** ** Tasks that have ended *)

Definition ended (d : task_data) : task_data := if running d && negb (busy d) then set_running d false else d.

(** Schedule [i] after the tasks [l] were looked at. *)
Definition stopped_state (l : list task_data) (uptime : Z) (i : nat) (st : task_schedule_state) : task_schedule_state :=
  if existsb (fun d => running d && negb (busy d) && (Z.to_nat (schedule_idx d) =? i)%nat) l then set_last_terminate st uptime else st.

Lemma stopped_state_snoc l d uptime i st :
  stopped_state (l ++ [d]) uptime i st =
  if running d && negb (busy d) && (Z.to_nat (schedule_idx d) =? i)%nat then set_last_terminate (stopped_state l uptime i st) uptime
  else stopped_state l uptime i st.
Proof.
  unfold stopped_state. rewrite existsb_app. cbn [existsb]. rewrite orb_false_r.
  by destruct (existsb _ l), (running d && negb (busy d) && _).
Qed.

Lemma iterate_terminated_ok r uptime :
  runner_inv r ->
  exists r', iterate_terminated r uptime = Done r' /\ runner_inv r' /\ same_run r r' /\
    tsk_states r' = map ended (tsk_states r) /\
    (forall i st, sch_states r !! i = Some st -> sch_states r' !! i = Some (stopped_state (tsk_states r) uptime i st)).
Proof.
  intros Hr. unfold iterate_terminated. pose proof (rb_tasks r (ri_base r Hr)) as Hlen.
  run_loop (fun j r1 => runner_inv r1 /\ same_run r r1 /\
      tsk_states r1 = map ended (take j (tsk_states r)) ++ drop j (tsk_states r) /\
      (forall i st, sch_states r !! i = Some st -> sch_states r1 !! i = Some (stopped_state (take j (tsk_states r)) uptime i st)))
    as r' Hpost.
  - split; [done|]. split; [apply same_run_refl|]. split; [done|]. done.
  - intros j r1 Hj (Hr1 & Hsr1 & Ht1 & Hs1). cbv beta.
    destruct (array_get_lt (tsk_states r) j ltac:(lia)) as (d & _ & Hd).
    assert (Hlj : length (map ended (take j (tsk_states r))) = j) by (rewrite length_map, length_take; lia).
    assert (Hd1 : tsk_states r1 !! j = Some d).
    { rewrite Ht1, lookup_app_r by lia. rewrite Hlj, lookup_drop, Nat.sub_diag, Nat.add_0_r. done. }
    assert (Hnext : forall e, ended d = e ->
      <[j := e]> (tsk_states r1) = map ended (take (j + 1) (tsk_states r)) ++ drop (j + 1) (tsk_states r)).
    { intros e <-. rewrite Ht1. rewrite (drop_S (tsk_states r) d j Hd). rewrite insert_app_r_alt by lia.
      rewrite Hlj, Nat.sub_diag. replace (j + 1)%nat with (S j) by lia. rewrite (take_S_r _ _ d Hd), map_app, <- app_assoc. done. }
    assert (Hstay : running d && negb (busy d) = false -> forall i st, sch_states r !! i = Some st ->
      sch_states r1 !! i = Some (stopped_state (take (j + 1) (tsk_states r)) uptime i st)).
    { intros Hno i st Hi. replace (j + 1)%nat with (S j) by lia. rewrite (take_S_r _ _ d Hd), stopped_state_snoc, Hno. by apply Hs1. }
    rewrite (array_get_ok _ _ _ Hd1). cbn [exec_bind]. destruct (running d) eqn:Erun.
    2:{ exists r1. split; [done|]. split; [done|]. split; [done|]. split; [|by apply Hstay].
        rewrite <- (Hnext d) by (unfold ended; by rewrite Erun). symmetry. by apply list_insert_id. }
    destruct (task_has_terminated_ok r1 j d Hr1 Hd1 Erun) as (r2 & -> & Hr2 & Hsr2 & Es2 & Et2). cbn [exec_bind].
    destruct (busy d) eqn:Eb; cbn [negb].
    { exists r2. split; [done|]. split; [done|]. split; [by eapply same_run_trans|]. rewrite Et2, Es2. split; [|by apply Hstay].
      rewrite <- (Hnext d) by (unfold ended; by rewrite Erun, Eb). symmetry. by apply list_insert_id. }
    assert (Hd2 : tsk_states r2 !! j = Some d) by (by rewrite Et2).
    destruct (ri_running r2 Hr2 j d Hd2 Erun) as (st & Hrng & Hst & Hidx).
    rewrite (array_get_ok _ _ _ Hd2). cbn [exec_bind]. rewrite (array_get_ok _ _ _ Hst). cbn [exec_bind].
    eexists. split; [done|].
    change (set_tsk_states ?r0 (<[?a := ?b]> (tsk_states _))) with (set_tsk_states r0 (<[a := b]> (tsk_states r0))).
    split; [|split; [|split]].
    + apply runner_inv_task; [|done|cbn; by rewrite Eb].
      eapply runner_inv_state; [done|done|done|done|]. cbn.
      apply (Forall_lookup_1 _ _ _ _ (rb_last_run r2 (ri_base r2 Hr2)) Hst).
    + eapply same_run_trans; [exact Hsr1|]. eapply same_run_trans; [exact Hsr2|].
      split; [by split|done|done|done|]. cbn. by eapply map_idx_insert.
    + cbn. rewrite Et2. apply Hnext. unfold ended. by rewrite Erun, Eb.
    + cbn. intros i st1 Hi. replace (j + 1)%nat with (S j) by lia. rewrite (take_S_r _ _ d Hd), stopped_state_snoc, Erun, Eb. cbn [negb andb].
      pose proof (Hs1 i st1 Hi) as Hi2. rewrite <- Es2 in Hi2. destruct (Nat.eqb_spec (Z.to_nat (schedule_idx d)) i) as [<-|Hne].
      * rewrite list_lookup_insert_eq by (by eapply lookup_lt_Some). congruence.
      * by rewrite list_lookup_insert_ne.
  - destruct Hpost as (Hr' & Hsr & Ht & Hs). exists r'. split; [done|]. split; [done|]. split; [done|]. cbn [Nat.add] in *. rewrite Ht.
    rewrite take_ge, drop_ge by lia. rewrite app_nil_r. split; [done|]. intros i st Hi. rewrite (Hs i st Hi). by rewrite take_ge by lia.
Qed.

(** ** Terminating everything before a reload *)

(** Tasks with the same owner; signals and executors only become active. *)
Definition same_task (d d' : task_data) : Prop :=
  running d' = running d /\ schedule_idx d' = schedule_idx d /\ skip d' = skip d /\
  (signaled d = true -> signaled d' = true) /\ (busy d = true -> busy d' = true).

#[export] Instance same_task_preorder : PreOrder same_task.
Proof.
  split; [by intros d|]. intros d1 d2 d3 (? & ? & ? & ? & ?) (? & ? & ? & ? & ?). unfold same_task.
  split_and!; try congruence; eauto.
Qed.

Lemma Forall2_insert_r {A} (R : A -> A -> Prop) `{!Transitive R} l k i x y :
  Forall2 R l k -> k !! i = Some x -> R x y -> Forall2 R l (<[i := y]> k).
Proof.
  intros Hf Hi Hxy. pose proof (Forall2_lookup_r _ _ _ _ _ Hf Hi) as (z & Hz & Hzx).
  rewrite <- (list_insert_id l i z Hz). apply Forall2_insert; [done|]. by transitivity x.
Qed.

(** Every schedule has a task. *)
Definition all_linked_to_tasks r : Prop :=
  forall i st, (i < sch_num r)%nat -> sch_states r !! i = Some st -> task_idx st <> UINT8_MAX.

Lemma reload_terminate_schedule_ok r i st :
  runner_inv r -> (i < sch_num r)%nat -> sch_states r !! i = Some st -> task_idx st <> UINT8_MAX ->
  exists r', reload_terminate_schedule i r = Done r' /\ runner_inv r' /\ same_run r r' /\ sch_states r' = sch_states r /\
    Forall2 same_task (tsk_states r) (tsk_states r') /\
    (forall j d, tsk_states r' !! j = Some d -> running d = true -> schedule_idx d = Z.of_nat i -> signaled d = true).
Proof.
  intros Hr Hi Hst Hne. unfold reload_terminate_schedule. rewrite (array_get_ok _ _ _ Hst). cbn [exec_bind].
  destruct (ri_base r Hr) as [Hl3 _ Hl2 _ Hl1 _ _ _ _ _ _]. pose proof (si_num r (ri_schedules r Hr)) as Hn.
  destruct (array_get_lt (sch r) i ltac:(lia)) as (s & _ & Hs).
  destruct (si_valid r (ri_schedules r Hr) i st s Hi Hst Hs Hne) as (Hidx & _).
  destruct (array_get_lt (tsk_states r) (Z.to_nat (task_idx st)) ltac:(lia)) as (d & -> & Hd). cbn [exec_bind].
  assert (Hown : forall j e, tsk_states r !! j = Some e -> running e = true -> schedule_idx e = Z.of_nat i ->
    j = Z.to_nat (task_idx st)).
  { intros j e Hj Hrun Hse. destruct (ri_running r Hr j e Hj Hrun) as (st2 & _ & Hst2 & Hj2).
    rewrite Hse, Nat2Z.id, Hst in Hst2. injection Hst2 as <-. rewrite Hj2. by rewrite Nat2Z.id. }
  destruct ((Z.of_nat i =? schedule_idx d) && running d) eqn:Ec.
  - apply andb_true_iff in Ec as [Ei Erun]. apply Z.eqb_eq in Ei.
    destruct (task_terminate_ok r i st d Hr Hst Hd Erun)
      as (r2 & d2 & -> & Hr2 & Hsr2 & Es2 & Et2 & Hsig & Hrun2 & Hsi2 & Hsk2 & Hbu2).
    exists r2. do 4 (split; [done|]). rewrite Et2. split.
    + eapply Forall2_insert_r; [apply _|reflexivity|done|]. by split_and!; try congruence.
    + intros j e Hj Hrun Hse. destruct (decide (j = Z.to_nat (task_idx st))) as [->|Hnj].
      { rewrite list_lookup_insert_eq in Hj by (by eapply lookup_lt_Some). by injection Hj as <-. }
      rewrite list_lookup_insert_ne in Hj by done. by destruct Hnj; apply (Hown j e).
  - exists r. split; [done|]. split; [done|]. split; [apply same_run_refl|]. split; [done|]. split; [reflexivity|].
    intros j e Hj Hrun Hse. pose proof (Hown j e Hj Hrun Hse) as ->.
    rewrite Hd in Hj. injection Hj as <-. by rewrite Hse, Z.eqb_refl, Hrun in Ec.
Qed.

Lemma reload_terminate_ok r :
  runner_inv r -> all_linked_to_tasks r ->
  exists r', reload_terminate r = Done r' /\ runner_inv r' /\ same_run r r' /\ sch_states r' = sch_states r /\
    Forall2 same_task (tsk_states r) (tsk_states r') /\
    (forall j d, tsk_states r' !! j = Some d -> running d = true -> signaled d = true).
Proof.
  intros Hr Hall. unfold reload_terminate.
  run_loop (fun i r1 => runner_inv r1 /\ same_run r r1 /\ sch_states r1 = sch_states r /\
    Forall2 same_task (tsk_states r) (tsk_states r1) /\
    (forall j d, tsk_states r1 !! j = Some d -> running d = true -> schedule_idx d < Z.of_nat i -> signaled d = true))
    as r' Hpost.
  - split; [done|]. split; [apply same_run_refl|]. split; [done|]. split; [reflexivity|].
    intros j d Hj Hrun Hlt. destruct (ri_running r Hr j d Hj Hrun) as (st & Hrng & _). lia.
  - intros i r1 Hi (Hr1 & Hsr1 & Es1 & Hf1 & Hsig1). pose proof (st_num r r1 (sr_tables r r1 Hsr1)) as Hnum.
    pose proof (rb_states r1 (ri_base r1 Hr1)) as Hl1. pose proof (si_num r1 (ri_schedules r1 Hr1)) as Hn1.
    destruct (array_get_lt (sch_states r1) i ltac:(lia)) as (st & _ & Hst).
    destruct (reload_terminate_schedule_ok r1 i st Hr1 ltac:(lia) Hst) as (r2 & -> & Hr2 & Hsr2 & Es2 & Hf2 & Hsig2).
    { apply (Hall i); [lia|by rewrite <- Es1]. }
    exists r2. split; [done|]. split; [done|]. split; [by eapply same_run_trans|]. split; [congruence|].
    split; [by transitivity (tsk_states r1)|]. intros j e Hj Hrun Hlt.
    destruct (decide (schedule_idx e = Z.of_nat i)) as [Hse|Hse]; [by apply (Hsig2 j e)|].
    destruct (Forall2_lookup_r _ _ _ _ _ Hf2 Hj) as (d & Hd & (Hrd & Hsd & _ & Hsg & _)).
    apply Hsg. apply (Hsig1 j d Hd); [congruence|]. rewrite <- Hsd. lia.
  - destruct Hpost as (Hr' & Hsr & Es & Hf & Hsig). exists r'. do 5 (split; [done|]). intros j d Hj Hrun.
    apply (Hsig j d Hj Hrun). destruct (ri_running r' Hr' j d Hj Hrun) as (st & Hrng & _).
    rewrite (st_num r r' (sr_tables r r' Hsr)) in Hrng. cbn. lia.
Qed.

(** A schedule without a task makes the loop read past the task states. *)
Lemma reload_terminate_fault r :
  runner_inv r -> ~ all_linked_to_tasks r -> reload_terminate r = Fault.
Proof.
  intros Hr Hno. unfold reload_terminate.
  apply (for_loop_fault (fun i r1 => runner_inv r1 /\ same_run r r1 /\ sch_states r1 = sch_states r /\
    (forall k st, (k < i)%nat -> sch_states r !! k = Some st -> task_idx st <> UINT8_MAX))).
  - split; [done|]. split; [apply same_run_refl|]. split; [done|]. intros k st Hk. lia.
  - intros i r1 Hi (Hr1 & Hsr1 & Es1 & Hbelow). pose proof (st_num r r1 (sr_tables r r1 Hsr1)) as Hnum.
    pose proof (rb_states r1 (ri_base r1 Hr1)) as Hl1. pose proof (si_num r1 (ri_schedules r1 Hr1)) as Hn1.
    destruct (array_get_lt (sch_states r1) i ltac:(lia)) as (st & Hg & Hst).
    destruct (decide (task_idx st = UINT8_MAX)) as [He|He].
    + left. unfold reload_terminate_schedule. rewrite Hg. cbn [exec_bind]. unfold array_get at 1.
      rewrite lookup_ge_None_2; [done|]. rewrite He. destruct (ri_base r1 Hr1) as [Ht Htn _ _ _ _ _ _ _ _ _].
      rewrite Ht. unfold UINT8_MAX. lia.
    + right. destruct (reload_terminate_schedule_ok r1 i st Hr1 ltac:(lia) Hst He) as (r2 & -> & Hr2 & Hsr2 & Es2 & _).
      exists r2. split; [done|]. split; [done|]. split; [by eapply same_run_trans|]. split; [congruence|].
      intros k st' Hk Hst'. destruct (decide (k = i)) as [->|]; [|apply (Hbelow k); [lia|done]].
      rewrite <- Es1, Hst in Hst'. by injection Hst' as <-.
  - intros r1 (_ & _ & _ & Hall). destruct Hno. intros i st Hi Hst. by apply (Hall i).
Qed.

(** ** Loading schedules *)

Lemma kv_write_inv k key data :
  kv_inv k -> data <> [] -> bytes_ok data ->
  exists rc k', kv_store_write crc32_ieee kv_slots k key data = Done (rc, k') /\ kv_inv k' /\
    (nvs_map (kv_fs k') = nvs_map (kv_fs k) \/ nvs_map (kv_fs k') = <[key := data]> (nvs_map (kv_fs k))).
Proof.
  intros [Hi Hb] Hd Hok. destruct (kv_store_write_ok crc32_ieee kv_slots Hslots k key data Hi Hd) as (rc & k' & -> & Hi' & _ & Hc).
  exists rc, k'. split; [done|].
  assert (Hm : nvs_map (kv_fs k') = nvs_map (kv_fs k) \/ nvs_map (kv_fs k') = <[key := data]> (nvs_map (kv_fs k))).
  { destruct (kv_store_key_enabled kv_slots key); [destruct Hc as [(_ & ? & _)|[(_ & _ & ? & _)|(_ & _ & ? & _)]]; auto|].
    destruct Hc as (_ & ->). by left. }
  split; [|done]. split; [done|]. intros key' v. destruct Hm as [-> | ->]; [apply Hb|].
  destruct (decide (key' = key)) as [->|]; [rewrite lookup_insert_eq; by intros [= <-]|rewrite lookup_insert_ne by done; apply Hb].
Qed.

Lemma kv_delete_inv k key :
  kv_inv k -> exists rc k', kv_store_delete crc32_ieee kv_slots k key = Done (rc, k') /\ kv_inv k' /\
    (nvs_map (kv_fs k') = nvs_map (kv_fs k) \/ nvs_map (kv_fs k') = delete key (nvs_map (kv_fs k))).
Proof.
  intros [Hi Hb]. destruct (kv_store_delete_ok crc32_ieee kv_slots Hslots k key Hi) as (rc & k' & -> & Hi' & _ & Hc).
  exists rc, k'. split; [done|].
  assert (Hm : nvs_map (kv_fs k') = nvs_map (kv_fs k) \/ nvs_map (kv_fs k') = delete key (nvs_map (kv_fs k))).
  { destruct (kv_store_key_enabled kv_slots key); [destruct Hc as [(_ & _ & ? & _)|[(_ & _ & ->)|(_ & _ & ? & _)]]; auto|].
    destruct Hc as (_ & ->). by left. }
  split; [|done]. split; [done|]. intros key' v. destruct Hm as [-> | ->]; [apply Hb|].
  destruct (decide (key' = key)) as [->|]; [by rewrite lookup_delete_eq|rewrite lookup_delete_ne by done; apply Hb].
Qed.

(** While schedules are loaded, notifications of the store have no effect. *)
Lemma kv_call_reloading r m rc k :
  flag_reloading r = true -> m = Done (rc, k) -> kv_call RANGE r m = Done (rc, set_kv r k).
Proof.
  intros Hrl ->. unfold kv_call. cbn [exec_bind]. f_equal. f_equal. unfold kv_deliver.
  generalize (drop (length (kv_events (kv r))) (kv_events k)). intros evs.
  assert (flag_reloading (set_kv r k) = true) as Hk by done. revert Hk. generalize (set_kv r k). clear - r.
  induction evs as [|[cb key data len] evs IH]; intros r0 Hk; [done|]. cbn [fold_left].
  assert (kv_value_changed RANGE r0 key = r0) as ->.
  { unfold kv_value_changed. destruct (_ || _); [done|]. by rewrite Hk. }
  destruct (decide _); by apply IH.
Qed.

(** Only the schedules and the store have changed. *)
Definition loading r r' : Prop :=
  exists s k, r' = set_kv (set_sch r s) k /\ length s = RANGE /\ Forall schedule_wf s /\ kv_inv k.

Lemma of_bytes_wf l : zlen l = 50 -> bytes_ok l -> schedule_wf (task_schedule_of_bytes l).
Proof.
  intros Hl Hb. assert (Hn : forall i, 0 <= nth i l 0 < 256).
  { intros i. destruct (nth_in_or_default i l 0) as [Hi|Hi]; [|lia]. apply list_elem_of_In in Hi. unfold bytes_ok in Hb.
    rewrite Forall_forall in Hb. by apply (Hb _ Hi). }
  unfold task_schedule_of_bytes. split; cbn; try apply Hn.
  - rewrite zlen_ztake; rewrite ?zlen_zdrop; lia.
  - by apply bytes_ok_ztake, bytes_ok_zdrop.
  - pose proof (le_get_bound (ztake 2 (zdrop 18 l)) (bytes_ok_ztake _ _ (bytes_ok_zdrop _ _ Hb))) as Hg.
    rewrite zlen_ztake in Hg by (rewrite zlen_zdrop; lia). exact Hg.
  - split; apply Hn.
Qed.

Lemma zero_schedule_wf : schedule_wf (task_schedule_of_bytes (repeat 0 50)).
Proof. apply of_bytes_wf; [done|]. repeat constructor; unfold byte_ok; lia. Qed.

Lemma loading_sch r r' i s : loading r r' -> schedule_wf s -> loading r (set_sch r' (<[i := s]> (sch r'))).
Proof.
  intros (l & k & -> & Hl & Hwf & Hk) Hs. exists (<[i := s]> l), k. split; [done|]. rewrite length_insert.
  split; [done|]. split; [by apply Forall_insert|done].
Qed.

Lemma loading_kv r r' k : loading r r' -> kv_inv k -> loading r (set_kv r' k).
Proof. intros (l & k0 & -> & Hl & Hwf & _) Hk. by exists l, k. Qed.

Lemma loading_reloading r r' : loading r r' -> flag_reloading r' = flag_reloading r.
Proof. by intros (l & k & -> & _). Qed.

Lemma loading_kv_inv r r' : loading r r' -> kv_inv (kv r').
Proof. by intros (l & k & -> & _ & _ & Hk). Qed.

(** What slot [i] of the store holds, zeros when it holds no schedule. *)
Definition kv_slot (k : kv_state F) (i : nat) : task_schedule :=
  let '(rc, data) := kv_store_read kv_slots k (KV_KEY_TASK_SCHEDULES + Z.of_nat i) sizeof_task_schedule in
  if rc =? sizeof_task_schedule then task_schedule_of_bytes data else task_schedule_of_bytes (repeat 0 50).

Definition locked (s : task_schedule) : bool := negb (Z.land (validity s) TASK_LOCKED =? 0).

(** The schedule in use in slot [i]: a locked default, or the stored one. *)
Definition slot_schedule (k : kv_state F) (defaults : list task_schedule) (i : nat) : task_schedule :=
  match defaults !! i with
  | Some d => if locked d then d else kv_slot k i
  | None => kv_slot k i
  end.

(** Slot [i] counts among those to evaluate: its default is locked, or the store holds a
    schedule for it. *)
Definition slot_used (k : kv_state F) (defaults : list task_schedule) (i : nat) : bool :=
  match defaults !! i with Some d => locked d | None => false end ||
  ((kv_store_read kv_slots k (KV_KEY_TASK_SCHEDULES + Z.of_nat i) sizeof_task_schedule).1 =? sizeof_task_schedule).

(** Slot [i] has a valid default. *)
Definition default_used (defaults : list task_schedule) (i : nat) : bool :=
  match defaults !! i with Some d => task_schedule_validate d | None => false end.

(** One more than the last of the first [n] slots that is used; 0 when none is. *)
Fixpoint last_used (used : nat -> bool) (n : nat) : nat :=
  match n with
  | O => O
  | S n => if used n then S n else last_used used n
  end.

Lemma last_used_le used n : (last_used used n <= n)%nat.
Proof. induction n as [|n IH]; cbn; [lia|]. destruct (used n); lia. Qed.

Lemma last_used_succ used n : last_used used (n + 1) = if used n then (n + 1)%nat else last_used used n.
Proof. by rewrite Nat.add_1_r. Qed.

Lemma last_used_ext used used' n : (forall i, (i < n)%nat -> used i = used' i) -> last_used used n = last_used used' n.
Proof. intros He. induction n as [|n IH]; cbn; [done|]. rewrite He, IH by (intros; (done || apply He || lia); lia). done. Qed.

Lemma last_used_above used m n : (m <= n)%nat -> (forall i, (m <= i < n)%nat -> used i = false) -> last_used used n = last_used used m.
Proof.
  intros Hle Hno. induction Hle as [|n Hle IH]; [done|]. cbn. rewrite Hno by lia. apply IH. intros i Hi. apply Hno. lia.
Qed.

Lemma kv_slot_wf k i : kv_inv k -> schedule_wf (kv_slot k i).
Proof.
  intros [_ Hb]. unfold kv_slot. rewrite kv_store_read_ok.
  destruct (kv_store_key_enabled kv_slots _); [|apply zero_schedule_wf].
  destruct (nvs_map (kv_fs k) !! _) as [v|] eqn:Ev; [|apply zero_schedule_wf].
  destruct (Z.eqb_spec (zlen v) sizeof_task_schedule) as [Hl|]; [|apply zero_schedule_wf].
  rewrite ztake_ge by (unfold sizeof_task_schedule in *; lia). apply of_bytes_wf; [done|]. by eapply Hb.
Qed.

Lemma zero_schedule_invalid : task_schedule_validate (task_schedule_of_bytes (repeat 0 50)) = false.
Proof. reflexivity. Qed.

Lemma schedules_read_ok r defaults :
  length (sch r) = RANGE ->
  schedules_read kv_slots RANGE r defaults =
    Done (last_used (slot_used (kv r) defaults) RANGE, set_sch r (map (slot_schedule (kv r) defaults) (seq 0 RANGE))).
Proof.
  intros Hlen. unfold schedules_read.
  run_loop (fun i q => q = (last_used (slot_used (kv r) defaults) i,
    set_sch r (map (slot_schedule (kv r) defaults) (seq 0 i) ++ drop i (sch r)))) as q Hpost.
  - by destruct r.
  - intros i q Hi ->. cbv beta iota. set (l := map _ _).
    assert (Hl : length l = i) by (unfold l; rewrite length_map, length_seq; done).
    assert (Hnext : forall s, s = slot_schedule (kv r) defaults i ->
      <[i := s]> (l ++ drop i (sch r)) = map (slot_schedule (kv r) defaults) (seq 0 (i + 1)) ++ drop (i + 1) (sch r)).
    { intros s ->. destruct (lookup_lt_is_Some_2 (sch r) i ltac:(lia)) as [x Hx].
      rewrite (drop_S _ x i Hx), insert_app_r_alt, Hl, Nat.sub_diag by lia.
      replace (i + 1)%nat with (S i) by lia. rewrite seq_S, map_app, <- app_assoc. done. }
    eexists. split; [|done]. rewrite last_used_succ.
    assert (Hkv : match defaults !! i with Some d => locked d | None => false end = false ->
      schedule_read_slot kv_slots (set_sch r (l ++ drop i (sch r))) i (last_used (slot_used (kv r) defaults) i) =
      (if slot_used (kv r) defaults i then (i + 1)%nat else last_used (slot_used (kv r) defaults) i,
       set_sch r (map (slot_schedule (kv r) defaults) (seq 0 (i + 1)) ++ drop (i + 1) (sch r)))).
    { intros Hno. assert (Hslot : slot_schedule (kv r) defaults i = kv_slot (kv r) i).
      { unfold slot_schedule. destruct (defaults !! i); [by rewrite Hno|done]. }
      rewrite <- (Hnext _ (eq_sym Hslot)). unfold schedule_read_slot, slot_used, kv_slot. rewrite Hno. cbn [set_sch kv sch orb].
      destruct (kv_store_read _ _ _ _) as [rc data]. cbn [fst]. by destruct (rc =? sizeof_task_schedule). }
    destruct (defaults !! i) as [d|] eqn:Ed; [|by rewrite Hkv].
    fold (locked d). destruct (locked d) eqn:El; [|by rewrite Hkv].
    unfold slot_used. rewrite Ed, El. cbn [orb]. rewrite <- (Hnext d); [done|]. unfold slot_schedule. by rewrite Ed, El.
  - subst q. cbn [Nat.add]. rewrite drop_ge, app_nil_r by lia. done.
Qed.

Lemma schedules_override_ok r defaults :
  flag_reloading r = true -> loading r r ->
  Forall (fun s => schedule_typed s /\ schedule_wf s /\ bytes_ok (task_schedule_bytes s)) defaults ->
  exists r', schedules_override crc32_ieee kv_slots RANGE r defaults = Done (last_used (default_used defaults) RANGE, r') /\ loading r r' /\
    (forall i, (i < RANGE)%nat -> sch r' !! i =
       match defaults !! i with
       | Some d => if task_schedule_validate d then Some d else sch r !! i
       | None => sch r !! i
       end).
Proof.
  intros Hrl Hl0 Hdef. unfold schedules_override.
  run_loop (fun i '(n, r1) => loading r r1 /\ n = last_used (default_used defaults) (Nat.min i RANGE) /\
    (forall j, (j < RANGE)%nat -> sch r1 !! j =
       match take i defaults !! j with
       | Some d => if task_schedule_validate d then Some d else sch r !! j
       | None => sch r !! j
       end)) as q Hpost.
  - split; [done|]. split; [done|]. intros j Hj. done.
  - intros i [n r1] Hi (Hl & Hn & Hs). cbv beta iota.
    destruct (array_get_lt defaults i ltac:(lia)) as (d & -> & Hd). cbn [exec_bind].
    destruct (Forall_lookup_1 _ _ _ _ Hdef Hd) as (Hty & Hwf & Hb).
    assert (Htake : forall j, j <> i -> take (i + 1) defaults !! j = take i defaults !! j).
    { intros j Hj. destruct (decide (j < i)%nat); [by rewrite !lookup_take_lt by lia|by rewrite !lookup_take_ge by lia]. }
    assert (Hti : take (i + 1) defaults !! i = Some d) by (rewrite lookup_take_lt by lia; done).
    assert (Hmin : (i < RANGE)%nat -> last_used (default_used defaults) (Nat.min (i + 1) RANGE) =
      if task_schedule_validate d then (i + 1)%nat else last_used (default_used defaults) (Nat.min i RANGE)).
    { intros Hlt. rewrite !Nat.min_l, last_used_succ by lia. unfold default_used at 1. by rewrite Hd. }
    destruct (task_schedule_validate d) eqn:Ev; cbn [negb].
    2:{ exists (n, r1). split; [done|]. split; [done|]. split.
        { destruct (decide (i < RANGE)%nat); [by rewrite Hmin|]. by rewrite Hn, !Nat.min_r by lia. } intros j Hj. destruct (decide (j = i)) as [->|Hne].
        - rewrite Hti, Ev, Hs by done. by rewrite lookup_take_ge by lia.
        - by rewrite Htake, Hs. }
    destruct (Nat.leb_spec RANGE i) as [Hge|Hlt].
    { exists (n, r1). split; [done|]. split; [done|]. split; [by rewrite Hn, !Nat.min_r by lia|]. intros j Hj. by rewrite Htake, Hs by lia. }
    pose proof (zlen_task_schedule_bytes d Hty) as Hz.
    destruct (kv_write_inv (kv r1) (KV_KEY_TASK_SCHEDULES + Z.of_nat i) (task_schedule_bytes d) (loading_kv_inv r r1 Hl))
      as (rc & k' & Hw & Hk' & _); [by intros Hnil; rewrite Hnil in Hz|done|].
    rewrite (kv_call_reloading r1 _ rc k') by (rewrite ?(loading_reloading r r1 Hl); done). cbn [exec_bind].
    eexists. split; [done|]. split; [apply loading_sch; [by apply loading_kv|done]|]. split; [by rewrite Hmin by lia|].
    intros j Hj. cbn [set_sch set_kv sch]. destruct (decide (j = i)) as [->|Hne].
    + rewrite Hti, Ev. destruct Hl as (l & k & -> & Hlen & _). cbn. by rewrite list_lookup_insert_eq by lia.
    + rewrite list_lookup_insert_ne by done. by rewrite Htake, Hs.
  - destruct q as [n r']. destruct Hpost as (Hl & Hn & Hs). exists r'. cbn [Nat.add] in Hn. split.
    { rewrite Hn. do 2 f_equal. destruct (decide (RANGE <= length defaults)%nat); [by rewrite Nat.min_r by lia|].
      rewrite Nat.min_l by lia. symmetry. apply last_used_above; [lia|]. intros i Hi. unfold default_used.
      by rewrite lookup_ge_None_2 by lia. }
    split; [done|]. intros i Hi. rewrite Hs by done. cbn [Nat.add]. by rewrite take_ge by lia.
Qed.

Lemma schedules_clear_ok r n :
  flag_reloading r = true -> loading r r ->
  exists k, schedules_clear crc32_ieee kv_slots RANGE r n = Done (set_kv r k) /\ kv_inv k.
Proof.
  intros Hrl Hl0. unfold schedules_clear.
  run_loop (fun (i : nat) r1 => exists k, r1 = set_kv r k /\ kv_inv k) as r' Hpost.
  - exists (kv r). split; [by destruct r|by eapply loading_kv_inv].
  - intros i r1 Hi (k & -> & Hk). cbn [set_kv kv].
    destruct (kv_delete_inv k (KV_KEY_TASK_SCHEDULES + Z.of_nat i) Hk) as (rc & k' & Hd & Hk' & _).
    rewrite (kv_call_reloading (set_kv r k) _ rc k' Hrl Hd). cbn [exec_bind]. eexists. split; [done|]. by exists k'.
  - destruct Hpost as (k & -> & Hk). by exists k.
Qed.

(** The store holds the defaults' ID. *)
Definition defaults_stored (k : kv_state F) (id : Z) : bool :=
  let '(rc, default_id) := kv_store_read kv_slots k KV_KEY_TASK_SCHEDULES_DEFAULT_ID 4 in
  (rc =? 4) && (le_get default_id =? Z.lor (Z.shiftl sizeof_task_schedule 16) id).

(** The schedules that loading leaves, and the number [n] of them that are evaluated: those
    in the store (or the locked defaults) when it holds the defaults' ID, else the valid
    defaults; up to the last slot that is used. *)
Definition loaded_schedules r (id : Z) (n : nat) (s : list task_schedule) : Prop :=
  if defaults_stored (kv r) id then
    s = map (slot_schedule (kv r) (default_sch r)) (seq 0 RANGE) /\ n = last_used (slot_used (kv r) (default_sch r)) RANGE
  else
    n = last_used (default_used (default_sch r)) RANGE /\
    forall i, (i < RANGE)%nat -> s !! i =
      match default_sch r !! i with
      | Some d => if task_schedule_validate d then Some d else sch r !! i
      | None => sch r !! i
      end.

(** Loading changes nothing but the schedules and the store. *)
Lemma schedules_load_ok r id :
  runner_base r ->
  exists n s k, load r id (default_sch r) = Done (n, set_kv (set_sch r s) k) /\ (n <= RANGE)%nat /\
    length s = RANGE /\ Forall schedule_wf s /\ kv_inv k /\ loaded_schedules r id n s /\
    (defaults_stored (kv r) id = true -> k = kv r).
Proof.
  intros Hb. destruct Hb as [_ _ Hlen Hwf _ _ _ Hdef Hkv _ Hrl]. unfold task_runner_schedules_load, loaded_schedules, defaults_stored.
  set (r1 := set_runner_flags r _ _ true). change (kv r1) with (kv r).
  destruct (kv_store_read kv_slots (kv r) KV_KEY_TASK_SCHEDULES_DEFAULT_ID 4) as [rc default_id].
  assert (Hback : forall s k, set_runner_flags (set_kv (set_sch r1 s) k) (flag_trigger_reload (set_kv (set_sch r1 s) k))
    (flag_terminating (set_kv (set_sch r1 s) k)) false = set_kv (set_sch r s) k).
  { intros s k. rewrite <- Hrl. done. }
  assert (Hl1 : loading r1 r1) by (exists (sch r), (kv r); split; [by unfold r1, set_runner_flags, set_sch, set_kv|done]).
  rewrite <- negb_andb. destruct (_ && _); cbn [negb].
  - rewrite (schedules_read_ok r1 (default_sch r) Hlen). cbn [exec_bind].
    exists (last_used (slot_used (kv r) (default_sch r)) RANGE), (map (slot_schedule (kv r) (default_sch r)) (seq 0 RANGE)), (kv r). split.
    + f_equal. f_equal. apply (Hback (map (slot_schedule (kv r) (default_sch r)) (seq 0 RANGE)) (kv r)).
    + split; [apply last_used_le|]. split; [by rewrite length_map, length_seq|]. split; [|done].
      apply Forall_forall. intros x Hx. apply list_elem_of_fmap in Hx as (i & -> & _). unfold slot_schedule.
      destruct (default_sch r !! i) as [d|] eqn:Ed; [|by apply kv_slot_wf].
      destruct (locked d); [|by apply kv_slot_wf]. by destruct (Forall_lookup_1 _ _ _ _ Hdef Ed) as (_ & ? & _).
  - destruct (schedules_override_ok r1 (default_sch r) eq_refl Hl1 Hdef) as (r2 & -> & Hl2 & Hsl). cbn [exec_bind].
    destruct Hl2 as (s & k & -> & Hls & Hws & Hk).
    destruct (schedules_clear_ok (set_kv (set_sch r1 s) k) (length (default_sch r)) eq_refl) as (k2 & -> & Hk2).
    { exists s, k. done. }
    cbn [exec_bind set_kv kv].
    destruct (kv_write_inv k2 KV_KEY_TASK_SCHEDULES_DEFAULT_ID
      (le_put 4 (Z.lor (Z.shiftl sizeof_task_schedule 16) id)) Hk2 ltac:(done) (le_put_bytes_ok _ _)) as (rc2 & k3 & Hw & Hk3 & _).
    rewrite (kv_call_reloading _ _ rc2 k3); [|done|exact Hw]. cbn [exec_bind].
    exists (last_used (default_used (default_sch r)) RANGE), s, k3.
    split; [|split; [apply last_used_le|done]]. f_equal. f_equal. apply (Hback s k3).
Qed.

(** ** Initialising the schedules *)

Lemma find_task_range l j id : find_task l j id = UINT8_MAX \/ j <= find_task l j id < j + zlen l.
Proof.
  revert j. induction l as [|c l IH]; intros j; [by left|]. cbn [find_task]. rewrite zlen_cons.
  destruct (cfg_task_id c =? id); [right; pose proof (zlen_nonneg l); lia|]. destruct (IH (j + 1)) as [->|]; [by left|right; lia].
Qed.

Lemma init_schedule_ok s tasks n reset st :
  let st' := init_schedule s tasks n reset st in
  (task_idx st' <> UINT8_MAX -> 0 <= task_idx st' < zlen tasks /\ task_schedule_validate s = true) /\
  (forall k, schedule_wf s -> linked st' = Some k -> (k < n)%nat) /\
  (in_u 32 (last_run st) -> in_u 32 (last_run st')).
Proof.
  unfold init_schedule. destruct (task_schedule_validate s); cbn; [|done].
  destruct (Z.eqb_spec (find_task tasks 0 (sch_task_id s)) UINT8_MAX) as [|Hne]; cbn; [done|].
  destruct (find_task_range tasks 0 (sch_task_id s)) as [|Hrng]; [done|]. split; [intros _; split; [lia|done]|]. split; [|done].
  intros k Hwf. destruct (_ =? TASK_PERIODICITY_AFTER); [|done]. destruct (Z.leb_spec (Z.of_nat n) (after_schedule_idx (periodicity s))); [done|].
  intros [= <-]. pose proof (wf_field0 s 1 Hwf ltac:(lia)). unfold after_schedule_idx in *. lia.
Qed.

Definition all_idle r : Prop := forall j d, tsk_states r !! j = Some d -> running d = false /\ busy d = false.

Lemma init_schedules_ok r n reset :
  runner_base r -> (sch_num r <= RANGE)%nat -> (n <= RANGE)%nat -> all_idle r ->
  exists l, init_schedules r n reset = Done (set_sch_states r l) /\ runner_inv (set_sch_states r l) /\
    (forall i s st, (i < sch_num r)%nat -> sch r !! i = Some s -> sch_states r !! i = Some st ->
       l !! i = Some (init_schedule s (tsk r) n reset st)).
Proof.
  intros Hb Hnum Hn Hidle. unfold init_schedules. destruct Hb as [Htl Htn Hsl Hswf Hstl Hrg Hdn Hdef Hkv Hlast Hrl].
  run_loop (fun i r1 => exists l, r1 = set_sch_states r l /\ length l = RANGE /\ Forall (fun st => in_u 32 (last_run st)) l /\
    (forall k, (i <= k)%nat -> l !! k = sch_states r !! k) /\
    (forall k s st, (k < i)%nat -> sch r !! k = Some s -> sch_states r !! k = Some st ->
       l !! k = Some (init_schedule s (tsk r) n reset st))) as r' Hpost.
  - exists (sch_states r). split; [by destruct r|]. split; [done|]. split; [done|]. split; [done|]. intros k s st Hk. lia.
  - intros i r1 Hi (l & -> & Hl & Hlr & Hhi & Hlo). cbn [set_sch_states sch_states sch tsk].
    destruct (array_get_lt l i ltac:(lia)) as (st & -> & Hst). cbn [exec_bind].
    destruct (array_get_lt (sch r) i ltac:(lia)) as (s & -> & Hs). cbn [exec_bind]. eexists. split; [done|].
    exists (<[i := init_schedule s (tsk r) n reset st]> l). split; [done|]. split; [by rewrite length_insert|]. split.
    { apply Forall_insert; [done|]. destruct (init_schedule_ok s (tsk r) n reset st) as (_ & _ & Hx). apply Hx.
      by apply (Forall_lookup_1 _ _ _ _ Hlr Hst). }
    split; [intros k Hk; rewrite list_lookup_insert_ne by lia; apply Hhi; lia|].
    intros k s1 st1 Hk Hs1 Hst1. destruct (decide (k = i)) as [->|Hne].
    + rewrite list_lookup_insert_eq by lia. rewrite Hhi in Hst by lia. congruence.
    + rewrite list_lookup_insert_ne by done. apply Hlo; [lia|done|done].
  - destruct Hpost as (l & -> & Hl & Hlr & _ & Hlo). cbn [Nat.add] in Hlo. exists l. split; [done|]. split; [|done].
    assert (Hat : forall i st, (i < sch_num r)%nat -> l !! i = Some st -> exists s st0, sch r !! i = Some s /\
      st = init_schedule s (tsk r) n reset st0).
    { intros i st Hi Hst. destruct (lookup_lt_is_Some_2 (sch r) i ltac:(lia)) as [s Hs].
      destruct (lookup_lt_is_Some_2 (sch_states r) i ltac:(lia)) as [st0 Hst0]. exists s, st0. split; [done|].
      pose proof (Hlo i s st0 Hi Hs Hst0). congruence. }
    split; [by split|split; cbn; [done|..]|..]; cbn.
    + intros i st s Hi Hst Hs Hne. destruct (Hat i st Hi Hst) as (s0 & st0 & Hs0 & ->).
      destruct (init_schedule_ok s0 (tsk r) n reset st0) as (Hx & _). rewrite Hs in Hs0. injection Hs0 as <-. by apply Hx.
    + intros i st k Hi Hst Hk. destruct (Hat i st Hi Hst) as (s0 & st0 & Hs0 & ->).
      destruct (init_schedule_ok s0 (tsk r) n reset st0) as (_ & Hx & _).
      pose proof (Hx k (Forall_lookup_1 _ _ _ _ Hswf Hs0) Hk). lia.
    + intros j d Hj Hrun. destruct (Hidle j d Hj). congruence.
    + intros j d Hj Hbusy. destruct (Hidle j d Hj). congruence.
Qed.
End invariant.
