(* ===== verification/TaskRunnerProps.v ===== *)
(** * Correctness of the task runner

    The iteration as a whole, the life of the runner as a step relation, and the
    properties of [runner.c]: it never leaves its invariant, every iteration starts
    and ends tasks exactly as the schedules say, timeouts are enforced, and changed
    schedules come into use only after every task has stopped. *)

From stdpp Require Import base tactics numbers list gmap relations.
From Stdlib Require Import ZArith Lia.
From S2P Require Import Prelude MathCommon States Schedule KvStore TaskRunner TaskRunnerSpec.

Local Open Scope Z_scope.
Local Open Scope infuse_scope.

Section runs.
Context {F : Type} `{NvsSpec F} (crc32_ieee : list Z -> Z) (kv_slots : list key_value_slot_definition).
Context (RANGE : nat) (SCHEDULES_ID : Z).
Hypothesis Hslots : slots_ok kv_slots.
Implicit Types r : runner F.

Abbreviation iterate := (task_runner_iterate crc32_ieee kv_slots RANGE SCHEDULES_ID).
Abbreviation handle_reload := (iterate_handle_task_reload crc32_ieee kv_slots RANGE SCHEDULES_ID).
Abbreviation load := (task_runner_schedules_load crc32_ieee kv_slots RANGE).
Abbreviation inv := (runner_inv crc32_ieee kv_slots RANGE).

(** ** Reloading *)

Lemma all_linked_same r r' : same_run r r' -> all_linked_to_tasks r -> all_linked_to_tasks r'.
Proof.
  intros [[_ Hn _ _ _ _] _ _ _ Hi] Hall i st Hlt Hst.
  assert (Hm : map task_idx (sch_states r') !! i = Some (task_idx st)) by (change (map task_idx) with (fmap (M := list) task_idx); by rewrite list_lookup_fmap, Hst).
  rewrite Hi in Hm. apply list_lookup_fmap_Some in Hm as (st0 & -> & Hst0). apply (Hall i); [lia|done].
Qed.

Lemma same_run_sym r r' : same_run r r' -> same_run r' r.
Proof. intros [[] ? ? ? ?]. repeat split; congruence. Qed.

(** Once everything has stopped, the schedules are loaded and initialised. *)
Record reloaded r r' : Prop := {
  rl_tasks : tsk_states r' = tsk_states r;
  rl_tsk : tsk r' = tsk r;
  rl_default : default_sch r' = default_sch r;
  rl_flags : flag_terminating r' = false /\ flag_trigger_reload r' = flag_trigger_reload r;
  rl_schedules : loaded_schedules kv_slots RANGE r SCHEDULES_ID (sch_num r') (sch r');
  rl_states i s st : (i < sch_num r')%nat -> sch r' !! i = Some s -> sch_states r !! i = Some st ->
    sch_states r' !! i = Some (init_schedule s (tsk r) (length (default_sch r)) false st);
}.

Lemma handle_reload_idle r :
  inv r -> flag_trigger_reload r = false -> flag_terminating r = true -> existsb running (tsk_states r) = false ->
  exists r', handle_reload r = Done (false, r') /\ inv r' /\ reloaded r r'.
Proof.
  intros Hr Ht Hte Hno. unfold iterate_handle_task_reload. rewrite Ht. cbn [exec_bind]. rewrite Hte, Hno.
  set (r1 := set_runner_flags r _ false _).
  assert (Hr1 : inv r1) by (by apply runner_inv_flags).
  destruct (schedules_load_ok crc32_ieee kv_slots RANGE Hslots r1 SCHEDULES_ID (ri_base _ _ _ _ Hr1))
    as (n & s & k & -> & Hn & Hl & Hwf & Hk & Hsch & _). cbn [exec_bind].
  change (default_sch (set_kv (set_sch r1 s) k)) with (default_sch r). set (r2 := set_sch_num _ n).
  assert (Hidle : all_idle r2).
  { intros j d Hj. assert (Hrun : running d = false).
    { destruct (running d) eqn:E; [|done]. rewrite <- Hno. symmetry. apply existsb_exists. exists d. split; [|done].
      apply list_elem_of_In. by eapply list_elem_of_lookup_2. }
    split; [done|]. destruct (busy d) eqn:E; [|done]. by rewrite (ri_busy _ _ _ r Hr j d Hj E) in Hrun. }
  assert (Hb2 : runner_base crc32_ieee kv_slots RANGE r2) by (destruct (ri_base _ _ _ r Hr); by split).
  destruct (init_schedules_ok crc32_ieee kv_slots RANGE r2 (length (default_sch r)) false Hb2 Hn
    (rb_default_num _ _ _ r (ri_base _ _ _ r Hr)) Hidle) as (l & -> & Hinv & Hst). cbn [exec_bind].
  exists (set_sch_states r2 l). split; [done|]. split; [done|]. by split.
Qed.

(** While a task still runs, the iteration stops there. *)
Lemma handle_reload_wait r :
  flag_trigger_reload r = false -> flag_terminating r = true -> existsb running (tsk_states r) = true ->
  handle_reload r = Done (true, r).
Proof. intros Ht Hte Hrun. unfold iterate_handle_task_reload. rewrite Ht. cbn [exec_bind]. by rewrite Hte, Hrun. Qed.

(** A trigger asks every running task to end, then waits. *)
Lemma handle_reload_trigger r :
  inv r -> flag_trigger_reload r = true -> all_linked_to_tasks r ->
  exists r1, handle_reload r = handle_reload r1 /\ inv r1 /\ flag_trigger_reload r1 = false /\
    flag_terminating r1 = true /\ kv r1 = kv r /\ sch r1 = sch r /\ sch_num r1 = sch_num r /\ sch_states r1 = sch_states r /\
    default_sch r1 = default_sch r /\ tsk r1 = tsk r /\
    Forall2 same_task (tsk_states r) (tsk_states r1) /\
    (forall j d, tsk_states r1 !! j = Some d -> running d = true -> signaled d = true).
Proof.
  intros Hr Ht Hall. unfold iterate_handle_task_reload at 1. rewrite Ht.
  set (r0 := set_runner_flags r false _ _).
  assert (Hr0 : inv r0) by (by apply runner_inv_flags).
  destruct (reload_terminate_ok crc32_ieee kv_slots RANGE r0 Hr0 Hall) as (r1 & -> & Hr1 & Hsr & Es & Hf & Hsig). cbn [exec_bind].
  destruct Hsr as [[E1 E2 E3 E4 E5 E6] Htr _ _ _]. set (r2 := set_runner_flags r1 _ true _).
  assert (Htr2 : flag_trigger_reload r2 = false) by (unfold r2; cbn; by rewrite Htr).
  exists r2. split; [unfold iterate_handle_task_reload; rewrite Htr2; cbn [exec_bind]; by rewrite Htr2|]. split; [by apply runner_inv_flags|].
  repeat (split; [done|]). done.
Qed.

(** ** Iterations *)

Definition may_reload r : Prop := flag_trigger_reload r = false \/ all_linked_to_tasks r.

Lemma handle_reload_ok r : inv r -> may_reload r -> exists b r', handle_reload r = Done (b, r') /\ inv r'.
Proof.
  intros Hr Hmay.
  assert (Hte : forall r, inv r -> flag_trigger_reload r = false -> exists b r', handle_reload r = Done (b, r') /\ inv r').
  { clear r Hr Hmay. intros r Hr Ht. destruct (flag_terminating r) eqn:Hte.
    - destruct (existsb running (tsk_states r)) eqn:Hrun; [exists true, r; by rewrite handle_reload_wait|].
      destruct (handle_reload_idle r Hr Ht Hte Hrun) as (r' & ? & ? & _). by exists false, r'.
    - exists false, r. unfold iterate_handle_task_reload. rewrite Ht. cbn [exec_bind]. by rewrite Hte. }
  destruct (flag_trigger_reload r) eqn:Ht; [|by apply Hte]. destruct Hmay as [|Hall]; [congruence|].
  destruct (handle_reload_trigger r Hr Ht Hall) as (r1 & -> & Hr1 & Ht1 & _). by apply Hte.
Qed.

Lemma iterate_ok r app uptime gps soc :
  inv r -> in_u 32 uptime -> may_reload r -> exists r', iterate r app uptime gps soc = Done r' /\ inv r'.
Proof.
  intros Hr Hu Hmay. unfold task_runner_iterate.
  destruct (iterate_terminated_ok crc32_ieee kv_slots RANGE r uptime Hr) as (r1 & -> & Hr1 & Hsr & _). cbn [exec_bind].
  destruct (handle_reload_ok r1 Hr1) as (b & r2 & -> & Hr2).
  { destruct Hmay as [Ht|Hall]; [left; by rewrite (sr_trigger _ _ Hsr)|right; by eapply all_linked_same]. }
  cbn [exec_bind]. destruct b; [by eexists|].
  destruct (schedules_loop_ok crc32_ieee kv_slots RANGE app uptime gps soc r2 Hr2 Hu) as (r3 & -> & Hr3 & _). by eexists.
Qed.

Lemma iterate_fault r app uptime gps soc :
  inv r -> flag_trigger_reload r = true -> ~ all_linked_to_tasks r -> iterate r app uptime gps soc = Fault.
Proof.
  intros Hr Ht Hno. unfold task_runner_iterate.
  destruct (iterate_terminated_ok crc32_ieee kv_slots RANGE r uptime Hr) as (r1 & -> & Hr1 & Hsr & _). cbn [exec_bind].
  unfold iterate_handle_task_reload. rewrite (sr_trigger _ _ Hsr), Ht.
  rewrite (reload_terminate_fault crc32_ieee kv_slots RANGE); [done|by apply runner_inv_flags|].
  intros Hall. apply Hno. apply (all_linked_same r1); [by apply same_run_sym|]. exact Hall.
Qed.

(** ** Initialisation *)

Lemma init_tasks_ok r :
  length (tsk_states r) = length (tsk r) -> Forall (fun d => busy d = false) (tsk_states r) ->
  exists l, init_tasks r = Done (set_tsk_states r l) /\ length l = length (tsk r) /\
    Forall (fun d => running d = false /\ busy d = false) l.
Proof.
  intros Hlen Hbusy. unfold init_tasks.
  run_loop (fun i r1 => exists l, r1 = set_tsk_states r l /\ length l = length (tsk r) /\ Forall (fun d => busy d = false) l /\
    (forall j d, (j < i)%nat -> l !! j = Some d -> running d = false)) as r' Hpost.
  - exists (tsk_states r). split; [by destruct r|]. split; [done|]. split; [done|]. intros j d Hj. lia.
  - intros i r1 Hi (l & -> & Hl & Hb & Hrun). cbn [set_tsk_states tsk_states tsk].
    destruct (array_get_lt l i ltac:(lia)) as (d & -> & Hd). cbn [exec_bind].
    destruct (array_get_lt (tsk r) i ltac:(lia)) as (c & -> & Hc). cbn [exec_bind]. eexists. split; [done|].
    set (d' := TaskData _ _ _ _ _ _). exists (<[i := d']> l). split; [done|]. split; [by rewrite length_insert|]. split.
    + apply Forall_insert; [done|]. unfold d'. pose proof (Forall_lookup_1 _ _ _ _ Hb Hd). by destruct (exec_type c).
    + intros j e Hj. destruct (decide (j = i)) as [->|Hne].
      * rewrite list_lookup_insert_eq by lia. by intros [= <-].
      * rewrite list_lookup_insert_ne by done. apply Hrun. lia.
  - destruct Hpost as (l & -> & Hl & Hb & Hrun). exists l. split; [done|]. split; [done|]. apply Forall_lookup_2.
    intros j d Hj. split; [|by apply (Forall_lookup_1 _ _ _ _ Hb Hj)]. apply (Hrun j); [|done]. pose proof (lookup_lt_Some _ _ _ Hj). lia.
Qed.

(** What [task_runner_init] may be called with: tables of the declared sizes, default
    schedules that are C values, executors that are not in use. *)
Record before_init r (schedules : list task_schedule) (states : list task_schedule_state) (tasks : list task_config)
  (task_states : list task_data) : Prop := {
  bi_base : runner_base crc32_ieee kv_slots RANGE
    (Runner (sch r) states (sch_num r) tasks task_states schedules (flag_trigger_reload r)
       (flag_terminating r) (flag_reloading r) (schedule_cb r) (kv r) (sch_events r));
  bi_busy : Forall (fun d => busy d = false) task_states;
}.

Lemma task_runner_init_ok r schedules states tasks task_states :
  before_init r schedules states tasks task_states ->
  exists r', task_runner_init crc32_ieee kv_slots RANGE SCHEDULES_ID r schedules states tasks task_states = Done r' /\ inv r'.
Proof.
  intros [Hb Hbusy]. unfold task_runner_init. set (r1 := Runner _ _ _ _ _ _ _ _ _ _ _ _) in *.
  destruct (schedules_load_ok crc32_ieee kv_slots RANGE Hslots r1 SCHEDULES_ID Hb)
    as (n & s & k & Hload & Hn & Hl & Hwf & Hk & _). change (default_sch r1) with schedules in Hload. rewrite Hload. cbn [exec_bind].
  set (r2 := set_sch_num _ n).
  set (r3 := match schedule_cb r2 with Some _ => r2 | None => _ end).
  assert (Hr3 : runner_base crc32_ieee kv_slots RANGE r3 /\ sch_num r3 = n /\ default_sch r3 = schedules /\
    tsk_states r3 = task_states /\ tsk r3 = tasks).
  { destruct Hb. unfold r3. destruct (schedule_cb r2); (split; [|done]); split; try done.
    destruct Hk as [[Hx1 Hx2] Hx3]. split; [by split|done]. }
  clearbody r3. destruct Hr3 as (Hb3 & Hn3 & Hd3 & Ht3 & Htk3).
  destruct (init_tasks_ok r3) as (l & -> & Hll & Hidle); [apply Hb3|by rewrite Ht3|]. cbn [exec_bind].
  assert (Hb4 : runner_base crc32_ieee kv_slots RANGE (set_tsk_states r3 l)) by (destruct Hb3; by split).
  destruct (init_schedules_ok crc32_ieee kv_slots RANGE (set_tsk_states r3 l) (length schedules) true Hb4) as (l2 & -> & Hinv & _).
  - cbn. lia.
  - rewrite <- Hd3. apply Hb3.
  - intros j d Hj. by apply (Forall_lookup_1 _ _ _ _ Hidle Hj).
  - by eexists.
Qed.

(** ** The life of the runner *)

(** Steps: an iteration, a task's executor that exits, a work item that reschedules
    itself, and changes in the store made by other parts of the application. *)
Inductive runner_step r : runner F -> Prop :=
  | step_iterate app uptime gps soc r' :
      in_u 32 uptime -> iterate r app uptime gps soc = Done r' -> runner_step r r'
  | step_exit j d :
      tsk_states r !! j = Some d -> runner_step r (set_tsk_states r (<[j := set_busy d false]> (tsk_states r)))
  | step_reschedule j d :
      tsk_states r !! j = Some d -> running d = true ->
      runner_step r (set_tsk_states r (<[j := task_workqueue_reschedule d]> (tsk_states r)))
  | step_kv_write key data rc r' :
      data <> [] -> bytes_ok data ->
      kv_call RANGE r (kv_store_write crc32_ieee kv_slots (kv r) key data) = Done (rc, r') -> runner_step r r'
  | step_kv_delete key rc r' :
      kv_call RANGE r (kv_store_delete crc32_ieee kv_slots (kv r) key) = Done (rc, r') -> runner_step r r'.

Lemma kv_deliver_inv r evs : inv r -> inv (kv_deliver RANGE r evs).
Proof.
  revert r. induction evs as [|[cb key data len] evs IH]; intros r Hr; [done|]. unfold kv_deliver. cbn [fold_left].
  apply IH. destruct (decide _); [|done]. unfold kv_value_changed. destruct (_ || _); [done|].
  destruct (flag_reloading r) eqn:E; [done|]. rewrite <- E. by apply runner_inv_flags.
Qed.

Lemma set_kv_inv r k : inv r -> kv_inv crc32_ieee kv_slots k -> inv (set_kv r k).
Proof. intros [Hb Hs Hr Hbu] Hk. split; [destruct Hb; by split|destruct Hs; by split|done|done]. Qed.

Lemma runner_step_inv r r' : inv r -> runner_step r r' -> inv r'.
Proof.
  intros Hr Hstep. pose proof (rb_kv _ _ _ r (ri_base _ _ _ r Hr)) as Hkv.
  destruct Hstep as [app uptime gps soc r' Hu Hit|j d Hj|j d Hj Hrun|key data rc r' Hd Hb Hc|key rc r' Hc].
  - assert (Hmay : may_reload r \/ (flag_trigger_reload r = true /\ ~ all_linked_to_tasks r)).
    { unfold may_reload. destruct (flag_trigger_reload r); [|by left; left].
      destruct (decide (Forall (fun st => task_idx st <> UINT8_MAX) (take (sch_num r) (sch_states r)))) as [Hf|Hf].
      - left. right. intros i st Hi Hst. apply (Forall_lookup_1 _ _ i _ Hf). by rewrite lookup_take_lt.
      - right. split; [done|]. intros Hall. apply Hf, Forall_lookup_2. intros i st Hst.
        apply lookup_take_Some in Hst as [Hst Hlt]. by apply (Hall i). }
    destruct Hmay as [Hmay|[Ht Hno]].
    + destruct (iterate_ok r app uptime gps soc Hr Hu Hmay) as (r2 & Hit2 & Hr2). congruence.
    + by rewrite (iterate_fault r app uptime gps soc Hr Ht Hno) in Hit.
  - apply runner_inv_task; [done|cbn|done]. intros Hrun. exact (ri_running _ _ _ r Hr j d Hj Hrun).
  - apply runner_inv_task; [done|cbn|done]. intros _. exact (ri_running _ _ _ r Hr j d Hj Hrun).
  - destruct (kv_write_inv crc32_ieee kv_slots Hslots (kv r) key data Hkv Hd Hb) as (rc2 & k & Hw & Hk & _).
    unfold kv_call in Hc. rewrite Hw in Hc. injection Hc as _ <-. by apply kv_deliver_inv, set_kv_inv.
  - destruct (kv_delete_inv crc32_ieee kv_slots Hslots (kv r) key Hkv) as (rc2 & k & Hw & Hk & _).
    unfold kv_call in Hc. rewrite Hw in Hc. injection Hc as _ <-. by apply kv_deliver_inv, set_kv_inv.
Qed.

Definition reload_pending r : bool := flag_trigger_reload r || flag_terminating r.

(** What an iteration does first: tasks whose executor has stopped are no longer
    running, and their schedules remember when. *)
Record tasks_ended r uptime r1 : Prop := {
  te_run : same_run r r1;
  te_tasks : tsk_states r1 = map ended (tsk_states r);
  te_states i st : sch_states r !! i = Some st -> sch_states r1 !! i = Some (stopped_state (tsk_states r) uptime i st);
}.

Lemma iterate_plain r app uptime gps soc :
  inv r -> in_u 32 uptime -> reload_pending r = false ->
  exists r1 r', iterate r app uptime gps soc = Done r' /\ inv r1 /\ inv r' /\ tasks_ended r uptime r1 /\ same_run r1 r' /\
    loop_effect app uptime gps soc r1 r'.
Proof.
  intros Hr Hu Hp. apply orb_false_iff in Hp as [Ht Hte]. unfold task_runner_iterate.
  destruct (iterate_terminated_ok crc32_ieee kv_slots RANGE r uptime Hr) as (r1 & -> & Hr1 & Hsr & Ets & Hst). cbn [exec_bind].
  unfold iterate_handle_task_reload. rewrite (sr_trigger _ _ Hsr), Ht. cbn [exec_bind]. rewrite (sr_terminating _ _ Hsr), Hte. cbn [exec_bind].
  destruct (schedules_loop_ok crc32_ieee kv_slots RANGE app uptime gps soc r1 Hr1 Hu) as (r' & -> & Hr' & Hsr' & Heff).
  exists r1, r'. do 3 (split; [done|]). by split.
Qed.

(** A stretch of [n] iterations, with other steps in between, in which the executor of
    task [j] does not stop and no reload is pending. *)
Inductive task_runs_on (j : nat) r : nat -> runner F -> Prop :=
  | runs_start : task_runs_on j r 0 r
  | runs_iterate n r1 r2 d app uptime gps soc :
      task_runs_on j r n r1 -> in_u 32 uptime -> reload_pending r1 = false ->
      tsk_states r1 !! j = Some d -> busy d = true ->
      iterate r1 app uptime gps soc = Done r2 -> task_runs_on j r (S n) r2
  | runs_reschedule n r1 d :
      task_runs_on j r n r1 -> tsk_states r1 !! j = Some d -> running d = true ->
      task_runs_on j r n (set_tsk_states r1 (<[j := task_workqueue_reschedule d]> (tsk_states r1)))
  | runs_other n r1 r2 :
      task_runs_on j r n r1 -> runner_step r1 r2 -> sch r2 = sch r1 -> sch_num r2 = sch_num r1 ->
      sch_states r2 = sch_states r1 -> tsk_states r2 !! j = tsk_states r1 !! j -> task_runs_on j r n r2.

(** Task [j] runs from schedule [k]: it has been asked to end, or its runtime is below
    the timeout and counts from [t0]. *)
Definition counting (j k : nat) (s : task_schedule) (t0 : Z) (n : nat) r : Prop :=
  exists st d, sch r !! k = Some s /\ (k < sch_num r)%nat /\ sch_states r !! k = Some st /\ tsk_states r !! j = Some d /\
    task_idx st = Z.of_nat j /\ running d = true /\ schedule_idx d = Z.of_nat k /\ skip d = false /\
    (signaled d = true \/ runtime st = t0 + Z.of_nat n /\ runtime st < timeout_s s).

Lemma timeout_ends app soc s st :
  permanent s = false -> 0 < timeout_s s < 2 ^ 32 -> 0 <= runtime st -> runtime st + 1 = timeout_s s ->
  schedule_ends app soc s st = true.
Proof.
  intros Hp Ht Ht0 He. unfold schedule_ends, task_schedule_should_terminate, tick_runtime. rewrite Hp. cbn [negb andb].
  destruct (Z.testbit app INFUSE_STATE_REBOOTING); [done|]. destruct (_ && negb _); [done|]. destruct (_ && _); [done|].
  cbn [set_runtime runtime]. rewrite uwrap_small, He by lia. rewrite (proj2 (Z.eqb_neq _ _)) by lia. by rewrite Z.leb_refl.
Qed.

Lemma counting_iterate j k s t0 n r1 r2 d app uptime gps soc :
  permanent s = false -> 0 < timeout_s s < 2 ^ 32 -> 0 <= t0 ->
  inv r1 -> in_u 32 uptime -> reload_pending r1 = false -> tsk_states r1 !! j = Some d -> busy d = true ->
  counting j k s t0 n r1 -> iterate r1 app uptime gps soc = Done r2 -> counting j k s t0 (S n) r2.
Proof.
  intros Hp Ht Ht0 Hr Hu Hno Hd Hb (st & d' & Hs & Hk & Hst & Hd' & Hidx & Hrun & Hown & Hsk & Hc) Hit.
  rewrite Hd in Hd'. injection Hd' as <-.
  destruct (iterate_plain r1 app uptime gps soc Hr Hu Hno) as (ra & rb & Hit2 & Hra & Hrb & [Hsr Ets Hss] & Hsr2 & Heff1 & Heff2).
  rewrite Hit in Hit2. injection Hit2 as <-. pose proof (Hss k st Hst) as Hsta. set (sta := stopped_state _ _ _ _) in Hsta.
  assert (Hsta_eq : runtime sta = runtime st /\ task_idx sta = task_idx st) by (unfold sta, stopped_state; by destruct (existsb _ _)).
  destruct Hsta_eq as [Hrt Hti].
  assert (Hda : tsk_states ra !! j = Some d).
  { rewrite Ets. change (map ended) with (fmap (M := list) ended). rewrite list_lookup_fmap, Hd. cbn. unfold ended. by rewrite Hb, andb_false_r. }
  assert (Hsa : sch ra !! k = Some s) by (by rewrite (st_sch _ _ (sr_tables _ _ Hsr))).
  pose proof (st_num _ _ (sr_tables _ _ Hsr)) as Hna. pose proof (st_num _ _ (sr_tables _ _ Hsr2)) as Hnb.
  pose proof (Heff1 k s sta Hsa Hsta) as Hstb. rewrite (proj2 (Nat.ltb_lt _ _)) in Hstb by lia.
  destruct (Heff2 j d Hda) as (db & Hdb & Haft). unfold task_after in Haft. rewrite Hsk, Hrun, Hown, Nat2Z.id in Haft.
  rewrite (proj2 (Nat.ltb_lt _ _)) in Haft by lia. cbn [andb] in Haft. destruct Haft as [Krun Kown Kskip _ Ksig].
  assert (Hne : task_idx sta <> UINT8_MAX).
  { pose proof (lookup_lt_Some _ _ _ Hd). pose proof (rb_tasks _ _ _ r1 (ri_base _ _ _ r1 Hr)).
    pose proof (rb_tasks_num _ _ _ r1 (ri_base _ _ _ r1 Hr)). unfold UINT8_MAX. lia. }
  assert (Hstb2 : state_after app uptime gps soc ra k s sta = tick_runtime sta).
  { unfold state_after. rewrite (proj2 (Z.eqb_neq _ _) Hne), Hti, Hidx, Nat2Z.id, Hda, Hsk, Hrun, Hown. by rewrite Z.eqb_refl. }
  rewrite Hstb2 in Hstb. exists (tick_runtime sta), db. rewrite (st_sch _ _ (sr_tables _ _ Hsr2)).
  split; [done|]. split; [lia|]. split; [done|]. split; [done|]. split; [cbn; congruence|]. split; [done|]. split; [congruence|].
  split; [congruence|]. destruct Hc as [Hsig|[Hrt1 Hlt]]; [left; by rewrite Ksig, Hsig|].
  destruct (decide (runtime st + 1 = timeout_s s)) as [He|He].
  - left. rewrite Ksig. unfold ends_task. rewrite Hsa, Hsta. rewrite timeout_ends; [by rewrite orb_true_r|done|done|lia|lia].
  - right. cbn [tick_runtime set_runtime runtime]. rewrite uwrap_small by lia. lia.
Qed.

Lemma counting_run j k s t0 n r r' :
  permanent s = false -> 0 < timeout_s s < 2 ^ 32 -> 0 <= t0 -> inv r -> counting j k s t0 0 r ->
  task_runs_on j r n r' -> inv r' /\ counting j k s t0 n r'.
Proof.
  intros Hp Ht Ht0 Hr Hc Hrun.
  induction Hrun as [|n r1 r2 d app uptime gps soc Hrun [Hi1 Hc1] Hu Hno Hd Hb Hit|n r1 d Hrun [Hi1 Hc1] Hd Hb|n r1 r2 Hrun [Hi1 Hc1] Hstep E1 E2 E3 E4].
  - done.
  - split; [|by eapply counting_iterate]. by eapply runner_step_inv; [|eapply step_iterate].
  - split; [by eapply runner_step_inv; [|apply step_reschedule]|].
    destruct Hc1 as (st & d' & Hs & Hk & Hst & Hd' & Hidx & Hrn & Hown & Hsk & Hcnt). rewrite Hd in Hd'. injection Hd' as <-.
    exists st, (task_workqueue_reschedule d). cbn [set_tsk_states tsk_states sch sch_num sch_states].
    do 3 (split; [done|]). split; [apply list_lookup_insert_eq; by eapply lookup_lt_Some|]. done.
  - split; [by eapply runner_step_inv|]. unfold counting in *. by rewrite E1, E2, E3, E4.
Qed.

(** ** Properties *)

(** C10.  Safety of the task runner.  In every state reached from [task_runner_init] by
    iterations, by executors that exit or reschedule themselves and by changes in the
    key-value store, a running task is owned by the schedule it names, which is in use
    and refers back to it; no schedule runs two tasks; no executor is active without its
    task counting as running, so that a thread is never created twice; and the next
    iteration completes, whatever its inputs, provided that a triggered reload finds
    every schedule with a task. *)
Theorem task_runner_safe r schedules states tasks task_states r0 r' :
  before_init r schedules states tasks task_states ->
  task_runner_init crc32_ieee kv_slots RANGE SCHEDULES_ID r schedules states tasks task_states = Done r0 ->
  rtc runner_step r0 r' ->
  (forall j d, tsk_states r' !! j = Some d -> running d = true -> owned_by (sch_num r') (sch_states r') j d) /\
  (forall j1 j2 d1 d2, tsk_states r' !! j1 = Some d1 -> tsk_states r' !! j2 = Some d2 -> running d1 = true ->
     running d2 = true -> schedule_idx d1 = schedule_idx d2 -> j1 = j2) /\
  (forall j d, tsk_states r' !! j = Some d -> busy d = true -> running d = true) /\
  (forall app uptime gps soc, in_u 32 uptime -> may_reload r' ->
     exists r2, iterate r' app uptime gps soc = Done r2).
Proof.
  intros Hb Hi Hsteps. destruct (task_runner_init_ok r schedules states tasks task_states Hb) as (r1 & Hi1 & Hinv0).
  rewrite Hi in Hi1. injection Hi1 as <-.
  assert (Hinv : inv r').
  { clear Hi. induction Hsteps as [|r1 r2 r3 Hs _ IH]; [done|]. apply IH. by eapply runner_step_inv. }
  pose proof (ri_running _ _ _ r' Hinv) as Hrun. split; [exact Hrun|]. split; [|split; [exact (ri_busy _ _ _ r' Hinv)|]].
  - intros j1 j2 d1 d2 H1 H2 R1 R2 He. destruct (Hrun j1 d1 H1 R1) as (st1 & _ & Hst1 & E1).
    destruct (Hrun j2 d2 H2 R2) as (st2 & _ & Hst2 & E2). rewrite He, Hst2 in Hst1. injection Hst1 as ->. lia.
  - intros app uptime gps soc Hu Hmay. destruct (iterate_ok r' app uptime gps soc Hinv Hu Hmay) as (r2 & ? & _). by exists r2.
Qed.

(** C19.  An iteration with no reload pending, exactly.  Tasks whose executor has stopped
    stop running, and their schedules record the time.  Then a task that runs keeps
    running, its schedule's runtime grows by one, and it is asked to end exactly when its
    schedule says so; an idle task is started by the first schedule, in their order, that
    may start it, and stays idle if there is none; tasks marked to be skipped and the
    states of all other schedules do not change. *)
Theorem task_runner_iterate_correct r app uptime gps soc :
  inv r -> in_u 32 uptime -> reload_pending r = false ->
  exists r1 r', iterate r app uptime gps soc = Done r' /\ tasks_ended r uptime r1 /\ same_run r1 r' /\
    (forall k s st, sch r1 !! k = Some s -> sch_states r1 !! k = Some st ->
       sch_states r' !! k = Some (if (k <? sch_num r)%nat then state_after app uptime gps soc r1 k s st else st)) /\
    (forall j d, tsk_states r1 !! j = Some d ->
       exists d', tsk_states r' !! j = Some d' /\ task_after app uptime gps soc r1 (sch_num r) j d d').
Proof.
  intros Hr Hu Hp. destruct (iterate_plain r app uptime gps soc Hr Hu Hp) as (r1 & r' & Hit & _ & _ & He & Hsr & Heff).
  exists r1, r'. split; [done|]. split; [done|]. split; [done|]. rewrite <- (st_num _ _ (sr_tables _ _ (te_run _ _ _ He))). exact Heff.
Qed.

(** C22.  Timeouts are enforced.  Over a stretch of iterations in which no reload is
    pending and the executor of a task is active at every iteration (its work item may
    reschedule itself), a task that runs from a schedule with a timeout that is not
    permanent (a permanent schedule ignores its timeout) keeps running, and has been asked
    to end once the iterations have brought the schedule's runtime to the timeout, whatever
    other tasks and the key-value store do in between. *)
Theorem task_timeout_enforced j k n r r' s st d :
  inv r -> sch r !! k = Some s -> (k < sch_num r)%nat -> sch_states r !! k = Some st -> task_idx st = Z.of_nat j ->
  tsk_states r !! j = Some d -> running d = true -> schedule_idx d = Z.of_nat k -> skip d = false ->
  permanent s = false -> 0 < timeout_s s < 2 ^ 32 -> 0 <= runtime st < timeout_s s ->
  timeout_s s <= runtime st + Z.of_nat n -> task_runs_on j r n r' ->
  exists d', tsk_states r' !! j = Some d' /\ running d' = true /\ schedule_idx d' = Z.of_nat k /\ signaled d' = true.
Proof.
  intros Hr Hs Hk Hst Hidx Hd Hrun Hown Hsk Hp Ht H1 H2 Hruns.
  destruct (counting_run j k s (runtime st) n r r' Hp Ht ltac:(lia) Hr) as [_ (st' & d' & _ & _ & _ & Hd' & _ & Hrun' & Hown' & _ & Hc)].
  - exists st, d. repeat (split; [done|]). right. lia.
  - exact Hruns.
  - exists d'. repeat (split; [done|]). destruct Hc as [|[? ?]]; [done|lia].
Qed.

(** C20.  Changed schedules.  Once a change in the key-value store has triggered a
    reload, and provided that at the trigger every schedule in use has a task, an iteration
    during which a task still runs starts nothing: every running task has been asked to
    end and runs on with its owner, and schedules and store stay as they are.  The first
    iteration that finds all tasks stopped loads the schedules from the store, with locked
    defaults in place of stored ones, or the valid defaults when the store does not hold
    their ID; evaluates exactly the slots up to the last one that the store or a default
    fills; initialises the state of each of these, and goes on to evaluate them. *)
Theorem task_runner_reload_correct r app uptime gps soc :
  inv r -> in_u 32 uptime -> may_reload r -> reload_pending r = true ->
  exists r1 r', iterate r app uptime gps soc = Done r' /\ tasks_ended r uptime r1 /\
    if existsb running (tsk_states r1) then
      flag_terminating r' = true /\ flag_trigger_reload r' = false /\ sch r' = sch r /\ sch_num r' = sch_num r /\
      kv r' = kv r /\ Forall2 same_task (tsk_states r1) (tsk_states r') /\
      (flag_trigger_reload r = true -> forall j d, tsk_states r' !! j = Some d -> running d = true -> signaled d = true)
    else exists r2 r3, sch r2 = sch r /\ kv r2 = kv r /\ default_sch r2 = default_sch r /\ tsk r2 = tsk r /\
      Forall (fun d => running d = false) (tsk_states r2) /\ reloaded r2 r3 /\
      loop_effect app uptime gps soc r3 r' /\ flag_terminating r' = false.
Proof.
  intros Hr Hu Hmay Hp. unfold task_runner_iterate.
  destruct (iterate_terminated_ok crc32_ieee kv_slots RANGE r uptime Hr) as (r1 & -> & Hr1 & Hsr & Ets & Hst). cbn [exec_bind].
  exists r1. pose proof Hsr as [[E1 E2 E3 E4 E5 E6] Etr Ete _ _].
  assert (Hmid : exists r2, handle_reload r1 = handle_reload r2 /\ inv r2 /\ flag_trigger_reload r2 = false /\
    flag_terminating r2 = true /\ kv r2 = kv r /\ sch r2 = sch r /\ sch_num r2 = sch_num r /\ default_sch r2 = default_sch r /\
    tsk r2 = tsk r /\ Forall2 same_task (tsk_states r1) (tsk_states r2) /\
    (flag_trigger_reload r = true -> forall j d, tsk_states r2 !! j = Some d -> running d = true -> signaled d = true)).
  { destruct (flag_trigger_reload r) eqn:Ht.
    - destruct (handle_reload_trigger r1 Hr1 Etr) as (r2 & Hh & Hr2 & Ht2 & Hte2 & Ek & Es & En & _ & Ed & Etk & Hf & Hsig).
      { destruct Hmay; [congruence|]. by eapply all_linked_same. }
      exists r2. split; [done|]. split; [done|]. split; [done|]. split; [done|]. split_and!; try congruence; done.
    - exists r1. split; [done|]. split; [done|]. split; [done|]. unfold reload_pending in Hp. rewrite Ht in Hp.
      split; [by rewrite Ete|]. do 5 (split; [done|]). split; [reflexivity|done]. }
  destruct Hmid as (r2 & -> & Hr2 & Ht2 & Hte2 & Ek & Es & En & Ed & Etk & Hf & Hsig).
  assert (Hex : existsb running (tsk_states r2) = existsb running (tsk_states r1)).
  { clear - Hf. induction Hf as [|d d' l l' [Hrun _] _ IH]; [done|]. cbn. by rewrite Hrun, IH. }
  destruct (existsb running (tsk_states r1)) eqn:Erun.
  - rewrite handle_reload_wait by (done || by rewrite Hex). exists r2. split; [done|]. split; [done|].
    do 6 (split; [done|]). exact Hsig.
  - destruct (handle_reload_idle r2 Hr2 Ht2 Hte2 Hex) as (r3 & -> & Hr3 & Hrl). cbn [exec_bind].
    destruct (schedules_loop_ok crc32_ieee kv_slots RANGE app uptime gps soc r3 Hr3 Hu) as (r' & -> & _ & Hsr' & Heff).
    exists r'. split; [done|]. split; [done|]. exists r2, r3. do 4 (split; [done|]). split.
    { apply Forall_lookup_2. intros j d Hj. destruct (running d) eqn:E; [|done]. rewrite <- Hex. symmetry. apply existsb_exists.
      exists d. split; [|done]. apply list_elem_of_In. by eapply list_elem_of_lookup_2. }
    split; [done|]. split; [done|]. rewrite (sr_terminating _ _ Hsr'). by apply Hrl.
Qed.

(** A triggered reload while some schedule in use has no task (its task ID is not
    known, or it is invalid) reads the state of task number 255, past the end of the
    task states. *)
Theorem reload_without_task_faults r app uptime gps soc i st :
  inv r -> flag_trigger_reload r = true -> (i < sch_num r)%nat -> sch_states r !! i = Some st ->
  task_idx st = UINT8_MAX -> iterate r app uptime gps soc = Fault.
Proof. intros Hr Ht Hi Hst He. apply iterate_fault; [done|done|]. intros Hall. by apply (Hall i st). Qed.
End runs.

(** ** A runner with two tasks *)

(** The keys of three schedule slots and of the ID of the defaults. *)
Definition runner_slots : list key_value_slot_definition := [SlotDef 1000 1 0; SlotDef 1001 3 0].

Lemma runner_slots_ok : slots_ok runner_slots.
Proof.
  split.
  - apply (bool_decide_unpack _). vm_compute. exact I.
  - repeat constructor; cbn; lia.
  - vm_compute. reflexivity.
Qed.

(** Task 7 while the application is active, for two seconds; task 9 always. *)
Definition timed_schedule : task_schedule :=
  TaskSchedule 7 TASK_VALID_ACTIVE TASK_PERIODICITY_FIXED 0 2 0 0 0 0 [1; 0; 0; 0; 0; 0] 0
    (StateConditions 0 [0; 0; 0; 0]) (StateConditions 0 [0; 0; 0; 0]) [0; 0; 0; 0] (repeat 0 16).
Definition permanent_schedule : task_schedule :=
  TaskSchedule 9 TASK_VALID_PERMANENTLY_RUNS TASK_PERIODICITY_FIXED 0 0 0 0 0 0 [1; 0; 0; 0; 0; 0] 0
    (StateConditions 0 [0; 0; 0; 0]) (StateConditions 0 [0; 0; 0; 0]) [0; 0; 0; 0] (repeat 0 16).

Definition example_tasks : list task_config :=
  [TaskConfig 7 TASK_EXECUTOR_THREAD false false; TaskConfig 9 TASK_EXECUTOR_WORKQUEUE false false].
Definition idle_task : task_data := TaskData 0 false false 0 false false.
Definition zero_state : task_schedule_state := ScheduleState None false 0 0 0 0.

Definition runner_store : kv_state (gmap Z (list Z)) := KvState ∅ [] [] 0 [].
Definition blank_runner : runner (gmap Z (list Z)) :=
  Runner (repeat (task_schedule_of_bytes (repeat 0 50)) 3) [] 0 [] [] [] false false false None runner_store [].

Definition boot_runner (schedules : list task_schedule) : exec (runner (gmap Z (list Z))) :=
  task_runner_init example_crc runner_slots 3 5 blank_runner schedules (repeat zero_state 3) example_tasks [idle_task; idle_task].

Definition run_runner (m : exec (runner (gmap Z (list Z)))) (app uptime : Z) : exec (runner (gmap Z (list Z))) :=
  let! r := m in task_runner_iterate example_crc runner_slots 3 5 r app uptime 0 50.

Lemma runner_store_inv : kv_inv example_crc runner_slots runner_store.
Proof. split; [by split|]. intros key v. change ((∅ : gmap Z (list Z)) !! key = Some v -> bytes_ok v). by rewrite lookup_empty. Qed.

Lemma example_before_init s1 s2 :
  Forall (fun s => schedule_typed s /\ schedule_wf s /\ bytes_ok (task_schedule_bytes s)) [s1; s2] ->
  before_init example_crc runner_slots 3 blank_runner [s1; s2] (repeat zero_state 3) example_tasks [idle_task; idle_task].
Proof.
  intros Hs. split; [|repeat constructor].
  split; [reflexivity|cbn; lia|reflexivity| |reflexivity|lia|cbn; lia|exact Hs|apply runner_store_inv| |reflexivity].
  - apply Forall_forall. intros x Hx%list_elem_of_In%repeat_spec. subst. apply zero_schedule_wf.
  - apply Forall_forall. intros x Hx%list_elem_of_In%repeat_spec. subst. unfold in_u. cbn. lia.
Qed.

Lemma example_schedule_ok id v t :
  0 <= id < 256 -> 0 <= v < 256 -> 0 <= t < 256 ->
  let s := TaskSchedule id v TASK_PERIODICITY_FIXED 0 t 0 0 0 0 [1; 0; 0; 0; 0; 0] 0
    (StateConditions 0 [0; 0; 0; 0]) (StateConditions 0 [0; 0; 0; 0]) [0; 0; 0; 0] (repeat 0 16) in
  forallb (fun b => (0 <=? b) && (b <? 256)) (task_schedule_bytes s) = true ->
  schedule_typed s /\ schedule_wf s /\ bytes_ok (task_schedule_bytes s).
Proof.
  intros Hid Hv Ht s Hb. split; [|split].
  - split; cbn; try done; unfold in_u; lia.
  - split; cbn; try done; unfold in_u, bytes_ok, byte_ok; try lia. repeat constructor; lia.
  - apply Forall_forall. intros b Hin%list_elem_of_In. rewrite forallb_forall in Hb. specialize (Hb b Hin). unfold byte_ok. lia.
Qed.

Lemma example_schedules_ok :
  Forall (fun s => schedule_typed s /\ schedule_wf s /\ bytes_ok (task_schedule_bytes s)) [timed_schedule; permanent_schedule].
Proof.
  constructor; [|constructor; [|constructor]]; apply example_schedule_ok;
    (unfold TASK_VALID_ACTIVE, TASK_VALID_PERMANENTLY_RUNS; lia) || (vm_compute; reflexivity).
Qed.

Lemma exec_done_inj {A} (x y : A) : Done x = Done y -> x = y.
Proof. by intros [= ->]. Qed.

Lemma boot_runner_inv s1 s2 r :
  Forall (fun s => schedule_typed s /\ schedule_wf s /\ bytes_ok (task_schedule_bytes s)) [s1; s2] ->
  boot_runner [s1; s2] = Done r -> runner_inv example_crc runner_slots 3 r.
Proof.
  intros Hs Hb. destruct (task_runner_init_ok example_crc runner_slots 3 5 runner_slots_ok blank_runner _ _ _ _
    (example_before_init s1 s2 Hs)) as (r1 & Hi & Hr).
  assert (Heq : Done r1 = Done r) by (rewrite <- Hb; symmetry; exact Hi). apply exec_done_inj in Heq. by rewrite <- Heq.
Qed.

Definition booted : runner (gmap Z (list Z)) :=
  Eval vm_compute in match boot_runner [timed_schedule; permanent_schedule] with Done r => r | _ => blank_runner end.

Lemma booted_ok : boot_runner [timed_schedule; permanent_schedule] = Done booted.
Proof. vm_compute. reflexivity. Qed.

Lemma booted_inv : runner_inv example_crc runner_slots 3 booted.
Proof. apply (boot_runner_inv _ _ _ example_schedules_ok booted_ok). Qed.

(** The application is active: both tasks start. *)
Definition running_both : runner (gmap Z (list Z)) :=
  Eval vm_compute in match run_runner (Done booted) 4 10 with Done r => r | _ => blank_runner end.

Lemma running_both_ok : task_runner_iterate example_crc runner_slots 3 5 booted 4 10 0 50 = Done running_both.
Proof. vm_compute. reflexivity. Qed.

Lemma running_both_step : runner_step example_crc runner_slots 3 5 booted running_both.
Proof. apply (step_iterate example_crc runner_slots 3 5 booted 4 10 0 50); [unfold in_u; lia|apply running_both_ok]. Qed.

Lemma running_both_inv : runner_inv example_crc runner_slots 3 running_both.
Proof. apply (runner_step_inv example_crc runner_slots 3 5 runner_slots_ok booted); [apply booted_inv|apply running_both_step]. Qed.

Lemma task_runner_safe_witness :
  map running (tsk_states running_both) = [true; true] /\
  exists r2, task_runner_iterate example_crc runner_slots 3 5 running_both 0 11 0 50 = Done r2.
Proof.
  split; [vm_compute; reflexivity|].
  destruct (task_runner_safe example_crc runner_slots 3 5 runner_slots_ok blank_runner _ _ _ _ booted running_both
    (example_before_init _ _ example_schedules_ok) booted_ok (rtc_once _ _ running_both_step)) as (_ & _ & _ & Hnext).
  apply Hnext; [unfold in_u; lia|left; vm_compute; reflexivity].
Defined.

Lemma task_runner_iterate_correct_witness :
  exists r', task_runner_iterate example_crc runner_slots 3 5 booted 4 10 0 50 = Done r' /\
    exists d, tsk_states r' !! 0%nat = Some d /\ running d = true /\ schedule_idx d = 0.
Proof.
  destruct (task_runner_iterate_correct example_crc runner_slots 3 5 booted 4 10 0 50 booted_inv
    ltac:(unfold in_u; lia) ltac:(vm_compute; reflexivity)) as (r1 & r' & Hit & Hend & _ & _ & Htask).
  exists r'. split; [exact Hit|]. rewrite running_both_ok in Hit. injection Hit as <-.
  eexists. split; [vm_compute; reflexivity|]. split; reflexivity.
Defined.

Definition running_11 : runner (gmap Z (list Z)) :=
  Eval vm_compute in match run_runner (Done running_both) 4 11 with Done r => r | _ => blank_runner end.
Definition running_12 : runner (gmap Z (list Z)) :=
  Eval vm_compute in match run_runner (Done running_11) 4 12 with Done r => r | _ => blank_runner end.

Lemma running_12_runs : task_runs_on example_crc runner_slots 3 5 0 running_both 2 running_12.
Proof.
  apply (runs_iterate example_crc runner_slots 3 5 0 running_both 1 running_11 running_12 (TaskData 0 true false 0 false true) 4 12 0 50);
    [|unfold in_u; lia|vm_compute; reflexivity..].
  apply (runs_iterate example_crc runner_slots 3 5 0 running_both 0 running_both running_11 (TaskData 0 true false 0 false true) 4 11 0 50);
    [apply runs_start|unfold in_u; lia|vm_compute; reflexivity..].
Qed.

Lemma task_timeout_enforced_witness :
  exists d, tsk_states running_12 !! 0%nat = Some d /\ running d = true /\ signaled d = true.
Proof.
  destruct (task_timeout_enforced example_crc runner_slots 3 5 runner_slots_ok 0 0 2 running_both running_12
    timed_schedule (ScheduleState None false 10 0 0 0) (TaskData 0 true false 0 false true) running_both_inv
    ltac:(vm_compute; reflexivity) ltac:(vm_compute; lia) ltac:(vm_compute; reflexivity) eq_refl
    ltac:(vm_compute; reflexivity) eq_refl eq_refl eq_refl eq_refl ltac:(cbn; lia) ltac:(cbn; lia) ltac:(cbn; lia)
    running_12_runs) as (d & Hd & Hrun & _ & Hsig).
  exists d. split; [exact Hd|]. split; [exact Hrun|exact Hsig].
Defined.

(** Schedule 1 is replaced in the store while both tasks run. *)
Definition changed_schedules : runner (gmap Z (list Z)) :=
  Eval vm_compute in
  match kv_call 3 running_both (kv_store_write example_crc runner_slots (kv running_both) 1002 (task_schedule_bytes timed_schedule)) with
  | Done (_, r) => r
  | _ => blank_runner
  end.

Lemma changed_schedules_inv : runner_inv example_crc runner_slots 3 changed_schedules.
Proof.
  apply (runner_step_inv example_crc runner_slots 3 5 runner_slots_ok running_both); [apply running_both_inv|].
  apply (step_kv_write example_crc runner_slots 3 5 running_both 1002 (task_schedule_bytes timed_schedule) 50).
  - vm_compute. discriminate.
  - pose proof example_schedules_ok as Hok. inversion Hok as [|x l (_ & _ & Hb) _]. exact Hb.
  - vm_compute. reflexivity.
Qed.

Lemma task_runner_reload_correct_witness :
  exists r', task_runner_iterate example_crc runner_slots 3 5 changed_schedules 4 11 0 50 = Done r' /\
    flag_terminating r' = true /\ map signaled (tsk_states r') = [true; true].
Proof.
  assert (Hmay : may_reload changed_schedules).
  { right. intros [|[|i]] st Hi Hst; [vm_compute in Hst; by injection Hst as <-..|vm_compute in Hi; lia]. }
  destruct (task_runner_reload_correct example_crc runner_slots 3 5 runner_slots_ok changed_schedules 4 11 0 50 changed_schedules_inv
    ltac:(unfold in_u; lia) Hmay ltac:(vm_compute; reflexivity)) as (r1 & r' & Hit & [_ Ets _] & Hcase).
  rewrite Ets in Hcase. assert (Hex : existsb running (map ended (tsk_states changed_schedules)) = true) by (vm_compute; reflexivity).
  rewrite Hex in Hcase. destruct Hcase as (Hte & _). exists r'. split; [exact Hit|]. split; [exact Hte|].
  assert (Hc : match task_runner_iterate example_crc runner_slots 3 5 changed_schedules 4 11 0 50 with
    | Done r => map signaled (tsk_states r) | _ => [] end = [true; true]) by (vm_compute; reflexivity).
  rewrite Hit in Hc. exact Hc.
Defined.

(** A schedule for a task that does not exist, then a change in the store. *)
Definition unknown_task : task_schedule :=
  TaskSchedule 8 TASK_VALID_ACTIVE TASK_PERIODICITY_FIXED 0 2 0 0 0 0 [1; 0; 0; 0; 0; 0] 0
    (StateConditions 0 [0; 0; 0; 0]) (StateConditions 0 [0; 0; 0; 0]) [0; 0; 0; 0] (repeat 0 16).

Definition booted_unknown : runner (gmap Z (list Z)) :=
  Eval vm_compute in match boot_runner [timed_schedule; unknown_task] with Done r => r | _ => blank_runner end.

Lemma booted_unknown_inv : runner_inv example_crc runner_slots 3 booted_unknown.
Proof.
  apply (boot_runner_inv timed_schedule unknown_task); [|vm_compute; reflexivity].
  constructor; [|constructor; [|constructor]]; apply example_schedule_ok; (unfold TASK_VALID_ACTIVE; lia) || (vm_compute; reflexivity).
Qed.

Lemma reload_without_task_faults_witness :
  exists rc r, kv_call 3 booted_unknown (kv_store_delete example_crc runner_slots (kv booted_unknown) 1002) = Done (rc, r) /\
    task_runner_iterate example_crc runner_slots 3 5 r 4 10 0 50 = Fault.
Proof.
  do 2 eexists. assert (Hk : kv_call 3 booted_unknown (kv_store_delete example_crc runner_slots (kv booted_unknown) 1002) = Done (_, _))
    by (vm_compute; reflexivity).
  split; [exact Hk|].
  apply (reload_without_task_faults example_crc runner_slots 3 5 _ 4 10 0 50 1 (ScheduleState None false 0 0 0 255)
    (runner_step_inv example_crc runner_slots 3 5 runner_slots_ok _ _ booted_unknown_inv
       (step_kv_delete example_crc runner_slots 3 5 _ 1002 _ _ Hk))); vm_compute; (reflexivity || lia).
Defined.

(** Slot 0 of the store holds a schedule, slot 0 of the defaults is invalid.  Loading
    the defaults anew keeps the stored schedule in use and in the store. *)
Definition invalid_schedule : task_schedule := task_schedule_of_bytes (repeat 0 50).

Definition before_reset : runner (gmap Z (list Z)) :=
  Runner [timed_schedule; permanent_schedule; invalid_schedule] (repeat zero_state 3) 2 example_tasks [idle_task; idle_task]
    [invalid_schedule; permanent_schedule] false false false (Some 0%nat)
    (KvState {[1001 := task_schedule_bytes timed_schedule]} [true] [] 0 []) [].

Example stale_schedule_survives_reset :
  match task_runner_schedules_load example_crc runner_slots 3 before_reset 6 (default_sch before_reset) with
  | Done (n, r) => n = 2%nat /\ sch r !! 0%nat = Some timed_schedule /\
      kv_slot runner_slots (kv r) 0 = timed_schedule
  | _ => False
  end.
Proof. vm_compute. repeat split. Qed.
