(* ===== verification/CPatch.v ===== *)
(** * Binary patching

    [subsys/cpatch/patch.c]: validation of a patch file and the interpreter that applies
    its instructions to an input file.  Flash areas, the buffered output stream and the
    CRC are parameters with the behaviour they document. *)

From stdpp Require Import base tactics numbers list.
From Stdlib Require Import ZArith Lia.
From S2P Require Import Prelude.

Local Open Scope Z_scope.
Local Open Scope infuse_scope.

(** ** What the interpreter calls *)

(** Flash areas with state [F]: a read returns the bytes it stored, which are the
    requested ones when it succeeds.  Output streams with state [S]: a buffered write
    returns the chunks it put on the flash, each of which was passed to the callback. *)
Class PatchApi (F S : Type) := {
  flash_area_read : F -> Z -> Z -> Z * list Z * F;
  flash_area_crc32 : F -> Z -> Z -> Z * Z * F;
  stream_flash_buffered_write : S -> list Z -> bool -> Z * list (list Z) * S;
  stream_flash_bytes_written : S -> Z;
  crc32_ieee_update : Z -> list Z -> Z;
}.

Definition crc32_ieee {F S} `{PatchApi F S} (l : list Z) : Z := crc32_ieee_update 0 l.

(** ** Instructions *)

Definition COPY_LEN_U4 : Z := Z.shiftl 0 4.
Definition COPY_LEN_U12 : Z := Z.shiftl 1 4.
Definition COPY_LEN_U20 : Z := Z.shiftl 2 4.
Definition COPY_LEN_U32 : Z := Z.shiftl 3 4.
Definition WRITE_LEN_U4 : Z := Z.shiftl 4 4.
Definition WRITE_LEN_U12 : Z := Z.shiftl 5 4.
Definition WRITE_LEN_U20 : Z := Z.shiftl 6 4.
Definition WRITE_LEN_U32 : Z := Z.shiftl 7 4.
Definition ADDR_SHIFT_S8 : Z := Z.shiftl 8 4.
Definition ADDR_SHIFT_S16 : Z := Z.shiftl 9 4.
Definition ADDR_SET_U32 : Z := Z.shiftl 10 4.
Definition PATCH : Z := Z.shiftl 11 4.
Definition OPCODE_MASK : Z := 0xF0.
Definition DATA_MASK : Z := 0x0F.

Inductive opcode_family := FAMILY_NONE | FAMILY_COPY | FAMILY_WRITE | FAMILY_PATCH | FAMILY_ADDR.

Definition CALLBACK_CHUNK_MASK : Z := 0xFFFFF000.
Definition CPATCH_MAGIC_NUMBER : Z := 0xBA854092.
Definition CPATCH_MAJOR_VERSION : Z := 1.

Record cpatch_array_validation := ArrayValidation { av_length : Z; av_crc : Z }.

Record cpatch_header := CPatchHeader {
  magic_value : Z;
  version_major : Z;
  version_minor : Z;
  input_file : cpatch_array_validation;
  output_file : cpatch_array_validation;
  patch_file : cpatch_array_validation;
  header_crc : Z;
}.

Definition sizeof_cpatch_header : Z := 34.

(** The packed struct from its bytes. *)
Definition header_field (off n : Z) (l : list Z) : Z := le_get (ztake n (zdrop off l)).
Definition cpatch_header_of_bytes (l : list Z) : cpatch_header :=
  CPatchHeader (header_field 0 4 l) (header_field 4 1 l) (header_field 5 1 l)
    (ArrayValidation (header_field 6 4 l) (header_field 10 4 l))
    (ArrayValidation (header_field 14 4 l) (header_field 18 4 l))
    (ArrayValidation (header_field 22 4 l) (header_field 26 4 l)) (header_field 30 4 l).

Section cpatch.
Context {F S : Type} `{PatchApi F S}.

(** [struct patch_state] with the patch area, and the rest of the world: the input
    area, the output, [progress_crc], and the progress callbacks made. *)
Record patch_state := PatchState {
  ps_patch : F;
  ps_pending : opcode_family;
  operation_count : Z;
  input_offset : Z;
  patch_offset : Z;
  ps_buffer : list Z;
}.

Record world := World {
  w_input : F;
  w_output : S;
  progress_crc : Z;
  w_progress : list (Z * Z);
}.

Implicit Types (st : patch_state) (w : world).

Definition set_op st (pending : opcode_family) (count : Z) : patch_state :=
  PatchState (ps_patch st) pending count (input_offset st) (patch_offset st) (ps_buffer st).
Definition set_operation_count st (count : Z) : patch_state := set_op st (ps_pending st) count.
Definition set_input_offset st (off : Z) : patch_state :=
  PatchState (ps_patch st) (ps_pending st) (operation_count st) off (patch_offset st) (ps_buffer st).
Definition set_ps_buffer st (l : list Z) : patch_state :=
  PatchState (ps_patch st) (ps_pending st) (operation_count st) (input_offset st) (patch_offset st) l.
Definition set_w_input w (f : F) : world := World f (w_output w) (progress_crc w) (w_progress w).

(** Bytes stored at the start of the buffer. *)
Definition buffer_store st (mem : list Z) : patch_state := set_ps_buffer st (zwrite 0 mem (ps_buffer st)).
Definition buffer_at st (i : nat) : Z := nth i (ps_buffer st) 0.

(** The bytes go wherever the caller wants them. *)
Definition binary_patch_read st (len : Z) : Z * list Z * patch_state :=
  let '(rc, mem, patch) := flash_area_read (ps_patch st) (sizeof_cpatch_header + patch_offset st) len in
  (rc, mem, PatchState patch (ps_pending st) (operation_count st) (input_offset st)
              (u32 (patch_offset st + len)) (ps_buffer st)).

Definition binary_patch_read_buffer st (len : Z) : Z * patch_state :=
  let '(rc, mem, st) := binary_patch_read st len in (rc, buffer_store st mem).

(** The stream's callback updates the CRC with every chunk. *)
Definition crc_update w (buf : list Z) : world :=
  World (w_input w) (w_output w) (crc32_ieee_update (progress_crc w) buf) (w_progress w).

Definition output_write w (data : list Z) (flush : bool) : Z * world :=
  let '(rc, chunks, out) := stream_flash_buffered_write (w_output w) data flush in
  (rc, fold_left crc_update chunks (World (w_input w) out (progress_crc w) (w_progress w))).

(** ** Running instructions *)

Fixpoint do_copy (fuel : nat) w st : exec (Z * world * patch_state) :=
  if operation_count st =? 0 then Done (0, w, st)
  else match fuel with
  | O => NoFuel
  | Datatypes.S fuel =>
      let len := Z.min (operation_count st) 64 in
      let '(rc, mem, input) := flash_area_read (w_input w) (input_offset st) len in
      let w := set_w_input w input in
      let st := buffer_store st mem in
      if rc <? 0 then Done (rc, w, st)
      else
        let '(rc, w) := output_write w (ztake len (ps_buffer st)) false in
        if rc <? 0 then Done (rc, w, st)
        else do_copy fuel w (set_operation_count (set_input_offset st (u32 (input_offset st + len))) (operation_count st - len))
  end.

Fixpoint do_write (fuel : nat) w st : exec (Z * world * patch_state) :=
  if operation_count st =? 0 then Done (0, w, st)
  else match fuel with
  | O => NoFuel
  | Datatypes.S fuel =>
      let len := Z.min (operation_count st) 64 in
      let '(rc, st) := binary_patch_read_buffer st len in
      if rc <? 0 then Done (rc, w, st)
      else
        let '(rc, w) := output_write w (ztake len (ps_buffer st)) false in
        if rc <? 0 then Done (rc, w, st)
        else do_write fuel w (set_operation_count (set_input_offset st (u32 (input_offset st + len))) (operation_count st - len))
  end.

(** The length of the write that follows a copy; [true] ends the patch. *)
Definition patch_write_len st (len : Z) : bool * patch_state :=
  if negb (Z.land len 0x80 =? 0) then (false, set_operation_count st 1)
  else
    let '(_, mem, st) := binary_patch_read st 1 in
    let len := match mem with [] => len | b :: _ => b end in
    if len =? 0 then (true, st) else (false, set_operation_count st len).

(** The result of the reads of [len] is not looked at; a first read that stores
    nothing leaves [len] without a value. *)
Fixpoint do_cpatch (fuel : nat) w st : exec (Z * world * patch_state) :=
  match fuel with
  | O => NoFuel
  | Datatypes.S fuel' =>
      let '(_, mem, st) := binary_patch_read st 1 in
      match mem with
      | [] => Fault
      | len :: _ =>
          if len =? 0 then Done (0, w, st)
          else
            let! (rc, w, st) := do_copy fuel w (set_operation_count st (Z.land len 0x7F)) in
            if rc <? 0 then Done (rc, w, st)
            else
              let '(stop, st) := patch_write_len st len in
              if stop then Done (0, w, st)
              else
                let! (rc, w, st) := do_write fuel w st in
                if rc <? 0 then Done (rc, w, st) else do_cpatch fuel' w st
      end
  end.

(** Operand of a copy or write instruction. *)
Definition fetch_len (rc : Z) st (op_data : Z) (width : Z) (family : opcode_family) : Z * patch_state :=
  if width =? 0 then (rc, set_op st family op_data)
  else
    let '(rc, st) := binary_patch_read_buffer st width in
    let count :=
      if width =? 1 then Z.lor (Z.shiftl op_data 8) (buffer_at st 0)
      else if width =? 2 then Z.lor (Z.shiftl op_data 16) (le_get (ztake 2 (ps_buffer st)))
      else le_get (ztake 4 (ps_buffer st)) in
    (rc, set_op st family count).

(** The switch of [opcode_fetch]. *)
Definition opcode_decode (rc : Z) st (op_code op_data : Z) : Z * patch_state :=
  if op_code =? COPY_LEN_U4 then fetch_len rc st op_data 0 FAMILY_COPY
  else if op_code =? COPY_LEN_U12 then fetch_len rc st op_data 1 FAMILY_COPY
  else if op_code =? COPY_LEN_U20 then fetch_len rc st op_data 2 FAMILY_COPY
  else if op_code =? COPY_LEN_U32 then fetch_len rc st op_data 4 FAMILY_COPY
  else if op_code =? WRITE_LEN_U4 then fetch_len rc st op_data 0 FAMILY_WRITE
  else if op_code =? WRITE_LEN_U12 then fetch_len rc st op_data 1 FAMILY_WRITE
  else if op_code =? WRITE_LEN_U20 then fetch_len rc st op_data 2 FAMILY_WRITE
  else if op_code =? WRITE_LEN_U32 then fetch_len rc st op_data 4 FAMILY_WRITE
  else if op_code =? ADDR_SHIFT_S8 then
    let '(rc, st) := binary_patch_read_buffer st 1 in
    (rc, set_op st FAMILY_ADDR (u32 (input_offset st + s8 (buffer_at st 0))))
  else if op_code =? ADDR_SHIFT_S16 then
    let '(rc, st) := binary_patch_read_buffer st 2 in
    (rc, set_op st FAMILY_ADDR (u32 (input_offset st + s16 (le_get (ztake 2 (ps_buffer st))))))
  else if op_code =? ADDR_SET_U32 then
    let '(rc, st) := binary_patch_read_buffer st 4 in
    (rc, set_op st FAMILY_ADDR (le_get (ztake 4 (ps_buffer st))))
  else if op_code =? PATCH then (rc, set_op st FAMILY_PATCH (operation_count st))
  else (- EINVAL, st).

Definition opcode_fetch st : Z * patch_state :=
  let '(rc, st) := binary_patch_read_buffer st 1 in
  if rc <? 0 then (rc, st)
  else opcode_decode rc st (Z.land (buffer_at st 0) OPCODE_MASK) (Z.land (buffer_at st 0) DATA_MASK).

Definition opcode_run (fuel : nat) w st : exec (Z * world * patch_state) :=
  match ps_pending st with
  | FAMILY_ADDR => Done (0, w, set_input_offset st (operation_count st))
  | FAMILY_COPY => if operation_count st =? 0 then Done (- EINVAL, w, st) else do_copy fuel w st
  | FAMILY_WRITE => if operation_count st =? 0 then Done (- EINVAL, w, st) else do_write fuel w st
  | FAMILY_PATCH => do_cpatch fuel w st
  | FAMILY_NONE => Done (- EINVAL, w, st)
  end.

(** ** Validation *)

(** The result code, the header read, and the two areas. *)
Definition cpatch_patch_start (input patch : F) : Z * cpatch_header * F * F :=
  let '(rc, bytes, patch) := flash_area_read patch 0 sizeof_cpatch_header in
  let header := cpatch_header_of_bytes bytes in
  if rc <? 0 then (rc, header, input, patch)
  else if negb (magic_value header =? CPATCH_MAGIC_NUMBER) then (- EINVAL, header, input, patch)
  else if negb (version_major header =? CPATCH_MAJOR_VERSION) then (- EINVAL, header, input, patch)
  else if negb (crc32_ieee (ztake (sizeof_cpatch_header - 4) bytes) =? header_crc header) then (- EINVAL, header, input, patch)
  else
    let '(rc, crc, input) := flash_area_crc32 input 0 (av_length (input_file header)) in
    if rc <? 0 then (rc, header, input, patch)
    else if negb (crc =? av_crc (input_file header)) then (- EINVAL, header, input, patch)
    else
      let '(rc, crc, patch) := flash_area_crc32 patch sizeof_cpatch_header (av_length (patch_file header)) in
      if rc <? 0 then (rc, header, input, patch)
      else if negb (crc =? av_crc (patch_file header)) then (- EINVAL, header, input, patch)
      else (0, header, input, patch).

(** ** Application *)

Definition report_progress (progress_cb : bool) (header : cpatch_header) (last_callback : Z) w : Z * world :=
  let this_callback := Z.land (stream_flash_bytes_written (w_output w)) CALLBACK_CHUNK_MASK in
  if progress_cb && negb (this_callback =? last_callback) then
    (this_callback, World (w_input w) (w_output w) (progress_crc w)
                      (w_progress w ++ [(this_callback, av_length (output_file header))]))
  else (last_callback, w).

(** The loop over the patch file, and what follows it. *)
Fixpoint apply_loop (fuel : nat) (progress_cb : bool) (header : cpatch_header) (last_callback : Z) w st
  : exec (Z * world * patch_state) :=
  if patch_offset st <? av_length (patch_file header) then
    match fuel with
    | O => NoFuel
    | Datatypes.S fuel' =>
        let '(rc, st) := opcode_fetch st in
        if rc <? 0 then Done (rc, w, st)
        else
          let! (rc, w, st) := opcode_run fuel w st in
          if rc <? 0 then Done (rc, w, st)
          else
            let '(last_callback, w) := report_progress progress_cb header last_callback w in
            apply_loop fuel' progress_cb header last_callback w st
    end
  else Done (0, w, st).

Definition cpatch_patch_apply (fuel : nat) (input patch : F) (output : S) (header : cpatch_header)
  (progress_cb : bool) : exec (Z * world) :=
  let st := PatchState patch FAMILY_NONE 0 0 0 (repeat 0 64) in
  let! (rc, w, st) := apply_loop fuel progress_cb header 0 (World input output 0 []) st in
  if rc <? 0 then Done (rc, w)
  else
    let '(rc, w) := output_write w [] true in
    if rc <? 0 then Done (rc, w)
    else if negb (stream_flash_bytes_written (w_output w) =? av_length (output_file header))
            || negb (progress_crc w =? av_crc (output_file header)) then Done (- EINVAL, w)
    else Done (0, w).
End cpatch.
