(* ===== verification/CPatchSpec.v ===== *)
(** * What the patch interpreter computes

    Instructions as data, their wire format and their meaning on an input file; applying
    an encoded patch writes exactly the file the instructions describe, and reports
    success exactly when that file has the length and CRC the header announces. *)

From stdpp Require Import base tactics numbers list.
From Stdlib Require Import ZArith Lia.
From S2P Require Import Prelude CPatch.

Local Open Scope Z_scope.
Local Open Scope infuse_scope.

(** ** Documented behaviour of flash areas, streams and the CRC *)

(** [fm] is the content of an area, [flushed] what a stream has put on the flash and
    [pending] what it still buffers. *)
Class PatchSpec (F S : Type) `{PatchApi F S} (fm : F -> list Z) (flushed pending : S -> list Z) : Prop := {
  pa_read f off n : 0 <= off -> 0 <= n ->
    let '(rc, mem, f') := flash_area_read f off n in
    fm f' = fm f /\ bytes_ok mem /\ (zlen (fm f) < off + n -> rc < 0) /\
    (0 <= rc -> off + n <= zlen (fm f) -> mem = ztake n (zdrop off (fm f)));
  pa_crc32 f off n :
    let '(rc, crc, f') := flash_area_crc32 f off n in
    fm f' = fm f /\ (0 <= rc -> crc = crc32_ieee (ztake n (zdrop off (fm f))));
  pa_write s data flush :
    let '(rc, chunks, s') := stream_flash_buffered_write s data flush in
    flushed s' = flushed s ++ concat chunks /\
    (0 <= rc -> flushed s' ++ pending s' = flushed s ++ pending s ++ data /\ (flush = true -> pending s' = []));
  pa_written s : stream_flash_bytes_written s = zlen (flushed s);
  pa_crc_nil c : crc32_ieee_update c [] = c;
  pa_crc_range c l : in_u 32 c -> in_u 32 (crc32_ieee_update c l);
  pa_crc_app c a b : crc32_ieee_update (crc32_ieee_update c a) b = crc32_ieee_update c (a ++ b);
}.

(** ** Instructions *)

Inductive len_width := W4 | W12 | W20 | W32.

(** One step of a patch instruction: copy [n] bytes, write [bs].  A single byte may use
    the short form. *)
Record segment := Segment { seg_short : bool; seg_copy : Z; seg_bytes : list Z }.

Inductive instr :=
  | Copy (w : len_width) (n : Z)
  | Write (w : len_width) (bs : list Z)
  | ShiftS8 (d : Z)
  | ShiftS16 (d : Z)
  | SetAddr (a : Z)
  | Patch (segs : list segment) (tail : Z).

Definition width_limit (w : len_width) : Z :=
  match w with W4 => 2 ^ 4 | W12 => 2 ^ 12 | W20 => 2 ^ 20 | W32 => 2 ^ 32 end.

Definition segment_ok (s : segment) : Prop :=
  0 <= seg_copy s < 128 /\ bytes_ok (seg_bytes s) /\
  if seg_short s then zlen (seg_bytes s) = 1 else 0 < seg_copy s /\ 0 < zlen (seg_bytes s) < 256.

Definition instr_ok (i : instr) : Prop :=
  match i with
  | Copy w n => 0 < n < width_limit w
  | Write w bs => bytes_ok bs /\ 0 < zlen bs < width_limit w
  | ShiftS8 d => in_s 8 d
  | ShiftS16 d => in_s 16 d
  | SetAddr a => in_u 32 a
  | Patch segs tail => Forall segment_ok segs /\ 0 <= tail < 128
  end.

(** ** Wire format *)

Definition encode_len (base : Z) (w : len_width) (n : Z) : list Z :=
  match w with
  | W4 => [base + n]
  | W12 => [base + 16 + n / 256; n mod 256]
  | W20 => (base + 32 + n / 65536) :: le_put 2 n
  | W32 => (base + 48) :: le_put 4 n
  end.

Definition encode_segment (s : segment) : list Z :=
  if seg_short s then (seg_copy s + 128) :: seg_bytes s else seg_copy s :: zlen (seg_bytes s) :: seg_bytes s.

Definition encode_tail (tail : Z) : list Z := if tail =? 0 then [0] else [tail; 0].

Definition encode_instr (i : instr) : list Z :=
  match i with
  | Copy w n => encode_len 0 w n
  | Write w bs => encode_len 64 w (zlen bs) ++ bs
  | ShiftS8 d => 128 :: le_put 1 d
  | ShiftS16 d => 144 :: le_put 2 d
  | SetAddr a => 160 :: le_put 4 a
  | Patch segs tail => 176 :: concat (map encode_segment segs) ++ encode_tail tail
  end.

Definition encode (l : list instr) : list Z := concat (map encode_instr l).

(** ** Meaning *)

(** The position in the input file and the output so far. *)
Definition copy_step (input : list Z) (n : Z) (s : Z * list Z) : option (Z * list Z) :=
  let '(off, out) := s in
  if off + n <=? zlen input then Some (off + n, out ++ ztake n (zdrop off input)) else None.

Definition write_step (bs : list Z) (s : Z * list Z) : Z * list Z :=
  let '(off, out) := s in (u32 (off + zlen bs), out ++ bs).

Definition segment_step (input : list Z) (g : segment) (s : Z * list Z) : option (Z * list Z) :=
  write_step (seg_bytes g) <$> copy_step input (seg_copy g) s.

Definition instr_step (input : list Z) (i : instr) (s : Z * list Z) : option (Z * list Z) :=
  let '(off, out) := s in
  match i with
  | Copy _ n => copy_step input n s
  | Write _ bs => Some (write_step bs s)
  | ShiftS8 d | ShiftS16 d => Some (u32 (off + d), out)
  | SetAddr a => Some (a, out)
  | Patch segs tail => foldr (fun g k s => segment_step input g s ≫= k) (copy_step input tail) segs s
  end.

Fixpoint patch_meaning (input : list Z) (l : list instr) (s : Z * list Z) : option (Z * list Z) :=
  match l with
  | [] => Some s
  | i :: l => instr_step input i s ≫= patch_meaning input l
  end.

(** Steps of the loops an instruction takes. *)
Definition instr_cost (i : instr) : nat :=
  match i with
  | Copy _ n => Z.to_nat n
  | Write _ bs => length bs
  | Patch segs _ => length segs + 256
  | _ => 1
  end.

(** ** Bytes of the wire format *)

(** A fact about every byte, by evaluation. *)
Lemma byte_forall (P : Z -> bool) : forallb (fun n => P (Z.of_nat n)) (seq 0 256) = true -> forall b, 0 <= b < 256 -> P b = true.
Proof.
  intros Hall b Hb. rewrite forallb_forall in Hall. rewrite <- (Z2Nat.id b) by lia. apply Hall. apply in_seq. lia.
Qed.

Lemma opcode_byte k hi :
  0 <= k < 16 -> 0 <= hi < 16 -> Z.land (16 * k + hi) OPCODE_MASK = 16 * k /\ Z.land (16 * k + hi) DATA_MASK = hi.
Proof.
  intros Hk Hhi.
  pose proof (byte_forall (fun b => (Z.land b OPCODE_MASK =? 16 * (b / 16)) && (Z.land b DATA_MASK =? b mod 16)) eq_refl
    (16 * k + hi) ltac:(lia)) as Hb. cbv beta in Hb.
  replace ((16 * k + hi) / 16) with k in Hb by (apply (Z.div_unique_pos _ _ _ hi); lia).
  replace ((16 * k + hi) mod 16) with hi in Hb by (apply (Z.mod_unique_pos _ _ k); lia). lia.
Qed.

Lemma segment_byte b : 0 <= b < 256 -> Z.land b 0x7F = b mod 128 /\ Z.land b 0x80 = 128 * (b / 128).
Proof.
  intros Hb. pose proof (byte_forall (fun b => (Z.land b 0x7F =? b mod 128) && (Z.land b 0x80 =? 128 * (b / 128))) eq_refl b Hb) as Hx.
  cbv beta in Hx. lia.
Qed.

(** The first byte of a segment, and what follows it. *)
Lemma encode_segment_byte g :
  segment_ok g -> exists b rest, encode_segment g = b :: rest /\ 0 < b < 256 /\ b mod 128 = seg_copy g /\
    if seg_short g then b / 128 = 1 /\ rest = seg_bytes g else b / 128 = 0 /\ rest = zlen (seg_bytes g) :: seg_bytes g.
Proof.
  intros (Hc & _ & Hs). unfold encode_segment. destruct (seg_short g); do 2 eexists; (split; [done|]); split; try lia; split.
  - symmetry. apply (Z.mod_unique_pos _ _ 1); lia.
  - split; [|done]. symmetry. apply (Z.div_unique_pos _ _ _ (seg_copy g)); lia.
  - apply Z.mod_small. lia.
  - split; [|done]. apply Z.div_small. lia.
Qed.

(** ** The interpreter follows the meaning *)

Section correct.
Context {F S : Type} `{PatchSpec F S fm flushed pending}.
Implicit Types (w : world (F := F) (S := S)) (st : patch_state (F := F)).

(** Bytes [bs] stand at position [pos] of the patch data. *)
Definition at_pos (patch : list Z) (pos : Z) (bs : list Z) : Prop :=
  0 <= pos /\ exists post, zdrop (sizeof_cpatch_header + pos) patch = bs ++ post.

Lemma at_pos_app patch pos a b : at_pos patch pos (a ++ b) -> at_pos patch pos a /\ at_pos patch (pos + zlen a) b.
Proof.
  intros [Hp [post He]]. rewrite <- app_assoc in He. pose proof (zlen_nonneg a). unfold at_pos, sizeof_cpatch_header in *.
  split; (split; [lia|]); [by exists (b ++ post)|]. exists post.
  replace (34 + (pos + zlen a)) with ((34 + pos) + zlen a) by lia. rewrite <- (zdrop_zdrop (zlen a) (34 + pos)) by lia. rewrite He. by apply zdrop_app.
Qed.

Lemma at_pos_cons patch pos x b : at_pos patch pos (x :: b) -> at_pos patch pos [x] /\ at_pos patch (pos + 1) b.
Proof. intros Ha. by apply (at_pos_app patch pos [x] b). Qed.

Lemma at_pos_bound patch pos bs : at_pos patch pos bs -> bs <> [] -> 0 <= pos /\ sizeof_cpatch_header + pos + zlen bs <= zlen patch.
Proof.
  intros [Hp [post He]] Hbs. split; [done|]. unfold sizeof_cpatch_header in *. destruct (decide (34 + pos <= zlen patch)) as [Hle|Hgt].
  - apply (f_equal zlen) in He. rewrite zlen_zdrop, zlen_app in He by lia. pose proof (zlen_nonneg post). lia.
  - rewrite zdrop_ge in He by lia. destruct bs; done.
Qed.

(** Everything the flash is asked for succeeds. *)
Context (Hread : forall (f : F) off n, 0 <= off -> 0 <= n -> off + n <= zlen (fm f) -> 0 <= (flash_area_read f off n).1.1).
Context (Hwrite : forall (s : S) data flush, 0 <= (stream_flash_buffered_write s data flush).1.1).
Context (input patch : list Z) (Hin : zlen input < 2 ^ 32) (Hpatch : zlen patch < 2 ^ 32).

(** The interpreter at position [off] of the input and [pos] of the patch, with [out]
    handed to the output stream. *)
Record represents (off pos : Z) (out : list Z) w st : Prop := {
  rep_input : fm (w_input w) = input;
  rep_patch : fm (ps_patch st) = patch;
  rep_off : input_offset st = off;
  rep_pos : patch_offset st = pos;
  rep_out : flushed (w_output w) ++ pending (w_output w) = out;
  rep_crc : progress_crc w = crc32_ieee (flushed (w_output w));
}.

Lemma area_read f off n :
  0 <= off -> 0 <= n -> off + n <= zlen (fm f) ->
  exists rc f', flash_area_read f off n = (rc, ztake n (zdrop off (fm f)), f') /\ 0 <= rc /\ fm f' = fm f.
Proof.
  intros Ho Hn Hle. pose proof (pa_read f off n Ho Hn) as Hr. pose proof (Hread f off n Ho Hn Hle) as Hok.
  destruct (flash_area_read f off n) as [[rc mem] f']. cbn in Hok. destruct Hr as (Hf & _ & _ & Hm). exists rc, f'. by rewrite Hm.
Qed.

Lemma fold_crc_update chunks w :
  fold_left crc_update chunks w =
  World (w_input w) (w_output w) (crc32_ieee_update (progress_crc w) (concat chunks)) (w_progress w).
Proof.
  revert w. induction chunks as [|c l IH]; intros w; cbn; [rewrite pa_crc_nil; by destruct w|]. rewrite IH. cbn. by rewrite pa_crc_app.
Qed.

(** A write to the output. *)
Lemma output_write_ok w data flush :
  progress_crc w = crc32_ieee (flushed (w_output w)) ->
  exists rc w', output_write w data flush = (rc, w') /\ 0 <= rc /\ w_input w' = w_input w /\
    flushed (w_output w') ++ pending (w_output w') = flushed (w_output w) ++ pending (w_output w) ++ data /\
    (flush = true -> pending (w_output w') = []) /\ progress_crc w' = crc32_ieee (flushed (w_output w')).
Proof.
  intros Hc. unfold output_write. pose proof (pa_write (w_output w) data flush) as Hw. pose proof (Hwrite (w_output w) data flush) as Hok.
  destruct (stream_flash_buffered_write _ _ _) as [[rc chunks] s']. cbn in Hok. destruct Hw as (Hf & Hd). destruct (Hd Hok) as (Hd1 & Hd2).
  rewrite fold_crc_update. cbn. do 2 eexists. split; [done|]. cbn. split; [done|]. split; [done|]. split; [done|]. split; [done|].
  rewrite Hc, Hf. unfold crc32_ieee. apply pa_crc_app.
Qed.

Lemma buffer_store_take st mem n : zlen mem = n -> ztake n (ps_buffer (buffer_store st mem)) = mem.
Proof. intros <-. unfold buffer_store. cbn. unfold zwrite. rewrite (ztake_0 0) by lia. cbn [app]. by apply ztake_app. Qed.

Lemma binary_patch_read_ok off pos out w st bs :
  represents off pos out w st -> at_pos patch pos bs -> bs <> [] ->
  exists rc st', binary_patch_read st (zlen bs) = (rc, bs, st') /\ 0 <= rc /\ represents off (pos + zlen bs) out w st' /\
    ps_pending st' = ps_pending st /\ operation_count st' = operation_count st.
Proof.
  intros [] Hat Hne. destruct (at_pos_bound _ _ _ Hat Hne) as [Hp Hb]. unfold binary_patch_read, sizeof_cpatch_header in *.
  pose proof (zlen_nonneg bs). destruct (area_read (ps_patch st) (34 + patch_offset st) (zlen bs)) as (rc & f' & -> & Hrc & Hf);
    [lia|lia|rewrite rep_patch0; lia|].
  rewrite rep_patch0, rep_pos0. destruct Hat as [_ [post He]]. unfold sizeof_cpatch_header in He. rewrite He, ztake_app by done.
  do 2 eexists. split; [done|]. split; [done|]. split; [|done]. split; cbn; try done; [congruence|]. rewrite uwrap_small by lia. lia.
Qed.

Lemma binary_patch_read_buffer_ok off pos out w st bs :
  represents off pos out w st -> at_pos patch pos bs -> bs <> [] ->
  exists rc st', binary_patch_read_buffer st (zlen bs) = (rc, st') /\ 0 <= rc /\ represents off (pos + zlen bs) out w st' /\
    ztake (zlen bs) (ps_buffer st') = bs /\ operation_count st' = operation_count st.
Proof.
  intros Hr Hat Hne. unfold binary_patch_read_buffer. destruct (binary_patch_read_ok _ _ _ _ _ _ Hr Hat Hne) as (rc & st' & -> & Hrc & [] & _ & Hc).
  do 2 eexists. split; [done|]. split; [done|]. split; [by split|]. split; [by apply buffer_store_take|done].
Qed.

Lemma represents_step off pos out w st off' count :
  represents off pos out w st -> represents off' pos out w (set_operation_count (set_input_offset st off') count).
Proof. intros []. by split. Qed.

Lemma do_copy_ok fuel off pos out w st :
  represents off pos out w st -> 0 <= off -> 0 <= operation_count st -> off + operation_count st <= zlen input ->
  operation_count st <= Z.of_nat fuel ->
  exists w' st', do_copy fuel w st = Done (0, w', st') /\
    represents (off + operation_count st) pos (out ++ ztake (operation_count st) (zdrop off input)) w' st'.
Proof.
  revert off out w st. induction fuel as [|fuel IH]; intros off out w st Hr Ho Hc Hle Hf.
  { assert (operation_count st = 0) as Hz by lia. cbn [do_copy]. rewrite Hz. cbn. exists w, st. split; [done|].
    rewrite ztake_0, app_nil_r, Z.add_0_r by lia. done. }
  cbn [do_copy]. destruct (Z.eqb_spec (operation_count st) 0) as [Hz|Hz].
  { exists w, st. split; [done|]. rewrite Hz, ztake_0, app_nil_r, Z.add_0_r by lia. done. }
  set (len := Z.min (operation_count st) 64). destruct Hr as [Ri Rp Ro Rpos Rout Rcrc].
  destruct (area_read (w_input w) (input_offset st) len) as (rc & f' & -> & Hrc & Hf'); [lia|lia|rewrite Ri; lia|].
  rewrite (proj2 (Z.ltb_ge _ _)) by lia. rewrite Ri, Ro. set (mem := ztake len (zdrop off input)).
  assert (Hm : zlen mem = len) by (unfold mem; rewrite zlen_ztake; [done|rewrite zlen_zdrop; lia]).
  rewrite (buffer_store_take st mem len Hm).
  destruct (output_write_ok (set_w_input w f') mem false) as (rc2 & w2 & -> & Hrc2 & Hwi & Hout & _ & Hcrc); [exact Rcrc|].
  rewrite (proj2 (Z.ltb_ge _ _)) by lia. cbn [buffer_store set_ps_buffer operation_count input_offset].
  rewrite Ro, (uwrap_small 32 (off + len)) by lia.
  set (st2 := set_operation_count _ _). cbn in Hout.
  destruct (IH (off + len) (out ++ mem) w2 st2) as (w3 & st3 & -> & Hrep).
  - split; try done; cbn; [by rewrite Hwi; cbn; congruence|rewrite Hout, app_assoc; by rewrite Rout].
  - lia.
  - cbn. lia.
  - cbn. lia.
  - cbn. lia.
  - exists w3, st3. split; [done|]. cbn in Hrep. replace (off + len + (operation_count st - len)) with (off + operation_count st) in Hrep by lia.
    rewrite <- app_assoc in Hrep. unfold mem in Hrep. rewrite <- (zdrop_zdrop len off) in Hrep by lia.
    rewrite <- (ztake_zdrop len (ztake (operation_count st) (zdrop off input))), ztake_ztake, Z.min_l by lia.
    rewrite zdrop_ztake by lia. exact Hrep.
Qed.

Lemma do_write_ok fuel off pos out w st bs :
  represents off pos out w st -> in_u 32 off -> operation_count st = zlen bs -> at_pos patch pos bs -> zlen bs <= Z.of_nat fuel ->
  exists w' st', do_write fuel w st = Done (0, w', st') /\
    represents (u32 (off + zlen bs)) (pos + zlen bs) (out ++ bs) w' st'.
Proof.
  revert off pos out w st bs. induction fuel as [|fuel IH]; intros off pos out w st bs Hr Ho Hc Hat Hf.
  { destruct bs; [|rewrite zlen_cons in Hf; pose proof (zlen_nonneg bs); lia]. cbn [do_write]. rewrite Hc. cbn. exists w, st.
    split; [done|]. rewrite app_nil_r, !Z.add_0_r. by rewrite uwrap_small. }
  cbn [do_write]. rewrite Hc. destruct (Z.eqb_spec (zlen bs) 0) as [Hz|Hz].
  { exists w, st. destruct bs; [|rewrite zlen_cons in Hz; pose proof (zlen_nonneg bs); lia]. split; [done|].
    rewrite app_nil_r, !Z.add_0_r. by rewrite uwrap_small. }
  pose proof (zlen_nonneg bs). set (len := Z.min (zlen bs) 64). rewrite <- (ztake_zdrop len bs) in Hat.
  assert (Hl : zlen (ztake len bs) = len) by (apply zlen_ztake; lia). destruct (at_pos_app _ _ _ _ Hat) as [Hat1 Hat2].
  assert (Hne : ztake len bs <> []) by (intros Hnil; rewrite Hnil, zlen_nil in Hl; lia).
  destruct (binary_patch_read_buffer_ok _ _ _ _ _ _ Hr Hat1 Hne) as (rc & st1 & Hrd & Hrc & [Ri Rp Ro Rpos Rout Rcrc] & Hbuf & Hcnt).
  rewrite Hl in Hrd, Hbuf, Hat2. rewrite Hrd. rewrite (proj2 (Z.ltb_ge _ _)) by lia. rewrite Hbuf.
  destruct (output_write_ok w (ztake len bs) false Rcrc) as (rc2 & w2 & -> & Hrc2 & Hwi & Hout & _ & Hcrc).
  rewrite (proj2 (Z.ltb_ge _ _)) by lia. rewrite Ro, Hcnt, Hc. set (st2 := set_operation_count _ _).
  destruct (IH (u32 (off + len)) (pos + len) (out ++ ztake len bs) w2 st2 (zdrop len bs)) as (w3 & st3 & -> & Hrep).
  - split; cbn; try done; [congruence|congruence|]. rewrite Hout, app_assoc. by rewrite Rout.
  - apply uwrap_bound. lia.
  - cbn. rewrite zlen_zdrop; lia.
  - done.
  - rewrite zlen_zdrop; lia.
  - exists w3, st3. split; [done|]. rewrite zlen_zdrop, uwrap_add_idemp_l, <- app_assoc, ztake_zdrop in Hrep by lia.
    replace (off + len + (zlen bs - len)) with (off + zlen bs) in Hrep by lia.
    by replace (pos + len + (zlen bs - len)) with (pos + zlen bs) in Hrep by lia.
Qed.

Lemma buffer_at_take st b : ztake 1 (ps_buffer st) = [b] -> buffer_at st 0 = b.
Proof. unfold buffer_at. destruct (ps_buffer st); [done|]. cbn. by intros [= ->]. Qed.

Lemma opcode_fetch_ok off pos out w st k hi :
  represents off pos out w st -> 0 <= k < 16 -> 0 <= hi < 16 -> at_pos patch pos [16 * k + hi] ->
  exists rc st', opcode_fetch st = opcode_decode rc st' (16 * k) hi /\ 0 <= rc /\ represents off (pos + 1) out w st'.
Proof.
  intros Hr Hk Hhi Hat. unfold opcode_fetch.
  destruct (binary_patch_read_buffer_ok _ _ _ _ _ _ Hr Hat) as (rc & st1 & Hrd & Hrc & Hrep & Hbuf & _); [done|].
  change (zlen [16 * k + hi]) with 1 in *. rewrite Hrd. rewrite (proj2 (Z.ltb_ge _ _)) by lia. rewrite (buffer_at_take _ _ Hbuf).
  destruct (opcode_byte k hi Hk Hhi) as [-> ->]. by exists rc, st1.
Qed.

Lemma set_op_represents off pos out w st fam count :
  represents off pos out w st -> represents off pos out w (set_op st fam count).
Proof. intros []. by split. Qed.

(** The operand of a copy or a write. *)
Lemma fetch_len_ok off pos out w st wd n fam base rc0 :
  represents off pos out w st -> 0 < n < width_limit wd -> 0 <= rc0 -> at_pos patch pos (drop 1 (encode_len base wd n)) ->
  let hi := match wd with W4 => n | W12 => n / 256 | W20 => n / 65536 | W32 => 0 end in
  let width := match wd with W4 => 0 | W12 => 1 | W20 => 2 | W32 => 4 end in
  exists rc st', fetch_len rc0 st hi width fam = (rc, st') /\ 0 <= rc /\
    represents off (pos + zlen (encode_len base wd n) - 1) out w st' /\ ps_pending st' = fam /\ operation_count st' = n.
Proof.
  intros Hr Hn Hrc0 Hat. unfold fetch_len. destruct wd; cbn [drop encode_len width_limit] in *; rewrite ?drop_0 in Hat; cbv zeta; cbn [Z.eqb].
  - exists rc0. eexists. split; [done|]. split; [done|]. split; [|done]. apply set_op_represents.
    change (zlen [base + n]) with 1. by replace (pos + 1 - 1) with pos by lia.
  - destruct (binary_patch_read_buffer_ok _ _ _ _ _ _ Hr Hat) as (rc & st1 & Hrd & Hrc & Hrep & Hbuf & _); [done|].
    change (zlen [n mod 256]) with 1 in *. rewrite Hrd. cbn [Z.eqb Pos.eqb]. do 2 eexists. split; [done|]. split; [done|].
    change (zlen [base + 16 + n / 256; n mod 256]) with 2. replace (pos + 2 - 1) with (pos + 1) by lia.
    split; [by apply set_op_represents|]. split; [done|]. cbn. rewrite (buffer_at_take _ _ Hbuf).
    pose proof (Z.mod_pos_bound n 256 ltac:(lia)). change 8 with (Z.of_nat 8) at 1. rewrite lor_shiftl_add by lia. cbn. pose proof (Z.div_mod n 256 ltac:(lia)). lia.
  - destruct (binary_patch_read_buffer_ok _ _ _ _ _ _ Hr Hat) as (rc & st1 & Hrd & Hrc & Hrep & Hbuf & _); [done|].
    rewrite zlen_le_put in Hrd, Hrep, Hbuf. change (Z.of_nat 2) with 2 in *. rewrite Hrd. cbn [Z.eqb Pos.eqb]. do 2 eexists. split; [done|]. split; [done|].
    rewrite zlen_cons, zlen_le_put. replace (pos + (1 + Z.of_nat 2) - 1) with (pos + 2) by lia.
    split; [by apply set_op_represents|]. split; [done|]. cbn [set_op operation_count]. rewrite Hbuf, le_get_put.
    change (8 * Z.of_nat 2) with 16. pose proof (Z.mod_pos_bound n (2 ^ 16) ltac:(lia)). rewrite lor_shiftl_add by lia.
    change (2 ^ 16) with 65536 in *. pose proof (Z.div_mod n 65536 ltac:(lia)). lia.
  - destruct (binary_patch_read_buffer_ok _ _ _ _ _ _ Hr Hat) as (rc & st1 & Hrd & Hrc & Hrep & Hbuf & _); [done|].
    rewrite zlen_le_put in Hrd, Hrep, Hbuf. change (Z.of_nat 4) with 4 in *. rewrite Hrd. cbn [Z.eqb Pos.eqb]. do 2 eexists. split; [done|]. split; [done|].
    rewrite zlen_cons, zlen_le_put. replace (pos + (1 + Z.of_nat 4) - 1) with (pos + 4) by lia.
    split; [by apply set_op_represents|]. split; [done|]. cbn [set_op operation_count]. rewrite Hbuf, le_get_put.
    change (8 * Z.of_nat 4) with 32. rewrite Z.mod_small; lia.
Qed.

(** Reading one byte into a variable. *)
Lemma patch_byte_ok off pos out w st b :
  represents off pos out w st -> at_pos patch pos [b] ->
  exists rc st', binary_patch_read st 1 = (rc, [b], st') /\ represents off (pos + 1) out w st'.
Proof.
  intros Hr Hat. destruct (binary_patch_read_ok _ _ _ _ _ _ Hr Hat) as (rc & st' & Hrd & _ & Hrep & _); [done|]. by exists rc, st'.
Qed.

Lemma copy_step_ok fuel off pos out w st n s' :
  represents off pos out w st -> in_u 32 off -> 0 <= n <= Z.of_nat fuel -> copy_step input n (off, out) = Some s' ->
  exists w' st', do_copy fuel w (set_operation_count st n) = Done (0, w', st') /\ represents s'.1 pos s'.2 w' st' /\ in_u 32 s'.1.
Proof.
  intros Hr Ho Hn. unfold copy_step. destruct (Z.leb_spec (off + n) (zlen input)) as [Hle|]; [|done]. intros [= <-]. cbn [fst snd].
  unfold in_u in *. destruct (do_copy_ok fuel off pos out w (set_operation_count st n)) as (w' & st' & Hd & Hrep);
    [by apply set_op_represents|lia|cbn; lia|cbn; lia|cbn; lia|]. cbn in Hrep. exists w', st'. split; [done|]. split; [done|]. lia.
Qed.

Lemma write_step_ok fuel off pos out w st bs :
  represents off pos out w st -> in_u 32 off -> at_pos patch pos bs -> zlen bs <= Z.of_nat fuel ->
  exists w' st', do_write fuel w (set_operation_count st (zlen bs)) = Done (0, w', st') /\
    represents (write_step bs (off, out)).1 (pos + zlen bs) (write_step bs (off, out)).2 w' st' /\ in_u 32 (write_step bs (off, out)).1.
Proof.
  intros Hr Ho Hat Hf. destruct (do_write_ok fuel off pos out w (set_operation_count st (zlen bs)) bs) as (w' & st' & Hd & Hrep);
    [by apply set_op_represents|done|done|done|done|]. exists w', st'. split; [done|]. split; [done|]. by apply uwrap_bound.
Qed.

Abbreviation segments_meaning segs tail := (foldr (fun g k s => segment_step input g s ≫= k) (copy_step input tail) segs).

Lemma do_cpatch_ok fuel off pos out w st segs tail s' :
  represents off pos out w st -> in_u 32 off -> Forall segment_ok segs -> 0 <= tail < 128 ->
  segments_meaning segs tail (off, out) = Some s' ->
  at_pos patch pos (concat (map encode_segment segs) ++ encode_tail tail) -> (length segs + 256 <= fuel)%nat ->
  exists w' st', do_cpatch fuel w st = Done (0, w', st') /\ in_u 32 s'.1 /\
    represents s'.1 (pos + zlen (concat (map encode_segment segs) ++ encode_tail tail)) s'.2 w' st'.
Proof.
  revert off pos out w st segs. induction fuel as [|fuel IH]; intros off pos out w st segs Hr Ho Hok Ht Hm Hat Hf; [lia|].
  cbn [do_cpatch]. destruct segs as [|g segs].
  - cbn [map concat app foldr] in *. unfold encode_tail in *. destruct (Z.eqb_spec tail 0) as [->|Hne].
    + destruct (patch_byte_ok _ _ _ _ _ _ Hr Hat) as (rc & st1 & -> & Hrep). exists w, st1. split; [done|].
      revert Hm. unfold copy_step. destruct (_ <=? _); [|done]. intros [= <-]. cbn [fst snd].
      rewrite ztake_0, app_nil_r, Z.add_0_r by lia. by split.
    + destruct (at_pos_cons _ _ _ _ Hat) as [Hat1 Hat2]. destruct (patch_byte_ok _ _ _ _ _ _ Hr Hat1) as (rc & st1 & -> & Hrep).
      rewrite (proj2 (Z.eqb_neq _ _) Hne). destruct (segment_byte tail ltac:(lia)) as [-> _]. rewrite (Z.mod_small tail 128) by lia.
      destruct (copy_step_ok (Datatypes.S fuel) _ _ _ _ _ tail s' Hrep Ho ltac:(lia) Hm) as (w2 & st2 & -> & Hrep2 & Ho2). cbn [exec_bind].
      unfold patch_write_len. rewrite (proj2 (segment_byte tail ltac:(lia))), (Z.div_small tail 128) by lia. cbn [Z.ltb Z.compare Z.mul Z.eqb negb]. destruct (patch_byte_ok _ _ _ _ _ _ Hrep2 Hat2) as (rc2 & st3 & -> & Hrep3). cbn [Z.eqb].
      exists w2, st3. split; [done|]. split; [done|]. by replace (pos + zlen [tail; 0]) with (pos + 1 + 1) by (change (zlen [tail; 0]) with 2; lia).
  - apply Forall_cons in Hok as [[Hg1 [Hg2 Hg3]] Hok]. cbn [map concat foldr] in *.
    destruct (segment_step input g (off, out)) as [s1|] eqn:Es; [|discriminate Hm]. cbn [mbind option_bind] in Hm.
    unfold segment_step in Es. destruct (copy_step input (seg_copy g) (off, out)) as [[off1 out1]|] eqn:Ec; [|discriminate Es].
    cbn [fmap option_fmap option_map] in Es. injection Es as <-.
    rewrite <- app_assoc in Hat. destruct (at_pos_app _ _ _ _ Hat) as [Hat1 Hat2].
    destruct (encode_segment_byte g ltac:(by split)) as (b & rest & Henc & Hb0 & Hb1 & Hb2).
    rewrite Henc in Hat1. destruct (at_pos_cons _ _ _ _ Hat1) as [Hb Hrest].
    destruct (patch_byte_ok _ _ _ _ _ _ Hr Hb) as (rc & st1 & -> & Hrep).
    rewrite (proj2 (Z.eqb_neq b 0)) by lia. destruct (segment_byte b ltac:(lia)) as [-> Hhi]. rewrite Hb1.
    destruct (copy_step_ok (Datatypes.S fuel) _ _ _ _ _ (seg_copy g) _ Hrep Ho ltac:(lia) Ec) as (w2 & st2 & -> & Hrep2 & Ho2). cbn [exec_bind fst snd] in *.
    cbn [Z.ltb Z.compare]. rewrite Henc, zlen_cons in Hat2.
    assert (Hnext : forall w3 st3, represents (write_step (seg_bytes g) (off1, out1)).1 (pos + (1 + zlen rest)) (write_step (seg_bytes g) (off1, out1)).2 w3 st3 ->
      in_u 32 (write_step (seg_bytes g) (off1, out1)).1 ->
      exists w' st', do_cpatch fuel w3 st3 = Done (0, w', st') /\ in_u 32 s'.1 /\
        represents s'.1 (pos + zlen ((encode_segment g ++ concat (map encode_segment segs)) ++ encode_tail tail)) s'.2 w' st').
    { intros w3 st3 Hr3 Ho3. destruct (IH _ _ _ w3 st3 segs Hr3 Ho3 Hok Ht Hm Hat2) as (w' & st' & Hd & Ho' & Hr'); [cbn in Hf; lia|].
      exists w', st'. split; [done|]. split; [done|]. rewrite <- app_assoc, zlen_app, Henc, zlen_cons, Z.add_assoc. exact Hr'. }
    unfold patch_write_len. rewrite Hhi. destruct (seg_short g).
    + destruct Hb2 as [-> ->]. change (128 * 1 =? 0) with false. cbn [negb].
      destruct (write_step_ok (Datatypes.S fuel) _ _ _ _ _ (seg_bytes g) Hrep2 Ho2 Hrest ltac:(lia)) as (w3 & st3 & Hw & Hrep3 & Ho3).
      rewrite Hg3 in Hw. rewrite Hw. cbn [exec_bind Z.ltb Z.compare]. apply Hnext; [|done]. by rewrite Z.add_assoc.
    + destruct Hb2 as [-> ->]. change (128 * 0 =? 0) with true. cbn [negb]. destruct (at_pos_cons _ _ _ _ Hrest) as [Hlen Hbytes].
      destruct (patch_byte_ok _ _ _ _ _ _ Hrep2 Hlen) as (rc2 & st3 & -> & Hrep3). rewrite (proj2 (Z.eqb_neq (zlen (seg_bytes g)) 0)) by lia.
      destruct (write_step_ok (Datatypes.S fuel) _ _ _ _ _ (seg_bytes g) Hrep3 Ho2 Hbytes ltac:(lia)) as (w4 & st4 & -> & Hrep4 & Ho4).
      cbn [exec_bind Z.ltb Z.compare]. apply Hnext; [|done]. rewrite zlen_cons. by rewrite !Z.add_assoc.
Qed.

Definition width_bits (wd : len_width) : Z := match wd with W4 => 0 | W12 => 1 | W20 => 2 | W32 => 3 end.
Definition width_high (wd : len_width) (n : Z) : Z :=
  match wd with W4 => n | W12 => n / 256 | W20 => n / 65536 | W32 => 0 end.

Lemma width_high_bound wd n : 0 < n < width_limit wd -> 0 <= width_high wd n < 16.
Proof. destruct wd; cbn; intros Hn; Z.to_euclidean_division_equations; lia. Qed.

(** Fetching a copy ([base] 0) or a write ([base] 4). *)
Lemma fetch_copy_write_ok off pos out w st base fam wd n :
  (base, fam) = (0, FAMILY_COPY) \/ (base, fam) = (4, FAMILY_WRITE) ->
  represents off pos out w st -> 0 < n < width_limit wd -> at_pos patch pos (encode_len (16 * base) wd n) ->
  exists rc st', opcode_fetch st = (rc, st') /\ 0 <= rc /\ represents off (pos + zlen (encode_len (16 * base) wd n)) out w st' /\
    ps_pending st' = fam /\ operation_count st' = n.
Proof.
  intros Hf Hr Hn Hat. pose proof (width_high_bound wd n Hn) as Hh.
  assert (Hhead : encode_len (16 * base) wd n = (16 * (base + width_bits wd) + width_high wd n) :: drop 1 (encode_len (16 * base) wd n)).
  { destruct wd; cbn [encode_len drop width_bits width_high]; rewrite ?drop_0; f_equal; lia. }
  rewrite Hhead in Hat. destruct (at_pos_cons _ _ _ _ Hat) as [Hb Hrest].
  assert (Hk : 0 <= base + width_bits wd < 16) by (destruct wd; cbn; destruct Hf as [[= -> ->]|[= -> ->]]; lia).
  destruct (opcode_fetch_ok _ _ _ _ _ _ _ Hr Hk Hh Hb) as (rc & st1 & -> & Hrc & Hrep).
  destruct (fetch_len_ok _ _ _ _ _ wd n fam (16 * base) rc Hrep Hn Hrc Hrest) as (rc2 & st2 & Hfl & Hrc2 & Hrep2 & Hpend & Hcnt).
  exists rc2, st2. split.
  - rewrite <- Hfl. destruct Hf as [[= -> ->]|[= -> ->]]; by destruct wd.
  - split; [done|]. split; [|done]. by replace (pos + zlen (encode_len (16 * base) wd n)) with (pos + 1 + zlen (encode_len (16 * base) wd n) - 1) by lia.
Qed.

(** Fetching an address. *)
Lemma fetch_addr_ok off pos out w st k bs :
  represents off pos out w st -> k = 8 \/ k = 9 \/ k = 10 -> at_pos patch pos (16 * k :: bs) ->
  zlen bs = (if k =? 8 then 1 else if k =? 9 then 2 else 4) ->
  exists rc st', opcode_fetch st = (rc, st') /\ 0 <= rc /\ represents off (pos + zlen (16 * k :: bs)) out w st' /\
    ps_pending st' = FAMILY_ADDR /\
    operation_count st' = if k =? 8 then u32 (off + s8 (le_get bs)) else if k =? 9 then u32 (off + s16 (le_get bs)) else le_get bs.
Proof.
  intros Hr Hk Hat Hl. destruct (at_pos_cons _ _ _ _ Hat) as [Hb Hrest]. rewrite <- (Z.add_0_r (16 * k)) in Hb.
  destruct (opcode_fetch_ok _ _ _ _ _ k 0 Hr ltac:(lia) ltac:(lia) Hb) as (rc & st1 & -> & Hrc & Hrep).
  assert (Hne : bs <> []) by (intros ->; cbn in Hl; destruct (k =? 8), (k =? 9); done).
  destruct (binary_patch_read_buffer_ok _ _ _ _ _ _ Hrep Hrest Hne) as (rc2 & st2 & Hrd & Hrc2 & Hrep2 & Hbuf & _).
  rewrite zlen_cons, Z.add_assoc. pose proof (rep_off _ _ _ _ _ Hrep2) as Ro.
  assert (Hrep3 : forall c, represents off (pos + 1 + zlen bs) out w (set_op st2 FAMILY_ADDR c)) by (intros c; by apply set_op_represents).
  destruct Hk as [->|[->| ->]]; cbn [Z.eqb Pos.eqb] in *; rewrite Hl in Hrd, Hbuf.
  - change (opcode_decode rc st1 (16 * 8) 0) with (let '(rc, st) := binary_patch_read_buffer st1 1 in
      (rc, set_op st FAMILY_ADDR (u32 (input_offset st + s8 (buffer_at st 0))))).
    rewrite Hrd. do 2 eexists. split; [done|]. split; [done|]. split; [apply Hrep3|]. split; [done|]. cbn [set_op operation_count].
    rewrite Ro. destruct bs as [|b [|c bs]]; [done| |rewrite !zlen_cons in Hl; pose proof (zlen_nonneg bs); lia].
    rewrite (buffer_at_take _ _ Hbuf). cbn [le_get]. do 3 f_equal. lia.
  - change (opcode_decode rc st1 (16 * 9) 0) with (let '(rc, st) := binary_patch_read_buffer st1 2 in
      (rc, set_op st FAMILY_ADDR (u32 (input_offset st + s16 (le_get (ztake 2 (ps_buffer st))))))).
    rewrite Hrd. do 2 eexists. split; [done|]. split; [done|]. split; [apply Hrep3|]. split; [done|]. cbn [set_op operation_count].
    by rewrite Ro, Hbuf.
  - change (opcode_decode rc st1 (16 * 10) 0) with (let '(rc, st) := binary_patch_read_buffer st1 4 in
      (rc, set_op st FAMILY_ADDR (le_get (ztake 4 (ps_buffer st))))).
    rewrite Hrd. do 2 eexists. split; [done|]. split; [done|]. split; [apply Hrep3|]. split; [done|]. cbn [set_op operation_count].
    by rewrite Hbuf.
Qed.

Lemma instr_ok_run fuel off pos out w st i s' :
  represents off pos out w st -> in_u 32 off -> instr_ok i -> instr_step input i (off, out) = Some s' ->
  at_pos patch pos (encode_instr i) -> (instr_cost i <= fuel)%nat ->
  exists rc st1 w' st', opcode_fetch st = (rc, st1) /\ 0 <= rc /\ opcode_run fuel w st1 = Done (0, w', st') /\
    represents s'.1 (pos + zlen (encode_instr i)) s'.2 w' st' /\ in_u 32 s'.1.
Proof.
  intros Hr Ho Hok Hm Hat Hf. destruct i as [wd n|wd bs|d|d|a|segs tail]; cbn [instr_ok instr_step encode_instr instr_cost] in *.
  - destruct (fetch_copy_write_ok _ _ _ _ _ 0 FAMILY_COPY wd n ltac:(by left) Hr Hok Hat) as (rc & st1 & -> & Hrc & Hrep & Hp & Hc).
    destruct (copy_step_ok fuel _ _ _ _ st1 n s' Hrep Ho ltac:(lia) Hm) as (w' & st' & Hd & Hrep' & Ho').
    exists rc, st1, w', st'. split; [done|]. split; [done|]. unfold opcode_run. rewrite Hp, Hc, (proj2 (Z.eqb_neq n 0)) by lia.
    split; [|done]. rewrite <- Hd. f_equal. rewrite <- Hc. by destruct st1.
  - destruct Hok as [Hb Hn]. destruct (at_pos_app _ _ _ _ Hat) as [Hat1 Hat2]. injection Hm as <-.
    destruct (fetch_copy_write_ok _ _ _ _ _ 4 FAMILY_WRITE wd (zlen bs) ltac:(by right) Hr Hn Hat1) as (rc & st1 & -> & Hrc & Hrep & Hp & Hc).
    destruct (write_step_ok fuel _ _ _ _ st1 bs Hrep Ho Hat2 ltac:(unfold zlen; lia)) as (w' & st' & Hd & Hrep' & Ho').
    exists rc, st1, w', st'. split; [done|]. split; [done|]. unfold opcode_run. rewrite Hp, Hc, (proj2 (Z.eqb_neq (zlen bs) 0)) by lia.
    rewrite zlen_app, Z.add_assoc. split; [|done]. rewrite <- Hd. f_equal. rewrite <- Hc. by destruct st1.
  - destruct (fetch_addr_ok _ _ _ _ _ 8 (le_put 1 d) Hr ltac:(auto) Hat eq_refl) as (rc & st1 & -> & Hrc & [] & Hp & Hc).
    exists rc, st1, w. eexists. split; [done|]. split; [done|]. unfold opcode_run. rewrite Hp. split; [done|]. injection Hm as <-. cbn [fst snd].
    cbn [Z.eqb Pos.eqb] in Hc. rewrite le_get_put in Hc. change (8 * Z.of_nat 1) with 8 in Hc. fold (uwrap 8 d) in Hc. rewrite swrap_uwrap, swrap_small in Hc by (done || lia).
    split; [by split|]. by apply uwrap_bound.
  - destruct (fetch_addr_ok _ _ _ _ _ 9 (le_put 2 d) Hr ltac:(auto) Hat eq_refl) as (rc & st1 & -> & Hrc & [] & Hp & Hc).
    exists rc, st1, w. eexists. split; [done|]. split; [done|]. unfold opcode_run. rewrite Hp. split; [done|]. injection Hm as <-. cbn [fst snd].
    cbn [Z.eqb Pos.eqb] in Hc. rewrite le_get_put in Hc. change (8 * Z.of_nat 2) with 16 in Hc. fold (uwrap 16 d) in Hc. rewrite swrap_uwrap, swrap_small in Hc by (done || lia).
    split; [by split|]. by apply uwrap_bound.
  - destruct (fetch_addr_ok _ _ _ _ _ 10 (le_put 4 a) Hr ltac:(auto) Hat eq_refl) as (rc & st1 & -> & Hrc & [] & Hp & Hc).
    exists rc, st1, w. eexists. split; [done|]. split; [done|]. unfold opcode_run. rewrite Hp. split; [done|]. injection Hm as <-. cbn [fst snd].
    cbn [Z.eqb Pos.eqb] in Hc. rewrite le_get_put in Hc. change (8 * Z.of_nat 4) with 32 in Hc. rewrite Z.mod_small in Hc by done.
    split; [by split|done].
  - destruct Hok as [Hsegs Htail]. destruct (at_pos_cons _ _ _ _ Hat) as [Hb Hrest].
    destruct (opcode_fetch_ok _ _ _ _ _ 11 0 Hr ltac:(lia) ltac:(lia) Hb) as (rc & st1 & -> & Hrc & Hrep).
    destruct (do_cpatch_ok fuel _ _ _ w (set_op st1 FAMILY_PATCH (operation_count st1)) segs tail s'
      (set_op_represents _ _ _ _ _ _ _ Hrep) Ho Hsegs Htail Hm Hrest Hf) as (w' & st' & Hd & Ho' & Hrep').
    exists rc, (set_op st1 FAMILY_PATCH (operation_count st1)), w', st'. split; [done|]. split; [done|]. split; [done|].
    rewrite zlen_cons, Z.add_assoc. done.
Qed.

Lemma encode_instr_nonempty i : encode_instr i <> [].
Proof. destruct i as [[] n|[] bs|d|d|a|segs tail]; done. Qed.

Lemma report_progress_represents cb h last off pos out w st :
  represents off pos out w st -> represents off pos out (report_progress cb h last w).2 st.
Proof. intros []. unfold report_progress. destruct (cb && _); by split. Qed.

(** The loop runs the instructions one after another. *)
Lemma apply_loop_ok fuel cb h last off pos out w st l s' :
  represents off pos out w st -> in_u 32 off -> Forall instr_ok l -> patch_meaning input l (off, out) = Some s' ->
  at_pos patch pos (encode l) -> pos + zlen (encode l) = av_length (patch_file h) ->
  (length l + list_max (map instr_cost l) <= fuel)%nat ->
  exists w' st', apply_loop fuel cb h last w st = Done (0, w', st') /\
    represents s'.1 (pos + zlen (encode l)) s'.2 w' st'.
Proof.
  revert fuel last off pos out w st. induction l as [|i l IH]; intros fuel last off pos out w st Hr Ho Hok Hm Hat Hlen Hf.
  - injection Hm as <-. exists w, st. change (zlen (encode [])) with 0 in *. rewrite Z.add_0_r in Hlen |- *. split; [|done].
    unfold apply_loop. destruct fuel; rewrite (rep_pos _ _ _ _ _ Hr), Hlen, Z.ltb_irrefl; done.
  - apply Forall_cons in Hok as [Hi Hok]. cbn [patch_meaning] in Hm. destruct (instr_step input i (off, out)) as [[off1 out1]|] eqn:Es; [|discriminate Hm].
    cbn [mbind option_bind] in Hm. unfold encode in *. cbn [map concat] in *. destruct (at_pos_app _ _ _ _ Hat) as [Hat1 Hat2].
    rewrite zlen_app in Hlen. cbn [length map list_max foldr] in Hf. fold (list_max (map instr_cost l)) in Hf.
    destruct fuel as [|fuel]; [lia|]. cbn [apply_loop]. rewrite (rep_pos _ _ _ _ _ Hr). pose proof (zlen_nonneg (concat (map encode_instr l))).
    assert (0 < zlen (encode_instr i)) by (pose proof (encode_instr_nonempty i); destruct (encode_instr i); [done|rewrite zlen_cons; pose proof (zlen_nonneg l0); lia]).
    rewrite (proj2 (Z.ltb_lt _ _)) by lia.
    destruct (instr_ok_run (Datatypes.S fuel) _ _ _ _ _ i (off1, out1) Hr Ho Hi Es Hat1 ltac:(lia)) as (rc & st1 & w1 & st2 & -> & Hrc & -> & Hrep & Ho1).
    rewrite (proj2 (Z.ltb_ge _ _)) by lia. cbn [exec_bind Z.ltb Z.compare].
    pose proof (report_progress_represents cb h last _ _ _ _ _ Hrep) as Hrep1. destruct (report_progress cb h last w1) as [last' w2]. cbn [snd fst] in *.
    destruct (IH fuel last' off1 _ out1 w2 st2 Hrep1 Ho1 Hok Hm Hat2) as (w' & st' & -> & Hrep'); [lia|lia|].
    exists w', st'. split; [done|]. by rewrite zlen_app, Z.add_assoc.
Qed.

Lemma cpatch_patch_apply_ok fuel inF patchF outS h cb hdr l rest off out :
  fm inF = input -> fm patchF = patch -> patch = hdr ++ encode l ++ rest -> zlen hdr = sizeof_cpatch_header ->
  flushed outS = [] -> pending outS = [] -> Forall instr_ok l -> patch_meaning input l (0, []) = Some (off, out) ->
  av_length (patch_file h) = zlen (encode l) -> (length l + list_max (map instr_cost l) <= fuel)%nat ->
  exists w, cpatch_patch_apply fuel inF patchF outS h cb =
      Done (if (zlen out =? av_length (output_file h)) && (crc32_ieee out =? av_crc (output_file h)) then 0 else - EINVAL, w) /\
    flushed (w_output w) = out /\ pending (w_output w) = [].
Proof.
  intros Hi Hp He Hh Hfl Hpe Hok Hm Hlen Hf. unfold cpatch_patch_apply.
  destruct (apply_loop_ok fuel cb h 0 0 0 [] (World inF outS 0 []) (PatchState patchF FAMILY_NONE 0 0 0 (repeat 0 64)) l (off, out)) as (w & st & -> & Hrep).
  - split; cbn; try done; [by rewrite Hfl, Hpe|]. rewrite Hfl. unfold crc32_ieee. by rewrite pa_crc_nil.
  - done.
  - done.
  - done.
  - split; [done|]. exists rest. rewrite He, Z.add_0_r. by apply zdrop_app.
  - done.
  - done.
  - cbn [exec_bind Z.ltb Z.compare fst snd] in *. destruct Hrep as [_ _ _ _ Hout Hcrc].
    destruct (output_write_ok w [] true Hcrc) as (rc & w' & -> & Hrc & _ & Ho & Hpend & Hcrc'). specialize (Hpend eq_refl).
    rewrite Hpend, !app_nil_r, Hout in Ho. rewrite (proj2 (Z.ltb_ge _ _)) by lia. exists w'. rewrite pa_written, Hcrc', Ho, <- negb_andb.
    split; [by destruct (_ && _)|]. done.
Qed.
End correct.

(** ** Patch files *)

Definition cpatch_header_bytes (h : cpatch_header) : list Z :=
  le_put 4 (magic_value h) ++ le_put 1 (version_major h) ++ le_put 1 (version_minor h) ++
  le_put 4 (av_length (input_file h)) ++ le_put 4 (av_crc (input_file h)) ++
  le_put 4 (av_length (output_file h)) ++ le_put 4 (av_crc (output_file h)) ++
  le_put 4 (av_length (patch_file h)) ++ le_put 4 (av_crc (patch_file h)) ++ le_put 4 (header_crc h).

(** The file for [l], made for [input] and resulting in [out]. *)
Definition make_header {F S} `{PatchApi F S} (input out data : list Z) : cpatch_header :=
  let h crc := CPatchHeader CPATCH_MAGIC_NUMBER CPATCH_MAJOR_VERSION 0
    (ArrayValidation (zlen input) (crc32_ieee input)) (ArrayValidation (zlen out) (crc32_ieee out))
    (ArrayValidation (zlen data) (crc32_ieee data)) crc in
  h (crc32_ieee (ztake 30 (cpatch_header_bytes (h 0)))).

Definition make_patch {F S} `{PatchApi F S} (input out : list Z) (l : list instr) : list Z :=
  cpatch_header_bytes (make_header input out (encode l)) ++ encode l.

Record header_in_range (h : cpatch_header) : Prop := {
  hr_magic : in_u 32 (magic_value h);
  hr_version : in_u 8 (version_major h) /\ in_u 8 (version_minor h);
  hr_input : in_u 32 (av_length (input_file h)) /\ in_u 32 (av_crc (input_file h));
  hr_output : in_u 32 (av_length (output_file h)) /\ in_u 32 (av_crc (output_file h));
  hr_patch : in_u 32 (av_length (patch_file h)) /\ in_u 32 (av_crc (patch_file h));
  hr_crc : in_u 32 (header_crc h);
}.

Lemma header_field_skip n z post off m :
  Z.of_nat n <= off -> header_field off m (le_put n z ++ post) = header_field (off - Z.of_nat n) m post.
Proof. intros Ho. unfold header_field. rewrite zdrop_app_ge by (by rewrite zlen_le_put). by rewrite zlen_le_put. Qed.

Lemma header_field_here n z post m :
  Z.of_nat n = m -> 0 <= z < 2 ^ (8 * m) -> header_field 0 m (le_put n z ++ post) = z.
Proof.
  intros <- Hz. unfold header_field. rewrite zdrop_0 by lia. rewrite ztake_app by (by rewrite zlen_le_put).
  rewrite le_get_put. by apply Z.mod_small.
Qed.

Lemma cpatch_header_roundtrip h : header_in_range h -> cpatch_header_of_bytes (cpatch_header_bytes h) = h.
Proof.
  intros [H1 [H2 H3] [H4 H5] [H6 H7] [H8 H9] H10]. unfold in_u in *. unfold cpatch_header_of_bytes, cpatch_header_bytes.
  destruct h as [m vj vn [il ic] [ol oc] [pl pc] hc]. cbn [magic_value version_major version_minor input_file output_file patch_file header_crc av_length av_crc] in *.
  rewrite <- (app_nil_r (le_put 4 hc)).
  f_equal; try f_equal; repeat (rewrite header_field_skip by lia; cbn [Z.sub Z.opp Z.add Z.of_nat Pos.of_succ_nat Pos.succ Z.pos_sub Pos.pred_double Pos.add Pos.sub]);
    apply header_field_here; (done || lia).
Qed.

Lemma zlen_cpatch_header_bytes h : zlen (cpatch_header_bytes h) = sizeof_cpatch_header.
Proof. unfold cpatch_header_bytes. by rewrite !zlen_app, !zlen_le_put. Qed.
