(* ===== verification/CPatchProps.v ===== *)
(** * Correctness of binary patching

    Patch files made for an input file are accepted and reproduce the output file; no
    result is accepted that does not have the announced length and CRC; and the
    interpreter terminates on every patch file, however damaged. *)

From stdpp Require Import base tactics numbers list.
From Stdlib Require Import ZArith Lia.
From S2P Require Import Prelude CPatch CPatchSpec.

Local Open Scope Z_scope.
Local Open Scope infuse_scope.

Section patch.
Context {F S : Type} `{PatchSpec F S fm flushed pending}.
Implicit Types (w : world (F := F) (S := S)) (st : patch_state (F := F)).

(** ** Validation *)

Lemma crc32_ieee_range l : in_u 32 (crc32_ieee l).
Proof. apply pa_crc_range. unfold in_u. lia. Qed.

Lemma make_header_in_range input out data :
  zlen input < 2 ^ 32 -> zlen out < 2 ^ 32 -> zlen data < 2 ^ 32 -> header_in_range (make_header input out data).
Proof.
  intros Hi Ho Hd. pose proof (zlen_nonneg input). pose proof (zlen_nonneg out). pose proof (zlen_nonneg data).
  split; cbn [make_header magic_value version_major version_minor input_file output_file patch_file header_crc av_length av_crc];
    try apply crc32_ieee_range; try (split; [|apply crc32_ieee_range]); unfold in_u, CPATCH_MAGIC_NUMBER, CPATCH_MAJOR_VERSION; lia.
Qed.

(** Reads and CRC calculations inside an area succeed. *)
Definition reads_ok : Prop :=
  (forall (f : F) off n, 0 <= off -> 0 <= n -> off + n <= zlen (fm f) -> 0 <= (flash_area_read f off n).1.1) /\
  (forall (f : F) off n, 0 <= off -> 0 <= n -> off + n <= zlen (fm f) -> 0 <= (flash_area_crc32 f off n).1.1).

Lemma area_crc32 (f : F) off n :
  reads_ok -> 0 <= off -> 0 <= n -> off + n <= zlen (fm f) ->
  exists rc f', flash_area_crc32 f off n = (rc, crc32_ieee (ztake n (zdrop off (fm f))), f') /\ 0 <= rc /\ fm f' = fm f.
Proof.
  intros [_ Hok] Ho Hn Hle. pose proof (pa_crc32 f off n) as Hc. specialize (Hok f off n Ho Hn Hle).
  destruct (flash_area_crc32 f off n) as [[rc crc] f']. cbn in Hok. destruct Hc as [Hf Hc]. exists rc, f'. by rewrite Hc.
Qed.

Lemma cpatch_patch_start_ok (inF patchF : F) input out l tail rest :
  reads_ok -> zlen input < 2 ^ 32 -> zlen out < 2 ^ 32 -> zlen (encode l) < 2 ^ 32 ->
  fm inF = input ++ tail -> fm patchF = make_patch (F := F) (S := S) input out l ++ rest ->
  exists inF' patchF', cpatch_patch_start (S := S) inF patchF = (0, make_header input out (encode l), inF', patchF') /\
    fm inF' = fm inF /\ fm patchF' = fm patchF.
Proof.
  intros Hrel Hi Ho Hd Hin Hp. unfold cpatch_patch_start. pose proof (zlen_cpatch_header_bytes (make_header input out (encode l))) as Hl.
  pose proof (zlen_nonneg (encode l)). pose proof (zlen_nonneg rest). pose proof (zlen_nonneg input). pose proof (zlen_nonneg tail).
  unfold make_patch in Hp. rewrite <- app_assoc in Hp. unfold sizeof_cpatch_header in *.
  destruct (area_read (proj1 Hrel) patchF 0 34) as (rc & f1 & -> & Hrc & Hf1); [lia|lia|rewrite Hp, !zlen_app; lia|].
  rewrite Hp, zdrop_0, ztake_app by lia. rewrite (proj2 (Z.ltb_ge _ _)) by lia.
  rewrite cpatch_header_roundtrip by (by apply make_header_in_range). set (h := make_header input out (encode l)).
  assert (Hcrc : crc32_ieee (ztake (34 - 4) (cpatch_header_bytes h)) = header_crc h).
  { unfold h, make_header. cbn [header_crc]. f_equal. }
  rewrite Hcrc. cbn [h make_header magic_value version_major]. rewrite !Z.eqb_refl. cbn [negb h make_header input_file patch_file av_length av_crc].
  destruct (area_crc32 inF 0 (zlen input) Hrel) as (rc2 & f2 & -> & Hrc2 & Hf2); [lia|lia|rewrite Hin, zlen_app; lia|].
  rewrite (proj2 (Z.ltb_ge _ _)) by lia. rewrite Hin, zdrop_0, ztake_app, Z.eqb_refl by lia. cbn [negb].
  destruct (area_crc32 f1 34 (zlen (encode l)) Hrel) as (rc3 & f3 & -> & Hrc3 & Hf3); [lia|lia|rewrite Hf1, Hp, !zlen_app; lia|].
  rewrite (proj2 (Z.ltb_ge _ _)) by lia. rewrite Hf1, Hp, zdrop_app, ztake_app, Z.eqb_refl by lia. cbn [negb].
  exists f2, f3. split; [done|]. split; [congruence|]. by rewrite Hf3, Hf1, Hp.
Qed.

(** ** What is accepted *)

Definition crc_ok w : Prop := progress_crc w = crc32_ieee (flushed (w_output w)).

Lemma output_write_crc w data flush : crc_ok w -> crc_ok (output_write w data flush).2.
Proof.
  unfold crc_ok, output_write. intros Hc. pose proof (pa_write (w_output w) data flush) as Hw.
  destruct (stream_flash_buffered_write _ _ _) as [[rc chunks] s']. destruct Hw as [Hf _]. cbn. rewrite fold_crc_update. cbn.
  rewrite Hc, Hf. unfold crc32_ieee. apply pa_crc_app.
Qed.

(** Every result of [m] has a correct CRC. *)
Definition crc_kept (m : exec (Z * world (F := F) (S := S) * patch_state (F := F))) : Prop :=
  forall rc w st, m = Done (rc, w, st) -> crc_ok w.

Lemma crc_kept_done rc w st : crc_ok w -> crc_kept (Done (rc, w, st)).
Proof. by intros Hc ? ? ? [= <- <- <-]. Qed.

Lemma crc_kept_nofuel : crc_kept NoFuel.
Proof. by intros ? ? ?. Qed.

Lemma crc_kept_fault : crc_kept Fault.
Proof. by intros ? ? ?. Qed.

Lemma crc_kept_bind m k :
  crc_kept m -> (forall rc w st, crc_ok w -> crc_kept (k (rc, w, st))) -> crc_kept (exec_bind m k).
Proof. intros Hm Hk rc w st Hb. apply exec_bind_Done in Hb as ([[rc1 w1] st1] & He & Hb). by apply (Hk rc1 w1 st1 (Hm _ _ _ He) rc w st). Qed.

Lemma do_copy_crc fuel w st : crc_ok w -> crc_kept (do_copy fuel w st).
Proof.
  revert w st. induction fuel as [|fuel IH]; intros w st Hc; cbn [do_copy]; destruct (operation_count st =? 0); try by apply crc_kept_done.
  { apply crc_kept_nofuel. }
  destruct (flash_area_read _ _ _) as [[rc mem] f]. destruct (rc <? 0); [by apply crc_kept_done|].
  pose proof (output_write_crc (set_w_input w f) (ztake (Z.min (operation_count st) 64) (ps_buffer (buffer_store st mem))) false Hc) as Hw.
  destruct (output_write _ _ _) as [rc2 w2]. destruct (rc2 <? 0); [by apply crc_kept_done|by apply IH].
Qed.

Lemma do_write_crc fuel w st : crc_ok w -> crc_kept (do_write fuel w st).
Proof.
  revert w st. induction fuel as [|fuel IH]; intros w st Hc; cbn [do_write]; destruct (operation_count st =? 0); try by apply crc_kept_done.
  { apply crc_kept_nofuel. }
  destruct (binary_patch_read_buffer _ _) as [rc st1]. destruct (rc <? 0); [by apply crc_kept_done|].
  pose proof (output_write_crc w (ztake (Z.min (operation_count st) 64) (ps_buffer st1)) false Hc) as Hw.
  destruct (output_write _ _ _) as [rc2 w2]. destruct (rc2 <? 0); [by apply crc_kept_done|by apply IH].
Qed.

Lemma do_cpatch_crc fuel w st : crc_ok w -> crc_kept (do_cpatch fuel w st).
Proof.
  revert w st. induction fuel as [|fuel IH]; intros w st Hc; [apply crc_kept_nofuel|]. cbn [do_cpatch].
  destruct (binary_patch_read st 1) as [[rc mem] st1]. destruct mem as [|len mem]; [apply crc_kept_fault|]. destruct (len =? 0); [by apply crc_kept_done|].
  apply crc_kept_bind; [by apply do_copy_crc|]. intros rc2 w2 st2 Hc2. destruct (rc2 <? 0); [by apply crc_kept_done|].
  destruct (patch_write_len st2 len) as [stop st3]. destruct stop; [by apply crc_kept_done|].
  apply crc_kept_bind; [by apply do_write_crc|]. intros rc4 w4 st4 Hc4. destruct (rc4 <? 0); [by apply crc_kept_done|by apply IH].
Qed.

Lemma opcode_run_crc fuel w st : crc_ok w -> crc_kept (opcode_run fuel w st).
Proof.
  intros Hc. unfold opcode_run. destruct (ps_pending st).
  - by apply crc_kept_done.
  - destruct (_ =? 0); [by apply crc_kept_done|by apply do_copy_crc].
  - destruct (_ =? 0); [by apply crc_kept_done|by apply do_write_crc].
  - by apply do_cpatch_crc.
  - by apply crc_kept_done.
Qed.

Lemma report_progress_crc cb h last w : crc_ok w -> crc_ok (report_progress cb h last w).2.
Proof. unfold report_progress. by destruct (cb && _). Qed.

Lemma apply_loop_crc fuel cb h last w st : crc_ok w -> crc_kept (apply_loop fuel cb h last w st).
Proof.
  revert last w st. induction fuel as [|fuel IH]; intros last w st Hc; cbn [apply_loop]; destruct (_ <? _); try by apply crc_kept_done.
  { apply crc_kept_nofuel. }
  destruct (opcode_fetch st) as [rc st1]. destruct (rc <? 0); [by apply crc_kept_done|].
  apply crc_kept_bind; [by apply opcode_run_crc|]. intros rc2 w2 st2 Hc2. destruct (rc2 <? 0); [by apply crc_kept_done|].
  pose proof (report_progress_crc cb h last w2 Hc2). destruct (report_progress cb h last w2) as [last' w3]. by apply IH.
Qed.

(** ** Termination *)

(** The state while a patch area of [size] bytes is interpreted. *)
Record sane (size : Z) st : Prop := {
  sane_size : zlen (fm (ps_patch st)) = size;
  sane_count : in_u 32 (operation_count st);
  sane_pos : 0 <= patch_offset st <= size + 2;
  sane_buffer : bytes_ok (ps_buffer st);
  sane_input : in_u 32 (input_offset st);
}.

Section termination.
Context (size : Z) (Hsize : size + 100 < 2 ^ 32).

Lemma read_sane st n :
  sane size st -> 0 <= n <= 64 ->
  exists rc mem st', binary_patch_read st n = (rc, mem, st') /\ bytes_ok mem /\ zlen (fm (ps_patch st')) = size /\
    (0 <= rc -> 34 + patch_offset st + n <= size) /\
    ps_pending st' = ps_pending st /\ operation_count st' = operation_count st /\ input_offset st' = input_offset st /\
    patch_offset st' = patch_offset st + n /\ ps_buffer st' = ps_buffer st.
Proof.
  intros [Hs Hc Hp Hb Hi] Hn. unfold binary_patch_read, sizeof_cpatch_header.
  pose proof (pa_read (ps_patch st) (34 + patch_offset st) n ltac:(lia) ltac:(lia)) as Hr.
  destruct (flash_area_read _ _ _) as [[rc mem] f]. destruct Hr as (Hf & Hbm & Hout & _). do 3 eexists. split; [done|]. split; [done|].
  cbn. rewrite Hf. split; [done|]. split; [lia|]. rewrite uwrap_small by lia. done.
Qed.

Lemma bytes_ok_zwrite mem l : bytes_ok mem -> bytes_ok l -> bytes_ok (zwrite 0 mem l).
Proof.
  intros Hm Hl. unfold zwrite. rewrite !bytes_ok_app. split; [by apply bytes_ok_ztake|]. split; [done|by apply bytes_ok_zdrop].
Qed.

Lemma read_buffer_sane st n :
  sane size st -> 0 <= n <= 64 ->
  exists rc st', binary_patch_read_buffer st n = (rc, st') /\ bytes_ok (ps_buffer st') /\ zlen (fm (ps_patch st')) = size /\
    (0 <= rc -> 34 + patch_offset st + n <= size) /\ operation_count st' = operation_count st /\
    input_offset st' = input_offset st /\ patch_offset st' = patch_offset st + n.
Proof.
  intros Hs Hn. unfold binary_patch_read_buffer. destruct (read_sane st n Hs Hn) as (rc & mem & st' & -> & Hm & Hsz & Hb & _ & Hc & Hi & Hp & Hbf).
  do 2 eexists. split; [done|]. cbn. rewrite Hbf. split; [apply bytes_ok_zwrite; [done|apply Hs]|]. done.
Qed.

(** A loop that returns, with what it leaves behind. *)
Definition returns (m : exec (Z * world (F := F) (S := S) * patch_state (F := F))) (Q : Z -> patch_state (F := F) -> Prop) : Prop :=
  exists rc w st, m = Done (rc, w, st) /\ Q rc st.

Lemma do_copy_returns fuel w st :
  sane size st -> operation_count st <= 64 * Z.of_nat fuel ->
  returns (do_copy fuel w st) (fun rc st' => sane size st' /\ patch_offset st' = patch_offset st).
Proof.
  revert w st. induction fuel as [|fuel IH]; intros w st Hs Hf; cbn [do_copy]; destruct (Z.eqb_spec (operation_count st) 0) as [Hz|Hz];
    try (by exists 0, w, st); destruct Hs as [Hs1 Hs2 Hs3 Hs4 Hs5]; unfold in_u in *; [lia|].
  pose proof (pa_read (w_input w) (input_offset st) (Z.min (operation_count st) 64) ltac:(lia) ltac:(lia)) as Hr.
  destruct (flash_area_read _ _ _) as [[rc mem] f]. destruct Hr as (_ & Hbm & _).
  assert (Hs' : sane size (buffer_store st mem)) by (split; try done; cbn; by apply bytes_ok_zwrite).
  destruct (rc <? 0); [by exists rc, (set_w_input w f), (buffer_store st mem)|].
  destruct (output_write _ _ _) as [rc2 w2]. destruct (rc2 <? 0); [by exists rc2, w2, (buffer_store st mem)|].
  edestruct IH as (rc3 & w3 & st3 & -> & Hs3' & Hp3); [..|exists rc3, w3, st3; split; [done|]; split; [done|]; exact Hp3].
  - destruct Hs' as [A B C D E]. split; try done; cbn; [unfold in_u; lia|by apply uwrap_bound].
  - cbn. lia.
Qed.

Lemma do_write_returns fuel w st :
  sane size st -> patch_offset st <= size -> operation_count st <= 64 * Z.of_nat fuel ->
  returns (do_write fuel w st) (fun rc st' => (0 <= rc -> sane size st' /\ patch_offset st' = patch_offset st + operation_count st /\
    (operation_count st = 0 \/ 34 + patch_offset st' <= size))).
Proof.
  revert w st. induction fuel as [|fuel IH]; intros w st Hs Hp Hf; cbn [do_write]; destruct (Z.eqb_spec (operation_count st) 0) as [Hz|Hz];
    try (exists 0, w, st; split; [done|]; intros _; rewrite Hz; split; [done|]; split; [lia|by left]);
    pose proof (sane_count size st Hs) as Hc; unfold in_u in Hc; [lia|].
  destruct (read_buffer_sane st (Z.min (operation_count st) 64) Hs ltac:(lia)) as (rc & st1 & -> & Hb1 & Hsz1 & Hin1 & Hc1 & Hi1 & Hp1).
  destruct (Z.ltb_spec rc 0) as [Hneg|Hpos]; [exists rc, w, st1; split; [done|lia]|]. specialize (Hin1 Hpos).
  destruct (output_write _ _ _) as [rc2 w2]. destruct (Z.ltb_spec rc2 0) as [Hneg2|Hpos2]; [exists rc2, w2, st1; split; [done|lia]|].
  pose proof (sane_pos size st Hs) as Hpos0.
  edestruct IH as (rc3 & w3 & st3 & -> & Hq); [..|exists rc3, w3, st3; split; [done|]].
  - split; cbn; [done|rewrite Hc1; unfold in_u; lia|lia|done|by apply uwrap_bound].
  - cbn. lia.
  - cbn. rewrite Hc1. lia.
  - cbn in Hq. rewrite Hc1, Hp1 in Hq. intros Hrc3. destruct (Hq Hrc3) as (Hs3 & Hp3 & Hend). split; [done|]. split; [lia|]. right.
    destruct Hend; lia.
Qed.

Lemma sane_set_count st n : sane size st -> in_u 32 n -> sane size (set_operation_count st n).
Proof. intros [] Hn. by split. Qed.

Lemma patch_write_len_sane st len :
  sane size st -> patch_offset st <= size -> 0 <= len < 256 ->
  exists stop st', patch_write_len st len = (stop, st') /\ sane size st' /\
    patch_offset st <= patch_offset st' <= patch_offset st + 1 /\ (stop = false -> 0 < operation_count st' < 256).
Proof.
  intros Hs Hp Hlen. unfold patch_write_len. destruct (negb _).
  - exists false, (set_operation_count st 1). split; [done|]. split; [apply sane_set_count; [done|unfold in_u; lia]|]. cbn. lia.
  - destruct (read_sane st 1 Hs ltac:(lia)) as (rc & mem & st1 & -> & Hm & Hsz & _ & _ & Hc & Hi & Hp1 & Hb).
    set (len0 := match mem with [] => len | b :: _ => b end).
    assert (Hl0 : 0 <= len0 < 256) by (unfold len0; destruct mem as [|b mem]; [done|by apply Forall_cons in Hm as [? _]]).
    assert (Hs1 : sane size st1).
    { destruct Hs. split; [done|by rewrite Hc|lia|by rewrite Hb|by rewrite Hi]. }
    destruct (Z.eqb_spec len0 0).
    + exists true, st1. split; [done|]. split; [done|]. split; [lia|done].
    + exists false, (set_operation_count st1 len0). split; [done|]. split; [apply sane_set_count; [done|unfold in_u; lia]|]. cbn. lia.
Qed.

Lemma do_cpatch_returns fuel w st :
  sane size st -> 34 + patch_offset st <= size -> size - patch_offset st + 8 <= Z.of_nat fuel ->
  do_cpatch fuel w st = Fault \/
  returns (do_cpatch fuel w st) (fun rc st' => 0 <= rc -> sane size st' /\ patch_offset st <= patch_offset st').
Proof.
  revert w st. induction fuel as [|fuel IH]; intros w st Hs Hp Hf; [lia|]. cbn [do_cpatch]. pose proof (sane_pos size st Hs) as Hp0.
  destruct (read_sane st 1 Hs ltac:(lia)) as (rc & mem & st1 & -> & Hm & Hsz & _ & _ & Hc & Hi & Hp1 & Hb1).
  destruct mem as [|len mem]; [by left|]. apply Forall_cons in Hm as [Hlen _]. unfold byte_ok in Hlen.
  assert (Hs1 : sane size st1).
  { destruct Hs. split; [done|by rewrite Hc|lia|by rewrite Hb1|by rewrite Hi]. }
  destruct (Z.eqb_spec len 0) as [Hz|Hz]; [right; exists 0, w, st1; split; [done|]; intros _; split; [done|lia]|].
  destruct (segment_byte len Hlen) as [-> _]. pose proof (Z.mod_pos_bound len 128 ltac:(lia)).
  destruct (do_copy_returns (Datatypes.S fuel) w (set_operation_count st1 (len mod 128))) as (rc2 & w2 & st2 & -> & Hs2 & Hp2);
    [apply sane_set_count; [done|unfold in_u; lia]|cbn; lia|]. cbn [exec_bind]. cbn in Hp2.
  destruct (Z.ltb_spec rc2 0); [right; exists rc2, w2, st2; split; [done|lia]|].
  destruct (patch_write_len_sane st2 len Hs2 ltac:(lia) Hlen) as (stop & st3 & -> & Hs3 & Hp3 & Hc3).
  destruct stop.
  { right. exists 0, w2, st3. split; [done|]. intros _. split; [done|lia]. }
  specialize (Hc3 eq_refl). destruct (do_write_returns (Datatypes.S fuel) w2 st3 Hs3 ltac:(lia) ltac:(lia)) as (rc4 & w4 & st4 & -> & Hq). cbn [exec_bind].
  destruct (Z.ltb_spec rc4 0) as [|Hrc4]; [right; exists rc4, w4, st4; split; [done|lia]|].
  destruct (Hq Hrc4) as (Hs4 & Hp4 & [Hno|Hend]); [lia|].
  destruct (IH w4 st4 Hs4 ltac:(lia) ltac:(lia)) as [->|(rc5 & w5 & st5 & -> & Hq5)]; [by left|].
  right. exists rc5, w5, st5. split; [done|]. intros Hrc5. destruct (Hq5 Hrc5). split; [done|lia].
Qed.

Lemma buffer_at_byte st i : bytes_ok (ps_buffer st) -> 0 <= buffer_at st i < 256.
Proof.
  intros Hb. unfold buffer_at. destruct (nth_in_or_default i (ps_buffer st) 0) as [Hi|Hi]; [|lia].
  apply list_elem_of_In in Hi. unfold bytes_ok in Hb. rewrite Forall_forall in Hb. by apply (Hb _ Hi).
Qed.

Lemma le_get_ztake n l : 0 <= n -> bytes_ok l -> 0 <= le_get (ztake n l) < 2 ^ (8 * n).
Proof.
  intros Hn Hb. pose proof (le_get_bound (ztake n l) (bytes_ok_ztake n l Hb)). pose proof (zlen_nonneg (ztake n l)).
  assert (zlen (ztake n l) <= n) by (unfold ztake, zlen; rewrite length_take; lia).
  pose proof (Z.pow_le_mono_r 2 (8 * zlen (ztake n l)) (8 * n) ltac:(lia) ltac:(lia)). lia.
Qed.

(** What fetching leaves behind when it succeeds: it has advanced, inside the area. *)
Definition fetched st (res : Z * patch_state (F := F)) : Prop :=
  0 <= res.1 -> sane size res.2 /\ patch_offset st < patch_offset res.2 /\ 34 + patch_offset res.2 <= size.

Lemma fetched_read st0 st n c fam :
  sane size st -> 0 <= n <= 4 -> patch_offset st0 < patch_offset st ->
  (forall st', bytes_ok (ps_buffer st') -> in_u 32 (c st')) ->
  fetched st0 (let '(rc, st') := binary_patch_read_buffer st n in (rc, set_op st' fam (c st'))).
Proof.
  intros Hs Hn Hlt Hc. destruct (read_buffer_sane st n Hs ltac:(lia)) as (rc & st1 & -> & Hb & Hsz & Hin & _ & Hi & Hp).
  intros Hrc. cbn in *. specialize (Hin Hrc). pose proof (sane_pos size st Hs). pose proof (sane_input size st Hs).
  split; [split; cbn; [done|by apply Hc|lia|done|by rewrite Hi]|]. lia.
Qed.

Lemma fetch_len_fetched st0 rc st op_data width fam :
  sane size st -> patch_offset st0 < patch_offset st -> 34 + patch_offset st <= size -> 0 <= op_data < 16 ->
  width = 0 \/ width = 1 \/ width = 2 \/ width = 4 -> fetched st0 (fetch_len rc st op_data width fam).
Proof.
  intros Hs Hlt Hin Hd Hw. unfold fetch_len. destruct (Z.eqb_spec width 0) as [->|Hne].
  { intros _. cbn. split; [|done]. destruct Hs. split; try done. cbn. unfold in_u. lia. }
  apply (fetched_read st0 st width (fun st' => if width =? 1 then Z.lor (Z.shiftl op_data 8) (buffer_at st' 0)
    else if width =? 2 then Z.lor (Z.shiftl op_data 16) (le_get (ztake 2 (ps_buffer st'))) else le_get (ztake 4 (ps_buffer st'))) fam);
    [done|lia|done|].
  intros st' Hb. unfold in_u. pose proof (buffer_at_byte st' 0 Hb). pose proof (le_get_ztake 2 _ ltac:(lia) Hb). pose proof (le_get_ztake 4 _ ltac:(lia) Hb).
  destruct (width =? 1); [rewrite lor_shiftl_add by lia; lia|]. destruct (width =? 2); [rewrite lor_shiftl_add by lia; lia|lia].
Qed.

Lemma opcode_fetch_fetched st : sane size st -> fetched st (opcode_fetch st).
Proof.
  intros Hs. unfold opcode_fetch. destruct (read_buffer_sane st 1 Hs ltac:(lia)) as (rc & st1 & -> & Hb & Hsz & Hin & Hc & Hi & Hp).
  destruct (Z.ltb_spec rc 0) as [|Hrc]; [intros ?; cbn in *; lia|]. specialize (Hin Hrc). pose proof (sane_pos size st Hs).
  assert (Hs1 : sane size st1).
  { destruct Hs. split; [done|by rewrite Hc|lia|done|by rewrite Hi]. }
  assert (Hd : 0 <= Z.land (buffer_at st1 0) DATA_MASK < 16).
  { change DATA_MASK with (2 ^ 4 - 1). rewrite land_ones_mod by lia. apply Z.mod_pos_bound. lia. }
  unfold opcode_decode.
  repeat match goal with |- fetched _ (if ?c then fetch_len _ _ _ _ _ else _) =>
    destruct c; [apply fetch_len_fetched; (done || lia)|] end.
  destruct (_ =? ADDR_SHIFT_S8).
  { apply (fetched_read st st1 1 (fun st' => u32 (input_offset st' + s8 (buffer_at st' 0)))); [done|lia|lia|].
    intros. by apply uwrap_bound. }
  destruct (_ =? ADDR_SHIFT_S16).
  { apply (fetched_read st st1 2 (fun st' => u32 (input_offset st' + s16 (le_get (ztake 2 (ps_buffer st')))))); [done|lia|lia|].
    intros. by apply uwrap_bound. }
  destruct (_ =? ADDR_SET_U32).
  { apply (fetched_read st st1 4 (fun st' => le_get (ztake 4 (ps_buffer st')))); [done|lia|lia|].
    intros st' Hb'. pose proof (le_get_ztake 4 _ ltac:(lia) Hb'). unfold in_u. lia. }
  destruct (_ =? PATCH); [|intros ?; cbn in *; unfold EINVAL in *; lia].
  intros _. cbn. split; [|lia]. destruct Hs1. by split.
Qed.

Lemma opcode_run_returns fuel w st :
  sane size st -> 34 + patch_offset st <= size -> 2 ^ 26 + (size - patch_offset st) + 8 <= Z.of_nat fuel ->
  opcode_run fuel w st = Fault \/
  returns (opcode_run fuel w st) (fun rc st' => 0 <= rc -> sane size st' /\ patch_offset st <= patch_offset st').
Proof.
  intros Hs Hp Hf. unfold opcode_run. pose proof (sane_count size st Hs) as Hc. unfold in_u in Hc.
  assert (Herr : forall w', returns (Done (- EINVAL, w', st)) (fun rc st' => 0 <= rc -> sane size st' /\ patch_offset st <= patch_offset st')).
  { intros w'. exists (- EINVAL), w', st. split; [done|]. unfold EINVAL. lia. }
  destruct (ps_pending st).
  - right. apply Herr.
  - right. destruct (_ =? 0); [apply Herr|]. destruct (do_copy_returns fuel w st Hs ltac:(lia)) as (rc & w' & st' & -> & Hs' & Hp').
    exists rc, w', st'. split; [done|]. intros _. split; [done|lia].
  - right. destruct (_ =? 0); [apply Herr|]. destruct (do_write_returns fuel w st Hs ltac:(lia) ltac:(lia)) as (rc & w' & st' & -> & Hq).
    exists rc, w', st'. split; [done|]. intros Hrc. destruct (Hq Hrc) as (Hs' & Hp' & _). split; [done|lia].
  - apply do_cpatch_returns; [done|done|lia].
  - right. exists 0, w. eexists. split; [done|]. intros _. split; [|cbn; lia]. destruct Hs. by split.
Qed.

Lemma apply_loop_returns fuel cb h last w st :
  sane size st -> 2 ^ 26 + (size + 2 - patch_offset st) + 16 <= Z.of_nat fuel ->
  apply_loop fuel cb h last w st = Fault \/ returns (apply_loop fuel cb h last w st) (fun _ _ => True).
Proof.
  revert last w st. induction fuel as [|fuel IH]; intros last w st Hs Hf; pose proof (sane_pos size st Hs) as Hp; [lia|].
  cbn [apply_loop]. destruct (_ <? _); [|right; by exists 0, w, st].
  pose proof (opcode_fetch_fetched st Hs) as Hfe. destruct (opcode_fetch st) as [rc st1]. unfold fetched in Hfe. cbn [fst snd] in Hfe.
  destruct (Z.ltb_spec rc 0) as [|Hrc]; [right; by exists rc, w, st1|]. destruct (Hfe Hrc) as (Hs1 & Hp1 & Hp1').
  destruct (opcode_run_returns (Datatypes.S fuel) w st1 Hs1 Hp1' ltac:(lia)) as [->|(rc2 & w2 & st2 & -> & Hq)]; [by left|]. cbn [exec_bind].
  destruct (Z.ltb_spec rc2 0) as [|Hrc2]; [right; by exists rc2, w2, st2|]. destruct (Hq Hrc2) as [Hs2 Hp2].
  destruct (report_progress cb h last w2) as [last' w3]. apply IH; [done|lia].
Qed.
End termination.

(** ** Properties *)

(** C25.  Round trip of binary patching.  For every sequence of well-formed instructions
    that produces the file [out] from the input area, the patch file made of them passes
    [cpatch_patch_start], and [cpatch_patch_apply] then returns success with exactly [out]
    written to the output, as long as flash accesses succeed and the loops get at least
    as many steps as the instructions need. *)
Theorem cpatch_roundtrip fuel (inF patchF : F) (outS : S) cb input tail l rest off out :
  reads_ok -> (forall (s : S) data flush, 0 <= (stream_flash_buffered_write s data flush).1.1) ->
  fm inF = input ++ tail -> zlen (fm inF) < 2 ^ 32 ->
  fm patchF = make_patch (F := F) (S := S) input out l ++ rest -> zlen (fm patchF) < 2 ^ 32 ->
  flushed outS = [] -> pending outS = [] -> zlen out < 2 ^ 32 ->
  Forall instr_ok l -> patch_meaning (fm inF) l (0, []) = Some (off, out) ->
  (length l + list_max (map instr_cost l) <= fuel)%nat ->
  exists h f1 f2 w, cpatch_patch_start (S := S) inF patchF = (0, h, f1, f2) /\
    cpatch_patch_apply fuel f1 f2 outS h cb = Done (0, w) /\ flushed (w_output w) = out.
Proof.
  intros Hrel Hwr Hin Hinl Hp Hpl Hfl Hpe Ho Hok Hm Hf.
  pose proof (zlen_nonneg tail). pose proof (zlen_nonneg rest). pose proof (zlen_cpatch_header_bytes (make_header (F := F) (S := S) input out (encode l))) as Hh.
  assert (Hlens : zlen input < 2 ^ 32 /\ zlen (encode l) < 2 ^ 32).
  { rewrite Hin, zlen_app in Hinl. rewrite Hp in Hpl. unfold make_patch in Hpl. rewrite !zlen_app in Hpl. unfold sizeof_cpatch_header in Hh. lia. }
  destruct (cpatch_patch_start_ok inF patchF input out l tail rest Hrel (proj1 Hlens) Ho (proj2 Hlens) Hin Hp) as (f1 & f2 & Hs & Hf1 & Hf2).
  destruct (cpatch_patch_apply_ok (proj1 Hrel) Hwr (fm inF) (fm patchF) Hinl Hpl fuel f1 f2 outS (make_header input out (encode l)) cb
    (cpatch_header_bytes (make_header (F := F) (S := S) input out (encode l))) l rest off out Hf1 Hf2) as (w & Ha & Hw & _); try done.
  exists (make_header input out (encode l)), f1, f2, w. split; [done|]. split; [|done]. rewrite Ha.
  cbn [make_header output_file av_length av_crc]. by rewrite !Z.eqb_refl.
Qed.

(** Only validated results are accepted.  Whatever the patch file contains, whatever
    flash accesses fail and whatever header it is given, when [cpatch_patch_apply] returns
    success everything it wrote has reached the flash and has the length and the CRC that
    the header announces. *)
Theorem cpatch_only_validated fuel (inF patchF : F) (outS : S) h cb w :
  flushed outS = [] -> cpatch_patch_apply fuel inF patchF outS h cb = Done (0, w) ->
  zlen (flushed (w_output w)) = av_length (output_file h) /\ crc32_ieee (flushed (w_output w)) = av_crc (output_file h) /\
  pending (w_output w) = [].
Proof.
  intros Hfl Ha. unfold cpatch_patch_apply in Ha. apply exec_bind_Done in Ha as ([[rc w1] st1] & Hl & Ha).
  assert (Hc : crc_ok w1).
  { eapply apply_loop_crc; [|exact Hl]. unfold crc_ok. cbn. rewrite Hfl. unfold crc32_ieee. by rewrite pa_crc_nil. }
  destruct (Z.ltb_spec rc 0); [injection Ha as -> _; lia|].
  pose proof (output_write_crc w1 [] true Hc) as Hc2. unfold output_write in *. pose proof (pa_write (w_output w1) [] true) as Hw.
  destruct (stream_flash_buffered_write _ _ _) as [[rc2 chunks] s']. cbn [snd] in Hc2.
  destruct (Z.ltb_spec rc2 0) as [|Hrc2]; [injection Ha as -> _; lia|]. destruct Hw as [_ Hw]. destruct (Hw Hrc2) as [_ Hp].
  destruct (negb _ || negb _) eqn:Eb; [discriminate Ha|]. injection Ha as <-. apply orb_false_iff in Eb as [E1 E2].
  apply negb_false_iff, Z.eqb_eq in E1, E2. rewrite pa_written in E1. unfold crc_ok in Hc2. rewrite Hc2 in E2.
  split; [done|]. split; [done|]. rewrite fold_crc_update. cbn. by apply Hp.
Qed.

(** C35.  Termination.  On every patch area below 4 GiB, with arbitrary content and with
    flash accesses that may fail at any time, the interpreter returns (or reads the
    uninitialised length of a truncated patch instruction): no loop runs for ever.  The
    bound is on the patch area and the largest operand, 2^32 bytes in chunks of 64. *)
Theorem cpatch_terminates fuel (inF patchF : F) (outS : S) h cb :
  zlen (fm patchF) + 100 < 2 ^ 32 -> 2 ^ 26 + zlen (fm patchF) + 100 <= Z.of_nat fuel ->
  cpatch_patch_apply fuel inF patchF outS h cb = Fault \/
  exists rc w, cpatch_patch_apply fuel inF patchF outS h cb = Done (rc, w).
Proof.
  intros Hs Hf. unfold cpatch_patch_apply. pose proof (zlen_nonneg (fm patchF)).
  set (st := PatchState patchF FAMILY_NONE 0 0 0 (repeat 0 64)).
  destruct (apply_loop_returns (zlen (fm patchF)) Hs fuel cb h 0 (World inF outS 0 []) st) as [->|(rc & w & st' & -> & _)].
  - split; cbn [ps_patch operation_count patch_offset ps_buffer input_offset st]; unfold in_u; try lia.
    apply Forall_forall. intros x Hx%list_elem_of_In%repeat_spec. subst. unfold byte_ok. lia.
  - cbn [patch_offset st]. lia.
  - by left.
  - right. cbn [exec_bind]. destruct (rc <? 0); [by do 2 eexists|]. destruct (output_write w [] true) as [rc2 w2].
    destruct (rc2 <? 0); [by do 2 eexists|]. destruct (_ || _); by do 2 eexists.
Qed.
End patch.

(** ** Files in memory *)

(** Areas are lists of cells of eight bits; the stream writes its buffer out when it exceeds eight
    bytes; the CRC is a polynomial in 31. *)
Definition poly (c : Z) (l : list Z) : Z := fold_left (fun c b => (c * 31 + b) mod 2 ^ 32) l c.

Definition content (f : list Z) : list Z := map u8 f.

#[export] Instance mem_patch_api : PatchApi (list Z) (list Z * list Z) := {
  flash_area_read f off n := if off + n <=? zlen f then (0, ztake n (zdrop off (content f)), f) else (- EINVAL, [], f);
  flash_area_crc32 f off n := if off + n <=? zlen f then (0, poly 0 (ztake n (zdrop off (content f))), f) else (- EINVAL, 0, f);
  stream_flash_buffered_write s data flush :=
    let buf := s.2 ++ data in
    if flush || (8 <? zlen buf) then (0, [buf], (s.1 ++ buf, [])) else (0, [], (s.1, buf));
  stream_flash_bytes_written s := zlen s.1;
  crc32_ieee_update := poly;
}.

Lemma poly_app c a b : poly (poly c a) b = poly c (a ++ b).
Proof. unfold poly. by rewrite fold_left_app. Qed.

Lemma poly_range c l : in_u 32 c -> in_u 32 (poly c l).
Proof.
  unfold poly. revert c. induction l as [|b l IH]; intros c Hc; [done|]. cbn. apply IH. apply Z.mod_pos_bound. lia.
Qed.

Lemma content_bytes f : bytes_ok (content f).
Proof. apply Forall_forall. intros b Hb. apply list_elem_of_fmap in Hb as (x & -> & _). by apply uwrap_bound. Qed.

Lemma zlen_content f : zlen (content f) = zlen f.
Proof. unfold zlen, content. by rewrite length_map. Qed.

#[export] Instance mem_patch_spec : PatchSpec (list Z) (list Z * list Z) content fst snd.
Proof.
  split; cbn.
  - intros f off n Ho Hn. rewrite zlen_content. destruct (Z.leb_spec (off + n) (zlen f)); (split; [done|]).
    + split; [by apply bytes_ok_ztake, bytes_ok_zdrop, content_bytes|]. split; [lia|done].
    + split; [constructor|]. unfold EINVAL. lia.
  - intros f off n. destruct (_ <=? _); [done|]. split; [done|]. unfold EINVAL. lia.
  - intros [fl pe] data flush. cbn. destruct (flush || _) eqn:E; cbn; rewrite ?app_nil_r; split; try done.
    intros _. split; [done|]. by intros ->.
  - done.
  - done.
  - apply poly_range.
  - apply poly_app.
Qed.

Lemma mem_reads_ok : reads_ok (F := list Z) (S := list Z * list Z) (fm := content).
Proof. split; cbn; intros f off n Ho Hn; rewrite zlen_content; intros Hle; by rewrite (proj2 (Z.leb_le _ _) Hle). Qed.

(** Copy two bytes, replace one, skip back, patch. *)
Definition example_instrs : list instr :=
  [Copy W4 2; Write W12 [9]; ShiftS8 (-1); Patch [Segment true 1 [7]; Segment false 2 [8; 8]] 1; SetAddr 0; Copy W20 1].
Definition example_input : list Z := [10; 11; 12; 13; 14; 15; 16; 17; 18; 19].
Definition example_output : list Z := [10; 11; 9; 12; 7; 14; 15; 8; 8; 18; 10].

Lemma example_meaning : patch_meaning (content example_input) example_instrs (0, []) = Some (1, example_output).
Proof. reflexivity. Qed.

Definition example_patch : list Z := make_patch (F := list Z) (S := list Z * list Z) example_input example_output example_instrs.

Lemma example_instrs_ok : Forall instr_ok example_instrs.
Proof. repeat constructor; cbn; unfold in_s, byte_ok; lia. Qed.

Lemma cpatch_roundtrip_witness :
  exists h f1 f2 w, cpatch_patch_start (S := list Z * list Z) example_input example_patch = (0, h, f1, f2) /\
    cpatch_patch_apply 300 f1 f2 ([], []) h true = Done (0, w) /\ (w_output w).1 = example_output.
Proof.
  apply (cpatch_roundtrip (F := list Z) (S := list Z * list Z) (fm := content) 300 example_input example_patch ([], []) true
    example_input [] example_instrs [] 1 example_output mem_reads_ok).
  - intros [fl pe] data flush. cbn. by destruct (_ || _).
  - reflexivity.
  - reflexivity.
  - vm_compute. reflexivity.
  - vm_compute. reflexivity.
  - reflexivity.
  - reflexivity.
  - reflexivity.
  - exact example_instrs_ok.
  - exact example_meaning.
  - vm_compute. lia.
Defined.

Lemma cpatch_only_validated_witness :
  exists h w, cpatch_patch_apply 300 example_input example_patch ([], []) h true = Done (0, w) /\
    zlen (w_output w).1 = 11 /\ poly 0 (w_output w).1 = poly 0 example_output.
Proof.
  set (h := make_header (F := list Z) (S := list Z * list Z) example_input example_output (encode example_instrs)).
  destruct (cpatch_patch_apply 300 example_input example_patch ([], []) h true) as [[rc w]| |] eqn:E; [|vm_compute in E; discriminate E..].
  assert (rc = 0) as -> by (vm_compute in E; by injection E as <- _). exists h, w. split; [exact E|].
  destruct (cpatch_only_validated (F := list Z) (S := list Z * list Z) (fm := content) 300 example_input example_patch ([], []) h true w eq_refl E) as (Hl & Hc & _).
  split; [exact Hl|exact Hc].
Defined.

Lemma cpatch_terminates_witness :
  let m := cpatch_patch_apply (Z.to_nat (2 ^ 27)) example_input [255] ([], [])
    (cpatch_header_of_bytes []) true in
  m = Fault \/ exists rc w, m = Done (rc, w).
Proof.
  apply (cpatch_terminates (F := list Z) (S := list Z * list Z) (fm := content)); [vm_compute; reflexivity|].
  rewrite Z2Nat.id by lia. change (zlen (content [255])) with 1. lia.
Defined.

(** A patch instruction that the patch area cuts off: the length that decides what
    happens next was never read. *)
Example truncated_patch_faults :
  cpatch_patch_apply 300 example_input (repeat 0 34 ++ [176]) ([], [])
    (CPatchHeader CPATCH_MAGIC_NUMBER 1 0 (ArrayValidation 0 0) (ArrayValidation 0 0) (ArrayValidation 1 0) 0) false = Fault.
Proof. reflexivity. Qed.
