(* ===== verification/EPacketSerial.v ===== *)
(** * ePacket serial framing

    [subsys/epacket/interfaces/epacket_serial_crypt.c] (reconstruction of packets from a
    byte stream) and the framing of [epacket_serial_async.c].  However the bytes of a
    stream are split into receive buffers, every frame in it is handed on exactly once. *)

From stdpp Require Import base tactics numbers list.
From Stdlib Require Import ZArith Lia.
From S2P Require Import Prelude NetBuf.

Local Open Scope Z_scope.
Local Open Scope infuse_scope.

Definition EPACKET_SERIAL_SYNC_A : Z := 0xD5.
Definition EPACKET_SERIAL_SYNC_B : Z := 0xCA.
Definition sizeof_epacket_serial_frame_header : Z := 4.

Section serial.
Context `{NetBufApi}.
(** [CONFIG_EPACKET_PACKET_SIZE_MAX]; the pool of receive buffers with state [A]. *)
Context (SIZE_MAX : Z) {A : Type} (epacket_alloc_rx : A -> option net_buf_simple * A).

(** The static variables of the parser, the pool, and the packets handed on. *)
Record serial_rx := SerialRx {
  len_lsb : Z;
  rx_buffer : option net_buf_simple;
  payload_remaining : Z;
  pkt_idx : Z;
  rx_pool : A;
  handled : list net_buf_simple;
}.
Implicit Types st : serial_rx.

Definition set_pkt_idx st (i : Z) : serial_rx :=
  SerialRx (len_lsb st) (rx_buffer st) (payload_remaining st) i (rx_pool st) (handled st).

Definition sync_byte (i : Z) : Z := if i =? 0 then EPACKET_SERIAL_SYNC_A else EPACKET_SERIAL_SYNC_B.

(** The new index is stored by the caller. *)
Definition epacket_serial_prefix_search st (byte : Z) : serial_rx :=
  let next := u16 (pkt_idx st + 1) in
  if (pkt_idx st =? 0) || (pkt_idx st =? 1) then
    if negb (byte =? sync_byte (pkt_idx st)) then set_pkt_idx st 0 else set_pkt_idx st next
  else if pkt_idx st =? 2 then
    SerialRx byte (rx_buffer st) (payload_remaining st) next (rx_pool st) (handled st)
  else if pkt_idx st =? 3 then
    let remaining := Z.lor (u16 (Z.shiftl byte 8)) (len_lsb st) in
    SerialRx (len_lsb st) (rx_buffer st) remaining (if remaining =? 0 then 0 else next) (rx_pool st) (handled st)
  else set_pkt_idx st next.

(** A buffer for the packet that starts. *)
Definition alloc_buffer st : serial_rx :=
  if negb (pkt_idx st =? 5) then st
  else if SIZE_MAX <? payload_remaining st then st
  else
    let '(b, pool) := epacket_alloc_rx (rx_pool st) in
    SerialRx (len_lsb st) b (payload_remaining st) (pkt_idx st) pool (handled st).

Definition ship_packet st : serial_rx :=
  SerialRx (len_lsb st) None (payload_remaining st) 0 (rx_pool st)
    (match rx_buffer st with Some b => handled st ++ [b] | None => handled st end).

(** The loop over [buffer + i], of which [l] is left. *)
Fixpoint reconstruct_loop (fuel : nat) st (l : list Z) : exec serial_rx :=
  match l with
  | [] => Done st
  | byte :: rest =>
      match fuel with
      | O => NoFuel
      | S fuel =>
          let st := epacket_serial_prefix_search st byte in
          if pkt_idx st <=? 4 then reconstruct_loop fuel st rest
          else
            let st := alloc_buffer st in
            let to_add := u16 (Z.min (payload_remaining st) (zlen l)) in
            if to_add =? 0 then Done st
            else
              let! b := match rx_buffer st with
                        | Some b => let! b := nb_add_mem b (ztake to_add l) in Done (Some b)
                        | None => Done None
                        end in
              let st := SerialRx (len_lsb st) b (payload_remaining st - to_add) (u16 (pkt_idx st + to_add))
                          (rx_pool st) (handled st) in
              if negb (payload_remaining st =? 0) then Done st
              else reconstruct_loop fuel (ship_packet st) (zdrop to_add l)
      end
  end.

Definition epacket_serial_reconstruct st (buffer : list Z) : exec serial_rx :=
  reconstruct_loop (length buffer) st buffer.

(** Receive buffers, one after another. *)
Fixpoint receive_all st (chunks : list (list Z)) : exec serial_rx :=
  match chunks with
  | [] => Done st
  | c :: chunks => let! st := epacket_serial_reconstruct st c in receive_all st chunks
  end.

(** [epacket_serial_send] after encryption: the bytes given to the UART. *)
Definition epacket_serial_frame (b : net_buf_simple) : exec net_buf_simple :=
  let! b := nb_push b sizeof_epacket_serial_frame_header in
  Done (nb_store b (nb_data b) ([EPACKET_SERIAL_SYNC_A; EPACKET_SERIAL_SYNC_B] ++
    le_put 2 (u16 (nb_len b - sizeof_epacket_serial_frame_header)))).
End serial.

(** ** The parser as a machine on single bytes *)

Inductive rx_phase :=
  | Idle
  | GotA
  | GotB
  | GotLen (lsb : Z)
  | Payload (remaining : Z) (got : list Z).

(** The next phase, and the packet that was completed. *)
Definition phase_step (p : rx_phase) (b : Z) : rx_phase * list (list Z) :=
  match p with
  | Idle => (if b =? EPACKET_SERIAL_SYNC_A then GotA else Idle, [])
  | GotA => (if b =? EPACKET_SERIAL_SYNC_B then GotB else Idle, [])
  | GotB => (GotLen b, [])
  | GotLen lsb => let n := b * 256 + lsb in (if n =? 0 then Idle else Payload n [], [])
  | Payload n got => if n =? 1 then (Idle, [got ++ [b]]) else (Payload (n - 1) (got ++ [b]), [])
  end.

Fixpoint phase_run (p : rx_phase) (l : list Z) : rx_phase * list (list Z) :=
  match l with
  | [] => (p, [])
  | b :: l => let '(p1, e1) := phase_step p b in let '(p2, e2) := phase_run p1 l in (p2, e1 ++ e2)
  end.

Lemma phase_run_app p a b :
  phase_run p (a ++ b) = let '(p1, e1) := phase_run p a in let '(p2, e2) := phase_run p1 b in (p2, e1 ++ e2).
Proof.
  revert p. induction a as [|x a IH]; intros p; cbn; [by destruct (phase_run p b)|].
  destruct (phase_step p x) as [p1 e1]. rewrite IH. destruct (phase_run p1 a) as [p2 e2]. destruct (phase_run p2 b) as [p3 e3].
  by rewrite app_assoc.
Qed.

Definition serial_frame (payload : list Z) : list Z :=
  [EPACKET_SERIAL_SYNC_A; EPACKET_SERIAL_SYNC_B] ++ le_put 2 (zlen payload) ++ payload.

(** Payload bytes up to the end of the packet. *)
Lemma phase_run_payload got l :
  l <> [] -> phase_run (Payload (zlen l) got) l = (Idle, [got ++ l]).
Proof.
  revert got. induction l as [|b l IH]; intros got Hne; [done|]. cbn [phase_run phase_step]. rewrite zlen_cons.
  destruct l as [|c l]; [done|]. rewrite (proj2 (Z.eqb_neq _ _)) by (rewrite zlen_cons; pose proof (zlen_nonneg l); lia).
  replace (1 + zlen (c :: l) - 1) with (zlen (c :: l)) by lia. rewrite IH by done. cbn. by rewrite <- app_assoc.
Qed.

Lemma phase_run_partial got n l : zlen l < n -> phase_run (Payload n got) l = (Payload (n - zlen l) (got ++ l), []).
Proof.
  revert n got. induction l as [|b l IH]; intros n got Hn.
  { cbn. by rewrite app_nil_r, Z.sub_0_r. }
  rewrite zlen_cons in Hn |- *. pose proof (zlen_nonneg l). cbn [phase_run phase_step].
  rewrite (proj2 (Z.eqb_neq _ _)) by lia. rewrite IH by lia. rewrite <- app_assoc. cbn. do 2 f_equal. lia.
Qed.

Lemma phase_run_frame payload : 0 < zlen payload < 2 ^ 16 -> phase_run Idle (serial_frame payload) = (Idle, [payload]).
Proof.
  intros Hl. unfold serial_frame. cbn [app le_put phase_run phase_step]. rewrite Z.eqb_refl. cbn [phase_run phase_step]. rewrite Z.eqb_refl. cbn [phase_run phase_step].
  assert (Hn : zlen payload / 256 mod 256 * 256 + zlen payload mod 256 = zlen payload).
  { rewrite (Z.mod_small (zlen payload / 256)) by (split; [apply Z.div_pos; lia|apply Z.div_lt_upper_bound; lia]).
    pose proof (Z.div_mod (zlen payload) 256). lia. }
  rewrite Hn. rewrite (proj2 (Z.eqb_neq _ _)) by lia. 
  assert (Hne : payload <> []) by (intros Hnil; rewrite Hnil in Hl; change (0 < 0 < 2 ^ 16) in Hl; lia). rewrite (phase_run_payload [] payload Hne). done.
Qed.

(** Noise without the first sync byte. *)
Lemma phase_run_noise l : Forall (fun b => b <> EPACKET_SERIAL_SYNC_A) l -> phase_run Idle l = (Idle, []).
Proof.
  induction 1 as [|b l Hb _ IH]; [done|]. cbn [phase_run phase_step]. rewrite (proj2 (Z.eqb_neq _ _) Hb). by rewrite IH.
Qed.

(** ** The parser implements the machine *)

Section refinement.
Context `{NetBufSpec} (SIZE_MAX : Z) {A : Type} (epacket_alloc_rx : A -> option net_buf_simple * A).
Context (Hmax : 0 < SIZE_MAX <= 2048).
(** The pool is never empty, and its buffers hold the largest packet. *)
Context (Halloc : forall a, exists b a' pre post,
  epacket_alloc_rx a = (Some b, a') /\ nb_repr b pre [] post /\ SIZE_MAX <= nb_room b).
Implicit Types st : serial_rx (A := A).

(** No packet on the way announces more than the largest size. *)
Definition phase_fits (p : rx_phase) : Prop :=
  match p with Payload n got => n + zlen got <= SIZE_MAX | _ => True end.
Definition stream_fits (p : rx_phase) (l : list Z) : Prop := forall k, phase_fits (phase_run p (take k l)).1.

Lemma stream_fits_app p a b : stream_fits p (a ++ b) -> stream_fits p a /\ stream_fits (phase_run p a).1 b.
Proof.
  intros Hf. split; intros k.
  - destruct (decide (k <= length a)%nat); [|rewrite take_ge by lia].
    + specialize (Hf k). by rewrite take_app_le in Hf.
    + specialize (Hf (length a)). by rewrite take_app_length in Hf.
  - specialize (Hf (length a + k)%nat). rewrite take_app_add', phase_run_app in Hf by done.
    destruct (phase_run p a) as [p1 e1]. cbn. by destruct (phase_run p1 (take k b)).
Qed.

(** The static variables in a phase. *)
Definition phase_state (p : rx_phase) st : Prop :=
  match p with
  | Idle => pkt_idx st = 0 /\ rx_buffer st = None
  | GotA => pkt_idx st = 1 /\ rx_buffer st = None
  | GotB => pkt_idx st = 2 /\ rx_buffer st = None
  | GotLen lsb => pkt_idx st = 3 /\ rx_buffer st = None /\ len_lsb st = lsb /\ 0 <= lsb < 256
  | Payload n got =>
      payload_remaining st = n /\ 0 < n /\ n + zlen got <= SIZE_MAX /\
      ((got = [] /\ pkt_idx st = 4 /\ rx_buffer st = None) \/
       (got <> [] /\ 5 <= pkt_idx st <= 4 + 2 * zlen got /\
        exists b pre post, rx_buffer st = Some b /\ nb_repr b pre got post /\ n <= nb_room b))
  end.

Definition rx_rel (p : rx_phase) (out : list (list Z)) st : Prop :=
  phase_state p st /\ (map nb_contents (handled st) = out /\ Forall nb_wf (handled st)).

(** A buffer that received [got] takes [bs]. *)
Lemma buffer_take b pre got post n bs :
  nb_repr b pre got post -> n <= nb_room b -> zlen bs <= n ->
  exists b' post', nb_add_mem b bs = Done b' /\ nb_repr b' pre (got ++ bs) post' /\ nb_room b' = nb_room b - zlen bs.
Proof.
  intros Hr Hn Hl. destruct (nb_add_mem_repr b pre got post bs Hr ltac:(lia)) as (post' & b' & Ha & Hr' & Hs).
  exists b', post'. split; [done|]. split; [done|]. unfold nb_room. rewrite Hs.
  destruct Hr as (_ & -> & -> & _). destruct Hr' as (_ & -> & -> & _). rewrite zlen_app. lia.
Qed.

(** In the payload, bytes are taken in bulk. *)
Lemma payload_bulk p n got out st l b0 rest fuel :
  p = Payload n got -> l = b0 :: rest -> rx_rel p out st ->
  exists st1 b1 pre post, let m := Z.min n (zlen l) in
    nb_repr b1 pre (got ++ ztake m l) post /\ n - m <= nb_room b1 /\ handled st1 = handled st /\
    payload_remaining st1 = n - m /\ rx_buffer st1 = Some b1 /\ 5 <= pkt_idx st1 <= 4 + 2 * zlen (got ++ ztake m l) /\
    reconstruct_loop SIZE_MAX epacket_alloc_rx (S fuel) st l =
      if n <=? zlen l then reconstruct_loop SIZE_MAX epacket_alloc_rx fuel (ship_packet st1) (zdrop n l) else Done st1.
Proof.
  intros -> -> ((Hrem & Hn & Hsz & Hcase) & Hout). cbv zeta. set (l := b0 :: rest). set (m := Z.min n (zlen l)).
  assert (Hlpos : 0 < zlen l) by (unfold l; rewrite zlen_cons; pose proof (zlen_nonneg rest); lia). pose proof (zlen_nonneg got).
  assert (Hm : zlen (ztake m l) = m) by (apply zlen_ztake; lia).
  cbn [reconstruct_loop]. fold l.
  assert (Hidx : 4 <= pkt_idx st <= 4 + 2 * zlen got) by (destruct Hcase as [(-> & -> & _)|(_ & ? & _)]; [change (zlen []) with 0|]; lia).
  unfold epacket_serial_prefix_search. rewrite !(proj2 (Z.eqb_neq (pkt_idx st) _)) by lia. cbn [orb].
  cbn [set_pkt_idx pkt_idx]. rewrite uwrap_small by lia. rewrite (proj2 (Z.leb_gt _ _)) by lia.
  (* the buffer in use *)
  assert (Hbuf : exists b pre post pool', alloc_buffer SIZE_MAX epacket_alloc_rx (set_pkt_idx st (pkt_idx st + 1)) =
      SerialRx (len_lsb st) (Some b) n (pkt_idx st + 1) pool' (handled st) /\ nb_repr b pre got post /\ n <= nb_room b).
  { unfold alloc_buffer. cbn [set_pkt_idx pkt_idx payload_remaining rx_pool len_lsb handled]. destruct Hcase as [(-> & Hi & Hb)|(Hne & Hi & b & pre & post & Hb & Hr & Hroom)].
    - rewrite Hi. cbn [Z.eqb Z.add Pos.add Pos.eqb Pos.succ negb]. rewrite (proj2 (Z.ltb_ge _ _)) by (change (zlen []) with 0 in *; lia).
      destruct (Halloc (rx_pool st)) as (b & a' & pre & post & -> & Hr & Hroom). exists b, pre, post, a'. rewrite Hrem. split; [done|]. split; [done|]. change (zlen []) with 0 in *. lia.
    - rewrite (proj2 (Z.eqb_neq _ _)) by lia. cbn [negb]. exists b, pre, post, (rx_pool st). unfold set_pkt_idx. by rewrite Hb, Hrem. }
  destruct Hbuf as (b & pre & post & pool' & Hal & Hr & Hroom). rewrite Hal. cbn [payload_remaining rx_buffer pkt_idx len_lsb rx_pool handled].
  fold m. rewrite (uwrap_small 16 m) by lia. rewrite (proj2 (Z.eqb_neq m 0)) by lia.
  destruct (buffer_take b pre got post n (ztake m l) Hr Hroom ltac:(lia)) as (b1 & post1 & -> & Hr1 & Hroom1). cbn [exec_bind].
  rewrite uwrap_small by lia.
  exists (SerialRx (len_lsb st) (Some b1) (n - m) (pkt_idx st + 1 + m) pool' (handled st)), b1, pre, post1.
  split; [done|]. split; [lia|]. split; [done|]. split; [done|]. split; [done|]. split; [cbn; rewrite zlen_app, Hm; lia|].
  cbn [payload_remaining]. destruct (Z.leb_spec n (zlen l)) as [Hle|Hgt].
  - rewrite (proj2 (Z.eqb_eq _ _)) by lia. cbn [negb]. by replace m with n by lia.
  - rewrite (proj2 (Z.eqb_neq _ _)) by lia. done.
Qed.

(** One byte outside the payload. *)
Lemma header_byte p out st b rest fuel :
  match p with Payload _ _ => False | _ => True end -> rx_rel p out st -> 0 <= b < 256 -> phase_fits (phase_step p b).1 ->
  exists st', reconstruct_loop SIZE_MAX epacket_alloc_rx (S fuel) st (b :: rest) = reconstruct_loop SIZE_MAX epacket_alloc_rx fuel st' rest /\
    rx_rel (phase_step p b).1 out st' /\ (phase_step p b).2 = [].
Proof.
  intros Hp [Hs Hout] Hb Hfit. cbn [reconstruct_loop]. unfold epacket_serial_prefix_search. destruct p as [| | |lsb|]; [..|done]; cbn [phase_step fst snd].
  - destruct Hs as [-> Hrb]. cbn [Z.eqb orb sync_byte]. unfold sync_byte. cbn [Z.eqb]. destruct (b =? EPACKET_SERIAL_SYNC_A); cbn [negb]; (eexists; split; [reflexivity|done]).
  - destruct Hs as [-> Hrb]. cbn [Z.eqb orb Pos.eqb]. unfold sync_byte. cbn [Z.eqb]. destruct (b =? EPACKET_SERIAL_SYNC_B); cbn [negb]; (eexists; split; [reflexivity|done]).
  - destruct Hs as [-> Hrb]. cbn [Z.eqb orb Pos.eqb]. eexists. split; [reflexivity|]. done.
  - destruct Hs as (Hi & Hrb & Hlsb & Hl). rewrite Hi. cbn [Z.eqb orb Pos.eqb].
    assert (Hn : Z.lor (u16 (Z.shiftl b 8)) (len_lsb st) = b * 256 + lsb).
    { rewrite Hlsb, uwrap_small by (rewrite Z.shiftl_mul_pow2 by lia; lia). by rewrite lor_shiftl_add by lia. }
    rewrite Hn. cbn [phase_step fst] in Hfit. destruct (Z.eqb_spec (b * 256 + lsb) 0) as [Hz|Hz]; (eexists; split; [reflexivity|]); (split; [|done]).
    + by split.
    + split; [|done]. cbn. cbn [phase_fits] in Hfit. change (zlen []) with 0 in *. split; [done|]. split; [lia|]. split; [lia|]. left. done.
Qed.

Lemma reconstruct_loop_ok fuel p out st l :
  rx_rel p out st -> bytes_ok l -> stream_fits p l -> (length l <= fuel)%nat ->
  exists st', reconstruct_loop SIZE_MAX epacket_alloc_rx fuel st l = Done st' /\
    rx_rel (phase_run p l).1 (out ++ (phase_run p l).2) st'.
Proof.
  revert p out st l. induction fuel as [|fuel IH]; intros p out st l Hr Hb Hf Hl.
  { destruct l; [|cbn in Hl; lia]. exists st. split; [done|]. cbn. by rewrite app_nil_r. }
  destruct l as [|b rest]; [exists st; split; [done|]; cbn; by rewrite app_nil_r|].
  apply Forall_cons in Hb as Hb'. destruct Hb' as [Hb0 Hbr]. cbn [length] in Hl.
  assert (Hgo : match p with Payload _ _ => False | _ => True end ->
    exists st', reconstruct_loop SIZE_MAX epacket_alloc_rx (S fuel) st (b :: rest) = Done st' /\
      rx_rel (phase_run p (b :: rest)).1 (out ++ (phase_run p (b :: rest)).2) st').
  { intros Hp. destruct (header_byte p out st b rest fuel Hp Hr Hb0) as (st1 & -> & Hr1 & He).
    { specialize (Hf 1%nat). cbn [take phase_run] in Hf. by destruct (phase_step p b). }
    destruct (IH (phase_step p b).1 out st1 rest Hr1 Hbr) as (st' & -> & Hr'); [|lia|].
    { apply (stream_fits_app p [b] rest) in Hf as [_ Hf]. cbn [phase_run] in Hf. by destruct (phase_step p b). }
    exists st'. split; [done|]. cbn [phase_run]. destruct (phase_step p b) as [p1 e1]. cbn [fst snd] in *. subst e1.
    by destruct (phase_run p1 rest). }
  destruct p as [| | |lsb|n got].
  5:{ clear Hgo. destruct (payload_bulk _ n got out st (b :: rest) b rest fuel eq_refl eq_refl Hr) as (st1 & b1 & pre & post & Hrep & Hroom & Hh & Hrem & Hbuf & Hidx & ->).
      destruct Hr as [(_ & Hn & Hsz & _) Hout]. set (l := b :: rest) in *. pose proof (zlen_nonneg got).
      destruct (Z.leb_spec n (zlen l)) as [Hle|Hgt].
      - rewrite Z.min_l in Hrep by lia.
        assert (Hrun : phase_run (Payload n got) (ztake n l) = (Idle, [got ++ ztake n l])).
        { rewrite <- (zlen_ztake n l) at 1 by lia. apply phase_run_payload. intros Hnil. pose proof (zlen_ztake n l ltac:(lia)) as Hx. rewrite Hnil in Hx. change (0 = n) in Hx. lia. }
        rewrite <- (ztake_zdrop n l) in Hf. destruct (stream_fits_app _ _ _ Hf) as [_ Hf2]. rewrite Hrun in Hf2. cbn [fst] in Hf2.
        destruct (IH Idle (out ++ [got ++ ztake n l]) (ship_packet st1) (zdrop n l)) as (st' & -> & Hr').
        + split; [done|]. unfold ship_packet. rewrite Hbuf. cbn. rewrite map_app, Hh, (proj1 Hout). cbn.
          rewrite (nb_repr_contents _ _ _ _ Hrep). split; [done|]. apply Forall_app_2; [apply Hout|]. by apply Forall_singleton, (nb_repr_wf _ _ _ _ Hrep).
        + by apply bytes_ok_zdrop.
        + done.
        + assert (zlen (zdrop n l) <= Z.of_nat fuel); [|unfold zlen in *; lia]. rewrite zlen_zdrop by lia. unfold l. rewrite zlen_cons. unfold zlen. lia.
        + exists st'. split; [done|]. rewrite <- (ztake_zdrop n l), phase_run_app, Hrun. destruct (phase_run Idle (zdrop n l)) as [p2 e2]. cbn in *.
          by rewrite <- app_assoc in Hr'.
      - rewrite Z.min_r in Hrep, Hroom, Hrem, Hidx by lia. rewrite ztake_ge in Hrep, Hidx by lia. exists st1. split; [done|].
        rewrite phase_run_partial by lia. cbn [fst snd]. rewrite app_nil_r. split; [|by rewrite Hh]. split; [done|]. split; [lia|]. split; [rewrite zlen_app; lia|].
        right. split; [by destruct got|]. split; [done|]. exists b1, pre, post. done. }
  all: by apply Hgo.
Qed.

Lemma receive_all_ok chunks p out st :
  rx_rel p out st -> bytes_ok (concat chunks) -> stream_fits p (concat chunks) ->
  exists st', receive_all SIZE_MAX epacket_alloc_rx st chunks = Done st' /\
    rx_rel (phase_run p (concat chunks)).1 (out ++ (phase_run p (concat chunks)).2) st'.
Proof.
  revert p out st. induction chunks as [|c chunks IH]; intros p out st Hr Hb Hf; cbn [concat receive_all] in *.
  { exists st. split; [done|]. cbn. by rewrite app_nil_r. }
  apply bytes_ok_app in Hb as [Hb1 Hb2]. destruct (stream_fits_app _ _ _ Hf) as [Hf1 Hf2].
  destruct (reconstruct_loop_ok (length c) p out st c Hr Hb1 Hf1 ltac:(lia)) as (st1 & Hd & Hr1).
  unfold epacket_serial_reconstruct. rewrite Hd. cbn [exec_bind]. destruct (IH _ _ st1 Hr1 Hb2 Hf2) as (st' & -> & Hr').
  exists st'. split; [done|]. rewrite phase_run_app. destruct (phase_run p c) as [p1 e1]. cbn [fst snd] in *.
  destruct (phase_run p1 (concat chunks)) as [p2 e2]. cbn [fst snd] in *. by rewrite app_assoc.
Qed.

(** ** Streams of frames *)

Lemma stream_fits_cons p b l : phase_fits p -> stream_fits (phase_step p b).1 l -> stream_fits p (b :: l).
Proof.
  intros Hp Hf [|k]; [done|]. cbn [take phase_run]. specialize (Hf k). destruct (phase_step p b) as [p1 e1]. cbn in *.
  by destruct (phase_run p1 (take k l)).
Qed.

Lemma stream_fits_join p a b : stream_fits p a -> stream_fits (phase_run p a).1 b -> stream_fits p (a ++ b).
Proof.
  intros Ha Hb k. rewrite take_app, phase_run_app. destruct (decide (k <= length a)%nat) as [Hk|Hk].
  - replace (k - length a)%nat with 0%nat by lia. rewrite take_0. specialize (Ha k). destruct (phase_run p (take k a)). exact Ha.
  - rewrite (take_ge a) by lia. specialize (Hb (k - length a)%nat). destruct (phase_run p a) as [p1 e1]. cbn in *. by destruct (phase_run p1 _).
Qed.

Lemma stream_fits_payload l got : zlen l + zlen got <= SIZE_MAX -> stream_fits (Payload (zlen l) got) l.
Proof.
  revert got. induction l as [|b l IH]; intros got Hl; [by intros [|k]|]. apply stream_fits_cons; [done|]. rewrite zlen_cons in *. cbn [phase_step].
  destruct (Z.eqb_spec (1 + zlen l) 1) as [H1|H1].
  - destruct l; [by intros [|k]|]. rewrite zlen_cons in H1. pose proof (zlen_nonneg l). lia.
  - cbn [fst]. replace (1 + zlen l - 1) with (zlen l) by lia. apply IH. rewrite zlen_app, zlen_cons. change (zlen []) with 0. lia.
Qed.

Lemma stream_fits_frame payload : 0 < zlen payload <= SIZE_MAX -> stream_fits Idle (serial_frame payload).
Proof.
  intros Hl. unfold serial_frame. cbn [app le_put]. repeat (apply stream_fits_cons; [done|]; cbn [phase_step fst]; rewrite ?Z.eqb_refl).
  assert (Hn : zlen payload / 256 mod 256 * 256 + zlen payload mod 256 = zlen payload).
  { rewrite (Z.mod_small (zlen payload / 256)) by (split; [apply Z.div_pos; lia|apply Z.div_lt_upper_bound; lia]).
    pose proof (Z.div_mod (zlen payload) 256). lia. }
  rewrite Hn. rewrite (proj2 (Z.eqb_neq _ _)) by lia. cbn [fst]. apply stream_fits_payload. change (zlen []) with 0. lia.
Qed.

(** Frames with noise between them. *)
Definition serial_stream (items : list (list Z * list Z)) (tail : list Z) : list Z :=
  concat (map (fun '(noise, payload) => noise ++ serial_frame payload) items) ++ tail.

Definition no_sync (l : list Z) : Prop := Forall (fun b => b <> EPACKET_SERIAL_SYNC_A) l.

Lemma stream_fits_noise l : no_sync l -> stream_fits Idle l.
Proof.
  induction 1 as [|b l Hb _ IH]; [by intros [|k]|]. apply stream_fits_cons; [done|]. cbn [phase_step]. by rewrite (proj2 (Z.eqb_neq _ _) Hb).
Qed.

Lemma serial_stream_run items tail :
  Forall (fun '(noise, payload) => no_sync noise /\ 0 < zlen payload <= SIZE_MAX) items -> no_sync tail ->
  phase_run Idle (serial_stream items tail) = (Idle, map snd items) /\ stream_fits Idle (serial_stream items tail).
Proof.
  intros Hit Ht. unfold serial_stream. induction Hit as [|[noise payload] items [Hn Hp] _ [IH1 IH2]]; cbn [map concat app].
  - split; [by apply phase_run_noise|by apply stream_fits_noise].
  - rewrite <- !app_assoc, phase_run_app, phase_run_noise by done. cbv beta iota. rewrite phase_run_app, phase_run_frame by lia.
    cbv beta iota. rewrite IH1. split; [done|].
    apply stream_fits_join; [by apply stream_fits_noise|]. rewrite phase_run_noise by done. cbn [fst].
    apply stream_fits_join; [by apply stream_fits_frame|]. rewrite phase_run_frame by lia. exact IH2.
Qed.

Lemma frames_received items tail chunks st :
  Forall (fun '(noise, payload) => no_sync noise /\ 0 < zlen payload <= SIZE_MAX) items -> no_sync tail ->
  concat chunks = serial_stream items tail -> bytes_ok (concat chunks) ->
  pkt_idx st = 0 -> rx_buffer st = None -> handled st = [] ->
  exists st', receive_all SIZE_MAX epacket_alloc_rx st chunks = Done st' /\
    map nb_contents (handled st') = map snd items /\ Forall nb_wf (handled st') /\ pkt_idx st' = 0 /\ rx_buffer st' = None.
Proof.
  intros Hit Ht Hc Hb Hi Hbuf Hh. destruct (serial_stream_run items tail Hit Ht) as [Hrun Hfit].
  destruct (receive_all_ok chunks Idle [] st) as (st' & Hd & [Hs [Ho Hw]]).
  - split; [done|]. by rewrite Hh.
  - done.
  - by rewrite Hc.
  - rewrite Hc, Hrun in Hs, Ho. exists st'. split; [done|]. split; [done|]. split; [done|]. exact Hs.
Qed.

(** Serial reception.  A stream of frames with payloads up to the largest packet
    size, with noise free of the first sync byte before, between and after them, split
    into receive buffers in any way: every payload is handed on, unchanged, once and in
    order, and the parser ends ready for the next frame. *)
Theorem serial_frames_received items tail chunks st :
  Forall (fun '(noise, payload) => no_sync noise /\ 0 < zlen payload <= SIZE_MAX) items -> no_sync tail ->
  concat chunks = serial_stream items tail -> bytes_ok (concat chunks) ->
  pkt_idx st = 0 -> rx_buffer st = None -> handled st = [] ->
  exists st', receive_all SIZE_MAX epacket_alloc_rx st chunks = Done st' /\
    map nb_contents (handled st') = map snd items /\ pkt_idx st' = 0 /\ rx_buffer st' = None.
Proof.
  intros Hit Ht Hc Hb Hi Hbuf Hh. destruct (frames_received items tail chunks st) as (st' & Hd & Ho & _ & Hs); eauto.
Qed.
End refinement.

(** ** Bytes on a line *)

Definition heap_alloc_rx (a : unit) : option net_buf_simple * unit := (Some (NetBuf (repeat 0 64) 0 0 64), a).

Lemma heap_alloc_rx_ok a : exists b a' pre post,
  heap_alloc_rx a = (Some b, a') /\ nb_repr b pre [] post /\ 64 <= nb_room b.
Proof.
  exists (NetBuf (repeat 0 64) 0 0 64), a, [], (repeat 0 64). split; [done|]. split; [|vm_compute; discriminate].
  split; [done|]. vm_compute. intuition discriminate.
Qed.

Definition idle_rx : serial_rx (A := unit) := SerialRx 0 None 0 0 tt [].

Lemma serial_frames_received_witness :
  exists st', receive_all 64 heap_alloc_rx idle_rx [[7; 0xD5]; [0xCA; 2]; [0; 11]; [12; 0xD5; 0xCA; 1; 0; 0xD5; 9]] = Done st' /\
    map nb_contents (handled st') = [[11; 12]; [0xD5]].
Proof.
  destruct (serial_frames_received 64 heap_alloc_rx ltac:(lia) heap_alloc_rx_ok [([7], [11; 12]); ([], [0xD5])] [9]
    [[7; 0xD5]; [0xCA; 2]; [0; 11]; [12; 0xD5; 0xCA; 1; 0; 0xD5; 9]] idle_rx) as (st' & Hd & Ho & _).
  - repeat constructor; try discriminate; vm_compute; intuition discriminate.
  - repeat constructor. discriminate.
  - vm_compute. reflexivity.
  - repeat constructor; unfold byte_ok; lia.
  - reflexivity.
  - reflexivity.
  - reflexivity.
  - exists st'. split; [exact Hd|exact Ho].
Defined.

(** A stray first sync byte right before a frame hides the frame. *)
Example double_sync_loses_frame :
  match receive_all 64 heap_alloc_rx idle_rx [[0xD5] ++ serial_frame [1]] with
  | Done st => handled st = []
  | _ => False
  end.
Proof. reflexivity. Qed.
