(* ===== verification/EPacketKeys.v ===== *)
(** * ePacket keys

    [subsys/epacket/keys.c] and the key derivation of [lib/security/security.c]: the cache
    of keys derived from the device and network root keys, one per interface and rotation
    period, and extension networks.  The PSA cryptography service is an interface.  The
    cache never returns a key other than the one derived for the request. *)

From stdpp Require Import base tactics numbers list relations.
From Stdlib Require Import ZArith Lia.
From S2P Require Import Prelude.

Local Open Scope Z_scope.
Local Open Scope infuse_scope.

Definition PSA_KEY_ID_NULL : Z := 0.
Definition EPACKET_KEY_NETWORK : Z := 0.
Definition EPACKET_KEY_DEVICE : Z := 0x80.
Definition EPACKET_KEY_INTERFACE_SERIAL : Z := 0.
Definition EPACKET_KEY_INTERFACE_UDP : Z := 1.
Definition EPACKET_KEY_INTERFACE_BT_ADV : Z := 2.
Definition EPACKET_KEY_INTERFACE_BT_GATT : Z := 3.
Definition EPACKET_KEY_INTERFACE_NUM : Z := 4.
Definition EPACKET_KEY_INTERFACE_MASK : Z := 0x7F.

(** Key attributes and algorithms of the PSA API, by name. *)
Inductive psa_usage := PSA_KEY_USAGE_EXPORT | PSA_KEY_USAGE_ENCRYPT | PSA_KEY_USAGE_DECRYPT.
Inductive psa_lifetime := PSA_KEY_LIFETIME_VOLATILE.
Inductive psa_algorithm := PSA_ALG_CHACHA20_POLY1305 | PSA_ALG_HKDF_SHA_256.
Inductive psa_key_type := PSA_KEY_TYPE_CHACHA20 | PSA_KEY_TYPE_DERIVE.
Inductive psa_input := PSA_KEY_DERIVATION_INPUT_SALT | PSA_KEY_DERIVATION_INPUT_INFO | PSA_KEY_DERIVATION_INPUT_SECRET.

Record psa_attributes := PsaAttributes {
  attr_usage : list psa_usage;
  attr_lifetime : psa_lifetime;
  attr_algorithm : psa_algorithm;
  attr_type : psa_key_type;
  attr_bits : Z;
}.

(** The PSA functions called: [P] is the state of the service, [O] a derivation
    operation.  Every function returns its status first. *)
Class PsaKeys (P O : Type) := {
  PSA_KEY_DERIVATION_OPERATION_INIT : O;
  psa_destroy_key : P -> Z -> Z * P;
  psa_key_derivation_setup : O -> psa_algorithm -> Z * O;
  psa_key_derivation_input_bytes : O -> psa_input -> list Z -> Z * O;
  psa_key_derivation_input_key : P -> O -> psa_input -> Z -> Z * O;
  psa_key_derivation_output_key : P -> psa_attributes -> O -> Z * Z * P;
}.

(** The inputs an operation holds. *)
Record derivation (K : Type) := Derivation {
  der_salt : option (list Z);
  der_info : option (list Z);
  der_secret : option K;
}.
Arguments Derivation {K} _ _ _.
Arguments der_salt {K} _.
Arguments der_info {K} _.
Arguments der_secret {K} _.

(** Documented behaviour: [psa_key] is what a handle stands for, [inputs] what an
    operation was given.  A derived key gets a handle that was not in use; destroying a
    handle affects no other; a failing call changes no key. *)
Class PsaKeysSpec (P O K : Type) `{PsaKeys P O} (psa_key : P -> Z -> option (psa_attributes * K))
    (inputs : O -> derivation K) (hkdf : Z -> K -> list Z -> list Z -> K) : Prop := {
  psa_null p : psa_key p PSA_KEY_ID_NULL = None;
  psa_destroy p id id' : id' <> id -> psa_key (psa_destroy_key p id).2 id' = psa_key p id';
  psa_setup o : (psa_key_derivation_setup o PSA_ALG_HKDF_SHA_256).1 = 0 ->
    inputs (psa_key_derivation_setup o PSA_ALG_HKDF_SHA_256).2 = Derivation None None None;
  psa_salt o b : (psa_key_derivation_input_bytes o PSA_KEY_DERIVATION_INPUT_SALT b).1 = 0 ->
    inputs (psa_key_derivation_input_bytes o PSA_KEY_DERIVATION_INPUT_SALT b).2 =
      Derivation (Some b) (der_info (inputs o)) (der_secret (inputs o));
  psa_info o b : (psa_key_derivation_input_bytes o PSA_KEY_DERIVATION_INPUT_INFO b).1 = 0 ->
    inputs (psa_key_derivation_input_bytes o PSA_KEY_DERIVATION_INPUT_INFO b).2 =
      Derivation (der_salt (inputs o)) (Some b) (der_secret (inputs o));
  psa_secret p o id : (psa_key_derivation_input_key p o PSA_KEY_DERIVATION_INPUT_SECRET id).1 = 0 ->
    exists a k, psa_key p id = Some (a, k) /\
      inputs (psa_key_derivation_input_key p o PSA_KEY_DERIVATION_INPUT_SECRET id).2 =
        Derivation (der_salt (inputs o)) (der_info (inputs o)) (Some k);
  psa_output_fail p a o st id p' : psa_key_derivation_output_key p a o = (st, id, p') -> st <> 0 ->
    forall id', psa_key p' id' = psa_key p id';
  psa_output p a o id p' salt info k :
    psa_key_derivation_output_key p a o = (0, id, p') -> inputs o = Derivation (Some salt) (Some info) (Some k) ->
    psa_key p id = None /\ psa_key p' id = Some (a, hkdf (attr_bits a) k salt info) /\
    forall id', id' <> id -> psa_key p' id' = psa_key p id';
}.

Record infuse_security_key_params := KeyParams {
  par_base_key : Z;
  par_algorithm : psa_algorithm;
  par_key_type : psa_key_type;
  par_key_bits : Z;
  par_key_usage : list psa_usage;
  par_salt : list Z;
  par_info : list Z;
  par_force_export : bool;
}.

Record key_storage := KeyStorage { rotation : Z; ks_id : Z }.

(** The identities and root keys of [lib/security]; the secondary ones when they are
    configured. *)
Record security := Security {
  device_key_identifier : Z;
  device_root_key : Z;
  network_key_identifier : Z;
  network_root_key : Z;
  secondary_device : option (Z * Z);
  secondary_network : option (Z * Z);
}.

Inductive key_bank := NetworkKeys | DeviceKeys | SecondaryNetworkKeys | SecondaryDeviceKeys | ExtensionKeys (i : nat).

#[export] Instance key_bank_eq_dec : EqDecision key_bank.
Proof. solve_decision. Defined.

Record extension_network := ExtensionNetwork { network_id : Z; base_key : Z }.

Record epacket_keys := EpacketKeys {
  network_keys : list key_storage;
  device_keys : list key_storage;
  secondary_network_keys : list key_storage;
  secondary_device_keys : list key_storage;
  extension_bases : list extension_network;
  extension_keys : list (list key_storage);
}.

(** The names as byte strings. *)
Definition key_info (interface : Z) : list Z :=
  if interface =? EPACKET_KEY_INTERFACE_SERIAL then [115; 101; 114; 105; 97; 108]
  else if interface =? EPACKET_KEY_INTERFACE_UDP then [117; 100; 112]
  else if interface =? EPACKET_KEY_INTERFACE_BT_ADV then [98; 116; 95; 97; 100; 118]
  else [98; 116; 95; 103; 97; 116; 116].

Definition bank_storage (ks : epacket_keys) (b : key_bank) : list key_storage :=
  match b with
  | NetworkKeys => network_keys ks
  | DeviceKeys => device_keys ks
  | SecondaryNetworkKeys => secondary_network_keys ks
  | SecondaryDeviceKeys => secondary_device_keys ks
  | ExtensionKeys i => default [] (extension_keys ks !! i)
  end.

Definition set_bank (ks : epacket_keys) (b : key_bank) (l : list key_storage) : epacket_keys :=
  match b with
  | NetworkKeys => EpacketKeys l (device_keys ks) (secondary_network_keys ks) (secondary_device_keys ks) (extension_bases ks) (extension_keys ks)
  | DeviceKeys => EpacketKeys (network_keys ks) l (secondary_network_keys ks) (secondary_device_keys ks) (extension_bases ks) (extension_keys ks)
  | SecondaryNetworkKeys => EpacketKeys (network_keys ks) (device_keys ks) l (secondary_device_keys ks) (extension_bases ks) (extension_keys ks)
  | SecondaryDeviceKeys => EpacketKeys (network_keys ks) (device_keys ks) (secondary_network_keys ks) l (extension_bases ks) (extension_keys ks)
  | ExtensionKeys i => EpacketKeys (network_keys ks) (device_keys ks) (secondary_network_keys ks) (secondary_device_keys ks) (extension_bases ks)
                         (<[i := l]> (extension_keys ks))
  end.

(** The first extension network with the identifier. *)
Fixpoint find_extension (l : list extension_network) (i : nat) (key_identifier : Z) : option (Z * key_bank) :=
  match l with
  | [] => None
  | e :: l => if network_id e =? key_identifier then Some (base_key e, ExtensionKeys i) else find_extension l (S i) key_identifier
  end.

Definition extension_key_base (ks : epacket_keys) (key_identifier : Z) : option (Z * key_bank) :=
  match find_extension (extension_bases ks) 0 key_identifier with
  | Some (base, bank) => if base =? PSA_KEY_ID_NULL then None else Some (base, bank)
  | None => None
  end.

(** Root key and cache for a key type and identifier. *)
Definition key_base (sec : security) (ks : epacket_keys) (key_type key_identifier : Z) : option (Z * key_bank) :=
  if negb (Z.land key_type EPACKET_KEY_DEVICE =? 0) then
    if key_identifier =? device_key_identifier sec then Some (device_root_key sec, DeviceKeys)
    else match secondary_device sec with
         | Some (id, root) => if key_identifier =? id then Some (root, SecondaryDeviceKeys) else None
         | None => None
         end
  else if key_identifier =? network_key_identifier sec then Some (network_root_key sec, NetworkKeys)
  else
    match secondary_network sec with
    | Some (id, root) =>
        if key_identifier =? id then Some (root, SecondaryNetworkKeys) else extension_key_base ks key_identifier
    | None => extension_key_base ks key_identifier
    end.

(** The first extension network with the base key. *)
Fixpoint find_base (l : list extension_network) (key_id : Z) : option nat :=
  match l with
  | [] => None
  | e :: l => if base_key e =? key_id then Some O else S <$> find_base l key_id
  end.

Definition epacket_key_extension_network_add (ks : epacket_keys) (key_id net_id : Z) : Z * epacket_keys :=
  if key_id =? PSA_KEY_ID_NULL then (- EINVAL, ks)
  else match find_base (extension_bases ks) key_id with
       | Some _ => (- EALREADY, ks)
       | None =>
           match find_base (extension_bases ks) PSA_KEY_ID_NULL with
           | Some i =>
               (0, EpacketKeys (network_keys ks) (device_keys ks) (secondary_network_keys ks) (secondary_device_keys ks)
                     (<[i := ExtensionNetwork net_id key_id]> (extension_bases ks))
                     (<[i := repeat (KeyStorage 0 0) 4]> (extension_keys ks)))
           | None => (- ENOMEM, ks)
           end
       end.

(** [CONFIG_INFUSE_SECURITY_CHACHA_KEY_EXPORT] is [key_export]. *)
Section keys.
Context {P O : Type} `{PsaKeys P O} (key_export : bool).

(** The chain of [||]: the first call that fails ends it, and no key is returned. *)
Definition infuse_security_derive_key (p : P) (params : infuse_security_key_params) : Z * P :=
  let usage := if key_export || par_force_export params
               then PSA_KEY_USAGE_EXPORT :: par_key_usage params else par_key_usage params in
  let attributes := PsaAttributes usage PSA_KEY_LIFETIME_VOLATILE (par_algorithm params) (par_key_type params)
                      (par_key_bits params) in
  let '(st, o) := psa_key_derivation_setup PSA_KEY_DERIVATION_OPERATION_INIT PSA_ALG_HKDF_SHA_256 in
  if negb (st =? 0) then (PSA_KEY_ID_NULL, p)
  else
    let '(st, o) := psa_key_derivation_input_bytes o PSA_KEY_DERIVATION_INPUT_SALT (par_salt params) in
    if negb (st =? 0) then (PSA_KEY_ID_NULL, p)
    else
      let '(st, o) := psa_key_derivation_input_bytes o PSA_KEY_DERIVATION_INPUT_INFO (par_info params) in
      if negb (st =? 0) then (PSA_KEY_ID_NULL, p)
      else
        let '(st, o) := psa_key_derivation_input_key p o PSA_KEY_DERIVATION_INPUT_SECRET (par_base_key params) in
        if negb (st =? 0) then (PSA_KEY_ID_NULL, p)
        else
          let '(st, id, p) := psa_key_derivation_output_key p attributes o in
          if negb (st =? 0) then (PSA_KEY_ID_NULL, p) else (id, p).

Definition infuse_security_derive_chacha_key (p : P) (base_key : Z) (salt info : list Z) (force_export : bool) : Z * P :=
  infuse_security_derive_key p
    (KeyParams base_key PSA_ALG_CHACHA20_POLY1305 PSA_KEY_TYPE_CHACHA20 256
       [PSA_KEY_USAGE_ENCRYPT; PSA_KEY_USAGE_DECRYPT] salt info force_export).

(** The result code, [*output_key_id] and the service. *)
Definition epacket_key_derive (p : P) (base_key : Z) (info : list Z) (salt : Z) (output_key_id : Z) : Z * Z * P :=
  if base_key =? PSA_KEY_ID_NULL then (- EINVAL, output_key_id, p)
  else
    let '(id, p) := infuse_security_derive_chacha_key p base_key (le_put 4 salt) info false in
    if id =? PSA_KEY_ID_NULL then (- EIO, id, p) else (0, id, p).

Definition epacket_key_delete (p : P) (key_id : Z) : Z * P :=
  let '(st, p) := psa_destroy_key p key_id in (if st =? 0 then 0 else - EINVAL, p).

Definition epacket_key_id_get (sec : security) (ks : epacket_keys) (p : P) (key_type key_identifier key_rotation : Z)
  : Z * epacket_keys * P :=
  match key_base sec ks key_type key_identifier with
  | None => (PSA_KEY_ID_NULL, ks, p)
  | Some (base, bank) =>
      let interface := Z.land key_type EPACKET_KEY_INTERFACE_MASK in
      if EPACKET_KEY_INTERFACE_NUM <=? interface then (PSA_KEY_ID_NULL, ks, p)
      else
        let storage := bank_storage ks bank in
        let s := nth (Z.to_nat interface) storage (KeyStorage 0 0) in
        if negb (rotation s =? key_rotation) then
          let p := if negb (ks_id s =? 0) then snd (epacket_key_delete p (ks_id s)) else p in
          let '(rc, id, p) := epacket_key_derive p base (key_info interface) key_rotation (ks_id s) in
          let store rot := set_bank ks bank (<[Z.to_nat interface := KeyStorage rot id]> storage) in
          if rc =? 0 then (id, store key_rotation, p) else (PSA_KEY_ID_NULL, store (rotation s), p)
        else (ks_id s, ks, p)
  end.
End keys.

(** ** Coherence of the cache *)

Definition bank_base (sec : security) (ks : epacket_keys) (b : key_bank) : option Z :=
  match b with
  | NetworkKeys => Some (network_root_key sec)
  | DeviceKeys => Some (device_root_key sec)
  | SecondaryNetworkKeys => snd <$> secondary_network sec
  | SecondaryDeviceKeys => snd <$> secondary_device sec
  | ExtensionKeys i => base_key <$> extension_bases ks !! i
  end.

(** The cached entry of an interface in a bank. *)
Definition slot (ks : epacket_keys) (b : key_bank) (i : nat) (s : key_storage) : Prop := bank_storage ks b !! i = Some s.

Definition is_root (sec : security) (ks : epacket_keys) (id : Z) : Prop := exists b, bank_base sec ks b = Some id.

Definition chacha_attributes (key_export : bool) : psa_attributes :=
  PsaAttributes ((if key_export then [PSA_KEY_USAGE_EXPORT] else []) ++ [PSA_KEY_USAGE_ENCRYPT; PSA_KEY_USAGE_DECRYPT])
    PSA_KEY_LIFETIME_VOLATILE PSA_ALG_CHACHA20_POLY1305 PSA_KEY_TYPE_CHACHA20 256.

Definition bank_valid (ks : epacket_keys) (b : key_bank) : Prop :=
  match b with ExtensionKeys i => (i < length (extension_keys ks))%nat | _ => True end.

Lemma bank_storage_set ks b l b' :
  bank_valid ks b -> bank_storage (set_bank ks b l) b' = if decide (b = b') then l else bank_storage ks b'.
Proof.
  intros Hb. destruct b, b'; cbn in *; try done; case_decide as Hd; try done; simplify_eq.
  - by rewrite list_lookup_insert_eq.
  - by rewrite list_lookup_insert_ne by congruence.
Qed.

Lemma bank_base_set sec ks b l b' : bank_base sec (set_bank ks b l) b' = bank_base sec ks b'.
Proof. by destruct b, b'. Qed.

Lemma find_extension_lookup l k id base b :
  find_extension l k id = Some (base, b) -> exists i e, b = ExtensionKeys (k + i) /\ l !! i = Some e /\ base_key e = base.
Proof.
  revert k. induction l as [|e l IH]; intros k Hf; [done|]. cbn in Hf. split_match_in Hf.
  - simplify_eq. exists O, e. by rewrite Nat.add_0_r.
  - destruct (IH _ Hf) as (i & e' & -> & Hi & He). exists (S i), e'. by rewrite Nat.add_succ_r.
Qed.

Lemma extension_key_base_bank sec ks id base b :
  extension_key_base ks id = Some (base, b) -> bank_base sec ks b = Some base.
Proof.
  unfold extension_key_base. destruct (find_extension _ _ _) as [[x y]|] eqn:Hf; [|done].
  apply find_extension_lookup in Hf as (i & e & -> & Hi & <-). case_match; [done|].
  intros [= <- <-]. cbn. by rewrite Hi.
Qed.

Lemma key_base_bank sec ks t id base b : key_base sec ks t id = Some (base, b) -> bank_base sec ks b = Some base.
Proof.
  unfold key_base. intros Hk. repeat case_match; simplify_eq; cbn; eauto using extension_key_base_bank.
  all: by match goal with H : _ = Some _ |- _ => rewrite H end.
Qed.

(** Storing an entry changes that entry only. *)
Lemma slot_store ks b i s b' i' s' :
  bank_valid ks b -> slot (set_bank ks b (<[i := s]> (bank_storage ks b))) b' i' s' ->
  (b' = b /\ i' = i /\ s' = s) \/ ((b', i') <> (b, i) /\ slot ks b' i' s').
Proof.
  unfold slot. intros Hv. rewrite bank_storage_set by done. case_decide as Hb; [subst b'|].
  - rewrite list_lookup_insert_Some. intros [(-> & -> & _)|[? ?]]; [by left|right]. split; [congruence|done].
  - right. split; [congruence|done].
Qed.

(** ** The derivation *)

Section derive.
Context {P O K : Type} `{PsaKeysSpec P O K psa_key inputs hkdf} (key_export : bool).

(** A derivation returns no key and changes none, or a fresh handle for the HKDF output. *)
Lemma derive_chacha_ok p base salt info id p' :
  infuse_security_derive_chacha_key key_export p base salt info false = (id, p') ->
  (id = PSA_KEY_ID_NULL /\ forall i, psa_key p' i = psa_key p i) \/
  (id <> PSA_KEY_ID_NULL /\ psa_key p id = None /\ (forall i, i <> id -> psa_key p' i = psa_key p i) /\
   exists a m, psa_key p base = Some (a, m) /\ psa_key p' id = Some (chacha_attributes key_export, hkdf 256 m salt info)).
Proof.
  unfold infuse_security_derive_chacha_key, infuse_security_derive_key. cbn [par_base_key par_salt par_info par_force_export par_key_usage par_algorithm par_key_type par_key_bits].
  destruct (psa_key_derivation_setup _ _) as [st o] eqn:E1.
  destruct (Z.eqb_spec st 0) as [->|]; cbn [negb]; [|intros [= <- <-]; by left].
  pose proof (psa_setup PSA_KEY_DERIVATION_OPERATION_INIT) as V1. rewrite E1 in V1. specialize (V1 eq_refl). cbn in V1.
  destruct (psa_key_derivation_input_bytes o _ salt) as [st o2] eqn:E2.
  destruct (Z.eqb_spec st 0) as [->|]; cbn [negb]; [|intros [= <- <-]; by left].
  pose proof (psa_salt o salt) as V2. rewrite E2 in V2. specialize (V2 eq_refl). cbn in V2.
  destruct (psa_key_derivation_input_bytes o2 _ info) as [st o3] eqn:E3.
  destruct (Z.eqb_spec st 0) as [->|]; cbn [negb]; [|intros [= <- <-]; by left].
  pose proof (psa_info o2 info) as V3. rewrite E3 in V3. specialize (V3 eq_refl). cbn in V3.
  destruct (psa_key_derivation_input_key p o3 _ base) as [st o4] eqn:E4.
  destruct (Z.eqb_spec st 0) as [->|]; cbn [negb]; [|intros [= <- <-]; by left].
  pose proof (psa_secret p o3 base) as V4. rewrite E4 in V4. destruct (V4 eq_refl) as (a & m & Hm & V5). cbn in V5.
  rewrite V3, V2, V1 in V5. cbn in V5.
  destruct (psa_key_derivation_output_key _ _ _) as [[st id2] p2] eqn:E5.
  destruct (Z.eqb_spec st 0) as [->|Hst]; cbn [negb].
  - intros [= <- <-]. right. destruct (psa_output _ _ _ _ _ _ _ _ E5 V5) as (Hf & Hn & Ho).
    split; [intros ->; by rewrite psa_null in Hn|]. split; [done|]. split; [done|]. exists a, m. split; [done|].
    rewrite Hn. unfold chacha_attributes. by destruct key_export.
  - intros [= <- <-]. left. split; [done|]. eauto using psa_output_fail.
Qed.

(** The invariant: entries are one per interface, root keys are live and as they were
    given ([rootk]), and an entry that holds a handle holds its own live key, derived
    from the root of its bank for its rotation and interface. *)
Record keys_inv (rootk : Z -> option (psa_attributes * K)) (sec : security) (ks : epacket_keys) (p : P) : Prop := {
  ki_len b : bank_valid ks b -> length (bank_storage ks b) = 4%nat;
  ki_ext : length (extension_keys ks) = length (extension_bases ks);
  ki_root r : is_root sec ks r -> r <> PSA_KEY_ID_NULL -> psa_key p r = rootk r /\ is_Some (rootk r);
  ki_slot b i s : slot ks b i s -> ks_id s <> 0 ->
    exists base a m, bank_base sec ks b = Some base /\ base <> PSA_KEY_ID_NULL /\ rootk base = Some (a, m) /\
      psa_key p (ks_id s) = Some (chacha_attributes key_export, hkdf 256 m (le_put 4 (rotation s)) (key_info (Z.of_nat i)));
  ki_sep b i s b' i' s' : slot ks b i s -> slot ks b' i' s' -> (b, i) <> (b', i') -> ks_id s <> 0 -> ks_id s <> ks_id s';
  ki_notroot b i s : slot ks b i s -> ks_id s <> 0 -> ~ is_root sec ks (ks_id s);
}.

(** Replacing one entry: the new one holds no handle, or a fresh key that is right;
    every handle of the other entries and of the roots is unaffected. *)
Lemma keys_inv_store rootk sec ks p p' b i s :
  keys_inv rootk sec ks p -> bank_valid ks b ->
  (forall r, is_root sec ks r -> r <> PSA_KEY_ID_NULL -> psa_key p' r = psa_key p r /\ r <> ks_id s) ->
  (forall b' i' s', slot ks b' i' s' -> (b', i') <> (b, i) -> ks_id s' <> 0 ->
     psa_key p' (ks_id s') = psa_key p (ks_id s') /\ ks_id s' <> ks_id s) ->
  (ks_id s <> 0 -> exists base a m, bank_base sec ks b = Some base /\ base <> PSA_KEY_ID_NULL /\ rootk base = Some (a, m) /\
     psa_key p' (ks_id s) = Some (chacha_attributes key_export, hkdf 256 m (le_put 4 (rotation s)) (key_info (Z.of_nat i)))) ->
  keys_inv rootk sec (set_bank ks b (<[i := s]> (bank_storage ks b))) p'.
Proof.
  intros Hi Hv Hr Hs Hn.
  assert (Hroot : forall r, is_root sec (set_bank ks b (<[i := s]> (bank_storage ks b))) r <-> is_root sec ks r).
  { intros r. unfold is_root. by setoid_rewrite bank_base_set. }
  split.
  - intros b' Hb'. rewrite bank_storage_set by done. case_decide as Hd; [rewrite length_insert; by apply Hi|].
    apply Hi. destruct b, b'; cbn in *; rewrite ?length_insert in Hb'; done.
  - destruct b; cbn; rewrite ?length_insert; apply Hi.
  - intros r Hr0 Hn0. apply Hroot in Hr0. destruct (Hr r Hr0 Hn0) as [-> _]. by apply (ki_root _ _ _ _ Hi).
  - intros b' i' s' Hsl Hid. rewrite bank_base_set. apply slot_store in Hsl as [(-> & -> & ->)|[Hne Hsl]]; [eauto| |done].
    destruct (ki_slot _ _ _ _ Hi _ _ _ Hsl Hid) as (base & a & m & Hb & Hz & Hm & Hk).
    exists base, a, m. destruct (Hs _ _ _ Hsl Hne Hid) as [-> _]. done.
  - intros b1 i1 s1 b2 i2 s2 H1 H2 Hne Hid.
    apply slot_store in H1 as [(-> & -> & ->)|[Hn1 H1]]; [| |done];
      apply slot_store in H2 as [(-> & -> & ->)|[Hn2 H2]]; try done.
    + destruct (decide (ks_id s2 = 0)) as [->|Hz]; [done|]. by destruct (Hs _ _ _ H2 Hn2 Hz) as [_ ?].
    + by destruct (Hs _ _ _ H1 Hn1 Hid) as [_ ?].
    + by apply (ki_sep _ _ _ _ Hi b1 i1 s1 b2 i2 s2).
  - intros b' i' s' Hsl Hid Hrt. apply Hroot in Hrt. apply slot_store in Hsl as [(-> & -> & ->)|[Hne Hsl]]; [| |done].
    + by destruct (Hr _ Hrt Hid) as [_ ?].
    + by apply (ki_notroot _ _ _ _ Hi _ _ _ Hsl Hid).
Qed.

Lemma delete_other p id id' : id' <> id -> psa_key (epacket_key_delete p id).2 id' = psa_key p id'.
Proof. intros Hne. unfold epacket_key_delete. pose proof (psa_destroy p id id' Hne). by destruct (psa_destroy_key p id). Qed.

(** The key a request asks for: from the root of its network or device, salted with the
    rotation, for the interface. *)
Definition derived_key (rootk : Z -> option (psa_attributes * K)) (sec : security) (ks : epacket_keys)
    (key_type key_identifier key_rotation : Z) : option K :=
  match key_base sec ks key_type key_identifier with
  | Some (base, _) =>
      (fun m => hkdf 256 m.2 (le_put 4 key_rotation) (key_info (Z.land key_type EPACKET_KEY_INTERFACE_MASK))) <$> rootk base
  | None => None
  end.

Lemma bank_base_valid rootk sec ks p b base : keys_inv rootk sec ks p -> bank_base sec ks b = Some base -> bank_valid ks b.
Proof.
  intros Hi Hb. destruct b; cbn in *; try done. rewrite (ki_ext _ _ _ _ Hi).
  apply fmap_Some in Hb as (e & He & _). by eapply lookup_lt_Some.
Qed.

(** Deleting the handle of an entry keeps what the others and the roots stand for. *)
Lemma delete_slot rootk sec ks p b i s :
  keys_inv rootk sec ks p -> slot ks b i s ->
  let p1 := if negb (ks_id s =? 0) then (epacket_key_delete p (ks_id s)).2 else p in
  (forall r, is_root sec ks r -> r <> PSA_KEY_ID_NULL -> psa_key p1 r = psa_key p r) /\
  (forall b' i' s', slot ks b' i' s' -> (b', i') <> (b, i) -> ks_id s' <> 0 -> psa_key p1 (ks_id s') = psa_key p (ks_id s')).
Proof.
  intros Hi Hs p1. subst p1. destruct (Z.eqb_spec (ks_id s) 0) as [|Hz]; cbn [negb]; [done|]. split.
  - intros r Hr Hn. apply delete_other. intros ->. by apply (ki_notroot _ _ _ _ Hi _ _ _ Hs Hz).
  - intros b' i' s' Hs' Hne Hz'. apply delete_other. by apply (ki_sep _ _ _ _ Hi b' i' s' b i s).
Qed.

(** The deleted entry is replaced by a handle that was not in use. *)
Lemma keys_inv_fresh rootk sec ks p p1 p2 b i rot nid :
  keys_inv rootk sec ks p -> bank_valid ks b ->
  (forall r, is_root sec ks r -> r <> PSA_KEY_ID_NULL -> psa_key p1 r = psa_key p r) ->
  (forall b' i' s', slot ks b' i' s' -> (b', i') <> (b, i) -> ks_id s' <> 0 -> psa_key p1 (ks_id s') = psa_key p (ks_id s')) ->
  psa_key p1 nid = None -> (forall j, j <> nid -> psa_key p2 j = psa_key p1 j) ->
  (exists base a m, bank_base sec ks b = Some base /\ base <> PSA_KEY_ID_NULL /\ rootk base = Some (a, m) /\
     psa_key p2 nid = Some (chacha_attributes key_export, hkdf 256 m (le_put 4 rot) (key_info (Z.of_nat i)))) ->
  keys_inv rootk sec (set_bank ks b (<[i := KeyStorage rot nid]> (bank_storage ks b))) p2.
Proof.
  intros Hi Hv Hr1 Hs1 Hfresh Ho Hnew. apply keys_inv_store with p; [done..| | |by intros _]; cbn [ks_id].
  - intros r Hr Hr0. rewrite <- (Hr1 r Hr Hr0). assert (r <> nid); [|by rewrite Ho].
    intros ->. rewrite Hr1 in Hfresh by done. destruct (ki_root _ _ _ _ Hi _ Hr Hr0) as [E [x Hx]]. congruence.
  - intros b' i' s' Hsl Hne Hz'. rewrite <- (Hs1 _ _ _ Hsl Hne Hz'). assert (ks_id s' <> nid); [|by rewrite Ho].
    intros E. destruct (ki_slot _ _ _ _ Hi _ _ _ Hsl Hz') as (? & ? & ? & _ & _ & _ & Hx).
    rewrite <- E, (Hs1 _ _ _ Hsl Hne Hz') in Hfresh. congruence.
Qed.

Lemma root_of_bank sec ks b base : bank_base sec ks b = Some base -> is_root sec ks base.
Proof. by exists b. Qed.

Lemma key_id_get_ok rootk sec ks p t id rot r ks' p' :
  keys_inv rootk sec ks p -> epacket_key_id_get key_export sec ks p t id rot = (r, ks', p') ->
  keys_inv rootk sec ks' p' /\
  (r <> PSA_KEY_ID_NULL ->
   exists m, derived_key rootk sec ks t id rot = Some m /\ psa_key p' r = Some (chacha_attributes key_export, m)).
Proof.
  intros Hi. unfold epacket_key_id_get, derived_key. destruct (key_base _ _ _ _) as [[base b]|] eqn:Hk; [|by intros [= <- <- <-]].
  apply key_base_bank in Hk. pose proof (bank_base_valid _ _ _ _ _ _ Hi Hk) as Hv.
  set (n := Z.land t EPACKET_KEY_INTERFACE_MASK). destruct (Z.leb_spec EPACKET_KEY_INTERFACE_NUM n) as [|Hn]; [by intros [= <- <- <-]|].
  assert (Hn0 : 0 <= n) by (apply Z.land_nonneg; right; done).
  destruct (nth_lookup_or_length (bank_storage ks b) (Z.to_nat n) (KeyStorage 0 0)) as [Hs|Hl];
    [|rewrite (ki_len _ _ _ _ Hi b Hv) in Hl; unfold EPACKET_KEY_INTERFACE_NUM in Hn; lia].
  set (s := nth _ _ _) in *. destruct (Z.eqb_spec (rotation s) rot) as [<-|Hrot]; cbn [negb].
  - intros [= <- <- <-]. split; [done|]. intros Hz.
    destruct (ki_slot _ _ _ _ Hi _ _ _ Hs Hz) as (base' & a & m & Hb & _ & Hm & Hkey).
    rewrite Hk in Hb. injection Hb as <-. rewrite Hm. rewrite Z2Nat.id in Hkey by done. cbn. eauto.
  - destruct (delete_slot _ _ _ _ _ _ _ Hi Hs) as [Hr1 Hs1]. set (p1 := if negb _ then _ else p) in *.
    unfold epacket_key_derive. destruct (Z.eqb_spec base PSA_KEY_ID_NULL) as [Hz|Hz].
    { cbn. intros [= <- <- <-]. split; [|done]. assert (Hid : ks_id s = 0).
      { destruct (decide (ks_id s = 0)) as [|Hne]; [done|].
        destruct (ki_slot _ _ _ _ Hi _ _ _ Hs Hne) as (? & ? & ? & Hb & ? & _). congruence. }
      apply keys_inv_store with p; [done..| | |by rewrite Hid]; cbn [ks_id]; rewrite Hid.
      - intros r Hr Hr0. split; [by apply Hr1|done].
      - intros b' i' s' Hsl Hne Hz'. split; [by eapply Hs1|done]. }
    destruct (infuse_security_derive_chacha_key _ _ _ _ _ _) as [nid p2] eqn:Hd.
    destruct (ki_root _ _ _ _ Hi base (root_of_bank _ _ _ _ Hk) Hz) as [Hbase [[a0 m0] Hm0]].
    destruct (derive_chacha_ok _ _ _ _ _ _ Hd) as [[-> Hsame]|(Hnz & Hfresh & Ho & a & m & Hm & Hnew)].
    { cbn. intros [= <- <- <-]. split; [|done].
      apply keys_inv_store with p; [done..| | |done]; cbn [ks_id].
      - intros r Hr Hr0. rewrite Hsame. split; [by apply Hr1|done].
      - intros b' i' s' Hsl Hne Hz'. rewrite Hsame. split; [by eapply Hs1|done]. }
    rewrite (proj2 (Z.eqb_neq _ _) Hnz). cbn. intros [= <- <- <-].
    assert (Hmm : m0 = m /\ a0 = a).
    { rewrite Hr1, Hbase, Hm0 in Hm by (by eauto using root_of_bank). by injection Hm as -> ->. }
    destruct Hmm as [-> ->]. rewrite Hm0. split; [|intros _; cbn; eauto].
    eapply (keys_inv_fresh rootk sec ks p p1 p2 b); eauto. rewrite Z2Nat.id by done. eauto 8.
Qed.

Lemma find_base_lookup l key i : find_base l key = Some i -> exists e, l !! i = Some e /\ base_key e = key.
Proof.
  revert i. induction l as [|e l IH]; intros i Hf; [done|]. cbn in Hf. destruct (Z.eqb_spec (base_key e) key).
  - injection Hf as <-. by exists e.
  - apply fmap_Some in Hf as (j & Hj & ->). by apply IH.
Qed.

Lemma cleared_slot i s : repeat (KeyStorage 0 0) 4 !! i = Some s -> ks_id s = 0.
Proof. intros Hs. do 4 (destruct i; [by injection Hs as <-|]). by destruct i. Qed.

(** A network is added with a live key that is not one of the derived ones. *)
Lemma extension_add_inv rootk sec ks p key net rc ks' :
  keys_inv rootk sec ks p -> psa_key p key = rootk key -> is_Some (rootk key) ->
  (forall b i s, slot ks b i s -> ks_id s <> 0 -> ks_id s <> key) ->
  epacket_key_extension_network_add ks key net = (rc, ks') -> keys_inv rootk sec ks' p.
Proof.
  intros Hi Hkey Hlive Hfresh. unfold epacket_key_extension_network_add.
  destruct (key =? _); [by intros [= <- <-]|]. destruct (find_base _ key); [by intros [= <- <-]|].
  destruct (find_base _ PSA_KEY_ID_NULL) as [n|] eqn:Hf; [|by intros [= <- <-]].
  apply find_base_lookup in Hf as (e & He & Hnull). intros [= <- <-]. set (ks' := EpacketKeys _ _ _ _ _ _).
  pose proof (lookup_lt_Some _ _ _ He) as Hlt. pose proof (ki_ext _ _ _ _ Hi) as Hext.
  assert (Hslot : forall b i s, slot ks' b i s -> ks_id s <> 0 -> slot ks b i s /\ b <> ExtensionKeys n).
  { intros b i s. unfold slot. destruct b as [| | | |k]; cbn; try done. destruct (decide (k = n)) as [->|Hk].
    - rewrite list_lookup_insert_eq by lia. cbn. by intros ->%cleared_slot.
    - rewrite list_lookup_insert_ne by done. intros; split; congruence. }
  assert (Hbase : forall b, b <> ExtensionKeys n -> bank_base sec ks' b = bank_base sec ks b).
  { intros [| | | |k] Hb; cbn; try done. by rewrite list_lookup_insert_ne by congruence. }
  assert (Hroot : forall r, is_root sec ks' r -> r = key \/ is_root sec ks r).
  { intros r [b Hb]. destruct (decide (b = ExtensionKeys n)) as [->|Hne]; [left|right; exists b; by rewrite <- Hbase].
    cbn in Hb. rewrite list_lookup_insert_eq in Hb by done. by injection Hb. }
  split.
  - intros b Hb. destruct b as [| | | |k].
    1: exact (ki_len _ _ _ _ Hi NetworkKeys I). 1: exact (ki_len _ _ _ _ Hi DeviceKeys I).
    1: exact (ki_len _ _ _ _ Hi SecondaryNetworkKeys I). 1: exact (ki_len _ _ _ _ Hi SecondaryDeviceKeys I).
    cbn in *. rewrite length_insert in Hb. destruct (decide (k = n)) as [->|Hk].
    + by rewrite list_lookup_insert_eq by lia.
    + rewrite list_lookup_insert_ne by done. by apply (ki_len _ _ _ _ Hi (ExtensionKeys k)).
  - cbn. by rewrite !length_insert.
  - intros r Hr Hz. destruct (Hroot r Hr) as [->|Hr']; [done|]. by apply (ki_root _ _ _ _ Hi).
  - intros b i s Hs Hz. destruct (Hslot _ _ _ Hs Hz) as [Hs' Hb]. rewrite Hbase by done. by apply (ki_slot _ _ _ _ Hi).
  - intros b i s b' i' s' H1 H2 Hne Hz. destruct (Hslot _ _ _ H1 Hz) as [H1' _].
    destruct (decide (ks_id s' = 0)) as [->|Hz']; [done|]. destruct (Hslot _ _ _ H2 Hz') as [H2' _].
    by apply (ki_sep _ _ _ _ Hi b i s b' i' s').
  - intros b i s Hs Hz Hr. destruct (Hslot _ _ _ Hs Hz) as [Hs' _].
    destruct (Hroot _ Hr) as [Hk|Hr']; [by eapply Hfresh|by apply (ki_notroot _ _ _ _ Hi _ _ _ Hs' Hz)].
Qed.

(** What happens to the cache: keys are requested and networks added. *)
Inductive keys_step (rootk : Z -> option (psa_attributes * K)) (sec : security) : epacket_keys * P -> epacket_keys * P -> Prop :=
| step_get ks p t id rot r ks' p' :
    epacket_key_id_get key_export sec ks p t id rot = (r, ks', p') -> keys_step rootk sec (ks, p) (ks', p')
| step_extend ks p key net rc ks' :
    psa_key p key = rootk key -> is_Some (rootk key) -> (forall b i s, slot ks b i s -> ks_id s <> 0 -> ks_id s <> key) ->
    epacket_key_extension_network_add ks key net = (rc, ks') -> keys_step rootk sec (ks, p) (ks', p).

Lemma keys_step_inv rootk sec st st' : rtc (keys_step rootk sec) st st' -> keys_inv rootk sec st.1 st.2 -> keys_inv rootk sec st'.1 st'.2.
Proof.
  induction 1 as [|st1 st2 st3 Hs _ IH]; [done|]. intros Hi. apply IH. destruct Hs; cbn in *.
  - by eapply key_id_get_ok.
  - by eapply extension_add_inv.
Qed.

(** Zero-initialised statics, with room for [n] extension networks. *)
Definition keys_init (n : nat) : epacket_keys :=
  EpacketKeys (repeat (KeyStorage 0 0) 4) (repeat (KeyStorage 0 0) 4) (repeat (KeyStorage 0 0) 4) (repeat (KeyStorage 0 0) 4)
    (repeat (ExtensionNetwork 0 0) n) (repeat (repeat (KeyStorage 0 0) 4) n).

Definition roots_live (rootk : Z -> option (psa_attributes * K)) (sec : security) (p : P) (n : nat) : Prop :=
  forall r, is_root sec (keys_init n) r -> r <> PSA_KEY_ID_NULL -> psa_key p r = rootk r /\ is_Some (rootk r).

Lemma keys_init_slot n b i s : slot (keys_init n) b i s -> s = KeyStorage 0 0.
Proof.
  assert (H4 : forall i s, repeat (KeyStorage 0 0) 4 !! i = Some s -> s = KeyStorage 0 0).
  { intros j x Hx. apply list_elem_of_lookup_2, list_elem_of_In, repeat_spec in Hx. done. }
  unfold slot, keys_init. destruct b as [| | | |k]; cbn [bank_storage extension_keys network_keys device_keys secondary_network_keys secondary_device_keys]; try apply H4.
  destruct (repeat _ n !! k) as [l|] eqn:Hl; cbn; [|done].
  apply list_elem_of_lookup_2, list_elem_of_In, repeat_spec in Hl as ->. apply H4.
Qed.

Lemma keys_init_inv rootk sec p n : roots_live rootk sec p n -> keys_inv rootk sec (keys_init n) p.
Proof.
  intros Hr. split; try done.
  - intros b Hb. destruct b as [| | | |k]; try done. cbn in *. rewrite repeat_length in Hb.
    destruct (repeat _ n !! k) as [l|] eqn:Hl; [|apply lookup_ge_None in Hl; rewrite repeat_length in Hl; lia].
    by apply list_elem_of_lookup_2, list_elem_of_In, repeat_spec in Hl as ->.
  - cbn. by rewrite !repeat_length.
  - by intros b i s ->%keys_init_slot Hz.
  - by intros b i s b' i' s' ->%keys_init_slot _ _ Hz.
  - by intros b i s ->%keys_init_slot Hz.
Qed.

(** C23.  Whatever keys were requested before and whatever networks were added, a request
    returns no key, or a handle whose key was derived for exactly that request: from the
    root key of the requested device or network, with the requested rotation as salt and
    the interface as info.  A key of another rotation, interface or network is never
    returned, also after deletions or derivations that failed. *)
Theorem key_cache_coherent rootk sec p0 n ks p t id rot r ks' p' :
  roots_live rootk sec p0 n -> rtc (keys_step rootk sec) (keys_init n, p0) (ks, p) ->
  epacket_key_id_get key_export sec ks p t id rot = (r, ks', p') ->
  r = PSA_KEY_ID_NULL \/
  exists m, derived_key rootk sec ks t id rot = Some m /\ psa_key p' r = Some (chacha_attributes key_export, m).
Proof.
  intros Hr Hst Hg. apply keys_step_inv in Hst; [|by apply keys_init_inv].
  destruct (key_id_get_ok _ _ _ _ _ _ _ _ _ _ Hst Hg) as [_ Hk].
  destruct (decide (r = PSA_KEY_ID_NULL)); [by left|right; auto].
Qed.

(** ** Requests that are served *)

(** The service does not fail calls whose inputs are right. *)
Class PsaKeysTotal : Prop := {
  total_setup o a : (psa_key_derivation_setup o a).1 = 0;
  total_bytes o i b : (psa_key_derivation_input_bytes o i b).1 = 0;
  total_key p o i id : is_Some (psa_key p id) -> (psa_key_derivation_input_key p o i id).1 = 0;
  total_output p a o salt info k :
    inputs o = Derivation (Some salt) (Some info) (Some k) -> (psa_key_derivation_output_key p a o).1.1 = 0;
}.

Lemma derive_chacha_total `{PsaKeysTotal} p base salt info :
  is_Some (psa_key p base) -> (infuse_security_derive_chacha_key key_export p base salt info false).1 <> PSA_KEY_ID_NULL.
Proof.
  intros Hb. unfold infuse_security_derive_chacha_key, infuse_security_derive_key. cbn [par_base_key par_salt par_info par_force_export par_key_usage par_algorithm par_key_type par_key_bits].
  pose proof (total_setup PSA_KEY_DERIVATION_OPERATION_INIT PSA_ALG_HKDF_SHA_256) as T1. pose proof (psa_setup _ T1) as V1.
  destruct (psa_key_derivation_setup _ _) as [st o1]. cbn in T1, V1. subst st. cbn [Z.eqb negb].
  pose proof (total_bytes o1 PSA_KEY_DERIVATION_INPUT_SALT salt) as T2. pose proof (psa_salt _ _ T2) as V2.
  destruct (psa_key_derivation_input_bytes o1 _ _) as [st o2]. cbn in T2, V2. subst st. cbn [Z.eqb negb].
  pose proof (total_bytes o2 PSA_KEY_DERIVATION_INPUT_INFO info) as T3. pose proof (psa_info _ _ T3) as V3.
  destruct (psa_key_derivation_input_bytes o2 _ _) as [st o3]. cbn in T3, V3. subst st. cbn [Z.eqb negb].
  pose proof (total_key p o3 PSA_KEY_DERIVATION_INPUT_SECRET base Hb) as T4. destruct (psa_secret _ _ _ T4) as (a & m & _ & V4).
  destruct (psa_key_derivation_input_key p o3 _ _) as [st o4]. cbn in T4, V4. subst st. cbn [Z.eqb negb].
  rewrite V3, V2, V1 in V4. cbn in V4. set (at' := PsaAttributes _ _ _ _ _).
  pose proof (total_output p at' o4 _ _ _ V4) as T5. destruct (psa_key_derivation_output_key p at' o4) as [[st id] p2] eqn:E.
  cbn in T5. subst st. cbn [Z.eqb negb fst]. destruct (psa_output _ _ _ _ _ _ _ _ E V4) as (_ & Hn & _).
  intros ->. by rewrite psa_null in Hn.
Qed.

(** An entry with no handle has never been derived. *)
Definition filled (ks : epacket_keys) : Prop := forall b i s, slot ks b i s -> ks_id s = 0 -> rotation s = 0.

Lemma key_id_get_total `{PsaKeysTotal} rootk sec ks p t id rot r ks' p' :
  keys_inv rootk sec ks p -> filled ks -> epacket_key_id_get key_export sec ks p t id rot = (r, ks', p') ->
  filled ks' /\
  (forall base b, key_base sec ks t id = Some (base, b) -> base <> PSA_KEY_ID_NULL ->
   Z.land t EPACKET_KEY_INTERFACE_MASK < EPACKET_KEY_INTERFACE_NUM -> rot <> 0 -> r <> PSA_KEY_ID_NULL).
Proof.
  intros Hi Hfl. unfold epacket_key_id_get. destruct (key_base _ _ _ _) as [[base b]|] eqn:Hk; [|by intros [= <- <- <-]].
  pose proof (key_base_bank _ _ _ _ _ _ Hk) as Hb. pose proof (bank_base_valid _ _ _ _ _ _ Hi Hb) as Hv.
  set (n := Z.land t EPACKET_KEY_INTERFACE_MASK). destruct (Z.leb_spec EPACKET_KEY_INTERFACE_NUM n) as [|Hn].
  { intros [= <- <- <-]. split; [done|]. intros; lia. }
  destruct (nth_lookup_or_length (bank_storage ks b) (Z.to_nat n) (KeyStorage 0 0)) as [Hs|Hl];
    [|rewrite (ki_len _ _ _ _ Hi b Hv) in Hl; unfold EPACKET_KEY_INTERFACE_NUM in Hn; lia].
  set (s := nth _ _ _) in *. destruct (Z.eqb_spec (rotation s) rot) as [<-|Hrot]; cbn [negb].
  { intros [= <- <- <-]. split; [done|]. intros b1 b2 _ _ _ Hz He. by apply Hz, (Hfl _ _ _ Hs). }
  destruct (delete_slot _ _ _ _ _ _ _ Hi Hs) as [Hr1 _]. set (p1 := if negb _ then _ else p) in *.
  unfold epacket_key_derive. destruct (Z.eqb_spec base PSA_KEY_ID_NULL) as [Hz|Hz].
  { cbn. intros [= <- <- <-]. split; [|intros ? ? [= <- <-]; done].
    intros b' i' s' [(-> & -> & ->)|[_ Hsl]]%slot_store; [exact (Hfl _ _ _ Hs)|by eapply Hfl|done]. }
  pose proof (derive_chacha_total p1 base (le_put 4 rot) (key_info n)) as Ht.
  destruct (infuse_security_derive_chacha_key _ _ _ _ _ _) as [nid p2]. cbn in Ht.
  assert (Hnz : nid <> PSA_KEY_ID_NULL).
  { apply Ht. rewrite Hr1 by (by eauto using root_of_bank).
    destruct (ki_root _ _ _ _ Hi base (root_of_bank _ _ _ _ Hb) Hz) as [-> ?]. done. }
  rewrite (proj2 (Z.eqb_neq _ _) Hnz). cbn. intros [= <- <- <-]. split; [|done].
  intros b' i' s' [(-> & -> & ->)|[_ Hsl]]%slot_store; [done|by eapply Hfl|done].
Qed.

Lemma keys_step_filled `{PsaKeysTotal} rootk sec st st' :
  rtc (keys_step rootk sec) st st' -> keys_inv rootk sec st.1 st.2 -> filled st.1 -> filled st'.1.
Proof.
  induction 1 as [|st1 st2 st3 Hs _ IH]; [done|]. intros Hi Hf.
  assert (Hi2 : keys_inv rootk sec st2.1 st2.2) by (by eapply keys_step_inv; [apply rtc_once|]).
  apply IH; [done|]. destruct Hs as [ks p t id rot r ks' p' Hg|ks p key net rc ks' _ _ _ He]; cbn in *.
  - exact (proj1 (key_id_get_total _ _ _ _ _ _ _ _ _ _ Hi Hf Hg)).
  - revert He. unfold epacket_key_extension_network_add. repeat case_match; intros [= <- <-]; try done.
    intros b j s. destruct b as [| | | |k].
    1: exact (Hf NetworkKeys j s). 1: exact (Hf DeviceKeys j s).
    1: exact (Hf SecondaryNetworkKeys j s). 1: exact (Hf SecondaryDeviceKeys j s).
    intros Hsl. unfold slot in Hsl. cbn in Hsl. rewrite list_lookup_insert in Hsl. case_decide as Hd.
    + cbn in Hsl. do 4 (destruct j; [by injection Hsl as <-|]). by destruct j.
    + by apply (Hf (ExtensionKeys k) j).
Qed.

(** When the cryptography service does not fail, every request for a known network
    or device, a known interface and a rotation other than 0 is served, whatever the
    history: the returned handle is live and holds the key derived for that request. *)
Theorem key_request_served `{PsaKeysTotal} rootk sec p0 n ks p t id rot r ks' p' base b :
  roots_live rootk sec p0 n -> rtc (keys_step rootk sec) (keys_init n, p0) (ks, p) ->
  key_base sec ks t id = Some (base, b) -> base <> PSA_KEY_ID_NULL ->
  Z.land t EPACKET_KEY_INTERFACE_MASK < EPACKET_KEY_INTERFACE_NUM -> rot <> 0 ->
  epacket_key_id_get key_export sec ks p t id rot = (r, ks', p') ->
  exists m, derived_key rootk sec ks t id rot = Some m /\ psa_key p' r = Some (chacha_attributes key_export, m).
Proof.
  intros Hr Hst Hk Hb Hn Hz Hg. pose proof (keys_init_inv _ _ _ _ Hr) as H0i.
  pose proof (keys_step_inv _ _ _ _ Hst H0i) as Hi. pose proof (keys_step_filled _ _ _ _ Hst H0i) as Hf.
  apply (key_id_get_ok _ _ _ _ _ _ _ _ _ _ Hi Hg).
  eapply (key_id_get_total _ _ _ _ _ _ _ _ _ _ Hi); [|done..]. apply Hf. by intros b' i s ->%keys_init_slot.
Qed.
End derive.

(** ** A service in memory

    Handle [n + 1] is entry [n] of a list that only grows; a key is a byte string and a
    derived key the concatenation of its inputs. *)
Abbreviation mem_psa := (list (option (psa_attributes * list Z))).

Definition mem_key (p : mem_psa) (id : Z) : option (psa_attributes * list Z) :=
  if id <=? 0 then None else mjoin (p !! Z.to_nat (id - 1)).

Definition mem_hkdf (bits : Z) (k salt info : list Z) : list Z := k ++ salt ++ info.

#[export] Instance mem_psa_keys : PsaKeys mem_psa (derivation (list Z)) := {|
  PSA_KEY_DERIVATION_OPERATION_INIT := Derivation None None None;
  psa_destroy_key p id := (0, if id <=? 0 then p else <[Z.to_nat (id - 1) := None]> p);
  psa_key_derivation_setup _ _ := (0, Derivation None None None);
  psa_key_derivation_input_bytes o i b :=
    (0, match i with
        | PSA_KEY_DERIVATION_INPUT_SALT => Derivation (Some b) (der_info o) (der_secret o)
        | _ => Derivation (der_salt o) (Some b) (der_secret o)
        end);
  psa_key_derivation_input_key p o _ id :=
    match mem_key p id with Some (_, k) => (0, Derivation (der_salt o) (der_info o) (Some k)) | None => (-1, o) end;
  psa_key_derivation_output_key p a o :=
    match der_salt o, der_info o, der_secret o with
    | Some salt, Some info, Some k => (0, zlen p + 1, p ++ [Some (a, mem_hkdf (attr_bits a) k salt info)])
    | _, _, _ => (-1, 0, p)
    end;
|}.

#[export] Instance mem_psa_keys_spec : PsaKeysSpec mem_psa (derivation (list Z)) (list Z) mem_key id mem_hkdf.
Proof.
  split; try done.
  - intros p i i' Hne. unfold mem_key. cbn [psa_destroy_key mem_psa_keys snd].
    destruct (Z.leb_spec i' 0); [done|]. destruct (Z.leb_spec i 0); [done|].
    f_equal. apply list_lookup_insert_ne. lia.
  - intros p o i. cbn. destruct (mem_key p i) as [[a k]|]; [|done]. intros _. by exists a, k.
  - intros p a o st i p'. cbn. repeat case_match; intros [= <- <- <-]; done.
  - intros p a o i p' salt info k. cbn. intros Ho Hi. unfold id in Hi. rewrite Hi in Ho. cbn in Ho. injection Ho as <- <-.
    pose proof (zlen_nonneg p). unfold mem_key, zlen in *.
    replace (Z.of_nat (length p) + 1 <=? 0) with false by lia. rewrite Z.add_simpl_r, Nat2Z.id.
    rewrite lookup_ge_None_2, list_lookup_middle by done. split; [done|]. split; [done|].
    intros j Hj. destruct (Z.leb_spec j 0); [done|]. destruct (decide (Z.to_nat (j - 1) < length p)%nat).
    + by rewrite lookup_app_l.
    + rewrite !lookup_ge_None_2; [done|lia|rewrite length_app; cbn; lia].
Qed.

#[export] Instance mem_psa_total : PsaKeysTotal (P := mem_psa) (psa_key := mem_key) (inputs := id).
Proof.
  split; try done.
  - intros p o i k [[a m] Hm]. cbn. by rewrite Hm.
  - intros p a o salt info k Ho. unfold id in Ho. by rewrite Ho.
Qed.

Definition root_attributes : psa_attributes :=
  PsaAttributes [] PSA_KEY_LIFETIME_VOLATILE PSA_ALG_HKDF_SHA_256 PSA_KEY_TYPE_DERIVE 256.

(** Handle 1 is the device root, handle 2 the network root, handle 3 an extension root. *)
Definition demo_psa : mem_psa := [Some (root_attributes, [1; 1]); Some (root_attributes, [2; 2]); Some (root_attributes, [3; 3])].
Definition demo_sec : security := Security 0x111111 1 0x222222 2 None None.

Lemma demo_roots : roots_live (psa_key := mem_key) (mem_key demo_psa) demo_sec demo_psa 1.
Proof.
  intros r [b Hb] Hn. split; [done|]. destruct b as [| | | |[|k]]; cbn in Hb; try discriminate Hb; injection Hb as <-; eauto; done.
Qed.

Definition demo_get (st : epacket_keys * mem_psa) (t ident rot : Z) : Z * epacket_keys * mem_psa :=
  epacket_key_id_get false demo_sec st.1 st.2 t ident rot.

Definition demo_st1 : epacket_keys * mem_psa :=
  Eval vm_compute in (let '(_, ks, p) := demo_get (keys_init 1, demo_psa) EPACKET_KEY_NETWORK 0x222222 7 in (ks, p)).
Definition demo_st2 : epacket_keys * mem_psa :=
  Eval vm_compute in ((epacket_key_extension_network_add demo_st1.1 3 0x333333).2, demo_st1.2).
Definition demo_st3 : epacket_keys * mem_psa :=
  Eval vm_compute in (let '(_, ks, p) := demo_get demo_st2 EPACKET_KEY_NETWORK 0x222222 8 in (ks, p)).

Lemma demo_history :
  rtc (keys_step (psa_key := mem_key) false (mem_key demo_psa) demo_sec) (keys_init 1, demo_psa) demo_st2.
Proof.
  eapply rtc_l; [eapply (step_get _ _ _ (keys_init 1) demo_psa EPACKET_KEY_NETWORK 0x222222 7); vm_compute; reflexivity|].
  eapply rtc_l; [|apply rtc_refl].
  eapply (step_extend _ _ _ _ _ 3 0x333333); [vm_compute; reflexivity|by eexists| |vm_compute; reflexivity].
  intros b i s. unfold slot. destruct b as [| | | |[|k]]; cbn; try done.
  all: do 4 (destruct i as [|i]; [cbn; intros [= <-]; cbn; lia|]); by destruct i.
Qed.

Lemma key_cache_coherent_witness :
  exists m, derived_key (hkdf := mem_hkdf) (mem_key demo_psa) demo_sec demo_st2.1 EPACKET_KEY_NETWORK 0x222222 8 = Some m /\
    (demo_get demo_st2 EPACKET_KEY_NETWORK 0x222222 8).1.1 <> PSA_KEY_ID_NULL /\
    mem_key (demo_get demo_st2 EPACKET_KEY_NETWORK 0x222222 8).2 (demo_get demo_st2 EPACKET_KEY_NETWORK 0x222222 8).1.1 =
      Some (chacha_attributes false, m).
Proof.
  destruct (key_cache_coherent (psa_key := mem_key) false (mem_key demo_psa) demo_sec demo_psa 1 demo_st2.1 demo_st2.2
              EPACKET_KEY_NETWORK 0x222222 8 5 demo_st3.1 demo_st3.2 demo_roots demo_history eq_refl) as [Hn|(m & Hm & Hk)].
  - discriminate Hn.
  - exists m. split; [exact Hm|]. split; [vm_compute; discriminate|exact Hk].
Defined.

Lemma key_request_served_witness :
  exists m, derived_key (hkdf := mem_hkdf) (mem_key demo_psa) demo_sec demo_st2.1 EPACKET_KEY_NETWORK 0x222222 8 = Some m /\
    mem_key demo_st3.2 5 = Some (chacha_attributes false, m).
Proof.
  apply (key_request_served (psa_key := mem_key) false (mem_key demo_psa) demo_sec demo_psa 1 demo_st2.1 demo_st2.2
           EPACKET_KEY_NETWORK 0x222222 8 5 demo_st3.1 demo_st3.2 2 NetworkKeys demo_roots demo_history);
    try reflexivity; discriminate.
Defined.

(** The statics start at rotation 0, so a first request for rotation 0 finds a match
    and returns the empty handle. *)
Example rotation_zero_unavailable : (demo_get (keys_init 1, demo_psa) EPACKET_KEY_NETWORK 0x222222 0).1.1 = PSA_KEY_ID_NULL.
Proof. reflexivity. Qed.
