(* ===== verification/EPacketCrypt.v ===== *)
(** * ePacket encryption

    [subsys/epacket/interfaces/epacket_common_crypt.c]: the versioned and unversioned V0
    frames, their encryption and decryption over network buffers with the keys of
    [keys.c], and the functions of the serial, Bluetooth and UDP interfaces that choose a
    frame.  ChaCha20-Poly1305 is an interface. *)

From stdpp Require Import base tactics numbers list.
From Stdlib Require Import ZArith Lia.
From S2P Require Import Prelude NetBuf Epoch EPacketKeys.

Local Open Scope Z_scope.
Local Open Scope infuse_scope.

(** The values 0 are one constructor: [EPACKET_AUTH_FAILURE] on reception,
    [EPACKET_AUTH_REMOTE_ENCRYPTED] on transmission. *)
Inductive epacket_auth := EPACKET_AUTH_FAILURE | EPACKET_AUTH_NETWORK | EPACKET_AUTH_DEVICE.
Definition EPACKET_AUTH_REMOTE_ENCRYPTED : epacket_auth := EPACKET_AUTH_FAILURE.

#[export] Instance epacket_auth_eq_dec : EqDecision epacket_auth.
Proof. solve_decision. Defined.

Definition EPACKET_FLAGS_ENCRYPTION_DEVICE : Z := 0x8000.
Definition EPACKET_FLAGS_ENCRYPTION_NETWORK : Z := 0.
Definition SECONDS_PER_DAY : Z := 24 * (60 * 60).

(** The metadata the encryption uses. *)
Record epacket_tx_metadata := TxMeta {
  tx_auth : epacket_auth;
  tx_type : Z;
  tx_key_identifier : Z;
  tx_flags : Z;
  tx_sequence : Z;
}.

Record epacket_rx_metadata := RxMeta {
  packet_device_id : Z;
  packet_gps_time : Z;
  rx_key_identifier : Z;
  rx_auth : epacket_auth;
  rx_type : Z;
  rx_flags : Z;
  rx_sequence : Z;
}.

(** Authenticated encryption with associated data: the status and the bytes put in the
    output buffer, whose number is [out_len]. *)
Class PsaAead (P : Type) := {
  psa_aead_encrypt : P -> Z -> psa_algorithm -> list Z -> list Z -> list Z -> Z -> Z * list Z;
  psa_aead_decrypt : P -> Z -> psa_algorithm -> list Z -> list Z -> list Z -> Z -> Z * list Z;
}.

(** Frames: [true] is versioned, with a leading version byte. *)
Definition sizeof_associated_data (versioned : bool) : Z := if versioned then 11 else 10.
Definition sizeof_nonce : Z := 12.
Definition sizeof_frame (versioned : bool) : Z := sizeof_associated_data versioned + sizeof_nonce.

Definition associated_data (versioned : bool) (type flags key_identifier device_id_upper : Z) : list Z :=
  (if versioned then le_put 1 0 else []) ++ le_put 1 type ++ le_put 2 flags ++ le_put 3 key_identifier ++ le_put 4 device_id_upper.

Definition nonce (device_id_lower gps_time sequence entropy : Z) : list Z :=
  le_put 4 device_id_lower ++ le_put 4 gps_time ++ le_put 2 sequence ++ le_put 2 entropy.

(** A field of a frame. *)
Definition field (frame : list Z) (off n : Z) : Z := le_get (ztake n (zdrop off frame)).

Definition frame_version (frame : list Z) : Z := field frame 0 1.
Definition frame_type (v : bool) (frame : list Z) : Z := field frame (sizeof_associated_data v - 10) 1.
Definition frame_flags (v : bool) (frame : list Z) : Z := field frame (sizeof_associated_data v - 9) 2.
Definition frame_key_identifier (v : bool) (frame : list Z) : Z := field frame (sizeof_associated_data v - 7) 3.
Definition frame_device_id_upper (v : bool) (frame : list Z) : Z := field frame (sizeof_associated_data v - 4) 4.
Definition frame_device_id_lower (v : bool) (frame : list Z) : Z := field frame (sizeof_associated_data v) 4.
Definition frame_gps_time (v : bool) (frame : list Z) : Z := field frame (sizeof_associated_data v + 4) 4.
Definition frame_sequence (v : bool) (frame : list Z) : Z := field frame (sizeof_associated_data v + 8) 2.

Section crypt.
Context `{NetBufApi} {P O : Type} `{PsaKeys P O} `{PsaAead P} (key_export : bool).

(** The key cache, the cryptography service and the [sequence_num] of each of the two
    encryption functions. *)
Record crypt_state := CryptState {
  cs_keys : epacket_keys;
  cs_psa : P;
  versioned_sequence_num : Z;
  unversioned_sequence_num : Z;
}.

Definition sequence_num (v : bool) (st : crypt_state) : Z :=
  if v then versioned_sequence_num st else unversioned_sequence_num st.

Definition sequence_num_inc (v : bool) (st : crypt_state) : crypt_state :=
  CryptState (cs_keys st) (cs_psa st)
    (if v then u16 (versioned_sequence_num st + 1) else versioned_sequence_num st)
    (if v then unversioned_sequence_num st else u16 (unversioned_sequence_num st + 1)).

Definition set_keys (st : crypt_state) (ks : epacket_keys) (p : P) : crypt_state :=
  CryptState ks p (versioned_sequence_num st) (unversioned_sequence_num st).

Definition key_of_auth (auth : epacket_auth) : Z :=
  if decide (auth = EPACKET_AUTH_NETWORK) then EPACKET_KEY_NETWORK else EPACKET_KEY_DEVICE.

Definition flag_of_auth (auth : epacket_auth) : Z :=
  if decide (auth = EPACKET_AUTH_NETWORK) then EPACKET_FLAGS_ENCRYPTION_NETWORK else EPACKET_FLAGS_ENCRYPTION_DEVICE.

(** From the key on: the frame is pushed, the plaintext moved to the scratch buffer and
    encrypted back behind the frame. *)
Definition encrypt_with (v : bool) (device_id epoch_time rand : Z) (scratch : net_buf_simple)
    (b : net_buf_simple) (meta : epacket_tx_metadata) (psa_key_id : Z) (st : crypt_state)
  : exec (Z * net_buf_simple * epacket_tx_metadata * crypt_state) :=
  let buf_len := nb_len b in
  let! b := nb_push b (sizeof_frame v) in
  let frame := nb_data b in
  let b := nb_store b frame
    (associated_data v (tx_type meta) (tx_flags meta) (tx_key_identifier meta) (Z.shiftr device_id 32) ++
     nonce (Z.land device_id UINT32_MAX) epoch_time (sequence_num v st) rand) in
  let st := sequence_num_inc v st in
  if negb (nb_len b <=? net_buf_simple_tailroom scratch) then Fault (* __ASSERT_NO_MSG *) else
  let! (b, ptr) := nb_remove_mem b buf_len in
  let! scratch := nb_add_mem scratch (nb_load b ptr buf_len) in
  let '(status, out) := psa_aead_encrypt (cs_psa st) psa_key_id PSA_ALG_CHACHA20_POLY1305
    (nb_load b (frame + sizeof_associated_data v) sizeof_nonce) (nb_load b frame (sizeof_associated_data v))
    (nb_contents scratch) (net_buf_simple_tailroom b) in
  let! (b, _) := nb_add (nb_store b (nb_data b + nb_len b) out) (zlen out) in
  let meta := TxMeta (tx_auth meta) (tx_type meta) (tx_key_identifier meta) (tx_flags meta)
                (le_get (nb_load b (frame + sizeof_associated_data v + 8) 2)) in
  Done (if status =? 0 then 0 else -1, b, meta, st).

Definition v0_encrypt (v : bool) (sec : security) (device_id now rand : Z) (scratch : net_buf_simple)
    (b : net_buf_simple) (meta : epacket_tx_metadata) (interface_key : Z) (st : crypt_state)
  : exec (Z * net_buf_simple * epacket_tx_metadata * crypt_state) :=
  let epoch_time := epoch_time_seconds now in
  if decide (tx_auth meta = EPACKET_AUTH_REMOTE_ENCRYPTED) then Done (0, b, meta, st)
  else if negb (sizeof_frame v <=? nb_data b) then Fault (* __ASSERT_NO_MSG(net_buf_headroom(buf) >= ...) *)
  else
    let epacket_key_id := Z.lor (key_of_auth (tx_auth meta)) interface_key in
    let meta := TxMeta (tx_auth meta) (tx_type meta) (tx_key_identifier meta)
                  (u16 (Z.lor (tx_flags meta) (flag_of_auth (tx_auth meta)))) (tx_sequence meta) in
    let '(psa_key_id, ks, p) := epacket_key_id_get key_export sec (cs_keys st) (cs_psa st) epacket_key_id
                                  (tx_key_identifier meta) (u32 (epoch_time / SECONDS_PER_DAY)) in
    let st := set_keys st ks p in
    if psa_key_id =? PSA_KEY_ID_NULL then Done (-1, b, meta, st)
    else encrypt_with v device_id epoch_time rand scratch b meta psa_key_id st.

Definition epacket_versioned_v0_encrypt := v0_encrypt true.
Definition epacket_unversioned_v0_encrypt := v0_encrypt false.

Definition auth_failure (meta : epacket_rx_metadata) : epacket_rx_metadata :=
  RxMeta (packet_device_id meta) (packet_gps_time meta) (rx_key_identifier meta) EPACKET_AUTH_FAILURE (rx_type meta)
    (rx_flags meta) (rx_sequence meta).

(** The metadata a frame carries. *)
Definition frame_metadata (v : bool) (frame : list Z) : epacket_rx_metadata :=
  RxMeta (Z.lor (Z.shiftl (frame_device_id_upper v frame) 32) (frame_device_id_lower v frame)) (frame_gps_time v frame)
    (frame_key_identifier v frame)
    (if negb (Z.land (frame_flags v frame) EPACKET_FLAGS_ENCRYPTION_DEVICE =? 0) then EPACKET_AUTH_DEVICE else EPACKET_AUTH_NETWORK)
    (frame_type v frame) (frame_flags v frame) (frame_sequence v frame).

(** From the key on: the ciphertext is moved to the scratch buffer and decrypted back;
    on a failure the packet is put together again. *)
Definition decrypt_with (v : bool) (scratch b : net_buf_simple) (frame : list Z) (meta : epacket_rx_metadata)
    (psa_key_id : Z) (st : crypt_state) : exec (Z * net_buf_simple * epacket_rx_metadata * crypt_state) :=
  let! (b, _) := nb_pull_mem b (sizeof_frame v) in
  let! scratch := nb_add_mem scratch (nb_contents b) in
  let b := net_buf_simple_reset b in
  let '(status, out) := psa_aead_decrypt (cs_psa st) psa_key_id PSA_ALG_CHACHA20_POLY1305
    (zdrop (sizeof_associated_data v) frame) (ztake (sizeof_associated_data v) frame)
    (nb_contents scratch) (net_buf_simple_tailroom b) in
  let b := nb_store b (nb_data b + nb_len b) out in
  if negb (status =? 0) then
    let! b := nb_add_mem b frame in
    let! b := nb_add_mem b (nb_contents scratch) in
    Done (-1, b, auth_failure meta, st)
  else
    let! (b, _) := nb_add b (zlen out) in
    Done (0, b, meta, st).

Definition v0_decrypt (v : bool) (sec : security) (device_id : Z) (scratch b : net_buf_simple)
    (meta : epacket_rx_metadata) (interface_key : Z) (st : crypt_state)
  : exec (Z * net_buf_simple * epacket_rx_metadata * crypt_state) :=
  if nb_len b <=? sizeof_frame v + 16 then Done (-1, b, auth_failure meta, st)
  else
    let frame := nb_load b (nb_data b) (sizeof_frame v) in
    if v && negb (frame_version frame =? 0) then Done (-1, b, auth_failure meta, st)
    else
      let meta := frame_metadata v frame in
      if bool_decide (rx_auth meta = EPACKET_AUTH_DEVICE) && negb (packet_device_id meta =? device_id)
      then Done (-1, b, auth_failure meta, st)
      else
        let epacket_key_id := Z.lor (key_of_auth (rx_auth meta)) interface_key in
        let '(psa_key_id, ks, p) := epacket_key_id_get key_export sec (cs_keys st) (cs_psa st) epacket_key_id
                                      (rx_key_identifier meta) (frame_gps_time v frame / SECONDS_PER_DAY) in
        let st := set_keys st ks p in
        if psa_key_id =? PSA_KEY_ID_NULL then
          Done (if decide (rx_auth meta = EPACKET_AUTH_DEVICE) then -2 else -1, b, auth_failure meta, st)
        else decrypt_with v scratch b frame meta psa_key_id st.

Definition epacket_versioned_v0_decrypt := v0_decrypt true.
Definition epacket_unversioned_v0_decrypt := v0_decrypt false.

(** [frame] is a pointer into the scratch buffer; [frame_ptr] is how it is stored. *)
Definition epacket_unversioned_v0_tx_decrypt (frame_ptr : list Z) (sec : security) (scratch b : net_buf_simple)
    (interface_key : Z) (st : crypt_state) : exec (Z * net_buf_simple * crypt_state) :=
  let! scratch := nb_add_mem scratch (nb_contents b) in
  let b := net_buf_simple_reset b in
  let frame := nb_load scratch (nb_data scratch) (sizeof_frame false) in
  let epacket_key_id := Z.lor (if negb (Z.land (frame_flags false frame) EPACKET_FLAGS_ENCRYPTION_DEVICE =? 0)
                               then EPACKET_KEY_DEVICE else EPACKET_KEY_NETWORK) interface_key in
  let '(psa_key_id, ks, p) := epacket_key_id_get key_export sec (cs_keys st) (cs_psa st) epacket_key_id
                                (frame_key_identifier false frame) (frame_gps_time false frame / SECONDS_PER_DAY) in
  let st := set_keys st ks p in
  if psa_key_id =? PSA_KEY_ID_NULL then Done (-1, b, st)
  else if nb_len scratch <? sizeof_frame false then Fault (* the ciphertext length wraps around *)
  else
    let '(status, out) := psa_aead_decrypt p psa_key_id PSA_ALG_CHACHA20_POLY1305
      (zdrop (sizeof_associated_data false) frame) (ztake (sizeof_associated_data false) frame)
      (zdrop (sizeof_frame false) (nb_contents scratch)) (net_buf_simple_tailroom b) in
    let b := nb_store b (nb_data b + nb_len b) out in
    if negb (status =? 0) then
      let! b := nb_add_mem b frame_ptr in
      let! b := nb_add_mem b (nb_contents scratch) in
      Done (-1, b, st)
    else
      let! (b, _) := nb_add b (zlen out) in
      Done (0, b, st).

(** The functions of the interfaces. *)
Definition epacket_serial_encrypt sec device_id now rand scratch b meta st :=
  epacket_versioned_v0_encrypt sec device_id now rand scratch b meta EPACKET_KEY_INTERFACE_SERIAL st.
Definition epacket_serial_decrypt sec device_id scratch b meta st :=
  epacket_versioned_v0_decrypt sec device_id scratch b meta EPACKET_KEY_INTERFACE_SERIAL st.
Definition epacket_bt_adv_encrypt sec device_id now rand scratch b meta st :=
  epacket_versioned_v0_encrypt sec device_id now rand scratch b meta EPACKET_KEY_INTERFACE_BT_ADV st.
Definition epacket_bt_adv_decrypt sec device_id scratch b meta st :=
  epacket_versioned_v0_decrypt sec device_id scratch b meta EPACKET_KEY_INTERFACE_BT_ADV st.
Definition epacket_bt_gatt_encrypt sec device_id now rand scratch b meta st :=
  epacket_versioned_v0_encrypt sec device_id now rand scratch b meta EPACKET_KEY_INTERFACE_BT_GATT st.
Definition epacket_bt_gatt_decrypt sec device_id scratch b meta st :=
  epacket_versioned_v0_decrypt sec device_id scratch b meta EPACKET_KEY_INTERFACE_BT_GATT st.
Definition epacket_udp_encrypt sec device_id now rand scratch b meta st :=
  epacket_unversioned_v0_encrypt sec device_id now rand scratch b meta EPACKET_KEY_INTERFACE_UDP st.
Definition epacket_udp_decrypt sec device_id scratch b meta st :=
  epacket_unversioned_v0_decrypt sec device_id scratch b meta EPACKET_KEY_INTERFACE_UDP st.
Definition epacket_udp_tx_decrypt frame_ptr sec scratch b st :=
  epacket_unversioned_v0_tx_decrypt frame_ptr sec scratch b EPACKET_KEY_INTERFACE_UDP st.
End crypt.

Arguments crypt_state : clear implicits.
Arguments CryptState {P} _ _ _ _.

(** ** Frames *)

Lemma zlen_associated_data v t f k d : zlen (associated_data v t f k d) = sizeof_associated_data v.
Proof. by destruct v. Qed.

Lemma zlen_nonce d g s e : zlen (nonce d g s e) = sizeof_nonce.
Proof. done. Qed.

Lemma field_app a x z off n : off = zlen a -> n = zlen x -> field (a ++ x ++ z) off n = le_get x.
Proof. intros -> ->. unfold field. by rewrite zdrop_app, ztake_app. Qed.

(** Reading a frame gives the fields it was built from, at their widths. *)
Lemma frame_fields v t f k d dl g s e :
  let frame := associated_data v t f k d ++ nonce dl g s e in
  frame_metadata v frame =
    RxMeta (Z.lor (Z.shiftl (u32 d) 32) (u32 dl)) (u32 g) (uwrap 24 k)
      (if negb (Z.land (u16 f) EPACKET_FLAGS_ENCRYPTION_DEVICE =? 0) then EPACKET_AUTH_DEVICE else EPACKET_AUTH_NETWORK)
      (u8 t) (u16 f) (u16 s) /\
  (v = true -> frame_version frame = 0).
Proof.
  cbn zeta. set (a0 := if v then le_put 1 0 else []).
  assert (H0 : zlen a0 = sizeof_associated_data v - 10) by (by destruct v).
  assert (Hf : associated_data v t f k d ++ nonce dl g s e =
    a0 ++ le_put 1 t ++ le_put 2 f ++ le_put 3 k ++ le_put 4 d ++ le_put 4 dl ++ le_put 4 g ++ le_put 2 s ++ le_put 2 e).
  { unfold associated_data, nonce. fold a0. by rewrite <- !app_assoc. }
  split; [|intros ->; unfold frame_version, associated_data; rewrite <- app_assoc; by apply (field_app [])].
  rewrite Hf. unfold frame_metadata, frame_device_id_upper, frame_device_id_lower, frame_gps_time, frame_key_identifier,
    frame_flags, frame_type, frame_sequence.
  assert (HF : forall a n z w off, off = zlen a -> w = Z.of_nat n -> forall x, field (a ++ le_put n x ++ z) off w = x mod 2 ^ (8 * Z.of_nat n)).
  { intros a n z w off Ha Hw x. rewrite (field_app a (le_put n x)) by (rewrite ?zlen_le_put; done). apply le_get_put. }
  assert (E1 := HF a0 1%nat (le_put 2 f ++ le_put 3 k ++ le_put 4 d ++ le_put 4 dl ++ le_put 4 g ++ le_put 2 s ++ le_put 2 e) 1 _ (eq_sym H0) eq_refl t).
  assert (E2 := HF (a0 ++ le_put 1 t) 2%nat (le_put 3 k ++ le_put 4 d ++ le_put 4 dl ++ le_put 4 g ++ le_put 2 s ++ le_put 2 e) 2
                  (sizeof_associated_data v - 9) ltac:(rewrite zlen_app, zlen_le_put; lia) eq_refl f).
  assert (E3 := HF (a0 ++ le_put 1 t ++ le_put 2 f) 3%nat (le_put 4 d ++ le_put 4 dl ++ le_put 4 g ++ le_put 2 s ++ le_put 2 e) 3
                  (sizeof_associated_data v - 7) ltac:(rewrite !zlen_app, !zlen_le_put; lia) eq_refl k).
  assert (E4 := HF (a0 ++ le_put 1 t ++ le_put 2 f ++ le_put 3 k) 4%nat (le_put 4 dl ++ le_put 4 g ++ le_put 2 s ++ le_put 2 e) 4
                  (sizeof_associated_data v - 4) ltac:(rewrite !zlen_app, !zlen_le_put; lia) eq_refl d).
  assert (E5 := HF (a0 ++ le_put 1 t ++ le_put 2 f ++ le_put 3 k ++ le_put 4 d) 4%nat (le_put 4 g ++ le_put 2 s ++ le_put 2 e) 4
                  (sizeof_associated_data v) ltac:(rewrite !zlen_app, !zlen_le_put; lia) eq_refl dl).
  assert (E6 := HF (a0 ++ le_put 1 t ++ le_put 2 f ++ le_put 3 k ++ le_put 4 d ++ le_put 4 dl) 4%nat (le_put 2 s ++ le_put 2 e) 4
                  (sizeof_associated_data v + 4) ltac:(rewrite !zlen_app, !zlen_le_put; lia) eq_refl g).
  assert (E7 := HF (a0 ++ le_put 1 t ++ le_put 2 f ++ le_put 3 k ++ le_put 4 d ++ le_put 4 dl ++ le_put 4 g) 2%nat (le_put 2 e) 2
                  (sizeof_associated_data v + 8) ltac:(rewrite !zlen_app, !zlen_le_put; lia) eq_refl s).
  rewrite <- !app_assoc in *. rewrite E1, E2, E3, E4, E5, E6, E7. done.
Qed.
