(* ===== verification/EPacketCryptProps.v ===== *)
(** * ePacket encryption: what a packet promises

    Decryption accepts exactly what the key of the packet authenticates and leaves every
    other packet as it was; a packet encrypted on one device is recovered on another that
    shares its root key. *)

From stdpp Require Import base tactics numbers list sets.
From Stdlib Require Import ZArith Lia.
From S2P Require Import Prelude NetBuf Epoch EPacketKeys EPacketCrypt.

Local Open Scope Z_scope.
Local Open Scope infuse_scope.

(** Documented behaviour of the cipher: [seal] adds a tag of 16 bytes, [open] returns the
    plaintext of what was sealed, and a call on a live key of the right kind with room for
    its output does what they say.  A decryption never writes past its output buffer. *)
Class PsaAeadSpec (P K : Type) `{PsaAead P} (psa_key : P -> Z -> option (psa_attributes * K))
    (seal : K -> list Z -> list Z -> list Z -> list Z) (open : K -> list Z -> list Z -> list Z -> option (list Z)) : Prop := {
  aead_seal_len k n a m : zlen (seal k n a m) = zlen m + 16;
  aead_seal_bytes k n a m : bytes_ok m -> bytes_ok (seal k n a m);
  aead_open_seal k n a m : open k n a (seal k n a m) = Some m;
  aead_open_len k n a c m : open k n a c = Some m -> zlen c = zlen m + 16;
  aead_encrypt p id attr k n a m room :
    psa_key p id = Some (attr, k) -> attr_algorithm attr = PSA_ALG_CHACHA20_POLY1305 -> PSA_KEY_USAGE_ENCRYPT ∈ attr_usage attr ->
    zlen n = 12 -> zlen m + 16 <= room -> psa_aead_encrypt p id PSA_ALG_CHACHA20_POLY1305 n a m room = (0, seal k n a m);
  aead_decrypt p id attr k n a c room m :
    psa_key p id = Some (attr, k) -> attr_algorithm attr = PSA_ALG_CHACHA20_POLY1305 -> PSA_KEY_USAGE_DECRYPT ∈ attr_usage attr ->
    zlen n = 12 -> zlen m <= room -> open k n a c = Some m -> psa_aead_decrypt p id PSA_ALG_CHACHA20_POLY1305 n a c room = (0, m);
  aead_reject p id attr k n a c room :
    psa_key p id = Some (attr, k) -> open k n a c = None -> (psa_aead_decrypt p id PSA_ALG_CHACHA20_POLY1305 n a c room).1 <> 0;
  aead_decrypt_room p id alg n a c room : 0 <= room -> zlen (psa_aead_decrypt p id alg n a c room).2 <= room;
}.

(** Bytes written at the tail without claiming them. *)
Lemma nb_scribble_repr b pre c post out :
  nb_repr b pre c post -> zlen out <= nb_room b ->
  exists post', nb_repr (nb_store b (nb_data b + nb_len b) out) pre c post'.
Proof.
  intros Hr Hn. pose proof (nb_repr_post _ _ _ _ Hr) as Hp. pose proof (zlen_nonneg out).
  exists (out ++ zdrop (zlen out) post). destruct Hr as (Hm & Hd & Hl & Hs).
  assert (Hw : zwrite (nb_data b + nb_len b) out (nb_mem b) = pre ++ c ++ out ++ zdrop (zlen out) post).
  { rewrite Hm, Hd, Hl. rewrite <- (ztake_zdrop (zlen out) post) at 1.
    rewrite (app_assoc pre c), zwrite_app by (rewrite ?zlen_app, ?zlen_ztake; lia). by rewrite <- app_assoc. }
  unfold nb_repr, nb_store; simpl. rewrite Hw. rewrite Hm in Hs. autorewrite with zlen in *. rewrite zlen_zdrop by lia.
  repeat split; try done; lia.
Qed.

Lemma nb_repr_room b pre c post : nb_repr b pre c post -> nb_room b = nb_size b - zlen pre - zlen c.
Proof. intros (_ & Hd & Hl & _). unfold nb_room. lia. Qed.

Lemma nb_repr_load b pre x c post n :
  nb_repr b pre (x ++ c) post -> n = zlen x -> nb_load b (nb_data b) n = x.
Proof.
  intros (Hm & Hd & _) ->. apply (nb_load_mid b pre x (c ++ post)); [|done..]. by rewrite Hm, <- app_assoc.
Qed.

Section props.
Context `{NetBufSpec} {P O K : Type} `{PsaKeysSpec P O K psa_key inputs hkdf} `{PsaAead P} {seal open}
  `{!PsaAeadSpec P K psa_key seal open} (key_export : bool).

Abbreviation chacha k := (chacha_attributes key_export, k).

Lemma chacha_use : attr_algorithm (chacha_attributes key_export) = PSA_ALG_CHACHA20_POLY1305 /\
  PSA_KEY_USAGE_ENCRYPT ∈ attr_usage (chacha_attributes key_export) /\
  PSA_KEY_USAGE_DECRYPT ∈ attr_usage (chacha_attributes key_export).
Proof. destruct key_export; cbn; repeat split; set_solver. Qed.

(** What is sealed in a frame. *)
Definition opened (v : bool) (k : K) (frame ct : list Z) : option (list Z) :=
  open k (zdrop (sizeof_associated_data v) frame) (ztake (sizeof_associated_data v) frame) ct.

Lemma sizeof_frame_eq v : sizeof_frame v = sizeof_associated_data v + 12.
Proof. done. Qed.

Lemma sizeof_ad_pos v : 10 <= sizeof_associated_data v <= 11.
Proof. destruct v; cbn; lia. Qed.

Lemma decrypt_with_ok v scratch b frame ct meta id k st pre post spost spre :
  nb_repr b pre (frame ++ ct) post -> zlen frame = sizeof_frame v ->
  nb_repr scratch spre [] spost -> zlen ct <= nb_room scratch -> psa_key (cs_psa st) id = Some (chacha k) ->
  exists b' pre' post',
    match opened v k frame ct with
    | Some m => decrypt_with v scratch b frame meta id st = Done (0, b', meta, st) /\ nb_repr b' pre' m post'
    | None => decrypt_with v scratch b frame meta id st = Done (-1, b', auth_failure meta, st) /\ nb_repr b' pre' (frame ++ ct) post'
    end.
Proof.
  intros Hb Hf Hsc Hroom Hk. destruct chacha_use as (Halg & _ & Hdec). pose proof (sizeof_ad_pos v) as Had.
  unfold decrypt_with.
  destruct (nb_pull_mem_repr b pre frame ct post (sizeof_frame v) Hb (eq_sym Hf)) as (b1 & -> & Hb1 & Hs1 & _). cbn [exec_bind].
  rewrite (nb_repr_contents _ _ _ _ Hb1).
  destruct (nb_add_mem_repr scratch spre [] spost ct Hsc Hroom) as (spost' & sc1 & -> & Hsc1 & _). cbn [exec_bind].
  rewrite (nb_repr_contents _ _ _ _ Hsc1). cbn [app].
  pose proof (nb_reset_repr _ _ _ _ Hb1) as Hb2. set (b2 := net_buf_simple_reset b1) in *.
  assert (Hr2 : nb_room b2 = nb_size b).
  { rewrite (nb_repr_room _ _ _ _ Hb2). unfold b2. rewrite reset_spec. cbn. change (zlen []) with 0. lia. }
  rewrite tailroom_spec by (by eapply nb_repr_wf). rewrite Hr2.
  assert (Hsz : zlen frame + zlen ct <= nb_size b).
  { destruct Hb as (_ & _ & _ & Hs). rewrite zlen_app in Hs. pose proof (zlen_nonneg pre). lia. }
  pose proof (zlen_nonneg ct). pose proof (zlen_nonneg frame). unfold opened.
  assert (Hn : zlen (zdrop (sizeof_associated_data v) frame) = 12).
  { rewrite zlen_zdrop; rewrite Hf, sizeof_frame_eq; lia. }
  destruct (open _ _ _ ct) as [m|] eqn:Ho.
  - pose proof (aead_open_len _ _ _ _ _ Ho) as Hl. assert (Hmr : zlen m <= nb_size b) by lia.
    rewrite (aead_decrypt _ _ _ _ _ _ _ _ _ Hk Halg Hdec Hn Hmr Ho).
    cbn [Z.eqb negb]. destruct (nb_fill_repr b2 [] [] _ m Hb2) as (b3 & post' & -> & Hb3 & _); [lia|].
    cbn [exec_bind]. exists b3, [], post'. done.
  - pose proof (aead_reject _ _ _ _ _ _ _ (nb_size b) Hk Ho) as Hst.
    pose proof (aead_decrypt_room (cs_psa st) id PSA_ALG_CHACHA20_POLY1305 (zdrop (sizeof_associated_data v) frame)
                  (ztake (sizeof_associated_data v) frame) ct (nb_size b) ltac:(lia)) as Hout.
    destruct (psa_aead_decrypt _ _ _ _ _ _ _) as [status out]. cbn in Hst, Hout.
    rewrite (proj2 (Z.eqb_neq _ _) Hst). cbn [negb].
    destruct (nb_scribble_repr b2 [] [] _ out Hb2) as (post2 & Hb3); [lia|]. set (b3 := nb_store _ _ _) in *.
    assert (Hr3 : nb_room b3 = nb_size b) by exact Hr2.
    destruct (nb_add_mem_repr b3 [] [] post2 frame Hb3) as (post4 & b4 & -> & Hb4 & Hs4); [lia|]. cbn [exec_bind].
    assert (Hs3 : nb_size b3 = nb_size b) by (subst b3 b2; rewrite reset_spec; cbn; lia).
    destruct (nb_add_mem_repr b4 [] ([] ++ frame) post4 ct Hb4) as (post5 & b5 & -> & Hb5 & _).
    { rewrite (nb_repr_room _ _ _ _ Hb4). cbn. change (zlen []) with 0. lia. }
    cbn [exec_bind]. exists b5, [], post5. done.
Qed.

(** What a decryption may report: the plaintext, authenticated under the key derived for
    the frame, or a failure with the packet as it was. *)
Definition decrypt_outcome (v : bool) (rootk : Z -> option (psa_attributes * K)) (sec : security) (device_id interface_key : Z)
    (ks : epacket_keys) (packet : list Z) (rc : Z) (result : list Z) (meta : epacket_rx_metadata) : Prop :=
  (rc = 0 /\ exists frame ct k,
     packet = frame ++ ct /\ zlen frame = sizeof_frame v /\ meta = frame_metadata v frame /\
     (v = true -> frame_version frame = 0) /\ (rx_auth meta = EPACKET_AUTH_DEVICE -> packet_device_id meta = device_id) /\
     derived_key (hkdf := hkdf) rootk sec ks (Z.lor (key_of_auth (rx_auth meta)) interface_key) (rx_key_identifier meta)
       (packet_gps_time meta / SECONDS_PER_DAY) = Some k /\
     opened v k frame ct = Some result) \/
  ((rc = -1 \/ rc = -2) /\ result = packet /\ rx_auth meta = EPACKET_AUTH_FAILURE).

(** A packet that is long enough splits into frame and ciphertext. *)
Lemma packet_split v b : nb_wf b -> sizeof_frame v + 16 < nb_len b ->
  exists pre frame ct post, nb_repr b pre (frame ++ ct) post /\ nb_contents b = frame ++ ct /\ zlen frame = sizeof_frame v /\
    zlen ct <= nb_len b /\ nb_load b (nb_data b) (sizeof_frame v) = frame.
Proof.
  intros Hwf Hl. pose proof (nb_wf_repr b Hwf) as Hr. pose proof (sizeof_ad_pos v). unfold sizeof_frame, sizeof_nonce in *.
  set (pre := ztake _ _) in Hr. set (post := zdrop _ _) in Hr.
  assert (Hc : zlen (nb_contents b) = nb_len b) by (by destruct Hr as (_ & _ & -> & _)).
  set (n := sizeof_associated_data v + 12) in *.
  assert (Hn : zlen (ztake n (nb_contents b)) = n) by (rewrite zlen_ztake; lia).
  exists pre, (ztake n (nb_contents b)), (zdrop n (nb_contents b)), post.
  rewrite <- (ztake_zdrop n (nb_contents b)) in Hr at 1. split; [done|]. split; [by rewrite ztake_zdrop|]. split; [done|].
  split; [rewrite zlen_zdrop; lia|]. eapply nb_repr_load; [done|by rewrite Hn].
Qed.

Lemma v0_decrypt_ok v rootk sec device_id scratch spre spost b meta interface_key st :
  keys_inv (psa_key := psa_key) (hkdf := hkdf) key_export rootk sec (cs_keys st) (cs_psa st) -> nb_wf b ->
  nb_repr scratch spre [] spost -> nb_len b <= nb_room scratch ->
  exists rc b' meta' st', v0_decrypt key_export v sec device_id scratch b meta interface_key st = Done (rc, b', meta', st') /\
    decrypt_outcome v rootk sec device_id interface_key (cs_keys st) (nb_contents b) rc (nb_contents b') meta'.
Proof.
  intros Hi Hwf Hsc Hroom. unfold v0_decrypt, decrypt_outcome.
  destruct (Z.leb_spec (nb_len b) (sizeof_frame v + 16)) as [|Hlen]; [do 4 eexists; split; [done|right; auto]|].
  destruct (packet_split v b Hwf Hlen) as (pre & frame & ct & post & Hb & Hct & Hf & Hcl & ->).
  destruct (v && negb (frame_version frame =? 0)) eqn:Hv; [do 4 eexists; split; [done|right; auto]|].
  destruct (bool_decide _ && _) eqn:Hdev; [do 4 eexists; split; [done|right; auto]|].
  destruct (epacket_key_id_get _ _ _ _ _ _ _) as [[id ks] p] eqn:Hg.
  destruct (key_id_get_ok _ _ _ _ _ _ _ _ _ _ _ Hi Hg) as [_ Hkey].
  destruct (Z.eqb_spec id PSA_KEY_ID_NULL) as [|Hid].
  { do 4 eexists. split; [done|right]. split; [by case_decide; auto|done]. }
  destruct (Hkey Hid) as (k & Hder & Hk).
  destruct (decrypt_with_ok v scratch b frame ct (frame_metadata v frame) id k (set_keys st ks p) pre post spost spre Hb Hf Hsc)
    as (b' & pre' & post' & Hd); [lia|done|]. destruct (opened v k frame ct) as [m|] eqn:Ho; destruct Hd as [-> Hb'].
  - do 4 eexists. split; [done|left]. split; [done|]. exists frame, ct, k. rewrite (nb_repr_contents _ _ _ _ Hb').
    split; [done|]. split; [done|]. split; [done|]. split; [intros ->; by destruct (Z.eqb_spec (frame_version frame) 0)|].
    split; [|done]. intros Ha. rewrite bool_decide_eq_true_2 in Hdev by done.
    by destruct (Z.eqb_spec (packet_device_id (frame_metadata v frame)) device_id).
  - do 4 eexists. split; [done|right]. rewrite (nb_repr_contents _ _ _ _ Hb'). auto.
Qed.

(** C16.  Decrypting a received packet, of any bytes, never goes outside its buffers and
    ends in one of two ways.  It reports success: then the packet is a frame of this
    version whose ciphertext authenticates, with the frame's header, under the key derived
    from this device's root for the frame's key identifier, day and interface, a packet
    under a device key is addressed to this device, and the buffer holds the plaintext.
    Or it reports a failure: then the packet is in the buffer byte for byte, and its
    metadata says it is not authenticated. *)
Theorem epacket_decrypt_authentic rootk sec device_id scratch spre spost b meta interface_key st :
  keys_inv (psa_key := psa_key) (hkdf := hkdf) key_export rootk sec (cs_keys st) (cs_psa st) -> nb_wf b ->
  nb_repr scratch spre [] spost -> nb_len b <= nb_room scratch ->
  (exists rc b' meta' st',
     epacket_versioned_v0_decrypt key_export sec device_id scratch b meta interface_key st = Done (rc, b', meta', st') /\
     decrypt_outcome true rootk sec device_id interface_key (cs_keys st) (nb_contents b) rc (nb_contents b') meta') /\
  (exists rc b' meta' st',
     epacket_unversioned_v0_decrypt key_export sec device_id scratch b meta interface_key st = Done (rc, b', meta', st') /\
     decrypt_outcome false rootk sec device_id interface_key (cs_keys st) (nb_contents b) rc (nb_contents b') meta').
Proof. intros. split; by eapply v0_decrypt_ok. Qed.

(** ** Encryption *)

Definition tx_frame (v : bool) (device_id epoch_time rand seq : Z) (meta : epacket_tx_metadata) : list Z :=
  associated_data v (tx_type meta) (tx_flags meta) (tx_key_identifier meta) (Z.shiftr device_id 32) ++
  nonce (Z.land device_id UINT32_MAX) epoch_time seq rand.

Definition sealed (v : bool) (k : K) (frame m : list Z) : list Z :=
  frame ++ seal k (zdrop (sizeof_associated_data v) frame) (ztake (sizeof_associated_data v) frame) m.

Lemma tx_frame_bytes v d g r s meta : bytes_ok (tx_frame v d g r s meta).
Proof.
  unfold tx_frame, associated_data, nonce. rewrite !bytes_ok_app.
  assert (bytes_ok (if v then le_put 1 0 else [])) by (destruct v; [apply le_put_bytes_ok|constructor]).
  pose proof le_put_bytes_ok. auto 20.
Qed.

Lemma tx_frame_split v d g r s meta :
  zlen (tx_frame v d g r s meta) = sizeof_frame v /\
  ztake (sizeof_associated_data v) (tx_frame v d g r s meta) =
    associated_data v (tx_type meta) (tx_flags meta) (tx_key_identifier meta) (Z.shiftr d 32) /\
  zdrop (sizeof_associated_data v) (tx_frame v d g r s meta) = nonce (Z.land d UINT32_MAX) g s r.
Proof.
  unfold tx_frame. rewrite zlen_app, zlen_associated_data, zlen_nonce.
  rewrite ztake_app, zdrop_app by (by rewrite zlen_associated_data). done.
Qed.

(** The parts of a frame, read from the buffer it was written to. *)
Lemma frame_loads v b pre F z :
  nb_mem b = pre ++ F ++ z -> zlen F = sizeof_frame v ->
  nb_load b (zlen pre) (sizeof_associated_data v) = ztake (sizeof_associated_data v) F /\
  nb_load b (zlen pre + sizeof_associated_data v) sizeof_nonce = zdrop (sizeof_associated_data v) F /\
  le_get (nb_load b (zlen pre + sizeof_associated_data v + 8) 2) = frame_sequence v F.
Proof.
  intros Hm HF. pose proof (sizeof_ad_pos v). unfold sizeof_frame, sizeof_nonce in *. set (n := sizeof_associated_data v) in *.
  split; [|split].
  - apply (nb_load_mid b pre _ (zdrop n F ++ z)); [|done|rewrite zlen_ztake; lia]. by rewrite (app_assoc (ztake n F)), ztake_zdrop.
  - apply (nb_load_mid b (pre ++ ztake n F) _ z).
    + by rewrite <- app_assoc, (app_assoc (ztake n F)), ztake_zdrop.
    + rewrite zlen_app, zlen_ztake; lia.
    + rewrite zlen_zdrop; lia.
  - unfold frame_sequence, field, nb_load. f_equal. rewrite Hm, zdrop_app_ge by lia.
    replace (zlen pre + n + 8 - zlen pre) with (n + 8) by lia. rewrite zdrop_app_le by lia.
    apply ztake_app_le. rewrite zlen_zdrop; lia.
Qed.

Lemma encrypt_with_ok v d g r scratch b meta id k st pre x c post spre spost :
  nb_repr b (pre ++ x) c post -> zlen x = sizeof_frame v -> 16 <= nb_room b ->
  nb_repr scratch spre [] spost -> sizeof_frame v + zlen c <= nb_room scratch ->
  psa_key (cs_psa st) id = Some (chacha k) ->
  exists b' post' meta',
    encrypt_with v d g r scratch b meta id st = Done (0, b', meta', sequence_num_inc v st) /\
    nb_repr b' pre (sealed v k (tx_frame v d g r (sequence_num v st) meta) c) post' /\
    meta' = TxMeta (tx_auth meta) (tx_type meta) (tx_key_identifier meta) (tx_flags meta) (u16 (sequence_num v st)).
Proof.
  intros Hb Hx H16 Hsc Hroom Hk. destruct chacha_use as (Halg & Henc & _). pose proof (sizeof_ad_pos v) as Had.
  assert (Hfr : 22 <= sizeof_frame v) by (rewrite sizeof_frame_eq; lia).
  set (F := tx_frame v d g r (sequence_num v st) meta). destruct (tx_frame_split v d g r (sequence_num v st) meta) as (HF & Hft & Hfd). fold F in HF, Hft, Hfd.
  assert (Hsz : nb_room b = nb_size b - (zlen pre + zlen x) - zlen c) by (rewrite (nb_repr_room _ _ _ _ Hb), zlen_app; lia).
  assert (Hlenb : nb_len b = zlen c) by apply Hb. unfold encrypt_with. rewrite Hlenb.
  destruct (nb_push_repr b pre x c post (sizeof_frame v) Hb (eq_sym Hx)) as (b1 & -> & Hb1 & Hs1). cbn [exec_bind].
  assert (Hd1 : nb_data b1 = zlen pre) by apply Hb1. rewrite Hd1.
  assert (Hb2 : nb_repr (nb_store b1 (zlen pre) F) pre (F ++ c) post).
  { apply (nb_store_repr b1 pre [] x c post); [done|change (zlen (@nil Z)) with 0; lia|lia]. }
  fold (tx_frame v d g r (sequence_num v st) meta). fold F. set (b2 := nb_store b1 (zlen pre) F) in *.
  assert (Hl2 : nb_len b2 = sizeof_frame v + zlen c) by (destruct Hb2 as (_ & _ & -> & _); rewrite zlen_app; lia).
  rewrite Hl2, tailroom_spec by (by eapply nb_repr_wf). rewrite (proj2 (Z.leb_le _ _) Hroom). cbn [negb].
  destruct (nb_remove_mem_repr b2 pre F c post (zlen c) Hb2 eq_refl) as (b3 & -> & Hb3 & Hs3 & Hm3). cbn [exec_bind].
  assert (Hload : nb_load b3 (zlen pre + zlen F) (zlen c) = c).
  { apply (nb_load_mid b3 (pre ++ F) c post); [|by rewrite zlen_app|done]. by rewrite Hm3; destruct Hb2 as (-> & _); rewrite <- !app_assoc. }
  rewrite Hload. destruct (nb_add_mem_repr scratch spre [] spost c Hsc) as (sp & sc & -> & Hsc1 & _); [lia|]. cbn [exec_bind].
  rewrite (nb_repr_contents _ _ _ _ Hsc1). cbn [app].
  destruct (frame_loads v b3 pre F (c ++ post)) as (Had' & Hnon & _); [apply Hb3|done|].
  rewrite Had', Hnon, tailroom_spec by (by eapply nb_repr_wf).
  assert (Hr3 : zlen c + 16 <= nb_room b3).
  { rewrite (nb_repr_room _ _ _ _ Hb3). subst b2. cbn in Hs3. lia. }
  assert (Hn : zlen (zdrop (sizeof_associated_data v) F) = 12) by (by rewrite Hfd).
  change (cs_psa (sequence_num_inc v st)) with (cs_psa st). rewrite (aead_encrypt _ _ _ _ _ _ c _ Hk Halg Henc Hn Hr3).
  set (ct := seal _ _ _ c). assert (Hctl : zlen ct = zlen c + 16) by apply aead_seal_len.
  destruct (nb_fill_repr b3 pre F (c ++ post) ct Hb3) as (b4 & post4 & -> & Hb4 & _); [lia|]. cbn [exec_bind Z.eqb].
  exists b4, post4. eexists. split; [done|]. split; [exact Hb4|]. f_equal.
  destruct (frame_loads v b4 pre F (ct ++ post4)) as (_ & _ & ->); [by destruct Hb4 as (-> & _); rewrite <- app_assoc|done|].
  unfold F, tx_frame. by destruct (frame_fields v (tx_type meta) (tx_flags meta) (tx_key_identifier meta) (Z.shiftr d 32)
    (Z.land d UINT32_MAX) g (sequence_num v st) r) as [[= _ _ _ _ _ _ ->] _].
Qed.

(** ** From one device to another *)

Lemma u16_land_device z : Z.land (u16 z) EPACKET_FLAGS_ENCRYPTION_DEVICE = Z.land z EPACKET_FLAGS_ENCRYPTION_DEVICE.
Proof. unfold uwrap. rewrite <- land_ones_mod by done. by rewrite <- Z.land_assoc. Qed.

(** The encryption flag of a packet says how it was encrypted. *)
Lemma flag_tells_auth auth f :
  auth <> EPACKET_AUTH_REMOTE_ENCRYPTED -> Z.land f EPACKET_FLAGS_ENCRYPTION_DEVICE = 0 ->
  (if negb (Z.land (u16 (u16 (Z.lor f (flag_of_auth auth)))) EPACKET_FLAGS_ENCRYPTION_DEVICE =? 0)
   then EPACKET_AUTH_DEVICE else EPACKET_AUTH_NETWORK) = auth.
Proof.
  intros Ha Hf. rewrite !u16_land_device, Z.land_lor_distr_l, Hf. by destruct auth.
Qed.

Lemma device_id_halves d : in_u 64 d -> Z.lor (Z.shiftl (u32 (Z.shiftr d 32)) 32) (u32 (Z.land d UINT32_MAX)) = d.
Proof.
  intros Hd. unfold in_u in Hd. rewrite Z.shiftr_div_pow2 by done.
  change UINT32_MAX with (2 ^ 32 - 1). rewrite land_ones_mod by done. unfold uwrap.
  rewrite Z.mod_mod by done. rewrite (Z.mod_small (d / 2 ^ 32)).
  2:{ split; [apply Z.div_pos; lia|]. apply Z.div_lt_upper_bound; [done|]. change (2 ^ 32 * 2 ^ 32) with (2 ^ 64). lia. }
  rewrite lor_shiftl_add by (try done; apply Z.mod_pos_bound; done). pose proof (Z.div_mod d (2 ^ 32)). lia.
Qed.

(** A state from which requests for keys of type [t] and identifier [id] are served. *)
Record serves (rootk : Z -> option (psa_attributes * K)) (sec : security) (st : crypt_state P) (t id : Z) : Prop := {
  sv_inv : keys_inv (psa_key := psa_key) (hkdf := hkdf) key_export rootk sec (cs_keys st) (cs_psa st);
  sv_filled : filled (cs_keys st);
  sv_base : exists base bank, key_base sec (cs_keys st) t id = Some (base, bank) /\ base <> PSA_KEY_ID_NULL;
}.

Lemma serves_get `{!PsaKeysTotal (psa_key := psa_key) (inputs := inputs)} rootk sec st t id rot r ks p :
  serves rootk sec st t id -> Z.land t EPACKET_KEY_INTERFACE_MASK < EPACKET_KEY_INTERFACE_NUM -> rot <> 0 ->
  epacket_key_id_get key_export sec (cs_keys st) (cs_psa st) t id rot = (r, ks, p) ->
  r <> PSA_KEY_ID_NULL /\
  exists m, derived_key (hkdf := hkdf) rootk sec (cs_keys st) t id rot = Some m /\ psa_key p r = Some (chacha m).
Proof.
  intros [Hi Hf (base & bank & Hb & Hz)] Ht Hr Hg.
  assert (Hn : r <> PSA_KEY_ID_NULL) by (by eapply (key_id_get_total _ _ _ _ _ _ _ _ _ _ _ Hi Hf Hg)).
  split; [done|]. by apply (key_id_get_ok _ _ _ _ _ _ _ _ _ _ _ Hi Hg).
Qed.

Lemma interface_of_key auth i :
  0 <= i < EPACKET_KEY_INTERFACE_NUM -> Z.land (Z.lor (key_of_auth auth) i) EPACKET_KEY_INTERFACE_MASK < EPACKET_KEY_INTERFACE_NUM.
Proof.
  unfold EPACKET_KEY_INTERFACE_NUM. intros Hi. assert (Hc : i = 0 \/ i = 1 \/ i = 2 \/ i = 3) by lia.
  by destruct Hc as [->|[->|[->| ->]]], auth.
Qed.

(** A packet to send: room for the frame and [head] more bytes before it and for the tag
    behind it. *)
Definition sendable (v : bool) (head : Z) (b : net_buf_simple) (c : list Z) (scratch : net_buf_simple) : Prop :=
  (exists pre x post, nb_repr b (pre ++ x) c post /\ zlen x = sizeof_frame v /\ head <= zlen pre) /\ 16 <= nb_room b /\
  (exists spre spost, nb_repr scratch spre [] spost) /\ sizeof_frame v + zlen c <= nb_room scratch.

Definition with_flags (meta : epacket_tx_metadata) : epacket_tx_metadata :=
  TxMeta (tx_auth meta) (tx_type meta) (tx_key_identifier meta) (u16 (Z.lor (tx_flags meta) (flag_of_auth (tx_auth meta)))) (tx_sequence meta).

Lemma v0_encrypt_ok `{!PsaKeysTotal (psa_key := psa_key) (inputs := inputs)} v head rootk sec device_id now rand scratch b c meta i st :
  serves rootk sec st (Z.lor (key_of_auth (tx_auth meta)) i) (tx_key_identifier meta) ->
  0 <= i < EPACKET_KEY_INTERFACE_NUM -> u32 (epoch_time_seconds now / SECONDS_PER_DAY) <> 0 ->
  tx_auth meta <> EPACKET_AUTH_REMOTE_ENCRYPTED -> sendable v head b c scratch ->
  exists k b' meta' st' pre post,
    derived_key (hkdf := hkdf) rootk sec (cs_keys st) (Z.lor (key_of_auth (tx_auth meta)) i) (tx_key_identifier meta)
      (u32 (epoch_time_seconds now / SECONDS_PER_DAY)) = Some k /\
    v0_encrypt key_export v sec device_id now rand scratch b meta i st = Done (0, b', meta', st') /\
    head <= zlen pre /\
    nb_repr b' pre (sealed v k (tx_frame v device_id (epoch_time_seconds now) rand (sequence_num v st) (with_flags meta)) c) post.
Proof.
  intros Hs Hi Hday Ha ((pre & x & post & Hb & Hx & Hh) & H16 & (spre & spost & Hsc) & Hroom).
  unfold v0_encrypt. rewrite decide_False by done.
  assert (Hhead : sizeof_frame v <= nb_data b) by (destruct Hb as (_ & -> & _); rewrite zlen_app; pose proof (zlen_nonneg pre); lia).
  rewrite (proj2 (Z.leb_le _ _) Hhead). cbn [negb tx_key_identifier].
  destruct (epacket_key_id_get _ _ _ _ _ _ _) as [[r ks] p] eqn:Hg.
  destruct (serves_get _ _ _ _ _ _ _ _ _ Hs (interface_of_key _ _ Hi) Hday Hg) as [Hr (k & Hd & Hk)].
  rewrite (proj2 (Z.eqb_neq _ _) Hr).
  destruct (encrypt_with_ok v device_id (epoch_time_seconds now) rand scratch b (with_flags meta) r k (set_keys st ks p)
              pre x c post spre spost Hb Hx H16 Hsc Hroom Hk) as (b' & post' & meta' & He & Hb' & _).
  exists k, b', meta'. eexists. exists pre, post'. split; [done|]. split; [exact He|]. done.
Qed.

Lemma v0_decrypt_sealed `{!PsaKeysTotal (psa_key := psa_key) (inputs := inputs)} v rootk sec device_id scratch spre spost b meta i st frame k c :
  nb_wf b -> nb_contents b = sealed v k frame c -> zlen frame = sizeof_frame v -> 0 < zlen c ->
  nb_repr scratch spre [] spost -> nb_len b <= nb_room scratch -> (v = true -> frame_version frame = 0) ->
  (rx_auth (frame_metadata v frame) = EPACKET_AUTH_DEVICE -> packet_device_id (frame_metadata v frame) = device_id) ->
  serves rootk sec st (Z.lor (key_of_auth (rx_auth (frame_metadata v frame))) i) (rx_key_identifier (frame_metadata v frame)) ->
  0 <= i < EPACKET_KEY_INTERFACE_NUM -> frame_gps_time v frame / SECONDS_PER_DAY <> 0 ->
  derived_key (hkdf := hkdf) rootk sec (cs_keys st) (Z.lor (key_of_auth (rx_auth (frame_metadata v frame))) i)
    (rx_key_identifier (frame_metadata v frame)) (frame_gps_time v frame / SECONDS_PER_DAY) = Some k ->
  exists b' st', v0_decrypt key_export v sec device_id scratch b meta i st = Done (0, b', frame_metadata v frame, st') /\
    nb_contents b' = c.
Proof.
  intros Hwf Hc Hf Hpos Hsc Hroom Hver Hdev Hs Hi Hday Hd. unfold v0_decrypt.
  set (ct := seal k (zdrop (sizeof_associated_data v) frame) (ztake (sizeof_associated_data v) frame) c).
  assert (Hcl : zlen ct = zlen c + 16) by apply aead_seal_len.
  pose proof (nb_wf_repr b Hwf) as Hr. assert (Hl : nb_len b = zlen frame + zlen ct).
  { destruct Hr as (_ & _ & -> & _). rewrite Hc. apply zlen_app. }
  destruct (Z.leb_spec (nb_len b) (sizeof_frame v + 16)) as [|Hlen]; [lia|]. rewrite Hc in Hr.
  rewrite (nb_repr_load _ _ frame ct _ _ Hr (eq_sym Hf)).
  replace (v && negb (frame_version frame =? 0)) with false by (destruct v; [by rewrite Hver|done]).
  set (fm := frame_metadata v frame) in *.
  replace (bool_decide (rx_auth fm = EPACKET_AUTH_DEVICE) && negb (packet_device_id fm =? device_id)) with false.
  2:{ case_bool_decide as Hb; [|done]. by rewrite (Hdev Hb), Z.eqb_refl. }
  destruct (epacket_key_id_get _ _ _ _ _ _ _) as [[r ks] p] eqn:Hg.
  destruct (serves_get _ _ _ _ _ _ _ _ _ Hs (interface_of_key _ _ Hi) Hday Hg) as [Hr0 (k' & Hd' & Hk)].
  rewrite Hd in Hd'. injection Hd' as <-. rewrite (proj2 (Z.eqb_neq _ _) Hr0).
  pose proof (zlen_nonneg frame).
  destruct (decrypt_with_ok v scratch b frame ct fm r k (set_keys st ks p) _ _ spost spre Hr Hf Hsc) as (b' & pre' & post' & Ho); [lia|done|].
  unfold opened in Ho. subst ct. rewrite aead_open_seal in Ho. destruct Ho as [-> Hb'].
  exists b'. eexists. split; [done|]. by rewrite (nb_repr_contents _ _ _ _ Hb').
Qed.

Lemma packet_roundtrip `{!PsaKeysTotal (psa_key := psa_key) (inputs := inputs)} v head rootk1 rootk2 sec1 sec2 st1 st2
    device1 device2 now rand scratch1 scratch2 spre spost b c meta i :
  serves rootk1 sec1 st1 (Z.lor (key_of_auth (tx_auth meta)) i) (tx_key_identifier meta) ->
  serves rootk2 sec2 st2 (Z.lor (key_of_auth (tx_auth meta)) i) (tx_key_identifier meta) ->
  (forall rot, derived_key (hkdf := hkdf) rootk1 sec1 (cs_keys st1) (Z.lor (key_of_auth (tx_auth meta)) i) (tx_key_identifier meta) rot =
               derived_key (hkdf := hkdf) rootk2 sec2 (cs_keys st2) (Z.lor (key_of_auth (tx_auth meta)) i) (tx_key_identifier meta) rot) ->
  (tx_auth meta = EPACKET_AUTH_DEVICE -> device2 = device1) -> tx_auth meta <> EPACKET_AUTH_REMOTE_ENCRYPTED ->
  0 <= i < EPACKET_KEY_INTERFACE_NUM -> SECONDS_PER_DAY <= epoch_time_seconds now < 2 ^ 32 ->
  in_u 64 device1 -> in_u 8 (tx_type meta) -> in_u 24 (tx_key_identifier meta) ->
  Z.land (tx_flags meta) EPACKET_FLAGS_ENCRYPTION_DEVICE = 0 ->
  sendable v head b c scratch1 -> 0 < zlen c -> nb_repr scratch2 spre [] spost ->
  exists b1 meta1 st1' pre post F k,
    v0_encrypt key_export v sec1 device1 now rand scratch1 b meta i st1 = Done (0, b1, meta1, st1') /\
    head <= zlen pre /\ nb_repr b1 pre (sealed v k F c) post /\ bytes_ok F /\ zlen F = sizeof_frame v /\
    forall b2 meta2, nb_wf b2 -> nb_contents b2 = nb_contents b1 -> nb_len b2 <= nb_room scratch2 ->
    exists b3 st2', v0_decrypt key_export v sec2 device2 scratch2 b2 meta2 i st2 =
      Done (0, b3, RxMeta device1 (epoch_time_seconds now) (tx_key_identifier meta) (tx_auth meta) (tx_type meta)
                     (u16 (Z.lor (tx_flags meta) (flag_of_auth (tx_auth meta)))) (u16 (sequence_num v st1)), st2') /\
      nb_contents b3 = c.
Proof.
  intros Hs1 Hs2 Hsame Hdev Ha Hi Htime Hd64 Ht8 Hk24 Hf0 Hsend Hpos Hsc2.
  assert (Hq : 1 <= epoch_time_seconds now / SECONDS_PER_DAY < 2 ^ 32).
  { unfold SECONDS_PER_DAY in *. split; [apply Z.div_le_lower_bound; lia|]. apply Z.div_lt_upper_bound; lia. }
  assert (Hu : u32 (epoch_time_seconds now / SECONDS_PER_DAY) = epoch_time_seconds now / SECONDS_PER_DAY) by (apply uwrap_small; lia).
  destruct (v0_encrypt_ok v head rootk1 sec1 device1 now rand scratch1 b c meta i st1 Hs1 Hi) as (k & b1 & meta1 & st1' & pre & post & Hd & He & Hh & Hb1);
    [rewrite Hu; lia|done..|]. set (F := tx_frame v device1 _ rand _ (with_flags meta)) in Hb1. destruct (tx_frame_split v device1 (epoch_time_seconds now) rand (sequence_num v st1) (with_flags meta)) as (HF & _).
  exists b1, meta1, st1', pre, post, F, k. split; [done|]. split; [done|]. split; [done|]. split; [apply tx_frame_bytes|]. split; [done|].
  intros b2 meta2 Hwf Hb2 Hl2. rewrite (nb_repr_contents _ _ _ _ Hb1) in Hb2.
  destruct (frame_fields v (tx_type meta) (tx_flags (with_flags meta)) (tx_key_identifier meta) (Z.shiftr device1 32)
    (Z.land device1 UINT32_MAX) (epoch_time_seconds now) (sequence_num v st1) rand) as [Hfm Hver].
  change (associated_data _ _ _ _ _ ++ _) with F in Hfm, Hver. cbn [with_flags tx_flags] in Hfm.
  rewrite flag_tells_auth, device_id_halves in Hfm by done.
  rewrite (uwrap_small 32), (uwrap_small 24), (uwrap_small 8), (uwrap_small 16 (u16 _)) in Hfm
    by (done || (unfold SECONDS_PER_DAY in *; lia) || (apply uwrap_bound; lia)).
  assert (Hg : frame_gps_time v F = epoch_time_seconds now) by (by injection Hfm).
  destruct (v0_decrypt_sealed v rootk2 sec2 device2 scratch2 spre spost b2 meta2 i st2 F k c) as (b3 & st2' & Hdec & Hc3); 
    rewrite ?Hfm, ?Hg; cbn [rx_auth packet_device_id rx_key_identifier]; try done; [intros HD; by rewrite Hdev|lia| |].
  { by rewrite <- Hsame, <- Hu. }
  exists b3, st2'. by rewrite Hdec, Hfm.
Qed.

(** An ePacket sent by one device is recovered by another.  The two share the root
    key behind the packet's key identifier (the derived keys agree), each with a key cache
    in any state, and the cryptography services do not fail.  Then encryption succeeds,
    and decrypting a packet with those bytes, wherever it is in its buffer, succeeds,
    gives back the payload, and reports the sender's identifier, time, key identifier,
    authentication level, type, flags and sequence number. *)
Theorem epacket_roundtrip `{!PsaKeysTotal (psa_key := psa_key) (inputs := inputs)} v rootk1 rootk2 sec1 sec2 st1 st2
    device1 device2 now rand scratch1 scratch2 spre spost b c meta i :
  serves rootk1 sec1 st1 (Z.lor (key_of_auth (tx_auth meta)) i) (tx_key_identifier meta) ->
  serves rootk2 sec2 st2 (Z.lor (key_of_auth (tx_auth meta)) i) (tx_key_identifier meta) ->
  (forall rot, derived_key (hkdf := hkdf) rootk1 sec1 (cs_keys st1) (Z.lor (key_of_auth (tx_auth meta)) i) (tx_key_identifier meta) rot =
               derived_key (hkdf := hkdf) rootk2 sec2 (cs_keys st2) (Z.lor (key_of_auth (tx_auth meta)) i) (tx_key_identifier meta) rot) ->
  (tx_auth meta = EPACKET_AUTH_DEVICE -> device2 = device1) -> tx_auth meta <> EPACKET_AUTH_REMOTE_ENCRYPTED ->
  0 <= i < EPACKET_KEY_INTERFACE_NUM -> SECONDS_PER_DAY <= epoch_time_seconds now < 2 ^ 32 ->
  in_u 64 device1 -> in_u 8 (tx_type meta) -> in_u 24 (tx_key_identifier meta) ->
  Z.land (tx_flags meta) EPACKET_FLAGS_ENCRYPTION_DEVICE = 0 ->
  sendable v 0 b c scratch1 -> 0 < zlen c -> nb_repr scratch2 spre [] spost ->
  exists b1 meta1 st1', v0_encrypt key_export v sec1 device1 now rand scratch1 b meta i st1 = Done (0, b1, meta1, st1') /\
    forall b2 meta2, nb_wf b2 -> nb_contents b2 = nb_contents b1 -> nb_len b2 <= nb_room scratch2 ->
    exists b3 st2', v0_decrypt key_export v sec2 device2 scratch2 b2 meta2 i st2 =
      Done (0, b3, RxMeta device1 (epoch_time_seconds now) (tx_key_identifier meta) (tx_auth meta) (tx_type meta)
                     (u16 (Z.lor (tx_flags meta) (flag_of_auth (tx_auth meta)))) (u16 (sequence_num v st1)), st2') /\
      nb_contents b3 = c.
Proof.
  intros. destruct (packet_roundtrip v 0 rootk1 rootk2 sec1 sec2 st1 st2 device1 device2 now rand scratch1 scratch2 spre spost b c meta i)
    as (b1 & meta1 & st1' & pre & post & F & k & He & _ & _ & _ & _ & Hd); eauto.
Qed.
End props.

(** ** A cipher in memory

    The ciphertext is the plaintext, the tag a checksum of all inputs. *)
Definition mem_tag (k n a m : list Z) : list Z := le_put 16 (foldr Z.add 0 (k ++ n ++ a ++ m)).
Definition mem_seal (k n a m : list Z) : list Z := m ++ mem_tag k n a m.
Definition mem_open (k n a c : list Z) : option (list Z) :=
  let m := ztake (zlen c - 16) c in
  if decide (c = mem_seal k n a m) then Some m else None.

#[export] Instance mem_aead : PsaAead mem_psa := {|
  psa_aead_encrypt p id _ n a m room :=
    match mem_key p id with
    | Some (_, k) => if zlen m + 16 <=? room then (0, mem_seal k n a m) else (-138, [])
    | None => (-136, [])
    end;
  psa_aead_decrypt p id _ n a c room :=
    match mem_key p id with
    | Some (_, k) => match mem_open k n a c with
                     | Some m => if zlen m <=? room then (0, m) else (-138, [])
                     | None => (-149, [])
                     end
    | None => (-136, [])
    end;
|}.

Lemma zlen_mem_seal k n a m : zlen (mem_seal k n a m) = zlen m + 16.
Proof. unfold mem_seal, mem_tag. by rewrite zlen_app, zlen_le_put. Qed.

#[export] Instance mem_aead_spec : PsaAeadSpec mem_psa (list Z) mem_key mem_seal mem_open.
Proof.
  split.
  - apply zlen_mem_seal.
  - intros k n a m Hm. apply bytes_ok_app. split; [done|apply le_put_bytes_ok].
  - intros k n a m. unfold mem_open. rewrite zlen_mem_seal.
    replace (ztake (zlen m + 16 - 16) (mem_seal k n a m)) with m by (unfold mem_seal; rewrite ztake_app; [done|lia]).
    by rewrite decide_True.
  - intros k n a c m. unfold mem_open. case_decide as Hd; [|done]. intros [= <-].
    rewrite Hd at 1. apply zlen_mem_seal.
  - intros p i attr k n a m room Hk _ _ _ Hr. cbn. rewrite Hk. by rewrite (proj2 (Z.leb_le _ _) Hr).
  - intros p i attr k n a c room m Hk _ _ _ Hr Ho. cbn. rewrite Hk, Ho. by rewrite (proj2 (Z.leb_le _ _) Hr).
  - intros p i attr k n a c room Hk Ho. cbn. by rewrite Hk, Ho.
  - intros p i alg n a c room Hr. cbn. repeat case_match; cbn; try done. by apply Z.leb_le.
Qed.

(** Two devices of one network. *)
Definition demo_sec2 : security := Security 0x444444 1 0x222222 2 None None.
Definition demo_state : crypt_state mem_psa := CryptState (keys_init 1) demo_psa 41 0.
Definition demo_meta : epacket_tx_metadata := TxMeta EPACKET_AUTH_NETWORK 7 0x222222 0x1000 0.
Definition demo_buffer : net_buf_simple := NetBuf (repeat 0 40 ++ [1; 2; 3] ++ repeat 0 40) 40 3 83.
Definition demo_scratch : net_buf_simple := NetBuf (repeat 0 64) 0 0 64.
Definition demo_now : Z := Z.shiftl 1400000000 16.
Definition demo_packet : net_buf_simple :=
  Eval vm_compute in
    match v0_encrypt false true demo_sec 0x1122334455667788 demo_now 99 demo_scratch demo_buffer demo_meta 0 demo_state with
    | Done (_, b, _, _) => b
    | _ => demo_buffer
    end.

Lemma demo_scratch_repr : nb_repr demo_scratch [] [] (repeat 0 64).
Proof. split; [done|]. vm_compute. intuition discriminate. Qed.

Lemma demo_serves sec :
  network_key_identifier sec = 0x222222 -> network_root_key sec = 2 ->
  roots_live (psa_key := mem_key) (mem_key demo_psa) sec demo_psa 1 ->
  serves (psa_key := mem_key) (hkdf := mem_hkdf) false (mem_key demo_psa) sec demo_state (Z.lor (key_of_auth EPACKET_AUTH_NETWORK) 0) 0x222222.
Proof.
  intros Hid Hroot Hr. split.
  - by apply keys_init_inv.
  - by intros b i s ->%keys_init_slot.
  - exists 2, NetworkKeys. split; [|done]. unfold key_base. cbn. by rewrite Hid, Hroot.
Qed.

Lemma demo_roots2 : roots_live (psa_key := mem_key) (mem_key demo_psa) demo_sec2 demo_psa 1.
Proof.
  intros r [b Hb] Hn. split; [done|]. destruct b as [| | | |[|k]]; cbn in Hb; try discriminate Hb; injection Hb as <-; eauto; done.
Qed.

Lemma epacket_roundtrip_witness :
  exists b3 st', v0_decrypt false true demo_sec2 5 demo_scratch demo_packet (RxMeta 0 0 0 EPACKET_AUTH_FAILURE 0 0 0) 0 demo_state =
    Done (0, b3, RxMeta 0x1122334455667788 1400000000 0x222222 EPACKET_AUTH_NETWORK 7 0x1000 41, st') /\ nb_contents b3 = [1; 2; 3].
Proof.
  destruct (epacket_roundtrip (psa_key := mem_key) (hkdf := mem_hkdf) false true (mem_key demo_psa) (mem_key demo_psa) demo_sec demo_sec2
    demo_state demo_state 0x1122334455667788 5 demo_now 99 demo_scratch demo_scratch [] (repeat 0 64) demo_buffer [1; 2; 3] demo_meta 0)
    as (b1 & meta1 & st1' & He & Hdec).
  - exact (demo_serves demo_sec eq_refl eq_refl demo_roots).
  - exact (demo_serves demo_sec2 eq_refl eq_refl demo_roots2).
  - reflexivity.
  - discriminate.
  - discriminate.
  - vm_compute; intuition discriminate.
  - vm_compute; intuition discriminate.
  - vm_compute; intuition discriminate.
  - vm_compute; intuition discriminate.
  - vm_compute; intuition discriminate.
  - reflexivity.
  - split; [|split; [vm_compute; discriminate|split; [exists [], (repeat 0 64); exact demo_scratch_repr|vm_compute; discriminate]]].
    exists (repeat 0 17), (repeat 0 23), (repeat 0 40). split; [split; [reflexivity|]; vm_compute; intuition discriminate|].
    split; [reflexivity|vm_compute; discriminate].
  - reflexivity.
  - exact demo_scratch_repr.
  - vm_compute in He. injection He as <- _ _. apply Hdec.
    + vm_compute; intuition discriminate.
    + reflexivity.
    + vm_compute; discriminate.
Defined.

(** A packet with one bit of the payload changed. *)
Definition demo_forged : net_buf_simple :=
  Eval vm_compute in nb_store demo_packet (nb_data demo_packet + 23) [0].

Lemma epacket_decrypt_authentic_witness :
  exists rc b' meta' st',
    epacket_versioned_v0_decrypt false demo_sec2 5 demo_scratch demo_forged (RxMeta 0 0 0 EPACKET_AUTH_FAILURE 0 0 0) 0 demo_state =
      Done (rc, b', meta', st') /\ rc = -1 /\ nb_contents b' = nb_contents demo_forged.
Proof.
  destruct (epacket_decrypt_authentic (psa_key := mem_key) (hkdf := mem_hkdf) false (mem_key demo_psa) demo_sec2 5 demo_scratch []
    (repeat 0 64) demo_forged (RxMeta 0 0 0 EPACKET_AUTH_FAILURE 0 0 0) 0 demo_state) as [(rc & b' & meta' & st' & Hd & Ho) _].
  - exact (keys_init_inv _ _ _ _ _ demo_roots2).
  - vm_compute; intuition discriminate.
  - exact demo_scratch_repr.
  - vm_compute; discriminate.
  - exists rc, b', meta', st'. split; [exact Hd|]. vm_compute in Hd. injection Hd as <- <- <- <-.
    destruct Ho as [[Hrc _]|(_ & Hc & _)]; [discriminate Hrc|]. split; [reflexivity|exact Hc].
Defined.

(** A UDP packet that cannot be decrypted for a second attempt: the bytes of a pointer
    are put before the packet, and with an unknown key the packet is gone. *)
Example tx_decrypt_damages_packet :
  let tx b := match epacket_udp_tx_decrypt false [0xEF; 0xBE; 0xAD; 0xDE] demo_sec2 demo_scratch b demo_state with
              | Done (rc, b, _) => Some (rc, nb_contents b) | _ => None end in
  let packet key := associated_data false 1 0 key 0 ++ nonce 0 1400000000 0 0 ++ [9] ++ repeat 0 16 in
  let buffer key := NetBuf (packet key ++ repeat 0 8) 0 39 47 in
  tx (buffer 0x222222) = Some (-1, [0xEF; 0xBE; 0xAD; 0xDE] ++ packet 0x222222) /\ tx (buffer 0x999999) = Some (-1, []).
Proof. vm_compute. split; reflexivity. Qed.
