(* ===== verification/EPacketLink.v ===== *)
(** * ePackets over a serial link

    The transmit side of [subsys/epacket/interfaces/epacket_serial_async.c] over a UART
    driver, and the link as a whole: encryption, framing, the byte stream, reconstruction
    and decryption on the other device. *)

From stdpp Require Import base tactics numbers list relations sets.
From Stdlib Require Import ZArith Lia.
From S2P Require Import Prelude NetBuf Epoch EPacketKeys EPacketCrypt EPacketCryptProps EPacketSerial.

Local Open Scope Z_scope.
Local Open Scope infuse_scope.

(** The asynchronous UART driver: a transmission is started, and completes later. *)
Class UartApi (U : Type) := {
  uart_tx : U -> list Z -> Z * U;
}.

(** A driver with its documented behaviour: what it is sending, if anything; it accepts
    bytes when it sends nothing and is busy otherwise. *)
Class UartSpec (U : Type) `{UartApi U} (sending : U -> option (list Z)) : Prop := {
  uart_tx_idle u bs : sending u = None -> (uart_tx u bs).1 = 0 /\ sending (uart_tx u bs).2 = Some bs;
  uart_tx_busy u bs : is_Some (sending u) -> (uart_tx u bs).1 = - EBUSY /\ sending (uart_tx u bs).2 = sending u;
}.

(** [struct epacket_serial_data] with what the functions report: the results given to
    [epacket_notify_tx_result], and the runtime power references of the UART and of the
    interface device. *)
Record serial_tx := SerialTx {
  pending_tx : option net_buf_simple;
  tx_queue : list net_buf_simple;
  tx_results : list (net_buf_simple * Z);
  backend_refs : Z;
  interface_refs : Z;
}.

Section transmit.
Context `{NetBufApi} {U : Type} `{UartApi U}.

Definition notify_tx (d : serial_tx) (b : net_buf_simple) (rc : Z) : serial_tx :=
  SerialTx (pending_tx d) (tx_queue d) (tx_results d ++ [(b, rc)]) (backend_refs d) (interface_refs d).

(** After [uart_tx] returned [rc]. *)
Definition send_finish (d : serial_tx) (b : net_buf_simple) (rc : Z) : serial_tx :=
  if rc =? - EBUSY then SerialTx (pending_tx d) (tx_queue d ++ [b]) (tx_results d) (backend_refs d) (interface_refs d)
  else if negb (rc =? 0) then
    notify_tx (SerialTx (pending_tx d) (tx_queue d) (tx_results d) (backend_refs d) (interface_refs d - 1)) b rc
  else SerialTx (Some b) (tx_queue d) (tx_results d) (backend_refs d) (interface_refs d).

(** Up to the return of [uart_tx]: the UART is powered and the transmission requested. *)
Definition send_begin (d : serial_tx) (u : U) (b : net_buf_simple) : serial_tx * U * Z :=
  let d := SerialTx (pending_tx d) (tx_queue d) (tx_results d) (backend_refs d + 1) (interface_refs d) in
  let '(rc, u) := uart_tx u (nb_contents b) in
  (d, u, rc).

(** A framed packet; [pm_rc] is the result of [pm_device_runtime_get]. *)
Definition send_framed (d : serial_tx) (u : U) (pm_rc : Z) (b : net_buf_simple) : serial_tx * U :=
  if pm_rc <? 0 then (notify_tx d b (- ENODEV), u)
  else
    let '(d, u, rc) := send_begin d u b in
    (send_finish d b rc, u).

(** [UART_TX_DONE]: the buffer that was sent is released and the next one started. *)
Definition uart_callback_tx_done (d : serial_tx) (u : U) : exec (serial_tx * U) :=
  match pending_tx d with
  | None => Fault
  | Some b =>
      let d := notify_tx d b 0 in
      let d := SerialTx None (tx_queue d) (tx_results d) (backend_refs d - 1) (interface_refs d) in
      match tx_queue d with
      | [] => Done (d, u)
      | next :: queue =>
          let d := SerialTx None queue (tx_results d) (backend_refs d) (interface_refs d) in
          let '(rc, u) := uart_tx u (nb_contents next) in
          if negb (rc =? 0) then Done (notify_tx d next rc, u)
          else Done (SerialTx (Some next) queue (tx_results d) (backend_refs d) (interface_refs d), u)
      end
  end.

Section send.
Context {P O : Type} `{PsaKeys P O} `{PsaAead P} (key_export : bool).

Definition epacket_serial_send (sec : security) (device_id now rand : Z) (scratch : net_buf_simple) (pm_rc : Z)
    (d : serial_tx) (u : U) (b : net_buf_simple) (meta : epacket_tx_metadata) (st : crypt_state P)
  : exec (serial_tx * U * crypt_state P) :=
  let! (rc, b, meta, st) := epacket_serial_encrypt key_export sec device_id now rand scratch b meta st in
  if rc <? 0 then Done (notify_tx d b (- EIO), u, st)
  else
    let! b := epacket_serial_frame b in
    Done (send_framed d u pm_rc b, st).
End send.
End transmit.

(** ** The transmit queue *)

Section queue.
Context {U : Type} `{UartSpec U sending}.

(** The interface, its driver, what has left on the line, the packets given to the
    interface, and the packet the sending thread is at: [uart_tx] has returned and its
    result is not acted on yet.  [l_raced] records a completion that came at such a moment
    and found the queue empty. *)
Record line := Line {
  l_dev : serial_tx;
  l_uart : U;
  l_sent : list Z;
  l_given : list net_buf_simple;
  l_mid : option (net_buf_simple * Z);
  l_raced : bool;
}.

Definition found_empty (d : serial_tx) (mid : option (net_buf_simple * Z)) : bool :=
  match mid, tx_queue d with Some _, [] => true | _, _ => false end.

(** The one thread that sends asks the driver for a transmission and then acts on the
    answer; the driver completes its transmission at any moment, in between too. *)
Inductive line_step : line -> line -> Prop :=
| line_begin d u sent given raced b d' u' rc :
    send_begin d u b = (d', u', rc) ->
    line_step (Line d u sent given None raced) (Line d' u' sent (given ++ [b]) (Some (b, rc)) raced)
| line_end d u sent given raced b rc :
    line_step (Line d u sent given (Some (b, rc)) raced) (Line (send_finish d b rc) u sent given None raced)
| line_done d u u1 sent given mid raced bs d' u' :
    sending u = Some bs -> sending u1 = None -> uart_callback_tx_done d u1 = Done (d', u') ->
    line_step (Line d u sent given mid raced) (Line d' u' (sent ++ bs) given mid (raced || found_empty d mid)).

(** The packet the driver is sending. *)
Definition current (l : line) : option net_buf_simple :=
  match l_mid l with
  | Some (b, 0) => Some b
  | _ => pending_tx (l_dev l)
  end.

(** The transmission has started and [pending_tx] is not stored yet. *)
Definition storing (l : line) : bool :=
  match l_mid l with Some (_, 0) => true | _ => false end.

Definition waiting (l : line) : list net_buf_simple :=
  option_list (pending_tx (l_dev l)) ++ tx_queue (l_dev l) ++ option_list (fst <$> l_mid l).

(** Everything given is reported, being sent, or queued, in that order unless a completion
    found the queue empty too early. *)
Record line_inv (l : line) : Prop := {
  li_sending : sending (l_uart l) = nb_contents <$> current l;
  li_mid b rc : l_mid l = Some (b, rc) -> rc = 0 /\ pending_tx (l_dev l) = None \/ rc = - EBUSY;
  li_queue : l_raced l = false -> pending_tx (l_dev l) = None -> tx_queue (l_dev l) = [] /\ forall b, l_mid l <> Some (b, - EBUSY);
  li_perm : l_given l ≡ₚ map fst (tx_results (l_dev l)) ++ waiting l;
  li_order : l_raced l = false -> l_given l = map fst (tx_results (l_dev l)) ++ waiting l;
  li_ok : Forall (fun r => r.2 = 0) (tx_results (l_dev l));
  li_sent : l_sent l = concat (map nb_contents (map fst (tx_results (l_dev l))));
  li_refs : backend_refs (l_dev l) = zlen (waiting l);
}.

Lemma line_begin_inv d u sent given raced b d' u' rc :
  send_begin d u b = (d', u', rc) -> line_inv (Line d u sent given None raced) ->
  line_inv (Line d' u' sent (given ++ [b]) (Some (b, rc)) raced).
Proof.
  intros Hs [Hsd _ Hq Hp Ho Hok Hst Hrf]. unfold current, waiting in *. cbn in *. rewrite app_nil_r in *.
  assert (Hrc : rc = 0 /\ pending_tx d = None /\ sending u' = Some (nb_contents b) \/
                rc = - EBUSY /\ is_Some (pending_tx d) /\ sending u' = nb_contents <$> pending_tx d).
  { unfold send_begin in Hs. destruct (pending_tx d) as [cur|] eqn:Hpd; cbn in Hsd.
    - destruct (uart_tx_busy u (nb_contents b)) as [Hrc Hu]; [by rewrite Hsd|].
      destruct (uart_tx u (nb_contents b)). injection Hs as <- <- <-. right. cbn in Hu. rewrite Hu. eauto.
    - destruct (uart_tx_idle u (nb_contents b) Hsd) as [Hrc Hu].
      destruct (uart_tx u (nb_contents b)). injection Hs as <- <- <-. left. eauto. }
  assert (Hd : d' = SerialTx (pending_tx d) (tx_queue d) (tx_results d) (backend_refs d + 1) (interface_refs d)).
  { unfold send_begin in Hs. destruct (uart_tx u (nb_contents b)). by injection Hs as <- _ _. }
  subst d'. split; unfold current, waiting; cbn; try done.
  - destruct Hrc as [(-> & _ & Hx)|(-> & _ & Hx)]; by rewrite Hx.
  - intros b0 rc0 [= <- <-]. destruct Hrc as [(Hx & ? & _)|(Hx & _)]; eauto.
  - intros Hr Hn. split; [by apply Hq|]. intros b0 [= _ Hx]. destruct Hrc as [[Hy _]|(_ & [? Hc] & _)]; [by subst rc|congruence].
  - by rewrite Hp, !app_assoc.
  - intros Hr. by rewrite Ho, !app_assoc by done.
  - rewrite Hrf, app_assoc, (zlen_app _ [b]). done.
Qed.

Lemma send_finish_ok d b : send_finish d b 0 = SerialTx (Some b) (tx_queue d) (tx_results d) (backend_refs d) (interface_refs d).
Proof. done. Qed.

Lemma send_finish_busy d b :
  send_finish d b (- EBUSY) = SerialTx (pending_tx d) (tx_queue d ++ [b]) (tx_results d) (backend_refs d) (interface_refs d).
Proof. done. Qed.

Lemma line_end_inv d u sent given raced b rc :
  line_inv (Line d u sent given (Some (b, rc)) raced) -> line_inv (Line (send_finish d b rc) u sent given None raced).
Proof.
  intros [Hsd Hm Hq Hp Ho Hok Hst Hrf]. unfold current, waiting in *. cbn in *.
  destruct (Hm b rc eq_refl) as [[Hx Hn]|Hx]; subst rc; rewrite ?send_finish_ok, ?send_finish_busy; cbn in *; [rewrite Hn in *|]; split; unfold current, waiting; cbn; rewrite ?app_nil_r; try done.
  - by rewrite Hp, (Permutation_app_comm (tx_queue d)).
  - intros Hr. destruct (Hq Hr eq_refl) as [Hqe _]. by rewrite (Ho Hr), Hqe.
  - rewrite Hrf, zlen_cons, !zlen_app. change (zlen [b]) with 1. change (zlen (option_list None)) with 0. lia.
  - intros Hr Hn. by destruct (proj2 (Hq Hr Hn) b).
Qed.

Lemma line_done_inv d u u1 sent given mid raced bs d' u' :
  sending u = Some bs -> sending u1 = None -> uart_callback_tx_done d u1 = Done (d', u') ->
  line_inv (Line d u sent given mid raced) -> line_inv (Line d' u' (sent ++ bs) given mid (raced || found_empty d mid)).
Proof.
  intros Hb Hidle Hc [Hsd Hm Hq Hp Ho Hok Hst Hrf]. unfold current, waiting in *. cbn in *.
  unfold uart_callback_tx_done in Hc. destruct (pending_tx d) as [cur|] eqn:Hpd; [|done]. cbn in *.
  assert (Hmid : forall b rc, mid = Some (b, rc) -> rc = - EBUSY) by (intros b rc Hbr; by destruct (Hm b rc Hbr) as [[_ ?]|]).
  assert (Hcur : forall r : option net_buf_simple, match mid with Some (b, 0) => Some b | _ => r end = r).
  { intros r. destruct mid as [[b rc]|]; [|done]. by rewrite (Hmid b rc eq_refl). }
  rewrite Hcur, Hb in Hsd. injection Hsd as ->.
  assert (Hr' : forall x, raced || x = false -> raced = false) by (intros x [??]%orb_false_iff; done).
  destruct (tx_queue d) as [|next queue] eqn:Hqq.
  - injection Hc as <- <-. split; unfold current, waiting; cbn; rewrite ?Hcur; try done.
    + intros b rc Hbr. right. eauto.
    + intros Hr _. split; [done|]. intros b ->. unfold found_empty in Hr. rewrite Hqq in Hr. by destruct raced.
    + by rewrite map_app, <- app_assoc.
    + intros Hr. rewrite (Ho (Hr' _ Hr)), map_app, <- app_assoc. done.
    + by apply Forall_app_2; [|apply Forall_singleton].
    + by rewrite !map_app, concat_app, Hst; cbn; rewrite app_nil_r.
    + rewrite Hrf. unfold option_list. cbn [from_option app]. rewrite ?zlen_cons. lia.
  - destruct (uart_tx_idle u1 (nb_contents next) Hidle) as [Hrc Hu].
    destruct (uart_tx u1 (nb_contents next)) as [rc u2]. cbn in Hrc, Hu. subst rc. cbn in Hc. injection Hc as <- <-.
    split; unfold current, waiting; cbn; rewrite ?Hcur; try done.
    + intros b rc Hbr. right. eauto.
    + by rewrite map_app, <- app_assoc.
    + intros Hr. rewrite (Ho (Hr' _ Hr)), map_app, <- app_assoc. done.
    + by apply Forall_app_2; [|apply Forall_singleton].
    + by rewrite !map_app, concat_app, Hst; cbn; rewrite app_nil_r.
    + rewrite Hrf. unfold option_list. cbn [from_option app]. rewrite ?zlen_cons. lia.
Qed.

Lemma line_inv_reachable l l' : rtc line_step l l' -> line_inv l -> line_inv l'.
Proof. induction 1 as [|?? ? []]; eauto using line_begin_inv, line_end_inv, line_done_inv. Qed.

Lemma tx_done_ok d u b : pending_tx d = Some b -> exists r, uart_callback_tx_done d u = Done r.
Proof.
  intros Hp. unfold uart_callback_tx_done. rewrite Hp. cbn. destruct (tx_queue d); [by eexists|].
  destruct (uart_tx u _) as [rc u2]. case_match; by eexists.
Qed.

Definition tx_idle : serial_tx := SerialTx None [] [] 0 0.
Definition line_idle (u : U) : line := Line tx_idle u [] [] None false.

Lemma line_inv_init u : sending u = None -> line_inv (line_idle u).
Proof. intros Hu. by split. Qed.

(** C26.  The transmit queue of the serial interface, with a driver that accepts a
    transmission exactly when it sends nothing, fails in no other way, and can be powered.
    Packets are framed and sent by one thread; a transmission may complete at any moment,
    also between the return of [uart_tx] and what the thread then does.  In every such
    run the bytes on the line are whole packets, those reported, each once and each
    reported as sent; together with the packets still waiting (being sent, queued, or in
    the hands of the thread) they are the packets given, and the UART is powered once for
    each waiting packet.  As long as no completion has found the queue empty while the
    thread was about to queue a packet, packets are sent in the order given, and when
    nothing is being sent nothing waits; after such a completion a packet may wait in the
    queue of an idle interface and be overtaken.  The completion handler finds its buffer
    unless it comes between a [uart_tx] that succeeded and the store of [pending_tx]; in
    that window it never does. *)
Theorem serial_tx_fifo u l :
  sending u = None -> rtc line_step (line_idle u) l ->
  l_given l ≡ₚ map fst (tx_results (l_dev l)) ++ waiting l /\
  l_sent l = concat (map nb_contents (map fst (tx_results (l_dev l)))) /\
  Forall (fun r => r.2 = 0) (tx_results (l_dev l)) /\
  backend_refs (l_dev l) = zlen (waiting l) /\
  (l_raced l = false -> l_given l = map fst (tx_results (l_dev l)) ++ waiting l /\ (sending (l_uart l) = None -> waiting l = [])) /\
  (is_Some (sending (l_uart l)) -> forall u1,
     if storing l then uart_callback_tx_done (l_dev l) u1 = Fault
     else exists r, uart_callback_tx_done (l_dev l) u1 = Done r).
Proof.
  intros Hu Hst. destruct (line_inv_reachable _ _ Hst (line_inv_init u Hu)) as [Hsd Hm Hq Hp Ho Hok Hs Hrf].
  do 4 (split; [done|]). split.
  - intros Hr. split; [auto|]. rewrite Hsd. intros Hn%fmap_None. unfold current, waiting in *.
    destruct (l_mid l) as [[b rc]|] eqn:Hmid.
    + destruct (Hm b rc eq_refl) as [[Hx _]|Hx]; subst rc; [done|]. by destruct (proj2 (Hq Hr Hn) b).
    + rewrite Hn. by rewrite (proj1 (Hq Hr Hn)).
  - rewrite Hsd. intros [bs Hb] u1. apply fmap_Some in Hb as (b & Hc & _). unfold current, storing in *.
    destruct (l_mid l) as [[b0 rc]|] eqn:Hmid; [|by apply (tx_done_ok _ _ b)].
    destruct (Hm b0 rc eq_refl) as [[Hx Hn]|Hx]; subst rc; [unfold uart_callback_tx_done; by rewrite Hn|].
    apply (tx_done_ok _ _ b Hc).
Qed.
End queue.

(** ** The link *)

Section link.
Context `{NetBufSpec} {P O K : Type} `{PsaKeysSpec P O K psa_key inputs hkdf} `{PsaAead P} {seal open}
  `{!PsaAeadSpec P K psa_key seal open} `{!PsaKeysTotal (psa_key := psa_key) (inputs := inputs)}
  {U : Type} `{UartSpec U sending} (key_export : bool).

Lemma serial_frame_ok b pre c post :
  nb_repr b pre c post -> sizeof_epacket_serial_frame_header <= zlen pre -> zlen c < 2 ^ 16 ->
  exists b', epacket_serial_frame b = Done b' /\ nb_contents b' = serial_frame c.
Proof.
  intros Hb Hp Hc. unfold sizeof_epacket_serial_frame_header in *. pose proof (zlen_nonneg c).
  set (n := zlen pre - 4). rewrite <- (ztake_zdrop n pre) in Hb.
  assert (Hx : zlen (zdrop n pre) = 4) by (rewrite zlen_zdrop; lia).
  destruct (nb_push_repr b _ _ c post 4 Hb (eq_sym Hx)) as (b1 & Hpush & Hb1 & _).
  unfold epacket_serial_frame, sizeof_epacket_serial_frame_header. rewrite Hpush. cbn [exec_bind].
  assert (Hd : nb_data b1 = zlen (ztake n pre)) by apply Hb1.
  assert (Hl : nb_len b1 - 4 = zlen c) by (destruct Hb1 as (_ & _ & -> & _); rewrite zlen_app; lia).
  rewrite Hl, uwrap_small by lia. eexists. split; [done|].
  apply (nb_repr_contents _ (ztake n pre) _ post). unfold serial_frame. rewrite app_assoc.
  apply (nb_store_repr b1 (ztake n pre) [] (zdrop n pre) c post); [done|change (zlen (@nil Z)) with 0; lia|done].
Qed.

Lemma serial_frame_bytes p : bytes_ok p -> bytes_ok (serial_frame p).
Proof.
  intros Hp. unfold serial_frame. apply bytes_ok_app. split; [repeat constructor; done|].
  apply bytes_ok_app. split; [apply le_put_bytes_ok|done].
Qed.

(** C15.  The serial link, end to end.  A device sends a packet over its idle serial
    interface, powered, at a time past the first day; the bytes it gives to the UART reach
    another device that derives the same key and always has a receive buffer, cut in any
    way, with noise before and after them that does not contain the first sync byte (noise
    with that byte may be taken for the start of a frame).  Then that device
    hands on exactly one packet, its decryption succeeds, and it recovers the payload with
    the sender's identifier, time, key identifier, type, flags and sequence number. *)
Theorem serial_link_end_to_end rootk1 rootk2 sec1 sec2 st1 st2 device1 device2 now rand scratch1 scratch2 spre spost b c meta d u
    SIZE_MAX {A} (epacket_alloc_rx : A -> option net_buf_simple * A) rx :
  let key_type := Z.lor (key_of_auth (tx_auth meta)) EPACKET_KEY_INTERFACE_SERIAL in
  serves (psa_key := psa_key) (hkdf := hkdf) key_export rootk1 sec1 st1 key_type (tx_key_identifier meta) ->
  serves (psa_key := psa_key) (hkdf := hkdf) key_export rootk2 sec2 st2 key_type (tx_key_identifier meta) ->
  (forall rot, derived_key (hkdf := hkdf) rootk1 sec1 (cs_keys st1) key_type (tx_key_identifier meta) rot =
               derived_key (hkdf := hkdf) rootk2 sec2 (cs_keys st2) key_type (tx_key_identifier meta) rot) ->
  (tx_auth meta = EPACKET_AUTH_DEVICE -> device2 = device1) -> tx_auth meta <> EPACKET_AUTH_REMOTE_ENCRYPTED ->
  SECONDS_PER_DAY <= epoch_time_seconds now < 2 ^ 32 -> in_u 64 device1 -> in_u 8 (tx_type meta) -> in_u 24 (tx_key_identifier meta) ->
  Z.land (tx_flags meta) EPACKET_FLAGS_ENCRYPTION_DEVICE = 0 ->
  sendable true sizeof_epacket_serial_frame_header b c scratch1 -> 0 < zlen c -> bytes_ok c ->
  pending_tx d = None -> sending u = None ->
  0 < SIZE_MAX <= 2048 -> sizeof_frame true + zlen c + 16 <= SIZE_MAX ->
  (forall a, exists b a' pre post, epacket_alloc_rx a = (Some b, a') /\ nb_repr b pre [] post /\ SIZE_MAX <= nb_room b) ->
  nb_repr scratch2 spre [] spost -> SIZE_MAX <= nb_room scratch2 ->
  pkt_idx rx = 0 -> rx_buffer rx = None -> handled rx = [] ->
  exists d' u' st1' bytes,
    epacket_serial_send key_export sec1 device1 now rand scratch1 0 d u b meta st1 = Done (d', u', st1') /\ sending u' = Some bytes /\
    forall noise tail chunks meta2, no_sync noise -> no_sync tail -> bytes_ok noise -> bytes_ok tail -> concat chunks = noise ++ bytes ++ tail ->
    exists rx' b2 b3 st2', receive_all SIZE_MAX epacket_alloc_rx rx chunks = Done rx' /\ handled rx' = [b2] /\
      epacket_serial_decrypt key_export sec2 device2 scratch2 b2 meta2 st2 =
        Done (0, b3, RxMeta device1 (epoch_time_seconds now) (tx_key_identifier meta) (tx_auth meta) (tx_type meta)
                       (u16 (Z.lor (tx_flags meta) (flag_of_auth (tx_auth meta)))) (u16 (sequence_num true st1)), st2') /\
      nb_contents b3 = c.
Proof.
  intros kt Hs1 Hs2 Hsame Hdev Ha Htime Hd64 Ht8 Hk24 Hf0 Hsend Hpos Hcb Hidle Hu Hmax Hfit Halloc Hsc2 Hroom2 Hpi Hrb Hh.
  destruct (packet_roundtrip key_export true 4 rootk1 rootk2 sec1 sec2 st1 st2 device1 device2 now rand scratch1 scratch2 spre spost
              b c meta EPACKET_KEY_INTERFACE_SERIAL) as (b1 & meta1 & st1' & pre & post & F & k & He & Hp & Hb1 & HFb & HFl & Hdec); try done.
  set (packet := sealed true k F c) in *.
  assert (Hpl : zlen packet = sizeof_frame true + zlen c + 16) by (unfold packet, sealed; rewrite zlen_app, aead_seal_len; lia).
  destruct (serial_frame_ok b1 pre packet post Hb1 Hp) as (bf & Hfr & Hbf); [lia|].
  unfold epacket_serial_send, epacket_serial_encrypt, epacket_versioned_v0_encrypt. rewrite He. cbn [exec_bind Z.ltb Z.compare].
  rewrite Hfr. cbn [exec_bind]. unfold send_framed, send_begin. cbn [Z.ltb Z.compare]. rewrite Hbf.
  destruct (uart_tx_idle u (serial_frame packet) Hu) as [_ Hu']. destruct (uart_tx u (serial_frame packet)) as [rc u'].
  do 4 eexists. split; [done|]. split; [exact Hu'|]. intros noise tail chunks meta2 Hn Ht Hnb Htb Hc.
  assert (Hpb : bytes_ok packet) by (apply bytes_ok_app; split; [done|by apply aead_seal_bytes]).
  destruct (frames_received SIZE_MAX epacket_alloc_rx Hmax Halloc [(noise, packet)] tail chunks rx) as (rx' & Hrx & Hm & Hw & _); try done.
  { apply Forall_singleton. split; [done|]. rewrite Hpl. change (sizeof_frame true) with 23 in *. lia. }
  { rewrite Hc. unfold serial_stream. cbn. by rewrite app_nil_r, <- app_assoc. }
  { rewrite Hc, !bytes_ok_app. eauto using serial_frame_bytes. }
  destruct (handled rx') as [|b2 [|]] eqn:Hhd; try done. cbn in Hm. injection Hm as Hm.
  assert (Hw2 : nb_wf b2) by (by inversion Hw).
  destruct (Hdec b2 meta2 Hw2) as (b3 & st2' & Hd & Hc3).
  { by rewrite Hm, (nb_repr_contents _ _ _ _ Hb1). }
  { assert (Hl2 : nb_len b2 = zlen packet); [|lia]. destruct (nb_wf_repr b2 Hw2) as (_ & _ & -> & _). by rewrite Hm. }
  exists rx', b2, b3, st2'. split; [done|]. split; [done|]. done.
Qed.
End link.

(** ** A UART that sends one buffer at a time *)

#[export] Instance mem_uart : UartApi (option (list Z)) := {|
  uart_tx u bs := match u with None => (0, Some bs) | Some _ => (- EBUSY, u) end;
|}.

#[export] Instance mem_uart_spec : UartSpec (option (list Z)) id.
Proof.
  split.
  - intros u bs Hu. unfold id in Hu. by subst u.
  - intros [l|] bs Hu; [done|]. unfold id in Hu. by destruct Hu.
Qed.

Definition buf_a : net_buf_simple := NetBuf [1; 2] 0 2 2.
Definition buf_b : net_buf_simple := NetBuf [3] 0 1 1.
Definition line_two : line (U := option (list Z)) :=
  Line (SerialTx (Some buf_b) [] [(buf_a, 0)] 1 0) (Some [3]) [1; 2] [buf_a; buf_b] None false.

Lemma line_two_reachable : rtc (line_step (sending := id)) (line_idle None) line_two.
Proof.
  eapply rtc_l; [apply (line_begin tx_idle None [] [] false buf_a); reflexivity|].
  eapply rtc_l; [apply line_end|].
  eapply rtc_l; [eapply (line_begin _ _ [] [buf_a] false buf_b); reflexivity|].
  eapply rtc_l; [apply line_end|].
  eapply rtc_l; [|apply rtc_refl]. eapply (line_done _ (Some [1; 2]) None [] _ None false [1; 2]); reflexivity.
Qed.

Lemma serial_tx_fifo_witness :
  [buf_a; buf_b] = [buf_a] ++ waiting line_two /\ [1; 2] = concat (map nb_contents [buf_a]) /\ 1 = zlen (waiting line_two) /\
  exists r, uart_callback_tx_done (l_dev line_two) None = Done r.
Proof.
  destruct (serial_tx_fifo (sending := id) None line_two eq_refl line_two_reachable) as (_ & Hs & _ & Hr & Ho & Hd).
  split; [apply (Ho eq_refl)|]. split; [exact Hs|]. split; [exact Hr|]. apply (Hd ltac:(by eexists) None).
Defined.

(** The completion interrupt may come after [uart_tx] returned and before [pending_tx]
    is stored: the handler then releases no buffer at all. *)
Example tx_done_before_pending :
  let '(rc, u) := uart_tx None (nb_contents buf_a) in
  rc = 0 /\ uart_callback_tx_done tx_idle u = Fault.
Proof. split; reflexivity. Qed.

(** It may also come after [uart_tx] reported that it is busy and before the packet is
    queued: the packet then stays in the queue of an idle interface. *)
Example queued_after_done_stalls :
  rtc (line_step (sending := id)) (line_idle None)
    (Line (SerialTx None [buf_b] [(buf_a, 0)] 1 0) None [1; 2] [buf_a; buf_b] None true).
Proof.
  eapply rtc_l; [apply (line_begin tx_idle None [] [] false buf_a); reflexivity|].
  eapply rtc_l; [apply line_end|].
  eapply rtc_l; [eapply (line_begin _ _ [] [buf_a] false buf_b); reflexivity|].
  eapply rtc_l; [eapply (line_done _ (Some [1; 2]) None [] _ _ false [1; 2]); reflexivity|].
  eapply rtc_l; [apply line_end|]. apply rtc_refl.
Qed.

(** A driver error drops a power reference of the interface, not of the UART it was taken
    from. *)
Definition broken_uart : UartApi unit := {| uart_tx u _ := (- EIO, u) |}.

Example failed_send_keeps_power :
  let d := (send_framed (H0 := broken_uart) tx_idle tt 0 buf_a).1 in backend_refs d = 1 /\ interface_refs d = -1.
Proof. split; reflexivity. Qed.

(** ** Two devices on a line *)

Definition demo_sent : list Z :=
  Eval vm_compute in
    match epacket_serial_send false demo_sec 0x1122334455667788 demo_now 99 demo_scratch 0 tx_idle None demo_buffer demo_meta demo_state with
    | Done (_, Some bytes, _) => bytes
    | _ => []
    end.

Lemma serial_link_end_to_end_witness :
  exists rx' b2 b3 st2',
    receive_all 64 heap_alloc_rx idle_rx [[7]; take 10 demo_sent; drop 10 demo_sent ++ [8]] = Done rx' /\ handled rx' = [b2] /\
    epacket_serial_decrypt false demo_sec2 5 demo_scratch b2 (RxMeta 0 0 0 EPACKET_AUTH_FAILURE 0 0 0) demo_state =
      Done (0, b3, RxMeta 0x1122334455667788 1400000000 0x222222 EPACKET_AUTH_NETWORK 7 0x1000 41, st2') /\
    nb_contents b3 = [1; 2; 3].
Proof.
  destruct (serial_link_end_to_end (psa_key := mem_key) (hkdf := mem_hkdf) (sending := id) false (mem_key demo_psa) (mem_key demo_psa)
    demo_sec demo_sec2 demo_state demo_state 0x1122334455667788 5 demo_now 99 demo_scratch demo_scratch [] (repeat 0 64) demo_buffer
    [1; 2; 3] demo_meta tx_idle None 64 heap_alloc_rx idle_rx) as (d' & u' & st1' & bytes & Hs & Hb & Hrx).
  - exact (demo_serves demo_sec eq_refl eq_refl demo_roots).
  - exact (demo_serves demo_sec2 eq_refl eq_refl demo_roots2).
  - reflexivity.
  - discriminate.
  - discriminate.
  - vm_compute; intuition discriminate.
  - vm_compute; intuition discriminate.
  - vm_compute; intuition discriminate.
  - vm_compute; intuition discriminate.
  - reflexivity.
  - split; [|split; [vm_compute; discriminate|split; [exists [], (repeat 0 64); exact demo_scratch_repr|vm_compute; discriminate]]].
    exists (repeat 0 17), (repeat 0 23), (repeat 0 40). split; [split; [reflexivity|]; vm_compute; intuition discriminate|].
    split; [reflexivity|vm_compute; discriminate].
  - reflexivity.
  - repeat constructor; discriminate.
  - reflexivity.
  - reflexivity.
  - vm_compute; intuition discriminate.
  - vm_compute; discriminate.
  - exact heap_alloc_rx_ok.
  - exact demo_scratch_repr.
  - vm_compute; discriminate.
  - reflexivity.
  - reflexivity.
  - reflexivity.
  - vm_compute in Hs. injection Hs as _ Hu _. subst u'. injection Hb as <-.
    apply (Hrx [7] [8]).
    + repeat constructor; discriminate.
    + repeat constructor; discriminate.
    + repeat constructor; discriminate.
    + repeat constructor; discriminate.
    + reflexivity.
Defined.
