(* ===== verification/AutoIterate.v ===== *)
(** * Clock and automatic iteration

    The reference instant of [lib/time/epoch.c] and the work item of
    [subsys/task_runner/auto_iterate.c], which joins clock, application states and task
    runner: once a second it runs the task runner on a snapshot of the states and then
    counts down the timeouts of the states in the snapshot. *)

From stdpp Require Import base tactics numbers list gmap.
From Stdlib Require Import ZArith Lia.
From S2P Require Import Prelude Epoch States Schedule KvStore TaskRunner TaskRunnerSpec TaskRunnerProps.

Local Open Scope Z_scope.
Local Open Scope infuse_scope.

Definition INFUSE_STATE_TIME_KNOWN : Z := 3.
Definition JAN_01_01_2020 : Z := 1261872018 * INFUSE_EPOCH_TIME_TICKS_PER_SEC.

(** [struct timeutil_sync_instant]: uptime ticks and epoch time. *)
Record sync_instant := SyncInstant { sync_local : Z; sync_ref : Z }.

(** A call of [reference_time_updated]. *)
Record time_event := TimeEvent { te_cb : nat; te_source : Z; te_old : sync_instant; te_new : sync_instant }.

(** The static variables; [time_cbs] says of each registered callback structure whether
    it has a function.  The skew is 1 throughout. *)
Record epoch_clock := EpochClock {
  sync_base : sync_instant;
  infuse_time_source : Z;
  time_cbs : list bool;
  time_events : list time_event;
}.

Definition base_2020 : sync_instant := SyncInstant 0 JAN_01_01_2020.
Definition epoch_clock_init : epoch_clock := EpochClock base_2020 TIME_SOURCE_NONE [] [].

Definition set_sync_base (c : epoch_clock) (b : sync_instant) : epoch_clock :=
  EpochClock b (infuse_time_source c) (time_cbs c) (time_events c).

(** Zephyr's conversions for a base instant: the status and the result. *)
Class TimeUtil := {
  timeutil_sync_ref_from_local : sync_instant -> Z -> Z * Z;
  timeutil_sync_local_from_ref : sync_instant -> Z -> Z * Z;
}.

(** A conversion from the default instant, or at a base instant itself, does not fail; at
    the base instant it is exact in both directions. *)
Class TimeUtilSpec `{TimeUtil} : Prop := {
  timeutil_default t : 0 <= t -> 0 <= (timeutil_sync_ref_from_local base_2020 t).1;
  timeutil_base_ref b : 0 < sync_ref b -> 0 <= sync_local b ->
    0 <= (timeutil_sync_ref_from_local b (sync_local b)).1 /\
    (timeutil_sync_ref_from_local b (sync_local b)).2 = sync_ref b;
  timeutil_base_local b : 0 < sync_ref b -> 0 <= sync_local b ->
    (timeutil_sync_local_from_ref b (sync_ref b)).2 = sync_local b;
}.

Section clock.
Context `{TimeUtil}.

Definition ticks_from_epoch_time (c : epoch_clock) (epoch_time : Z) : Z :=
  u64 (timeutil_sync_local_from_ref (sync_base c) epoch_time).2.

(** A conversion that fails resets the clock; the result of a second failure would be
    uninitialised. *)
Definition epoch_time_from_ticks (c : epoch_clock) (ticks : Z) : exec (Z * epoch_clock) :=
  let '(rc, civil) := timeutil_sync_ref_from_local (sync_base c) ticks in
  if rc <? 0 then
    let c := set_sync_base c base_2020 in
    let '(rc, civil) := timeutil_sync_ref_from_local (sync_base c) ticks in
    if rc <? 0 then Fault else Done (civil, c)
  else Done (civil, c).

Definition epoch_time_get_source (c : epoch_clock) : Z := infuse_time_source c.

(** The callbacks from number [i] on. *)
Fixpoint notify_reference (cbs : list bool) (i : nat) (source : Z) (old new : sync_instant) : list time_event :=
  match cbs with
  | [] => []
  | f :: cbs => (if f : bool then [TimeEvent i source old new] else []) ++ notify_reference cbs (S i) source old new
  end.

Definition epoch_time_set_reference (c : epoch_clock) (s : app_states) (source : Z) (reference : sync_instant)
  : Z * epoch_clock * app_states :=
  if sync_ref reference =? 0 then (- EINVAL, c, s)
  else
    let prev := sync_base c in
    let s := if epoch_time_trusted_source source true then (infuse_state_set s INFUSE_STATE_TIME_KNOWN).2 else s in
    (0, EpochClock reference source (time_cbs c) (time_events c ++ notify_reference (time_cbs c) 0 source prev reference), s).

Definition epoch_time_reference_shift (ref_a ref_b : sync_instant) (now : Z) : option Z :=
  let '(rc_a, out_a) := timeutil_sync_ref_from_local ref_a now in
  let '(rc_b, out_b) := timeutil_sync_ref_from_local ref_b now in
  if (rc_a <? 0) || (rc_b <? 0) then None else Some (s64 (s64 out_b - s64 out_a)).
End clock.

(** ** The work item *)

Section worker.
Context `{TimeUtil} {F : Type} `{NvsApi F} (crc32_ieee : list Z -> Z) (kv_slots : list key_value_slot_definition).
Context (RANGE : nat) (SCHEDULES_ID : Z).
(** [CONFIG_SYS_CLOCK_TICKS_PER_SEC] *)
Context (TICKS_PER_SEC : Z).

(** [w_seen] are the snapshots the runner was given. *)
Record world := World { w_clock : epoch_clock; w_states : app_states; w_runner : runner F; w_seen : list Z }.

(** [battery] is the charge in the battery channel once it has been published.  Returns
    the second of the next run. *)
Definition iterate_worker (uptime_ticks : Z) (battery : option Z) (w : world) : exec (Z * world) :=
  let! (epoch_time, clock) := epoch_time_from_ticks (w_clock w) uptime_ticks in
  let gps_time := u32 (epoch_time_seconds epoch_time) in
  let uptime_sec := u32 (uptime_ticks / TICKS_PER_SEC) in
  let charge := match battery with Some soc => u8 soc | None => 0 end in
  let states := infuse_states_snapshot (w_states w) in
  let! r := task_runner_iterate crc32_ieee kv_slots RANGE SCHEDULES_ID (w_runner w) states uptime_sec gps_time charge in
  Done (u32 (uptime_sec + 1), World clock (infuse_states_tick (w_states w) states) r (w_seen w ++ [states])).
End worker.

(** ** Properties *)

Section props.
Context `{TimeUtilSpec}.

Lemma epoch_time_from_ticks_ok c ticks : 0 <= ticks -> exists t c', epoch_time_from_ticks c ticks = Done (t, c').
Proof.
  intros Ht. unfold epoch_time_from_ticks. destruct (timeutil_sync_ref_from_local (sync_base c) ticks) as [rc t].
  destruct (rc <? 0); [|by do 2 eexists]. pose proof (timeutil_default ticks Ht) as Hd. cbn [sync_base set_sync_base].
  destruct (timeutil_sync_ref_from_local base_2020 ticks) as [rc2 t2]. cbn in Hd.
  replace (rc2 <? 0) with false by lia. by do 2 eexists.
Qed.

Context {F : Type} `{NvsSpec F} (crc32_ieee : list Z -> Z) (kv_slots : list key_value_slot_definition).
Context (RANGE : nat) (SCHEDULES_ID TICKS_PER_SEC : Z).

Hypothesis Hslots : slots_ok kv_slots.

Abbreviation run := (iterate_worker crc32_ieee kv_slots RANGE SCHEDULES_ID TICKS_PER_SEC).

Record world_ok (w : world (F := F)) : Prop := {
  wo_runner : runner_inv crc32_ieee kv_slots RANGE (w_runner w);
  wo_states : states_inv (w_states w);
}.

Definition is_tick (op : states_op) : bool := match op with OpTick _ => true | _ => false end.

(** What happens to a world with [n] runs of the worker in it: between them executors exit
    and reschedule themselves, other parts of the application write and delete values of
    the key-value store (which may trigger a reload), set, clear and time out other states,
    and set the clock. *)
Inductive worker_history (state : Z) (w : world (F := F)) : nat -> world (F := F) -> Prop :=
| history_start : worker_history state w 0 w
| history_run n w1 ticks battery next w2 :
    worker_history state w n w1 -> 0 <= ticks -> run ticks battery w1 = Done (next, w2) -> worker_history state w (S n) w2
| history_runner n w1 r :
    worker_history state w n w1 -> runner_step crc32_ieee kv_slots RANGE SCHEDULES_ID (w_runner w1) r ->
    worker_history state w n (World (w_clock w1) (w_states w1) r (w_seen w1))
| history_states n w1 op :
    worker_history state w n w1 -> not_for state op -> is_tick op = false ->
    worker_history state w n (World (w_clock w1) (states_run (w_states w1) op) (w_runner w1) (w_seen w1))
| history_clock n w1 clock :
    worker_history state w n w1 -> worker_history state w n (World clock (w_states w1) (w_runner w1) (w_seen w1)).

Lemma iterate_worker_completes ticks battery w :
  0 <= ticks -> world_ok w -> may_reload (w_runner w) -> exists next w', run ticks battery w = Done (next, w').
Proof.
  intros Ht [Hr Hs] Hmay. unfold iterate_worker.
  destruct (epoch_time_from_ticks_ok (w_clock w) ticks Ht) as (t & c & ->). cbn [exec_bind].
  destruct (iterate_ok crc32_ieee kv_slots RANGE SCHEDULES_ID Hslots (w_runner w) (infuse_states_snapshot (w_states w))
    (u32 (ticks / TICKS_PER_SEC)) (u32 (epoch_time_seconds t)) (match battery with Some soc => u8 soc | None => 0 end) Hr)
    as (r' & -> & _); [by apply uwrap_bound|done|]. by do 2 eexists.
Qed.

Lemma iterate_worker_inv ticks battery w next w' :
  0 <= ticks -> world_ok w -> run ticks battery w = Done (next, w') ->
  world_ok w' /\ w_states w' = infuse_states_tick (w_states w) (application_states (w_states w)) /\
  w_seen w' = w_seen w ++ [application_states (w_states w)].
Proof.
  intros Ht [Hr Hs] Hrun. unfold iterate_worker in Hrun.
  destruct (epoch_time_from_ticks_ok (w_clock w) ticks Ht) as (t & c & Hc). rewrite Hc in Hrun. cbn [exec_bind] in Hrun.
  apply exec_bind_Done in Hrun as (r' & Hit & Hd). injection Hd as _ <-. split; [|done]. split; cbn [w_runner w_states].
  - eapply (runner_step_inv crc32_ieee kv_slots RANGE SCHEDULES_ID Hslots); [exact Hr|]. eapply step_iterate; [|exact Hit].
    by apply uwrap_bound.
  - by apply (infuse_states_tick_ok _ _ 0).
Qed.

(** After [n] runs of the worker a timeout of [timeout] has been counted down by [n], and
    the state was seen until it ran out. *)
Record lived (state timeout : Z) (n : nat) (w : world (F := F)) : Prop := {
  lv_ok : world_ok w;
  lv_abs : states_abs (w_states w) state = if Z.of_nat n <? timeout then Some (Some (timeout - Z.of_nat n)) else None;
  lv_runs : length (w_seen w) = n;
  lv_seen k snap : w_seen w !! k = Some snap -> Z.testbit snap state = (Z.of_nat k <? timeout);
}.

Lemma lived_get state timeout n w : lived state timeout n w -> infuse_state_get (w_states w) state = (Z.of_nat n <? timeout).
Proof. intros Hl. unfold infuse_state_get. rewrite <- abs_is_set, (lv_abs _ _ _ _ Hl). by destruct (_ <? timeout). Qed.

Lemma lived_run state timeout n w ticks battery next w' :
  0 <= state -> lived state timeout n w -> 0 <= ticks -> run ticks battery w = Done (next, w') -> lived state timeout (S n) w'.
Proof.
  intros Hst Hl Ht Hrun. pose proof (lived_get _ _ _ _ Hl) as Hbit. unfold infuse_state_get in Hbit.
  destruct Hl as [Hok Ha Hn Hseen]. destruct (iterate_worker_inv ticks battery w next w' Ht Hok Hrun) as (Hok' & Hs & Hse).
  split; [done|..].
  - rewrite Hs. destruct (infuse_states_tick_ok (w_states w) (application_states (w_states w)) state (wo_states _ Hok) Hst) as [_ ->].
    rewrite Ha, Hbit. destruct (Z.ltb_spec (Z.of_nat n) timeout); cbn [tick_abs].
    + destruct (Z.eqb_spec (timeout - Z.of_nat n) 1), (Z.ltb_spec (Z.of_nat (S n)) timeout); try done; [lia| |lia].
      do 2 f_equal. lia.
    + destruct (Z.ltb_spec (Z.of_nat (S n)) timeout); [lia|done].
  - rewrite Hse, length_app, Hn. cbn. lia.
  - intros k snap. rewrite Hse. intros [Hk|[Hk Hsn]]%lookup_app_Some; [by apply Hseen|].
    apply list_lookup_singleton_Some in Hsn as [Hz <-]. rewrite Hbit. f_equal. lia.
Qed.

Lemma lived_history state timeout w n w' :
  0 <= state -> lived state timeout 0 w -> worker_history state w n w' -> lived state timeout n w'.
Proof.
  intros Hst Hl Hh. induction Hh as [|n w1 ticks battery next w2 Hh IH Ht Hrun|n w1 r Hh IH Hstep|n w1 op Hh IH Hop Hnt|n w1 c Hh IH].
  - done.
  - by eapply lived_run.
  - destruct IH as [[Hr Hs] Ha Hn Hse]. split; try done. split; [|done]. by eapply runner_step_inv.
  - destruct IH as [[Hr Hs] Ha Hn Hse]. destruct (states_run_other (w_states w1) op state Hs Hst Hop) as [Hs' Ha'].
    split; try done. rewrite <- Ha. cbn [w_states]. rewrite Ha'. destruct op; [apply tick_abs_unseen..|done].
  - by destruct IH as [[Hr Hs] Ha Hn Hse].
Qed.

(** C33.  The work item joins states and runner so that a timeout counts runs.  A state
    that is set with a timeout of [n] seconds, while the timeout table has a free entry or
    one for it, is in the snapshot the task runner sees in exactly the next [n] runs of the
    worker, and in none after them, as long as nothing else is called for that state.
    Between the runs executors exit and reschedule themselves, the key-value store and the
    other states change, and the clock is set; reloads may be triggered and be under way.
    In every state so reached the next run of the worker completes, provided that a
    triggered reload finds every schedule with a task. *)
Theorem worker_state_lifetime w state timeout n w' :
  world_ok w -> 0 <= state < 256 -> 0 < timeout < 2 ^ 16 ->
  has_timeout (states_abs (w_states w) state) = true \/ popcount (timeout_mask (w_states w)) <> zlen (timeout_states (w_states w)) ->
  let w0 := World (w_clock w) (infuse_state_set_timeout (w_states w) state timeout).2 (w_runner w) [] in
  worker_history state w0 n w' ->
  length (w_seen w') = n /\
  (forall k snap, w_seen w' !! k = Some snap -> Z.testbit snap state = (Z.of_nat k <? timeout)) /\
  infuse_state_get (w_states w') state = (Z.of_nat n <? timeout) /\
  (forall ticks battery, 0 <= ticks -> may_reload (w_runner w') -> exists next w2, run ticks battery w' = Done (next, w2)).
Proof.
  intros [Hr Hs] Hstate Ht Hroom w0 Hh.
  pose proof (infuse_state_set_timeout_ok (w_states w) state timeout state Hs Hstate Ht ltac:(lia)) as Hset.
  destruct (infuse_state_set_timeout (w_states w) state timeout) as [already s0] eqn:E.
  replace (_ || _) with true in Hset by (destruct Hroom as [-> | Hne]; [done|]; symmetry; apply orb_true_iff; right; lia).
  rewrite Z.eqb_refl in Hset. destruct Hset as (Hi & _ & Ha).
  assert (Hl : lived state timeout n w').
  { apply (lived_history state timeout w0); [lia| |done]. split; [by split| |done|done].
    cbn [w0 w_states snd]. rewrite Ha. change (Z.of_nat 0) with 0. replace (0 <? timeout) with true by lia. by rewrite Z.sub_0_r. }
  pose proof (lived_get _ _ _ _ Hl) as Hg. destruct Hl as [Hok _ Hn Hse].
  split; [done|]. split; [done|]. split; [done|]. intros ticks battery Htk Hmay. by apply iterate_worker_completes.
Qed.

Lemma infuse_state_set_get s state : 0 <= state -> infuse_state_get (infuse_state_set s state).2 state = true.
Proof.
  intros Hs. unfold infuse_state_get.
  assert (Hb : application_states (infuse_state_set s state).2 = Z.setbit (application_states s) state).
  { unfold infuse_state_set. destruct (Z.testbit _ state); [|reflexivity].
    unfold clear_timeout_state. destruct (find_timeout_state _ state =? UINT8_MAX); reflexivity. }
  rewrite Hb. by apply Z.setbit_eq.
Qed.

(** Setting the reference: from then on the clock reads the given time at the given
    instant, in both directions, and a trusted source makes the time known. *)
Theorem set_reference_correct c s source reference :
  0 < sync_ref reference < 2 ^ 64 -> 0 <= sync_local reference < 2 ^ 64 ->
  exists c' s', epoch_time_set_reference c s source reference = (0, c', s') /\
    epoch_time_from_ticks c' (sync_local reference) = Done (sync_ref reference, c') /\
    ticks_from_epoch_time c' (sync_ref reference) = sync_local reference /\
    epoch_time_get_source c' = source /\
    (epoch_time_trusted_source source true = true -> infuse_state_get s' INFUSE_STATE_TIME_KNOWN = true).
Proof.
  intros Hr Hl. unfold epoch_time_set_reference. replace (sync_ref reference =? 0) with false by lia.
  do 2 eexists. split; [done|]. destruct (timeutil_base_ref reference) as [Hrc Hciv]; [lia|lia|].
  split; [|split; [|split; [done|]]].
  - unfold epoch_time_from_ticks. cbn [sync_base]. destruct (timeutil_sync_ref_from_local reference _) as [rc civil].
    cbn in Hrc, Hciv. subst civil. by replace (rc <? 0) with false by lia.
  - unfold ticks_from_epoch_time. cbn [sync_base]. rewrite timeutil_base_local by lia. by apply uwrap_small.
  - intros ->. by apply infuse_state_set_get.
Qed.
End props.

(** ** A clock without rounding *)

#[export] Instance exact_timeutil : TimeUtil := {|
  timeutil_sync_ref_from_local b t := (0, sync_ref b + (t - sync_local b));
  timeutil_sync_local_from_ref b t := (0, sync_local b + (t - sync_ref b));
|}.

#[export] Instance exact_timeutil_spec : TimeUtilSpec.
Proof. split; cbn; intros; lia. Qed.

Definition example_world : world (F := gmap Z (list Z)) := World epoch_clock_init (states_empty 4) running_both [].

(** Two runs of the worker, with a task that exits and a state that is set in between. *)
Definition timed_world : world (F := gmap Z (list Z)) :=
  World (w_clock example_world) (infuse_state_set_timeout (w_states example_world) 64 2).2 (w_runner example_world) [].
Definition world_of (m : exec (Z * world (F := gmap Z (list Z)))) : world :=
  match m with Done (_, w) => w | _ => example_world end.
Definition first_run : world :=
  Eval vm_compute in world_of (iterate_worker example_crc runner_slots 3 5 65536 65536 None timed_world).
Definition between_runs : world :=
  Eval vm_compute in World (w_clock first_run) (infuse_state_set (w_states first_run) 70).2 (w_runner first_run) (w_seen first_run).
Definition second_run : world :=
  Eval vm_compute in world_of (iterate_worker example_crc runner_slots 3 5 65536 131072 (Some 80) between_runs).

Lemma second_run_history :
  worker_history example_crc runner_slots 3 5 65536 64 timed_world 2 second_run.
Proof.
  eapply (history_run _ _ _ _ _ _ _ 1 between_runs 131072 (Some 80)); [|lia|vm_compute; reflexivity].
  apply (history_states _ _ _ _ _ _ _ 1 first_run (OpSet 70)); [|cbn; lia|reflexivity].
  eapply (history_run _ _ _ _ _ _ _ 0 timed_world 65536 None); [|lia|vm_compute; reflexivity]. apply history_start.
Qed.

Lemma worker_state_lifetime_witness :
  map (fun snap => Z.testbit snap 64) (w_seen second_run) = [true; true] /\ infuse_state_get (w_states second_run) 64 = false.
Proof.
  destruct (worker_state_lifetime example_crc runner_slots 3 5 65536 runner_slots_ok example_world 64 2 2 second_run)
    as (Hl & Hk & Hg & _).
  - split; [exact running_both_inv|]. apply states_empty_inv. lia.
  - lia.
  - lia.
  - right. vm_compute. discriminate.
  - exact second_run_history.
  - split; [|exact Hg]. destruct (w_seen second_run) as [|a [|b [|]]] eqn:E; try discriminate Hl.
    cbn [map]. rewrite (Hk 0%nat a eq_refl), (Hk 1%nat b eq_refl). reflexivity.
Defined.
