(* ===== verification/AsconWord.v ===== *)
(** * Words of the Ascon permutation ([lib/crypto/ascon/crypto_aead])

    The 64-bit state words of the Ascon cipher, the byte access macros of the reference
    implementation ([ascon128v12/ref/word.h]) and what they do to the bits of a word:
    [word_of] and [bytes_of] are the big-endian reading of up to eight bytes at the top
    of a word, which every implementation of the cipher loads and stores. *)

From stdpp Require Import base tactics numbers list.
From Stdlib Require Import ZArith Lia Btauto.
From S2P Require Import Prelude.

Local Open Scope Z_scope.
Local Open Scope infuse_scope.

(** ** Bits of machine words *)

Lemma testbit_uwrap w z n : 0 <= w -> 0 <= n -> Z.testbit (uwrap w z) n = (n <? w) && Z.testbit z n.
Proof.
  intros. unfold uwrap. destruct (Z.ltb_spec n w).
  - by rewrite Z.mod_pow2_bits_low.
  - by rewrite Z.mod_pow2_bits_high by lia.
Qed.

Lemma testbit_shl_wrap w z k n :
  0 <= w -> 0 <= k -> 0 <= n ->
  Z.testbit (uwrap w (Z.shiftl z k)) n = (n <? w) && (k <=? n) && Z.testbit z (n - k).
Proof.
  intros. rewrite testbit_uwrap by lia. destruct (Z.leb_spec k n).
  - rewrite Z.shiftl_spec by lia. by rewrite andb_true_r.
  - rewrite Z.shiftl_spec_low by lia. btauto.
Qed.

Lemma in_u_bits w z : 0 <= w -> (forall n, w <= n -> Z.testbit z n = false) -> 0 <= z -> in_u w z.
Proof.
  intros Hw Hb Hz. split; [done|]. destruct (Z.eq_dec z 0) as [->|]; [lia|].
  apply Z.log2_lt_pow2; [lia|]. apply Z.nle_gt. intros Hl.
  specialize (Hb _ Hl). rewrite Z.bit_log2 in Hb by lia. done.
Qed.

(** Words with the same bits are equal. *)
Lemma word_ext w a b :
  in_u w a -> in_u w b -> 0 <= w ->
  (forall n, 0 <= n < w -> Z.testbit a n = Z.testbit b n) -> a = b.
Proof.
  intros Ha Hb Hw H. apply Z.bits_inj'. intros n Hn.
  destruct (Z.ltb_spec n w); [by apply H|]. by rewrite !(testbit_above w) by (unfold in_u in *; lia).
Qed.

Section in_u.
Context (w : Z) (Hw : 0 <= w).

Lemma in_u_lxor a b : in_u w a -> in_u w b -> in_u w (Z.lxor a b).
Proof.
  intros Ha Hb. unfold in_u in *. apply in_u_bits; [done| |apply Z.lxor_nonneg; lia].
  intros n Hn. by rewrite Z.lxor_spec, !(testbit_above w) by lia.
Qed.

Lemma in_u_lor a b : in_u w a -> in_u w b -> in_u w (Z.lor a b).
Proof.
  intros Ha Hb. unfold in_u in *. apply in_u_bits; [done| |apply Z.lor_nonneg; lia].
  intros n Hn. by rewrite Z.lor_spec, !(testbit_above w) by lia.
Qed.

Lemma in_u_land a b : in_u w a -> 0 <= b -> in_u w (Z.land a b).
Proof.
  intros Ha Hb. unfold in_u in *. apply in_u_bits; [done| |apply Z.land_nonneg; lia].
  intros n Hn. by rewrite Z.land_spec, (testbit_above w a) by lia.
Qed.

Lemma in_u_shiftr a n : in_u w a -> 0 <= n -> in_u w (Z.shiftr a n).
Proof.
  intros Ha Hn. unfold in_u in *. rewrite Z.shiftr_div_pow2 by lia.
  pose proof (Z.pow_pos_nonneg 2 n ltac:(lia) Hn). split; [apply Z.div_pos; lia|].
  apply Z.le_lt_trans with a; [|lia]. apply Z.div_le_upper_bound; nia.
Qed.

Lemma in_u_uwrap z : in_u w (uwrap w z).
Proof. by apply uwrap_bound. Qed.
End in_u.

(** ** [word.h] of the reference implementation *)

(** [~x] of a [uint64_t] *)
Definition not64 (x : Z) : Z := u64 (Z.lnot x).

Definition GETBYTE (x i : Z) : Z := u8 (Z.shiftr x (56 - 8 * i)).
Definition SETBYTE (b i : Z) : Z := u64 (Z.shiftl b (56 - 8 * i)).
Definition PAD (i : Z) : Z := SETBYTE 0x80 i.

(** A pointer is a buffer and an offset; [bytes[i]] past the end of the buffer is a fault. *)
Definition LOADBYTES (buf : list Z) (p n : Z) : exec Z :=
  for_loop (Z.to_nat n) 0
    (fun i x => match zdrop p buf !! i with
                | Some b => if 0 <=? p then Done (Z.lor x (SETBYTE b (Z.of_nat i))) else Fault
                | None => Fault
                end) 0.

Definition STOREBYTES (buf : list Z) (p x n : Z) : exec (list Z) :=
  for_loop (Z.to_nat n) 0
    (fun i buf => let q := p + Z.of_nat i in
                  if (0 <=? q) && (q <? zlen buf)
                  then Done (zwrite q [GETBYTE x (Z.of_nat i)] buf) else Fault) buf.

Definition CLEARBYTES (x n : Z) : exec Z :=
  for_loop (Z.to_nat n) 0
    (fun i x => Done (Z.land x (not64 (SETBYTE 0xff (Z.of_nat i))))) x.

(** ** The bytes of a word *)

(** Up to eight bytes at the top of a word, the first one most significant. *)
Definition word_of (l : list Z) : Z := le_get (reverse l) * 2 ^ (64 - 8 * zlen l).
Definition bytes_of (x : Z) (n : nat) : list Z :=
  (fun i : nat => GETBYTE x (Z.of_nat i)) <$> seq 0 n.
(** The bits of the first [n] bytes and of the others. *)
Definition top_mask (n : Z) : Z := not64 (Z.ones (64 - 8 * n)).
Definition low_mask (n : Z) : Z := Z.ones (64 - 8 * n).

(** ** Bits of loaded and stored bytes *)

Definition opt_bit (o : option Z) (n : Z) : bool :=
  match o with Some b => Z.testbit b n | None => false end.

Lemma testbit_le_get l n :
  bytes_ok l -> 0 <= n -> Z.testbit (le_get l) n = opt_bit (l !! Z.to_nat (n / 8)) (n mod 8).
Proof.
  intros Hl. revert n. induction Hl as [|b l Hb Hl IH]; intros n Hn; [apply Z.bits_0|].
  cbn [le_get]. replace (b + 256 * le_get l) with (Z.lor (Z.shiftl (le_get l) 8) b).
  2:{ rewrite lor_shiftl_add by (unfold byte_ok in Hb; lia). lia. }
  rewrite Z.lor_spec. destruct (Z.ltb_spec n 8).
  - rewrite Z.shiftl_spec_low, Z.div_small, Z.mod_small by lia. done.
  - rewrite (testbit_above 8 b) by (unfold byte_ok in Hb; lia).
    rewrite Z.shiftl_spec, IH, orb_false_r by lia.
    replace n with (n - 8 + 1 * 8) at 3 4 by lia. rewrite Z.div_add, Z.mod_add by lia.
    replace (Z.to_nat ((n - 8) / 8 + 1)) with (S (Z.to_nat ((n - 8) / 8))).
    + done.
    + pose proof (Z.div_pos (n - 8) 8 ltac:(lia) ltac:(lia)). lia.
Qed.

Lemma testbit_word_of l n :
  bytes_ok l -> zlen l <= 8 -> 0 <= n < 64 ->
  Z.testbit (word_of l) n = opt_bit (l !! Z.to_nat (7 - n / 8)) (n mod 8).
Proof.
  intros Hl H8 Hn. unfold word_of. pose proof (zlen_nonneg l).
  rewrite <- Z.shiftl_mul_pow2 by lia. rewrite Z.shiftl_spec by lia.
  assert (n = 8 * (n / 8) + n mod 8) as Hdm by (apply Z.div_mod; lia).
  assert (0 <= n mod 8 < 8) by (apply Z.mod_pos_bound; lia).
  assert (0 <= n / 8 <= 7) by (split; [apply Z.div_pos; lia|lia]).
  destruct (Z.ltb_spec n (64 - 8 * zlen l)).
  - rewrite Z.testbit_neg_r by lia. rewrite lookup_ge_None_2; [done|]. unfold zlen in *. lia.
  - rewrite testbit_le_get by (try apply Forall_reverse; lia || done).
    replace (n - (64 - 8 * zlen l)) with (n mod 8 + (n / 8 - (8 - zlen l)) * 8) by lia.
    rewrite Z.div_add, Z.mod_add, Z.div_small, (Z.mod_small (n mod 8)) by lia.
    f_equal. rewrite reverse_lookup by (unfold zlen in *; lia). f_equal. unfold zlen in *. lia.
Qed.

Lemma word_of_in_u l : bytes_ok l -> zlen l <= 8 -> in_u 64 (word_of l).
Proof.
  intros Hl H8. unfold word_of. pose proof (zlen_nonneg l).
  assert (bytes_ok (reverse l)) as Hr by by apply Forall_reverse.
  pose proof (le_get_bound _ Hr) as Hb. unfold zlen in Hb at 1. rewrite length_reverse in Hb.
  fold (zlen l) in Hb.
  assert (2 ^ 64 = 2 ^ (8 * zlen l) * 2 ^ (64 - 8 * zlen l)) as E.
  { rewrite <- Z.pow_add_r by lia. f_equal. lia. }
  pose proof (Z.pow_pos_nonneg 2 (64 - 8 * zlen l) ltac:(lia) ltac:(lia)).
  unfold in_u. rewrite E. nia.
Qed.

Lemma testbit_GETBYTE x i n :
  0 <= i <= 7 -> 0 <= n -> Z.testbit (GETBYTE x i) n = (n <? 8) && Z.testbit x (n + (56 - 8 * i)).
Proof. intros. unfold GETBYTE. rewrite testbit_uwrap by lia. by rewrite Z.shiftr_spec by lia. Qed.

Lemma testbit_SETBYTE b i n :
  0 <= i <= 7 -> byte_ok b -> 0 <= n < 64 ->
  Z.testbit (SETBYTE b i) n = (n / 8 =? 7 - i) && Z.testbit b (n mod 8).
Proof.
  intros Hi Hb Hn. unfold SETBYTE. rewrite testbit_shl_wrap by lia.
  assert (n = 8 * (n / 8) + n mod 8) as Hdm by (apply Z.div_mod; lia).
  assert (0 <= n mod 8 < 8) by (apply Z.mod_pos_bound; lia).
  rewrite (proj2 (Z.ltb_lt n 64)) by lia. cbn [andb].
  destruct (Z.eqb_spec (n / 8) (7 - i)).
  - rewrite (proj2 (Z.leb_le _ _)) by lia. cbn [andb]. f_equal. lia.
  - destruct (Z.leb_spec (56 - 8 * i) n); [|done]. cbn [andb].
    apply (testbit_above 8); unfold byte_ok in Hb; lia.
Qed.

Lemma SETBYTE_in_u b i : in_u 64 (SETBYTE b i).
Proof. by apply in_u_uwrap. Qed.

Lemma bytes_of_lookup x n i :
  bytes_of x n !! i = if decide (i < n)%nat then Some (GETBYTE x (Z.of_nat i)) else None.
Proof.
  unfold bytes_of. rewrite list_lookup_fmap. case_decide.
  - by rewrite lookup_seq_lt.
  - by rewrite lookup_seq_ge by lia.
Qed.

Lemma length_bytes_of x n : length (bytes_of x n) = n.
Proof. unfold bytes_of. by rewrite length_fmap, length_seq. Qed.

Lemma zlen_bytes_of x n : zlen (bytes_of x n) = Z.of_nat n.
Proof. unfold zlen. by rewrite length_bytes_of. Qed.

Lemma bytes_of_ok x n : bytes_ok (bytes_of x n).
Proof.
  apply Forall_lookup. intros i b. rewrite bytes_of_lookup. case_decide; [|done].
  intros [= <-]. unfold GETBYTE. apply (uwrap_bound 8). lia.
Qed.

Lemma testbit_masks n k :
  0 <= n <= 8 -> 0 <= k < 64 ->
  Z.testbit (top_mask n) k = (7 - k / 8 <? n) /\ Z.testbit (low_mask n) k = negb (7 - k / 8 <? n).
Proof.
  intros Hn Hk. unfold top_mask, low_mask, not64.
  assert (k = 8 * (k / 8) + k mod 8) as Hdm by (apply Z.div_mod; lia).
  assert (0 <= k mod 8 < 8) by (apply Z.mod_pos_bound; lia).
  rewrite testbit_uwrap, Z.lnot_spec, Z.testbit_ones_nonneg by lia.
  rewrite (proj2 (Z.ltb_lt k 64)) by lia. cbn [andb].
  destruct (Z.ltb_spec k (64 - 8 * n)), (Z.ltb_spec (7 - k / 8) n); try lia; done.
Qed.

(** Decides an equation of words bit by bit. *)
Ltac by_bits n Hn :=
  apply (word_ext 64); [ | | lia | intros n Hn ].

Lemma word_of_snoc l b :
  bytes_ok l -> byte_ok b -> zlen l < 8 ->
  Z.lor (word_of l) (SETBYTE b (zlen l)) = word_of (l ++ [b]).
Proof.
  intros Hl Hb H8. pose proof (zlen_nonneg l).
  assert (bytes_ok (l ++ [b])) as Hlb by (apply bytes_ok_app; split; [done|by constructor]).
  by_bits n Hn.
  - apply in_u_lor; [lia|apply word_of_in_u; [done|lia]|apply SETBYTE_in_u].
  - apply word_of_in_u; [done|]. rewrite zlen_app. unfold zlen at 2. simpl. lia.
  - rewrite Z.lor_spec, testbit_SETBYTE, !testbit_word_of by (try done; zlen_solve).
    assert (0 <= n / 8 <= 7) by (split; [apply Z.div_pos; lia|apply Z.lt_succ_r, Z.div_lt_upper_bound; lia]).
    destruct (Z.eqb_spec (n / 8) (7 - zlen l)) as [E|E].
    + rewrite lookup_ge_None_2, list_lookup_middle by (unfold zlen in *; lia). done.
    + cbn [andb]. rewrite orb_false_r. destruct (decide (Z.to_nat (7 - n / 8) < length l)%nat).
      * by rewrite lookup_app_l.
      * rewrite !lookup_ge_None_2; [done| |]; [rewrite length_app; simpl|]; unfold zlen in *; lia.
Qed.

Lemma LOADBYTES_spec buf p n :
  bytes_ok buf -> 0 <= p -> 0 <= n <= 8 -> p + n <= zlen buf ->
  LOADBYTES buf p n = Done (word_of (ztake n (zdrop p buf))).
Proof.
  intros Hb Hp Hn Hlen. unfold LOADBYTES.
  assert (bytes_ok (zdrop p buf)) as Hd by auto with infuse.
  assert (zlen (zdrop p buf) = zlen buf - p) as Hzl by zlen_solve.
  run_loop (fun i x => x = word_of (take i (zdrop p buf))) as x' Hx.
  - done.
  - intros k x Hk ->. destruct (lookup_lt_is_Some_2 (zdrop p buf) k) as [b Hbk]; [unfold zlen in *; lia|].
    rewrite Hbk. rewrite (proj2 (Z.leb_le _ _)) by lia. eexists. split; [done|].
    replace (k + 1)%nat with (S k) by lia. rewrite (take_S_r _ _ b Hbk), <- word_of_snoc.
    + do 2 f_equal. unfold zlen. rewrite length_take. unfold zlen in *. lia.
    + by apply Forall_take.
    + by eapply Forall_lookup_1.
    + unfold zlen in *. rewrite length_take. lia.
  - by rewrite Hx.
Qed.

Lemma zwrite_zwrite_next {A} off (a b l : list A) :
  0 <= off -> off + zlen a + zlen b <= zlen l ->
  zwrite (off + zlen a) b (zwrite off a l) = zwrite off (a ++ b) l.
Proof.
  intros H0 Hl. pose proof (zlen_nonneg a). pose proof (zlen_nonneg b). unfold zwrite at 2.
  rewrite app_assoc, zwrite_at by zlen_solve. unfold zwrite. rewrite <- !app_assoc.
  do 3 f_equal. rewrite zdrop_zdrop by lia. f_equal. zlen_solve.
Qed.

Lemma zwrite_nil {A} off (l : list A) : zwrite off [] l = l.
Proof. unfold zwrite. rewrite zlen_nil, Z.add_0_r. apply ztake_zdrop. Qed.

Lemma bytes_of_S x n : bytes_of x (S n) = bytes_of x n ++ [GETBYTE x (Z.of_nat n)].
Proof. unfold bytes_of. by rewrite seq_S, fmap_app. Qed.

Lemma STOREBYTES_spec buf p x n :
  0 <= p -> 0 <= n -> p + n <= zlen buf ->
  STOREBYTES buf p x n = Done (zwrite p (bytes_of x (Z.to_nat n)) buf).
Proof.
  intros Hp Hn Hlen. unfold STOREBYTES.
  run_loop (fun i (b : list Z) => b = zwrite p (bytes_of x i) buf) as b' Hb.
  - symmetry. apply zwrite_nil.
  - intros k b Hk ->. rewrite zlen_zwrite by (rewrite ?zlen_bytes_of; lia).
    rewrite (proj2 (Z.leb_le _ _)), (proj2 (Z.ltb_lt _ _)) by lia. cbn [andb].
    eexists. split; [done|]. replace (k + 1)%nat with (S k) by lia. rewrite bytes_of_S.
    rewrite <- (zlen_bytes_of x k) at 1. apply zwrite_zwrite_next; [lia|].
    rewrite zlen_bytes_of. unfold zlen at 1. simpl. lia.
  - by rewrite Hb.
Qed.

Lemma low_mask_in_u n : 0 <= n <= 8 -> in_u 64 (low_mask n).
Proof.
  intros. unfold low_mask, in_u. rewrite Z.ones_equiv.
  pose proof (Z.pow_pos_nonneg 2 (64 - 8 * n) ltac:(lia) ltac:(lia)).
  pose proof (Z.pow_le_mono_r 2 (64 - 8 * n) 64 ltac:(lia) ltac:(lia)). lia.
Qed.

Lemma top_mask_in_u n : in_u 64 (top_mask n).
Proof. by apply in_u_uwrap. Qed.

Lemma CLEARBYTES_spec x n :
  in_u 64 x -> 0 <= n <= 8 -> CLEARBYTES x n = Done (Z.land x (low_mask n)).
Proof.
  intros Hx Hn. unfold CLEARBYTES.
  run_loop (fun i y => y = Z.land x (low_mask (Z.of_nat i))) as y Hy.
  - change (low_mask (Z.of_nat 0)) with (Z.ones 64). rewrite Z.land_ones by lia.
    symmetry. apply Z.mod_small. exact Hx.
  - intros k y Hk ->. eexists. split; [done|]. by_bits m Hm.
    + apply in_u_land; [lia| |apply in_u_uwrap; lia].
      apply in_u_land; [lia|done|apply low_mask_in_u; lia].
    + apply in_u_land; [lia|done|]. apply low_mask_in_u. lia.
    + rewrite !Z.land_spec. unfold not64. rewrite testbit_uwrap, Z.lnot_spec by lia.
      rewrite testbit_SETBYTE by (unfold byte_ok; lia).
      rewrite (proj2 (testbit_masks (Z.of_nat k) m ltac:(lia) Hm)).
      rewrite (proj2 (testbit_masks (Z.of_nat (k + 1)) m ltac:(lia) Hm)).
      assert (0 <= m mod 8 < 8) by (apply Z.mod_pos_bound; lia).
      change (Z.testbit 255 (m mod 8)) with (Z.testbit (Z.ones 8) (m mod 8)).
      rewrite Z.ones_spec_low by lia.
      rewrite (proj2 (Z.ltb_lt m 64)), andb_true_r by lia.
      destruct (Z.eqb_spec (m / 8) (7 - Z.of_nat k)), (Z.ltb_spec (7 - m / 8) (Z.of_nat k)),
        (Z.ltb_spec (7 - m / 8) (Z.of_nat (k + 1))); try lia; cbn; btauto.
  - by rewrite Hy, Nat.add_0_l, Z2Nat.id by lia.
Qed.

Lemma div8_range n : 0 <= n < 64 -> 0 <= n / 8 <= 7 /\ 0 <= n mod 8 < 8 /\ n = 8 * (n / 8) + n mod 8.
Proof.
  intros. pose proof (Z.mod_pos_bound n 8 ltac:(lia)). pose proof (Z.div_mod n 8 ltac:(lia)).
  repeat split; lia.
Qed.

Lemma word_of_bytes_of x n :
  in_u 64 x -> (n <= 8)%nat -> word_of (bytes_of x n) = Z.land x (top_mask (Z.of_nat n)).
Proof.
  intros Hx Hn. by_bits m Hm.
  - apply word_of_in_u; [apply bytes_of_ok|]. rewrite zlen_bytes_of. lia.
  - apply in_u_land; [lia|done|]. apply top_mask_in_u.
  - destruct (div8_range m Hm) as (H1 & H2 & H3).
    rewrite testbit_word_of by (rewrite ?zlen_bytes_of; try apply bytes_of_ok; lia).
    rewrite Z.land_spec, (proj1 (testbit_masks (Z.of_nat n) m ltac:(lia) Hm)), bytes_of_lookup.
    case_decide; destruct (Z.ltb_spec (7 - m / 8) (Z.of_nat n)); try lia; cbn [opt_bit].
    + rewrite testbit_GETBYTE, andb_true_r by lia. rewrite (proj2 (Z.ltb_lt _ _)) by lia. cbn [andb].
      f_equal. lia.
    + by rewrite andb_false_r.
Qed.

Lemma bytes_of_word_of l : bytes_ok l -> zlen l <= 8 -> bytes_of (word_of l) (length l) = l.
Proof.
  intros Hl H8. apply list_eq. intros i. rewrite bytes_of_lookup. case_decide as Hi.
  - destruct (lookup_lt_is_Some_2 l i Hi) as [b Hb]. rewrite Hb. f_equal.
    pose proof (Forall_lookup_1 _ _ _ _ Hl Hb) as Hbok.
    apply (word_ext 8); [apply in_u_uwrap; lia|exact Hbok|lia|]. intros n Hn. unfold zlen in H8.
    rewrite testbit_GETBYTE, (proj2 (Z.ltb_lt n 8)) by lia. cbn [andb].
    rewrite testbit_word_of by (unfold zlen; try done; lia).
    replace (n + (56 - 8 * Z.of_nat i)) with (n + (7 - Z.of_nat i) * 8) by lia.
    rewrite Z.div_add, Z.mod_add, Z.div_small, Z.mod_small by lia.
    replace (Z.to_nat (7 - (0 + (7 - Z.of_nat i)))) with i by lia. by rewrite Hb.
  - by rewrite lookup_ge_None_2 by lia.
Qed.

(** Words that agree on the first [n] bytes have the same first [n] bytes. *)
Lemma bytes_of_ext x y n :
  (n <= 8)%nat ->
  (forall k, 0 <= k < 64 -> 7 - k / 8 < Z.of_nat n -> Z.testbit x k = Z.testbit y k) ->
  bytes_of x n = bytes_of y n.
Proof.
  intros Hn H. apply list_eq. intros i. rewrite !bytes_of_lookup. case_decide; [|done]. f_equal.
  apply (word_ext 8); [apply in_u_uwrap; lia|apply in_u_uwrap; lia|lia|].
  intros k Hk. rewrite !testbit_GETBYTE by lia. f_equal. apply H; [lia|].
  replace (k + (56 - 8 * Z.of_nat i)) with (k + (7 - Z.of_nat i) * 8) by lia.
  rewrite Z.div_add, Z.div_small by lia. lia.
Qed.
