(* ===== verification/Ascon.v ===== *)
(** * The Ascon cipher, reference implementation ([lib/crypto/ascon/crypto_aead/*/ref])

    The permutation ([round.h], [permutations.h]) and the three authenticated encryption
    schemes of the library: Ascon-128 ([ascon128v12]), Ascon-128a ([ascon128av12]) and
    Ascon-80pq ([ascon80pqv12]), one module per scheme.

    A C buffer is a list of bytes; a pointer that the code moves is an offset into its
    buffer, and an access outside the buffer is a [Fault].  The input and the output
    buffers of a call are different ones. *)

From stdpp Require Import base tactics numbers list.
From Stdlib Require Import ZArith Lia.
From S2P Require Import Prelude AsconWord.

Local Open Scope Z_scope.
Local Open Scope infuse_scope.

(** ** State and permutation *)

Record ascon_state_t : Type := { sx0 : Z; sx1 : Z; sx2 : Z; sx3 : Z; sx4 : Z }.

(** [s.x[i]] *)
Definition x (s : ascon_state_t) (i : nat) : Z :=
  match i with
  | 0%nat => sx0 s | 1%nat => sx1 s | 2%nat => sx2 s | 3%nat => sx3 s | _ => sx4 s
  end.

(** [s.x[i] = v] *)
Definition set_x (i : nat) (v : Z) (s : ascon_state_t) : ascon_state_t :=
  match i with
  | 0%nat => {| sx0 := v; sx1 := sx1 s; sx2 := sx2 s; sx3 := sx3 s; sx4 := sx4 s |}
  | 1%nat => {| sx0 := sx0 s; sx1 := v; sx2 := sx2 s; sx3 := sx3 s; sx4 := sx4 s |}
  | 2%nat => {| sx0 := sx0 s; sx1 := sx1 s; sx2 := v; sx3 := sx3 s; sx4 := sx4 s |}
  | 3%nat => {| sx0 := sx0 s; sx1 := sx1 s; sx2 := sx2 s; sx3 := v; sx4 := sx4 s |}
  | _ => {| sx0 := sx0 s; sx1 := sx1 s; sx2 := sx2 s; sx3 := sx3 s; sx4 := v |}
  end.

(** [s.x[i] ^= v] *)
Definition xor_x (i : nat) (v : Z) (s : ascon_state_t) : ascon_state_t :=
  set_x i (Z.lxor (x s i) v) s.

Definition ROR (x n : Z) : Z := Z.lor (Z.shiftr x n) (u64 (Z.shiftl x (Z.land (- n) 63))).

(** The round function; [t] is the scratch state of the substitution layer. *)
Definition ROUND (s : ascon_state_t) (C : Z) : ascon_state_t :=
  let s := xor_x 2 C s in
  let s := xor_x 0 (x s 4) s in
  let s := xor_x 4 (x s 3) s in
  let s := xor_x 2 (x s 1) s in
  let t0 := Z.lxor (x s 0) (Z.land (not64 (x s 1)) (x s 2)) in
  let t1 := Z.lxor (x s 1) (Z.land (not64 (x s 2)) (x s 3)) in
  let t2 := Z.lxor (x s 2) (Z.land (not64 (x s 3)) (x s 4)) in
  let t3 := Z.lxor (x s 3) (Z.land (not64 (x s 4)) (x s 0)) in
  let t4 := Z.lxor (x s 4) (Z.land (not64 (x s 0)) (x s 1)) in
  let t1 := Z.lxor t1 t0 in
  let t0 := Z.lxor t0 t4 in
  let t3 := Z.lxor t3 t2 in
  let t2 := not64 t2 in
  {| sx0 := Z.lxor (Z.lxor t0 (ROR t0 19)) (ROR t0 28);
     sx1 := Z.lxor (Z.lxor t1 (ROR t1 61)) (ROR t1 39);
     sx2 := Z.lxor (Z.lxor t2 (ROR t2 1)) (ROR t2 6);
     sx3 := Z.lxor (Z.lxor t3 (ROR t3 10)) (ROR t3 17);
     sx4 := Z.lxor (Z.lxor t4 (ROR t4 7)) (ROR t4 41) |}.

Definition P12 (s : ascon_state_t) : ascon_state_t :=
  foldl ROUND s [0xf0; 0xe1; 0xd2; 0xc3; 0xb4; 0xa5; 0x96; 0x87; 0x78; 0x69; 0x5a; 0x4b].
Definition P8 (s : ascon_state_t) : ascon_state_t :=
  foldl ROUND s [0xb4; 0xa5; 0x96; 0x87; 0x78; 0x69; 0x5a; 0x4b].
Definition P6 (s : ascon_state_t) : ascon_state_t :=
  foldl ROUND s [0x96; 0x87; 0x78; 0x69; 0x5a; 0x4b].

(** [constants.h] *)
Definition ASCON_128_RATE : Z := 8.
Definition ASCON_128A_RATE : Z := 16.
Definition ASCON_128_IV : Z :=
  Z.lor (Z.lor (Z.lor (Z.shiftl (16 * 8) 56) (Z.shiftl (8 * 8) 48)) (Z.shiftl 12 40)) (Z.shiftl 6 32).
Definition ASCON_128A_IV : Z :=
  Z.lor (Z.lor (Z.lor (Z.shiftl (16 * 8) 56) (Z.shiftl (16 * 8) 48)) (Z.shiftl 12 40)) (Z.shiftl 8 32).
Definition ASCON_80PQ_IV : Z :=
  Z.lor (Z.lor (Z.lor (Z.shiftl (20 * 8) 56) (Z.shiftl (8 * 8) 48)) (Z.shiftl 12 40)) (Z.shiftl 6 32).
Definition CRYPTO_ABYTES : Z := 16.

(** The tail of both directions: the tag is the last two words of the state. *)
Definition set_tag (tag : list Z) (s : ascon_state_t) : exec (list Z) :=
  let! tag := STOREBYTES tag 0 (x s 3) 8 in
  STOREBYTES tag 8 (x s 4) 8.

(** The comparison of the received tag with the computed one: 0 if equal, else -1. *)
Definition verify_tag (tag t : list Z) : exec Z :=
  let! result := for_loop (Z.to_nat CRYPTO_ABYTES) 0
    (fun i result => match tag !! i, t !! i with
                     | Some a, Some b => Done (Z.lor result (Z.lxor a b))
                     | _, _ => Fault
                     end) 0 in
  Done (Z.land (Z.shiftr (result - 1) 8) 1 - 1).

(** ** Ascon-128 *)
Module Ascon128.

Definition initialize (npub k : list Z) : exec (Z * Z * ascon_state_t) :=
  let! K0 := LOADBYTES k 0 8 in
  let! K1 := LOADBYTES k 8 8 in
  let! N_0 := LOADBYTES npub 0 8 in
  let! N_1 := LOADBYTES npub 8 8 in
  let s := {| sx0 := ASCON_128_IV; sx1 := K0; sx2 := K1; sx3 := N_0; sx4 := N_1 |} in
  let s := P12 s in
  let s := xor_x 3 K0 s in
  let s := xor_x 4 K1 s in
  Done (K0, K1, s).

(** [while (adlen >= ASCON_128_RATE)] *)
Fixpoint ad_blocks (fuel : nat) (ad : list Z) (p adlen : Z) (s : ascon_state_t)
  : exec (Z * Z * ascon_state_t) :=
  if ASCON_128_RATE <=? adlen then
    match fuel with
    | O => NoFuel
    | S fuel =>
        let! w := LOADBYTES ad p 8 in
        let s := P6 (xor_x 0 w s) in
        ad_blocks fuel ad (p + ASCON_128_RATE) (adlen - ASCON_128_RATE) s
    end
  else Done (p, adlen, s).

(** The associated data and the domain separation. *)
Definition adata (ad : list Z) (adlen : Z) (s : ascon_state_t) : exec ascon_state_t :=
  let! s :=
    if adlen =? 0 then Done s else
    let! (p, adlen, s) := ad_blocks (Z.to_nat adlen) ad 0 adlen s in
    let! w := LOADBYTES ad p adlen in
    let s := xor_x 0 w s in
    let s := xor_x 0 (PAD adlen) s in
    Done (P6 s) in
  Done (xor_x 4 1 s).

(** [while (mlen >= ASCON_128_RATE)]: [p] is the offset of [m] and of [c]. *)
Fixpoint pt_blocks (fuel : nat) (c m : list Z) (p mlen : Z) (s : ascon_state_t)
  : exec (list Z * Z * Z * ascon_state_t) :=
  if ASCON_128_RATE <=? mlen then
    match fuel with
    | O => NoFuel
    | S fuel =>
        let! w := LOADBYTES m p 8 in
        let s := xor_x 0 w s in
        let! c := STOREBYTES c p (x s 0) 8 in
        pt_blocks fuel c m (p + ASCON_128_RATE) (mlen - ASCON_128_RATE) (P6 s)
    end
  else Done (c, p, mlen, s).

Definition plaintext (c m : list Z) (mlen : Z) (s : ascon_state_t)
  : exec (list Z * ascon_state_t) :=
  let! (c, p, mlen, s) := pt_blocks (Z.to_nat mlen) c m 0 mlen s in
  let! w := LOADBYTES m p mlen in
  let s := xor_x 0 w s in
  let! c := STOREBYTES c p (x s 0) mlen in
  Done (c, xor_x 0 (PAD mlen) s).

Fixpoint ct_blocks (fuel : nat) (m c : list Z) (p clen : Z) (s : ascon_state_t)
  : exec (list Z * Z * Z * ascon_state_t) :=
  if ASCON_128_RATE <=? clen then
    match fuel with
    | O => NoFuel
    | S fuel =>
        let! c0 := LOADBYTES c p 8 in
        let! m := STOREBYTES m p (Z.lxor (x s 0) c0) 8 in
        let s := set_x 0 c0 s in
        ct_blocks fuel m c (p + ASCON_128_RATE) (clen - ASCON_128_RATE) (P6 s)
    end
  else Done (m, p, clen, s).

Definition ciphertext (m c : list Z) (clen : Z) (s : ascon_state_t)
  : exec (list Z * ascon_state_t) :=
  let! (m, p, clen, s) := ct_blocks (Z.to_nat clen) m c 0 clen s in
  let! c0 := LOADBYTES c p clen in
  let! m := STOREBYTES m p (Z.lxor (x s 0) c0) clen in
  let! x0 := CLEARBYTES (x s 0) clen in
  let s := set_x 0 x0 s in
  let s := set_x 0 (Z.lor (x s 0) c0) s in
  Done (m, xor_x 0 (PAD clen) s).

Definition finalize (K0 K1 : Z) (s : ascon_state_t) : ascon_state_t :=
  let s := xor_x 1 K0 s in
  let s := xor_x 2 K1 s in
  let s := P12 s in
  let s := xor_x 3 K0 s in
  xor_x 4 K1 s.

(** Returns the code, [*clen], the contents of [c] and of [tag]. *)
Definition crypto_aead_encrypt (c m : list Z) (mlen : Z) (ad : list Z) (adlen : Z)
  (tag npub k : list Z) : exec (Z * Z * list Z * list Z) :=
  let clen := mlen in
  let! (K0, K1, s) := initialize npub k in
  let! s := adata ad adlen s in
  let! (c, s) := plaintext c m mlen s in
  let s := finalize K0 K1 s in
  let! tag := set_tag tag s in
  Done (0, clen, c, tag).

(** Returns the code, [*mlen] and the contents of [m]. *)
Definition crypto_aead_decrypt (m tag c : list Z) (clen : Z) (ad : list Z) (adlen : Z)
  (npub k : list Z) : exec (Z * Z * list Z) :=
  let mlen := clen in
  let! (K0, K1, s) := initialize npub k in
  let! s := adata ad adlen s in
  let! (m, s) := ciphertext m c clen s in
  let s := finalize K0 K1 s in
  let! t := set_tag (replicate 16 0) s in
  let! result := verify_tag tag t in
  Done (result, mlen, m).
End Ascon128.

(** ** Ascon-128a: a rate of two words and eight rounds between the blocks *)
Module Ascon128a.

Definition initialize (npub k : list Z) : exec (Z * Z * ascon_state_t) :=
  let! K0 := LOADBYTES k 0 8 in
  let! K1 := LOADBYTES k 8 8 in
  let! N_0 := LOADBYTES npub 0 8 in
  let! N_1 := LOADBYTES npub 8 8 in
  let s := {| sx0 := ASCON_128A_IV; sx1 := K0; sx2 := K1; sx3 := N_0; sx4 := N_1 |} in
  let s := P12 s in
  let s := xor_x 3 K0 s in
  let s := xor_x 4 K1 s in
  Done (K0, K1, s).

Fixpoint ad_blocks (fuel : nat) (ad : list Z) (p adlen : Z) (s : ascon_state_t)
  : exec (Z * Z * ascon_state_t) :=
  if ASCON_128A_RATE <=? adlen then
    match fuel with
    | O => NoFuel
    | S fuel =>
        let! w := LOADBYTES ad p 8 in
        let s := xor_x 0 w s in
        let! w := LOADBYTES ad (p + 8) 8 in
        let s := xor_x 1 w s in
        ad_blocks fuel ad (p + ASCON_128A_RATE) (adlen - ASCON_128A_RATE) (P8 s)
    end
  else Done (p, adlen, s).

Definition adata (ad : list Z) (adlen : Z) (s : ascon_state_t) : exec ascon_state_t :=
  let! s :=
    if adlen =? 0 then Done s else
    let! (p, adlen, s) := ad_blocks (Z.to_nat adlen) ad 0 adlen s in
    let! s :=
      if 8 <=? adlen then
        let! w := LOADBYTES ad p 8 in
        let s := xor_x 0 w s in
        let! w := LOADBYTES ad (p + 8) (adlen - 8) in
        let s := xor_x 1 w s in
        Done (xor_x 1 (PAD (adlen - 8)) s)
      else
        let! w := LOADBYTES ad p adlen in
        let s := xor_x 0 w s in
        Done (xor_x 0 (PAD adlen) s) in
    Done (P8 s) in
  Done (xor_x 4 1 s).

Fixpoint pt_blocks (fuel : nat) (c m : list Z) (p mlen : Z) (s : ascon_state_t)
  : exec (list Z * Z * Z * ascon_state_t) :=
  if ASCON_128A_RATE <=? mlen then
    match fuel with
    | O => NoFuel
    | S fuel =>
        let! w := LOADBYTES m p 8 in
        let s := xor_x 0 w s in
        let! w := LOADBYTES m (p + 8) 8 in
        let s := xor_x 1 w s in
        let! c := STOREBYTES c p (x s 0) 8 in
        let! c := STOREBYTES c (p + 8) (x s 1) 8 in
        pt_blocks fuel c m (p + ASCON_128A_RATE) (mlen - ASCON_128A_RATE) (P8 s)
    end
  else Done (c, p, mlen, s).

Definition plaintext (c m : list Z) (mlen : Z) (s : ascon_state_t)
  : exec (list Z * ascon_state_t) :=
  let! (c, p, mlen, s) := pt_blocks (Z.to_nat mlen) c m 0 mlen s in
  if 8 <=? mlen then
    let! w := LOADBYTES m p 8 in
    let s := xor_x 0 w s in
    let! w := LOADBYTES m (p + 8) (mlen - 8) in
    let s := xor_x 1 w s in
    let! c := STOREBYTES c p (x s 0) 8 in
    let! c := STOREBYTES c (p + 8) (x s 1) (mlen - 8) in
    Done (c, xor_x 1 (PAD (mlen - 8)) s)
  else
    let! w := LOADBYTES m p mlen in
    let s := xor_x 0 w s in
    let! c := STOREBYTES c p (x s 0) mlen in
    Done (c, xor_x 0 (PAD mlen) s).

Fixpoint ct_blocks (fuel : nat) (m c : list Z) (p clen : Z) (s : ascon_state_t)
  : exec (list Z * Z * Z * ascon_state_t) :=
  if ASCON_128A_RATE <=? clen then
    match fuel with
    | O => NoFuel
    | S fuel =>
        let! c0 := LOADBYTES c p 8 in
        let! c1 := LOADBYTES c (p + 8) 8 in
        let! m := STOREBYTES m p (Z.lxor (x s 0) c0) 8 in
        let! m := STOREBYTES m (p + 8) (Z.lxor (x s 1) c1) 8 in
        let s := set_x 0 c0 s in
        let s := set_x 1 c1 s in
        ct_blocks fuel m c (p + ASCON_128A_RATE) (clen - ASCON_128A_RATE) (P8 s)
    end
  else Done (m, p, clen, s).

Definition ciphertext (m c : list Z) (clen : Z) (s : ascon_state_t)
  : exec (list Z * ascon_state_t) :=
  let! (m, p, clen, s) := ct_blocks (Z.to_nat clen) m c 0 clen s in
  if 8 <=? clen then
    let! c0 := LOADBYTES c p 8 in
    let! c1 := LOADBYTES c (p + 8) (clen - 8) in
    let! m := STOREBYTES m p (Z.lxor (x s 0) c0) 8 in
    let! m := STOREBYTES m (p + 8) (Z.lxor (x s 1) c1) (clen - 8) in
    let s := set_x 0 c0 s in
    let! x1 := CLEARBYTES (x s 1) (clen - 8) in
    let s := set_x 1 x1 s in
    let s := set_x 1 (Z.lor (x s 1) c1) s in
    Done (m, xor_x 1 (PAD (clen - 8)) s)
  else
    let! c0 := LOADBYTES c p clen in
    let! m := STOREBYTES m p (Z.lxor (x s 0) c0) clen in
    let! x0 := CLEARBYTES (x s 0) clen in
    let s := set_x 0 x0 s in
    let s := set_x 0 (Z.lor (x s 0) c0) s in
    Done (m, xor_x 0 (PAD clen) s).

Definition finalize (K0 K1 : Z) (s : ascon_state_t) : ascon_state_t :=
  let s := xor_x 2 K0 s in
  let s := xor_x 3 K1 s in
  let s := P12 s in
  let s := xor_x 3 K0 s in
  xor_x 4 K1 s.

Definition crypto_aead_encrypt (c m : list Z) (mlen : Z) (ad : list Z) (adlen : Z)
  (tag npub k : list Z) : exec (Z * Z * list Z * list Z) :=
  let clen := mlen in
  let! (K0, K1, s) := initialize npub k in
  let! s := adata ad adlen s in
  let! (c, s) := plaintext c m mlen s in
  let s := finalize K0 K1 s in
  let! tag := set_tag tag s in
  Done (0, clen, c, tag).

Definition crypto_aead_decrypt (m tag c : list Z) (clen : Z) (ad : list Z) (adlen : Z)
  (npub k : list Z) : exec (Z * Z * list Z) :=
  let mlen := clen in
  let! (K0, K1, s) := initialize npub k in
  let! s := adata ad adlen s in
  let! (m, s) := ciphertext m c clen s in
  let s := finalize K0 K1 s in
  let! t := set_tag (replicate 16 0) s in
  let! result := verify_tag tag t in
  Done (result, mlen, m).
End Ascon128a.

(** ** Ascon-80pq: a key of 20 bytes.  The processing of associated data, plaintext and
    ciphertext is the text of Ascon-128. *)
Module Ascon80pq.

Definition initialize (npub k : list Z) : exec (Z * Z * Z * ascon_state_t) :=
  let! w := LOADBYTES k 0 4 in
  let K0 := Z.shiftr w 32 in
  let! K1 := LOADBYTES k 4 8 in
  let! K2 := LOADBYTES k 12 8 in
  let! N_0 := LOADBYTES npub 0 8 in
  let! N_1 := LOADBYTES npub 8 8 in
  let s := {| sx0 := Z.lor ASCON_80PQ_IV K0; sx1 := K1; sx2 := K2; sx3 := N_0; sx4 := N_1 |} in
  let s := P12 s in
  let s := xor_x 2 K0 s in
  let s := xor_x 3 K1 s in
  let s := xor_x 4 K2 s in
  Done (K0, K1, K2, s).

Definition finalize (K0 K1 K2 : Z) (s : ascon_state_t) : ascon_state_t :=
  let s := xor_x 1 (Z.lor (u64 (Z.shiftl K0 32)) (Z.shiftr K1 32)) s in
  let s := xor_x 2 (Z.lor (u64 (Z.shiftl K1 32)) (Z.shiftr K2 32)) s in
  let s := xor_x 3 (u64 (Z.shiftl K2 32)) s in
  let s := P12 s in
  let s := xor_x 3 K1 s in
  xor_x 4 K2 s.

Definition crypto_aead_encrypt (c m : list Z) (mlen : Z) (ad : list Z) (adlen : Z)
  (tag npub k : list Z) : exec (Z * Z * list Z * list Z) :=
  let clen := mlen in
  let! (K0, K1, K2, s) := initialize npub k in
  let! s := Ascon128.adata ad adlen s in
  let! (c, s) := Ascon128.plaintext c m mlen s in
  let s := finalize K0 K1 K2 s in
  let! tag := set_tag tag s in
  Done (0, clen, c, tag).

Definition crypto_aead_decrypt (m tag c : list Z) (clen : Z) (ad : list Z) (adlen : Z)
  (npub k : list Z) : exec (Z * Z * list Z) :=
  let mlen := clen in
  let! (K0, K1, K2, s) := initialize npub k in
  let! s := Ascon128.adata ad adlen s in
  let! (m, s) := Ascon128.ciphertext m c clen s in
  let s := finalize K0 K1 K2 s in
  let! t := set_tag (replicate 16 0) s in
  let! result := verify_tag tag t in
  Done (result, mlen, m).
End Ascon80pq.
