(* ===== verification/AsconSpec.v ===== *)
(** * Specification of the Ascon schemes

    The duplex construction on the words of the state, written once for the three schemes
    and for both directions, with its round trip: what encryption produces, decryption
    takes back through the same states.  The reference implementation refines it in
    [AsconRefine], the ARM implementations in [AsconArmRefine]. *)

From stdpp Require Import base tactics numbers list.
From Stdlib Require Import ZArith Lia Btauto.
From S2P Require Import Prelude AsconWord Ascon.

Local Open Scope Z_scope.
Local Open Scope infuse_scope.

(** ** The duplex *)

Inductive amode : Type := Absorb | Encrypt | Decrypt.
#[export] Instance amode_eq_dec : EqDecision amode.
Proof. solve_decision. Defined.

Section duplex.
(** The number of words of a block, and the permutation between blocks. *)
Context (rate : nat) (pb : ascon_state_t -> ascon_state_t) (mode : amode).

(** A full word [w] at word [i] of the state: the output word and the new state. *)
Definition full_word (i : nat) (w : Z) (s : ascon_state_t) : Z * nat * ascon_state_t :=
  let y := Z.lxor (x s i) w in
  let s := set_x i (if decide (mode = Decrypt) then w else y) s in
  if decide (S i = rate) then (y, O, pb s) else (y, S i, s).

(** The last word, of [n] < 8 bytes, with its padding. *)
Definition last_word (i : nat) (w : Z) (n : nat) (s : ascon_state_t) : Z * ascon_state_t :=
  let y := Z.lxor (x s i) w in
  let v := if decide (mode = Decrypt) then Z.lor (Z.land (x s i) (low_mask (Z.of_nat n))) w else y in
  (y, set_x i (Z.lxor v (PAD (Z.of_nat n))) s).

Fixpoint duplex (i : nat) (s : ascon_state_t) (l : list Z) : list Z * ascon_state_t :=
  match l with
  | b0 :: b1 :: b2 :: b3 :: b4 :: b5 :: b6 :: b7 :: l =>
      let '(y, i, s) := full_word i (word_of [b0; b1; b2; b3; b4; b5; b6; b7]) s in
      let '(out, s) := duplex i s l in
      (bytes_of y 8 ++ out, s)
  | _ =>
      let '(y, s) := last_word i (word_of l) (length l) s in
      (bytes_of y (length l), s)
  end.

Lemma duplex_full i s a l :
  length a = 8%nat ->
  duplex i s (a ++ l) =
  let '(y, i, s) := full_word i (word_of a) s in
  let '(out, s) := duplex i s l in (bytes_of y 8 ++ out, s).
Proof. intros H. do 8 (destruct a as [|? a]; [discriminate H|]). by destruct a. Qed.

Lemma duplex_last i s l :
  (length l < 8)%nat ->
  duplex i s l =
  let '(y, s) := last_word i (word_of l) (length l) s in (bytes_of y (length l), s).
Proof. intros H. do 8 (destruct l as [|? l]; [done|]). simpl in H. lia. Qed.
End duplex.

(** Induction over the words of a message. *)
Lemma words_ind (P : list Z -> Prop) :
  (forall l, (length l < 8)%nat -> P l) ->
  (forall a l, length a = 8%nat -> P l -> P (a ++ l)) ->
  forall l, P l.
Proof.
  intros Hb Hs l. remember (length l) as n eqn:Hn. revert l Hn.
  induction n as [n IH] using lt_wf_ind. intros l ->.
  destruct (decide (length l < 8)%nat); [by apply Hb|].
  rewrite <- (take_drop 8 l). apply Hs; [rewrite length_take; lia|].
  apply (IH (length (drop 8 l))); [rewrite length_drop; lia|done].
Qed.

(** ** Well-formed states *)

Definition state_ok (s : ascon_state_t) : Prop := forall i, in_u 64 (x s i).

Lemma x_set_x_eq i v s : (i < 5)%nat -> x (set_x i v s) i = v.
Proof. intros. destruct i as [|[|[|[|[|]]]]]; reflexivity || lia. Qed.

Lemma x_set_x_ne i j v s : (i < 5)%nat -> (j < 5)%nat -> i <> j -> x (set_x i v s) j = x s j.
Proof.
  intros. destruct i as [|[|[|[|[|]]]]], j as [|[|[|[|[|]]]]]; reflexivity || lia.
Qed.

Lemma state_ok_set i v s : state_ok s -> in_u 64 v -> state_ok (set_x i v s).
Proof.
  intros Hs Hv j. pose proof (Hs j) as Hj.
  destruct i as [|[|[|[|]]]], j as [|[|[|[|]]]]; assumption.
Qed.

Lemma state_ok_xor i v s : state_ok s -> in_u 64 v -> state_ok (xor_x i v s).
Proof. intros Hs Hv. apply state_ok_set; [done|]. apply in_u_lxor; [lia|apply Hs|done]. Qed.

Lemma not64_in_u v : in_u 64 (not64 v).
Proof. by apply in_u_uwrap. Qed.

Lemma ROR_in_u v n : in_u 64 v -> 0 <= n -> in_u 64 (ROR v n).
Proof. intros. apply in_u_lor; [lia|by apply in_u_shiftr|by apply in_u_uwrap]. Qed.

Create HintDb word.
#[export] Hint Resolve not64_in_u SETBYTE_in_u top_mask_in_u state_ok_set state_ok_xor bytes_of_ok : word.
#[export] Hint Extern 1 (in_u 64 (uwrap 64 _)) => apply in_u_uwrap; lia : word.
#[export] Hint Extern 1 (in_u 64 (ROR _ _)) => apply ROR_in_u; [|lia] : word.
#[export] Hint Extern 1 (in_u 64 (Z.lxor _ _)) => apply in_u_lxor; [lia| |] : word.
#[export] Hint Extern 1 (in_u 64 (Z.lor _ _)) => apply in_u_lor; [lia| |] : word.

Lemma ROUND_ok s C : state_ok s -> 0 <= C < 256 -> state_ok (ROUND s C).
Proof.
  intros Hs HC. assert (in_u 64 C) by (unfold in_u; lia). unfold ROUND. cbv zeta.
  set (s1 := xor_x 2 C s). set (s2 := xor_x 0 (x s1 4) s1). set (s3 := xor_x 4 (x s2 3) s2).
  set (s4 := xor_x 2 (x s3 1) s3).
  assert (state_ok s1) as H1 by (apply state_ok_xor; done).
  assert (state_ok s2) as H2 by (apply state_ok_xor; [done|apply H1]).
  assert (state_ok s3) as H3 by (apply state_ok_xor; [done|apply H2]).
  assert (state_ok s4) as H4 by (apply state_ok_xor; [done|apply H3]).
  clearbody s4. clear s1 s2 s3 H1 H2 H3.
  pose proof (H4 0%nat). pose proof (H4 1%nat). pose proof (H4 2%nat).
  pose proof (H4 3%nat). pose proof (H4 4%nat).
  assert (forall a b c, in_u 64 a -> in_u 64 c -> in_u 64 (Z.lxor a (Z.land (not64 b) c))) as Hsub.
  { intros a b c Ha Hc. apply in_u_lxor; [lia|done|].
    apply in_u_land; [lia|apply not64_in_u|apply Hc]. }
  intros [|[|[|[|]]]]; cbn [x sx0 sx1 sx2 sx3 sx4]; auto 20 with word.
Qed.

Lemma rounds_ok l s : state_ok s -> Forall (fun C => 0 <= C < 256) l -> state_ok (foldl ROUND s l).
Proof. intros Hs Hl. revert s Hs. induction Hl; intros s Hs; simpl; [done|]. by apply IHHl, ROUND_ok. Qed.

Lemma P12_ok s : state_ok s -> state_ok (P12 s).
Proof. intros. apply rounds_ok; [done|]. repeat constructor; lia. Qed.
Lemma P8_ok s : state_ok s -> state_ok (P8 s).
Proof. intros. apply rounds_ok; [done|]. repeat constructor; lia. Qed.
Lemma P6_ok s : state_ok s -> state_ok (P6 s).
Proof. intros. apply rounds_ok; [done|]. repeat constructor; lia. Qed.
#[export] Hint Resolve P12_ok P8_ok P6_ok : word.

(** ** Facts about one word *)

Lemma testbit_word_of_low l k :
  bytes_ok l -> zlen l <= 8 -> 0 <= k < 64 -> (7 - k / 8 <? zlen l) = false ->
  Z.testbit (word_of l) k = false.
Proof.
  intros Hl H8 Hk Hn. rewrite testbit_word_of by done. rewrite lookup_ge_None_2; [done|].
  apply Z.ltb_ge in Hn. unfold zlen in Hn. lia.
Qed.

(** Encryption of the last bytes of a message, inverted by decryption ... *)
Lemma last_word_decrypt v l :
  in_u 64 v -> bytes_ok l -> zlen l <= 8 ->
  let y := Z.lxor v (word_of l) in
  let w := word_of (bytes_of y (length l)) in
  bytes_of (Z.lxor v w) (length l) = l /\ Z.lor (Z.land v (low_mask (zlen l))) w = y.
Proof.
  intros Hv Hl H8 y w. pose proof (word_of_in_u l Hl H8) as Hwl.
  assert (in_u 64 y) as Hy by (apply in_u_lxor; done).
  assert (w = Z.land y (top_mask (zlen l))) as Hw.
  { apply word_of_bytes_of; [done|]. unfold zlen in *. lia. }
  pose proof (low_mask_in_u (zlen l)) as Hlow. pose proof (zlen_nonneg l).
  pose proof (top_mask_in_u (zlen l)) as Htop. split.
  - transitivity (bytes_of (word_of l) (length l)); [|by apply bytes_of_word_of].
    apply bytes_of_ext; [unfold zlen in *; lia|].
    intros k Hk Hkl. rewrite Hw, Z.lxor_spec, Z.land_spec.
    rewrite (proj1 (testbit_masks (zlen l) k ltac:(lia) Hk)).
    rewrite (proj2 (Z.ltb_lt _ _)) by (unfold zlen; lia). subst y. rewrite Z.lxor_spec. btauto.
  - rewrite Hw. by_bits k Hk; [|done|].
    + apply in_u_lor; [lia| |]; apply in_u_land; try done; try lia; apply Hlow || apply Htop; lia.
    + rewrite Z.lor_spec, !Z.land_spec. destruct (testbit_masks (zlen l) k ltac:(lia) Hk) as [-> ->].
      subst y. rewrite Z.lxor_spec. destruct (7 - k / 8 <? zlen l) eqn:E; [cbn; btauto|].
      rewrite (testbit_word_of_low l k) by done. cbn. btauto.
Qed.

(** ... and the other way round. *)
Lemma last_word_encrypt v l :
  in_u 64 v -> bytes_ok l -> zlen l <= 8 ->
  let y := Z.lxor v (word_of l) in
  let w := word_of (bytes_of y (length l)) in
  bytes_of (Z.lxor v w) (length l) = l /\
  Z.lxor v w = Z.lor (Z.land v (low_mask (zlen l))) (word_of l).
Proof.
  intros Hv Hl H8 y w. split; [by apply last_word_decrypt|].
  pose proof (word_of_in_u l Hl H8) as Hwl.
  assert (in_u 64 y) as Hy by (apply in_u_lxor; done).
  assert (w = Z.land y (top_mask (zlen l))) as ->.
  { apply word_of_bytes_of; [done|]. unfold zlen in *. lia. }
  pose proof (low_mask_in_u (zlen l)) as Hlow. pose proof (zlen_nonneg l).
  pose proof (top_mask_in_u (zlen l)) as Htop. by_bits k Hk.
  - apply in_u_lxor; [lia|done|]. apply in_u_land; [lia|done|apply Htop].
  - apply in_u_lor; [lia| |done]. apply in_u_land; [lia|done|apply Hlow; lia].
  - rewrite Z.lor_spec, Z.lxor_spec, !Z.land_spec.
    destruct (testbit_masks (zlen l) k ltac:(lia) Hk) as [-> ->].
    subst y. rewrite Z.lxor_spec. destruct (7 - k / 8 <? zlen l) eqn:E; [cbn; btauto|].
    rewrite (testbit_word_of_low l k) by done. cbn. btauto.
Qed.

Lemma full_word_bytes v l :
  in_u 64 v -> bytes_ok l -> length l = 8%nat ->
  let y := Z.lxor v (word_of l) in
  word_of (bytes_of y 8) = y /\ bytes_of (Z.lxor v y) 8 = l.
Proof.
  intros Hv Hl H8 y. assert (zlen l = 8) as Hz by (unfold zlen; lia).
  assert (in_u 64 (word_of l)) as Hwl by (apply word_of_in_u; [done|lia]).
  assert (in_u 64 y) as Hy by (apply in_u_lxor; done). split.
  - rewrite word_of_bytes_of by (try done; lia). change (top_mask (Z.of_nat 8)) with (2 ^ 64 - 1).
    rewrite land_ones_mod by lia. by apply Z.mod_small.
  - subst y. rewrite <- Z.lxor_assoc, Z.lxor_nilpotent, Z.lxor_0_l. rewrite <- H8.
    apply bytes_of_word_of; [done|lia].
Qed.

Lemma last_word_ok mode i w n s :
  state_ok s -> in_u 64 w -> (n <= 8)%nat -> state_ok (snd (last_word mode i w n s)).
Proof.
  intros Hs Hw Hn. unfold last_word. cbn [snd].
  pose proof (low_mask_in_u (Z.of_nat n) ltac:(lia)) as Hm.
  apply state_ok_set; [done|]. apply in_u_lxor; [lia| |apply SETBYTE_in_u].
  pose proof (Hs i). case_decide; auto with word.
  apply in_u_lor; [lia| |done]. apply in_u_land; [lia|done|apply Hm].
Qed.

(** ** The duplex is well typed and invertible *)

Section duplex_facts.
Context (rate : nat) (pb : ascon_state_t -> ascon_state_t).

Lemma duplex_out mode i s l : length (fst (duplex rate pb mode i s l)) = length l.
Proof.
  revert i s. induction l as [l Hl|a l Ha IH] using words_ind; intros i s.
  - rewrite duplex_last by done. destruct (last_word _ _ _ _ _). cbn [fst]. by rewrite length_bytes_of.
  - rewrite duplex_full by done. destruct (full_word _ _ _ _ _ _) as [[y i'] s'].
    specialize (IH i' s'). destruct (duplex _ _ _ _ _ _). cbn [fst] in *.
    rewrite !length_app, length_bytes_of. lia.
Qed.

Lemma duplex_bytes mode i s l : bytes_ok (fst (duplex rate pb mode i s l)).
Proof.
  revert i s. induction l as [l Hl|a l Ha IH] using words_ind; intros i s.
  - rewrite duplex_last by done. destruct (last_word _ _ _ _ _). cbn [fst]. apply bytes_of_ok.
  - rewrite duplex_full by done. destruct (full_word _ _ _ _ _ _) as [[y i'] s'].
    specialize (IH i' s'). destruct (duplex _ _ _ _ _ _). cbn [fst] in *.
    apply bytes_ok_app. split; [apply bytes_of_ok|done].
Qed.

Context (Hrate : (0 < rate < 5)%nat) (Hpb : forall s, state_ok s -> state_ok (pb s)).

Lemma full_word_ok mode i l s y i' s' :
  state_ok s -> bytes_ok l -> length l = 8%nat -> (i < rate)%nat ->
  full_word rate pb mode i (word_of l) s = (y, i', s') -> state_ok s' /\ (i' < rate)%nat.
Proof.
  intros Hs Hl H8 Hi. unfold full_word.
  assert (in_u 64 (word_of l)) as Hw by (apply word_of_in_u; [done|unfold zlen; lia]).
  assert (in_u 64 (Z.lxor (x s i) (word_of l))) as Hy by (apply in_u_lxor; [lia|apply Hs|done]).
  destruct (decide (S i = rate)); intros [= <- <- <-]; (split; [|lia]); [apply Hpb|];
    apply state_ok_set; try done; by case_decide.
Qed.

Lemma duplex_ok mode i s l :
  state_ok s -> bytes_ok l -> (i < rate)%nat -> state_ok (snd (duplex rate pb mode i s l)).
Proof.
  revert i s. induction l as [l H8|a l Ha IH] using words_ind; intros i s Hs Hl Hi.
  - rewrite duplex_last by done.
    assert (in_u 64 (word_of l)) as Hw by (apply word_of_in_u; [done|unfold zlen; lia]).
    pose proof (last_word_ok mode i (word_of l) (length l) s Hs Hw ltac:(lia)) as Hok.
    by destruct (last_word _ _ _ _ _).
  - apply bytes_ok_app in Hl as [Ha' Hl]. rewrite duplex_full by done.
    destruct (full_word _ _ _ _ _ _) as [[y i'] s'] eqn:E.
    destruct (full_word_ok _ _ _ _ _ _ _ Hs Ha' Ha Hi E) as [Hs' Hi'].
    specialize (IH i' s' Hs' Hl Hi'). destruct (duplex _ _ _ _ _ _). done.
Qed.

Lemma duplex_decrypt_encrypt i s l :
  state_ok s -> bytes_ok l -> (i < rate)%nat ->
  duplex rate pb Decrypt i s (fst (duplex rate pb Encrypt i s l)) =
  (l, snd (duplex rate pb Encrypt i s l)).
Proof.
  revert i s. induction l as [l H8|a l Ha IH] using words_ind; intros i s Hs Hl Hi.
  - rewrite (duplex_last _ _ Encrypt) by done. cbn [fst snd last_word].
    rewrite duplex_last by (rewrite length_bytes_of; done). rewrite length_bytes_of.
    destruct (last_word_decrypt (x s i) l (Hs i) Hl ltac:(unfold zlen; lia)) as [E1 E2].
    cbv zeta in E1, E2. unfold last_word. rewrite (decide_True (P := Decrypt = Decrypt)) by done.
    rewrite (decide_False (P := Encrypt = Decrypt)) by done. rewrite E1.
    change (Z.of_nat (length l)) with (zlen l). by rewrite E2.
  - apply bytes_ok_app in Hl as [Ha' Hl]. rewrite (duplex_full _ _ Encrypt) by done.
    destruct (full_word _ _ Encrypt _ _ _) as [[y i'] s'] eqn:E.
    destruct (full_word_ok _ _ _ _ _ _ _ Hs Ha' Ha Hi E) as [Hs' Hi'].
    specialize (IH i' s' Hs' Hl Hi'). destruct (duplex _ _ Encrypt _ _ _) as [out sf].
    cbn [fst snd] in *. rewrite duplex_full by apply length_bytes_of.
    destruct (full_word_bytes (x s i) a (Hs i) Ha' Ha) as [F1 F2]. cbv zeta in F1, F2.
    unfold full_word in E |- *. rewrite (decide_False (P := Encrypt = Decrypt)) in E by done.
    rewrite (decide_True (P := Decrypt = Decrypt)) by done.
    destruct (decide (S i = rate)); injection E as <- <- <-; rewrite F1, IH; by rewrite F2.
Qed.

Lemma duplex_encrypt_decrypt i s l :
  state_ok s -> bytes_ok l -> (i < rate)%nat ->
  duplex rate pb Encrypt i s (fst (duplex rate pb Decrypt i s l)) =
  (l, snd (duplex rate pb Decrypt i s l)).
Proof.
  revert i s. induction l as [l H8|a l Ha IH] using words_ind; intros i s Hs Hl Hi.
  - rewrite (duplex_last _ _ Decrypt) by done. cbn [fst snd last_word].
    rewrite duplex_last by (rewrite length_bytes_of; done). rewrite length_bytes_of.
    destruct (last_word_encrypt (x s i) l (Hs i) Hl ltac:(unfold zlen; lia)) as [E1 E2].
    cbv zeta in E1, E2. unfold last_word. rewrite (decide_True (P := Decrypt = Decrypt)) by done.
    rewrite (decide_False (P := Encrypt = Decrypt)) by done. rewrite E1.
    change (Z.of_nat (length l)) with (zlen l). by rewrite E2.
  - apply bytes_ok_app in Hl as [Ha' Hl]. rewrite (duplex_full _ _ Decrypt) by done.
    destruct (full_word _ _ Decrypt _ _ _) as [[y i'] s'] eqn:E.
    destruct (full_word_ok _ _ _ _ _ _ _ Hs Ha' Ha Hi E) as [Hs' Hi'].
    specialize (IH i' s' Hs' Hl Hi'). destruct (duplex _ _ Decrypt _ _ _) as [out sf].
    cbn [fst snd] in *. rewrite duplex_full by apply length_bytes_of.
    destruct (full_word_bytes (x s i) a (Hs i) Ha' Ha) as [F1 F2]. cbv zeta in F1, F2.
    unfold full_word in E |- *. rewrite (decide_True (P := Decrypt = Decrypt)) in E by done.
    rewrite (decide_False (P := Encrypt = Decrypt)) by done.
    assert (Z.lxor (x s i) (Z.lxor (x s i) (word_of a)) = word_of a) as Exx.
    { by rewrite <- Z.lxor_assoc, Z.lxor_nilpotent, Z.lxor_0_l. }
    destruct (decide (S i = rate)); injection E as <- <- <-; rewrite F1, Exx, IH;
      f_equal; f_equal; rewrite <- Ha; apply bytes_of_word_of; try done; unfold zlen; lia.
Qed.
End duplex_facts.

(** ** The three schemes *)

Inductive variant : Type := V128 | V128a | V80pq.

Definition v_rate (v : variant) : nat := match v with V128a => 2 | _ => 1 end.
Definition v_pb (v : variant) : ascon_state_t -> ascon_state_t :=
  match v with V128a => P8 | _ => P6 end.
Definition v_keylen (v : variant) : Z := match v with V80pq => 20 | _ => 16 end.
(** The first bytes of the state: key size, rate and numbers of rounds. *)
Definition v_iv (v : variant) : list Z :=
  match v with
  | V128 => [128; 64; 12; 6; 0; 0; 0; 0]
  | V128a => [128; 128; 12; 8; 0; 0; 0; 0]
  | V80pq => [160; 64; 12; 6]
  end.

Definition zeros (n : Z) : list Z := replicate (Z.to_nat n) 0.

(** The state of 40 bytes, and the exclusive or of two states. *)
Definition state_of (l : list Z) : ascon_state_t :=
  {| sx0 := word_of (ztake 8 l); sx1 := word_of (ztake 8 (zdrop 8 l));
     sx2 := word_of (ztake 8 (zdrop 16 l)); sx3 := word_of (ztake 8 (zdrop 24 l));
     sx4 := word_of (ztake 8 (zdrop 32 l)) |}.

Definition xor_state (s t : ascon_state_t) : ascon_state_t :=
  {| sx0 := Z.lxor (sx0 s) (sx0 t); sx1 := Z.lxor (sx1 s) (sx1 t);
     sx2 := Z.lxor (sx2 s) (sx2 t); sx3 := Z.lxor (sx3 s) (sx3 t);
     sx4 := Z.lxor (sx4 s) (sx4 t) |}.

(** [IV || K || N] permuted, and the key added at the end of the state. *)
Definition spec_init (v : variant) (k npub : list Z) : ascon_state_t :=
  xor_state (P12 (state_of (v_iv v ++ k ++ npub))) (state_of (zeros (40 - v_keylen v) ++ k)).

(** The key added after the rate, the state permuted, and the last words of the sum with
    the key are the tag. *)
Definition spec_tag (v : variant) (k : list Z) (s : ascon_state_t) : list Z :=
  let rate := 8 * Z.of_nat (v_rate v) in
  let s := P12 (xor_state s (state_of (zeros rate ++ k ++ zeros (40 - rate - v_keylen v)))) in
  let s := xor_state s (state_of (zeros (40 - v_keylen v) ++ k)) in
  bytes_of (x s 3) 8 ++ bytes_of (x s 4) 8.

Definition spec_adata (v : variant) (ad : list Z) (s : ascon_state_t) : ascon_state_t :=
  let s := if decide (ad = []) then s else v_pb v (snd (duplex (v_rate v) (v_pb v) Absorb 0 s ad)) in
  xor_x 4 1 s.

(** The output and the tag. *)
Definition spec_aead (v : variant) (mode : amode) (k npub ad msg : list Z) : list Z * list Z :=
  let s := spec_adata v ad (spec_init v k npub) in
  let '(out, s) := duplex (v_rate v) (v_pb v) mode 0 s msg in
  (out, spec_tag v k s).

Lemma v_rate_range v : (0 < v_rate v < 5)%nat.
Proof. destruct v; simpl; lia. Qed.

Lemma v_pb_ok v s : state_ok s -> state_ok (v_pb v s).
Proof. destruct v; simpl; auto with word. Qed.
#[export] Hint Resolve v_rate_range v_pb_ok : word.

Lemma zeros_ok n : bytes_ok (zeros n).
Proof. apply Forall_replicate. unfold byte_ok. lia. Qed.

Lemma state_of_ok l : bytes_ok l -> state_ok (state_of l).
Proof.
  intros Hl. assert (forall p, in_u 64 (word_of (ztake 8 (zdrop p l)))) as H.
  { intros p. apply word_of_in_u; [auto with infuse|]. unfold zlen, ztake. rewrite length_take. lia. }
  intros [|[|[|[|]]]]; apply H || exact (H 0).
Qed.

Lemma xor_state_ok s t : state_ok s -> state_ok t -> state_ok (xor_state s t).
Proof.
  intros Hs Ht i. specialize (Hs i). specialize (Ht i).
  destruct i as [|[|[|[|]]]]; apply in_u_lxor; done || lia.
Qed.

Lemma spec_init_ok v k npub : bytes_ok k -> bytes_ok npub -> state_ok (spec_init v k npub).
Proof.
  intros Hk Hn. apply xor_state_ok; [apply P12_ok|]; apply state_of_ok; rewrite !bytes_ok_app;
    split_and?; try done; [|apply zeros_ok].
  destruct v; repeat constructor; unfold byte_ok; simpl; lia.
Qed.

Lemma spec_adata_ok v ad s : state_ok s -> bytes_ok ad -> state_ok (spec_adata v ad s).
Proof.
  intros Hs Ha. apply state_ok_xor; [|unfold in_u; lia]. case_decide; [done|].
  apply v_pb_ok, duplex_ok; eauto with word. pose proof (v_rate_range v). lia.
Qed.

Lemma spec_aead_out v mode k npub ad msg : zlen (fst (spec_aead v mode k npub ad msg)) = zlen msg.
Proof.
  unfold spec_aead. pose proof (duplex_out (v_rate v) (v_pb v) mode 0
    (spec_adata v ad (spec_init v k npub)) msg) as H.
  destruct (duplex _ _ _ _ _ _). unfold zlen. cbn [fst] in *. by rewrite H.
Qed.

Lemma spec_aead_bytes v mode k npub ad msg : bytes_ok (fst (spec_aead v mode k npub ad msg)).
Proof.
  unfold spec_aead. pose proof (duplex_bytes (v_rate v) (v_pb v) mode 0
    (spec_adata v ad (spec_init v k npub)) msg) as H.
  by destruct (duplex _ _ _ _ _ _).
Qed.

Lemma spec_aead_tag v mode k npub ad msg :
  zlen (snd (spec_aead v mode k npub ad msg)) = 16 /\ bytes_ok (snd (spec_aead v mode k npub ad msg)).
Proof.
  unfold spec_aead. destruct (duplex _ _ _ _ _ _). cbn [snd]. unfold spec_tag. split.
  - by rewrite zlen_app, !zlen_bytes_of.
  - apply bytes_ok_app. split; apply bytes_of_ok.
Qed.

(** Decryption takes back what encryption produced, with the same tag, and every
    ciphertext is the encryption of what it decrypts to. *)
Lemma spec_aead_inverse v k npub ad msg :
  bytes_ok k -> bytes_ok npub -> bytes_ok ad -> bytes_ok msg ->
  spec_aead v Decrypt k npub ad (fst (spec_aead v Encrypt k npub ad msg)) =
    (msg, snd (spec_aead v Encrypt k npub ad msg)) /\
  spec_aead v Encrypt k npub ad (fst (spec_aead v Decrypt k npub ad msg)) =
    (msg, snd (spec_aead v Decrypt k npub ad msg)).
Proof.
  intros Hk Hn Ha Hm. unfold spec_aead. set (s := spec_adata v ad (spec_init v k npub)).
  assert (state_ok s) as Hs by (apply spec_adata_ok; [apply spec_init_ok|]; done).
  pose proof (v_rate_range v) as Hr.
  pose proof (duplex_decrypt_encrypt (v_rate v) (v_pb v) Hr (v_pb_ok v) 0 s msg Hs Hm ltac:(lia)) as H1.
  pose proof (duplex_encrypt_decrypt (v_rate v) (v_pb v) Hr (v_pb_ok v) 0 s msg Hs Hm ltac:(lia)) as H2.
  destruct (duplex _ _ Encrypt 0 s msg), (duplex _ _ Decrypt 0 s msg). cbn [fst snd] in *.
  by rewrite H1, H2.
Qed.
