(* ===== verification/AsconRefine.v ===== *)
(** * The reference implementation of Ascon refines its specification

    Every loop of [ref/aead.c] is a run of the duplex of [AsconSpec] over the words of its
    buffer; from this, [crypto_aead_encrypt] and [crypto_aead_decrypt] of the three schemes
    return, without an access outside the caller's buffers, the output and the tag of
    [spec_aead]. *)

From stdpp Require Import base tactics numbers list.
From Stdlib Require Import ZArith Lia Btauto.
From S2P Require Import Prelude AsconWord Ascon AsconSpec.

Local Open Scope Z_scope.
Local Open Scope infuse_scope.

(** Conversion unfolds the permutations last. *)
Local Strategy 500 [x set_x xor_x].
Local Strategy 1000 [P12 P8 P6 ROUND].

(** ** Slices of a buffer *)

Definition slice (l : list Z) (p n : Z) : list Z := ztake n (zdrop p l).

Lemma zlen_slice l p n : 0 <= p -> 0 <= n -> p + n <= zlen l -> zlen (slice l p n) = n.
Proof. intros. unfold slice. rewrite zlen_ztake; [done|]. rewrite zlen_zdrop by lia. lia. Qed.

Lemma length_slice l p n : 0 <= p -> 0 <= n -> p + n <= zlen l -> length (slice l p n) = Z.to_nat n.
Proof. intros. pose proof (zlen_slice l p n). unfold zlen in *. lia. Qed.

Lemma slice_ok l p n : bytes_ok l -> bytes_ok (slice l p n).
Proof. unfold slice. auto with infuse. Qed.

Lemma slice_split l p n a :
  0 <= p -> 0 <= a <= n -> p + n <= zlen l ->
  slice l p n = slice l p a ++ slice l (p + a) (n - a).
Proof.
  intros. unfold slice. rewrite <- (ztake_zdrop a (ztake n (zdrop p l))) at 1.
  rewrite ztake_ztake, zdrop_ztake, zdrop_zdrop by lia. by rewrite Z.min_l by lia.
Qed.

Lemma slice_0 l n : slice l 0 n = ztake n l.
Proof. unfold slice. by rewrite zdrop_0 by lia. Qed.

Lemma LOADBYTES_slice buf p n :
  bytes_ok buf -> 0 <= p -> 0 <= n <= 8 -> p + n <= zlen buf ->
  LOADBYTES buf p n = Done (word_of (slice buf p n)).
Proof. apply LOADBYTES_spec. Qed.

Lemma slice_word_in_u buf p n :
  bytes_ok buf -> 0 <= p -> 0 <= n <= 8 -> p + n <= zlen buf -> in_u 64 (word_of (slice buf p n)).
Proof. intros. apply word_of_in_u; [by apply slice_ok|]. rewrite zlen_slice; lia. Qed.

(** ** Runs of the duplex over a buffer *)

Section blocks.
Context (rate : nat) (pb : ascon_state_t -> ascon_state_t) (mode : amode) (inb : list Z).

(** A loop over the full blocks of [len] bytes at [p]: it writes the output of the blocks
    at [p] of [outb] and leaves less than a block. *)
Definition blocks_ok (outb : list Z) (p len : Z) (s : ascon_state_t)
  (res : exec (list Z * Z * Z * ascon_state_t)) : Prop :=
  exists o p' r s',
    res = Done (zwrite p o outb, p', r, s') /\ 0 <= r < 8 * Z.of_nat rate /\
    p' = p + zlen o /\ p' + r = p + len /\ state_ok s' /\
    duplex rate pb mode 0 s (slice inb p len) =
    (let '(o2, sf) := duplex rate pb mode 0 s' (slice inb p' r) in (o ++ o2, sf)).

Lemma blocks_ok_done outb p len s :
  0 <= p -> p + len <= zlen outb -> 0 <= len < 8 * Z.of_nat rate -> state_ok s ->
  blocks_ok outb p len s (Done (outb, p, len, s)).
Proof.
  intros. exists [], p, len, s. split_and!; try done; try lia.
  - by rewrite zwrite_nil.
  - rewrite zlen_nil. lia.
  - by destruct (duplex _ _ _ _ _ _).
Qed.

Lemma blocks_ok_step outb p len s b s1 res :
  0 <= p -> zlen b <= len -> p + len <= zlen outb ->
  duplex rate pb mode 0 s (slice inb p len) =
    (let '(o, sf) := duplex rate pb mode 0 s1 (slice inb (p + zlen b) (len - zlen b)) in
     (b ++ o, sf)) ->
  blocks_ok (zwrite p b outb) (p + zlen b) (len - zlen b) s1 res ->
  blocks_ok outb p len s res.
Proof.
  intros Hp Hb Hlen Hd (o & p' & r & s' & -> & Hr & Hp' & Hpr & Hs' & Hd').
  exists (b ++ o), p', r, s'. pose proof (zlen_nonneg b). split_and!; try done; try lia.
  - rewrite zwrite_zwrite_next by lia. done.
  - rewrite zlen_app. lia.
  - rewrite Hd, Hd'. destruct (duplex rate pb mode 0 s' (slice inb p' r)). cbv beta iota. by rewrite <- app_assoc.
Qed.

(** The same for associated data, without output. *)
Definition absorb_ok (p len : Z) (s : ascon_state_t) (res : exec (Z * Z * ascon_state_t)) : Prop :=
  exists p' r s',
    res = Done (p', r, s') /\ 0 <= r < 8 * Z.of_nat rate /\
    p <= p' /\ p' + r = p + len /\ state_ok s' /\
    snd (duplex rate pb mode 0 s (slice inb p len)) =
    snd (duplex rate pb mode 0 s' (slice inb p' r)).

Lemma absorb_ok_done p len s :
  0 <= len < 8 * Z.of_nat rate -> state_ok s -> absorb_ok p len s (Done (p, len, s)).
Proof. intros. exists p, len, s. split_and!; try done; lia. Qed.

Lemma absorb_ok_step p len s k s1 res :
  0 <= k ->
  snd (duplex rate pb mode 0 s (slice inb p len)) =
  snd (duplex rate pb mode 0 s1 (slice inb (p + k) (len - k))) ->
  absorb_ok (p + k) (len - k) s1 res -> absorb_ok p len s res.
Proof.
  intros Hk Hd (p' & r & s' & -> & Hr & Hp' & Hpr & Hs' & Hd').
  exists p', r, s'. split_and!; try done; try lia. by rewrite Hd.
Qed.
End blocks.

(** One block of one and of two words. *)
Definition put (mode : amode) (i : nat) (w : Z) (s : ascon_state_t) : ascon_state_t :=
  set_x i (if decide (mode = Decrypt) then w else Z.lxor (x s i) w) s.

Lemma put_ok mode i w s : state_ok s -> in_u 64 w -> state_ok (put mode i w s).
Proof.
  intros. apply state_ok_set; [done|]. case_decide; [done|]. apply in_u_lxor; [lia|auto|done].
Qed.

Section block.
Context (pb : ascon_state_t -> ascon_state_t) (mode : amode) (inb : list Z) (p len : Z).
Context (Hp : 0 <= p) (Hlen : p + len <= zlen inb).

Lemma duplex_block1 s :
  8 <= len ->
  duplex 1 pb mode 0 s (slice inb p len) =
  let w := word_of (slice inb p 8) in
  let '(o, sf) := duplex 1 pb mode 0 (pb (put mode 0 w s)) (slice inb (p + 8) (len - 8)) in
  (bytes_of (Z.lxor (x s 0) w) 8 ++ o, sf).
Proof.
  intros H8. rewrite (slice_split inb p len 8) by lia.
  rewrite duplex_full by (rewrite length_slice by lia; done).
  unfold full_word. by rewrite decide_True by done.
Qed.

Lemma duplex_block2 s :
  16 <= len ->
  duplex 2 pb mode 0 s (slice inb p len) =
  let w0 := word_of (slice inb p 8) in
  let w1 := word_of (slice inb (p + 8) 8) in
  let '(o, sf) := duplex 2 pb mode 0 (pb (put mode 1 w1 (put mode 0 w0 s)))
                    (slice inb (p + 16) (len - 16)) in
  ((bytes_of (Z.lxor (x s 0) w0) 8 ++ bytes_of (Z.lxor (x s 1) w1) 8) ++ o, sf).
Proof.
  intros H16. rewrite (slice_split inb p len 8), (slice_split inb (p + 8) (len - 8) 8) by lia.
  rewrite !duplex_full by (rewrite length_slice by lia; done).
  unfold full_word at 1. rewrite decide_False by lia. rewrite duplex_full by (rewrite length_slice by lia; done).
  unfold full_word at 1. rewrite decide_True by done.
  replace (p + 8 + 8) with (p + 16) by lia. replace (len - 8 - 8) with (len - 16) by lia.
  fold (put mode 0 (word_of (slice inb p 8)) s).
  set (s1 := put mode 0 (word_of (slice inb p 8)) s).
  fold (put mode 1 (word_of (slice inb (p + 8) 8)) s1).
  destruct (duplex _ _ _ _ _ _). cbv beta iota. by rewrite <- app_assoc.
Qed.

(** A last block of one word and its second half when the rate is two words. *)
Lemma duplex_tail i rate s :
  0 <= len < 8 ->
  duplex rate pb mode i s (slice inb p len) =
  let '(y, s) := last_word mode i (word_of (slice inb p len)) (Z.to_nat len) s in
  (bytes_of y (Z.to_nat len), s).
Proof. intros. rewrite duplex_last; rewrite length_slice by lia; [done|lia]. Qed.

Lemma duplex_tail2 s :
  8 <= len < 16 ->
  duplex 2 pb mode 0 s (slice inb p len) =
  let w0 := word_of (slice inb p 8) in
  let '(y, sf) := last_word mode 1 (word_of (slice inb (p + 8) (len - 8))) (Z.to_nat (len - 8))
                    (put mode 0 w0 s) in
  (bytes_of (Z.lxor (x s 0) w0) 8 ++ bytes_of y (Z.to_nat (len - 8)), sf).
Proof.
  intros H. rewrite (slice_split inb p len 8) by lia.
  rewrite duplex_full by (rewrite length_slice by lia; done).
  unfold full_word. rewrite decide_False by lia. fold (put mode 0 (word_of (slice inb p 8)) s).
  rewrite duplex_last; rewrite length_slice by lia; [|lia].
  by destruct (last_word _ _ _ _ _).
Qed.
End block.

(** ** Ascon-128 and Ascon-80pq *)

Lemma put_enc mode i w s : mode <> Decrypt -> put mode i w s = xor_x i w s.
Proof. intros. unfold put. by rewrite decide_False by done. Qed.

Lemma put_dec i w s : put Decrypt i w s = set_x i w s.
Proof. done. Qed.

(** The length of a buffer after stores inside it. *)
Ltac zlen_stores :=
  first [ lia
        | rewrite zlen_zwrite by (rewrite ?zlen_bytes_of; zlen_stores); zlen_stores ].

(** Runs the loads and stores of the goal. *)
Ltac run_word :=
  repeat first
    [ rewrite LOADBYTES_slice by (done || lia)
    | rewrite STOREBYTES_spec by zlen_stores
    | progress cbn [exec_bind]
    | progress change (Z.to_nat 8) with 8%nat ].

Section rate1.
Context (outb inb : list Z) (Hin : bytes_ok inb).

Lemma ad_blocks_128 fuel p len s :
  0 <= p -> 0 <= len -> p + len <= zlen inb -> (Z.to_nat len <= fuel)%nat -> state_ok s ->
  absorb_ok 1 P6 Absorb inb p len s (Ascon128.ad_blocks fuel inb p len s).
Proof using Hin.
  revert p len s. induction fuel as [|fuel IH]; intros p len s Hp Hl Hpl Hf Hs;
    cbn [Ascon128.ad_blocks]; unfold ASCON_128_RATE; destruct (Z.leb_spec 8 len); try lia;
    try (apply absorb_ok_done; [lia|done]).
  run_word. apply (absorb_ok_step _ _ _ _ _ _ _ 8 (P6 (xor_x 0 (word_of (slice inb p 8)) s))); [lia| |].
  - rewrite duplex_block1 by lia. cbv zeta. rewrite put_enc by done. by destruct (duplex _ _ _ _ (P6 _) _).
  - apply IH; try lia. apply P6_ok, state_ok_xor; [done|]. apply slice_word_in_u; (done || lia).
Qed.

Lemma pt_blocks_128 fuel out p len s :
  0 <= p -> 0 <= len -> p + len <= zlen inb -> p + len <= zlen out ->
  (Z.to_nat len <= fuel)%nat -> state_ok s ->
  blocks_ok 1 P6 Encrypt inb out p len s (Ascon128.pt_blocks fuel out inb p len s).
Proof using Hin.
  revert out p len s. induction fuel as [|fuel IH]; intros out p len s Hp Hl Hpl Hpo Hf Hs;
    cbn [Ascon128.pt_blocks]; unfold ASCON_128_RATE; destruct (Z.leb_spec 8 len); try lia;
    try (apply blocks_ok_done; done || lia).
  run_word. cbv zeta. set (w := word_of (slice inb p 8)).
  change (x (xor_x 0 w s) 0) with (Z.lxor (x s 0) w).
  pose proof (zlen_bytes_of (Z.lxor (x s 0) w) 8) as Hb.
  apply (blocks_ok_step _ _ _ _ _ _ _ _ (bytes_of (Z.lxor (x s 0) w) 8) (P6 (xor_x 0 w s))); try lia.
  - rewrite duplex_block1 by lia. cbv zeta. rewrite put_enc, Hb by done. done.
  - rewrite Hb. apply IH; rewrite ?zlen_zwrite by lia; try lia.
    apply P6_ok, state_ok_xor; [done|]. apply slice_word_in_u; (done || lia).
Qed.

Lemma ct_blocks_128 fuel out p len s :
  0 <= p -> 0 <= len -> p + len <= zlen inb -> p + len <= zlen out ->
  (Z.to_nat len <= fuel)%nat -> state_ok s ->
  blocks_ok 1 P6 Decrypt inb out p len s (Ascon128.ct_blocks fuel out inb p len s).
Proof using Hin.
  revert out p len s. induction fuel as [|fuel IH]; intros out p len s Hp Hl Hpl Hpo Hf Hs;
    cbn [Ascon128.ct_blocks]; unfold ASCON_128_RATE; destruct (Z.leb_spec 8 len); try lia;
    try (apply blocks_ok_done; done || lia).
  run_word. cbv zeta. set (w := word_of (slice inb p 8)).
  pose proof (zlen_bytes_of (Z.lxor (x s 0) w) 8) as Hb.
  apply (blocks_ok_step _ _ _ _ _ _ _ _ (bytes_of (Z.lxor (x s 0) w) 8) (P6 (set_x 0 w s))); try lia.
  - rewrite duplex_block1 by lia. cbv zeta. rewrite put_dec, Hb. done.
  - rewrite Hb. apply IH; rewrite ?zlen_zwrite by lia; try lia.
    apply P6_ok, state_ok_set; [done|]. apply slice_word_in_u; (done || lia).
Qed.
End rate1.

(** What a processing of the text [l] does. *)
Definition text_ok (v : variant) (mode : amode) (outb l : list Z) (s : ascon_state_t)
  (res : exec (list Z * ascon_state_t)) : Prop :=
  let '(o, s') := duplex (v_rate v) (v_pb v) mode 0 s l in
  res = Done (zwrite 0 o outb, s').

(** The blocks of a loop, followed by its last block. *)
Lemma text_ok_tail v mode outb inb len s o p r s' y sf :
  0 <= p -> p = zlen o -> p + zlen y <= zlen outb ->
  duplex (v_rate v) (v_pb v) mode 0 s (slice inb 0 len) =
    (let '(o2, sf) := duplex (v_rate v) (v_pb v) mode 0 s' (slice inb p r) in (o ++ o2, sf)) ->
  duplex (v_rate v) (v_pb v) mode 0 s' (slice inb p r) = (y, sf) ->
  text_ok v mode outb (ztake len inb) s (Done (zwrite p y (zwrite 0 o outb), sf)).
Proof.
  intros Hp Ho Hl E1 E2. unfold text_ok. rewrite <- slice_0, E1, E2.
  rewrite <- (Z.add_0_l p), Ho. rewrite zwrite_zwrite_next by lia. done.
Qed.

Ltac run_tail :=
  rewrite LOADBYTES_slice by (done || lia); cbn [exec_bind];
  rewrite STOREBYTES_spec by zlen_stores; cbn [exec_bind].

Section rate1_text.
Context (outb inb : list Z) (len : Z) (s : ascon_state_t).
Context (Hin : bytes_ok inb) (Hs : state_ok s).
Context (Hlen : 0 <= len <= zlen inb).

Lemma adata_128 v : v_rate v = 1%nat -> v_pb v = P6 ->
  Ascon128.adata inb len s = Done (spec_adata v (ztake len inb) s).
Proof using Hin Hs Hlen.
  intros Er Ep. unfold Ascon128.adata, spec_adata. destruct (Z.eqb_spec len 0) as [->|].
  { by rewrite decide_True. }
  rewrite decide_False by (intros E; apply (f_equal zlen) in E; rewrite zlen_ztake in E; [done|lia]).
  destruct (ad_blocks_128 inb Hin (Z.to_nat len) 0 len s) as (p & r & s' & -> & Hr & Hp & Hpr & Hs' & E);
    try done; try lia.
  cbn [exec_bind]. rewrite LOADBYTES_slice by (done || lia). cbn [exec_bind].
  rewrite Er, Ep, <- slice_0, E, duplex_tail by lia. cbn [snd last_word].
  rewrite decide_False by done. by rewrite Z2Nat.id by lia.
Qed.

Context (Hout : len <= zlen outb).

Lemma plaintext_128 v : v_rate v = 1%nat -> v_pb v = P6 ->
  text_ok v Encrypt outb (ztake len inb) s (Ascon128.plaintext outb inb len s).
Proof using Hin Hs Hlen Hout.
  intros Er Ep. unfold Ascon128.plaintext.
  destruct (pt_blocks_128 inb Hin (Z.to_nat len) outb 0 len s)
    as (o & p & r & s' & -> & Hr & Hp & Hpr & Hs' & E); try done; try lia.
  pose proof (zlen_nonneg o). cbn [exec_bind]. run_tail.
  eapply text_ok_tail; try done; try (rewrite ?zlen_bytes_of; lia); rewrite Er, Ep; [exact E|].
  rewrite duplex_tail by lia. cbn [last_word]. rewrite decide_False by done.
  by rewrite Z2Nat.id by lia.
Qed.

Lemma ciphertext_128 v : v_rate v = 1%nat -> v_pb v = P6 ->
  text_ok v Decrypt outb (ztake len inb) s (Ascon128.ciphertext outb inb len s).
Proof using Hin Hs Hlen Hout.
  intros Er Ep. unfold Ascon128.ciphertext.
  destruct (ct_blocks_128 inb Hin (Z.to_nat len) outb 0 len s)
    as (o & p & r & s' & -> & Hr & Hp & Hpr & Hs' & E); try done; try lia.
  pose proof (zlen_nonneg o). cbn [exec_bind]. run_tail.
  rewrite CLEARBYTES_spec by (try apply Hs'; lia). cbn [exec_bind].
  eapply text_ok_tail; try done; try (rewrite ?zlen_bytes_of; lia); rewrite Er, Ep; [exact E|].
  rewrite duplex_tail by lia. cbn [last_word]. rewrite decide_True by done.
  by rewrite Z2Nat.id by lia.
Qed.
End rate1_text.

(** ** Ascon-128a *)

(** Two consecutive words of output. *)
Lemma zwrite_word_next off a b n l :
  0 <= off -> off + 8 + Z.of_nat n <= zlen l ->
  zwrite (off + 8) (bytes_of b n) (zwrite off (bytes_of a 8) l) =
  zwrite off (bytes_of a 8 ++ bytes_of b n) l.
Proof.
  intros. change 8 with (Z.of_nat 8) at 1. rewrite <- (zlen_bytes_of a 8).
  apply zwrite_zwrite_next; rewrite ?zlen_bytes_of; lia.
Qed.

Section rate2.
Context (inb : list Z) (Hin : bytes_ok inb).

Lemma ad_blocks_128a fuel p len s :
  0 <= p -> 0 <= len -> p + len <= zlen inb -> (Z.to_nat len <= fuel)%nat -> state_ok s ->
  absorb_ok 2 P8 Absorb inb p len s (Ascon128a.ad_blocks fuel inb p len s).
Proof using Hin.
  revert p len s. induction fuel as [|fuel IH]; intros p len s Hp Hl Hpl Hf Hs;
    cbn [Ascon128a.ad_blocks]; unfold ASCON_128A_RATE; destruct (Z.leb_spec 16 len); try lia;
    try (apply absorb_ok_done; [lia|done]).
  run_word. set (w0 := word_of (slice inb p 8)). set (w1 := word_of (slice inb (p + 8) 8)).
  apply (absorb_ok_step _ _ _ _ _ _ _ 16 (P8 (xor_x 1 w1 (xor_x 0 w0 s)))); [lia| |].
  - rewrite duplex_block2 by lia. cbv zeta. rewrite !put_enc by done. by destruct (duplex _ _ _ _ (P8 _) _).
  - apply IH; try lia. apply P8_ok.
    repeat apply state_ok_xor; [done|..]; apply slice_word_in_u; (done || lia).
Qed.

Lemma pt_blocks_128a fuel out p len s :
  0 <= p -> 0 <= len -> p + len <= zlen inb -> p + len <= zlen out ->
  (Z.to_nat len <= fuel)%nat -> state_ok s ->
  blocks_ok 2 P8 Encrypt inb out p len s (Ascon128a.pt_blocks fuel out inb p len s).
Proof using Hin.
  revert out p len s. induction fuel as [|fuel IH]; intros out p len s Hp Hl Hpl Hpo Hf Hs;
    cbn [Ascon128a.pt_blocks]; unfold ASCON_128A_RATE; destruct (Z.leb_spec 16 len); try lia;
    try (apply blocks_ok_done; done || lia).
  run_word. cbv zeta. set (w0 := word_of (slice inb p 8)). set (w1 := word_of (slice inb (p + 8) 8)).
  change (x (xor_x 1 w1 (xor_x 0 w0 s)) 0) with (Z.lxor (x s 0) w0).
  change (x (xor_x 1 w1 (xor_x 0 w0 s)) 1) with (Z.lxor (x s 1) w1).
  rewrite zwrite_word_next by lia.
  set (b0 := bytes_of (Z.lxor (x s 0) w0) 8). set (b1 := bytes_of (Z.lxor (x s 1) w1) 8).
  assert (zlen (b0 ++ b1) = 16) as Hb by (rewrite zlen_app; unfold b0, b1; by rewrite !zlen_bytes_of).
  apply (blocks_ok_step _ _ _ _ _ _ _ _ (b0 ++ b1) (P8 (xor_x 1 w1 (xor_x 0 w0 s)))); try lia.
  - rewrite duplex_block2 by lia. cbv zeta. rewrite !put_enc by done. by rewrite Hb.
  - rewrite Hb. apply IH; rewrite ?zlen_zwrite by lia; try lia. apply P8_ok.
    repeat apply state_ok_xor; [done|..]; apply slice_word_in_u; (done || lia).
Qed.

Lemma ct_blocks_128a fuel out p len s :
  0 <= p -> 0 <= len -> p + len <= zlen inb -> p + len <= zlen out ->
  (Z.to_nat len <= fuel)%nat -> state_ok s ->
  blocks_ok 2 P8 Decrypt inb out p len s (Ascon128a.ct_blocks fuel out inb p len s).
Proof using Hin.
  revert out p len s. induction fuel as [|fuel IH]; intros out p len s Hp Hl Hpl Hpo Hf Hs;
    cbn [Ascon128a.ct_blocks]; unfold ASCON_128A_RATE; destruct (Z.leb_spec 16 len); try lia;
    try (apply blocks_ok_done; done || lia).
  run_word. cbv zeta. set (w0 := word_of (slice inb p 8)). set (w1 := word_of (slice inb (p + 8) 8)).
  rewrite zwrite_word_next by lia.
  set (b0 := bytes_of (Z.lxor (x s 0) w0) 8). set (b1 := bytes_of (Z.lxor (x s 1) w1) 8).
  assert (zlen (b0 ++ b1) = 16) as Hb by (rewrite zlen_app; unfold b0, b1; by rewrite !zlen_bytes_of).
  apply (blocks_ok_step _ _ _ _ _ _ _ _ (b0 ++ b1) (P8 (set_x 1 w1 (set_x 0 w0 s)))); try lia.
  - rewrite duplex_block2 by lia. cbv zeta. rewrite !put_dec. by rewrite Hb.
  - rewrite Hb. apply IH; rewrite ?zlen_zwrite by lia; try lia. apply P8_ok.
    repeat apply state_ok_set; try done; apply slice_word_in_u; (done || lia).
Qed.
End rate2.

Section rate2_text.
Context (outb inb : list Z) (len : Z) (s : ascon_state_t).
Context (Hin : bytes_ok inb) (Hs : state_ok s).
Context (Hlen : 0 <= len <= zlen inb).

Lemma adata_128a : Ascon128a.adata inb len s = Done (spec_adata V128a (ztake len inb) s).
Proof using Hin Hs Hlen.
  unfold Ascon128a.adata, spec_adata. destruct (Z.eqb_spec len 0) as [->|].
  { by rewrite decide_True. }
  rewrite decide_False by (intros E; apply (f_equal zlen) in E; rewrite zlen_ztake in E; [done|lia]).
  destruct (ad_blocks_128a inb Hin (Z.to_nat len) 0 len s) as (p & r & s' & -> & Hr & Hp & Hpr & Hs' & E);
    try done; try lia.
  cbn [exec_bind v_rate v_pb]. rewrite <- slice_0, E. destruct (Z.leb_spec 8 r); run_word.
  - rewrite duplex_tail2 by lia. cbv zeta. cbn [snd last_word]. rewrite decide_False, put_enc by done.
    by rewrite Z2Nat.id by lia.
  - rewrite duplex_tail by lia. cbn [snd last_word]. rewrite decide_False by done.
    by rewrite Z2Nat.id by lia.
Qed.

Context (Hout : len <= zlen outb).

Lemma plaintext_128a :
  text_ok V128a Encrypt outb (ztake len inb) s (Ascon128a.plaintext outb inb len s).
Proof using Hin Hs Hlen Hout.
  unfold Ascon128a.plaintext.
  destruct (pt_blocks_128a inb Hin (Z.to_nat len) outb 0 len s)
    as (o & p & r & s' & -> & Hr & Hp & Hpr & Hs' & E); try done; try lia.
  pose proof (zlen_nonneg o). cbn [exec_bind]. destruct (Z.leb_spec 8 r); run_word.
  - set (w0 := word_of (slice inb p 8)). set (w1 := word_of (slice inb (p + 8) (r - 8))).
    rewrite zwrite_word_next by (rewrite ?zlen_zwrite by lia; lia).
    eapply text_ok_tail; try done; try (rewrite ?zlen_app, ?zlen_bytes_of; lia).
    rewrite duplex_tail2 by lia. cbv zeta. cbn [last_word]. rewrite decide_False, put_enc by done.
    by rewrite Z2Nat.id by lia.
  - eapply text_ok_tail; try done; try (rewrite ?zlen_bytes_of; lia).
    rewrite duplex_tail by lia. cbn [last_word]. rewrite decide_False by done.
    by rewrite Z2Nat.id by lia.
Qed.

Lemma ciphertext_128a :
  text_ok V128a Decrypt outb (ztake len inb) s (Ascon128a.ciphertext outb inb len s).
Proof using Hin Hs Hlen Hout.
  unfold Ascon128a.ciphertext.
  destruct (ct_blocks_128a inb Hin (Z.to_nat len) outb 0 len s)
    as (o & p & r & s' & -> & Hr & Hp & Hpr & Hs' & E); try done; try lia.
  pose proof (zlen_nonneg o). cbn [exec_bind]. destruct (Z.leb_spec 8 r); run_word.
  - set (w0 := word_of (slice inb p 8)). set (w1 := word_of (slice inb (p + 8) (r - 8))).
    rewrite CLEARBYTES_spec by (try apply (Hs' 1%nat); lia). cbn [exec_bind].
    rewrite zwrite_word_next by (rewrite ?zlen_zwrite by lia; lia).
    eapply text_ok_tail; try done; try (rewrite ?zlen_app, ?zlen_bytes_of; lia).
    rewrite duplex_tail2 by lia. cbv zeta. cbn [last_word]. rewrite decide_True, put_dec by done.
    by rewrite Z2Nat.id by lia.
  - rewrite CLEARBYTES_spec by (try apply Hs'; lia). cbn [exec_bind].
    eapply text_ok_tail; try done; try (rewrite ?zlen_bytes_of; lia).
    rewrite duplex_tail by lia. cbn [last_word]. rewrite decide_True by done.
    by rewrite Z2Nat.id by lia.
Qed.
End rate2_text.

(** ** Keys, nonces and tags *)

Lemma state_of_words a b c d e :
  zlen a = 8 -> zlen b = 8 -> zlen c = 8 -> zlen d = 8 -> zlen e = 8 ->
  state_of (a ++ b ++ c ++ d ++ e) =
  {| sx0 := word_of a; sx1 := word_of b; sx2 := word_of c; sx3 := word_of d; sx4 := word_of e |}.
Proof.
  intros Ha Hb Hc Hd He. unfold state_of. f_equal; f_equal.
  - by rewrite ztake_app by lia.
  - rewrite zdrop_app by lia. by rewrite ztake_app by lia.
  - replace 16 with (8 + 8) by lia. rewrite <- zdrop_zdrop, !zdrop_app by lia. by rewrite ztake_app by lia.
  - replace 24 with (8 + (8 + 8)) by lia. rewrite <- !zdrop_zdrop, !zdrop_app by lia.
    by rewrite ztake_app by lia.
  - replace 32 with (8 + (8 + (8 + 8))) by lia. rewrite <- !zdrop_zdrop, !zdrop_app by lia.
    by rewrite ztake_ge by lia.
Qed.

Lemma slice_app_l (a b : list Z) n : n = zlen a -> slice (a ++ b) 0 n = a.
Proof. intros ->. rewrite slice_0. by apply ztake_app. Qed.

Lemma slice_app_r a b p n : p = zlen a -> n = zlen b -> slice (a ++ b) p n = b.
Proof. intros -> ->. unfold slice. rewrite zdrop_app by done. by apply ztake_ge. Qed.

Lemma slice_app_r' a b p n : zlen a <= p -> slice (a ++ b) p n = slice b (p - zlen a) n.
Proof. intros. unfold slice. by rewrite zdrop_app_ge by lia. Qed.

(** A list in parts of given lengths. *)
Lemma parts (l : list Z) n : 0 <= n <= zlen l -> exists a b, l = a ++ b /\ zlen a = n /\ zlen b = zlen l - n.
Proof. intros. exists (ztake n l), (zdrop n l). rewrite ztake_zdrop, zlen_ztake, zlen_zdrop by lia. done. Qed.

Lemma word_of_zeros n : 0 <= n <= 8 -> word_of (zeros n) = 0.
Proof.
  intros. assert (n = 0 \/ n = 1 \/ n = 2 \/ n = 3 \/ n = 4 \/ n = 5 \/ n = 6 \/ n = 7 \/ n = 8) as Hn by lia.
  by repeat destruct Hn as [->|Hn]; [..|subst].
Qed.

Section half_words.
Context (a b : list Z).
Context (Ha : zlen a = 4) (Hb : zlen b = 4) (Hao : bytes_ok a) (Hbo : bytes_ok b).

Lemma half_range l : zlen l = 4 -> bytes_ok l -> 0 <= le_get (reverse l) < 2 ^ 32.
Proof using Type.
  intros Hl Ho. pose proof (le_get_bound (reverse l)) as H. unfold zlen in *.
  rewrite length_reverse, Hl in H. apply H. by apply Forall_reverse.
Qed.

Lemma word_of_half l : zlen l = 4 -> word_of l = Z.shiftl (le_get (reverse l)) 32.
Proof using Type. intros Hl. unfold word_of. rewrite Hl, Z.shiftl_mul_pow2 by lia. done. Qed.

Lemma shiftr_half l : zlen l = 4 -> Z.shiftr (word_of l) 32 = le_get (reverse l).
Proof using Type.
  intros Hl. rewrite word_of_half by done. rewrite Z.shiftr_shiftl_l by lia. apply Z.shiftl_0_r.
Qed.

Lemma word_of_halves :
  word_of (a ++ b) = Z.lor (Z.shiftl (le_get (reverse a)) 32) (le_get (reverse b)).
Proof using All.
  pose proof (half_range b Hb Hbo). rewrite lor_shiftl_add by lia.
  unfold word_of. rewrite reverse_app, zlen_app, Ha, Hb. change (64 - 8 * (4 + 4)) with 0.
  assert (forall l k, le_get (l ++ k) = le_get l + 2 ^ (8 * zlen l) * le_get k) as Happ.
  { intros l k. induction l as [|c l IH]; [change (2 ^ (8 * zlen [])) with 1; cbn [app le_get]; lia|].
    cbn [app le_get]. rewrite IH, zlen_cons. replace (8 * (1 + zlen l)) with (8 + 8 * zlen l) by lia.
    rewrite Z.pow_add_r by (pose proof (zlen_nonneg l); lia). change (2 ^ 8) with 256. lia. }
  rewrite Happ. unfold zlen. rewrite length_reverse. fold (zlen b). rewrite Hb. lia.
Qed.

Lemma shiftr_halves : Z.shiftr (word_of (a ++ b)) 32 = le_get (reverse a).
Proof using All.
  rewrite word_of_halves. pose proof (half_range b Hb Hbo). rewrite lor_shiftl_add by lia.
  rewrite Z.shiftr_div_pow2, Z.div_add_l, Z.div_small by lia. lia.
Qed.

Lemma shiftl_halves : u64 (Z.shiftl (word_of (a ++ b)) 32) = Z.shiftl (le_get (reverse b)) 32.
Proof using All.
  rewrite word_of_halves. pose proof (half_range b Hb Hbo). rewrite lor_shiftl_add by lia.
  unfold uwrap. rewrite !Z.shiftl_mul_pow2 by lia. rewrite Z.mul_add_distr_r.
  replace (le_get (reverse a) * 2 ^ 32 * 2 ^ 32) with (le_get (reverse a) * 2 ^ 64) by lia.
  rewrite Z.add_comm, Z.mod_add by lia. apply Z.mod_small. lia.
Qed.
End half_words.

Lemma xor_state_words s a b c d :
  xor_state s {| sx0 := 0; sx1 := a; sx2 := b; sx3 := c; sx4 := d |} =
  xor_x 4 d (xor_x 3 c (xor_x 2 b (xor_x 1 a s))).
Proof. unfold xor_state, xor_x, set_x, x. cbn. by rewrite Z.lxor_0_r. Qed.

Lemma xor_x_0 i s : xor_x i 0 s = s.
Proof. unfold xor_x. rewrite Z.lxor_0_r. by destruct i as [|[|[|[|]]]], s. Qed.

Lemma spec_init_16 v k npub :
  v <> V80pq -> zlen k = 16 -> zlen npub = 16 ->
  spec_init v k npub =
  xor_x 4 (word_of (slice k 8 8)) (xor_x 3 (word_of (slice k 0 8)) (P12
    {| sx0 := match v with V128a => ASCON_128A_IV | _ => ASCON_128_IV end;
       sx1 := word_of (slice k 0 8); sx2 := word_of (slice k 8 8);
       sx3 := word_of (slice npub 0 8); sx4 := word_of (slice npub 8 8) |})).
Proof.
  intros Hv Hk Hn. unfold spec_init. replace (v_keylen v) with 16 by (by destruct v).
  change (zeros (40 - 16)) with (zeros 8 ++ zeros 8 ++ zeros 8).
  destruct (parts k 8 ltac:(lia)) as (a & b & -> & Ha & Hb).
  destruct (parts npub 8 ltac:(lia)) as (c & d & -> & Hc & Hd).
  rewrite !slice_app_l, !slice_app_r, <- !app_assoc by lia.
  rewrite !state_of_words by (lia || (by destruct v)).
  rewrite !word_of_zeros, xor_state_words, !xor_x_0 by lia. by destruct v.
Qed.

(** The tag of a final state. *)
Definition tag_of (s : ascon_state_t) : list Z := bytes_of (x s 3) 8 ++ bytes_of (x s 4) 8.

Lemma spec_tag_16 v k s :
  v <> V80pq -> zlen k = 16 ->
  spec_tag v k s =
  tag_of (match v with V128a => Ascon128a.finalize | _ => Ascon128.finalize end
            (word_of (slice k 0 8)) (word_of (slice k 8 8)) s).
Proof.
  intros Hv Hk. unfold spec_tag. replace (v_keylen v) with 16 by (by destruct v).
  destruct (parts k 8 ltac:(lia)) as (a & b & -> & Ha & Hb).
  rewrite slice_app_l, slice_app_r by lia.
  change (zeros (40 - 16)) with (zeros 8 ++ zeros 8 ++ zeros 8).
  destruct v; [| |done]; cbn [v_rate].
  - change (zeros (8 * Z.of_nat 1)) with (zeros 8).
    change (zeros (40 - 8 * Z.of_nat 1 - 16)) with (zeros 8 ++ zeros 8).
    rewrite <- !app_assoc, !state_of_words by (done || lia).
    by rewrite !word_of_zeros, !xor_state_words, !xor_x_0 by lia.
  - change (zeros (8 * Z.of_nat 2)) with (zeros 8 ++ zeros 8).
    change (zeros (40 - 8 * Z.of_nat 2 - 16)) with (zeros 8).
    rewrite <- !app_assoc, !state_of_words by (done || lia).
    by rewrite !word_of_zeros, !xor_state_words, !xor_x_0 by lia.
Qed.

(** A key of 20 bytes as its half words: the words of the code and of the state. *)
Section keys20.
Context (a b c d e : list Z).
Context (Ha : zlen a = 4) (Hb : zlen b = 4) (Hc : zlen c = 4) (Hd : zlen d = 4) (He : zlen e = 4).
Context (Hao : bytes_ok a) (Hbo : bytes_ok b) (Hco : bytes_ok c) (Hdo : bytes_ok d) (Heo : bytes_ok e).

Let K0 := Z.shiftr (word_of a) 32.
Let K1 := word_of (b ++ c).
Let K2 := word_of (d ++ e).

Lemma keyrot_words :
  Z.lor (u64 (Z.shiftl K0 32)) (Z.shiftr K1 32) = word_of (a ++ b) /\
  Z.lor (u64 (Z.shiftl K1 32)) (Z.shiftr K2 32) = word_of (c ++ d) /\
  u64 (Z.shiftl K2 32) = word_of (e ++ zeros 4) /\
  Z.lor ASCON_80PQ_IV K0 = word_of (v_iv V80pq ++ a) /\ K0 = word_of (zeros 4 ++ a).
Proof using All.
  unfold K0, K1, K2. rewrite !shiftr_halves, !shiftl_halves, shiftr_half by done.
  pose proof (half_range a Ha Hao).
  rewrite (word_of_halves a b), (word_of_halves c d), (word_of_halves e (zeros 4)) by (done || apply zeros_ok).
  assert (bytes_ok (v_iv V80pq)) by (repeat constructor; unfold byte_ok; lia).
  rewrite (word_of_halves (v_iv V80pq) a), (word_of_halves (zeros 4) a) by (done || apply zeros_ok).
  change (le_get (reverse (zeros 4))) with 0. rewrite Z.shiftl_0_l, Z.lor_0_l, Z.lor_0_r.
  split_and!; try done. f_equal. apply uwrap_small. rewrite Z.shiftl_mul_pow2 by lia. lia.
Qed.
End keys20.

(** The parts of a key of 20 bytes. *)
Lemma key_parts k :
  zlen k = 20 -> bytes_ok k ->
  exists a b c d e, k = a ++ b ++ c ++ d ++ e /\
    (zlen a = 4 /\ zlen b = 4 /\ zlen c = 4 /\ zlen d = 4 /\ zlen e = 4) /\
    (bytes_ok a /\ bytes_ok b /\ bytes_ok c /\ bytes_ok d /\ bytes_ok e).
Proof.
  intros Hk Ho. destruct (parts k 4 ltac:(lia)) as (a & k1 & -> & Ha & Hk1).
  destruct (parts k1 4 ltac:(lia)) as (b & k2 & -> & Hb & Hk2).
  destruct (parts k2 4 ltac:(lia)) as (c & k3 & -> & Hc & Hk3).
  destruct (parts k3 4 ltac:(lia)) as (d & e & -> & Hd & He).
  rewrite !bytes_ok_app in Ho. exists a, b, c, d, e. split_and!; try done; try lia; tauto.
Qed.

Lemma tag_drop_x2 a b c s :
  tag_of (xor_x 4 a (xor_x 3 b (xor_x 2 c s))) = tag_of (xor_x 4 a (xor_x 3 b s)).
Proof. reflexivity. Qed.

Lemma initialize_80pq k npub :
  zlen k = 20 -> zlen npub = 16 -> bytes_ok k -> bytes_ok npub ->
  exists K0 K1 K2,
    Ascon80pq.initialize npub k = Done (K0, K1, K2, spec_init V80pq k npub) /\
    forall s, tag_of (Ascon80pq.finalize K0 K1 K2 s) = spec_tag V80pq k s.
Proof.
  intros Hk Hn Hko Hno. unfold Ascon80pq.initialize. run_word.
  destruct (key_parts k Hk Hko) as (a & b & c & d & e & -> & (Ha & Hb & Hc & Hd & He) & (Oa & Ob & Oc & Od & Oe)).
  destruct (parts npub 8 ltac:(lia)) as (f & g & -> & Hf & Hg).
  rewrite (slice_app_l f), (slice_app_r f) by lia.
  rewrite (slice_app_l a) by done.
  replace (slice (a ++ b ++ c ++ d ++ e) 4 8) with (b ++ c).
  2:{ rewrite slice_app_r', Ha, Z.sub_diag, (app_assoc b) by lia. symmetry. apply slice_app_l. rewrite zlen_app. lia. }
  replace (slice (a ++ b ++ c ++ d ++ e) 12 8) with (d ++ e).
  2:{ rewrite !slice_app_r' by lia. unfold slice. rewrite zdrop_0 by lia.
      by rewrite ztake_ge by (rewrite zlen_app; lia). }
  destruct (keyrot_words a b c d e) as (E1 & E2 & E3 & E4 & E5); try done.
  assert (zlen (v_iv V80pq) = 4 /\ zlen (zeros 4) = 4 /\ zlen (zeros 8) = 8) as (Hi & H4 & H8) by done.
  do 3 eexists. split.
  - unfold spec_init. cbn [v_keylen]. change (zeros (40 - 20)) with (zeros 8 ++ zeros 8 ++ zeros 4).
    replace (v_iv V80pq ++ (a ++ b ++ c ++ d ++ e) ++ f ++ g)
      with ((v_iv V80pq ++ a) ++ (b ++ c) ++ (d ++ e) ++ f ++ g) by (by rewrite <- !app_assoc).
    replace ((zeros 8 ++ zeros 8 ++ zeros 4) ++ a ++ b ++ c ++ d ++ e)
      with (zeros 8 ++ zeros 8 ++ (zeros 4 ++ a) ++ (b ++ c) ++ d ++ e) by (by rewrite <- !app_assoc).
    rewrite !state_of_words by (rewrite ?zlen_app; lia).
    rewrite !word_of_zeros, xor_state_words, !xor_x_0, <- E4, <- E5 by lia. reflexivity.
  - intros s. unfold spec_tag. cbn [v_keylen v_rate].
    change (zeros (8 * Z.of_nat 1)) with (zeros 8).
    change (zeros (40 - 8 * Z.of_nat 1 - 20)) with (zeros 4 ++ zeros 8).
    change (zeros (40 - 20)) with (zeros 8 ++ zeros 8 ++ zeros 4).
    replace (zeros 8 ++ (a ++ b ++ c ++ d ++ e) ++ zeros 4 ++ zeros 8)
      with (zeros 8 ++ (a ++ b) ++ (c ++ d) ++ (e ++ zeros 4) ++ zeros 8) by (by rewrite <- !app_assoc).
    replace ((zeros 8 ++ zeros 8 ++ zeros 4) ++ a ++ b ++ c ++ d ++ e)
      with (zeros 8 ++ zeros 8 ++ (zeros 4 ++ a) ++ (b ++ c) ++ d ++ e) by (by rewrite <- !app_assoc).
    rewrite !state_of_words by (rewrite ?zlen_app; lia).
    rewrite !word_of_zeros, !xor_state_words, !xor_x_0, <- E1, <- E2, <- E3, <- E5 by lia.
    match goal with |- ?u = bytes_of (x ?t 3) 8 ++ _ => change (u = tag_of t) end.
    rewrite tag_drop_x2. reflexivity.
Qed.

Lemma set_tag_spec tag s : zlen tag = 16 -> set_tag tag s = Done (tag_of s).
Proof.
  intros Ht. unfold set_tag. run_word. f_equal.
  pose proof (zwrite_word_next 0 (x s 3) (x s 4) 8 tag) as E. change (0 + 8) with 8 in E.
  rewrite E by lia. unfold zwrite, tag_of.
  rewrite zdrop_ge by (rewrite zlen_app, !zlen_bytes_of; lia).
  by rewrite ztake_0, app_nil_r by lia.
Qed.

Lemma lor_list_zero l : Forall (fun b => 0 <= b < 256) l ->
  0 <= foldl Z.lor 0 l < 256 /\ (foldl Z.lor 0 l = 0 <-> Forall (fun b => b = 0) l).
Proof.
  induction l as [|b l IH] using rev_ind; intros Hl; [by split; [|split; [constructor|]]|].
  apply Forall_app in Hl as [Hl Hb]. rewrite Forall_singleton in Hb. destruct (IH Hl) as [Hr Hz].
  rewrite foldl_app. cbn [foldl]. split.
  - apply (in_u_lor 8); [lia| |]; unfold in_u; lia.
  - rewrite Z.lor_eq_0_iff, Hz, Forall_app, Forall_singleton. done.
Qed.

(** The comparison has no early exit: it collects the differences of all bytes. *)
Lemma verify_tag_spec tag t :
  zlen tag = 16 -> zlen t = 16 -> bytes_ok tag -> bytes_ok t ->
  verify_tag tag t = Done (if decide (tag = t) then 0 else -1).
Proof.
  intros Ht Ht' Ho Ho'. unfold verify_tag.
  set (d := zip_with Z.lxor tag t).
  run_loop (fun i r => r = foldl Z.lor 0 (take i d)) as r Hr; [done| |].
  - intros i r Hi ->. change (Z.to_nat CRYPTO_ABYTES) with 16%nat in Hi. unfold zlen in *.
    destruct (lookup_lt_is_Some_2 tag i) as [p Hp]; [lia|].
    destruct (lookup_lt_is_Some_2 t i) as [q Hq]; [lia|]. rewrite Hp, Hq. eexists. split; [done|].
    replace (i + 1)%nat with (S i) by lia. rewrite (take_S_r d i (Z.lxor p q)).
    + by rewrite foldl_app.
    + unfold d. rewrite lookup_zip_with, Hp, Hq. done.
  - cbn [exec_bind]. f_equal. rewrite Nat.add_0_l in Hr.
    assert (length d = 16%nat) as Hd by (unfold d; rewrite length_zip_with; unfold zlen in *; lia).
    rewrite take_ge in Hr by (rewrite Hd; done).
    assert (Forall (fun b => 0 <= b < 256) d) as Hdo.
    { apply Forall_lookup. intros i b Hb. unfold d in Hb. apply lookup_zip_with_Some in Hb as (p & q & -> & Hp & Hq).
      apply (in_u_lxor 8); [lia| |]; [apply (Forall_lookup_1 _ _ _ _ Ho Hp)|apply (Forall_lookup_1 _ _ _ _ Ho' Hq)]. }
    destruct (lor_list_zero d Hdo) as [Hrange Hzero]. rewrite <- Hr in Hrange, Hzero.
    assert (r = 0 <-> tag = t) as Heq.
    { rewrite Hzero. split.
      - intros Hall. apply list_eq_same_length with 16%nat; [unfold zlen in *; lia..|].
        intros i p q Hi Hp Hq. rewrite Forall_lookup in Hall. apply Z.lxor_eq, (Hall i).
        unfold d. by rewrite lookup_zip_with, Hp, Hq.
      - intros ->. apply Forall_lookup. intros i b Hb. unfold d in Hb.
        apply lookup_zip_with_Some in Hb as (p & q & -> & Hp & Hq). rewrite Hp in Hq.
        injection Hq as ->. apply Z.lxor_nilpotent. }
    case_decide as E.
    + apply Heq in E. by rewrite E.
    + assert (1 <= r < 256) by (destruct (decide (r = 0)); [tauto|lia]).
      rewrite Z.shiftr_div_pow2 by lia. change (2 ^ 8) with 256. by rewrite Z.div_small by lia.
Qed.

(** ** The reference implementation *)

Definition ref_encrypt (v : variant) :=
  match v with
  | V128 => Ascon128.crypto_aead_encrypt
  | V128a => Ascon128a.crypto_aead_encrypt
  | V80pq => Ascon80pq.crypto_aead_encrypt
  end.

Definition ref_decrypt (v : variant) :=
  match v with
  | V128 => Ascon128.crypto_aead_decrypt
  | V128a => Ascon128a.crypto_aead_decrypt
  | V80pq => Ascon80pq.crypto_aead_decrypt
  end.

(** What a caller provides: buffers of bytes, as long as the lengths say. *)
Record call_ok (v : variant) (outb inb : list Z) (len : Z) (ad : list Z) (adlen : Z)
  (npub k : list Z) : Prop := {
  co_in : bytes_ok inb;
  co_len : 0 <= len <= zlen inb;
  co_out : len <= zlen outb;
  co_ad : bytes_ok ad;
  co_adlen : 0 <= adlen <= zlen ad;
  co_npub : bytes_ok npub;
  co_npublen : zlen npub = 16;
  co_key : bytes_ok k;
  co_keylen : zlen k = v_keylen v;
}.

(** The result of an encryption that implements the specification ... *)
Definition enc_result (v : variant) (c m : list Z) (mlen : Z) (ad : list Z) (adlen : Z)
  (npub k : list Z) : exec (Z * Z * list Z * list Z) :=
  let '(out, tag) := spec_aead v Encrypt k npub (ztake adlen ad) (ztake mlen m) in
  Done (0, mlen, zwrite 0 out c, tag).

(** ... and of a decryption. *)
Definition dec_result (v : variant) (m tag c : list Z) (clen : Z) (ad : list Z) (adlen : Z)
  (npub k : list Z) : exec (Z * Z * list Z) :=
  let '(out, t) := spec_aead v Decrypt k npub (ztake adlen ad) (ztake clen c) in
  Done (if decide (tag = t) then 0 else -1, clen, zwrite 0 out m).

Section ref.
Context (v : variant) (outb inb : list Z) (len : Z) (ad : list Z) (adlen : Z) (npub k : list Z).
Context (Hc : call_ok v outb inb len ad adlen npub k).

Lemma initial_state_ok : state_ok (spec_init v k npub).
Proof using Hc. destruct Hc. by apply spec_init_ok. Qed.

Lemma adata_state_ok : state_ok (spec_adata v (ztake adlen ad) (spec_init v k npub)).
Proof using Hc. destruct Hc. apply spec_adata_ok; [apply initial_state_ok|]. auto with infuse. Qed.

Lemma ref_encrypt_spec tag :
  zlen tag = 16 ->
  ref_encrypt v outb inb len ad adlen tag npub k = enc_result v outb inb len ad adlen npub k.
Proof using Hc.
  intros Ht. pose proof initial_state_ok as Hi. pose proof adata_state_ok as Ha. destruct Hc.
  destruct v; cbn [ref_encrypt v_keylen] in *; unfold enc_result, spec_aead.
  - unfold Ascon128.crypto_aead_encrypt, Ascon128.initialize. run_word.
    rewrite spec_init_16 in * by done. cbv zeta.
    rewrite (adata_128 ad adlen _ co_ad0 Hi co_adlen0 V128) by done. cbn [exec_bind].
    pose proof (plaintext_128 outb inb len _ co_in0 Ha co_len0 co_out0 V128 eq_refl eq_refl) as Hp.
    unfold text_ok in Hp. destruct (duplex _ _ _ _ _ _) as [o s']. rewrite Hp. cbn [exec_bind].
    rewrite set_tag_spec by done. cbn [exec_bind]. by rewrite spec_tag_16.
  - unfold Ascon128a.crypto_aead_encrypt, Ascon128a.initialize. run_word.
    rewrite spec_init_16 in * by done. cbv zeta.
    rewrite (adata_128a ad adlen _ co_ad0 Hi co_adlen0). cbn [exec_bind].
    pose proof (plaintext_128a outb inb len _ co_in0 Ha co_len0 co_out0) as Hp.
    unfold text_ok in Hp. destruct (duplex _ _ _ _ _ _) as [o s']. rewrite Hp. cbn [exec_bind].
    rewrite set_tag_spec by done. cbn [exec_bind]. by rewrite spec_tag_16.
  - unfold Ascon80pq.crypto_aead_encrypt.
    destruct (initialize_80pq k npub) as (K0 & K1 & K2 & -> & Hf); try done. cbn [exec_bind].
    rewrite (adata_128 ad adlen _ co_ad0 Hi co_adlen0 V80pq) by done. cbn [exec_bind].
    pose proof (plaintext_128 outb inb len _ co_in0 Ha co_len0 co_out0 V80pq eq_refl eq_refl) as Hp.
    unfold text_ok in Hp. destruct (duplex _ _ _ _ _ _) as [o s']. rewrite Hp. cbn [exec_bind].
    rewrite set_tag_spec by done. cbn [exec_bind]. by rewrite Hf.
Qed.

Lemma tag_of_ok s : zlen (tag_of s) = 16 /\ bytes_ok (tag_of s).
Proof using Type.
  unfold tag_of. rewrite zlen_app, !zlen_bytes_of, bytes_ok_app. split_and!; try done; apply bytes_of_ok.
Qed.

Lemma ref_decrypt_spec tag :
  zlen tag = 16 -> bytes_ok tag ->
  ref_decrypt v outb tag inb len ad adlen npub k = dec_result v outb tag inb len ad adlen npub k.
Proof using Hc.
  intros Ht Hto. pose proof initial_state_ok as Hi. pose proof adata_state_ok as Ha. destruct Hc.
  destruct v; cbn [ref_decrypt v_keylen] in *; unfold dec_result, spec_aead.
  - unfold Ascon128.crypto_aead_decrypt, Ascon128.initialize. run_word.
    rewrite spec_init_16 in * by done. cbv zeta.
    rewrite (adata_128 ad adlen _ co_ad0 Hi co_adlen0 V128) by done. cbn [exec_bind].
    pose proof (ciphertext_128 outb inb len _ co_in0 Ha co_len0 co_out0 V128 eq_refl eq_refl) as Hp.
    unfold text_ok in Hp. destruct (duplex _ _ _ _ _ _) as [o s']. rewrite Hp. cbn [exec_bind].
    rewrite set_tag_spec by done. cbn [exec_bind].
    rewrite verify_tag_spec by (done || apply tag_of_ok). cbn [exec_bind]. by rewrite spec_tag_16.
  - unfold Ascon128a.crypto_aead_decrypt, Ascon128a.initialize. run_word.
    rewrite spec_init_16 in * by done. cbv zeta.
    rewrite (adata_128a ad adlen _ co_ad0 Hi co_adlen0). cbn [exec_bind].
    pose proof (ciphertext_128a outb inb len _ co_in0 Ha co_len0 co_out0) as Hp.
    unfold text_ok in Hp. destruct (duplex _ _ _ _ _ _) as [o s']. rewrite Hp. cbn [exec_bind].
    rewrite set_tag_spec by done. cbn [exec_bind].
    rewrite verify_tag_spec by (done || apply tag_of_ok). cbn [exec_bind]. by rewrite spec_tag_16.
  - unfold Ascon80pq.crypto_aead_decrypt.
    destruct (initialize_80pq k npub) as (K0 & K1 & K2 & -> & Hf); try done. cbn [exec_bind].
    rewrite (adata_128 ad adlen _ co_ad0 Hi co_adlen0 V80pq) by done. cbn [exec_bind].
    pose proof (ciphertext_128 outb inb len _ co_in0 Ha co_len0 co_out0 V80pq eq_refl eq_refl) as Hp.
    unfold text_ok in Hp. destruct (duplex _ _ _ _ _ _) as [o s']. rewrite Hp. cbn [exec_bind].
    rewrite set_tag_spec by done. cbn [exec_bind].
    rewrite verify_tag_spec by (done || apply tag_of_ok). cbn [exec_bind]. by rewrite Hf.
Qed.
End ref.
