(* ===== verification/AsconArm.v ===== *)
(** * The Ascon permutation in ARMv7-M assembly ([crypto_aead/*/armv7m_*/round.h])

    The permutation of the implementations that the library builds for Arm targets is
    inline assembly over the halves of the state words.  The instructions it uses are a
    small register machine here, the three pieces of assembly ([ROUND_LOOP], [ROUND] and
    [ROUND5]) are its programs, and [permutations.h] is built from them.  The programs
    compute the round function of the reference implementation. *)

From stdpp Require Import base tactics numbers list.
From Stdlib Require Import ZArith Lia Btauto.
From S2P Require Import Prelude AsconWord Ascon AsconSpec.

Local Open Scope Z_scope.
Local Open Scope infuse_scope.

(** ** The register machine *)

(** The operands of the assembly: the halves of the state words, the round constant and
    the scratch registers. *)
Inductive reg : Type :=
| x0_l | x0_h | x1_l | x1_h | x2_l | x2_h | x3_l | x3_h | x4_l | x4_h
| rC | tmp0 | tmp1 | tmp2.

(** The second operand of a data processing instruction: a register, a register shifted
    by an immediate, or an immediate. *)
Inductive operand : Type :=
| R (r : reg) | LSR (r : reg) (n : Z) | LSL (r : reg) (n : Z) | IMM (z : Z).

Inductive instr : Type :=
| EOR (rd rn : reg) (op : operand)
| ORN (rd rn : reg) (op : operand)
| ORR (rd rn : reg) (op : operand)
| BIC (rd rn : reg) (op : operand)
| AND (rd rn : reg) (op : operand)
| SUB (rd : reg) (imm : Z).

Record regs : Type := Regs {
  g0l : Z; g0h : Z; g1l : Z; g1h : Z; g2l : Z; g2h : Z; g3l : Z; g3h : Z; g4l : Z; g4h : Z;
  gC : Z; gt0 : Z; gt1 : Z; gt2 : Z;
}.

Definition get (g : regs) (r : reg) : Z :=
  match r with
  | x0_l => g0l g | x0_h => g0h g | x1_l => g1l g | x1_h => g1h g | x2_l => g2l g
  | x2_h => g2h g | x3_l => g3l g | x3_h => g3h g | x4_l => g4l g | x4_h => g4h g
  | rC => gC g | tmp0 => gt0 g | tmp1 => gt1 g | tmp2 => gt2 g
  end.

Definition set (r : reg) (v : Z) (g : regs) : regs :=
  let '(Regs a0 b0 a1 b1 a2 b2 a3 b3 a4 b4 c t0 t1 t2) := g in
  match r with
  | x0_l => Regs v b0 a1 b1 a2 b2 a3 b3 a4 b4 c t0 t1 t2
  | x0_h => Regs a0 v a1 b1 a2 b2 a3 b3 a4 b4 c t0 t1 t2
  | x1_l => Regs a0 b0 v b1 a2 b2 a3 b3 a4 b4 c t0 t1 t2
  | x1_h => Regs a0 b0 a1 v a2 b2 a3 b3 a4 b4 c t0 t1 t2
  | x2_l => Regs a0 b0 a1 b1 v b2 a3 b3 a4 b4 c t0 t1 t2
  | x2_h => Regs a0 b0 a1 b1 a2 v a3 b3 a4 b4 c t0 t1 t2
  | x3_l => Regs a0 b0 a1 b1 a2 b2 v b3 a4 b4 c t0 t1 t2
  | x3_h => Regs a0 b0 a1 b1 a2 b2 a3 v a4 b4 c t0 t1 t2
  | x4_l => Regs a0 b0 a1 b1 a2 b2 a3 b3 v b4 c t0 t1 t2
  | x4_h => Regs a0 b0 a1 b1 a2 b2 a3 b3 a4 v c t0 t1 t2
  | rC => Regs a0 b0 a1 b1 a2 b2 a3 b3 a4 b4 v t0 t1 t2
  | tmp0 => Regs a0 b0 a1 b1 a2 b2 a3 b3 a4 b4 c v t1 t2
  | tmp1 => Regs a0 b0 a1 b1 a2 b2 a3 b3 a4 b4 c t0 v t2
  | tmp2 => Regs a0 b0 a1 b1 a2 b2 a3 b3 a4 b4 c t0 t1 v
  end.

Definition not32 (v : Z) : Z := u32 (Z.lnot v).

Definition eval_op (g : regs) (op : operand) : Z :=
  match op with
  | R r => get g r
  | LSR r n => Z.shiftr (get g r) n
  | LSL r n => u32 (Z.shiftl (get g r) n)
  | IMM z => z
  end.

Definition step (g : regs) (i : instr) : regs :=
  match i with
  | EOR rd rn op => set rd (Z.lxor (get g rn) (eval_op g op)) g
  | ORN rd rn op => set rd (Z.lor (get g rn) (not32 (eval_op g op))) g
  | ORR rd rn op => set rd (Z.lor (get g rn) (eval_op g op)) g
  | BIC rd rn op => set rd (Z.land (get g rn) (not32 (eval_op g op))) g
  | AND rd rn op => set rd (Z.land (get g rn) (eval_op g op)) g
  | SUB rd imm => set rd (u32 (get g rd - imm)) g
  end.

Definition run (p : list instr) (g : regs) : regs := foldl step g p.

(** ** The assembly of [round.h] *)

(** The instructions of [ROUND_LOOP] up to the comparison that closes the loop. *)
Definition round_loop_body : list instr :=
  [
   EOR x2_l x2_l (R rC); EOR x0_l x0_l (R x4_l);
   EOR x4_l x4_l (R x3_l); EOR x2_l x2_l (R x1_l);
   ORN tmp0 x4_l (R x0_l); BIC tmp1 x2_l (R x1_l);
   EOR x0_l x0_l (R tmp1); ORN tmp1 x3_l (R x4_l);
   EOR x2_l x2_l (R tmp1); BIC tmp1 x1_l (R x0_l);
   EOR x4_l x4_l (R tmp1); AND tmp1 x3_l (R x2_l);
   EOR x1_l x1_l (R tmp1); EOR x3_l x3_l (R tmp0);
   EOR x1_l x1_l (R x0_l); EOR x3_l x3_l (R x2_l);
   EOR x0_l x0_l (R x4_l); EOR x0_h x0_h (R x4_h);
   EOR x4_h x4_h (R x3_h); EOR x2_h x2_h (R x1_h);
   ORN tmp0 x4_h (R x0_h); BIC tmp1 x2_h (R x1_h);
   EOR x0_h x0_h (R tmp1); ORN tmp1 x3_h (R x4_h);
   EOR x2_h x2_h (R tmp1); BIC tmp1 x1_h (R x0_h);
   EOR x4_h x4_h (R tmp1); AND tmp1 x3_h (R x2_h);
   EOR x1_h x1_h (R tmp1); EOR x3_h x3_h (R tmp0);
   EOR x1_h x1_h (R x0_h); EOR x3_h x3_h (R x2_h);
   EOR x0_h x0_h (R x4_h); EOR tmp0 x0_l (LSR x0_l 19);
   EOR tmp1 x0_h (LSR x0_h 19); EOR tmp0 tmp0 (LSL x0_h (32-19));
   EOR tmp1 tmp1 (LSL x0_l (32-19)); EOR tmp0 tmp0 (LSL x0_h (32-28));
   EOR tmp1 tmp1 (LSL x0_l (32-28)); EOR x0_l tmp0 (LSR x0_l 28);
   EOR x0_h tmp1 (LSR x0_h 28); EOR tmp0 x1_l (LSL x1_l (64-61));
   EOR tmp1 x1_h (LSL x1_h (64-61)); EOR tmp0 tmp0 (LSR x1_h (61-32));
   EOR tmp1 tmp1 (LSR x1_l (61-32)); EOR tmp0 tmp0 (LSR x1_h (39-32));
   EOR tmp1 tmp1 (LSR x1_l (39-32)); EOR x1_l tmp0 (LSL x1_l (64-39));
   EOR x1_h tmp1 (LSL x1_h (64-39)); EOR tmp0 x2_l (LSR x2_l 1);
   EOR tmp1 x2_h (LSR x2_h 1); EOR tmp0 tmp0 (LSL x2_h (32-1));
   EOR tmp1 tmp1 (LSL x2_l (32-1)); EOR tmp0 tmp0 (LSL x2_h (32-6));
   EOR tmp1 tmp1 (LSL x2_l (32-6)); EOR x2_l tmp0 (LSR x2_l 6);
   EOR x2_h tmp1 (LSR x2_h 6); EOR tmp0 x3_l (LSR x3_l 10);
   EOR tmp1 x3_h (LSR x3_h 10); EOR tmp0 tmp0 (LSL x3_h (32-10));
   EOR tmp1 tmp1 (LSL x3_l (32-10)); EOR tmp0 tmp0 (LSL x3_h (32-17));
   EOR tmp1 tmp1 (LSL x3_l (32-17)); EOR x3_l tmp0 (LSR x3_l 17);
   EOR x3_h tmp1 (LSR x3_h 17); EOR tmp0 x4_l (LSR x4_l 7);
   EOR tmp1 x4_h (LSR x4_h 7); EOR tmp0 tmp0 (LSL x4_h (32-7));
   EOR tmp1 tmp1 (LSL x4_l (32-7)); EOR tmp0 tmp0 (LSR x4_h (41-32));
   EOR tmp1 tmp1 (LSR x4_l (41-32)); EOR x4_l tmp0 (LSL x4_l (64-41));
   EOR x4_h tmp1 (LSL x4_h (64-41)); SUB rC 15].

Definition round_code (C : Z) : list instr :=
  [
   EOR x0_l x0_l (R x4_l); EOR x4_l x4_l (R x3_l);
   EOR x2_l x2_l (R x1_l); ORN tmp0 x4_l (R x0_l);
   EOR x2_l x2_l (IMM C); BIC tmp1 x2_l (R x1_l);
   EOR x0_l x0_l (R tmp1); ORN tmp1 x3_l (R x4_l);
   EOR x2_l x2_l (R tmp1); BIC tmp1 x1_l (R x0_l);
   EOR x4_l x4_l (R tmp1); AND tmp1 x3_l (R x2_l);
   EOR x1_l x1_l (R tmp1); EOR x3_l x3_l (R tmp0);
   EOR x1_l x1_l (R x0_l); EOR x3_l x3_l (R x2_l);
   EOR x0_l x0_l (R x4_l); EOR x0_h x0_h (R x4_h);
   EOR x4_h x4_h (R x3_h); EOR x2_h x2_h (R x1_h);
   ORN tmp0 x4_h (R x0_h); BIC tmp1 x2_h (R x1_h);
   EOR x0_h x0_h (R tmp1); ORN tmp1 x3_h (R x4_h);
   EOR x2_h x2_h (R tmp1); BIC tmp1 x1_h (R x0_h);
   EOR x4_h x4_h (R tmp1); AND tmp1 x3_h (R x2_h);
   EOR x1_h x1_h (R tmp1); EOR x3_h x3_h (R tmp0);
   EOR x1_h x1_h (R x0_h); EOR x3_h x3_h (R x2_h);
   EOR x0_h x0_h (R x4_h); EOR tmp0 x0_l (LSR x0_l 19);
   EOR tmp1 x0_h (LSR x0_h 19); EOR tmp0 tmp0 (LSL x0_h (32-19));
   EOR tmp1 tmp1 (LSL x0_l (32-19)); EOR tmp0 tmp0 (LSL x0_h (32-28));
   EOR tmp1 tmp1 (LSL x0_l (32-28)); EOR x0_l tmp0 (LSR x0_l 28);
   EOR x0_h tmp1 (LSR x0_h 28); EOR tmp0 x1_l (LSL x1_l (64-61));
   EOR tmp1 x1_h (LSL x1_h (64-61)); EOR tmp0 tmp0 (LSR x1_h (61-32));
   EOR tmp1 tmp1 (LSR x1_l (61-32)); EOR tmp0 tmp0 (LSR x1_h (39-32));
   EOR tmp1 tmp1 (LSR x1_l (39-32)); EOR x1_l tmp0 (LSL x1_l (64-39));
   EOR x1_h tmp1 (LSL x1_h (64-39)); EOR tmp0 x2_l (LSR x2_l 1);
   EOR tmp1 x2_h (LSR x2_h 1); EOR tmp0 tmp0 (LSL x2_h (32-1));
   EOR tmp1 tmp1 (LSL x2_l (32-1)); EOR tmp0 tmp0 (LSL x2_h (32-6));
   EOR tmp1 tmp1 (LSL x2_l (32-6)); EOR x2_l tmp0 (LSR x2_l 6);
   EOR x2_h tmp1 (LSR x2_h 6); EOR tmp0 x3_l (LSR x3_l 10);
   EOR tmp1 x3_h (LSR x3_h 10); EOR tmp0 tmp0 (LSL x3_h (32-10));
   EOR tmp1 tmp1 (LSL x3_l (32-10)); EOR tmp0 tmp0 (LSL x3_h (32-17));
   EOR tmp1 tmp1 (LSL x3_l (32-17)); EOR x3_l tmp0 (LSR x3_l 17);
   EOR x3_h tmp1 (LSR x3_h 17); EOR tmp0 x4_l (LSR x4_l 7);
   EOR tmp1 x4_h (LSR x4_h 7); EOR tmp0 tmp0 (LSL x4_h (32-7));
   EOR tmp1 tmp1 (LSL x4_l (32-7)); EOR tmp0 tmp0 (LSR x4_h (41-32));
   EOR tmp1 tmp1 (LSR x4_l (41-32)); EOR x4_l tmp0 (LSL x4_l (64-41));
   EOR x4_h tmp1 (LSL x4_h (64-41))].

Definition round5_code (C : Z) : list instr :=
  [
   EOR x2_l x2_l (IMM C); EOR tmp0 x1_l (R x2_l);
   EOR tmp1 x0_l (R x4_l); EOR tmp2 x3_l (R x4_l);
   ORN x4_l x3_l (R x4_l); EOR x4_l x4_l (R tmp0);
   EOR x3_l x3_l (R x1_l); ORR x3_l x3_l (R tmp0);
   EOR x3_l x3_l (R tmp1); EOR x2_l x2_l (R tmp1);
   ORR x2_l x2_l (R x1_l); EOR x2_l x2_l (R tmp2);
   BIC x1_l x1_l (R tmp1); EOR x1_l x1_l (R tmp2);
   ORR x0_l x0_l (R tmp2); EOR x0_l x0_l (R tmp0);
   EOR tmp0 x1_h (R x2_h); EOR tmp1 x0_h (R x4_h);
   EOR tmp2 x3_h (R x4_h); ORN x4_h x3_h (R x4_h);
   EOR x4_h x4_h (R tmp0); EOR x3_h x3_h (R x1_h);
   ORR x3_h x3_h (R tmp0); EOR x3_h x3_h (R tmp1);
   EOR x2_h x2_h (R tmp1); ORR x2_h x2_h (R x1_h);
   EOR x2_h x2_h (R tmp2); BIC x1_h x1_h (R tmp1);
   EOR x1_h x1_h (R tmp2); ORR x0_h x0_h (R tmp2);
   EOR x0_h x0_h (R tmp0); EOR tmp0 x2_l (LSR x2_l 19);
   EOR tmp1 x2_h (LSR x2_h 19); EOR tmp0 tmp0 (LSL x2_h (32-19));
   EOR tmp1 tmp1 (LSL x2_l (32-19)); EOR tmp0 tmp0 (LSL x2_h (32-28));
   EOR tmp1 tmp1 (LSL x2_l (32-28)); EOR x2_l tmp0 (LSR x2_l 28);
   EOR x2_h tmp1 (LSR x2_h 28); EOR tmp0 x3_l (LSL x3_l (64-61));
   EOR tmp1 x3_h (LSL x3_h (64-61)); EOR tmp0 tmp0 (LSR x3_h (61-32));
   EOR tmp1 tmp1 (LSR x3_l (61-32)); EOR tmp0 tmp0 (LSR x3_h (39-32));
   EOR tmp1 tmp1 (LSR x3_l (39-32)); EOR x3_l tmp0 (LSL x3_l (64-39));
   EOR x3_h tmp1 (LSL x3_h (64-39)); EOR tmp0 x4_l (LSR x4_l 1);
   EOR tmp1 x4_h (LSR x4_h 1); EOR tmp0 tmp0 (LSL x4_h (32-1));
   EOR tmp1 tmp1 (LSL x4_l (32-1)); EOR tmp0 tmp0 (LSL x4_h (32-6));
   EOR tmp1 tmp1 (LSL x4_l (32-6)); EOR x4_l tmp0 (LSR x4_l 6);
   EOR x4_h tmp1 (LSR x4_h 6); EOR tmp0 x0_l (LSR x0_l 10);
   EOR tmp1 x0_h (LSR x0_h 10); EOR tmp0 tmp0 (LSL x0_h (32-10));
   EOR tmp1 tmp1 (LSL x0_l (32-10)); EOR tmp0 tmp0 (LSL x0_h (32-17));
   EOR tmp1 tmp1 (LSL x0_l (32-17)); EOR x0_l tmp0 (LSR x0_l 17);
   EOR x0_h tmp1 (LSR x0_h 17); EOR tmp0 x1_l (LSR x1_l 7);
   EOR tmp1 x1_h (LSR x1_h 7); EOR tmp0 tmp0 (LSL x1_h (32-7));
   EOR tmp1 tmp1 (LSL x1_l (32-7)); EOR tmp0 tmp0 (LSR x1_h (41-32));
   EOR tmp1 tmp1 (LSR x1_l (41-32)); EOR x1_l tmp0 (LSL x1_l (64-41));
   EOR x1_h tmp1 (LSL x1_h (64-41))].

(** The union of a 64-bit word and its halves on a little-endian machine. *)
Definition lo32 (v : Z) : Z := u32 v.
Definition hi32 (v : Z) : Z := Z.shiftr v 32.
Definition join (l h : Z) : Z := Z.lor (Z.shiftl h 32) l.

(** The operands of the assembly: the state, the constant, and the scratch registers,
    which it writes before it reads them. *)
Definition load_regs (s : ascon_state_t) (C : Z) : regs :=
  Regs (lo32 (sx0 s)) (hi32 (sx0 s)) (lo32 (sx1 s)) (hi32 (sx1 s)) (lo32 (sx2 s)) (hi32 (sx2 s))
       (lo32 (sx3 s)) (hi32 (sx3 s)) (lo32 (sx4 s)) (hi32 (sx4 s)) C 0 0 0.
Definition store_regs (g : regs) : ascon_state_t :=
  {| sx0 := join (g0l g) (g0h g); sx1 := join (g1l g) (g1h g); sx2 := join (g2l g) (g2h g);
     sx3 := join (g3l g) (g3h g); sx4 := join (g4l g) (g4h g) |}.

(** [ROUND_LOOP]: the body, [cmp C, #60] and [bne] to its start. *)
Fixpoint round_loop (fuel : nat) (g : regs) : exec regs :=
  match fuel with
  | O => NoFuel
  | S fuel =>
      let g := run round_loop_body g in
      if gC g =? 60 then Done g else round_loop fuel g
  end.

Definition ROUND_LOOP (fuel : nat) (s : ascon_state_t) (C : Z) : exec ascon_state_t :=
  let! g := round_loop fuel (load_regs s C) in Done (store_regs g).

Definition asm_ROUND (s : ascon_state_t) (C : Z) : ascon_state_t :=
  store_regs (run (round_code C) (load_regs s 0)).

(** [ROUND5] works on five words; the caller names them in a rotated order afterwards. *)
Definition ROUND5 (w0 w1 w2 w3 w4 C : Z) : Z * Z * Z * Z * Z :=
  let s := store_regs (run (round5_code C)
             (load_regs {| sx0 := w0; sx1 := w1; sx2 := w2; sx3 := w3; sx4 := w4 |} 0)) in
  (sx0 s, sx1 s, sx2 s, sx3 s, sx4 s).

(** ** [permutations.h] *)

Definition START (n : Z) : Z := Z.lor (Z.shiftl (3 + n) 4) (12 - n).

(** The loop ends after [nr] rounds; [12] is the number of rounds of the longest one. *)
Definition PROUNDS (s : ascon_state_t) (nr : Z) : exec ascon_state_t := ROUND_LOOP 12 s (START nr).

(** The unrolled permutations.  [inlp] is [ASCON_INLINE_PERM]: the last rounds are then run
    by [ROUND] on the state in memory instead of by [ROUND5]. *)
Definition P12ROUNDS (inlp : bool) (s : ascon_state_t) : ascon_state_t :=
  let '(w0, w1, w2, w3, w4) := (sx0 s, sx1 s, sx2 s, sx3 s, sx4 s) in
  let '(w0, w1, w2, w3, w4) := ROUND5 w0 w1 w2 w3 w4 0xf0 in
  let '(w2, w3, w4, w0, w1) := ROUND5 w2 w3 w4 w0 w1 0xe1 in
  let '(w4, w0, w1, w2, w3) := ROUND5 w4 w0 w1 w2 w3 0xd2 in
  let '(w1, w2, w3, w4, w0) := ROUND5 w1 w2 w3 w4 w0 0xc3 in
  let '(w3, w4, w0, w1, w2) := ROUND5 w3 w4 w0 w1 w2 0xb4 in
  let '(w0, w1, w2, w3, w4) := ROUND5 w0 w1 w2 w3 w4 0xa5 in
  let '(w2, w3, w4, w0, w1) := ROUND5 w2 w3 w4 w0 w1 0x96 in
  let '(w4, w0, w1, w2, w3) := ROUND5 w4 w0 w1 w2 w3 0x87 in
  let '(w1, w2, w3, w4, w0) := ROUND5 w1 w2 w3 w4 w0 0x78 in
  let '(w3, w4, w0, w1, w2) := ROUND5 w3 w4 w0 w1 w2 0x69 in
  if negb inlp then
    let '(w0, w1, w2, w3, w4) := ROUND5 w0 w1 w2 w3 w4 0x5a in
    let '(w2, w3, w4, w0, w1) := ROUND5 w2 w3 w4 w0 w1 0x4b in
    {| sx0 := w4; sx1 := w0; sx2 := w1; sx3 := w2; sx4 := w3 |}
  else
    let s := {| sx0 := w0; sx1 := w1; sx2 := w2; sx3 := w3; sx4 := w4 |} in
    asm_ROUND (asm_ROUND s 0x5a) 0x4b.

Definition P8ROUNDS (inlp : bool) (s : ascon_state_t) : ascon_state_t :=
  let '(w0, w1, w2, w3, w4) := (sx0 s, sx1 s, sx2 s, sx3 s, sx4 s) in
  let '(w0, w1, w2, w3, w4) := ROUND5 w0 w1 w2 w3 w4 0xb4 in
  let '(w2, w3, w4, w0, w1) := ROUND5 w2 w3 w4 w0 w1 0xa5 in
  let '(w4, w0, w1, w2, w3) := ROUND5 w4 w0 w1 w2 w3 0x96 in
  let '(w1, w2, w3, w4, w0) := ROUND5 w1 w2 w3 w4 w0 0x87 in
  let '(w3, w4, w0, w1, w2) := ROUND5 w3 w4 w0 w1 w2 0x78 in
  if negb inlp then
    let '(w0, w1, w2, w3, w4) := ROUND5 w0 w1 w2 w3 w4 0x69 in
    let '(w2, w3, w4, w0, w1) := ROUND5 w2 w3 w4 w0 w1 0x5a in
    let '(w4, w0, w1, w2, w3) := ROUND5 w4 w0 w1 w2 w3 0x4b in
    {| sx0 := w1; sx1 := w2; sx2 := w3; sx3 := w4; sx4 := w0 |}
  else
    let s := {| sx0 := w0; sx1 := w1; sx2 := w2; sx3 := w3; sx4 := w4 |} in
    asm_ROUND (asm_ROUND (asm_ROUND s 0x69) 0x5a) 0x4b.

Definition P6ROUNDS (inlp : bool) (s : ascon_state_t) : ascon_state_t :=
  let '(w0, w1, w2, w3, w4) := (sx0 s, sx1 s, sx2 s, sx3 s, sx4 s) in
  let '(w0, w1, w2, w3, w4) := ROUND5 w0 w1 w2 w3 w4 0x96 in
  let '(w2, w3, w4, w0, w1) := ROUND5 w2 w3 w4 w0 w1 0x87 in
  let '(w4, w0, w1, w2, w3) := ROUND5 w4 w0 w1 w2 w3 0x78 in
  let '(w1, w2, w3, w4, w0) := ROUND5 w1 w2 w3 w4 w0 0x69 in
  let '(w3, w4, w0, w1, w2) := ROUND5 w3 w4 w0 w1 w2 0x5a in
  if negb inlp then
    let '(w0, w1, w2, w3, w4) := ROUND5 w0 w1 w2 w3 w4 0x4b in
    {| sx0 := w2; sx1 := w3; sx2 := w4; sx3 := w0; sx4 := w1 |}
  else
    let s := {| sx0 := w0; sx1 := w1; sx2 := w2; sx3 := w3; sx4 := w4 |} in
    asm_ROUND s 0x4b.

(** [P(s, nr)] of [permutations.h]: [ASCON_UNROLL_LOOPS] is set by [armv7m/config.h] and
    clear in [armv7m_small] and [armv7m_lowsize]. *)
Definition P (unroll inlp : bool) (s : ascon_state_t) (nr : Z) : exec ascon_state_t :=
  if unroll then
    let s := if nr =? 12 then P12ROUNDS inlp s else s in
    let s := if nr =? 8 then P8ROUNDS inlp s else s in
    let s := if nr =? 6 then P6ROUNDS inlp s else s in
    Done s
  else PROUNDS s nr.

(** ** Halves of words *)

Lemma testbit_join l h n :
  in_u 32 l -> 0 <= n ->
  Z.testbit (join l h) n = if n <? 32 then Z.testbit l n else Z.testbit h (n - 32).
Proof.
  intros Hl Hn. unfold join. rewrite Z.lor_spec. destruct (Z.ltb_spec n 32).
  - rewrite Z.shiftl_spec_low by lia. done.
  - rewrite Z.shiftl_spec, (testbit_above 32 l) by (unfold in_u in Hl; lia). apply orb_false_r.
Qed.

Lemma join_halves v : in_u 64 v -> join (lo32 v) (hi32 v) = v.
Proof.
  intros Hv. apply Z.bits_inj'. intros n Hn. rewrite testbit_join by (try apply in_u_uwrap; lia).
  unfold lo32, hi32. destruct (Z.ltb_spec n 32).
  - rewrite testbit_uwrap by lia. by rewrite (proj2 (Z.ltb_lt _ _)).
  - rewrite Z.shiftr_spec by lia. f_equal. lia.
Qed.

Lemma lo32_in_u v : in_u 32 (lo32 v).
Proof. by apply in_u_uwrap. Qed.

Lemma hi32_in_u v : in_u 64 v -> in_u 32 (hi32 v).
Proof.
  intros [H0 H1]. unfold hi32, in_u. rewrite Z.shiftr_div_pow2 by lia.
  split; [apply Z.div_pos; lia|]. apply Z.div_lt_upper_bound; lia.
Qed.

Lemma not32_in_u v : in_u 32 (not32 v).
Proof. by apply in_u_uwrap. Qed.

Section join.
Context (a b c d : Z) (Ha : in_u 32 a) (Hb : in_u 32 b) (Hc : in_u 32 c) (Hd : in_u 32 d).

Lemma join_in_u : in_u 64 (join a b).
Proof using Ha Hb.
  apply in_u_bits; [lia| |].
  - intros n Hn. rewrite testbit_join by (done || lia). rewrite (proj2 (Z.ltb_ge n 32)) by lia.
    apply (testbit_above 32); unfold in_u in Hb; lia.
  - unfold join. apply Z.lor_nonneg. unfold in_u in *. split; [apply Z.shiftl_nonneg|]; lia.
Qed.

Lemma join_lxor : Z.lxor (join a b) (join c d) = join (Z.lxor a c) (Z.lxor b d).
Proof using Ha Hc.
  apply Z.bits_inj'. intros n Hn. rewrite Z.lxor_spec, !testbit_join by (try apply in_u_lxor; done || lia).
  destruct (n <? 32); by rewrite Z.lxor_spec.
Qed.

Lemma join_land : Z.land (join a b) (join c d) = join (Z.land a c) (Z.land b d).
Proof using Ha Hc.
  apply Z.bits_inj'. intros n Hn.
  rewrite Z.land_spec, !testbit_join by (try (apply in_u_land; try apply Hc); done || lia).
  destruct (n <? 32); by rewrite Z.land_spec.
Qed.

Lemma join_not : not64 (join a b) = join (not32 a) (not32 b).
Proof using Ha Hb.
  apply Z.bits_inj'. intros n Hn. unfold not64. rewrite testbit_uwrap, Z.lnot_spec by lia.
  rewrite !testbit_join by (try apply not32_in_u; done || lia). unfold not32.
  destruct (Z.ltb_spec n 32); rewrite testbit_uwrap, Z.lnot_spec by lia.
  - by rewrite !(proj2 (Z.ltb_lt _ _)) by lia.
  - f_equal. destruct (Z.ltb_spec n 64), (Z.ltb_spec (n - 32) 32); done || lia.
Qed.
End join.

(** The halves of a rotation. *)
Definition rot_half (k a b : Z) : Z :=
  if k <? 32 then Z.lxor (Z.shiftr a k) (u32 (Z.shiftl b (32 - k)))
  else Z.lxor (Z.shiftr b (k - 32)) (u32 (Z.shiftl a (64 - k))).

Lemma rot_half_in_u k a b : in_u 32 a -> in_u 32 b -> 0 < k < 64 -> in_u 32 (rot_half k a b).
Proof.
  intros. unfold rot_half. destruct (Z.ltb_spec k 32);
    (apply in_u_lxor; [lia|apply in_u_shiftr; [lia|done|lia]|apply in_u_uwrap; lia]).
Qed.

Lemma testbit_ROR v k n :
  in_u 64 v -> 0 < k < 64 -> 0 <= n < 64 ->
  Z.testbit (ROR v k) n = Z.testbit v (if n + k <? 64 then n + k else n + k - 64).
Proof.
  intros Hv Hk Hn. unfold ROR. rewrite Z.lor_spec, Z.shiftr_spec by lia.
  replace (Z.land (- k) 63) with (64 - k).
  2:{ change 63 with (2 ^ 6 - 1). rewrite land_ones_mod by lia. change (2 ^ 6) with 64.
      replace (- k) with (64 - k + (-1) * 64) by lia. rewrite Z.mod_add by lia. symmetry.
      apply Z.mod_small. lia. }
  rewrite testbit_shl_wrap, (proj2 (Z.ltb_lt n 64)) by lia. cbn [andb].
  destruct (Z.ltb_spec (n + k) 64), (Z.leb_spec (64 - k) n); try lia; cbn [andb].
  - apply orb_false_r.
  - rewrite (testbit_above 64 v (n + k)) by (unfold in_u in Hv; lia). cbn [orb]. f_equal. lia.
Qed.

Lemma testbit_rot_half k a b n :
  in_u 32 a -> in_u 32 b -> 0 < k < 64 -> k <> 32 -> 0 <= n < 32 ->
  Z.testbit (rot_half k a b) n =
  let m := if n + k <? 64 then n + k else n + k - 64 in
  if m <? 32 then Z.testbit a m else Z.testbit b (m - 32).
Proof.
  intros Ha Hb Hk Hk' Hn. unfold rot_half, in_u in *. cbv zeta.
  destruct (Z.ltb_spec k 32); rewrite Z.lxor_spec, Z.shiftr_spec, testbit_shl_wrap by lia;
    rewrite (proj2 (Z.ltb_lt n 32)) by lia; cbn [andb].
  - rewrite (proj2 (Z.ltb_lt (n + k) 64)) by lia.
    destruct (Z.leb_spec (32 - k) n), (Z.ltb_spec (n + k) 32); try lia; cbn [andb].
    + rewrite (testbit_above 32 a) by lia. rewrite xorb_false_l. f_equal. lia.
    + apply xorb_false_r.
  - destruct (Z.leb_spec (64 - k) n), (Z.ltb_spec (n + k) 64); try lia; cbn [andb].
    + rewrite (testbit_above 32 b) by lia. rewrite (proj2 (Z.ltb_lt _ 32)), xorb_false_l by lia.
      f_equal. lia.
    + rewrite (proj2 (Z.ltb_ge _ 32)), xorb_false_r by lia. f_equal. lia.
Qed.

Lemma ROR_join k a b :
  in_u 32 a -> in_u 32 b -> 0 < k < 64 -> k <> 32 ->
  ROR (join a b) k = join (rot_half k a b) (rot_half k b a).
Proof.
  intros Ha Hb Hk Hk'. apply (word_ext 64).
  - apply ROR_in_u; [by apply join_in_u|lia].
  - apply join_in_u; by apply rot_half_in_u.
  - lia.
  - intros n Hn. rewrite testbit_ROR by (try apply join_in_u; done || lia).
    rewrite !testbit_join by (try apply rot_half_in_u; try done; try lia; destruct (Z.ltb_spec (n + k) 64); lia).
    destruct (Z.ltb_spec n 32).
    + rewrite testbit_rot_half by (done || lia). done.
    + rewrite testbit_rot_half by (done || lia). cbv zeta.
      repeat match goal with |- context [?p <? ?q] => destruct (Z.ltb_spec p q); try lia end; f_equal; lia.
Qed.

(** ** The round function on halves *)

(** The substitution layer on one half of the words. *)
Definition sub32 (a0 a1 a2 a3 a4 : Z) : Z * Z * Z * Z * Z :=
  let a0 := Z.lxor a0 a4 in
  let a4 := Z.lxor a4 a3 in
  let a2 := Z.lxor a2 a1 in
  let t0 := Z.lxor a0 (Z.land (not32 a1) a2) in
  let t1 := Z.lxor a1 (Z.land (not32 a2) a3) in
  let t2 := Z.lxor a2 (Z.land (not32 a3) a4) in
  let t3 := Z.lxor a3 (Z.land (not32 a4) a0) in
  let t4 := Z.lxor a4 (Z.land (not32 a0) a1) in
  (Z.lxor t0 t4, Z.lxor t1 t0, not32 t2, Z.lxor t3 t2, t4).

(** The diffusion of a word of halves [a] and [b], the half [a] of it. *)
Definition lin32 (k1 k2 a b : Z) : Z := Z.lxor (Z.lxor a (rot_half k1 a b)) (rot_half k2 a b).

Definition state_of_halves (l h : Z * Z * Z * Z * Z) : ascon_state_t :=
  let '(a0, a1, a2, a3, a4) := l in
  let '(b0, b1, b2, b3, b4) := h in
  {| sx0 := join (lin32 19 28 a0 b0) (lin32 19 28 b0 a0);
     sx1 := join (lin32 61 39 a1 b1) (lin32 61 39 b1 a1);
     sx2 := join (lin32 1 6 a2 b2) (lin32 1 6 b2 a2);
     sx3 := join (lin32 10 17 a3 b3) (lin32 10 17 b3 a3);
     sx4 := join (lin32 7 41 a4 b4) (lin32 7 41 b4 a4) |}.

Create HintDb word32.
#[export] Hint Resolve not32_in_u : word32.
#[export] Hint Extern 1 (in_u 32 (Z.lxor _ _)) => apply in_u_lxor; [lia| |] : word32.
#[export] Hint Extern 1 (in_u 32 (Z.land (not32 _) _)) =>
  apply in_u_land; [lia|apply not32_in_u|] : word32.
#[export] Hint Extern 1 (in_u 32 (rot_half _ _ _)) => apply rot_half_in_u; [| |lia] : word32.

Lemma lin_join k1 k2 a b :
  in_u 32 a -> in_u 32 b -> 0 < k1 < 64 -> k1 <> 32 -> 0 < k2 < 64 -> k2 <> 32 ->
  Z.lxor (Z.lxor (join a b) (ROR (join a b) k1)) (ROR (join a b) k2) =
  join (lin32 k1 k2 a b) (lin32 k1 k2 b a).
Proof. intros. rewrite !ROR_join, !join_lxor by auto with word32. done. Qed.

Lemma sub32_in_u a0 a1 a2 a3 a4 :
  in_u 32 a0 -> in_u 32 a1 -> in_u 32 a2 -> in_u 32 a3 -> in_u 32 a4 ->
  let '(t0, t1, t2, t3, t4) := sub32 a0 a1 a2 a3 a4 in
  in_u 32 t0 /\ in_u 32 t1 /\ in_u 32 t2 /\ in_u 32 t3 /\ in_u 32 t4.
Proof.
  intros. assert (forall u w, in_u 32 w -> 0 <= Z.land (not32 u) w) as Hp.
  { intros u w Hw. pose proof (not32_in_u u). apply Z.land_nonneg. unfold in_u in *. lia. }
  assert (forall u w, in_u 32 w -> in_u 32 (Z.land (not32 u) w)) as Hl.
  { intros u w Hw. apply in_u_land; [lia|apply not32_in_u|apply Hw]. }
  cbn. split_and!; auto 10 with word32.
Qed.

Section round.
Context (l0 h0 l1 h1 l2 h2 l3 h3 l4 h4 C : Z).
Context (Hl0 : in_u 32 l0) (Hh0 : in_u 32 h0) (Hl1 : in_u 32 l1) (Hh1 : in_u 32 h1)
        (Hl2 : in_u 32 l2) (Hh2 : in_u 32 h2) (Hl3 : in_u 32 l3) (Hh3 : in_u 32 h3)
        (Hl4 : in_u 32 l4) (Hh4 : in_u 32 h4) (HC : in_u 32 C).

Lemma ROUND_join :
  ROUND {| sx0 := join l0 h0; sx1 := join l1 h1; sx2 := join l2 h2; sx3 := join l3 h3;
           sx4 := join l4 h4 |} C =
  state_of_halves (sub32 l0 l1 (Z.lxor l2 C) l3 l4) (sub32 h0 h1 h2 h3 h4).
Proof using All.
  assert (Z.lxor (join l2 h2) C = join (Z.lxor l2 C) h2) as EC.
  { transitivity (Z.lxor (join l2 h2) (join C 0)); [unfold join at 3; by rewrite Z.shiftl_0_l|].
    by rewrite join_lxor, Z.lxor_0_r. }
  assert (forall u w, in_u 32 w -> in_u 32 (Z.land (not32 u) w)) as Hl.
  { intros u w Hw. apply in_u_land; [lia|apply not32_in_u|apply Hw]. }
  unfold ROUND, xor_x, set_x. cbn [x sx0 sx1 sx2 sx3 sx4]. rewrite !EC.
  rewrite !join_lxor by auto 10 with word32.
  rewrite !join_not by auto 10 with word32.
  rewrite !join_land by auto 10 with word32.
  rewrite !join_lxor by auto 10 with word32.
  rewrite !join_not by auto 10 with word32.
  rewrite !lin_join by (lia || auto 20 with word32). done.
Qed.
End round.

(** ** The assembly computes the round function *)

Lemma run_app p q g : run (p ++ q) g = run q (run p g).
Proof. apply foldl_app. Qed.

Section asm.
Context (l0 h0 l1 h1 l2 h2 l3 h3 l4 h4 C t0 t1 t2 : Z).
Context (Hl0 : in_u 32 l0) (Hh0 : in_u 32 h0) (Hl1 : in_u 32 l1) (Hh1 : in_u 32 h1)
        (Hl2 : in_u 32 l2) (Hh2 : in_u 32 h2) (Hl3 : in_u 32 l3) (Hh3 : in_u 32 h3)
        (Hl4 : in_u 32 l4) (Hh4 : in_u 32 h4) (HC : in_u 32 C).

(** Decides an equation of half words bit by bit. *)
Ltac half_bits :=
  apply Z.bits_inj'; intros n Hn; unfold not32;
  repeat rewrite ?Z.lxor_spec, ?Z.land_spec, ?Z.lor_spec, ?testbit_uwrap, ?Z.lnot_spec by lia;
  unfold in_u in *;
  destruct (Z.ltb_spec n 32);
    [ cbn [andb]; btauto
    | repeat match goal with
        | |- context [Z.testbit ?a n] => rewrite (testbit_above 32 a n) by lia
        end; reflexivity ].

(** The rotations of the diffusion layer, up to the order of the terms. *)
Ltac half_lin :=
  unfold lin32, rot_half; cbn [Z.ltb Z.compare Pos.compare Pos.compare_cont];
  apply Z.bits_inj'; intros n Hn; rewrite !Z.lxor_spec; btauto.

Lemma loop_sub_low :
  exists u0 u1, run (take 17 round_loop_body) (Regs l0 h0 l1 h1 l2 h2 l3 h3 l4 h4 C t0 t1 t2) =
  let '(a0, a1, a2, a3, a4) := sub32 l0 l1 (Z.lxor l2 C) l3 l4 in
  Regs a0 h0 a1 h1 a2 h2 a3 h3 a4 h4 C u0 u1 t2.
Proof using All. do 2 eexists. cbn. f_equal; half_bits. Qed.

Lemma loop_sub_high :
  exists u0 u1, run (take 16 (drop 17 round_loop_body)) (Regs l0 h0 l1 h1 l2 h2 l3 h3 l4 h4 C t0 t1 t2) =
  let '(b0, b1, b2, b3, b4) := sub32 h0 h1 h2 h3 h4 in
  Regs l0 b0 l1 b1 l2 b2 l3 b3 l4 b4 C u0 u1 t2.
Proof using All. do 2 eexists. cbn. f_equal; half_bits. Qed.

Lemma loop_lin :
  exists u0 u1, run (drop 33 round_loop_body) (Regs l0 h0 l1 h1 l2 h2 l3 h3 l4 h4 C t0 t1 t2) =
  Regs (lin32 19 28 l0 h0) (lin32 19 28 h0 l0) (lin32 61 39 l1 h1) (lin32 61 39 h1 l1)
       (lin32 1 6 l2 h2) (lin32 1 6 h2 l2) (lin32 10 17 l3 h3) (lin32 10 17 h3 l3)
       (lin32 7 41 l4 h4) (lin32 7 41 h4 l4) (u32 (C - 15)) u0 u1 t2.
Proof using All.
  do 2 eexists. cbn [drop round_loop_body run foldl step set get eval_op g0l g0h g1l g1h g2l g2h g3l g3h g4l g4h gC gt0 gt1 gt2].
  f_equal; half_lin.
Qed.

Lemma round_sub_low :
  exists u0 u1, run (take 17 (round_code C)) (Regs l0 h0 l1 h1 l2 h2 l3 h3 l4 h4 0 t0 t1 t2) =
  let '(a0, a1, a2, a3, a4) := sub32 l0 l1 (Z.lxor l2 C) l3 l4 in
  Regs a0 h0 a1 h1 a2 h2 a3 h3 a4 h4 0 u0 u1 t2.
Proof using All. do 2 eexists. cbn. f_equal; half_bits. Qed.

(** [ROUND5] leaves the new words in the registers of the next round. *)
Lemma round5_sub_low :
  exists u0 u1 u2, run (take 16 (round5_code C)) (Regs l0 h0 l1 h1 l2 h2 l3 h3 l4 h4 0 t0 t1 t2) =
  let '(a0, a1, a2, a3, a4) := sub32 l0 l1 (Z.lxor l2 C) l3 l4 in
  Regs a3 h0 a4 h1 a0 h2 a1 h3 a2 h4 0 u0 u1 u2.
Proof using All. do 3 eexists. cbn. f_equal; half_bits. Qed.

Lemma round5_sub_high :
  exists u0 u1 u2, run (take 15 (drop 16 (round5_code C))) (Regs l0 h0 l1 h1 l2 h2 l3 h3 l4 h4 0 t0 t1 t2) =
  let '(b0, b1, b2, b3, b4) := sub32 h0 h1 h2 h3 h4 in
  Regs l0 b3 l1 b4 l2 b0 l3 b1 l4 b2 0 u0 u1 u2.
Proof using All. do 3 eexists. cbn. f_equal; half_bits. Qed.

Lemma round5_lin :
  exists u0 u1, run (drop 31 (round5_code C)) (Regs l0 h0 l1 h1 l2 h2 l3 h3 l4 h4 0 t0 t1 t2) =
  Regs (lin32 10 17 l0 h0) (lin32 10 17 h0 l0) (lin32 7 41 l1 h1) (lin32 7 41 h1 l1)
       (lin32 19 28 l2 h2) (lin32 19 28 h2 l2) (lin32 61 39 l3 h3) (lin32 61 39 h3 l3)
       (lin32 1 6 l4 h4) (lin32 1 6 h4 l4) 0 u0 u1 t2.
Proof using All.
  do 2 eexists. cbn [drop round5_code run foldl step set get eval_op g0l g0h g1l g1h g2l g2h g3l g3h g4l g4h gC gt0 gt1 gt2].
  f_equal; half_lin.
Qed.
End asm.

(** Registers that hold 32-bit words. *)
Definition regs_ok (g : regs) : Prop :=
  in_u 32 (g0l g) /\ in_u 32 (g0h g) /\ in_u 32 (g1l g) /\ in_u 32 (g1h g) /\ in_u 32 (g2l g) /\
  in_u 32 (g2h g) /\ in_u 32 (g3l g) /\ in_u 32 (g3h g) /\ in_u 32 (g4l g) /\ in_u 32 (g4h g).

Lemma lin32_in_u k1 k2 a b :
  in_u 32 a -> in_u 32 b -> 0 < k1 < 64 -> 0 < k2 < 64 -> in_u 32 (lin32 k1 k2 a b).
Proof. intros. unfold lin32. auto with word32. Qed.

Lemma load_regs_ok s C : state_ok s -> regs_ok (load_regs s C) /\ store_regs (load_regs s C) = s.
Proof.
  intros Hs. pose proof (Hs 0%nat). pose proof (Hs 1%nat). pose proof (Hs 2%nat).
  pose proof (Hs 3%nat). pose proof (Hs 4%nat). split.
  - repeat split; apply lo32_in_u || by apply hi32_in_u.
  - unfold store_regs, load_regs. cbn. rewrite !join_halves by done. by destruct s.
Qed.

(** One iteration of the loop is a round. *)
Lemma loop_body_round g :
  regs_ok g -> in_u 32 (gC g) ->
  let g' := run round_loop_body g in
  regs_ok g' /\ store_regs g' = ROUND (store_regs g) (gC g) /\ gC g' = u32 (gC g - 15).
Proof.
  destruct g as [l0 h0 l1 h1 l2 h2 l3 h3 l4 h4 C t0 t1 t2]. unfold regs_ok at 1.
  cbn [g0l g0h g1l g1h g2l g2h g3l g3h g4l g4h gC]. intros (? & ? & ? & ? & ? & ? & ? & ? & ? & ?) HC.
  change round_loop_body with
    (take 17 round_loop_body ++ take 16 (drop 17 round_loop_body) ++ drop 33 round_loop_body).
  rewrite !run_app. destruct (loop_sub_low l0 h0 l1 h1 l2 h2 l3 h3 l4 h4 C t0 t1 t2) as (u0 & u1 & ->); try done.
  assert (in_u 32 (Z.lxor l2 C)) by (apply in_u_lxor; done).
  pose proof (ROUND_join l0 h0 l1 h1 l2 h2 l3 h3 l4 h4 C) as ER.
  pose proof (sub32_in_u l0 l1 (Z.lxor l2 C) l3 l4) as HL.
  destruct (sub32 l0 l1 (Z.lxor l2 C) l3 l4) as [[[[a0 a1] a2] a3] a4].
  destruct HL as (? & ? & ? & ? & ?); try done.
  destruct (loop_sub_high a0 h0 a1 h1 a2 h2 a3 h3 a4 h4 C u0 u1 t2) as (u2 & u3 & ->); try done.
  pose proof (sub32_in_u h0 h1 h2 h3 h4) as HH.
  destruct (sub32 h0 h1 h2 h3 h4) as [[[[b0 b1] b2] b3] b4]. destruct HH as (? & ? & ? & ? & ?); try done.
  destruct (loop_lin a0 b0 a1 b1 a2 b2 a3 b3 a4 b4 C u2 u3 t2) as (u4 & u5 & ->); try done.
  split_and!; [|symmetry; by apply ER|done].
  unfold regs_ok. cbn. split_and!; apply lin32_in_u; done || lia.
Qed.

(** [ROUND] of the assembly. *)
Lemma asm_ROUND_round s C : state_ok s -> 0 <= C < 256 -> asm_ROUND s C = ROUND s C.
Proof.
  intros Hs HC0. destruct (load_regs_ok s 0 Hs) as [Hg Hsg]. rewrite <- Hsg at 2. unfold asm_ROUND.
  assert (in_u 32 C) as HC by (unfold in_u; lia). clear HC0 Hsg.
  destruct (load_regs s 0) as [l0 h0 l1 h1 l2 h2 l3 h3 l4 h4 z t0 t1 t2] eqn:E.
  assert (z = 0) as -> by (by injection E). clear E.
  destruct Hg as (? & ? & ? & ? & ? & ? & ? & ? & ? & ?). cbn [g0l g0h g1l g1h g2l g2h g3l g3h g4l g4h] in *.
  change (round_code C) with
    (take 17 (round_code C) ++ take 16 (drop 17 round_loop_body) ++ removelast (drop 33 round_loop_body)).
  rewrite !run_app. destruct (round_sub_low l0 h0 l1 h1 l2 h2 l3 h3 l4 h4 C t0 t1 t2) as (u0 & u1 & ->); try done.
  assert (in_u 32 (Z.lxor l2 C)) by (apply in_u_lxor; done).
  pose proof (ROUND_join l0 h0 l1 h1 l2 h2 l3 h3 l4 h4 C) as ER.
  pose proof (sub32_in_u l0 l1 (Z.lxor l2 C) l3 l4) as HL.
  destruct (sub32 l0 l1 (Z.lxor l2 C) l3 l4) as [[[[a0 a1] a2] a3] a4].
  destruct HL as (? & ? & ? & ? & ?); try done.
  destruct (loop_sub_high a0 h0 a1 h1 a2 h2 a3 h3 a4 h4 0 u0 u1 t2) as (u2 & u3 & ->); try done.
  pose proof (sub32_in_u h0 h1 h2 h3 h4) as HH.
  destruct (sub32 h0 h1 h2 h3 h4) as [[[[b0 b1] b2] b3] b4]. destruct HH as (? & ? & ? & ? & ?); try done.
  destruct (loop_lin a0 b0 a1 b1 a2 b2 a3 b3 a4 b4 0 u2 u3 t2) as (u4 & u5 & EL); try done.
  rewrite (app_removelast_last (SUB rC 15) (l := drop 33 round_loop_body)) in EL by done.
  rewrite run_app in EL. unfold store_regs at 2. cbn [g0l g0h g1l g1h g2l g2h g3l g3h g4l g4h].
  rewrite ER by done. set (g := run (removelast (drop 33 round_loop_body)) _) in *. clearbody g.
  destruct g. cbn in EL. injection EL as -> -> -> -> -> -> -> -> -> -> _ _ _ _. done.
Qed.

(** [ROUND5] is a round whose words are found two registers further. *)
Lemma ROUND5_round s C :
  state_ok s -> 0 <= C < 256 ->
  let t := ROUND s C in
  ROUND5 (sx0 s) (sx1 s) (sx2 s) (sx3 s) (sx4 s) C = (sx3 t, sx4 t, sx0 t, sx1 t, sx2 t).
Proof.
  intros Hs HC0. destruct (load_regs_ok s 0 Hs) as [Hg Hsg]. unfold ROUND5.
  replace {| sx0 := sx0 s; sx1 := sx1 s; sx2 := sx2 s; sx3 := sx3 s; sx4 := sx4 s |} with s by (by destruct s).
  assert (in_u 32 C) as HC by (unfold in_u; lia). clear HC0.
  destruct (load_regs s 0) as [l0 h0 l1 h1 l2 h2 l3 h3 l4 h4 z t0 t1 t2] eqn:E.
  assert (z = 0) as -> by (by injection E). clear E.
  destruct Hg as (? & ? & ? & ? & ? & ? & ? & ? & ? & ?). cbn [g0l g0h g1l g1h g2l g2h g3l g3h g4l g4h] in *.
  change (round5_code C) with
    (take 16 (round5_code C) ++ take 15 (drop 16 (round5_code C)) ++ drop 31 (round5_code C)).
  rewrite !run_app. destruct (round5_sub_low l0 h0 l1 h1 l2 h2 l3 h3 l4 h4 C t0 t1 t2) as (u0 & u1 & u2 & ->); try done.
  assert (in_u 32 (Z.lxor l2 C)) by (apply in_u_lxor; done).
  pose proof (ROUND_join l0 h0 l1 h1 l2 h2 l3 h3 l4 h4 C) as ER.
  pose proof (sub32_in_u l0 l1 (Z.lxor l2 C) l3 l4) as HL.
  destruct (sub32 l0 l1 (Z.lxor l2 C) l3 l4) as [[[[a0 a1] a2] a3] a4].
  destruct HL as (? & ? & ? & ? & ?); try done.
  destruct (round5_sub_high a3 h0 a4 h1 a0 h2 a1 h3 a2 h4 C u0 u1 u2) as (u3 & u4 & u5 & ->); try done.
  pose proof (sub32_in_u h0 h1 h2 h3 h4) as HH.
  destruct (sub32 h0 h1 h2 h3 h4) as [[[[b0 b1] b2] b3] b4]. destruct HH as (? & ? & ? & ? & ?); try done.
  destruct (round5_lin a3 b3 a4 b4 a0 b0 a1 b1 a2 b2 C u3 u4 u5) as (u6 & u7 & ->); try done.
  cbv zeta. rewrite <- Hsg. unfold store_regs.
  cbn [g0l g0h g1l g1h g2l g2h g3l g3h g4l g4h sx0 sx1 sx2 sx3 sx4]. by rewrite !ER.
Qed.

(** ** The permutations *)

(** The constants of the last [n] rounds. *)
Fixpoint round_constants (n : nat) : list Z :=
  match n with
  | O => []
  | S m => (60 + 15 * Z.of_nat n) :: round_constants m
  end.

Lemma round_loop_rounds n fuel g :
  (0 < n <= 12)%nat -> (n <= fuel)%nat -> regs_ok g -> gC g = 60 + 15 * Z.of_nat n ->
  exists g', round_loop fuel g = Done g' /\
    store_regs g' = foldl ROUND (store_regs g) (round_constants n).
Proof.
  revert fuel g. induction n as [|n IH]; intros fuel g Hn Hf Hg HC; [lia|].
  destruct fuel as [|fuel]; [lia|]. cbn [round_loop].
  destruct (loop_body_round g Hg) as (Hg' & Hs & HC'); [rewrite HC; unfold in_u; lia|].
  rewrite HC in HC', Hs. rewrite (uwrap_small 32) in HC' by lia. rewrite HC'.
  destruct n as [|n].
  - exists (run round_loop_body g). split; [done|]. by rewrite Hs.
  - rewrite (proj2 (Z.eqb_neq _ _)) by lia.
    destruct (IH fuel (run round_loop_body g)) as (g' & -> & Hs'); try done; try lia.
    exists g'. split; [done|]. rewrite Hs', Hs. done.
Qed.

Definition nr_ok (nr : Z) : Prop := nr = 6 \/ nr = 8 \/ nr = 12.
Definition rounds (nr : Z) (s : ascon_state_t) : ascon_state_t :=
  foldl ROUND s (round_constants (Z.to_nat nr)).

Lemma rounds_P s : rounds 12 s = P12 s /\ rounds 8 s = P8 s /\ rounds 6 s = P6 s.
Proof. done. Qed.

(** The loop of the assembly terminates after [nr] rounds with the state of the reference
    permutation. *)
Lemma PROUNDS_rounds s nr : state_ok s -> nr_ok nr -> PROUNDS s nr = Done (rounds nr s).
Proof.
  intros Hs Hnr. unfold PROUNDS, ROUND_LOOP. destruct (load_regs_ok s (START nr) Hs) as [Hg Hsg].
  destruct (round_loop_rounds (Z.to_nat nr) 12 (load_regs s (START nr))) as (g' & -> & Hg'); try done.
  - destruct Hnr as [->|[->| ->]]; simpl; lia.
  - destruct Hnr as [->|[->| ->]]; simpl; lia.
  - destruct Hnr as [->|[->| ->]]; done.
  - cbn [exec_bind]. by rewrite Hg', Hsg.
Qed.

Lemma state_eta t :
  {| sx0 := sx0 t; sx1 := sx1 t; sx2 := sx2 t; sx3 := sx3 t; sx4 := sx4 t |} = t.
Proof. by destruct t. Qed.

Ltac run_rounds :=
  repeat match goal with
  | |- context [ROUND5 (sx0 ?s) _ _ _ _ ?C] =>
      rewrite (ROUND5_round s C) by (repeat apply ROUND_ok; (assumption || lia)); cbv beta zeta iota
  end;
  rewrite ?state_eta;
  repeat match goal with
  | |- context [asm_ROUND ?s ?C] =>
      rewrite (asm_ROUND_round s C) by (repeat apply ROUND_ok; (assumption || lia))
  end;
  reflexivity.

Lemma unrolled_rounds inlp s :
  state_ok s -> P12ROUNDS inlp s = rounds 12 s /\ P8ROUNDS inlp s = rounds 8 s /\ P6ROUNDS inlp s = rounds 6 s.
Proof.
  intros Hs. unfold P12ROUNDS, P8ROUNDS, P6ROUNDS. cbv beta iota.
  split_and!; destruct inlp; cbn [negb]; run_rounds.
Qed.

(** Every build of the permutation runs the rounds of the reference one. *)
Lemma P_rounds unroll inlp s nr : state_ok s -> nr_ok nr -> P unroll inlp s nr = Done (rounds nr s).
Proof.
  intros Hs Hnr. unfold P. destruct unroll; [|by apply PROUNDS_rounds].
  destruct (unrolled_rounds inlp s Hs) as (E12 & E8 & E6).
  destruct Hnr as [->|[->| ->]]; cbn [Z.eqb Pos.eqb]; by rewrite ?E12, ?E8, ?E6.
Qed.
