(* ===== verification/AsconArmAead.v ===== *)
(** * Authenticated encryption with the Arm permutation
      ([crypto_aead/*/armv7m], [armv7m_small] and [armv7m_lowsize])

    The modes around the assembly of [AsconArm].  The sources of the three directories of
    a scheme, and of the three schemes, differ only in [api.h] and [config.h], which are the
    parameters of the definitions here: the scheme [v] ([ASCON_AEAD_RATE],
    [CRYPTO_KEYBYTES]), and [unroll] and [inlp] ([ASCON_UNROLL_LOOPS], [ASCON_INLINE_PERM]).
    [small_encrypt] and [small_decrypt] are [aead.c] of [armv7m_small] and [armv7m],
    [lowsize_encrypt] and [lowsize_decrypt] the smaller mode of [armv7m_lowsize]. *)

From stdpp Require Import base tactics numbers list.
From Stdlib Require Import ZArith Lia Btauto.
From S2P Require Import Prelude AsconWord Ascon AsconSpec AsconArm.

Local Open Scope Z_scope.
Local Open Scope infuse_scope.

(** ** [word.h] *)

(** [U64BIG]: the byte order is reversed on a little-endian machine. *)
Definition U64BIG (x : Z) : Z :=
  Z.lor (Z.lor (Z.lor (Z.lor (Z.lor (Z.lor (Z.lor
    (Z.shiftl (Z.land 0x00000000000000FF x) 56)
    (Z.shiftl (Z.land 0x000000000000FF00 x) 40))
    (Z.shiftl (Z.land 0x0000000000FF0000 x) 24))
    (Z.shiftl (Z.land 0x00000000FF000000 x) 8))
    (Z.shiftr (Z.land 0x000000FF00000000 x) 8))
    (Z.shiftr (Z.land 0x0000FF0000000000 x) 24))
    (Z.shiftr (Z.land 0x00FF000000000000 x) 40))
    (Z.shiftr (Z.land 0xFF00000000000000 x) 56).

Definition KEYROT (lo2hi hi2lo : Z) : Z := Z.lor (u64 (Z.shiftl lo2hi 32)) (Z.shiftr hi2lo 32).

Definition NOTZERO (a b : Z) : Z :=
  let result := Z.lor a b in
  let result := Z.lor result (Z.shiftr result 32) in
  let result := Z.lor result (Z.shiftr result 16) in
  let result := Z.lor result (Z.shiftr result 8) in
  Z.land (Z.shiftr (Z.land result 0xff - 1) 8) 1 - 1.

(** A shift by the width of the word or more is undefined. *)
Definition CLEAR (w n : Z) : exec Z :=
  if (0 <=? 8 * n) && (8 * n <? 64) then Done (Z.land w (Z.shiftr (2 ^ 64 - 1) (8 * n))) else Fault.

(** [memcpy] into a zeroed [uint64_t], and from a [uint64_t]. *)
Definition LOADBYTES (buf : list Z) (p n : Z) : exec Z :=
  if (0 <=? p) && (0 <=? n) && (n <=? 8) && (p + n <=? zlen buf)
  then Done (U64BIG (le_get (ztake n (zdrop p buf)))) else Fault.
Definition STOREBYTES (buf : list Z) (p w n : Z) : exec (list Z) :=
  if (0 <=? p) && (0 <=? n) && (n <=? 8) && (p + n <=? zlen buf)
  then Done (zwrite p (ztake n (le_put 8 (U64BIG w))) buf) else Fault.

(** ** [api.h] and [ascon.h] *)

Definition ASCON_AEAD_RATE (v : variant) : Z := match v with V128a => 16 | _ => 8 end.
Definition CRYPTO_KEYBYTES (v : variant) : Z := match v with V80pq => 20 | _ => 16 end.
Definition AEAD_ROUNDS (v : variant) : Z := if ASCON_AEAD_RATE v =? 8 then 6 else 8.

(** The words of the key; a key of 16 bytes has two. *)
Record ascon_key_t : Type := { kx0 : Z; kx1 : Z; kx2 : Z }.

Section aead.
Context (v : variant) (unroll inlp : bool).

Definition ascon_loadkey (k : list Z) : exec ascon_key_t :=
  if CRYPTO_KEYBYTES v =? 16 then
    let! a := LOADBYTES k 0 8 in
    let! b := LOADBYTES k 8 8 in
    Done {| kx0 := a; kx1 := b; kx2 := 0 |}
  else
    let! a := LOADBYTES k 0 4 in
    let! b := LOADBYTES k 4 8 in
    let! c := LOADBYTES k 12 8 in
    Done {| kx0 := KEYROT 0 a; kx1 := b; kx2 := c |}.

(** The constants of [constants.h] are literals here. *)
Definition ascon_initaead (key : ascon_key_t) (npub : list Z) : exec ascon_state_t :=
  let! n0 := LOADBYTES npub 0 8 in
  let! n1 := LOADBYTES npub 8 8 in
  if CRYPTO_KEYBYTES v =? 16 then
    let iv := if ASCON_AEAD_RATE v =? 8 then 0x80400c0600000000 else 0x80800c0800000000 in
    let s := {| sx0 := iv; sx1 := kx0 key; sx2 := kx1 key; sx3 := n0; sx4 := n1 |} in
    let! s := P unroll inlp s 12 in
    let s := xor_x 3 (kx0 key) s in
    Done (xor_x 4 (kx1 key) s)
  else
    let s := {| sx0 := Z.lxor (kx0 key) 0xa0400c0600000000; sx1 := kx1 key; sx2 := kx2 key;
                sx3 := n0; sx4 := n1 |} in
    let! s := P unroll inlp s 12 in
    let s := xor_x 2 (kx0 key) s in
    let s := xor_x 3 (kx1 key) s in
    Done (xor_x 4 (kx2 key) s).

Definition ascon_final (key : ascon_key_t) (s : ascon_state_t) : exec ascon_state_t :=
  if CRYPTO_KEYBYTES v =? 16 then
    let s := if ASCON_AEAD_RATE v =? 8 then xor_x 2 (kx1 key) (xor_x 1 (kx0 key) s)
             else xor_x 3 (kx1 key) (xor_x 2 (kx0 key) s) in
    let! s := P unroll inlp s 12 in
    let s := xor_x 3 (kx0 key) s in
    Done (xor_x 4 (kx1 key) s)
  else
    let s := xor_x 1 (KEYROT (kx0 key) (kx1 key)) s in
    let s := xor_x 2 (KEYROT (kx1 key) (kx2 key)) s in
    let s := xor_x 3 (KEYROT (kx2 key) 0) s in
    let! s := P unroll inlp s 12 in
    let s := xor_x 3 (kx1 key) s in
    Done (xor_x 4 (kx2 key) s).

Definition store_tag (tag : list Z) (s : ascon_state_t) : exec (list Z) :=
  let! tag := STOREBYTES tag 0 (x s 3) 8 in
  STOREBYTES tag 8 (x s 4) 8.

(** ** [aead.c] of [armv7m_small] and [armv7m] *)

Fixpoint adata_blocks (fuel : nat) (ad : list Z) (p adlen : Z) (s : ascon_state_t)
  : exec (Z * Z * ascon_state_t) :=
  if ASCON_AEAD_RATE v <=? adlen then
    match fuel with
    | O => NoFuel
    | S fuel =>
        let! w := LOADBYTES ad p 8 in
        let s := xor_x 0 w s in
        let! s := if ASCON_AEAD_RATE v =? 16
                  then let! w := LOADBYTES ad (p + 8) 8 in Done (xor_x 1 w s) else Done s in
        let! s := P unroll inlp s (AEAD_ROUNDS v) in
        adata_blocks fuel ad (p + ASCON_AEAD_RATE v) (adlen - ASCON_AEAD_RATE v) s
    end
  else Done (p, adlen, s).

(** [px] is the index of the word that the last block ends in. *)
Definition ascon_adata (ad : list Z) (adlen : Z) (s : ascon_state_t) : exec ascon_state_t :=
  let! s :=
    if adlen =? 0 then Done s else
    let! (p, adlen, s) := adata_blocks (Z.to_nat adlen) ad 0 adlen s in
    let! (px, p, adlen, s) :=
      if (ASCON_AEAD_RATE v =? 16) && (8 <=? adlen)
      then let! w := LOADBYTES ad p 8 in Done (1%nat, p + 8, adlen - 8, xor_x 0 w s)
      else Done (0%nat, p, adlen, s) in
    let s := xor_x px (PAD adlen) s in
    let! s := if adlen =? 0 then Done s
              else let! w := LOADBYTES ad p adlen in Done (xor_x px w s) in
    P unroll inlp s (AEAD_ROUNDS v) in
  Done (xor_x 4 1 s).

Fixpoint encrypt_blocks (fuel : nat) (c m : list Z) (p mlen : Z) (s : ascon_state_t)
  : exec (list Z * Z * Z * ascon_state_t) :=
  if ASCON_AEAD_RATE v <=? mlen then
    match fuel with
    | O => NoFuel
    | S fuel =>
        let! w := LOADBYTES m p 8 in
        let s := xor_x 0 w s in
        let! c := STOREBYTES c p (x s 0) 8 in
        let! (c, s) :=
          if ASCON_AEAD_RATE v =? 16 then
            let! w := LOADBYTES m (p + 8) 8 in
            let s := xor_x 1 w s in
            let! c := STOREBYTES c (p + 8) (x s 1) 8 in
            Done (c, s)
          else Done (c, s) in
        let! s := P unroll inlp s (AEAD_ROUNDS v) in
        encrypt_blocks fuel c m (p + ASCON_AEAD_RATE v) (mlen - ASCON_AEAD_RATE v) s
    end
  else Done (c, p, mlen, s).

Definition ascon_encrypt (c m : list Z) (mlen : Z) (s : ascon_state_t)
  : exec (list Z * ascon_state_t) :=
  let! (c, p, mlen, s) := encrypt_blocks (Z.to_nat mlen) c m 0 mlen s in
  let! (px, c, p, mlen, s) :=
    if (ASCON_AEAD_RATE v =? 16) && (8 <=? mlen) then
      let! w := LOADBYTES m p 8 in
      let s := xor_x 0 w s in
      let! c := STOREBYTES c p (x s 0) 8 in
      Done (1%nat, c, p + 8, mlen - 8, s)
    else Done (0%nat, c, p, mlen, s) in
  let s := xor_x px (PAD mlen) s in
  if mlen =? 0 then Done (c, s) else
  let! w := LOADBYTES m p mlen in
  let s := xor_x px w s in
  let! c := STOREBYTES c p (x s px) mlen in
  Done (c, s).

Fixpoint decrypt_blocks (fuel : nat) (m c : list Z) (p clen : Z) (s : ascon_state_t)
  : exec (list Z * Z * Z * ascon_state_t) :=
  if ASCON_AEAD_RATE v <=? clen then
    match fuel with
    | O => NoFuel
    | S fuel =>
        let! cx := LOADBYTES c p 8 in
        let s := xor_x 0 cx s in
        let! m := STOREBYTES m p (x s 0) 8 in
        let s := set_x 0 cx s in
        let! (m, s) :=
          if ASCON_AEAD_RATE v =? 16 then
            let! cx := LOADBYTES c (p + 8) 8 in
            let s := xor_x 1 cx s in
            let! m := STOREBYTES m (p + 8) (x s 1) 8 in
            Done (m, set_x 1 cx s)
          else Done (m, s) in
        let! s := P unroll inlp s (AEAD_ROUNDS v) in
        decrypt_blocks fuel m c (p + ASCON_AEAD_RATE v) (clen - ASCON_AEAD_RATE v) s
    end
  else Done (m, p, clen, s).

Definition ascon_decrypt (m c : list Z) (clen : Z) (s : ascon_state_t)
  : exec (list Z * ascon_state_t) :=
  let! (m, p, clen, s) := decrypt_blocks (Z.to_nat clen) m c 0 clen s in
  let! (px, m, p, clen, s) :=
    if (ASCON_AEAD_RATE v =? 16) && (8 <=? clen) then
      let! cx := LOADBYTES c p 8 in
      let s := xor_x 0 cx s in
      let! m := STOREBYTES m p (x s 0) 8 in
      Done (1%nat, m, p + 8, clen - 8, set_x 0 cx s)
    else Done (0%nat, m, p, clen, s) in
  let s := xor_x px (PAD clen) s in
  if clen =? 0 then Done (m, s) else
  let! cx := LOADBYTES c p clen in
  let s := xor_x px cx s in
  let! m := STOREBYTES m p (x s px) clen in
  let! y := CLEAR (x s px) clen in
  let s := set_x px y s in
  Done (m, xor_x px cx s).

Definition small_encrypt (c m : list Z) (mlen : Z) (ad : list Z) (adlen : Z)
  (tag npub k : list Z) : exec (Z * Z * list Z * list Z) :=
  let clen := mlen in
  let! key := ascon_loadkey k in
  let! s := ascon_initaead key npub in
  let! s := ascon_adata ad adlen s in
  let! (c, s) := ascon_encrypt c m mlen s in
  let! s := ascon_final key s in
  let! tag := store_tag tag s in
  Done (0, clen, c, tag).

Definition small_decrypt (m tag c : list Z) (clen : Z) (ad : list Z) (adlen : Z)
  (npub k : list Z) : exec (Z * Z * list Z) :=
  let mlen := clen in
  let! key := ascon_loadkey k in
  let! s := ascon_initaead key npub in
  let! s := ascon_adata ad adlen s in
  let! (m, s) := ascon_decrypt m c clen s in
  let! s := ascon_final key s in
  let! t0 := LOADBYTES tag 0 8 in
  let s := xor_x 3 t0 s in
  let! t1 := LOADBYTES tag 8 8 in
  let s := xor_x 4 t1 s in
  Done (NOTZERO (x s 3) (x s 4), mlen, m).

(** ** [update.c], [aead.c] and [crypto_aead.c] of [armv7m_lowsize] *)

Definition ASCON_ABSORB : Z := 0x1.
Definition ASCON_SQUEEZE : Z := 0x2.
Definition ASCON_INSERT : Z := 0x4.
Definition ASCON_ENCRYPT : Z := Z.lor ASCON_ABSORB ASCON_SQUEEZE.
Definition ASCON_DECRYPT : Z := Z.lor (Z.lor ASCON_ABSORB ASCON_SQUEEZE) ASCON_INSERT.

(** [mode & flag] *)
Definition has_flag (mode flag : Z) : bool := negb (Z.land mode flag =? 0).

(** [while (len >= 8)] of [ascon_update]; [i] is the word of the state. *)
Fixpoint update_words (fuel : nat) (mode : Z) (i : nat) (out inb : list Z) (p len : Z)
  (s : ascon_state_t) : exec (nat * list Z * Z * Z * ascon_state_t) :=
  if 8 <=? len then
    match fuel with
    | O => NoFuel
    | S fuel =>
        let! tmp := LOADBYTES inb p 8 in
        let s := xor_x i tmp s in
        let! out := if has_flag mode ASCON_SQUEEZE then STOREBYTES out p (x s i) 8 else Done out in
        let s := if has_flag mode ASCON_INSERT then set_x i tmp s else s in
        let i := if ASCON_AEAD_RATE v =? 16
                 then if Z.of_nat (S i) =? ASCON_AEAD_RATE v / 8 then 0%nat else S i
                 else i in
        let! s := if (Z.of_nat i =? 0) then P unroll inlp s (AEAD_ROUNDS v) else Done s in
        update_words fuel mode i out inb (p + 8) (len - 8) s
    end
  else Done (i, out, p, len, s).

Definition ascon_update (mode : Z) (s : ascon_state_t) (out inb : list Z) (len : Z)
  : exec (list Z * ascon_state_t) :=
  let! (i, out, p, len, s) := update_words (Z.to_nat len) mode 0 out inb 0 len s in
  let! tmp := LOADBYTES inb p len in
  let s := xor_x i tmp s in
  let! out := if has_flag mode ASCON_SQUEEZE then STOREBYTES out p (x s i) len else Done out in
  let! s := if has_flag mode ASCON_INSERT then
              let! y := CLEAR (x s i) len in
              let s := set_x i y s in
              Done (xor_x i tmp s)
            else Done s in
  Done (out, xor_x i (PAD len) s).

(** The tag and the output.  The associated data has no output buffer. *)
Definition ascon_aead (t out inb : list Z) (tlen : Z) (ad : list Z) (adlen : Z)
  (npub k : list Z) (mode : Z) : exec (list Z * list Z) :=
  let! key := ascon_loadkey k in
  let! s := ascon_initaead key npub in
  let! s :=
    if adlen =? 0 then Done s else
    let! (_, s) := ascon_update ASCON_ABSORB s [] ad adlen in
    P unroll inlp s (AEAD_ROUNDS v) in
  let s := xor_x 4 1 s in
  let! (out, s) := ascon_update mode s out inb tlen in
  let! s := ascon_final key s in
  let! t := store_tag t s in
  Done (t, out).

Definition lowsize_encrypt (c m : list Z) (mlen : Z) (ad : list Z) (adlen : Z)
  (tag npub k : list Z) : exec (Z * Z * list Z * list Z) :=
  let clen := mlen in
  let! (tag, c) := ascon_aead tag c m mlen ad adlen npub k ASCON_ENCRYPT in
  Done (0, clen, c, tag).

Definition lowsize_decrypt (m tag c : list Z) (clen : Z) (ad : list Z) (adlen : Z)
  (npub k : list Z) : exec (Z * Z * list Z) :=
  let mlen := clen in
  let! (t, m) := ascon_aead (replicate 16 0) m c mlen ad adlen npub k ASCON_DECRYPT in
  let! result := verify_tag t tag in
  Done (result, mlen, m).
End aead.

(** ** The word accesses agree with the reference ones *)

Lemma testbit_byte_mask k x n :
  0 <= k -> 0 <= n -> Z.testbit (Z.land (Z.shiftl 0xff (8 * k)) x) n = (n / 8 =? k) && Z.testbit x n.
Proof.
  intros Hk Hn. rewrite Z.land_spec. f_equal. change 0xff with (Z.ones 8).
  pose proof (Z.div_mod n 8 ltac:(lia)). pose proof (Z.mod_pos_bound n 8 ltac:(lia)).
  destruct (Z.ltb_spec n (8 * k)).
  - rewrite Z.shiftl_spec_low by lia. symmetry. apply Z.eqb_neq. lia.
  - rewrite Z.shiftl_spec, Z.testbit_ones_nonneg by lia.
    destruct (Z.ltb_spec (n - 8 * k) 8), (Z.eqb_spec (n / 8) k); lia || done.
Qed.

Lemma testbit_byte_shift k m x n :
  0 <= k -> 0 <= n ->
  Z.testbit (Z.shiftl (Z.land (Z.shiftl 0xff (8 * k)) x) m) n =
  (8 * k + m <=? n) && (n <? 8 * k + m + 8) && Z.testbit x (n - m).
Proof.
  intros Hk Hn. destruct (Z.ltb_spec n m) as [Hlt|Hge].
  - rewrite Z.shiftl_spec by lia. rewrite Z.testbit_neg_r by lia.
    destruct (Z.leb_spec (8 * k + m) n); [lia|done].
  - rewrite Z.shiftl_spec, testbit_byte_mask by lia. f_equal.
    pose proof (Z.div_mod (n - m) 8 ltac:(lia)). pose proof (Z.mod_pos_bound (n - m) 8 ltac:(lia)).
    destruct (Z.eqb_spec ((n - m) / 8) k), (Z.leb_spec (8 * k + m) n), (Z.ltb_spec n (8 * k + m + 8));
      lia || done.
Qed.

(** The masks of [U64BIG], by byte. *)
Lemma U64BIG_bytes x :
  U64BIG x =
  let b k m := Z.shiftl (Z.land (Z.shiftl 0xff (8 * k)) x) m in
  Z.lor (Z.lor (Z.lor (Z.lor (Z.lor (Z.lor (Z.lor
    (b 0 56) (b 1 40)) (b 2 24)) (b 3 8)) (b 4 (-8))) (b 5 (-24))) (b 6 (-40))) (b 7 (-56)).
Proof. reflexivity. Qed.

Lemma testbit_U64BIG x n :
  0 <= n < 64 -> Z.testbit (U64BIG x) n = Z.testbit x (8 * (7 - n / 8) + n mod 8).
Proof.
  intros Hn. rewrite U64BIG_bytes. cbv zeta. destruct (div8_range n Hn) as (H1 & H2 & H3).
  rewrite !Z.lor_spec.
  rewrite !testbit_byte_shift by lia.
  assert (n / 8 = 0 \/ n / 8 = 1 \/ n / 8 = 2 \/ n / 8 = 3 \/ n / 8 = 4 \/ n / 8 = 5 \/ n / 8 = 6 \/ n / 8 = 7)
    as Hc by lia.
  repeat destruct Hc as [Hc|Hc]; rewrite Hc in *;
    repeat match goal with
    | |- context [?a <=? ?b] => destruct (Z.leb_spec a b); try lia
    | |- context [?a <? ?b] => destruct (Z.ltb_spec a b); try lia
    end; cbn [andb orb]; rewrite ?orb_false_r; f_equal; lia.
Qed.

Lemma U64BIG_in_u x : 0 <= x -> in_u 64 (U64BIG x).
Proof.
  intros Hx. rewrite U64BIG_bytes. cbv zeta. apply in_u_bits; [lia| |].
  - intros n Hn. rewrite !Z.lor_spec, !testbit_byte_shift by lia.
    repeat match goal with |- context [n <? ?b] => rewrite (proj2 (Z.ltb_ge n b)) by lia end.
    by rewrite !andb_false_r.
  - rewrite !Z.lor_nonneg, !Z.shiftl_nonneg, !Z.land_nonneg. lia.
Qed.

Lemma U64BIG_word l : bytes_ok l -> zlen l <= 8 -> U64BIG (le_get l) = word_of l.
Proof.
  intros Hl H8. apply (word_ext 64); [|by apply word_of_in_u|lia|].
  - apply U64BIG_in_u. apply le_get_bound. done.
  - intros n Hn. destruct (div8_range n Hn) as (H1 & H2 & H3).
    rewrite testbit_U64BIG, testbit_word_of, testbit_le_get by (done || lia).
    replace (8 * (7 - n / 8) + n mod 8) with (n mod 8 + (7 - n / 8) * 8) by lia.
    rewrite Z.div_add, Z.mod_add, Z.div_small, (Z.mod_small (n mod 8)) by lia. done.
Qed.

Lemma le_put_lookup n z i : (i < n)%nat -> le_put n z !! i = Some (u8 (Z.shiftr z (8 * Z.of_nat i))).
Proof.
  revert z i. induction n as [|n IH]; intros z i Hi; [lia|]. cbn [le_put]. destruct i as [|i].
  - cbn. by rewrite Z.shiftr_0_r.
  - cbn [lookup list_lookup]. rewrite IH by lia. do 2 f_equal. change 256 with (2 ^ 8).
    rewrite <- Z.shiftr_div_pow2, Z.shiftr_shiftr by lia. f_equal. lia.
Qed.

Lemma U64BIG_bytes_of w n :
  0 <= n <= 8 -> ztake n (le_put 8 (U64BIG w)) = bytes_of w (Z.to_nat n).
Proof.
  intros Hn. apply list_eq. intros i. unfold ztake. rewrite bytes_of_lookup. case_decide.
  - rewrite lookup_take_lt, le_put_lookup by lia. f_equal. unfold GETBYTE.
    apply (word_ext 8); [apply in_u_uwrap; lia|apply in_u_uwrap; lia|lia|]. intros b Hb.
    rewrite !testbit_uwrap, !Z.shiftr_spec, testbit_U64BIG by lia. f_equal. f_equal.
    replace (b + 8 * Z.of_nat i) with (b + Z.of_nat i * 8) by lia.
    rewrite Z.div_add, Z.mod_add, Z.div_small, Z.mod_small by lia. lia.
  - rewrite lookup_take_ge by lia. done.
Qed.
