(* ===== verification/AsconArmRefine.v ===== *)
(** * The Arm implementations of Ascon refine its specification

    [Small] ([armv7m], [armv7m_small]) and [Lowsize] of [AsconArmAead], for every scheme and
    every configuration of the permutation, return what the specification of [AsconSpec]
    says; with [AsconRefine], the implementations are interchangeable. *)

From stdpp Require Import base tactics numbers list.
From Stdlib Require Import ZArith Lia Btauto.
From S2P Require Import Prelude AsconWord Ascon AsconSpec AsconRefine AsconArm AsconArmAead.

Local Open Scope Z_scope.
Local Open Scope infuse_scope.

(** Conversion unfolds the permutations last. *)
Local Strategy 500 [x set_x xor_x].
Local Strategy 1000 [P12 P8 P6 ROUND rounds].

(** ** Words *)

Lemma LOAD_slice buf p n :
  bytes_ok buf -> 0 <= p -> 0 <= n <= 8 -> p + n <= zlen buf ->
  LOADBYTES buf p n = Done (word_of (slice buf p n)).
Proof.
  intros Hb Hp Hn Hl. unfold LOADBYTES.
  rewrite !(proj2 (Z.leb_le _ _)) by lia. cbn [andb]. f_equal. apply U64BIG_word.
  - by apply slice_ok.
  - rewrite zlen_slice by lia. lia.
Qed.

Lemma STORE_spec buf p w n :
  0 <= p -> 0 <= n <= 8 -> p + n <= zlen buf ->
  STOREBYTES buf p w n = Done (zwrite p (bytes_of w (Z.to_nat n)) buf).
Proof.
  intros Hp Hn Hl. unfold STOREBYTES. rewrite !(proj2 (Z.leb_le _ _)) by lia. cbn [andb].
  by rewrite U64BIG_bytes_of.
Qed.

Lemma CLEAR_spec w n : 0 <= n < 8 -> CLEAR w n = Done (Z.land w (low_mask n)).
Proof.
  intros Hn. unfold CLEAR. rewrite (proj2 (Z.leb_le _ _)), (proj2 (Z.ltb_lt _ _)) by lia. cbn [andb].
  do 2 f_equal. unfold low_mask. apply Z.bits_inj'. intros k Hk.
  change (2 ^ 64 - 1) with (Z.ones 64). rewrite Z.shiftr_spec, !Z.testbit_ones_nonneg by lia.
  destruct (Z.ltb_spec (k + 8 * n) 64), (Z.ltb_spec k (64 - 8 * n)); lia || done.
Qed.

(** A fold of the upper half of a word onto the lower half loses no bit. *)
Lemma fold_half_zero r w :
  0 <= w -> (forall k, 0 <= k < w -> Z.testbit (Z.lor r (Z.shiftr r w)) k = false) ->
  forall k, 0 <= k < 2 * w -> Z.testbit r k = false.
Proof.
  intros Hw H k Hk. destruct (Z.ltb_spec k w).
  - specialize (H k ltac:(lia)). rewrite Z.lor_spec in H. by apply orb_false_iff in H as [H _].
  - specialize (H (k - w) ltac:(lia)). rewrite Z.lor_spec, Z.shiftr_spec in H by lia.
    apply orb_false_iff in H as [_ H]. by replace (k - w + w) with k in H by lia.
Qed.

Lemma fold_byte_zero r :
  in_u 64 r ->
  let r1 := Z.lor r (Z.shiftr r 32) in
  let r2 := Z.lor r1 (Z.shiftr r1 16) in
  let r3 := Z.lor r2 (Z.shiftr r2 8) in
  Z.land r3 0xff = 0 -> r = 0.
Proof.
  intros Hr r1 r2 r3 Hz.
  assert (forall k, 0 <= k < 8 -> Z.testbit r3 k = false) as H3.
  { intros k Hk. apply (f_equal (fun z => Z.testbit z k)) in Hz. rewrite Z.land_spec, Z.bits_0 in Hz.
    change 0xff with (Z.ones 8) in Hz. by rewrite Z.ones_spec_low, andb_true_r in Hz by lia. }
  pose proof (fold_half_zero r2 8 ltac:(lia) H3) as H2.
  pose proof (fold_half_zero r1 16 ltac:(lia) H2) as H1.
  pose proof (fold_half_zero r 32 ltac:(lia) H1) as H0.
  apply Z.bits_inj'. intros n Hn. rewrite Z.bits_0.
  destruct (Z.ltb_spec n 64); [apply H0; lia|]. apply (testbit_above 64); unfold in_u in Hr; lia.
Qed.

Lemma NOTZERO_spec a b :
  in_u 64 a -> in_u 64 b -> NOTZERO a b = if decide (a = 0 /\ b = 0) then 0 else -1.
Proof.
  intros Ha Hb. unfold NOTZERO. cbv zeta. case_decide as Hd.
  { by destruct Hd as [-> ->]. }
  assert (in_u 64 (Z.lor a b)) as Hr by (apply in_u_lor; done).
  pose proof (fold_byte_zero (Z.lor a b) Hr) as Hz. cbv zeta in Hz.
  match goal with |- context [Z.land ?r 0xff] => set (t := Z.land r 0xff) in * end.
  assert (0 <= t < 256) as Ht.
  { unfold t. change 0xff with (2 ^ 8 - 1). rewrite land_ones_mod by lia. apply Z.mod_pos_bound. lia. }
  assert (t <> 0) as Hne.
  { intros E. apply Hz in E. apply Z.lor_eq_0_iff in E. tauto. }
  rewrite Z.shiftr_div_pow2 by lia. change (2 ^ 8) with 256. by rewrite Z.div_small by lia.
Qed.

(** ** Permutation, key and tag *)

Section mode.
Context (v : variant) (unroll inlp : bool).

Lemma P_pb s : state_ok s -> P unroll inlp s (AEAD_ROUNDS v) = Done (v_pb v s).
Proof.
  intros Hs. rewrite P_rounds by (try done; destruct v; unfold nr_ok; cbn; lia).
  destruct (rounds_P s) as (_ & E8 & E6). destruct v; cbn [AEAD_ROUNDS ASCON_AEAD_RATE Z.eqb Pos.eqb v_pb];
    by rewrite ?E8, ?E6.
Qed.

Lemma P_12 s : state_ok s -> P unroll inlp s 12 = Done (P12 s).
Proof. intros Hs. rewrite P_rounds by (done || (unfold nr_ok; lia)). by destruct (rounds_P s) as (-> & _). Qed.

End mode.

(** Runs the loads and stores of the goal. *)
Ltac run_arm :=
  repeat first
    [ rewrite LOAD_slice by (assumption || lia)
    | rewrite STORE_spec by zlen_stores
    | progress cbn [exec_bind]
    | progress change (Z.to_nat 8) with 8%nat ].

Section keys.
Context (v : variant) (unroll inlp : bool).

Lemma state_ok_words a b c d e :
  in_u 64 a -> in_u 64 b -> in_u 64 c -> in_u 64 d -> in_u 64 e ->
  state_ok {| sx0 := a; sx1 := b; sx2 := c; sx3 := d; sx4 := e |}.
Proof using Type. intros ? ? ? ? ? [|[|[|[|]]]]; done. Qed.

Lemma arm_key_16 k npub :
  v <> V80pq -> zlen k = 16 -> zlen npub = 16 -> bytes_ok k -> bytes_ok npub ->
  exists key,
    ascon_loadkey v k = Done key /\
    ascon_initaead v unroll inlp key npub = Done (spec_init v k npub) /\
    forall s, state_ok s ->
      exists s', ascon_final v unroll inlp key s = Done s' /\ tag_of s' = spec_tag v k s /\ state_ok s'.
Proof.
  intros Hv Hk Hn Hko Hno. rewrite spec_init_16 by done.
  assert (CRYPTO_KEYBYTES v = 16) as Hkb by (by destruct v).
  assert (in_u 64 (word_of (slice k 0 8))) as HK0 by (apply slice_word_in_u; done || lia).
  assert (in_u 64 (word_of (slice k 8 8))) as HK1 by (apply slice_word_in_u; done || lia).
  unfold ascon_loadkey, ascon_initaead, ascon_final. rewrite Hkb. cbn [Z.eqb Pos.eqb]. run_arm.
  eexists. split_and!; [done| |].
  - cbn [kx0 kx1]. run_arm. rewrite P_12.
    + cbn [exec_bind]. by destruct v.
    + apply state_ok_words; try done; try (apply slice_word_in_u; done || lia).
      destruct v; cbn; unfold in_u; lia.
  - intros s Hs. cbn [kx0 kx1]. rewrite spec_tag_16 by done.
    assert (state_ok (if ASCON_AEAD_RATE v =? 8
      then xor_x 2 (word_of (slice k 8 8)) (xor_x 1 (word_of (slice k 0 8)) s)
      else xor_x 3 (word_of (slice k 8 8)) (xor_x 2 (word_of (slice k 0 8)) s))) as Hs'.
    { destruct (_ =? _); repeat apply state_ok_xor; done. }
    rewrite P_12 by done. cbn [exec_bind]. eexists. split_and!; [done|by destruct v|].
    repeat apply state_ok_xor; auto with word.
Qed.

Lemma done4_inj {A B C D} (a a' : A) (b b' : B) (c c' : C) (d d' : D) :
  Done (a, b, c, d) = Done (a', b', c', d') -> a = a' /\ b = b' /\ c = c' /\ d = d'.
Proof using Type. by intros [= -> -> -> ->]. Qed.

(** The constant of Ascon-80pq has no bit of the first key word. *)
Lemma iv_80pq K0 : in_u 32 K0 -> Z.lxor K0 0xa0400c0600000000 = Z.lor ASCON_80PQ_IV K0.
Proof using Type.
  intros HK. change 0xa0400c0600000000 with ASCON_80PQ_IV. apply Z.bits_inj'. intros n Hn.
  rewrite Z.lxor_spec, Z.lor_spec. change ASCON_80PQ_IV with (Z.shiftl 0xa0400c06 32).
  destruct (Z.ltb_spec n 32).
  - rewrite Z.shiftl_spec_low by lia. btauto.
  - rewrite (testbit_above 32 K0) by (unfold in_u in HK; lia). btauto.
Qed.

Lemma arm_key_20 k npub :
  v = V80pq -> zlen k = 20 -> zlen npub = 16 -> bytes_ok k -> bytes_ok npub ->
  exists key,
    ascon_loadkey v k = Done key /\
    ascon_initaead v unroll inlp key npub = Done (spec_init v k npub) /\
    forall s, state_ok s ->
      exists s', ascon_final v unroll inlp key s = Done s' /\ tag_of s' = spec_tag v k s /\ state_ok s'.
Proof.
  intros -> Hk Hn Hko Hno. destruct (initialize_80pq k npub) as (K0 & K1 & K2 & E & Hf); try done.
  unfold Ascon80pq.initialize in E. rewrite !LOADBYTES_slice in E by (done || lia).
  cbn [exec_bind] in E. apply done4_inj in E as (EK0 & EK1 & EK2 & ES).
  assert (in_u 32 K0) as HK0.
  { rewrite <- EK0. apply hi32_in_u. apply slice_word_in_u; assumption || lia. }
  assert (in_u 64 K0) as HK0' by (unfold in_u in *; lia).
  assert (in_u 64 K1) as HK1 by (rewrite <- EK1; apply slice_word_in_u; assumption || lia).
  assert (in_u 64 K2) as HK2 by (rewrite <- EK2; apply slice_word_in_u; assumption || lia).
  unfold ascon_loadkey, ascon_initaead, ascon_final. cbn [CRYPTO_KEYBYTES Z.eqb Pos.eqb]. run_arm.
  eexists. split_and!; [done| |].
  - cbn [kx0 kx1 kx2]. run_arm. change (KEYROT 0 (word_of (slice k 0 4))) with (Z.shiftr (word_of (slice k 0 4)) 32).
    rewrite <- ES, EK0, EK1, EK2, iv_80pq by done. rewrite P_12; [done|].
    apply state_ok_words; try assumption; try (apply slice_word_in_u; assumption || lia).
    apply in_u_lor; [lia| |done]. by split.
  - intros s Hs. cbn [kx0 kx1 kx2]. change (KEYROT 0 (word_of (slice k 0 4))) with (Z.shiftr (word_of (slice k 0 4)) 32).
    rewrite EK0, EK1, EK2, <- Hf. unfold KEYROT. rewrite Z.shiftr_0_l, Z.lor_0_r.
    assert (forall a b, in_u 64 b -> in_u 64 (Z.lor (u64 (Z.shiftl a 32)) (Z.shiftr b 32))).
    { intros a b Hb. apply in_u_lor; [lia|by apply in_u_uwrap|by apply in_u_shiftr]. }
    match goal with |- context [P _ _ ?t 12] => assert (state_ok t) as Ht end.
    { repeat apply state_ok_xor; auto. by apply in_u_uwrap. }
    rewrite P_12 by assumption. cbn [exec_bind]. eexists. split_and!; [done|done|].
    by repeat apply state_ok_xor; auto with word.
Qed.
End keys.

Lemma arm_key v unroll inlp k npub :
  zlen k = v_keylen v -> zlen npub = 16 -> bytes_ok k -> bytes_ok npub ->
  exists key,
    ascon_loadkey v k = Done key /\
    ascon_initaead v unroll inlp key npub = Done (spec_init v k npub) /\
    forall s, state_ok s ->
      exists s', ascon_final v unroll inlp key s = Done s' /\ tag_of s' = spec_tag v k s /\ state_ok s'.
Proof.
  intros Hk Hn Hko Hno. destruct v; [apply arm_key_16|apply arm_key_16|apply arm_key_20]; done.
Qed.

Lemma store_tag_spec tag s : zlen tag = 16 -> store_tag tag s = Done (tag_of s).
Proof.
  intros Ht. rewrite <- (set_tag_spec tag s Ht). unfold store_tag, set_tag. run_arm. run_word. done.
Qed.

(** ** One block, of one word or of two *)

Definition block_state (v : variant) (mode : amode) (inb : list Z) (p : Z) (s : ascon_state_t)
  : ascon_state_t :=
  let s := put mode 0 (word_of (slice inb p 8)) s in
  match v with V128a => put mode 1 (word_of (slice inb (p + 8) 8)) s | _ => s end.

Definition block_out (v : variant) (inb : list Z) (p : Z) (s : ascon_state_t) : list Z :=
  let o := bytes_of (Z.lxor (x s 0) (word_of (slice inb p 8))) 8 in
  match v with
  | V128a => o ++ bytes_of (Z.lxor (x s 1) (word_of (slice inb (p + 8) 8))) 8
  | _ => o
  end.

Lemma zlen_block_out v inb p s : zlen (block_out v inb p s) = ASCON_AEAD_RATE v.
Proof. unfold block_out. destruct v; by rewrite ?zlen_app, !zlen_bytes_of. Qed.

Lemma duplex_block v mode inb p s len :
  0 <= p -> ASCON_AEAD_RATE v <= len -> p + len <= zlen inb ->
  duplex (v_rate v) (v_pb v) mode 0 s (slice inb p len) =
  let '(o, sf) := duplex (v_rate v) (v_pb v) mode 0 (v_pb v (block_state v mode inb p s))
                    (slice inb (p + ASCON_AEAD_RATE v) (len - ASCON_AEAD_RATE v)) in
  (block_out v inb p s ++ o, sf).
Proof.
  intros Hp Hl Hlen. destruct v; cbn [ASCON_AEAD_RATE v_rate v_pb] in *.
  - by rewrite duplex_block1 by lia.
  - by rewrite duplex_block2 by lia.
  - by rewrite duplex_block1 by lia.
Qed.

Lemma block_state_ok v mode inb p s :
  0 <= p -> state_ok s -> bytes_ok inb -> p + ASCON_AEAD_RATE v <= zlen inb ->
  state_ok (block_state v mode inb p s).
Proof.
  intros Hp Hs Hin Hl. unfold block_state. destruct v; cbn [ASCON_AEAD_RATE] in *;
    repeat apply put_ok; try done; apply slice_word_in_u; (done || lia).
Qed.

Lemma rate_words v : ASCON_AEAD_RATE v = 8 * Z.of_nat (v_rate v).
Proof. by destruct v. Qed.

(** ** The loops of [aead.c] *)

Section small.
Context (v : variant) (unroll inlp : bool) (inb : list Z) (Hin : bytes_ok inb).

Lemma adata_blocks_ok fuel p len s :
  0 <= p -> 0 <= len -> p + len <= zlen inb -> (Z.to_nat len <= fuel)%nat -> state_ok s ->
  absorb_ok (v_rate v) (v_pb v) Absorb inb p len s (adata_blocks v unroll inlp fuel inb p len s).
Proof using Hin.
  revert p len s. induction fuel as [|fuel IH]; intros p len s Hp Hl Hpl Hf Hs;
    cbn [adata_blocks]; destruct (Z.leb_spec (ASCON_AEAD_RATE v) len);
    try (apply absorb_ok_done; [pose proof (rate_words v); lia|done]);
    [destruct v; cbn [ASCON_AEAD_RATE] in *; lia|].
  assert (8 <= ASCON_AEAD_RATE v) as H8 by (destruct v; cbn; lia).
  pose proof (block_state_ok v Absorb inb p s Hp Hs Hin ltac:(lia)) as Hb.
  rewrite LOAD_slice by (done || lia). cbn [exec_bind].
  match goal with |- context [let! s := ?e in _] => assert (e = Done (block_state v Absorb inb p s)) as -> end.
  { unfold block_state. destruct v; cbn [ASCON_AEAD_RATE Z.eqb Pos.eqb] in *; rewrite ?put_enc by done; try done.
    rewrite LOAD_slice by (done || lia). done. }
  cbn [exec_bind]. rewrite P_pb by done. cbn [exec_bind].
  eapply (absorb_ok_step _ _ _ _ _ _ _ (ASCON_AEAD_RATE v)); [lia| |apply IH].
  - rewrite duplex_block by lia. by destruct (duplex _ _ _ _ (v_pb v _) _).
  - lia.
  - lia.
  - lia.
  - lia.
  - by apply v_pb_ok.
Qed.

Lemma encrypt_blocks_ok fuel out p len s :
  0 <= p -> 0 <= len -> p + len <= zlen inb -> p + len <= zlen out ->
  (Z.to_nat len <= fuel)%nat -> state_ok s ->
  blocks_ok (v_rate v) (v_pb v) Encrypt inb out p len s (encrypt_blocks v unroll inlp fuel out inb p len s).
Proof using Hin.
  revert out p len s. induction fuel as [|fuel IH]; intros out p len s Hp Hl Hpl Hpo Hf Hs;
    cbn [encrypt_blocks]; destruct (Z.leb_spec (ASCON_AEAD_RATE v) len);
    try (apply blocks_ok_done; try done; pose proof (rate_words v); lia);
    [destruct v; cbn [ASCON_AEAD_RATE] in *; lia|].
  assert (8 <= ASCON_AEAD_RATE v) as H8 by (destruct v; cbn; lia).
  pose proof (block_state_ok v Encrypt inb p s Hp Hs Hin ltac:(lia)) as Hb.
  pose proof (zlen_block_out v inb p s) as Hbo.
  rewrite LOAD_slice by (done || lia). cbn [exec_bind]. rewrite STORE_spec by lia. cbn [exec_bind].
  match goal with |- context [let! (_, _) := ?e in _] =>
    assert (e = Done (zwrite p (block_out v inb p s) out, block_state v Encrypt inb p s)) as -> end.
  { unfold block_state, block_out. change (Z.to_nat 8) with 8%nat.
    destruct v; cbn [ASCON_AEAD_RATE Z.eqb Pos.eqb] in *; rewrite ?put_enc by done; try done.
    run_arm. by rewrite zwrite_word_next by lia. }
  cbn [exec_bind]. rewrite P_pb by done. cbn [exec_bind].
  eapply (blocks_ok_step _ _ _ _ _ _ _ _ (block_out v inb p s)); try lia.
  - rewrite duplex_block, Hbo by lia. done.
  - rewrite Hbo. apply IH; rewrite ?zlen_zwrite by lia; try lia. by apply v_pb_ok.
Qed.

Lemma decrypt_blocks_ok fuel out p len s :
  0 <= p -> 0 <= len -> p + len <= zlen inb -> p + len <= zlen out ->
  (Z.to_nat len <= fuel)%nat -> state_ok s ->
  blocks_ok (v_rate v) (v_pb v) Decrypt inb out p len s (decrypt_blocks v unroll inlp fuel out inb p len s).
Proof using Hin.
  revert out p len s. induction fuel as [|fuel IH]; intros out p len s Hp Hl Hpl Hpo Hf Hs;
    cbn [decrypt_blocks]; destruct (Z.leb_spec (ASCON_AEAD_RATE v) len);
    try (apply blocks_ok_done; try done; pose proof (rate_words v); lia);
    [destruct v; cbn [ASCON_AEAD_RATE] in *; lia|].
  assert (8 <= ASCON_AEAD_RATE v) as H8 by (destruct v; cbn; lia).
  pose proof (block_state_ok v Decrypt inb p s Hp Hs Hin ltac:(lia)) as Hb.
  pose proof (zlen_block_out v inb p s) as Hbo.
  rewrite LOAD_slice by (done || lia). cbn [exec_bind]. rewrite STORE_spec by lia. cbn [exec_bind].
  match goal with |- context [let! (_, _) := ?e in _] =>
    assert (e = Done (zwrite p (block_out v inb p s) out, block_state v Decrypt inb p s)) as -> end.
  { unfold block_state, block_out. change (Z.to_nat 8) with 8%nat.
    destruct v; cbn [ASCON_AEAD_RATE Z.eqb Pos.eqb] in *; rewrite ?put_dec; try done.
    run_arm. by rewrite zwrite_word_next by lia. }
  cbn [exec_bind]. rewrite P_pb by done. cbn [exec_bind].
  eapply (blocks_ok_step _ _ _ _ _ _ _ _ (block_out v inb p s)); try lia.
  - rewrite duplex_block, Hbo by lia. done.
  - rewrite Hbo. apply IH; rewrite ?zlen_zwrite by lia; try lia. by apply v_pb_ok.
Qed.
End small.

(** ** The last block: the padding is added before the data *)

Lemma testbit_PAD n k : 0 <= n <= 7 -> 0 <= k < 64 -> Z.testbit (PAD n) k = (k / 8 =? 7 - n) && (k mod 8 =? 7).
Proof.
  intros Hn Hk. unfold PAD. rewrite testbit_SETBYTE by (unfold byte_ok; lia). f_equal.
  destruct (div8_range k Hk) as (_ & H & _).
  assert (k mod 8 = 0 \/ k mod 8 = 1 \/ k mod 8 = 2 \/ k mod 8 = 3 \/ k mod 8 = 4 \/ k mod 8 = 5 \/
          k mod 8 = 6 \/ k mod 8 = 7) as Hc by lia.
  by repeat destruct Hc as [->|Hc]; [..|rewrite Hc].
Qed.

Section tail.
Context (a : Z) (l : list Z) (Ha : in_u 64 a) (Hl : bytes_ok l) (H8 : zlen l < 8).

Lemma pad_bytes :
  bytes_of (Z.lxor (Z.lxor a (PAD (zlen l))) (word_of l)) (length l) =
  bytes_of (Z.lxor a (word_of l)) (length l).
Proof using H8.
  pose proof (zlen_nonneg l). apply bytes_of_ext; [unfold zlen in *; lia|]. intros k Hk Hkl.
  rewrite !Z.lxor_spec, testbit_PAD by lia. rewrite (proj2 (Z.eqb_neq _ _)) by (unfold zlen; lia). btauto.
Qed.

Lemma pad_clear :
  Z.lxor (Z.land (Z.lxor (Z.lxor a (PAD (zlen l))) (word_of l)) (low_mask (zlen l))) (word_of l) =
  Z.lxor (Z.lor (Z.land a (low_mask (zlen l))) (word_of l)) (PAD (zlen l)).
Proof using Ha Hl H8.
  pose proof (zlen_nonneg l). assert (in_u 64 (word_of l)) as Hw by (apply word_of_in_u; done || lia).
  assert (in_u 64 (PAD (zlen l))) as Hp by apply SETBYTE_in_u.
  pose proof (low_mask_in_u (zlen l) ltac:(lia)) as Hm. apply (word_ext 64).
  - apply in_u_lxor; [lia| |done]. apply in_u_land; [lia| |apply Hm]. auto with word.
  - apply in_u_lxor; [lia| |done]. apply in_u_lor; [lia| |done]. apply in_u_land; [lia|done|apply Hm].
  - lia.
  - intros k Hk. rewrite !Z.lxor_spec, Z.lor_spec, !Z.land_spec, !Z.lxor_spec, testbit_PAD by lia.
    destruct (testbit_masks (zlen l) k ltac:(lia) Hk) as [_ ->].
    destruct (7 - k / 8 <? zlen l) eqn:E.
    + apply Z.ltb_lt in E. rewrite (proj2 (Z.eqb_neq _ _)) by lia. cbn. btauto.
    + rewrite (testbit_word_of_low l k) by (done || lia). cbn. btauto.
Qed.

Lemma clear_insert :
  Z.lxor (Z.land (Z.lxor a (word_of l)) (low_mask (zlen l))) (word_of l) =
  Z.lor (Z.land a (low_mask (zlen l))) (word_of l).
Proof using Ha Hl H8.
  pose proof (zlen_nonneg l). assert (in_u 64 (word_of l)) as Hw by (apply word_of_in_u; done || lia).
  pose proof (low_mask_in_u (zlen l) ltac:(lia)) as Hm. apply (word_ext 64).
  - apply in_u_lxor; [lia| |done]. apply in_u_land; [lia| |apply Hm]. auto with word.
  - apply in_u_lor; [lia| |done]. apply in_u_land; [lia|done|apply Hm].
  - lia.
  - intros k Hk. rewrite !Z.lxor_spec, Z.lor_spec, !Z.land_spec, !Z.lxor_spec by lia.
    destruct (testbit_masks (zlen l) k ltac:(lia) Hk) as [_ ->].
    destruct (7 - k / 8 <? zlen l) eqn:E; [cbn; btauto|].
    rewrite (testbit_word_of_low l k) by (done || lia). cbn. btauto.
Qed.
End tail.

Lemma xor_x_twice i a b s : (i < 5)%nat -> xor_x i b (xor_x i a s) = set_x i (Z.lxor (Z.lxor (x s i) a) b) s.
Proof. intros. by destruct i as [|[|[|[|[|]]]]], s; [..|lia]. Qed.

Lemma set_x_twice i a b s : (i < 5)%nat -> set_x i b (set_x i a s) = set_x i b s.
Proof. intros. by destruct i as [|[|[|[|[|]]]]], s; [..|lia]. Qed.

Lemma word_of_empty l p : word_of (slice l p 0) = 0.
Proof. unfold slice. by rewrite ztake_0 by lia. Qed.

Section last.
Context (inb : list Z) (px : nat) (p len : Z) (s : ascon_state_t).
Context (Hin : bytes_ok inb) (Hpx : (px < 5)%nat) (Hp : 0 <= p) (Hlen : 0 <= len < 8) (Hl : p + len <= zlen inb).
Context (Hs : state_ok s).

Let w := word_of (slice inb p len).

Lemma absorb_tail mode :
  mode <> Decrypt ->
  (let s := xor_x px (PAD len) s in
   if len =? 0 then Done s else let! w := LOADBYTES inb p len in Done (xor_x px w s)) =
  Done (snd (last_word mode px w (Z.to_nat len) s)).
Proof using All.
  intros Hm. cbv zeta. unfold last_word. cbn [snd]. rewrite decide_False, Z2Nat.id by (done || lia).
  destruct (Z.eqb_spec len 0) as [E|E].
  - unfold w. rewrite E, word_of_empty, Z.lxor_0_r. done.
  - rewrite LOAD_slice by (done || lia). cbn [exec_bind]. rewrite xor_x_twice by done. do 2 f_equal.
    fold w. rewrite !Z.lxor_assoc. f_equal. apply Z.lxor_comm.
Qed.

Lemma encrypt_tail c :
  p + len <= zlen c ->
  (let s := xor_x px (PAD len) s in
   if len =? 0 then Done (c, s) else
   let! w := LOADBYTES inb p len in
   let s := xor_x px w s in
   let! c := STOREBYTES c p (x s px) len in
   Done (c, s)) =
  let '(y, sf) := last_word Encrypt px w (Z.to_nat len) s in
  Done (zwrite p (bytes_of y (Z.to_nat len)) c, sf).
Proof using All.
  intros Hc. pose proof (absorb_tail Encrypt ltac:(done)) as Ha. cbv zeta in *.
  destruct (last_word Encrypt px w (Z.to_nat len) s) as [y sf] eqn:E. cbn [snd] in Ha.
  assert (y = Z.lxor (x s px) w) as -> by (by injection E). clear E.
  destruct (Z.eqb_spec len 0) as [->|E].
  - injection Ha as ->. change (bytes_of (Z.lxor (x s px) w) (Z.to_nat 0)) with (@nil Z). by rewrite zwrite_nil.
  - rewrite LOAD_slice in * by (done || lia). cbn [exec_bind] in *. injection Ha as Ha. fold w in Ha.
    rewrite STORE_spec by lia. cbn [exec_bind]. fold w. rewrite Ha. do 3 f_equal. rewrite <- Ha.
    rewrite xor_x_twice, x_set_x_eq by done.
    pose proof (pad_bytes (x s px) (slice inb p len)) as Hb. rewrite zlen_slice, length_slice in Hb by lia.
    apply Hb. lia.
Qed.

Lemma decrypt_tail m :
  p + len <= zlen m ->
  (let s := xor_x px (PAD len) s in
   if len =? 0 then Done (m, s) else
   let! cx := LOADBYTES inb p len in
   let s := xor_x px cx s in
   let! m := STOREBYTES m p (x s px) len in
   let! y := CLEAR (x s px) len in
   let s := set_x px y s in
   Done (m, xor_x px cx s)) =
  let '(y, sf) := last_word Decrypt px w (Z.to_nat len) s in
  Done (zwrite p (bytes_of y (Z.to_nat len)) m, sf).
Proof using All.
  intros Hm. cbv zeta. unfold last_word. rewrite decide_True, Z2Nat.id by (done || lia).
  assert (zlen (slice inb p len) = len) as Hzl by (apply zlen_slice; lia).
  destruct (Z.eqb_spec len 0) as [->|E].
  - change (bytes_of (Z.lxor (x s px) w) (Z.to_nat 0)) with (@nil Z).
    unfold w. rewrite word_of_empty, zwrite_nil, Z.lor_0_r. do 2 f_equal. unfold xor_x. do 2 f_equal.
    change (low_mask 0) with (2 ^ 64 - 1). rewrite land_ones_mod by lia. symmetry. apply Z.mod_small. apply Hs.
  - rewrite LOAD_slice by (done || lia). cbn [exec_bind]. fold w. rewrite STORE_spec by lia. cbn [exec_bind].
    rewrite xor_x_twice, x_set_x_eq, CLEAR_spec by (done || lia). cbn [exec_bind].
    rewrite set_x_twice by done. unfold xor_x. rewrite x_set_x_eq, set_x_twice by done.
    pose proof (pad_bytes (x s px) (slice inb p len) ltac:(lia)) as Hb.
    pose proof (pad_clear (x s px) (slice inb p len) (Hs px) (slice_ok _ _ _ Hin) ltac:(lia)) as Hc.
    rewrite Hzl in Hb, Hc. rewrite length_slice in Hb by lia. fold w in Hb, Hc. by rewrite Hb, Hc.
Qed.
End last.

(** ** Whole texts of [aead.c] *)

Section small_text.
Context (v : variant) (unroll inlp : bool) (outb inb : list Z) (len : Z) (s : ascon_state_t).
Context (Hin : bytes_ok inb) (Hs : state_ok s) (Hlen : 0 <= len <= zlen inb).

(** The words of a last block of less than the rate. *)
Lemma duplex_rest mode p r s1 :
  0 <= p -> p + r <= zlen inb -> 0 <= r < ASCON_AEAD_RATE v ->
  duplex (v_rate v) (v_pb v) mode 0 s1 (slice inb p r) =
  if (ASCON_AEAD_RATE v =? 16) && (8 <=? r) then
    let '(y, sf) := last_word mode 1 (word_of (slice inb (p + 8) (r - 8))) (Z.to_nat (r - 8))
                      (put mode 0 (word_of (slice inb p 8)) s1) in
    (bytes_of (Z.lxor (x s1 0) (word_of (slice inb p 8))) 8 ++ bytes_of y (Z.to_nat (r - 8)), sf)
  else
    let '(y, sf) := last_word mode 0 (word_of (slice inb p r)) (Z.to_nat r) s1 in
    (bytes_of y (Z.to_nat r), sf).
Proof using Type.
  intros Hp Hr Hrate. destruct v; cbn [ASCON_AEAD_RATE v_rate v_pb Z.eqb Pos.eqb andb] in *;
    try (by apply duplex_tail).
  destruct (Z.leb_spec 8 r); [|by apply duplex_tail; lia]. by apply duplex_tail2; lia.
Qed.

Lemma rate_small r : 0 <= r < ASCON_AEAD_RATE v -> (ASCON_AEAD_RATE v =? 16) && (8 <=? r) = false -> r < 8.
Proof using Type.
  intros Hr Ec. apply andb_false_iff in Ec as [Ec|Ec]; [apply Z.eqb_neq in Ec|apply Z.leb_gt in Ec]; [|lia].
  destruct v; cbn [ASCON_AEAD_RATE] in *; lia.
Qed.

Lemma ascon_adata_ok : ascon_adata v unroll inlp inb len s = Done (spec_adata v (ztake len inb) s).
Proof using Hin Hs Hlen.
  unfold ascon_adata, spec_adata. destruct (Z.eqb_spec len 0) as [->|].
  { by rewrite decide_True. }
  rewrite decide_False by (intros E; apply (f_equal zlen) in E; rewrite zlen_ztake in E; [done|lia]).
  destruct (adata_blocks_ok v unroll inlp inb Hin (Z.to_nat len) 0 len s)
    as (p & r & s' & -> & Hr & Hp & Hpr & Hs' & E); try done; try lia.
  rewrite <- rate_words in Hr. cbn [exec_bind]. rewrite <- slice_0, E, duplex_rest by lia.
  destruct ((ASCON_AEAD_RATE v =? 16) && (8 <=? r)) eqn:Ec.
  - apply andb_true_iff in Ec as [E16 E8]. apply Z.eqb_eq in E16. apply Z.leb_le in E8.
    rewrite LOAD_slice by (done || lia). cbn [exec_bind].
    assert (state_ok (put Absorb 0 (word_of (slice inb p 8)) s')) as Hs1.
    { apply put_ok; [done|]. apply slice_word_in_u; done || lia. }
    rewrite put_enc in * by done.
    pose proof (absorb_tail inb 1 (p + 8) (r - 8) (xor_x 0 (word_of (slice inb p 8)) s')) as Ht.
    cbv zeta in Ht. rewrite (Ht Hin ltac:(lia) ltac:(lia) ltac:(lia) ltac:(lia) Hs1 Absorb) by done. clear Ht.
    cbn [exec_bind]. destruct (last_word _ _ _ _ _) as [y sf] eqn:El. cbn [snd].
    rewrite P_pb; [done|]. change sf with (snd (y, sf)). rewrite <- El.
    apply last_word_ok; [done| |lia]. apply slice_word_in_u; done || lia.
  - pose proof (rate_small r Hr Ec). cbn [exec_bind]. pose proof (absorb_tail inb 0 p r s') as Ht. cbv zeta in Ht.
    rewrite (Ht Hin ltac:(lia) ltac:(lia) ltac:(lia) ltac:(lia) Hs' Absorb) by done. clear Ht.
    cbn [exec_bind]. destruct (last_word _ _ _ _ _) as [y sf] eqn:El. cbn [snd].
    rewrite P_pb; [done|]. change sf with (snd (y, sf)). rewrite <- El.
    apply last_word_ok; [done| |lia]. apply slice_word_in_u; done || lia.
Qed.

Context (Hout : len <= zlen outb).

Lemma ascon_encrypt_ok :
  text_ok v Encrypt outb (ztake len inb) s (ascon_encrypt v unroll inlp outb inb len s).
Proof using Hin Hs Hlen Hout.
  unfold ascon_encrypt.
  destruct (encrypt_blocks_ok v unroll inlp inb Hin (Z.to_nat len) outb 0 len s)
    as (o & p & r & s' & -> & Hr & Hp & Hpr & Hs' & E); try done; try lia.
  pose proof (zlen_nonneg o). rewrite <- rate_words in Hr. cbn [exec_bind].
  pose proof (duplex_rest Encrypt p r s' ltac:(lia) ltac:(lia) Hr) as Hd.
  destruct ((ASCON_AEAD_RATE v =? 16) && (8 <=? r)) eqn:Ec.
  - apply andb_true_iff in Ec as [E16 E8]. apply Z.eqb_eq in E16. apply Z.leb_le in E8.
    rewrite (LOAD_slice inb p 8) by (done || lia). cbn [exec_bind].
    rewrite (STORE_spec _ p _ 8) by zlen_stores. cbn [exec_bind]. change (Z.to_nat 8) with 8%nat.
    assert (state_ok (put Encrypt 0 (word_of (slice inb p 8)) s')) as Hs1.
    { apply put_ok; [done|]. apply slice_word_in_u; done || lia. }
    rewrite put_enc in * by done.
    pose proof (encrypt_tail inb 1 (p + 8) (r - 8) (xor_x 0 (word_of (slice inb p 8)) s')) as Ht.
    cbv zeta in Ht. rewrite Ht by (try done; zlen_stores). clear Ht.
    destruct (last_word _ _ _ _ _) as [y sf]. rewrite zwrite_word_next by (rewrite ?zlen_zwrite by lia; lia).
    eapply text_ok_tail; try done; try lia. rewrite zlen_app, !zlen_bytes_of. lia.
  - pose proof (rate_small r Hr Ec). cbn [exec_bind].
    pose proof (encrypt_tail inb 0 p r s') as Ht. cbv zeta in Ht.
    rewrite Ht by (try done; zlen_stores). clear Ht. destruct (last_word _ _ _ _ _) as [y sf].
    eapply text_ok_tail; try done; try lia. rewrite zlen_bytes_of. lia.
Qed.

Lemma ascon_decrypt_ok :
  text_ok v Decrypt outb (ztake len inb) s (ascon_decrypt v unroll inlp outb inb len s).
Proof using Hin Hs Hlen Hout.
  unfold ascon_decrypt.
  destruct (decrypt_blocks_ok v unroll inlp inb Hin (Z.to_nat len) outb 0 len s)
    as (o & p & r & s' & -> & Hr & Hp & Hpr & Hs' & E); try done; try lia.
  pose proof (zlen_nonneg o). rewrite <- rate_words in Hr. cbn [exec_bind].
  pose proof (duplex_rest Decrypt p r s' ltac:(lia) ltac:(lia) Hr) as Hd.
  destruct ((ASCON_AEAD_RATE v =? 16) && (8 <=? r)) eqn:Ec.
  - apply andb_true_iff in Ec as [E16 E8]. apply Z.eqb_eq in E16. apply Z.leb_le in E8.
    rewrite (LOAD_slice inb p 8) by (done || lia). cbn [exec_bind].
    rewrite (STORE_spec _ p _ 8) by zlen_stores. cbn [exec_bind]. change (Z.to_nat 8) with 8%nat.
    assert (state_ok (put Decrypt 0 (word_of (slice inb p 8)) s')) as Hs1.
    { apply put_ok; [done|]. apply slice_word_in_u; done || lia. }
    change (set_x 0 (word_of (slice inb p 8)) (xor_x 0 (word_of (slice inb p 8)) s'))
      with (put Decrypt 0 (word_of (slice inb p 8)) s').
    pose proof (decrypt_tail inb 1 (p + 8) (r - 8) (put Decrypt 0 (word_of (slice inb p 8)) s')) as Ht.
    cbv zeta in Ht. rewrite Ht by (try done; zlen_stores). clear Ht.
    destruct (last_word _ _ _ _ _) as [y sf]. rewrite zwrite_word_next by (rewrite ?zlen_zwrite by lia; lia).
    eapply text_ok_tail; try done; try lia. rewrite zlen_app, !zlen_bytes_of. lia.
  - pose proof (rate_small r Hr Ec). cbn [exec_bind].
    pose proof (decrypt_tail inb 0 p r s') as Ht. cbv zeta in Ht.
    rewrite Ht by (try done; zlen_stores). clear Ht. destruct (last_word _ _ _ _ _) as [y sf].
    eapply text_ok_tail; try done; try lia. rewrite zlen_bytes_of. lia.
Qed.
End small_text.

(** The comparison of the received tag with the words of the final state. *)
Lemma tag_words tag s :
  zlen tag = 16 -> bytes_ok tag -> state_ok s ->
  Z.lxor (x s 3) (word_of (slice tag 0 8)) = 0 /\ Z.lxor (x s 4) (word_of (slice tag 8 8)) = 0 <->
  tag = tag_of s.
Proof.
  intros Ht Hto Hs. destruct (parts tag 8 ltac:(lia)) as (a & b & -> & Ha & Hb).
  apply bytes_ok_app in Hto as [Hao Hbo]. rewrite slice_app_l, slice_app_r by lia. unfold tag_of.
  assert (length a = 8%nat /\ length b = 8%nat) as [La Lb] by (unfold zlen in *; lia).
  assert (forall v, in_u 64 v -> word_of (bytes_of v 8) = v) as Hwb.
  { intros v Hv. rewrite word_of_bytes_of by done. change (top_mask (Z.of_nat 8)) with (2 ^ 64 - 1).
    rewrite land_ones_mod by lia. by apply Z.mod_small. }
  split.
  - intros [E1 E2]. apply Z.lxor_eq in E1, E2. rewrite E1, E2, <- La at 1. rewrite <- Lb.
    rewrite !bytes_of_word_of by (done || lia). done.
  - intros E. apply app_inj_1 in E as [-> ->]; [|by rewrite length_bytes_of].
    rewrite !Hwb by apply Hs. by rewrite !Z.lxor_nilpotent.
Qed.

Section small_aead.
Context (v : variant) (unroll inlp : bool).
Context (outb inb : list Z) (len : Z) (ad : list Z) (adlen : Z) (npub k : list Z).
Context (Hc : call_ok v outb inb len ad adlen npub k).

Lemma small_encrypt_spec tag :
  zlen tag = 16 ->
  small_encrypt v unroll inlp outb inb len ad adlen tag npub k = enc_result v outb inb len ad adlen npub k.
Proof using Hc.
  intros Ht. pose proof (initial_state_ok _ _ _ _ _ _ _ _ Hc) as Hi.
  pose proof (adata_state_ok _ _ _ _ _ _ _ _ Hc) as Ha. destruct Hc. unfold small_encrypt, enc_result, spec_aead.
  destruct (arm_key v unroll inlp k npub) as (key & -> & E & Hf); try done. cbn [exec_bind].
  rewrite E. cbn [exec_bind]. rewrite ascon_adata_ok by done. cbn [exec_bind].
  pose proof (ascon_encrypt_ok v unroll inlp outb inb len _ co_in Ha co_len co_out) as Hp.
  pose proof (duplex_ok (v_rate v) (v_pb v) (v_rate_range v) (v_pb_ok v) Encrypt 0 _ (ztake len inb) Ha) as Hs'.
  unfold text_ok in Hp. destruct (duplex _ _ _ _ _ _) as [o s']. rewrite Hp. cbn [exec_bind snd] in *.
  destruct (Hf s') as (sf & -> & Etag & _).
  { apply Hs'; [auto with infuse|]. pose proof (v_rate_range v). lia. }
  cbn [exec_bind]. rewrite store_tag_spec by done. cbn [exec_bind]. by rewrite Etag.
Qed.

Lemma small_decrypt_spec tag :
  zlen tag = 16 -> bytes_ok tag ->
  small_decrypt v unroll inlp outb tag inb len ad adlen npub k = dec_result v outb tag inb len ad adlen npub k.
Proof using Hc.
  intros Ht Hto. pose proof (initial_state_ok _ _ _ _ _ _ _ _ Hc) as Hi.
  pose proof (adata_state_ok _ _ _ _ _ _ _ _ Hc) as Ha. destruct Hc. unfold small_decrypt, dec_result, spec_aead.
  destruct (arm_key v unroll inlp k npub) as (key & -> & E & Hf); try done. cbn [exec_bind].
  rewrite E. cbn [exec_bind]. rewrite ascon_adata_ok by done. cbn [exec_bind].
  pose proof (ascon_decrypt_ok v unroll inlp outb inb len _ co_in Ha co_len co_out) as Hp.
  pose proof (duplex_ok (v_rate v) (v_pb v) (v_rate_range v) (v_pb_ok v) Decrypt 0 _ (ztake len inb) Ha) as Hs'.
  unfold text_ok in Hp. destruct (duplex _ _ _ _ _ _) as [o s']. rewrite Hp. cbn [exec_bind snd] in *.
  destruct (Hf s') as (sf & -> & Etag & Hsf).
  { apply Hs'; [auto with infuse|]. pose proof (v_rate_range v). lia. }
  cbn [exec_bind]. rewrite !LOAD_slice by (done || lia). cbn [exec_bind].
  pose proof (slice_word_in_u tag 0 8 Hto ltac:(lia) ltac:(lia) ltac:(lia)) as Hw0.
  pose proof (slice_word_in_u tag 8 8 Hto ltac:(lia) ltac:(lia) ltac:(lia)) as Hw1.
  change (x (xor_x 4 (word_of (slice tag 8 8)) (xor_x 3 (word_of (slice tag 0 8)) sf)) 3)
    with (Z.lxor (x sf 3) (word_of (slice tag 0 8))).
  change (x (xor_x 4 (word_of (slice tag 8 8)) (xor_x 3 (word_of (slice tag 0 8)) sf)) 4)
    with (Z.lxor (x sf 4) (word_of (slice tag 8 8))).
  rewrite NOTZERO_spec by (apply in_u_lxor; [lia|apply Hsf|done]).
  do 3 f_equal. apply decide_ext. rewrite <- Etag. by apply tag_words.
Qed.
End small_aead.

(** ** The low-size mode *)

Definition flags (mode : amode) : Z :=
  match mode with Absorb => ASCON_ABSORB | Encrypt => ASCON_ENCRYPT | Decrypt => ASCON_DECRYPT end.

(** The output buffer after an output at [p]; absorbing has none. *)
Definition out_at (mode : amode) (p : Z) (o outb : list Z) : list Z :=
  match mode with Absorb => outb | _ => zwrite p o outb end.

Section lowsize.
Context (v : variant) (unroll inlp : bool) (mode : amode) (inb : list Z) (Hin : bytes_ok inb).

Lemma flags_spec :
  has_flag (flags mode) ASCON_SQUEEZE = (if decide (mode = Absorb) then false else true) /\
  has_flag (flags mode) ASCON_INSERT = (if decide (mode = Decrypt) then true else false).
Proof using Type. by destruct mode. Qed.

(** One word of [ascon_update]. *)
Lemma update_word_next i w s :
  (i < v_rate v)%nat -> state_ok s -> in_u 64 w ->
  let s1 := xor_x i w s in
  let s2 := if has_flag (flags mode) ASCON_INSERT then set_x i w s1 else s1 in
  let i' := if ASCON_AEAD_RATE v =? 16
            then if Z.of_nat (S i) =? ASCON_AEAD_RATE v / 8 then 0%nat else S i
            else i in
  exists s',
    (if Z.of_nat i' =? 0 then P unroll inlp s2 (AEAD_ROUNDS v) else Done s2) = Done s' /\
    full_word (v_rate v) (v_pb v) mode i w s = (Z.lxor (x s i) w, i', s').
Proof using Type.
  intros Hi Hs Hw s1 s2 i'. pose proof (v_rate_range v) as Hv.
  assert (s2 = set_x i (if decide (mode = Decrypt) then w else Z.lxor (x s i) w) s) as E2.
  { unfold s2, s1, xor_x. rewrite (proj2 flags_spec). case_decide; [|done]. apply set_x_twice. lia. }
  assert (state_ok s2) as Hs2.
  { rewrite E2. apply state_ok_set; [done|]. case_decide; [done|]. apply in_u_lxor; [lia|apply Hs|done]. }
  unfold full_word. rewrite <- E2. unfold i'. clear i' E2. clearbody s2. clear s1.
  destruct v; cbn [ASCON_AEAD_RATE v_rate Z.eqb Pos.eqb] in *.
  - assert (i = O) as -> by lia. cbn [Z.of_nat Z.eqb]. rewrite P_pb by done. by eexists.
  - change (16 / 8) with 2. assert (i = O \/ i = 1%nat) as [-> | ->] by lia.
    + rewrite decide_False by lia. by eexists.
    + rewrite decide_True by lia. cbn [Z.of_nat Pos.of_succ_nat Z.eqb Pos.eqb Pos.succ].
      rewrite P_pb by done. by eexists.
  - assert (i = O) as -> by lia. cbn [Z.of_nat Z.eqb]. rewrite P_pb by done. by eexists.
Qed.

Lemma update_words_ok fuel i out p len s :
  (i < v_rate v)%nat -> 0 <= p -> 0 <= len -> p + len <= zlen inb ->
  (mode = Absorb \/ p + len <= zlen out) -> (Z.to_nat len <= fuel)%nat -> state_ok s ->
  exists o i' p' r s',
    update_words v unroll inlp fuel (flags mode) i out inb p len s = Done (i', out_at mode p o out, p', r, s') /\
    0 <= r < 8 /\ p' = p + zlen o /\ p' + r = p + len /\ (i' < v_rate v)%nat /\ state_ok s' /\
    duplex (v_rate v) (v_pb v) mode i s (slice inb p len) =
    (let '(o2, sf) := duplex (v_rate v) (v_pb v) mode i' s' (slice inb p' r) in (o ++ o2, sf)).
Proof using Hin.
  revert i out p len s. induction fuel as [|fuel IH]; intros i out p len s Hi Hp Hl Hpl Hpo Hf Hs;
    cbn [update_words]; destruct (Z.leb_spec 8 len); try lia.
  1, 3: exists [], i, p, len, s; split_and!; try done; try lia;
    [destruct mode; cbn [out_at]; by rewrite ?zwrite_nil|rewrite zlen_nil; lia|
     by destruct (duplex _ _ _ _ _ _)].
  rewrite LOAD_slice by (done || lia). cbn [exec_bind]. set (w := word_of (slice inb p 8)).
  assert (in_u 64 w) as Hw by (apply slice_word_in_u; done || lia).
  pose proof (v_rate_range v) as Hv.
  set (b := bytes_of (Z.lxor (x s i) w) 8).
  assert (zlen b = 8) as Hb by apply zlen_bytes_of.
  assert ((if has_flag (flags mode) ASCON_SQUEEZE then STOREBYTES out p (x (xor_x i w s) i) 8 else Done out) =
          Done (out_at mode p b out)) as ->.
  { rewrite (proj1 flags_spec). unfold xor_x. rewrite x_set_x_eq by lia.
    case_decide as Hm; [by rewrite Hm|]. destruct Hpo as [Hpo|Hpo]; [done|].
    rewrite STORE_spec by lia. by destruct mode. }
  cbn [exec_bind]. destruct (update_word_next i w s Hi Hs Hw) as (s' & -> & Ef). cbn [exec_bind].
  match type of Ef with _ = (_, ?i', _) => set (i1 := i') in * end.
  assert (state_ok s' /\ (i1 < v_rate v)%nat) as [Hs' Hi1].
  { assert (length (slice inb p 8) = 8%nat) as H8 by (rewrite length_slice by lia; done).
    exact (full_word_ok (v_rate v) (v_pb v) Hv (v_pb_ok v) mode i _ s _ _ s' Hs (slice_ok inb p 8 Hin) H8 Hi Ef). }
  destruct (IH i1 (out_at mode p b out) (p + 8) (len - 8) s') as (o & i' & p' & r & sf & -> & Hr & Hp' & Hpr & Hi' & Hsf & Hd);
    try done; try lia.
  { destruct Hpo as [Hpo|Hpo]; [by left|right]. destruct mode; cbn [out_at]; [lia|..]; rewrite zlen_zwrite by lia; lia. }
  exists (b ++ o), i', p', r, sf. split_and!; try done; try lia.
  - destruct mode; cbn [out_at]; try done; rewrite <- Hb, zwrite_zwrite_next by (destruct Hpo; [done|lia]); done.
  - rewrite zlen_app. lia.
  - rewrite (slice_split inb p len 8) by lia. rewrite duplex_full by (rewrite length_slice by lia; done).
    fold w. rewrite Ef, Hd. destruct (duplex (v_rate v) (v_pb v) mode i' sf (slice inb p' r)).
    cbv beta iota. by rewrite <- app_assoc.
Qed.

Lemma ascon_update_ok outb len s :
  0 <= len <= zlen inb -> (mode = Absorb \/ len <= zlen outb) -> state_ok s ->
  let '(o, sf) := duplex (v_rate v) (v_pb v) mode 0 s (ztake len inb) in
  ascon_update v unroll inlp (flags mode) s outb inb len = Done (out_at mode 0 o outb, sf).
Proof using Hin.
  intros Hlen Hout Hs. unfold ascon_update. pose proof (v_rate_range v) as Hv.
  destruct (update_words_ok (Z.to_nat len) 0 outb 0 len s)
    as (o & i & p & r & s' & -> & Hr & Hp & Hpr & Hi & Hs' & E); try done; try lia.
  pose proof (zlen_nonneg o). rewrite <- slice_0, E, duplex_tail by lia. unfold last_word. cbn [exec_bind].
  rewrite LOAD_slice by (done || lia). cbn [exec_bind].
  set (w := word_of (slice inb p r)). set (y := Z.lxor (x s' i) w). set (b := bytes_of y (Z.to_nat r)).
  assert (zlen b = r) as Hb by (unfold b; rewrite zlen_bytes_of; lia).
  assert ((if has_flag (flags mode) ASCON_SQUEEZE then STOREBYTES (out_at mode 0 o outb) p (x (xor_x i w s') i) r
           else Done (out_at mode 0 o outb)) = Done (out_at mode 0 (o ++ b) outb)) as ->.
  { rewrite (proj1 flags_spec). unfold xor_x. rewrite x_set_x_eq by lia.
    case_decide as Hm; [by rewrite Hm|]. destruct Hout as [Hout|Hout]; [done|].
    rewrite STORE_spec by (destruct mode; cbn [out_at]; try done; rewrite ?zlen_zwrite by lia; lia).
    fold y b. destruct mode; [done|..]; cbn [out_at]; rewrite Hp, Z.add_0_l, <- (Z.add_0_l (zlen o));
      rewrite zwrite_zwrite_next by lia; done. }
  cbn [exec_bind]. rewrite (proj2 flags_spec). unfold xor_x. rewrite x_set_x_eq by lia. fold y.
  assert (zlen (slice inb p r) = r) as Hzl by (apply zlen_slice; lia).
  pose proof (clear_insert (x s' i) (slice inb p r) (Hs' i) (slice_ok _ _ _ Hin) ltac:(lia)) as Hc.
  rewrite Hzl in Hc. fold w y in Hc. rewrite Z2Nat.id by lia. case_decide.
  - rewrite CLEAR_spec by lia. cbn [exec_bind]. rewrite !x_set_x_eq, !set_x_twice by lia. by rewrite Hc.
  - cbn [exec_bind]. by rewrite x_set_x_eq, set_x_twice by lia.
Qed.
End lowsize.

Section lowsize_aead.
Context (v : variant) (unroll inlp : bool).
Context (outb inb : list Z) (len : Z) (ad : list Z) (adlen : Z) (npub k : list Z).
Context (Hc : call_ok v outb inb len ad adlen npub k).

Lemma ascon_aead_spec mode t :
  mode <> Absorb -> zlen t = 16 ->
  let '(out, tag) := spec_aead v mode k npub (ztake adlen ad) (ztake len inb) in
  ascon_aead v unroll inlp t outb inb len ad adlen npub k (flags mode) = Done (tag, zwrite 0 out outb).
Proof using Hc.
  intros Hm Ht. pose proof (initial_state_ok _ _ _ _ _ _ _ _ Hc) as Hi.
  pose proof (adata_state_ok _ _ _ _ _ _ _ _ Hc) as Ha. destruct Hc. unfold ascon_aead, spec_aead.
  destruct (arm_key v unroll inlp k npub) as (key & -> & E & Hf); try done. cbn [exec_bind].
  rewrite E. cbn [exec_bind]. pose proof (v_rate_range v) as Hv.
  assert ((if adlen =? 0 then Done (spec_init v k npub) else
           let! (_, s) := ascon_update v unroll inlp ASCON_ABSORB (spec_init v k npub) [] ad adlen in
           P unroll inlp s (AEAD_ROUNDS v)) =
          Done (if decide (ztake adlen ad = []) then spec_init v k npub else
                v_pb v (snd (duplex (v_rate v) (v_pb v) Absorb 0 (spec_init v k npub) (ztake adlen ad))))) as ->.
  { destruct (Z.eqb_spec adlen 0) as [->|]; [by rewrite decide_True|].
    rewrite decide_False by (intros En; apply (f_equal zlen) in En; rewrite zlen_ztake in En; [done|lia]).
    pose proof (ascon_update_ok v unroll inlp Absorb ad co_ad [] adlen _ co_adlen (or_introl eq_refl) Hi) as Hu.
    pose proof (duplex_ok (v_rate v) (v_pb v) Hv (v_pb_ok v) Absorb 0 _ (ztake adlen ad) Hi) as Hd.
    destruct (duplex _ _ _ _ _ _) as [o sf]. change (flags Absorb) with ASCON_ABSORB in Hu. rewrite Hu.
    cbn [exec_bind snd] in *. apply P_pb. apply Hd; [auto with infuse|lia]. }
  cbn [exec_bind]. fold (spec_adata v (ztake adlen ad) (spec_init v k npub)).
  pose proof (ascon_update_ok v unroll inlp mode inb co_in outb len _ co_len (or_intror co_out) Ha) as Hu.
  pose proof (duplex_ok (v_rate v) (v_pb v) Hv (v_pb_ok v) mode 0 _ (ztake len inb) Ha) as Hd.
  unfold spec_adata in *. destruct (duplex _ _ mode _ _ _) as [o sf]. rewrite Hu. cbn [exec_bind snd] in *.
  destruct (Hf sf) as (s' & -> & Etag & _); [apply Hd; [auto with infuse|lia]|].
  cbn [exec_bind]. rewrite store_tag_spec by done. cbn [exec_bind]. rewrite Etag. by destruct mode.
Qed.

Lemma lowsize_encrypt_spec tag :
  zlen tag = 16 ->
  lowsize_encrypt v unroll inlp outb inb len ad adlen tag npub k = enc_result v outb inb len ad adlen npub k.
Proof using Hc.
  intros Ht. unfold lowsize_encrypt, enc_result. pose proof (ascon_aead_spec Encrypt tag ltac:(done) Ht) as H.
  destruct (spec_aead _ _ _ _ _ _). change (flags Encrypt) with ASCON_ENCRYPT in H. by rewrite H.
Qed.

Lemma lowsize_decrypt_spec tag :
  zlen tag = 16 -> bytes_ok tag ->
  lowsize_decrypt v unroll inlp outb tag inb len ad adlen npub k = dec_result v outb tag inb len ad adlen npub k.
Proof using Hc.
  intros Ht Hto. unfold lowsize_decrypt, dec_result.
  pose proof (ascon_aead_spec Decrypt (replicate 16 0) ltac:(done) ltac:(done)) as H.
  pose proof (spec_aead_tag v Decrypt k npub (ztake adlen ad) (ztake len inb)) as [Hl Ho].
  destruct (spec_aead _ _ _ _ _ _) as [o t]. change (flags Decrypt) with ASCON_DECRYPT in H. rewrite H.
  cbn [exec_bind snd] in *. rewrite verify_tag_spec by done. cbn [exec_bind]. do 3 f_equal.
  by apply decide_ext.
Qed.
End lowsize_aead.
