(* ===== verification/AsconProps.v ===== *)
(** * Properties of the Ascon library

    The implementations that [CMakeLists.txt] can build ([CONFIG_CRYPTO_ASCON_IMPL]) are
    interchangeable: each returns what the reference implementation returns, a message
    encrypted by one is decrypted by any other, and decryption accepts exactly what
    encryption produces. *)

From stdpp Require Import base tactics numbers list.
From Stdlib Require Import ZArith Lia.
From S2P Require Import Prelude AsconWord Ascon AsconSpec AsconRefine AsconArm AsconArmAead AsconArmRefine.

Local Open Scope Z_scope.
Local Open Scope infuse_scope.

(** ["ref"], ["armv7m"] and ["armv7m_small"], ["armv7m_lowsize"], with the configuration of
    the permutation. *)
Inductive impl : Type :=
| Ref
| Arm (unroll inlp : bool)
| LowSize (unroll inlp : bool).

Definition aead_encrypt (i : impl) (v : variant) :=
  match i with
  | Ref => ref_encrypt v
  | Arm unroll inlp => small_encrypt v unroll inlp
  | LowSize unroll inlp => lowsize_encrypt v unroll inlp
  end.

Definition aead_decrypt (i : impl) (v : variant) :=
  match i with
  | Ref => ref_decrypt v
  | Arm unroll inlp => small_decrypt v unroll inlp
  | LowSize unroll inlp => lowsize_decrypt v unroll inlp
  end.

(** ** Every implementation refines the specification *)

Section impls.
Context (i : impl) (v : variant) (outb inb : list Z) (len : Z) (ad : list Z) (adlen : Z) (npub k : list Z).
Context (Hc : call_ok v outb inb len ad adlen npub k).

Lemma aead_encrypt_spec tag :
  zlen tag = 16 ->
  aead_encrypt i v outb inb len ad adlen tag npub k = enc_result v outb inb len ad adlen npub k.
Proof using Hc.
  intros. destruct i; cbn [aead_encrypt];
    [by apply ref_encrypt_spec|by apply small_encrypt_spec|by apply lowsize_encrypt_spec].
Qed.

Lemma aead_decrypt_spec tag :
  zlen tag = 16 -> bytes_ok tag ->
  aead_decrypt i v outb tag inb len ad adlen npub k = dec_result v outb tag inb len ad adlen npub k.
Proof using Hc.
  intros. destruct i; cbn [aead_decrypt];
    [by apply ref_decrypt_spec|by apply small_decrypt_spec|by apply lowsize_decrypt_spec].
Qed.
End impls.

Lemma ztake_zwrite (o l : list Z) : zlen o <= zlen l -> ztake (zlen o) (zwrite 0 o l) = o.
Proof. intros. unfold zwrite. rewrite (ztake_0 0) by lia. cbn [app]. by apply ztake_app. Qed.

(** The byte buffers of a call. *)
Lemma call_bytes v outb inb len ad adlen npub k :
  call_ok v outb inb len ad adlen npub k ->
  bytes_ok k /\ bytes_ok npub /\ bytes_ok (ztake adlen ad) /\ bytes_ok (ztake len inb) /\
  zlen (ztake len inb) = len.
Proof. intros []. rewrite zlen_ztake by lia. split_and!; try done; by apply Forall_take. Qed.

(** A call with short concrete buffers. *)
Definition demo_bytes (n : nat) : list Z := Z.of_nat <$> seq 1 n.
Definition demo_key (v : variant) : list Z := demo_bytes (Z.to_nat (v_keylen v)).

Lemma demo_bytes_ok n : (n < 200)%nat -> bytes_ok (demo_bytes n) /\ zlen (demo_bytes n) = Z.of_nat n.
Proof.
  intros Hn. unfold demo_bytes, zlen. rewrite length_fmap, length_seq. split; [|done].
  apply Forall_fmap, Forall_seq. intros i Hi. unfold byte_ok. simpl. lia.
Qed.

Lemma demo_call v : call_ok v (demo_bytes 20) (demo_bytes 20) 20 (demo_bytes 9) 9 (demo_bytes 16) (demo_key v).
Proof.
  destruct (demo_bytes_ok 20 ltac:(lia)) as [H1 H2]. destruct (demo_bytes_ok 9 ltac:(lia)) as [H3 H4].
  destruct (demo_bytes_ok 16 ltac:(lia)) as [H5 H6].
  assert (bytes_ok (demo_key v) /\ zlen (demo_key v) = v_keylen v) as [H7 H8] by (by destruct v).
  split; try assumption; lia.
Qed.

(** ** Properties *)

(** The assembly permutation is the reference one: the loop of [ROUND_LOOP] ends after
    [nr] rounds, and every build of [P] (looped or unrolled, with or without
    [ASCON_INLINE_PERM]) leaves the state of [P12], [P8] or [P6] of the reference
    implementation. *)
Theorem ascon_permutation_equiv unroll inlp s :
  state_ok s ->
  P unroll inlp s 12 = Done (P12 s) /\ P unroll inlp s 8 = Done (P8 s) /\ P unroll inlp s 6 = Done (P6 s).
Proof.
  intros Hs. destruct (rounds_P s) as (E12 & E8 & E6).
  rewrite <- E12, <- E8, <- E6. clear E12 E8 E6.
  split_and!; apply P_rounds; try assumption; unfold nr_ok; lia.
Qed.

Definition demo_state : ascon_state_t := {| sx0 := 1; sx1 := 2; sx2 := 3; sx3 := 4; sx4 := 5 |}.

Lemma ascon_permutation_equiv_witness :
  state_ok demo_state /\ P false false demo_state 12 = Done (P12 demo_state).
Proof.
  assert (state_ok demo_state) as Hs by (intros [|[|[|[|]]]]; vm_compute; split; congruence).
  split; [exact Hs|]. exact (proj1 (ascon_permutation_equiv false false demo_state Hs)).
Defined.

(** C12.  Whatever implementation and scheme is configured, an encryption or decryption with
    buffers as long as their lengths returns what the reference implementation returns. *)
Theorem ascon_implementations_agree i v outb inb len ad adlen npub k tag :
  call_ok v outb inb len ad adlen npub k -> zlen tag = 16 -> bytes_ok tag ->
  aead_encrypt i v outb inb len ad adlen tag npub k = ref_encrypt v outb inb len ad adlen tag npub k /\
  aead_decrypt i v outb tag inb len ad adlen npub k = ref_decrypt v outb tag inb len ad adlen npub k.
Proof.
  intros Hc Ht Ho. rewrite aead_encrypt_spec, aead_decrypt_spec by done. split; symmetry.
  - by apply ref_encrypt_spec.
  - by apply ref_decrypt_spec.
Qed.

Lemma ascon_implementations_agree_witness :
  aead_encrypt (LowSize true false) V80pq (demo_bytes 20) (demo_bytes 20) 20 (demo_bytes 9) 9
    (demo_bytes 16) (demo_bytes 16) (demo_key V80pq) =
  ref_encrypt V80pq (demo_bytes 20) (demo_bytes 20) 20 (demo_bytes 9) 9
    (demo_bytes 16) (demo_bytes 16) (demo_key V80pq).
Proof.
  destruct (demo_bytes_ok 16 ltac:(lia)) as [Hb Hl].
  exact (proj1 (ascon_implementations_agree (LowSize true false) V80pq _ _ _ _ _ _ _ _ (demo_call V80pq) Hl Hb)).
Defined.

(** A message encrypted by one implementation is decrypted by any other one: the call
    returns 0, the length of the message, and the message in the output buffer. *)
Theorem ascon_roundtrip i j v c m mlen ad adlen npub k tag m' :
  call_ok v c m mlen ad adlen npub k -> bytes_ok c -> zlen tag = 16 -> mlen <= zlen m' ->
  exists c' tag',
    aead_encrypt i v c m mlen ad adlen tag npub k = Done (0, mlen, c', tag') /\
    aead_decrypt j v m' tag' c' mlen ad adlen npub k = Done (0, mlen, zwrite 0 (ztake mlen m) m').
Proof.
  intros Hc Hco Ht Hm'. rewrite aead_encrypt_spec by assumption. unfold enc_result.
  pose proof (spec_aead_out v Encrypt k npub (ztake adlen ad) (ztake mlen m)) as Hl.
  pose proof (spec_aead_tag v Encrypt k npub (ztake adlen ad) (ztake mlen m)) as [Htl Hto].
  destruct (call_bytes _ _ _ _ _ _ _ _ Hc) as (Hk & Hn & Ha & Hm & Hml).
  destruct (spec_aead_inverse v k npub (ztake adlen ad) (ztake mlen m) Hk Hn Ha Hm) as [Hinv _].
  pose proof (spec_aead_bytes v Encrypt k npub (ztake adlen ad) (ztake mlen m)) as Hob.
  destruct (spec_aead v Encrypt _ _ _ _) as [o t]. cbn [fst snd] in *. do 2 eexists. split; [reflexivity|].
  assert (bytes_ok (zwrite 0 o c)) by (unfold zwrite; rewrite !bytes_ok_app; auto with infuse).
  destruct Hc. rewrite Hml in Hl.
  assert (zlen (zwrite 0 o c) = zlen c) as Hzl by (apply zlen_zwrite; lia).
  rewrite aead_decrypt_spec; [|split; try done; lia|done|done].
  unfold dec_result. rewrite <- Hl at 1. rewrite ztake_zwrite, Hinv by lia. by rewrite decide_True.
Qed.

Lemma ascon_roundtrip_witness :
  exists c' tag',
    aead_encrypt (Arm true true) V128a (demo_bytes 20) (demo_bytes 20) 20 (demo_bytes 9) 9
      (demo_bytes 16) (demo_bytes 16) (demo_key V128a) = Done (0, 20, c', tag') /\
    aead_decrypt Ref V128a (demo_bytes 20) tag' c' 20 (demo_bytes 9) 9 (demo_bytes 16) (demo_key V128a) =
      Done (0, 20, zwrite 0 (ztake 20 (demo_bytes 20)) (demo_bytes 20)).
Proof.
  destruct (demo_bytes_ok 16 ltac:(lia)) as [_ Hl]. destruct (demo_bytes_ok 20 ltac:(lia)) as [Hb Hl'].
  apply (ascon_roundtrip (Arm true true) Ref V128a _ _ _ _ _ _ _ _ _ (demo_call V128a) Hb Hl). lia.
Defined.

(** C27.  Decryption accepts exactly what encryption produces: it returns 0 if and only if
    encrypting, by any implementation, the plaintext it wrote gives back the received
    ciphertext and tag, and -1 in every other case. *)
Theorem ascon_decrypt_authentic i j v m tag c clen ad adlen npub k t0 :
  call_ok v m c clen ad adlen npub k -> zlen tag = 16 -> bytes_ok tag -> zlen t0 = 16 ->
  exists rc out,
    aead_decrypt i v m tag c clen ad adlen npub k = Done (rc, clen, zwrite 0 out m) /\
    zlen out = clen /\ (rc = 0 \/ rc = -1) /\
    (rc = 0 <-> aead_encrypt j v c out clen ad adlen t0 npub k = Done (0, clen, c, tag)).
Proof.
  intros Hc Ht Ho Ht0. rewrite aead_decrypt_spec by assumption. unfold dec_result.
  pose proof (spec_aead_out v Decrypt k npub (ztake adlen ad) (ztake clen c)) as Hl.
  pose proof (spec_aead_bytes v Decrypt k npub (ztake adlen ad) (ztake clen c)) as Hb.
  destruct (call_bytes _ _ _ _ _ _ _ _ Hc) as (Hk & Hn & Ha & Hm & Hml).
  destruct (spec_aead_inverse v k npub (ztake adlen ad) (ztake clen c) Hk Hn Ha Hm) as [_ Hinv].
  destruct (spec_aead v Decrypt _ _ _ _) as [o t]. cbn [fst snd] in *. do 2 eexists. split; [reflexivity|].
  destruct Hc. rewrite Hml in Hl. split; [exact Hl|].
  rewrite aead_encrypt_spec; [|split; try assumption; lia|assumption].
  unfold enc_result. rewrite (ztake_ge clen o), Hinv by lia.
  replace (zwrite 0 (ztake clen c) c) with c.
  - case_decide as E; [subst t|]; split; auto; split; try done. by intros [= <-].
  - unfold zwrite. rewrite (ztake_0 0), Hml, Z.add_0_l by lia. cbn [app]. by rewrite ztake_zdrop.
Qed.

Lemma ascon_decrypt_authentic_witness :
  exists rc out,
    aead_decrypt Ref V128 (demo_bytes 20) (demo_bytes 16) (demo_bytes 20) 20 (demo_bytes 9) 9
      (demo_bytes 16) (demo_key V128) = Done (rc, 20, zwrite 0 out (demo_bytes 20)) /\
    zlen out = 20 /\ (rc = 0 \/ rc = -1) /\
    (rc = 0 <-> aead_encrypt Ref V128 (demo_bytes 20) out 20 (demo_bytes 9) 9 (demo_bytes 16)
                  (demo_bytes 16) (demo_key V128) = Done (0, 20, demo_bytes 20, demo_bytes 16)).
Proof.
  destruct (demo_bytes_ok 16 ltac:(lia)) as [Hb Hl].
  exact (ascon_decrypt_authentic Ref Ref V128 _ _ _ _ _ _ _ _ _ (demo_call V128) Hl Hb Hl).
Defined.

(** A call stays inside its buffers and its words inside their widths: encryption
    returns 0 with a ciphertext of [mlen] bytes at the start of [c] and a tag of 16 bytes,
    leaves the rest of [c] as it was, and its loops end. *)
Theorem ascon_encrypt_bounds i v c m mlen ad adlen npub k tag :
  call_ok v c m mlen ad adlen npub k -> zlen tag = 16 ->
  exists c' tag',
    aead_encrypt i v c m mlen ad adlen tag npub k = Done (0, mlen, c', tag') /\
    zlen c' = zlen c /\ bytes_ok (ztake mlen c') /\ zdrop mlen c' = zdrop mlen c /\
    zlen tag' = 16 /\ bytes_ok tag'.
Proof.
  intros Hc Ht. rewrite aead_encrypt_spec by assumption. unfold enc_result.
  pose proof (spec_aead_out v Encrypt k npub (ztake adlen ad) (ztake mlen m)) as Hl.
  pose proof (spec_aead_bytes v Encrypt k npub (ztake adlen ad) (ztake mlen m)) as Hb.
  pose proof (spec_aead_tag v Encrypt k npub (ztake adlen ad) (ztake mlen m)) as [Htl Hto].
  destruct (spec_aead _ _ _ _ _ _) as [o t]. cbn [fst snd] in *. destruct Hc.
  rewrite zlen_ztake in Hl by lia. do 2 eexists. split_and!; try done.
  - apply zlen_zwrite; lia.
  - rewrite <- Hl at 1. by rewrite ztake_zwrite by lia.
  - unfold zwrite. rewrite (ztake_0 0), Hl, Z.add_0_l by lia. cbn [app]. by rewrite zdrop_app.
Qed.

Lemma ascon_encrypt_bounds_witness :
  exists c' tag',
    aead_encrypt Ref V128 (demo_bytes 20) (demo_bytes 20) 20 (demo_bytes 9) 9 (demo_bytes 16)
      (demo_bytes 16) (demo_key V128) = Done (0, 20, c', tag') /\
    zlen c' = zlen (demo_bytes 20) /\ bytes_ok (ztake 20 c') /\
    zdrop 20 c' = zdrop 20 (demo_bytes 20) /\ zlen tag' = 16 /\ bytes_ok tag'.
Proof.
  destruct (demo_bytes_ok 16 ltac:(lia)) as [_ Hl].
  exact (ascon_encrypt_bounds Ref V128 _ _ _ _ _ _ _ _ (demo_call V128) Hl).
Defined.

(** ** Known answers *)

(** The first vector of the known answer tests of Ascon-128, with an empty message. *)
Definition kat_key : list Z := Z.of_nat <$> seq 0 16.

Example ascon128_known_answer :
  aead_encrypt Ref V128 [] [] 0 [] 0 (replicate 16 0) kat_key kat_key =
  Done (0, 0, [], [0xE3; 0x55; 0x15; 0x9F; 0x29; 0x29; 0x11; 0xF7;
                   0x94; 0xCB; 0x14; 0x32; 0xA0; 0x10; 0x3A; 0x8A]) /\
  aead_encrypt (Arm false false) V128 [] [] 0 [] 0 (replicate 16 0) kat_key kat_key =
  aead_encrypt Ref V128 [] [] 0 [] 0 (replicate 16 0) kat_key kat_key.
Proof. split; vm_compute; reflexivity. Qed.
