(* ===== verification/SecureStorage.v ===== *)
(** * Secure storage

    [subsys/fs/secure_storage/secure_storage.c]: the PSA internal trusted storage, with
    values encrypted under a key derived from the hardware unique key and kept in the NVS
    file system of the key-value store.  The calls are refined to a finite map from
    identifiers to flags and contents; values written once stay; only contents that the
    storage key authenticates are returned; the sum of offset and length can wrap. *)

From stdpp Require Import base tactics numbers list gmap.
From Stdlib Require Import ZArith Lia.
From S2P Require Import Prelude KvStore EPacketKeys EPacketCrypt EPacketCryptProps.

Local Open Scope Z_scope.
Local Open Scope infuse_scope.

(** The status codes of PSA the code returns. *)
Inductive psa_status :=
| PSA_SUCCESS
| PSA_ERROR_INVALID_HANDLE
| PSA_ERROR_INSUFFICIENT_STORAGE
| PSA_ERROR_NOT_PERMITTED
| PSA_ERROR_STORAGE_FAILURE
| PSA_ERROR_HARDWARE_FAILURE
| PSA_ERROR_DOES_NOT_EXIST
| PSA_ERROR_DATA_CORRUPT
| PSA_ERROR_INSUFFICIENT_DATA.

#[export] Instance psa_status_eq_dec : EqDecision psa_status.
Proof. solve_decision. Defined.

(** [include/psa/internal_trusted_storage.h]. *)
Record psa_storage_info_t := StorageInfo { size : Z; flags : Z }.

Definition PSA_STORAGE_FLAG_WRITE_ONCE : Z := 1.
Definition PSA_KEY_ID_INFUSE_MIN : Z := 30000.
Definition PSA_KEY_ID_INFUSE_MAX : Z := 30009.

Definition CHACHA_NONCE_SIZE : Z := 12.
Definition CHACHA_TAG_SIZE : Z := 16.
Definition sizeof_info : Z := 8.
Definition OVERHEAD : Z := sizeof_info + CHACHA_NONCE_SIZE + CHACHA_TAG_SIZE.

(** A header in memory, and the header found there. *)
Definition info_bytes (i : psa_storage_info_t) : list Z := le_put 4 (size i) ++ le_put 4 (flags i).
Definition info_of (bs : list Z) : psa_storage_info_t := StorageInfo (field bs 0 4) (field bs 4 4).

Definition write_once (fl : Z) : bool := negb (Z.land fl PSA_STORAGE_FLAG_WRITE_ONCE =? 0).

Definition valid_uid (uid : Z) : bool := negb ((uid <? PSA_KEY_ID_INFUSE_MIN) || (PSA_KEY_ID_INFUSE_MAX <? uid)).

(** [struct secure_storage_format] up to the end of the data that is in use. *)
Record secure_storage_format := StorageFormat { info : psa_storage_info_t; data_nonce : list Z; data : list Z }.

Definition format_bytes (f : secure_storage_format) : list Z := info_bytes (info f) ++ data_nonce f ++ data f.

Section storage.
Context {F P : Type} `{NvsApi F} `{PsaAead P}.
(** [CONFIG_INFUSE_SECURE_STORAGE_MAX_SIZE], and the crypto service with the key of the storage. *)
Context (MAX_PAYLOAD_SIZE : Z) (p : P) (secure_storage_key_id : Z).

Definition DATA_SIZE : Z := MAX_PAYLOAD_SIZE + CHACHA_TAG_SIZE.
Definition sizeof_format : Z := sizeof_info + CHACHA_NONCE_SIZE + DATA_SIZE.

(** [stack] is what the local header holds before it is read into; [rand] the bytes of
    [sys_csrand_get]. *)
Definition psa_its_set (stack rand : list Z) (fs : F) (uid : Z) (p_data : list Z) (create_flags : Z) : psa_status * F :=
  if negb (valid_uid uid) then (PSA_ERROR_INVALID_HANDLE, fs)
  else if MAX_PAYLOAD_SIZE <? zlen p_data then (PSA_ERROR_INSUFFICIENT_STORAGE, fs)
  else
    let '(rc, bs) := nvs_read fs uid sizeof_info in
    let old := info_of (zwrite 0 bs stack) in
    if (0 <? rc) && write_once (flags old) then (PSA_ERROR_NOT_PERMITTED, fs)
    else
      let i := StorageInfo (zlen p_data) create_flags in
      let '(status, out) := psa_aead_encrypt p secure_storage_key_id PSA_ALG_CHACHA20_POLY1305 rand (info_bytes i) p_data DATA_SIZE in
      if negb (status =? 0) then (PSA_ERROR_STORAGE_FAILURE, fs)
      else
        let total_len := sizeof_info + CHACHA_NONCE_SIZE + zlen out in
        let '(rc, fs) := nvs_write fs uid (format_bytes (StorageFormat i rand out)) in
        (if rc =? total_len then PSA_SUCCESS else PSA_ERROR_HARDWARE_FAILURE, fs).

(** The status and the bytes copied to [p_data], whose number is [*p_data_length].
    Reading past [data.data], or copying from outside [decrypt_buf], is a fault. *)
Definition psa_its_get (fs : F) (uid data_offset data_length : Z) : exec (psa_status * list Z) :=
  if negb (valid_uid uid) then Done (PSA_ERROR_INVALID_HANDLE, [])
  else if data_length =? 0 then Done (PSA_SUCCESS, [])
  else
    let '(rc, bs) := nvs_read fs uid sizeof_format in
    if rc =? - ENOENT then Done (PSA_ERROR_DOES_NOT_EXIST, [])
    else if rc <? 0 then Done (PSA_ERROR_HARDWARE_FAILURE, [])
    else if rc <=? OVERHEAD then Done (PSA_ERROR_DATA_CORRUPT, [])
    else
      let data_len := rc - OVERHEAD in
      if negb (size (info_of bs) =? data_len) then Done (PSA_ERROR_DATA_CORRUPT, [])
      else if data_len <=? data_offset then Done (PSA_ERROR_INSUFFICIENT_DATA, [])
      else if DATA_SIZE <? data_len + CHACHA_TAG_SIZE then Fault
      else
        let nonce := ztake CHACHA_NONCE_SIZE (zdrop sizeof_info bs) in
        let ct := ztake (data_len + CHACHA_TAG_SIZE) (zdrop (sizeof_info + CHACHA_NONCE_SIZE) bs) in
        let '(status, out) := psa_aead_decrypt p secure_storage_key_id PSA_ALG_CHACHA20_POLY1305 nonce (ztake sizeof_info bs) ct MAX_PAYLOAD_SIZE in
        if negb (status =? 0) then Done (PSA_ERROR_DATA_CORRUPT, [])
        else
          let data_length := if zlen out <? u32 (data_offset + data_length) then u32 (zlen out - data_offset) else data_length in
          if MAX_PAYLOAD_SIZE <? data_offset + data_length then Fault
          else Done (PSA_SUCCESS, ztake data_length (zdrop data_offset out)).

(** The contents of [*p_info] are in the second component.  [p_info] holds [p_info0]
    before the call. *)
Definition psa_its_get_info (fs : F) (uid : Z) (p_info0 : list Z) : psa_status * list Z :=
  if negb (valid_uid uid) then (PSA_ERROR_INVALID_HANDLE, p_info0)
  else
    let '(rc, bs) := nvs_read fs uid sizeof_info in
    let p_info := zwrite 0 bs p_info0 in
    if rc =? - ENOENT then (PSA_ERROR_DOES_NOT_EXIST, p_info)
    else if rc <? 0 then (PSA_ERROR_HARDWARE_FAILURE, p_info)
    else
      let expected := s32 (sizeof_info + CHACHA_NONCE_SIZE + size (info_of p_info) + CHACHA_TAG_SIZE) in
      if negb (rc =? expected) then (PSA_ERROR_DATA_CORRUPT, p_info) else (PSA_SUCCESS, p_info).

Definition psa_its_remove (stack : list Z) (fs : F) (uid : Z) : psa_status * F :=
  if negb (valid_uid uid) then (PSA_ERROR_INVALID_HANDLE, fs)
  else
    let '(rc, bs) := nvs_read fs uid sizeof_info in
    if rc =? - ENOENT then (PSA_ERROR_DOES_NOT_EXIST, fs)
    else if rc <? 0 then (PSA_ERROR_HARDWARE_FAILURE, fs)
    else if write_once (flags (info_of (zwrite 0 bs stack))) then (PSA_ERROR_NOT_PERMITTED, fs)
    else
      let '(rc, fs) := nvs_delete fs uid in
      (if rc =? 0 then PSA_SUCCESS else PSA_ERROR_HARDWARE_FAILURE, fs).

End storage.

(** "SS_SALT" and "SECURE_STORAGE", without the terminators. *)
Definition storage_salt : list Z := [83; 83; 95; 83; 65; 76; 84].
Definition storage_info : list Z := [83; 69; 67; 85; 82; 69; 95; 83; 84; 79; 82; 65; 71; 69].

(** The return value, [secure_storage_key_id] and the crypto service; [huk_id] is the
    hardware unique key. *)
Definition secure_storage_init {P O} `{PsaKeys P O} (key_export : bool) (p : P) (huk_id : Z) : Z * Z * P :=
  let '(id, p) := infuse_security_derive_chacha_key key_export p huk_id storage_salt storage_info false in
  (if id =? PSA_KEY_ID_NULL then - EINVAL else 0, id, p).

(** ** The storage as a finite map

    The abstract storage maps identifiers to flags and contents. *)

Abbreviation its_map := (gmap Z (Z * list Z)).

Inductive its_call :=
| ItsSet (stack rand : list Z) (uid : Z) (p_data : list Z) (create_flags : Z)
| ItsGet (uid data_offset data_length : Z)
| ItsGetInfo (uid : Z) (p_info : list Z)
| ItsRemove (stack : list Z) (uid : Z).

Inductive its_reply :=
| RStatus (s : psa_status)
| RData (s : psa_status) (d : list Z)
| RInfo (s : psa_status) (i : psa_storage_info_t).

(** What callers have to provide: buffers of the size of their type, and offsets, lengths
    and flags that are [uint32_t]. *)
Definition its_call_ok (c : its_call) : Prop :=
  match c with
  | ItsSet stack rand _ d fl => zlen stack = sizeof_info /\ zlen rand = CHACHA_NONCE_SIZE /\ in_u 32 fl
  | ItsGet _ off len => in_u 32 off /\ in_u 32 len
  | ItsGetInfo _ i => zlen i = sizeof_info
  | ItsRemove stack _ => zlen stack = sizeof_info
  end.

(** A request inside a stored value whose end does not fit 32 bits. *)
Definition its_wraps (M : its_map) (c : its_call) : Prop :=
  match c with
  | ItsGet uid off len => valid_uid uid = true /\ 2 ^ 32 <= off + len /\ exists fl d, M !! uid = Some (fl, d) /\ off < zlen d
  | _ => False
  end.

Section spec.
Context (MAX_PAYLOAD_SIZE : Z).

(** What a call may do.  Writing and removing may fail in the flash; everything else is
    determined by the map. *)
Inductive its_spec (M : its_map) : its_call -> its_reply -> its_map -> Prop :=
| spec_set_invalid stack rand uid d fl :
    valid_uid uid = false -> its_spec M (ItsSet stack rand uid d fl) (RStatus PSA_ERROR_INVALID_HANDLE) M
| spec_set_large stack rand uid d fl :
    valid_uid uid = true -> MAX_PAYLOAD_SIZE < zlen d ->
    its_spec M (ItsSet stack rand uid d fl) (RStatus PSA_ERROR_INSUFFICIENT_STORAGE) M
| spec_set_once stack rand uid d fl fl0 d0 :
    valid_uid uid = true -> zlen d <= MAX_PAYLOAD_SIZE -> M !! uid = Some (fl0, d0) -> write_once fl0 = true ->
    its_spec M (ItsSet stack rand uid d fl) (RStatus PSA_ERROR_NOT_PERMITTED) M
| spec_set stack rand uid d fl :
    valid_uid uid = true -> zlen d <= MAX_PAYLOAD_SIZE ->
    (forall fl0 d0, M !! uid = Some (fl0, d0) -> write_once fl0 = false) ->
    its_spec M (ItsSet stack rand uid d fl) (RStatus PSA_SUCCESS) (<[uid := (fl, d)]> M)
| spec_set_fail stack rand uid d fl :
    valid_uid uid = true -> zlen d <= MAX_PAYLOAD_SIZE ->
    (forall fl0 d0, M !! uid = Some (fl0, d0) -> write_once fl0 = false) ->
    its_spec M (ItsSet stack rand uid d fl) (RStatus PSA_ERROR_HARDWARE_FAILURE) M
| spec_get_invalid uid off len :
    valid_uid uid = false -> its_spec M (ItsGet uid off len) (RData PSA_ERROR_INVALID_HANDLE []) M
| spec_get_nothing uid off :
    valid_uid uid = true -> its_spec M (ItsGet uid off 0) (RData PSA_SUCCESS []) M
| spec_get_none uid off len :
    valid_uid uid = true -> len <> 0 -> M !! uid = None ->
    its_spec M (ItsGet uid off len) (RData PSA_ERROR_DOES_NOT_EXIST []) M
| spec_get_empty uid off len fl :
    valid_uid uid = true -> len <> 0 -> M !! uid = Some (fl, []) ->
    its_spec M (ItsGet uid off len) (RData PSA_ERROR_DATA_CORRUPT []) M
| spec_get_outside uid off len fl d :
    valid_uid uid = true -> len <> 0 -> M !! uid = Some (fl, d) -> d <> [] -> zlen d <= off ->
    its_spec M (ItsGet uid off len) (RData PSA_ERROR_INSUFFICIENT_DATA []) M
| spec_get uid off len fl d :
    valid_uid uid = true -> len <> 0 -> M !! uid = Some (fl, d) -> off < zlen d ->
    its_spec M (ItsGet uid off len) (RData PSA_SUCCESS (ztake len (zdrop off d))) M
| spec_info_invalid uid i0 :
    valid_uid uid = false -> its_spec M (ItsGetInfo uid i0) (RInfo PSA_ERROR_INVALID_HANDLE (info_of i0)) M
| spec_info_none uid i0 :
    valid_uid uid = true -> M !! uid = None ->
    its_spec M (ItsGetInfo uid i0) (RInfo PSA_ERROR_DOES_NOT_EXIST (info_of i0)) M
| spec_info uid i0 fl d :
    valid_uid uid = true -> M !! uid = Some (fl, d) ->
    its_spec M (ItsGetInfo uid i0) (RInfo PSA_SUCCESS (StorageInfo (zlen d) fl)) M
| spec_remove_invalid stack uid :
    valid_uid uid = false -> its_spec M (ItsRemove stack uid) (RStatus PSA_ERROR_INVALID_HANDLE) M
| spec_remove_none stack uid :
    valid_uid uid = true -> M !! uid = None -> its_spec M (ItsRemove stack uid) (RStatus PSA_ERROR_DOES_NOT_EXIST) M
| spec_remove_once stack uid fl d :
    valid_uid uid = true -> M !! uid = Some (fl, d) -> write_once fl = true ->
    its_spec M (ItsRemove stack uid) (RStatus PSA_ERROR_NOT_PERMITTED) M
| spec_remove stack uid fl d :
    valid_uid uid = true -> M !! uid = Some (fl, d) -> write_once fl = false ->
    its_spec M (ItsRemove stack uid) (RStatus PSA_SUCCESS) (delete uid M)
| spec_remove_fail stack uid fl d :
    valid_uid uid = true -> M !! uid = Some (fl, d) -> write_once fl = false ->
    its_spec M (ItsRemove stack uid) (RStatus PSA_ERROR_HARDWARE_FAILURE) M.

Inductive its_spec_run (M : its_map) : list its_call -> list its_reply -> its_map -> Prop :=
| spec_run_nil : its_spec_run M [] [] M
| spec_run_cons c cs r rs M1 M2 : its_spec M c r M1 -> its_spec_run M1 cs rs M2 -> its_spec_run M (c :: cs) (r :: rs) M2.

(** A value written once is never replaced or removed. *)
Lemma its_spec_once M c r M' uid fl d :
  its_spec M c r M' -> M !! uid = Some (fl, d) -> write_once fl = true -> M' !! uid = Some (fl, d).
Proof.
  intros Hs Hu Ho. destruct Hs as [| | | stack rand u d' fl' Hv Hl Hn | | | | | | | | | | | | | | stack u fl' d' Hv Hm Hn |]; try exact Hu.
  - rewrite lookup_insert_ne; [done|]. intros ->. apply Hn in Hu. congruence.
  - rewrite lookup_delete_ne; [done|]. intros ->. rewrite Hm in Hu. congruence.
Qed.

Lemma its_spec_run_once M cs rs M' uid fl d :
  its_spec_run M cs rs M' -> M !! uid = Some (fl, d) -> write_once fl = true -> M' !! uid = Some (fl, d).
Proof. induction 1; eauto using its_spec_once. Qed.

End spec.

Section run.
Context {F P : Type} `{NvsApi F} `{PsaAead P} (MAX_PAYLOAD_SIZE : Z) (p : P) (key_id : Z).

Definition its_step (fs : F) (c : its_call) : exec (its_reply * F) :=
  match c with
  | ItsSet stack rand uid d fl => let '(s, fs) := psa_its_set MAX_PAYLOAD_SIZE p key_id stack rand fs uid d fl in Done (RStatus s, fs)
  | ItsGet uid off len => let! (s, d) := psa_its_get MAX_PAYLOAD_SIZE p key_id fs uid off len in Done (RData s d, fs)
  | ItsGetInfo uid i => let '(s, i) := psa_its_get_info fs uid i in Done (RInfo s (info_of i), fs)
  | ItsRemove stack uid => let '(s, fs) := psa_its_remove stack fs uid in Done (RStatus s, fs)
  end.

Fixpoint its_run (fs : F) (cs : list its_call) : exec (list its_reply * F) :=
  match cs with
  | [] => Done ([], fs)
  | c :: cs => let! (r, fs) := its_step fs c in let! (rs, fs) := its_run fs cs in Done (r :: rs, fs)
  end.

End run.

(** ** Headers and values *)

Lemma zlen_info_bytes i : zlen (info_bytes i) = sizeof_info.
Proof. unfold info_bytes. by rewrite zlen_app, !zlen_le_put. Qed.

Lemma info_of_bytes i l : in_u 32 (size i) -> in_u 32 (flags i) -> info_of (info_bytes i ++ l) = i.
Proof.
  intros Hs Hf. unfold info_of, info_bytes, field. rewrite <- !app_assoc, (zdrop_0 0), ztake_app by (rewrite ?zlen_le_put; lia).
  rewrite zdrop_app, ztake_app, !le_get_put by (rewrite ?zlen_le_put; lia).
  change (2 ^ (8 * Z.of_nat 4)) with (2 ^ 32). rewrite !Z.mod_small by done. by destruct i.
Qed.

Lemma zwrite_0_all (bs l : list Z) : zlen bs = zlen l -> zwrite 0 bs l = bs.
Proof. intros Hl. unfold zwrite. rewrite ztake_0, zdrop_ge by lia. by rewrite app_nil_r. Qed.

(** ** Refinement *)

Section refine.
Context {F P K : Type} `{NvsSpec F} `{PsaAead P} {psa_key : P -> Z -> option (psa_attributes * K)}
  {seal : K -> list Z -> list Z -> list Z -> list Z} {open : K -> list Z -> list Z -> list Z -> option (list Z)}
  `{!PsaAeadSpec P K psa_key seal open}.
Context (MAX_PAYLOAD_SIZE : Z) (p : P) (key_id : Z).

(** A key that may encrypt and decrypt. *)
Definition storage_key (k : K) : Prop :=
  exists attr, psa_key p key_id = Some (attr, k) /\ attr_algorithm attr = PSA_ALG_CHACHA20_POLY1305 /\
    PSA_KEY_USAGE_ENCRYPT ∈ attr_usage attr /\ PSA_KEY_USAGE_DECRYPT ∈ attr_usage attr.

(** A value as it is stored. *)
Definition sealed (k : K) (n : list Z) (fl : Z) (d : list Z) : list Z :=
  let i := info_bytes (StorageInfo (zlen d) fl) in i ++ n ++ seal k n i d.

Definition holds (k : K) (fs : F) (uid fl : Z) (d : list Z) : Prop :=
  exists n, zlen n = CHACHA_NONCE_SIZE /\ in_u 32 fl /\ zlen d <= MAX_PAYLOAD_SIZE /\ nvs_map fs !! uid = Some (sealed k n fl d).

Definition storage_rel (k : K) (fs : F) (M : its_map) : Prop :=
  forall uid, valid_uid uid = true ->
    match M !! uid with
    | Some (fl, d) => holds k fs uid fl d
    | None => nvs_map fs !! uid = None
    end.

Context (k : K) (Hmax : 0 <= MAX_PAYLOAD_SIZE < 2 ^ 31 - 36) (Hkey : storage_key k).

Lemma storage_rel_set fs fs' M uid n fl d :
  storage_rel k fs M -> zlen n = CHACHA_NONCE_SIZE -> in_u 32 fl -> zlen d <= MAX_PAYLOAD_SIZE ->
  nvs_map fs' = <[uid := sealed k n fl d]> (nvs_map fs) -> storage_rel k fs' (<[uid := (fl, d)]> M).
Proof.
  intros Hr Hn Hf Hd Hm u Hu. destruct (decide (u = uid)) as [->|Hne].
  - rewrite lookup_insert_eq. exists n. rewrite Hm, lookup_insert_eq. done.
  - specialize (Hr u Hu). unfold holds in *. by rewrite Hm, !lookup_insert_ne by congruence.
Qed.

Lemma storage_rel_same fs fs' M : storage_rel k fs M -> nvs_map fs' = nvs_map fs -> storage_rel k fs' M.
Proof. intros Hr Hm u Hu. specialize (Hr u Hu). unfold holds in *. by rewrite Hm. Qed.

Lemma storage_rel_delete fs fs' M uid :
  storage_rel k fs M -> nvs_map fs' = delete uid (nvs_map fs) -> storage_rel k fs' (delete uid M).
Proof.
  intros Hr Hm u Hu. destruct (decide (u = uid)) as [->|Hne].
  - by rewrite lookup_delete_eq, Hm, lookup_delete_eq.
  - specialize (Hr u Hu). unfold holds in *. by rewrite Hm, !lookup_delete_ne by congruence.
Qed.

Lemma zlen_sealed n fl d : zlen n = CHACHA_NONCE_SIZE -> zlen (sealed k n fl d) = zlen d + OVERHEAD.
Proof.
  intros Hn. unfold sealed. rewrite !zlen_app, zlen_info_bytes, aead_seal_len, Hn.
  unfold OVERHEAD, CHACHA_TAG_SIZE. lia.
Qed.

Lemma sealed_prefix n fl d : ztake sizeof_info (sealed k n fl d) = info_bytes (StorageInfo (zlen d) fl).
Proof. unfold sealed. apply ztake_app. by rewrite zlen_info_bytes. Qed.

(** Reading the header of a stored value into a local. *)
Lemma read_header fs uid fl d stack :
  holds k fs uid fl d -> zlen stack = sizeof_info ->
  exists bs, nvs_read fs uid sizeof_info = (zlen d + OVERHEAD, bs) /\ info_of (zwrite 0 bs stack) = StorageInfo (zlen d) fl.
Proof.
  intros (n & Hn & Hf & Hd & Hm) Hs. eexists. split; [by rewrite (nvs_read_some _ _ _ _ Hm), zlen_sealed|].
  rewrite sealed_prefix, zwrite_0_all by (rewrite zlen_info_bytes; lia). rewrite <- (app_nil_r (info_bytes _)).
  apply info_of_bytes; [|done]. pose proof (zlen_nonneg d). unfold in_u. cbn. lia.
Qed.

Lemma set_refine fs M stack rand uid d fl s fs' :
  storage_rel k fs M -> its_call_ok (ItsSet stack rand uid d fl) ->
  psa_its_set MAX_PAYLOAD_SIZE p key_id stack rand fs uid d fl = (s, fs') ->
  exists M', its_spec MAX_PAYLOAD_SIZE M (ItsSet stack rand uid d fl) (RStatus s) M' /\ storage_rel k fs' M'.
Proof.
  intros Hr (Hst & Hra & Hfl). unfold psa_its_set. destruct (valid_uid uid) eqn:Hv; cbn [negb];
    [|intros [= <- <-]; eauto using its_spec].
  destruct (Z.ltb_spec MAX_PAYLOAD_SIZE (zlen d)) as [Hl|Hl]; [intros [= <- <-]; eauto using its_spec|].
  destruct (nvs_read fs uid sizeof_info) as [rc bs] eqn:Hrd.
  assert (Hold : match M !! uid with
                 | Some (fl0, _) => (0 <? rc) && write_once (flags (info_of (zwrite 0 bs stack))) = write_once fl0
                 | None => (0 <? rc) = false end).
  { pose proof (Hr uid Hv) as Hu. destruct (M !! uid) as [[fl0 d0]|].
    - destruct (read_header _ _ _ _ stack Hu Hst) as (bs' & Hb & Hi). rewrite Hrd in Hb. injection Hb as -> ->.
      rewrite Hi. cbn [flags]. pose proof (zlen_nonneg d0). by rewrite (proj2 (Z.ltb_lt 0 _)) by (unfold OVERHEAD, sizeof_info, CHACHA_NONCE_SIZE, CHACHA_TAG_SIZE; lia).
    - rewrite (nvs_read_none _ _ _ Hu) in Hrd. by injection Hrd as <- <-. }
  destruct ((0 <? rc) && write_once _) eqn:Hw.
  { intros [= <- <-]. destruct (M !! uid) as [[fl0 d0]|] eqn:Hmu; [eauto using its_spec|]. by rewrite Hold in Hw. }
  assert (Hn : forall fl0 d0, M !! uid = Some (fl0, d0) -> write_once fl0 = false).
  { intros fl0 d0 Hmu. rewrite Hmu in Hold. by rewrite <- Hold. }
  destruct Hkey as (attr & Hk & Ha & Hue & _).
  rewrite (aead_encrypt _ _ _ _ _ _ _ _ Hk Ha Hue) by (unfold DATA_SIZE, CHACHA_TAG_SIZE; try done; lia). cbn [Z.eqb negb].
  unfold format_bytes. cbn [info data_nonce data]. fold (sealed k rand fl d).
  destruct (nvs_write fs uid (sealed k rand fl d)) as [rc' fs1] eqn:Hwr. intros [= <- <-].
  pose proof (zlen_sealed rand fl d Hra) as Hlen. pose proof (zlen_nonneg d).
  rewrite aead_seal_len.
  assert (HO : OVERHEAD = 36) by done. assert (HT : sizeof_info + CHACHA_NONCE_SIZE + (zlen d + 16) = zlen (sealed k rand fl d)) by (rewrite Hlen, HO; unfold sizeof_info, CHACHA_NONCE_SIZE; lia).
  rewrite HT. apply nvs_write_spec in Hwr; [|intros Hnil; rewrite Hnil, zlen_nil in Hlen; lia].
  destruct Hwr as [[-> Hm]|[(-> & _ & Hm)|(? & _ & Hm)]].
  - rewrite Z.eqb_refl. eauto using its_spec, storage_rel_set.
  - rewrite (proj2 (Z.eqb_neq _ _)) by lia. eauto using its_spec, storage_rel_same.
  - rewrite (proj2 (Z.eqb_neq _ _)) by lia. eauto using its_spec, storage_rel_same.
Qed.

(** The decryption of what is stored, at any contents of the flash. *)
Definition stored_as (fs : F) (uid : Z) (i n c m : list Z) : Prop :=
  nvs_map fs !! uid = Some (i ++ n ++ c) /\ zlen i = sizeof_info /\ zlen n = CHACHA_NONCE_SIZE /\
  size (info_of i) = zlen m /\ open k n i c = Some m /\ zlen m <= MAX_PAYLOAD_SIZE.

Lemma info_of_app (i l : list Z) : zlen i = sizeof_info -> info_of (i ++ l) = info_of i.
Proof.
  unfold sizeof_info. intros Hi. unfold info_of, field. rewrite !zdrop_app_le, !ztake_app_le by (rewrite ?zlen_zdrop; lia). done.
Qed.

(** Once a value decrypts, the request decides. *)
Lemma get_stored fs uid i n c m off len :
  stored_as fs uid i n c m -> valid_uid uid = true -> m <> [] -> 0 <= off -> 0 < len < 2 ^ 32 ->
  psa_its_get MAX_PAYLOAD_SIZE p key_id fs uid off len =
  if zlen m <=? off then Done (PSA_ERROR_INSUFFICIENT_DATA, [])
  else if 2 ^ 32 <=? off + len then Fault
  else Done (PSA_SUCCESS, ztake len (zdrop off m)).
Proof.
  intros (Hm & Hi & Hn & Hs & Ho & Hl) Hv Hne Hoff Hlen. unfold psa_its_get. rewrite Hv, (nvs_read_some _ _ _ _ Hm). cbn [negb].
  rewrite (proj2 (Z.eqb_neq len 0)) by lia. pose proof (aead_open_len _ _ _ _ _ Ho) as Hc.
  assert (0 < zlen m) by (destruct m; [done|]; rewrite zlen_cons; pose proof (zlen_nonneg m); lia).
  unfold sizeof_format, OVERHEAD, DATA_SIZE, CHACHA_TAG_SIZE, CHACHA_NONCE_SIZE, sizeof_info in *.
  rewrite (ztake_ge _ (i ++ n ++ c)) by (rewrite !zlen_app; lia). rewrite !zlen_app, Hi, Hn, Hc.
  rewrite (proj2 (Z.eqb_neq _ (- ENOENT))) by (unfold ENOENT; lia). rewrite (proj2 (Z.ltb_ge _ 0)), (proj2 (Z.leb_gt _ (8 + 12 + 16))) by lia.
  replace (8 + (12 + (zlen m + 16)) - (8 + 12 + 16)) with (zlen m) by lia.
  rewrite (info_of_app i) by done. rewrite Hs, Z.eqb_refl. cbn [negb].
  destruct (Z.leb_spec (zlen m) off); [done|]. rewrite (proj2 (Z.ltb_ge _ _)) by lia.
  rewrite (zdrop_app 8), (ztake_app 12), (ztake_app 8) by done.
  rewrite (app_assoc i n c), (zdrop_app (8 + 12)) by (rewrite zlen_app; lia). rewrite (ztake_ge _ c) by lia.
  destruct Hkey as (attr & Hk & Ha & _ & Hud).
  rewrite (aead_decrypt _ _ _ _ _ _ _ _ _ Hk Ha Hud) by done. cbn [Z.eqb negb].
  destruct (Z.leb_spec (2 ^ 32) (off + len)) as [Hw|Hw].
  - assert (Hu : u32 (off + len) = off + len - 2 ^ 32) by (unfold uwrap; symmetry; apply Z.mod_unique with 1; lia).
    rewrite Hu, (proj2 (Z.ltb_ge (zlen m) _)), (proj2 (Z.ltb_lt MAX_PAYLOAD_SIZE _)) by lia. done.
  - rewrite (uwrap_small 32 (off + len)) by lia. destruct (Z.ltb_spec (zlen m) (off + len)) as [Hb|Hb].
    + rewrite uwrap_small, (proj2 (Z.ltb_ge MAX_PAYLOAD_SIZE _)) by lia.
      by rewrite (ztake_ge len), (ztake_ge (zlen m - off)) by (rewrite zlen_zdrop; lia).
    + by rewrite (proj2 (Z.ltb_ge _ _)) by lia.
Qed.

Lemma holds_stored fs uid fl d :
  holds k fs uid fl d -> exists n, stored_as fs uid (info_bytes (StorageInfo (zlen d) fl)) n (seal k n (info_bytes (StorageInfo (zlen d) fl)) d) d.
Proof.
  intros (n & Hn & Hf & Hd & Hm). exists n. split; [done|]. split; [apply zlen_info_bytes|]. split; [done|].
  rewrite <- (app_nil_r (info_bytes _)) at 1. pose proof (zlen_nonneg d).
  rewrite info_of_bytes; [|unfold in_u; cbn; lia|done]. split; [done|]. split; [apply aead_open_seal|done].
Qed.

Lemma get_refine fs M uid off len :
  storage_rel k fs M -> its_call_ok (ItsGet uid off len) ->
  (exists s d, psa_its_get MAX_PAYLOAD_SIZE p key_id fs uid off len = Done (s, d) /\ its_spec MAX_PAYLOAD_SIZE M (ItsGet uid off len) (RData s d) M) \/
  (psa_its_get MAX_PAYLOAD_SIZE p key_id fs uid off len = Fault /\ its_wraps M (ItsGet uid off len)).
Proof.
  intros Hr (Hoff & Hlen). unfold in_u in Hoff, Hlen. destruct (valid_uid uid) eqn:Hv.
  2: { left. unfold psa_its_get. rewrite Hv. eauto using its_spec. }
  destruct (Z.eq_dec len 0) as [->|Hne]; [left; unfold psa_its_get; rewrite Hv; eauto using its_spec|].
  pose proof (Hr uid Hv) as Hu. destruct (M !! uid) as [[fl d]|] eqn:Hmu.
  - destruct d as [|b d].
    + left. destruct Hu as (n & Hn & Hf & Hd & Hm). exists PSA_ERROR_DATA_CORRUPT, []. split; [|by econstructor].
      unfold psa_its_get. rewrite Hv, (nvs_read_some _ _ _ _ Hm), (proj2 (Z.eqb_neq len 0)), zlen_sealed by done. done.
    + destruct (holds_stored _ _ _ _ Hu) as (n & Hs). rewrite (get_stored _ _ _ _ _ _ _ _ Hs Hv) by (done || lia).
      destruct (Z.leb_spec (zlen (b :: d)) off); [left; do 2 eexists; (split; [done|]); by econstructor|].
      destruct (Z.leb_spec (2 ^ 32) (off + len)).
      * right. split; [done|]. cbn. eauto 10.
      * left. do 2 eexists. (split; [done|]); by econstructor.
  - left. exists PSA_ERROR_DOES_NOT_EXIST, []. split; [|by constructor].
    unfold psa_its_get. rewrite Hv, (nvs_read_none _ _ _ Hu), (proj2 (Z.eqb_neq len 0)) by done. done.
Qed.

Lemma info_refine fs M uid i0 s i :
  storage_rel k fs M -> its_call_ok (ItsGetInfo uid i0) -> psa_its_get_info fs uid i0 = (s, i) ->
  its_spec MAX_PAYLOAD_SIZE M (ItsGetInfo uid i0) (RInfo s (info_of i)) M.
Proof.
  intros Hr Hi. unfold psa_its_get_info. destruct (valid_uid uid) eqn:Hv; cbn [negb]; [|intros [= <- <-]; by constructor].
  pose proof (Hr uid Hv) as Hu. destruct (M !! uid) as [[fl d]|] eqn:Hmu.
  - destruct (read_header _ _ _ _ i0 Hu Hi) as (bs & -> & Hb). destruct Hu as (n & _ & _ & Hd & _). pose proof (zlen_nonneg d).
    rewrite Hb. cbn [size]. unfold OVERHEAD, sizeof_info, CHACHA_NONCE_SIZE, CHACHA_TAG_SIZE.
    rewrite (proj2 (Z.eqb_neq _ (- ENOENT))) by (unfold ENOENT; lia). rewrite (proj2 (Z.ltb_ge _ 0)), swrap_small by (unfold in_s; lia).
    rewrite (proj2 (Z.eqb_eq _ _)) by lia. intros [= <- <-]. rewrite Hb. by econstructor.
  - rewrite (nvs_read_none _ _ _ Hu). intros [= <- <-].
    change (zwrite 0 [] i0) with i0. by constructor.
Qed.

Lemma remove_refine fs M stack uid s fs' :
  storage_rel k fs M -> its_call_ok (ItsRemove stack uid) -> psa_its_remove stack fs uid = (s, fs') ->
  exists M', its_spec MAX_PAYLOAD_SIZE M (ItsRemove stack uid) (RStatus s) M' /\ storage_rel k fs' M'.
Proof.
  intros Hr Hi. unfold psa_its_remove. destruct (valid_uid uid) eqn:Hv; cbn [negb]; [|intros [= <- <-]; eauto using its_spec].
  pose proof (Hr uid Hv) as Hu. destruct (M !! uid) as [[fl d]|] eqn:Hmu.
  - destruct (read_header _ _ _ _ stack Hu Hi) as (bs & -> & Hb). pose proof (zlen_nonneg d). rewrite Hb. cbn [flags].
    rewrite (proj2 (Z.eqb_neq _ (- ENOENT))), (proj2 (Z.ltb_ge _ 0)) by (unfold ENOENT, OVERHEAD, sizeof_info, CHACHA_NONCE_SIZE, CHACHA_TAG_SIZE; lia).
    destruct (write_once fl) eqn:Hw; [intros [= <- <-]; eauto using its_spec|].
    destruct (nvs_delete fs uid) as [rc fs1] eqn:Hd. intros [= <- <-].
    apply nvs_delete_spec in Hd as [[-> Hm]|[? Hm]].
    + eauto using its_spec, storage_rel_delete.
    + rewrite (proj2 (Z.eqb_neq _ _)) by lia. eauto using its_spec, storage_rel_same.
  - rewrite (nvs_read_none _ _ _ Hu). intros [= <- <-]. eauto using its_spec.
Qed.

Lemma its_step_refine fs M c :
  storage_rel k fs M -> its_call_ok c ->
  (exists r fs' M', its_step MAX_PAYLOAD_SIZE p key_id fs c = Done (r, fs') /\ its_spec MAX_PAYLOAD_SIZE M c r M' /\ storage_rel k fs' M') \/
  (its_step MAX_PAYLOAD_SIZE p key_id fs c = Fault /\ its_wraps M c).
Proof.
  intros Hr Hc. destruct c as [stack rand uid d fl|uid off len|uid i|stack uid]; cbn [its_step]; [left| |left|left].
  - destruct (psa_its_set _ _ _ _ _ _ _ _ _) as [s fs'] eqn:Hs. destruct (set_refine _ _ _ _ _ _ _ _ _ Hr Hc Hs) as (M' & ? & ?). eauto 10.
  - destruct (get_refine _ _ _ _ _ Hr Hc) as [(s & d & -> & ?)|[-> ?]]; cbn [exec_bind]; eauto 10.
  - destruct (psa_its_get_info _ _ _) as [s i'] eqn:Hs. eauto 10 using info_refine.
  - destruct (psa_its_remove _ _ _) as [s fs'] eqn:Hs. destruct (remove_refine _ _ _ _ _ _ Hr Hc Hs) as (M' & ? & ?). eauto 10.
Qed.

(** A sequence of calls does what the map does, or faults at a request that wraps. *)
Lemma its_run_total fs M cs :
  storage_rel k fs M -> Forall its_call_ok cs ->
  (exists rs fs' M', its_run MAX_PAYLOAD_SIZE p key_id fs cs = Done (rs, fs') /\ its_spec_run MAX_PAYLOAD_SIZE M cs rs M' /\ storage_rel k fs' M') \/
  (its_run MAX_PAYLOAD_SIZE p key_id fs cs = Fault /\
   exists before c after rs M', cs = before ++ c :: after /\ its_spec_run MAX_PAYLOAD_SIZE M before rs M' /\ its_wraps M' c).
Proof.
  intros Hr Hcs. revert fs M Hr. induction Hcs as [|c cs Hc Hcs IH]; intros fs M Hr; cbn [its_run].
  { left. eauto 10 using its_spec_run. }
  destruct (its_step_refine _ _ _ Hr Hc) as [(r & fs1 & M1 & -> & Hs & Hr1)|[-> Hw]]; cbn [exec_bind].
  - destruct (IH _ _ Hr1) as [(rs & fs2 & M2 & -> & Hss & Hr2)|[-> (before & c1 & after & rs & M' & -> & Hss & Hw)]]; cbn [exec_bind].
    + left. eauto 10 using its_spec_run.
    + right. split; [done|]. exists (c :: before), c1, after, (r :: rs), M'. eauto using its_spec_run.
  - right. split; [done|]. exists [], c, cs, [], M. eauto using its_spec_run.
Qed.

(** Requests that end below 2^32. *)
Definition its_no_wrap (c : its_call) : Prop :=
  match c with ItsGet _ off len => off + len < 2 ^ 32 | _ => True end.

Lemma its_run_refine fs M cs :
  storage_rel k fs M -> Forall its_call_ok cs -> Forall its_no_wrap cs ->
  exists rs fs' M', its_run MAX_PAYLOAD_SIZE p key_id fs cs = Done (rs, fs') /\ its_spec_run MAX_PAYLOAD_SIZE M cs rs M' /\ storage_rel k fs' M'.
Proof.
  intros Hr Hcs Hno. destruct (its_run_total fs M cs Hr Hcs) as [|(_ & before & c & after & rs & M' & -> & _ & Hw)]; [done|].
  apply Forall_app in Hno as [_ [Hc _]%Forall_cons]. destruct c; try done. destruct Hw as (_ & ? & _). cbn in Hc. lia.
Qed.

(** Once a value is stored with the write-once flag, no sequence of calls changes
    it: it still reads back in full afterwards, and it can be neither replaced nor removed. *)
Theorem secure_storage_write_once fs M stack rand uid d fl fs1 cs :
  storage_rel k fs M -> its_call_ok (ItsSet stack rand uid d fl) -> d <> [] -> write_once fl = true ->
  Forall its_call_ok cs -> Forall its_no_wrap cs ->
  psa_its_set MAX_PAYLOAD_SIZE p key_id stack rand fs uid d fl = (PSA_SUCCESS, fs1) ->
  exists rs fs2, its_run MAX_PAYLOAD_SIZE p key_id fs1 cs = Done (rs, fs2) /\
    psa_its_get MAX_PAYLOAD_SIZE p key_id fs2 uid 0 (zlen d) = Done (PSA_SUCCESS, d) /\
    psa_its_remove stack fs2 uid = (PSA_ERROR_NOT_PERMITTED, fs2) /\
    (forall rand' d' fl', zlen d' <= MAX_PAYLOAD_SIZE ->
       psa_its_set MAX_PAYLOAD_SIZE p key_id stack rand' fs2 uid d' fl' = (PSA_ERROR_NOT_PERMITTED, fs2)).
Proof.
  intros Hr Hc Hd Hw Hcs Hnw Hs. destruct (set_refine _ _ _ _ _ _ _ _ _ Hr Hc Hs) as (M1 & Hsp & Hr1).
  assert (Hm1 : valid_uid uid = true /\ zlen d <= MAX_PAYLOAD_SIZE /\ M1 !! uid = Some (fl, d)).
  { inversion Hsp; subst. by rewrite lookup_insert_eq. }
  destruct Hm1 as (Hv & Hld & Hm1). destruct (its_run_refine _ _ _ Hr1 Hcs Hnw) as (rs & fs2 & M2 & Hrun & Hsr & Hr2).
  exists rs, fs2. split; [done|]. pose proof (its_spec_run_once _ _ _ _ _ _ _ _ Hsr Hm1 Hw) as Hm2.
  pose proof (Hr2 uid Hv) as Hu. rewrite Hm2 in Hu. destruct Hc as (Hst & _). pose proof (zlen_nonneg d).
  assert (0 < zlen d) by (destruct d; [done|rewrite zlen_cons; pose proof (zlen_nonneg d); lia]).
  assert (HO : OVERHEAD = 36) by done. destruct (read_header _ _ _ _ stack Hu Hst) as (bs & Hb & Hi). split; [|split].
  - destruct (holds_stored _ _ _ _ Hu) as (n & Hso). rewrite (get_stored _ _ _ _ _ _ _ _ Hso Hv Hd) by lia.
    rewrite (proj2 (Z.leb_gt _ _)), (proj2 (Z.leb_gt _ _)), zdrop_0, ztake_ge by lia. done.
  - unfold psa_its_remove. rewrite Hv, Hb, Hi. cbn [negb flags]. rewrite Hw, (proj2 (Z.eqb_neq _ _)), (proj2 (Z.ltb_ge _ _)) by (unfold ENOENT; lia). done.
  - intros rand' d' fl' Hl'. unfold psa_its_set. rewrite Hv, (proj2 (Z.ltb_ge _ _)), Hb, Hi by lia. cbn [negb flags].
    rewrite Hw, (proj2 (Z.ltb_lt _ _)) by lia. done.
Qed.

(** Whatever the flash holds, bytes are returned only from a value that the storage
    key authenticates together with its header, whose size is the one of the header. *)
Theorem its_get_authentic fs uid off len out :
  psa_its_get MAX_PAYLOAD_SIZE p key_id fs uid off len = Done (PSA_SUCCESS, out) -> 0 <= off -> 0 < len < 2 ^ 32 ->
  exists i n c m, stored_as fs uid i n c m /\ off < zlen m /\ out = ztake len (zdrop off m).
Proof.
  intros Hg Hoff Hlen. destruct (valid_uid uid) eqn:Hv; [|unfold psa_its_get in Hg; by rewrite Hv in Hg].
  assert (Hst : exists i n c m, stored_as fs uid i n c m /\ m <> []).
  { unfold psa_its_get in Hg. rewrite Hv, (proj2 (Z.eqb_neq len 0)) in Hg by lia. cbn [negb] in Hg.
    destruct (nvs_map fs !! uid) as [v|] eqn:Hm; [|by rewrite (nvs_read_none _ _ _ Hm) in Hg].
    rewrite (nvs_read_some _ _ _ _ Hm) in Hg. repeat (case_match; [discriminate|]). destruct (psa_aead_decrypt _ _ _ _ _ _ _) as [st o] eqn:Ha.
    unfold sizeof_format, OVERHEAD, DATA_SIZE, CHACHA_TAG_SIZE, CHACHA_NONCE_SIZE, sizeof_info in *.
    destruct (Z.eqb_spec st 0) as [->|]; [|discriminate]. cbn [negb] in Hg.
    assert (Hrc : 36 < zlen v <= 8 + 12 + (MAX_PAYLOAD_SIZE + 16)) by lia.
    rewrite (ztake_ge _ v) in * by lia. set (i := ztake 8 v) in *. set (n := ztake 12 (zdrop 8 v)) in *. set (c := zdrop 20 v).
    assert (Hvs : v = i ++ n ++ c) by (unfold i, n, c; rewrite <- (ztake_zdrop 8 v) at 1; f_equal; rewrite <- (ztake_zdrop 12 (zdrop 8 v)) at 1; f_equal; apply zdrop_zdrop; lia).
    assert (Hc : zlen c = zlen v - 20) by (unfold c; rewrite zlen_zdrop; lia).
    rewrite (ztake_ge _ (zdrop (8 + 12) v)) in Ha by (rewrite zlen_zdrop; lia). change (zdrop (8 + 12) v) with c in Ha.
    destruct Hkey as (attr & Hk & Hal & _ & Hud). destruct (open k n i c) as [m|] eqn:Ho.
    - pose proof (aead_open_len _ _ _ _ _ Ho) as Hl. exists i, n, c, m.
      assert (Hi : zlen i = 8) by (unfold i; rewrite zlen_ztake; lia).
      assert (Hsz : size (info_of v) = zlen v - 36) by (apply Z.eqb_eq, negb_false_iff; done).
      rewrite Hvs, info_of_app in Hsz by done. split; [|intros ->; rewrite zlen_nil in Hl; lia].
      split; [by rewrite Hm, <- Hvs|]. split; [done|]. split; [unfold n; rewrite zlen_ztake; [done|rewrite zlen_zdrop; lia]|].
      split; [rewrite Hsz, <- Hvs; lia|]. split; [done|lia].
    - pose proof (aead_reject _ _ _ _ n i c MAX_PAYLOAD_SIZE Hk Ho) as Hrej. by rewrite Ha in Hrej. }
  destruct Hst as (i & n & c & m & Hst & Hne). exists i, n, c, m. split; [done|].
  rewrite (get_stored _ _ _ _ _ _ _ _ Hst Hv Hne) in Hg by lia. destruct (Z.leb_spec (zlen m) off); [discriminate|].
  destruct (2 ^ 32 <=? off + len); [discriminate|]. injection Hg as <-. done.
Qed.

(** The end of a request is computed in 32 bits: a request that starts inside a
    stored value and whose end wraps is not limited to the value, and the copy leaves
    the decryption buffer. *)
Theorem its_get_wraps fs M uid fl d off len :
  storage_rel k fs M -> valid_uid uid = true -> M !! uid = Some (fl, d) -> 0 <= off < zlen d -> len < 2 ^ 32 -> 2 ^ 32 <= off + len ->
  psa_its_get MAX_PAYLOAD_SIZE p key_id fs uid off len = Fault.
Proof.
  intros Hr Hv Hm Hoff Hl Hw. pose proof (Hr uid Hv) as Hu. rewrite Hm in Hu.
  assert (Hd : zlen d <= MAX_PAYLOAD_SIZE) by (by destruct Hu as (? & _ & _ & ? & _)).
  assert (Hne : d <> []) by (intros E; rewrite E in Hoff; unfold zlen in Hoff; cbn in Hoff; lia).
  destruct (holds_stored _ _ _ _ Hu) as (n & Hs). rewrite (get_stored _ _ _ _ _ _ _ _ Hs Hv Hne) by lia.
  by rewrite (proj2 (Z.leb_gt _ _)), (proj2 (Z.leb_le _ _)) by lia.
Qed.

End refine.

(** ** The key of the storage, and restarts *)

Section boot.
Context {F P O K : Type} `{NvsSpec F} `{PsaKeysSpec P O K psa_key inputs hkdf} `{PsaAead P} {seal open}
  `{!PsaAeadSpec P K psa_key seal open} (key_export : bool) (MAX_PAYLOAD_SIZE : Z).

Lemma secure_storage_init_key p huk a m id p' :
  psa_key p huk = Some (a, m) -> secure_storage_init key_export p huk = (0, id, p') ->
  storage_key (psa_key := psa_key) p' id (hkdf 256 m storage_salt storage_info).
Proof.
  intros Hk. unfold secure_storage_init. destruct (infuse_security_derive_chacha_key _ _ _ _ _ _) as [i q] eqn:Hd.
  destruct (Z.eqb_spec i PSA_KEY_ID_NULL) as [|Hn]; [discriminate|]. intros [= <- <-].
  apply derive_chacha_ok in Hd as [[? _]|(_ & _ & _ & a' & m' & Hk' & Hq)]; [done|]. rewrite Hk in Hk'. injection Hk' as <- <-.
  eexists. split; [exact Hq|]. destruct key_export; (split; [done|]); split; cbn; set_solver.
Qed.

Lemma storage_rel_empty k fs :
  (forall uid, valid_uid uid = true -> nvs_map fs !! uid = None) -> storage_rel (seal := seal) MAX_PAYLOAD_SIZE k fs ∅.
Proof. intros He uid Hu. rewrite lookup_empty. auto. Qed.



End boot.

(** ** Witnesses *)

Definition demo_storage : Z * Z * mem_psa := secure_storage_init false demo_psa 1.
Definition demo_storage_key : list Z := mem_hkdf 256 [1; 1] storage_salt storage_info.
Definition demo_stack : list Z := repeat 170 8.
Definition demo_rand (n : Z) : list Z := repeat n 12.


Definition demo_calls1 : list its_call :=
  [ItsSet demo_stack (demo_rand 1) 30000 [1; 2; 3; 4] 1; ItsSet demo_stack (demo_rand 2) 30001 [] 0; ItsGet 30000 1 2;
   ItsSet demo_stack (demo_rand 3) 30000 [5] 0; ItsGetInfo 30001 demo_stack; ItsGet 30001 0 4].
Definition demo_calls2 : list its_call := [ItsGet 30000 0 100; ItsRemove demo_stack 30000; ItsRemove demo_stack 30001; ItsGet 30001 0 1].

Lemma demo_empty uid : valid_uid uid = true -> nvs_map (∅ : gmap Z (list Z)) !! uid = None.
Proof. intros _. change ((∅ : gmap Z (list Z)) !! uid = None). apply lookup_empty. Qed.



(** What the calls of the witness reply. *)
Example demo_replies :
  (let! (rs1, fs) := its_run 100 demo_storage.2 demo_storage.1.2 (∅ : gmap Z (list Z)) demo_calls1 in
   let! (rs2, _) := its_run 100 demo_storage.2 demo_storage.1.2 fs demo_calls2 in Done (rs1 ++ rs2)) =
  Done [RStatus PSA_SUCCESS; RStatus PSA_SUCCESS; RData PSA_SUCCESS [2; 3]; RStatus PSA_ERROR_NOT_PERMITTED;
        RInfo PSA_SUCCESS (StorageInfo 0 0); RData PSA_ERROR_DATA_CORRUPT []; RData PSA_SUCCESS [1; 2; 3; 4];
        RStatus PSA_ERROR_NOT_PERMITTED; RStatus PSA_SUCCESS; RData PSA_ERROR_DOES_NOT_EXIST []].
Proof. vm_compute. reflexivity. Qed.

Lemma demo_storage_usable : storage_key (psa_key := mem_key) demo_storage.2 demo_storage.1.2 demo_storage_key.
Proof.
  apply (secure_storage_init_key (psa_key := mem_key) (hkdf := mem_hkdf) false demo_psa 1 root_attributes [1; 1]); vm_compute; reflexivity.
Qed.

Definition demo_fs : gmap Z (list Z) :=
  (psa_its_set 100 demo_storage.2 demo_storage.1.2 demo_stack (demo_rand 1) ∅ 30000 [1; 2; 3; 4] 1).2.

Lemma demo_rel : storage_rel (F := gmap Z (list Z)) (seal := mem_seal) 100 demo_storage_key demo_fs {[30000 := (1, [1; 2; 3; 4])]}.
Proof.
  destruct (set_refine (open := mem_open) 100 demo_storage.2 demo_storage.1.2 demo_storage_key ltac:(lia) demo_storage_usable ∅ ∅ demo_stack (demo_rand 1)
    30000 [1; 2; 3; 4] 1 PSA_SUCCESS demo_fs (storage_rel_empty _ _ _ demo_empty)) as (M & Hs & Hr).
  - vm_compute. intuition discriminate.
  - vm_compute. reflexivity.
  - inversion Hs; subst. exact Hr.
Qed.

Lemma secure_storage_write_once_witness :
  exists rs fs2, its_run 100 demo_storage.2 demo_storage.1.2 demo_fs demo_calls2 = Done (rs, fs2) /\
    psa_its_get 100 demo_storage.2 demo_storage.1.2 fs2 30000 0 4 = Done (PSA_SUCCESS, [1; 2; 3; 4]).
Proof.
  destruct (secure_storage_write_once (psa_key := mem_key) (seal := mem_seal) (open := mem_open) 100 demo_storage.2 demo_storage.1.2
    demo_storage_key ltac:(lia) demo_storage_usable (∅ : gmap Z (list Z)) ∅ demo_stack (demo_rand 1) 30000 [1; 2; 3; 4] 1 demo_fs demo_calls2) as (rs & fs2 & H1 & H2 & _).
  - exact (storage_rel_empty _ _ _ demo_empty).
  - vm_compute. intuition discriminate.
  - discriminate.
  - reflexivity.
  - repeat constructor; vm_compute; discriminate.
  - repeat constructor; vm_compute; reflexivity.
  - vm_compute. reflexivity.
  - exists rs, fs2. split; [exact H1|exact H2].
Defined.

Lemma its_get_authentic_witness :
  exists i n c m, stored_as (F := gmap Z (list Z)) (open := mem_open) 100 demo_storage_key demo_fs 30000 i n c m /\ 1 < zlen m /\ [2; 3] = ztake 2 (zdrop 1 m).
Proof.
  apply (its_get_authentic (psa_key := mem_key) (seal := mem_seal) (open := mem_open) 100 demo_storage.2 demo_storage.1.2
    demo_storage_key ltac:(lia) demo_storage_usable demo_fs 30000 1 2 [2; 3]); [vm_compute; reflexivity|lia|lia].
Defined.

Lemma its_get_wraps_witness : psa_its_get 100 demo_storage.2 demo_storage.1.2 demo_fs 30000 1 4294967295 = Fault.
Proof.
  apply (its_get_wraps (psa_key := mem_key) (seal := mem_seal) (open := mem_open) 100 demo_storage.2 demo_storage.1.2
    demo_storage_key ltac:(lia) demo_storage_usable demo_fs {[30000 := (1, [1; 2; 3; 4])]} 30000 1 [1; 2; 3; 4] 1 4294967295 demo_rel).
  - reflexivity.
  - apply lookup_singleton_eq.
  - vm_compute. intuition discriminate.
  - lia.
  - lia.
Defined.
