(* ===== verification/EPacketCore.v ===== *)
(** * ePacket core

    [subsys/epacket/epacket.c] and [handlers.c], with the inline functions of
    [include/infuse/epacket/packet.h]: allocation and metadata of packets, rate limits, the
    reception of a packet from its bytes to its handler, and a gateway that forwards
    packets, with [forwarding.c] for devices that are connected.  On the encrypted
    interfaces no byte that a key does not authenticate reaches the RPC server; the link
    between processors ([epacket_hci.c]) and the interface of the tests ([epacket_dummy.c])
    are trusted.  Packets that a gateway forwards arrive once, in order, and can be taken
    apart again. *)

From stdpp Require Import base tactics numbers list.
From Stdlib Require Import ZArith Lia.
From S2P Require Import Prelude NetBuf EPacketKeys EPacketCrypt EPacketCryptProps.

Local Open Scope Z_scope.
Local Open Scope infuse_scope.

(** [enum infuse_type] and [enum epacket_interface_id], as far as they are used. *)
Definition INFUSE_ECHO_REQ : Z := 0.
Definition INFUSE_ECHO_RSP : Z := 1.
Definition INFUSE_TDF : Z := 2.
Definition INFUSE_RPC_CMD : Z := 3.
Definition INFUSE_RPC_DATA : Z := 4.
Definition INFUSE_RPC_DATA_ACK : Z := 5.
Definition INFUSE_RPC_RSP : Z := 6.
Definition INFUSE_RECEIVED_EPACKET : Z := 7.
Definition INFUSE_EPACKET_FORWARD : Z := 9.
Definition INFUSE_EPACKET_FORWARD_AUTO_CONN : Z := 12.
Definition INFUSE_KEY_IDS : Z := 127.

Definition EPACKET_INTERFACE_SERIAL : Z := 0.
Definition EPACKET_INTERFACE_UDP : Z := 1.
Definition EPACKET_INTERFACE_BT_ADV : Z := 2.
Definition EPACKET_INTERFACE_BT_PERIPHERAL : Z := 3.
Definition EPACKET_INTERFACE_BT_CENTRAL : Z := 4.
Definition EPACKET_INTERFACE_HCI : Z := 10.
Definition EPACKET_INTERFACE_DUMMY : Z := 255.

Definition EPACKET_FLAGS_CLOUD_FORWARDING : Z := 0x2000.
Definition EPACKET_FLAGS_CLOUD_SELF : Z := 0x1000.
Definition EPACKET_KEY_ID_REQ_MAGIC : Z := 0x4D.
Definition EPACKET_RATE_LIMIT_REQ_MAGIC : Z := 0x4E.

(** A buffer for transmission: the payload and the tailroom.  The header in front is
    written by the encryption. *)
Record tx_buf := TxBuf { tb_data : list Z; tb_room : Z }.

Definition buf_add_mem (b : tx_buf) (l : list Z) : exec tx_buf :=
  if zlen l <=? tb_room b then Done (TxBuf (tb_data b ++ l) (tb_room b - zlen l)) else Fault.

(** A write into the payload. *)
Definition buf_poke (b : tx_buf) (off : Z) (l : list Z) : tx_buf :=
  TxBuf (ztake (zlen (tb_data b)) (zwrite off l (tb_data b))) (tb_room b).

(** An address of an interface, as the 7 bytes of a Bluetooth address. *)
Definition EPACKET_ADDR_ALL : list Z := repeat 0 7.

(** A queued packet: its interface, destination, metadata and payload. *)
Record tx_packet := TxPacket { tp_dev : Z; tp_dest : list Z; tp_meta : epacket_tx_metadata; tp_data : list Z }.

(** A received packet: [rx_meta] is what the decryption fills in. *)
Record rx_packet := RxPacket {
  rx_meta : epacket_rx_metadata;
  rx_interface : Z;
  rx_address : list Z;
  rx_rssi : Z;
  rx_data : list Z;
}.

(** The static state of the files, the FIFOs of the RPC server, the number of buffers
    allocated, and the state of [forwarding.c]: the packets for its thread and the interface
    that forwarding packets came from. *)
Record core_state := CoreState {
  rate_limit_delay : Z;
  rate_limit_throughput : Z;
  global_flags : Z;
  prev_key_request : Z;
  tx_queue : list tx_packet;
  command_fifo : list rx_packet;
  data_fifo : list rx_packet;
  allocs : nat;
  auto_conn_fifo : list rx_packet;
  epacket_backhaul : option Z;
}.

Definition set_rate_limit (st : core_state) (delay throughput : Z) : core_state :=
  CoreState delay throughput (global_flags st) (prev_key_request st) (tx_queue st) (command_fifo st) (data_fifo st) (allocs st) (auto_conn_fifo st) (epacket_backhaul st).
Definition set_global_flags (st : core_state) (f : Z) : core_state :=
  CoreState (rate_limit_delay st) (rate_limit_throughput st) f (prev_key_request st) (tx_queue st) (command_fifo st) (data_fifo st) (allocs st) (auto_conn_fifo st) (epacket_backhaul st).
Definition set_prev_key_request (st : core_state) (t : Z) : core_state :=
  CoreState (rate_limit_delay st) (rate_limit_throughput st) (global_flags st) t (tx_queue st) (command_fifo st) (data_fifo st) (allocs st) (auto_conn_fifo st) (epacket_backhaul st).
Definition set_allocs (st : core_state) (n : nat) : core_state :=
  CoreState (rate_limit_delay st) (rate_limit_throughput st) (global_flags st) (prev_key_request st) (tx_queue st) (command_fifo st) (data_fifo st) n (auto_conn_fifo st) (epacket_backhaul st).

Definition epacket_queue (st : core_state) (p : tx_packet) : core_state :=
  CoreState (rate_limit_delay st) (rate_limit_throughput st) (global_flags st) (prev_key_request st) (tx_queue st ++ [p])
    (command_fifo st) (data_fifo st) (allocs st) (auto_conn_fifo st) (epacket_backhaul st).

Definition rpc_server_queue_command (st : core_state) (p : rx_packet) : core_state :=
  CoreState (rate_limit_delay st) (rate_limit_throughput st) (global_flags st) (prev_key_request st) (tx_queue st)
    (command_fifo st ++ [p]) (data_fifo st) (allocs st) (auto_conn_fifo st) (epacket_backhaul st).
Definition rpc_server_queue_data (st : core_state) (p : rx_packet) : core_state :=
  CoreState (rate_limit_delay st) (rate_limit_throughput st) (global_flags st) (prev_key_request st) (tx_queue st)
    (command_fifo st) (data_fifo st ++ [p]) (allocs st) (auto_conn_fifo st) (epacket_backhaul st).

Definition set_forwarding (st : core_state) (fifo : list rx_packet) (backhaul : option Z) : core_state :=
  CoreState (rate_limit_delay st) (rate_limit_throughput st) (global_flags st) (prev_key_request st) (tx_queue st)
    (command_fifo st) (data_fifo st) (allocs st) fifo backhaul.

Definition epacket_global_flags_set (st : core_state) (f : Z) : core_state :=
  set_global_flags st (Z.land f (Z.lor EPACKET_FLAGS_CLOUD_FORWARDING EPACKET_FLAGS_CLOUD_SELF)).

(** ** Rate limits *)

Definition epacket_rate_limit_reset (st : core_state) : core_state := set_rate_limit st 0 0.

(** [last_call], and the sleeps in ticks and in milliseconds.  [now] and [later] are the
    uptimes read, in ticks.  [throughput_bps] is a 32 bit [atomic_t], converted to unsigned
    by the division. *)
Definition epacket_rate_limit_tx (ticks_per_sec : Z) (st : core_state) (last_call now later bytes_transmitted : Z)
  : core_state * Z * Z * Z :=
  let delay := rate_limit_delay st in
  let throughput_bps := s32 (1024 * rate_limit_throughput st) in
  let st := set_rate_limit st 0 (rate_limit_throughput st) in
  if throughput_bps =? 0 then (st, last_call, 0, delay)
  else
    let bits_sent := u32 (8 * u16 bytes_transmitted) in
    let expected_time_ticks := u32 (ticks_per_sec * bits_sent) / u32 throughput_bps in
    let actual_time_ticks := now - last_call in
    let to_wait := expected_time_ticks - actual_time_ticks in
    if 0 <? to_wait then (st, later, to_wait, delay) else (st, now, 0, delay).

(** ** Forwarded packets *)

(** [struct epacket_received_decrypted_header] of a packet. *)
Definition decrypted_header (m : epacket_rx_metadata) : list Z :=
  le_put 8 (packet_device_id m) ++ le_put 4 (packet_gps_time m) ++ le_put 1 (rx_type m) ++ le_put 2 (rx_flags m) ++
  le_put 2 (rx_sequence m) ++ le_put 3 (rx_key_identifier m).

Definition sizeof_common : Z := 4.
Definition sizeof_decrypted : Z := 20.

Definition has_address (dev : Z) : bool := (dev =? EPACKET_INTERFACE_BT_ADV) || (dev =? EPACKET_INTERFACE_BT_CENTRAL).

(** [CONFIG_EPACKET_RECEIVE_GROUPING]: the pending buffer with its backhaul and metadata,
    and whether the worker that flushes it is scheduled. *)
Record group_state := GroupState { pending : option (Z * epacket_tx_metadata * tx_buf); flush_scheduled : bool }.

(** The return value and [storage_buf]; on success the received packet has been released. *)
Definition epacket_received_packet_append (storage : tx_buf) (p : rx_packet) : exec (Z * tx_buf) :=
  let failed := bool_decide (rx_auth (rx_meta p) = EPACKET_AUTH_FAILURE) in
  let len := u16 (sizeof_common + zlen (rx_data p)) in
  let len := if failed then len else u16 (len + sizeof_decrypted) in
  let addr := if has_address (rx_interface p) then rx_address p else [] in
  let len := u16 (len + zlen addr) in
  if tb_room storage <? len then Done (- ENOMEM, storage)
  else
    let len_encrypted := Z.lor len (if failed then 0x8000 else 0) in
    let rssi := u8 (- Z.min 0 (rx_rssi p)) in
    let! storage := buf_add_mem storage (le_put 2 len_encrypted ++ le_put 1 rssi ++ le_put 1 (rx_interface p)) in
    let! storage := buf_add_mem storage addr in
    let! storage := if failed then Done storage else buf_add_mem storage (decrypted_header (rx_meta p)) in
    let! storage := buf_add_mem storage (rx_data p) in
    Done (0, storage).

Section core.
Context `{NetBufApi} {P O : Type} `{PsaKeys P O} `{PsaAead P} (key_export : bool) (sec : security).
(** The interfaces: sizes of header and footer, and the largest packet at the time of an
    allocation (0: disconnected).  [tx_free]: whether an allocation without waiting
    finds a buffer. *)
Context (header_size footer_size : Z -> Z) (max_packet_size : Z -> nat -> Z) (tx_free : nat -> bool).
(** [CONFIG_EPACKET_FORWARDING], the size of a buffer of the transmit pool, and the time that
    tests give to the packets of the dummy interface. *)
Context (forwarding : bool) (pool_size dummy_gps_time : Z).

Definition interface_room (dev : Z) (n : nat) : Z :=
  let size := max_packet_size dev n in
  if header_size dev + footer_size dev <? size then size - footer_size dev - header_size dev else 0.

(** With [K_FOREVER]; and with [K_NO_WAIT] ([None]: NULL). *)
Definition epacket_alloc_tx_for_interface (st : core_state) (dev : Z) : tx_buf * core_state :=
  (TxBuf [] (interface_room dev (allocs st)), set_allocs st (S (allocs st))).
Definition epacket_try_alloc_tx_for_interface (st : core_state) (dev : Z) : option tx_buf * core_state :=
  if tx_free (allocs st) then let '(b, st) := epacket_alloc_tx_for_interface st dev in (Some b, st)
  else (None, set_allocs st (S (allocs st))).

Definition epacket_set_tx_metadata_core (st : core_state) (auth : epacket_auth) (key_identifier flags type : Z) : epacket_tx_metadata :=
  TxMeta auth type key_identifier (Z.lor (global_flags st) flags) 0.

(** The second condition of the source is the constant [EPACKET_AUTH_NETWORK], which is true. *)
Definition epacket_set_tx_metadata (st : core_state) (auth : epacket_auth) (flags type : Z) : epacket_tx_metadata :=
  epacket_set_tx_metadata_core st auth
    (if decide (auth = EPACKET_AUTH_DEVICE) then device_key_identifier sec else network_key_identifier sec) flags type.

Definition epacket_send_key_ids (st : core_state) (dev : Z) : exec (Z * core_state) :=
  match epacket_try_alloc_tx_for_interface st dev with
  | (None, st) => Done (- EAGAIN, st)
  | (Some rsp, st) =>
      let meta := epacket_set_tx_metadata st EPACKET_AUTH_NETWORK 0 INFUSE_KEY_IDS in
      let! rsp := buf_add_mem rsp (le_put 3 (device_key_identifier sec)) in
      Done (0, epacket_queue st (TxPacket dev EPACKET_ADDR_ALL meta (tb_data rsp)))
  end.

(** ** Handlers *)

Definition epacket_default_receive_handler (st : core_state) (p : rx_packet) : exec core_state :=
  let type := rx_type (rx_meta p) in
  let auth := rx_auth (rx_meta p) in
  if decide (auth = EPACKET_AUTH_FAILURE) then Done st
  else
    let! st :=
      if type =? INFUSE_ECHO_REQ then
        match epacket_try_alloc_tx_for_interface st (rx_interface p) with
        | (None, st) => Done st
        | (Some echo, st) =>
            let meta := epacket_set_tx_metadata st auth 0 INFUSE_ECHO_RSP in
            let! echo := buf_add_mem echo (rx_data p) in
            Done (epacket_queue st (TxPacket (rx_interface p) EPACKET_ADDR_ALL meta (tb_data echo)))
        end
      else Done st in
    if type =? INFUSE_RPC_CMD then Done (rpc_server_queue_command st p)
    else if type =? INFUSE_RPC_DATA then Done (rpc_server_queue_data st p)
    else Done st.

Definition received_metadata (st : core_state) : epacket_tx_metadata :=
  epacket_set_tx_metadata st EPACKET_AUTH_DEVICE 0 INFUSE_RECEIVED_EPACKET.

Definition receive_do_flush (st : core_state) (g : group_state) : core_state * group_state :=
  match pending g with
  | Some (dev, meta, b) => (epacket_queue st (TxPacket dev EPACKET_ADDR_ALL meta (tb_data b)), GroupState None false)
  | None => (st, GroupState None false)
  end.

(** The first section under [pending_lock]: whether the packet was appended. *)
Definition append_pending (st : core_state) (g : group_state) (backhaul : Z) (p : rx_packet)
  : exec (bool * core_state * group_state) :=
  match pending g with
  | None => Done (false, st, g)
  | Some (dev, meta, b) =>
      let! (rc, b) := epacket_received_packet_append b p in
      if (rc =? 0) && negb (rx_type (rx_meta p) =? INFUSE_RPC_RSP)
      then Done (true, st, GroupState (Some (dev, meta, b)) true)
      else Done (rc =? 0, epacket_queue st (TxPacket backhaul EPACKET_ADDR_ALL meta (tb_data b)), GroupState None false)
  end.

(** [stale_type] is [meta->type] as it is read after the packet has been released. *)
Definition receive_forward (stale_type : Z) (st : core_state) (g : group_state) (backhaul : Z) (p : rx_packet)
  : exec (core_state * group_state) :=
  let! (appended, st, g) := append_pending st g backhaul p in
  if appended then Done (st, g)
  else
    let '(temp, st) := epacket_alloc_tx_for_interface st backhaul in
    let! (rc, temp) := epacket_received_packet_append temp p in
    if rc =? 0 then
      if negb (stale_type =? INFUSE_RPC_RSP) then Done (st, GroupState (Some (backhaul, received_metadata st, temp)) true)
      else Done (epacket_queue st (TxPacket backhaul EPACKET_ADDR_ALL (received_metadata st) (tb_data temp)), GroupState None (flush_scheduled g))
    else Done (st, g).

(** Without grouping. *)
Definition receive_forward_single (st : core_state) (backhaul : Z) (p : rx_packet) : exec core_state :=
  let '(forward, st) := epacket_alloc_tx_for_interface st backhaul in
  let! (rc, forward) := epacket_received_packet_append forward p in
  if rc =? 0 then Done (epacket_queue st (TxPacket backhaul EPACKET_ADDR_ALL (received_metadata st) (tb_data forward))) else Done st.

(** ** Forwarding to a connected device *)

Definition sizeof_forward_header : Z := 3.

(** A pull asserts that the bytes are there, and the copy reads the bytes that the header
    announces. *)
Definition epacket_forward_direct (st : core_state) (p : rx_packet) : exec core_state :=
  let buf := rx_data p in
  if zlen buf <? sizeof_forward_header then Fault
  else
    let length := field buf 0 2 in
    let interface := field buf 2 1 in
    let buf := zdrop sizeof_forward_header buf in
    if zlen buf <? 7 then Fault
    else
      let dest := ztake 7 buf in
      let buf := zdrop 7 buf in
      if negb (interface =? EPACKET_INTERFACE_BT_CENTRAL) then Done st
      else
        let forward_max_size := max_packet_size EPACKET_INTERFACE_BT_CENTRAL (allocs st) in
        let forward_payload := u16 (length - sizeof_forward_header - 7) in
        if forward_max_size <? forward_payload then Done st
        else if negb (tx_free (allocs st)) then Done (set_allocs st (S (allocs st)))
        else
          let st := set_allocs st (S (allocs st)) in
          let meta := epacket_set_tx_metadata st EPACKET_AUTH_REMOTE_ENCRYPTED 0 0 in
          if zlen buf <? forward_payload then Fault (* past the end of the packet *)
          else
            let! tx := buf_add_mem (TxBuf [] pool_size) (ztake forward_payload buf) in
            Done (epacket_queue st (TxPacket EPACKET_INTERFACE_BT_CENTRAL dest meta (tb_data tx))).

Definition epacket_packet_forward (st : core_state) (p : rx_packet) : exec core_state :=
  if decide (rx_auth (rx_meta p) = EPACKET_AUTH_FAILURE) then Done st
  else
    let st := set_forwarding st (auto_conn_fifo st) (Some (rx_interface p)) in
    if rx_type (rx_meta p) =? INFUSE_EPACKET_FORWARD then epacket_forward_direct st p
    else if rx_type (rx_meta p) =? INFUSE_EPACKET_FORWARD_AUTO_CONN
    then Done (set_forwarding st (auto_conn_fifo st ++ [p]) (epacket_backhaul st))
    else Done st.

(** [rebooting]: the application state [INFUSE_STATE_REBOOTING]. *)
Definition epacket_gateway_receive_handler (stale_type : Z) (rebooting : bool) (st : core_state) (g : group_state)
    (backhaul : Z) (p : rx_packet) : exec (core_state * group_state) :=
  let type := rx_type (rx_meta p) in
  if forwarding && (rx_interface p =? backhaul) && ((type =? INFUSE_EPACKET_FORWARD) || (type =? INFUSE_EPACKET_FORWARD_AUTO_CONN)) then
    if rebooting then Done (st, g) else let! st := epacket_packet_forward st p in Done (st, g)
  else if has_address (rx_interface p) then
    if rebooting then Done (st, g) else receive_forward stale_type st g backhaul p
  else let! st := epacket_default_receive_handler st p in Done (st, g).

(** ** Reception *)

Definition sizeof_hci_frame : Z := 5.
Definition sizeof_dummy_frame : Z := 8.

(** The link between the processors of a device: a header, and no encryption. *)
Definition epacket_hci_decrypt (b : net_buf_simple) (meta : epacket_rx_metadata) : exec (Z * net_buf_simple * epacket_rx_metadata) :=
  if nb_len b <=? sizeof_hci_frame then Done (- EINVAL, b, meta)
  else
    let! (b, header) := nb_pull_mem b sizeof_hci_frame in
    let header := nb_load b header sizeof_hci_frame in
    Done (0, b, RxMeta (packet_device_id meta) (packet_gps_time meta) (rx_key_identifier meta) EPACKET_AUTH_DEVICE (field header 0 1) (field header 1 2) 0).

(** Larger values name no level of the enumeration, and the tests send none; they are taken for
    [EPACKET_AUTH_DEVICE], as by the comparisons with a required level. *)
Definition auth_of_byte (v : Z) : epacket_auth :=
  if v =? 0 then EPACKET_AUTH_FAILURE else if v =? 1 then EPACKET_AUTH_NETWORK else EPACKET_AUTH_DEVICE.

(** The interface of the tests: the packet says what it is. *)
Definition epacket_dummy_decrypt (b : net_buf_simple) (meta : epacket_rx_metadata) : exec (Z * net_buf_simple * epacket_rx_metadata) :=
  if nb_len b <=? sizeof_dummy_frame then Done (- EINVAL, b, meta)
  else
    let! (b, header) := nb_pull_mem b sizeof_dummy_frame in
    let header := nb_load b header sizeof_dummy_frame in
    Done (0, b, RxMeta 1 dummy_gps_time (field header 4 4) (auth_of_byte (field header 1 1)) (field header 0 1) (field header 2 2) 0).

Definition interface_decrypt (dev device_id : Z) (scratch b : net_buf_simple) (meta : epacket_rx_metadata) (cs : crypt_state P)
  : exec (Z * net_buf_simple * epacket_rx_metadata * crypt_state P) :=
  if dev =? EPACKET_INTERFACE_SERIAL then epacket_serial_decrypt key_export sec device_id scratch b meta cs
  else if dev =? EPACKET_INTERFACE_UDP then epacket_udp_decrypt key_export sec device_id scratch b meta cs
  else if dev =? EPACKET_INTERFACE_BT_ADV then epacket_bt_adv_decrypt key_export sec device_id scratch b meta cs
  else if (dev =? EPACKET_INTERFACE_BT_PERIPHERAL) || (dev =? EPACKET_INTERFACE_BT_CENTRAL) then
    epacket_bt_gatt_decrypt key_export sec device_id scratch b meta cs
  else if dev =? EPACKET_INTERFACE_HCI then let! (rc, b, meta) := epacket_hci_decrypt b meta in Done (rc, b, meta, cs)
  else if dev =? EPACKET_INTERFACE_DUMMY then let! (rc, b, meta) := epacket_dummy_decrypt b meta in Done (rc, b, meta, cs)
  else Done (-1, b, meta, cs).

(** The receive handler of an interface: one of the two above, or a function of the application. *)
Inductive rx_handler :=
| HandleDefault
| HandleGateway (backhaul : Z)
| HandleCustom (f : core_state -> group_state -> rx_packet -> exec (core_state * group_state)).

Definition run_handler (stale_type : Z) (rebooting : bool) (h : rx_handler) (st : core_state) (g : group_state) (p : rx_packet)
  : exec (core_state * group_state) :=
  match h with
  | HandleDefault => let! st := epacket_default_receive_handler st p in Done (st, g)
  | HandleGateway backhaul => epacket_gateway_receive_handler stale_type rebooting st g backhaul p
  | HandleCustom f => f st g p
  end.

(** The registered callbacks of the interface, in order: whether processing continues. *)
Abbreviation packet_received_cb := (rx_packet -> bool -> bool).

Section rx.
Context (uptime device_id stale_type : Z) (rebooting : bool) (h : rx_handler) (cbs : list packet_received_cb).

(** From the decryption on. *)
Definition handle_rx_payload (scratch b : net_buf_simple) (p : rx_packet) (cs : crypt_state P) (st : core_state) (g : group_state)
  : exec (core_state * group_state * crypt_state P) :=
  let! (rc, b, meta, cs) := interface_decrypt (rx_interface p) device_id scratch b (rx_meta p) cs in
  let p := RxPacket meta (rx_interface p) (rx_address p) (rx_rssi p) (nb_contents b) in
  let! st := if rc =? -2 then let! (_, st) := epacket_send_key_ids st (rx_interface p) in Done st else Done st in
  if forallb (fun cb => cb p (rc =? 0)) cbs
  then let! (st, g) := run_handler stale_type rebooting h st g p in Done (st, g, cs)
  else Done (st, g, cs).

(** [b] is the received packet; the first byte is read even of an empty packet, when it may be
    behind the buffer. *)
Definition epacket_handle_rx (scratch b : net_buf_simple) (p : rx_packet) (cs : crypt_state P) (st : core_state) (g : group_state)
  : exec (core_state * group_state * crypt_state P) :=
  if zlen (nb_mem b) <=? nb_data b then Fault
  else
  let first := le_get (nb_load b (nb_data b) 1) in
  if (nb_len b =? 1) && (first =? EPACKET_KEY_ID_REQ_MAGIC) then
    if prev_key_request st =? uptime then Done (st, g, cs)
    else
      let st := set_prev_key_request st uptime in
      let! (_, st) := epacket_send_key_ids st (rx_interface p) in
      Done (st, g, cs)
  else if (first =? EPACKET_RATE_LIMIT_REQ_MAGIC) && (nb_len b =? 2) then
    Done (set_rate_limit st (le_get (nb_load b (nb_data b + 1) 1)) (rate_limit_throughput st), g, cs)
  else if (first =? EPACKET_RATE_LIMIT_REQ_MAGIC) && (nb_len b =? 3) then
    Done (set_rate_limit st (rate_limit_delay st) (le_get (nb_load b (nb_data b + 1) 2)), g, cs)
  else handle_rx_payload scratch b p cs st g.

End rx.
End core.
