(* ===== verification/EPacketCoreProps.v ===== *)
(** * Properties of the ePacket core

    Reception: what reaches the RPC server is authenticated, and no packet is handled
    outside its buffers while there is room for the answer.  Forwarding: a gateway's
    packets hold what it received, in order, each once. *)

From stdpp Require Import base tactics numbers list relations.
From Stdlib Require Import ZArith Lia.
From S2P Require Import Prelude NetBuf EPacketKeys EPacketCrypt EPacketCryptProps EPacketCore.

Local Open Scope Z_scope.
Local Open Scope infuse_scope.

(** ** Appending a received packet *)

Definition is_failure (p : rx_packet) : bool := bool_decide (rx_auth (rx_meta p) = EPACKET_AUTH_FAILURE).

(** What a gateway stores for a packet. *)
Definition forwarded_len (p : rx_packet) : Z :=
  sizeof_common + (if has_address (rx_interface p) then 7 else 0) + (if is_failure p then 0 else sizeof_decrypted) + zlen (rx_data p).

Definition forwarded (p : rx_packet) : list Z :=
  le_put 2 (Z.lor (forwarded_len p) (if is_failure p then 0x8000 else 0)) ++ le_put 1 (u8 (- Z.min 0 (rx_rssi p))) ++
  le_put 1 (rx_interface p) ++ (if has_address (rx_interface p) then rx_address p else []) ++
  (if is_failure p then [] else decrypted_header (rx_meta p)) ++ rx_data p.

(** A received packet as the interfaces deliver it. *)
Definition rx_packet_ok (p : rx_packet) : Prop := zlen (rx_address p) = 7 /\ forwarded_len p < 2 ^ 15.

Lemma zlen_decrypted_header m : zlen (decrypted_header m) = sizeof_decrypted.
Proof. done. Qed.

Lemma zlen_forwarded p : rx_packet_ok p -> zlen (forwarded p) = forwarded_len p.
Proof.
  intros [Ha _]. unfold forwarded, forwarded_len. rewrite !zlen_app, !zlen_le_put.
  destruct (has_address _), (is_failure p); rewrite ?Ha, ?zlen_decrypted_header, ?zlen_nil; unfold sizeof_common; lia.
Qed.

Lemma buf_add_mem_ok b l : zlen l <= tb_room b -> buf_add_mem b l = Done (TxBuf (tb_data b ++ l) (tb_room b - zlen l)).
Proof. intros Hl. unfold buf_add_mem. by rewrite (proj2 (Z.leb_le _ _) Hl). Qed.

Local Ltac add_step :=
  rewrite buf_add_mem_ok by (cbn [tb_room]; rewrite ?zlen_app; lia); cbn [exec_bind tb_room tb_data].

Lemma append_ok b p :
  rx_packet_ok p ->
  epacket_received_packet_append b p =
  if tb_room b <? forwarded_len p then Done (- ENOMEM, b) else Done (0, TxBuf (tb_data b ++ forwarded p) (tb_room b - forwarded_len p)).
Proof.
  intros Hp. pose proof (zlen_forwarded p Hp) as Hz. destruct Hp as [Ha Hlt]. unfold epacket_received_packet_append. fold (is_failure p).
  assert (Hlen : u16 ((if is_failure p then u16 (sizeof_common + zlen (rx_data p)) else u16 (u16 (sizeof_common + zlen (rx_data p)) + sizeof_decrypted))
    + zlen (if has_address (rx_interface p) then rx_address p else [])) = forwarded_len p).
  { pose proof (zlen_nonneg (rx_data p)). unfold forwarded_len, sizeof_common, sizeof_decrypted in *.
    revert Hlt. destruct (has_address _), (is_failure p); intros; rewrite ?Ha, ?zlen_nil, (uwrap_small 16 (4 + _)) by lia;
      rewrite ?(uwrap_small 16 (4 + _ + 20)) by lia; rewrite uwrap_small by lia; lia. }
  rewrite Hlen. destruct (Z.ltb_spec (tb_room b) (forwarded_len p)) as [|Hr]; [done|].
  assert (H0 : forall l k : list Z, zlen l <= zlen (l ++ k)) by (intros l k; rewrite zlen_app; pose proof (zlen_nonneg k); lia).
  unfold forwarded in *. set (h := le_put 2 _) in *. set (r := le_put 1 (u8 _)) in *. set (i := le_put 1 (rx_interface p)) in *.
  set (a := if has_address _ then _ else _) in *. set (d := rx_data p) in *.
  assert (Hh : zlen h + zlen r + zlen i = 4) by done. pose proof (zlen_nonneg d). pose proof (zlen_nonneg a).
  revert Hz. destruct (is_failure p); cbn [exec_bind]; rewrite ?app_nil_l; intros Hz; rewrite !zlen_app in Hz.
  - do 3 add_step. rewrite <- !app_assoc, !zlen_app. do 3 f_equal. lia.
  - pose proof (zlen_decrypted_header (rx_meta p)) as Hdh. unfold sizeof_decrypted in Hdh.
    do 4 add_step. rewrite <- !app_assoc, !zlen_app. do 3 f_equal. lia.
Qed.

(** ** Taking forwarded packets apart *)

(** What a forwarded packet carries: interface, signal strength, address, the header of a
    decrypted packet (device, time, type, flags, sequence number, key) and the payload. *)
Record received_view := ReceivedView {
  rv_interface : Z; rv_rssi : Z; rv_address : list Z; rv_header : option (Z * Z * Z * Z * Z * Z); rv_data : list Z;
}.

Definition view_header (m : epacket_rx_metadata) : Z * Z * Z * Z * Z * Z :=
  (packet_device_id m, packet_gps_time m, rx_type m, rx_flags m, rx_sequence m, rx_key_identifier m).

Definition view (p : rx_packet) : received_view :=
  ReceivedView (rx_interface p) (- Z.min 0 (rx_rssi p)) (if has_address (rx_interface p) then rx_address p else [])
    (if is_failure p then None else Some (view_header (rx_meta p))) (rx_data p).

Definition parse_header (l : list Z) : Z * Z * Z * Z * Z * Z :=
  (field l 0 8, field l 8 4, field l 12 1, field l 13 2, field l 15 2, field l 17 3).

Definition parse_one (l : list Z) : received_view * list Z :=
  let v := field l 0 2 in
  let len := v mod 2 ^ 15 in
  let interface := field l 3 1 in
  let body := ztake (len - 4) (zdrop 4 l) in
  let n := if has_address interface then 7 else 0 in
  let rest := zdrop n body in
  (ReceivedView interface (field l 2 1) (ztake n body)
     (if v <? 2 ^ 15 then Some (parse_header rest) else None) (if v <? 2 ^ 15 then zdrop 20 rest else rest), zdrop len l).

(** One entry takes at least the 4 bytes of its header. *)
Fixpoint parse_all (fuel : nat) (l : list Z) : list received_view :=
  match fuel with
  | O => []
  | S fuel => if zlen l <? 4 then [] else let '(e, l) := parse_one l in e :: parse_all fuel l
  end.

Definition parse_received (l : list Z) : list received_view := parse_all (length l) l.

(** Fields at their widths. *)
Definition rx_fields_ok (p : rx_packet) : Prop :=
  let m := rx_meta p in
  in_u 64 (packet_device_id m) /\ in_u 32 (packet_gps_time m) /\ in_u 8 (rx_type m) /\ in_u 16 (rx_flags m) /\
  in_u 16 (rx_sequence m) /\ in_u 24 (rx_key_identifier m) /\ in_u 8 (rx_interface p) /\ -255 <= rx_rssi p.

Lemma le_get_put_small n z : 0 <= z < 2 ^ (8 * Z.of_nat n) -> le_get (le_put n z) = z.
Proof. intros Hz. by rewrite le_get_put, Z.mod_small. Qed.

Lemma field_head (x z : list Z) n : n = zlen x -> field (x ++ z) 0 n = le_get x.
Proof. apply (field_app [] x z 0 n eq_refl). Qed.

Lemma forwarded_len_pos p : 4 <= forwarded_len p.
Proof. unfold forwarded_len, sizeof_common, sizeof_decrypted. pose proof (zlen_nonneg (rx_data p)). destruct (has_address _), (is_failure p); lia. Qed.

Lemma parse_header_ok m p l :
  rx_meta p = m -> rx_fields_ok p -> parse_header (decrypted_header m ++ l) = view_header m.
Proof.
  intros <- (H1 & H2 & H3 & H4 & H5 & H6 & _). unfold in_u in *. unfold parse_header, decrypted_header, view_header. set (m := rx_meta p) in *.
  set (a1 := le_put 8 _). set (a2 := le_put 4 _). set (a3 := le_put 1 _). set (a4 := le_put 2 (rx_flags m)). set (a5 := le_put 2 (rx_sequence m)). set (a6 := le_put 3 _).
  rewrite <- !app_assoc.
  rewrite (field_head a1) by done. rewrite (field_app a1 a2) by done.
  rewrite (app_assoc a1), (field_app (a1 ++ a2) a3) by done. rewrite (app_assoc (a1 ++ a2)), (field_app ((a1 ++ a2) ++ a3) a4) by done.
  rewrite (app_assoc ((a1 ++ a2) ++ a3)), (field_app (((a1 ++ a2) ++ a3) ++ a4) a5) by done.
  rewrite (app_assoc (((a1 ++ a2) ++ a3) ++ a4)), (field_app ((((a1 ++ a2) ++ a3) ++ a4) ++ a5) a6) by done.
  unfold a1, a2, a3, a4, a5, a6. by rewrite !le_get_put_small by (cbn; lia).
Qed.

Lemma len_flag n : 0 <= n < 2 ^ 15 -> Z.lor n 0x8000 = n + 2 ^ 15.
Proof. intros Hn. change 0x8000 with (Z.shiftl 1 15). rewrite Z.lor_comm, lor_shiftl_add by lia. lia. Qed.

Lemma parse_one_ok p l : rx_packet_ok p -> rx_fields_ok p -> parse_one (forwarded p ++ l) = (view p, l).
Proof.
  intros Hp Hf. pose proof (zlen_forwarded p Hp) as Hz. pose proof Hf as (_ & _ & _ & _ & _ & _ & Hi & Hr). destruct Hp as [Ha Hlt]. unfold in_u in *.
  pose proof (forwarded_len_pos p) as Hpos.
  unfold parse_one. unfold forwarded in *. set (h := le_put 2 _) in *. set (r := le_put 1 (u8 _)) in *. set (i := le_put 1 (rx_interface p)) in *.
  set (a := if has_address _ then rx_address p else []) in *. set (d := if is_failure p then [] else _) in *. rewrite <- !app_assoc.
  assert (E0 : field (h ++ r ++ i ++ a ++ d ++ rx_data p ++ l) 0 2 = forwarded_len p + (if is_failure p then 2 ^ 15 else 0)).
  { rewrite (field_head h) by done. unfold h. destruct (is_failure p).
    - rewrite len_flag by lia. apply le_get_put_small. cbn. lia.
    - rewrite Z.lor_0_r, Z.add_0_r. apply le_get_put_small. cbn. lia. }
  assert (E2 : field (h ++ r ++ i ++ a ++ d ++ rx_data p ++ l) 2 1 = - Z.min 0 (rx_rssi p)).
  { rewrite (field_app h r) by done. unfold r. rewrite le_get_put_small by (pose proof (uwrap_bound 8 (- Z.min 0 (rx_rssi p))); cbn; lia).
    apply uwrap_small. lia. }
  assert (E3 : field (h ++ r ++ i ++ a ++ d ++ rx_data p ++ l) 3 1 = rx_interface p).
  { rewrite (app_assoc h), (field_app (h ++ r) i) by done. apply le_get_put_small. cbn. lia. }
  rewrite E0, E2, E3. assert (Hmod : (forwarded_len p + (if is_failure p then 2 ^ 15 else 0)) mod 2 ^ 15 = forwarded_len p).
  { destruct (is_failure p); [rewrite <- (Z.mul_1_l (2 ^ 15)) at 1; rewrite Z.mod_add by done|rewrite Z.add_0_r]; apply Z.mod_small; lia. }
  rewrite Hmod. assert (Hhd : zlen (h ++ r ++ i) = 4) by done.
  assert (Hsp : h ++ r ++ i ++ a ++ d ++ rx_data p ++ l = (h ++ r ++ i) ++ (a ++ d ++ rx_data p) ++ l) by (by rewrite <- !app_assoc).
  assert (Hbl : forwarded_len p - 4 = zlen (a ++ d ++ rx_data p)).
  { rewrite <- Hz. rewrite !(app_assoc h), !(app_assoc (h ++ r)), zlen_app. fold h r i a d. rewrite <- (app_assoc h), Hhd. lia. }
  rewrite Hsp, (zdrop_app 4) by done. rewrite (ztake_app (forwarded_len p - 4)) by done.
  rewrite (app_assoc (h ++ r ++ i)), (zdrop_app (forwarded_len p)) by (rewrite zlen_app; lia).
  assert (Hal : zlen a = if has_address (rx_interface p) then 7 else 0) by (unfold a; destruct (has_address _); done).
  rewrite (ztake_app _ a), (zdrop_app _ a) by done. unfold view. fold a. unfold d. destruct (is_failure p).
  - by rewrite (proj2 (Z.ltb_ge _ _)) by lia.
  - rewrite (proj2 (Z.ltb_lt _ _)) by lia. by rewrite (parse_header_ok _ p _ eq_refl Hf), (zdrop_app 20).
Qed.

Lemma parse_forwarded ps : Forall rx_packet_ok ps -> Forall rx_fields_ok ps -> parse_received (mjoin (forwarded <$> ps)) = view <$> ps.
Proof.
  unfold parse_received. intros Hp Hf. assert (Hfuel : (length ps <= length (mjoin (forwarded <$> ps)))%nat).
  { clear Hf. induction Hp as [|p ps Hp _ IH]; [done|]. csimpl. rewrite length_app. pose proof (zlen_forwarded p Hp) as Hz. unfold zlen in Hz.
    pose proof (forwarded_len_pos p). lia. }
  revert Hfuel. generalize (length (mjoin (forwarded <$> ps))) as fuel. intros fuel. revert fuel.
  induction Hp as [|p ps Hp _ IH]; intros fuel Hfuel; [by destruct fuel|]. apply Forall_cons in Hf as [Hfp Hf].
  destruct fuel as [|fuel]; [cbn in Hfuel; lia|].
  change (parse_all (S fuel) (forwarded p ++ mjoin (forwarded <$> ps)) = view p :: (view <$> ps)). cbn [parse_all].
  rewrite parse_one_ok by done. rewrite (proj2 (Z.ltb_ge _ _)).
  - f_equal. apply IH; [done|]. cbn in Hfuel. lia.
  - rewrite zlen_app, zlen_forwarded by done. pose proof (zlen_nonneg (mjoin (forwarded <$> ps))).
    pose proof (forwarded_len_pos p). lia.
Qed.

(** ** A gateway that groups packets *)

Lemma join_snoc {A} (ls : list (list A)) l : mjoin (ls ++ [l]) = mjoin ls ++ l.
Proof. induction ls as [|l' ls IH]; [apply app_nil_r|]. change (l' ++ mjoin (ls ++ [l]) = (l' ++ mjoin ls) ++ l). by rewrite IH, app_assoc. Qed.

Section gateway.
Context (sec : security) (header_size footer_size : Z -> Z) (max_packet_size : Z -> nat -> Z) (backhaul : Z).

(** A packet to forward, with the type that is read after its release; or the worker runs. *)
Inductive gateway_event := GwPacket (stale_type : Z) (p : rx_packet) | GwFlush.

Definition gateway_step (s : core_state * group_state) (e : gateway_event) : exec (core_state * group_state) :=
  match e with
  | GwPacket stale p => receive_forward sec header_size footer_size max_packet_size stale s.1 s.2 backhaul p
  | GwFlush => Done (receive_do_flush s.1 s.2)
  end.

Fixpoint gateway_run (s : core_state * group_state) (es : list gateway_event) : exec (core_state * group_state) :=
  match es with
  | [] => Done s
  | e :: es => let! s := gateway_step s e in gateway_run s es
  end.

Definition packets_of (es : list gateway_event) : list rx_packet :=
  mjoin ((fun e => match e with GwPacket _ p => [p] | GwFlush => [] end) <$> es).

(** Packets for which a fresh buffer has room. *)
Definition fits (p : rx_packet) : Prop :=
  rx_packet_ok p /\ rx_fields_ok p /\ forall n, forwarded_len p <= interface_room header_size footer_size max_packet_size backhaul n.

Definition carries (b : list Z) (ps : list rx_packet) : Prop := b = mjoin (forwarded <$> ps) /\ Forall rx_packet_ok ps /\ Forall rx_fields_ok ps.

(** The buffer that waits, with the packets in it. *)
Definition pending_ok (g : group_state) (ps : list rx_packet) : Prop :=
  match pending g with
  | None => ps = []
  | Some (dev, _, b) => dev = backhaul /\ flush_scheduled g = true /\ carries (tb_data b) ps
  end.

Lemma carries_snoc b ps p : carries b ps -> fits p -> carries (b ++ forwarded p) (ps ++ [p]).
Proof.
  intros (-> & H1 & H2) (Hp & Hf & _). split; [|split; apply Forall_app; auto].
  rewrite fmap_app. apply eq_sym, join_snoc.
Qed.

Lemma append_fits b p ps :
  carries (tb_data b) ps -> fits p ->
  exists rc b', epacket_received_packet_append b p = Done (rc, b') /\
    ((rc = 0 /\ carries (tb_data b') (ps ++ [p])) \/ (rc <> 0 /\ b' = b /\ tb_room b < forwarded_len p)).
Proof.
  intros Hc Hp. rewrite append_ok by apply Hp. destruct (Z.ltb_spec (tb_room b) (forwarded_len p)); do 2 eexists; (split; [done|]).
  - right. done.
  - left. split; [done|]. by apply carries_snoc.
Qed.

Abbreviation sent_ok q gs := (Forall2 (fun k ps => tp_dev k = backhaul /\ carries (tp_data k) ps) q gs).

Lemma sent_snoc q gs k ps : sent_ok q gs -> tp_dev k = backhaul -> carries (tp_data k) ps -> sent_ok (q ++ [k]) (gs ++ [ps]).
Proof. intros Hs Hd Hc. apply Forall2_app; [done|]. constructor; [done|constructor]. Qed.

Lemma fresh_carries n : carries (tb_data (TxBuf [] n)) [].
Proof. done. Qed.

Lemma forward_step stale st g p q gs ps :
  fits p -> pending_ok g ps -> tx_queue st = q -> sent_ok q gs ->
  exists st' g' gs' ps', receive_forward sec header_size footer_size max_packet_size stale st g backhaul p = Done (st', g') /\
    pending_ok g' ps' /\ sent_ok (tx_queue st') gs' /\ mjoin gs' ++ ps' = mjoin gs ++ ps ++ [p].
Proof.
  intros Hp Hg Hq Hgs. unfold receive_forward.
  assert (Hnew : forall st1 g1 gs1, sent_ok (tx_queue st1) gs1 -> pending g1 = None ->
    exists st' g' gs' ps', (let '(temp, st2) := epacket_alloc_tx_for_interface header_size footer_size max_packet_size st1 backhaul in
      let! (rc, temp0) := epacket_received_packet_append temp p in
      if rc =? 0 then
        if negb (stale =? INFUSE_RPC_RSP) then Done (st2, GroupState (Some (backhaul, received_metadata sec st2, temp0)) true)
        else Done (epacket_queue st2 (TxPacket backhaul EPACKET_ADDR_ALL (received_metadata sec st2) (tb_data temp0)), GroupState None (flush_scheduled g1))
      else Done (st2, g1)) = Done (st', g') /\
      pending_ok g' ps' /\ sent_ok (tx_queue st') gs' /\ mjoin gs' ++ ps' = mjoin gs1 ++ [p]).
  { intros st1 g1 gs1 Hs1 Hn1. unfold epacket_alloc_tx_for_interface.
    destruct (append_fits _ p [] (fresh_carries (interface_room header_size footer_size max_packet_size backhaul (allocs st1))) Hp)
      as (rc & b' & -> & [[-> Hb]|(_ & _ & Hlt)]); [|destruct Hp as (_ & _ & Hp); specialize (Hp (allocs st1)); cbn in Hlt; lia].
    cbn [exec_bind Z.eqb]. destruct (negb (stale =? INFUSE_RPC_RSP)).
    - exists (set_allocs st1 (S (allocs st1))). do 3 eexists. split; [done|]. split; [unfold pending_ok; cbn; eauto|]. eauto.
    - do 2 eexists. exists (gs1 ++ [[p]]), []. split; [done|]. split; [done|]. split.
      + cbn. by apply sent_snoc.
      + by rewrite join_snoc, app_nil_r. }
  unfold append_pending, pending_ok in *. destruct (pending g) as [[[dev meta] b]|] eqn:Hpd.
  - destruct Hg as (-> & Hfl & Hc). destruct (append_fits b p ps Hc Hp) as (rc & b' & -> & Hrc). cbn [exec_bind].
    destruct ((rc =? 0) && negb (rx_type (rx_meta p) =? INFUSE_RPC_RSP)) eqn:Hb; cbn [exec_bind].
    + apply andb_prop in Hb as [Hz%Z.eqb_eq _]. destruct Hrc as [[_ Hc']|[? _]]; [|done].
      do 4 eexists. split; [done|]. split; [cbn; eauto|]. subst q. eauto.
    + destruct Hrc as [[-> Hc']|(Hne & -> & _)].
      * cbn [Z.eqb]. do 2 eexists. exists (gs ++ [ps ++ [p]]), []. split; [done|]. split; [done|]. split.
        -- cbn. subst q. by apply sent_snoc.
        -- by rewrite join_snoc, app_nil_r.
      * rewrite (proj2 (Z.eqb_neq rc 0)) by done.
        destruct (Hnew (epacket_queue st (TxPacket backhaul EPACKET_ADDR_ALL meta (tb_data b))) (GroupState None false) (gs ++ [ps]))
          as (st' & g' & gs' & ps' & -> & H1 & H2 & H3); [|done|].
        -- cbn. subst q. by apply sent_snoc.
        -- exists st', g', gs', ps'. split; [done|]. split; [done|]. split; [done|]. by rewrite H3, join_snoc, <- app_assoc.
  - subst ps. cbn [exec_bind app]. apply Hnew; [by subst q|done].
Qed.

Lemma flush_step st g gs ps :
  pending_ok g ps -> sent_ok (tx_queue st) gs ->
  exists gs' ps', pending_ok (receive_do_flush st g).2 ps' /\ sent_ok (tx_queue (receive_do_flush st g).1) gs' /\ mjoin gs' ++ ps' = mjoin gs ++ ps.
Proof.
  intros Hg Hgs. unfold receive_do_flush, pending_ok in *. destruct (pending g) as [[[dev meta] b]|]; cbn.
  - destruct Hg as (-> & _ & Hc). exists (gs ++ [ps]), []. split; [done|]. split.
    + by apply sent_snoc.
    + by rewrite join_snoc, app_nil_r.
  - subst ps. exists gs, []. done.
Qed.

(** C21.  A gateway forwards every packet that fits once and in order, whenever its worker
    runs in between: the packets it queues for the backhaul, followed by the one that
    still waits and for which the worker is scheduled, parse back to what was received. *)
Theorem gateway_forwards_all st g es :
  pending g = None -> tx_queue st = [] -> Forall fits (packets_of es) ->
  exists st' g' groups waiting, gateway_run (st, g) es = Done (st', g') /\
    Forall2 (fun k ps => tp_dev k = backhaul /\ parse_received (tp_data k) = view <$> ps) (tx_queue st') groups /\
    match pending g' with
    | None => waiting = []
    | Some (dev, _, b) => dev = backhaul /\ flush_scheduled g' = true /\ parse_received (tb_data b) = view <$> waiting
    end /\
    mjoin groups ++ waiting = packets_of es.
Proof.
  intros Hg Hq Hes. assert (Hgen : exists st' g' gs' ps', gateway_run (st, g) es = Done (st', g') /\
    pending_ok g' ps' /\ sent_ok (tx_queue st') gs' /\ mjoin gs' ++ ps' = mjoin [] ++ [] ++ packets_of es).
  { assert (H0 : pending_ok g []) by (unfold pending_ok; by rewrite Hg). assert (H1 : sent_ok (tx_queue st) []) by (rewrite Hq; constructor).
    clear Hg Hq. revert H0 H1. generalize (@nil (list rx_packet)) at 1 2 as gs. generalize (@nil rx_packet) at 1 2 as ps. revert st g.
    induction es as [|e es IH]; intros st g ps gs H0 H1; [exists st, g, gs, ps; by rewrite app_nil_r|].
    change (packets_of (e :: es)) with ((match e with GwPacket _ p => [p] | GwFlush => [] end) ++ packets_of es) in *.
    apply Forall_app in Hes as [He Hes]. cbn [gateway_run]. destruct e as [stale p|]; cbn [gateway_step fst snd].
    - rewrite Forall_singleton in He. destruct (forward_step stale st g p _ gs ps He H0 eq_refl H1) as (st1 & g1 & gs1 & ps1 & -> & G0 & G1 & Hj).
      cbn [exec_bind]. destruct (IH Hes st1 g1 ps1 gs1 G0 G1) as (st2 & g2 & gs2 & ps2 & -> & K0 & K1 & Hj2).
      exists st2, g2, gs2, ps2. split; [done|]. split; [done|]. split; [done|]. by rewrite Hj2, app_assoc, Hj, <- !app_assoc.
    - destruct (flush_step st g gs ps H0 H1) as (gs1 & ps1 & G0 & G1 & Hj). cbn [exec_bind]. destruct (receive_do_flush st g) as [st1 g1]. cbn in G0, G1.
      destruct (IH Hes st1 g1 ps1 gs1 G0 G1) as (st2 & g2 & gs2 & ps2 & -> & K0 & K1 & Hj2).
      exists st2, g2, gs2, ps2. split; [done|]. split; [done|]. split; [done|]. by rewrite Hj2, app_assoc, Hj, <- !app_assoc. }
  destruct Hgen as (st' & g' & gs' & ps' & -> & G0 & G1 & Hj). exists st', g', gs', ps'. split; [done|]. split; [|split; [|exact Hj]].
  - eapply Forall2_impl; [exact G1|]. cbn. intros k ps [Hd (-> & Hp & Hf)]. split; [done|]. by apply parse_forwarded.
  - unfold pending_ok in G0. destruct (pending g') as [[[dev meta] b]|]; [|done]. destruct G0 as (-> & Hs & -> & Hp & Hf).
    split; [done|]. split; [done|]. by apply parse_forwarded.
Qed.

End gateway.

(** ** Reception *)

Section reception.
Context `{NetBufSpec} {P O K : Type} `{PsaKeysSpec P O K psa_key inputs hkdf} `{PsaAead P} {seal open}
  `{!PsaAeadSpec P K psa_key seal open} (key_export : bool) (rootk : Z -> option (psa_attributes * K)) (sec : security) (device_id : Z).
Context (header_size footer_size : Z -> Z) (max_packet_size : Z -> nat -> Z) (tx_free : nat -> bool) (forwarding : bool) (pool_size gps_time : Z).

Abbreviation inv cs := (keys_inv (psa_key := psa_key) (hkdf := hkdf) key_export rootk sec (cs_keys cs) (cs_psa cs)).
Abbreviation outcome := (decrypt_outcome (hkdf := hkdf) (open := open)).

(** The interfaces without encryption: the link between the processors of one device, and the
    interface of the tests. *)
Definition unencrypted (dev : Z) : Prop := dev = EPACKET_INTERFACE_HCI \/ dev = EPACKET_INTERFACE_DUMMY.

(** The packet is the plaintext of a frame that one of the device's keys authenticates, or came
    on an interface without encryption. *)
Definition authentic (p : rx_packet) : Prop :=
  rx_auth (rx_meta p) <> EPACKET_AUTH_FAILURE /\
  (unencrypted (rx_interface p) \/
   exists v interface_key ks raw, outcome v rootk sec device_id interface_key ks raw 0 (rx_data p) (rx_meta p)).

Lemma zlen_ztake_le n (l : list Z) : 0 <= n -> zlen (ztake n l) <= n.
Proof. intros. unfold zlen, ztake. rewrite length_take. lia. Qed.

Lemma hci_decrypt_ok b meta : nb_wf b -> rx_auth meta = EPACKET_AUTH_FAILURE ->
  exists rc b' meta', epacket_hci_decrypt b meta = Done (rc, b', meta') /\
    ((rc = 0 /\ zlen (nb_contents b') <= nb_len b) \/ (rc <> 0 /\ rx_auth meta' = EPACKET_AUTH_FAILURE /\ nb_contents b' = nb_contents b)).
Proof.
  intros Hwf Hm. unfold epacket_hci_decrypt. destruct (Z.leb_spec (nb_len b) sizeof_hci_frame); [do 3 eexists; split; [done|]; right; done|].
  unfold nb_pull_mem, sizeof_hci_frame in *. rewrite (proj2 (Z.leb_le _ (nb_len b))) by lia. cbn [andb Z.leb Z.compare]. rewrite pull_mem_spec by (done || lia). cbn [exec_bind].
  do 3 eexists. split; [done|]. left. split; [done|]. unfold nb_contents. cbn. pose proof (zlen_ztake_le (nb_len b - 5) (zdrop (nb_data b + 5) (nb_mem b)) ltac:(lia)). lia.
Qed.

Lemma dummy_decrypt_ok b meta : nb_wf b -> rx_auth meta = EPACKET_AUTH_FAILURE ->
  exists rc b' meta', epacket_dummy_decrypt gps_time b meta = Done (rc, b', meta') /\
    ((rc = 0 /\ zlen (nb_contents b') <= nb_len b) \/ (rc <> 0 /\ rx_auth meta' = EPACKET_AUTH_FAILURE /\ nb_contents b' = nb_contents b)).
Proof.
  intros Hwf Hm. unfold epacket_dummy_decrypt. destruct (Z.leb_spec (nb_len b) sizeof_dummy_frame); [do 3 eexists; split; [done|]; right; done|].
  unfold nb_pull_mem, sizeof_dummy_frame in *. rewrite (proj2 (Z.leb_le _ (nb_len b))) by lia. cbn [andb Z.leb Z.compare]. rewrite pull_mem_spec by (done || lia). cbn [exec_bind].
  do 3 eexists. split; [done|]. left. split; [done|]. unfold nb_contents. cbn. pose proof (zlen_ztake_le (nb_len b - 8) (zdrop (nb_data b + 8) (nb_mem b)) ltac:(lia)). lia.
Qed.

Lemma decrypt_with_crypt v scratch b frame meta id cs rc b' meta' cs' :
  decrypt_with v scratch b frame meta id cs = Done (rc, b', meta', cs') -> cs' = cs.
Proof.
  unfold decrypt_with. intros Hd. apply exec_bind_Done in Hd as ([b1 ?] & _ & Hd). apply exec_bind_Done in Hd as (s1 & _ & Hd).
  destruct (psa_aead_decrypt _ _ _ _ _ _ _) as [status out]. destruct (negb _).
  - apply exec_bind_Done in Hd as (b2 & _ & Hd). apply exec_bind_Done in Hd as (b3 & _ & Hd). by injection Hd.
  - apply exec_bind_Done in Hd as ([b2 ?] & _ & Hd). by injection Hd.
Qed.

Lemma v0_decrypt_keys v scratch b meta ik cs rc b' meta' cs' :
  inv cs -> v0_decrypt key_export v sec device_id scratch b meta ik cs = Done (rc, b', meta', cs') -> inv cs'.
Proof.
  intros Hi. unfold v0_decrypt. destruct (_ <=? _); [by intros [= <- <- <- <-]|].
  destruct (v && _); [by intros [= <- <- <- <-]|]. destruct (bool_decide _ && _); [by intros [= <- <- <- <-]|].
  destruct (epacket_key_id_get _ _ _ _ _ _ _) as [[id ks] q] eqn:Hg. destruct (key_id_get_ok _ _ _ _ _ _ _ _ _ _ _ Hi Hg) as [Hi' _].
  destruct (_ =? PSA_KEY_ID_NULL); [by intros [= <- <- <- <-]|]. by intros ->%decrypt_with_crypt.
Qed.

(** Every interface: decryption returns, and either authenticates the packet or leaves it. *)
Lemma interface_decrypt_ok dev scratch spre spost b meta cs :
  inv cs -> nb_wf b -> nb_repr scratch spre [] spost -> nb_len b <= nb_room scratch -> rx_auth meta = EPACKET_AUTH_FAILURE ->
  exists rc b' meta' cs', interface_decrypt key_export sec gps_time dev device_id scratch b meta cs = Done (rc, b', meta', cs') /\ inv cs' /\
    ((rc = 0 /\ (unencrypted dev \/ exists v ik ks raw, outcome v rootk sec device_id ik ks raw 0 (nb_contents b') meta') /\ zlen (nb_contents b') <= nb_len b) \/
     (rc <> 0 /\ rx_auth meta' = EPACKET_AUTH_FAILURE /\ nb_contents b' = nb_contents b)).
Proof.
  intros Hi Hwf Hsc Hroom Hm. assert (Hc : zlen (nb_contents b) = nb_len b) by (pose proof (nb_wf_repr b Hwf) as (_ & _ & -> & _); done).
  assert (Hany : forall v ik, exists rc b' meta' cs', v0_decrypt key_export v sec device_id scratch b meta ik cs = Done (rc, b', meta', cs') /\ inv cs' /\
    ((rc = 0 /\ (unencrypted dev \/ exists v ik ks raw, outcome v rootk sec device_id ik ks raw 0 (nb_contents b') meta') /\ zlen (nb_contents b') <= nb_len b) \/
     (rc <> 0 /\ rx_auth meta' = EPACKET_AUTH_FAILURE /\ nb_contents b' = nb_contents b))).
  { intros v ik. destruct (v0_decrypt_ok (open := open) key_export v rootk sec device_id scratch spre spost b meta ik cs Hi Hwf Hsc Hroom) as (rc & b' & meta' & cs' & Hd & Ho).
    exists rc, b', meta', cs'. split; [done|]. split; [by eapply v0_decrypt_keys|]. destruct Ho as [[-> Ho]|([->| ->] & Hcc & Hf)]; [left|right; done|right; done].
    split; [done|]. split; [right; exists v, ik, (cs_keys cs), (nb_contents b); left; eauto|].
    destruct Ho as (frame & ct & k & Hsp & Hfr & _ & _ & _ & _ & Hop). unfold opened in Hop. apply (aead_open_len (seal := seal)) in Hop.
    rewrite <- Hc, Hsp, zlen_app. pose proof (zlen_nonneg frame). lia. }
  unfold interface_decrypt, epacket_serial_decrypt, epacket_udp_decrypt, epacket_bt_adv_decrypt, epacket_bt_gatt_decrypt, epacket_versioned_v0_decrypt, epacket_unversioned_v0_decrypt.
  destruct (_ =? EPACKET_INTERFACE_SERIAL); [apply Hany|]. destruct (_ =? EPACKET_INTERFACE_UDP); [apply Hany|].
  destruct (_ =? EPACKET_INTERFACE_BT_ADV); [apply Hany|]. destruct (_ || _); [apply Hany|].
  destruct (Z.eqb_spec dev EPACKET_INTERFACE_HCI) as [Hd|_].
  { destruct (hci_decrypt_ok b meta Hwf Hm) as (rc & b' & meta' & -> & Ho). exists rc, b', meta', cs. split; [done|]. split; [done|].
    destruct Ho as [[-> Hl]|Ho]; [left|right; done]. split; [done|]. split; [by left; left|done]. }
  destruct (Z.eqb_spec dev EPACKET_INTERFACE_DUMMY) as [Hd|_].
  { destruct (dummy_decrypt_ok b meta Hwf Hm) as (rc & b' & meta' & -> & Ho). exists rc, b', meta', cs. split; [done|]. split; [done|].
    destruct Ho as [[-> Hl]|Ho]; [left|right; done]. split; [done|]. split; [by left; right|done]. }
  exists (-1), b, meta, cs. split; [done|]. split; [done|]. right. done.
Qed.

Lemma success_auth v ik ks raw data meta : outcome v rootk sec device_id ik ks raw 0 data meta -> rx_auth meta <> EPACKET_AUTH_FAILURE.
Proof.
  intros [(_ & frame & ct & k & _ & _ & -> & _)|([|] & _)]; [|done|done]. unfold frame_metadata. cbn. by destruct (negb _).
Qed.

(** ** What the handlers queue *)

Definition queued (st st' : core_state) (p : rx_packet) : Prop :=
  (command_fifo st' = command_fifo st /\ data_fifo st' = data_fifo st) \/
  (rx_auth (rx_meta p) <> EPACKET_AUTH_FAILURE /\
   ((command_fifo st' = command_fifo st ++ [p] /\ data_fifo st' = data_fifo st) \/ (command_fifo st' = command_fifo st /\ data_fifo st' = data_fifo st ++ [p]))).

Abbreviation alloc_dev := (epacket_try_alloc_tx_for_interface header_size footer_size max_packet_size tx_free).

Lemma alloc_fifos st dev b st1 : alloc_dev st dev = (b, st1) -> command_fifo st1 = command_fifo st /\ data_fifo st1 = data_fifo st.
Proof. unfold epacket_try_alloc_tx_for_interface, epacket_alloc_tx_for_interface. destruct (tx_free _); by intros [= <- <-]. Qed.

Lemma send_key_ids_fifos st dev rc st' :
  epacket_send_key_ids sec header_size footer_size max_packet_size tx_free st dev = Done (rc, st') ->
  command_fifo st' = command_fifo st /\ data_fifo st' = data_fifo st.
Proof.
  unfold epacket_send_key_ids. destruct (alloc_dev st dev) as [[b|] st1] eqn:Ha; apply alloc_fifos in Ha as [Hq1 Hq2].
  - intros Hd. apply exec_bind_Done in Hd as (b' & _ & [= <- <-]). done.
  - by intros [= <- <-].
Qed.

Lemma default_handler_queued st p st' :
  epacket_default_receive_handler sec header_size footer_size max_packet_size tx_free st p = Done st' -> queued st st' p.
Proof.
  unfold epacket_default_receive_handler, queued. case_decide as Ha; [by intros [= <-]; left|]. intros Hd. apply exec_bind_Done in Hd as (st1 & He & Hd).
  assert (Hq : command_fifo st1 = command_fifo st /\ data_fifo st1 = data_fifo st).
  { destruct (_ =? INFUSE_ECHO_REQ); [|by injection He as <-]. destruct (alloc_dev st _) as [[b|] st2] eqn:Hal; apply alloc_fifos in Hal as [? ?].
    - apply exec_bind_Done in He as (b' & _ & [= <-]). done.
    - by injection He as <-. }
  destruct Hq as [Hc Hdf]. destruct (_ =? INFUSE_RPC_CMD); [injection Hd as <-; right; split; [done|left; cbn; by rewrite Hc, Hdf]|].
  destruct (_ =? INFUSE_RPC_DATA); injection Hd as <-; [right; split; [done|right; cbn; by rewrite Hc, Hdf]|by left].
Qed.

Lemma append_pending_fifos st g bh p a st' g' :
  append_pending st g bh p = Done (a, st', g') -> command_fifo st' = command_fifo st /\ data_fifo st' = data_fifo st.
Proof.
  unfold append_pending. destruct (pending g) as [[[d m] b]|]; [|by intros [= _ <- _]]. intros Hd. apply exec_bind_Done in Hd as ([rc b'] & _ & Hd).
  destruct (_ && _); by injection Hd as _ <- _.
Qed.

Lemma forward_fifos stale st g bh p st' g' :
  receive_forward sec header_size footer_size max_packet_size stale st g bh p = Done (st', g') ->
  command_fifo st' = command_fifo st /\ data_fifo st' = data_fifo st.
Proof.
  unfold receive_forward. intros Hd. apply exec_bind_Done in Hd as ([[a st1] g1] & Ha & Hd). apply append_pending_fifos in Ha as [Hq1 Hq2].
  destruct a; [by injection Hd as <- <-|]. unfold epacket_alloc_tx_for_interface in Hd. apply exec_bind_Done in Hd as ([rc b] & _ & Hd).
  destruct (rc =? 0); [destruct (negb _)|]; by injection Hd as <- <-.
Qed.

Lemma packet_forward_fifos st p st' :
  epacket_packet_forward sec max_packet_size tx_free pool_size st p = Done st' -> command_fifo st' = command_fifo st /\ data_fifo st' = data_fifo st.
Proof.
  unfold epacket_packet_forward, epacket_forward_direct. intros Hd. case_decide; [by injection Hd as <-|].
  destruct (_ =? INFUSE_EPACKET_FORWARD); [|destruct (_ =? _); by injection Hd as <-].
  destruct (_ <? _); [done|]. destruct (_ <? 7); [done|]. destruct (negb _); [by injection Hd as <-|]. destruct (_ <? _); [by injection Hd as <-|].
  destruct (negb _); [by injection Hd as <-|]. destruct (_ <? _); [done|]. apply exec_bind_Done in Hd as (tx & _ & Hd). by injection Hd as <-.
Qed.

(** A handler of the application queues for the RPC server at most the packet that it was given, and
    only if its decryption did not fail. *)
Definition handler_queues (h : rx_handler) : Prop :=
  match h with
  | HandleCustom f => forall st g p st' g', f st g p = Done (st', g') -> queued st st' p
  | _ => True
  end.

Abbreviation run := (run_handler sec header_size footer_size max_packet_size tx_free forwarding pool_size).

Lemma run_handler_queued stale rb h st g p st' g' :
  handler_queues h -> run stale rb h st g p = Done (st', g') -> queued st st' p.
Proof.
  unfold run_handler, epacket_gateway_receive_handler. intros Hh Hd. destruct h as [|bh|f].
  - apply exec_bind_Done in Hd as (st1 & Hh1 & [= <- <-]). by eapply default_handler_queued.
  - destruct (_ && _). { destruct rb; [by injection Hd as <- <-; left|]. apply exec_bind_Done in Hd as (st1 & Hf & [= <- <-]). left. by eapply packet_forward_fifos. }
    destruct (has_address _); [destruct rb; [by injection Hd as <- <-; left|left; by eapply forward_fifos]|].
    apply exec_bind_Done in Hd as (st1 & Hh1 & [= <- <-]). by eapply default_handler_queued.
  - by eapply Hh.
Qed.

Abbreviation handle_rx := (epacket_handle_rx key_export sec header_size footer_size max_packet_size tx_free forwarding pool_size gps_time).

(** A packet as it is delivered: a well-formed buffer, with space for a byte at least, that fits
    the scratch buffer, not yet authenticated. *)
Definition delivered (scratch b : net_buf_simple) (p : rx_packet) : Prop :=
  nb_wf b /\ nb_data b < zlen (nb_mem b) /\ (exists spre spost, nb_repr scratch spre [] spost) /\ nb_len b <= nb_room scratch /\ rx_auth (rx_meta p) = EPACKET_AUTH_FAILURE.

Definition queues_authentic (st : core_state) : Prop := Forall authentic (command_fifo st) /\ Forall authentic (data_fifo st).

Lemma queued_authentic st st' p : queued st st' p -> (rx_auth (rx_meta p) <> EPACKET_AUTH_FAILURE -> authentic p) -> queues_authentic st -> queues_authentic st'.
Proof.
  intros Hq Hp [Hc Hd]. unfold queues_authentic. destruct Hq as [[-> ->]|[Ha [[-> ->]|[-> ->]]]]; rewrite ?Forall_app, ?Forall_singleton; auto.
Qed.

Lemma same_fifos st st' : command_fifo st' = command_fifo st /\ data_fifo st' = data_fifo st -> queues_authentic st -> queues_authentic st'.
Proof. intros [Hc Hd] [? ?]. split; by rewrite ?Hc, ?Hd. Qed.

Lemma handle_rx_authentic up stale rb h cbs scratch b p cs st g st' g' cs' :
  inv cs -> delivered scratch b p -> handler_queues h -> queues_authentic st ->
  handle_rx up device_id stale rb h cbs scratch b p cs st g = Done (st', g', cs') -> inv cs' /\ queues_authentic st'.
Proof.
  intros Hi (Hwf & Hbyte & (spre & spost & Hsc) & Hroom & Hm) Hhq Hq. unfold epacket_handle_rx. rewrite (proj2 (Z.leb_gt _ _)) by lia. destruct (_ && _).
  { destruct (_ =? up); [by intros [= <- <- <-]|]. intros Hd. apply exec_bind_Done in Hd as ([rc st1] & Hk & [= <- <- <-]).
    split; [done|]. apply send_key_ids_fifos in Hk. by eapply same_fifos. }
  destruct (_ && _); [by intros [= <- <- <-]|]. destruct (_ && _); [by intros [= <- <- <-]|].
  unfold handle_rx_payload. destruct (interface_decrypt_ok (rx_interface p) scratch spre spost b (rx_meta p) cs Hi Hwf Hsc Hroom Hm)
    as (rc & b' & meta' & cs1 & -> & Hi1 & Ho). cbn [exec_bind rx_interface]. intros Hd. apply exec_bind_Done in Hd as (st1 & Hk & Hd).
  assert (Hq1 : queues_authentic st1).
  { destruct (rc =? -2); [|by injection Hk as <-]. apply exec_bind_Done in Hk as ([rc' st2] & Hk & [= <-]).
    apply send_key_ids_fifos in Hk. by eapply same_fifos. }
  destruct (forallb _ _); [|by injection Hd as <- <- <-]. apply exec_bind_Done in Hd as ([st2 g2] & Hh & [= <- <- <-]).
  split; [done|]. apply run_handler_queued in Hh; [|done]. eapply queued_authentic; [exact Hh| |done]. cbn.
  intros Ha. split; [done|]. by destruct Ho as [(_ & Ho & _)|(_ & Hf & _)].
Qed.

(** The core in operation: a packet is received; the worker of the gateway runs; the RPC
    server takes a packet from one of its queues. *)
Inductive core_step : core_state * group_state * crypt_state P -> core_state * group_state * crypt_state P -> Prop :=
| step_rx up stale rb h cbs scratch b p st g cs s' :
    delivered scratch b p -> handler_queues h -> handle_rx up device_id stale rb h cbs scratch b p cs st g = Done s' -> core_step (st, g, cs) s'
| step_flush st g cs : core_step (st, g, cs) (receive_do_flush st g, cs)
| step_command st g cs p rest st' :
    command_fifo st = p :: rest -> command_fifo st' = rest -> data_fifo st' = data_fifo st -> core_step (st, g, cs) (st', g, cs)
| step_data st g cs p rest st' :
    data_fifo st = p :: rest -> data_fifo st' = rest -> command_fifo st' = command_fifo st -> core_step (st, g, cs) (st', g, cs).

(** C17.  Whatever is received, with any callbacks, with the default handler, that of a gateway, and
    every other handler that does not queue packets of its own making or packets that failed to decrypt: the command
    and data queues of the RPC server hold only packets that decrypted under a key derived from
    this device's roots, apart from those of the two interfaces that do not encrypt, the link
    between the processors of one device and the interface of the tests. *)
Theorem rpc_queues_authentic s s' :
  rtc core_step s s' -> inv s.2 -> command_fifo s.1.1 = [] -> data_fifo s.1.1 = [] ->
  Forall authentic (command_fifo s'.1.1) /\ Forall authentic (data_fifo s'.1.1).
Proof.
  intros Hst Hi Hc Hd. assert (Hq : queues_authentic s.1.1) by (split; rewrite ?Hc, ?Hd; constructor). clear Hc Hd.
  revert Hi Hq. induction Hst as [|s1 s2 s3 Hstep _ IH]; [done|]. intros Hi Hq. apply IH; clear IH; destruct Hstep; cbn in *; try done.
  - destruct s' as [[st1 g1] cs1]. by eapply handle_rx_authentic.
  - destruct s' as [[st1 g1] cs1]. by eapply handle_rx_authentic.
  - unfold receive_do_flush. destruct (pending g) as [[[? ?] ?]|]; done.
  - destruct Hq as [Hqc Hqd]. split; cbn.
    + match goal with E : command_fifo st = _ |- _ => rewrite E in Hqc end. subst rest. by apply Forall_cons in Hqc as [_ ?].
    + match goal with E : data_fifo st' = _ |- _ => by rewrite E end.
  - destruct Hq as [Hqc Hqd]. split; cbn.
    + match goal with E : command_fifo st' = _ |- _ => by rewrite E end.
    + match goal with E : data_fifo st = _ |- _ => rewrite E in Hqd end. subst rest. by apply Forall_cons in Hqd as [_ ?].
Qed.

(** ** Reception returns *)

Lemma send_key_ids_total st dev :
  (forall n, 3 <= interface_room header_size footer_size max_packet_size dev n) ->
  exists rc st', epacket_send_key_ids sec header_size footer_size max_packet_size tx_free st dev = Done (rc, st').
Proof.
  intros Hr. unfold epacket_send_key_ids, epacket_try_alloc_tx_for_interface, epacket_alloc_tx_for_interface. destruct (tx_free _); [|eauto].
  rewrite buf_add_mem_ok by (rewrite zlen_le_put; cbn; apply Hr). cbn. eauto.
Qed.

Lemma default_handler_total st p :
  (forall n, zlen (rx_data p) <= interface_room header_size footer_size max_packet_size (rx_interface p) n) ->
  exists st', epacket_default_receive_handler sec header_size footer_size max_packet_size tx_free st p = Done st'.
Proof.
  intros Hr. unfold epacket_default_receive_handler. case_decide; [eauto|].
  assert (He : forall st1, exists st', (if rx_type (rx_meta p) =? INFUSE_RPC_CMD then Done (rpc_server_queue_command st1 p)
    else if rx_type (rx_meta p) =? INFUSE_RPC_DATA then Done (rpc_server_queue_data st1 p) else Done st1) = Done st').
  { intros st1. destruct (_ =? INFUSE_RPC_CMD); [eauto|]. destruct (_ =? INFUSE_RPC_DATA); eauto. }
  destruct (_ =? INFUSE_ECHO_REQ); [|apply He]. unfold epacket_try_alloc_tx_for_interface, epacket_alloc_tx_for_interface.
  destruct (tx_free _); [|apply He]. rewrite buf_add_mem_ok by (cbn; apply Hr). apply He.
Qed.

Lemma append_total b p : rx_packet_ok p -> exists rc b', epacket_received_packet_append b p = Done (rc, b').
Proof. intros Hp. rewrite append_ok by done. destruct (_ <? _); eauto. Qed.

Lemma forward_total stale st g bh p :
  rx_packet_ok p -> exists s', receive_forward sec header_size footer_size max_packet_size stale st g bh p = Done s'.
Proof.
  intros Hp. unfold receive_forward.
  assert (Ha : exists a st1 g1, append_pending st g bh p = Done (a, st1, g1)).
  { unfold append_pending. destruct (pending g) as [[[d m] b]|]; [|eauto]. destruct (append_total b p Hp) as (rc & b' & ->). cbn. destruct (_ && _); eauto. }
  destruct Ha as (a & st1 & g1 & ->). cbn. destruct a; [eauto|]. destruct (append_total (TxBuf [] (interface_room header_size footer_size max_packet_size bh (allocs st1))) p Hp) as (rc & b' & ->).
  cbn. destruct (rc =? 0); [destruct (negb _)|]; eauto.
Qed.

(** A handler that does not leave its buffers on the interface [dev]: not a gateway that forwards packets
    from there to other devices, whose lengths are not checked. *)
Definition handler_returns (h : rx_handler) (dev : Z) : Prop :=
  match h with
  | HandleDefault => True
  | HandleGateway backhaul => forwarding = false \/ dev <> backhaul
  | HandleCustom f => forall st g p, exists s', f st g p = Done s'
  end.

Lemma run_handler_total stale rb h st g p :
  rx_packet_ok p -> handler_returns h (rx_interface p) ->
  (forall n, zlen (rx_data p) <= interface_room header_size footer_size max_packet_size (rx_interface p) n) ->
  exists s', run stale rb h st g p = Done s'.
Proof.
  intros Hp Hh Hr. unfold run_handler, epacket_gateway_receive_handler. destruct (default_handler_total st p Hr) as (st1 & Hd). destruct h as [|bh|f]; [rewrite Hd; cbn; eauto| |apply Hh].
  assert (forwarding && (rx_interface p =? bh) = false) as -> by (destruct Hh as [->|Hh]; [done|by rewrite (proj2 (Z.eqb_neq _ _) Hh), andb_false_r]). cbn [andb].
  destruct (has_address _); [destruct rb; [eauto|by apply forward_total]|]. rewrite Hd. cbn. eauto.
Qed.

(** C36.  Bytes of any content, fewer than 32737 of them, in a receive buffer with space for one byte at
    least and no longer than the scratch buffer, are handled without leaving a buffer: with the default handler, with that of a gateway, unless it is built to
    forward packets to connected devices and the packet comes from its backhaul, and with every
    other handler that returns itself; provided a packet of the received size can be sent on the interface. *)
Theorem handle_rx_total up stale rb h cbs scratch b p cs st g :
  inv cs -> delivered scratch b p -> handler_returns h (rx_interface p) -> zlen (rx_address p) = 7 -> nb_len b < 2 ^ 15 - 31 ->
  (forall n, Z.max 3 (nb_len b) <= interface_room header_size footer_size max_packet_size (rx_interface p) n) ->
  exists s', handle_rx up device_id stale rb h cbs scratch b p cs st g = Done s'.
Proof.
  intros Hi (Hwf & Hbyte & (spre & spost & Hsc) & Hroom & Hm) Hh Ha Hlen Hr. unfold epacket_handle_rx. rewrite (proj2 (Z.leb_gt _ _)) by lia.
  assert (Hk : forall st1, exists rc st', epacket_send_key_ids sec header_size footer_size max_packet_size tx_free st1 (rx_interface p) = Done (rc, st')).
  { intros st1. apply send_key_ids_total. intros n. specialize (Hr n). lia. }
  destruct (_ && _). { destruct (_ =? up); [eauto|]. destruct (Hk (set_prev_key_request st up)) as (rc & st' & ->). cbn. eauto. }
  destruct (_ && _); [eauto|]. destruct (_ && _); [eauto|]. unfold handle_rx_payload.
  destruct (interface_decrypt_ok (rx_interface p) scratch spre spost b (rx_meta p) cs Hi Hwf Hsc Hroom Hm) as (rc & b' & meta' & cs1 & -> & _ & Ho).
  cbn [exec_bind rx_interface]. assert (Hc : zlen (nb_contents b) = nb_len b) by (pose proof (nb_wf_repr b Hwf) as (_ & _ & -> & _); done).
  assert (Hb : zlen (nb_contents b') <= nb_len b) by (destruct Ho as [(_ & _ & ?)|(_ & _ & ->)]; lia).
  assert (Hst : exists st1, (if rc =? -2 then let! (_, st0) := epacket_send_key_ids sec header_size footer_size max_packet_size tx_free st (rx_interface p) in Done st0 else Done st) = Done st1).
  { destruct (rc =? -2); [|eauto]. destruct (Hk st) as (rc' & st' & ->). cbn. eauto. }
  destruct Hst as (st1 & ->). cbn [exec_bind]. destruct (forallb _ _); [|eauto].
  destruct (run_handler_total stale rb h st1 g (RxPacket meta' (rx_interface p) (rx_address p) (rx_rssi p) (nb_contents b'))) as ([st2 g2] & ->); [|done| |cbn; eauto].
  - split; [done|]. unfold forwarded_len, sizeof_common, sizeof_decrypted. cbn [rx_interface rx_data]. destruct (has_address _), (is_failure _); lia.
  - cbn. intros n. specialize (Hr n). lia.
Qed.

End reception.

(** ** Rate limits *)

(** C39.  With a throughput limit, the time from one call to the next, after the wait, is
    enough for the bytes sent in between at that rate, to the tick; provided that the product of the
    ticks per second and the bits sent fits in 32 bits, as at 32768 ticks per second it does for
    fewer than 16384 bytes ([rate_limit_wraps] is the first case in which it does not), and that the sleep
    lasts at least as long as it was asked to. *)
Theorem rate_limit_respected ticks_per_sec st last now later bytes st' last' wait delay :
  epacket_rate_limit_tx ticks_per_sec st last now later bytes = (st', last', wait, delay) ->
  0 < rate_limit_throughput st < 2 ^ 16 -> 0 <= bytes < 2 ^ 16 -> 0 < ticks_per_sec -> ticks_per_sec * (8 * bytes) < 2 ^ 32 ->
  last <= now -> now + wait <= later ->
  ticks_per_sec * (8 * bytes) < (last' - last + 1) * (1024 * rate_limit_throughput st) /\
  delay = rate_limit_delay st /\ rate_limit_delay st' = 0 /\ rate_limit_throughput st' = rate_limit_throughput st.
Proof.
  intros Hr Ht Hb Htps Hov Hl Hw. unfold epacket_rate_limit_tx in Hr. rewrite swrap_small in Hr by (unfold in_s; lia).
  rewrite (proj2 (Z.eqb_neq _ 0)) in Hr by lia. rewrite (uwrap_small 16), (uwrap_small 32 (8 * bytes)) in Hr by lia.
  rewrite !uwrap_small in Hr by nia. set (bps := 1024 * rate_limit_throughput st) in *. set (bits := ticks_per_sec * (8 * bytes)) in *.
  assert (Hdiv : bits < (bits / bps + 1) * bps) by (pose proof (Z.mul_succ_div_gt bits bps); lia).
  destruct (Z.ltb_spec 0 (bits / bps - (now - last))); injection Hr as <- <- <- <-; (split; [nia|done]).
Qed.

Lemma rate_limit_respected_witness :
  let st := CoreState 20 250 0 0 [] [] [] 0 [] None in
  exists st' last' wait delay, epacket_rate_limit_tx 32768 st 1000 1010 1300 200 = (st', last', wait, delay) /\
    32768 * (8 * 200) < (last' - 1000 + 1) * (1024 * 250).
Proof.
  cbn zeta. destruct (epacket_rate_limit_tx 32768 (CoreState 20 250 0 0 [] [] [] 0 [] None) 1000 1010 1300 200) as [[[st' last'] wait] delay] eqn:E.
  exists st', last', wait, delay. split; [reflexivity|]. pose proof E as E'. vm_compute in E'. injection E' as _ E1 E2 _.
  apply (rate_limit_respected 32768 (CoreState 20 250 0 0 [] [] [] 0 [] None) 1000 1010 1300 200 st' last' wait delay E); cbn; lia.
Defined.

(** 16384 bytes at 1 kbps, sent in no time: the product is 0 and the next packet does not wait. *)
Example rate_limit_wraps :
  let st := CoreState 0 1 0 0 [] [] [] 0 [] None in
  epacket_rate_limit_tx 32768 st 1000 1000 1000 16384 = (st, 1000, 0, 0) /\ 32768 * (8 * 16384) / 1024 = 4194304.
Proof. vm_compute. done. Qed.

(** ** Witnesses *)

(** An interface with a header of 23 bytes, a tag of 16, and packets of 200. *)
Definition demo_header (_ : Z) : Z := 23.
Definition demo_footer (_ : Z) : Z := 16.
Definition demo_size (_ : Z) (_ : nat) : Z := 200.
Definition demo_free (_ : nat) : bool := true.
Definition demo_core : core_state := CoreState 0 0 0 0 [] [] [] 0 [] None.
Definition demo_group : group_state := GroupState None false.

(** A command, encrypted by one device for another. *)
Definition demo_command : net_buf_simple :=
  Eval vm_compute in
    match v0_encrypt false true demo_sec 0x1122334455667788 demo_now 99 demo_scratch demo_buffer (TxMeta EPACKET_AUTH_NETWORK 3 0x222222 0 0) 0 demo_state with
    | Done (_, b, _, _) => b
    | _ => demo_buffer
    end.

Definition demo_rx : rx_packet := RxPacket (RxMeta 0 0 0 EPACKET_AUTH_FAILURE 0 0 0) EPACKET_INTERFACE_SERIAL (repeat 0 7) (-40) [].

Abbreviation demo_handle b :=
  (epacket_handle_rx false demo_sec2 demo_header demo_footer demo_size demo_free false 256 0 12 5 0 false HandleDefault [] demo_scratch b demo_rx demo_state demo_core demo_group).

Definition demo_received : core_state * group_state * crypt_state mem_psa :=
  match demo_handle demo_command with Done s => s | _ => (demo_core, demo_group, demo_state) end.

Lemma demo_delivered b : nb_wf b -> nb_data b < zlen (nb_mem b) -> nb_len b <= 64 -> delivered demo_scratch b demo_rx.
Proof. intros Hw Hb Hl. split; [done|]. split; [done|]. split; [exists [], (repeat 0 64); exact demo_scratch_repr|]. split; [exact Hl|done]. Qed.

Lemma rpc_queues_authentic_witness :
  (exists p, command_fifo demo_received.1.1 = [p] /\ rx_data p = [1; 2; 3]) /\
  Forall (authentic (hkdf := mem_hkdf) (open := mem_open) (mem_key demo_psa) demo_sec2 5) (command_fifo demo_received.1.1).
Proof.
  split; [eexists; split; vm_compute; reflexivity|].
  apply (rpc_queues_authentic (psa_key := mem_key) (hkdf := mem_hkdf) (seal := mem_seal) (open := mem_open) false (mem_key demo_psa) demo_sec2 5
    demo_header demo_footer demo_size demo_free false 256 0 (demo_core, demo_group, demo_state) demo_received).
  - eapply rtc_l; [|apply rtc_refl]. eapply step_rx with (scratch := demo_scratch) (b := demo_command) (p := demo_rx) (h := HandleDefault) (cbs := []).
    + apply demo_delivered; vm_compute; intuition discriminate.
    + done.
    + vm_compute. reflexivity.
  - exact (keys_init_inv _ _ _ _ _ demo_roots2).
  - reflexivity.
  - reflexivity.
Unshelve. all: exact 0 || exact false.
Defined.

Lemma handle_rx_total_witness :
  exists s', demo_handle demo_forged = Done s'.
Proof.
  apply (handle_rx_total (psa_key := mem_key) (hkdf := mem_hkdf) (seal := mem_seal) (open := mem_open) false (mem_key demo_psa) demo_sec2 5
    demo_header demo_footer demo_size demo_free false 256 0).
  - exact (keys_init_inv _ _ _ _ _ demo_roots2).
  - apply demo_delivered; vm_compute; intuition discriminate.
  - done.
  - reflexivity.
  - vm_compute. reflexivity.
  - intros n. vm_compute. discriminate.
Defined.

(** Two readings and the response to a command, received over Bluetooth. *)
Definition demo_bt (auth : epacket_auth) (type : Z) (data : list Z) : rx_packet :=
  RxPacket (RxMeta 0x1122 1400000000 0x222222 auth type 0x1000 9) EPACKET_INTERFACE_BT_CENTRAL [1; 2; 3; 4; 5; 6; 7] (-71) data.
Definition demo_events : list gateway_event :=
  [GwPacket 2 (demo_bt EPACKET_AUTH_NETWORK 2 (repeat 5 60)); GwPacket 2 (demo_bt EPACKET_AUTH_FAILURE 0 (repeat 6 80)); GwFlush;
   GwPacket 6 (demo_bt EPACKET_AUTH_DEVICE INFUSE_RPC_RSP (repeat 7 10)); GwPacket 2 (demo_bt EPACKET_AUTH_NETWORK 2 [8])].

Lemma gateway_forwards_all_witness :
  exists st' g' groups waiting, gateway_run demo_sec demo_header demo_footer demo_size EPACKET_INTERFACE_UDP (demo_core, demo_group) demo_events = Done (st', g') /\
    length (tx_queue st') = 3%nat /\ mjoin groups ++ waiting = packets_of demo_events.
Proof.
  destruct (gateway_forwards_all demo_sec demo_header demo_footer demo_size EPACKET_INTERFACE_UDP demo_core demo_group demo_events)
    as (st' & g' & groups & waiting & Hrun & _ & _ & Hj).
  - reflexivity.
  - reflexivity.
  - repeat constructor; vm_compute; intuition discriminate.
  - exists st', g', groups, waiting. split; [exact Hrun|]. split; [|exact Hj]. vm_compute in Hrun. injection Hrun as <- _. reflexivity.
Defined.

(** The response to a command waits for the worker when the type that is read after the
    release of its packet is another one, although [rx_type] was kept for that reading. *)
Example response_left_pending :
  let rsp := demo_bt EPACKET_AUTH_DEVICE INFUSE_RPC_RSP [1; 2; 3; 4] in
  let run stale := gateway_run demo_sec demo_header demo_footer demo_size EPACKET_INTERFACE_UDP (demo_core, demo_group) [GwPacket stale rsp] in
  (exists st b m, run INFUSE_TDF = Done (st, GroupState (Some (EPACKET_INTERFACE_UDP, m, b)) true) /\ tx_queue st = []) /\
  (exists st, run INFUSE_RPC_RSP = Done (st, GroupState None false) /\ length (tx_queue st) = 1%nat).
Proof. vm_compute. eauto 10. Qed.

(** An echo request that arrives while its interface has gone down. *)
Example echo_without_room :
  epacket_default_receive_handler demo_sec demo_header demo_footer (fun _ _ => 0) demo_free demo_core (demo_bt EPACKET_AUTH_NETWORK INFUSE_ECHO_REQ [1]) = Fault.
Proof. reflexivity. Qed.

(** A packet to forward, authenticated but with a header that announces more than it holds: a gateway that
    forwards reads behind it. *)
Example forward_overread :
  let p := RxPacket (RxMeta 0 0 0 EPACKET_AUTH_NETWORK INFUSE_EPACKET_FORWARD 0 0) EPACKET_INTERFACE_UDP (repeat 0 7) 0 (le_put 2 100 ++ [EPACKET_INTERFACE_BT_CENTRAL] ++ repeat 0 7 ++ [1; 2; 3]) in
  epacket_gateway_receive_handler demo_sec demo_header demo_footer demo_size demo_free true 256 0 false demo_core demo_group EPACKET_INTERFACE_UDP p = Fault.
Proof. vm_compute. reflexivity. Qed.

(** One that is too short for its headers. *)
Example forward_short_packet :
  let p := RxPacket (RxMeta 0 0 0 EPACKET_AUTH_NETWORK INFUSE_EPACKET_FORWARD 0 0) EPACKET_INTERFACE_UDP (repeat 0 7) 0 [1] in
  epacket_gateway_receive_handler demo_sec demo_header demo_footer demo_size demo_free true 256 0 false demo_core demo_group EPACKET_INTERFACE_UDP p = Fault.
Proof. vm_compute. reflexivity. Qed.
