(* ===== verification/RpcServer.v ===== *)
(** * RPC server

    [subsys/rpc/server.c], the command runner [generated/rpc_command_runner.c], and the
    commands that move bulk data: [data_receiver.c], [data_sender.c] and [mem_read.c].
    Commands run only with the authentication they require, and every command is answered
    once; data that arrives in order is received as it was sent; acknowledgements that
    cannot be sent make the server write past its array. *)

From stdpp Require Import base tactics numbers list.
From Stdlib Require Import ZArith Lia.
From S2P Require Import Prelude EPacketKeys EPacketCrypt EPacketCore EPacketCoreProps.

Local Open Scope Z_scope.
Local Open Scope infuse_scope.

Definition ETIMEDOUT : Z := 116.
Definition EACCES : Z := 13.

Definition RPC_SERVER_MAX_ACK_PERIOD : Z := 8.
Definition RPC_ID_MEM_READ : Z := 15.
Definition RPC_ID_DATA_SENDER : Z := 32765.
Definition RPC_ID_DATA_RECEIVER : Z := 32766.

(** [crc32_ieee_update] of Zephyr can be computed piece by piece. *)
Class Crc32 := {
  crc32_ieee_update : Z -> list Z -> Z;
  crc32_nil c : crc32_ieee_update c [] = c;
  crc32_app c l k : crc32_ieee_update c (l ++ k) = crc32_ieee_update (crc32_ieee_update c l) k;
}.

(** The state of the server: the core with its queues; what [k_fifo_get] returns from
    [data_fifo] from now on ([None]: a wait that times out, as do all waits after the
    last element); the acknowledgements; the flags of the runner; the rest of the
    application. *)
Record server (A : Type) := Server {
  sv_core : core_state;
  sv_data : list (option rx_packet);
  data_packet_acks : list Z;
  data_packet_ack_counter : Z;
  command_freed : bool;
  response_sent : bool;
  sv_app : A;
}.
Arguments Server {A}.
Arguments sv_core {A}.
Arguments sv_data {A}.
Arguments data_packet_acks {A}.
Arguments data_packet_ack_counter {A}.
Arguments command_freed {A}.
Arguments response_sent {A}.
Arguments sv_app {A}.

Section server.
Context {A : Type} `{Crc32} (sec : security).
Context (header_size footer_size : Z -> Z) (max_packet_size : Z -> nat -> Z).
(** The bytes of the buffer behind a packet, which the code reads of a packet that is
    shorter than its header. *)
Context (stale : rx_packet -> list Z).
Implicit Types sv : server A.

Definition set_core sv (c : core_state) : server A :=
  Server c (sv_data sv) (data_packet_acks sv) (data_packet_ack_counter sv) (command_freed sv) (response_sent sv) (sv_app sv).
Definition set_data sv (d : list (option rx_packet)) : server A :=
  Server (sv_core sv) d (data_packet_acks sv) (data_packet_ack_counter sv) (command_freed sv) (response_sent sv) (sv_app sv).
Definition set_acks sv (l : list Z) (n : Z) : server A :=
  Server (sv_core sv) (sv_data sv) l n (command_freed sv) (response_sent sv) (sv_app sv).
Definition set_runner sv (freed sent : bool) : server A :=
  Server (sv_core sv) (sv_data sv) (data_packet_acks sv) (data_packet_ack_counter sv) freed sent (sv_app sv).
Definition set_app sv (a : A) : server A :=
  Server (sv_core sv) (sv_data sv) (data_packet_acks sv) (data_packet_ack_counter sv) (command_freed sv) (response_sent sv) a.

Definition alloc sv (dev : Z) : tx_buf * server A :=
  let '(b, c) := epacket_alloc_tx_for_interface header_size footer_size max_packet_size (sv_core sv) dev in (b, set_core sv c).

(** ** Responses *)

Definition sizeof_rsp_header : Z := 8.

(** [response] begins with a response header. *)
Definition rpc_response_simple_if sv (interface rc : Z) (response : list Z) : tx_buf * server A :=
  let '(b, sv) := alloc sv interface in
  if zlen response <=? tb_room b
  then (buf_poke (TxBuf (tb_data b ++ response) (tb_room b - zlen response)) 6 (le_put 2 rc), sv)
  else (b, sv).

Definition rpc_response_simple_req sv (request : rx_packet) (rc : Z) (response : list Z) : tx_buf * server A :=
  rpc_response_simple_if sv (rx_interface request) rc response.

(** The identifiers in a response header, and the packet queued. *)
Definition send_response sv (interface : Z) (address : list Z) (auth : epacket_auth) (key_id request_id command_id : Z) (b : tx_buf) : server A :=
  let b := buf_poke b 0 (le_put 4 request_id ++ le_put 2 command_id) in
  let meta := epacket_set_tx_metadata_core (sv_core sv) auth key_id 0 INFUSE_RPC_RSP in
  set_core sv (epacket_queue (sv_core sv) (TxPacket interface address meta (tb_data b))).

Definition rpc_command_runner_request_unref sv : server A := set_runner sv true (response_sent sv).

Definition rpc_command_runner_early_response sv (p : rx_packet) (request_id command_id : Z) (response : tx_buf) : server A :=
  let m := rx_meta p in
  let sv := send_response sv (rx_interface p) (rx_address p) (rx_auth m) (rx_key_identifier m) request_id command_id response in
  set_runner sv (command_freed sv) true.

(** ** Data packets *)

Definition sizeof_rpc_data : Z := 8.

Definition data_header (p : rx_packet) : list Z := ztake sizeof_rpc_data (rx_data p ++ stale p).
Definition data_request_id (p : rx_packet) : Z := field (data_header p) 0 4.
Definition data_offset (p : rx_packet) : Z := field (data_header p) 4 4.
Definition RPC_DATA_VAR_LEN (p : rx_packet) : Z := u32 (zlen (rx_data p) - sizeof_rpc_data).

Definition rpc_server_pull_data_reset sv : server A := set_acks sv (data_packet_acks sv) 0.

(** The packet or the error, and what is left. *)
Fixpoint pull_data_core (request_id : Z) (requires_aligned : bool) (s : list (option rx_packet)) : (rx_packet + Z) * list (option rx_packet) :=
  match s with
  | [] => (inr (- ETIMEDOUT), [])
  | None :: s => (inr (- ETIMEDOUT), s)
  | Some p :: s =>
      if negb (data_request_id p =? request_id) then pull_data_core request_id requires_aligned s
      else if requires_aligned && negb (data_offset p mod 4 =? 0) then (inr (- EINVAL), s)
      else (inl p, s)
  end.

Definition rpc_server_pull_data (request_id : Z) (s : list (option rx_packet)) := pull_data_core request_id true s.
Definition rpc_server_pull_data_unaligned (request_id : Z) (s : list (option rx_packet)) := pull_data_core request_id false s.

(** ** Acknowledgements *)

Definition send_ack sv (p : rx_packet) (request_id num_offsets : Z) : exec (server A) :=
  let m := rx_meta p in
  let network_key_id := if decide (rx_auth m = EPACKET_AUTH_NETWORK) then rx_key_identifier m else network_key_identifier sec in
  let '(ack, sv) := alloc sv (rx_interface p) in
  if tb_room ack =? 0 then Done sv
  else
    let meta := epacket_set_tx_metadata_core (sv_core sv) EPACKET_AUTH_NETWORK network_key_id 0 INFUSE_RPC_DATA_ACK in
    let! ack := buf_add_mem ack (le_put 4 request_id) in
    if RPC_SERVER_MAX_ACK_PERIOD <? num_offsets then Fault (* past the end of data_packet_acks *)
    else
      let! ack := buf_add_mem ack (mjoin (le_put 4 <$> ztake num_offsets (data_packet_acks sv))) in
      Done (rpc_server_pull_data_reset (set_core sv (epacket_queue (sv_core sv) (TxPacket (rx_interface p) (rx_address p) meta (tb_data ack))))).

Definition rpc_server_ack_data_ready sv (p : rx_packet) (request_id : Z) : exec (server A) := send_ack sv p request_id 0.

Definition rpc_server_ack_data sv (p : rx_packet) (request_id offset ack_period : Z) : exec (server A) :=
  if negb (ack_period =? 0) && (ack_period <=? RPC_SERVER_MAX_ACK_PERIOD) then
    let n := data_packet_ack_counter sv in
    if RPC_SERVER_MAX_ACK_PERIOD <=? n then Fault (* past the end of data_packet_acks *)
    else
      let sv := set_acks sv (<[Z.to_nat n := offset]> (data_packet_acks sv)) (u8 (n + 1)) in
      if ack_period <=? data_packet_ack_counter sv then send_ack sv p request_id (data_packet_ack_counter sv) else Done sv
  else Done sv.

(** ** Receiving data *)

(** The fields of a request: the header, then the header of requests with data. *)
Definition req_field (p : rx_packet) (off n : Z) : Z := field (rx_data p ++ stale p) off n.
Definition req_request_id (p : rx_packet) : Z := req_field p 0 4.
Definition req_command_id (p : rx_packet) : Z := req_field p 4 2.
Definition req_size (p : rx_packet) : Z := req_field p 6 4.
Definition req_ack_period (p : rx_packet) : Z := req_field p 10 1.

(** The variables of the loop. *)
Record receive_state := ReceiveState { remaining : Z; expected_offset : Z; received : Z; crc : Z }.

(** One packet that was pulled: the error, or the loop goes on. *)
Definition receive_packet sv (req p : rx_packet) (request_id expected ack_period : Z) (r : receive_state)
  : exec ((receive_state + Z) * server A) :=
  let var_len := RPC_DATA_VAR_LEN p in
  if remaining r <? var_len then Done (inr (- EINVAL), sv)
  else if zlen (rx_data p) <? sizeof_rpc_data then Fault (* the length of the payload wrapped around *)
  else
    let off := data_offset p in
    let exp := u32 (off + var_len) in
    let r := ReceiveState (u32 (expected - exp)) exp (u32 (received r + var_len)) (crc32_ieee_update (crc r) (zdrop sizeof_rpc_data (rx_data p))) in
    let! sv := if 0 <? remaining r then rpc_server_ack_data sv req request_id off ack_period else Done sv in
    Done (inl r, sv).

(** Every pass takes an element of [sv_data]. *)
Fixpoint receive_loop (fuel : nat) sv (req : rx_packet) (request_id expected ack_period : Z) (unaligned : bool) (r : receive_state)
  : exec (Z * receive_state * server A) :=
  match fuel with
  | O => NoFuel
  | S fuel =>
      if negb (0 <? remaining r) then Done (0, r, sv)
      else
        let '(d, s) := if unaligned then rpc_server_pull_data_unaligned request_id (sv_data sv) else rpc_server_pull_data request_id (sv_data sv) in
        let sv := set_data sv s in
        match d with
        | inr rc => Done (rc, r, sv)
        | inl p =>
            let! (res, sv) := receive_packet sv req p request_id expected ack_period r in
            match res with
            | inr rc => Done (rc, r, sv)
            | inl r => receive_loop fuel sv req request_id expected ack_period unaligned r
            end
        end
  end.

Definition data_response (len crc : Z) : list Z := repeat 0 8 ++ le_put 4 len ++ le_put 4 crc.

Definition rpc_command_data_receiver sv (request : rx_packet) : exec (option tx_buf * server A) :=
  let request_id := req_request_id request in
  let expected := req_size request in
  let unaligned := negb (req_field request 11 1 =? 0) in
  let sv := rpc_command_runner_request_unref sv in
  let! sv := rpc_server_ack_data_ready sv request request_id in
  let! (rc, r, sv) := receive_loop (S (S (length (sv_data sv)))) sv request request_id expected (req_ack_period request) unaligned (ReceiveState expected 0 0 0) in
  let '(response, sv) := rpc_response_simple_if sv (rx_interface request) rc (data_response (received r) (crc r)) in
  Done (None, rpc_command_runner_early_response sv request request_id RPC_ID_DATA_RECEIVER response).

(** ** Sending data *)

(** [n] bytes from address [a]. *)
Definition bytes_at (mem : Z -> Z) (a n : Z) : list Z := (fun i => mem (a + Z.of_nat i)) <$> seq 0 (Z.to_nat n).

(** The uptimes that [epacket_rate_limit_tx] reads, by the number of buffers allocated. *)
Context (ticks_per_sec : Z) (clock : nat -> Z * Z).

Definition rate_limit sv (limit_tx tail : Z) : Z * server A :=
  let '(now, later) := clock (allocs (sv_core sv)) in
  let '(c, limit_tx, _, _) := epacket_rate_limit_tx ticks_per_sec (sv_core sv) limit_tx now later tail in
  (limit_tx, set_core sv c).

(** The packet of one pass of a sending loop, up to its payload: [None] when the
    connection has been lost. *)
Definition data_packet sv (dev : Z) (request_id offset : Z) : exec (option tx_buf * server A) :=
  let '(b, sv) := alloc sv dev in
  if tb_room b =? 0 then Done (None, sv)
  else let! b := buf_add_mem b (le_put 4 request_id ++ le_put 4 offset) in Done (Some b, sv).

(** [rand] gives the bytes of [sys_rand_get] by their offset in the transfer. *)
Fixpoint sender_loop (fuel : nat) (rand : Z -> Z) sv (p : rx_packet) (request_id remaining tx_offset limit_tx tail : Z) : exec (server A) :=
  match fuel with
  | O => NoFuel
  | S fuel =>
      if negb (0 <? remaining) then Done sv
      else
        let '(limit_tx, sv) := rate_limit sv limit_tx tail in
        let! (b, sv) := data_packet sv (rx_interface p) request_id tx_offset in
        match b with
        | None => Done sv
        | Some b =>
            let meta := epacket_set_tx_metadata_core (sv_core sv) (rx_auth (rx_meta p)) (rx_key_identifier (rx_meta p)) 0 INFUSE_RPC_DATA in
            let tail := Z.min remaining (tb_room b) in
            let! b := buf_add_mem b (bytes_at rand tx_offset tail) in
            let sv := set_core sv (epacket_queue (sv_core sv) (TxPacket (rx_interface p) EPACKET_ADDR_ALL meta (tb_data b))) in
            sender_loop fuel rand sv p request_id (u32 (remaining - tail)) (u32 (tx_offset + tail)) limit_tx tail
        end
  end.

Definition rpc_command_data_sender (fuel : nat) (rand : Z -> Z) sv (request : rx_packet) : exec (option tx_buf * server A) :=
  let sv := rpc_command_runner_request_unref sv in
  let! sv := sender_loop fuel rand sv request (req_request_id request) (req_size request) 0 (clock (allocs (sv_core sv))).1 0 in
  let '(response, sv) := rpc_response_simple_if sv (rx_interface request) 0 (repeat 0 8) in
  Done (Some response, sv).

Definition round_down4 (n : Z) : Z := n - n mod 4.

(** [sent_len] and [sent_crc] of the response. *)
Fixpoint mem_read_loop (fuel : nat) (mem : Z -> Z) sv (p : rx_packet) (request_id current_address bytes_remaining sent_len sent_crc limit_tx tail : Z)
  : exec (Z * Z * server A) :=
  match fuel with
  | O => NoFuel
  | S fuel =>
      if bytes_remaining =? 0 then Done (sent_len, sent_crc, sv)
      else
        let '(limit_tx, sv) := rate_limit sv limit_tx tail in
        let! (b, sv) := data_packet sv (rx_interface p) request_id sent_len in
        match b with
        | None => Done (sent_len, sent_crc, sv)
        | Some b =>
            let meta := epacket_set_tx_metadata sec (sv_core sv) (rx_auth (rx_meta p)) 0 INFUSE_RPC_DATA in
            let tail := Z.min bytes_remaining (tb_room b) in
            let tail := if 4 <? tail then round_down4 tail else tail in
            let chunk := bytes_at mem current_address tail in
            let! b := buf_add_mem b chunk in
            let sv := set_core sv (epacket_queue (sv_core sv) (TxPacket (rx_interface p) (rx_address p) meta (tb_data b))) in
            mem_read_loop fuel mem sv p request_id (current_address + tail) (u32 (bytes_remaining - tail)) (u32 (sent_len + tail))
              (crc32_ieee_update sent_crc chunk) limit_tx tail
        end
  end.

Definition rpc_command_mem_read (fuel : nat) (mem : Z -> Z) sv (request : rx_packet) : exec (option tx_buf * server A) :=
  let request_id := req_request_id request in
  let limit_tx := (clock (allocs (sv_core sv))).1 in
  let sv := rpc_command_runner_request_unref sv in
  let! (len, crc, sv) := mem_read_loop fuel mem sv request request_id (req_field request 11 4) (req_size request) 0 0 limit_tx 0 in
  let '(response, sv) := rpc_response_simple_if sv (rx_interface request) 0 (data_response len crc) in
  Done (Some response, sv).

(** ** The command runner *)

Definition auth_level (a : epacket_auth) : Z :=
  match a with EPACKET_AUTH_FAILURE => 0 | EPACKET_AUTH_NETWORK => 1 | EPACKET_AUTH_DEVICE => 2 end.

(** A command of the build: its identifier, the authentication that its configuration
    requires, and its function. *)
Record rpc_command := RpcCommand {
  cmd_id : Z;
  required_auth : Z;
  cmd_run : server A -> rx_packet -> exec (option tx_buf * server A);
}.

Definition AUTHORISED (auth : epacket_auth) (c : rpc_command) : bool := required_auth c <=? auth_level auth.

(** The [switch]: the response, and the code if there is none. *)
Definition run_command (commands : list rpc_command) sv (request : rx_packet) (command_id : Z) : exec (option tx_buf * Z * server A) :=
  match list_find (fun c => cmd_id c = command_id) commands with
  | None => Done (None, - ENOTSUP, sv)
  | Some (_, c) =>
      if AUTHORISED (rx_auth (rx_meta request)) c
      then let! (response, sv) := cmd_run c sv request in Done (response, - EACCES, sv)
      else Done (None, - EACCES, sv)
  end.

Definition rpc_command_runner (commands : list rpc_command) sv (request : rx_packet) : exec (server A) :=
  let m := rx_meta request in
  let request_id := req_request_id request in
  let command_id := req_command_id request in
  let sv := set_runner sv false false in
  let! (response, rc, sv) := run_command commands sv request command_id in
  let sv := if command_freed sv then sv else rpc_command_runner_request_unref sv in
  let respond b sv := send_response sv (rx_interface request) (rx_address request) (rx_auth m) (rx_key_identifier m) request_id command_id b in
  if response_sent sv then match response with None => Done sv | Some _ => Fault (* __ASSERT_NO_MSG *) end
  else
    match response with
    | Some b => Done (respond b sv)
    | None =>
        let '(b, sv) := alloc sv (rx_interface request) in
        if tb_room b =? 0 then Done sv
        else let! b := buf_add_mem b (repeat 0 6 ++ le_put 2 rc) in Done (respond b sv)
    end.

(** One pass of the server thread that finds a command. *)
Definition rpc_server_command (commands : list rpc_command) sv (request : rx_packet) : exec (server A) :=
  rpc_command_runner commands (rpc_server_pull_data_reset sv) request.

End server.
