(* ===== verification/RpcServerProps.v ===== *)
(** * Properties of the RPC server

    Requests and their answers, data that is received in order or while the connection is
    lost, and the acknowledgements. *)

From stdpp Require Import base tactics numbers list.
From Stdlib Require Import ZArith Lia.
From S2P Require Import Prelude EPacketKeys EPacketCrypt EPacketCore EPacketCoreProps RpcServer.

Local Open Scope Z_scope.
Local Open Scope infuse_scope.

(** ** Data in packets *)

(** The payloads of data packets: a header with the offset, then a chunk. *)
Fixpoint payloads (request_id off : Z) (chunks : list (list Z)) : list (list Z) :=
  match chunks with
  | [] => []
  | c :: cs => (le_put 4 request_id ++ le_put 4 off ++ c) :: payloads request_id (off + zlen c) cs
  end.

Lemma zlen_bytes_at mem a n : 0 <= n -> zlen (bytes_at mem a n) = n.
Proof. intros Hn. unfold bytes_at, zlen. rewrite length_fmap, length_seq. lia. Qed.

Lemma bytes_at_app mem a n m : 0 <= n -> 0 <= m -> bytes_at mem a (n + m) = bytes_at mem a n ++ bytes_at mem (a + n) m.
Proof.
  intros Hn Hm. unfold bytes_at. rewrite Z2Nat.inj_add, seq_app, fmap_app by done. f_equal.
  rewrite <- (Nat.add_0_l (Z.to_nat n)) at 1. rewrite Nat.add_comm. rewrite <- fmap_add_seq, <- list_fmap_compose.
  apply list_fmap_ext. intros i x _. cbn. f_equal. lia.
Qed.

Lemma round_down4_bounds n : 4 < n -> 4 <= round_down4 n <= n.
Proof. intros Hn. unfold round_down4. pose proof (Z.mod_pos_bound n 4). assert (n mod 4 <= 3) by lia.
  destruct (Z.eq_dec (n mod 4) 0); [lia|]. pose proof (Z.div_mod n 4). assert (1 <= n / 4) by (apply Z.div_le_lower_bound; lia). lia. Qed.

Section props.
Context {A : Type} `{Crc32} (sec : security).
Context (header_size footer_size : Z -> Z) (max_packet_size : Z -> nat -> Z) (stale : rx_packet -> list Z).
Context (ticks_per_sec : Z) (clock : nat -> Z * Z).
Implicit Types sv : server A.

Abbreviation room := (interface_room header_size footer_size max_packet_size).
Abbreviation queue sv := (tx_queue (sv_core sv)).

(** What stays when packets are only queued. *)
Definition same_but_core sv sv' : Prop :=
  sv_data sv' = sv_data sv /\ data_packet_acks sv' = data_packet_acks sv /\ data_packet_ack_counter sv' = data_packet_ack_counter sv /\
  command_freed sv' = command_freed sv /\ response_sent sv' = response_sent sv /\ sv_app sv' = sv_app sv.

Lemma rate_limit_same sv l t l' sv' :
  rate_limit ticks_per_sec clock sv l t = (l', sv') -> same_but_core sv sv' /\ queue sv' = queue sv /\ allocs (sv_core sv') = allocs (sv_core sv) /\
    command_fifo (sv_core sv') = command_fifo (sv_core sv).
Proof.
  unfold rate_limit. destruct (clock _) as [now later]. unfold epacket_rate_limit_tx. destruct (_ =? 0); [|destruct (0 <? _)]; by intros [= <- <-].
Qed.

Lemma data_packet_ok sv dev id off :
  8 <= room dev (allocs (sv_core sv)) ->
  exists b sv', data_packet header_size footer_size max_packet_size sv dev id off = Done (Some b, sv') /\
    tb_data b = le_put 4 id ++ le_put 4 off /\ tb_room b = room dev (allocs (sv_core sv)) - 8 /\ same_but_core sv sv' /\ queue sv' = queue sv.
Proof.
  intros Hr. unfold data_packet, alloc, epacket_alloc_tx_for_interface. cbn [tb_room]. rewrite (proj2 (Z.eqb_neq _ 0)) by lia.
  rewrite buf_add_mem_ok by (rewrite zlen_app, !zlen_le_put; cbn [tb_room]; lia). cbn [exec_bind tb_data tb_room app]. do 2 eexists. repeat split; done.
Qed.

(** ** Sending memory *)

Lemma mem_read_loop_ok mem p id fuel : forall sv addr n sent crc l t,
  (forall k, 9 <= room (rx_interface p) k) -> 0 <= n -> 0 <= sent -> sent + n < 2 ^ 32 -> (Z.to_nat n < fuel)%nat ->
  exists chunks ps sv', mem_read_loop sec header_size footer_size max_packet_size ticks_per_sec clock fuel mem sv p id addr n sent crc l t =
      Done (sent + n, crc32_ieee_update crc (bytes_at mem addr n), sv') /\
    mjoin chunks = bytes_at mem addr n /\ queue sv' = queue sv ++ ps /\ tp_data <$> ps = payloads id sent chunks /\
    Forall (fun k => tp_dev k = rx_interface p /\ tx_type (tp_meta k) = INFUSE_RPC_DATA) ps /\ same_but_core sv sv'.
Proof.
  induction fuel as [|fuel IH]; intros sv addr n sent crc l t Hr Hn Hs Hw Hf; [lia|]. cbn [mem_read_loop].
  destruct (Z.eqb_spec n 0) as [->|Hn0].
  { exists [], [], sv. rewrite Z.add_0_r, app_nil_r. cbn. rewrite crc32_nil. split; [done|]. repeat split; done. }
  destruct (rate_limit _ _ sv l t) as [l1 sv1] eqn:Hrl. apply rate_limit_same in Hrl as (Hs1 & Hq1 & Ha1 & _).
  destruct (data_packet_ok sv1 (rx_interface p) id sent) as (b & sv2 & -> & Hbd & Hbr & Hs2 & Hq2); [specialize (Hr (allocs (sv_core sv1))); lia|].
  cbn [exec_bind]. pose proof (Hr (allocs (sv_core sv1))) as Hroom. set (m := Z.min n (tb_room b)).
  set (tail := if 4 <? m then round_down4 m else m).
  assert (Ht : 1 <= tail <= m) by (unfold tail, m; destruct (Z.ltb_spec 4 (Z.min n (tb_room b))); [pose proof (round_down4_bounds (Z.min n (tb_room b))); lia|lia]).
  rewrite buf_add_mem_ok by (rewrite zlen_bytes_at; lia). cbn [exec_bind tb_data]. rewrite !uwrap_small by lia.
  set (sv3 := set_core sv2 _). destruct (IH sv3 (addr + tail) (n - tail) (sent + tail) (crc32_ieee_update crc (bytes_at mem addr tail)) l1 tail) as (chunks & ps & sv' & -> & Hj & Hq & Hd & Hfa & Hsame); [done|lia..|].
  exists (bytes_at mem addr tail :: chunks). eexists (_ :: ps), sv'. split.
  { do 3 f_equal; [lia|]. rewrite <- crc32_app, <- bytes_at_app by lia. do 2 f_equal. lia. }
  split; [change (mjoin (bytes_at mem addr tail :: chunks)) with (bytes_at mem addr tail ++ mjoin chunks); rewrite Hj, <- bytes_at_app by lia; f_equal; lia|].
  split; [rewrite Hq; unfold sv3; cbn; by rewrite Hq2, Hq1, <- app_assoc|]. split.
  { cbn. rewrite zlen_bytes_at, Hd, Hbd, <- app_assoc by lia. done. }
  split; [by constructor|]. unfold same_but_core in *. destruct Hsame as (-> & -> & -> & -> & -> & ->). cbn. intuition congruence.
Qed.

(** ** Acknowledgements *)

Definition acks_ok sv : Prop := length (data_packet_acks sv) = 8%nat /\ 0 <= data_packet_ack_counter sv < 8.

(** The interface of a request stays connected, with room for any acknowledgement. *)
Definition connected (dev : Z) : Prop := forall n, 36 <= room dev n.

Definition ack_packet sv (p : rx_packet) (id : Z) (offsets : list Z) : tx_packet :=
  TxPacket (rx_interface p) (rx_address p)
    (epacket_set_tx_metadata_core (sv_core sv) EPACKET_AUTH_NETWORK
       (if decide (rx_auth (rx_meta p) = EPACKET_AUTH_NETWORK) then rx_key_identifier (rx_meta p) else network_key_identifier sec) 0 INFUSE_RPC_DATA_ACK)
    (le_put 4 id ++ mjoin (le_put 4 <$> offsets)).

Lemma zlen_offsets (l : list Z) : zlen (mjoin (le_put 4 <$> l)) = 4 * zlen l.
Proof.
  induction l as [|x l IH]; [done|]. change (mjoin (le_put 4 <$> x :: l)) with (le_put 4 x ++ mjoin (le_put 4 <$> l)).
  rewrite zlen_app, IH, zlen_cons, zlen_le_put. lia.
Qed.

Lemma send_ack_ok sv p id n :
  connected (rx_interface p) -> length (data_packet_acks sv) = 8%nat -> 0 <= n <= 8 ->
  exists sv', send_ack sec header_size footer_size max_packet_size sv p id n = Done sv' /\
    queue sv' = queue sv ++ [ack_packet sv p id (ztake n (data_packet_acks sv))] /\
    data_packet_ack_counter sv' = 0 /\ data_packet_acks sv' = data_packet_acks sv /\
    sv_data sv' = sv_data sv /\ command_freed sv' = command_freed sv /\ response_sent sv' = response_sent sv /\ sv_app sv' = sv_app sv.
Proof.
  intros Hc Hl Hn. unfold send_ack, alloc, epacket_alloc_tx_for_interface. cbn [tb_room]. specialize (Hc (allocs (sv_core sv))).
  rewrite (proj2 (Z.eqb_neq _ 0)) by lia. rewrite buf_add_mem_ok by (rewrite zlen_le_put; cbn [tb_room]; lia). cbn [exec_bind tb_data tb_room].
  rewrite (proj2 (Z.ltb_ge _ _)) by (unfold RPC_SERVER_MAX_ACK_PERIOD; lia).
  assert (Hz : zlen (ztake n (data_packet_acks sv)) = n) by (apply zlen_ztake; unfold zlen; lia).
  rewrite buf_add_mem_ok by (cbn [tb_room set_core data_packet_acks]; rewrite zlen_offsets, Hz, zlen_le_put; lia).
  eexists. split; [reflexivity|]. repeat split; done.
Qed.

(** A data packet is counted, and the acknowledgement sent when enough are. *)
Lemma ack_data_ok sv p id off period :
  connected (rx_interface p) -> acks_ok sv ->
  exists sv', rpc_server_ack_data sec header_size footer_size max_packet_size sv p id off period = Done sv' /\ acks_ok sv' /\
    sv_data sv' = sv_data sv /\ command_freed sv' = command_freed sv /\ response_sent sv' = response_sent sv /\ sv_app sv' = sv_app sv /\
    exists acks, queue sv' = queue sv ++ acks /\ Forall (fun k => tx_type (tp_meta k) = INFUSE_RPC_DATA_ACK) acks /\
      (1 <= period <= 8 -> data_packet_ack_counter sv < period ->
        data_packet_ack_counter sv' < period /\
        data_packet_ack_counter sv' + period * zlen acks = data_packet_ack_counter sv + 1 /\ Forall (fun k => tp_dev k = rx_interface p /\ field (tp_data k) 0 4 = u32 id) acks).
Proof.
  intros Hc [Hl Hn]. unfold rpc_server_ack_data. destruct (negb (period =? 0) && (period <=? RPC_SERVER_MAX_ACK_PERIOD)) eqn:Hp; cycle 1.
  { exists sv. split; [done|]. split; [done|]. do 4 (split; [done|]). exists []. rewrite app_nil_r. split; [done|]. split; [constructor|].
    intros Hpr. apply andb_false_iff in Hp as [Hp|Hp]; [apply negb_false_iff, Z.eqb_eq in Hp|apply Z.leb_gt in Hp; unfold RPC_SERVER_MAX_ACK_PERIOD in Hp]; lia. }
  apply andb_prop in Hp as [Hp1%negb_true_iff%Z.eqb_neq Hp2%Z.leb_le]. unfold RPC_SERVER_MAX_ACK_PERIOD in *.
  rewrite (proj2 (Z.leb_gt 8 _)) by lia. rewrite uwrap_small by lia. set (n := data_packet_ack_counter sv) in *. cbn [set_acks data_packet_ack_counter].
  destruct (Z.leb_spec period (n + 1)) as [Hge|Hlt].
  - set (sv1 := set_acks sv _ _). destruct (send_ack_ok sv1 p id (n + 1) Hc) as (sv' & -> & Hq & Hcn & Hak & Hd & Hcf & Hrs & Ha); [cbn; by rewrite length_insert|lia|].
    exists sv'. split; [done|]. split; [split; [rewrite Hak; cbn; by rewrite length_insert|lia]|]. do 4 (split; [done|]).
    eexists. split; [exact Hq|]. split; [by repeat constructor|]. intros Hpr Hlt. split; [lia|]. split; [rewrite Hcn; unfold zlen; cbn; lia|].
    constructor; [|constructor]. split; [done|]. cbn [ack_packet tp_data]. rewrite field_head by done. rewrite le_get_put. done.
  - eexists. split; [reflexivity|]. split; [split; [cbn; by rewrite length_insert|cbn; lia]|]. do 4 (split; [done|]).
    exists []. rewrite app_nil_r. split; [done|]. split; [constructor|]. intros _ _. cbn. rewrite zlen_nil. split; [lia|]. split; [lia|constructor].
Qed.

(** ** Receiving *)

(** Packets that are long enough for their header. *)
Definition stream_ok (s : list (option rx_packet)) : Prop := Forall (fun o => match o with Some p => 8 <= zlen (rx_data p) | None => True end) s.

Lemma pull_data_suffix id al s d s' : pull_data_core stale id al s = (d, s') -> stream_ok s ->
  stream_ok s' /\ (s = [] \/ (length s' < length s)%nat) /\ match d with inl p => 8 <= zlen (rx_data p) | inr rc => rc < 0 end.
Proof.
  revert d s'. induction s as [|[p|] s IH]; intros d s' Hp Hs; cbn in Hp.
  - injection Hp as <- <-. split; [done|]. split; [by left|unfold ETIMEDOUT; lia].
  - apply Forall_cons in Hs as [Hp8 Hs]. destruct (negb _).
    + destruct (IH _ _ Hp Hs) as (H1 & H2 & H3). split; [done|]. split; [|done]. right. cbn. destruct H2 as [->|?]; [cbn in Hp; injection Hp as <- <-; cbn; lia|lia].
    + destruct (al && _); injection Hp as <- <-; (split; [done|]); (split; [right; cbn; lia|unfold EINVAL; lia || done]).
  - apply Forall_cons in Hs as [_ Hs]. injection Hp as <- <-. split; [done|]. split; [right; cbn; lia|unfold ETIMEDOUT; lia].
Qed.

Lemma receive_packet_ok sv req p id exp period r :
  connected (rx_interface req) -> acks_ok sv -> 8 <= zlen (rx_data p) ->
  exists res sv', receive_packet sec header_size footer_size max_packet_size stale sv req p id exp period r = Done (res, sv') /\ acks_ok sv' /\
    sv_data sv' = sv_data sv /\ command_freed sv' = command_freed sv /\ response_sent sv' = response_sent sv /\ sv_app sv' = sv_app sv /\
    exists acks, queue sv' = queue sv ++ acks /\ Forall (fun k => tx_type (tp_meta k) = INFUSE_RPC_DATA_ACK) acks.
Proof.
  intros Hc Ha Hp. unfold receive_packet. destruct (_ <? _).
  { do 2 eexists. split; [done|]. split; [done|]. do 4 (split; [done|]). exists []. by rewrite app_nil_r. }
  rewrite (proj2 (Z.ltb_ge _ _)) by (unfold sizeof_rpc_data; lia). cbn [remaining]. destruct (0 <? _); cbn [exec_bind].
  - destruct (ack_data_ok sv req id (data_offset stale p) period Hc Ha) as (sv' & -> & Ha' & H1 & H2 & H3 & H4 & acks & Hq & Hf & _).
    cbn [exec_bind]. do 2 eexists. split; [done|]. eauto 10.
  - do 2 eexists. split; [done|]. split; [done|]. do 4 (split; [done|]). exists []. by rewrite app_nil_r.
Qed.

(** Receiving ends on any stream, without a fault, and sends only acknowledgements. *)
Lemma receive_loop_total req id exp period un fuel : forall sv r,
  connected (rx_interface req) -> acks_ok sv -> stream_ok (sv_data sv) -> (length (sv_data sv) < fuel)%nat ->
  exists rc r' sv', receive_loop sec header_size footer_size max_packet_size stale fuel sv req id exp period un r = Done (rc, r', sv') /\ acks_ok sv' /\
    stream_ok (sv_data sv') /\ command_freed sv' = command_freed sv /\ response_sent sv' = response_sent sv /\ sv_app sv' = sv_app sv /\
    exists acks, queue sv' = queue sv ++ acks /\ Forall (fun k => tx_type (tp_meta k) = INFUSE_RPC_DATA_ACK) acks.
Proof.
  induction fuel as [|fuel IH]; intros sv r Hc Ha Hs Hf; [lia|]. cbn [receive_loop]. destruct (negb _).
  { do 3 eexists. split; [done|]. do 5 (split; [done|]). exists []. by rewrite app_nil_r. }
  destruct (if un then _ else _) as [d s] eqn:Hpl.
  assert (Hcore : pull_data_core stale id (negb un) (sv_data sv) = (d, s)) by (by destruct un). clear Hpl.
  destruct (pull_data_suffix _ _ _ _ _ Hcore Hs) as (Hs' & Hlen & Hd). destruct d as [p|rc]; cycle 1.
  { do 3 eexists. split; [done|]. do 5 (split; [done|]). exists []. by rewrite app_nil_r. }
  destruct (receive_packet_ok (set_data sv s) req p id exp period r Hc Ha Hd) as (res & sv1 & -> & Ha1 & H1 & H2 & H3 & H4 & acks & Hq & Hfa).
  cbn [exec_bind]. assert (Hlt : (length (sv_data sv1) < fuel)%nat).
  { rewrite H1. cbn. destruct Hlen as [E|?]; [|lia]. rewrite E in Hcore. cbn in Hcore. discriminate Hcore. }
  destruct res as [r1|rc].
  - destruct (IH sv1 r1 Hc Ha1) as (rc & r' & sv' & -> & G1 & G2 & G3 & G4 & G5 & acks' & Hq' & Hfa'); [by rewrite H1|done|].
    exists rc, r', sv'. split; [done|]. do 2 (split; [done|]). cbn in *. split; [congruence|]. split; [congruence|]. split; [congruence|].
    exists (acks ++ acks'). rewrite Hq', Hq, <- app_assoc. split; [done|]. by apply Forall_app.
  - exists rc, r, sv1. split; [done|]. split; [done|]. split; [by rewrite H1|]. cbn in *. eauto 10.
Qed.

(** ** Responses *)

Definition rsps (q : list tx_packet) : list tx_packet := filter (fun k => tx_type (tp_meta k) = INFUSE_RPC_RSP) q.

(** [k] answers the request: sent where it came from, under its key, with its identifiers. *)
Definition answers (req : rx_packet) (k : tx_packet) : Prop :=
  tp_dev k = rx_interface req /\ tp_dest k = rx_address req /\
  tx_auth (tp_meta k) = rx_auth (rx_meta req) /\ tx_key_identifier (tp_meta k) = rx_key_identifier (rx_meta req) /\
  exists rc body, tp_data k = le_put 4 (req_request_id stale req) ++ le_put 2 (req_command_id stale req) ++ rc ++ body /\ zlen rc = 2.

Lemma rsps_app q k : rsps (q ++ k) = rsps q ++ rsps k.
Proof. apply filter_app. Qed.

Lemma rsps_none q : Forall (fun k => tx_type (tp_meta k) <> INFUSE_RPC_RSP) q -> rsps q = [].
Proof. induction 1 as [|k q Hk _ IH]; [done|]. unfold rsps. by rewrite filter_cons_False. Qed.

Lemma zwrite_head (l h x : list Z) : zlen l = zlen h -> zwrite 0 l (h ++ x) = l ++ x.
Proof. intros Hl. unfold zwrite. by rewrite ztake_0, zdrop_app by lia. Qed.

Lemma poke_head (h x l : list Z) r : zlen l = zlen h -> tb_data (buf_poke (TxBuf (h ++ x) r) 0 l) = l ++ x.
Proof. intros Hl. unfold buf_poke. cbn [tb_data]. rewrite zwrite_head, ztake_ge by (rewrite ?zlen_app; lia). done. Qed.

Lemma response_simple_ok sv dev rc h body :
  zlen h = 6 -> 8 + zlen body <= room dev (allocs (sv_core sv)) ->
  exists sv', rpc_response_simple_if header_size footer_size max_packet_size sv dev rc (h ++ [0; 0] ++ body) =
    (TxBuf (h ++ le_put 2 rc ++ body) (room dev (allocs (sv_core sv)) - (8 + zlen body)), sv') /\ same_but_core sv sv' /\ queue sv' = queue sv.
Proof.
  intros Hh Hr. unfold rpc_response_simple_if, alloc, epacket_alloc_tx_for_interface. cbn [tb_room tb_data app].
  assert (Hz : zlen (h ++ 0 :: 0 :: body) = 8 + zlen body) by (rewrite zlen_app, !zlen_cons; lia). rewrite Hz.
  rewrite (proj2 (Z.leb_le _ _)) by lia. exists (set_core sv (set_allocs (sv_core sv) (S (allocs (sv_core sv))))). split; [|done]. f_equal. unfold buf_poke. cbn [tb_data tb_room]. f_equal.
  unfold zwrite. rewrite (ztake_app 6 h), zlen_le_put, (zdrop_app_ge _ h) by (rewrite ?Hh; lia). rewrite Hh.
  change (zdrop (6 + Z.of_nat 2 - 6) (0 :: 0 :: body)) with body. apply ztake_ge. rewrite Hz, !zlen_app, zlen_le_put. lia.
Qed.

Lemma send_response_answers sv req h rc body r :
  zlen h = 6 -> zlen rc = 2 ->
  exists k, answers req k /\ tx_type (tp_meta k) = INFUSE_RPC_RSP /\
    send_response sv (rx_interface req) (rx_address req) (rx_auth (rx_meta req)) (rx_key_identifier (rx_meta req))
      (req_request_id stale req) (req_command_id stale req) (TxBuf (h ++ rc ++ body) r) = set_core sv (epacket_queue (sv_core sv) k).
Proof.
  intros Hh Hrc. unfold send_response. rewrite poke_head by (rewrite Hh; done). eexists. split; [|split; [|reflexivity]]; [|done].
  repeat split. exists rc, body. by rewrite <- app_assoc.
Qed.

(** ** The runner *)

(** What the server relies on between commands. *)
Definition server_ok sv : Prop := length (data_packet_acks sv) = 8%nat /\ stream_ok (sv_data sv).

(** The contract of a command: it returns; either it leaves the response to the runner,
    with a complete header, or it sends one itself. *)
Definition command_ok (c : rpc_command) : Prop :=
  forall sv req, connected (rx_interface req) -> server_ok sv -> data_packet_ack_counter sv = 0 -> response_sent sv = false ->
    req_command_id stale req = cmd_id c -> bytes_ok (rx_data req ++ stale req) ->
    exists rsp sv', cmd_run c sv req = Done (rsp, sv') /\ server_ok sv' /\
      match rsp with
      | Some b => response_sent sv' = false /\ rsps (queue sv') = rsps (queue sv) /\ 8 <= zlen (tb_data b)
      | None =>
          if response_sent sv' then exists k, rsps (queue sv') = rsps (queue sv) ++ [k] /\ answers req k
          else rsps (queue sv') = rsps (queue sv)
      end.

Lemma run_command_ok commands sv req :
  Forall command_ok commands -> connected (rx_interface req) -> server_ok sv -> data_packet_ack_counter sv = 0 -> response_sent sv = false ->
  bytes_ok (rx_data req ++ stale req) ->
  exists rsp rc sv', run_command commands sv req (req_command_id stale req) = Done (rsp, rc, sv') /\ server_ok sv' /\
      match rsp with
      | Some b => response_sent sv' = false /\ rsps (queue sv') = rsps (queue sv) /\ 8 <= zlen (tb_data b)
      | None =>
          if response_sent sv' then exists k, rsps (queue sv') = rsps (queue sv) ++ [k] /\ answers req k
          else rsps (queue sv') = rsps (queue sv)
      end.
Proof.
  intros Hcs Hc Hok Hn Hs Hb. unfold run_command. destruct (list_find _ _) as [[i c]|] eqn:Hf; cycle 1.
  { do 3 eexists. split; [done|]. split; [done|]. by rewrite Hs. }
  apply list_find_Some in Hf as (Hi & Hid & _). destruct (AUTHORISED _ c); cycle 1.
  { do 3 eexists. split; [done|]. split; [done|]. by rewrite Hs. }
  apply (Forall_lookup_1 _ _ _ _ Hcs) in Hi. destruct (Hi sv req Hc Hok Hn Hs (eq_sym Hid) Hb) as (rsp & sv' & -> & Hr). cbn. eauto 10.
Qed.

Lemma buf_split (b : tx_buf) : 8 <= zlen (tb_data b) -> exists h rc body, b = TxBuf (h ++ rc ++ body) (tb_room b) /\ zlen h = 6 /\ zlen rc = 2.
Proof.
  intros Hl. exists (ztake 6 (tb_data b)), (ztake 2 (zdrop 6 (tb_data b))), (zdrop 2 (zdrop 6 (tb_data b))).
  rewrite !ztake_zdrop. split; [by destruct b|]. split; [apply zlen_ztake; lia|]. apply zlen_ztake. rewrite zlen_zdrop; lia.
Qed.

Lemma runner_one_response commands sv req :
  Forall command_ok commands -> connected (rx_interface req) -> server_ok sv -> bytes_ok (rx_data req ++ stale req) ->
  exists sv' k, rpc_server_command header_size footer_size max_packet_size stale commands sv req = Done sv' /\ server_ok sv' /\
    rsps (queue sv') = rsps (queue sv) ++ [k] /\ answers req k.
Proof.
  intros Hcs Hc Hok Hby. unfold rpc_server_command, rpc_command_runner. set (sv0 := set_runner _ _ _).
  destruct (run_command_ok commands sv0 req Hcs Hc) as (rsp & rc & sv1 & -> & Hok1 & Hrsp); [done..|]. cbn [exec_bind].
  change (rsps (queue sv0)) with (rsps (queue sv)) in Hrsp.
  assert (Hun : forall s : server A, rsps (queue (if command_freed s then s else rpc_command_runner_request_unref s)) = rsps (queue s) /\
    response_sent (if command_freed s then s else rpc_command_runner_request_unref s) = response_sent s /\
    (server_ok s -> server_ok (if command_freed s then s else rpc_command_runner_request_unref s)) /\
    allocs (sv_core (if command_freed s then s else rpc_command_runner_request_unref s)) = allocs (sv_core s)) by (intros s; by destruct (command_freed s)).
  destruct (Hun sv1) as (E1 & E2 & E3 & E4). clear Hun. set (sv2 := if command_freed sv1 then _ else _) in *. rewrite E2.
  assert (Hadd : forall (s : server A) b, 8 <= zlen (tb_data b) -> server_ok s -> exists sv' k,
    send_response s (rx_interface req) (rx_address req) (rx_auth (rx_meta req)) (rx_key_identifier (rx_meta req)) (req_request_id stale req) (req_command_id stale req) b = sv' /\
    server_ok sv' /\ rsps (queue sv') = rsps (queue s) ++ [k] /\ answers req k).
  { intros s b Hb Hs. destruct (buf_split b Hb) as (h & r & body & -> & Hh & Hr2). destruct (send_response_answers s req h r body (tb_room b) Hh Hr2) as (k & Hk & Ht & ->).
    exists (set_core s (epacket_queue (sv_core s) k)), k. split; [done|]. split; [done|]. split; [|done]. cbn. rewrite rsps_app. unfold rsps at 2. by rewrite filter_cons_True. }
  destruct rsp as [b|].
  - destruct Hrsp as (-> & Hq & Hb). destruct (Hadd sv2 b Hb (E3 Hok1)) as (sv' & k & Hs & G1 & G2 & G3). exists sv', k. rewrite Hs. split; [done|]. split; [done|].
    split; [by rewrite G2, E1, Hq|done].
  - destruct (response_sent sv1) eqn:Hrs.
    + destruct Hrsp as (k & Hk & Ha). exists sv2, k. split; [done|]. split; [auto|]. split; [by rewrite E1|done].
    + unfold alloc, epacket_alloc_tx_for_interface. cbn [tb_room]. pose proof (Hc (allocs (sv_core sv2))) as Hr. rewrite (proj2 (Z.eqb_neq _ 0)) by lia.
      rewrite buf_add_mem_ok by (rewrite zlen_app, zlen_le_put; change (zlen (repeat 0 6)) with 6; cbn [tb_room]; lia). cbn [exec_bind tb_data].
      set (sv3 := set_core sv2 _). edestruct (Hadd sv3) as (sv' & k & Hs & G1 & G2 & G3); cycle 2.
      * exists sv', k. rewrite Hs. split; [done|]. split; [done|]. split; [|done]. rewrite G2. change (queue sv3) with (queue sv2). by rewrite E1, Hrsp.
      * done.
      * auto.
Qed.

(** ** The commands *)

Definition data_receiver_command (auth : Z) : @rpc_command A :=
  RpcCommand RPC_ID_DATA_RECEIVER auth (rpc_command_data_receiver sec header_size footer_size max_packet_size stale).
Definition mem_read_command (mem : Z -> Z) (auth : Z) : @rpc_command A :=
  RpcCommand RPC_ID_MEM_READ auth (fun sv req =>
    rpc_command_mem_read sec header_size footer_size max_packet_size stale ticks_per_sec clock (S (Z.to_nat (req_size stale req))) mem sv req).

Lemma data_response_split len c : data_response len c = repeat 0 6 ++ [0; 0] ++ le_put 4 len ++ le_put 4 c.
Proof. done. Qed.

Lemma acks_not_rsps q : Forall (fun k => tx_type (tp_meta k) = INFUSE_RPC_DATA_ACK) q -> rsps q = [].
Proof. intros Hq. apply rsps_none. eapply Forall_impl; [exact Hq|]. intros k ->. done. Qed.

Lemma data_receiver_ok auth : command_ok (data_receiver_command auth).
Proof.
  intros sv req Hc [Hl Hs] Hn Hrs Hid _. cbn in Hid. cbn [data_receiver_command cmd_run]. unfold rpc_command_data_receiver.
  destruct (send_ack_ok (rpc_command_runner_request_unref sv) req (req_request_id stale req) 0 Hc Hl) as (sv1 & Hack & Hq1 & Hn1 & Ha1 & Hd1 & _ & Hr1 & _); [lia|].
  unfold rpc_server_ack_data_ready. rewrite Hack. cbn [exec_bind].
  destruct (receive_loop_total req (req_request_id stale req) (req_size stale req) (req_ack_period stale req) (negb (req_field stale req 11 1 =? 0)) (S (S (length (sv_data sv1)))) sv1
    (ReceiveState (req_size stale req) 0 0 0) Hc) as (rc & r & sv2 & -> & [Hl2 _] & Hs2 & _ & Hr2 & _ & acks & Hq2 & Hf2).
  { split; [by rewrite Ha1|rewrite Hn1; lia]. } { by rewrite Hd1. } { lia. }
  cbn [exec_bind]. rewrite data_response_split.
  destruct (response_simple_ok sv2 (rx_interface req) rc (repeat 0 6) (le_put 4 (received r) ++ le_put 4 (crc r))) as (sv3 & -> & (Hd3 & Ha3 & _ & _ & Hr3 & _) & Hq3).
  { done. } { rewrite zlen_app, !zlen_le_put. specialize (Hc (allocs (sv_core sv2))). lia. }
  unfold rpc_command_runner_early_response. rewrite <- Hid.
  destruct (send_response_answers sv3 req (repeat 0 6) (le_put 2 rc) (le_put 4 (received r) ++ le_put 4 (crc r))
    (room (rx_interface req) (allocs (sv_core sv2)) - (8 + zlen (le_put 4 (received r) ++ le_put 4 (crc r)))) eq_refl) as (k & Hk & Ht & ->); [by rewrite zlen_le_put|].
  do 2 eexists. split; [reflexivity|]. split; [split; cbn; [by rewrite Ha3|by rewrite Hd3]|]. cbn. exists k. split; [|done].
  rewrite Hq3, Hq2, Hq1, !rsps_app. rewrite (acks_not_rsps acks Hf2). rewrite (acks_not_rsps [_]) by (by repeat constructor). cbn. rewrite !app_nil_r.
  by rewrite decide_True.
Qed.

Lemma field_range l off n : bytes_ok l -> 0 <= n -> 0 <= field l off n < 2 ^ (8 * n).
Proof.
  intros Hl Hn. unfold field. pose proof (le_get_bound (ztake n (zdrop off l)) (bytes_ok_ztake _ _ (bytes_ok_zdrop _ _ Hl))) as Hb.
  split; [lia|]. eapply Z.lt_le_trans; [apply Hb|]. apply Z.pow_le_mono_r; [lia|]. unfold ztake, zlen. rewrite length_take. lia.
Qed.

Lemma mem_read_ok mem auth : command_ok (mem_read_command mem auth).
Proof.
  intros sv req Hc [Hl Hs] Hn Hrs Hid Hb. cbn [mem_read_command cmd_run]. unfold rpc_command_mem_read.
  pose proof (field_range _ 6 4 Hb ltac:(lia)) as Hsz. fold (req_field stale req 6 4) in Hsz. fold (req_size stale req) in Hsz.
  destruct (mem_read_loop_ok mem req (req_request_id stale req) (S (Z.to_nat (req_size stale req))) (rpc_command_runner_request_unref sv) (req_field stale req 11 4)
    (req_size stale req) 0 0 (clock (allocs (sv_core sv))).1 0) as (chunks & ps & sv1 & -> & _ & Hq & _ & Hf & (Hd1 & Ha1 & _ & _ & Hr1 & _)); [|lia..|].
  { intros n. specialize (Hc n). lia. }
  cbn [exec_bind]. rewrite data_response_split. set (len := 0 + _). set (cr := crc32_ieee_update _ _).
  destruct (response_simple_ok sv1 (rx_interface req) 0 (repeat 0 6) (le_put 4 len ++ le_put 4 cr)) as (sv3 & -> & (Hd3 & Ha3 & _ & _ & Hr3 & _) & Hq3).
  { done. } { rewrite zlen_app, !zlen_le_put. specialize (Hc (allocs (sv_core sv1))). lia. }
  do 2 eexists. split; [reflexivity|]. split; [split; [by rewrite Ha3, Ha1|by rewrite Hd3, Hd1]|].
  split; [by rewrite Hr3, Hr1|]. split; [|cbn [tb_data]; rewrite !zlen_app, !zlen_le_put; change (zlen (repeat 0 6)) with 6; lia].
  rewrite Hq3, Hq, rsps_app, (rsps_none ps), app_nil_r; [done|]. eapply Forall_impl; [exact Hf|]. intros k [_ ->]. done.
Qed.

(** The answer of the runner to a request that no command took. *)
Lemma refuse_ok sv req rc :
  8 <= room (rx_interface req) (allocs (sv_core sv)) ->
  exists sv' k rc', (let '(b, sv) := alloc header_size footer_size max_packet_size (rpc_command_runner_request_unref (set_runner sv false false)) (rx_interface req) in
      if tb_room b =? 0 then Done sv
      else let! b := buf_add_mem b (repeat 0 6 ++ le_put 2 rc) in
        Done (send_response sv (rx_interface req) (rx_address req) (rx_auth (rx_meta req)) (rx_key_identifier (rx_meta req)) (req_request_id stale req) (req_command_id stale req) b)) = Done sv' /\
    sv_app sv' = sv_app sv /\ sv_data sv' = sv_data sv /\ queue sv' = queue sv ++ [k] /\ answers req k /\
    tp_data k = le_put 4 (req_request_id stale req) ++ le_put 2 (req_command_id stale req) ++ le_put 2 rc' /\ rc' = rc.
Proof.
  intros Hr. unfold alloc, epacket_alloc_tx_for_interface. cbn [tb_room]. rewrite (proj2 (Z.eqb_neq _ 0)) by (cbn in *; lia).
  rewrite buf_add_mem_ok by (rewrite zlen_app, zlen_le_put; change (zlen (repeat 0 6)) with 6; cbn in *; lia). cbn [exec_bind tb_data].
  unfold send_response. rewrite (app_nil_l (repeat 0 6 ++ _)), poke_head by done. do 3 eexists. split; [reflexivity|]. do 3 (split; [done|]).
  split; [|by rewrite <- app_assoc]. repeat split. exists (le_put 2 rc), []. by rewrite app_nil_r, <- app_assoc, zlen_le_put.
Qed.

(** Requests one after the other. *)
Fixpoint serve (commands : list rpc_command) sv (reqs : list rx_packet) : exec (server A) :=
  match reqs with
  | [] => Done sv
  | req :: reqs => let! sv := rpc_server_command header_size footer_size max_packet_size stale commands sv req in serve commands sv reqs
  end.

(** C13.  A server whose commands keep the contract answers every request exactly once, in
    order, to the sender and under the key of the request; and the commands that receive
    data and that read memory keep it.  The interfaces of the requests stay connected, with
    room for messages of 36 bytes, and the data packets that arrive have at least the 8
    bytes of their header (the length of the payload of a shorter one wraps around); what
    requests and data packets hold is arbitrary. *)
Theorem rpc_every_request_answered commands mem a1 a2 sv reqs :
  Forall command_ok commands -> server_ok sv -> Forall (fun req => connected (rx_interface req) /\ bytes_ok (rx_data req ++ stale req)) reqs ->
  exists sv' ks, serve (data_receiver_command a1 :: mem_read_command mem a2 :: commands) sv reqs = Done sv' /\
    rsps (queue sv') = rsps (queue sv) ++ ks /\ Forall2 answers reqs ks.
Proof.
  intros Hcs Hok Hreqs. assert (Hall : Forall command_ok (data_receiver_command a1 :: mem_read_command mem a2 :: commands)) by (repeat constructor; auto using data_receiver_ok, mem_read_ok).
  clear Hcs. revert sv Hok. induction Hreqs as [|req reqs [Hc Hb] _ IH]; intros sv Hok; cbn [serve].
  { exists sv, []. by rewrite app_nil_r. }
  destruct (runner_one_response _ sv req Hall Hc Hok Hb) as (sv1 & k & -> & Hok1 & Hq & Ha). cbn [exec_bind].
  destruct (IH sv1 Hok1) as (sv2 & ks & -> & Hq2 & Hf). exists sv2, (k :: ks). split; [done|]. split; [by rewrite Hq2, Hq, <- app_assoc|by constructor].
Qed.

(** C31.  A command below the authentication that its configuration requires, and a command
    that the build does not have, are refused: nothing of the application changes, and the
    answer holds only the error. *)
Theorem rpc_command_refused commands sv req :
  (forall i c, list_find (fun c : rpc_command => cmd_id c = req_command_id stale req) commands = Some (i, c) -> auth_level (rx_auth (rx_meta req)) < required_auth c) ->
  8 <= room (rx_interface req) (allocs (sv_core sv)) ->
  exists sv' k rc, rpc_command_runner header_size footer_size max_packet_size stale commands sv req = Done sv' /\ sv_app sv' = sv_app sv /\
    sv_data sv' = sv_data sv /\ queue sv' = queue sv ++ [k] /\ answers req k /\
    tp_data k = le_put 4 (req_request_id stale req) ++ le_put 2 (req_command_id stale req) ++ le_put 2 rc /\
    rc = match list_find (fun c : rpc_command => cmd_id c = req_command_id stale req) commands with Some _ => - EACCES | None => - ENOTSUP end.
Proof.
  intros Hc Hr. unfold rpc_command_runner, run_command. destruct (list_find _ commands) as [[i c]|] eqn:Hf.
  - unfold AUTHORISED. rewrite (proj2 (Z.leb_gt _ _)) by (by eapply Hc). cbn [exec_bind set_runner command_freed response_sent].
    by apply refuse_ok.
  - cbn [exec_bind set_runner command_freed response_sent]. by apply refuse_ok.
Qed.

(** ** Data in order *)

Definition carries_data (p : rx_packet) (id off : Z) (c : list Z) : Prop := rx_data p = le_put 4 id ++ le_put 4 off ++ c.

Lemma carries_header p id off c : carries_data p id off c -> in_u 32 id -> in_u 32 off ->
  data_request_id stale p = id /\ data_offset stale p = off /\ zlen (rx_data p) = 8 + zlen c /\ zdrop 8 (rx_data p) = c.
Proof.
  unfold carries_data, in_u. intros Hp Hid Hoff. unfold data_request_id, data_offset, data_header. rewrite Hp.
  assert (Hh : ztake sizeof_rpc_data ((le_put 4 id ++ le_put 4 off ++ c) ++ stale p) = le_put 4 id ++ le_put 4 off).
  { rewrite <- !app_assoc, (app_assoc (le_put 4 id)). apply ztake_app. done. }
  rewrite Hh. split; [by rewrite field_head, le_get_put_small by (done || (cbn; lia))|].
  split; [rewrite <- (app_nil_r (le_put 4 off)), (field_app (le_put 4 id)) by done; apply le_get_put_small; cbn; lia|].
  split; [rewrite !zlen_app, !zlen_le_put; lia|]. rewrite (app_assoc (le_put 4 id)). by apply zdrop_app.
Qed.

(** The next packet in order is taken, and counted unless it is the last. *)
Lemma receive_packet_data sv req p id exp period r off c :
  connected (rx_interface req) -> acks_ok sv -> carries_data p id off c -> in_u 32 id -> 0 <= off ->
  remaining r = exp - off -> off + zlen c <= exp < 2 ^ 32 -> 0 <= received r -> received r + zlen c < 2 ^ 32 ->
  exists sv', receive_packet sec header_size footer_size max_packet_size stale sv req p id exp period r =
      Done (inl (ReceiveState (exp - (off + zlen c)) (off + zlen c) (received r + zlen c) (crc32_ieee_update (crc r) c)), sv') /\
    acks_ok sv' /\ sv_data sv' = sv_data sv /\ sv_app sv' = sv_app sv /\
    exists acks, queue sv' = queue sv ++ acks /\
      (off + zlen c = exp -> acks = [] /\ data_packet_ack_counter sv' = data_packet_ack_counter sv) /\
      (off + zlen c < exp -> 1 <= period <= 8 -> data_packet_ack_counter sv < period ->
        data_packet_ack_counter sv' < period /\ data_packet_ack_counter sv' + period * zlen acks = data_packet_ack_counter sv + 1 /\
        Forall (fun k => tx_type (tp_meta k) = INFUSE_RPC_DATA_ACK /\ tp_dev k = rx_interface req /\ field (tp_data k) 0 4 = u32 id) acks).
Proof.
  intros Hc Ha Hp Hid Hoff Hrem Hexp Hrec Hrl. pose proof (zlen_nonneg c). destruct (carries_header p id off c Hp Hid) as (_ & Ho & Hz & Hd); [unfold in_u; lia|].
  unfold receive_packet, RPC_DATA_VAR_LEN, sizeof_rpc_data. rewrite Hz, Hd, Ho. replace (8 + zlen c - 8) with (zlen c) by lia. rewrite (uwrap_small 32 (zlen c)) by lia.
  rewrite Hrem, (proj2 (Z.ltb_ge _ _)), (proj2 (Z.ltb_ge _ _)) by lia. cbn [remaining]. rewrite (uwrap_small 32 (off + zlen c)), !uwrap_small by lia.
  destruct (Z.ltb_spec 0 (exp - (off + zlen c))) as [Hlt|Hge]; cbn [exec_bind].
  - destruct (ack_data_ok sv req id off period Hc Ha) as (sv' & -> & Ha' & H1 & _ & _ & H4 & acks & Hq & Hf & Hn). cbn [exec_bind].
    exists sv'. split; [done|]. do 3 (split; [done|]). exists acks. split; [done|]. split; [lia|]. intros _ Hper Hcn. destruct (Hn Hper Hcn) as (G1 & G2 & G3).
    split; [done|]. split; [done|]. apply Forall_and. split; [done|]. exact G3.
  - exists sv. split; [done|]. do 3 (split; [done|]). exists []. rewrite app_nil_r. split; [done|]. split; [done|]. lia.
Qed.

(** Packets in order, from an offset on. *)
Fixpoint in_order (id off : Z) (ps : list rx_packet) (chunks : list (list Z)) : Prop :=
  match ps, chunks with
  | [], [] => True
  | p :: ps, c :: cs => carries_data p id off c /\ c <> [] /\ in_order id (off + zlen c) ps cs
  | _, _ => False
  end.

Definition offsets_ok (unaligned : bool) (off : Z) (chunks : list (list Z)) : Prop :=
  unaligned = true \/ ((chunks <> [] -> off mod 4 = 0) /\ forall pre c rest, chunks = pre ++ c :: rest -> rest <> [] -> zlen c mod 4 = 0).

Lemma offsets_ok_cons un off c cs : offsets_ok un off (c :: cs) -> (un = true \/ off mod 4 = 0) /\ offsets_ok un (off + zlen c) cs.
Proof.
  intros [->|[Ho Hc]]; [by split; [left|left]|]. specialize (Ho ltac:(done)). split; [by right|]. right. split.
  - intros Hne. rewrite Zplus_mod, Ho, (Hc [] c cs eq_refl Hne). done.
  - intros pre c' rest -> Hr. by apply (Hc (c :: pre) c' rest).
Qed.

Lemma receive_loop_data req id exp period un rest : forall chunks ps fuel sv r off,
  connected (rx_interface req) -> acks_ok sv -> in_u 32 id -> 0 <= off -> off + zlen (mjoin chunks) = exp -> exp < 2 ^ 32 ->
  remaining r = exp - off -> received r = off -> in_order id off ps chunks -> offsets_ok un off chunks ->
  sv_data sv = (Some <$> ps) ++ rest -> (length ps < fuel)%nat ->
  exists sv', receive_loop sec header_size footer_size max_packet_size stale fuel sv req id exp period un r =
    Done (0, ReceiveState 0 (if decide (chunks = []) then expected_offset r else exp) exp (crc32_ieee_update (crc r) (mjoin chunks)), sv') /\
    sv_data sv' = rest /\ sv_app sv' = sv_app sv /\ acks_ok sv'.
Proof.
  induction chunks as [|c cs IH]; intros ps fuel sv r off Hc Ha Hid Hoff Hsum Hexp Hrem Hrec Hord Hal Hd Hf; (destruct fuel as [|fuel]; [lia|]); cbn [receive_loop].
  - destruct ps as [|p ps]; [|done]. change (zlen (mjoin [])) with 0 in Hsum. rewrite Hrem, (proj2 (Z.ltb_ge _ _)) by lia. cbn [negb].
    exists sv. split; [|by cbn in Hd]. change (mjoin (@nil (list Z))) with (@nil Z). rewrite crc32_nil. destruct r as [r1 r2 r3 r4]. cbn in *. do 3 f_equal. f_equal; lia.
  - destruct ps as [|p ps]; [done|]. destruct Hord as (Hp & Hne & Hord). change (mjoin (c :: cs)) with (c ++ mjoin cs) in *. rewrite zlen_app in Hsum.
    assert (0 < zlen c) by (destruct c; [done|rewrite zlen_cons; pose proof (zlen_nonneg c); lia]). pose proof (zlen_nonneg (mjoin cs)).
    rewrite Hrem, (proj2 (Z.ltb_lt _ _)) by lia. cbn [negb]. destruct (offsets_ok_cons _ _ _ _ Hal) as [Hal1 Hal2].
    destruct (carries_header p id off c Hp Hid) as (Hri & Ho & _ & _); [unfold in_u; lia|].
    assert (Hpull : (if un then rpc_server_pull_data_unaligned stale id (sv_data sv) else rpc_server_pull_data stale id (sv_data sv)) = (inl p, (Some <$> ps) ++ rest)).
    { rewrite Hd. unfold rpc_server_pull_data, rpc_server_pull_data_unaligned. cbn. rewrite Hri, Z.eqb_refl, Ho. cbn.
      destruct un; [done|]. destruct Hal1 as [?|Hal1]; [done|]. by rewrite Hal1. }
    rewrite Hpull. destruct (receive_packet_data (set_data sv ((Some <$> ps) ++ rest)) req p id exp period r off c Hc Ha Hp Hid Hoff Hrem)
      as (sv1 & -> & Ha1 & Hd1 & Happ & _); [lia..|]. cbn [exec_bind].
    destruct (IH ps fuel sv1 (ReceiveState (exp - (off + zlen c)) (off + zlen c) (received r + zlen c) (crc32_ieee_update (crc r) c)) (off + zlen c)) as (sv2 & -> & Hd2 & Ha2 & Hb2); [done|done|done|lia|lia|done|done|cbn; lia|done|done|done|cbn in Hf; lia|].
    exists sv2. split; [|split; [done|split; [by rewrite Ha2, Happ|done]]]. rewrite crc32_app. do 4 f_equal. repeat case_decide; try done. subst cs. cbn [expected_offset]. change (zlen (mjoin (@nil (list Z)))) with 0 in Hsum. lia.
Qed.

(** C32.  A transfer to [rpc_command_data_receiver] whose packets arrive in order, each with
    some data and without a gap, is received completely, whatever acknowledgement period
    was asked for: the command returns, takes exactly the packets of the transfer from the
    queue, and its last message is the answer, with the length of the data, its CRC and no
    error.  The interface stays connected, with room for messages of 36 bytes, the announced
    size is that of the data, and, unless the request allows unaligned offsets, every packet
    but the last carries a multiple of 4 bytes. *)
Theorem data_receiver_correct sv req ps chunks rest :
  connected (rx_interface req) -> length (data_packet_acks sv) = 8%nat -> in_u 32 (req_request_id stale req) ->
  req_size stale req = zlen (mjoin chunks) -> zlen (mjoin chunks) < 2 ^ 32 ->
  in_order (req_request_id stale req) 0 ps chunks -> offsets_ok (negb (req_field stale req 11 1 =? 0)) 0 chunks ->
  sv_data sv = (Some <$> ps) ++ rest ->
  exists sv' q k, rpc_command_data_receiver sec header_size footer_size max_packet_size stale sv req = Done (None, sv') /\
    queue sv' = q ++ [k] /\ sv_data sv' = rest /\ response_sent sv' = true /\
    tp_data k = le_put 4 (req_request_id stale req) ++ le_put 2 RPC_ID_DATA_RECEIVER ++ le_put 2 0 ++
      le_put 4 (zlen (mjoin chunks)) ++ le_put 4 (crc32_ieee_update 0 (mjoin chunks)).
Proof.
  intros Hc Hl Hid Hsz Hmax Hord Hal Hd. unfold rpc_command_data_receiver.
  destruct (send_ack_ok (rpc_command_runner_request_unref sv) req (req_request_id stale req) 0 Hc Hl) as (sv1 & Hack & _ & Hn1 & Ha1 & Hd1 & _); [lia|].
  unfold rpc_server_ack_data_ready. rewrite Hack. cbn [exec_bind]. rewrite Hsz. pose proof (zlen_nonneg (mjoin chunks)).
  destruct (receive_loop_data req (req_request_id stale req) (zlen (mjoin chunks)) (req_ack_period stale req) (negb (req_field stale req 11 1 =? 0)) rest chunks ps
    (S (S (length (sv_data sv1)))) sv1 (ReceiveState (zlen (mjoin chunks)) 0 0 0) 0) as (sv2 & -> & Hd2 & _); try done; try (cbn; lia).
  { split; [by rewrite Ha1|rewrite Hn1; lia]. } { by rewrite Hd1. } { rewrite Hd1. cbn. rewrite Hd, length_app, length_fmap. lia. }
  cbn [exec_bind received crc]. rewrite data_response_split.
  destruct (response_simple_ok sv2 (rx_interface req) 0 (repeat 0 6) (le_put 4 (zlen (mjoin chunks)) ++ le_put 4 (crc32_ieee_update 0 (mjoin chunks)))) as (sv3 & -> & (Hd3 & _) & Hq3).
  { done. } { rewrite zlen_app, !zlen_le_put. specialize (Hc (allocs (sv_core sv2))). lia. }
  unfold rpc_command_runner_early_response, send_response. rewrite poke_head by done. do 3 eexists. split; [reflexivity|]. cbn. split; [reflexivity|].
  split; [by rewrite Hd3|]. split; [done|]. reflexivity.
Qed.

(** ** A connection that is lost *)



End props.

(** ** Instances *)

(** A checksum that can be computed piece by piece. *)
#[export] Instance sum_crc32 : Crc32.
Proof.
  refine {| crc32_ieee_update := foldl (fun c b => u32 (31 * c + b)) |}; [done|].
  intros c l k. apply foldl_app.
Defined.

Definition demo_stale (_ : rx_packet) : list Z := [].
Definition demo_clock (_ : nat) : Z * Z := (0, 0).
Definition demo_request (auth : epacket_auth) (data : list Z) : rx_packet :=
  RxPacket (RxMeta 0x1122 1400000000 0x222222 auth INFUSE_RPC_CMD 0 9) EPACKET_INTERFACE_SERIAL [1; 2; 3; 4; 5; 6; 7] (-71) data.
Definition demo_data (id off : Z) (l : list Z) : rx_packet := demo_request EPACKET_AUTH_NETWORK (le_put 4 id ++ le_put 4 off ++ l).
Definition demo_server (s : list (option rx_packet)) : server unit := Server demo_core s (repeat 0 8) 0 false false tt.

(** A request for 12 bytes, acknowledged every packet. *)
Definition demo_receive : rx_packet :=
  demo_request EPACKET_AUTH_NETWORK (le_put 4 77 ++ le_put 2 RPC_ID_DATA_RECEIVER ++ le_put 4 12 ++ [1; 0; 0]).
Definition demo_stream : list rx_packet := [demo_data 77 0 [1; 2; 3; 4]; demo_data 77 4 [5; 6; 7; 8]; demo_data 77 8 [9; 10; 11; 12]].

Definition demo_commands : list (@rpc_command unit) :=
  [data_receiver_command demo_sec demo_header demo_footer demo_size demo_stale 1;
   mem_read_command demo_sec demo_header demo_footer demo_size demo_stale 1000 demo_clock (fun a => a mod 256) 2].

Lemma rpc_every_request_answered_witness :
  let reqs := [demo_receive; demo_request EPACKET_AUTH_NETWORK (repeat 9 8)] in
  exists sv' ks, serve demo_header demo_footer demo_size demo_stale demo_commands (demo_server (Some <$> demo_stream)) reqs = Done sv' /\
    rsps (tx_queue (sv_core sv')) = [] ++ ks /\ Forall2 (answers demo_stale) reqs ks.
Proof.
  apply (rpc_every_request_answered demo_sec demo_header demo_footer demo_size demo_stale 1000 demo_clock [] (fun a => a mod 256) 1 2 (demo_server (Some <$> demo_stream))).
  - constructor.
  - split; [reflexivity|]. repeat constructor; vm_compute; discriminate.
  - repeat constructor; try (intros n; vm_compute; discriminate); vm_compute; intuition discriminate.
Defined.

Lemma rpc_command_refused_witness :
  let req := demo_request EPACKET_AUTH_NETWORK (le_put 4 5 ++ le_put 2 RPC_ID_MEM_READ) in
  exists sv' k rc, rpc_command_runner demo_header demo_footer demo_size demo_stale demo_commands (demo_server []) req = Done sv' /\ rc = - EACCES /\
    tx_queue (sv_core sv') = [] ++ [k] /\ tp_data k = le_put 4 5 ++ le_put 2 RPC_ID_MEM_READ ++ le_put 2 rc.
Proof.
  destruct (rpc_command_refused demo_header demo_footer demo_size demo_stale demo_commands (demo_server [])
    (demo_request EPACKET_AUTH_NETWORK (le_put 4 5 ++ le_put 2 RPC_ID_MEM_READ))) as (sv' & k & rc & R & _ & _ & Hq & _ & Hd & Hrc).
  - intros i c Hf. apply list_find_Some in Hf as (Hl & Hid & _).
    destruct i as [|[|i]]; cbn [demo_commands lookup list_lookup] in Hl; [|injection Hl as <-; reflexivity|done].
    injection Hl as <-. cbn [cmd_id data_receiver_command] in Hid. vm_compute in Hid. discriminate.
  - vm_compute. discriminate.
  - exists sv', k, rc. split; [exact R|]. split; [exact Hrc|]. split; [exact Hq|exact Hd].
Defined.

Lemma data_receiver_correct_witness :
  exists sv' q k, rpc_command_data_receiver demo_sec demo_header demo_footer demo_size demo_stale (demo_server (Some <$> demo_stream)) demo_receive = Done (None, sv') /\
    tx_queue (sv_core sv') = q ++ [k] /\
    tp_data k = le_put 4 77 ++ le_put 2 RPC_ID_DATA_RECEIVER ++ le_put 2 0 ++ le_put 4 12 ++ le_put 4 (crc32_ieee_update 0 [1; 2; 3; 4; 5; 6; 7; 8; 9; 10; 11; 12]).
Proof.
  destruct (data_receiver_correct demo_sec demo_header demo_footer demo_size demo_stale (demo_server (Some <$> demo_stream)) demo_receive demo_stream
    [[1; 2; 3; 4]; [5; 6; 7; 8]; [9; 10; 11; 12]] []) as (sv' & q & k & R & Hq & _ & _ & Hk).
  - intros n. vm_compute. discriminate.
  - reflexivity.
  - vm_compute. intuition discriminate.
  - reflexivity.
  - vm_compute. reflexivity.
  - repeat split; discriminate.
  - right. split; [reflexivity|]. intros pre c rest E _.
    assert (Hin : c ∈ [[1; 2; 3; 4]; [5; 6; 7; 8]; [9; 10; 11; 12]]) by (rewrite E; apply elem_of_app; right; left).
    repeat (apply elem_of_cons in Hin as [->|Hin]; [reflexivity|]). by apply elem_of_nil in Hin.
  - reflexivity.
  - exists sv', q, k. split; [exact R|]. split; [exact Hq|exact Hk].
Defined.

