(* ===== verification/RpcClient.v ===== *)
(** * RPC client

    [subsys/rpc/client.c]: commands in flight, their responses, acknowledgements and
    timeouts, and the upload of data in packets that wait for acknowledgements.  Each
    command's callback runs once; a timeout that interrupts the handling of its response
    makes it run twice, as does a packet for request 0. *)

From stdpp Require Import base tactics numbers list.
From Stdlib Require Import ZArith Lia.
From S2P Require Import Prelude EPacketKeys EPacketCrypt EPacketCore EPacketCoreProps RpcServer.

Local Open Scope Z_scope.
Local Open Scope infuse_scope.

(** Counting semaphores. *)
Definition k_sem_give (limit count : Z) : Z := Z.min (count + 1) limit.

(** [struct rpc_client_cmd_ctx]; [ctx_cb] identifies the callback with its user data
    ([None]: NULL); [ctx_timer] is the duration a running timer was started with. *)
Record rpc_client_cmd_ctx := CmdCtx {
  ctx_request_id : Z;
  ctx_command_id : Z;
  ctx_cb : option nat;
  ctx_timer : option Z;
  ctx_rsp_timeout : Z;
  ctx_tx_tokens : Z;
  ctx_tokens_on_ack : Z;
  ctx_tx_result : Z;
}.

(** [struct rpc_client_ctx], the core that sends, and the callbacks that have run, with
    the response ([None]: NULL). *)
Record rpc_client := RpcClient {
  cl_interface : option Z;
  cl_address : list Z;
  cl_request_id : Z;
  cmd_ctx : list rpc_client_cmd_ctx;
  cmd_ctx_sem : Z;
  cl_core : core_state;
  cl_log : list (nat * option (list Z));
}.

Definition set_ctx (cl : rpc_client) (i : nat) (c : rpc_client_cmd_ctx) : rpc_client :=
  RpcClient (cl_interface cl) (cl_address cl) (cl_request_id cl) (<[i := c]> (cmd_ctx cl)) (cmd_ctx_sem cl) (cl_core cl) (cl_log cl).
Definition set_client_core (cl : rpc_client) (st : core_state) : rpc_client :=
  RpcClient (cl_interface cl) (cl_address cl) (cl_request_id cl) (cmd_ctx cl) (cmd_ctx_sem cl) st (cl_log cl).

Definition with_timer (c : rpc_client_cmd_ctx) (t : option Z) : rpc_client_cmd_ctx :=
  CmdCtx (ctx_request_id c) (ctx_command_id c) (ctx_cb c) t (ctx_rsp_timeout c) (ctx_tx_tokens c) (ctx_tokens_on_ack c) (ctx_tx_result c).
Definition with_tokens (c : rpc_client_cmd_ctx) (n : Z) : rpc_client_cmd_ctx :=
  CmdCtx (ctx_request_id c) (ctx_command_id c) (ctx_cb c) (ctx_timer c) (ctx_rsp_timeout c) n (ctx_tokens_on_ack c) (ctx_tx_result c).

Definition find_cmd_ctx (cl : rpc_client) (request_id : Z) : option (nat * rpc_client_cmd_ctx) :=
  list_find (fun c => ctx_request_id c = request_id) (cmd_ctx cl).

(** [run_callback] up to the release of the context: the context it found. *)
Definition run_callback_find (cl : rpc_client) (command_id request_id : Z) : option nat :=
  match find_cmd_ctx cl request_id with
  | None => None
  | Some (i, c) => if negb (command_id =? ctx_command_id c) then None else Some i
  end.

(** From [k_timer_stop] on. *)
Definition run_callback_finish (cl : rpc_client) (i : nat) (buf : option (list Z)) : exec rpc_client :=
  match cmd_ctx cl !! i with
  | None => Fault
  | Some c =>
      let c' := CmdCtx 0 (ctx_command_id c) (ctx_cb c) None (ctx_rsp_timeout c) (k_sem_give UINT32_MAX (ctx_tx_tokens c)) (ctx_tokens_on_ack c) (ctx_tx_result c) in
      match ctx_cb c with
      | None => Fault (* a call of NULL *)
      | Some fn =>
          Done (RpcClient (cl_interface cl) (cl_address cl) (cl_request_id cl) (<[i := c']> (cmd_ctx cl))
                  (k_sem_give (zlen (cmd_ctx cl)) (cmd_ctx_sem cl)) (cl_core cl) (cl_log cl ++ [(fn, buf)]))
      end
  end.

Definition run_callback (cl : rpc_client) (buf : option (list Z)) (command_id request_id : Z) : exec rpc_client :=
  match run_callback_find cl command_id request_id with
  | None => Done cl
  | Some i => run_callback_finish cl i buf
  end.

(** The timer of context [i] expires. *)
Definition command_timeout (cl : rpc_client) (i : nat) : exec rpc_client :=
  match cmd_ctx cl !! i with
  | None => Done cl
  | Some c => run_callback (set_ctx cl i (with_timer c None)) None (ctx_command_id c) (ctx_request_id c)
  end.

(** [n] calls of [k_sem_give]. *)
Definition give_tokens (n count : Z) : Z := Nat.iter (Z.to_nat n) (k_sem_give UINT32_MAX) count.

(** [allow_default]: [CONFIG_INFUSE_RPC_CLIENT_ALLOW_DEFAULT_HANDLER]; [stale]: the bytes
    behind the packet, read of a packet shorter than its header. *)
Definition packet_received (allow_default : bool) (stale : list Z) (cl : rpc_client) (type : Z) (data : list Z) (decrypted : bool) : exec (bool * rpc_client) :=
  if negb decrypted then Done (true, cl)
  else
    let request_id := field (data ++ stale) 0 4 in
    if type =? INFUSE_RPC_DATA_ACK then
      match find_cmd_ctx cl request_id with
      | None => Done (true, cl)
      | Some (i, c) =>
          let c := with_timer c (Some (ctx_rsp_timeout c)) in
          Done (allow_default, set_ctx cl i (with_tokens c (give_tokens (ctx_tokens_on_ack c) (ctx_tx_tokens c))))
      end
    else if type =? INFUSE_RPC_RSP then
      match find_cmd_ctx cl request_id with
      | None => Done (true, cl)
      | Some _ => let! cl := run_callback cl (Some data) (field (data ++ stale) 4 2) request_id in Done (allow_default, cl)
      end
    else Done (allow_default, cl).

(** [rand] is [sys_rand32_get]; [n] is [CONFIG_INFUSE_RPC_CLIENT_MAX_IN_FLIGHT]. *)
Definition rpc_client_init (n : nat) (dev : Z) (address : list Z) (rand : Z) (st : core_state) : rpc_client :=
  RpcClient (Some dev) address rand (repeat (CmdCtx 0 0 None None 0 0 0 0) n) (Z.of_nat n) st [].

Definition rpc_client_update_response_timeout (cl : rpc_client) (request_id timeout : Z) : Z * rpc_client :=
  match find_cmd_ctx cl request_id with
  | None => (- EINVAL, cl)
  | Some (i, c) =>
      (0, set_ctx cl i (CmdCtx (ctx_request_id c) (ctx_command_id c) (ctx_cb c) (Some timeout) timeout (ctx_tx_tokens c) (ctx_tokens_on_ack c) (ctx_tx_result c)))
  end.

Definition command_tx_done_cb (cl : rpc_client) (i : nat) (result : Z) : rpc_client :=
  match cmd_ctx cl !! i with
  | None => cl
  | Some c => set_ctx cl i (CmdCtx (ctx_request_id c) (ctx_command_id c) (ctx_cb c) (ctx_timer c) (ctx_rsp_timeout c)
                              (k_sem_give UINT32_MAX (ctx_tx_tokens c)) (ctx_tokens_on_ack c) (s16 result))
  end.

Section client.
Context (sec : security) (header_size footer_size : Z -> Z) (max_packet_size : Z -> nat -> Z).

Definition next_request_id (id : Z) : Z := let id := u32 (id + 1) in if id =? 0 then u32 (id + 1) else id.

(** Up to the wait for the transmission: the context, or the error.  [req_params] begins
    with the request header; without a free context the wait for one times out. *)
Definition rpc_client_command_queue (cl : rpc_client) (cmd : Z) (req_params : option (list Z)) (cb : option nat) (response_timeout : Z)
  : exec ((nat + Z) * rpc_client) :=
  match cl_interface cl with
  | None => Fault (* __ASSERT_NO_MSG *)
  | Some dev =>
      match req_params, cb with
      | Some params, Some fn =>
          if response_timeout =? 0 then Done (inr (- EINVAL), cl)
          else if cmd_ctx_sem cl =? 0 then Done (inr (- EAGAIN), cl)
          else
            match find_cmd_ctx cl 0 with
            | None => Fault (* __ASSERT_NO_MSG *)
            | Some (i, c) =>
                let id := next_request_id (cl_request_id cl) in
                let '(b, st) := epacket_alloc_tx_for_interface header_size footer_size max_packet_size (cl_core cl) dev in
                let c := CmdCtx id (u16 cmd) (Some fn) (Some response_timeout) response_timeout 0 1 (ctx_tx_result c) in
                let! b := buf_add_mem b (zwrite 0 (le_put 4 id ++ le_put 2 cmd) params) in
                let meta := epacket_set_tx_metadata sec st EPACKET_AUTH_NETWORK 0 INFUSE_RPC_CMD in
                Done (inl i, RpcClient (Some dev) (cl_address cl) id (<[i := c]> (cmd_ctx cl)) (cmd_ctx_sem cl - 1)
                               (epacket_queue st (TxPacket dev (cl_address cl) meta (tb_data b))) (cl_log cl))
            end
      | _, _ => Done (inr (- EINVAL), cl)
      end
  end.

(** The wait: the result of the transmission, if it is known within a second. *)
Definition rpc_client_command_wait (cl : rpc_client) (i : nat) : Z * rpc_client :=
  match cmd_ctx cl !! i with
  | None => (- EAGAIN, cl)
  | Some c => if 0 <? ctx_tx_tokens c then (ctx_tx_result c, set_ctx cl i (with_tokens c (ctx_tx_tokens c - 1))) else (- EAGAIN, cl)
  end.

(** Without a token, the wait times out. *)
Definition rpc_client_ack_wait (cl : rpc_client) (request_id : Z) : Z * rpc_client :=
  match find_cmd_ctx cl request_id with
  | None => (- EINVAL, cl)
  | Some (i, c) => if 0 <? ctx_tx_tokens c then (0, set_ctx cl i (with_tokens c (ctx_tx_tokens c - 1))) else (- EAGAIN, cl)
  end.

Definition rpc_client_cleanup (cl : rpc_client) : rpc_client :=
  RpcClient None (cl_address cl) (cl_request_id cl)
    ((fun c => if ctx_request_id c =? 0 then c else with_timer c None) <$> cmd_ctx cl) (cmd_ctx_sem cl) (cl_core cl)
    (cl_log cl ++ ((fun fn => (fn, None)) <$> omap ctx_cb (filter (fun c => ctx_request_id c <> 0) (cmd_ctx cl)))).

(** ** Uploading data *)

(** [struct rpc_client_auto_load_params]; the loader gives a result and the bytes it put
    into the buffer. *)
Record auto_load_params := AutoLoad {
  al_loader : Z -> Z -> Z * list Z;
  total_len : Z;
  ack_period : Z;
  pipelining : Z;
}.

(** The variables of the loop. *)
Record load_state := LoadState {
  ld_offset : Z;
  ld_data_len : Z;
  buffer_remaining : Z;
  bytes_offset : Z;
  ld_buffer : list Z;
  data_buf : option tx_buf;
  ld_limit_tx : Z;
  ld_add : Z;
}.

(** [rpc_client_data_queue] calls it without parameters. *)
Definition load_params (buffer : list Z) (p : option auto_load_params) : auto_load_params :=
  match p with Some p => p | None => AutoLoad (fun _ _ => (0, [])) (zlen buffer) 0 1 end.

(** Up to the loop. *)
Definition load_start (cl : rpc_client) (request_id offset limit_tx : Z) (buffer : list Z) (params : option auto_load_params) : (load_state + Z) * rpc_client :=
  match find_cmd_ctx cl request_id with
  | None => (inr (- EINVAL), cl)
  | Some (i, c) =>
      if negb (offset mod 4 =? 0) then (inr (- EINVAL), cl)
      else
        let p := load_params buffer params in
        let on_ack := if negb (ack_period p =? 0) then ack_period p else ctx_tokens_on_ack c in
        let start_tokens := if 1 <? pipelining p then on_ack * pipelining p else on_ack in
        let c := CmdCtx (ctx_request_id c) (ctx_command_id c) (ctx_cb c) (ctx_timer c) (ctx_rsp_timeout c) (give_tokens start_tokens 0) on_ack (ctx_tx_result c) in
        (inl (LoadState offset (total_len p) (match params with None => zlen buffer | Some _ => 0 end) 0 buffer None limit_tx 0), set_ctx cl i c)
  end.

Context (ticks_per_sec : Z) (clock : nat -> Z * Z).

(** The end of the loop with a result, or one pass done. *)
Inductive load_result := LoadReturn (rc : Z) | LoadNext (ld : load_state).

(** The packet to fill, with its header. *)
Definition load_packet (cl : rpc_client) (dev request_id : Z) (p : auto_load_params) (ld : load_state) : exec (option (tx_buf * Z) * Z * rpc_client) :=
  match data_buf ld with
  | Some b => Done (Some (b, ld_limit_tx ld), 0, cl)
  | None =>
      let '(rc, cl) := if negb (ack_period p =? 0) then rpc_client_ack_wait cl request_id else (0, cl) in
      if negb (rc =? 0) then Done (None, rc, cl)
      else
        let '(now, later) := clock (allocs (cl_core cl)) in
        let '(st, limit_tx, _, _) := epacket_rate_limit_tx ticks_per_sec (cl_core cl) (ld_limit_tx ld) now later (ld_add ld) in
        let '(b, st) := epacket_alloc_tx_for_interface header_size footer_size max_packet_size st dev in
        let! b := buf_add_mem b (le_put 4 request_id ++ le_put 4 (ld_offset ld)) in
        Done (Some (b, limit_tx), 0, set_client_core cl st)
  end.

(** One pass of the loop; a wait without a token times out. *)
Definition load_step (cl : rpc_client) (request_id : Z) (p : auto_load_params) (ld : load_state) : exec (load_result * rpc_client) :=
  if ld_data_len ld =? 0 then Done (LoadReturn 0, cl)
  else if negb (ld_offset ld mod 4 =? 0) then Fault (* __ASSERT_NO_MSG *)
  else
    match cl_interface cl with
    | None => Fault
    | Some dev =>
        let '(rc, buffer_remaining, bytes_offset, buffer) :=
          if buffer_remaining ld =? 0 then
            let n := Z.min (zlen (ld_buffer ld)) (ld_data_len ld) in
            let '(rc, bs) := al_loader p (ld_offset ld) n in (rc, n, 0, zwrite 0 (ztake n bs) (ld_buffer ld))
          else (0, buffer_remaining ld, bytes_offset ld, ld_buffer ld) in
        if rc <? 0 then Done (LoadReturn rc, cl)
        else
          let! (bl, rc, cl') := load_packet cl dev request_id p ld in
          match bl with
          | None => Done (LoadReturn rc, cl)
          | Some (b, limit_tx) =>
              let tail := tb_room b - tb_room b mod 4 in
              let add := Z.min tail buffer_remaining in
              let! b := buf_add_mem b (ztake add (zdrop bytes_offset buffer)) in
              let sent := (tb_room b <? 4) || (add =? ld_data_len ld) in
              let meta := epacket_set_tx_metadata sec (cl_core cl') EPACKET_AUTH_NETWORK 0 INFUSE_RPC_DATA in
              let cl' := if sent then set_client_core cl' (epacket_queue (cl_core cl') (TxPacket dev (cl_address cl) meta (tb_data b))) else cl' in
              Done (LoadNext (LoadState (u32 (ld_offset ld + add)) (u32 (ld_data_len ld - add)) (buffer_remaining - add) (bytes_offset + add) buffer
                      (if sent then None else Some b) limit_tx add), cl')
          end
    end.

(** Once all data is queued, the loop ends: every pass queues some. *)
Fixpoint load_loop (fuel : nat) (cl : rpc_client) (request_id : Z) (p : auto_load_params) (ld : load_state) : exec (Z * rpc_client) :=
  match fuel with
  | O => NoFuel
  | S fuel =>
      let! (r, cl) := load_step cl request_id p ld in
      match r with LoadReturn rc => Done (rc, cl) | LoadNext ld => load_loop fuel cl request_id p ld end
  end.

(** [now] is the uptime at the call. *)
Definition rpc_client_data_queue_auto_load (fuel : nat) (cl : rpc_client) (request_id offset now : Z) (buffer : list Z) (params : option auto_load_params)
  : exec (Z * rpc_client) :=
  match load_start cl request_id offset now buffer params with
  | (inr rc, cl) => Done (rc, cl)
  | (inl ld, cl) => load_loop fuel cl request_id (load_params buffer params) ld
  end.

Definition rpc_client_data_queue (fuel : nat) (cl : rpc_client) (request_id offset now : Z) (data : list Z) : exec (Z * rpc_client) :=
  rpc_client_data_queue_auto_load fuel cl request_id offset now data None.

End client.

(** [rpc_client_command_sync] after [rpc_client_command_queue] returned [rc]; the callback
    [fn] is [client_sync_handler] with the [sync] object of this call.  [None]: it waits. *)
Definition rpc_client_command_sync (cl : rpc_client) (rc : Z) (fn : nat) : option (Z * option (list Z)) :=
  if negb (rc =? 0) then Some (rc, None)
  else
    match list_find (fun e => e.1 = fn) (cl_log cl) with
    | None => None
    | Some (_, (_, rsp)) => Some (match rsp with None => - ETIMEDOUT | Some _ => 0 end, rsp)
    end.
