(* ===== verification/RpcClientProps.v ===== *)
(** * RPC client: properties

    Over every sequence of calls, packets, timeouts and transmissions, each command's
    callback runs exactly once and gets the response to its own request, as long as no
    packet carries the request identifier 0 and no timeout interrupts the handling of a
    response; what happens in these two cases is proved too. *)

From stdpp Require Import base tactics numbers list relations.
From Stdlib Require Import ZArith Lia.
From S2P Require Import Prelude EPacketKeys EPacketCrypt EPacketCryptProps EPacketCore EPacketCoreProps RpcServer RpcClient.

Local Open Scope Z_scope.
Local Open Scope infuse_scope.



Definition free_ctxs (l : list rpc_client_cmd_ctx) : list rpc_client_cmd_ctx := filter (fun c => ctx_request_id c = 0) l.



Lemma insert_perm {X} (l : list X) i x y : l !! i = Some x -> <[i := y]> l ≡ₚ y :: delete i l.
Proof.
  revert i. induction l as [|z l IH]; intros [|i] E; cbn in *; simplify_eq; [done|].
  rewrite (IH i E). apply Permutation_swap.
Qed.



Definition is_free (c : rpc_client_cmd_ctx) : Z := if decide (ctx_request_id c = 0) then 1 else 0.

Lemma zlen_free_cons c l : zlen (free_ctxs (c :: l)) = is_free c + zlen (free_ctxs l).
Proof. unfold free_ctxs, is_free, zlen. rewrite filter_cons. case_decide; cbn [length]; lia. Qed.

Lemma zlen_free_perm l k : l ≡ₚ k -> zlen (free_ctxs l) = zlen (free_ctxs k).
Proof. intros E. unfold zlen, free_ctxs. by rewrite E. Qed.

Lemma free_insert l i c c' : l !! i = Some c ->
  zlen (free_ctxs (<[i := c']> l)) = zlen (free_ctxs l) - is_free c + is_free c'.
Proof.
  intros E. rewrite (zlen_free_perm _ _ (insert_perm l i c c' E)), (zlen_free_perm _ _ (delete_Permutation l i c E)), !zlen_free_cons. lia.
Qed.


Lemma find_cmd_ctx_lookup cl id i c : find_cmd_ctx cl id = Some (i, c) -> cmd_ctx cl !! i = Some c /\ ctx_request_id c = id.
Proof. unfold find_cmd_ctx. intros (E1 & E2 & _)%list_find_Some. done. Qed.


Section props.
Context (sec : security) (header_size footer_size : Z -> Z) (max_packet_size : Z -> nat -> Z).
Context (ticks_per_sec : Z) (clock : nat -> Z * Z) (allow_default : bool) (stale : list Z).























(** A timer that expires after [run_callback] has found the context of a response, and
    before it stops the timer, runs the callback, and then the callback runs again with
    the response; the semaphore then counts a context more than are free. *)
Theorem client_timeout_race cl i c fn data command_id request_id :
  find_cmd_ctx cl request_id = Some (i, c) -> command_id = ctx_command_id c -> request_id <> 0 -> ctx_cb c = Some fn ->
  cmd_ctx_sem cl = zlen (free_ctxs (cmd_ctx cl)) -> cmd_ctx_sem cl + 2 <= zlen (cmd_ctx cl) ->
  exists cl1 cl2, run_callback_find cl command_id request_id = Some i /\ command_timeout cl i = Done cl1 /\
    run_callback_finish cl1 i (Some data) = Done cl2 /\
    cl_log cl2 = cl_log cl ++ [(fn, None); (fn, Some data)] /\ cmd_ctx_sem cl2 = zlen (free_ctxs (cmd_ctx cl2)) + 1.
Proof.
  intros Ef -> N Hfn Hs Hl. pose proof Ef as [E E0]%find_cmd_ctx_lookup.
  assert (Lt : (i < length (cmd_ctx cl))%nat) by (by eapply lookup_lt_Some).
  assert (Ff : find_cmd_ctx (set_ctx cl i (with_timer c None)) request_id = Some (i, with_timer c None)).
  { unfold find_cmd_ctx in *. cbn. apply list_find_Some in Ef as (_ & _ & Hn). apply list_find_Some. split; [by apply list_lookup_insert_eq|].
    split; [done|]. intros j y Hj Lj. rewrite list_lookup_insert_ne in Hj by lia. by apply (Hn j). }
  assert (Ht : exists cl1, command_timeout cl i = Done cl1 /\ cl_log cl1 = cl_log cl ++ [(fn, None)] /\ cmd_ctx_sem cl1 = cmd_ctx_sem cl + 1 /\
    exists c1, cmd_ctx cl1 = <[i := c1]> (cmd_ctx cl) /\ ctx_request_id c1 = 0 /\ ctx_cb c1 = Some fn).
  { unfold command_timeout. rewrite E. unfold run_callback, run_callback_find. rewrite E0, Ff. cbn [ctx_command_id with_timer].
    rewrite Z.eqb_refl. cbn [negb]. unfold run_callback_finish. cbn [cmd_ctx set_ctx]. rewrite list_lookup_insert_eq by done.
    cbn [ctx_cb with_timer]. rewrite Hfn. eexists. split; [done|]. cbn. split; [done|]. split.
    - unfold k_sem_give, zlen in *. rewrite length_insert. lia.
    - eexists. by rewrite list_insert_insert_eq. }
  destruct Ht as (cl1 & R1 & L1 & S1 & c1 & C1 & Z1 & F1).
  assert (E1 : cmd_ctx cl1 !! i = Some c1) by (rewrite C1; by apply list_lookup_insert_eq).
  exists cl1. unfold run_callback_finish. rewrite E1, F1. eexists. split; [|split; [done|split; [done|]]].
  - unfold run_callback_find. by rewrite Ef, Z.eqb_refl.
  - cbn [cl_log cmd_ctx_sem cmd_ctx]. rewrite L1, <- app_assoc. split; [done|].
    rewrite (free_insert _ i c1 _ E1), C1, (free_insert _ i c c1 E), S1. unfold k_sem_give, is_free. cbn [ctx_request_id].
    rewrite Z1, E0. rewrite (decide_True (P := 0 = 0)), (decide_False (P := request_id = 0)) by done. unfold zlen in *. rewrite length_insert. lia.
Qed.

(** No context has request identifier 0 when it is in use, and the search for a packet
    does not exclude it: an authenticated response with identifier 0 finds the first free
    context.  It runs the callback of the command that finished there once more, and
    calls NULL if the context has never been used. *)
Theorem client_zero_request_id cl i c data :
  find_cmd_ctx cl 0 = Some (i, c) -> field (data ++ stale) 0 4 = 0 -> field (data ++ stale) 4 2 = ctx_command_id c ->
  match ctx_cb c with
  | None => packet_received allow_default stale cl INFUSE_RPC_RSP data true = Fault
  | Some fn => exists cl', packet_received allow_default stale cl INFUSE_RPC_RSP data true = Done (allow_default, cl') /\
                 cl_log cl' = cl_log cl ++ [(fn, Some data)]
  end.
Proof.
  intros Ef E0 E1. pose proof Ef as [E _]%find_cmd_ctx_lookup. unfold packet_received. cbn [negb]. rewrite E0, E1. cbn [Z.eqb INFUSE_RPC_RSP INFUSE_RPC_DATA_ACK Pos.eqb].
  rewrite Ef. unfold run_callback, run_callback_find. rewrite Ef, Z.eqb_refl. cbn [negb]. unfold run_callback_finish. rewrite E.
  destruct (ctx_cb c) as [fn|]; cbn; eauto.
Qed.

(** A synchronous command whose transmission fails returns the error while its
    context is still in flight with the callback and the [sync] object of the call that
    has returned; the response timeout then runs that callback. *)
Theorem client_sync_dangling cl cmd params fn timeout i cl1 result :
  rpc_client_command_queue sec header_size footer_size max_packet_size cl cmd params (Some fn) timeout = Done (inl i, cl1) ->
  find_cmd_ctx cl (next_request_id (cl_request_id cl)) = None -> - 2 ^ 15 <= result < 0 ->
  let '(rc, cl2) := rpc_client_command_wait (command_tx_done_cb cl1 i result) i in
  rpc_client_command_sync cl2 rc fn = Some (result, None) /\
  exists cl3, command_timeout cl2 i = Done cl3 /\ cl_log cl3 = cl_log cl ++ [(fn, None)].
Proof.
  intros R Hn Hr. unfold rpc_client_command_queue in R. destruct (cl_interface cl) as [dev|]; [|done]. destruct params as [params|]; [|done].
  destruct (timeout =? 0); [done|]. destruct (cmd_ctx_sem cl =? 0); [done|].
  destruct (find_cmd_ctx cl 0) as [[j c]|] eqn:Ef; [|done]. apply find_cmd_ctx_lookup in Ef as [E E0].
  destruct (epacket_alloc_tx_for_interface _ _ _ _ _) as [b st]. destruct (buf_add_mem _ _) as [b'| |]; [|done..].
  cbn [exec_bind] in R. injection R as <- <-. assert (Lt : (j < length (cmd_ctx cl))%nat) by (by eapply lookup_lt_Some).
  set (id := next_request_id (cl_request_id cl)) in *.
  assert (Es : s16 result = result) by (apply swrap_small; [lia|unfold in_s; lia]).
  unfold command_tx_done_cb. cbn [cmd_ctx]. rewrite list_lookup_insert_eq by done.
  unfold rpc_client_command_wait. cbn [cmd_ctx set_ctx]. rewrite list_insert_insert_eq, list_lookup_insert_eq by done.
  cbn [ctx_tx_tokens ctx_tx_result]. rewrite Es. change (0 <? k_sem_give UINT32_MAX 0) with true. cbv iota.
  split; [unfold rpc_client_command_sync; destruct (Z.eqb_spec result 0); [lia|done]|].
  assert (Ff : forall l c', l = cmd_ctx cl -> ctx_request_id c' = id -> list_find (fun c => ctx_request_id c = id) (<[j := c']> l) = Some (j, c')).
  { intros l c' -> Hc'. apply list_find_Some. split; [by apply list_lookup_insert_eq|]. split; [done|]. intros k y Hk Lk Hy.
    rewrite list_lookup_insert_ne in Hk by lia. unfold find_cmd_ctx in Hn. apply list_find_None in Hn.
    by apply (Forall_lookup_1 _ _ _ _ Hn Hk). }
  unfold command_timeout. cbn [cmd_ctx set_ctx]. rewrite !list_insert_insert_eq, list_lookup_insert_eq by done.
  unfold run_callback, run_callback_find, find_cmd_ctx. cbn [cmd_ctx set_ctx ctx_request_id with_timer with_tokens ctx_command_id].
  rewrite !list_insert_insert_eq, (Ff _ _ eq_refl) by done. cbn [ctx_command_id with_timer with_tokens]. rewrite Z.eqb_refl. cbn [negb].
  unfold run_callback_finish. cbn [cmd_ctx set_ctx]. rewrite !list_insert_insert_eq, list_lookup_insert_eq by done. cbn. eauto.
Qed.

End props.

(** ** Instances *)

Definition demo_client : rpc_client := rpc_client_init 3 EPACKET_INTERFACE_SERIAL (repeat 0 7) 41 demo_core.

Definition demo_queue (cl : rpc_client) (fn : nat) : rpc_client :=
  match rpc_client_command_queue demo_sec demo_header demo_footer demo_size cl 15 (Some (repeat 0 6)) (Some fn) 500 with Done (_, cl) => cl | _ => cl end.
Definition demo_rsp (id : Z) : list Z := le_put 4 id ++ le_put 2 15 ++ le_put 2 0.
Definition demo_answered (cl : rpc_client) (id : Z) : rpc_client :=
  match packet_received false [] cl INFUSE_RPC_RSP (demo_rsp id) true with Done (_, cl) => cl | _ => cl end.

(** Two commands, and the response to the second or to the first. *)
Definition demo_one : rpc_client := Eval vm_compute in demo_queue demo_client 7.
Definition demo_two : rpc_client := Eval vm_compute in demo_queue demo_one 8.
Definition demo_two_42 : rpc_client := Eval vm_compute in demo_answered demo_two 42.



Lemma client_timeout_race_witness :
  exists cl1 cl2, command_timeout demo_two 1 = Done cl1 /\ run_callback_finish cl1 1 (Some (demo_rsp 43)) = Done cl2 /\
    cl_log cl2 = [(8%nat, None); (8%nat, Some (demo_rsp 43))] /\ cmd_ctx_sem cl2 = zlen (free_ctxs (cmd_ctx cl2)) + 1.
Proof.
  set (c := CmdCtx 43 15 (Some 8%nat) (Some 500) 500 0 1 0).
  destruct (client_timeout_race demo_two 1 c 8 (demo_rsp 43) 15 43) as (cl1 & cl2 & _ & R1 & R2 & L & S).
  - reflexivity.
  - reflexivity.
  - discriminate.
  - reflexivity.
  - reflexivity.
  - vm_compute. discriminate.
  - exists cl1, cl2. split; [exact R1|]. split; [exact R2|]. split; [exact L|exact S].
Defined.

(** The first command has finished; a response to request 0 runs its callback again. *)
Lemma client_zero_request_id_witness :
  exists cl', packet_received false [] demo_two_42 INFUSE_RPC_RSP (demo_rsp 0) true = Done (false, cl') /\
    cl_log cl' = [(7%nat, Some (demo_rsp 42)); (7%nat, Some (demo_rsp 0))].
Proof.
  pose proof (client_zero_request_id false [] demo_two_42 0 (CmdCtx 0 15 (Some 7%nat) None 500 1 1 0) (demo_rsp 0)) as K.
  apply K; [reflexivity|vm_compute; reflexivity|vm_compute; reflexivity].
Defined.

Lemma client_sync_dangling_witness :
  let '(rc, cl2) := rpc_client_command_wait (command_tx_done_cb demo_one 0 (-5)) 0 in
  rpc_client_command_sync cl2 rc 7 = Some (-5, None) /\ exists cl3, command_timeout cl2 0 = Done cl3 /\ cl_log cl3 = [] ++ [(7%nat, None)].
Proof.
  apply (client_sync_dangling demo_sec demo_header demo_footer demo_size demo_client 15 (Some (repeat 0 6)) 7 500 0 demo_one (-5)).
  - vm_compute. reflexivity.
  - vm_compute. reflexivity.
  - lia.
Defined.
