(* ===== verification/RpcTransfer.v ===== *)
(** * A transfer of data from a client to a server

    The upload loop of [client.c] and the receiving loop of [data_receiver.c], joined by the
    packets in flight in both directions.  The client stops when it has no token left, the
    server gives tokens back by acknowledgements of several packets; for every
    interleaving the two never wait for each other, and all data arrives. *)

From stdpp Require Import base tactics numbers list relations.
From Stdlib Require Import ZArith Lia.
From S2P Require Import Prelude EPacketKeys EPacketCrypt EPacketCryptProps EPacketCore EPacketCoreProps RpcServer RpcServerProps RpcClient.

Local Open Scope Z_scope.
Local Open Scope infuse_scope.

(** A packet leaves the queue of its sender. *)
Definition dequeue (st : core_state) : core_state :=
  CoreState (rate_limit_delay st) (rate_limit_throughput st) (global_flags st) (prev_key_request st) (tail (tx_queue st)) (command_fifo st) (data_fifo st) (allocs st) (auto_conn_fifo st) (epacket_backhaul st).

(** The client in its loop, and the server in its loop. *)
Record transfer (A : Type) := Transfer { t_client : rpc_client; t_load : load_state; t_server : server A; t_receive : receive_state }.
Arguments Transfer {A}.
Arguments t_client {A}.
Arguments t_load {A}.
Arguments t_server {A}.
Arguments t_receive {A}.

Section transfer.
Context {A : Type} `{Crc32}.
(** The client's and the server's side. *)
Context (csec ssec : security) (ch cf sh sf : Z -> Z) (cm sm : Z -> nat -> Z) (ticks_per_sec : Z) (clock : nat -> Z * Z).
Context (allow_default : bool) (stale : rx_packet -> list Z) (req : rx_packet) (id expected : Z) (p : auto_load_params).

(** A pass of the client's loop; a data packet that arrives, pulled and received; an
    acknowledgement that arrives. *)
Inductive transfer_step : transfer A -> transfer A -> Prop :=
| transfer_send cl ld sv r ld' cl' :
    load_step csec ch cf cm ticks_per_sec clock cl id p ld = Done (LoadNext ld', cl') ->
    transfer_step (Transfer cl ld sv r) (Transfer cl' ld' sv r)
| transfer_data cl ld sv r k q d s r' sv' :
    tx_queue (cl_core cl) = k :: q -> tx_type (tp_meta k) = INFUSE_RPC_DATA -> rx_data d = tp_data k -> 0 < remaining r ->
    rpc_server_pull_data stale id [Some d] = (inl d, s) ->
    receive_packet ssec sh sf sm stale sv req d id expected (ack_period p) r = Done (inl r', sv') ->
    transfer_step (Transfer cl ld sv r) (Transfer (set_client_core cl (dequeue (cl_core cl))) ld sv' r')
| transfer_ack cl ld sv r k q b cl' :
    tx_queue (sv_core sv) = k :: q ->
    packet_received allow_default [] cl (tx_type (tp_meta k)) (tp_data k) true = Done (b, cl') ->
    transfer_step (Transfer cl ld sv r) (Transfer cl' ld (set_core sv (dequeue (sv_core sv))) r).

(** Packets that carry the bytes of [D] from [off] to [fin]. *)
Fixpoint covers (D : list Z) (off : Z) (ks : list tx_packet) (fin : Z) : Prop :=
  match ks with
  | [] => off = fin
  | k :: ks => exists n, 0 < n /\ off mod 4 = 0 /\ off + n <= zlen D /\ tx_type (tp_meta k) = INFUSE_RPC_DATA /\
                 tp_data k = le_put 4 id ++ le_put 4 off ++ ztake n (zdrop off D) /\ covers D (off + n) ks fin
  end.

Lemma covers_app D off ks k fin n : covers D off ks fin -> 0 < n -> fin mod 4 = 0 -> fin + n <= zlen D -> tx_type (tp_meta k) = INFUSE_RPC_DATA ->
  tp_data k = le_put 4 id ++ le_put 4 fin ++ ztake n (zdrop fin D) -> covers D off (ks ++ [k]) (fin + n).
Proof.
  revert off. induction ks as [|k' ks IH]; intros off Hc Hn Hm Hl Ht Hd; cbn in *.
  - subst off. exists n. done.
  - destruct Hc as (m & H1 & H2 & H3 & H4 & H5 & H6). exists m. repeat (split; [done|]). by apply IH.
Qed.

Lemma ztake_zdrop_app (D : list Z) o n m : 0 <= o -> 0 <= n -> 0 <= m ->
  ztake n (zdrop o D) ++ ztake m (zdrop (o + n) D) = ztake (n + m) (zdrop o D).
Proof.
  intros. rewrite <- (zdrop_zdrop n o) by lia. unfold ztake, zdrop. rewrite Z2Nat.inj_add by lia. generalize (drop (Z.to_nat o) D). intros l.
  rewrite take_take_drop. done.
Qed.

Lemma give_tokens_add n c : 0 <= n -> c + n <= UINT32_MAX -> give_tokens n c = c + n.
Proof.
  intros Hn. unfold give_tokens. rewrite <- (Z2Nat.id n) at 1 3 by lia. generalize (Z.to_nat n) as k. clear Hn n.
  induction k as [|k IH]; intros Hm; [cbn; lia|]. rewrite Nat.iter_succ, IH by lia. unfold k_sem_give. lia.
Qed.

Lemma give_tokens_nonneg n c : 0 <= c -> 0 <= give_tokens n c.
Proof.
  intros Hc. unfold give_tokens. assert (Hm : 0 <= UINT32_MAX) by done. revert Hm. generalize UINT32_MAX as m. intros m Hm.
  induction (Z.to_nat n) as [|k IH]; [done|]. rewrite Nat.iter_succ. revert IH. generalize (Nat.iter k (k_sem_give m) c). intros x IH. unfold k_sem_give. lia.
Qed.

Lemma find_set cl i c c' : find_cmd_ctx cl id = Some (i, c) -> ctx_request_id c' = id -> find_cmd_ctx (set_ctx cl i c') id = Some (i, c').
Proof.
  unfold find_cmd_ctx. cbn. intros (E & _ & Hn)%list_find_Some E'. apply list_find_Some.
  split; [by apply list_lookup_insert_eq; eapply lookup_lt_Some|]. split; [done|]. intros j y Hj Lj. rewrite list_lookup_insert_ne in Hj by lia. by apply (Hn j).
Qed.

(** ** The invariant *)

Context (D : list Z) (T dev : Z).
Hypothesis Hid : in_u 32 id.
Hypothesis Hexp : expected = zlen D.
Hypothesis HD : zlen D < 2 ^ 32.
Hypothesis Hper : 1 <= ack_period p <= 8.
Hypothesis HT : ack_period p <= T < 2 ^ 31.
Hypothesis Hload : forall o n, al_loader p o n = (0, ztake n (zdrop o D)).
Hypothesis Hroom : forall n, 12 <= interface_room ch cf cm dev n.
Hypothesis Hconn : connected sh sf sm (rx_interface req).

(** The loop of the client at [o], its packet to fill begins at [oq]. *)
Record load_inv (ld : load_state) (oq : Z) : Prop := LoadInv {
  li_len : ld_offset ld + ld_data_len ld = zlen D;
  li_pos : 0 <= oq <= ld_offset ld /\ 0 <= ld_data_len ld;
  li_aligned : 0 < ld_data_len ld -> ld_offset ld mod 4 = 0 /\ oq mod 4 = 0;
  li_size : 0 < zlen (ld_buffer ld) /\ zlen (ld_buffer ld) mod 4 = 0;
  li_remaining : 0 <= buffer_remaining ld <= ld_data_len ld /\ (buffer_remaining ld < ld_data_len ld -> buffer_remaining ld mod 4 = 0);
  li_range : 0 <= bytes_offset ld /\ bytes_offset ld + buffer_remaining ld <= zlen (ld_buffer ld);
  li_bytes : ztake (buffer_remaining ld) (zdrop (bytes_offset ld) (ld_buffer ld)) = ztake (buffer_remaining ld) (zdrop (ld_offset ld) D);
  li_packet : match data_buf ld with
              | None => oq = ld_offset ld
              | Some b => tb_data b = le_put 4 id ++ le_put 4 oq ++ ztake (ld_offset ld - oq) (zdrop oq D) /\ 4 <= tb_room b /\ 0 < ld_data_len ld
              end;
}.

Definition pending_packet (ld : load_state) : Z := match data_buf ld with Some _ => 1 | None => 0 end.

Record transfer_inv (s : transfer A) (i : nat) (c : rpc_client_cmd_ctx) (oq : Z) : Prop := TransferInv {
  ti_interface : cl_interface (t_client s) = Some dev;
  ti_ctx : find_cmd_ctx (t_client s) id = Some (i, c);
  ti_on_ack : ctx_tokens_on_ack c = ack_period p /\ 0 <= ctx_tx_tokens c;
  ti_load : load_inv (t_load s) oq;
  ti_received : received (t_receive s) = zlen D - remaining (t_receive s) /\ 0 <= remaining (t_receive s) <= zlen D /\
                crc (t_receive s) = crc32_ieee_update 0 (ztake (received (t_receive s)) D);
  ti_covers : covers D (received (t_receive s)) (tx_queue (cl_core (t_client s))) oq;
  ti_acks : acks_ok (t_server s) /\ data_packet_ack_counter (t_server s) < ack_period p /\
            Forall (fun k => tx_type (tp_meta k) = INFUSE_RPC_DATA_ACK /\ field (tp_data k) 0 4 = id) (tx_queue (sv_core (t_server s)));
  ti_tokens : 0 < remaining (t_receive s) ->
    ctx_tx_tokens c + zlen (tx_queue (cl_core (t_client s))) + pending_packet (t_load s) + data_packet_ack_counter (t_server s) +
      ack_period p * zlen (tx_queue (sv_core (t_server s))) = T;
}.

(** The buffer of a pass, loaded if it was empty. *)
Lemma load_buffer_ok ld oq : load_inv ld oq -> 0 < ld_data_len ld ->
  exists n bo buf,
    (if buffer_remaining ld =? 0 then
       let n := Z.min (zlen (ld_buffer ld)) (ld_data_len ld) in
       let '(rc, bs) := al_loader p (ld_offset ld) n in (rc, n, 0, zwrite 0 (ztake n bs) (ld_buffer ld))
     else (0, buffer_remaining ld, bytes_offset ld, ld_buffer ld)) = (0, n, bo, buf) /\
    0 < n <= ld_data_len ld /\ (n < ld_data_len ld -> n mod 4 = 0) /\ 0 <= bo /\ bo + n <= zlen buf /\ zlen buf = zlen (ld_buffer ld) /\
    ztake n (zdrop bo buf) = ztake n (zdrop (ld_offset ld) D).
Proof.
  intros [L1 L2 L3 L4 L5 L6 L7 _] Hd. destruct (Z.eqb_spec (buffer_remaining ld) 0) as [E|E]; cycle 1.
  { exists (buffer_remaining ld), (bytes_offset ld), (ld_buffer ld). repeat (split; [first [done|lia|tauto]|]). done. }
  cbv zeta. rewrite Hload. remember (Z.min (zlen (ld_buffer ld)) (ld_data_len ld)) as n eqn:Hn.
  assert (Hz : zlen (ztake n (zdrop (ld_offset ld) D)) = n) by (rewrite zlen_ztake; [done|rewrite zlen_zdrop; lia]).
  assert (Hw : zlen (zwrite 0 (ztake n (zdrop (ld_offset ld) D)) (ld_buffer ld)) = zlen (ld_buffer ld)) by (apply zlen_zwrite; lia).
  exists n, 0, (zwrite 0 (ztake n (zdrop (ld_offset ld) D)) (ld_buffer ld)). rewrite ztake_ztake, Z.min_id.
  split; [done|]. split; [lia|]. split; [intros; replace n with (zlen (ld_buffer ld)) by lia; apply L4|]. split; [lia|]. split; [lia|]. split; [done|].
  rewrite zdrop_0 by lia. unfold zwrite. rewrite (ztake_0 0) by lia. cbn [app]. by rewrite ztake_app.
Qed.

(** The packet of a pass: the pending one, or a new one for a token. *)
Lemma load_packet_ok cl i c ld oq : cl_interface cl = Some dev -> find_cmd_ctx cl id = Some (i, c) -> load_inv ld oq -> 0 < ld_data_len ld ->
  data_buf ld <> None \/ 0 < ctx_tx_tokens c ->
  exists b l cl' c', load_packet ch cf cm ticks_per_sec clock cl dev id p ld = Done (Some (b, l), 0, cl') /\
    tb_data b = le_put 4 id ++ le_put 4 oq ++ ztake (ld_offset ld - oq) (zdrop oq D) /\ 4 <= tb_room b /\
    cl_interface cl' = Some dev /\ find_cmd_ctx cl' id = Some (i, c') /\ ctx_tokens_on_ack c' = ctx_tokens_on_ack c /\
    ctx_tx_tokens c' + 1 = ctx_tx_tokens c + pending_packet ld /\ tx_queue (cl_core cl') = tx_queue (cl_core cl).
Proof.
  intros Hi Hf [L1 L2 L3 L4 L5 L6 L7 L8] Hd Ht. unfold load_packet, pending_packet. destruct (data_buf ld) as [b|].
  { exists b, (ld_limit_tx ld), cl, c. destruct L8 as (? & ? & ?). repeat (split; [done|]). done. }
  destruct Ht as [?|Ht]; [done|]. rewrite (proj2 (Z.eqb_neq (ack_period p) 0)) by lia. cbn [negb]. unfold rpc_client_ack_wait. rewrite Hf, (proj2 (Z.ltb_lt _ _) Ht).
  cbn [negb Z.eqb]. destruct (clock _) as [now later]. set (cl1 := set_ctx cl i _).
  destruct (epacket_rate_limit_tx _ _ _ _ _ _) as [[[st1 l1] w1] w2] eqn:Er.
  assert (Hq : tx_queue st1 = tx_queue (cl_core cl)).
  { unfold epacket_rate_limit_tx in Er. destruct (_ =? 0); [|destruct (0 <? _)]; by injection Er as <-. }
  unfold epacket_alloc_tx_for_interface. specialize (Hroom (allocs st1)).
  rewrite buf_add_mem_ok by (rewrite zlen_app, !zlen_le_put; cbn [tb_room]; lia). cbn [exec_bind]. do 4 eexists. split; [reflexivity|]. cbn [tb_data tb_room app].
  split; [subst oq; by rewrite Z.sub_diag, (ztake_0 0), app_nil_r|]. split; [rewrite zlen_app, !zlen_le_put; lia|]. split; [done|].
  split; [apply (find_set cl i c (with_tokens c (ctx_tx_tokens c - 1)) Hf); by apply list_find_Some in Hf as (_ & ? & _)|]. split; [done|]. split; [cbn; lia|]. done.
Qed.

Lemma advance_bytes (X Y : list Z) n a : ztake n X = ztake n Y -> 0 <= a <= n -> ztake (n - a) (zdrop a X) = ztake (n - a) (zdrop a Y).
Proof. intros E Ha. by rewrite <- !zdrop_ztake, E by lia. Qed.

Lemma prefix_bytes (X Y : list Z) n a : ztake n X = ztake n Y -> 0 <= a <= n -> ztake a X = ztake a Y.
Proof. intros E Ha. replace a with (Z.min a n) by lia. by rewrite <- !ztake_ztake, E. Qed.

(** What a pass adds to its packet. *)
Lemma chunk_size R n len : 4 <= R -> 0 < n <= len -> (n < len -> n mod 4 = 0) ->
  let add := Z.min (R - R mod 4) n in
  0 < add <= n /\ add <= R /\ (add < len -> add mod 4 = 0) /\ (n - add < len - add -> (n - add) mod 4 = 0) /\ (4 <= R - add -> add = n).
Proof.
  intros HR Hn Hm add. pose proof (Z.mod_pos_bound R 4 ltac:(lia)). pose proof (Z.div_mod R 4 ltac:(lia)) as Ed.
  assert (Ht : (R - R mod 4) mod 4 = 0) by (replace (R - R mod 4) with (R / 4 * 4) by lia; apply Z.mod_mul; lia).
  assert (Ha : add < len -> add mod 4 = 0).
  { intros Hl. unfold add in *. destruct (Z.min_spec (R - R mod 4) n) as [[_ E]|[_ E]]; rewrite E in *; [done|auto]. }
  repeat (split; [unfold add; first [lia|exact Ha]|]). split; [|unfold add; lia].
  intros Hl. rewrite Zminus_mod, Hm, Ha by (unfold add in *; lia). done.
Qed.

(** The variables after a pass. *)
Lemma load_inv_next o len n bo buf ob l add oq : o + len = zlen D -> 0 <= oq <= o + add -> 0 < add <= n -> n <= len ->
  (0 < len - add -> (o + add) mod 4 = 0 /\ oq mod 4 = 0) -> (n - add < len - add -> (n - add) mod 4 = 0) ->
  0 < zlen buf /\ zlen buf mod 4 = 0 -> 0 <= bo -> bo + n <= zlen buf ->
  ztake (n - add) (zdrop (bo + add) buf) = ztake (n - add) (zdrop (o + add) D) ->
  match ob with
  | None => oq = o + add
  | Some b => tb_data b = le_put 4 id ++ le_put 4 oq ++ ztake (o + add - oq) (zdrop oq D) /\ 4 <= tb_room b /\ 0 < len - add
  end ->
  load_inv (LoadState (o + add) (len - add) (n - add) (bo + add) buf ob l add) oq.
Proof.
  intros. constructor; cbn [ld_offset ld_data_len buffer_remaining bytes_offset ld_buffer data_buf]; try done; try lia.
Qed.

(** A pass of the client's loop with data left, and a packet or a token to go on. *)
Lemma load_step_next cl i c ld oq : cl_interface cl = Some dev -> find_cmd_ctx cl id = Some (i, c) -> load_inv ld oq -> 0 < ld_data_len ld ->
  data_buf ld <> None \/ 0 < ctx_tx_tokens c ->
  exists ld' cl' c' oq' ks, load_step csec ch cf cm ticks_per_sec clock cl id p ld = Done (LoadNext ld', cl') /\
    cl_interface cl' = Some dev /\ find_cmd_ctx cl' id = Some (i, c') /\ ctx_tokens_on_ack c' = ctx_tokens_on_ack c /\ load_inv ld' oq' /\
    ld_data_len ld' < ld_data_len ld /\ tx_queue (cl_core cl') = tx_queue (cl_core cl) ++ ks /\ zlen ks + pending_packet ld' = 1 /\
    ctx_tx_tokens c' + 1 = ctx_tx_tokens c + pending_packet ld /\
    (forall off q, covers D off q oq -> covers D off (q ++ ks) oq').
Proof.
  intros Hi Hf L Hd Ht. destruct (load_buffer_ok ld oq L Hd) as (n & bo & buf & Eb & Hn & Hm & Hbo & Hbn & Hbz & Hbb).
  destruct (load_packet_ok cl i c ld oq Hi Hf L Hd Ht) as (b & l & cl1 & c1 & Ep & Hdat & HR & Hi1 & Hf1 & Ho1 & Ht1 & Hq1).
  destruct L as [L1 L2 L3 L4 L5 L6 L7 L8]. destruct (L3 Hd) as [Ha Hqa].
  unfold load_step. rewrite (proj2 (Z.eqb_neq _ _)) by lia. rewrite Ha. cbn [Z.eqb negb]. cbv zeta in Eb |- *. rewrite Hi, Eb. cbn [Z.ltb Z.compare].
  rewrite Ep. cbn [exec_bind]. destruct (chunk_size (tb_room b) n (ld_data_len ld) HR Hn Hm) as (C1 & C2 & C3 & C4 & C5).
  remember (Z.min (tb_room b - tb_room b mod 4) n) as add eqn:Eadd.
  assert (Hpre : ztake add (zdrop bo buf) = ztake add (zdrop (ld_offset ld) D)) by (apply (prefix_bytes _ _ n); [done|lia]).
  assert (Hz : zlen (ztake add (zdrop bo buf)) = add) by (apply zlen_ztake; rewrite zlen_zdrop; lia).
  rewrite buf_add_mem_ok by lia. cbn [exec_bind tb_room tb_data]. rewrite Hz, !uwrap_small by lia.
  assert (Hall : tb_data b ++ ztake add (zdrop bo buf) = le_put 4 id ++ le_put 4 oq ++ ztake (ld_offset ld + add - oq) (zdrop oq D)).
  { rewrite Hdat, Hpre, <- !app_assoc. do 2 f_equal. replace (ld_offset ld) with (oq + (ld_offset ld - oq)) at 2 by lia.
    rewrite ztake_zdrop_app by lia. f_equal. lia. }
  assert (Hal : 0 < ld_data_len ld - add -> (ld_offset ld + add) mod 4 = 0) by (intros; rewrite Zplus_mod, Ha, C3 by lia; done).
  assert (Hbytes : ztake (n - add) (zdrop (bo + add) buf) = ztake (n - add) (zdrop (ld_offset ld + add) D)).
  { rewrite <- !zdrop_zdrop by lia. apply advance_bytes; [done|lia]. }
  rewrite Hall. destruct ((tb_room b - add <? 4) || (add =? ld_data_len ld)) eqn:Es.
  - do 2 eexists. exists c1, (ld_offset ld + add). eexists [_]. split; [reflexivity|]. split; [done|]. split; [done|]. split; [done|].
    split; [apply load_inv_next; rewrite ?Hbz; auto; lia|]. cbn [ld_data_len cl_core set_client_core epacket_queue tx_queue]. split; [lia|]. split; [by rewrite Hq1|]. split; [done|]. split; [exact Ht1|].
    intros off q Hc. match goal with |- covers _ _ (_ ++ [?k]) _ => pose proof (covers_app D off q k oq (ld_offset ld + add - oq) Hc) as K end.
    replace (oq + (ld_offset ld + add - oq)) with (ld_offset ld + add) in K by lia. apply K; try done; lia.
  - apply orb_false_iff in Es as [Es1%Z.ltb_ge Es2%Z.eqb_neq].
    do 2 eexists. exists c1, oq, []. split; [reflexivity|]. split; [done|]. split; [done|]. split; [done|].
    split; [apply load_inv_next; rewrite ?Hbz; auto; try lia; cbn [tb_data tb_room]; split; [done|lia]|]. cbn [ld_data_len]. split; [lia|]. rewrite app_nil_r. split; [done|]. split; [done|].
    split; [exact Ht1|]. intros off q Hc. by rewrite app_nil_r.
Qed.

Lemma load_step_stops cl i c ld oq : cl_interface cl = Some dev -> find_cmd_ctx cl id = Some (i, c) -> load_inv ld oq ->
  ld_data_len ld = 0 \/ (data_buf ld = None /\ ctx_tx_tokens c <= 0) ->
  exists rc, load_step csec ch cf cm ticks_per_sec clock cl id p ld = Done (LoadReturn rc, cl).
Proof.
  intros Hi Hf L Hs. unfold load_step. destruct (Z.eqb_spec (ld_data_len ld) 0) as [|Hne]; [eauto|]. destruct Hs as [?|[Hb Ht]]; [done|].
  assert (Hd : 0 < ld_data_len ld) by (pose proof (li_pos _ _ L); lia). destruct (load_buffer_ok ld oq L Hd) as (n & bo & buf & Eb & _).
  destruct (li_aligned _ _ L Hd) as [-> _]. cbn [Z.eqb negb]. cbv zeta in Eb |- *. rewrite Hi, Eb. cbn [Z.ltb Z.compare].
  unfold load_packet. rewrite Hb, (proj2 (Z.eqb_neq (ack_period p) 0)) by lia. cbn [negb]. unfold rpc_client_ack_wait.
  rewrite Hf, (proj2 (Z.ltb_ge 0 _)) by lia. cbn. eauto.
Qed.

(** The first packet in flight, as the server receives it. *)
Lemma data_step_ok (sv : server A) (r : receive_state) k q fin d :
  covers D (received r) (k :: q) fin -> rx_data d = tp_data k ->
  received r = zlen D - remaining r -> 0 <= remaining r <= zlen D -> crc r = crc32_ieee_update 0 (ztake (received r) D) ->
  acks_ok sv -> data_packet_ack_counter sv < ack_period p ->
  rpc_server_pull_data stale id [Some d] = (inl d, []) /\
  exists sv' r' acks, receive_packet ssec sh sf sm stale sv req d id expected (ack_period p) r = Done (inl r', sv') /\
    covers D (received r') q fin /\ received r' = zlen D - remaining r' /\ 0 <= remaining r' <= zlen D /\ crc r' = crc32_ieee_update 0 (ztake (received r') D) /\
    acks_ok sv' /\ data_packet_ack_counter sv' < ack_period p /\ tx_queue (sv_core sv') = tx_queue (sv_core sv) ++ acks /\ zlen acks <= 1 /\
    Forall (fun k => tx_type (tp_meta k) = INFUSE_RPC_DATA_ACK /\ field (tp_data k) 0 4 = id) acks /\
    (0 < remaining r' -> data_packet_ack_counter sv' + ack_period p * zlen acks = data_packet_ack_counter sv + 1).
Proof.
  intros (n & Hn & Ha & Hl & _ & Hk & Hc) Hd Hr Hrem Hcrc Hok Hcn.
  assert (Hz : zlen (ztake n (zdrop (received r) D)) = n) by (apply zlen_ztake; rewrite zlen_zdrop; lia).
  assert (Hcd : carries_data d id (received r) (ztake n (zdrop (received r) D))) by (unfold carries_data; by rewrite Hd).
  destruct (carries_header stale d id (received r) _ Hcd Hid) as (E1 & E2 & _); [unfold in_u; lia|].
  split; [unfold rpc_server_pull_data; cbn; by rewrite E1, E2, Z.eqb_refl, Ha|].
  destruct (receive_packet_data ssec sh sf sm stale sv req d id expected (ack_period p) r (received r) _ Hconn Hok Hcd Hid)
    as (sv' & R & Hok' & _ & _ & acks & Hq & Hlast & Hmore); rewrite ?Hz in *; [lia..|].
  exists sv'. eexists. exists acks. split; [exact R|]. cbn [received remaining crc].
  assert (Hcr : crc32_ieee_update (crc r) (ztake n (zdrop (received r) D)) = crc32_ieee_update 0 (ztake (received r + n) D)).
  { rewrite Hcrc, <- crc32_app. f_equal. rewrite <- (zdrop_0 0 D) at 1 3 by lia. rewrite <- (Z.add_0_l (received r)) at 2. apply ztake_zdrop_app; lia. }
  pose proof (zlen_nonneg acks). destruct Hok' as [Hk1 Hk2].
  split; [done|]. split; [lia|]. split; [lia|]. split; [exact Hcr|]. split; [by split|].
  destruct (Z.eq_dec (received r + n) expected) as [El|El].
  - destruct (Hlast El) as [-> E]. split; [lia|]. split; [done|]. split; [done|]. split; [constructor|]. lia.
  - destruct Hmore as (G1 & G2 & G3); [lia..|]. split; [done|]. split; [done|]. split; [nia|]. split; [|done].
    eapply Forall_impl; [exact G3|]. intros k' (K1 & _ & K2). split; [done|]. rewrite K2. apply uwrap_small. apply Hid.
Qed.

(** An acknowledgement gives back the tokens of the packets it acknowledges. *)
Lemma ack_step_ok cl i c data : find_cmd_ctx cl id = Some (i, c) -> field data 0 4 = id ->
  exists c', packet_received allow_default [] cl INFUSE_RPC_DATA_ACK data true = Done (allow_default, set_ctx cl i c') /\
    find_cmd_ctx (set_ctx cl i c') id = Some (i, c') /\ ctx_tokens_on_ack c' = ctx_tokens_on_ack c /\
    ctx_tx_tokens c' = give_tokens (ctx_tokens_on_ack c) (ctx_tx_tokens c).
Proof.
  intros Hf Hd. unfold packet_received. cbn [negb]. rewrite app_nil_r, Hd, Z.eqb_refl, Hf. eexists. split; [reflexivity|].
  split; [apply (find_set cl i c); [done|]; by apply list_find_Some in Hf as (_ & ? & _)|]. done.
Qed.

Definition measure (s : transfer A) : Z :=
  3 * ld_data_len (t_load s) + 2 * zlen (tx_queue (cl_core (t_client s))) + zlen (tx_queue (sv_core (t_server s))).

Lemma step_send_inv cl ld sv r ld' cl' i c oq : transfer_inv (Transfer cl ld sv r) i c oq ->
  load_step csec ch cf cm ticks_per_sec clock cl id p ld = Done (LoadNext ld', cl') ->
  exists c' oq', transfer_inv (Transfer cl' ld' sv r) i c' oq' /\ measure (Transfer cl' ld' sv r) < measure (Transfer cl ld sv r).
Proof.
  intros [I1 I2 I3 I4 I5 I6 I7 I8] R. cbn [t_client t_load t_server t_receive] in *. pose proof (li_pos _ _ I4).
  assert (Hgo : 0 < ld_data_len ld /\ (data_buf ld <> None \/ 0 < ctx_tx_tokens c)).
  { destruct (Z.eq_dec (ld_data_len ld) 0) as [E|E]; [destruct (load_step_stops cl i c ld oq) as [rc E1]; auto; congruence|].
    split; [lia|]. destruct (data_buf ld) eqn:Eb; [by left|]. right. destruct (Z.le_gt_cases (ctx_tx_tokens c) 0); [|done].
    destruct (load_step_stops cl i c ld oq) as [rc E1]; auto; congruence. }
  destruct Hgo as [Hd Hgo]. destruct (load_step_next cl i c ld oq I1 I2 I4 Hd Hgo) as (ld1 & cl1 & c1 & oq1 & ks & E & N1 & N2 & N3 & N4 & N5 & N6 & N7 & N8 & N9).
  rewrite R in E. injection E as <- <-. pose proof (zlen_nonneg ks). exists c1, oq1. split.
  - constructor; cbn [t_client t_load t_server t_receive]; try done.
    + split; [by rewrite N3; apply I3|]. unfold pending_packet in N8. destruct I3, (data_buf ld), Hgo; try done; lia.
    + rewrite N6. by apply N9.
    + intros Hr. rewrite <- (I8 Hr), N6, zlen_app. lia.
  - unfold measure. cbn [t_client t_load t_server t_receive]. rewrite N6, zlen_app. assert (0 <= pending_packet ld') by (unfold pending_packet; by destruct (data_buf ld')). lia.
Qed.

Lemma step_data_inv cl ld sv r k q d s r' sv' i c oq : transfer_inv (Transfer cl ld sv r) i c oq ->
  tx_queue (cl_core cl) = k :: q -> rx_data d = tp_data k -> 0 < remaining r ->
  receive_packet ssec sh sf sm stale sv req d id expected (ack_period p) r = Done (inl r', sv') ->
  let t := Transfer (set_client_core cl (dequeue (cl_core cl))) ld sv' r' in
  rpc_server_pull_data stale id [Some d] = (inl d, s) ->
  transfer_inv t i c oq /\ measure t < measure (Transfer cl ld sv r).
Proof.
  intros [I1 I2 I3 I4 I5 I6 I7 I8] Hq Hdat Hr R t _. cbn [t_client t_load t_server t_receive] in *. destruct I5 as (J1 & J2 & J3), I7 as (K1 & K2 & K3).
  rewrite Hq in I6. destruct (data_step_ok sv r k q oq d I6 Hdat J1 J2 J3 K1 K2) as (_ & sv1 & r1 & acks & E & M1 & M2 & M3 & M4 & M5 & M6 & M7 & M8 & M9 & M10).
  rewrite R in E. injection E as <- <-. assert (Hq' : tx_queue (cl_core (t_client t)) = q) by (cbn; by rewrite Hq). specialize (I8 Hr). rewrite Hq, zlen_cons in I8.
  split.
  - constructor; rewrite ?Hq'; cbn [t t_client t_load t_server t_receive]; try done.
    + split; [done|]. split; [done|]. rewrite M7. by apply Forall_app.
    + intros Hr'. specialize (M10 Hr'). rewrite M7, zlen_app. lia.
  - unfold measure. rewrite Hq'. cbn [t t_client t_load t_server t_receive]. rewrite Hq, M7, zlen_cons, zlen_app. lia.
Qed.

Lemma step_ack_inv cl ld sv r k q b cl' i c oq : transfer_inv (Transfer cl ld sv r) i c oq ->
  tx_queue (sv_core sv) = k :: q -> packet_received allow_default [] cl (tx_type (tp_meta k)) (tp_data k) true = Done (b, cl') ->
  let t := Transfer cl' ld (set_core sv (dequeue (sv_core sv))) r in
  exists c', transfer_inv t i c' oq /\ measure t < measure (Transfer cl ld sv r).
Proof.
  intros [I1 I2 I3 I4 I5 I6 I7 I8] Hq R t. cbn [t_client t_load t_server t_receive] in *. destruct I7 as (K1 & K2 & K3). rewrite Hq in K3.
  inversion_clear K3 as [|? ? [Ty Fl] K4]. destruct (ack_step_ok cl i c (tp_data k) I2 Fl) as (c1 & E & A1 & A2 & A3). rewrite Ty, E in R. injection R as _ <-.
  assert (Hq' : tx_queue (sv_core (t_server t)) = q) by (cbn; by rewrite Hq). destruct I3 as [I3 I3'].
  exists c1. split.
  - constructor; rewrite ?Hq'; cbn [t t_client t_load t_server t_receive]; try done.
    + split; [congruence|]. rewrite A3. by apply give_tokens_nonneg.
    + intros Hr. specialize (I8 Hr). rewrite Hq, zlen_cons in I8. rewrite A3, I3. pose proof (zlen_nonneg q). pose proof (zlen_nonneg (tx_queue (cl_core cl))).
      assert (0 <= pending_packet ld) by (unfold pending_packet; by destruct (data_buf ld)). destruct K1 as [_ K1].
      rewrite give_tokens_add by (unfold UINT32_MAX; nia). cbn. nia.
  - unfold measure. rewrite Hq'. cbn [t t_client t_load t_server t_receive set_ctx cl_core]. rewrite Hq, zlen_cons. lia.
Qed.

Lemma transfer_step_inv s s' i c oq : transfer_inv s i c oq -> transfer_step s s' -> exists c' oq', transfer_inv s' i c' oq' /\ measure s' < measure s.
Proof.
  intros I S. destruct S.
  - by eapply step_send_inv.
  - exists c, oq. by eapply step_data_inv.
  - edestruct step_ack_inv as (c' & Hc); [done..|]. by exists c', oq.
Qed.

(** The client has queued all data and the server has received it. *)
Definition transfer_done (s : transfer A) : Prop :=
  load_step csec ch cf cm ticks_per_sec clock (t_client s) id p (t_load s) = Done (LoadReturn 0, t_client s) /\
  remaining (t_receive s) = 0 /\ received (t_receive s) = zlen D /\ crc (t_receive s) = crc32_ieee_update 0 D.

Lemma transfer_progress s i c oq : transfer_inv s i c oq -> transfer_done s \/ exists s', transfer_step s s'.
Proof.
  destruct s as [cl ld sv r]. intros [I1 I2 I3 I4 I5 I6 I7 I8]. cbn [t_client t_load t_server t_receive] in *. pose proof (li_pos _ _ I4). pose proof (li_len _ _ I4).
  destruct I5 as (J1 & J2 & J3), I7 as (K1 & K2 & K3).
  destruct (tx_queue (cl_core cl)) as [|k q] eqn:Hq; cycle 1.
  { right. destruct I6 as (n & Hn & Hr). 
    set (d := RxPacket (rx_meta req) (rx_interface req) [] 0 (tp_data k)). pose proof (data_step_ok sv r k q oq d) as K.
    destruct K as (P & sv' & r' & acks & E & _); try done; [by exists n|]. destruct Hr as (_ & Hl & Ty & _).
    eexists. apply (transfer_data cl ld sv r k q d [] r' sv' Hq Ty eq_refl); [lia|exact P|exact E]. }
  destruct (tx_queue (sv_core sv)) as [|k q] eqn:Hqs; cycle 1.
  { right. inversion_clear K3 as [|? ? [Ty Fl] K4]. destruct (ack_step_ok cl i c (tp_data k) I2 Fl) as (c1 & E & _). eexists. eapply transfer_ack; [done|]. by rewrite Ty. }
  cbn [covers] in I6. destruct (Z.eq_dec (ld_data_len ld) 0) as [E0|E0].
  - left. pose proof (li_packet _ _ I4) as Pk. destruct (data_buf ld); [lia|]. split; [unfold load_step; cbn; by rewrite E0|]. cbn.
    assert (Ea : received r = zlen D) by lia. split; [lia|]. split; [done|]. rewrite J3, Ea. by rewrite ztake_ge.
  - right. destruct (load_step_next cl i c ld oq I1 I2 I4) as (ld' & cl' & _ & _ & _ & E & _); [lia| |eexists; by eapply transfer_send].
    destruct (data_buf ld) eqn:Eb; [by left|]. right. unfold pending_packet in I8. rewrite Eb in I8.
    change (zlen (@nil tx_packet)) with 0 in I8. destruct K1 as [_ K1]. lia.
Qed.

Lemma transfer_runs n s s' i c oq : transfer_inv s i c oq -> nsteps transfer_step n s s' ->
  exists c' oq', transfer_inv s' i c' oq' /\ Z.of_nat n + measure s' <= measure s.
Proof.
  intros I R. revert c oq I. induction R as [s|n s1 s2 s3 S R IH]; intros c oq I; [exists c, oq; split; [done|lia]|].
  destruct (transfer_step_inv _ _ _ _ _ I S) as (c2 & oq2 & I2 & M2). destruct (IH _ _ I2) as (c3 & oq3 & I3 & M3). exists c3, oq3. split; [done|lia].
Qed.

Lemma measure_nonneg s i c oq : transfer_inv s i c oq -> 0 <= measure s.
Proof.
  intros I. pose proof (li_pos _ _ (ti_load _ _ _ _ I)). unfold measure. pose proof (zlen_nonneg (tx_queue (cl_core (t_client s)))).
  pose proof (zlen_nonneg (tx_queue (sv_core (t_server s)))). lia.
Qed.

(** A packet delivered is a pass of the server's loop. *)
Lemma receive_loop_pass fuel (sv : server A) r d s rest r' sv' :
  rpc_server_pull_data stale id [Some d] = (inl d, s) -> 0 < remaining r -> sv_data sv = Some d :: rest ->
  receive_packet ssec sh sf sm stale (set_data sv rest) req d id expected (ack_period p) r = Done (inl r', sv') ->
  receive_loop ssec sh sf sm stale (S fuel) sv req id expected (ack_period p) false r =
    receive_loop ssec sh sf sm stale fuel sv' req id expected (ack_period p) false r'.
Proof.
  intros P Hr Hd R. cbn [receive_loop]. rewrite (proj2 (Z.ltb_lt 0 _) Hr), Hd. cbn [negb]. unfold rpc_server_pull_data in *. cbn [pull_data_core] in *.
  destruct (negb (data_request_id stale d =? id)); [done|]. destruct (true && _); [done|]. rewrite R. done.
Qed.

Lemma transfer_start_inv cl i c now buffer ld cl0 sv :
  cl_interface cl = Some dev -> find_cmd_ctx cl id = Some (i, c) -> tx_queue (cl_core cl) = [] ->
  total_len p = zlen D -> 0 < zlen buffer -> zlen buffer mod 4 = 0 -> T = ack_period p * Z.max 1 (pipelining p) ->
  load_start cl id 0 now buffer (Some p) = (inl ld, cl0) ->
  tx_queue (sv_core sv) = [] -> acks_ok sv -> data_packet_ack_counter sv = 0 ->
  (exists c0, transfer_inv (Transfer cl0 ld sv (ReceiveState (zlen D) 0 0 0)) i c0 0) /\ ld_data_len ld = zlen D /\ tx_queue (cl_core cl0) = [].
Proof.
  intros Hi Hf Hq Hl Hb1 Hb2 ET R Hqs Hok Hcn. unfold load_start in R. rewrite Hf in R. cbn [negb Z.modulo Z.div_eucl Z.eqb load_params] in R.
  rewrite (proj2 (Z.eqb_neq (ack_period p) 0)) in R by lia. cbn [negb] in R.
  assert (Hst : (if 1 <? pipelining p then ack_period p * pipelining p else ack_period p) = T) by (destruct (Z.ltb_spec 1 (pipelining p)); nia).
  rewrite Hst, give_tokens_add in R by (unfold UINT32_MAX; lia). injection R as <- <-. split; [|by rewrite Hl].
  pose proof (zlen_nonneg D). eexists. constructor; cbn [t_client t_load t_server t_receive set_ctx cl_interface cl_core remaining received crc]; rewrite ?Hq, ?Hqs; try done.
  - apply (find_set cl i c _ Hf). by apply list_find_Some in Hf as (_ & ? & _).
  - split; [done|]. cbn [ctx_tx_tokens]. lia.
  - constructor; cbn [ld_offset ld_data_len buffer_remaining bytes_offset ld_buffer data_buf]; rewrite ?Hl; try done; lia.
  - split; [lia|]. split; [lia|]. rewrite ztake_0 by lia. by rewrite crc32_nil.
  - split; [done|]. split; [lia|constructor].
  - intros _. change (zlen (@nil tx_packet)) with 0. unfold pending_packet. cbn [data_buf ctx_tx_tokens]. lia.
Qed.

(** C4.  An upload completes.  The acknowledgement period is 1 to 8 packets (the server never
    acknowledges with a larger one, and the client then waits for tokens until it times
    out), the buffer of the client has a positive multiple of 4 bytes, the client's
    interface takes messages of 12 bytes or more, the server's interface is connected, the
    loader returns the data, and the links deliver every packet, in order.  Then in every
    interleaving of the client's loop, the delivery of data packets to the server and the
    delivery of acknowledgements to the client, there is always a next step until the
    client's loop has returned 0 and the server has received exactly the data, with its
    checksum, and every run ends within three steps per byte: client and server never wait
    for each other, whatever the pipelining and the sizes within these bounds. *)
Theorem transfer_completes cl i c now buffer ld cl0 sv :
  cl_interface cl = Some dev -> find_cmd_ctx cl id = Some (i, c) -> tx_queue (cl_core cl) = [] ->
  total_len p = zlen D -> 0 < zlen buffer -> zlen buffer mod 4 = 0 -> T = ack_period p * Z.max 1 (pipelining p) ->
  load_start cl id 0 now buffer (Some p) = (inl ld, cl0) ->
  tx_queue (sv_core sv) = [] -> acks_ok sv -> data_packet_ack_counter sv = 0 ->
  forall n s, nsteps transfer_step n (Transfer cl0 ld sv (ReceiveState (zlen D) 0 0 0)) s ->
    Z.of_nat n <= 3 * zlen D /\ (transfer_done s \/ exists s', transfer_step s s').
Proof.
  intros Hi Hf Hq Hl Hb1 Hb2 ET R Hqs Hok Hcn n s Hn.
  destruct (transfer_start_inv cl i c now buffer ld cl0 sv Hi Hf Hq Hl Hb1 Hb2 ET R Hqs Hok Hcn) as ([c0 I] & E1 & E2).
  destruct (transfer_runs _ _ _ _ _ _ I Hn) as (c' & oq' & I' & M). pose proof (measure_nonneg _ _ _ _ I').
  unfold measure in M at 2. cbn [t_client t_load t_server] in M. rewrite E1, E2, Hqs in M. change (zlen (@nil tx_packet)) with 0 in M.
  split; [lia|]. by eapply transfer_progress.
Qed.
End transfer.

(** ** An instance *)

(** 10 bytes, in packets of 4, acknowledged two by two, through a buffer of 8 bytes. *)
Definition demo_bytes : list Z := [1; 2; 3; 4; 5; 6; 7; 8; 9; 10].
Definition demo_params : auto_load_params := AutoLoad (fun o n => (0, ztake n (zdrop o demo_bytes))) 10 2 1.
Definition demo_small (_ : Z) (_ : nat) : Z := 51.
Definition demo_uploader : rpc_client :=
  RpcClient (Some EPACKET_INTERFACE_SERIAL) (repeat 0 7) 77 [CmdCtx 77 0x7FFE (Some 3%nat) (Some 500) 500 0 1 0] 0 demo_core [].
Definition demo_loaded : (load_state + Z) * rpc_client := Eval vm_compute in load_start demo_uploader 77 0 0 (repeat 0 8) (Some demo_params).

Definition demo_load0 : load_state := match demo_loaded.1 with inl ld => ld | inr _ => LoadState 0 0 0 0 [] None 0 0 end.
Definition demo_sent : load_result * rpc_client :=
  Eval vm_compute in
    match load_step demo_sec demo_header demo_footer demo_small 1000 demo_clock demo_loaded.2 77 demo_params demo_load0 with
    | Done r => r
    | _ => (LoadReturn 0, demo_uploader)
    end.
Definition demo_load1 : load_state := match demo_sent.1 with LoadNext ld => ld | LoadReturn _ => demo_load0 end.

Lemma transfer_completes_witness :
  let step := transfer_step demo_sec demo_sec demo_header demo_footer demo_header demo_footer demo_small demo_size 1000 demo_clock false demo_stale demo_receive 77 10 demo_params in
  let s := Transfer demo_sent.2 demo_load1 (demo_server []) (ReceiveState 10 0 0 0) in
  length (tx_queue (cl_core demo_sent.2)) = 1%nat /\ Z.of_nat 1 <= 3 * zlen demo_bytes /\
  (transfer_done demo_sec demo_header demo_footer demo_small 1000 demo_clock 77 demo_params demo_bytes s \/ exists s', step s s').
Proof.
  split; [reflexivity|].
  apply (transfer_completes demo_sec demo_sec demo_header demo_footer demo_header demo_footer demo_small demo_size 1000 demo_clock false demo_stale demo_receive 77 10 demo_params
    demo_bytes 2 EPACKET_INTERFACE_SERIAL) with (cl := demo_uploader) (i := 0%nat) (c := CmdCtx 77 0x7FFE (Some 3%nat) (Some 500) 500 0 1 0)
    (now := 0) (buffer := repeat 0 8) (ld := demo_load0) (cl0 := demo_loaded.2) (sv := demo_server []); try reflexivity.
  - unfold in_u. lia.
  - cbn. lia.
  - cbn. lia.
  - intros n. vm_compute. discriminate.
  - split; [reflexivity|cbn; lia].
  - apply nsteps_once. apply transfer_send. vm_compute. reflexivity.
Defined.
