(* ===== verification/RpcLogger.v ===== *)
(** * RPC commands on the data logger

    [subsys/rpc/commands]: [data_logger_read.c] with its three commands, and the commands of
    [data_logger_state.c] and [data_logger_erase.c].  A read sends the bytes of the blocks in
    data packets and reports their number and checksum.

    The model has one logger device, that of the build option which is enabled. *)

From stdpp Require Import base tactics numbers list.
From Stdlib Require Import ZArith Lia.
From S2P Require Import Prelude DataLogger EPacketKeys EPacketCrypt EPacketCore RpcServer.

Local Open Scope Z_scope.
Local Open Scope infuse_scope.

Definition EBADF : Z := 9.

Definition RPC_ENUM_DATA_LOGGER_FLASH_ONBOARD : Z := 1.
Definition RPC_ENUM_DATA_LOGGER_FLASH_REMOVABLE : Z := 2.

(** The logger, [device_is_ready] of it, and the working memory of the commands. *)
Record logger_app (B : Type) := LoggerApp { la_dev : dl_dev B; la_ready : bool; command_working_mem : list Z }.
Arguments LoggerApp {B}.
Arguments la_dev {B}.
Arguments la_ready {B}.
Arguments command_working_mem {B}.

Record logger_build := LoggerBuild {
  CONFIG_DATA_LOGGER_FLASH_MAP : bool;
  CONFIG_DATA_LOGGER_EXFAT : bool;
  CONFIG_DATA_LOGGER_SHIM : bool;
}.

(** The [switch] statements: whether the build has the logger. *)
Definition logger_present (k : logger_build) (logger : Z) : bool :=
  CONFIG_DATA_LOGGER_FLASH_MAP k && (logger =? RPC_ENUM_DATA_LOGGER_FLASH_ONBOARD) ||
  CONFIG_DATA_LOGGER_EXFAT k && (logger =? RPC_ENUM_DATA_LOGGER_FLASH_REMOVABLE).
Definition logger_present_or_shim (k : logger_build) (logger : Z) : bool :=
  logger_present k logger ||
  CONFIG_DATA_LOGGER_SHIM k && ((logger =? RPC_ENUM_DATA_LOGGER_FLASH_ONBOARD) || (logger =? RPC_ENUM_DATA_LOGGER_FLASH_REMOVABLE)).

(** struct common_state; the interface, the address, the authentication and the identifier
    are those of the request, and [logger_state] is an argument of [do_read]. *)
Record common_state := CommonState {
  lr_block_num : Z;
  lr_blocks_remaining : Z;
  lr_bytes_remaining : Z;
  lr_sent_len : Z;
  lr_sent_crc : Z;
  lr_first_offset : Z;
}.

Section commands.
Context {B : Type} `{PmRuntime B} `{Crc32} (cfg : dl_config) (api : data_logger_api B) (build : logger_build) (sec : security).
Context (header_size footer_size : Z -> Z) (max_packet_size : Z -> nat -> Z) (stale : rx_packet -> list Z).
Context (ticks_per_sec : Z) (clock : nat -> Z * Z).
Implicit Types sv : server (logger_app B).

Abbreviation respond := (rpc_response_simple_if header_size footer_size max_packet_size).

Definition set_dev sv (dev : dl_dev B) (mem : list Z) : server (logger_app B) := set_app sv (LoggerApp dev (la_ready (sv_app sv)) mem).

(** ** [data_logger_read.c] *)

(** [data_buf] with the metadata given to it. *)
Definition data_buf : Type := tx_buf * epacket_tx_metadata.

(** The part of the inner loop that sends a buffer; also the flush at the end. *)
Definition send_data sv (p : rx_packet) (st : common_state) (b : data_buf) : common_state * server (logger_app B) :=
  let payload := zdrop sizeof_rpc_data (tb_data b.1) in
  (CommonState (lr_block_num st) (lr_blocks_remaining st) (lr_bytes_remaining st) (u32 (lr_sent_len st + zlen payload)) (crc32_ieee_update (lr_sent_crc st) payload) (lr_first_offset st),
   set_core sv (epacket_queue (sv_core sv) (TxPacket (rx_interface p) (rx_address p) b.2 (tb_data b.1)))).

(** A new data message, if there is none: [None] when the connection has been lost. *)
Definition open_data sv (p : rx_packet) (request_id : Z) (st : common_state) (buf : option data_buf) (limit_tx tx_count : Z)
  : exec (option data_buf * Z * server (logger_app B)) :=
  match buf with
  | Some b => Done (Some b, limit_tx, sv)
  | None =>
      let '(limit_tx, sv) := rate_limit ticks_per_sec clock sv limit_tx tx_count in
      let! (b, sv) := data_packet header_size footer_size max_packet_size sv (rx_interface p) request_id (lr_sent_len st) in
      Done ((fun b => (b, epacket_set_tx_metadata sec (sv_core sv) (rx_auth (rx_meta p)) 0 INFUSE_RPC_DATA)) <$> b, limit_tx, sv)
  end.

Definition with_bytes (st : common_state) (n : Z) : common_state :=
  CommonState (lr_block_num st) (lr_blocks_remaining st) n (lr_sent_len st) (lr_sent_crc st) (lr_first_offset st).

(** The inner loop: the block in [work_mem] into messages. *)
Fixpoint push_loop (fuel : nat) sv (p : rx_packet) (request_id block_size : Z) (st : common_state) (buf : option data_buf)
  (block_remaining block_offset limit_tx tx_count : Z) : exec (common_state * option data_buf * Z * Z * server (logger_app B)) :=
  match fuel with
  | O => NoFuel
  | S fuel =>
      if block_remaining =? 0 then Done (st, buf, limit_tx, tx_count, sv)
      else
        let! (buf, limit_tx, sv) := open_data sv p request_id st buf limit_tx tx_count in
        match buf with
        | None => Done (with_bytes st 0, None, limit_tx, tx_count, sv)
        | Some (b, meta) =>
            let work_mem := command_working_mem (sv_app sv) in
            let tail := Z.min block_remaining (tb_room b) in
            let tail := if block_size <? block_remaining then round_down4 tail else tail in
            if zlen work_mem <? block_offset + tail then Fault (* past the end of the working memory *)
            else
              let! b := buf_add_mem b (ztake tail (zdrop block_offset work_mem)) in
              let st := with_bytes st (u32 (lr_bytes_remaining st - tail)) in
              if tb_room b <? 4 then
                let '(st, sv) := send_data sv p st (b, meta) in
                push_loop fuel sv p request_id block_size st None (u16 (block_remaining - tail)) (u16 (block_offset + tail)) limit_tx (u16 (zlen (tb_data b)))
              else push_loop fuel sv p request_id block_size st (Some (b, meta)) (u16 (block_remaining - tail)) (u16 (block_offset + tail)) limit_tx tx_count
        end
  end.

(** The outer loop; [rc] is the result of the last read. *)
Fixpoint read_loop (fuel : nat) sv (p : rx_packet) (request_id block_size : Z) (st : common_state) (buf : option data_buf) (limit_tx tx_count rc : Z)
  : exec (Z * common_state * option data_buf * server (logger_app B)) :=
  match fuel with
  | O => NoFuel
  | S fuel =>
      if lr_bytes_remaining st =? 0 then Done (rc, st, buf, sv)
      else
        let! (rc, mem, dev) := data_logger_block_read api (la_dev (sv_app sv)) (lr_block_num st) 0 block_size in
        let sv := set_dev sv dev (zwrite 0 (ztake block_size mem) (command_working_mem (sv_app sv))) in
        if rc <? 0 then Done (rc, st, buf, sv)
        else
          let block_remaining := Z.min (u16 (block_size - lr_first_offset st)) (lr_bytes_remaining st) in
          let block_offset := lr_first_offset st in
          let st := CommonState (u32 (lr_block_num st + 1)) (lr_blocks_remaining st) (lr_bytes_remaining st) (lr_sent_len st) (lr_sent_crc st) 0 in
          let! (st, buf, limit_tx, tx_count, sv) := push_loop (S fuel) sv p request_id block_size st buf block_remaining block_offset limit_tx tx_count in
          read_loop fuel sv p request_id block_size st buf limit_tx tx_count rc
  end.

Definition do_read (fuel : nat) sv (p : rx_packet) (request_id : Z) (l : data_logger_state) (st : common_state) : exec (Z * common_state * server (logger_app B)) :=
  if zlen (command_working_mem (sv_app sv)) <? st_block_size l then Done (- ENOMEM, st, sv)
  else
    let limit_tx := (clock (allocs (sv_core sv))).1 in
    let st := if lr_bytes_remaining st =? 0 then with_bytes st (u32 (lr_blocks_remaining st * st_block_size l)) else st in
    let! (rc, st, buf, sv) := read_loop fuel sv p request_id (st_block_size l) st None limit_tx 0 0 in
    match buf with
    | None => Done (rc, st, sv)
    | Some b => let '(st, sv) := send_data sv p st b in Done (rc, st, sv)
    end.

(** The error, or the state of the logger; the fields of [state] start at 0. *)
Definition core_init sv (logger : Z) : Z + data_logger_state :=
  if negb (logger_present_or_shim build logger) then inl (- ENODEV)
  else if negb (la_ready (sv_app sv)) then inl (- EBADF)
  else inr (data_logger_get_state cfg api (la_dev (sv_app sv))).

Definition rpc_command_data_logger_read (fuel : nat) sv (request : rx_packet) : exec (option tx_buf * server (logger_app B)) :=
  let dev := rx_interface request in
  match core_init sv (req_field stale request 11 1) with
  | inl rc => let '(response, sv) := respond sv dev rc (data_response 0 0) in Done (Some response, sv)
  | inr l =>
      let start_block := req_field stale request 12 4 in
      let last_block := req_field stale request 16 4 in
      let last_block := if last_block =? UINT32_MAX then u32 (st_current_block l - 1) else last_block in
      if (start_block <? st_earliest_block l) || (st_current_block l <=? last_block) || (last_block <? start_block)
      then let '(response, sv) := respond sv dev (- EINVAL) (data_response 0 0) in Done (Some response, sv)
      else
        let st := CommonState start_block (u32 (last_block - start_block + 1)) 0 0 0 0 in
        let sv := rpc_command_runner_request_unref sv in
        let! (rc, st, sv) := do_read fuel sv request (req_request_id stale request) l st in
        let '(response, sv) := respond sv dev rc (data_response (lr_sent_len st) (lr_sent_crc st)) in
        Done (Some response, sv)
  end.

Definition available_response (len crc current_block start_block_actual block_size : Z) : list Z :=
  data_response len crc ++ le_put 4 current_block ++ le_put 4 start_block_actual ++ le_put 2 block_size.

Definition rpc_command_data_logger_read_available (fuel : nat) sv (request : rx_packet) : exec (option tx_buf * server (logger_app B)) :=
  let dev := rx_interface request in
  match core_init sv (req_field stale request 11 1) with
  | inl rc => let '(response, sv) := respond sv dev rc (available_response 0 0 0 0 0) in Done (Some response, sv)
  | inr l =>
      let block_start := Z.max (req_field stale request 12 4) (st_earliest_block l) in
      let blocks_to_end := u32 (st_current_block l - block_start) in
      let st := CommonState block_start (Z.min (req_field stale request 16 4) blocks_to_end) 0 0 0 0 in
      let sv := rpc_command_runner_request_unref sv in
      let! (rc, st, sv) := do_read fuel sv request (req_request_id stale request) l st in
      let l := data_logger_get_state cfg api (la_dev (sv_app sv)) in
      let '(response, sv) := respond sv dev rc (available_response (lr_sent_len st) (lr_sent_crc st) (st_current_block l) block_start (st_block_size l)) in
      Done (Some response, sv)
  end.

(** struct rpc_struct_data_logger_chunk *)
Record chunk := Chunk { start_block : Z; start_offset : Z; num_bytes : Z }.
Definition sizeof_chunk : Z := 10.
Definition chunk_at (mem : list Z) (off : Z) : chunk := Chunk (field mem off 4) (field mem (off + 4) 2) (field mem (off + 6) 4).

(** The loop from chunk number [i] on, [n] of them; [ROUND_UP] on 32 bits. *)
Fixpoint chunks_loop (fuel n : nat) (i : Z) sv (p : rx_packet) (l : data_logger_state) (st : common_state) (rc : Z) : exec (Z * common_state * server (logger_app B)) :=
  match n with
  | O => Done (rc, st, sv)
  | S n =>
      let info := chunk_at (rx_data p ++ stale p) (13 + i * sizeof_chunk) in
      if st_block_size l =? 0 then Fault (* division by zero *)
      else
        let st := CommonState (start_block info) (u32 (num_bytes info + (st_block_size l - 1)) / st_block_size l * st_block_size l / st_block_size l) (num_bytes info) (lr_sent_len st) (lr_sent_crc st) (start_offset info) in
        let! (rc, st, sv) := do_read fuel sv p (req_request_id stale p) l st in
        if rc <? 0 then Done (rc, st, sv) else chunks_loop fuel n (i + 1) sv p l st rc
  end.

Definition chunks_response (len crc current_block block_size : Z) : list Z := data_response len crc ++ le_put 4 current_block ++ le_put 2 block_size.

Definition rpc_command_data_logger_read_chunks (fuel : nat) sv (request : rx_packet) : exec (option tx_buf * server (logger_app B)) :=
  let dev := rx_interface request in
  match core_init sv (req_field stale request 11 1) with
  | inl rc => let '(response, sv) := respond sv dev rc (chunks_response 0 0 0 0) in Done (Some response, sv)
  | inr l =>
      let! (rc, st, sv) := chunks_loop fuel (Z.to_nat (req_field stale request 12 1)) 0 sv request l (CommonState 0 0 0 0 0 0) 0 in
      let l := data_logger_get_state cfg api (la_dev (sv_app sv)) in
      let '(response, sv) := respond sv dev rc (chunks_response (lr_sent_len st) (lr_sent_crc st) (st_current_block l) (st_block_size l)) in
      Done (Some response, sv)
  end.

(** ** [data_logger_state.c] *)

Definition data_logger_query sv (logger_id : Z) : Z + data_logger_state :=
  if negb (logger_present build logger_id) then inl (- ENODEV)
  else if negb (la_ready (sv_app sv)) then inl (- EBADF)
  else inr (data_logger_get_state cfg api (la_dev (sv_app sv))).

Definition state_fields (s : data_logger_state) : list Z :=
  le_put 8 (st_bytes_logged s) ++ le_put 4 (st_logical_blocks s) ++ le_put 4 (st_physical_blocks s) ++ le_put 4 (st_boot_block s) ++
  le_put 4 (st_current_block s) ++ le_put 4 (st_earliest_block s) ++ le_put 2 (st_block_size s) ++ le_put 2 (st_block_overhead s).

(** [uptime] in seconds. *)
Definition rpc_command_data_logger_state (uptime : Z) sv (request : rx_packet) : exec (option tx_buf * server (logger_app B)) :=
  let '(rc, rsp) := match data_logger_query sv (req_field stale request 6 1) with
    | inl rc => (rc, repeat 0 46)
    | inr s => (0, repeat 0 8 ++ state_fields s ++ le_put 2 (Z.min (st_erase_unit s) UINT16_MAX) ++ le_put 4 uptime)
    end in
  let '(response, sv) := rpc_response_simple_req header_size footer_size max_packet_size sv request rc rsp in Done (Some response, sv).

Definition rpc_command_data_logger_state_v2 (uptime : Z) sv (request : rx_packet) : exec (option tx_buf * server (logger_app B)) :=
  let '(rc, rsp) := match data_logger_query sv (req_field stale request 6 1) with
    | inl rc => (rc, repeat 0 48)
    | inr s => (0, repeat 0 8 ++ state_fields s ++ le_put 4 (st_erase_unit s) ++ le_put 4 uptime)
    end in
  let '(response, sv) := rpc_response_simple_req header_size footer_size max_packet_size sv request rc rsp in Done (Some response, sv).

(** ** [data_logger_erase.c] *)

Definition rpc_command_data_logger_erase sv (request : rx_packet) : exec (option tx_buf * server (logger_app B)) :=
  let erase_empty := req_field stale request 7 1 in
  let init_override := erase_empty =? 0xAA in
  let erase_all := negb (erase_empty =? 0) in
  let '(rc, sv) :=
    if negb (logger_present build (req_field stale request 6 1)) then (- ENODEV, sv)
    else
      let sv := rpc_command_runner_request_unref sv in
      if negb (la_ready (sv_app sv)) && negb init_override then (- EBADF, sv)
      else
        let '(rc, dev, _) := data_logger_erase api (la_dev (sv_app sv)) erase_all in
        (rc, set_dev sv dev (command_working_mem (sv_app sv))) in
  let '(response, sv) := respond sv (rx_interface request) rc (repeat 0 8) in
  Done (Some response, sv).
End commands.
