(* ===== verification/RpcLoggerProps.v ===== *)
(** * Remote reads of the data logger: properties

    The data packets of a read carry the logged bytes, in order and complete. *)

From stdpp Require Import base tactics numbers list.
From Stdlib Require Import ZArith Lia.
From S2P Require Import Prelude DataLogger DataLoggerSpec FlashMap DataLoggerProps EPacketKeys EPacketCrypt EPacketCore EPacketCoreProps RpcServer RpcServerProps RpcLogger.

Local Open Scope Z_scope.
Local Open Scope infuse_scope.

Lemma payloads_app id a : forall off b, payloads id off (a ++ b) = payloads id off a ++ payloads id (off + zlen (mjoin a)) b.
Proof.
  induction a as [|c a IH]; intros off b; [cbn; by rewrite Z.add_0_r|]. cbn [app payloads]. rewrite IH. f_equal. f_equal.
  change (mjoin (c :: a)) with (c ++ mjoin a). rewrite zlen_app. f_equal. lia.
Qed.

Section props.
Context {B : Type} `{PmRuntime B} `{Crc32} (cfg : dl_config) (api : data_logger_api B) (build : logger_build) (sec : security).
Context (header_size footer_size : Z -> Z) (max_packet_size : Z -> nat -> Z) (stale : rx_packet -> list Z).
Context (ticks_per_sec : Z) (clock : nat -> Z * Z).
Implicit Types sv : server (logger_app B).

Abbreviation room := (interface_room header_size footer_size max_packet_size).
Abbreviation queue sv := (tx_queue (sv_core sv)).
Abbreviation push := (push_loop sec header_size footer_size max_packet_size ticks_per_sec clock).

(** The message that is being filled: its header, and the bytes in it. *)
Definition buf_ok (id : Z) (st : common_state) (buf : option data_buf) (pend : list Z) : Prop :=
  match buf with
  | None => pend = []
  | Some (b, meta) => tb_data b = le_put 4 id ++ le_put 4 (lr_sent_len st) ++ pend /\ 4 <= tb_room b /\ tx_type meta = INFUSE_RPC_DATA
  end.

(** What was queued: the chunks, from where the stream was. *)
Definition streamed (p : rx_packet) (id : Z) (st : common_state) (chunks : list (list Z)) (st' : common_state) sv sv' : Prop :=
  lr_sent_len st' = lr_sent_len st + zlen (mjoin chunks) /\ lr_sent_crc st' = crc32_ieee_update (lr_sent_crc st) (mjoin chunks) /\
  exists ps, queue sv' = queue sv ++ ps /\ tp_data <$> ps = payloads id (lr_sent_len st) chunks /\
    Forall (fun k => tp_dev k = rx_interface p /\ tp_dest k = rx_address p /\ tx_type (tp_meta k) = INFUSE_RPC_DATA) ps.

Lemma streamed_refl p id st sv sv' st' : queue sv' = queue sv -> lr_sent_len st' = lr_sent_len st -> lr_sent_crc st' = lr_sent_crc st -> streamed p id st [] st' sv sv'.
Proof. intros Hq Hl Hc. split; [change (mjoin (@nil (list Z))) with (@nil Z); change (zlen (@nil Z)) with 0; lia|]. split; [by rewrite crc32_nil|]. exists []. rewrite app_nil_r. by repeat split. Qed.

Lemma streamed_trans p id st1 st2 st3 a b sv1 sv2 sv3 : streamed p id st1 a st2 sv1 sv2 -> streamed p id st2 b st3 sv2 sv3 -> streamed p id st1 (a ++ b) st3 sv1 sv3.
Proof.
  intros (L1 & C1 & ps1 & Q1 & D1 & F1) (L2 & C2 & ps2 & Q2 & D2 & F2). unfold streamed. rewrite join_app, zlen_app. split; [lia|]. split; [by rewrite C2, C1, crc32_app|].
  exists (ps1 ++ ps2). split; [by rewrite Q2, Q1, app_assoc|]. split; [by rewrite fmap_app, D1, D2, payloads_app, L1|]. by apply Forall_app.
Qed.

Lemma send_data_ok sv p id st b meta pend : tb_data b = le_put 4 id ++ le_put 4 (lr_sent_len st) ++ pend -> tx_type meta = INFUSE_RPC_DATA ->
  0 <= lr_sent_len st -> lr_sent_len st + zlen pend < 2 ^ 32 ->
  let '(st', sv') := send_data sv p st (b, meta) in
  streamed p id st [pend] st' sv sv' /\ sv_app sv' = sv_app sv /\ lr_bytes_remaining st' = lr_bytes_remaining st /\ lr_block_num st' = lr_block_num st /\ lr_first_offset st' = lr_first_offset st.
Proof.
  intros Hd Ht Hs0 Hmax. unfold send_data. cbn [fst snd]. assert (Hz : zdrop sizeof_rpc_data (tb_data b) = pend) by (rewrite Hd, app_assoc; by apply zdrop_app). rewrite Hz.
  pose proof (zlen_nonneg pend). split; [|done]. unfold streamed. cbn [lr_sent_len lr_sent_crc]. replace (mjoin [pend]) with pend by (cbn; by rewrite app_nil_r). rewrite uwrap_small by lia.
  split; [done|]. split; [done|]. eexists [_]. split; [done|]. split; [cbn; by rewrite Hd|]. by constructor.
Qed.

(** The inner loop sends the part of the working memory it is asked to. *)
Lemma push_loop_ok p id bs fuel : forall sv st buf pend r off l t,
  (forall n, 12 <= room (rx_interface p) n) -> buf_ok id st buf pend -> 0 <= r <= bs -> 0 <= off -> off + r <= zlen (command_working_mem (sv_app sv)) -> off + r < 2 ^ 16 ->
  r <= lr_bytes_remaining st < 2 ^ 32 -> 0 <= lr_sent_len st -> lr_sent_len st + zlen pend + r < 2 ^ 32 -> (Z.to_nat r < fuel)%nat ->
  exists chunks pend' st' buf' l' t' sv', push fuel sv p id bs st buf r off l t = Done (st', buf', l', t', sv') /\
    streamed p id st chunks st' sv sv' /\ buf_ok id st' buf' pend' /\ mjoin chunks ++ pend' = pend ++ ztake r (zdrop off (command_working_mem (sv_app sv))) /\
    sv_app sv' = sv_app sv /\ lr_bytes_remaining st' = lr_bytes_remaining st - r /\ lr_block_num st' = lr_block_num st /\ lr_first_offset st' = lr_first_offset st.
Proof.
  induction fuel as [|fuel IH]; intros sv st buf pend r off l t Hroom Hbuf Hr Ho Hmem H16 Hbytes Hs0 Hmax Hf; [lia|]. cbn [push_loop].
  destruct (Z.eqb_spec r 0) as [->|Hr0].
  { exists [], pend, st, buf, l, t, sv. split; [done|]. split; [by apply streamed_refl|]. split; [done|]. rewrite (ztake_0 0), app_nil_r by done. split; [done|]. split; [done|]. split; [lia|done]. }
  assert (Hopen : exists b meta l1 sv1, open_data sec header_size footer_size max_packet_size ticks_per_sec clock sv p id st buf l t = Done (Some (b, meta), l1, sv1) /\
    buf_ok id st (Some (b, meta)) pend /\ sv_app sv1 = sv_app sv /\ queue sv1 = queue sv).
  { destruct buf as [[b meta]|]; [by exists b, meta, l, sv|]. cbn in Hbuf. subst pend. unfold open_data. destruct (rate_limit _ _ sv l t) as [l1 sv1] eqn:Hrl. apply rate_limit_same in Hrl as (Hs1 & Hq1 & _).
    pose proof (Hroom (allocs (sv_core sv1))) as Hn. destruct (data_packet_ok header_size footer_size max_packet_size sv1 (rx_interface p) id (lr_sent_len st)) as (b & sv2 & -> & Hbd & Hbr & Hs2 & Hq2); [lia|].
    cbn [exec_bind]. do 4 eexists. split; [done|]. split; [|split; [destruct Hs1 as (_ & _ & _ & _ & _ & <-), Hs2 as (_ & _ & _ & _ & _ & ->); done|congruence]].
    cbn [buf_ok]. rewrite app_nil_r. split; [done|]. split; [lia|done]. }
  destruct Hopen as (b & meta & l1 & sv1 & -> & Hb1 & Ha1 & Hq1). destruct Hb1 as (Hbd & Hbr & Hbt). cbn [exec_bind]. rewrite Ha1. set (mem := command_working_mem (sv_app sv)) in *.
  rewrite (proj2 (Z.ltb_ge bs r)) by lia. set (tail := Z.min r (tb_room b)). assert (Ht : 1 <= tail <= r) by lia. rewrite (proj2 (Z.ltb_ge (zlen mem) _)) by lia.
  assert (Hz : zlen (ztake tail (zdrop off mem)) = tail) by (rewrite zlen_ztake; [done|]; rewrite zlen_zdrop; lia).
  rewrite buf_add_mem_ok by (rewrite Hz; lia). cbn [exec_bind tb_room tb_data]. rewrite !uwrap_small by lia. rewrite Hz.
  assert (Hsplit : ztake r (zdrop off mem) = ztake tail (zdrop off mem) ++ ztake (r - tail) (zdrop (off + tail) mem)).
  { rewrite <- (zdrop_zdrop tail off) by lia. rewrite <- (ztake_zdrop tail (zdrop off mem)) at 1. rewrite ztake_app_ge by lia. by rewrite Hz. }
  set (st1 := with_bytes st (lr_bytes_remaining st - tail)). set (piece := ztake tail (zdrop off mem)) in *. pose proof (zlen_nonneg pend).
  destruct (Z.ltb_spec (tb_room b - tail) 4) as [Hlt|Hge].
  - pose proof (send_data_ok sv1 p id st1 (TxBuf (tb_data b ++ piece) (tb_room b - tail)) meta (pend ++ piece)) as Hsend. cbn [tb_data] in Hsend. rewrite Hbd, <- !app_assoc, zlen_app in Hsend.
    specialize (Hsend eq_refl Hbt Hs0 ltac:(cbn; lia)). rewrite Hbd, <- !app_assoc. destruct (send_data sv1 p st1 _) as [st2 sv2]. destruct Hsend as (Hs & Ha2 & Hb2 & Hn2 & Hf2).
    pose proof Hs as (HL & _). cbn [st1 with_bytes lr_sent_len lr_bytes_remaining lr_block_num lr_first_offset] in HL, Hb2, Hn2, Hf2. replace (mjoin [pend ++ piece]) with (pend ++ piece) in HL by (cbn; by rewrite app_nil_r). rewrite zlen_app, Hz in HL.
    edestruct (IH sv2 st2 None [] (r - tail) (off + tail)) as (chunks & pend' & st' & buf' & l' & t' & sv' & -> & Hs' & Hbuf' & Hj & Ha' & Hb' & Hn' & Hf');
      [done|done|lia|lia|rewrite Ha2, Ha1; fold mem; lia|lia|lia|lia|change (zlen (@nil Z)) with 0; lia|lia|].
    exists ([pend ++ piece] ++ chunks), pend', st', buf', l', t', sv'. split; [done|]. split; [eapply streamed_trans; [|exact Hs']; destruct Hs as (? & ? & ps & Hq & ?); split; [done|]; split; [done|]; exists ps; by rewrite Hq, Hq1|].
    split; [done|]. split; [rewrite join_app, <- app_assoc, Hj, Ha2, Ha1, Hsplit; cbn [app mjoin list_join]; by rewrite app_nil_r, <- app_assoc|]. split; [congruence|]. split; [lia|]. split; congruence.
  - edestruct (IH sv1 st1 (Some (TxBuf (tb_data b ++ piece) (tb_room b - tail), meta)) (pend ++ piece) (r - tail) (off + tail)) as (chunks & pend' & st' & buf' & l' & t' & sv' & -> & Hs' & Hbuf' & Hj & Ha' & Hb' & Hn' & Hf');
      [done|cbn [buf_ok tb_data tb_room]; rewrite Hbd, <- !app_assoc; done|lia|lia|rewrite Ha1; fold mem; lia|lia|cbn; lia|done|cbn [st1 with_bytes lr_sent_len]; rewrite zlen_app; lia|lia|].
    exists chunks, pend', st', buf', l', t', sv'. split; [done|]. split; [destruct Hs' as (? & ? & ps & Hq & ?); split; [done|]; split; [done|]; exists ps; by rewrite Hq, Hq1|].
    split; [done|]. split; [rewrite Hj, Ha1, Hsplit, <- app_assoc; done|]. split; [congruence|]. split; [cbn [st1 with_bytes lr_bytes_remaining] in Hb'; lia|]. done.
Qed.

(** ** Blocks *)

Lemma block_read_data dev idx off len rc mem dev' : data_logger_block_read api dev idx off len = Done (rc, mem, dev') -> dv_data dev' = dv_data dev.
Proof.
  unfold data_logger_block_read. destruct (_ || _); [done|]. destruct (api_read api) as [read|]; [|by intros [= <- <- <-]]. destruct (negb _); [by intros [= <- <- <-]|]. destruct (_ || _); [by intros [= <- <- <-]|].
  destruct (pm_device_runtime_get _) as [rc0 b0]. destruct (rc0 <? 0); [by intros [= <- <- <-]|]. destruct (read _ _ _ _) as [[rc1 m1] b1]. destruct (negb _ && _); [|by intros [= <- <- <-]].
  destruct (read _ _ _ _) as [[rc2 m2] b2]. by intros [= <- <- <-].
Qed.

Context (g : geometry) (wf : B -> Prop) (blk : B -> Z -> list Z) `{!BlockBackend api g wf blk} (Hg : geometry_ok g).

(** A backend that does not fail. *)
Record backend_works : Prop := {
  bw_get b : wf b -> (pm_device_runtime_get b).1 = 0;
  bw_read read b p off n : api_read api = Some read -> wf b -> 0 <= p < gP g -> 0 <= off -> 0 <= n -> p * gBS g + off + n <= gP g * gBS g ->
    (read b p off n).1.1 = 0;
}.

(** The result of reads: 0, or the error of a backend that failed. *)
Definition outcome (rc : Z) : Prop := rc <= 0 /\ (backend_works -> rc = 0).

(** [n] bytes of the log from offset [off] of block [idx] on. *)
Definition read_bytes (log : list (list Z)) (idx off n : Z) : list Z :=
  ztake n (zdrop off (image (log_block g log) idx (Z.to_nat (zlen log - idx)))).

Lemma zlen_log_block dev log idx : dl_inv g wf blk dev log -> earliest_block (dv_data dev) <= idx < zlen log -> zlen (log_block g log idx) = gBS g.
Proof.
  intros Hi Hx. rewrite (inv_earliest _ _ _ _ _ Hi) in Hx. rewrite <- (inv_log_block g wf blk Hg dev log idx Hi Hx). apply bb_len; [apply Hi|]. apply Z.mod_pos_bound. apply Hg.
Qed.

Lemma read_bytes_step log idx off n : 0 <= off < gBS g -> 0 <= n -> idx < zlen log -> zlen (log_block g log idx) = gBS g ->
  let r := Z.min (gBS g - off) n in
  read_bytes log idx off n = ztake r (zdrop off (log_block g log idx)) ++ read_bytes log (idx + 1) 0 (n - r).
Proof.
  intros Ho Hn Hx Hz r. unfold read_bytes. replace (Z.to_nat (zlen log - idx)) with (S (Z.to_nat (zlen log - (idx + 1)))) by lia. cbn [image]. rewrite zdrop_app_le by lia.
  set (A := zdrop off (log_block g log idx)). assert (HA : zlen A = gBS g - off) by (unfold A; rewrite zlen_zdrop; lia). change (zdrop 0 ?l) with l. unfold r.
  destruct (Z.le_gt_cases n (gBS g - off)) as [Hle|Hgt].
  - rewrite Z.min_r, Z.sub_diag, (ztake_0 0), app_nil_r by lia. apply ztake_app_le. lia.
  - rewrite Z.min_l, ztake_app_ge by lia. rewrite HA. f_equal. symmetry. apply ztake_ge. lia.
Qed.

Lemma block_read_works dev log idx rc mem dev' :
  backend_works -> dl_inv g wf blk dev log -> Z.land (flags (dv_data dev)) DATA_LOGGER_FLAGS_ERASING = 0 -> earliest_block (dv_data dev) <= idx < zlen log ->
  data_logger_block_read api dev idx 0 (gBS g) = Done (rc, mem, dev') -> rc = 0.
Proof.
  intros [Hget Hread] Hi Hf Hx. pose proof (g_BS _ Hg) as HBS. pose proof (g_P _ Hg) as HP. destruct (inv_geometry _ _ _ _ _ Hi) as (EP & EB & _).
  pose proof (zlen_nonneg log). pose proof (window_u32 g Hg (zlen log) (conj (zlen_nonneg log) (inv_capacity _ _ _ _ _ Hi))) as Hw.
  assert (Hear0 : 0 <= earliest_block (dv_data dev)) by (rewrite (inv_earliest _ _ _ _ _ Hi); pose proof (frontier_bounds g Hg (zlen log) (zlen_nonneg log)); lia).
  assert (Hq : Z.quot (0 + gBS g - 1) (gBS g) = 0) by (apply Z.quot_small; lia). unfold data_logger_block_read. rewrite EP, EB, (inv_current _ _ _ _ _ Hi), Hf, Hq.
  replace ((gBS g =? 0) || (gP g =? 0)) with false by lia. rewrite (uwrap_small 32 0), Z.add_0_r, (uwrap_small 32 idx), Z.ltb_irrefl by lia.
  destruct (bb_read (api := api) (g := g) (wf := wf) (blk := blk)) as (read & Er & Hrd). rewrite Er. cbn [negb Z.eqb].
  replace ((idx <? _) || _ || _) with false by lia. pose proof (bb_get (dv_backend dev) (inv_wf _ _ _ _ _ Hi)) as Hb. pose proof (Hget (dv_backend dev) (inv_wf _ _ _ _ _ Hi)) as Hg0.
  destruct (pm_device_runtime_get (dv_backend dev)) as [rc0 b0]. cbn [fst] in Hg0. subst rc0. destruct Hb as (_ & Hwf0 & _). cbn [Z.ltb Z.compare with_backend dv_backend].
  pose proof (Z.mod_pos_bound idx (gP g) HP) as Hm. pose proof (Hread read b0 (idx mod gP g) 0 (gBS g) Er Hwf0 Hm ltac:(lia) ltac:(lia) ltac:(nia)) as Hr0.
  destruct (read b0 _ _ _) as [[rc1 m1] b1]. cbn [fst] in Hr0. cbn [andb]. by intros [= <- _ _].
Qed.

Lemma block_read_whole dev log idx : dl_inv g wf blk dev log -> Z.land (flags (dv_data dev)) DATA_LOGGER_FLAGS_ERASING = 0 -> earliest_block (dv_data dev) <= idx < zlen log ->
  exists rc mem dev', data_logger_block_read api dev idx 0 (gBS g) = Done (rc, mem, dev') /\ outcome rc /\ dl_inv g wf blk dev' log /\ dv_data dev' = dv_data dev /\ (rc = 0 -> mem = log_block g log idx).
Proof.
  intros Hi Hf Hx. pose proof (g_BS _ Hg) as HBS. assert (Hq : Z.quot (0 + gBS g - 1) (gBS g) = 0) by (apply Z.quot_small; lia).
  destruct (data_logger_block_read_ok api g wf blk Hg dev log idx 0 (gBS g) Hi Hf) as (rc & mem & dev' & R & Hrc & Hi' & Hm); [lia|rewrite Hq; lia|lia|lia|].
  exists rc, mem, dev'. split; [done|]. split; [split; [done|]; intros Hw; exact (block_read_works dev log idx rc mem dev' Hw Hi Hf Hx R)|]. split; [done|]. split; [by eapply block_read_data|]. intros E. rewrite (Hm E), Hq. change (Z.to_nat (0 + 1)) with 1%nat. cbn [image].
  rewrite app_nil_r. change (zdrop 0 ?l) with l. apply ztake_ge. by rewrite (zlen_log_block dev log idx Hi Hx).
Qed.

Abbreviation reads := (read_loop api sec header_size footer_size max_packet_size ticks_per_sec clock).

(** The logger between the reads of a command. *)
Definition logger_ok (log : list (list Z)) (app : logger_app B) : Prop :=
  dl_inv g wf blk (la_dev app) log /\ Z.land (flags (dv_data (la_dev app))) DATA_LOGGER_FLAGS_ERASING = 0 /\ gBS g <= zlen (command_working_mem app).

Lemma read_loop_ok log p id fuel : forall sv st buf pend l t,
  let n := lr_bytes_remaining st in let idx := lr_block_num st in let off := lr_first_offset st in
  (forall n, 12 <= room (rx_interface p) n) -> buf_ok id st buf pend -> logger_ok log (sv_app sv) ->
  0 <= n < 2 ^ 32 -> 0 <= off < gBS g -> earliest_block (dv_data (la_dev (sv_app sv))) <= idx -> (n <> 0 -> idx * gBS g + off + n <= zlen log * gBS g) ->
  0 <= lr_sent_len st -> lr_sent_len st + zlen pend + n < 2 ^ 32 -> (Z.to_nat n < fuel)%nat ->
  exists rc chunks pend' k st' buf' sv', reads fuel sv p id (gBS g) st buf l t 0 = Done (rc, st', buf', sv') /\
    streamed p id st chunks st' sv sv' /\ buf_ok id st' buf' pend' /\ 0 <= k <= n /\ mjoin chunks ++ pend' = pend ++ ztake k (read_bytes log idx off n) /\
    outcome rc /\ (rc = 0 -> k = n) /\ logger_ok log (sv_app sv') /\ dv_data (la_dev (sv_app sv')) = dv_data (la_dev (sv_app sv)).
Proof.
  induction fuel as [|fuel IH]; intros sv st buf pend l t n idx off Hroom Hbuf Hok Hn Hoff Hear Hend Hs0 Hmax Hf; [lia|]. cbn [read_loop]. fold n. pose proof (g_BS _ Hg) as HBS.
  destruct (Z.eqb_spec n 0) as [E0|E0].
  { exists 0, [], pend, 0, st, buf, sv. split; [done|]. split; [by apply streamed_refl|]. split; [done|]. split; [lia|]. rewrite (ztake_0 0), app_nil_r by done. split; [done|]. split; [by split|]. split; [lia|]. by split. }
  specialize (Hend E0). destruct Hok as (Hi & Hfl & Hwm). assert (Hidx : idx < zlen log) by nia. assert (Hcap : zlen log < 2 ^ 32).
  { pose proof (inv_capacity _ _ _ _ _ Hi). pose proof (g_W _ Hg). pose proof (g_PW _ Hg). pose proof (g_P _ Hg). nia. }
  destruct (block_read_whole _ log idx Hi Hfl (conj Hear Hidx)) as (rc & mem & dev' & R & [Hrc Hwk] & Hi' & Hd' & Hm). fold idx. rewrite R. cbn [exec_bind].
  assert (Hear0 : 0 <= earliest_block (dv_data (la_dev (sv_app sv)))).
  { rewrite (inv_earliest _ _ _ _ _ Hi). pose proof (frontier_bounds g Hg (zlen log) (zlen_nonneg log)). lia. }
  destruct (Z.ltb_spec rc 0) as [Hneg|Hpos].
  { exists rc, [], pend, 0, st, buf. eexists. split; [done|]. split; [by apply streamed_refl|]. split; [done|]. split; [lia|]. rewrite (ztake_0 0), app_nil_r by done. split; [done|]. split; [done|]. split; [lia|].
    split; [|done]. split; [done|]. split; [cbn; by rewrite Hd'|]. cbn [sv_app set_dev set_app command_working_mem]. rewrite zlen_zwrite; [done|lia|]. unfold ztake, zlen in *. rewrite length_take. lia. }
  assert (Erc : rc = 0) by lia. specialize (Hm Erc). clear Hwk. subst rc mem. pose proof (zlen_log_block _ log idx Hi (conj Hear Hidx)) as Hz. fold off. rewrite (uwrap_small 16), (uwrap_small 32) by lia.
  set (r := Z.min (gBS g - off) n). set (sv1 := set_dev sv dev' _). set (st1 := CommonState _ _ _ _ _ _).
  assert (Hwork : ztake r (zdrop off (command_working_mem (sv_app sv1))) = ztake r (zdrop off (log_block g log idx))).
  { unfold sv1. cbn [sv_app set_dev set_app command_working_mem]. rewrite (ztake_ge (gBS g)) by lia. unfold zwrite. rewrite (ztake_0 0) by done. cbn [app]. rewrite zdrop_app_le, ztake_app_le by (rewrite ?zlen_zdrop; lia). done. }
  assert (Hwl : zlen (command_working_mem (sv_app sv1)) = zlen (command_working_mem (sv_app sv))) by (unfold sv1; cbn [sv_app set_dev set_app command_working_mem]; rewrite (ztake_ge (gBS g)) by lia; apply zlen_zwrite; lia).
  destruct (push_loop_ok p id (gBS g) (S fuel) sv1 st1 buf pend r off l t) as (chunks & pend1 & st2 & buf2 & l2 & t2 & sv2 & -> & Hs & Hb2 & Hj & Ha2 & Hn2 & Hx2 & Hf2);
    [done|by destruct buf as [[? ?]|]|lia|lia|rewrite Hwl; lia|lia|cbn; fold n; lia|done|cbn; lia|lia|]. cbn [exec_bind]. rewrite Hwork in Hj.
  cbn [st1 lr_bytes_remaining lr_block_num lr_first_offset] in Hn2, Hx2, Hf2. fold n in Hn2. pose proof Hs as (HL & _). assert (Hzp : zlen (mjoin chunks) + zlen pend1 = zlen pend + r).
  { rewrite <- zlen_app, Hj, zlen_app, zlen_ztake; [done|]. rewrite zlen_zdrop; lia. }
  pose proof (zlen_nonneg pend1). pose proof (zlen_nonneg (mjoin chunks)). cbn [st1 lr_sent_len] in HL.
  destruct (IH sv2 st2 buf2 pend1 l2 t2) as (rc & chunks' & pend' & k & st' & buf' & sv' & -> & Hs' & Hb' & Hk & Hj' & Hrc' & Hkn & Hok' & Hda');
    rewrite ?Hn2, ?Hx2, ?Hf2, ?Ha2; [done|done| |lia|lia|cbn; rewrite Hd'; lia|nia|lia|lia|lia|].
  { split; [done|]. split; [cbn; by rewrite Hd'|]. by rewrite Hwl. }
  rewrite Hn2, Hx2, Hf2 in *. exists rc, (chunks ++ chunks'), pend', (r + k), st', buf', sv'. split; [done|]. split; [eapply streamed_trans; [exact Hs|exact Hs']|]. split; [done|]. split; [lia|].
  split; [|split; [done|split; [lia|split; [done|rewrite Hda', Ha2; exact Hd']]]]. rewrite join_app, <- app_assoc, Hj', app_assoc, Hj, <- app_assoc. f_equal.
  rewrite (read_bytes_step log idx off n) by (done || lia). fold r. rewrite ztake_app_ge by (rewrite zlen_ztake; [lia|]; rewrite zlen_zdrop; lia). f_equal. f_equal. rewrite zlen_ztake; [lia|]. rewrite zlen_zdrop; lia.
Qed.

(** ** Commands *)

Abbreviation read_blocks := (do_read api sec header_size footer_size max_packet_size ticks_per_sec clock).

(** The bytes that [do_read] is asked for. *)
Definition asked (st : common_state) : Z := if lr_bytes_remaining st =? 0 then u32 (lr_blocks_remaining st * gBS g) else lr_bytes_remaining st.

Lemma do_read_ok log p id fuel sv l st : let n := asked st in let idx := lr_block_num st in let off := lr_first_offset st in
  (forall n, 12 <= room (rx_interface p) n) -> logger_ok log (sv_app sv) -> st_block_size l = gBS g ->
  0 <= n < 2 ^ 32 -> 0 <= off < gBS g -> earliest_block (dv_data (la_dev (sv_app sv))) <= idx -> (n <> 0 -> idx * gBS g + off + n <= zlen log * gBS g) ->
  0 <= lr_sent_len st -> lr_sent_len st + n < 2 ^ 32 -> (Z.to_nat n < fuel)%nat ->
  exists rc chunks k st' sv', read_blocks fuel sv p id l st = Done (rc, st', sv') /\ streamed p id st chunks st' sv sv' /\ 0 <= k <= n /\
    mjoin chunks = ztake k (read_bytes log idx off n) /\ outcome rc /\ (rc = 0 -> k = n) /\ logger_ok log (sv_app sv') /\ dv_data (la_dev (sv_app sv')) = dv_data (la_dev (sv_app sv)).
Proof.
  intros n idx off Hroom Hok Hbs Hn Hoff Hear Hend Hs0 Hmax Hf. unfold do_read. rewrite Hbs. rewrite (proj2 (Z.ltb_ge _ _)) by apply Hok. set (st0 := if lr_bytes_remaining st =? 0 then _ else st).
  assert (E : lr_bytes_remaining st0 = n /\ lr_block_num st0 = idx /\ lr_first_offset st0 = off /\ lr_sent_len st0 = lr_sent_len st /\ lr_sent_crc st0 = lr_sent_crc st).
  { unfold st0, n, asked. by destruct (lr_bytes_remaining st =? 0). }
  destruct E as (En & Ei & Eo & El & Ec). clearbody st0. change (zlen (@nil Z)) with 0 in *.
  destruct (read_loop_ok log p id fuel sv st0 None [] (clock (allocs (sv_core sv))).1 0) as (rc & chunks & pend & k & st' & buf' & sv' & -> & Hs & Hb & Hk & Hj & Hrc & Hkn & Hok' & Hd');
    rewrite ?En, ?Ei, ?Eo, ?El; try done; [change (zlen (@nil Z)) with 0; lia|]. rewrite En, Ei, Eo in *. cbn [exec_bind app] in *.
  assert (Hst : streamed p id st chunks st' sv sv') by (unfold streamed in *; by rewrite El, Ec in Hs). pose proof Hst as (HL & _).
  assert (Hzp : zlen (mjoin chunks) + zlen pend <= n). { rewrite <- zlen_app, Hj. unfold ztake, zlen. rewrite length_take. lia. } pose proof (zlen_nonneg (mjoin chunks)). pose proof (zlen_nonneg pend).
  destruct buf' as [[b meta]|].
  - destruct Hb as (Hbd & _ & Hbt). pose proof (send_data_ok sv' p id st' b meta pend Hbd Hbt ltac:(lia) ltac:(lia)) as Hsend. destruct (send_data sv' p st' (b, meta)) as [st2 sv2]. destruct Hsend as (Hs2 & Ha & _).
    exists rc, (chunks ++ [pend]), k, st2, sv2. split; [done|]. split; [by eapply streamed_trans|]. split; [done|]. rewrite join_app. replace (mjoin [pend]) with pend by (cbn; by rewrite app_nil_r). rewrite Ha. done.
  - cbn in Hb. subst pend. rewrite app_nil_r in Hj. by exists rc, chunks, k, st', sv'.
Qed.

Lemma read_bytes_blocks dev log idx n : dl_inv g wf blk dev log -> earliest_block (dv_data dev) <= idx -> 0 <= n -> idx + n <= zlen log ->
  read_bytes log idx 0 (n * gBS g) = image (log_block g log) idx (Z.to_nat n).
Proof.
  intros Hi Hx Hn Hle. unfold read_bytes. change (zdrop 0 ?l) with l. replace (Z.to_nat (zlen log - idx)) with (Z.to_nat n + Z.to_nat (zlen log - idx - n))%nat by lia. rewrite image_app. apply ztake_app.
  symmetry. rewrite (zlen_image _ _ _ (gBS g)); [by rewrite Z2Nat.id|]. intros j Hj. eapply zlen_log_block; [done|lia].
Qed.

(** What was queued for the requester carries [chunks]. *)
Definition sent_to (req : rx_packet) (chunks : list (list Z)) sv sv' : Prop :=
  exists ps, queue sv' = queue sv ++ ps /\ tp_data <$> ps = payloads (req_request_id stale req) 0 chunks /\
    Forall (fun k => tp_dev k = rx_interface req /\ tp_dest k = rx_address req /\ tx_type (tp_meta k) = INFUSE_RPC_DATA) ps.

(** [do_read] of [blocks] blocks from block [first] on. *)
Lemma blocks_read_ok log fuel sv req l first blocks :
  logger_ok log (sv_app sv) -> (forall n, 12 <= room (rx_interface req) n) -> st_block_size l = gBS g ->
  earliest_block (dv_data (la_dev (sv_app sv))) <= first -> 0 <= blocks -> first + blocks <= zlen log -> blocks * gBS g < 2 ^ 32 -> (Z.to_nat (blocks * gBS g) < fuel)%nat ->
  exists rc chunks st' sv', read_blocks fuel sv req (req_request_id stale req) l (CommonState first blocks 0 0 0 0) = Done (rc, st', sv') /\
    lr_sent_len st' = zlen (mjoin chunks) /\ lr_sent_crc st' = crc32_ieee_update 0 (mjoin chunks) /\ outcome rc /\ mjoin chunks `prefix_of` image (log_block g log) first (Z.to_nat blocks) /\
    (rc = 0 -> mjoin chunks = image (log_block g log) first (Z.to_nat blocks)) /\ sent_to req chunks sv sv' /\ logger_ok log (sv_app sv').
Proof.
  intros Hok Hroom Hbs Hfirst Hb Hlast Hbytes Hf. pose proof Hok as (Hi & _ & _). pose proof (g_BS _ Hg) as HBS.
  assert (Ha : asked (CommonState first blocks 0 0 0 0) = blocks * gBS g) by (unfold asked; cbn; apply uwrap_small; nia).
  destruct (do_read_ok log req (req_request_id stale req) fuel sv l (CommonState first blocks 0 0 0 0)) as (rc & chunks & k & st' & sv' & R & Hs & Hk & Hj & Hrc & Hkn & Hok' & _);
    rewrite ?Ha; try (done || (cbn; lia)); [cbn; nia..|]. rewrite Ha in *. cbn [lr_block_num lr_first_offset] in Hj. rewrite (read_bytes_blocks _ log first blocks Hi) in Hj by lia.
  destruct Hs as (HL & HC & ps & Hq & Hd & Hfa). cbn [lr_sent_len lr_sent_crc] in HL, HC, Hd. exists rc, chunks, st', sv'. split; [done|]. split; [lia|]. split; [done|]. split; [done|].
  split; [rewrite Hj; apply prefix_take|]. split; [|split; [by exists ps|done]].
  intros E0. rewrite Hj, (Hkn E0). apply ztake_ge. rewrite (zlen_image _ _ _ (gBS g)); [rewrite Z2Nat.id; lia|]. intros j Hjj. eapply zlen_log_block; [done|lia].
Qed.

Lemma report_ok sv req rc data extra : 16 + zlen extra <= room (rx_interface req) (allocs (sv_core sv)) ->
  exists resp sv', rpc_response_simple_if header_size footer_size max_packet_size sv (rx_interface req) rc (data_response (zlen data) (crc32_ieee_update 0 data) ++ extra) = (resp, sv') /\
    tb_data resp = repeat 0 6 ++ le_put 2 rc ++ le_put 4 (zlen data) ++ le_put 4 (crc32_ieee_update 0 data) ++ extra /\ sv_app sv' = sv_app sv /\ queue sv' = queue sv.
Proof.
  intros Hr. destruct (response_simple_ok header_size footer_size max_packet_size sv (rx_interface req) rc (repeat 0 6) (le_put 4 (zlen data) ++ le_put 4 (crc32_ieee_update 0 data) ++ extra)) as (sv' & E & Hsame & Hq);
    [done|rewrite !zlen_app, !zlen_le_put; lia|]. unfold data_response. change (repeat 0 8) with (repeat 0 6 ++ [0; 0]). rewrite <- !app_assoc, E. do 2 eexists. split; [done|]. split; [done|]. split; [apply Hsame|done].
Qed.

Lemma logger_log_bounds log app : logger_ok log app -> zlen log < 2 ^ 32 /\ 0 <= earliest_block (dv_data (la_dev app)) <= zlen log /\ st_current_block (data_logger_get_state cfg api (la_dev app)) = zlen log /\
  st_block_size (data_logger_get_state cfg api (la_dev app)) = gBS g.
Proof.
  intros (Hi & _ & _). pose proof (zlen_nonneg log). pose proof (window_u32 g Hg (zlen log) (conj (zlen_nonneg log) (inv_capacity _ _ _ _ _ Hi))). rewrite (inv_earliest _ _ _ _ _ Hi).
  split; [lia|]. split; [lia|]. split; [apply Hi|]. by destruct (inv_geometry _ _ _ _ _ Hi) as (_ & ? & _).
Qed.

(** The response of a read that sent [data]. *)
Definition read_report (rc : Z) (data : list Z) : list Z := repeat 0 6 ++ le_put 2 rc ++ le_put 4 (zlen data) ++ le_put 4 (crc32_ieee_update 0 data).

(** C5.  A remote read of blocks that are on the logger, of less than 2^32 bytes in all, over an
    interface with room for the response, with a logger that is not being erased and a working
    memory of a block or more: when the backend does not fail, the command succeeds and the data packets queued
    for the requester carry, in order and with the offsets of their chunks, exactly the bytes of
    the blocks as they were logged; the response reports the number of bytes and the checksum of
    what was sent.  When the backend fails, a beginning of the bytes was sent and the error is
    reported.  The logger is as it was. *)
Theorem rpc_logger_read_correct log fuel sv req :
  let first := req_field stale req 12 4 in
  let last := if req_field stale req 16 4 =? UINT32_MAX then zlen log - 1 else req_field stale req 16 4 in
  let blocks := last - first + 1 in
  logger_present_or_shim build (req_field stale req 11 1) = true -> la_ready (sv_app sv) = true -> logger_ok log (sv_app sv) -> (forall n, 16 <= room (rx_interface req) n) ->
  earliest_block (dv_data (la_dev (sv_app sv))) <= first <= last -> last < zlen log -> blocks * gBS g < 2 ^ 32 -> (Z.to_nat (blocks * gBS g) < fuel)%nat ->
  exists rc chunks resp sv', rpc_command_data_logger_read cfg api build sec header_size footer_size max_packet_size stale ticks_per_sec clock fuel sv req = Done (Some resp, sv') /\
    tb_data resp = read_report rc (mjoin chunks) /\ rc <= 0 /\ (backend_works -> rc = 0) /\ mjoin chunks `prefix_of` image (log_block g log) first (Z.to_nat blocks) /\
    (rc = 0 -> mjoin chunks = image (log_block g log) first (Z.to_nat blocks)) /\ sent_to req chunks sv sv' /\ logger_ok log (sv_app sv').
Proof.
  intros first last blocks Hp Hready Hok Hroom Hfirst Hlast Hbytes Hf. destruct (logger_log_bounds _ _ Hok) as (Hcap & Hear & Hcur & Hbs). pose proof (g_BS _ Hg) as HBS.
  unfold rpc_command_data_logger_read, core_init. rewrite Hp, Hready. cbn [negb]. rewrite Hcur. change (st_earliest_block _) with (earliest_block (dv_data (la_dev (sv_app sv)))).
  rewrite (uwrap_small 32 (zlen log - 1)) by lia. fold first. fold last. replace ((first <? _) || _ || _) with false by lia. fold blocks. rewrite (uwrap_small 32 blocks) by nia.
  destruct (blocks_read_ok log fuel (rpc_command_runner_request_unref sv) req _ first blocks Hok ltac:(intros n; specialize (Hroom n); lia) Hbs) as (rc & chunks & st' & sv' & -> & HL & HC & [Hrc Hwk] & Hpre & Heq & (ps & Hq & Hps) & Hok'); [cbn [rpc_command_runner_request_unref set_runner sv_app]; lia..|].
  cbn [exec_bind]. rewrite HL, HC. destruct (report_ok sv' req rc (mjoin chunks) []) as (resp & sv2 & E & Hd & Ha & Hq2); [apply Hroom|]. rewrite app_nil_r in E. rewrite E.
  exists rc, chunks, resp, sv2. split; [done|]. split; [rewrite Hd; by rewrite app_nil_r|]. rewrite Ha. do 4 (split; [done|]). split; [exists ps; by rewrite Hq2|done].
Qed.

(** A read of what is available: from the requested block, or the earliest if that is gone, as
    many blocks as requested and present. *)
Theorem rpc_logger_read_available_correct log fuel sv req :
  let first := Z.max (req_field stale req 12 4) (earliest_block (dv_data (la_dev (sv_app sv)))) in
  let blocks := Z.min (req_field stale req 16 4) (zlen log - first) in
  logger_present_or_shim build (req_field stale req 11 1) = true -> la_ready (sv_app sv) = true -> logger_ok log (sv_app sv) -> (forall n, 26 <= room (rx_interface req) n) ->
  first <= zlen log -> 0 <= req_field stale req 16 4 -> blocks * gBS g < 2 ^ 32 -> (Z.to_nat (blocks * gBS g) < fuel)%nat ->
  exists rc chunks resp sv', rpc_command_data_logger_read_available cfg api build sec header_size footer_size max_packet_size stale ticks_per_sec clock fuel sv req = Done (Some resp, sv') /\
    tb_data resp = read_report rc (mjoin chunks) ++ le_put 4 (zlen log) ++ le_put 4 first ++ le_put 2 (gBS g) /\ rc <= 0 /\ (backend_works -> rc = 0) /\ mjoin chunks `prefix_of` image (log_block g log) first (Z.to_nat blocks) /\
    (rc = 0 -> mjoin chunks = image (log_block g log) first (Z.to_nat blocks)) /\ sent_to req chunks sv sv' /\ logger_ok log (sv_app sv').
Proof.
  intros first blocks Hp Hready Hok Hroom Hfirst Hnum Hbytes Hf. destruct (logger_log_bounds _ _ Hok) as (Hcap & Hear & Hcur & Hbs). pose proof (g_BS _ Hg) as HBS.
  unfold rpc_command_data_logger_read_available, core_init. rewrite Hp, Hready. cbn [negb]. rewrite Hcur. change (st_earliest_block _) with (earliest_block (dv_data (la_dev (sv_app sv)))). fold first.
  rewrite (uwrap_small 32 (zlen log - first)) by lia. fold blocks.
  destruct (blocks_read_ok log fuel (rpc_command_runner_request_unref sv) req _ first blocks Hok ltac:(intros n; specialize (Hroom n); lia) Hbs) as (rc & chunks & st' & sv' & -> & HL & HC & [Hrc Hwk] & Hpre & Heq & (ps & Hq & Hps) & Hok'); [cbn [rpc_command_runner_request_unref set_runner sv_app]; lia..|].
  cbn [exec_bind]. rewrite HL, HC. destruct (logger_log_bounds _ _ Hok') as (_ & _ & -> & ->). unfold available_response.
  destruct (report_ok sv' req rc (mjoin chunks) (le_put 4 (zlen log) ++ le_put 4 first ++ le_put 2 (gBS g))) as (resp & sv2 & -> & Hd & Ha & Hq2); [rewrite !zlen_app, !zlen_le_put; apply Hroom|].
  exists rc, chunks, resp, sv2. split; [done|]. split; [rewrite Hd; unfold read_report; by rewrite <- !app_assoc|]. rewrite Ha. do 4 (split; [done|]). split; [exists ps; by rewrite Hq2|done].
Qed.

(** A remote erase: on success the log is empty; a logger that did not start is only erased on
    the explicit override. *)
Theorem rpc_logger_erase_correct log sv req :
  logger_present build (req_field stale req 6 1) = true -> logger_ok log (sv_app sv) -> 8 <= room (rx_interface req) (allocs (sv_core sv)) ->
  exists rc resp sv', rpc_command_data_logger_erase api build header_size footer_size max_packet_size stale sv req = Done (Some resp, sv') /\ tb_data resp = repeat 0 6 ++ le_put 2 rc /\
    (if la_ready (sv_app sv) || (req_field stale req 7 1 =? 0xAA) then rc = 0 -> logger_ok [] (sv_app sv') else rc = - EBADF /\ sv_app sv' = sv_app sv).
Proof.
  intros Hp Hok Hroom. pose proof Hok as (Hi & Hfl & Hwm). unfold rpc_command_data_logger_erase. rewrite Hp. cbn [negb]. rewrite <- negb_orb. change (la_ready (sv_app (rpc_command_runner_request_unref sv))) with (la_ready (sv_app sv)).
  destruct (la_ready (sv_app sv) || _); cbn [negb].
  - change (sv_app (rpc_command_runner_request_unref sv)) with (sv_app sv). pose proof (data_logger_erase_ok api g wf blk Hg _ log (negb (req_field stale req 7 1 =? 0)) Hi Hfl) as He.
    destruct (data_logger_erase api (la_dev (sv_app sv)) _) as [[rc dev] pr]. destruct He as (_ & _ & _ & Hf' & He & _).
    destruct (response_simple_ok header_size footer_size max_packet_size (set_dev (rpc_command_runner_request_unref sv) dev (command_working_mem (sv_app sv))) (rx_interface req) rc (repeat 0 6) []) as (sv' & E & Hsame & _); [done|exact Hroom|].
    cbn [repeat app] in *. rewrite E. exists rc. do 2 eexists. split; [done|]. split; [cbn [tb_data]; by rewrite app_nil_r|]. intros E0. destruct Hsame as (_ & _ & _ & _ & _ & ->). split; [by apply He|]. done.
  - destruct (response_simple_ok header_size footer_size max_packet_size (rpc_command_runner_request_unref sv) (rx_interface req) (- EBADF) (repeat 0 6) []) as (sv' & E & Hsame & _); [done|exact Hroom|].
    cbn [repeat app] in *. rewrite E. exists (- EBADF). do 2 eexists. split; [done|]. split; [cbn [tb_data]; by rewrite app_nil_r|]. split; [done|]. apply Hsame.
Qed.

(** A chunk that is on the logger. *)
Definition chunk_ok (log : list (list Z)) (earliest : Z) (c : chunk) : Prop :=
  earliest <= start_block c /\ 0 <= start_offset c < gBS g /\ 0 <= num_bytes c /\ (num_bytes c <> 0 -> start_block c * gBS g + start_offset c + num_bytes c <= zlen log * gBS g).

Definition chunk_bytes (log : list (list Z)) (c : chunk) : list Z := read_bytes log (start_block c) (start_offset c) (num_bytes c).
Definition total (cs : list chunk) : Z := fold_right (fun c n => num_bytes c + n) 0 cs.

Lemma total_nonneg log e cs : Forall (chunk_ok log e) cs -> 0 <= total cs.
Proof. induction 1 as [|c cs (_ & _ & Hc & _) _ IH]; cbn [total fold_right]; [done|]. fold (total cs). lia. Qed.

Lemma zlen_read_bytes_le log idx off n : 0 <= n -> zlen (read_bytes log idx off n) <= n.
Proof. intros Hn. unfold read_bytes, ztake, zlen. rewrite length_take. lia. Qed.

Lemma chunks_loop_ok log p fuel l cs : forall i sv st,
  (forall j c, cs !! j = Some c -> chunk_at (rx_data p ++ stale p) (13 + (i + Z.of_nat j) * sizeof_chunk) = c) ->
  (forall n, 12 <= room (rx_interface p) n) -> logger_ok log (sv_app sv) -> st_block_size l = gBS g -> Forall (chunk_ok log (earliest_block (dv_data (la_dev (sv_app sv))))) cs ->
  0 <= lr_sent_len st -> lr_sent_len st + total cs < 2 ^ 32 -> (Z.to_nat (total cs) < fuel)%nat ->
  exists rc chunks st' sv', chunks_loop api sec header_size footer_size max_packet_size stale ticks_per_sec clock fuel (length cs) i sv p l st 0 = Done (rc, st', sv') /\
    streamed p (req_request_id stale p) st chunks st' sv sv' /\ outcome rc /\ mjoin chunks `prefix_of` mjoin (chunk_bytes log <$> cs) /\ (rc = 0 -> mjoin chunks = mjoin (chunk_bytes log <$> cs)) /\
    logger_ok log (sv_app sv') /\ dv_data (la_dev (sv_app sv')) = dv_data (la_dev (sv_app sv)).
Proof.
  induction cs as [|c cs IH]; intros i sv st Hat Hroom Hok Hbs Hcs Hs0 Hmax Hf; pose proof (g_BS _ Hg) as HBS.
  { exists 0, [], st, sv. split; [done|]. split; [by apply streamed_refl|]. split; [by split|]. done. }
  inversion_clear Hcs as [|? ? Hc Hcs']. pose proof Hc as (Hc1 & Hc2 & Hc3 & Hc4). pose proof (total_nonneg _ _ _ Hcs') as Ht. cbn [total fold_right] in Hmax, Hf. fold (total cs) in Hmax, Hf.
  cbn [length chunks_loop]. pose proof (Hat 0%nat c eq_refl) as Hc0. rewrite Z.add_0_r in Hc0. rewrite Hc0, Hbs. rewrite (proj2 (Z.eqb_neq (gBS g) 0)) by lia.
  set (st1 := CommonState _ _ _ _ _ _). assert (Ha : asked st1 = num_bytes c).
  { unfold asked. cbn [st1 lr_bytes_remaining lr_blocks_remaining]. destruct (Z.eqb_spec (num_bytes c) 0) as [E|]; [|done]. rewrite E, (uwrap_small 32 (0 + (gBS g - 1))), (Z.div_small (0 + _)) by lia. done. }
  destruct (do_read_ok log p (req_request_id stale p) fuel sv l st1) as (rc & chunks & k & st2 & sv2 & -> & Hs & Hk & Hj & [Hrc Hwk] & Hkn & Hok2 & Hd2); rewrite ?Ha; try done; try (cbn [st1 lr_sent_len]; lia).
  rewrite Ha in *. cbn [exec_bind st1 lr_block_num lr_first_offset] in *. fold (chunk_bytes log c) in Hj. rewrite (fmap_cons (chunk_bytes log)). change (mjoin (?a :: ?b)) with (a ++ mjoin b).
  assert (Hz : zlen (chunk_bytes log c) <= num_bytes c) by (apply zlen_read_bytes_le; lia).
  destruct (Z.ltb_spec rc 0) as [Hneg|Hpos].
  { exists rc, chunks, st2, sv2. split; [done|]. split; [exact Hs|]. split; [done|]. split; [rewrite Hj; apply prefix_app_r, prefix_take|]. split; [lia|done]. }
  assert (Erc : rc = 0) by lia. clear Hwk. subst rc. specialize (Hkn eq_refl). subst k. rewrite ztake_ge in Hj by done. pose proof Hs as (HL & _). cbn [st1 lr_sent_len] in HL. rewrite Hj in HL. pose proof (zlen_nonneg (chunk_bytes log c)).
  destruct (IH (i + 1) sv2 st2) as (rc & chunks' & st' & sv' & -> & Hs' & Hrc' & Hp' & He' & Hok' & Hd'); [|done|done|done|by rewrite Hd2|lia|lia|lia|].
  { intros j c' Hc'. rewrite <- (Hat (S j) c' Hc'). f_equal. lia. }
  exists rc, (chunks ++ chunks'), st', sv'. split; [done|]. split; [by eapply streamed_trans; [exact Hs|]|]. split; [done|]. rewrite join_app, Hj. split; [by apply prefix_app|].
  split; [intros E; by rewrite (He' E)|]. split; [done|]. congruence.
Qed.

(** C29.  A remote read of chunks that are on the logger, each with its offset inside its first
    block (the code does not check that), of less than 2^32 bytes in all, over an interface with
    room for the response, with a logger that is not being erased and a working memory of a
    block or more.  When the backend does not fail, the command succeeds and sends exactly the bytes
    of the chunks, one after the other in one stream of data packets; when it fails, a beginning
    of those bytes was sent and the error is reported.  Either way it reports the number of
    bytes sent, their checksum, and the state of the logger, which is as it was. *)
Theorem rpc_logger_read_chunks_correct log fuel sv req cs :
  let app := sv_app sv in
  logger_present_or_shim build (req_field stale req 11 1) = true -> la_ready app = true -> logger_ok log app -> (forall n, 22 <= room (rx_interface req) n) ->
  req_field stale req 12 1 = zlen cs -> (forall j c, cs !! j = Some c -> chunk_at (rx_data req ++ stale req) (13 + Z.of_nat j * sizeof_chunk) = c) ->
  Forall (chunk_ok log (earliest_block (dv_data (la_dev app)))) cs -> total cs < 2 ^ 32 -> (Z.to_nat (total cs) < fuel)%nat ->
  exists rc chunks resp sv', rpc_command_data_logger_read_chunks cfg api build sec header_size footer_size max_packet_size stale ticks_per_sec clock fuel sv req = Done (Some resp, sv') /\
    tb_data resp = read_report rc (mjoin chunks) ++ le_put 4 (zlen log) ++ le_put 2 (gBS g) /\ rc <= 0 /\ (backend_works -> rc = 0) /\ mjoin chunks `prefix_of` mjoin (chunk_bytes log <$> cs) /\
    (rc = 0 -> mjoin chunks = mjoin (chunk_bytes log <$> cs)) /\ sent_to req chunks sv sv' /\ logger_ok log (sv_app sv').
Proof.
  intros app Hp Hready Hok Hroom Hnum Hat Hcs Htot Hf. destruct (logger_log_bounds _ _ Hok) as (_ & _ & _ & Hbs). unfold rpc_command_data_logger_read_chunks, core_init. fold app. rewrite Hp, Hready. cbn [negb].
  rewrite Hnum. replace (Z.to_nat (zlen cs)) with (length cs) by (unfold zlen; lia).
  destruct (chunks_loop_ok log req fuel (data_logger_get_state cfg api (la_dev app)) cs 0 sv (CommonState 0 0 0 0 0 0)) as (rc & chunks & st' & sv' & -> & Hs & [Hrc Hwk] & Hpre & Heq & Hok' & Hd'); try done.
  { intros n. specialize (Hroom n). lia. }
  cbn [exec_bind]. destruct Hs as (HL & HC & ps & Hq & Hd & Hfa). cbn [lr_sent_len lr_sent_crc] in HL, HC, Hd. rewrite Z.add_0_l in HL. rewrite HL, HC. destruct (logger_log_bounds _ _ Hok') as (_ & _ & -> & ->).
  unfold chunks_response. destruct (report_ok sv' req rc (mjoin chunks) (le_put 4 (zlen log) ++ le_put 2 (gBS g))) as (resp & sv2 & -> & Hr & Ha & Hq2); [rewrite zlen_app, !zlen_le_put; apply Hroom|].
  exists rc, chunks, resp, sv2. split; [done|]. split; [rewrite Hr; unfold read_report; by rewrite <- !app_assoc|]. rewrite Ha. do 4 (split; [done|]). split; [exists ps; by rewrite Hq2|done].
Qed.
End props.

(** ** Concrete requests *)

(** Packets of up to 14 bytes of data; the working memory is twice the block size and ends
    with what an earlier command left there. *)
Definition demo_narrow (_ : Z) (_ : nat) : Z := 23 + 16 + 22.
Definition demo_loggers : logger_build := LoggerBuild true false false.
Definition demo_logger : server (logger_app ram_flash) :=
  Server demo_core [] (repeat 0 8) 0 false false (LoggerApp (small_device wrapped_mem 6 2) true (repeat 0 8 ++ [101; 102; 103; 104; 105; 106; 107; 108])).
Definition demo_read_request (command : Z) (body : list Z) : rx_packet :=
  demo_request EPACKET_AUTH_NETWORK (le_put 4 77 ++ le_put 2 command ++ le_put 4 0 ++ le_put 1 0 ++ le_put 1 1 ++ body).

Lemma demo_logger_ok : logger_ok small (rf_wf 32) (flash_block small rf_mem) wrapped_log (sv_app demo_logger).
Proof. split; [exact wrapped_inv|]. split; [reflexivity|]. vm_compute. discriminate. Qed.

Definition demo_blocks : rx_packet := demo_read_request 10 (le_put 4 2 ++ le_put 4 UINT32_MAX).
Definition demo_chunks (cs : list chunk) : rx_packet :=
  demo_read_request 11 (le_put 1 (zlen cs) ++ mjoin ((fun c => le_put 4 (start_block c) ++ le_put 2 (start_offset c) ++ le_put 4 (num_bytes c)) <$> cs)).

Definition demo_logger_read (req : rx_packet) : exec (option tx_buf * server (logger_app ram_flash)) :=
  rpc_command_data_logger_read sync_config small_api demo_loggers demo_sec demo_header demo_footer demo_narrow demo_stale 1000 demo_clock 100 demo_logger req.
Definition demo_logger_chunks (cs : list chunk) : exec (option tx_buf * server (logger_app ram_flash)) :=
  rpc_command_data_logger_read_chunks sync_config small_api demo_loggers demo_sec demo_header demo_footer demo_narrow demo_stale 1000 demo_clock 100 demo_logger (demo_chunks cs).

Lemma small_works : backend_works small_api small (rf_wf 32).
Proof.
  split; [done|]. intros read b p off n [= <-] Hwf Hp Ho Hn Hle. vm_compute. reflexivity.
Qed.

(** Blocks 2 to the last, in three packets. *)
Lemma rpc_logger_read_correct_witness : exists rc chunks resp sv', demo_logger_read demo_blocks = Done (Some resp, sv') /\
  tb_data resp = read_report rc (mjoin chunks) /\ rc = 0 /\ mjoin chunks = image (log_block small wrapped_log) 2 4 /\ tp_data <$> tx_queue (sv_core sv') = payloads 77 0 chunks /\
  tp_data <$> tx_queue (sv_core sv') = let data := image (log_block small wrapped_log) 2 4 in payloads 77 0 [ztake 14 data; ztake 14 (zdrop 14 data); zdrop 28 data].
Proof.
  destruct (rpc_logger_read_correct sync_config small_api demo_loggers demo_sec demo_header demo_footer demo_narrow demo_stale 1000 demo_clock small (rf_wf 32) (flash_block small rf_mem) small_ok
    wrapped_log 100 demo_logger demo_blocks) as (rc & chunks & resp & sv' & R & Hr & _ & Hw & _ & He & (ps & Hq & Hd & _) & _).
  - reflexivity.
  - reflexivity.
  - exact demo_logger_ok.
  - intros n. vm_compute. discriminate.
  - vm_compute. split; discriminate.
  - reflexivity.
  - reflexivity.
  - vm_compute. lia.
  - exists rc, chunks, resp, sv'. split; [exact R|]. split; [exact Hr|]. pose proof (Hw small_works) as E0. split; [exact E0|]. split; [exact (He E0)|]. change (tx_queue (sv_core demo_logger)) with (@nil tx_packet) in Hq. cbn [app] in Hq. rewrite Hq. split; [exact Hd|].
    rewrite <- Hq. clear - R. vm_compute in R. injection R as <- <-. vm_compute. reflexivity.
Defined.

(** Ten bytes across blocks 3 and 4, and two bytes of block 5. *)
Lemma rpc_logger_read_chunks_correct_witness : exists rc chunks resp sv', demo_logger_chunks [Chunk 3 2 10; Chunk 5 2 2] = Done (Some resp, sv') /\
  tb_data resp = read_report rc (mjoin chunks) ++ le_put 4 6 ++ le_put 2 8 /\ rc = 0 /\ mjoin chunks = [3; 3; 255; 255; 255; 255; 2; 9; 4; 4; 5; 5] /\ tp_data <$> tx_queue (sv_core sv') = payloads 77 0 chunks.
Proof.
  destruct (rpc_logger_read_chunks_correct sync_config small_api demo_loggers demo_sec demo_header demo_footer demo_narrow demo_stale 1000 demo_clock small (rf_wf 32) (flash_block small rf_mem) small_ok
    wrapped_log 100 demo_logger (demo_chunks [Chunk 3 2 10; Chunk 5 2 2]) [Chunk 3 2 10; Chunk 5 2 2]) as (rc & chunks & resp & sv' & R & Hr & _ & Hw & _ & He & (ps & Hq & Hd & _) & _).
  - reflexivity.
  - reflexivity.
  - exact demo_logger_ok.
  - intros n. vm_compute. discriminate.
  - reflexivity.
  - intros [|[|j]] c [= <-]; reflexivity.
  - repeat constructor; vm_compute; (discriminate || intros _; discriminate || reflexivity).
  - reflexivity.
  - vm_compute. lia.
  - exists rc, chunks, resp, sv'. split; [exact R|]. split; [exact Hr|]. pose proof (Hw small_works) as E0. split; [exact E0|]. split; [exact (He E0)|]. change (tx_queue (sv_core demo_logger)) with (@nil tx_packet) in Hq. cbn [app] in Hq. rewrite Hq. exact Hd.
Defined.

(** The offset of a chunk is not checked: behind the end of the block, what is in the working
    memory is sent, with success; further behind, what follows it. *)
Example chunk_offset_leaks : exists resp sv', demo_logger_chunks [Chunk 3 10 4] = Done (Some resp, sv') /\
  field (tb_data resp) 6 2 = 0 /\ tp_data <$> tx_queue (sv_core sv') = payloads 77 0 [[103; 104; 105; 106]].
Proof. do 2 eexists. split; [vm_compute; reflexivity|]. split; reflexivity. Qed.

Example chunk_offset_overruns : demo_logger_chunks [Chunk 3 40 4] = Fault.
Proof. vm_compute. reflexivity. Qed.
