(* ===== verification/RpcFileWrite.v ===== *)
(** * Files and firmware from remote

    [subsys/rpc/commands/file_write.c], [common_file_actions.c] and [subsys/dfu/dfu_helpers.c]:
    a file is received in data packets and written to a flash partition; an application image
    or a patch for it is validated, and the bootloader asked to install the result.

    The build modelled has the bootloader image manager, the patch interpreter and a file
    partition, and neither a file system, nor a Bluetooth controller or modem to update. *)

From stdpp Require Import base tactics numbers list.
From Stdlib Require Import ZArith Lia.
From S2P Require Import Prelude EPacketKeys EPacketCrypt EPacketCore RpcServer CPatch.

Local Open Scope Z_scope.
Local Open Scope infuse_scope.

Inductive partition := SLOT0 | SLOT1 | FILE_PARTITION.

(** The flash map, power management, stream and bootloader functions of Zephyr, over the areas
    [F] and streams [S] of the patch interpreter. *)
Class UpdateApi (F S : Type) := {
  flash_area_open : F -> Z;
  pm_device_runtime_get : F -> Z * F;
  pm_device_runtime_put : F -> F;
  flash_area_get_device : F -> bool; (* not NULL *)
  fa_size : F -> Z;
  fa_off : F -> Z;
  FLASH_ERASE_C_EXPLICIT : F -> bool;
  flash_get_page_info_by_offs : F -> Z -> Z * (Z * Z); (* result; start and size of the page *)
  flash_area_flatten : F -> Z -> Z -> Z * F;
  write_block_size : F -> Z;
  stream_flash_init : F -> Z -> Z -> Z -> Z * S; (* of an area; size of the buffer, offset, size *)
  stream_flash_bytes_buffered : S -> Z;
  stream_flash_area : F -> Z -> S -> F; (* the area with what its stream wrote from an offset on *)
  boot_get_trailer_status_offset : Z -> Z;
  boot_get_image_start_offset : F -> Z;
  boot_request_upgrade_multi : F -> Z;
}.

(** Calls with an effect outside of the areas. *)
Inductive update_event :=
| EvPowerGet (p : partition)
| EvPowerPut (p : partition)
| EvWriteEraseStart
| EvWriteEraseFinish
| EvUpgrade (rc : Z)
| EvReboot (action : Z).

Record update_world (F : Type) := UpdateWorld { uw_slot0 : F; uw_slot1 : F; uw_file : F; uw_trace : list update_event }.
Arguments UpdateWorld {F}.
Arguments uw_slot0 {F}.
Arguments uw_slot1 {F}.
Arguments uw_file {F}.
Arguments uw_trace {F}.

Definition RPC_ENUM_FILE_ACTION_DISCARD : Z := 0.
Definition RPC_ENUM_FILE_ACTION_APP_IMG : Z := 1.
Definition RPC_ENUM_FILE_ACTION_APP_CPATCH : Z := 11.
Definition RPC_ENUM_FILE_ACTION_FILE_FOR_COPY : Z := 30.
Definition RPC_ENUM_FILE_ACTION_WRITE_LITTLEFS : Z := 31.
Definition RPC_ID_FILE_WRITE_BASIC : Z := 40.
Definition RPC_ID_FILE_WRITE : Z := 44.
Definition INFUSE_LFS_FOLDER_COPY : Z := 3.
Definition FILE_ALREADY_PRESENT : Z := 1.
Definition EBADE : Z := 50.

(** struct rpc_common_file_actions_ctx.  [fc_stream]: the stream once it is initialised, with
    its offset in the area.  The fields for file systems and controllers are not used. *)
Record file_ctx (S : Type) := FileCtx {
  fc_fa : option partition;
  fc_stream : option (S * Z);
  fc_received : Z;
  fc_crc : Z;
  fc_action : Z;
  fc_needs_cleanup : bool;
}.
Arguments FileCtx {S}.
Arguments fc_fa {S}.
Arguments fc_stream {S}.
Arguments fc_received {S}.
Arguments fc_crc {S}.
Arguments fc_action {S}.
Arguments fc_needs_cleanup {S}.

Section file_write.
Context {F S : Type} `{PatchApi F S} `{UpdateApi F S}.
(** [CONFIG_INFUSE_DFU_HELPERS_ERASE_CHUNK_SIZE], the sizes of the write buffer and of the
    working memory, [CONFIG_BT_CTLR_ONLY] and [CONFIG_INFUSE_REBOOT]. *)
Context (erase_chunk_size write_buffer_size working_mem_size : Z) (ctlr_only has_reboot : bool).
Implicit Types w : update_world F.
Implicit Types ctx : file_ctx S.

Definition area w (p : partition) : F := match p with SLOT0 => uw_slot0 w | SLOT1 => uw_slot1 w | FILE_PARTITION => uw_file w end.
Definition set_area w (p : partition) (f : F) : update_world F :=
  match p with
  | SLOT0 => UpdateWorld f (uw_slot1 w) (uw_file w) (uw_trace w)
  | SLOT1 => UpdateWorld (uw_slot0 w) f (uw_file w) (uw_trace w)
  | FILE_PARTITION => UpdateWorld (uw_slot0 w) (uw_slot1 w) f (uw_trace w)
  end.
Definition emit w (e : update_event) : update_world F := UpdateWorld (uw_slot0 w) (uw_slot1 w) (uw_file w) (uw_trace w ++ [e]).

Definition with_fa ctx (p : option partition) : file_ctx S := FileCtx p (fc_stream ctx) (fc_received ctx) (fc_crc ctx) (fc_action ctx) (fc_needs_cleanup ctx).
Definition with_stream ctx (s : option (S * Z)) : file_ctx S := FileCtx (fc_fa ctx) s (fc_received ctx) (fc_crc ctx) (fc_action ctx) (fc_needs_cleanup ctx).
Definition with_data ctx (received crc : Z) : file_ctx S := FileCtx (fc_fa ctx) (fc_stream ctx) received crc (fc_action ctx) (fc_needs_cleanup ctx).
Definition with_cleanup ctx (b : bool) : file_ctx S := FileCtx (fc_fa ctx) (fc_stream ctx) (fc_received ctx) (fc_crc ctx) (fc_action ctx) b.

(** The result, and whether the pointer was set. *)
Definition pm_flash_area_open w (p : partition) : Z * bool * update_world F :=
  let rc := flash_area_open (area w p) in
  if rc =? 0 then
    let '(rc, f) := pm_device_runtime_get (area w p) in
    let w := set_area w p f in
    (rc, true, if rc <? 0 then w else emit w (EvPowerGet p))
  else (rc, false, w).

Definition pm_flash_area_close w (p : option partition) : exec (update_world F) :=
  match p with
  | None => Fault
  | Some p => Done (emit (set_area w p (pm_device_runtime_put (area w p))) (EvPowerPut p))
  end.

(** ** [dfu_helpers.c] *)

(** The calls suspend and resume scanning, and are counted. *)
Definition infuse_dfu_write_erase_start w : update_world F := emit w EvWriteEraseStart.
Definition infuse_dfu_write_erase_finish w : update_world F := emit w EvWriteEraseFinish.

Fixpoint erase_loop (fuel : nat) (f : F) (max_chunk off remaining : Z) : exec (Z * F) :=
  match fuel with
  | O => NoFuel
  | Datatypes.S fuel =>
      if remaining =? 0 then Done (0, f)
      else
        let chunk_size := Z.min max_chunk remaining in
        let '(rc, f) := flash_area_flatten f off chunk_size in
        if rc <? 0 then Done (rc, f) else erase_loop fuel f max_chunk (u32 (off + chunk_size)) (u32 (remaining - chunk_size))
  end.

(** With a progress callback. *)
Definition infuse_dfu_image_erase_wrapped (f : F) (image_len : Z) (mcuboot_trailer : bool) : exec (Z * F) :=
  if negb (flash_area_get_device f) then Done (- ENODEV, f)
  else if fa_size f <? image_len then Done (- EINVAL, f)
  else if negb (FLASH_ERASE_C_EXPLICIT f) then Done (0, f)
  else
    let '(rc, (start_offset, size)) := flash_get_page_info_by_offs f (fa_off f + image_len - 1) in
    if rc <? 0 then Done (rc, f)
    else
      let erase_size := u32 (start_offset + size - fa_off f) in
      let! (rc, f) := erase_loop (Datatypes.S (Z.to_nat erase_size)) f erase_chunk_size 0 erase_size in
      if rc <? 0 then Done (rc, f)
      else if negb mcuboot_trailer then Done (0, f)
      else
        let off := u32 (boot_get_trailer_status_offset (fa_size f)) in
        if off <? erase_size then Done (0, f)
        else
          let '(_, (start_offset, _)) := flash_get_page_info_by_offs f (fa_off f + off) in
          let off := u32 (start_offset - fa_off f) in
          Done (flash_area_flatten f off (u32 (fa_size f - off))).

Definition infuse_dfu_image_erase w (p : partition) (image_len : Z) (mcuboot_trailer : bool) : exec (Z * update_world F) :=
  let w := infuse_dfu_write_erase_start w in
  let! (rc, f) := infuse_dfu_image_erase_wrapped (area w p) image_len mcuboot_trailer in
  Done (rc, infuse_dfu_write_erase_finish (set_area w p f)).

(** ** [common_file_actions.c] *)

(** The result, the length, the context and the areas. *)
Definition flash_area_check_and_erase w ctx (p : partition) (length crc : Z) (trailer : bool) : exec (Z * Z * file_ctx S * update_world F) :=
  let '(rc, set, w) := pm_flash_area_open w p in
  let ctx := if set then with_fa ctx (Some p) else ctx in
  if negb (rc =? 0) then Done (rc, length, ctx, w)
  else
    let '(present, w) :=
      if negb (crc =? UINT32_MAX) && negb (length =? UINT32_MAX) then
        let '(_, current_crc, f) := flash_area_crc32 (area w p) 0 length in (current_crc =? crc, set_area w p f)
      else (false, w) in
    if present then Done (FILE_ALREADY_PRESENT, length, with_data ctx (fc_received ctx) crc, w)
    else
      let length := if length =? UINT32_MAX then fa_size (area w p) else length in
      let! (rc, w) := infuse_dfu_image_erase w p length trailer in
      if negb (rc =? 0) then let! w := pm_flash_area_close w (fc_fa ctx) in Done (rc, length, ctx, w)
      else Done (rc, length, ctx, w).

(** [offset]: from the start of the partition. *)
Definition common_file_actions_stream_writer_init w ctx (p : partition) (offset file_len crc : Z) (trailer : bool) : exec (Z * file_ctx S * update_world F) :=
  let! (rc, file_len, ctx, w) := flash_area_check_and_erase w ctx p file_len crc trailer in
  if (rc =? FILE_ALREADY_PRESENT) || (rc <? 0) then Done (rc, ctx, w)
  else
    let block := write_block_size (area w p) in
    if block =? 0 then Fault (* division by zero *)
    else
      let file_len := u32 (file_len + (block - 1)) / block * block in
      let '(rc, s) := stream_flash_init (area w p) write_buffer_size offset file_len in
      Done (rc, if rc =? 0 then with_stream ctx (Some (s, offset)) else ctx, w).

Definition rpc_common_file_actions_start w (action length crc : Z) : exec (Z * file_ctx S * update_world F) :=
  let ctx := FileCtx None None 0 0 action false in
  let! (rc, ctx, w) :=
    if action =? RPC_ENUM_FILE_ACTION_DISCARD then Done (0, ctx, w)
    else if action =? RPC_ENUM_FILE_ACTION_APP_IMG then
      common_file_actions_stream_writer_init w ctx SLOT1 (boot_get_image_start_offset (area w SLOT1)) length crc true
    else if (action =? RPC_ENUM_FILE_ACTION_APP_CPATCH) || (action =? RPC_ENUM_FILE_ACTION_FILE_FOR_COPY) then
      common_file_actions_stream_writer_init w ctx FILE_PARTITION 0 length crc false
    else Done (- EINVAL, ctx, w) in
  match fc_fa ctx with
  | Some _ => if rc =? 0 then Done (rc, with_cleanup ctx true, infuse_dfu_write_erase_start w) else Done (rc, ctx, w)
  | None => Done (rc, ctx, w)
  end.

(** The actions that go through the stream. *)
Definition streams (action : Z) : bool :=
  (action =? RPC_ENUM_FILE_ACTION_APP_IMG) || (action =? RPC_ENUM_FILE_ACTION_APP_CPATCH) || (action =? RPC_ENUM_FILE_ACTION_FILE_FOR_COPY).

Definition stream_write w ctx (data : list Z) (flush : bool) : exec (Z * file_ctx S * update_world F) :=
  match fc_stream ctx, fc_fa ctx with
  | Some (s, off), Some p =>
      let '(rc, _, s) := stream_flash_buffered_write s data flush in
      Done (rc, with_stream ctx (Some (s, off)), set_area w p (stream_flash_area (area w p) off s))
  | _, _ => Fault
  end.

Definition rpc_common_file_actions_write w ctx (data : list Z) : exec (Z * file_ctx S * update_world F) :=
  let ctx := with_data ctx (u32 (fc_received ctx + zlen data)) (crc32_ieee_update (fc_crc ctx) data) in
  if streams (fc_action ctx) then stream_write w ctx data false else Done (0, ctx, w).

Definition validate_cpatch w ctx : exec (Z * update_world F) :=
  match fc_fa ctx with
  | None => Fault
  | Some p =>
      let '(_, set, w) := pm_flash_area_open w SLOT0 in
      if negb set then Fault (* fa_original is not initialised *)
      else
        let '(rc, _, f, f') := cpatch_patch_start (S := S) (area w SLOT0) (area w p) in
        let! w := pm_flash_area_close (set_area (set_area w SLOT0 f) p f') (Some SLOT0) in
        Done (rc, w)
  end.

(** The patch into the second slot, once both are open. *)
Definition apply_cpatch (fuel : nat) w (p : partition) : exec (Z * update_world F) :=
  let '(rc, header, f, f') := cpatch_patch_start (S := S) (area w SLOT0) (area w p) in
  let w := set_area (set_area w SLOT0 f) p f' in
  if rc <? 0 then Done (rc, w)
  else
    let! (rc, w) := infuse_dfu_image_erase w SLOT1 (av_length (output_file header)) true in
    if rc <? 0 then Done (rc, w)
    else
      let block := write_block_size (area w SLOT1) in
      if block =? 0 then Fault (* division by zero *)
      else
        let length := av_length (output_file header) in
        let out_len := if negb (length mod block =? 0) then u32 (length + (block - length mod block)) else length in
        let offset := boot_get_image_start_offset (area w SLOT1) in
        let '(rc, s) := stream_flash_init (area w SLOT1) (Z.min working_mem_size 4096) offset out_len in
        if negb (rc =? 0) then Fault (* __ASSERT_NO_MSG *)
        else
          let! (rc, pw) := cpatch_patch_apply fuel (area w SLOT0) (area w p) s header true in
          Done (rc, set_area (set_area w SLOT0 (w_input pw)) SLOT1 (stream_flash_area (area w SLOT1) offset (w_output pw))).

Definition finish_cpatch (fuel : nat) w ctx : exec (Z * update_world F) :=
  let '(rc, set, w) := pm_flash_area_open w SLOT0 in
  if rc <? 0 then Done (rc, w)
  else
    let '(rc, set', w) := pm_flash_area_open w SLOT1 in
    if rc <? 0 then let! w := pm_flash_area_close w (if set then Some SLOT0 else None) in Done (rc, w)
    else
      match fc_fa ctx with
      | None => Fault
      | Some p =>
          let! (rc, w) := apply_cpatch fuel (infuse_dfu_write_erase_start w) p in
          let! w := pm_flash_area_close (infuse_dfu_write_erase_finish w) (if set' then Some SLOT1 else None) in
          let! w := pm_flash_area_close w (if set then Some SLOT0 else None) in
          Done (rc, w)
      end.

(** The bytes left in the stream. *)
Definition finish_flush w ctx : exec (Z * file_ctx S * update_world F) :=
  match fc_stream ctx with
  | Some (s, _) =>
      if streams (fc_action ctx) && negb (stream_flash_bytes_buffered s =? 0) then stream_write w ctx [] true
      else Done (0, ctx, w)
  | None => Done (0, ctx, w)
  end.

(** What was written against what was received: 0 or the error. *)
Definition finish_validate w ctx : Z * update_world F :=
  match fc_fa ctx with
  | Some p =>
      if 0 <? fc_received ctx then
        let offset := if fc_action ctx =? RPC_ENUM_FILE_ACTION_APP_IMG then boot_get_image_start_offset (area w p) else 0 in
        let '(rc, data_crc, f) := flash_area_crc32 (area w p) offset (fc_received ctx) in
        let w := set_area w p f in
        if rc <? 0 then (rc, w) else if negb (fc_crc ctx =? data_crc) then (- EBADE, w) else (rc, w)
      else (0, w)
  | None => (0, w)
  end.

(** The application image is complete: the request to the bootloader, and whether to reboot. *)
Definition finish_image w ctx : exec (bool * update_world F) :=
  let! w := pm_flash_area_close w (fc_fa ctx) in
  let rc := boot_request_upgrade_multi (area w SLOT1) in
  Done (rc =? 0, emit w (EvUpgrade rc)).

(** The result, [dfu_reboot], the context and the areas. *)
Definition rpc_common_file_actions_finish (fuel : nat) w ctx (defer_long dfu_reboot : bool) : exec (Z * bool * file_ctx S * update_world F) :=
  let! (rc, ctx, w) := finish_flush w ctx in
  if rc <? 0 then let! w := pm_flash_area_close w (fc_fa ctx) in Done (rc, dfu_reboot, ctx, w)
  else
    let w := if fc_needs_cleanup ctx then infuse_dfu_write_erase_finish w else w in
    let ctx := with_cleanup ctx false in
    let '(rc', w) := finish_validate w ctx in
    if rc' <? 0 then let! w := pm_flash_area_close w (fc_fa ctx) in Done (rc', dfu_reboot, ctx, w)
    else
      let rc := match fc_fa ctx with Some _ => if 0 <? fc_received ctx then rc' else rc | None => rc end in
      if fc_action ctx =? RPC_ENUM_FILE_ACTION_APP_CPATCH then
        if defer_long then
          let! (rc, w) := validate_cpatch w ctx in
          if rc <? 0 then let! w := pm_flash_area_close w (fc_fa ctx) in Done (rc, dfu_reboot, ctx, w)
          else Done (rc, dfu_reboot, ctx, w)
        else
          let! (rc, w) := finish_cpatch fuel w ctx in
          if rc <? 0 then let! w := pm_flash_area_close w (fc_fa ctx) in Done (rc, dfu_reboot, ctx, w)
          else let! (upgrade, w) := finish_image w ctx in Done (rc, dfu_reboot || upgrade, ctx, w)
      else if fc_action ctx =? RPC_ENUM_FILE_ACTION_APP_IMG then
        let! (upgrade, w) := finish_image w ctx in Done (rc, dfu_reboot || upgrade, ctx, w)
      else if fc_action ctx =? RPC_ENUM_FILE_ACTION_FILE_FOR_COPY then
        let! w := pm_flash_area_close w (fc_fa ctx) in Done (rc, dfu_reboot, ctx, w)
      else Done (rc, dfu_reboot, ctx, w).

Definition rpc_common_file_actions_deferred (fuel : nat) w ctx (dfu_reboot : bool) : exec (bool * update_world F) :=
  if fc_action ctx =? RPC_ENUM_FILE_ACTION_APP_CPATCH then
    let! (_, dfu_reboot, _, w) := rpc_common_file_actions_finish fuel w ctx false dfu_reboot in Done (dfu_reboot, w)
  else Done (dfu_reboot, w).

Definition rpc_common_file_actions_error_cleanup w ctx : exec (update_world F) :=
  let w := if fc_needs_cleanup ctx then infuse_dfu_write_erase_finish w else w in
  if streams (fc_action ctx) then pm_flash_area_close w (fc_fa ctx) else Done w.

(** ** [file_write.c] *)

Context (sec : security) (header_size footer_size : Z -> Z) (max_packet_size : Z -> nat -> Z) (stale : rx_packet -> list Z).
Implicit Types sv : server (update_world F).

(** The fields of struct rpc_file_write_request that this build uses. *)
Record file_write_request := FileWriteRequest { fw_size : Z; fw_ack_period : Z; fw_action : Z; fw_folder : Z; fw_file_crc : Z }.

(** One packet that was pulled: what remains, or the error. *)
Definition file_packet sv (request p : rx_packet) (request_id expected_len ack_period remaining : Z) ctx
  : exec ((Z + Z) * file_ctx S * server (update_world F)) :=
  let var_len := RPC_DATA_VAR_LEN p in
  if remaining <? var_len then Done (inr (- EINVAL), ctx, sv)
  else if zlen (rx_data p) <? sizeof_rpc_data then Fault (* the length of the payload wrapped around *)
  else
    let data_offset := data_offset stale p in
    let! (rc, ctx, w) := rpc_common_file_actions_write (sv_app sv) ctx (zdrop sizeof_rpc_data (rx_data p)) in
    let sv := set_app sv w in
    if rc <? 0 then Done (inr rc, ctx, sv)
    else
      let expected_offset := u32 (data_offset + var_len) in
      let remaining := u32 (expected_len - expected_offset) in
      let! sv := if 0 <? remaining then rpc_server_ack_data sec header_size footer_size max_packet_size sv request request_id data_offset ack_period else Done sv in
      Done (inl remaining, ctx, sv).

(** Every pass takes an element of [sv_data]. *)
Fixpoint file_loop (fuel : nat) sv (request : rx_packet) (request_id expected_len ack_period remaining : Z) ctx
  : exec (Z * file_ctx S * server (update_world F)) :=
  match fuel with
  | O => NoFuel
  | Datatypes.S fuel =>
      if negb (0 <? remaining) then Done (0, ctx, sv)
      else
        let '(d, s) := rpc_server_pull_data stale request_id (sv_data sv) in
        let sv := set_data sv s in
        match d with
        | inr rc => Done (rc, ctx, sv)
        | inl p =>
            let! (res, ctx, sv) := file_packet sv request p request_id expected_len ack_period remaining ctx in
            match res with
            | inr rc => Done (rc, ctx, sv)
            | inl remaining => file_loop fuel sv request request_id expected_len ack_period remaining ctx
            end
        end
  end.

(** After [error_no_cleanup], after [error], and after [write_done]. *)
Definition file_write_refuse sv (request : rx_packet) (rc : Z) ctx : option tx_buf * server (update_world F) :=
  let '(b, sv) := rpc_response_simple_if header_size footer_size max_packet_size sv (rx_interface request) rc (data_response (fc_received ctx) (fc_crc ctx)) in (Some b, sv).

Definition file_write_error sv (request : rx_packet) (rc : Z) ctx : exec (option tx_buf * server (update_world F)) :=
  let! w := rpc_common_file_actions_error_cleanup (sv_app sv) ctx in
  Done (file_write_refuse (set_app sv w) request rc ctx).

Definition file_write_done (fuel : nat) sv (request : rx_packet) (request_id rpc_id : Z) ctx : exec (option tx_buf * server (update_world F)) :=
  let! (rc, dfu_reboot, ctx, w) := rpc_common_file_actions_finish fuel (sv_app sv) ctx (negb ctlr_only) false in
  let '(response, sv) := rpc_response_simple_if header_size footer_size max_packet_size (set_app sv w) (rx_interface request) rc (data_response (fc_received ctx) (fc_crc ctx)) in
  let sv := rpc_command_runner_early_response sv request request_id rpc_id response in
  let! (dfu_reboot, w) := if rc =? 0 then rpc_common_file_actions_deferred fuel (sv_app sv) ctx dfu_reboot else Done (dfu_reboot, sv_app sv) in
  Done (None, set_app sv (if dfu_reboot && has_reboot then emit w (EvReboot (fc_action ctx)) else w)).

Definition rpc_command_file_write_impl (fuel : nat) sv (request : rx_packet) (request_id rpc_id : Z) (req : file_write_request)
  : exec (option tx_buf * server (update_world F)) :=
  let action := fw_action req in
  let expected_len := fw_size req in
  if (rpc_id =? RPC_ID_FILE_WRITE_BASIC) && (action =? RPC_ENUM_FILE_ACTION_WRITE_LITTLEFS)
     || (rpc_id =? RPC_ID_FILE_WRITE) && (action =? RPC_ENUM_FILE_ACTION_FILE_FOR_COPY) && negb (fw_folder req =? INFUSE_LFS_FOLDER_COPY)
  then Done (file_write_refuse sv request (- EINVAL) (FileCtx None None 0 0 0 false))
  else
    let! (rc, ctx, w) := rpc_common_file_actions_start (sv_app sv) action expected_len (fw_file_crc req) in
    let sv := set_app sv w in
    if rc =? FILE_ALREADY_PRESENT then file_write_done fuel sv request request_id rpc_id ctx
    else if rc <? 0 then file_write_error sv request rc ctx
    else
      let! sv := rpc_server_ack_data_ready sec header_size footer_size max_packet_size sv request request_id in
      let! (rc, ctx, sv) := file_loop (Datatypes.S (Datatypes.S (length (sv_data sv)))) sv request request_id expected_len (fw_ack_period req) expected_len ctx in
      if rc <? 0 then file_write_error sv request rc ctx
      else if negb (fc_received ctx =? expected_len) then file_write_error sv request (- EINVAL) ctx
      else if negb (fw_file_crc req =? UINT32_MAX) && negb (fc_crc ctx =? fw_file_crc req) then file_write_error sv request (- EINVAL) ctx
      else file_write_done fuel sv request request_id rpc_id ctx.

Definition rpc_command_file_write (fuel : nat) sv (request : rx_packet) : exec (option tx_buf * server (update_world F)) :=
  let req := FileWriteRequest (req_size stale request) (req_ack_period stale request) (req_field stale request 11 1) (req_field stale request 12 1) (req_field stale request 21 4) in
  rpc_command_file_write_impl fuel (rpc_command_runner_request_unref sv) request (req_request_id stale request) RPC_ID_FILE_WRITE req.

Definition rpc_command_file_write_basic (fuel : nat) sv (request : rx_packet) : exec (option tx_buf * server (update_world F)) :=
  let req := FileWriteRequest (req_size stale request) (req_ack_period stale request) (req_field stale request 11 1) 0 (req_field stale request 12 4) in
  rpc_command_file_write_impl fuel (rpc_command_runner_request_unref sv) request (req_request_id stale request) RPC_ID_FILE_WRITE_BASIC req.
End file_write.
