(* ===== verification/RpcFileWriteProps.v ===== *)
(** * Correctness of file writes

    The bootloader is only asked to install what was validated; an image that arrives in order
    is written as it was sent; and what goes wrong when the flash fails. *)

From stdpp Require Import base tactics numbers list.
From Stdlib Require Import ZArith Lia.
From S2P Require Import Prelude EPacketKeys EPacketCrypt EPacketCore EPacketCoreProps RpcServer RpcServerProps CPatch CPatchSpec CPatchProps RpcFileWrite.

Local Open Scope Z_scope.
Local Open Scope infuse_scope.

(** ** Documented behaviour of areas, streams and the bootloader *)

(** [fm], [flushed] and [pending] as for patches.  Power management does not change the
    content of an area, flattening erases the range, and a stream programs bytes that are erased or
    have their value already.  The start of an image depends on the content of its slot. *)
Class UpdateSpec (F S : Type) {patch_api : PatchApi F S} {update_api : UpdateApi F S}
  (fm : F -> list Z) (flushed pending : S -> list Z) : Prop := {
  us_patch :: PatchSpec F S fm flushed pending;
  us_open_rc f : flash_area_open f <= 0;
  us_get_rc f : (pm_device_runtime_get f).1 <= 0;
  us_page_rc f off : (flash_get_page_info_by_offs f off).1 <= 0;
  us_flatten_rc f off n : (flash_area_flatten f off n).1 <= 0;
  us_init_rc f size off len : (stream_flash_init f size off len).1 <= 0;
  us_get f : fm (pm_device_runtime_get f).2 = fm f;
  us_put f : fm (pm_device_runtime_put f) = fm f;
  us_size f : fa_size f = zlen (fm f);
  us_flatten f off n : 0 <= off -> 0 <= n ->
    let '(rc, f') := flash_area_flatten f off n in
    zlen (fm f') = zlen (fm f) /\
    (0 <= rc -> off + n <= zlen (fm f) /\ fm f' = zwrite off (repeat 255 (Z.to_nat n)) (fm f));
  us_init f size off len :
    let '(rc, s) := stream_flash_init f size off len in rc = 0 -> flushed s = [] /\ pending s = [];
  us_buffered s : stream_flash_bytes_buffered s = zlen (pending s);
  us_area f off s : 0 <= off -> off + zlen (flushed s) <= zlen (fm f) -> bytes_ok (flushed s) ->
    Forall2 (fun old new => old = 255 \/ old = new) (ztake (zlen (flushed s)) (zdrop off (fm f))) (flushed s) ->
    fm (stream_flash_area f off s) = zwrite off (flushed s) (fm f);
  us_start f f' : fm f' = fm f -> boot_get_image_start_offset f' = boot_get_image_start_offset f;
}.

Definition is_upgrade (e : update_event) : bool := match e with EvUpgrade _ => true | _ => false end.

Section file_write_props.
Context {F S : Type} (fm : F -> list Z) (flushed pending : S -> list Z) `{UpdateSpec F S fm flushed pending}.
Context (erase_chunk_size write_buffer_size working_mem_size : Z) (has_reboot : bool).
Context (sec : security) (header_size footer_size : Z -> Z) (max_packet_size : Z -> nat -> Z) (stale : rx_packet -> list Z).
Implicit Types w : update_world F.
Implicit Types ctx : file_ctx S.
Implicit Types sv : server (update_world F).

(** ** Requests to the bootloader *)

Definition upgrades w : list update_event := filter is_upgrade (uw_trace w).

Lemma upgrades_emit w e : upgrades (emit w e) = upgrades w ++ (if is_upgrade e then [e] else []).
Proof. unfold upgrades. cbn. rewrite filter_app. f_equal. destruct e; done. Qed.

Lemma upgrades_set_area w p f : upgrades (set_area w p f) = upgrades w.
Proof. by destruct p. Qed.

Lemma upgrades_start w : upgrades (infuse_dfu_write_erase_start w) = upgrades w.
Proof. unfold infuse_dfu_write_erase_start. rewrite upgrades_emit. apply app_nil_r. Qed.

Lemma upgrades_finish w : upgrades (infuse_dfu_write_erase_finish w) = upgrades w.
Proof. unfold infuse_dfu_write_erase_finish. rewrite upgrades_emit. apply app_nil_r. Qed.

Lemma area_set_area w p f : area (set_area w p f) p = f.
Proof. by destruct p. Qed.

Lemma area_set_area_ne w p q f : p <> q -> area (set_area w p f) q = area w q.
Proof. by destruct p, q. Qed.

Lemma area_emit w e p : area (emit w e) p = area w p.
Proof. by destruct p. Qed.
(** No request, and the content of all areas, or that of the first slot, as it was. *)
Definition still w w' : Prop := upgrades w' = upgrades w /\ forall q, fm (area w' q) = fm (area w q).
Definition quiet w w' : Prop := upgrades w' = upgrades w /\ fm (uw_slot0 w') = fm (uw_slot0 w).

Lemma still_refl w : still w w.
Proof. done. Qed.

Lemma still_trans w1 w2 w3 : still w1 w2 -> still w2 w3 -> still w1 w3.
Proof. intros [U1 A1] [U2 A2]. split; [congruence|]. intros q. by rewrite A2, A1. Qed.

Lemma still_quiet w w' : still w w' -> quiet w w'.
Proof. intros [U A]. split; [done|]. exact (A SLOT0). Qed.

Lemma quiet_trans w1 w2 w3 : quiet w1 w2 -> quiet w2 w3 -> quiet w1 w3.
Proof. intros [U1 A1] [U2 A2]. split; congruence. Qed.

Lemma still_emit w e : is_upgrade e = false -> still w (emit w e).
Proof. intros He. split; [rewrite upgrades_emit, He; apply app_nil_r|]. intros q. by rewrite area_emit. Qed.

Lemma still_set_area w p f : fm f = fm (area w p) -> still w (set_area w p f).
Proof. intros Hf. split; [apply upgrades_set_area|]. intros q. destruct p, q; done. Qed.

Lemma quiet_set_area w p f : p <> SLOT0 -> quiet w (set_area w p f).
Proof. by destruct p. Qed.

Lemma open_still w p rc set w' : pm_flash_area_open w p = (rc, set, w') -> still w w' /\ rc <= 0.
Proof.
  unfold pm_flash_area_open. pose proof (us_open_rc (area w p)). pose proof (us_get_rc (area w p)). pose proof (us_get (area w p)) as Hg. intros Ho.
  destruct (_ =? _); [|injection Ho as <- <- <-; done]. destruct (pm_device_runtime_get _) as [rc1 f]. cbn in *. injection Ho as <- <- <-. split; [|done].
  destruct (_ <? _); [by apply still_set_area|]. eapply still_trans; [by apply still_set_area|]. by apply still_emit.
Qed.

Lemma close_still w p w' : pm_flash_area_close w p = Done w' -> still w w'.
Proof.
  destruct p as [p|]; [|done]. intros [= <-]. eapply still_trans; [apply still_set_area, us_put|]. by apply still_emit.
Qed.

Lemma close_some w p w' : pm_flash_area_close w p = Done w' -> exists q, p = Some q.
Proof. destruct p as [p|]; [|done]. eauto. Qed.
(** ** Erasing and starting *)

Lemma erase_loop_rc fuel : forall f chunk off n rc f', erase_loop fuel f chunk off n = Done (rc, f') -> rc <= 0.
Proof.
  induction fuel as [|fuel IH]; intros f chunk off n rc f' He; [done|]. cbn in He. destruct (_ =? _); [injection He; lia|].
  pose proof (us_flatten_rc f off (Z.min chunk n)). destruct (flash_area_flatten _ _ _) as [rc1 f1]. cbn in *.
  destruct (_ <? _); [injection He; lia|]. by eapply IH.
Qed.

Lemma erase_wrapped_rc f n t rc f' : infuse_dfu_image_erase_wrapped erase_chunk_size f n t = Done (rc, f') -> rc <= 0.
Proof.
  unfold infuse_dfu_image_erase_wrapped. intros He. destruct (negb _); [injection He as <- _; unfold ENODEV; lia|].
  destruct (_ <? _); [injection He as <- _; unfold EINVAL; lia|]. destruct (negb _); [injection He; lia|].
  pose proof (us_page_rc f (fa_off f + n - 1)). destruct (flash_get_page_info_by_offs _ _) as [rc1 [st sz]]. cbn [fst] in *.
  destruct (_ <? _); [injection He; lia|]. apply exec_bind_Done in He as ([rc2 f2] & Hl & He). apply erase_loop_rc in Hl.
  destruct (_ <? _); [injection He; lia|]. destruct (negb _); [injection He; lia|]. destruct (_ <? _); [injection He; lia|].
  destruct (flash_get_page_info_by_offs _ _) as [rc3 [st3 sz3]]. injection He as He.
  pose proof (us_flatten_rc f2 (u32 (st3 - fa_off f2)) (u32 (fa_size f2 - u32 (st3 - fa_off f2)))) as Hr. rewrite He in Hr. exact Hr.
Qed.

Lemma erase_quiet w p n t rc w' : p <> SLOT0 -> infuse_dfu_image_erase erase_chunk_size w p n t = Done (rc, w') -> quiet w w' /\ rc <= 0.
Proof.
  intros Hp He. unfold infuse_dfu_image_erase in He. apply exec_bind_Done in He as ([rc1 f1] & Hw & He). injection He as <- <-.
  split; [|by eapply erase_wrapped_rc]. eapply quiet_trans; [by apply still_quiet, (still_emit w EvWriteEraseStart)|].
  eapply quiet_trans; [by apply quiet_set_area|]. apply still_quiet. by apply still_emit.
Qed.

(** The CRC calculation reported the CRC of the new file for the old content. *)
Definition duplicate w (p : partition) (len crc : Z) : Prop :=
  crc <> UINT32_MAX /\ len <> UINT32_MAX /\ exists f rc f', fm f = fm (area w p) /\ flash_area_crc32 f 0 len = (rc, crc, f').

Lemma duplicate_same w w' p len crc : fm (area w' p) = fm (area w p) -> duplicate w p len crc -> duplicate w' p len crc.
Proof. intros Ha (H1 & H2 & f & rc & f' & Hf & Hc). split; [done|]. split; [done|]. exists f, rc, f'. split; [congruence|done]. Qed.

Lemma crc32_still w p off n : let '(_, _, f) := flash_area_crc32 (area w p) off n in still w (set_area w p f).
Proof. pose proof (pa_crc32 (area w p) off n) as Hc. destruct (flash_area_crc32 _ _ _) as [[rc c] f]. apply still_set_area, Hc. Qed.

(** What starting leaves in the context. *)
Definition started (p : partition) (rc len crc : Z) ctx ctx' w' : Prop :=
  fc_action ctx' = fc_action ctx /\ fc_received ctx' = fc_received ctx /\ (fc_fa ctx' = fc_fa ctx \/ fc_fa ctx' = Some p) /\ rc <= 1 /\
  (rc = 1 -> fc_stream ctx' = fc_stream ctx /\ duplicate w' p len crc) /\ (rc <> 1 -> fc_crc ctx' = fc_crc ctx).

Lemma check_and_erase_started w ctx p len crc t rc len' ctx' w' :
  p <> SLOT0 -> flash_area_check_and_erase erase_chunk_size w ctx p len crc t = Done (rc, len', ctx', w') ->
  quiet w w' /\ started p rc len crc ctx ctx' w'.
Proof.
  intros Hp He. unfold flash_area_check_and_erase in He. destruct (pm_flash_area_open w p) as [[rc1 set] w1] eqn:Ho.
  destruct (open_still _ _ _ _ _ Ho) as [Hs1 Hr1]. set (ctx1 := if set then with_fa ctx (Some p) else ctx) in *.
  assert (Hc1 : fc_action ctx1 = fc_action ctx /\ fc_received ctx1 = fc_received ctx /\ (fc_fa ctx1 = fc_fa ctx \/ fc_fa ctx1 = Some p) /\ fc_crc ctx1 = fc_crc ctx /\ fc_stream ctx1 = fc_stream ctx)
    by (unfold ctx1; destruct set; cbn; auto). destruct Hc1 as (C1 & C2 & C3 & C4 & C5).
  assert (Hst : forall r (w2 : update_world F), r <= 0 -> started p r len crc ctx ctx1 w2) by (intros; unfold started; repeat split; auto; lia).
  destruct (negb (rc1 =? 0)) eqn:E0; [injection He as <- <- <- <-; split; [by apply still_quiet|by apply Hst]|].
  destruct (if negb (crc =? UINT32_MAX) && negb (len =? UINT32_MAX) then _ else _) as [present w2] eqn:Epr.
  assert (Hp2 : still w1 w2 /\ (present = true -> duplicate w2 p len crc)).
  { destruct (negb (crc =? UINT32_MAX)) eqn:E1, (negb (len =? UINT32_MAX)) eqn:E2; cbn [andb] in Epr; try (injection Epr as <- <-; done).
    pose proof (crc32_still w1 p 0 len) as Hs. destruct (flash_area_crc32 _ _ _) as [[rc2 c] f] eqn:Ec. injection Epr as <- <-. split; [done|].
    intros ->%Z.eqb_eq. split; [by apply Z.eqb_neq, negb_true_iff|]. split; [by apply Z.eqb_neq, negb_true_iff|].
    exists (area w1 p), rc2, f. split; [by rewrite (proj2 Hs)|done]. }
  destruct Hp2 as [Hs2 Hd]. destruct present.
  - injection He as <- <- <- <-. split; [by apply still_quiet; eapply still_trans|]. unfold started, FILE_ALREADY_PRESENT. cbn. do 3 (split; [done|]). split; [lia|]. split; [|lia]. intros _. split; [done|by apply Hd].
  - apply exec_bind_Done in He as ([rc3 w3] & Her & He). destruct (erase_quiet _ _ _ _ _ _ Hp Her) as [Hq3 Hr3].
    assert (Hq : quiet w w3) by (eapply quiet_trans; [apply still_quiet; by eapply still_trans|done]).
    destruct (negb (rc3 =? 0)); [|injection He as <- <- <- <-; split; [done|by apply Hst]].
    apply exec_bind_Done in He as (w4 & Hcl & He). injection He as <- <- <- <-. split; [|by apply Hst].
    eapply quiet_trans; [done|]. apply still_quiet. by eapply close_still.
Qed.

Lemma writer_init_started w ctx p off len crc t rc ctx' w' :
  p <> SLOT0 -> common_file_actions_stream_writer_init erase_chunk_size write_buffer_size w ctx p off len crc t = Done (rc, ctx', w') ->
  quiet w w' /\ started p rc len crc ctx ctx' w'.
Proof.
  intros Hp He. unfold common_file_actions_stream_writer_init in He. apply exec_bind_Done in He as ([[[rc1 len1] ctx1] w1] & Hce & He).
  apply check_and_erase_started in Hce as [Hq Hs]; [|done]. destruct ((rc1 =? FILE_ALREADY_PRESENT) || (rc1 <? 0)) eqn:E1; [injection He as <- <- <-; done|].
  apply orb_false_iff in E1 as [E1%Z.eqb_neq E2%Z.ltb_ge]. unfold FILE_ALREADY_PRESENT in E1.
  destruct (_ =? _); [done|]. pose proof (us_init_rc (area w1 p) write_buffer_size off (u32 (len1 + (write_block_size (area w1 p) - 1)) / write_block_size (area w1 p) * write_block_size (area w1 p))) as Hi.
  destruct (stream_flash_init _ _ _ _) as [rc2 s]. cbn in Hi. injection He as <- <- <-. split; [done|].
  destruct Hs as (S1 & S2 & S3 & S4 & S5 & S6). unfold started. destruct (_ =? _); cbn; repeat split; auto; try lia.
Qed.
(** The partition an action writes. *)
Definition target (action : Z) : partition := if action =? RPC_ENUM_FILE_ACTION_APP_IMG then SLOT1 else FILE_PARTITION.
Definition fa_ok ctx : Prop := forall p, fc_fa ctx = Some p -> p = target (fc_action ctx).

Lemma target_slot0 action : target action <> SLOT0.
Proof. unfold target. by destruct (_ =? _). Qed.

Lemma start_spec w action len crc rc ctx w' :
  rpc_common_file_actions_start erase_chunk_size write_buffer_size w action len crc = Done (rc, ctx, w') ->
  quiet w w' /\ fc_action ctx = action /\ fc_received ctx = 0 /\ fa_ok ctx /\
  (rc = 1 -> fc_stream ctx = None /\ duplicate w' (target action) len crc) /\ (rc <> 1 -> fc_crc ctx = 0).
Proof.
  intros He. unfold rpc_common_file_actions_start in He. apply exec_bind_Done in He as ([[rc1 ctx1] w1] & Hs & He).
  assert (H1 : quiet w w1 /\ fc_action ctx1 = action /\ fc_received ctx1 = 0 /\ fa_ok ctx1 /\
    (rc1 = 1 -> fc_stream ctx1 = None /\ duplicate w1 (target action) len crc) /\ (rc1 <> 1 -> fc_crc ctx1 = 0)).
  { assert (Hsub : forall p, p = target action -> quiet w w1 /\ started p rc1 len crc (FileCtx None None 0 0 action false) ctx1 w1 ->
      quiet w w1 /\ fc_action ctx1 = action /\ fc_received ctx1 = 0 /\ fa_ok ctx1 /\
      (rc1 = 1 -> fc_stream ctx1 = None /\ duplicate w1 (target action) len crc) /\ (rc1 <> 1 -> fc_crc ctx1 = 0)).
    { intros p -> [Hq (S1 & S2 & S3 & S4 & S5 & S6)]. cbn in *. do 3 (split; [done|]). split; [|done].
      intros p Hp. rewrite S1. destruct S3 as [S3|S3]; rewrite S3 in Hp; [done|]. by injection Hp. }
    destruct (action =? RPC_ENUM_FILE_ACTION_DISCARD); [injection Hs as <- <- <-; by repeat split|].
    unfold target in *. destruct (action =? RPC_ENUM_FILE_ACTION_APP_IMG); [by apply writer_init_started in Hs; [apply (Hsub SLOT1)|]|].
    destruct (_ || _); [by apply writer_init_started in Hs; [apply (Hsub FILE_PARTITION)|]|]. injection Hs as <- <- <-. by repeat split. }
  destruct H1 as (Q & S1 & S2 & S3 & S4 & S5). destruct (fc_fa ctx1) eqn:Hfa; [destruct (rc1 =? 0) eqn:E|]; injection He as <- <- <-; try done.
  apply Z.eqb_eq in E. split; [eapply quiet_trans; [done|]; by apply still_quiet, still_emit|]. do 3 (split; [done|]). split; [lia|done].
Qed.

(** ** Receiving *)

(** The context has counted the bytes [data]. *)
Definition holds ctx (data : list Z) : Prop := fc_received ctx = u32 (zlen data) /\ fc_crc ctx = crc32_ieee data.
Definition same_target ctx ctx' : Prop := fc_fa ctx' = fc_fa ctx /\ fc_action ctx' = fc_action ctx.

Lemma stream_write_spec w ctx data flush rc ctx' w' :
  fa_ok ctx -> stream_write w ctx data flush = Done (rc, ctx', w') ->
  quiet w w' /\ same_target ctx ctx' /\ fc_received ctx' = fc_received ctx /\ fc_crc ctx' = fc_crc ctx.
Proof.
  intros Hfa He. unfold stream_write in He. destruct (fc_stream ctx) as [[s off]|]; [|done]. destruct (fc_fa ctx) as [p|] eqn:Hp; [|done].
  destruct (stream_flash_buffered_write _ _ _) as [[rc1 chunks] s1]. injection He as <- <- <-. split; [|done].
  apply quiet_set_area. rewrite (Hfa p Hp). apply target_slot0.
Qed.

Lemma write_spec w ctx data all rc ctx' w' :
  fa_ok ctx -> holds ctx all -> rpc_common_file_actions_write w ctx data = Done (rc, ctx', w') ->
  quiet w w' /\ same_target ctx ctx' /\ holds ctx' (all ++ data).
Proof.
  intros Hfa [Hr Hc] He. unfold rpc_common_file_actions_write in He. set (ctx1 := with_data ctx _ _) in *.
  assert (Hh : holds ctx1 (all ++ data)).
  { unfold holds, ctx1, crc32_ieee. cbn. rewrite Hr, Hc, zlen_app. unfold crc32_ieee. rewrite pa_crc_app. split; [|done].
    unfold uwrap. by rewrite Zplus_mod_idemp_l. }
  destruct (streams _); [|injection He as <- <- <-; done]. apply stream_write_spec in He as (Hq & Ht & Hr' & Hc'); [|done].
  split; [done|]. split; [done|]. unfold holds. by rewrite Hr', Hc'.
Qed.

(** Acknowledgements leave the application and the packets to come alone. *)
Definition same_inputs sv sv' : Prop := sv_app sv' = sv_app sv /\ sv_data sv' = sv_data sv.

Lemma send_ack_inputs sv req id n sv' :
  send_ack sec header_size footer_size max_packet_size sv req id n = Done sv' -> same_inputs sv sv'.
Proof.
  unfold send_ack, alloc. destruct (epacket_alloc_tx_for_interface _ _ _ _ _) as [b c]. intros He. destruct (_ =? _); [by injection He as <-|].
  apply exec_bind_Done in He as (b1 & _ & He). destruct (_ <? _); [done|]. apply exec_bind_Done in He as (b2 & _ & He). by injection He as <-.
Qed.

Lemma ack_data_inputs sv req id off period sv' :
  rpc_server_ack_data sec header_size footer_size max_packet_size sv req id off period = Done sv' -> same_inputs sv sv'.
Proof.
  unfold rpc_server_ack_data. intros He. destruct (_ && _); [|by injection He as <-]. destruct (_ <=? _); [done|]. destruct (_ <=? _); [|by injection He as <-].
  by apply send_ack_inputs in He.
Qed.

(** The payloads of the data packets for a request, in the order they are pulled. *)
Definition payload_of (id : Z) (e : option rx_packet) : list Z :=
  match e with
  | Some p => if data_request_id stale p =? id then zdrop sizeof_rpc_data (rx_data p) else []
  | None => []
  end.
Definition taken_payloads (id : Z) (s : list (option rx_packet)) : list Z := concat (map (payload_of id) s).

Lemma taken_payloads_app id s t : taken_payloads id (s ++ t) = taken_payloads id s ++ taken_payloads id t.
Proof. unfold taken_payloads. by rewrite map_app, concat_app. Qed.

Lemma pull_data_payload id s d s' :
  rpc_server_pull_data stale id s = (d, s') ->
  exists taken, s = taken ++ s' /\ match d with inl p => taken_payloads id taken = zdrop sizeof_rpc_data (rx_data p) | inr rc => rc < 0 end.
Proof.
  unfold rpc_server_pull_data. induction s as [|[p|] s IH]; cbn [pull_data_core]; intros He.
  - injection He as <- <-. exists []. split; [done|]. unfold ETIMEDOUT. lia.
  - destruct (data_request_id stale p =? id) eqn:Eid; cbn [negb] in He.
    + exists [Some p]. destruct (_ && _); injection He as <- <-; (split; [done|]); [unfold EINVAL; lia|].
      unfold taken_payloads, payload_of. cbn [map concat]. by rewrite Eid, app_nil_r.
    + destruct (IH He) as (taken & -> & Hd). exists (Some p :: taken). split; [done|]. destruct d as [q|]; [|done].
      unfold taken_payloads, payload_of at 1. cbn [map concat]. by rewrite Eid.
  - injection He as <- <-. exists [None]. split; [done|]. unfold ETIMEDOUT. lia.
Qed.

Lemma file_packet_spec sv req p id exp period rem ctx all res ctx' sv' :
  fa_ok ctx -> holds ctx all ->
  file_packet sec header_size footer_size max_packet_size stale sv req p id exp period rem ctx = Done (res, ctx', sv') ->
  quiet (sv_app sv) (sv_app sv') /\ same_target ctx ctx' /\ sv_data sv' = sv_data sv /\
  match res with inl _ => holds ctx' (all ++ zdrop sizeof_rpc_data (rx_data p)) | inr rc => rc < 0 end.
Proof.
  intros Hfa Hh He. unfold file_packet in He. cbv zeta in He. destruct (rem <? _); [injection He as <- <- <-; repeat (split; [done|]); unfold EINVAL; lia|].
  destruct (zlen (rx_data p) <? _); [done|].
  apply exec_bind_Done in He as ([[rc ctx1] w1] & Hw & He). apply (write_spec _ _ _ all) in Hw as (Hq & Ht & Hh'); [|done..].
  destruct (Z.ltb_spec rc 0); [injection He as <- <- <-; done|]. apply exec_bind_Done in He as (sv1 & Ha & He). injection He as <- <- <-.
  assert (Happ : sv_app sv1 = w1 /\ sv_data sv1 = sv_data sv) by (destruct (_ <? _); [by apply ack_data_inputs in Ha|by injection Ha as <-]).
  destruct Happ as [-> ->]. done.
Qed.

Lemma file_loop_spec req id exp period fuel : forall sv rem ctx all rc ctx' sv',
  fa_ok ctx -> holds ctx all ->
  file_loop sec header_size footer_size max_packet_size stale fuel sv req id exp period rem ctx = Done (rc, ctx', sv') ->
  quiet (sv_app sv) (sv_app sv') /\ same_target ctx ctx' /\
  exists taken, sv_data sv = taken ++ sv_data sv' /\ (0 <= rc -> holds ctx' (all ++ taken_payloads id taken)).
Proof.
  induction fuel as [|fuel IH]; intros sv rem ctx all rc ctx' sv' Hfa Hh He; [done|]. cbn [file_loop] in He.
  destruct (negb _); [injection He as <- <- <-; split; [done|]; split; [done|]; exists []; by rewrite app_nil_r|].
  destruct (rpc_server_pull_data _ _ _) as [d s] eqn:Hpull. apply pull_data_payload in Hpull as (taken & Htk & Hd). destruct d as [p|rc1].
  - apply exec_bind_Done in He as ([[res ctx1] sv1] & Hp & He). apply (file_packet_spec _ _ _ _ _ _ _ _ all) in Hp as (Hq & [Ht1 Ht2] & Hs1 & Hh1); [|done..].
    cbn [set_data sv_data] in Hs1. destruct res as [rem1|rc1].
    + apply (IH _ _ _ (all ++ zdrop sizeof_rpc_data (rx_data p))) in He as (Hq' & [Ht3 Ht4] & taken2 & Htk2 & Hh2); [|by intros q; rewrite Ht1, Ht2; apply Hfa|done].
      split; [by eapply quiet_trans|]. split; [split; congruence|]. exists (taken ++ taken2).
      split; [by rewrite Htk, <- app_assoc, <- Htk2, Hs1|]. rewrite taken_payloads_app, Hd, app_assoc. done.
    + injection He as <- <- <-. split; [done|]. split; [done|]. exists taken. split; [by rewrite Htk, Hs1|lia].
  - injection He as <- <- <-. split; [done|]. split; [done|]. exists taken. split; [done|lia].
Qed.
(** ** Patches *)

(** The patch file has a header that announces its content and that of the input. *)
Definition patch_valid (h : cpatch_header) (input patch : list Z) : Prop :=
  h = cpatch_header_of_bytes (ztake sizeof_cpatch_header patch) /\
  crc32_ieee (ztake (av_length (input_file h)) input) = av_crc (input_file h) /\
  crc32_ieee (ztake (av_length (patch_file h)) (zdrop sizeof_cpatch_header patch)) = av_crc (patch_file h).

Lemma patch_start_spec (input patch : F) rc h input' patch' :
  cpatch_patch_start (S := S) input patch = (rc, h, input', patch') ->
  fm input' = fm input /\ fm patch' = fm patch /\ (0 <= rc -> patch_valid h (fm input) (fm patch)).
Proof.
  unfold cpatch_patch_start. intros He. pose proof (pa_read patch 0 sizeof_cpatch_header ltac:(done) ltac:(done)) as Hr.
  destruct (flash_area_read _ _ _) as [[rc1 mem] patch1]. destruct Hr as (Hf1 & _ & Hsh & Hmem).
  destruct (Z.ltb_spec rc1 0); [injection He as <- <- <- <-; split; [done|]; split; [done|lia]|].
  destruct (negb (magic_value _ =? _)); [injection He as <- <- <- <-; split; [done|]; split; [done|unfold EINVAL; lia]|].
  destruct (negb (version_major _ =? _)); [injection He as <- <- <- <-; split; [done|]; split; [done|unfold EINVAL; lia]|].
  destruct (negb (crc32_ieee _ =? _)); [injection He as <- <- <- <-; split; [done|]; split; [done|unfold EINVAL; lia]|].
  pose proof (pa_crc32 input 0 (av_length (input_file (cpatch_header_of_bytes mem)))) as Hc1. destruct (flash_area_crc32 input _ _) as [[rc2 c2] input1]. destruct Hc1 as [Hf2 Hc1].
  destruct (Z.ltb_spec rc2 0); [injection He as <- <- <- <-; split; [done|]; split; [done|lia]|].
  destruct (negb (c2 =? _)) eqn:E2; [injection He as <- <- <- <-; split; [done|]; split; [done|unfold EINVAL; lia]|].
  pose proof (pa_crc32 patch1 sizeof_cpatch_header (av_length (patch_file (cpatch_header_of_bytes mem)))) as Hc3. destruct (flash_area_crc32 patch1 _ _) as [[rc3 c3] patch2]. destruct Hc3 as [Hf3 Hc3].
  destruct (Z.ltb_spec rc3 0); [injection He as <- <- <- <-; split; [done|]; split; [congruence|lia]|].
  destruct (negb (c3 =? _)) eqn:E3; injection He as <- <- <- <-; (split; [done|]); (split; [congruence|]); [unfold EINVAL; lia|]. intros _.
  apply negb_false_iff, Z.eqb_eq in E2, E3. specialize (Hc1 ltac:(done)). specialize (Hc3 ltac:(done)).
  assert (mem = ztake sizeof_cpatch_header (fm patch)) as -> by (rewrite Hmem, zdrop_0; [done..|destruct (Z.le_gt_cases (0 + sizeof_cpatch_header) (zlen (fm patch))); [done|lia]]).
  rewrite zdrop_0 in Hc1 by done. rewrite Hf1 in Hc3. split; [done|]. split; congruence.
Qed.

Lemma start_areas_still w p rc h f f' : p <> SLOT0 -> cpatch_patch_start (S := S) (area w SLOT0) (area w p) = (rc, h, f, f') ->
  still w (set_area (set_area w SLOT0 f) p f').
Proof.
  intros Hp (H1 & H2 & _)%patch_start_spec. apply (still_trans _ (set_area w SLOT0 f)); [by apply still_set_area|]. apply still_set_area. rewrite H2. by rewrite area_set_area_ne.
Qed.

Lemma validate_cpatch_still w ctx rc w' : fa_ok ctx -> validate_cpatch w ctx = Done (rc, w') -> still w w'.
Proof.
  intros Hfa He. unfold validate_cpatch in He. destruct (fc_fa ctx) as [p|] eqn:Hp; [|done]. assert (Hp0 : p <> SLOT0) by (rewrite (Hfa p Hp); apply target_slot0).
  destruct (pm_flash_area_open w SLOT0) as [[rc1 set] w1] eqn:Ho. apply open_still in Ho as [Ho _]. destruct (negb set); [done|].
  destruct (cpatch_patch_start _ _) as [[[rc2 h] f] f'] eqn:Hs. apply start_areas_still in Hs; [|done].
  apply exec_bind_Done in He as (w2 & Hc & He). injection He as <- <-. apply close_still in Hc. eauto using still_trans.
Qed.

(** The second slot has what a stream wrote, with the length and CRC the patch announces. *)
Definition patched (input : list Z) w : Prop := exists h (f : F) (s : S),
  patch_valid h input (fm (uw_file w)) /\ fm (uw_slot1 w) = fm (stream_flash_area f (boot_get_image_start_offset f) s) /\
  zlen (flushed s) = av_length (output_file h) /\ crc32_ieee (flushed s) = av_crc (output_file h) /\ pending s = [].

Lemma patched_still input w w' : still w w' -> patched input w -> patched input w'.
Proof.
  intros [_ Ha] (h & f & s & Hv & Hf & Hr). exists h, f, s. pose proof (Ha FILE_PARTITION) as H1. pose proof (Ha SLOT1) as H2. cbn in H1, H2. by rewrite H1, H2.
Qed.

(** A slot is changed, the file partition and requests are not. *)
Definition file_kept w w' : Prop := upgrades w' = upgrades w /\ fm (uw_file w') = fm (uw_file w).

Lemma still_file_kept w w' : still w w' -> file_kept w w'.
Proof. intros [U A]. split; [done|]. exact (A FILE_PARTITION). Qed.

Lemma file_kept_trans w1 w2 w3 : file_kept w1 w2 -> file_kept w2 w3 -> file_kept w1 w3.
Proof. intros [U1 A1] [U2 A2]. split; congruence. Qed.

Lemma file_kept_set_area w p f : p <> FILE_PARTITION -> file_kept w (set_area w p f).
Proof. by destruct p. Qed.

Lemma erase_file_kept w n t rc w' : infuse_dfu_image_erase erase_chunk_size w SLOT1 n t = Done (rc, w') -> file_kept w w'.
Proof.
  intros He. unfold infuse_dfu_image_erase in He. apply exec_bind_Done in He as ([rc1 f1] & Hw & He). injection He as <- <-.
  eapply file_kept_trans; [by apply still_file_kept, (still_emit w EvWriteEraseStart)|].
  eapply file_kept_trans; [by apply (file_kept_set_area _ SLOT1)|]. apply still_file_kept. by apply still_emit.
Qed.

Lemma apply_rc fuel (f f' : F) (s : S) h cb rc pw : cpatch_patch_apply fuel f f' s h cb = Done (rc, pw) -> rc <= 0.
Proof.
  unfold cpatch_patch_apply. intros He. apply exec_bind_Done in He as ([[rc1 w1] st1] & _ & He).
  destruct (Z.ltb_spec rc1 0); [injection He; lia|]. destruct (output_write _ _ _) as [rc2 w2]. destruct (Z.ltb_spec rc2 0); [injection He; lia|].
  destruct (_ || _); injection He as <- _; unfold EINVAL; lia.
Qed.

Lemma apply_cpatch_spec fuel w rc w' :
  apply_cpatch erase_chunk_size working_mem_size (S := S) fuel w FILE_PARTITION = Done (rc, w') ->
  file_kept w w' /\ rc <= 0 /\ (0 <= rc -> patched (fm (uw_slot0 w)) w').
Proof.
  intros He. unfold apply_cpatch in He. destruct (cpatch_patch_start _ _) as [[[rc1 h] f] f'] eqn:Hs.
  pose proof (start_areas_still w FILE_PARTITION _ _ _ _ ltac:(done) Hs) as Hst. set (w1 := set_area _ _ _) in *.
  apply patch_start_spec in Hs as (_ & _ & Hv). cbn in Hv.
  destruct (Z.ltb_spec rc1 0); [injection He as <- <-; split; [by apply still_file_kept|lia]|]. specialize (Hv ltac:(done)).
  apply exec_bind_Done in He as ([rc2 w2] & Her & He). assert (Hk : file_kept w w2) by (eapply file_kept_trans; [by apply still_file_kept|by eapply erase_file_kept]).
  destruct (Z.ltb_spec rc2 0); [injection He as <- <-; split; [done|lia]|].
  destruct (_ =? 0); [done|]. set (len := if negb _ then _ else _) in He.
  pose proof (us_init (area w2 SLOT1) (Z.min working_mem_size 4096) (boot_get_image_start_offset (area w2 SLOT1)) len) as Hi.
  destruct (stream_flash_init _ _ _ _) as [rc3 s] eqn:Ei. destruct (negb (rc3 =? 0)) eqn:E3; [done|].
  apply negb_false_iff, Z.eqb_eq in E3. destruct (Hi E3) as [Hfl _]. apply exec_bind_Done in He as ([rc4 pw] & Ha & He). injection He as <- <-.
  pose proof (apply_rc _ _ _ _ _ _ _ _ Ha). assert (Hk' : file_kept w2 (set_area (set_area w2 SLOT0 (w_input pw)) SLOT1 (stream_flash_area (area w2 SLOT1) (boot_get_image_start_offset (area w2 SLOT1)) (w_output pw)))) by done.
  split; [by eapply file_kept_trans|]. split; [done|]. intros Hrc. replace rc4 with 0 in Ha by lia. apply cpatch_only_validated in Ha as (A1 & A2 & A3); [|done].
  exists h, (area w2 SLOT1), (w_output pw). split; [|done]. change (patch_valid h (fm (uw_slot0 w)) (fm (uw_file w2))). by rewrite (proj2 Hk).
Qed.
(** ** Finishing *)

Lemma finish_cpatch_spec fuel w ctx rc w' :
  fc_fa ctx = Some FILE_PARTITION -> finish_cpatch erase_chunk_size working_mem_size fuel w ctx = Done (rc, w') ->
  file_kept w w' /\ (0 <= rc -> patched (fm (uw_slot0 w)) w').
Proof.
  intros Hfa He. unfold finish_cpatch in He. destruct (pm_flash_area_open w SLOT0) as [[rc1 set] w1] eqn:Ho1. apply open_still in Ho1 as [Ho1 _].
  destruct (Z.ltb_spec rc1 0); [injection He as <- <-; split; [by apply still_file_kept|lia]|].
  destruct (pm_flash_area_open w1 SLOT1) as [[rc2 set'] w2] eqn:Ho2. apply open_still in Ho2 as [Ho2 _]. pose proof (still_trans _ _ _ Ho1 Ho2) as Ho.
  destruct (Z.ltb_spec rc2 0).
  { apply exec_bind_Done in He as (w3 & Hc & He). injection He as <- <-. apply close_still in Hc. split; [|lia]. apply still_file_kept. by eapply still_trans. }
  rewrite Hfa in He. apply exec_bind_Done in He as ([rc3 w3] & Ha & He). apply exec_bind_Done in He as (w4 & Hc4 & He). apply exec_bind_Done in He as (w5 & Hc5 & He). injection He as <- <-.
  apply close_still in Hc4, Hc5. apply apply_cpatch_spec in Ha as (Hk & _ & Hp).
  assert (Hs2 : still w (infuse_dfu_write_erase_start w2)) by (eapply still_trans; [exact Ho|by apply still_emit]).
  assert (Hs5 : still w3 w5) by (eapply still_trans; [by apply (still_emit w3 EvWriteEraseFinish)|by eapply still_trans]).
  split; [eapply file_kept_trans; [by apply still_file_kept|]; eapply file_kept_trans; [done|]; by apply still_file_kept|].
  intros Hrc. eapply patched_still; [done|]. pose proof (proj2 Hs2 SLOT0) as H0s. cbn in H0s. rewrite <- H0s. by apply Hp.
Qed.

Definition image_offset (action : Z) (f : F) : Z := if action =? RPC_ENUM_FILE_ACTION_APP_IMG then boot_get_image_start_offset f else 0.

(** The bytes in the partition have the CRC of those that were received. *)
Definition crc_stored ctx w : Prop := 0 < fc_received ctx ->
  let f := area w (target (fc_action ctx)) in crc32_ieee (ztake (fc_received ctx) (zdrop (image_offset (fc_action ctx) f) (fm f))) = fc_crc ctx.

Lemma crc_stored_same ctx w w' : fm (area w' (target (fc_action ctx))) = fm (area w (target (fc_action ctx))) -> crc_stored ctx w -> crc_stored ctx w'.
Proof. unfold crc_stored, image_offset. intros Hf Hc Hr. cbv zeta. rewrite (us_start _ _ Hf), Hf. by apply Hc. Qed.

Lemma finish_validate_spec w ctx rc w' : fa_ok ctx -> finish_validate w ctx = (rc, w') ->
  still w w' /\ (0 <= rc -> fc_fa ctx <> None -> crc_stored ctx w').
Proof.
  intros Hfa He. unfold finish_validate in He. destruct (fc_fa ctx) as [p|] eqn:Hp; [|injection He as <- <-; done].
  rewrite (Hfa p Hp) in *. unfold crc_stored. destruct (Z.ltb_spec 0 (fc_received ctx)); [|injection He as <- <-; split; [done|lia]].
  change (if fc_action ctx =? RPC_ENUM_FILE_ACTION_APP_IMG then _ else 0) with (image_offset (fc_action ctx) (area w (target (fc_action ctx)))) in He.
  pose proof (pa_crc32 (area w (target (fc_action ctx))) (image_offset (fc_action ctx) (area w (target (fc_action ctx)))) (fc_received ctx)) as Hc.
  destruct (flash_area_crc32 _ _ _) as [[rc1 c] f]. destruct Hc as [Hf Hc].
  assert (Hst : still w (set_area w (target (fc_action ctx)) f)) by (by apply still_set_area).
  destruct (Z.ltb_spec rc1 0); [injection He as <- <-; split; [done|lia]|].
  destruct (negb (_ =? c)) eqn:E; injection He as <- <-; (split; [done|]); [unfold EBADE; lia|]. intros _ _ _. apply negb_false_iff, Z.eqb_eq in E. rewrite E, Hc by done.
  rewrite area_set_area. unfold image_offset. by rewrite (us_start _ _ Hf), Hf.
Qed.

Lemma finish_flush_spec w ctx rc ctx' w' : fa_ok ctx -> finish_flush w ctx = Done (rc, ctx', w') ->
  quiet w w' /\ same_target ctx ctx' /\ fc_received ctx' = fc_received ctx /\ fc_crc ctx' = fc_crc ctx /\
  (fc_stream ctx = None -> fc_stream ctx' = None /\ w' = w).
Proof.
  intros Hfa He. unfold finish_flush in He. destruct (fc_stream ctx) as [[s off]|] eqn:Hs; [|injection He as <- <- <-; done].
  destruct (_ && _); [|by injection He as <- <- <-]. by apply stream_write_spec in He as (H1 & H2 & H3 & H4).
Qed.

(** What [rpc_common_file_actions_finish] did: nothing was requested, or everything was validated. *)
Definition finished (defer : bool) w w' ctx : Prop :=
  quiet w w' \/ (fc_action ctx = RPC_ENUM_FILE_ACTION_APP_CPATCH /\ defer = false /\ upgrades w' = upgrades w) \/
  (crc_stored ctx w' /\ (fc_action ctx = RPC_ENUM_FILE_ACTION_APP_IMG \/
     fc_action ctx = RPC_ENUM_FILE_ACTION_APP_CPATCH /\ defer = false /\ patched (fm (uw_slot0 w)) w')).

Lemma finish_image_kept w ctx up w' : finish_image w ctx = Done (up, w') -> (forall q, fm (area w' q) = fm (area w q)) /\ fc_fa ctx <> None.
Proof.
  unfold finish_image. intros He. apply exec_bind_Done in He as (w1 & Hc & He). injection He as <- <-. destruct (close_some _ _ _ Hc) as [q ->].
  apply close_still in Hc as [_ Hc]. split; [|done]. intros r. rewrite area_emit. apply Hc.
Qed.
Lemma crc_stored_ctx ctx ctx' w : same_target ctx ctx' -> fc_received ctx' = fc_received ctx -> fc_crc ctx' = fc_crc ctx -> crc_stored ctx' w -> crc_stored ctx w.
Proof. unfold crc_stored. intros [_ ->] -> ->. done. Qed.

(** The end of the patch case, [w3] being validated. *)
Lemma finish_patch_spec fuel w w1 w3 ctx ctx1 ctx2 (b : bool) rc b' ctx' w' :
  fa_ok ctx2 -> quiet w w1 -> still w1 w3 -> same_target ctx ctx2 -> fc_received ctx2 = fc_received ctx -> fc_crc ctx2 = fc_crc ctx ->
  (fc_stream ctx = None -> fc_stream ctx2 = None /\ w1 = w) -> (fc_fa ctx2 <> None -> crc_stored ctx2 w3) ->
  fc_action ctx = RPC_ENUM_FILE_ACTION_APP_CPATCH ->
  (let! (rc, w) := finish_cpatch erase_chunk_size working_mem_size fuel w3 ctx2 in
   if rc <? 0 then let! w := pm_flash_area_close w (fc_fa ctx2) in Done (rc, b, ctx2, w)
   else let! (upgrade, w) := finish_image w ctx2 in Done (rc, b || upgrade, ctx2, w)) = Done (rc, b', ctx', w') ->
  same_target ctx ctx' /\ fc_received ctx' = fc_received ctx /\ fc_crc ctx' = fc_crc ctx /\ finished false w w' ctx /\
  (fc_stream ctx = None -> fc_stream ctx' = None /\ fm (area w' (target (fc_action ctx))) = fm (area w (target (fc_action ctx)))).
Proof.
  intros Hfa Hq H13 Ht Hr Hc Hn Hv Hcp He. apply exec_bind_Done in He as ([rc4 w4] & Hf & He).
  assert (Hsome : fc_fa ctx2 <> None).
  { destruct (rc4 <? 0); [apply exec_bind_Done in He as (w5 & Hcl & _); by destruct (close_some _ _ _ Hcl) as [q ->]|].
    apply exec_bind_Done in He as ([up w5] & Hi & _). by apply finish_image_kept in Hi as [_ ?]. }
  assert (Hfile : fc_fa ctx2 = Some FILE_PARTITION).
  { destruct (fc_fa ctx2) as [q|] eqn:Hq2; [|done]. rewrite (Hfa q Hq2), (proj2 Ht), Hcp. done. }
  apply finish_cpatch_spec in Hf as [Hk Hp]; [|done]. assert (Htg : target (fc_action ctx) = FILE_PARTITION) by (by rewrite Hcp).
  assert (Hfm : forall w5, (forall q, fm (area w5 q) = fm (area w4 q)) -> ctx' = ctx2 -> fc_stream ctx = None -> fc_stream ctx' = None /\ fm (area w5 (target (fc_action ctx))) = fm (area w (target (fc_action ctx)))).
  { intros w5 H5 -> Hnone. destruct (Hn Hnone) as [? ->]. split; [done|]. rewrite H5, Htg, <- (proj2 H13 FILE_PARTITION). apply Hk. }
  destruct (Z.ltb_spec rc4 0).
  - apply exec_bind_Done in He as (w5 & Hcl & He). injection He as _ _ <- <-. apply close_still in Hcl. do 3 (split; [done|]). split; [|apply Hfm; [apply Hcl|done]].
    right; left. split; [done|]. split; [done|]. rewrite (proj1 Hcl), (proj1 Hk), (proj1 H13). apply Hq.
  - apply exec_bind_Done in He as ([up w5] & Hi & He). injection He as _ _ <- <-. apply finish_image_kept in Hi as [Hi _]. do 3 (split; [done|]). split; [|by apply Hfm].
    right; right. split.
    + apply (crc_stored_same _ w3); [rewrite Htg, Hi; apply Hk|]. by apply (crc_stored_ctx _ ctx2); auto.
    + right. split; [done|]. split; [done|]. assert (fm (uw_slot0 w) = fm (uw_slot0 w3)) as -> by (rewrite (proj2 (still_quiet _ _ H13)); symmetry; apply Hq).
      destruct (Hp ltac:(done)) as (h & f & s & Hva & Hs & Hr'). exists h, f, s. pose proof (Hi FILE_PARTITION) as Hi1. pose proof (Hi SLOT1) as Hi2. cbn in Hi1, Hi2. by rewrite Hi1, Hi2.
Qed.

Lemma finish_spec fuel w ctx defer b rc b' ctx' w' : fa_ok ctx ->
  rpc_common_file_actions_finish erase_chunk_size working_mem_size fuel w ctx defer b = Done (rc, b', ctx', w') ->
  same_target ctx ctx' /\ fc_received ctx' = fc_received ctx /\ fc_crc ctx' = fc_crc ctx /\ finished defer w w' ctx /\
  (fc_stream ctx = None -> fc_stream ctx' = None /\ fm (area w' (target (fc_action ctx))) = fm (area w (target (fc_action ctx)))).
Proof.
  intros Hfa He. unfold rpc_common_file_actions_finish in He. apply exec_bind_Done in He as ([[rc1 ctx1] w1] & Hfl & He).
  apply finish_flush_spec in Hfl as (Hq1 & Ht1 & Hr1 & Hc1 & Hn1); [|done].
  assert (Hstill : forall w3, still w1 w3 -> finished defer w w3 ctx /\ (fc_stream ctx = None -> fm (area w3 (target (fc_action ctx))) = fm (area w (target (fc_action ctx))))).
  { intros w3 Hs3. split; [left; eapply quiet_trans; [done|by apply still_quiet]|]. intros Hn. destruct (Hn1 Hn) as [_ ->]. apply Hs3. }
  destruct (rc1 <? 0).
  { apply exec_bind_Done in He as (w3 & Hcl & He). injection He as <- <- <- <-. apply close_still, Hstill in Hcl as [F1 F2]. do 4 (split; [done|]).
    intros Hn. split; [by apply Hn1|by apply F2]. }
  set (w2 := if fc_needs_cleanup ctx1 then infuse_dfu_write_erase_finish w1 else w1) in He. set (ctx2 := with_cleanup ctx1 false) in He.
  assert (Hw2 : still w1 w2) by (unfold w2; destruct (fc_needs_cleanup ctx1); [by apply still_emit|done]).
  assert (Hfa2 : fa_ok ctx2) by (destruct Ht1 as [T1 T2]; unfold fa_ok, ctx2; cbn; rewrite T1, T2; exact Hfa).
  destruct (finish_validate w2 ctx2) as [rc2 w3] eqn:Hv. apply finish_validate_spec in Hv as [Hs3 Hv]; [|done].
  pose proof (still_trans _ _ _ Hw2 Hs3) as H13. assert (Hact : fc_action ctx2 = fc_action ctx) by apply Ht1.
  assert (Hend : forall w4, ctx' = ctx2 -> still w3 w4 -> w' = w4 ->
    same_target ctx ctx' /\ fc_received ctx' = fc_received ctx /\ fc_crc ctx' = fc_crc ctx /\ finished defer w w' ctx /\
    (fc_stream ctx = None -> fc_stream ctx' = None /\ fm (area w' (target (fc_action ctx))) = fm (area w (target (fc_action ctx))))).
  { intros w4 -> Hs4 ->. destruct (Hstill w4 (still_trans _ _ _ H13 Hs4)) as [F1 F2]. do 4 (split; [done|]). intros Hn. split; [by apply Hn1|by apply F2]. }
  destruct (Z.ltb_spec rc2 0) as [|Hrc2]; [apply exec_bind_Done in He as (w4 & Hcl & He); injection He as _ _ <- <-; apply (Hend w4); try done; by eapply close_still|].
  specialize (Hv Hrc2). rewrite Hact in He.
  destruct (Z.eqb_spec (fc_action ctx) RPC_ENUM_FILE_ACTION_APP_CPATCH) as [Hcp|_].
  - destruct defer.
    + apply exec_bind_Done in He as ([rc4 w4] & Hva & He). apply validate_cpatch_still in Hva; [|done]. destruct (_ <? _); [|injection He as _ _ <- <-; by apply (Hend w4)].
      apply exec_bind_Done in He as (w5 & Hcl & He). injection He as _ _ <- <-. apply (Hend w5); try done. eapply still_trans; [done|]. by eapply close_still.
    + apply (finish_patch_spec fuel w w1 w3 ctx ctx1 ctx2 b rc b' ctx' w'); done.
  - destruct (Z.eqb_spec (fc_action ctx) RPC_ENUM_FILE_ACTION_APP_IMG) as [Him|_].
    + apply exec_bind_Done in He as ([up w4] & Hi & He). injection He as _ _ <- <-. apply finish_image_kept in Hi as [Hk Hne]. do 3 (split; [done|]). split.
      * right; right. split; [|by left]. apply (crc_stored_same _ w3); [apply Hk|]. apply (crc_stored_ctx _ ctx2); try done. by apply Hv.
      * intros Hn. split; [by apply Hn1|]. rewrite Hk. by apply Hstill.
    + destruct (_ =? RPC_ENUM_FILE_ACTION_FILE_FOR_COPY); [|injection He as _ _ <- <-; by apply (Hend w3)].
      apply exec_bind_Done in He as (w4 & Hcl & He). injection He as _ _ <- <-. apply (Hend w4); try done. by eapply close_still.
Qed.
(** ** The command *)

(** The file of a request is in its partition: it was there before, or [data], which was
    received, has the length and CRC of the request and the partition has the same CRC. *)
Definition stored w (req : file_write_request) (data : list Z) : Prop :=
  let f := area w (target (fw_action req)) in
  duplicate w (target (fw_action req)) (fw_size req) (fw_file_crc req) \/
  u32 (zlen data) = fw_size req /\ (fw_file_crc req = UINT32_MAX \/ crc32_ieee data = fw_file_crc req) /\
    (0 < fw_size req -> crc32_ieee (ztake (fw_size req) (zdrop (image_offset (fw_action req) f) (fm f))) = crc32_ieee data).

(** How a context comes to be finished. *)
Definition complete w ctx (req : file_write_request) (data : list Z) : Prop :=
  fa_ok ctx /\ fc_action ctx = fw_action req /\
  ((fc_stream ctx = None /\ duplicate w (target (fw_action req)) (fw_size req) (fw_file_crc req)) \/
   holds ctx data /\ fc_received ctx = fw_size req /\ (fw_file_crc req = UINT32_MAX \/ fc_crc ctx = fw_file_crc req)).

Lemma complete_stored w w' ctx req data : complete w ctx req data -> crc_stored ctx w' ->
  (fc_stream ctx = None -> fm (area w' (target (fc_action ctx))) = fm (area w (target (fc_action ctx)))) -> stored w' req data.
Proof.
  intros (_ & Ha & [[Hn Hd]|([H1 H2] & H3 & H4)]) Hc Hk; unfold stored; cbv zeta.
  - left. eapply duplicate_same; [|done]. rewrite <- Ha. by apply Hk.
  - right. unfold crc_stored in Hc. cbv zeta in Hc. rewrite H3, H2, Ha in Hc. split; [congruence|]. split; [|done]. destruct H4 as [?|H4]; [by left|right; congruence].
Qed.

Lemma stored_still w w' req data : still w w' -> stored w req data -> stored w' req data.
Proof.
  intros [_ Ha]. unfold stored, image_offset. cbv zeta. rewrite (us_start _ _ (Ha _)), (Ha _). intros [Hd|Hd]; [left|by right]. eapply duplicate_same; [apply Ha|done].
Qed.

Lemma complete_step w w' ctx ctx' req data : complete w ctx req data -> same_target ctx ctx' -> fc_received ctx' = fc_received ctx -> fc_crc ctx' = fc_crc ctx ->
  (fc_stream ctx = None -> fc_stream ctx' = None /\ fm (area w' (target (fc_action ctx))) = fm (area w (target (fc_action ctx)))) -> complete w' ctx' req data.
Proof.
  intros (Hfa & Ha & Hor) [T1 T2] Hr Hc Hk. split; [unfold fa_ok; rewrite T1, T2; exact Hfa|]. split; [congruence|].
  destruct Hor as [[Hn Hd]|([H1 H2] & H3 & H4)]; [left; destruct (Hk Hn) as [? Hf]; split; [done|]; eapply duplicate_same; [|done]; by rewrite <- Ha|].
  right. unfold holds. rewrite Hr, Hc. done.
Qed.

(** What a command that received [data] and requested an upgrade has validated. *)
Definition upgrade_validated w w' (req : file_write_request) (data : list Z) : Prop :=
  stored w' req data /\ (fw_action req = RPC_ENUM_FILE_ACTION_APP_IMG \/
    fw_action req = RPC_ENUM_FILE_ACTION_APP_CPATCH /\ patched (fm (uw_slot0 w)) w').

Lemma response_inputs sv dev rc l : same_inputs sv (rpc_response_simple_if header_size footer_size max_packet_size sv dev rc l).2.
Proof.
  unfold rpc_response_simple_if, alloc. destruct (epacket_alloc_tx_for_interface _ _ _ _ _) as [b c]. by destruct (_ <=? _).
Qed.

Lemma deferred_spec fuel w ctx b b' w' req data :
  complete w ctx req data -> rpc_common_file_actions_deferred erase_chunk_size working_mem_size fuel w ctx b = Done (b', w') ->
  upgrades w' = upgrades w \/ upgrade_validated w w' req data.
Proof.
  intros Hco He. unfold rpc_common_file_actions_deferred in He. destruct (Z.eqb_spec (fc_action ctx) RPC_ENUM_FILE_ACTION_APP_CPATCH) as [Hcp|]; [|injection He as <- <-; by left].
  apply exec_bind_Done in He as ([[[rc b1] ctx1] w1] & Hf & He). injection He as <- <-. apply finish_spec in Hf as (_ & _ & _ & [Hq|[(_ & _ & Hu)|[Hc Hp]]] & Hk); [left; apply Hq|by left| |apply Hco].
  right. split; [|right]. { eapply complete_stored; [done..|]. intros Hn. by apply Hk. }
  destruct Hp as [Hp|(_ & _ & Hp)]; [rewrite Hcp in Hp; done|]. split; [|done]. rewrite <- Hcp. symmetry. apply Hco.
Qed.

Lemma file_write_done_spec fuel sv request id rpc_id ctx req data r sv' :
  complete (sv_app sv) ctx req data ->
  file_write_done erase_chunk_size working_mem_size false has_reboot header_size footer_size max_packet_size fuel sv request id rpc_id ctx = Done (r, sv') ->
  sv_data sv' = sv_data sv /\
  (upgrades (sv_app sv') = upgrades (sv_app sv) \/ upgrade_validated (sv_app sv) (sv_app sv') req data).
Proof.
  intros Hco He. unfold file_write_done in He. apply exec_bind_Done in He as ([[[rc b1] ctx1] w1] & Hf & He). cbn [negb] in Hf.
  apply finish_spec in Hf as (Ht & Hr & Hc & Hfin & Hk); [|apply Hco].
  pose proof (response_inputs (set_app sv w1) (rx_interface request) rc (data_response (fc_received ctx1) (fc_crc ctx1))) as [Happ Hdat].
  destruct (rpc_response_simple_if _ _ _ _ _ _ _) as [rsp sv1]. cbn [snd] in Happ, Hdat. apply exec_bind_Done in He as ([b2 w2] & Hd & He). injection He as <- <-. split; [exact Hdat|]. cbn [set_app sv_app].
  assert (Hend : still w2 (if b2 && has_reboot then emit w2 (EvReboot (fc_action ctx1)) else w2)) by (destruct (_ && _); [by apply still_emit|done]).
  set (w3 := if b2 && has_reboot then _ else _) in *. change (sv_app (rpc_command_runner_early_response sv1 request id rpc_id rsp)) with (sv_app sv1) in Hd. rewrite Happ in Hd. cbn [set_app sv_app] in Hd.
  enough (Hg : upgrades w2 = upgrades (sv_app sv) \/ upgrade_validated (sv_app sv) w2 req data).
  { destruct Hg as [Hg|[Hs Hg]]; [left; by rewrite (proj1 Hend)|right]. split; [by eapply stored_still|].
    destruct Hg as [Hg|[Ha Hg]]; [by left|right]. split; [done|]. by eapply patched_still. }
  destruct Hfin as [Hq|[(_ & Hdef & _)|[Hcs [Him|(_ & Hdef & _)]]]]; [|done| |done].
  - assert (Hco1 : complete w1 ctx1 req data) by (by apply (complete_step (sv_app sv) w1 ctx ctx1)).
    destruct (rc =? 0); [|injection Hd as <- <-; left; apply Hq]. apply (deferred_spec _ _ _ _ _ _ req data) in Hd; [|done].
    destruct Hd as [Hd|[Hs Hd]]; [left; rewrite Hd; apply Hq|right]. split; [done|]. by rewrite <- (proj2 Hq).
  - assert (w2 = w1) as ->. { destruct (rc =? 0); [|by injection Hd]. unfold rpc_common_file_actions_deferred in Hd. rewrite (proj2 Ht), Him in Hd. by injection Hd. }
    right. split; [|left; rewrite <- Him; symmetry; apply Hco]. eapply complete_stored; [done..|]. intros Hn. by apply Hk.
Qed.
Lemma file_write_error_quiet sv request rc ctx r sv' :
  file_write_error header_size footer_size max_packet_size sv request rc ctx = Done (r, sv') ->
  upgrades (sv_app sv') = upgrades (sv_app sv).
Proof.
  unfold file_write_error, rpc_common_file_actions_error_cleanup. intros He. apply exec_bind_Done in He as (w1 & Hcl & He).
  unfold file_write_refuse in He. pose proof (response_inputs (set_app sv w1) (rx_interface request) rc (data_response (fc_received ctx) (fc_crc ctx))) as [Happ _].
  destruct (rpc_response_simple_if _ _ _ _ _ _ _) as [b sv1]. injection He as _ <-. cbn [snd] in Happ. rewrite Happ. cbn [set_app sv_app].
  set (w2 := if fc_needs_cleanup ctx then _ else _) in Hcl. assert (Hu : upgrades w2 = upgrades (sv_app sv)) by (unfold w2; destruct (fc_needs_cleanup ctx); [apply upgrades_finish|done]).
  rewrite <- Hu. destruct (streams _); [by apply close_still in Hcl as [? _]|by injection Hcl as <-].
Qed.

(** C7.  The bootloader is only asked to install what was validated.  Whatever the packets
    contain and in whatever order they come, and whatever flash accesses fail: when the command,
    in a build that is not for controllers only, requested an upgrade, then the payloads of the
    packets it took for its request, in that order, are as long as was announced and have the CRC
    announced (unless the CRC was given as unknown), and the partition, from where the file starts,
    has the same CRC over that length; or else the CRC calculation reported the announced CRC for
    what was there before.  And for a patch its header matches the running image, and the second
    slot has what the stream wrote, all of it flushed, with the length and the CRC of the header. *)
Theorem file_write_upgrade_validated fuel sv request id rpc_id req r sv' :
  rpc_command_file_write_impl erase_chunk_size write_buffer_size working_mem_size false has_reboot sec header_size footer_size max_packet_size stale
    fuel sv request id rpc_id req = Done (r, sv') ->
  upgrades (sv_app sv') <> upgrades (sv_app sv) ->
  exists taken, sv_data sv = taken ++ sv_data sv' /\ upgrade_validated (sv_app sv) (sv_app sv') req (taken_payloads id taken).
Proof.
  intros He Hup. unfold rpc_command_file_write_impl in He. cbv zeta in He. destruct (_ || _).
  { unfold file_write_refuse in He. pose proof (response_inputs sv (rx_interface request) (- EINVAL) (data_response 0 0)) as [Happ _]. cbn [fc_received fc_crc] in He.
    destruct (rpc_response_simple_if _ _ _ _ _ _ _) as [b sv1]. injection He as _ <-. cbn [snd] in Happ. by rewrite Happ in Hup. }
  apply exec_bind_Done in He as ([[rc ctx] w1] & Hs & He). apply start_spec in Hs as (Hq & Ha & Hr & Hfa & Hdup & Hcrc).
  assert (Hback : forall w2 w3 data, quiet (sv_app sv) w2 -> (upgrades w3 = upgrades w2 \/ upgrade_validated w2 w3 req data) ->
    upgrades w3 <> upgrades (sv_app sv) -> upgrade_validated (sv_app sv) w3 req data).
  { intros w2 w3 data [U1 U2] [Hg|[Hs Hg]] Hne; [congruence|]. split; [done|]. by rewrite <- U2. }
  destruct (Z.eqb_spec rc FILE_ALREADY_PRESENT) as [->|Hrc].
  { apply (file_write_done_spec _ _ _ _ _ _ req []) in He as [Hdat He]; [exists []; split; [by rewrite Hdat|by eapply Hback]|].
    split; [done|]. split; [done|]. left. by apply Hdup. }
  destruct (rc <? 0). { apply file_write_error_quiet in He. cbn [set_app sv_app] in He. destruct Hq as [Hq _]. congruence. }
  apply exec_bind_Done in He as (sv1 & Hack & He). apply send_ack_inputs in Hack as [Hack Hdat1]. cbn [set_app sv_app sv_data] in Hack, Hdat1.
  apply exec_bind_Done in He as ([[rc2 ctx2] sv2] & Hl & He). apply (file_loop_spec _ _ _ _ _ _ _ _ []) in Hl as (Hq2 & [T1 T2] & taken & Htk & Hh); [|done|].
  2:{ split; [by rewrite Hr|]. rewrite Hcrc by done. unfold crc32_ieee. by rewrite pa_crc_nil. }
  rewrite Hack in Hq2. pose proof (quiet_trans _ _ _ Hq Hq2) as Hq3.
  destruct (Z.ltb_spec rc2 0) as [|Hrc2]. { apply file_write_error_quiet in He. destruct Hq3 as [Hq3 _]. congruence. }
  destruct (negb (fc_received ctx2 =? _)) eqn:E1. { apply file_write_error_quiet in He. destruct Hq3 as [Hq3 _]. congruence. }
  destruct (negb (_ =? UINT32_MAX) && _) eqn:E2. { apply file_write_error_quiet in He. destruct Hq3 as [Hq3 _]. congruence. }
  apply (file_write_done_spec _ _ _ _ _ _ req (taken_payloads id taken)) in He as [Hdat2 He];
    [exists taken; split; [congruence|by eapply Hback]|]. split; [unfold fa_ok; rewrite T1, T2; exact Hfa|]. split; [congruence|]. right.
  apply negb_false_iff, Z.eqb_eq in E1. split; [by apply Hh|]. split; [done|].
  apply andb_false_iff in E2 as [E2%negb_false_iff%Z.eqb_eq|E2%negb_false_iff%Z.eqb_eq]; [by left|by right].
Qed.
End file_write_props.

(** ** A flash in memory *)

(** Pages of 16 bytes; programming clears bits; opening an area and erasing may fail. *)
Definition mem_update (open_rc flatten_rc start : Z) : UpdateApi (list Z) (list Z * list Z) := {|
  flash_area_open _ := open_rc;
  pm_device_runtime_get f := (0, f);
  pm_device_runtime_put f := f;
  flash_area_get_device _ := true;
  fa_size f := zlen f;
  fa_off _ := 0;
  FLASH_ERASE_C_EXPLICIT _ := true;
  flash_get_page_info_by_offs _ o := (0, (o / 16 * 16, 16));
  flash_area_flatten f off n :=
    if flatten_rc <? 0 then (flatten_rc, f) else if off + n <=? zlen f then (0, zwrite off (repeat 255 (Z.to_nat n)) f) else (- EINVAL, f);
  write_block_size _ := 4;
  stream_flash_init _ _ _ _ := (0, ([], []));
  stream_flash_bytes_buffered s := zlen s.2;
  stream_flash_area f off s := zwrite off (zip_with Z.land (ztake (zlen s.1) (zdrop off f)) s.1) f;
  boot_get_trailer_status_offset n := Z.max 0 (n - 16);
  boot_get_image_start_offset _ := start;
  boot_request_upgrade_multi _ := 0;
|}.

Lemma content_zwrite off bs f : content (zwrite off bs f) = zwrite off (content bs) (content f).
Proof.
  unfold zwrite. rewrite zlen_content. unfold content, ztake, zdrop. change (@map Z Z) with (@fmap list _ Z Z). by rewrite !fmap_app, fmap_take, fmap_drop.
Qed.

Lemma content_program (f l : list Z) : bytes_ok l -> Forall2 (fun old new => old = 255 \/ old = new) (content f) l -> content (zip_with Z.land f l) = l.
Proof.
  revert l. induction f as [|a f IH]; intros l Hb Hf; cbn in *; [by apply Forall2_nil_inv_l in Hf as ->|].
  apply Forall2_cons_inv_l in Hf as (x & l' & Hx & Hf & ->). apply Forall_cons in Hb as [Hb Hb']. cbn. f_equal; [|by apply IH].
  assert (Hu : forall z, u8 z = Z.land z 255) by (intros z; change 255 with (Z.ones 8); by rewrite Z.land_ones).
  assert (Hxx : Z.land x 255 = x) by (rewrite <- Hu; apply uwrap_small; unfold byte_ok in Hb; lia).
  rewrite Hu in Hx |- *. rewrite <- Z.land_assoc, (Z.land_comm x), Z.land_assoc. destruct Hx as [Hx|Hx]; rewrite Hx; [by rewrite Z.land_comm|apply Z.land_diag].
Qed.

Lemma mem_update_spec start : UpdateSpec (list Z) (list Z * list Z) (update_api := mem_update 0 0 start) content fst snd.
Proof.
  split; cbn; try done; try typeclasses eauto.
  - intros f off n. destruct (_ <=? _); cbn; unfold EINVAL; lia.
  - intros f. by rewrite zlen_content.
  - intros f off n Ho Hn. rewrite !zlen_content. destruct (Z.leb_spec (off + n) (zlen f)); [|rewrite ?zlen_content; split; [done|unfold EINVAL; lia]].
    assert (Hz : zlen (repeat 255 (Z.to_nat n)) = n) by (unfold zlen; rewrite repeat_length; lia).
    rewrite zlen_content, zlen_zwrite by (rewrite ?Hz; lia). split; [done|]. intros _. split; [done|]. rewrite content_zwrite. f_equal.
    unfold content. by rewrite map_repeat.
  - intros f off [fl pe] Ho Hle Hb Hf. cbn in *. rewrite content_zwrite, content_program; [done|done|].
    unfold content, ztake, zdrop in *. change (@map Z Z) with (@fmap list _ Z Z) in *. by rewrite fmap_take, fmap_drop.
Qed.

(** Three partitions of 64 bytes, and the image of twelve bytes that the stream brings. *)
Definition demo_world : update_world (list Z) := UpdateWorld (repeat 1 64) (repeat 0 64) (repeat 255 64) [].
Definition demo_update_server (s : list rx_packet) w : server (update_world (list Z)) := Server demo_core (Some <$> s) (repeat 0 8) 0 false false w.
Definition demo_image_request : file_write_request := FileWriteRequest 12 2 RPC_ENUM_FILE_ACTION_APP_IMG 0 UINT32_MAX.

(** The command on the server of the examples. *)
Abbreviation demo_write api ctlr_only s w req :=
  (rpc_command_file_write_impl (H0 := api) 32 8 64 ctlr_only true demo_sec demo_header demo_footer demo_size demo_stale
     200 (demo_update_server s w) demo_receive 77 RPC_ID_FILE_WRITE_BASIC req).

(** The patch of the example for an image in the first slot. *)
Definition demo_patch_world : update_world (list Z) := UpdateWorld (example_input ++ repeat 255 54) (repeat 0 64) (repeat 255 64) [].
Definition demo_patch_request : file_write_request := FileWriteRequest (zlen example_patch) 2 RPC_ENUM_FILE_ACTION_APP_CPATCH 0 UINT32_MAX.
Definition app_of (m : exec (option tx_buf * server (update_world (list Z)))) : option (update_world (list Z)) :=
  match m with Done (_, sv) => Some (sv_app sv) | _ => None end.

Lemma app_of_Done m w : app_of m = Some w -> exists r sv, m = Done (r, sv) /\ sv_app sv = w.
Proof. destruct m as [[r sv]| |]; [|done|done]. intros [= <-]. eauto. Qed.

Definition demo_patched : update_world (list Z) :=
  Eval vm_compute in default demo_patch_world (app_of (demo_write (mem_update 0 0 0) false [demo_data 77 0 example_patch] demo_patch_world demo_patch_request)).

Lemma file_write_upgrade_validated_witness :
  exists r sv', demo_write (mem_update 0 0 0) false [demo_data 77 0 example_patch] demo_patch_world demo_patch_request = Done (r, sv') /\
    upgrades (sv_app sv') = [EvUpgrade 0] /\ ztake 11 (uw_slot1 (sv_app sv')) = example_output /\
    exists taken, [Some (demo_data 77 0 example_patch)] = taken ++ sv_data sv' /\
      upgrade_validated (update_api := mem_update 0 0 0) content fst snd demo_patch_world (sv_app sv') demo_patch_request (taken_payloads demo_stale 77 taken).
Proof.
  destruct (app_of_Done (demo_write (mem_update 0 0 0) false [demo_data 77 0 example_patch] demo_patch_world demo_patch_request) demo_patched) as (r & sv' & E & Ha).
  { vm_compute. reflexivity. }
  exists r, sv'. split; [exact E|]. assert (Hup : upgrades (sv_app sv') = [EvUpgrade 0]) by (by rewrite Ha). split; [exact Hup|]. split; [rewrite Ha; vm_compute; reflexivity|].
  pose proof (file_write_upgrade_validated content fst snd (H := mem_update_spec 0) 32 8 64 true demo_sec demo_header demo_footer demo_size demo_stale 200
    (demo_update_server [demo_data 77 0 example_patch] demo_patch_world) demo_receive 77 RPC_ID_FILE_WRITE_BASIC demo_patch_request r sv' E) as Hv.
  rewrite Hup in Hv. cbn [demo_update_server sv_app] in Hv. apply Hv. discriminate.
Defined.
