(* ===== verification/RpcFileInstall.v ===== *)
(** * Images that are installed

    On a flash that does not fail, an application image that arrives in order is in the second slot
    as it was sent, the bootloader is asked once to install it, and every resource is released.
    Then the same command on a flash in memory that fails. *)

From stdpp Require Import base tactics numbers list.
From Stdlib Require Import ZArith Lia.
From S2P Require Import Prelude EPacketKeys EPacketCrypt EPacketCore EPacketCoreProps RpcServer RpcServerProps CPatch CPatchSpec CPatchProps RpcFileWrite RpcFileWriteProps.

Local Open Scope Z_scope.
Local Open Scope infuse_scope.

Definition round_up (n a : Z) : Z := (n + (a - 1)) / a * a.
Definition blank (n : Z) : list Z := repeat 255 (Z.to_nat n).

Lemma zlen_blank n : 0 <= n -> zlen (blank n) = n.
Proof. intros. unfold blank, zlen. rewrite repeat_length. lia. Qed.

Lemma blank_app n m : 0 <= n -> 0 <= m -> blank n ++ blank m = blank (n + m).
Proof. intros. unfold blank. by rewrite Z2Nat.inj_add, repeat_app. Qed.

Lemma round_up_page n a : 0 < a -> round_up n a = (n - 1) / a * a + a.
Proof. intros. unfold round_up. replace (n + (a - 1)) with (n - 1 + 1 * a) by lia. rewrite Z.div_add by lia. lia. Qed.

Lemma round_up_bounds n a : 0 < a -> n <= round_up n a < n + a.
Proof. intros. rewrite round_up_page by done. pose proof (Z.div_mod (n - 1) a). pose proof (Z.mod_pos_bound (n - 1) a). lia. Qed.

Lemma page_after n k a : 0 < a -> round_up n a <= k -> round_up n a <= k / a * a.
Proof. intros Ha Hk. unfold round_up in *. apply Z.mul_le_mono_nonneg_r; [lia|]. apply Z.div_le_lower_bound; lia. Qed.

Lemma zwrite_app_r off (a l bs : list Z) : zlen a <= off -> zwrite off bs (a ++ l) = a ++ zwrite (off - zlen a) bs l.
Proof.
  intros Ho. pose proof (zlen_nonneg bs). unfold zwrite. rewrite ztake_app_ge, zdrop_app_ge by lia. rewrite <- app_assoc. do 4 f_equal. lia.
Qed.

Section install.
Context {F S : Type} (fm : F -> list Z) (flushed pending : S -> list Z) `{UpdateSpec F S fm flushed pending}.

(** A flash that does not fail, with pages of one size, and images that start at a fixed offset;
    a stream has the capacity it was initialised with. *)
Record reliable (page block image_start : Z) (capacity : S -> Z) : Prop := {
  rl_page_pos : 0 < page;
  rl_block_pos : 0 < block;
  rl_open f : flash_area_open f = 0;
  rl_get f : (pm_device_runtime_get f).1 = 0;
  rl_device f : flash_area_get_device f = true;
  rl_explicit f : FLASH_ERASE_C_EXPLICIT f = true;
  rl_page f o : fa_off f <= o < fa_off f + fa_size f ->
    flash_get_page_info_by_offs f o = (0, (fa_off f + (o - fa_off f) / page * page, page));
  rl_flatten f off n : 0 <= off -> 0 <= n -> off + n <= fa_size f -> (flash_area_flatten f off n).1 = 0;
  rl_crc32 f off n : 0 <= off -> 0 <= n -> off + n <= zlen (fm f) -> (flash_area_crc32 f off n).1.1 = 0;
  rl_block f : write_block_size f = block;
  rl_init f size off n : 0 <= off -> 0 <= n < 2 ^ 32 -> off + n <= fa_size f ->
    (stream_flash_init f size off n).1 = 0 /\ n <= capacity (stream_flash_init f size off n).2;
  rl_write s data flush : zlen (flushed s ++ pending s ++ data) <= capacity s ->
    (stream_flash_buffered_write s data flush).1.1 = 0 /\ capacity (stream_flash_buffered_write s data flush).2 = capacity s;
  rl_trailer n : 0 < n -> 0 <= boot_get_trailer_status_offset n < n;
  rl_start f : boot_get_image_start_offset f = image_start;
  rl_upgrade f : boot_request_upgrade_multi f = 0;
}.

Context {page block image_start : Z} {capacity : S -> Z} (Hrel : reliable page block image_start capacity).
Context (erase_chunk_size write_buffer_size working_mem_size : Z) (ctlr_only has_reboot : bool).
Context (sec : security) (header_size footer_size : Z -> Z) (max_packet_size : Z -> nat -> Z) (stale : rx_packet -> list Z).
Implicit Types w : update_world F.
Implicit Types ctx : file_ctx S.
Implicit Types sv : server (update_world F).

(** ** Erasing *)

Lemma flatten_ok f off n : 0 <= off -> 0 <= n -> off + n <= zlen (fm f) ->
  exists f', flash_area_flatten f off n = (0, f') /\ fm f' = zwrite off (blank n) (fm f).
Proof.
  intros Ho Hn Hle. pose proof (us_flatten f off n Ho Hn) as Hf. pose proof (rl_flatten _ _ _ _ Hrel f off n Ho Hn) as Hr. rewrite us_size in Hr.
  specialize (Hr Hle). destruct (flash_area_flatten f off n) as [rc f']. cbn in Hr. subst rc. exists f'. split; [done|]. by apply Hf.
Qed.

Lemma erase_loop_ok fuel : forall f off n t,
  0 < erase_chunk_size -> 0 <= off -> 0 <= n -> off + n < 2 ^ 32 -> fm f = blank off ++ t -> n <= zlen t -> n < Z.of_nat fuel ->
  exists f', erase_loop fuel f erase_chunk_size off n = Done (0, f') /\ fm f' = blank (off + n) ++ zdrop n t.
Proof.
  induction fuel as [|fuel IH]; intros f off n t Hc Ho Hn Hb Hf Ht Hfu; [lia|]. cbn [erase_loop]. destruct (Z.eqb_spec n 0) as [->|Hn0].
  { exists f. split; [done|]. by rewrite Z.add_0_r, zdrop_0. }
  set (k := Z.min erase_chunk_size n). assert (0 < k <= n) by lia.
  destruct (flatten_ok f off k) as (f1 & -> & Hf1); [lia|lia|rewrite Hf, zlen_app, zlen_blank by done; lia|]. cbn [Z.ltb Z.compare].
  rewrite !uwrap_small by lia. rewrite Hf, zwrite_at, zlen_blank, app_assoc, blank_app in Hf1 by (rewrite ?zlen_blank; lia).
  destruct (IH f1 (off + k) (n - k) (zdrop k t)) as (f2 & -> & Hf2); try lia; [done|rewrite zlen_zdrop; lia|].
  exists f2. split; [done|]. rewrite Hf2, zdrop_zdrop by lia. do 2 f_equal; lia.
Qed.

(** What follows the pages that are erased for [n] bytes: the old content, except for the
    pages from that of the trailer status on, which are erased when they come later. *)
Definition after_erase (old : list Z) (n : Z) : list Z :=
  let e := round_up n page in
  let off := boot_get_trailer_status_offset (zlen old) in
  if off <? e then zdrop e old else zwrite (off / page * page - e) (blank (zlen old - off / page * page)) (zdrop e old).

Definition erased_slot (old : list Z) (n : Z) : list Z := blank (round_up n page) ++ after_erase old n.

Lemma erase_wrapped_ok f n :
  0 < erase_chunk_size -> 0 < n -> round_up n page <= zlen (fm f) -> zlen (fm f) < 2 ^ 32 ->
  exists f', infuse_dfu_image_erase_wrapped erase_chunk_size f n true = Done (0, f') /\ fm f' = erased_slot (fm f) n /\ zlen (fm f') = zlen (fm f).
Proof.
  intros Hc Hn Hp Hz. pose proof (rl_page_pos _ _ _ _ Hrel) as Hpp. pose proof (round_up_bounds n page Hpp) as Hb. unfold infuse_dfu_image_erase_wrapped.
  rewrite (rl_device _ _ _ _ Hrel), (rl_explicit _ _ _ _ Hrel), us_size, (proj2 (Z.ltb_ge _ _)) by lia. cbn [negb].
  rewrite (rl_page _ _ _ _ Hrel) by (rewrite us_size; lia). cbn [Z.ltb Z.compare].
  replace (fa_off f + n - 1 - fa_off f) with (n - 1) by lia. replace (fa_off f + (n - 1) / page * page + page - fa_off f) with (round_up n page) by (rewrite round_up_page; lia).
  rewrite (uwrap_small 32 (round_up n page)) by lia.
  destruct (erase_loop_ok (Datatypes.S (Z.to_nat (round_up n page))) f 0 (round_up n page) (fm f)) as (f1 & -> & Hf1); try lia; [done|]. cbn [exec_bind Z.ltb Z.compare].
  rewrite Z.add_0_l in Hf1. assert (Hz1 : zlen (fm f1) = zlen (fm f)) by (rewrite Hf1, zlen_app, zlen_blank, zlen_zdrop by lia; lia).
  cbn [negb]. unfold erased_slot, after_erase.
  rewrite us_size, Hz1. pose proof (rl_trailer _ _ _ _ Hrel (zlen (fm f)) ltac:(lia)) as Htr. set (off := boot_get_trailer_status_offset _) in *. rewrite (uwrap_small 32 off) by lia.
  destruct (Z.ltb_spec off (round_up n page)); [by exists f1|].
  rewrite (rl_page _ _ _ _ Hrel) by (rewrite us_size; lia). replace (fa_off f1 + off - fa_off f1) with off by lia.
  replace (fa_off f1 + off / page * page - fa_off f1) with (off / page * page) by lia. pose proof (page_after n off page Hpp ltac:(lia)).
  pose proof (Z.div_mod off page ltac:(lia)). pose proof (Z.mod_pos_bound off page Hpp). rewrite (uwrap_small 32 (off / page * page)), uwrap_small by lia.
  destruct (flatten_ok f1 (off / page * page) (zlen (fm f) - off / page * page)) as (f2 & -> & Hf2); [lia..|].
  exists f2. split; [done|]. rewrite Hf2, zlen_zwrite by (rewrite ?zlen_blank; lia). split; [|done].
  rewrite Hf1, zwrite_app_r, zlen_blank by (rewrite ?zlen_blank; lia). done.
Qed.
(** ** Starting *)

(** Only the second slot and the trace changed. *)
Definition slot1_only w w' (events : list update_event) : Prop :=
  uw_slot0 w' = uw_slot0 w /\ uw_file w' = uw_file w /\ uw_trace w' = uw_trace w ++ events.

Lemma open_ok w : exists w', pm_flash_area_open w SLOT1 = (0, true, w') /\ fm (uw_slot1 w') = fm (uw_slot1 w) /\ slot1_only w w' [EvPowerGet SLOT1].
Proof.
  unfold pm_flash_area_open. rewrite (rl_open _ _ _ _ Hrel). cbn [Z.eqb]. pose proof (rl_get _ _ _ _ Hrel (area w SLOT1)) as Hr. pose proof (us_get (area w SLOT1)) as Hg.
  destruct (pm_device_runtime_get _) as [rc f]. cbn in Hr, Hg. subst rc. eexists. split; [reflexivity|]. done.
Qed.

(** The length fits in the pages that are erased for it, at the offset of the image. *)
Definition image_fits (f : F) (len : Z) : Prop :=
  0 < erase_chunk_size /\ 0 < len < UINT32_MAX /\ 0 <= image_start /\
  image_start + round_up len block <= round_up len page <= zlen (fm f) /\ zlen (fm f) + block <= 2 ^ 32.

Lemma check_and_erase_ok w ctx len crc :
  image_fits (uw_slot1 w) len -> crc = UINT32_MAX \/ crc32_ieee (ztake len (fm (uw_slot1 w))) <> crc ->
  exists w', flash_area_check_and_erase erase_chunk_size w ctx SLOT1 len crc true = Done (0, len, with_fa ctx (Some SLOT1), w') /\
    fm (uw_slot1 w') = erased_slot (fm (uw_slot1 w)) len /\ zlen (fm (uw_slot1 w')) = zlen (fm (uw_slot1 w)) /\
    slot1_only w w' [EvPowerGet SLOT1; EvWriteEraseStart; EvWriteEraseFinish].
Proof.
  intros (Hch & Hlen & His & Hfit & Hsz) Hcrc. pose proof (rl_block_pos _ _ _ _ Hrel). pose proof (round_up_bounds len block ltac:(done)).
  unfold flash_area_check_and_erase. destruct (open_ok w) as (w1 & -> & Hf1 & Hw1). cbn [negb Z.eqb].
  assert (Hpr : exists f, fm f = fm (uw_slot1 w) /\
    (if negb (crc =? UINT32_MAX) && negb (len =? UINT32_MAX) then let '(_, c, f) := flash_area_crc32 (area w1 SLOT1) 0 len in (c =? crc, set_area w1 SLOT1 f) else (false, w1)) = (false, set_area w1 SLOT1 f)).
  { destruct (Z.eqb_spec crc UINT32_MAX); cbn [negb andb]; [exists (uw_slot1 w1); split; [done|by destruct w1]|]. destruct Hcrc as [?|Hcrc]; [done|].
    rewrite (proj2 (Z.eqb_neq len _)) by lia. cbn [negb]. pose proof (pa_crc32 (area w1 SLOT1) 0 len) as Hc. cbn [area] in *.
    pose proof (rl_crc32 _ _ _ _ Hrel (uw_slot1 w1) 0 len ltac:(lia) ltac:(lia)) as Hr. rewrite Hf1 in *. specialize (Hr ltac:(lia)).
    destruct (flash_area_crc32 _ _ _) as [[rc c] f]. cbn in Hr. subst rc. destruct Hc as [Hf Hc]. rewrite Hc, zdrop_0 by lia. exists f. split; [done|]. by rewrite (proj2 (Z.eqb_neq _ _)). }
  destruct Hpr as (f & Hf & ->). rewrite (proj2 (Z.eqb_neq len _)) by lia. unfold infuse_dfu_image_erase, infuse_dfu_write_erase_start. rewrite area_emit, area_set_area.
  destruct (erase_wrapped_ok f len) as (f' & -> & Hf' & Hz'); [done|lia|rewrite Hf; lia|rewrite Hf; lia|]. cbn [exec_bind negb Z.eqb].
  eexists. split; [reflexivity|]. cbn. split; [by rewrite Hf', Hf|]. split; [by rewrite Hz', Hf|]. destruct Hw1 as (G1 & G2 & G3). unfold slot1_only. cbn. rewrite G3, <- !app_assoc. done.
Qed.

Lemma start_ok w len crc :
  image_fits (uw_slot1 w) len -> crc = UINT32_MAX \/ crc32_ieee (ztake len (fm (uw_slot1 w))) <> crc ->
  exists s w', rpc_common_file_actions_start erase_chunk_size write_buffer_size w RPC_ENUM_FILE_ACTION_APP_IMG len crc =
      Done (0, FileCtx (Some SLOT1) (Some (s, image_start)) 0 0 RPC_ENUM_FILE_ACTION_APP_IMG true, w') /\
    flushed s = [] /\ pending s = [] /\ len <= capacity s /\
    fm (uw_slot1 w') = erased_slot (fm (uw_slot1 w)) len /\
    slot1_only w w' [EvPowerGet SLOT1; EvWriteEraseStart; EvWriteEraseFinish; EvWriteEraseStart].
Proof.
  intros Hfit Hcrc. unfold rpc_common_file_actions_start, common_file_actions_stream_writer_init. rewrite (rl_start _ _ _ _ Hrel). cbn [Z.eqb].
  change (1 =? 0) with false. cbv iota. change (RPC_ENUM_FILE_ACTION_APP_IMG =? RPC_ENUM_FILE_ACTION_DISCARD) with false. rewrite Z.eqb_refl.
  destruct (check_and_erase_ok w (FileCtx None None 0 0 RPC_ENUM_FILE_ACTION_APP_IMG false) len crc Hfit Hcrc) as (w1 & -> & Hf1 & Hz1 & G1 & G2 & G3).
  destruct Hfit as (_ & Hlen & His & Hr & Hsz). pose proof (rl_block_pos _ _ _ _ Hrel) as Hbp. pose proof (round_up_bounds len block Hbp).
  cbn [exec_bind]. change ((0 =? FILE_ALREADY_PRESENT) || (0 <? 0)) with false. cbv iota. rewrite (rl_block _ _ _ _ Hrel), (proj2 (Z.eqb_neq _ 0)), uwrap_small by lia.
  change ((len + (block - 1)) / block * block) with (round_up len block). cbn [area].
  pose proof (us_init (uw_slot1 w1) write_buffer_size image_start (round_up len block)) as Hi.
  destruct (rl_init _ _ _ _ Hrel (uw_slot1 w1) write_buffer_size image_start (round_up len block)) as [Hrc Hcap]; [lia|lia|rewrite us_size; lia|].
  destruct (stream_flash_init _ _ _ _) as [rc s]. cbn in Hrc, Hcap. subst rc. destruct (Hi eq_refl) as [Hs1 Hs2]. cbn [exec_bind Z.eqb].
  eexists s, _. split; [reflexivity|]. do 2 (split; [done|]). split; [lia|]. split; [done|]. unfold slot1_only. cbn. rewrite G1, G2, G3, <- app_assoc. done.
Qed.
(** ** Writing *)

(** The stream [s] has taken the bytes [data] of an image of [n] bytes. *)
Record stream_has (pre post : list Z) (n : Z) (s : S) (data : list Z) (f : F) : Prop := {
  sh_data : flushed s ++ pending s = data;
  sh_capacity : n <= capacity s;
  sh_pre : zlen pre = image_start;
  sh_area : fm f = pre ++ flushed s ++ blank (n - zlen (flushed s)) ++ post;
}.

Definition image_ctx (s : S) (data : list Z) (cleanup : bool) : file_ctx S :=
  FileCtx (Some SLOT1) (Some (s, image_start)) (zlen data) (crc32_ieee data) RPC_ENUM_FILE_ACTION_APP_IMG cleanup.

Lemma blank_programs n (l : list Z) : zlen l = n -> Forall2 (fun old new => old = 255 \/ old = new) (blank n) l.
Proof.
  intros <-. unfold blank, zlen. rewrite Nat2Z.id. induction l as [|x l IH]; [constructor|]. cbn. constructor; [by left|done].
Qed.

Lemma stream_program pre post n s f chunk s' data :
  stream_has pre post n s data f -> flushed s' = flushed s ++ chunk -> zlen (flushed s') <= n -> bytes_ok (flushed s') ->
  fm (stream_flash_area f image_start s') = pre ++ flushed s' ++ blank (n - zlen (flushed s')) ++ post.
Proof.
  intros [_ _ Hpre Hf] Hs' Hn Hb. rewrite Hs' in Hn. rewrite zlen_app in Hn. pose proof (zlen_nonneg chunk). pose proof (zlen_nonneg (flushed s)).
  assert (Hsp : blank (n - zlen (flushed s)) = blank (zlen chunk) ++ blank (n - zlen (flushed s'))) by (rewrite Hs', zlen_app, blank_app by lia; f_equal; lia).
  assert (Hf' : fm f = pre ++ (flushed s ++ blank (zlen chunk)) ++ blank (n - zlen (flushed s')) ++ post) by (rewrite Hf, Hsp, <- !app_assoc; done).
  assert (Hz : zlen (flushed s ++ blank (zlen chunk)) = zlen (flushed s')) by (rewrite Hs', !zlen_app, zlen_blank; lia).
  assert (Hzd : zdrop image_start (fm f) = (flushed s ++ blank (zlen chunk)) ++ blank (n - zlen (flushed s')) ++ post) by (rewrite Hf', zdrop_app; done).
  rewrite us_area; [| |rewrite Hf', !zlen_app in *; pose proof (zlen_nonneg (blank (n - zlen (flushed s')))); pose proof (zlen_nonneg post); lia|done|].
  - rewrite Hf', zwrite_at by done. rewrite zdrop_app by done. done.
  - rewrite <- Hpre. apply zlen_nonneg.
  - rewrite Hzd, ztake_app by done. rewrite Hs'. apply Forall2_app; [|by apply blank_programs]. apply Forall2_same_length_lookup_2; [done|]. intros i x y Hx Hy. right. congruence.
Qed.

Lemma stream_write_ok pre post n w s data more flush cleanup received crc :
  stream_has pre post n s data (uw_slot1 w) -> zlen (data ++ more) <= n -> bytes_ok (data ++ more) ->
  exists s' w', stream_write w (FileCtx (Some SLOT1) (Some (s, image_start)) received crc RPC_ENUM_FILE_ACTION_APP_IMG cleanup) more flush =
      Done (0, FileCtx (Some SLOT1) (Some (s', image_start)) received crc RPC_ENUM_FILE_ACTION_APP_IMG cleanup, w') /\
    stream_has pre post n s' (data ++ more) (uw_slot1 w') /\ (flush = true -> pending s' = []) /\ slot1_only w w' [].
Proof.
  intros Hsh Hn Hb. destruct (Hsh) as [Hd Hcap Hpre Hf]. unfold stream_write. cbn [fc_stream fc_fa]. pose proof (pa_write s more flush) as Hw.
  destruct (rl_write _ _ _ _ Hrel s more flush) as [Hrc Hc']; [rewrite app_assoc, Hd; lia|].
  destruct (stream_flash_buffered_write s more flush) as [[rc chunks] s'] eqn:Es. cbn in Hrc, Hc'. subst rc. destruct Hw as [Hfl Hw]. destruct (Hw ltac:(done)) as [Hall Hpe].
  rewrite app_assoc, Hd in Hall. eexists s', _. split; [reflexivity|]. cbn [set_area uw_slot1 area].
  assert (Hpart : zlen (flushed s') <= n) by (rewrite <- Hall, zlen_app in Hn; pose proof (zlen_nonneg (pending s')); lia).
  split; [|split; [done|]; unfold slot1_only; cbn; by rewrite app_nil_r]. split; [done|lia|done|]. eapply stream_program; [done..|].
  rewrite <- Hall, bytes_ok_app in Hb. apply Hb.
Qed.

Lemma write_ok pre post n w s data more cleanup :
  stream_has pre post n s data (uw_slot1 w) -> zlen (data ++ more) <= n -> n < 2 ^ 32 -> bytes_ok (data ++ more) ->
  exists s' w', rpc_common_file_actions_write w (image_ctx s data cleanup) more = Done (0, image_ctx s' (data ++ more) cleanup, w') /\
    stream_has pre post n s' (data ++ more) (uw_slot1 w') /\ slot1_only w w' [].
Proof.
  intros Hsh Hn Hn32 Hb. pose proof (zlen_nonneg (data ++ more)). unfold rpc_common_file_actions_write, image_ctx, with_data. cbn [fc_received fc_crc with_data fc_fa fc_stream fc_action fc_needs_cleanup].
  change (streams RPC_ENUM_FILE_ACTION_APP_IMG) with true. cbv iota. unfold crc32_ieee. rewrite pa_crc_app, <- zlen_app, uwrap_small by lia.
  destruct (stream_write_ok pre post n w s data more false cleanup (zlen (data ++ more)) (crc32_ieee_update 0 (data ++ more))) as (s' & w' & -> & H1 & _ & H2); [done..|]. eauto.
Qed.
Lemma file_packet_ok pre post sv request p id n period s data c :
  connected header_size footer_size max_packet_size (rx_interface request) -> acks_ok sv -> carries_data p id (zlen data) c -> in_u 32 id ->
  stream_has pre post n s data (uw_slot1 (sv_app sv)) -> zlen (data ++ c) <= n -> n < 2 ^ 32 -> bytes_ok (data ++ c) ->
  exists s' sv', file_packet sec header_size footer_size max_packet_size stale sv request p id n period (n - zlen data) (image_ctx s data true) =
      Done (inl (n - zlen (data ++ c)), image_ctx s' (data ++ c) true, sv') /\
    stream_has pre post n s' (data ++ c) (uw_slot1 (sv_app sv')) /\ slot1_only (sv_app sv) (sv_app sv') [] /\ acks_ok sv' /\ sv_data sv' = sv_data sv.
Proof.
  intros Hc Ha Hp Hid Hsh Hn Hn32 Hb. pose proof (zlen_nonneg data). pose proof (zlen_nonneg c). pose proof (zlen_app data c) as Hz.
  destruct (carries_header stale p id (zlen data) c Hp Hid) as (_ & Ho & Hl & Hdr); [unfold in_u; lia|].
  unfold file_packet, RPC_DATA_VAR_LEN, sizeof_rpc_data. rewrite Hl, Hdr, Ho. replace (8 + zlen c - 8) with (zlen c) by lia.
  rewrite (uwrap_small 32 (zlen c)), (proj2 (Z.ltb_ge _ _)), (proj2 (Z.ltb_ge _ _)) by lia.
  destruct (write_ok pre post n (sv_app sv) s data c true Hsh Hn Hn32 Hb) as (s' & w' & -> & Hs' & Hw'). cbn [exec_bind Z.ltb Z.compare].
  rewrite <- Hz, (uwrap_small 32 (zlen (data ++ c))), uwrap_small by lia. exists s'. destruct (0 <? n - zlen (data ++ c)); cbn [exec_bind].
  - destruct (ack_data_ok sec header_size footer_size max_packet_size (set_app sv w') request id (zlen data) period Hc Ha) as (sv' & -> & Ha' & Hd & _ & _ & Happ & _). cbn [exec_bind].
    exists sv'. split; [done|]. rewrite Happ. done.
  - exists (set_app sv w'). done.
Qed.

Lemma file_loop_ok pre post request id n period rest : forall chunks ps fuel sv s data,
  connected header_size footer_size max_packet_size (rx_interface request) -> acks_ok sv -> in_u 32 id -> n < 2 ^ 32 ->
  zlen (data ++ mjoin chunks) = n -> bytes_ok (data ++ mjoin chunks) ->
  stream_has pre post n s data (uw_slot1 (sv_app sv)) -> in_order id (zlen data) ps chunks -> offsets_ok false (zlen data) chunks ->
  sv_data sv = (Some <$> ps) ++ rest -> (length ps < fuel)%nat ->
  exists s' sv', file_loop sec header_size footer_size max_packet_size stale fuel sv request id n period (n - zlen data) (image_ctx s data true) =
      Done (0, image_ctx s' (data ++ mjoin chunks) true, sv') /\
    stream_has pre post n s' (data ++ mjoin chunks) (uw_slot1 (sv_app sv')) /\ slot1_only (sv_app sv) (sv_app sv') [] /\ sv_data sv' = rest.
Proof.
  induction chunks as [|c cs IH]; intros ps fuel sv s data Hc Ha Hid Hn Hz Hb Hsh Hord Hal Hd Hf; (destruct fuel as [|fuel]; [lia|]); cbn [file_loop].
  - destruct ps as [|p ps]; [|done]. change (mjoin (@nil (list Z))) with (@nil Z) in *. rewrite app_nil_r in *. rewrite Hz, Z.sub_diag. cbn [Z.ltb Z.compare negb].
    exists s, sv. split; [done|]. split; [done|]. split; [unfold slot1_only; by rewrite app_nil_r|by cbn in Hd].
  - destruct ps as [|p ps]; [done|]. destruct Hord as (Hp & Hne & Hord). change (mjoin (c :: cs)) with (c ++ mjoin cs) in *. rewrite app_assoc in *.
    assert (0 < zlen c) by (destruct c; [done|rewrite zlen_cons; pose proof (zlen_nonneg c); lia]). pose proof (zlen_nonneg (mjoin cs)). pose proof (zlen_nonneg data).
    assert (Hz' : zlen (data ++ c) <= n) by (rewrite zlen_app in Hz; lia). pose proof (zlen_app data c).
    rewrite (proj2 (Z.ltb_lt _ _)) by lia. cbn [negb]. destruct (offsets_ok_cons _ _ _ _ Hal) as [[?|Hal1] Hal2]; [done|].
    destruct (carries_header stale p id (zlen data) c Hp Hid) as (Hri & Ho & _ & _); [unfold in_u; lia|].
    assert (Hpull : rpc_server_pull_data stale id (sv_data sv) = (inl p, (Some <$> ps) ++ rest)).
    { rewrite Hd. unfold rpc_server_pull_data. cbn. by rewrite Hri, Z.eqb_refl, Ho, Hal1. }
    rewrite Hpull. apply bytes_ok_app in Hb as Hb'. destruct Hb' as [Hb1 Hb2].
    destruct (file_packet_ok pre post (set_data sv ((Some <$> ps) ++ rest)) request p id n period s data c Hc Ha Hp Hid Hsh Hz' Hn Hb1) as (s1 & sv1 & -> & Hs1 & Hw1 & Ha1 & Hd1).
    cbn [exec_bind]. destruct (IH ps fuel sv1 s1 (data ++ c)) as (s2 & sv2 & -> & Hs2 & Hw2 & Hd2); try done; [congruence|congruence|cbn in Hf; lia|].
    exists s2, sv2. split; [done|]. split; [done|]. split; [|done]. destruct Hw1 as (A1 & A2 & A3), Hw2 as (B1 & B2 & B3). unfold slot1_only. cbn in *. rewrite B1, B2, B3, A1, A2, A3, !app_nil_r. done.
Qed.
(** ** Finishing *)

Lemma flush_ok pre post n w s data :
  stream_has pre post n s data (uw_slot1 w) -> zlen data <= n -> bytes_ok data ->
  exists s' w', finish_flush w (image_ctx s data true) = Done (0, image_ctx s' data true, w') /\
    stream_has pre post n s' data (uw_slot1 w') /\ pending s' = [] /\ slot1_only w w' [].
Proof.
  intros Hsh Hn Hb. unfold finish_flush, image_ctx. cbn [fc_stream fc_action]. change (streams RPC_ENUM_FILE_ACTION_APP_IMG) with true. cbn [andb]. rewrite us_buffered.
  destruct (Z.eqb_spec (zlen (pending s)) 0) as [Hz|Hz]; cbn [negb].
  - exists s, w. split; [done|]. split; [done|]. split; [by destruct (pending s); [|rewrite zlen_cons in Hz; pose proof (zlen_nonneg l); lia]|]. unfold slot1_only. by rewrite app_nil_r.
  - destruct (stream_write_ok pre post n w s data [] true true (zlen data) (crc32_ieee data)) as (s' & w' & -> & Hs' & Hp & Hw); rewrite ?app_nil_r; [done..|].
    exists s', w'. rewrite app_nil_r in Hs'. split; [done|]. split; [done|]. split; [by apply Hp|done].
Qed.

Lemma finish_ok pre post n w s data fuel defer :
  stream_has pre post n s data (uw_slot1 w) -> zlen data = n -> 0 < n -> bytes_ok data ->
  exists s' w', rpc_common_file_actions_finish erase_chunk_size working_mem_size fuel w (image_ctx s data true) defer false =
      Done (0, true, image_ctx s' data false, w') /\
    fm (uw_slot1 w') = pre ++ data ++ post /\ slot1_only w w' [EvWriteEraseFinish; EvPowerPut SLOT1; EvUpgrade 0].
Proof.
  intros Hsh Hn Hpos Hb. unfold rpc_common_file_actions_finish.
  destruct (flush_ok pre post n w s data Hsh ltac:(lia) Hb) as (s' & w1 & -> & [Hd _ Hpre Hf] & Hp & G1 & G2 & G3). cbn [exec_bind].
  rewrite Hp, app_nil_r in Hd. rewrite Hd, Hn, Z.sub_diag in Hf. change (blank 0) with (@nil Z) in Hf. cbn [app] in Hf.
  change (0 <? 0) with false. cbv iota. change (with_cleanup (image_ctx s' data true) false) with (image_ctx s' data false).
  cbn [fc_needs_cleanup image_ctx fc_fa fc_received fc_action]. unfold finish_validate. cbn [fc_fa fc_received fc_action fc_crc image_ctx]. rewrite (proj2 (Z.ltb_lt 0 _)) by lia. rewrite Z.eqb_refl, (rl_start _ _ _ _ Hrel).
  cbn [area infuse_dfu_write_erase_finish emit uw_slot1]. pose proof (pa_crc32 (uw_slot1 w1) image_start (zlen data)) as Hc. pose proof (zlen_nonneg pre). pose proof (zlen_nonneg post).
  pose proof (rl_crc32 _ _ _ _ Hrel (uw_slot1 w1) image_start (zlen data) ltac:(lia) ltac:(lia)) as Hr. rewrite Hf, !zlen_app in Hr. specialize (Hr ltac:(lia)).
  destruct (flash_area_crc32 _ _ _) as [[rc c] f]. cbn in Hr. subst rc. destruct Hc as [Hfc Hc]. rewrite Hc, Hf, zdrop_app, ztake_app by done. cbn [Z.ltb Z.compare]. rewrite Z.eqb_refl. cbn [negb].
  change (RPC_ENUM_FILE_ACTION_APP_IMG =? RPC_ENUM_FILE_ACTION_APP_CPATCH) with false. cbv iota.
  change (0 <? 0) with false. cbv iota. unfold finish_image. cbn [fc_fa image_ctx pm_flash_area_close exec_bind]. rewrite (rl_upgrade _ _ _ _ Hrel). cbn [Z.eqb orb exec_bind].
  eexists s', _. split; [reflexivity|]. cbn. rewrite us_put, Hfc. split; [done|]. unfold slot1_only. cbn. rewrite G1, G2, G3, app_nil_r, <- !app_assoc. done.
Qed.

Lemma file_write_done_ok pre post n sv request id rpc_id s data fuel :
  connected header_size footer_size max_packet_size (rx_interface request) ->
  stream_has pre post n s data (uw_slot1 (sv_app sv)) -> zlen data = n -> 0 < n -> bytes_ok data ->
  exists sv' q k, file_write_done erase_chunk_size working_mem_size ctlr_only has_reboot header_size footer_size max_packet_size fuel sv request id rpc_id (image_ctx s data true) = Done (None, sv') /\
    tx_queue (sv_core sv') = q ++ [k] /\ tp_data k = le_put 4 id ++ le_put 2 rpc_id ++ le_put 2 0 ++ le_put 4 (zlen data) ++ le_put 4 (crc32_ieee data) /\
    sv_data sv' = sv_data sv /\ fm (uw_slot1 (sv_app sv')) = pre ++ data ++ post /\
    slot1_only (sv_app sv) (sv_app sv') ([EvWriteEraseFinish; EvPowerPut SLOT1; EvUpgrade 0] ++ (if has_reboot then [EvReboot RPC_ENUM_FILE_ACTION_APP_IMG] else [])).
Proof.
  intros Hc Hsh Hn Hpos Hb. unfold file_write_done. destruct (finish_ok pre post n (sv_app sv) s data fuel (negb ctlr_only) Hsh Hn Hpos Hb) as (s' & w1 & -> & Hf & G1 & G2 & G3).
  cbn [exec_bind image_ctx fc_received fc_crc fc_action]. rewrite data_response_split.
  destruct (response_simple_ok header_size footer_size max_packet_size (set_app sv w1) (rx_interface request) 0 (repeat 0 6) (le_put 4 (zlen data) ++ le_put 4 (crc32_ieee data))) as (sv1 & -> & (Hd & _ & _ & _ & _ & Happ) & Hq).
  { done. } { rewrite zlen_app, !zlen_le_put. specialize (Hc (allocs (sv_core (set_app sv w1)))). lia. }
  unfold rpc_command_runner_early_response, send_response. rewrite poke_head by done. unfold rpc_common_file_actions_deferred. cbn [Z.eqb fc_action].
  change (RPC_ENUM_FILE_ACTION_APP_IMG =? RPC_ENUM_FILE_ACTION_APP_CPATCH) with false. cbv iota. cbn [exec_bind andb set_runner sv_app set_core].
  rewrite Happ. cbn [sv_app set_app]. do 3 eexists. split; [reflexivity|]. cbn. split; [reflexivity|]. split; [reflexivity|]. split; [by rewrite Hd|].
  unfold slot1_only. destruct has_reboot; cbn; rewrite ?G1, ?G2, ?G3, <- ?app_assoc; done.
Qed.

(** C6.  An application image that arrives in order is installed.  The flash does not fail and has
    pages of one size, and the image with its offset fits the pages that are erased for its length
    alone (an offset of a page or more never does: the code erases from the start of the slot for
    the length without the offset).  The CRC is unknown, or is that of the image and not of what the
    slot has already.  Then the command leaves the bytes that were sent in the second slot, at the
    offset the bootloader expects; around them the slot is erased up to the end of its last page and
    from the page of the trailer status on, and is as it was elsewhere; the first slot and the file
    partition are not touched.  It answers with the number of bytes and their CRC; the flash is
    powered up and down once, what is started is finished, the bootloader is asked once to install
    the image, after it was validated, and the device reboots at last. *)
Theorem file_write_image_installed fuel sv request id rpc_id req ps chunks rest :
  let w := sv_app sv in
  connected header_size footer_size max_packet_size (rx_interface request) -> length (data_packet_acks sv) = 8%nat -> in_u 32 id ->
  fw_action req = RPC_ENUM_FILE_ACTION_APP_IMG -> fw_size req = zlen (mjoin chunks) -> image_fits (uw_slot1 w) (zlen (mjoin chunks)) ->
  (fw_file_crc req = UINT32_MAX \/ fw_file_crc req = crc32_ieee (mjoin chunks) /\ crc32_ieee (ztake (zlen (mjoin chunks)) (fm (uw_slot1 w))) <> crc32_ieee (mjoin chunks)) ->
  bytes_ok (mjoin chunks) -> in_order id 0 ps chunks -> offsets_ok false 0 chunks -> sv_data sv = (Some <$> ps) ++ rest ->
  exists sv' q k, rpc_command_file_write_impl erase_chunk_size write_buffer_size working_mem_size ctlr_only has_reboot sec header_size footer_size max_packet_size stale
      fuel sv request id rpc_id req = Done (None, sv') /\
    fm (uw_slot1 (sv_app sv')) = zwrite image_start (mjoin chunks) (erased_slot (fm (uw_slot1 w)) (zlen (mjoin chunks))) /\
    ztake (zlen (mjoin chunks)) (zdrop image_start (fm (uw_slot1 (sv_app sv')))) = mjoin chunks /\
    tx_queue (sv_core sv') = q ++ [k] /\
    tp_data k = le_put 4 id ++ le_put 2 rpc_id ++ le_put 2 0 ++ le_put 4 (zlen (mjoin chunks)) ++ le_put 4 (crc32_ieee (mjoin chunks)) /\ sv_data sv' = rest /\
    slot1_only w (sv_app sv') ([EvPowerGet SLOT1; EvWriteEraseStart; EvWriteEraseFinish; EvWriteEraseStart; EvWriteEraseFinish; EvPowerPut SLOT1; EvUpgrade 0] ++
      (if has_reboot then [EvReboot RPC_ENUM_FILE_ACTION_APP_IMG] else [])).
Proof.
  intros w Hc Hl Hid Hact Hsize Hfit Hcrc Hb Hord Hal Hd. set (data := mjoin chunks) in *. unfold rpc_command_file_write_impl. rewrite Hact, Hsize.
  change (RPC_ENUM_FILE_ACTION_APP_IMG =? RPC_ENUM_FILE_ACTION_WRITE_LITTLEFS) with false. change (RPC_ENUM_FILE_ACTION_APP_IMG =? RPC_ENUM_FILE_ACTION_FILE_FOR_COPY) with false.
  rewrite !andb_false_r. cbn [orb andb]. destruct (start_ok w (zlen data) (fw_file_crc req) Hfit) as (s & w1 & Hst & Hs1 & Hs2 & Hcap & Hf1 & Hw1).
  { destruct Hcrc as [?|[-> ?]]; auto. }
  unfold w in Hst. rewrite Hst. cbn [exec_bind]. change (0 =? FILE_ALREADY_PRESENT) with false. change (0 <? 0) with false. cbv iota.
  destruct (send_ack_ok sec header_size footer_size max_packet_size (set_app sv w1) request id 0 Hc Hl) as (sv1 & Hack & _ & Hn1 & Ha1 & Hd1 & _ & _ & Happ1); [lia|].
  unfold rpc_server_ack_data_ready. rewrite Hack. cbn [exec_bind]. cbn in Ha1, Hd1, Happ1.
  destruct Hfit as (_ & Hlen & His & Hr & Hsz). pose proof (rl_block_pos _ _ _ _ Hrel) as Hbp. pose proof (round_up_bounds (zlen data) block Hbp).
  set (post := blank (round_up (zlen data) page - image_start - zlen data) ++ after_erase (fm (uw_slot1 w)) (zlen data)).
  assert (Her : erased_slot (fm (uw_slot1 w)) (zlen data) = blank image_start ++ blank (zlen data) ++ post).
  { unfold post, erased_slot. rewrite !app_assoc, !blank_app by lia. do 2 f_equal. lia. }
  assert (Hsh : stream_has (blank image_start) post (zlen data) s [] (uw_slot1 (sv_app sv1))).
  { split; [by rewrite Hs1, Hs2|done|by apply zlen_blank|]. by rewrite Happ1, Hf1, Hs1, zlen_nil, Z.sub_0_r, Her. }
  assert (Hctx : FileCtx (Some SLOT1) (Some (s, image_start)) 0 0 RPC_ENUM_FILE_ACTION_APP_IMG true = image_ctx s [] true) by (unfold image_ctx, crc32_ieee; by rewrite pa_crc_nil).
  rewrite Hctx.
  destruct (file_loop_ok (blank image_start) post request id (zlen data) (fw_ack_period req) rest chunks ps (Datatypes.S (Datatypes.S (length (sv_data sv1)))) sv1 s []) as (s2 & sv2 & Hloop & Hs2' & Hw2 & Hd2); try done.
  { split; [by rewrite Ha1|rewrite Hn1; lia]. } { unfold UINT32_MAX in Hlen. lia. } { by rewrite Hd1. } { rewrite Hd1, Hd, length_app, length_fmap. lia. }
  rewrite zlen_nil, Z.sub_0_r in Hloop. rewrite Hloop. cbn [exec_bind app]. fold data. change (0 <? 0) with false. cbv iota. cbn [image_ctx fc_received fc_crc]. rewrite Z.eqb_refl. cbn [negb].
  assert (negb (fw_file_crc req =? UINT32_MAX) && negb (crc32_ieee data =? fw_file_crc req) = false) as -> by (destruct Hcrc as [->|[-> _]]; by rewrite ?Z.eqb_refl, ?andb_false_r).
  destruct (file_write_done_ok (blank image_start) post (zlen data) sv2 request id rpc_id s2 data fuel Hc Hs2') as (sv3 & q & k & -> & Hq & Hk & Hd3 & Hf3 & Hw3); [done|lia|done|].
  exists sv3, q, k. split; [done|]. split.
  { rewrite Hf3, Her, zwrite_at, zdrop_app by (rewrite ?zlen_blank; lia). done. }
  split; [rewrite Hf3, zdrop_app, ztake_app by (rewrite ?zlen_blank; done); done|]. do 2 (split; [done|]). split; [by rewrite Hd3|].
  destruct Hw1 as (A1 & A2 & A3), Hw2 as (B1 & B2 & B3), Hw3 as (C1 & C2 & C3). rewrite Happ1 in *. unfold slot1_only. rewrite C1, C2, C3, B1, B2, B3, A1, A2, A3, app_nil_r, <- app_assoc. done.
Qed.
End install.

(** ** A flash that does not fail *)

Lemma mem_reliable : reliable (update_api := mem_update 0 0 0) content fst snd 16 4 0 (fun _ => 2 ^ 32).
Proof.
  split; cbn; try done; try lia.
  - intros f o Ho. by rewrite Z.sub_0_r.
  - intros f off n Ho Hn Hle. by rewrite (proj2 (Z.leb_le _ _)).
  - intros f off n Ho Hn. rewrite zlen_content. intros Hle. by rewrite (proj2 (Z.leb_le _ _)).
  - intros s data flush _. by destruct (_ || _).
Qed.

Definition demo_chunks : list (list Z) := [[1; 2; 3; 4]; [5; 6; 7; 8]; [9; 10; 11; 12]].

Lemma file_write_image_installed_witness :
  exists sv' q k, demo_write (mem_update 0 0 0) false demo_stream demo_world demo_image_request = Done (None, sv') /\
    content (uw_slot1 (sv_app sv')) = zwrite 0 (mjoin demo_chunks) (erased_slot (update_api := mem_update 0 0 0) (page := 16) (repeat 0 64) 12) /\
    ztake 12 (zdrop 0 (content (uw_slot1 (sv_app sv')))) = mjoin demo_chunks /\ tx_queue (sv_core sv') = q ++ [k] /\
    tp_data k = le_put 4 77 ++ le_put 2 RPC_ID_FILE_WRITE_BASIC ++ le_put 2 0 ++ le_put 4 12 ++ le_put 4 (poly 0 (mjoin demo_chunks)) /\ sv_data sv' = [] /\
    slot1_only demo_world (sv_app sv') [EvPowerGet SLOT1; EvWriteEraseStart; EvWriteEraseFinish; EvWriteEraseStart; EvWriteEraseFinish; EvPowerPut SLOT1; EvUpgrade 0; EvReboot 1].
Proof.
  refine (file_write_image_installed content fst snd (H := mem_update_spec 0) mem_reliable 32 8 64 false true demo_sec demo_header demo_footer demo_size demo_stale 200
    (demo_update_server demo_stream demo_world) demo_receive 77 RPC_ID_FILE_WRITE_BASIC demo_image_request demo_stream demo_chunks [] _ _ _ _ _ _ _ _ _ _ _).
  - intros n. vm_compute. discriminate.
  - reflexivity.
  - unfold in_u. lia.
  - reflexivity.
  - reflexivity.
  - vm_compute. repeat split; discriminate.
  - by left.
  - repeat constructor; unfold byte_ok; lia.
  - repeat split; discriminate.
  - right. split; [done|]. intros [|c0 [|c1 [|c2 pre]]] c rest Hs Hr; injection Hs; intros; subst; try done. by destruct pre.
  - reflexivity.
Defined.

(** ** What goes wrong *)

(** When erasing fails, the area is closed by the code that opened it and again by the cleanup: the
    flash is powered down twice and up once. *)
Example file_write_erase_failure :
  uw_trace <$> app_of (demo_write (mem_update 0 (- 5) 0) false demo_stream demo_world demo_image_request) =
    Some [EvPowerGet SLOT1; EvWriteEraseStart; EvWriteEraseFinish; EvPowerPut SLOT1; EvPowerPut SLOT1].
Proof. vm_compute. reflexivity. Qed.

(** When the area cannot be opened, the cleanup dereferences a null pointer. *)
Example file_write_open_failure : demo_write (mem_update (- ENODEV) 0 0) false demo_stream demo_world demo_image_request = Fault.
Proof. vm_compute. reflexivity. Qed.

(** Without a CRC a packet that came twice in place of another is not noticed: the wrong image is
    installed. *)
Example file_write_repeated_packet :
  (fun w => (ztake 12 (uw_slot1 w), upgrades w)) <$>
    app_of (demo_write (mem_update 0 0 0) false [demo_data 77 0 [1; 2; 3; 4]; demo_data 77 0 [1; 2; 3; 4]; demo_data 77 8 [9; 10; 11; 12]] demo_world demo_image_request) =
  Some ([1; 2; 3; 4; 1; 2; 3; 4; 9; 10; 11; 12], [EvUpgrade 0]).
Proof. vm_compute. reflexivity. Qed.

(** Space is erased from the start of the slot, and the image written after the offset of the
    bootloader: with an offset of one page the image lands on a page that was not erased. *)
Example file_write_image_offset :
  (fun w => (ztake 12 (zdrop 16 (uw_slot1 w)), upgrades w)) <$>
    app_of (demo_write (mem_update 0 0 16) false demo_stream demo_world demo_image_request) = Some (repeat 0 12, []).
Proof. vm_compute. reflexivity. Qed.

Definition is_file_power (e : update_event) : bool := match e with EvPowerGet FILE_PARTITION | EvPowerPut FILE_PARTITION => true | _ => false end.

(** A build for controllers only does not defer the patch, and then runs the deferred part all the
    same: the slot is erased and patched again after the bootloader was asked to install it, and
    the file partition is powered down twice. *)
Example file_write_patched_twice :
  (fun w => (upgrades w, filter is_file_power (uw_trace w))) <$>
    app_of (demo_write (mem_update 0 0 0) true [demo_data 77 0 example_patch] demo_patch_world demo_patch_request) =
  Some ([EvUpgrade 0; EvUpgrade 0], [EvPowerGet FILE_PARTITION; EvPowerPut FILE_PARTITION; EvPowerPut FILE_PARTITION]).
Proof. vm_compute. reflexivity. Qed.
