(* ===== verification/RpcCommands.v ===== *)
(** * RPC commands on the stores of the device

    [subsys/rpc/commands]: [kv_write.c], [kv_read.c], [kv_reflect_crcs.c],
    [infuse_states_update.c], [infuse_states_query.c], [time_set.c] and [echo.c], which
    parse a request and call the key-value store, the application states and the clock.
    A remote write followed by a remote read gives the value back; checksums and states
    are reported completely, page by page. *)

From stdpp Require Import base tactics numbers list gmap.
From Stdlib Require Import ZArith Lia.
From S2P Require Import Prelude Epoch KvStore States AutoIterate EPacketKeys EPacketCrypt EPacketCore EPacketCoreProps RpcServer RpcServerProps.

Local Open Scope Z_scope.
Local Open Scope infuse_scope.

(** The parts of the application that the commands use. *)
Record device (F : Type) := Device { dv_kv : kv_state F; dv_states : app_states; dv_clock : epoch_clock }.
Arguments Device {F}.
Arguments dv_kv {F}.
Arguments dv_states {F}.
Arguments dv_clock {F}.

Definition sizeof_req_header : Z := 6.
Definition sizeof_kv_request : Z := 7.
Definition sizeof_kv_store_value : Z := 4.
Definition sizeof_kv_store_crc : Z := 6.
Definition sizeof_infuse_state : Z := 3.

Section commands.
Context {F : Type} `{NvsApi F} (crc32_ieee : list Z -> Z) (defs : list key_value_slot_definition).
Context (header_size footer_size : Z -> Z) (max_packet_size : Z -> nat -> Z) (stale : rx_packet -> list Z).
(** [infuse_rpc_command_kv_write_validate] of the application; without the option it
    accepts everything. *)
Context (kv_write_validate_app : rx_packet -> Z -> option (list Z) -> bool).
Implicit Types sv : server (device F).

Abbreviation respond := (rpc_response_simple_req header_size footer_size max_packet_size).

Definition set_kv sv (kv : kv_state F) : server (device F) := set_app sv (Device kv (dv_states (sv_app sv)) (dv_clock (sv_app sv))).
Definition set_states sv (s : app_states) : server (device F) := set_app sv (Device (dv_kv (sv_app sv)) s (dv_clock (sv_app sv))).

(** The memory from the start of a request on. *)
Definition req_mem (request : rx_packet) : list Z := rx_data request ++ stale request.

(** ** [kv_write.c] *)

Definition value_id (mem : list Z) (offset : Z) : Z := field mem offset 2.
Definition value_len (mem : list Z) (offset : Z) : Z := s16 (field mem (offset + 2) 2).
Definition value_next (mem : list Z) (offset : Z) : Z := u32 (offset + u32 (sizeof_kv_store_value + value_len mem offset)).

(** The first loop: whether the values end inside the request. *)
Fixpoint kv_write_validate (n : nat) (mem : list Z) (len offset : Z) : bool :=
  match n with
  | O => true
  | S n => let offset := value_next mem offset in if len <? offset then false else kv_write_validate n mem len offset
  end.

(** One value: the result and the store. *)
Definition kv_write_value (kv : kv_state F) (request : rx_packet) (id len : Z) (data : list Z) : exec (Z * kv_state F) :=
  let rc := kv_store_external_read_only defs id in
  let rc := if rc =? 0 then if kv_write_validate_app request id (if len =? 0 then None else Some data) then 0 else - EINVAL else rc in
  if rc =? 0 then
    if len =? 0 then let! (rc, kv) := kv_store_delete crc32_ieee defs kv id in Done (s16 rc, kv)
    else if len <? 0 then Fault (* the store is asked to write a large size_t of bytes *)
    else let! (rc, kv) := kv_store_write crc32_ieee defs kv id data in Done (s16 rc, kv)
  else Done (s16 rc, kv).

Fixpoint kv_write_loop (n : nat) (kv : kv_state F) (request : rx_packet) (offset : Z) (response : tx_buf) : exec (tx_buf * kv_state F) :=
  match n with
  | O => Done (response, kv)
  | S n =>
      let mem := req_mem request in
      let len := value_len mem offset in
      let! (rc, kv) := kv_write_value kv request (value_id mem offset) len (ztake len (zdrop (offset + sizeof_kv_store_value) mem)) in
      let! response := if 2 <=? tb_room response then buf_add_mem response (le_put 2 rc) else Done response in
      kv_write_loop n kv request (value_next mem offset) response
  end.

Definition rpc_command_kv_write sv (request : rx_packet) : exec (option tx_buf * server (device F)) :=
  let num := Z.to_nat (req_field stale request 6 1) in
  if kv_write_validate num (req_mem request) (zlen (rx_data request)) sizeof_kv_request then
    let '(response, sv) := respond sv request 0 (repeat 0 8) in
    let! (response, kv) := kv_write_loop num (dv_kv (sv_app sv)) request sizeof_kv_request response in
    Done (Some response, set_kv sv kv)
  else let '(response, sv) := respond sv request (- EINVAL) (repeat 0 8) in Done (Some response, sv).

(** ** [kv_read.c] *)

Fixpoint kv_read_loop (n : nat) (kv : kv_state F) (mem : list Z) (response : tx_buf) : exec tx_buf :=
  match n with
  | O => Done response
  | S n =>
      if tb_room response <? sizeof_kv_store_value then Done response
      else
        let id := field mem 0 2 in
        let header len := le_put 2 id ++ le_put 2 len in
        let len := s16 (kv_store_external_write_only defs id) in
        if len =? 0 then
          let space := tb_room response - sizeof_kv_store_value in
          let '(rc, data) := kv_store_read defs kv id space in
          let len := s16 rc in
          if space <? len then buf_add_mem response (header (- ENOSPC))
          else
            let! response := buf_add_mem response (header len ++ if 0 <? len then ztake len data else []) in
            kv_read_loop n kv (zdrop 2 mem) response
        else let! response := buf_add_mem response (header len) in kv_read_loop n kv (zdrop 2 mem) response
  end.

Definition rpc_command_kv_read sv (request : rx_packet) : exec (option tx_buf * server (device F)) :=
  let num := req_field stale request 6 1 in
  if zlen (rx_data request) <? sizeof_kv_request then Fault (* net_buf_pull *)
  else if negb (num * 2 =? zlen (rx_data request) - sizeof_kv_request) then
    let '(response, sv) := respond sv request (- EINVAL) (repeat 0 8) in Done (Some response, sv)
  else
    let '(response, sv) := respond sv request 0 (repeat 0 8) in
    let! response := kv_read_loop (Z.to_nat num) (dv_kv (sv_app sv)) (zdrop sizeof_kv_request (rx_data request)) response in
    Done (Some response, sv).

(** ** [kv_reflect_crcs.c] *)

(** The variables of the loops: [idx], the fields of the response, and the response. *)
Record crcs_state := CrcsState { cs_idx : Z; cs_num : Z; cs_remaining : Z; cs_crcs : list (Z * Z); cs_room : Z }.

(** The keys of one slot from [key] on; whether there was space for all.  [header]: the
    response holds its fields. *)
Fixpoint crcs_slot_loop (n : nat) (kv : kv_state F) (header : bool) (offset key : Z) (s : crcs_state) : exec (bool * crcs_state) :=
  match n with
  | O => Done (true, s)
  | S n =>
      if cs_room s <? sizeof_kv_store_crc then Done (false, s)
      else if negb header then Fault
      else if cs_idx s <? offset then
        crcs_slot_loop n kv header offset (key + 1) (CrcsState (u16 (cs_idx s + 1)) (cs_num s) (u16 (cs_remaining s - 1)) (cs_crcs s) (cs_room s))
      else
        let! crc := kv_reflect_key_crc kv (cs_idx s) in
        crcs_slot_loop n kv header offset (key + 1)
          (CrcsState (u16 (cs_idx s + 1)) (u16 (cs_num s + 1)) (u16 (cs_remaining s - 1)) (cs_crcs s ++ [(key, crc)]) (cs_room s - sizeof_kv_store_crc))
  end.

Fixpoint crcs_loop (l : list key_value_slot_definition) (kv : kv_state F) (header : bool) (offset : Z) (s : crcs_state) : exec crcs_state :=
  match l with
  | [] => Done s
  | d :: l =>
      if negb (slot_reflect d) then crcs_loop l kv header offset s
      else
        let! (more, s) := crcs_slot_loop (Z.to_nat (KvStore.slot_range d)) kv header offset (slot_key d) s in
        if more then crcs_loop l kv header offset s else Done s
  end.

Definition crc_bytes (c : Z * Z) : list Z := le_put 2 c.1 ++ le_put 4 c.2.

Definition rpc_command_kv_reflect_crcs sv (request : rx_packet) : exec (option tx_buf * server (device F)) :=
  let remaining := u16 (KV_REFLECT_NUM defs) in
  let '(response, sv) := respond sv request 0 (repeat 0 8 ++ le_put 2 0 ++ le_put 2 remaining) in
  let header := 12 <=? zlen (tb_data response) in
  let! s := crcs_loop defs (dv_kv (sv_app sv)) header (req_field stale request 6 2) (CrcsState 0 0 remaining [] (tb_room response)) in
  let response := if header then buf_poke response 8 (le_put 2 (cs_num s) ++ le_put 2 (cs_remaining s)) else response in
  Done (Some (TxBuf (tb_data response ++ mjoin (crc_bytes <$> cs_crcs s)) (cs_room s)), sv).

(** ** [infuse_states_update.c] *)

Definition states_update_one (s : app_states) (state timeout : Z) : app_states :=
  if timeout =? 0 then (infuse_state_set s state).2
  else if timeout =? UINT16_MAX then (infuse_state_clear s state).2
  else (infuse_state_set_timeout s state timeout).2.

Fixpoint states_update_loop (n : nat) (mem : list Z) (s : app_states) : app_states :=
  match n with
  | O => s
  | S n => states_update_loop n (zdrop sizeof_infuse_state mem) (states_update_one s (field mem 0 1) (field mem 1 2))
  end.

Definition rpc_command_infuse_states_update sv (request : rx_packet) : exec (option tx_buf * server (device F)) :=
  let num := req_field stale request 6 1 in
  if negb (sizeof_kv_request + num * sizeof_infuse_state =? zlen (rx_data request)) then
    let '(response, sv) := respond sv request (- EINVAL) (repeat 0 8) in Done (Some response, sv)
  else
    let sv := set_states sv (states_update_loop (Z.to_nat num) (zdrop sizeof_kv_request (rx_data request)) (dv_states (sv_app sv))) in
    let '(response, sv) := respond sv request 0 (repeat 0 8) in Done (Some response, sv).

(** ** [infuse_states_query.c] *)

(** [req->offset], the states reported with their timeouts, and the room left. *)
Record query_state := QueryState { qs_offset : Z; qs_states : list (Z * Z); qs_room : Z }.

(** The loop over one word of the snapshot, which clears a bit each time: whether there was
    room, what is left of the word, and the variables. *)
Fixpoint query_word (fuel : nat) (s : app_states) (i word : Z) (q : query_state) : bool * Z * query_state :=
  match fuel with
  | O => (true, word, q)
  | S fuel =>
      if word =? 0 then (true, word, q)
      else if qs_room q <? sizeof_infuse_state then (false, word, q)
      else
        let index := first_bit word in
        let word := Z.lxor word (Z.shiftl 1 index) in
        if negb (qs_offset q =? 0) then query_word fuel s i word (QueryState (qs_offset q - 1) (qs_states q) (qs_room q))
        else
          let state := u8 (i * 32 + index) in
          let timeout := infuse_state_get_timeout s state in
          if timeout <? 0 then query_word fuel s i word q
          else query_word fuel s i word (QueryState (qs_offset q) (qs_states q ++ [(state, u16 timeout)]) (qs_room q - sizeof_infuse_state))
  end.

(** The words from number [i] on: what is left of them. *)
Fixpoint query_loop (words : list Z) (s : app_states) (i : Z) (q : query_state) : list Z * query_state :=
  match words with
  | [] => ([], q)
  | word :: words =>
      let '(more, word, q) := query_word 33 s i word q in
      if more then let '(words, q) := query_loop words s (i + 1) q in (word :: words, q) else (word :: words, q)
  end.

(** [INFUSE_STATES_ARRAY(temp)] holds the 256 states in 8 words. *)
Definition snapshot_words (snapshot : Z) : list Z := (fun i => u32 (Z.shiftr snapshot (32 * Z.of_nat i))) <$> seq 0 8.

Definition state_bytes (e : Z * Z) : list Z := le_put 1 e.1 ++ le_put 2 e.2.

(** The write of [remaining] leaves a response without its fields as it is. *)
Definition rpc_command_infuse_states_query sv (request : rx_packet) : exec (option tx_buf * server (device F)) :=
  let s := dv_states (sv_app sv) in
  let '(response, sv) := respond sv request 0 (repeat 0 9) in
  let '(words, q) := query_loop (snapshot_words (infuse_states_snapshot s)) s 0 (QueryState (req_field stale request 6 1) [] (tb_room response)) in
  let remaining := u8 (fold_right (fun w n => popcount w + n) 0 words) in
  let response := buf_poke response 8 (le_put 1 remaining) in
  Done (Some (TxBuf (tb_data response ++ mjoin (state_bytes <$> qs_states q)) (qs_room q)), sv).

(** ** [time_set.c] *)

(** [ticks] is the uptime. *)
Definition rpc_command_time_set (ticks : Z) sv (request : rx_packet) : exec (option tx_buf * server (device F)) :=
  let d := sv_app sv in
  let '(rc, clock, states) := epoch_time_set_reference (dv_clock d) (dv_states d) TIME_SOURCE_RPC (SyncInstant ticks (req_field stale request 6 8)) in
  let sv := set_app sv (Device (dv_kv d) states clock) in
  let '(response, sv) := respond sv request rc (repeat 0 8) in Done (Some response, sv).

(** ** [echo.c] *)

Definition rpc_command_echo sv (request : rx_packet) : exec (option tx_buf * server (device F)) :=
  let var_len := u32 (zlen (rx_data request) - sizeof_req_header) in
  let '(response, sv) := respond sv request 0 (repeat 0 8) in
  let n := Z.min (tb_room response) var_len in
  if zlen (rx_data request) <? sizeof_req_header + n then Fault (* the length of the request wrapped around *)
  else
    let! response := buf_add_mem response (ztake n (zdrop sizeof_req_header (rx_data request))) in
    Done (Some response, sv).
End commands.
