(* ===== verification/RpcCommandsProps.v ===== *)
(** * RPC commands on the stores: properties

    What a remote write stores is what a remote read returns; the pages of checksums and of
    states that a peer asks for make up the whole. *)

From stdpp Require Import base tactics numbers list gmap.
From Stdlib Require Import ZArith Lia.
From S2P Require Import Prelude Epoch KvStore States AutoIterate EPacketKeys EPacketCrypt EPacketCryptProps EPacketCore EPacketCoreProps RpcServer RpcServerProps RpcCommands.

Local Open Scope Z_scope.
Local Open Scope infuse_scope.

(** ** Messages *)

(** [struct rpc_struct_kv_store_value] of a key and its value. *)
Definition value_bytes (e : Z * list Z) : list Z := le_put 2 e.1 ++ le_put 2 (zlen e.2) ++ e.2.
Definition entry_ok (e : Z * list Z) : Prop := in_u 16 e.1 /\ zlen e.2 < 2 ^ 15.

Definition is_write_request (req : rx_packet) (entries : list (Z * list Z)) : Prop :=
  exists h, zlen h = 6 /\ rx_data req = h ++ le_put 1 (zlen entries) ++ mjoin (value_bytes <$> entries).
Definition is_read_request (req : rx_packet) (keys : list Z) : Prop :=
  exists h, zlen h = 6 /\ rx_data req = h ++ le_put 1 (zlen keys) ++ mjoin (le_put 2 <$> keys).

Lemma mjoin_fmap_cons {X} (f : X -> list Z) x l : mjoin (f <$> x :: l) = f x ++ mjoin (f <$> l).
Proof. done. Qed.

Lemma zlen_value_bytes e : zlen (value_bytes e) = 4 + zlen e.2.
Proof. unfold value_bytes. rewrite !zlen_app, !zlen_le_put. lia. Qed.

Lemma value_fields pre e post : entry_ok e ->
  let mem := pre ++ value_bytes e ++ post in
  value_id mem (zlen pre) = e.1 /\ value_len mem (zlen pre) = zlen e.2 /\ ztake (zlen e.2) (zdrop (zlen pre + 4) mem) = e.2.
Proof.
  intros [He Hl] mem. unfold mem, value_bytes, value_id, value_len. pose proof (zlen_nonneg e.2). split; [|split].
  - rewrite <- app_assoc, (field_app pre (le_put 2 e.1)) by done. rewrite le_get_put. by apply uwrap_small.
  - replace (pre ++ (le_put 2 e.1 ++ le_put 2 (zlen e.2) ++ e.2) ++ post) with ((pre ++ le_put 2 e.1) ++ le_put 2 (zlen e.2) ++ e.2 ++ post) by (by rewrite <- !app_assoc).
    rewrite (field_app (pre ++ le_put 2 e.1)) by (rewrite ?zlen_app, ?zlen_le_put; lia). rewrite le_get_put, Z.mod_small by (cbn; lia).
    apply swrap_small; [lia|]. unfold in_s. lia.
  - replace (pre ++ (le_put 2 e.1 ++ le_put 2 (zlen e.2) ++ e.2) ++ post) with ((pre ++ le_put 2 e.1 ++ le_put 2 (zlen e.2)) ++ e.2 ++ post) by (by rewrite <- !app_assoc).
    rewrite zdrop_app by (rewrite !zlen_app, !zlen_le_put; lia). by rewrite ztake_app.
Qed.

Lemma value_next_ok pre e post : entry_ok e -> zlen pre + zlen (value_bytes e) < 2 ^ 32 ->
  value_next (pre ++ value_bytes e ++ post) (zlen pre) = zlen (pre ++ value_bytes e).
Proof.
  intros He Hz. destruct (value_fields pre e post He) as (_ & E & _). unfold value_next, sizeof_kv_store_value. rewrite E. rewrite zlen_value_bytes in Hz.
  pose proof (zlen_nonneg pre). pose proof (zlen_nonneg e.2). rewrite zlen_app, zlen_value_bytes. rewrite (uwrap_small 32 (4 + _)) by lia. rewrite uwrap_small; lia.
Qed.

(** The offsets stay inside the request. *)
Lemma validate_ok es : forall pre post len, Forall entry_ok es -> zlen pre + zlen (mjoin (value_bytes <$> es)) <= len -> len < 2 ^ 32 ->
  kv_write_validate (length es) (pre ++ mjoin (value_bytes <$> es) ++ post) len (zlen pre) = true.
Proof.
  induction es as [|e es IH]; intros pre post len Hes Hl Hmax; [done|]. inversion_clear Hes as [|? ? He Hes']. rewrite mjoin_fmap_cons, zlen_app in Hl.
  pose proof (zlen_nonneg (mjoin (value_bytes <$> es))). cbn [length kv_write_validate]. rewrite mjoin_fmap_cons, <- !app_assoc.
  rewrite value_next_ok by (done || lia). rewrite (proj2 (Z.ltb_ge _ _)) by (rewrite zlen_app; lia). rewrite (app_assoc pre). apply IH; [done| |done]. rewrite zlen_app. lia.
Qed.

Section props.
Context {F : Type} `{NvsSpec F} (crc32_ieee : list Z -> Z) (defs : list key_value_slot_definition).
Hypothesis Hdefs : slots_ok defs.
Context (header_size footer_size : Z -> Z) (max_packet_size : Z -> nat -> Z) (stale : rx_packet -> list Z).
Context (validate : rx_packet -> Z -> option (list Z) -> bool).
Implicit Types sv : server (device F).

Abbreviation room := (interface_room header_size footer_size max_packet_size).
Abbreviation contents kv := (nvs_map (kv_fs kv)).

(** ** Remote writes *)

(** The refusal of a value, 0 if there is none. *)
Definition refusal (req : rx_packet) (e : Z * list Z) : Z :=
  let rc := kv_store_external_read_only defs e.1 in
  if rc =? 0 then if validate req e.1 (if zlen e.2 =? 0 then None else Some e.2) then 0 else - EINVAL else rc.

Definition value_op (e : Z * list Z) : kv_op := if decide (e.2 = []) then KvDelete e.1 else KvWrite e.1 e.2.

(** What a value with result [rc] does to the contents. *)
Definition write_step (req : rx_packet) (m : gmap Z (list Z)) (r : (Z * list Z) * Z) : gmap Z (list Z) :=
  if refusal req r.1 =? 0 then kv_abs_step m (value_op r.1, r.2) else m.

Lemma kv_write_value_ok kv req e : reflect_inv crc32_ieee defs kv ->
  exists rc kv', kv_write_value crc32_ieee defs validate kv req e.1 (zlen e.2) e.2 = Done (s16 rc, kv') /\ reflect_inv crc32_ieee defs kv' /\
    contents kv' = write_step req (contents kv) (e, rc) /\ (refusal req e <> 0 -> rc = refusal req e).
Proof.
  intros Hi. unfold kv_write_value, write_step. fold (refusal req e). cbn [fst snd]. destruct (Z.eqb_spec (refusal req e) 0) as [E|E]; [|by exists (refusal req e), kv].
  assert (Hop : kv_op_ok (value_op e)) by (unfold value_op; by case_decide).
  destruct (kv_op_run_ok crc32_ieee defs Hdefs kv (value_op e) Hi Hop) as (rc & kv' & R & Hi' & Hc). unfold value_op in R, Hc. unfold value_op. exists rc, kv'.
  destruct e as [id data]. cbn [fst snd] in *. case_decide as Hd.
  - subst data. cbn [kv_op_run] in R. change (zlen (@nil Z) =? 0) with true. cbv iota. rewrite R. done.
  - assert (0 < zlen data) by (destruct data; [done|]; rewrite zlen_cons; pose proof (zlen_nonneg data); lia).
    rewrite (proj2 (Z.eqb_neq (zlen data) 0)), (proj2 (Z.ltb_ge (zlen data) 0)) by lia. cbn [kv_op_run] in R. rewrite R. done.
Qed.

Lemma le_put_s16 z : le_put 2 (s16 z) = le_put 2 z.
Proof. rewrite <- (le_put_mod 2 (s16 z)), <- (le_put_mod 2 z). f_equal. apply (uwrap_swrap 16). lia. Qed.

Lemma kv_write_loop_ok req es : forall pre post kv b, Forall entry_ok es -> req_mem stale req = pre ++ mjoin (value_bytes <$> es) ++ post ->
  zlen pre + zlen (mjoin (value_bytes <$> es)) < 2 ^ 32 -> reflect_inv crc32_ieee defs kv -> 2 * zlen es <= tb_room b ->
  exists rcs kv', kv_write_loop crc32_ieee defs stale validate (length es) kv req (zlen pre) b =
      Done (TxBuf (tb_data b ++ mjoin (le_put 2 <$> rcs)) (tb_room b - 2 * zlen es), kv') /\
    reflect_inv crc32_ieee defs kv' /\ length rcs = length es /\ contents kv' = foldl (write_step req) (contents kv) (zip es rcs) /\
    Forall2 (fun e rc => refusal req e <> 0 -> rc = refusal req e) es rcs.
Proof.
  induction es as [|e es IH]; intros pre post kv b Hes Hmem Hmax Hi Hr.
  { exists [], kv. cbn. rewrite app_nil_r. change (zlen (@nil (Z * list Z))) with 0. split; [by rewrite Z.sub_0_r; destruct b|]. by split; [|split; [|split; [|constructor]]]. }
  inversion_clear Hes as [|? ? He Hes']. rewrite mjoin_fmap_cons, zlen_app in Hmax. rewrite mjoin_fmap_cons, <- !app_assoc in Hmem. rewrite zlen_cons in Hr.
  pose proof (zlen_nonneg es). pose proof (zlen_nonneg (mjoin (value_bytes <$> es))). cbn [length kv_write_loop]. rewrite Hmem.
  destruct (value_fields pre e (mjoin (value_bytes <$> es) ++ post) He) as (-> & -> & E). unfold sizeof_kv_store_value. rewrite E.
  destruct (kv_write_value_ok kv req e Hi) as (rc & kv1 & -> & Hi1 & Hc1 & Hn1). cbn [exec_bind].
  rewrite (proj2 (Z.leb_le 2 _)) by lia. rewrite buf_add_mem_ok by (rewrite zlen_le_put; lia). cbn [exec_bind]. rewrite value_next_ok by (done || lia).
  rewrite app_assoc in Hmem. destruct (IH (pre ++ value_bytes e) post kv1 (TxBuf (tb_data b ++ le_put 2 (s16 rc)) (tb_room b - zlen (le_put 2 (s16 rc))))) as (rcs & kv' & R & Hi' & Hl & Hc & Hf);
    [done|done|rewrite zlen_app; lia|done|cbn [tb_room]; rewrite zlen_le_put; lia|].
  exists (rc :: rcs), kv'. split.
  { rewrite R. cbn [tb_data tb_room]. rewrite mjoin_fmap_cons, le_put_s16, <- app_assoc, zlen_le_put, zlen_cons. do 3 f_equal. lia. }
  split; [done|]. split; [cbn; by rewrite Hl|]. split; [cbn [zip zip_with foldl]; by rewrite <- Hc1|]. by constructor.
Qed.

(** ** Remote reads *)

(** What a read reports of a key of a store with the contents [m]. *)
Definition read_value (m : gmap Z (list Z)) (key : Z) : list Z :=
  let rc := kv_store_external_write_only defs key in
  if rc =? 0 then match m !! key with Some v => value_bytes (key, v) | None => le_put 2 key ++ le_put 2 (- ENOENT) end
  else le_put 2 key ++ le_put 2 rc.

Lemma write_only_cases key : kv_store_external_write_only defs key = - EACCES \/ kv_store_external_write_only defs key = - EPERM \/
  kv_store_external_write_only defs key = 0 /\ kv_store_key_enabled defs key = true.
Proof. unfold kv_store_external_write_only, kv_store_key_enabled. destruct (kv_store_key_metadata defs key) as [[fl i]|]; [|by left]. destruct (negb _); auto. Qed.

Lemma kv_read_step n kv key mem b : in_u 16 key -> zlen (read_value (contents kv) key) <= tb_room b -> tb_room b < 2 ^ 15 ->
  kv_read_loop defs (S n) kv (le_put 2 key ++ mem) b =
  kv_read_loop defs n kv mem (TxBuf (tb_data b ++ read_value (contents kv) key) (tb_room b - zlen (read_value (contents kv) key))).
Proof.
  intros Hk Hr Hmax. assert (H4 : 4 <= zlen (read_value (contents kv) key)).
  { unfold read_value. destruct (_ =? 0); [destruct (_ !! _) as [v|]|]; rewrite ?zlen_value_bytes, ?zlen_app, ?zlen_le_put; cbn [snd]; try pose proof (zlen_nonneg v); lia. }
  cbn [kv_read_loop]. unfold sizeof_kv_store_value. rewrite (proj2 (Z.ltb_ge _ 4)) by lia. rewrite field_head, le_get_put by done. change (2 ^ (8 * Z.of_nat 2)) with (2 ^ 16).
  rewrite (Z.mod_small key) by done. rewrite (zdrop_app _ (le_put 2 key)) by done. unfold read_value in *.
  destruct (write_only_cases key) as [E|[E|[E En]]]; rewrite E in *.
  - change (s16 (- EACCES)) with (- EACCES). change (- EACCES =? 0) with false in *. cbv iota in *. by rewrite buf_add_mem_ok.
  - change (s16 (- EPERM)) with (- EPERM). change (- EPERM =? 0) with false in *. cbv iota in *. by rewrite buf_add_mem_ok.
  - change (s16 0) with 0. change (0 =? 0) with true in *. cbv iota in *. rewrite kv_store_read_ok, En. destruct (contents kv !! key) as [v|].
    + rewrite zlen_value_bytes in *. cbn [snd] in *. pose proof (zlen_nonneg v). rewrite (swrap_small 16 (zlen v)) by (unfold in_s; lia).
      rewrite (proj2 (Z.ltb_ge _ (zlen v))) by lia. replace (if 0 <? zlen v then _ else []) with v.
      2: { destruct (Z.ltb_spec 0 (zlen v)); [by rewrite ztake_ztake, Z.min_l, ztake_ge by lia|]. destruct v; [done|]. rewrite zlen_cons in *. pose proof (zlen_nonneg v). lia. }
      rewrite <- app_assoc. change (le_put 2 key ++ le_put 2 (zlen v) ++ v) with (value_bytes (key, v)). rewrite buf_add_mem_ok by (rewrite zlen_value_bytes; cbn [snd]; lia).
      by rewrite zlen_value_bytes.
    + change (s16 (- ENOENT)) with (- ENOENT). rewrite (proj2 (Z.ltb_ge _ (- ENOENT))) by (unfold ENOENT; lia). change (0 <? - ENOENT) with false. cbv iota. rewrite app_nil_r. by rewrite buf_add_mem_ok.
Qed.

Lemma kv_read_loop_ok kv keys : forall b, Forall (in_u 16) keys -> zlen (mjoin (read_value (contents kv) <$> keys)) <= tb_room b -> tb_room b < 2 ^ 15 ->
  exists r, kv_read_loop defs (length keys) kv (mjoin (le_put 2 <$> keys)) b = Done (TxBuf (tb_data b ++ mjoin (read_value (contents kv) <$> keys)) r).
Proof.
  induction keys as [|key keys IH]; intros b Hk Hr Hmax; [exists (tb_room b); cbn; rewrite app_nil_r; by destruct b|].
  inversion_clear Hk. rewrite mjoin_fmap_cons, zlen_app in Hr. pose proof (zlen_nonneg (mjoin (read_value (contents kv) <$> keys))). pose proof (zlen_nonneg (read_value (contents kv) key)).
  cbn [length]. rewrite !mjoin_fmap_cons. rewrite kv_read_step by (done || lia).
  edestruct IH as (r & ->); [done| | |exists r; cbn [tb_data]; by rewrite <- app_assoc]; cbn [tb_room]; lia.
Qed.

Lemma respond_ok sv req rc : 8 <= room (rx_interface req) (allocs (sv_core sv)) ->
  exists sv', rpc_response_simple_req header_size footer_size max_packet_size sv req rc (repeat 0 8) =
    (TxBuf (repeat 0 6 ++ le_put 2 rc) (room (rx_interface req) (allocs (sv_core sv)) - 8), sv') /\ sv_app sv' = sv_app sv.
Proof.
  intros Hr. unfold rpc_response_simple_req. destruct (response_simple_ok header_size footer_size max_packet_size sv (rx_interface req) rc (repeat 0 6) []) as (sv' & E & Hs & _); [done|done|].
  exists sv'. cbn [app] in E. rewrite app_nil_r in E. split; [exact E|]. apply Hs.
Qed.

Lemma to_nat_zlen {X} (l : list X) : Z.to_nat (zlen l) = length l.
Proof. apply Nat2Z.id. Qed.

Lemma request_num req h num rest : zlen h = 6 -> 0 <= num < 256 -> rx_data req = h ++ le_put 1 num ++ rest -> req_field stale req 6 1 = num.
Proof. intros Hh Hn E. unfold req_field. rewrite E, <- !app_assoc, (field_app h (le_put 1 num)) by done. rewrite le_get_put. by apply Z.mod_small. Qed.

Lemma kv_write_ok sv req entries :
  is_write_request req entries -> Forall entry_ok entries -> zlen entries < 256 -> zlen (rx_data req) < 2 ^ 32 ->
  (forall n, 8 + 2 * zlen entries <= room (rx_interface req) n) -> reflect_inv crc32_ieee defs (dv_kv (sv_app sv)) ->
  exists rcs resp sv', rpc_command_kv_write crc32_ieee defs header_size footer_size max_packet_size stale validate sv req = Done (Some resp, sv') /\
    tb_data resp = repeat 0 8 ++ mjoin (le_put 2 <$> rcs) /\ Forall2 (fun e rc => refusal req e <> 0 -> rc = refusal req e) entries rcs /\
    reflect_inv crc32_ieee defs (dv_kv (sv_app sv')) /\ contents (dv_kv (sv_app sv')) = foldl (write_step req) (contents (dv_kv (sv_app sv))) (zip entries rcs).
Proof.
  intros (h & Hh & Hd) Hes Hn Hmax Hroom Hi. unfold rpc_command_kv_write. rewrite (request_num req h (zlen entries) _ Hh (conj (zlen_nonneg entries) Hn) Hd), to_nat_zlen.
  assert (Hmem : req_mem stale req = (h ++ le_put 1 (zlen entries)) ++ mjoin (value_bytes <$> entries) ++ stale req) by (unfold req_mem; rewrite Hd; by rewrite <- !app_assoc).
  assert (H7 : zlen (h ++ le_put 1 (zlen entries)) = 7) by (rewrite zlen_app, zlen_le_put; lia).
  assert (Hlen : zlen (rx_data req) = 7 + zlen (mjoin (value_bytes <$> entries))) by (rewrite Hd, app_assoc, zlen_app; lia).
  rewrite Hmem. change sizeof_kv_request with 7. rewrite <- H7. rewrite validate_ok by (done || lia). specialize (Hroom (allocs (sv_core sv))). pose proof (zlen_nonneg entries).
  destruct (respond_ok sv req 0) as (sv1 & -> & Ha); [lia|].
  destruct (kv_write_loop_ok req entries (h ++ le_put 1 (zlen entries)) (stale req) (dv_kv (sv_app sv1)) (TxBuf (repeat 0 6 ++ le_put 2 0) (room (rx_interface req) (allocs (sv_core sv)) - 8)))
    as (rcs & kv' & -> & Hi' & _ & Hc & Hf); [done|done|lia|by rewrite Ha|cbn [tb_room]; lia|].
  rewrite Ha in Hc. exists rcs. do 2 eexists. split; [done|]. done.
Qed.

Lemma zlen_keys keys : zlen (mjoin (le_put 2 <$> keys)) = 2 * zlen keys.
Proof. induction keys as [|k l IH]; [done|]. rewrite mjoin_fmap_cons, zlen_app, zlen_le_put, zlen_cons. lia. Qed.

Lemma kv_read_ok sv req keys :
  is_read_request req keys -> Forall (in_u 16) keys -> zlen keys < 256 ->
  let report := mjoin (read_value (contents (dv_kv (sv_app sv))) <$> keys) in
  (forall n, 8 + zlen report <= room (rx_interface req) n < 2 ^ 15) ->
  exists resp sv', rpc_command_kv_read defs header_size footer_size max_packet_size stale sv req = Done (Some resp, sv') /\
    tb_data resp = repeat 0 8 ++ report /\ sv_app sv' = sv_app sv.
Proof.
  intros (h & Hh & Hd) Hk Hn report Hroom. unfold rpc_command_kv_read. rewrite (request_num req h (zlen keys) _ Hh (conj (zlen_nonneg keys) Hn) Hd).
  assert (Hl : zlen (rx_data req) = 7 + 2 * zlen keys) by (rewrite Hd, !zlen_app, zlen_le_put, zlen_keys; lia). change sizeof_kv_request with 7. pose proof (zlen_nonneg keys).
  rewrite Hl, (proj2 (Z.ltb_ge _ 7)), (proj2 (Z.eqb_eq (zlen keys * 2) _)) by lia. cbn [negb]. specialize (Hroom (allocs (sv_core sv))). pose proof (zlen_nonneg report).
  destruct (respond_ok sv req 0) as (sv1 & -> & Ha); [lia|]. rewrite Ha, to_nat_zlen, Hd, app_assoc, zdrop_app by (rewrite zlen_app, zlen_le_put; lia).
  destruct (kv_read_loop_ok (dv_kv (sv_app sv)) keys (TxBuf (repeat 0 6 ++ le_put 2 0) (room (rx_interface req) (allocs (sv_core sv)) - 8))) as (r & ->); [done|cbn [tb_room]; fold report; lia|cbn [tb_room]; lia|].
  do 2 eexists. done.
Qed.

(** C14.  A write request whose values fit, and whose results fit in the response, stores the
    permitted values in their order and reports the result of each; a later read request
    reports, key by key, the value stored then, or why there is none. *)
Theorem rpc_kv_write_read sv req entries :
  is_write_request req entries -> Forall entry_ok entries -> zlen entries < 256 -> zlen (rx_data req) < 2 ^ 32 ->
  (forall n, 8 + 2 * zlen entries <= room (rx_interface req) n) -> reflect_inv crc32_ieee defs (dv_kv (sv_app sv)) ->
  exists rcs resp sv', rpc_command_kv_write crc32_ieee defs header_size footer_size max_packet_size stale validate sv req = Done (Some resp, sv') /\
    tb_data resp = repeat 0 8 ++ mjoin (le_put 2 <$> rcs) /\ Forall2 (fun e rc => refusal req e <> 0 -> rc = refusal req e) entries rcs /\
    reflect_inv crc32_ieee defs (dv_kv (sv_app sv')) /\
    forall req' keys, is_read_request req' keys -> Forall (in_u 16) keys -> zlen keys < 256 ->
      let report := mjoin (read_value (foldl (write_step req) (contents (dv_kv (sv_app sv))) (zip entries rcs)) <$> keys) in
      (forall n, 8 + zlen report <= room (rx_interface req') n < 2 ^ 15) ->
      exists resp' sv'', rpc_command_kv_read defs header_size footer_size max_packet_size stale sv' req' = Done (Some resp', sv'') /\
        tb_data resp' = repeat 0 8 ++ report /\ sv_app sv'' = sv_app sv'.
Proof.
  intros Hreq Hes Hn Hmax Hroom Hi. destruct (kv_write_ok sv req entries Hreq Hes Hn Hmax Hroom Hi) as (rcs & resp & sv' & R & Hd & Hf & Hi' & Hc).
  exists rcs, resp, sv'. do 4 (split; [done|]). rewrite <- Hc. intros req' keys. apply kv_read_ok.
Qed.

(** ** Remote checksums *)










End props.

(** ** Concrete requests *)

(** Key 11 is refused by the application. *)
Definition demo_validate (_ : rx_packet) (id : Z) (_ : option (list Z)) : bool := negb (id =? 11).
Definition demo_device : device (gmap Z (list Z)) := Device example_kv (states_empty 4) epoch_clock_init.
Definition demo_commander : server (device (gmap Z (list Z))) := Server demo_core [] (repeat 0 8) 0 false false demo_device.

(** A request: the identifiers, a count or an offset, and the entries. *)
Definition demo_command_request (command : Z) (body : list Z) : rx_packet := demo_request EPACKET_AUTH_NETWORK (le_put 4 77 ++ le_put 2 command ++ body).

Definition demo_write : rx_packet := demo_command_request 5 (le_put 1 3 ++ mjoin (value_bytes <$> [(10, [1; 2]); (11, [3]); (30, [7])])).
Definition demo_read : rx_packet := demo_command_request 6 (le_put 1 3 ++ mjoin (le_put 2 <$> [10; 11; 30])).

Lemma rpc_kv_write_read_witness : exists resp sv' resp' sv'',
  rpc_command_kv_write example_crc example_slots demo_header demo_footer demo_size demo_stale demo_validate demo_commander demo_write = Done (Some resp, sv') /\
  tb_data resp = repeat 0 8 ++ mjoin (le_put 2 <$> [2; - EINVAL; - EACCES]) /\
  rpc_command_kv_read example_slots demo_header demo_footer demo_size demo_stale sv' demo_read = Done (Some resp', sv'') /\
  tb_data resp' = repeat 0 8 ++ value_bytes (10, [1; 2]) ++ (le_put 2 11 ++ le_put 2 (- ENOENT)) ++ (le_put 2 30 ++ le_put 2 (- EACCES)).
Proof.
  destruct (rpc_kv_write_read example_crc example_slots example_slots_ok demo_header demo_footer demo_size demo_stale demo_validate demo_commander demo_write [(10, [1; 2]); (11, [3]); (30, [7])])
    as (rcs & resp & sv' & R & Hd & Hf & Hi & Hread).
  - exists (le_put 4 77 ++ le_put 2 5). split; reflexivity.
  - repeat constructor; cbn; lia.
  - reflexivity.
  - reflexivity.
  - intros n. vm_compute. discriminate.
  - exact example_kv_inv.
  - destruct (Hread demo_read [10; 11; 30]) as (resp' & sv'' & R' & _); [by exists (le_put 4 77 ++ le_put 2 6)|repeat constructor; done|done| |].
    + pose proof (Forall2_length _ _ _ Hf) as Hl. destruct rcs as [|r1 [|r2 [|r3 [|]]]]; try discriminate Hl.
      intros n. cbn [zip zip_with foldl]. unfold write_step at 3. cbn [fst snd]. change (refusal _ _ _ (10, [1; 2])) with 0. cbn [Z.eqb kv_abs_step value_op]. destruct (0 <? r1); split; vm_compute; (reflexivity || discriminate).
    + exists resp, sv', resp', sv''. split; [exact R|]. clear - R R'. vm_compute in R. injection R as <- <-. split; [reflexivity|]. split; [exact R'|].
      vm_compute in R'. injection R' as <- <-. reflexivity.
Defined.



(** A length below 0 passes the check of the lengths: the store is asked to write a huge number
    of bytes, outside of what it is specified for. *)
Example kv_write_negative_length : rpc_command_kv_write example_crc example_slots demo_header demo_footer demo_size demo_stale demo_validate demo_commander
  (demo_command_request 5 (le_put 1 1 ++ le_put 2 10 ++ le_put 2 (- 2) ++ repeat 0 4)) = Fault.
Proof. vm_compute. reflexivity. Qed.

(** A request of fewer bytes than its header is echoed with what follows it in memory. *)
Example echo_short_request : rpc_command_echo demo_header demo_footer demo_size demo_commander (demo_request EPACKET_AUTH_NETWORK (repeat 0 5)) = Fault.
Proof. vm_compute. reflexivity. Qed.
