(* ===== verification/RpcStatesProps.v ===== *)
(** * Remote states: properties

    What [rpc_command_infuse_states_update] sets is what
    [rpc_command_infuse_states_query] reports, page by page. *)

From stdpp Require Import base tactics numbers list gmap.
From Stdlib Require Import ZArith Lia.
From S2P Require Import Prelude Epoch KvStore States AutoIterate EPacketKeys EPacketCrypt EPacketCryptProps EPacketCore EPacketCoreProps RpcServer RpcServerProps RpcCommands RpcCommandsProps.

Local Open Scope Z_scope.
Local Open Scope infuse_scope.

(** ** Words and their bits *)

Definition bits (n : nat) : list Z := map Z.of_nat (seq 0 n).
Definition word_bits (w : Z) : list Z := filter (fun i => Z.testbit w i = true) (bits 32).

Lemma elem_of_bits n i : i ∈ bits n <-> 0 <= i < Z.of_nat n.
Proof.
  unfold bits. rewrite list_elem_of_fmap. setoid_rewrite elem_of_seq. split; [intros (k & -> & ?); lia|]. intros Hi. exists (Z.to_nat i). lia.
Qed.

Lemma filter_ext_Forall {X} (P Q : X -> Prop) `{!forall x, Decision (P x)} `{!forall x, Decision (Q x)} l : Forall (fun x => P x <-> Q x) l -> filter P l = filter Q l.
Proof. induction 1 as [|x l Hx _ IH]; [done|]. rewrite !filter_cons, IH. destruct (decide (P x)), (decide (Q x)); tauto. Qed.

Lemma word_bits_0 : word_bits 0 = [].
Proof. apply filter_none, Forall_forall. intros i _. by rewrite Z.testbit_0_l. Qed.

(** The loops take the lowest bit first. *)
Lemma word_bits_step w : 0 <= w < 2 ^ 32 -> w <> 0 -> word_bits w = first_bit w :: word_bits (Z.lxor w (Z.shiftl 1 (first_bit w))).
Proof.
  intros Hw Hn. destruct (first_bit_spec w Hw Hn) as (Hz & Hb & _ & Hbits & Hlow). revert Hz Hb Hbits Hlow. generalize (first_bit w). intros z Hz Hb Hbits Hlow.
  assert (E : bits 32 = map Z.of_nat (seq 0 (Z.to_nat z)) ++ z :: map Z.of_nat (seq (S (Z.to_nat z)) (31 - Z.to_nat z))).
  { unfold bits. replace 32%nat with (Z.to_nat z + S (31 - Z.to_nat z))%nat by lia. rewrite seq_app, map_app. cbn [seq map plus]. by rewrite Z2Nat.id by lia. }
  unfold word_bits. rewrite E, !filter_app, (filter_none _ (map _ (seq 0 _))), (filter_none _ (map _ (seq 0 _))).
  - cbn [app]. rewrite filter_cons_True, filter_cons_False by (rewrite ?Hbits, ?Z.eqb_refl by lia; by rewrite ?andb_false_r). f_equal.
    apply filter_ext_Forall, Forall_forall. intros x Hx. apply list_elem_of_fmap in Hx as (k & -> & Hk). apply elem_of_seq in Hk.
    rewrite Hbits by lia. rewrite (proj2 (Z.eqb_neq _ z)) by lia. by rewrite andb_true_r.
  - apply Forall_forall. intros x Hx. apply list_elem_of_fmap in Hx as (k & -> & Hk). apply elem_of_seq in Hk. rewrite Hbits, Hlow by lia. done.
  - apply Forall_forall. intros x Hx. apply list_elem_of_fmap in Hx as (k & -> & Hk). apply elem_of_seq in Hk. by rewrite Hlow by lia.
Qed.

Lemma popcount_mono m m' : (forall i, 0 <= i -> Z.testbit m' i = true -> Z.testbit m i = true) -> popcount m' <= popcount m.
Proof.
  intros Hm. unfold popcount, zlen. apply Nat2Z.inj_le. fold (bits 32). assert (Hin : Forall (fun i => 0 <= i) (bits 32)) by (apply Forall_forall; intros i Hi; apply elem_of_bits in Hi; lia).
  induction Hin as [|i l Hi _ IH]; [done|]. rewrite !filter_cons. specialize (Hm i Hi). destruct (decide (Z.testbit m' i = true)), (decide (Z.testbit m i = true)); cbn [length]; naive_solver lia.
Qed.

Lemma popcount_lor m k : 0 <= k -> popcount (Z.lor m (Z.shiftl 1 k)) <= popcount m + 1.
Proof.
  intros Hk. unfold popcount. fold (bits 32). assert (Hnd : NoDup (bits 32)) by (apply NoDup_fmap_2; [apply _|apply NoDup_seq]).
  assert (Hin : Forall (fun i => 0 <= i) (bits 32)) by (apply Forall_forall; intros i Hi; apply elem_of_bits in Hi; lia).
  assert (Hw : zlen (filter (fun i => Z.testbit (Z.lor m (Z.shiftl 1 k)) i = true) (bits 32)) <= zlen (filter (fun i => Z.testbit m i = true) (bits 32)) + (if decide (k ∈ bits 32) then 1 else 0)).
  2: { case_decide; lia. }
  revert Hnd Hin. generalize (bits 32). intros l Hnd Hin. induction l as [|i l IH]; [by case_decide|]. inversion_clear Hin. apply NoDup_cons in Hnd as [Hi Hnd]. specialize (IH Hnd ltac:(done)).
  rewrite !filter_cons. assert (Eb : Z.testbit (Z.lor m (Z.shiftl 1 k)) i = Z.testbit m i || (k =? i)) by (rewrite Z.lor_spec, Z.shiftl_1_l, Z.pow2_bits_eqb by done; done). rewrite Eb.
  destruct (Z.eqb_spec k i) as [->|Hne].
  - rewrite orb_true_r. rewrite (decide_True _ _ (eq_refl true)). rewrite (decide_True (P := i ∈ i :: l)) by by left. rewrite (decide_False (P := i ∈ l)) in IH by done. rewrite zlen_cons.
    destruct (decide _); rewrite ?zlen_cons; lia.
  - rewrite orb_false_r. replace (if decide (k ∈ i :: l) then 1 else 0) with (if decide (k ∈ l) then 1 else 0).
    2: { destruct (decide (k ∈ l)) as [Hl|Hl]; [by rewrite decide_True by by right|]. rewrite decide_False; [done|]. rewrite elem_of_cons. intros [?|?]; done. }
    destruct (decide (Z.testbit m i = true)); rewrite ?zlen_cons; lia.
Qed.

Lemma popcount_bits w : popcount w = zlen (word_bits w).
Proof. done. Qed.

Lemma length_word_bits w : (length (word_bits w) < 33)%nat.
Proof. unfold word_bits. pose proof (length_filter (fun i => Z.testbit w i = true) (bits 32)) as Hl. change (length (bits 32)) with 32%nat in Hl. lia. Qed.

#[local] Opaque word_bits.

(** ** Queries *)

(** The loops as one over the states with their timeouts: those left, and the variables. *)
Fixpoint query_flat (l : list (Z * Z)) (q : query_state) : list (Z * Z) * query_state :=
  match l with
  | [] => ([], q)
  | e :: l' =>
      if qs_room q <? 3 then (l, q)
      else if qs_offset q =? 0 then query_flat l' (QueryState 0 (qs_states q ++ [e]) (qs_room q - 3))
      else query_flat l' (QueryState (qs_offset q - 1) (qs_states q) (qs_room q))
  end.

Lemma query_flat_app a b : forall q, query_flat (a ++ b) q = let '(r, q') := query_flat a q in match r with [] => query_flat b q' | _ => (r ++ b, q') end.
Proof. induction a as [|e a IH]; intros q; [done|]. cbn [app query_flat]. destruct (_ <? 3); [done|]. destruct (_ =? 0); apply IH. Qed.

Lemma query_flat_fill l : forall q, qs_offset q = 0 -> 0 <= qs_room q -> let page := ztake (qs_room q / 3) l in
  query_flat l q = (zdrop (zlen page) l, QueryState 0 (qs_states q ++ page) (qs_room q - 3 * zlen page)).
Proof.
  induction l as [|e l IH]; intros q Ho Hr page.
  { unfold page, ztake. rewrite take_nil. cbn. rewrite app_nil_r, Z.sub_0_r. destruct q; cbn in *; by subst. }
  cbn [query_flat]. destruct (Z.ltb_spec (qs_room q) 3) as [Hlt|Hge].
  { unfold page. rewrite Z.div_small, ztake_0 by lia. change (zlen (@nil (Z * Z))) with 0. rewrite app_nil_r, Z.mul_0_r, Z.sub_0_r. destruct q; cbn in *; by subst. }
  rewrite Ho, IH by (cbn; lia). cbn [qs_room qs_states Z.eqb]. assert (Hp : page = e :: ztake ((qs_room q - 3) / 3) l).
  { unfold page. replace (qs_room q / 3) with (1 + (qs_room q - 3) / 3). 2: { replace (qs_room q) with (qs_room q - 3 + 1 * 3) at 2 by lia. rewrite Z.div_add by lia. lia. }
    pose proof (Z.div_pos (qs_room q - 3) 3). change (e :: l) with ([e] ++ l). rewrite ztake_app_ge by (change (zlen [_]) with 1; lia). cbn [app]. do 2 f_equal. change (zlen [_]) with 1. lia. }
  rewrite Hp, zlen_cons, <- app_assoc. cbn [app]. pose proof (zlen_nonneg (ztake ((qs_room q - 3) / 3) l)). f_equal; [|f_equal; lia].
  change (e :: l) with ([e] ++ l). rewrite zdrop_app_ge by (change (zlen [_]) with 1; lia). f_equal. change (zlen [_]) with 1. lia.
Qed.

Lemma query_flat_ok l off space : 0 <= off -> 3 <= space -> let page := ztake (space / 3) (zdrop off l) in
  exists q, query_flat l (QueryState off [] space) = (zdrop (zlen page) (zdrop off l), q) /\ qs_states q = page.
Proof.
  intros Ho Hs. revert off Ho. induction l as [|e l IH]; intros off Ho page.
  { exists (QueryState off [] space). unfold page, zdrop, ztake. rewrite !drop_nil, take_nil. done. }
  destruct (Z.eqb_spec off 0) as [->|Hne].
  { rewrite query_flat_fill by (cbn; lia). cbn [qs_room qs_states]. unfold page. change (zdrop 0 (e :: l)) with (e :: l). eexists. split; [done|]. done. }
  cbn [query_flat qs_room qs_offset]. rewrite (proj2 (Z.ltb_ge space 3)), (proj2 (Z.eqb_neq off 0)) by lia. assert (Hd : zdrop off (e :: l) = zdrop (off - 1) l).
  { change (e :: l) with ([e] ++ l). rewrite zdrop_app_ge by (change (zlen [_]) with 1; lia). done. }
  unfold page. rewrite Hd. apply IH. lia.
Qed.

Section query.
Context (s : app_states).

Definition state_entry (st : Z) : Z * Z := (st, u16 (infuse_state_get_timeout s st)).
Definition word_entries (i w : Z) : list (Z * Z) := (fun b => state_entry (i * 32 + b)) <$> word_bits w.

Lemma query_word_ok fuel i : forall w q, 0 <= i < 8 -> 0 <= w < 2 ^ 32 -> (length (word_bits w) < fuel)%nat ->
  Forall (fun b => 0 <= infuse_state_get_timeout s (i * 32 + b)) (word_bits w) ->
  exists w', 0 <= w' < 2 ^ 32 /\ let '(r, q') := query_flat (word_entries i w) q in
    query_word fuel s i w q = (match r with [] => true | _ => false end, w', q') /\ word_entries i w' = r.
Proof.
  induction fuel as [|fuel IH]; intros w q Hi Hw Hf Ht; [lia|]. cbn [query_word]. destruct (Z.eqb_spec w 0) as [->|Hn].
  { exists 0. unfold word_entries. rewrite word_bits_0. cbn. done. }
  pose proof (word_bits_step w Hw Hn) as E. destruct (first_bit_spec w Hw Hn) as (Hz & _ & Hw' & _). set (z := first_bit w) in *. set (w1 := Z.lxor w (Z.shiftl 1 z)) in *.
  assert (Ee : word_entries i w = state_entry (i * 32 + z) :: word_entries i w1) by (unfold word_entries; by rewrite E). rewrite Ee. rewrite E in Ht, Hf. inversion_clear Ht as [|? ? Hz0 Ht']. cbn [length] in Hf.
  cbn [query_flat]. unfold sizeof_infuse_state. destruct (qs_room q <? 3). { exists w. done. }
  rewrite (uwrap_small 8 (i * 32 + z)) by lia. rewrite (proj2 (Z.ltb_ge _ 0) Hz0). destruct (Z.eqb_spec (qs_offset q) 0) as [E0|]; cbn [negb]; [|apply IH; done || lia].
  rewrite E0. apply IH; done || lia.
Qed.

Definition words_entries (i : Z) (words : list Z) : list (Z * Z) := mjoin (imap (fun k w => word_entries (i + Z.of_nat k) w) words).

Lemma words_entries_cons i w words : words_entries i (w :: words) = word_entries i w ++ words_entries (i + 1) words.
Proof. unfold words_entries. cbn. rewrite Z.add_0_r. f_equal. f_equal. apply imap_ext. intros k x _. cbn. f_equal. lia. Qed.

Lemma query_loop_ok words : forall i q, 0 <= i -> i + zlen words <= 8 -> Forall (fun w => 0 <= w < 2 ^ 32) words ->
  Forall (fun e => 0 <= infuse_state_get_timeout s e.1) (words_entries i words) ->
  exists words', let '(r, q') := query_flat (words_entries i words) q in query_loop words s i q = (words', q') /\ words_entries i words' = r.
Proof.
  induction words as [|w words IH]; intros i q Hi Hlen Hw Ht; [by exists []|]. inversion_clear Hw. rewrite zlen_cons in Hlen. pose proof (zlen_nonneg words). rewrite words_entries_cons in *.
  apply Forall_app in Ht as [Ht1 Ht2]. unfold word_entries in Ht1. rewrite Forall_fmap in Ht1. cbn [query_loop]. rewrite query_flat_app.
  destruct (query_word_ok 33 i w q ltac:(lia) ltac:(done) (length_word_bits w) Ht1) as (w' & _ & Hq). destruct (query_flat (word_entries i w) q) as [r q1]. destruct Hq as [-> Hr].
  destruct r as [|e r].
  - destruct (IH (i + 1) q1 ltac:(lia) ltac:(lia) ltac:(done) Ht2) as (words' & Hq). destruct (query_flat (words_entries (i + 1) words) q1) as [r2 q2]. destruct Hq as [-> Hr2].
    exists (w' :: words'). split; [done|]. by rewrite words_entries_cons, Hr, Hr2.
  - exists (w' :: words). split; [done|]. by rewrite words_entries_cons, Hr.
Qed.

Lemma popcounts i words : fold_right (fun w n => popcount w + n) 0 words = zlen (words_entries i words).
Proof.
  revert i. induction words as [|w words IH]; intros i; [done|]. rewrite words_entries_cons, zlen_app. cbn [fold_right]. rewrite (IH (i + 1)). f_equal.
  rewrite popcount_bits. unfold word_entries, zlen. by rewrite length_fmap.
Qed.
End query.

(** The words of a snapshot hold its states in their order. *)
Definition set_states_of (snapshot : Z) : list Z := filter (fun st => Z.testbit snapshot st = true) (bits 256).

Lemma filter_fmap {X Y} (f : X -> Y) (P : Y -> Prop) `{!forall y, Decision (P y)} (l : list X) : filter P (f <$> l) = f <$> filter (fun x => P (f x)) l.
Proof. induction l as [|x l IH]; [done|]. rewrite fmap_cons, !filter_cons, IH. by destruct (decide (P (f x))). Qed.

Lemma word_entries_shift s i snapshot : 0 <= i ->
  word_entries s i (u32 (Z.shiftr snapshot (32 * i))) = state_entry s <$> filter (fun st => Z.testbit snapshot st = true) ((fun b => i * 32 + b) <$> bits 32).
Proof.
  intros Hi. unfold word_entries. rewrite filter_fmap, <- list_fmap_compose. unfold compose. f_equal. Transparent word_bits. unfold word_bits. Opaque word_bits. apply filter_ext_Forall, Forall_forall. intros b Hb. apply elem_of_bits in Hb.
  unfold uwrap. rewrite Z.mod_pow2_bits_low, Z.shiftr_spec by lia. by replace (b + 32 * i) with (i * 32 + b) by lia.
Qed.

Lemma snapshot_entries s snapshot : words_entries s 0 (snapshot_words snapshot) = state_entry s <$> set_states_of snapshot.
Proof.
  unfold set_states_of. replace (bits 256) with (mjoin ((fun i => (fun b => Z.of_nat i * 32 + b) <$> bits 32) <$> seq 0 8)) by reflexivity. unfold snapshot_words. cbn [seq fmap list_fmap].
  rewrite !words_entries_cons. cbn [mjoin list_join]. rewrite !filter_app, !fmap_app.
  repeat (f_equal; [apply (word_entries_shift s); lia|]). f_equal. apply (word_entries_shift s). lia.
Qed.

(** ** Updates *)

(** The states that a function from states to their timeouts has set, with the timeouts. *)
Definition reported (f : Z -> option (option Z)) : list (Z * Z) := omap (fun st => match f st with Some t => Some (st, default 0 t) | None => None end) (bits 256).

Lemma abs_timeout_range s st t : states_inv s -> states_abs s st = Some (Some t) -> 0 < t < 2 ^ 16.
Proof.
  intros Hi. destruct (find_timeout_cases s st Hi) as [(i & t' & Hr & Hs & E)|[E Hn]].
  - rewrite (abs_slot s i st t' Hi ltac:(lia) Hs). intros [= <-]. by apply (inv_entry s Hi i st t' ltac:(lia) Hs).
  - rewrite (abs_no_slot s st Hi Hn). by destruct (Z.testbit _ _).
Qed.

Lemma get_timeout_abs s st : states_inv s -> 0 <= st -> Z.testbit (application_states s) st = true ->
  exists t, states_abs s st = Some t /\ infuse_state_get_timeout s st = default 0 t /\ 0 <= default 0 t < 2 ^ 16.
Proof.
  intros Hi Hst Hb. destruct (states_set_clear_refine s 0 st Hi ltac:(lia) Hst) as (_ & _ & Hg & Ht). unfold infuse_state_get in Hg. rewrite Hb in Hg.
  destruct (states_abs s st) as [[t|]|] eqn:E; [|exists None; by rewrite Ht|done]. exists (Some t). split; [done|]. split; [done|]. pose proof (abs_timeout_range s st t Hi E). cbn. lia.
Qed.

Lemma snapshot_reported s : states_inv s -> state_entry s <$> set_states_of (application_states s) = reported (states_abs s).
Proof.
  intros Hi. unfold set_states_of, reported. assert (Hl : Forall (fun i => 0 <= i) (bits 256)) by (apply Forall_forall; intros i Hx; apply elem_of_bits in Hx; lia).
  induction Hl as [|st l Hst _ IH]; [done|]. rewrite filter_cons. cbn [omap list_omap]. destruct (decide _) as [Hb|Hb].
  - destruct (get_timeout_abs s st Hi Hst Hb) as (t & E & Ht & Hr). rewrite E, fmap_cons. f_equal; [|apply IH]. unfold state_entry. rewrite Ht. by rewrite uwrap_small.
  - unfold states_abs at 1. apply not_true_is_false in Hb. rewrite Hb. apply IH.
Qed.

(** An entry of an update: to set for good, to clear, or to set for a time. *)
Definition timed (e : Z * Z) : bool := negb (e.2 =? 0) && negb (e.2 =? UINT16_MAX).
Definition update_abs (f : Z -> option (option Z)) (e : Z * Z) (st : Z) : option (option Z) :=
  if st =? e.1 then (if e.2 =? 0 then Some None else if e.2 =? UINT16_MAX then None else Some (Some e.2)) else f st.
Definition update_ok (e : Z * Z) : Prop := in_u 8 e.1 /\ in_u 16 e.2.

Definition used (s : app_states) : Z := popcount (timeout_mask s).
Definition table (s : app_states) : Z := zlen (timeout_states s).

Lemma clear_timeout_used s st : states_inv s -> used (clear_timeout_state s st) <= used s /\ table (clear_timeout_state s st) = table s.
Proof.
  intros Hi. destruct (clear_timeout_ok s st Hi) as (_ & _ & Hsl). split.
  - apply popcount_mono. intros i Hi0 Hb. specialize (Hsl i Hi0). unfold States.slot in Hsl. rewrite Hb in Hsl. by destruct (Z.testbit (timeout_mask s) i).
  - unfold table, clear_timeout_state. destruct (_ =? UINT8_MAX); [done|]. apply zlen_insert.
Qed.

Lemma used_bits s b : used (set_bits_of s b) = used s /\ table (set_bits_of s b) = table s.
Proof. done. Qed.
Lemma used_events s e : used (add_events s e) = used s /\ table (add_events s e) = table s.
Proof. done. Qed.

Lemma set_used s st : states_inv s -> used (infuse_state_set s st).2 <= used s /\ table (infuse_state_set s st).2 = table s.
Proof.
  intros Hi. destruct (clear_timeout_used s st Hi) as [Hu Ht]. unfold infuse_state_set, notify_set. cbn [snd]. rewrite (proj1 (used_events _ _)), (proj2 (used_events _ _)).
  destruct (Z.testbit _ st); [rewrite clear_timeout_bits|]; rewrite (proj1 (used_bits _ _)), (proj2 (used_bits _ _)); lia.
Qed.

Lemma clear_used s st : states_inv s -> used (infuse_state_clear s st).2 <= used s /\ table (infuse_state_clear s st).2 = table s.
Proof.
  intros Hi. destruct (clear_timeout_used s st Hi) as [Hu Ht]. unfold infuse_state_clear, notify_cleared. cbn [snd].
  destruct (Z.testbit _ st); [rewrite (proj1 (used_events _ _)), (proj2 (used_events _ _)), clear_timeout_bits|]; rewrite (proj1 (used_bits _ _)), (proj2 (used_bits _ _)); lia.
Qed.

Lemma set_timeout_used s st t : states_inv s -> used (infuse_state_set_timeout s st t).2 <= used s + 1 /\ table (infuse_state_set_timeout s st t).2 = table s.
Proof.
  intros Hi. unfold infuse_state_set_timeout. destruct (t =? 0); [cbn [snd]; lia|]. destruct (_ =? UINT8_MAX).
  - destruct (Z.eqb_spec (popcount (timeout_mask s)) (zlen (timeout_states s))) as [|Hf]; cbn [snd]; [lia|]. destruct (free_entry s Hi Hf) as [Hk _].
    split; [|apply zlen_insert]. apply (popcount_lor (timeout_mask s)). lia.
  - cbn [snd]. split; [|apply zlen_insert]. unfold used. cbn [notify_set add_events set_timeouts timeout_mask]. lia.
Qed.

Lemma update_one_used s e : states_inv s -> used (states_update_one s e.1 e.2) <= used s + (if timed e then 1 else 0) /\ table (states_update_one s e.1 e.2) = table s.
Proof.
  intros Hi. unfold states_update_one, timed. destruct (set_used s e.1 Hi), (clear_used s e.1 Hi), (set_timeout_used s e.1 e.2 Hi).
  destruct (e.2 =? 0); [|destruct (e.2 =? UINT16_MAX)]; cbn [negb andb]; lia.
Qed.

Lemma update_one_ok s e st : states_inv s -> update_ok e -> 0 <= st -> (timed e = true -> used s < table s) ->
  states_inv (states_update_one s e.1 e.2) /\ states_abs (states_update_one s e.1 e.2) st = update_abs (states_abs s) e st.
Proof.
  intros Hi [He1 He2] Hst Hfree. unfold states_update_one, update_abs, timed in *. unfold in_u in *.
  destruct (states_set_clear_refine s e.1 st Hi He1 Hst) as (Hs & Hc & _). destruct (Z.eqb_spec e.2 0) as [|E0]; [destruct (infuse_state_set s e.1) as [a s1]; cbn [snd]; by destruct Hs as (? & _ & ->)|].
  destruct (e.2 =? UINT16_MAX); [destruct (infuse_state_clear s e.1) as [a s1]; cbn [snd]; by destruct Hc as (? & _ & ->)|].
  pose proof (states_set_timeout_refine s e.1 e.2 st Hi He1 ltac:(lia) Hst) as Ht. destruct (infuse_state_set_timeout s e.1 e.2) as [a s1]. cbn [snd]. unfold used, table in Hfree.
  rewrite (proj2 (Z.eqb_neq (popcount _) _)), orb_true_r in Ht by (specialize (Hfree eq_refl); lia). destruct Ht as (? & _ & ->). done.
Qed.

Lemma updates_ext es : forall f g, (forall st, 0 <= st -> f st = g st) -> forall st, 0 <= st -> foldl update_abs f es st = foldl update_abs g es st.
Proof.
  induction es as [|e es IH]; intros f g Hfg st Hst; [by apply Hfg|]. cbn [foldl]. apply IH; [|done]. intros st' Hst'. unfold update_abs. destruct (_ =? _); [done|]. by apply Hfg.
Qed.

Definition updates (s : app_states) (es : list (Z * Z)) : app_states := foldl (fun s e => states_update_one s e.1 e.2) s es.

Lemma updates_ok es : forall s, states_inv s -> Forall update_ok es -> used s + zlen (List.filter timed es) <= table s ->
  states_inv (updates s es) /\ forall st, 0 <= st -> states_abs (updates s es) st = foldl update_abs (states_abs s) es st.
Proof.
  induction es as [|e es IH]; intros s Hi Hes Hf; [done|]. inversion_clear Hes. destruct (update_one_used s e Hi) as [Hu Ht]. cbn [List.filter] in Hf.
  assert (Hfree : timed e = true -> used s < table s) by (intros E; rewrite E, zlen_cons in Hf; pose proof (zlen_nonneg (List.filter timed es)); lia).
  destruct (IH (states_update_one s e.1 e.2)) as [Hi' Ha].
  - by apply (update_one_ok s e 0).
  - done.
  - destruct (timed e); rewrite ?zlen_cons in Hf; lia.
  - split; [done|]. intros st Hst. cbn [updates foldl] in *. rewrite Ha by done. apply updates_ext; [|done]. intros st' Hst'. by apply (update_one_ok s e st').
Qed.

Lemma update_loop_ok es : forall s post, Forall update_ok es -> states_update_loop (length es) (mjoin (state_bytes <$> es) ++ post) s = updates s es.
Proof.
  induction es as [|e es IH]; intros s post Hes; [done|]. inversion_clear Hes as [|? ? He Hes']. destruct He as [He1 He2].
  replace (mjoin (state_bytes <$> e :: es) ++ post) with (le_put 1 e.1 ++ le_put 2 e.2 ++ mjoin (state_bytes <$> es) ++ post) by (rewrite mjoin_fmap_cons, <- !app_assoc; done).
  cbn [length states_update_loop].
  rewrite (field_head (le_put 1 e.1)), (field_app (le_put 1 e.1) (le_put 2 e.2)) by done. rewrite !le_get_put, (Z.mod_small e.1), (Z.mod_small e.2) by done.
  rewrite (app_assoc (le_put 1 e.1)), zdrop_app by done. apply IH. done.
Qed.

(** ** The commands *)

Definition is_states_request (req : rx_packet) (es : list (Z * Z)) : Prop :=
  exists h, zlen h = 6 /\ rx_data req = h ++ le_put 1 (zlen es) ++ mjoin (state_bytes <$> es).

Lemma zlen_states es : zlen (mjoin (state_bytes <$> es)) = 3 * zlen es.
Proof. induction es as [|e l IH]; [done|]. rewrite mjoin_fmap_cons, zlen_app, IH, zlen_cons. unfold state_bytes. rewrite zlen_app, !zlen_le_put. lia. Qed.

Lemma reported_ext f g : (forall st, 0 <= st -> f st = g st) -> reported f = reported g.
Proof.
  intros Hfg. unfold reported. assert (Hl : Forall (fun i => 0 <= i) (bits 256)) by (apply Forall_forall; intros i Hx; apply elem_of_bits in Hx; lia).
  induction Hl as [|st l Hst _ IH]; [done|]. cbn [omap list_omap]. by rewrite Hfg, IH.
Qed.

Section commands.
Context {F : Type} (header_size footer_size : Z -> Z) (max_packet_size : Z -> nat -> Z) (stale : rx_packet -> list Z).
Implicit Types sv : server (device F).

Abbreviation room := (interface_room header_size footer_size max_packet_size).

Lemma states_update_ok sv req es : is_states_request req es -> Forall update_ok es -> zlen es < 256 -> (forall n, 8 <= room (rx_interface req) n) ->
  exists resp sv', rpc_command_infuse_states_update header_size footer_size max_packet_size stale sv req = Done (Some resp, sv') /\ tb_data resp = repeat 0 8 /\
    dv_states (sv_app sv') = updates (dv_states (sv_app sv)) es.
Proof.
  intros (h & Hh & Hd) Hes Hn Hroom. unfold rpc_command_infuse_states_update. rewrite (request_num stale req h (zlen es) _ Hh (conj (zlen_nonneg es) Hn) Hd), to_nat_zlen.
  unfold sizeof_kv_request, sizeof_infuse_state. rewrite (proj2 (Z.eqb_eq (7 + _) _)) by (rewrite Hd, !zlen_app, zlen_le_put, zlen_states; lia). cbn [negb].
  rewrite Hd, app_assoc, (zdrop_app 7) by (rewrite zlen_app, zlen_le_put; lia). rewrite <- (app_nil_r (mjoin _)), update_loop_ok by done.
  match goal with |- context [rpc_response_simple_req _ _ _ ?s _ _ _] => destruct (respond_ok header_size footer_size max_packet_size s req 0 (Hroom _)) as (sv1 & -> & Ha) end.
  do 2 eexists. split; [done|]. split; [done|]. by rewrite Ha.
Qed.

Lemma states_query_ok sv req : states_inv (dv_states (sv_app sv)) -> bytes_ok (rx_data req ++ stale req) ->
  let space := room (rx_interface req) (allocs (sv_core sv)) - 9 in 3 <= space ->
  let rest := zdrop (req_field stale req 6 1) (reported (states_abs (dv_states (sv_app sv)))) in
  let page := ztake (space / 3) rest in
  exists resp sv', rpc_command_infuse_states_query header_size footer_size max_packet_size stale sv req = Done (Some resp, sv') /\ sv_app sv' = sv_app sv /\
    tb_data resp = repeat 0 8 ++ le_put 1 (zlen rest - zlen page) ++ mjoin (state_bytes <$> page).
Proof.
  intros Hi Hb space Hs rest page. unfold rpc_command_infuse_states_query, rpc_response_simple_req. assert (Hoff : 0 <= req_field stale req 6 1) by (apply (field_range _ 6 1); [done|lia]).
  destruct (response_simple_ok header_size footer_size max_packet_size sv (rx_interface req) 0 (repeat 0 6) [0]) as (sv1 & E & Hsame & _); [done|unfold space in Hs; change (zlen [0]) with 1; lia|].
  change (repeat 0 9) with (repeat 0 6 ++ [0; 0] ++ [0]). rewrite E. clear E. destruct Hsame as (_ & _ & _ & _ & _ & Ha). cbn [tb_room tb_data]. change (8 + zlen [0]) with 9. fold space.
  set (s := dv_states (sv_app sv)) in *. unfold infuse_states_snapshot. pose proof (snapshot_entries s (application_states s)) as He. rewrite snapshot_reported in He by done.
  destruct (query_loop_ok s (snapshot_words (application_states s)) 0 (QueryState (req_field stale req 6 1) [] space)) as (words' & Hq); [lia|done|..].
  { apply Forall_fmap, Forall_forall. intros i _. apply uwrap_bound. lia. }
  { rewrite snapshot_entries. apply Forall_fmap, Forall_forall. intros st Hst. apply list_elem_of_filter in Hst as [Hbit Hst]. apply elem_of_bits in Hst.
    destruct (get_timeout_abs s st Hi ltac:(lia) Hbit) as (t & _ & Ht & Hr). cbn. lia. }
  rewrite He in Hq. destruct (query_flat_ok (reported (states_abs s)) (req_field stale req 6 1) space Hoff Hs) as (q & Ef & Hp). fold rest page in Ef, Hp. rewrite Ef in Hq. destruct Hq as [-> Hr].
  rewrite (popcounts s 0), Hr, Hp. do 2 eexists. split; [done|]. split; [done|]. cbn [tb_data].
  replace (zlen (zdrop (zlen page) rest)) with (zlen rest - zlen page).
  2: { rewrite zlen_zdrop; [done|]. unfold page, ztake, zlen. rewrite length_take. lia. }
  rewrite <- (le_put_mod 1 (zlen rest - zlen page)). done.
Qed.

(** C28.  States set from remote are reported to remote: a valid update request applies its
    entries in their order, each sets its state for good, for the seconds given, or clears
    it (the entries of the timeout table suffice); a query afterwards lists, from the
    requested offset on and as many as fit, the states set in ascending order with the
    seconds left of each, and counts those left after the page. *)
Theorem rpc_states_update_query sv req es :
  let s := dv_states (sv_app sv) in
  is_states_request req es -> Forall update_ok es -> zlen es < 256 -> (forall n, 8 <= room (rx_interface req) n) ->
  states_inv s -> popcount (timeout_mask s) + zlen (List.filter timed es) <= zlen (timeout_states s) ->
  exists resp sv', rpc_command_infuse_states_update header_size footer_size max_packet_size stale sv req = Done (Some resp, sv') /\ tb_data resp = repeat 0 8 /\
    forall req', bytes_ok (rx_data req' ++ stale req') ->
      let space := room (rx_interface req') (allocs (sv_core sv')) - 9 in 3 <= space ->
      let rest := zdrop (req_field stale req' 6 1) (reported (foldl update_abs (states_abs s) es)) in
      let page := ztake (space / 3) rest in
      exists resp' sv'', rpc_command_infuse_states_query header_size footer_size max_packet_size stale sv' req' = Done (Some resp', sv'') /\ sv_app sv'' = sv_app sv' /\
        tb_data resp' = repeat 0 8 ++ le_put 1 (zlen rest - zlen page) ++ mjoin (state_bytes <$> page).
Proof.
  intros s Hreq Hes Hn Hroom Hi Hfree. destruct (states_update_ok sv req es Hreq Hes Hn Hroom) as (resp & sv' & R & Hd & E). destruct (updates_ok es s Hi Hes Hfree) as [Hi' Ha].
  exists resp, sv'. split; [done|]. split; [done|]. rewrite <- (reported_ext _ _ Ha). fold s in E. rewrite <- E in *. intros req' Hb. by apply states_query_ok.
Qed.
End commands.

(** ** Concrete requests *)

(** State 40 for 9 seconds, state 3 for good, state 40 for 5 seconds. *)
Definition demo_updates : list (Z * Z) := [(40, 9); (3, 0); (40, 5)].
Definition demo_update : rx_packet := demo_command_request 8 (le_put 1 3 ++ mjoin (state_bytes <$> demo_updates)).
Definition demo_query : rx_packet := demo_command_request 9 (le_put 1 1).

Lemma rpc_states_update_query_witness : exists resp sv' resp' sv'',
  rpc_command_infuse_states_update demo_header demo_footer demo_size demo_stale demo_commander demo_update = Done (Some resp, sv') /\
  rpc_command_infuse_states_query demo_header demo_footer demo_size demo_stale sv' demo_query = Done (Some resp', sv'') /\
  tb_data resp' = repeat 0 8 ++ le_put 1 0 ++ state_bytes (40, 5).
Proof.
  destruct (rpc_states_update_query demo_header demo_footer demo_size demo_stale demo_commander demo_update demo_updates) as (resp & sv' & R & _ & Hq).
  - exists (le_put 4 77 ++ le_put 2 8). split; reflexivity.
  - repeat constructor; cbn; lia.
  - reflexivity.
  - intros n. vm_compute. discriminate.
  - apply states_empty_inv. lia.
  - vm_compute. discriminate.
  - destruct (Hq demo_query) as (resp' & sv'' & R' & _ & E); [apply (bool_decide_unpack _); vm_compute; exact I|vm_compute; discriminate|].
    exists resp, sv', resp', sv''. split; [exact R|]. split; [exact R'|]. rewrite E. vm_compute. reflexivity.
Defined.
